(* ===== verification/_CoqProject ===== *)
-Q . S2P
Prelude.v
Prog.v
DeepEqual.v
MetaV1.v
Quantity.v
CoreTypes.v
HyperTypes.v
AwsV1.v
KarpenterV1.v
AzureTypes.v
OcpTypes.v
ApplyTypes.v
Kube.v
NodeClassStatus.v
Hypershift.v
Deletion.v
AutoNodeStatus.v
NodeIdentity.v
AwsIdentity.v
MachineApprover.v
MachineApproverAws.v
GoTime.v
GoFormat.v
Regexp.v
QuantityText.v
CrdSchema.v
AwsSchema.v
VolumeSize.v
Ec2Schema.v
Strconv.v
GoJson.v
JsonString.v
Json.v
KubeletConfig.v
KubeLemmas.v
ConditionsAdmission.v
Ec2Convert.v
Ec2Tags.v
Ec2Build.v
Ec2Admission.v
Ec2Status.v
Ec2StatusAdmission.v
Ec2Subnets.v
Ec2NodeClass.v
Defaults.v
Server.v
Store.v
DeletionLive.v
Ec2Live.v
Ec2Guard.v
AzureNodeClass.v
AzureGuard.v
AzureLive.v
AzureSchema.v
AzureAdmission.v
Interleaving.v
CachedStore.v
NoOrphans.v
AzureVap.v
DefaultNodeClass.v
CrdController.v
ClusterOperatorController.v
CloudProviders.v
Options.v
OperandConvert.v
Operand.v
OperandControllers.v
Controllers.v
Watches.v
Operator.v
Scheme.v
Metrics.v
MemTypes.v
GoMem.v
GoCopy.v
DeepCopy.v
GoUpdate.v
GoSlices.v
MetaMem.v
InPlace.v
