(* ===== verification/Prelude.v ===== *)
(** * Verification of karpenter-operator: prelude and overview

    The karpenter-operator runs Karpenter for OpenShift in two modes.  On a
    _management cluster_ it serves one HyperShift hosted cluster: it reads the
    HostedControlPlane of its namespace there, and writes NodeClasses, CRDs and
    admission policies in the hosted cluster, with a second client.  On a
    _standalone cluster_ there is one client, and the operand is owned by the
    Karpenter resource named [default].  This library models the Go code under
    src/cmd, src/pkg and src/api and proves what each controller does on every
    answer of the API servers, and what the process that runs them may do.

    ** The model

    A function that talks to the outside is a [Prog.prog]: the inductive tree of
    its calls and of what it does with each possible answer ([go] over the calls
    [eff] of Kube: client calls to the [Management] or [Hosted] cluster, EC2, the
    clock).  A Go error is the [Err] of [result]; [r ←? p; q] is the code's
    [if err != nil { return ... }], and [wrap_err] its fmt.Errorf with %w.  There is
    no fuel in the reconcilers: loops are over lists that are already there.
    Statements are of three forms.  [all_runs p t Q] and [guarded G t p] quantify
    over _all_ answers, so over everything other controllers, users and failing
    servers do in between; [exec] executes against a server, for the statements that
    something is eventually reached.  The servers are the instances of the class
    [Server.ApiServer]: their documented behaviour as laws, for servers that answer,
    admit what they are sent and fill in the defaults of what it leaves unset
    (Defaults), with caches that have caught up; the witnesses run against the
    instance of Store.  And the theorems on an [Interleaving.system] quantify over the
    states its [step]s reach, in which any number of reconciles interleave call by
    call, with what others do, with calls that fail with or without effect and with
    restarts.  There the operator's clients are what they are in the code: writes go to
    the API server and reads to a cache, which lags behind it by any distance, kind by
    kind and object by object, and only never goes back.  Class [Interleaving.Cached]
    states that on the history of what was stored under each key; CachedStore is an
    instance.

    Integers are [Z] with Go's wrap-around written out (int32 and int64 sums of
    AutoNodeStatus, the uint64 loops of GoTime and Options); strings are byte
    strings; [slice A] and [gomap A] are Go's slices and maps with nil apart from
    empty, because reflect.DeepEqual, used for "does this need an update", tells
    them apart ([DeepEqual]; equality.Semantic does not, class [Canon]).  Where Go
    ranges over a map, the order is an argument and the theorems hold for all of
    them.

    Objects are values in these definitions.  Where the code copies an object and then
    writes to it in place, the difference between the two is what is sent, so that the
    copy must not share what is written to.  MemTypes to InPlace are a second, lower
    model of that code: a heap of variables, maps and arrays, with Go's make, append,
    index and reslice ([GoMem.mem], whose [None] is a panic), on which the generated
    deep copies, the condition and finalizer helpers and the updates of both NodeClass
    controllers run as they are written.  [GoMem.Stored] says what value a part of
    memory represents, and the theorems of InPlace that the lower model makes the calls
    of the upper one.

    ** Files

    Foundations: Prelude (Go strings, results, tactics), Prog (programs and their
    logic), DeepEqual, GoTime, GoFormat, GoJson, Strconv, JsonString and Json
    (strconv and encoding/json), Quantity (vendored resource.Quantity), MetaV1
    (object metadata, finalizers, owner references, conditions), Kube (the calls,
    CreateOrUpdate, deleteIfNeeded), KubeLemmas, Defaults (what API servers fill in),
    Server (the interface of the API servers, and what the helpers reach against them)
    and Store (an instance); Interleaving (systems of concurrent reconciles, and the
    class of the finalizer protocols) and CachedStore (a server and caches for them).

    Schemas: Regexp (patterns, by derivatives), QuantityText (the canonical text of a
    quantity, which is what a server checks), CrdSchema (the parts of OpenAPI and CEL
    in use, and metav1.Condition), Ec2Schema (the markers of src/api/karpenter/v1),
    AwsSchema (assets/aws/karpenter.k8s.aws_ec2nodeclasses.yaml) and AzureSchema (the
    markers of src/api/karpenter/v1alpha1, and what
    assets/azure/karpenter.azure.com_aksnodeclasses.yaml says of the properties that
    the operator sets); VolumeSize is the pattern of volume sizes as an inequality, and
    ConditionsAdmission what NodeClassStatus writes against the schema of conditions.

    Data: CoreTypes, HyperTypes, AwsV1, OcpTypes and ApplyTypes hold the fields the
    operator uses of the upstream types; KarpenterV1 is src/api/karpenter/v1 with
    KubeletConfig for its JSON, AzureTypes src/api/karpenter/v1alpha1.

    Components, each with the file of src/pkg it models:

    - Hypershift: hypershift/, the lookups the NodeClass controllers share.
    - NodeClassStatus: controllers/nodeclass/status/, conditions passed on from the
      provider's object.
    - Ec2Convert, Ec2Tags, Ec2Build, Ec2Status, Ec2Subnets, Ec2NodeClass:
      controllers/nodeclass/ec2/, in the order its Reconcile uses them; Ec2Guard is
      its history invariant, Ec2Live its convergence.  Ec2Admission and
      Ec2StatusAdmission relate what it writes to the schemas.
    - AzureNodeClass, AzureVap: controllers/nodeclass/azure/ and its vap/;
      AzureGuard and AzureLive are its history invariant and its convergence.
      AzureAdmission relates what it writes to the schemas, and NoOrphans instantiates
      Interleaving with both NodeClass controllers.
    - DefaultNodeClass: controllers/nodeclass/default/ against the class
      [NodeClassProvider], with the AWS and Azure instances of
      cloudprovider/*/nodeclass.go.
    - Deletion, DeletionLive: controllers/hcp/deletion/ and its termination.
    - AutoNodeStatus: controllers/hcp/autonodestatus/.
    - NodeIdentity, AwsIdentity: the class of common.NodeIdentityVerifier and its
      EC2 instance; MachineApprover is controllers/machineapprover/ against the
      class, MachineApproverAws the composition of both.
    - CrdController, ClusterOperatorController: controllers/crd/ and
      controllers/clusteroperator/.
    - CloudProviders: cloudprovider/ (construction and operand settings) and the
      lists of assets/assets.go.
    - OperandConvert, Operand, OperandControllers: controllers/karpenter/, the
      conversion to apply configurations through JSON, the desired objects, and the
      two reconcilers.
    - Options, Controllers, Operator, Metrics: operator/, controllers/controllers.go,
      controllers/metrics.go and cmd/main.go.
    - Watches: the watches of every SetupWithManager, and controller-runtime's event
      handlers.
    - Scheme: the registration of types (operator/operator.go's init, register.go of
      src/api, the providers' AddToScheme) over apimachinery's Scheme.

    Memory: MemTypes (the API types as they lie in memory, a twin for each record that
    holds references), GoMem (the heap, its monad and class [Stored]), GoCopy (what a
    deep copy is: class [Copies]), DeepCopy (the three zz_generated.deepcopy.go), GoUpdate
    (what an update in place is: relation [updated] and class [Field]), GoSlices (slices
    of values), MetaMem (the vendored helpers for conditions and finalizers, and
    SyncConditions, as they write to memory) and InPlace (the copies, updates and patches
    of both NodeClass controllers, as refinements of Ec2NodeClass, Ec2Status and
    AzureNodeClass).

    ** What the theorems show

    - Safety on every answer: what has to be in the history of a reconcile before
      each of its calls (Deletion, Ec2Guard, AzureGuard, MachineApprover); what each
      controller a process runs may read and write, with which client
      ([Operator.main_confined]); at most one registration of the metric.
    - Safety of concurrent reconciles: no provider object outlives its NodeClass,
      whatever the interleaving of the up to ten workers, failures, restarts and stale
      reads (NoOrphans); but for EC2 this excepts a reconcile whose cache denies the
      EC2NodeClass that there is, and the witness shows that this does orphan it.  The guards of Ec2Guard and AzureGuard are what each reconcile
      contributes; Interleaving composes them.
    - Admission: the EC2NodeClass or AKSNodeClass built from an admitted NodeClass is
      admitted exactly under the listed conditions, and the status that is written
      back likewise (Ec2Admission, Ec2StatusAdmission, AzureAdmission); what is left
      out of the conditions is proved to need none.
    - Progress: the deletion of a hosted cluster releases its finalizer after at
      most four reconciles with Karpenter's work in between
      ([DeletionLive.teardown_finishes]), whatever finalizers others hold; an EC2 or
      Azure NodeClass converges in one reconcile, after which an Azure one is only read,
      and an EC2 one only has updates sent again that leave to the server the defaults
      it has filled in; and it is gone after two once it is deleted (Ec2Live, AzureLive);
      the image poll returns within 31 turns (Metrics).
    - Function: the written object on each branch, errors included, as an equation
      or an equivalence with a declarative description (Ec2Build, Ec2Tags, Ec2Status,
      Ec2Subnets, AzureNodeClass, Operand, OperandControllers, Options,
      CloudProviders, ClusterOperatorController, AutoNodeStatus).
    - Agreement: of the watches with what a reconcile reads and applies (Watches), of
      the scheme with the types of all calls and watches ([Scheme.scheme_covers]), of
      their predicates with what it uses (Hypershift, OperandControllers), of a
      condition with the computation it reports (Ec2Tags), of the batched with the
      unbatched verification (AwsIdentity), and of a second reconcile with the first
      (Ec2Status, AzureLive).
    - Memory: deep copies share nothing with their original
      ([DeepCopy.deepcopies_isolated]), and the patches computed by writing to an object
      in place are those of the model on values (InPlace); examples show what a shallow
      copy would send.
    - Round trips and bounds: conversions lose nothing (Ec2Convert, AzureNodeClass),
      the kubelet configuration's JSON (KubeletConfig), volume sizes and counts at
      their widths.

    ** Bounds and fuel

    [Metrics.waitForOperatorImage] takes fuel, as the loop runs until a timer ends:
    31 turns cover the 15 seconds of the context at one turn per 500 ms, which is
    proved from the time the timers of a run report.  [Metrics.ExponentialBackoff]
    recurses on the number of steps, five.  The number parsers recurse on the text.
    [Json.parseValue] bounds its nesting by the length of the text, and more never
    changes its result ([Json.parse_fuel]).

    ** Not modelled

    The options of the builder calls of SetupWithManager (names,
    rate limits, numbers of workers), the priorities and the batching of the work
    queues, logging and events.  The libraries' constructors, the decoded contents of
    the embedded YAML, the environment, PEM and X.509 parsing and the AWS SDK are
    parameters.  The schemas are those of the NodeClasses; those of the core kinds and
    of the properties that the operator leaves unset in an AKSNodeClass are not
    modelled, and CEL's conversion of a text to a double is a parameter.  [ApiServer]
    takes writes to be admitted: what Ec2Admission and AzureAdmission characterise is
    not fed back into Ec2Live and AzureLive.  What is reached is stated for caches that
    have caught up; what stale ones do to progress is not modelled.  The defaults are
    those of the objects that the NodeClass controllers create or update: Karpenter's two
    NodeClasses, the policy and its binding.  The memory of objects of other packages is
    not: the HostedControlPlane, which Deletion copies and patches like a NodeClass, and
    Karpenter's objects are values.
    Fields that the operator never reads (TypeMeta, ManagedFields, CreationTimestamp,
    the Object of a RawExtension) are left out of the deep copies as they are of the
    types, and slices start where their arrays do.  Leader election is
    not: a system is one process at a time. *)

From stdpp Require Export prelude gmap strings pretty sorting.
From Stdlib Require Export ZArith Ascii.

#[export] Set Default Proof Using "Type".

Declare Scope go_scope.
Delimit Scope go_scope with go.
Open Scope go_scope.

(** ** Go strings

    A Go string is a sequence of bytes, and so is [string].  [+:+] is
    concatenation. *)

(** [s[n:]] *)
Fixpoint str_drop (n : nat) (s : string) : string :=
  match n, s with
  | O, _ => s
  | S n', EmptyString => EmptyString
  | S n', String _ s' => str_drop n' s'
  end.

(** [s[:n]] *)
Fixpoint str_take (n : nat) (s : string) : string :=
  match n, s with
  | O, _ => EmptyString
  | S n', EmptyString => EmptyString
  | S n', String c s' => String c (str_take n' s')
  end.

(** [strings.HasPrefix], [strings.TrimPrefix]. *)
Definition HasPrefix (s pre : string) : bool := String.prefix pre s.

Definition TrimPrefix (s pre : string) : string :=
  if HasPrefix s pre then str_drop (String.length pre) s else s.

(** [strings.CutSuffix]: the string without the suffix, and whether it was
    there. *)
Definition CutSuffix (s suf : string) : string * bool :=
  let n := String.length s - String.length suf in
  if bool_decide (String.length suf <= String.length s /\ str_drop n s = suf)
  then (str_take n s, true)
  else (s, false).

(** [strings.Cut]: what is before and after the first [sep]. *)
Fixpoint Cut (s sep : string) : string * string * bool :=
  if HasPrefix s sep then ("", str_drop (String.length sep) s, true)
  else match s with
       | EmptyString => ("", "", false)
       | String c s' =>
           match Cut s' sep with
           | (before, after, true) => (String c before, after, true)
           | (_, _, false) => (s, "", false)
           end
       end.

(** [strings.LastIndex(s, sep)] for a one-byte [sep]; [None] is Go's -1. *)
Fixpoint LastIndex (s : string) (sep : ascii) : option nat :=
  match s with
  | EmptyString => None
  | String c s' =>
      match LastIndex s' sep with
      | Some i => Some (S i)
      | None => if bool_decide (c = sep) then Some 0 else None
      end
  end.

(** [strings.ToLower], [strings.ToUpper] on ASCII; other bytes are kept. *)
Definition ascii_lower (c : ascii) : ascii :=
  let n := nat_of_ascii c in
  if (65 <=? n) && (n <=? 90) then ascii_of_nat (n + 32) else c.

Definition ascii_upper (c : ascii) : ascii :=
  let n := nat_of_ascii c in
  if (97 <=? n) && (n <=? 122) then ascii_of_nat (n - 32) else c.

Fixpoint str_map (f : ascii -> ascii) (s : string) : string :=
  match s with
  | EmptyString => EmptyString
  | String c s' => String (f c) (str_map f s')
  end.

Definition ToLower : string -> string := str_map ascii_lower.
Definition ToUpper : string -> string := str_map ascii_upper.

(** [strings.Join(l, sep)] *)
Fixpoint Join (l : list string) (sep : string) : string :=
  match l with
  | [] => ""
  | [s] => s
  | s :: l' => s +:+ sep +:+ Join l' sep
  end.

(** The byte of a double quote, which a literal cannot hold. *)
Definition dquote : string := String (ascii_of_nat 34) "".

Definition hex_digit (n : nat) : ascii :=
  ascii_of_nat (if n <? 10 then 48 + n else 87 + n).

(** [%q]: [strconv.Quote].  Bytes from 128 on are copied, as Quote does with
    printable UTF-8. *)
Definition quote_byte (c : ascii) : string :=
  let n := nat_of_ascii c in
  if bool_decide (n = 34) then "\" +:+ dquote
  else if bool_decide (n = 92) then "\\"
  else if bool_decide (n = 7) then "\a"
  else if bool_decide (n = 8) then "\b"
  else if bool_decide (n = 12) then "\f"
  else if bool_decide (n = 10) then "\n"
  else if bool_decide (n = 13) then "\r"
  else if bool_decide (n = 9) then "\t"
  else if bool_decide (n = 11) then "\v"
  else if (n <? 32) || bool_decide (n = 127)
       then "\x" +:+ String (hex_digit (n / 16)) (String (hex_digit (n mod 16)) "")
       else String c "".

Fixpoint str_flat_map (f : ascii -> string) (s : string) : string :=
  match s with
  | EmptyString => ""
  | String c s' => f c +:+ str_flat_map f s'
  end.

Definition Quote (s : string) : string :=
  dquote +:+ str_flat_map quote_byte s +:+ dquote.

(** ** Go integers *)

Definition wrap (w : Z) (z : Z) : Z :=
  ((z + 2 ^ (w - 1)) mod 2 ^ w - 2 ^ (w - 1))%Z.
Definition int32 (z : Z) : Z := wrap 32 z.
Definition int64 (z : Z) : Z := wrap 64 z.

Definition maxInt32 : Z := 2147483647.
Definition minInt32 : Z := (-2147483648).
Definition maxInt64 : Z := 9223372036854775807.
Definition minInt64 : Z := (-9223372036854775808).

(** ** Nil-able slices and maps

    [None] is the nil slice or map, which [== nil] and [reflect.DeepEqual]
    tell from the empty one. *)
Abbreviation slice A := (option (list A)).
Abbreviation gomap V := (option (gmap string V)).

Definition elems {A} (s : slice A) : list A := default [] s.
Definition entries {V} (m : gomap V) : gmap string V := default ∅ m.

(** [append(s, x...)]: appending nothing keeps nil. *)
Definition go_append {A} (s : slice A) (l : list A) : slice A :=
  match l with
  | [] => s
  | _ => Some (elems s ++ l)
  end.

(** [m[k]] for a map of strings: the zero value for a missing key. *)
Definition mget (m : gomap string) (k : string) : string :=
  default "" (entries m !! k).

(** [m[k] = v] after [if m == nil { m = make(...) }]. *)
Definition mset {V} (m : gomap V) (k : string) (v : V) : gomap V :=
  Some (<[k := v]> (entries m)).

(** The loop [for k, v := range m] that writes [f v], when there is one, under
    [k] in a new map, for an order [l] of the entries. *)
Definition rangeCopy {A B} (f : A -> option B) (l : list (string * A)) : gmap string B :=
  fold_left (fun r kv => match f kv.2 with Some w => <[kv.1 := w]> r | None => r end) l ∅.

(** ** Errors

    [EStatus] is the API server's status error, [ENoMatch] the REST mapper's,
    [EVar] an exported error variable (compared by identity, so by name),
    [ENew] a fresh error, [EWrap] what [fmt.Errorf] with [%w] returns, and
    [EPanic] a panic, which the controller runtime turns into an error. *)
Inductive error :=
| EStatus (reason : string) (code : Z) (msg : string)
| ENoMatch (msg : string)
| EVar (name : string) (msg : string)
| ENew (msg : string)
| EWrap (pre : string) (err : error) (post : string)
| EPanic (msg : string).

(** [err.Error()] *)
Fixpoint ErrorText (e : error) : string :=
  match e with
  | EStatus _ _ m | ENoMatch m | EVar _ m | ENew m | EPanic m => m
  | EWrap pre e post => pre +:+ ErrorText e +:+ post
  end.

(** [errors.Is(err, v)] for an error variable [v]. *)
Fixpoint ErrorIs (e : error) (v : string) : bool :=
  match e with
  | EVar name _ => bool_decide (name = v)
  | EWrap _ e _ => ErrorIs e v
  | _ => false
  end.

(** What [errors.As(err, &status)] finds: the status error in the chain. *)
Fixpoint asStatus (e : error) : option (string * Z) :=
  match e with
  | EStatus reason code _ => Some (reason, code)
  | EWrap _ e _ => asStatus e
  | _ => None
  end.

Definition knownReasons : list string :=
  ["Unauthorized"; "Forbidden"; "NotFound"; "AlreadyExists"; "Conflict";
   "Gone"; "Invalid"; "ServerTimeout"; "StoreReadError"; "Timeout";
   "TooManyRequests"; "BadRequest"; "MethodNotAllowed"; "NotAcceptable";
   "RequestEntityTooLarge"; "UnsupportedMediaType"; "InternalError";
   "Expired"; "ServiceUnavailable"].

(** [apierrors.reasonAndCodeForError] and [apierrors.IsNotFound] *)
Definition reasonAndCodeForError (e : error) : string * Z :=
  default ("", 0%Z) (asStatus e).

Definition IsNotFound (e : error) : bool :=
  let '(reason, code) := reasonAndCodeForError e in
  bool_decide (reason = "NotFound")
  || (negb (bool_decide (reason ∈ knownReasons)) && bool_decide (code = 404%Z)).

(** [meta.IsNoMatchError] *)
Fixpoint IsNoMatchError (e : error) : bool :=
  match e with
  | ENoMatch _ => true
  | EWrap _ e _ => IsNoMatchError e
  | _ => false
  end.

(** A Go call that returns a value and an error. *)
Inductive result (A : Type) :=
| Ok (a : A)
| Err (e : error).
Arguments Ok {A} a.
Arguments Err {A} e.

#[export] Instance error_eq_dec : EqDecision error.
Proof. solve_decision. Defined.
#[export] Instance result_eq_dec {A} `{EqDecision A} : EqDecision (result A).
Proof. solve_decision. Defined.

(** [if err != nil { return fmt.Errorf("msg: %w", err) }] *)
Definition wrapf (msg : string) (e : error) : error := EWrap (msg +:+ ": ") e "".

Definition map_err {A} (f : error -> error) (r : result A) : result A :=
  match r with Ok a => Ok a | Err e => Err (f e) end.

Definition rbind {A B} (r : result A) (f : A -> result B) : result B :=
  match r with Ok a => f a | Err e => Err e end.

(** [client.IgnoreNotFound] on the error of a call whose value is dropped. *)
Definition IgnoreNotFound (e : error) : result unit :=
  if IsNotFound e then Ok tt else Err e.

(** ** Lemmas on strings *)

Lemma str_cons_app c s t : String c s +:+ t = String c (s +:+ t).
Proof. done. Qed.

Lemma str_drop_app s1 s2 : str_drop (String.length s1) (s1 +:+ s2) = s2.
Proof. by induction s1. Qed.

Lemma str_take_app s1 s2 : str_take (String.length s1) (s1 +:+ s2) = s1.
Proof.
  induction s1 as [|c s1 IH]; [by destruct s2|].
  rewrite str_cons_app. simpl. by rewrite IH.
Qed.

Lemma str_take_drop n s : str_take n s +:+ str_drop n s = s.
Proof.
  revert s; induction n as [|n IH]; intros s; [by destruct s|].
  destruct s as [|c s]; [done|]. simpl. by rewrite str_cons_app, IH.
Qed.

Lemma str_length_app s1 s2 :
  String.length (s1 +:+ s2) = String.length s1 + String.length s2.
Proof.
  induction s1 as [|c s1 IH]; [done|]. rewrite str_cons_app. simpl. lia.
Qed.

Lemma str_app_nil_r s : s +:+ "" = s.
Proof. induction s as [|c s IH]; [done | by rewrite str_cons_app, IH]. Qed.

Lemma str_app_assoc s1 s2 s3 : s1 +:+ (s2 +:+ s3) = (s1 +:+ s2) +:+ s3.
Proof. induction s1 as [|c s1 IH]; [done | by rewrite !str_cons_app, IH]. Qed.

Lemma str_app_eq_nil s1 s2 : s1 +:+ s2 = "" -> s1 = "" /\ s2 = "".
Proof. by destruct s1. Qed.

Lemma prefix_app s1 s2 : HasPrefix (s1 +:+ s2) s1 = true.
Proof.
  unfold HasPrefix; induction s1 as [|c s1 IH]; [by destruct s2|].
  rewrite str_cons_app. simpl. destruct (Ascii.ascii_dec c c); [done | congruence].
Qed.

Lemma TrimPrefix_app pre s : TrimPrefix (pre +:+ s) pre = s.
Proof. unfold TrimPrefix. rewrite prefix_app. apply str_drop_app. Qed.

Lemma CutSuffix_app s suf : CutSuffix (s +:+ suf) suf = (s, true).
Proof.
  unfold CutSuffix. rewrite str_length_app.
  replace (_ + String.length suf - _) with (String.length s) by lia.
  rewrite str_drop_app, str_take_app, bool_decide_true; [done | split; [lia|done]].
Qed.

Lemma CutSuffix_Some s suf r : CutSuffix s suf = (r, true) -> s = r +:+ suf.
Proof.
  unfold CutSuffix. case_bool_decide as H; intros ?; simplify_eq.
  destruct H as [_ H].
  by rewrite <- (str_take_drop (String.length s - String.length suf) s), H at 1.
Qed.

(** [sep] does not occur in a string. *)
Fixpoint str_free (c : ascii) (s : string) : bool :=
  match s with
  | EmptyString => true
  | String d s' => negb (bool_decide (d = c)) && str_free c s'
  end.

Lemma Cut_byte_app c s1 s2 :
  str_free c s1 = true ->
  Cut (s1 +:+ String c s2) (String c "") = (s1, s2, true).
Proof.
  induction s1 as [|d s1 IH]; rewrite ?str_cons_app; simpl.
  - unfold HasPrefix; simpl. destruct (Ascii.ascii_dec c c); [|congruence].
    by destruct s2.
  - intros [H1 H2]%andb_prop. unfold HasPrefix; simpl.
    destruct (Ascii.ascii_dec c d) as [->|].
    + by rewrite bool_decide_true in H1.
    + by rewrite IH.
Qed.

Lemma LastIndex_free c s : str_free c s = true -> LastIndex s c = None.
Proof.
  induction s as [|d s IH]; simpl; [done|].
  intros [H1 H2]%andb_prop. rewrite IH by done.
  case_bool_decide; [done | done].
Qed.

Lemma LastIndex_None c s : LastIndex s c = None -> str_free c s = true.
Proof.
  induction s as [|d s IH]; simpl; [done|].
  destruct (LastIndex s c); [done|]. case_bool_decide; [done|].
  intros _. by rewrite IH.
Qed.

Lemma LastIndex_app c s1 s2 :
  str_free c s2 = true ->
  LastIndex (s1 +:+ String c s2) c = Some (String.length s1).
Proof.
  intros H. induction s1 as [|d s1 IH]; rewrite ?str_cons_app; simpl.
  - rewrite LastIndex_free by done. by rewrite bool_decide_true.
  - by rewrite IH.
Qed.

Lemma LastIndex_Some c s i :
  LastIndex s c = Some i ->
  s = str_take i s +:+ String c (str_drop (S i) s)
  /\ str_free c (str_drop (S i) s) = true.
Proof.
  revert i; induction s as [|d s IH]; simpl; [done|]. intros i.
  destruct (LastIndex s c) as [j|] eqn:Hj.
  - intros [= <-]. destruct (IH j eq_refl) as [H1 H2]. split; [|done].
    cbn [str_take]. rewrite str_cons_app. f_equal. exact H1.
  - case_bool_decide; [|done]. intros [= <-]. subst. simpl.
    split; [done | by apply LastIndex_None].
Qed.

(** ** Lemmas on lists *)

Lemma find_app {A} (f : A -> bool) l1 l2 :
  List.find f (l1 ++ l2) =
    match List.find f l1 with Some x => Some x | None => List.find f l2 end.
Proof. induction l1 as [|x l1 IH]; simpl; [done|]. by destruct (f x). Qed.

Lemma fmap_map {A B} (f : A -> B) (l : list A) : f <$> l = map f l.
Proof. by induction l as [|x l IH]; [|cbn; f_equal]. Qed.

Lemma elem_of_map {A B} (f : A -> B) (l : list A) y :
  y ∈ map f l -> exists x, y = f x /\ x ∈ l.
Proof. rewrite <- fmap_map. apply list_elem_of_fmap. Qed.

Lemma elem_of_map_2 {A B} (f : A -> B) (l : list A) x : x ∈ l -> f x ∈ map f l.
Proof. rewrite <- fmap_map. apply list_elem_of_fmap_2. Qed.

(** Go's order of a map's entries does not matter. *)
Lemma rangeCopy_lookup {A B} (f : A -> option B) (l : list (string * A)) k :
  NoDup l.*1 ->
  rangeCopy f l !! k = (list_to_map l : gmap string A) !! k ≫= f.
Proof.
  unfold rangeCopy. intros Hnd.
  enough (forall r : gmap string B, (forall x, x ∈ l.*1 -> r !! x = None) ->
    fold_left (fun r kv => match f kv.2 with Some w => <[kv.1 := w]> r | None => r end) l r !! k =
    match (list_to_map l : gmap string A) !! k with Some v => f v | None => r !! k end) as H.
  { rewrite H by done. by destruct (_ !! k). }
  induction l as [|[x v] l IH]; intros r Hr; cbn [fold_left fst snd]; [done|].
  rewrite fmap_cons, NoDup_cons in Hnd. destruct Hnd as [Hx Hnd].
  rewrite IH; [|done|].
  - rewrite list_to_map_cons. destruct (decide (x = k)) as [->|Hk].
    + rewrite lookup_insert_eq, not_elem_of_list_to_map_1 by done.
      destruct (f v); [by rewrite lookup_insert_eq | apply Hr; set_solver].
    + rewrite lookup_insert_ne by done. destruct (_ !! k); [done|].
      destruct (f v); [by rewrite lookup_insert_ne | done].
  - intros y Hy. assert (x <> y) by set_solver.
    destruct (f v); [rewrite lookup_insert_ne by done|]; apply Hr; set_solver.
Qed.

Lemma rangeCopy_order {A B} (f : A -> option B) (m : gmap string A) l :
  l ≡ₚ map_to_list m -> rangeCopy f l = omap f m.
Proof.
  intros Hl. apply map_eq. intros k. rewrite rangeCopy_lookup.
  - rewrite lookup_omap. f_equal. by rewrite (list_to_map_proper l (map_to_list m)), list_to_map_to_list;
      [|rewrite Hl; apply NoDup_fst_map_to_list|].
  - rewrite Hl. apply NoDup_fst_map_to_list.
Qed.

(** ** Lemmas on integers *)

Lemma wrap_id w z :
  (0 < w)%Z -> (- 2 ^ (w - 1) <= z < 2 ^ (w - 1))%Z -> wrap w z = z.
Proof.
  intros Hw Hz. unfold wrap.
  assert (2 ^ w = 2 * 2 ^ (w - 1))%Z as E.
  { rewrite <- Z.pow_succ_r by lia. f_equal; lia. }
  rewrite Z.mod_small by lia. lia.
Qed.

Lemma int32_id z : (minInt32 <= z <= maxInt32)%Z -> int32 z = z.
Proof. unfold minInt32, maxInt32. intros. apply wrap_id; lia. Qed.

Lemma int64_id z : (minInt64 <= z <= maxInt64)%Z -> int64 z = z.
Proof. unfold minInt64, maxInt64. intros. apply wrap_id; lia. Qed.

Lemma wrap_range w z :
  (0 < w)%Z -> (- 2 ^ (w - 1) <= wrap w z < 2 ^ (w - 1))%Z.
Proof.
  intros Hw. unfold wrap.
  assert (2 ^ w = 2 * 2 ^ (w - 1))%Z as E.
  { rewrite <- Z.pow_succ_r by lia. f_equal; lia. }
  pose proof (Z.mod_pos_bound (z + 2 ^ (w - 1)) (2 ^ w)) as B.
  assert (0 < 2 ^ (w - 1))%Z by (apply Z.pow_pos_nonneg; lia). lia.
Qed.

(** ** Lemmas on errors *)

Lemma IsNotFound_wrap pre e post : IsNotFound (EWrap pre e post) = IsNotFound e.
Proof. done. Qed.

Lemma ErrorIs_wrap pre e post v : ErrorIs (EWrap pre e post) v = ErrorIs e v.
Proof. done. Qed.

Create HintDb go.
Create Rewrite HintDb go.
#[export] Hint Rewrite str_drop_app str_take_app str_length_app str_app_nil_r
  prefix_app TrimPrefix_app CutSuffix_app : go.
#[export] Hint Resolve int32_id int64_id LastIndex_free : go.
