(* ===== verification/Prog.v ===== *)
(** * Programs with calls to the outside

    A reconciler is a program over a signature [E] of calls (to an API server,
    a cloud API or the clock): [E X] is a call whose answer has type [X].
    [prog E A] is the inductive tree of the calls a function makes, so every
    function modelled with it makes finitely many calls and returns.

    - [all_runs p t Q]: whatever the answers are, the calls made and their
      answers, appended to the history [t], and the returned value satisfy [Q].
    - [guarded G t p]: whatever the answers are, every call [p] makes satisfies
      [G] at the history it is made at.
    - [run h p s]: the run of [p] against the stateful handler [h].

    The first two quantify over every environment: other controllers, users and
    failures may change the cluster between any two calls. *)

From S2P Require Import Prelude.

Section prog.
Context {E : Type -> Type}.

Inductive prog (A : Type) : Type :=
| Ret (a : A)
| Vis (X : Type) (e : E X) (k : X -> prog A).

Record event := Ev { ev_type : Type; ev_call : E ev_type; ev_answer : ev_type }.

End prog.
Arguments prog E A : clear implicits.
Arguments event E : clear implicits.
Arguments Ret {E A} a.
Arguments Vis {E A X} e k.
Arguments Ev {E ev_type} ev_call ev_answer.

#[export] Instance prog_ret {E} : MRet (prog E) := fun A a => Ret a.
#[export] Instance prog_bind {E} : MBind (prog E) := fun A B f =>
  fix go p := match p with
              | Ret a => f a
              | Vis e k => Vis e (fun x => go (k x))
              end.

Definition call {E X} (e : E X) : prog E X := Vis e Ret.

(** A call that returns an error is handled by returning it. *)
Definition try_bind {E A B} (p : prog E (result A)) (f : A -> prog E (result B)) :
    prog E (result B) :=
  r ← p; match r with Ok a => f a | Err e => Ret (Err e) end.

Notation "x ←? y ; z" := (try_bind y (fun x => z))
  (at level 20, y at level 100, z at level 200, only parsing) : go_scope.
Notation "y ;;? z" := (try_bind y (fun _ => z))
  (at level 100, z at level 200, only parsing, right associativity) : go_scope.

(** [fmt.Errorf("msg: %w", err)] on the error of a call. *)
Definition wrap_err {E A} (msg : string) (p : prog E (result A)) : prog E (result A) :=
  r ← p; Ret (map_err (wrapf msg) r).

(** [for _, x := range l { if err := f(x); err != nil { return err } }] *)
Fixpoint for_each {E A} (l : list A) (f : A -> prog E (result unit)) :
    prog E (result unit) :=
  match l with
  | [] => Ret (Ok tt)
  | x :: l' => try_bind (f x) (fun _ => for_each l' f)
  end.

(** The same loop updating a local variable. *)
Fixpoint for_fold {E A S} (l : list A) (f : A -> S -> prog E (result S)) (s : S) :
    prog E (result S) :=
  match l with
  | [] => Ret (Ok s)
  | x :: l' => try_bind (f x s) (fun s' => for_fold l' f s')
  end.

Section semantics.
Context {E : Type -> Type}.
Abbreviation prog := (prog E).
Abbreviation event := (event E).
Abbreviation trace := (list event).

Fixpoint all_runs {A} (p : prog A) (t : trace) (Q : trace -> A -> Prop) : Prop :=
  match p with
  | Ret a => Q t a
  | Vis e k => forall x, all_runs (k x) (t ++ [Ev e x]) Q
  end.

Fixpoint guarded {A} (G : trace -> forall X, E X -> Prop) (t : trace) (p : prog A) : Prop :=
  match p with
  | Ret _ => True
  | Vis e k => G t _ e /\ forall x, guarded G (t ++ [Ev e x]) (k x)
  end.

Fixpoint run {A S} (h : forall X, E X -> S -> X * S) (p : prog A) (s : S) : A * S * trace :=
  match p with
  | Ret a => (a, s, [])
  | Vis e k =>
      let '(x, s') := h _ e s in
      let '(a, s'', t) := run h (k x) s' in
      (a, s'', Ev e x :: t)
  end.

(** Same calls, same results: the equality of programs up to the functions
    that continue them. *)
Fixpoint prog_eq {A} (p q : prog A) : Prop :=
  match p with
  | Ret a => q = Ret a
  | Vis e k => exists k', q = Vis e k' /\ forall x, prog_eq (k x) (k' x)
  end.

(** ** Laws *)

Lemma all_runs_mono {A} (p : prog A) t (Q Q' : trace -> A -> Prop) :
  all_runs p t Q -> (forall t' a, Q t' a -> Q' t' a) -> all_runs p t Q'.
Proof. intros H HQ. revert t H. induction p; simpl; eauto. Qed.

Lemma all_runs_bind {A B} (p : prog A) (f : A -> prog B) t Q :
  all_runs p t (fun t' a => all_runs (f a) t' Q) -> all_runs (p ≫= f) t Q.
Proof.
  revert t; induction p as [a|X e k IH]; intros t H; [done|].
  intros x. apply IH, H.
Qed.

Lemma all_runs_bind_inv {A B} (p : prog A) (f : A -> prog B) t Q :
  all_runs (p ≫= f) t Q -> all_runs p t (fun t' a => all_runs (f a) t' Q).
Proof.
  revert t; induction p as [a|X e k IH]; intros t H; [done|].
  intros x. apply IH, H.
Qed.

Lemma all_runs_and {A} (p : prog A) t Q1 Q2 :
  all_runs p t Q1 -> all_runs p t Q2 -> all_runs p t (fun t' a => Q1 t' a /\ Q2 t' a).
Proof. revert t; induction p; simpl; eauto. Qed.

(** The history only grows. *)
Lemma all_runs_suffix {A} (p : prog A) t :
  all_runs p t (fun t' _ => exists t1, t' = t ++ t1).
Proof.
  revert t; induction p as [a|X e k IH]; intros t; simpl.
  - exists []. by rewrite app_nil_r.
  - intros x. eapply all_runs_mono; [apply IH|].
    intros t' _ [t1 ->]. exists (Ev e x :: t1). by rewrite <- app_assoc.
Qed.

Lemma guarded_bind {A B} G (p : prog A) (f : A -> prog B) t :
  guarded G t p -> all_runs p t (fun t' a => guarded G t' (f a)) ->
  guarded G t (p ≫= f).
Proof.
  revert t; induction p as [a|X e k IH]; intros t; simpl; [done|].
  intros [HG H] Hf. split; [done|]. intros x. apply IH; auto.
Qed.

Lemma guarded_mono {A} (G G' : trace -> forall X, E X -> Prop) t (p : prog A) :
  guarded G t p -> (forall t' X e, G t' X e -> G' t' X e) -> guarded G' t p.
Proof.
  intros H HG. revert t H. induction p as [|X e k IH]; simpl; [done|].
  intros t [H1 H2]. eauto.
Qed.

(** The calls are made at histories that extend the first one. *)
Lemma guarded_suffix {A} (G : trace -> forall X, E X -> Prop) t (p : prog A) :
  guarded G t p -> guarded (fun t' X e => G t' X e /\ exists t1, t' = t ++ t1) t p.
Proof.
  intros H. enough (forall t0, (exists t1, t0 = t ++ t1) -> guarded G t0 p ->
    guarded (fun t' X e => G t' X e /\ exists t1, t' = t ++ t1) t0 p) as Hs.
  { apply Hs; [|done]. exists []. by rewrite app_nil_r. }
  clear H. induction p as [a|X e k IH]; intros t0 Ht0; cbn; [done|].
  intros [HG Hk]. split; [done|]. intros x. apply IH; [|done].
  destruct Ht0 as [t1 ->]. exists (t1 ++ [Ev e x]). by rewrite <- app_assoc.
Qed.

Lemma all_runs_try {A B} (p : prog (result A)) (f : A -> prog (result B)) t Q :
  all_runs p t (fun t' r => match r with
                            | Ok a => all_runs (f a) t' Q
                            | Err e => Q t' (Err e)
                            end) ->
  all_runs (try_bind p f) t Q.
Proof.
  intros H. apply all_runs_bind. eapply all_runs_mono; [exact H|].
  by intros t' [a|e].
Qed.

Lemma guarded_try {A B} G (p : prog (result A)) (f : A -> prog (result B)) t :
  guarded G t p ->
  all_runs p t (fun t' r => match r with
                            | Ok a => guarded G t' (f a)
                            | Err _ => True
                            end) ->
  guarded G t (try_bind p f).
Proof.
  intros H1 H2. apply guarded_bind; [done|].
  eapply all_runs_mono; [exact H2|]. by intros t' [a|e].
Qed.

Lemma all_runs_wrap {A} msg (p : prog (result A)) t Q :
  all_runs p t (fun t' r => Q t' (map_err (wrapf msg) r)) ->
  all_runs (wrap_err msg p) t Q.
Proof. intros H. by apply all_runs_bind. Qed.

Lemma guarded_wrap {A} G msg (p : prog (result A)) t :
  guarded G t p -> guarded G t (wrap_err msg p).
Proof.
  intros H. apply guarded_bind; [done|].
  eapply all_runs_mono; [apply all_runs_suffix | done].
Qed.

(** Loops: an invariant over the elements done. *)
Lemma all_runs_for_each {A} (I : list A -> trace -> Prop) (Qe : trace -> error -> Prop)
    (l : list A) (f : A -> prog (result unit)) t :
  I [] t ->
  (forall dn x t', dn ++ [x] `prefix_of` l -> I dn t' ->
     all_runs (f x) t' (fun t'' r => match r with
                                     | Ok _ => I (dn ++ [x]) t''
                                     | Err e => Qe t'' e
                                     end)) ->
  all_runs (for_each l f) t (fun t' r => match r with
                                         | Ok _ => I l t'
                                         | Err e => Qe t' e
                                         end).
Proof.
  intros H0 Hstep.
  enough (forall todo dn t', l = dn ++ todo -> I dn t' ->
    all_runs (for_each todo f) t' (fun t'' r => match r with
                                                | Ok _ => I l t''
                                                | Err e => Qe t'' e
                                                end)) as H by (by eapply (H l [])).
  induction todo as [|x todo IH]; intros dn t' -> HI; simpl.
  - by rewrite app_nil_r.
  - apply all_runs_try. eapply all_runs_mono.
    { apply Hstep; [|exact HI]. exists todo. by rewrite <- app_assoc. }
    intros t'' [[]|e] H; [|done]. apply (IH (dn ++ [x])); [by rewrite <- app_assoc | done].
Qed.

Lemma guarded_for_each {A} G (I : list A -> trace -> Prop)
    (l : list A) (f : A -> prog (result unit)) t :
  I [] t ->
  (forall dn x t', dn ++ [x] `prefix_of` l -> I dn t' ->
     guarded G t' (f x) /\
     all_runs (f x) t' (fun t'' r => match r with
                                     | Ok _ => I (dn ++ [x]) t''
                                     | Err _ => True
                                     end)) ->
  guarded G t (for_each l f).
Proof.
  intros H0 Hstep.
  enough (forall todo dn t', l = dn ++ todo -> I dn t' ->
    guarded G t' (for_each todo f)) as H by (by eapply (H l [])).
  induction todo as [|x todo IH]; intros dn t' -> HI; simpl; [done|].
  destruct (Hstep dn x t') as [H1 H2]; [exists todo; by rewrite <- app_assoc | done|].
  apply guarded_try; [done|]. eapply all_runs_mono; [exact H2|].
  intros t'' [[]|e] H; [|done]. apply (IH (dn ++ [x])); [by rewrite <- app_assoc | done].
Qed.

(** ** The calls of a program

    [calls P p]: whatever the answers are, every call [p] makes satisfies [P]; a
    guard that needs no history. *)
Fixpoint calls {A} (P : forall X, E X -> Prop) (p : prog A) : Prop :=
  match p with
  | Ret _ => True
  | Vis e k => P _ e /\ forall x, calls P (k x)
  end.

Lemma guarded_calls {A} G (P : forall X, E X -> Prop) t (p : prog A) :
  guarded G t p -> (forall t' X e, G t' X e -> P X e) -> calls P p.
Proof.
  intros H HG. revert t H. induction p as [|X e k IH]; intros t; cbn; [done|].
  intros [H1 H2]. split; [by eapply HG|]. intros x. by eapply IH.
Qed.

(** The calls a run adds to the history satisfy the predicate. *)
Lemma calls_runs {A} (P : forall X, E X -> Prop) (p : prog A) t :
  calls P p -> all_runs p t (fun t' _ =>
    exists t1, t' = t ++ t1 /\ Forall (fun ev => P (ev_type ev) (ev_call ev)) t1).
Proof.
  revert t; induction p as [a|X e k IH]; intros t; cbn.
  - intros _. exists []. by rewrite app_nil_r.
  - intros [He Hk] x. eapply all_runs_mono; [by apply IH|].
    intros t' _ (t1 & -> & H). exists (Ev e x :: t1). rewrite <- app_assoc. by split; [|constructor].
Qed.

Lemma calls_mono {A} (P P' : forall X, E X -> Prop) (p : prog A) :
  calls P p -> (forall X e, P X e -> P' X e) -> calls P' p.
Proof. intros H HP. induction p as [|X e k IH]; cbn in *; [done|]. destruct H. split; eauto. Qed.

Lemma calls_bind {A B} P (p : prog A) (f : A -> prog B) :
  calls P p -> (forall a, calls P (f a)) -> calls P (p ≫= f).
Proof. intros H Hf. induction p as [|X e k IH]; [apply Hf|]. destruct H. split; [done|]. eauto. Qed.

Lemma calls_try {A B} P (p : prog (result A)) (f : A -> prog (result B)) :
  calls P p -> (forall a, calls P (f a)) -> calls P (try_bind p f).
Proof. intros H Hf. apply calls_bind; [done|]. by intros [a|e]. Qed.

Lemma calls_wrap {A} P msg (p : prog (result A)) : calls P p -> calls P (wrap_err msg p).
Proof. intros H. by apply calls_bind. Qed.

Lemma calls_call {X} (P : forall X, E X -> Prop) (e : E X) : P _ e -> calls P (call e).
Proof. intros H. by split; [|intros x]. Qed.

Lemma calls_for_each {A} P (l : list A) (f : A -> prog (result unit)) :
  (forall x, calls P (f x)) -> calls P (for_each l f).
Proof. intros H. induction l as [|x l IH]; [done|]. by apply calls_try. Qed.

(** ** Handlers *)

(** What holds for every environment holds against a handler. *)
Lemma run_all_runs {A S} (h : forall X, E X -> S -> X * S) (p : prog A) s t Q :
  all_runs p t Q -> let '(a, _, t') := run h p s in Q (t ++ t') a.
Proof.
  revert s t; induction p as [a|X e k IH]; intros s t H; simpl.
  - by rewrite app_nil_r.
  - destruct (h X e s) as [x s']. specialize (IH x s' (t ++ [Ev e x]) (H x)).
    destruct (run h (k x) s') as [[a s''] t']. by rewrite <- app_assoc in IH.
Qed.

Lemma run_bind {A B S} (h : forall X, E X -> S -> X * S) (p : prog A) (f : A -> prog B) s :
  run h (p ≫= f) s =
    let '(a, s', t) := run h p s in
    let '(b, s'', t') := run h (f a) s' in (b, s'', t ++ t').
Proof.
  revert s; induction p as [a|X e k IH]; intros s; simpl.
  - by destruct (run h (f a) s) as [[b s''] t'].
  - destruct (h X e s) as [x s']. specialize (IH x s').
    unfold mbind in IH. rewrite IH.
    destruct (run h (k x) s') as [[a s''] t].
    by destruct (run h (f a) s'') as [[b s3] t'].
Qed.

Lemma run_try {A B S} (h : forall X, E X -> S -> X * S)
    (p : prog (result A)) (f : A -> prog (result B)) s :
  run h (try_bind p f) s =
    let '(r, s', t) := run h p s in
    match r with
    | Ok a => let '(b, s'', t') := run h (f a) s' in (b, s'', t ++ t')
    | Err e => (Err e, s', t)
    end.
Proof.
  unfold try_bind. rewrite run_bind.
  destruct (run h p s) as [[[a|e] s'] t]; [done|]. simpl. by rewrite app_nil_r.
Qed.

(** The value and the state a run ends in. *)
Definition exec {A S} (h : forall X, E X -> S -> X * S) (p : prog A) (s : S) : A * S :=
  fst (run h p s).

Lemma exec_ret {A S} (h : forall X, E X -> S -> X * S) (a : A) s : exec h (Ret a) s = (a, s).
Proof. done. Qed.

Lemma exec_call {X S} (h : forall X, E X -> S -> X * S) (e : E X) s :
  exec h (call e) s = h _ e s.
Proof. unfold exec; simpl. by destruct (h X e s). Qed.

Lemma exec_bind {A B S} (h : forall X, E X -> S -> X * S) (p : prog A) (f : A -> prog B) s :
  exec h (p ≫= f) s = let '(a, s') := exec h p s in exec h (f a) s'.
Proof.
  unfold exec. rewrite run_bind. destruct (run h p s) as [[a s'] t]; simpl.
  by destruct (run h (f a) s') as [[b s''] t'].
Qed.

Lemma exec_try {A B S} (h : forall X, E X -> S -> X * S)
    (p : prog (result A)) (f : A -> prog (result B)) s :
  exec h (try_bind p f) s =
    let '(r, s') := exec h p s in
    match r with Ok a => exec h (f a) s' | Err e => (Err e, s') end.
Proof. unfold try_bind. rewrite exec_bind. by destruct (exec h p s) as [[a|e] s']. Qed.

Lemma exec_wrap {A S} (h : forall X, E X -> S -> X * S) msg (p : prog (result A)) s :
  exec h (wrap_err msg p) s = let '(r, s') := exec h p s in (map_err (wrapf msg) r, s').
Proof. unfold wrap_err. rewrite exec_bind. by destruct (exec h p s). Qed.

(** ** Equality of programs *)

#[local] Instance prog_eq_equiv {A} : Equivalence (@prog_eq A).
Proof.
  split.
  - intros p. induction p; simpl; eauto.
  - intros p. induction p as [a|X e k IH]; intros q; simpl.
    + by intros ->.
    + intros (k' & -> & H). simpl. eauto.
  - intros p. induction p as [a|X e k IH]; intros q r; simpl.
    + by intros ->.
    + intros (k' & -> & H) (k'' & -> & H'). eauto.
Qed.

#[local] Instance prog_eq_bind {A B} :
  Proper (prog_eq ==> pointwise_relation A prog_eq ==> prog_eq)
         (fun p (f : A -> prog B) => p ≫= f).
Proof.
  intros p q Hpq f g Hfg. revert q Hpq.
  induction p as [a|X e k IH]; intros q; simpl.
  - intros ->. apply Hfg.
  - intros (k' & -> & H). exists (fun x => k' x ≫= g). eauto.
Qed.

Lemma prog_eq_assoc {A B C} (p : prog A) (f : A -> prog B) (g : B -> prog C) :
  prog_eq ((p ≫= f) ≫= g) (p ≫= (fun a => f a ≫= g)).
Proof.
  induction p as [a|X e k IH]; [reflexivity|]. eexists; split; [reflexivity|]. apply IH.
Qed.

#[local] Instance all_runs_proper {A} :
  Proper (prog_eq ==> eq ==> pointwise_relation _ (pointwise_relation _ iff) ==> iff)
         (@all_runs A).
Proof.
  intros p q Hpq t _ <- Q Q' HQ. revert q t Hpq.
  induction p as [a|X e k IH]; intros q t; simpl.
  - intros ->. apply HQ.
  - intros (k' & -> & H). simpl. split; intros H' x; eapply IH; eauto.
Qed.

End semantics.

#[export] Existing Instances prog_eq_equiv prog_eq_bind all_runs_proper.

Abbreviation trace E := (list (event E)).

Lemma last_elem {E} (t : trace E) (ev : event E) : ev ∈ t ++ [ev].
Proof. apply elem_of_app. right. by apply list_elem_of_singleton. Qed.

(** ** Automation

    [go_step] moves to the next call of a program, [go_cases] splits on the
    answer of the last one. *)
Create HintDb runs.
#[export] Hint Resolve all_runs_suffix guarded_wrap all_runs_wrap : runs.

Ltac go_step :=
  match goal with
  | |- all_runs (try_bind _ _) _ _ => apply all_runs_try
  | |- all_runs (wrap_err _ _) _ _ => apply all_runs_wrap
  | |- all_runs (_ ≫= _) _ _ => apply all_runs_bind
  | |- guarded _ _ (try_bind _ _) => apply guarded_try
  | |- guarded _ _ (wrap_err _ _) => apply guarded_wrap
  | |- guarded _ _ (_ ≫= _) => apply guarded_bind
  | |- all_runs (call _) _ _ => intros ?; simpl
  | |- guarded _ _ (call _) => split; [|by intros ?]
  end.
