(* ===== verification/DeepEqual.v ===== *)
(** * Equality of API values

    [reflect.DeepEqual] is equality of the model's values: it tells a nil slice
    or map from an empty one.  [equality.Semantic.DeepEqual] does not, and
    compares quantities by value.  A type states what the semantic equality
    ignores by a canonical form, class [Canon]; [sem_eq] compares canonical
    forms, which makes it an equivalence for every type. *)

From S2P Require Import Prelude.

Class Canon (A : Type) := canon : A -> A.
#[export] Hint Mode Canon ! : typeclass_instances.

#[export] Instance canon_string : Canon string := fun s => s.
#[export] Instance canon_Z : Canon Z := fun z => z.
#[export] Instance canon_bool : Canon bool := fun b => b.
#[export] Instance canon_option {A} `{Canon A} : Canon (option A) | 10 := fun o =>
  match o with None => None | Some x => Some (canon x) end.
#[export] Instance canon_list {A} `{Canon A} : Canon (list A) := map canon.
#[export] Instance canon_slice {A} `{Canon A} : Canon (slice A) | 0 := fun s =>
  match s with
  | None | Some [] => None
  | Some l => Some (map canon l)
  end.
#[export] Instance canon_gomap {V} `{Canon V} : Canon (gomap V) | 0 := fun m =>
  match m with
  | None => None
  | Some m => if decide (m = ∅) then None else Some (fmap (M := gmap string) canon m)
  end.

(** [reflect.DeepEqual] *)
Definition DeepEqual {A} `{EqDecision A} (a b : A) : bool := bool_decide (a = b).

(** [equality.Semantic.DeepEqual] *)
Definition SemanticDeepEqual {A} `{EqDecision A, Canon A} (a b : A) : bool :=
  bool_decide (canon a = canon b).

Definition sem_eq {A} `{EqDecision A, Canon A} (a b : A) : Prop :=
  SemanticDeepEqual a b = true.

#[export] Instance sem_eq_equiv {A} `{EqDecision A, Canon A} : Equivalence (@sem_eq A _ _).
Proof.
  unfold sem_eq, SemanticDeepEqual. split.
  - intros a. by rewrite bool_decide_eq_true.
  - intros a b. rewrite !bool_decide_eq_true. done.
  - intros a b c. rewrite !bool_decide_eq_true. congruence.
Qed.

#[export] Instance SemanticDeepEqual_proper {A} `{EqDecision A, Canon A} :
  Proper (sem_eq ==> sem_eq ==> eq) (@SemanticDeepEqual A _ _).
Proof.
  unfold sem_eq, SemanticDeepEqual. intros a a' Ha b b' Hb.
  apply bool_decide_eq_true in Ha, Hb. by rewrite Ha, Hb.
Qed.

Lemma SemanticDeepEqual_refl {A} `{EqDecision A, Canon A} (a : A) :
  SemanticDeepEqual a a = true.
Proof. apply (reflexivity (R := sem_eq)). Qed.

Lemma DeepEqual_semantic {A} `{EqDecision A, Canon A} (a b : A) :
  DeepEqual a b = true -> sem_eq a b.
Proof. unfold DeepEqual. rewrite bool_decide_eq_true. by intros ->. Qed.

Lemma elems_canon_id {A} `{Canon A} (l : slice A) :
  (forall x : A, canon x = x) -> elems (canon l) = elems l.
Proof.
  intros Hx. destruct l as [[|x l]|]; [done| |done]. cbn. rewrite Hx. f_equal.
  induction l as [|y l IH]; [done|]. cbn. by rewrite Hx, IH.
Qed.

Lemma sem_slice_elems {A} `{EqDecision A, Canon A} (l l' : slice A) :
  (forall x : A, canon x = x) -> SemanticDeepEqual l l' = true -> elems l = elems l'.
Proof.
  intros Hx E%bool_decide_eq_true. by rewrite <- (elems_canon_id l), E, elems_canon_id.
Qed.

Lemma mget_canon (m m' : gomap string) k : canon m = canon m' -> mget m k = mget m' k.
Proof.
  assert (H : forall m : gomap string, mget m k = mget (canon m) k).
  { intros [x|]; [|done]. unfold canon, canon_gomap. case_decide as E; [by subst|].
    unfold mget; cbn. rewrite lookup_fmap. by destruct (x !! k). }
  intros E. rewrite (H m), (H m'). by rewrite E.
Qed.

(** A nil slice and an empty one are semantically equal, and not deeply. *)
Lemma nil_slice_sem {A} `{EqDecision A, Canon A} :
  sem_eq (A := slice A) None (Some []) /\ DeepEqual (A := slice A) None (Some []) = false.
Proof. done. Qed.

#[export] Hint Resolve SemanticDeepEqual_refl DeepEqual_semantic : go.
