(* ===== verification/MetaV1.v ===== *)
(** * Kubernetes object metadata

    The parts of k8s.io/apimachinery (meta/v1, api/meta) and of
    controller-runtime's controllerutil that the operator's logic rests on, from
    the vendored sources: object metadata, finalizers, owner references and
    status conditions. *)

From S2P Require Import Prelude DeepEqual.

(** ** Time

    [metav1.Time] as the nanoseconds since Go's zero time, 0001-01-01T00:00:00Z.
    The process runs in UTC. *)
Abbreviation Time := Z (only parsing).
Definition IsZeroTime (t : Time) : bool := bool_decide (t = 0%Z).

(** [metav1.Time.IsZero] on a pointer, which a nil pointer answers too. *)
Definition IsZero (t : option Time) : bool :=
  match t with None => true | Some t => IsZeroTime t end.

Definition Second : Z := 1000000000.
Definition Minute : Z := 60 * Second.

(** Digits of a non-negative number, at least [w] of them. *)
Definition zpad (w : nat) (z : Z) : string :=
  let s := pretty (Z.to_N z) in
  Nat.iter (w - String.length s) (String "0"%char) s.

(** Year, month and day of a day counted from 0001-01-01. *)
Definition civil (days : Z) : Z * Z * Z :=
  let z := (days + 306)%Z in
  let era := (z / 146097)%Z in
  let doe := (z mod 146097)%Z in
  let yoe := ((doe - doe / 1460 + doe / 36524 - doe / 146096) / 365)%Z in
  let doy := (doe - (365 * yoe + yoe / 4 - yoe / 100))%Z in
  let mp := ((5 * doy + 2) / 153)%Z in
  let d := (doy - (153 * mp + 2) / 5 + 1)%Z in
  let m := (if mp <? 10 then mp + 3 else mp - 9)%Z in
  ((yoe + era * 400 + (if m <=? 2 then 1 else 0))%Z, m, d).

(** [t.Format(time.RFC3339)] *)
Definition FormatRFC3339 (t : Time) : string :=
  let secs := (t / Second)%Z in
  let '(y, m, d) := civil (secs / 86400) in
  let sod := (secs mod 86400)%Z in
  zpad 4 y +:+ "-" +:+ zpad 2 m +:+ "-" +:+ zpad 2 d +:+ "T" +:+
  zpad 2 (sod / 3600) +:+ ":" +:+ zpad 2 (sod / 60 mod 60) +:+ ":" +:+
  zpad 2 (sod mod 60) +:+ "Z".

(** ** Objects *)

Record OwnerReference := mkOwnerReference {
  or_APIVersion : string;
  or_Kind : string;
  or_Name : string;
  or_UID : string;
  or_Controller : option bool;
  or_BlockOwnerDeletion : option bool }.

Record ObjectMeta := mkObjectMeta {
  om_Name : string;
  om_Namespace : string;
  om_UID : string;
  om_ResourceVersion : string;
  om_Generation : Z;
  om_DeletionTimestamp : option Time;
  om_Labels : gomap string;
  om_Annotations : gomap string;
  om_OwnerReferences : slice OwnerReference;
  om_Finalizers : slice string }.

(** [metav1.ObjectMeta{Name: name, Namespace: ns}] *)
Definition newMeta (ns name : string) : ObjectMeta :=
  mkObjectMeta name ns "" "" 0 None None None None None.

Definition om_set_Labels (f : gomap string) (m : ObjectMeta) : ObjectMeta :=
  mkObjectMeta (om_Name m) (om_Namespace m) (om_UID m) (om_ResourceVersion m)
    (om_Generation m) (om_DeletionTimestamp m) f (om_Annotations m)
    (om_OwnerReferences m) (om_Finalizers m).
Definition om_set_Annotations (f : gomap string) (m : ObjectMeta) : ObjectMeta :=
  mkObjectMeta (om_Name m) (om_Namespace m) (om_UID m) (om_ResourceVersion m)
    (om_Generation m) (om_DeletionTimestamp m) (om_Labels m) f
    (om_OwnerReferences m) (om_Finalizers m).
Definition om_set_OwnerReferences (f : slice OwnerReference) (m : ObjectMeta) : ObjectMeta :=
  mkObjectMeta (om_Name m) (om_Namespace m) (om_UID m) (om_ResourceVersion m)
    (om_Generation m) (om_DeletionTimestamp m) (om_Labels m) (om_Annotations m)
    f (om_Finalizers m).
Definition om_set_Finalizers (f : slice string) (m : ObjectMeta) : ObjectMeta :=
  mkObjectMeta (om_Name m) (om_Namespace m) (om_UID m) (om_ResourceVersion m)
    (om_Generation m) (om_DeletionTimestamp m) (om_Labels m) (om_Annotations m)
    (om_OwnerReferences m) f.
Definition om_set_DeletionTimestamp (f : option Time) (m : ObjectMeta) : ObjectMeta :=
  mkObjectMeta (om_Name m) (om_Namespace m) (om_UID m) (om_ResourceVersion m)
    (om_Generation m) f (om_Labels m) (om_Annotations m)
    (om_OwnerReferences m) (om_Finalizers m).

#[export] Instance OwnerReference_eq_dec : EqDecision OwnerReference.
Proof. solve_decision. Defined.
#[export] Instance ObjectMeta_eq_dec : EqDecision ObjectMeta.
Proof. solve_decision. Defined.
#[export] Instance OwnerReference_canon : Canon OwnerReference := fun r => r.
#[export] Instance ObjectMeta_canon : Canon ObjectMeta := fun m =>
  mkObjectMeta (om_Name m) (om_Namespace m) (om_UID m) (om_ResourceVersion m)
    (om_Generation m) (om_DeletionTimestamp m) (canon (om_Labels m))
    (canon (om_Annotations m)) (canon (om_OwnerReferences m))
    (canon (om_Finalizers m)).

(** [types.NamespacedName] and its [String]. *)
Record ObjectKey := mkObjectKey { key_Namespace : string; key_Name : string }.
#[export] Instance ObjectKey_eq_dec : EqDecision ObjectKey.
Proof. solve_decision. Defined.
#[export] Program Instance ObjectKey_countable : Countable ObjectKey :=
  inj_countable' (fun k => (key_Namespace k, key_Name k))
                 (fun '(ns, n) => mkObjectKey ns n) _.
Next Obligation. by intros []. Qed.

Definition KeyString (k : ObjectKey) : string := key_Namespace k +:+ "/" +:+ key_Name k.
Definition ObjectKeyFromObject (m : ObjectMeta) : ObjectKey :=
  mkObjectKey (om_Namespace m) (om_Name m).

(** ** Finalizers *)

Definition ContainsFinalizer (m : ObjectMeta) (finalizer : string) : bool :=
  bool_decide (finalizer ∈ elems (om_Finalizers m)).

Definition AddFinalizer (m : ObjectMeta) (finalizer : string) : ObjectMeta :=
  if ContainsFinalizer m finalizer then m
  else om_set_Finalizers (go_append (om_Finalizers m) [finalizer]) m.

(** The loop compacts the slice in place and reslices it. *)
Definition RemoveFinalizer (m : ObjectMeta) (finalizer : string) : ObjectMeta :=
  om_set_Finalizers (filter (fun f => f <> finalizer) <$> om_Finalizers m) m.

(** ** Owner references *)

(** [schema.ParseGroupVersion]: the group, or nothing for a malformed one. *)
Definition ParseGroup (gv : string) : option string :=
  if bool_decide (gv = "") || bool_decide (gv = "/") then Some ""
  else match Cut gv "/" with
       | (_, _, false) => Some ""
       | (g, v, true) => let '(_, _, more) := Cut v "/" in if more then None else Some g
       end.

Definition referSameObject (a b : OwnerReference) : bool :=
  match ParseGroup (or_APIVersion a), ParseGroup (or_APIVersion b) with
  | Some ga, Some gb =>
      bool_decide (ga = gb) && bool_decide (or_Kind a = or_Kind b)
      && bool_decide (or_Name a = or_Name b)
  | _, _ => false
  end.

(** [metav1.GetControllerOf] *)
Definition GetControllerOf (m : ObjectMeta) : option OwnerReference :=
  List.find (fun r => default false (or_Controller r)) (elems (om_OwnerReferences m)).

(** [upsertOwnerRef]: replaces the first reference to the same object, or
    appends. *)
Fixpoint replaceOwnerRef (refs : list OwnerReference) (ref : OwnerReference) :
    list OwnerReference :=
  match refs with
  | [] => [ref]
  | r :: refs' =>
      if referSameObject r ref then ref :: refs' else r :: replaceOwnerRef refs' ref
  end.

Definition upsertOwnerRef (ref : OwnerReference) (m : ObjectMeta) : ObjectMeta :=
  om_set_OwnerReferences (Some (replaceOwnerRef (elems (om_OwnerReferences m)) ref)) m.

Definition validateOwner (owner object : ObjectMeta) : result unit :=
  let ownerNs := om_Namespace owner in
  if bool_decide (ownerNs = "") then Ok tt
  else
    let objNs := om_Namespace object in
    if bool_decide (objNs = "") then
      Err (ENew ("cluster-scoped resource must not have a namespace-scoped owner, owner's namespace " +:+ ownerNs))
    else if bool_decide (ownerNs = objNs) then Ok tt
    else Err (ENew ("cross-namespace owner references are disallowed, owner's namespace "
                    +:+ ownerNs +:+ ", obj's namespace " +:+ objNs)).

(** [SetControllerReference] for an owner of the given API version and kind,
    which the client's scheme knows. *)
Definition SetControllerReference (apiVersion kind : string) (owner controlled : ObjectMeta) :
    result ObjectMeta :=
  rbind (validateOwner owner controlled) (fun _ =>
  let ref := mkOwnerReference apiVersion kind (om_Name owner) (om_UID owner)
               (Some true) (Some true) in
  match GetControllerOf controlled with
  | Some existing =>
      if referSameObject existing ref then Ok (upsertOwnerRef ref controlled)
      else Err (ENew ("Object " +:+ KeyString (ObjectKeyFromObject controlled)
                      +:+ " is already owned by another " +:+ or_Kind existing
                      +:+ " controller " +:+ or_Name existing))
  | None => Ok (upsertOwnerRef ref controlled)
  end).

(** ** Status conditions *)

Abbreviation ConditionStatus := string (only parsing).
Definition ConditionTrue : ConditionStatus := "True".
Definition ConditionFalse : ConditionStatus := "False".
Definition ConditionUnknown : ConditionStatus := "Unknown".

Record Condition := mkCondition {
  c_Type : string;
  c_Status : ConditionStatus;
  c_ObservedGeneration : Z;
  c_LastTransitionTime : Time;
  c_Reason : string;
  c_Message : string }.
#[export] Instance Condition_eq_dec : EqDecision Condition.
Proof. solve_decision. Defined.
#[export] Instance Condition_canon : Canon Condition := fun c => c.

Definition FindStatusCondition (conditions : list Condition) (conditionType : string) :
    option Condition :=
  List.find (fun c => bool_decide (c_Type c = conditionType)) conditions.

(** The existing condition after the assignments of [SetStatusCondition];
    [now] is what [time.Now] returns. *)
Definition updateCondition (now : Time) (existing new : Condition) : Condition :=
  let transition := if IsZeroTime (c_LastTransitionTime new) then now
                    else c_LastTransitionTime new in
  mkCondition (c_Type existing) (c_Status new) (c_ObservedGeneration new)
    (if decide (c_Status existing = c_Status new) then c_LastTransitionTime existing
     else transition)
    (c_Reason new) (c_Message new).

Definition initCondition (now : Time) (new : Condition) : Condition :=
  if IsZeroTime (c_LastTransitionTime new) then
    mkCondition (c_Type new) (c_Status new) (c_ObservedGeneration new) now
      (c_Reason new) (c_Message new)
  else new.

(** The slice's conditions after [SetStatusCondition], which writes through a
    pointer to the first condition of the type, or appends. *)
Fixpoint setCondition (now : Time) (conditions : list Condition) (new : Condition) :
    list Condition :=
  match conditions with
  | [] => [initCondition now new]
  | c :: cs =>
      if decide (c_Type c = c_Type new) then updateCondition now c new :: cs
      else c :: setCondition now cs new
  end.

(** The boolean result of [SetStatusCondition] is not used by the operator. *)
Definition SetStatusCondition (now : Time) (conditions : slice Condition) (new : Condition) :
    slice Condition :=
  Some (setCondition now (elems conditions) new).

(** [RemoveStatusCondition] on a slice: an empty one is left as it is. *)
Definition RemoveStatusCondition (conditions : slice Condition) (conditionType : string) :
    slice Condition :=
  match conditions with
  | None | Some [] => conditions
  | Some cs => Some (filter (fun c => c_Type c <> conditionType) cs)
  end.

(** No two conditions of a type: the API server's list-map key. *)
Definition conditions_wf (cs : list Condition) : Prop := NoDup (c_Type <$> cs).

(** ** Lemmas: finalizers *)

Lemma elems_go_append {A} (s : slice A) l : elems (go_append s l) = elems s ++ l.
Proof. destruct l; simpl; [by rewrite app_nil_r | done]. Qed.

Lemma ContainsFinalizer_Add m f g :
  ContainsFinalizer (AddFinalizer m f) g = bool_decide (g = f) || ContainsFinalizer m g.
Proof.
  unfold AddFinalizer. destruct (ContainsFinalizer m f) eqn:E.
  - case_bool_decide; [by subst | done].
  - unfold ContainsFinalizer in *; cbn [om_set_Finalizers om_Finalizers]. rewrite elems_go_append.
    apply eq_true_iff_eq. rewrite orb_true_iff, !bool_decide_eq_true.
    set_solver.
Qed.

Lemma ContainsFinalizer_Remove m f g :
  ContainsFinalizer (RemoveFinalizer m f) g = negb (bool_decide (g = f)) && ContainsFinalizer m g.
Proof.
  unfold ContainsFinalizer, RemoveFinalizer; cbn [om_set_Finalizers om_Finalizers].
  apply eq_true_iff_eq. rewrite andb_true_iff, negb_true_iff, bool_decide_eq_false, !bool_decide_eq_true.
  destruct (om_Finalizers m); simpl; [|set_solver].
  rewrite list_elem_of_filter. naive_solver.
Qed.

(** ** Lemmas: conditions *)

Lemma FindStatusCondition_Some cs t c :
  FindStatusCondition cs t = Some c -> c ∈ cs /\ c_Type c = t.
Proof.
  intros H. apply find_some in H as [H1 H2]. case_bool_decide; [|done].
  by rewrite list_elem_of_In.
Qed.

Lemma FindStatusCondition_None cs t :
  FindStatusCondition cs t = None <-> t ∉ (c_Type <$> cs).
Proof.
  induction cs as [|c cs IH]; cbn; [set_solver|].
  case_bool_decide; [set_solver|]. unfold FindStatusCondition in IH. rewrite IH. set_solver.
Qed.

Lemma FindStatusCondition_elem cs c :
  conditions_wf cs -> c ∈ cs -> FindStatusCondition cs (c_Type c) = Some c.
Proof.
  unfold conditions_wf. induction cs as [|d cs IH]; cbn; [set_solver|].
  rewrite NoDup_cons, elem_of_cons. intros [H1 H2] [->|H3].
  - by rewrite bool_decide_true.
  - rewrite bool_decide_false; [by apply IH|].
    intros E. apply H1. rewrite E. by apply list_elem_of_fmap_2.
Qed.

Lemma c_Type_init now c : c_Type (initCondition now c) = c_Type c.
Proof. unfold initCondition. by destruct (IsZeroTime _). Qed.

Lemma setCondition_types now cs c :
  c_Type <$> setCondition now cs c =
    if decide (c_Type c ∈ c_Type <$> cs) then c_Type <$> cs
    else (c_Type <$> cs) ++ [c_Type c].
Proof.
  induction cs as [|d cs IH]; cbn [setCondition].
  - rewrite decide_False by set_solver. cbn. by rewrite c_Type_init.
  - destruct (decide (c_Type d = c_Type c)) as [E|E]; rewrite !fmap_cons.
    + rewrite decide_True by set_solver. done.
    + rewrite IH. repeat case_decide; set_solver.
Qed.

Lemma setCondition_wf now cs c :
  conditions_wf cs -> conditions_wf (setCondition now cs c).
Proof.
  unfold conditions_wf. rewrite setCondition_types. case_decide; [done|].
  intros H'. apply NoDup_app; split; [done|]. split; [|apply NoDup_singleton]. set_solver.
Qed.

(** What a type's condition is after it is set. *)
Definition setResult (now : Time) (old : option Condition) (new : Condition) : Condition :=
  match old with
  | Some c => updateCondition now c new
  | None => initCondition now new
  end.

Lemma FindStatusCondition_set now cs c t :
  FindStatusCondition (setCondition now cs c) t =
    if decide (c_Type c = t) then Some (setResult now (FindStatusCondition cs t) c)
    else FindStatusCondition cs t.
Proof.
  unfold FindStatusCondition.
  induction cs as [|d cs IH]; cbn.
  - rewrite c_Type_init. repeat case_decide; case_bool_decide; try done.
  - destruct (decide (c_Type d = c_Type c)) as [E|E]; cbn.
    + rewrite E. repeat case_decide; repeat case_bool_decide; try done.
    + repeat case_decide; repeat case_bool_decide; try congruence; rewrite ?IH;
        repeat case_decide; try congruence; done.
Qed.

Lemma FindStatusCondition_Remove (cs : slice Condition) t t' :
  FindStatusCondition (elems (RemoveStatusCondition cs t)) t' =
    if decide (t = t') then None else FindStatusCondition (elems cs) t'.
Proof.
  destruct cs as [[|c cs]|]; cbn [RemoveStatusCondition elems default];
    [by case_decide | | by case_decide].
  unfold FindStatusCondition. cbn [RemoveStatusCondition elems default from_option id].
  generalize (c :: cs) as ds. intros ds.
  induction ds as [|d ds IH]; [by case_decide|].
  rewrite filter_cons. repeat case_decide; cbn; repeat case_bool_decide; try congruence;
    rewrite ?IH; repeat case_decide; congruence.
Qed.

Lemma RemoveStatusCondition_wf (cs : slice Condition) t :
  conditions_wf (elems cs) -> conditions_wf (elems (RemoveStatusCondition cs t)).
Proof.
  unfold conditions_wf. destruct cs as [[|c cs]|]; [done| |done].
  cbn [RemoveStatusCondition elems default from_option id].
  generalize (c :: cs) as ds. intros ds.
  induction ds as [|d ds IH]; [done|]. rewrite fmap_cons, NoDup_cons. intros [H1 H2].
  rewrite filter_cons. case_decide; [|by apply IH]. rewrite fmap_cons, NoDup_cons.
  split; [|by apply IH]. intros (e & E & (_ & He)%list_elem_of_filter)%list_elem_of_fmap.
  apply H1. rewrite E. by apply list_elem_of_fmap_2.
Qed.

(** Setting a condition that is already there, with its transition time left
    to the function, changes nothing. *)
Lemma setCondition_same now cs c old :
  FindStatusCondition cs (c_Type c) = Some old ->
  c_Status old = c_Status c -> c_Reason old = c_Reason c -> c_Message old = c_Message c ->
  c_ObservedGeneration old = c_ObservedGeneration c ->
  setCondition now cs c = cs.
Proof.
  unfold FindStatusCondition. intros Hf Hs Hr Hm Hg.
  induction cs as [|d cs IH]; cbn in *; [done|].
  case_bool_decide as E; case_decide; try congruence.
  - injection Hf as ->. f_equal. unfold updateCondition.
    rewrite decide_True by done. destruct old, c; cbn in *; congruence.
  - by rewrite IH.
Qed.

#[export] Hint Resolve setCondition_wf RemoveStatusCondition_wf : go.
