(* ===== verification/Quantity.v ===== *)
(** * Resource quantities

    k8s.io/apimachinery/pkg/api/resource as vendored: the two representations of
    an amount (a scaled int64, or a decimal of any size), parsing, and the
    operations the operator uses ([MustParse], [Value], [Equal]). *)

From S2P Require Import Prelude DeepEqual.

(** [int64Amount] is [value * 10^scale]; [inf.Dec] is [unscaled * 10^-scale]. *)
Inductive amount :=
| AInt (value scale : Z)
| ADec (unscaled scale : Z).

Inductive Format := DecimalExponent | BinarySI | DecimalSI.

(** [q_s] is the cached string form, empty when it is not computed. *)
Record Quantity := mkQuantity {
  q_amount : amount;
  q_s : string;
  q_Format : Format }.

#[export] Instance amount_eq_dec : EqDecision amount.
Proof. solve_decision. Defined.
#[export] Instance Format_eq_dec : EqDecision Format.
Proof. solve_decision. Defined.
#[export] Instance Quantity_eq_dec : EqDecision Quantity.
Proof. solve_decision. Defined.

(** ** Parsing *)

Definition isDigit (c : ascii) : bool :=
  let n := nat_of_ascii c in (48 <=? n) && (n <=? 57).

(** The longest prefix of bytes that satisfy [p], and the rest. *)
Fixpoint span (p : ascii -> bool) (s : string) : string * string :=
  match s with
  | EmptyString => ("", "")
  | String c s' =>
      if p c then let '(a, b) := span p s' in (String c a, b) else ("", s)
  end.

Fixpoint parseDigits (acc : Z) (s : string) : Z :=
  match s with
  | EmptyString => acc
  | String c s' => parseDigits (10 * acc + Z.of_nat (nat_of_ascii c - 48)) s'
  end.

Fixpoint allDigits (s : string) : bool :=
  match s with
  | EmptyString => true
  | String c s' => isDigit c && allDigits s'
  end.

(** A leading sign, and what follows it. *)
Definition cutSign (s : string) : bool * string :=
  match s with
  | String "-" s' => (false, s')
  | String "+" s' => (true, s')
  | _ => (true, s)
  end.

(** [strconv.ParseInt(s, 10, 64)] *)
Definition ParseInt (s : string) : option Z :=
  let '(positive, digits) := cutSign s in
  if bool_decide (digits = "") || negb (allDigits digits) then None
  else
    let v := (if positive then parseDigits 0 digits else - parseDigits 0 digits)%Z in
    if ((minInt64 <=? v) && (v <=? maxInt64))%Z then Some v else None.

Definition isSuffixByte (c : ascii) : bool :=
  negb (str_free c "eEinumkKMGTP").

(** The parts of a quantity: sign, [value] (the text of the number), numerator,
    denominator and suffix. *)
Record parts := mkParts {
  p_positive : bool; p_value : string; p_num : string; p_denom : string; p_suffix : string }.

Definition ErrFormatWrong : error :=
  EVar "ErrFormatWrong" "quantities must match the regular expression '^([+-]?[0-9.]+)([eEinumkKMGTP]*[-+]?[0-9]*)$'".
Definition ErrNumeric : error :=
  EVar "ErrNumeric" "unable to parse numeric part of quantity".
Definition ErrSuffix : error :=
  EVar "ErrSuffix" "unable to parse quantity's suffix".

Definition parseQuantityString (str : string) : result parts :=
  let '(positive, s0) := cutSign str in
  let '(_, s1) := span (fun c => bool_decide (c = "0"%char)) s0 in
  if bool_decide (s1 = "") then Ok (mkParts positive "0" "0" "" "") else
  let '(num, s2) := span isDigit s1 in
  if bool_decide (s2 = "") then Ok (mkParts positive str num "" "") else
  let num := if bool_decide (num = "") then "0" else num in
  let '(dot, denom, s3) := match s2 with
                           | String "." s => let '(d, r) := span isDigit s in (true, d, r)
                           | _ => (false, "", s2)
                           end in
  if dot && bool_decide (s3 = "") then Ok (mkParts positive str num denom "") else
  let value := str_take (String.length str - String.length s3) str in
  let '(_, s4) := span isSuffixByte s3 in
  if bool_decide (s4 = "") then Ok (mkParts positive value num denom s3) else
  let '(_, s5) := cutSign s4 in
  let '(_, s6) := span isDigit s5 in
  if bool_decide (s6 = "") then Ok (mkParts positive value num denom s3)
  else Err ErrFormatWrong.

(** [quantitySuffixer.interpret]: base, exponent and format. *)
Definition interpret (suffix : string) : option (Z * Z * Format) :=
  if bool_decide (suffix = "") then Some (10, 0, DecimalSI)%Z
  else if bool_decide (suffix = "n") then Some (10, -9, DecimalSI)%Z
  else if bool_decide (suffix = "u") then Some (10, -6, DecimalSI)%Z
  else if bool_decide (suffix = "m") then Some (10, -3, DecimalSI)%Z
  else if bool_decide (suffix = "k") then Some (10, 3, DecimalSI)%Z
  else if bool_decide (suffix = "M") then Some (10, 6, DecimalSI)%Z
  else if bool_decide (suffix = "G") then Some (10, 9, DecimalSI)%Z
  else if bool_decide (suffix = "T") then Some (10, 12, DecimalSI)%Z
  else if bool_decide (suffix = "P") then Some (10, 15, DecimalSI)%Z
  else if bool_decide (suffix = "E") then Some (10, 18, DecimalSI)%Z
  else if bool_decide (suffix = "Ki") then Some (2, 10, BinarySI)%Z
  else if bool_decide (suffix = "Mi") then Some (2, 20, BinarySI)%Z
  else if bool_decide (suffix = "Gi") then Some (2, 30, BinarySI)%Z
  else if bool_decide (suffix = "Ti") then Some (2, 40, BinarySI)%Z
  else if bool_decide (suffix = "Pi") then Some (2, 50, BinarySI)%Z
  else if bool_decide (suffix = "Ei") then Some (2, 60, BinarySI)%Z
  else match suffix with
       | String c rest =>
           if (bool_decide (c = "E"%char) || bool_decide (c = "e"%char))
              && negb (bool_decide (rest = ""))
           then (fun parsed => (10%Z, int32 parsed, DecimalExponent)) <$> ParseInt rest
           else None
       | EmptyString => None
       end.

Definition int64Multiply (a b : Z) : option Z :=
  (if bool_decide (a = 0) || bool_decide (b = 0) || bool_decide (a = 1) || bool_decide (b = 1)
   then Some (int64 (a * b))
   else if bool_decide (a = minInt64) || bool_decide (b = minInt64) then None
   else let c := int64 (a * b) in if bool_decide (Z.quot c b = a) then Some c else None)%Z.

Definition HasSuffix (s suf : string) : bool := (CutSuffix s suf).2.

(** The fast path: a number that fits in an int64, or nothing. *)
Definition fastPath (str : string) (p : parts) (exponent : Z) (format : Format) : option Quantity :=
  let lenNum := Z.of_nat (String.length (p_num p)) in
  let lenDenom := Z.of_nat (String.length (p_denom p)) in
  let '(precision, scale, mantissa) :=
    (match format with
     | BinarySI =>
         if bool_decide (0 <= exponent) && bool_decide (lenDenom = 0)
         then (15 - lenNum - exponent * 3 / 10 - 1, 0, 2 ^ exponent)
         else (-1, 0, 1)
     | _ => (18 - (lenNum + lenDenom), exponent, 1)
     end)%Z in
  let scale := (scale - lenDenom)%Z in
  if ((precision <? 0) || (scale <? -9))%Z then None else
  let shifted := p_num p +:+ p_denom p in
  let value := parseDigits 0 shifted in
  match int64Multiply value mantissa with
  | None => None
  | Some result =>
      let result := (if p_positive p then result else - result)%Z in
      let canonical :=
        match format with
        | BinarySI => bool_decide (exponent mod 10 = 0)%Z && negb (bool_decide (Z.land value 7 = 0)%Z)
        | _ => bool_decide (Z.rem scale 3 = 0)%Z && negb (HasSuffix shifted "000")
               && negb (HasPrefix shifted "0")
        end in
      Some (mkQuantity (AInt result scale) (if canonical then str else "") format)
  end.

(** [amount.Round(amount, 9, inf.RoundUp)]: away from zero, to scale 9. *)
Definition roundUpNano (unscaled scale : Z) : Z :=
  (if scale <=? 9 then unscaled * 10 ^ (9 - scale)
   else let d := 10 ^ (scale - 9) in
        let q := Z.quot unscaled d in
        if bool_decide (Z.rem unscaled d = 0) then q else q + Z.sgn unscaled)%Z.

(** The slow path: a decimal of any size, rounded up to nano and capped. *)
Definition slowPath (p : parts) (base exponent : Z) (format : Format) : result Quantity :=
  let digits := (cutSign (p_value p)).2 in
  let '(whole, rest) := span isDigit digits in
  let frac := match rest with String "." f => f | _ => "" end in
  if bool_decide (whole +:+ frac = "") then Err ErrNumeric else
  let unscaled := parseDigits 0 (whole +:+ frac) in
  let scale := Z.of_nat (String.length frac) in
  let '(unscaled, scale) := (if bool_decide (base = 10) then (unscaled, scale - exponent)
                             else (unscaled * 2 ^ exponent, scale))%Z in
  let '(unscaled, scale) := (if bool_decide (unscaled = 0) then (unscaled, scale)
                             else (roundUpNano unscaled scale, 9))%Z in
  let binary := bool_decide (format = BinarySI) in
  let '(unscaled, scale) := (if binary && (maxInt64 * 10 ^ scale <? unscaled)
                             then (maxInt64, 0) else (unscaled, scale))%Z in
  let format := (if binary && (unscaled <? 10 ^ scale) && (0 <? unscaled) then DecimalSI
                 else format)%Z in
  Ok (mkQuantity (ADec (if p_positive p then unscaled else - unscaled)%Z scale) "" format).

Definition ParseQuantity (str : string) : result Quantity :=
  if bool_decide (str = "") then Err ErrFormatWrong
  else if bool_decide (str = "0") then Ok (mkQuantity (AInt 0 0) "0" DecimalSI)
  else rbind (parseQuantityString str) (fun p =>
    match interpret (p_suffix p) with
    | None => Err ErrSuffix
    | Some (base, exponent, format) =>
        match fastPath str p exponent format with
        | Some q => Ok q
        | None => slowPath p base exponent format
        end
    end).

(** [None] is the panic. *)
Definition MustParse (str : string) : option Quantity :=
  match ParseQuantity str with Ok q => Some q | Err _ => None end.

(** ** Values *)

(** [negativeScaleInt64]: division by [10^n], away from zero. *)
Fixpoint negativeScaleLoop (n : nat) (base value : Z) (fraction : bool) : Z :=
  match n with
  | O => if fraction then (if 0 <? base then value + 1 else value - 1)%Z else value
  | S n' =>
      let fraction := fraction || negb (bool_decide (Z.rem value 10 = 0%Z)) in
      let value := Z.quot value 10 in
      if bool_decide (value = 0%Z) then
        (if fraction then (if 0 <? base then 1 else -1) else 0)%Z
      else negativeScaleLoop n' base value fraction
  end.

(** [positiveScaleInt64]: what it returns as the value, which the callers use
    even when it overflowed. *)
Definition int64MultiplyScale (a b : Z) : Z * bool :=
  (if bool_decide (a = 0) || bool_decide (a = 1) then (int64 (a * b), true)
   else if bool_decide (a = minInt64) then (0, false)
   else let c := int64 (a * b) in (c, bool_decide (Z.quot c b = a)))%Z.

Fixpoint positiveScaleLoop (n : nat) (value : Z) : Z :=
  match n with
  | O => value
  | S n' => match int64MultiplyScale value 10 with
            | (v, true) => positiveScaleLoop n' v
            | (_, false) => 0%Z
            end
  end.

Definition positiveScaleInt64 (base : Z) (scale : nat) : Z :=
  match scale with
  | 0 => base
  | 1 | 2 | 3 | 6 | 9 => (int64MultiplyScale base (10 ^ Z.of_nat scale)).1
  | _ => positiveScaleLoop scale base
  end.

(** [int64(math.Pow10(n))]; a float out of range converts to the smallest int64
    on amd64. *)
Definition pow10Int64 (n : Z) : Z := if (n <=? 18)%Z then (10 ^ n)%Z else minInt64.

(** [scaledValue(unscaled, scale, 0)] *)
Definition scaledValue (unscaled scale : Z) : Z :=
  (if bool_decide (scale = 0) then int64 unscaled
   else if scale <? 0 then int64 (int64 unscaled * pow10Int64 (- scale))
   else if (unscaled <? maxInt64) && (scale <? 19) then
     let divide := 10 ^ scale in
     let u := int64 unscaled in
     int64 (if bool_decide (Z.rem u divide = 0) then Z.quot u divide else Z.quot u divide + 1)
   else
     let divide := 10 ^ scale in
     int64 (int64 (unscaled / divide)
            + (if bool_decide (unscaled mod divide = 0) then 0 else 1)))%Z.

(** [Quantity.Value] *)
Definition Value (q : Quantity) : Z :=
  match q_amount q with
  | AInt value scale =>
      if (scale <? 0)%Z then negativeScaleLoop (Z.to_nat (- scale)) value value false
      else positiveScaleInt64 value (Z.to_nat scale)
  | ADec unscaled scale => scaledValue unscaled scale
  end.

(** [Quantity.Equal] compares the numbers: both as multiples of the smaller
    power of ten. *)
Definition amountDec (a : amount) : Z * Z :=
  match a with
  | AInt value scale => (value, - scale)%Z
  | ADec unscaled scale => (unscaled, scale)
  end.

Definition QuantityEqual (x y : Quantity) : bool :=
  let '(u, s) := amountDec (q_amount x) in
  let '(v, t) := amountDec (q_amount y) in
  let m := Z.max s t in
  bool_decide (u * 10 ^ (m - s) = v * 10 ^ (m - t))%Z.

(** [equality.Semantic.DeepEqual] compares quantities by [Cmp]: the canonical
    form strips the factors of ten of the number and drops the text. *)
Fixpoint stripTens (fuel : nat) (u s : Z) : Z * Z :=
  match fuel with
  | O => (u, s)
  | S fuel' => if bool_decide (Z.rem u 10 = 0%Z) then stripTens fuel' (Z.quot u 10) (s - 1) else (u, s)
  end.

#[export] Instance Quantity_canon : Canon Quantity := fun q =>
  let '(u, s) := amountDec (q_amount q) in
  let '(u, s) := if bool_decide (u = 0%Z) then (0%Z, 0%Z)
                 else stripTens (Z.to_nat (Z.log2 (Z.abs u))) u s in
  mkQuantity (ADec u s) "" DecimalSI.

(** ** Concrete values *)

Example parse_120Gi :
  MustParse "120Gi" = Some (mkQuantity (AInt 128849018880 0) "" BinarySI).
Proof. reflexivity. Qed.
Example parse_3920m : option_map Value (MustParse "3920m") = Some 4%Z.
Proof. reflexivity. Qed.
Example parse_half : option_map Value (MustParse "0.5") = Some 1%Z.
Proof. reflexivity. Qed.
Example parse_20E : option_map Value (MustParse "20E") = Some 0%Z.
Proof. reflexivity. Qed.
Example parse_big : option_map Value (MustParse "100000000000000000000Gi") = Some maxInt64.
Proof. reflexivity. Qed.
Example parse_bad : (MustParse "1x", MustParse "Gi5", MustParse "") = (None, None, None).
Proof. reflexivity. Qed.
Example parse_1500Ki : MustParse "1.5Ki" = Some (mkQuantity (ADec 1536000000000 9) "" BinarySI).
Proof. reflexivity. Qed.

(** ** The value of a quantity

    [Value] is the number rounded up, for the numbers it is meant for: those that
    are not negative and fit in an int64 once rounded. *)

Definition ceilDec (u s : Z) : Z :=
  (if s <=? 0 then u * 10 ^ (- s) else - (- u / 10 ^ s))%Z.

Definition Representable (q : Quantity) : Prop :=
  let '(u, s) := amountDec (q_amount q) in
  (0 <= u /\ ceilDec u s <= maxInt64)%Z /\
  match q_amount q with AInt value _ => (value <= maxInt64)%Z | ADec _ _ => True end.

Lemma ceil_div u d :
  (0 < d -> - (- u / d) = u / d + (if bool_decide (u mod d = 0) then 0 else 1))%Z.
Proof.
  intros Hd. pose proof (Z.div_mod u d ltac:(lia)) as E.
  pose proof (Z.mod_pos_bound u d Hd) as B. case_bool_decide as H.
  - rewrite Z.div_opp_l_z by lia. lia.
  - rewrite Z.div_opp_l_nz by lia. lia.
Qed.

Lemma ceilDec_shift u s k : (0 <= k -> ceilDec (u * 10 ^ k) (s + k) = ceilDec u s)%Z.
Proof.
  intros Hk. unfold ceilDec.
  destruct (Z.leb_spec s 0), (Z.leb_spec (s + k) 0); try lia.
  - rewrite <- Z.mul_assoc, <- Z.pow_add_r by lia. do 2 f_equal. lia.
  - replace (u * 10 ^ k)%Z with (u * 10 ^ (- s) * 10 ^ (s + k))%Z.
    + rewrite <- Z.mul_opp_l, Z.div_mul by (pose proof (Z.pow_pos_nonneg 10 (s + k)); lia). lia.
    + rewrite <- Z.mul_assoc, <- Z.pow_add_r by lia. do 2 f_equal. lia.
  - rewrite Z.pow_add_r by lia. rewrite <- Z.mul_opp_l.
    rewrite Z.div_mul_cancel_r; [done | |]; pose proof (Z.pow_pos_nonneg 10 k);
      pose proof (Z.pow_pos_nonneg 10 s); lia.
Qed.

Lemma negativeScaleLoop_spec n base v f :
  (0 < base -> 0 <= v -> v <> 0 \/ f = false ->
   negativeScaleLoop n base v f =
     v / 10 ^ Z.of_nat n + (if f || negb (bool_decide (v mod 10 ^ Z.of_nat n = 0)) then 1 else 0))%Z.
Proof.
  intros Hb. revert v f. induction n as [|n IH]; intros v f Hv Hne; cbn [negativeScaleLoop].
  - rewrite Z.pow_0_r, Z.div_1_r, Z.mod_1_r, bool_decide_true, orb_false_r by done.
    destruct (0 <? base)%Z eqn:E; [|lia]. destruct f; lia.
  - rewrite Z.rem_mod_nonneg, Z.quot_div_nonneg by lia.
    set (v1 := (v / 10)%Z). set (p := (10 ^ Z.of_nat n)%Z).
    assert (0 < p)%Z by (apply Z.pow_pos_nonneg; lia).
    rewrite Nat2Z.inj_succ, Z.pow_succ_r by lia. fold p.
    assert (Ed : (v / (10 * p) = v1 / p)%Z) by (unfold v1; rewrite Z.div_div by lia; done).
    assert (Em : (v mod (10 * p) = v mod 10 + 10 * (v1 mod p))%Z).
    { unfold v1. rewrite Z.rem_mul_r by lia. lia. }
    pose proof (Z.mod_pos_bound v 10). pose proof (Z.mod_pos_bound v1 p).
    assert (0 <= v1)%Z by (unfold v1; apply Z.div_pos; lia).
    rewrite Ed, Em. case_bool_decide as Hz.
    + rewrite Hz, Z.div_0_l, Z.mod_0_l by lia.
      destruct (0 <? base)%Z eqn:E; [|lia].
      destruct f; cbn [orb]; [lia|]. repeat case_bool_decide; cbn [negb]; lia.
    + rewrite IH by (done || by left). fold p. f_equal.
      destruct f; cbn [orb]; [done|]. repeat case_bool_decide; cbn [negb orb]; try lia.
Qed.

Lemma int64MultiplyScale_fits a b :
  (0 <= a -> 1 < b -> a * b <= maxInt64 -> int64MultiplyScale a b = (a * b, true))%Z.
Proof.
  intros Ha Hb H. unfold int64MultiplyScale.
  rewrite int64_id by (unfold minInt64; nia).
  case_bool_decide; cbn [orb]; [done|]. case_bool_decide; [done|]. cbn [orb].
  rewrite bool_decide_false by (unfold minInt64; lia).
  rewrite bool_decide_true; [done|]. by rewrite Z.quot_mul by lia.
Qed.

Lemma positiveScaleLoop_fits n v :
  (0 <= v -> v * 10 ^ Z.of_nat n <= maxInt64 -> positiveScaleLoop n v = v * 10 ^ Z.of_nat n)%Z.
Proof.
  revert v; induction n as [|n IH]; intros v Hv; cbn [positiveScaleLoop]; [lia|].
  rewrite Nat2Z.inj_succ, Z.pow_succ_r by lia. intros H.
  assert (0 < 10 ^ Z.of_nat n)%Z by (apply Z.pow_pos_nonneg; lia).
  rewrite int64MultiplyScale_fits by nia. rewrite IH by nia. lia.
Qed.

Lemma positiveScaleInt64_fits n v :
  (0 <= v -> v * 10 ^ Z.of_nat n <= maxInt64 -> positiveScaleInt64 v n = v * 10 ^ Z.of_nat n)%Z.
Proof.
  intros Hv H.
  do 10 (destruct n as [|n];
    [cbn [positiveScaleInt64];
     first [by apply positiveScaleLoop_fits | by rewrite int64MultiplyScale_fits by lia | lia]|]).
  by apply positiveScaleLoop_fits.
Qed.

Lemma scaledValue_spec u s :
  (0 <= u -> ceilDec u s <= maxInt64 -> (0 <= s \/ u <> 0) -> scaledValue u s = ceilDec u s)%Z.
Proof.
  intros Hu Hc Hs. unfold scaledValue. case_bool_decide as Hz.
  - subst. unfold ceilDec in *. cbn in *. rewrite Z.mul_1_r in *. apply int64_id. unfold minInt64. lia.
  - unfold ceilDec in *. destruct (Z.leb_spec s 0) as [Hs'|Hs'], (Z.ltb_spec s 0); try lia.
    + assert (- s <= 18)%Z.
      { destruct (Z.le_gt_cases (- s) 18); [done|].
        assert (10 ^ 19 <= 10 ^ (- s))%Z by (apply Z.pow_le_mono_r; lia).
        unfold maxInt64 in *. nia. }
      unfold pow10Int64. destruct (Z.leb_spec (- s) 18); [|lia].
      pose proof (Z.pow_pos_nonneg 10 (- s)).
      rewrite (int64_id u) by (unfold minInt64; nia).
      apply int64_id. unfold minInt64. nia.
    + assert (0 < 10 ^ s)%Z by (apply Z.pow_pos_nonneg; lia).
      rewrite ceil_div in * by done.
      assert (0 <= u / 10 ^ s)%Z by (apply Z.div_pos; lia).
      destruct (_ && _)%Z eqn:F.
      * apply andb_true_iff in F as [F1%Z.ltb_lt _].
        rewrite (int64_id u) by (unfold minInt64; lia).
        rewrite Z.quot_div_nonneg, Z.rem_mod_nonneg by lia.
        case_bool_decide; rewrite int64_id; unfold minInt64; lia.
      * rewrite (int64_id (u / 10 ^ s)); [|case_bool_decide; unfold minInt64; lia].
        apply int64_id. case_bool_decide; unfold minInt64; lia.
Qed.

(** [Value] rounds up. *)
Lemma Value_ceil q :
  Representable q ->
  Value q = let '(u, s) := amountDec (q_amount q) in if decide (u = 0%Z) then 0%Z else ceilDec u s.
Proof.
  unfold Representable, Value. destruct (q_amount q) as [v sc|u s]; cbn [amountDec].
  - intros [[Hv Hc] Hm]. case_decide as Hz.
    + subst. destruct (Z.ltb_spec sc 0).
      * destruct (Z.to_nat (- sc)); [done|]. cbn. done.
      * rewrite positiveScaleInt64_fits; unfold maxInt64; lia.
    + destruct (Z.ltb_spec sc 0).
      * rewrite negativeScaleLoop_spec by lia. unfold ceilDec in *.
        destruct (Z.leb_spec (- sc) 0); [lia|]. rewrite Z2Nat.id by lia.
        rewrite ceil_div by (apply Z.pow_pos_nonneg; lia).
        cbn [orb]. by case_bool_decide.
      * unfold ceilDec in *. destruct (Z.leb_spec (- sc) 0); [|lia].
        rewrite Z.opp_involutive in *.
        rewrite positiveScaleInt64_fits by (rewrite ?Z2Nat.id by lia; lia).
        by rewrite Z2Nat.id by lia.
  - intros [[Hu Hc] _]. case_decide as Hz.
    + subst. unfold scaledValue. case_bool_decide; [by subst|].
      destruct (Z.ltb_spec s 0); [by rewrite Z.mul_0_l|].
      destruct (_ && _); [done|]. by rewrite Z.div_0_l, Z.mod_0_l by (pose proof (Z.pow_pos_nonneg 10 s); lia).
    + apply scaledValue_spec; lia.
Qed.

(** Quantities that compare equal have the same value. *)
Lemma QuantityEqual_Value x y :
  Representable x -> Representable y -> QuantityEqual x y = true -> Value x = Value y.
Proof.
  intros Hx Hy. rewrite !Value_ceil by done. unfold QuantityEqual.
  destruct (amountDec (q_amount x)) as [u s], (amountDec (q_amount y)) as [v t].
  set (m := Z.max s t). intros H%bool_decide_eq_true.
  assert (0 < 10 ^ (m - s))%Z by (apply Z.pow_pos_nonneg; lia).
  assert (0 < 10 ^ (m - t))%Z by (apply Z.pow_pos_nonneg; lia).
  rewrite <- (ceilDec_shift u s (m - s)), <- (ceilDec_shift v t (m - t)) by lia.
  rewrite H. replace (s + (m - s))%Z with (t + (m - t))%Z by lia.
  repeat case_decide; nia.
Qed.
