(* ===== verification/CoreTypes.v ===== *)
(** * Kubernetes and Karpenter objects

    The upstream API types the operator reads and writes (k8s.io/api core,
    certificates and admissionregistration, sigs.k8s.io/karpenter), each with the
    fields the operator's code reads or sets. *)

From S2P Require Import Prelude DeepEqual MetaV1 Quantity.

(** ** core/v1 *)

Record Secret := mkSecret {
  secret_meta : ObjectMeta;
  secret_Data : gomap string }.

Record ConfigMap := mkConfigMap {
  cm_meta : ObjectMeta;
  cm_Data : gomap string }.

Record Node := mkNode { node_meta : ObjectMeta }.

(** ** karpenter.sh/v1 *)

Record NodePool := mkNodePool { np_meta : ObjectMeta }.

Record NodeClaim := mkNodeClaim {
  nc_meta : ObjectMeta;
  nc_NodeName : string;
  nc_ProviderID : string;
  nc_Capacity : gomap Quantity }.

Definition NodePoolLabelKey : string := "karpenter.sh/nodepool".
Definition NodeClaimTerminationTimestampAnnotationKey : string :=
  "karpenter.sh/nodeclaim-termination-timestamp".
Definition ResourceCPU : string := "cpu".

(** ** certificates.k8s.io/v1 *)

Record CSRCondition := mkCSRCondition {
  csrc_Type : string;
  csrc_Status : string;
  csrc_Reason : string;
  csrc_Message : string }.

(** [csr_Request] is the bytes of the PEM text. *)
Record CertificateSigningRequest := mkCSR {
  csr_meta : ObjectMeta;
  csr_Request : string;
  csr_SignerName : string;
  csr_Username : string;
  csr_Groups : list string;
  csr_Conditions : slice CSRCondition }.

Definition KubeAPIServerClientKubeletSignerName : string := "kubernetes.io/kube-apiserver-client-kubelet".
Definition KubeletServingSignerName : string := "kubernetes.io/kubelet-serving".
Definition CertificateApproved : string := "Approved".
Definition CertificateDenied : string := "Denied".

(** ** admissionregistration.k8s.io/v1 *)

Record LabelSelector := mkLabelSelector {
  ls_MatchLabels : gomap string;
  ls_MatchExpressions : list (string * string * list string) }.

Record NamedRuleWithOperations := mkNamedRule {
  nr_ResourceNames : slice string;
  nr_Operations : slice string;
  nr_APIGroups : slice string;
  nr_APIVersions : slice string;
  nr_Resources : slice string;
  nr_Scope : option string }.

Record MatchResources := mkMatchResources {
  mr_NamespaceSelector : option LabelSelector;
  mr_ObjectSelector : option LabelSelector;
  mr_ResourceRules : slice NamedRuleWithOperations;
  mr_ExcludeResourceRules : slice NamedRuleWithOperations;
  mr_MatchPolicy : option string }.

Record Validation := mkValidation {
  val_Expression : string;
  val_Message : string;
  val_Reason : option string;
  val_MessageExpression : string }.

Record ValidatingAdmissionPolicy := mkVAP {
  vap_meta : ObjectMeta;
  vap_ParamKind : option (string * string);
  vap_MatchConstraints : option MatchResources;
  vap_Validations : slice Validation;
  vap_FailurePolicy : option string;
  vap_AuditAnnotations : slice (string * string);
  vap_MatchConditions : slice (string * string);
  vap_Variables : slice (string * string) }.

Record ValidatingAdmissionPolicyBinding := mkVAPBinding {
  vapb_meta : ObjectMeta;
  vapb_PolicyName : string;
  vapb_ParamRefName : option string;
  vapb_MatchResources : option MatchResources;
  vapb_ValidationActions : slice string }.

(** ** meta/v1 PartialObjectMetadata *)

Record PartialObjectMetadata := mkPartial { pom_meta : ObjectMeta }.

(** ** Equality *)

#[export] Instance Secret_eq_dec : EqDecision Secret.
Proof. solve_decision. Defined.
#[export] Instance ConfigMap_eq_dec : EqDecision ConfigMap.
Proof. solve_decision. Defined.
#[export] Instance Node_eq_dec : EqDecision Node.
Proof. solve_decision. Defined.
#[export] Instance NodePool_eq_dec : EqDecision NodePool.
Proof. solve_decision. Defined.
#[export] Instance NodeClaim_eq_dec : EqDecision NodeClaim.
Proof. solve_decision. Defined.
#[export] Instance CSRCondition_eq_dec : EqDecision CSRCondition.
Proof. solve_decision. Defined.
#[export] Instance CSR_eq_dec : EqDecision CertificateSigningRequest.
Proof. solve_decision. Defined.
#[export] Instance LabelSelector_eq_dec : EqDecision LabelSelector.
Proof. solve_decision. Defined.
#[export] Instance NamedRule_eq_dec : EqDecision NamedRuleWithOperations.
Proof. solve_decision. Defined.
#[export] Instance MatchResources_eq_dec : EqDecision MatchResources.
Proof. solve_decision. Defined.
#[export] Instance Validation_eq_dec : EqDecision Validation.
Proof. solve_decision. Defined.
#[export] Instance VAP_eq_dec : EqDecision ValidatingAdmissionPolicy.
Proof. solve_decision. Defined.
#[export] Instance VAPBinding_eq_dec : EqDecision ValidatingAdmissionPolicyBinding.
Proof. solve_decision. Defined.
#[export] Instance PartialObjectMetadata_eq_dec : EqDecision PartialObjectMetadata.
Proof. solve_decision. Defined.

#[export] Instance canon_pair {A B} `{Canon A, Canon B} : Canon (A * B) :=
  fun p => (canon p.1, canon p.2).
#[export] Instance ConfigMap_canon : Canon ConfigMap := fun c =>
  mkConfigMap (canon (cm_meta c)) (canon (cm_Data c)).
#[export] Instance LabelSelector_canon : Canon LabelSelector := fun s =>
  mkLabelSelector (canon (ls_MatchLabels s)) (ls_MatchExpressions s).
#[export] Instance NamedRule_canon : Canon NamedRuleWithOperations := fun r =>
  mkNamedRule (canon (nr_ResourceNames r)) (canon (nr_Operations r)) (canon (nr_APIGroups r))
    (canon (nr_APIVersions r)) (canon (nr_Resources r)) (nr_Scope r).
#[export] Instance MatchResources_canon : Canon MatchResources := fun m =>
  mkMatchResources (canon (mr_NamespaceSelector m)) (canon (mr_ObjectSelector m))
    (canon (mr_ResourceRules m)) (canon (mr_ExcludeResourceRules m)) (mr_MatchPolicy m).
#[export] Instance Validation_canon : Canon Validation := fun v => v.
#[export] Instance VAP_canon : Canon ValidatingAdmissionPolicy := fun p =>
  mkVAP (canon (vap_meta p)) (vap_ParamKind p) (canon (vap_MatchConstraints p))
    (canon (vap_Validations p)) (vap_FailurePolicy p) (canon (vap_AuditAnnotations p))
    (canon (vap_MatchConditions p)) (canon (vap_Variables p)).
#[export] Instance VAPBinding_canon : Canon ValidatingAdmissionPolicyBinding := fun b =>
  mkVAPBinding (canon (vapb_meta b)) (vapb_PolicyName b) (vapb_ParamRefName b)
    (canon (vapb_MatchResources b)) (canon (vapb_ValidationActions b)).

(** ** Field updates *)

Definition nc_set_meta (m : ObjectMeta) (n : NodeClaim) : NodeClaim :=
  mkNodeClaim m (nc_NodeName n) (nc_ProviderID n) (nc_Capacity n).
