(* ===== verification/HyperTypes.v ===== *)
(** * HyperShift objects

    The parts of github.com/openshift/hypershift/api (hypershift/v1beta1) that
    the operator reads and writes: the HostedControlPlane and its control plane
    version history. *)

From S2P Require Import Prelude DeepEqual MetaV1.

(** [AWSResourceTagOverridePolicy] is a string. *)
Record AWSClusterResourceTag := mkTag {
  tag_Key : string;
  tag_Value : string;
  tag_OverridePolicy : string }.

Definition AWSResourceTagOverridePolicyAllow : string := "Allow".

Record AWSPlatformSpec := mkAWSPlatform { aws_ResourceTags : slice AWSClusterResourceTag }.

(** The desired release of configv1.Release. *)
Record Release := mkRelease {
  rel_Architecture : string;
  rel_Version : string;
  rel_Image : string;
  rel_URL : string;
  rel_Channels : slice string }.

Record ControlPlaneUpdateHistory := mkHistory {
  hist_State : string;
  hist_StartedTime : Time;
  hist_CompletionTime : Time;
  hist_Version : string;
  hist_Image : string }.

Definition CompletedUpdate : string := "Completed".
Definition PartialUpdate : string := "Partial".

Record ControlPlaneVersionStatus := mkCPVersion {
  cpv_Desired : Release;
  cpv_History : slice ControlPlaneUpdateHistory;
  cpv_ObservedGeneration : Z }.

Record AutoNodeStatus := mkAutoNodeStatus {
  ans_NodeCount : option Z;
  ans_NodeClaimCount : option Z;
  ans_VCPUs : option Z }.

(** [spec.autoNode]: the provisioner's name and its platform's settings. *)
Record AutoNode := mkAutoNode {
  an_ProvisionerName : string;
  an_KarpenterPlatform : string;
  an_KarpenterAWSRoleARN : string;
  an_KarpenterAzureClientID : string }.
Definition ProvisionerKarpenter : string := "Karpenter".
Definition zeroAutoNode : AutoNode := mkAutoNode "" "" "" "".

Definition hyperv1beta1GroupVersion : string := "hypershift.openshift.io/v1beta1".

Record HostedControlPlane := mkHCP {
  hcp_meta : ObjectMeta;
  hcp_InfraID : string;
  hcp_SpecAutoNode : AutoNode;
  hcp_AWS : option AWSPlatformSpec;
  hcp_ControlPlaneVersion : ControlPlaneVersionStatus;
  hcp_AutoNode : AutoNodeStatus }.

Definition AWSKarpenterDefaultInstanceProfile : string :=
  "hypershift.openshift.io/aws-karpenter-default-instance-profile".

#[export] Instance Tag_eq_dec : EqDecision AWSClusterResourceTag.
Proof. solve_decision. Defined.
#[export] Instance AWSPlatformSpec_eq_dec : EqDecision AWSPlatformSpec.
Proof. solve_decision. Defined.
#[export] Instance Release_eq_dec : EqDecision Release.
Proof. solve_decision. Defined.
#[export] Instance History_eq_dec : EqDecision ControlPlaneUpdateHistory.
Proof. solve_decision. Defined.
#[export] Instance CPVersion_eq_dec : EqDecision ControlPlaneVersionStatus.
Proof. solve_decision. Defined.
#[export] Instance AutoNodeStatus_eq_dec : EqDecision AutoNodeStatus.
Proof. solve_decision. Defined.
#[export] Instance AutoNode_eq_dec : EqDecision AutoNode.
Proof. solve_decision. Defined.
#[export] Instance HCP_eq_dec : EqDecision HostedControlPlane.
Proof. solve_decision. Defined.

#[export] Instance Tag_canon : Canon AWSClusterResourceTag := fun t => t.
#[export] Instance History_canon : Canon ControlPlaneUpdateHistory := fun h => h.
#[export] Instance Release_canon : Canon Release := fun r =>
  mkRelease (rel_Architecture r) (rel_Version r) (rel_Image r) (rel_URL r) (canon (rel_Channels r)).
#[export] Instance CPVersion_canon : Canon ControlPlaneVersionStatus := fun v =>
  mkCPVersion (canon (cpv_Desired v)) (canon (cpv_History v)) (cpv_ObservedGeneration v).
#[export] Instance AutoNode_canon : Canon AutoNode := fun a => a.
#[export] Instance AutoNodeStatus_canon : Canon AutoNodeStatus := fun s => s.

Definition hcp_set_meta (m : ObjectMeta) (h : HostedControlPlane) : HostedControlPlane :=
  mkHCP m (hcp_InfraID h) (hcp_SpecAutoNode h) (hcp_AWS h) (hcp_ControlPlaneVersion h) (hcp_AutoNode h).
Definition hcp_set_AutoNode (a : AutoNodeStatus) (h : HostedControlPlane) : HostedControlPlane :=
  mkHCP (hcp_meta h) (hcp_InfraID h) (hcp_SpecAutoNode h) (hcp_AWS h) (hcp_ControlPlaneVersion h) a.
