(* ===== verification/AwsV1.v ===== *)
(** * The upstream EC2NodeClass

    karpenter.k8s.aws/v1 as vendored
    (github.com/aws/karpenter-provider-aws/pkg/apis/v1): the object the EC2
    NodeClass controller writes, and its restricted tag patterns.  The code
    imports the package as awskarpenterv1; here it is the module [awsv1]. *)

From S2P Require Import Prelude DeepEqual MetaV1 Quantity.

Module awsv1.

Record SubnetSelectorTerm := mkSubnetSelectorTerm { sst_Tags : gomap string; sst_ID : string }.
Record SecurityGroupSelectorTerm := mkSecurityGroupSelectorTerm {
  sgst_Tags : gomap string; sgst_ID : string; sgst_Name : string }.
Record CapacityReservationSelectorTerm := mkCapacityReservationSelectorTerm {
  crst_Tags : gomap string; crst_ID : string; crst_OwnerID : string;
  crst_InstanceMatchCriteria : string }.
Record PlacementGroupSelector := mkPlacementGroupSelector {
  pgs_Name : option string; pgs_ID : option string }.
Record AMISelectorTerm := mkAMISelectorTerm {
  ast_Alias : string; ast_Tags : gomap string; ast_ID : string; ast_Name : string;
  ast_Owner : string; ast_SSMParameter : string }.

(** [metav1.Duration] in nanoseconds. *)
Record KubeletConfiguration := mkKubelet {
  kc_ClusterDNS : slice string;
  kc_MaxPods : option Z;
  kc_PodsPerCore : option Z;
  kc_SystemReserved : gomap string;
  kc_KubeReserved : gomap string;
  kc_EvictionHard : gomap string;
  kc_EvictionSoft : gomap string;
  kc_EvictionSoftGracePeriod : gomap Z;
  kc_EvictionMaxPodGracePeriod : option Z;
  kc_ImageGCHighThresholdPercent : option Z;
  kc_ImageGCLowThresholdPercent : option Z;
  kc_CPUCFSQuota : option bool }.

Record MetadataOptions := mkMetadataOptions {
  mo_HTTPEndpoint : option string;
  mo_HTTPProtocolIPv6 : option string;
  mo_HTTPPutResponseHopLimit : option Z;
  mo_HTTPTokens : option string }.

Record BlockDevice := mkBlockDevice {
  bd_DeleteOnTermination : option bool;
  bd_Encrypted : option bool;
  bd_IOPS : option Z;
  bd_KMSKeyID : option string;
  bd_SnapshotID : option string;
  bd_Throughput : option Z;
  bd_VolumeInitializationRate : option Z;
  bd_VolumeSize : option Quantity;
  bd_VolumeType : option string }.

Record BlockDeviceMapping := mkBlockDeviceMapping {
  bdm_DeviceName : option string; bdm_EBS : option BlockDevice; bdm_RootVolume : bool }.

Record NetworkInterface := mkNetworkInterface {
  ni_NetworkCardIndex : Z; ni_DeviceIndex : Z; ni_InterfaceType : string }.
Record ConnectionTracking := mkConnectionTracking {
  ct_TCPEstablishedTimeout : option Z; ct_UDPStreamTimeout : option Z; ct_UDPTimeout : option Z }.
Record CPUOptions := mkCPUOptions { co_NestedVirtualization : option string }.

Record EC2NodeClassSpec := mkEC2NodeClassSpec {
  SubnetSelectorTerms : slice SubnetSelectorTerm;
  SecurityGroupSelectorTerms : slice SecurityGroupSelectorTerm;
  CapacityReservationSelectorTerms : slice CapacityReservationSelectorTerm;
  PlacementGroupSelectorField : option PlacementGroupSelector;
  AssociatePublicIPAddress : option bool;
  IPPrefixCount : option Z;
  AMISelectorTerms : slice AMISelectorTerm;
  AMIFamily : option string;
  UserData : option string;
  Role : string;
  InstanceProfile : option string;
  Tags : gomap string;
  Kubelet : option KubeletConfiguration;
  BlockDeviceMappings : slice BlockDeviceMapping;
  InstanceStorePolicy : option string;
  NetworkInterfaces : slice NetworkInterface;
  DetailedMonitoring : option bool;
  MetadataOptionsField : option MetadataOptions;
  ConnectionTrackingField : option ConnectionTracking;
  Context : option string;
  CPUOptionsField : option CPUOptions }.

Record Subnet := mkSubnet { sn_ID : string; sn_Zone : string; sn_ZoneID : string }.
Record SecurityGroup := mkSecurityGroup { sg_ID : string; sg_Name : string }.
Record CapacityReservation := mkCapacityReservation {
  cr_AvailabilityZone : string;
  cr_EndTime : option Time;
  cr_ID : string;
  cr_InstanceMatchCriteria : string;
  cr_InstanceType : string;
  cr_OwnerID : string;
  cr_ReservationType : string;
  cr_Interruptible : bool;
  cr_State : string }.

Definition CapacityReservationTypeCapacityBlock : string := "capacity-block".
Definition CapacityReservationStateExpiring : string := "expiring".

(** The resolved AMIs and instance profile of the status are not read. *)
Record EC2NodeClassStatus := mkEC2NodeClassStatus {
  Subnets : slice Subnet;
  SecurityGroups : slice SecurityGroup;
  CapacityReservations : slice CapacityReservation;
  Conditions : slice Condition }.

Record EC2NodeClass := mkEC2NodeClass {
  meta : ObjectMeta;
  Spec : EC2NodeClassSpec;
  Status : EC2NodeClassStatus }.

(** The zero values of the Go structs. *)
Definition zeroSpec : EC2NodeClassSpec :=
  mkEC2NodeClassSpec None None None None None None None None None "" None None None None None
    None None None None None None.
Definition zeroStatus : EC2NodeClassStatus := mkEC2NodeClassStatus None None None None.

Definition Group : string := "karpenter.k8s.aws".

(** ** Restricted tags *)

Definition isAlnum (c : ascii) : bool :=
  let n := nat_of_ascii c in
  ((48 <=? n) && (n <=? 57)) || ((65 <=? n) && (n <=? 90)) || ((97 <=? n) && (n <=? 122)).

Definition isNameByte (c : ascii) : bool :=
  isAlnum c || bool_decide (c = "-"%char) || bool_decide (c = "_"%char).

Fixpoint allBytes (p : ascii -> bool) (s : string) : bool :=
  match s with EmptyString => true | String c s' => p c && allBytes p s' end.

(** ^kubernetes\.io/cluster/[0-9A-Za-z][A-Za-z0-9\-_]*$ *)
Definition matchesClusterTag (key : string) : bool :=
  HasPrefix key "kubernetes.io/cluster/" &&
  match TrimPrefix key "kubernetes.io/cluster/" with
  | String c rest => isAlnum c && allBytes isNameByte rest
  | EmptyString => false
  end.

Definition NodePoolTagKey : string := "karpenter.sh/nodepool".
Definition EKSClusterNameTagKey : string := "eks:eks-cluster-name".
Definition NodeClassTagKey : string := "karpenter.k8s.aws/ec2nodeclass".
Definition NodeClaimTagKey : string := "karpenter.sh/nodeclaim".

(** The patterns, as the predicates [MatchString] computes; the literal ones are
    anchored at both ends. *)
Definition RestrictedTagPatterns : list (string -> bool) :=
  [matchesClusterTag;
   fun key => bool_decide (key = NodePoolTagKey);
   fun key => bool_decide (key = EKSClusterNameTagKey);
   fun key => bool_decide (key = NodeClassTagKey);
   fun key => bool_decide (key = NodeClaimTagKey)].

(** ** Equality *)

#[global] Instance SubnetSelectorTerm_eq_dec : EqDecision SubnetSelectorTerm.
Proof. solve_decision. Defined.
#[global] Instance SecurityGroupSelectorTerm_eq_dec : EqDecision SecurityGroupSelectorTerm.
Proof. solve_decision. Defined.
#[global] Instance CapacityReservationSelectorTerm_eq_dec : EqDecision CapacityReservationSelectorTerm.
Proof. solve_decision. Defined.
#[global] Instance PlacementGroupSelector_eq_dec : EqDecision PlacementGroupSelector.
Proof. solve_decision. Defined.
#[global] Instance AMISelectorTerm_eq_dec : EqDecision AMISelectorTerm.
Proof. solve_decision. Defined.
#[global] Instance KubeletConfiguration_eq_dec : EqDecision KubeletConfiguration.
Proof. solve_decision. Defined.
#[global] Instance MetadataOptions_eq_dec : EqDecision MetadataOptions.
Proof. solve_decision. Defined.
#[global] Instance BlockDevice_eq_dec : EqDecision BlockDevice.
Proof. solve_decision. Defined.
#[global] Instance BlockDeviceMapping_eq_dec : EqDecision BlockDeviceMapping.
Proof. solve_decision. Defined.
#[global] Instance NetworkInterface_eq_dec : EqDecision NetworkInterface.
Proof. solve_decision. Defined.
#[global] Instance ConnectionTracking_eq_dec : EqDecision ConnectionTracking.
Proof. solve_decision. Defined.
#[global] Instance CPUOptions_eq_dec : EqDecision CPUOptions.
Proof. solve_decision. Defined.
#[global] Instance EC2NodeClassSpec_eq_dec : EqDecision EC2NodeClassSpec.
Proof. solve_decision. Defined.
#[global] Instance Subnet_eq_dec : EqDecision Subnet.
Proof. solve_decision. Defined.
#[global] Instance SecurityGroup_eq_dec : EqDecision SecurityGroup.
Proof. solve_decision. Defined.
#[global] Instance CapacityReservation_eq_dec : EqDecision CapacityReservation.
Proof. solve_decision. Defined.
#[global] Instance EC2NodeClassStatus_eq_dec : EqDecision EC2NodeClassStatus.
Proof. solve_decision. Defined.
#[global] Instance EC2NodeClass_eq_dec : EqDecision EC2NodeClass.
Proof. solve_decision. Defined.

#[global] Instance SubnetSelectorTerm_canon : Canon SubnetSelectorTerm := fun t =>
  mkSubnetSelectorTerm (canon (sst_Tags t)) (sst_ID t).
#[global] Instance SecurityGroupSelectorTerm_canon : Canon SecurityGroupSelectorTerm := fun t =>
  mkSecurityGroupSelectorTerm (canon (sgst_Tags t)) (sgst_ID t) (sgst_Name t).
#[global] Instance CapacityReservationSelectorTerm_canon : Canon CapacityReservationSelectorTerm :=
  fun t => mkCapacityReservationSelectorTerm (canon (crst_Tags t)) (crst_ID t) (crst_OwnerID t)
             (crst_InstanceMatchCriteria t).
#[global] Instance AMISelectorTerm_canon : Canon AMISelectorTerm := fun t =>
  mkAMISelectorTerm (ast_Alias t) (canon (ast_Tags t)) (ast_ID t) (ast_Name t) (ast_Owner t)
    (ast_SSMParameter t).
#[global] Instance KubeletConfiguration_canon : Canon KubeletConfiguration := fun k =>
  mkKubelet (canon (kc_ClusterDNS k)) (kc_MaxPods k) (kc_PodsPerCore k)
    (canon (kc_SystemReserved k)) (canon (kc_KubeReserved k)) (canon (kc_EvictionHard k))
    (canon (kc_EvictionSoft k)) (canon (kc_EvictionSoftGracePeriod k))
    (kc_EvictionMaxPodGracePeriod k) (kc_ImageGCHighThresholdPercent k)
    (kc_ImageGCLowThresholdPercent k) (kc_CPUCFSQuota k).
#[global] Instance BlockDevice_canon : Canon BlockDevice := fun b =>
  mkBlockDevice (bd_DeleteOnTermination b) (bd_Encrypted b) (bd_IOPS b) (bd_KMSKeyID b)
    (bd_SnapshotID b) (bd_Throughput b) (bd_VolumeInitializationRate b)
    (canon (bd_VolumeSize b)) (bd_VolumeType b).
#[global] Instance BlockDeviceMapping_canon : Canon BlockDeviceMapping := fun b =>
  mkBlockDeviceMapping (bdm_DeviceName b) (canon (bdm_EBS b)) (bdm_RootVolume b).
#[global] Instance NetworkInterface_canon : Canon NetworkInterface := fun n => n.
#[global] Instance Subnet_canon : Canon Subnet := fun s => s.
#[global] Instance SecurityGroup_canon : Canon SecurityGroup := fun s => s.
#[global] Instance CapacityReservation_canon : Canon CapacityReservation := fun r => r.
#[global] Instance EC2NodeClassSpec_canon : Canon EC2NodeClassSpec := fun s =>
  mkEC2NodeClassSpec (canon (SubnetSelectorTerms s)) (canon (SecurityGroupSelectorTerms s))
    (canon (CapacityReservationSelectorTerms s)) (PlacementGroupSelectorField s)
    (AssociatePublicIPAddress s) (IPPrefixCount s) (canon (AMISelectorTerms s)) (AMIFamily s)
    (UserData s) (Role s) (InstanceProfile s) (canon (Tags s)) (canon (Kubelet s))
    (canon (BlockDeviceMappings s)) (InstanceStorePolicy s) (canon (NetworkInterfaces s))
    (DetailedMonitoring s) (MetadataOptionsField s) (ConnectionTrackingField s) (Context s)
    (CPUOptionsField s).
#[global] Instance EC2NodeClassStatus_canon : Canon EC2NodeClassStatus := fun s =>
  mkEC2NodeClassStatus (canon (Subnets s)) (canon (SecurityGroups s))
    (canon (CapacityReservations s)) (canon (Conditions s)).
#[global] Instance EC2NodeClass_canon : Canon EC2NodeClass := fun c =>
  mkEC2NodeClass (canon (meta c)) (canon (Spec c)) (canon (Status c)).

End awsv1.
