(* ===== verification/KarpenterV1.v ===== *)
(** * The OpenShift EC2 NodeClass

    api/karpenter/v1: [OpenshiftEC2NodeClass] (karpenter_types.go) and its
    kubelet configuration (kubelet_config.go).  The code imports the package as
    openshiftkarpenterv1; here it is the module [osv1].  The enumerations are
    strings, as in Go: the CRD restricts them, the code's switches do not rely on
    it.  The label, annotation and condition names are in NodeClassStatus and
    here. *)

From S2P Require Import Prelude DeepEqual MetaV1.

Module osv1.

(** ** Constants *)

Definition KarpenterImageOverrideAnnotation : string := "autoscaling.openshift.io/karpenter-image".
Definition KarpenterCoreE2EOverrideAnnotation : string := "hypershift.openshift.io/karpenter-core-e2e-override".
Definition TokenSecretNodePoolAnnotation : string := "hypershift.openshift.io/nodePool".
Definition UserDataAMILabel : string := "hypershift.openshift.io/ami".
Definition ManagedByKarpenterLabel : string := "hypershift.openshift.io/managed-by-karpenter".

Definition IPAddressAssociationPublic : string := "Public".
Definition IPAddressAssociationSubnetDefault : string := "SubnetDefault".
Definition MonitoringStateDetailed : string := "Detailed".
Definition MonitoringStateBasic : string := "Basic".
Definition RootVolumeDesignationRootVolume : string := "RootVolume".
Definition DeleteOnTerminationPolicyDelete : string := "Delete".
Definition DeleteOnTerminationPolicyRetain : string := "Retain".
Definition EncryptionStateEncrypted : string := "Encrypted".
Definition EncryptionStateUnencrypted : string := "Unencrypted".
Definition MetadataAccessHTTPEndpoint : string := "HTTPEndpoint".
Definition MetadataAccessNone : string := "None".
Definition MetadataHTTPProtocolIPv4 : string := "IPv4".
Definition MetadataHTTPProtocolIPv6 : string := "IPv6".
Definition MetadataHTTPTokensStateRequired : string := "Required".
Definition MetadataHTTPTokensStateOptional : string := "Optional".
Definition CapacityReservationTypeDefault : string := "Default".
Definition CapacityReservationTypeCapacityBlock : string := "CapacityBlock".
Definition CapacityReservationStateActive : string := "Active".
Definition CapacityReservationStateExpiring : string := "Expiring".

(** ** Spec *)

Record SubnetSelectorTerm := mkSubnetSelectorTerm { sst_Tags : gomap string; sst_ID : string }.
Record SecurityGroupSelectorTerm := mkSecurityGroupSelectorTerm {
  sgst_Tags : gomap string; sgst_ID : string; sgst_Name : string }.
Record CapacityReservationSelectorTerm := mkCapacityReservationSelectorTerm {
  crst_Tags : gomap string; crst_ID : string; crst_OwnerID : string;
  crst_InstanceMatchCriteria : string }.

Record BlockDevice := mkBlockDevice {
  bd_DeleteOnTermination : string;
  bd_Encrypted : string;
  bd_IOPS : option Z;
  bd_KMSKeyID : string;
  bd_SnapshotID : string;
  bd_Throughput : option Z;
  bd_VolumeSizeGiB : Z;
  bd_VolumeType : string }.
Record BlockDeviceMapping := mkBlockDeviceMapping {
  bdm_DeviceName : string; bdm_EBS : BlockDevice; bdm_RootVolume : string }.

Record MetadataOptions := mkMetadataOptions {
  mo_Access : string;
  mo_HTTPIPProtocol : string;
  mo_HTTPPutResponseHopLimit : Z;
  mo_HTTPTokens : string }.

(** [kc_Overflow] is the raw JSON of [Overflow.Raw]. *)
Record KubeletConfiguration := mkKubelet {
  kc_MaxPods : Z;
  kc_PodsPerCore : Z;
  kc_SystemReserved : gomap string;
  kc_KubeReserved : gomap string;
  kc_EvictionHard : gomap string;
  kc_EvictionSoft : gomap string;
  kc_EvictionSoftGracePeriod : gomap string;
  kc_EvictionMaxPodGracePeriod : option Z;
  kc_ImageGCHighThresholdPercent : option Z;
  kc_ImageGCLowThresholdPercent : option Z;
  kc_CPUCFSQuota : option bool;
  kc_Overflow : slice ascii }.

(** [KubeletConfiguration.HasTypedFields] *)
Definition HasTypedFields (k : KubeletConfiguration) : bool :=
  negb (bool_decide (kc_MaxPods k = 0%Z))
  || negb (bool_decide (kc_PodsPerCore k = 0%Z))
  || negb (bool_decide (kc_SystemReserved k = None))
  || negb (bool_decide (kc_KubeReserved k = None))
  || negb (bool_decide (kc_EvictionHard k = None))
  || negb (bool_decide (kc_EvictionSoft k = None))
  || negb (bool_decide (kc_EvictionSoftGracePeriod k = None))
  || negb (bool_decide (kc_EvictionMaxPodGracePeriod k = None))
  || negb (bool_decide (kc_ImageGCHighThresholdPercent k = None))
  || negb (bool_decide (kc_ImageGCLowThresholdPercent k = None))
  || negb (bool_decide (kc_CPUCFSQuota k = None)).

(** [KubeletConfiguration.IsZero] *)
Definition IsZero (k : KubeletConfiguration) : bool :=
  negb (HasTypedFields k) && bool_decide (elems (kc_Overflow k) = []).

Record OpenshiftEC2NodeClassSpec := mkSpec {
  SubnetSelectorTerms : slice SubnetSelectorTerm;
  SecurityGroupSelectorTerms : slice SecurityGroupSelectorTerm;
  CapacityReservationSelectorTerms : slice CapacityReservationSelectorTerm;
  IPAddressAssociation : string;
  Tags : gomap string;
  BlockDeviceMappings : slice BlockDeviceMapping;
  InstanceStorePolicy : string;
  Monitoring : string;
  MetadataOptionsField : MetadataOptions;
  Version : string;
  Kubelet : KubeletConfiguration }.

(** ** Status *)

Record Subnet := mkSubnet { sn_ID : string; sn_Zone : string; sn_ZoneID : string }.
Record SecurityGroup := mkSecurityGroup { sg_ID : string; sg_Name : string }.
Record CapacityReservation := mkCapacityReservation {
  cr_AvailabilityZone : string;
  cr_EndTime : Time;
  cr_ID : string;
  cr_InstanceMatchCriteria : string;
  cr_InstanceType : string;
  cr_OwnerID : string;
  cr_ReservationType : string;
  cr_State : string }.

Record OpenshiftEC2NodeClassStatus := mkStatus {
  Conditions : slice Condition;
  Subnets : slice Subnet;
  SecurityGroups : slice SecurityGroup;
  ReleaseImage : string;
  StatusVersion : string;
  CapacityReservations : slice CapacityReservation }.

Record OpenshiftEC2NodeClass := mkOpenshiftEC2NodeClass {
  meta : ObjectMeta;
  Spec : OpenshiftEC2NodeClassSpec;
  Status : OpenshiftEC2NodeClassStatus }.

(** ** Zero values and updates *)

Definition zeroKubelet : KubeletConfiguration :=
  mkKubelet 0 0 None None None None None None None None None None.
Definition zeroSpec : OpenshiftEC2NodeClassSpec :=
  mkSpec None None None "" None None "" "" (mkMetadataOptions "" "" 0 "") "" zeroKubelet.
Definition zeroStatus : OpenshiftEC2NodeClassStatus := mkStatus None None None "" "" None.

Definition set_meta (m : ObjectMeta) (c : OpenshiftEC2NodeClass) : OpenshiftEC2NodeClass :=
  mkOpenshiftEC2NodeClass m (Spec c) (Status c).
Definition set_Spec (s : OpenshiftEC2NodeClassSpec) (c : OpenshiftEC2NodeClass) :
    OpenshiftEC2NodeClass :=
  mkOpenshiftEC2NodeClass (meta c) s (Status c).
Definition set_Status (s : OpenshiftEC2NodeClassStatus) (c : OpenshiftEC2NodeClass) :
    OpenshiftEC2NodeClass :=
  mkOpenshiftEC2NodeClass (meta c) (Spec c) s.
Definition set_Conditions (cs : slice Condition) (s : OpenshiftEC2NodeClassStatus) :
    OpenshiftEC2NodeClassStatus :=
  mkStatus cs (Subnets s) (SecurityGroups s) (ReleaseImage s) (StatusVersion s)
    (CapacityReservations s).
Definition set_Subnets (x : slice Subnet) (s : OpenshiftEC2NodeClassStatus) : OpenshiftEC2NodeClassStatus :=
  mkStatus (Conditions s) x (SecurityGroups s) (ReleaseImage s) (StatusVersion s) (CapacityReservations s).
Definition set_SecurityGroups (x : slice SecurityGroup) (s : OpenshiftEC2NodeClassStatus) :
    OpenshiftEC2NodeClassStatus :=
  mkStatus (Conditions s) (Subnets s) x (ReleaseImage s) (StatusVersion s) (CapacityReservations s).
Definition set_CapacityReservations (x : slice CapacityReservation) (s : OpenshiftEC2NodeClassStatus) :
    OpenshiftEC2NodeClassStatus :=
  mkStatus (Conditions s) (Subnets s) (SecurityGroups s) (ReleaseImage s) (StatusVersion s) x.

(** ** Equality *)

#[global] Instance SubnetSelectorTerm_eq_dec : EqDecision SubnetSelectorTerm.
Proof. solve_decision. Defined.
#[global] Instance SecurityGroupSelectorTerm_eq_dec : EqDecision SecurityGroupSelectorTerm.
Proof. solve_decision. Defined.
#[global] Instance CapacityReservationSelectorTerm_eq_dec : EqDecision CapacityReservationSelectorTerm.
Proof. solve_decision. Defined.
#[global] Instance BlockDevice_eq_dec : EqDecision BlockDevice.
Proof. solve_decision. Defined.
#[global] Instance BlockDeviceMapping_eq_dec : EqDecision BlockDeviceMapping.
Proof. solve_decision. Defined.
#[global] Instance MetadataOptions_eq_dec : EqDecision MetadataOptions.
Proof. solve_decision. Defined.
#[global] Instance KubeletConfiguration_eq_dec : EqDecision KubeletConfiguration.
Proof. solve_decision. Defined.
#[global] Instance Spec_eq_dec : EqDecision OpenshiftEC2NodeClassSpec.
Proof. solve_decision. Defined.
#[global] Instance Subnet_eq_dec : EqDecision Subnet.
Proof. solve_decision. Defined.
#[global] Instance SecurityGroup_eq_dec : EqDecision SecurityGroup.
Proof. solve_decision. Defined.
#[global] Instance CapacityReservation_eq_dec : EqDecision CapacityReservation.
Proof. solve_decision. Defined.
#[global] Instance Status_eq_dec : EqDecision OpenshiftEC2NodeClassStatus.
Proof. solve_decision. Defined.
#[global] Instance OpenshiftEC2NodeClass_eq_dec : EqDecision OpenshiftEC2NodeClass.
Proof. solve_decision. Defined.

(** ** Canonical forms *)

#[global] Instance SubnetSelectorTerm_canon : Canon SubnetSelectorTerm := fun t =>
  mkSubnetSelectorTerm (canon (sst_Tags t)) (sst_ID t).
#[global] Instance SecurityGroupSelectorTerm_canon : Canon SecurityGroupSelectorTerm := fun t =>
  mkSecurityGroupSelectorTerm (canon (sgst_Tags t)) (sgst_ID t) (sgst_Name t).
#[global] Instance CapacityReservationSelectorTerm_canon : Canon CapacityReservationSelectorTerm := fun t =>
  mkCapacityReservationSelectorTerm (canon (crst_Tags t)) (crst_ID t) (crst_OwnerID t)
    (crst_InstanceMatchCriteria t).
#[global] Instance BlockDeviceMapping_canon : Canon BlockDeviceMapping := fun m => m.
#[global] Instance byte_canon : Canon ascii := fun b => b.
#[global] Instance KubeletConfiguration_canon : Canon KubeletConfiguration := fun k =>
  mkKubelet (kc_MaxPods k) (kc_PodsPerCore k) (canon (kc_SystemReserved k))
    (canon (kc_KubeReserved k)) (canon (kc_EvictionHard k)) (canon (kc_EvictionSoft k))
    (canon (kc_EvictionSoftGracePeriod k)) (kc_EvictionMaxPodGracePeriod k)
    (kc_ImageGCHighThresholdPercent k) (kc_ImageGCLowThresholdPercent k) (kc_CPUCFSQuota k)
    (canon (kc_Overflow k)).
#[global] Instance Spec_canon : Canon OpenshiftEC2NodeClassSpec := fun s =>
  mkSpec (canon (SubnetSelectorTerms s)) (canon (SecurityGroupSelectorTerms s))
    (canon (CapacityReservationSelectorTerms s)) (IPAddressAssociation s) (canon (Tags s))
    (canon (BlockDeviceMappings s)) (InstanceStorePolicy s) (Monitoring s)
    (MetadataOptionsField s) (Version s) (canon (Kubelet s)).
#[global] Instance Subnet_canon : Canon Subnet := fun s => s.
#[global] Instance SecurityGroup_canon : Canon SecurityGroup := fun s => s.
#[global] Instance CapacityReservation_canon : Canon CapacityReservation := fun r => r.
#[global] Instance Status_canon : Canon OpenshiftEC2NodeClassStatus := fun s =>
  mkStatus (canon (Conditions s)) (canon (Subnets s)) (canon (SecurityGroups s)) (ReleaseImage s)
    (StatusVersion s) (canon (CapacityReservations s)).
#[global] Instance OpenshiftEC2NodeClass_canon : Canon OpenshiftEC2NodeClass := fun c =>
  mkOpenshiftEC2NodeClass (canon (meta c)) (canon (Spec c)) (canon (Status c)).

End osv1.
