(* ===== verification/AzureTypes.v ===== *)
(** * The Azure NodeClasses

    api/karpenter/v1alpha1: [OpenShiftAzureNodeClass], imported as
    openshiftkarpenterv1alpha1, here the module [osv1alpha1]; and the AKSNodeClass
    of karpenter-provider-azure (pkg/apis/v1beta1), here [azurev1beta1], with the
    fields the operator reads or sets.  The settings the operator leaves unset are
    their JSON text in an AKSNodeClass that has them. *)

From S2P Require Import Prelude DeepEqual MetaV1 KarpenterV1.

Module osv1alpha1.

Definition SchemeGroupVersion : string := "karpenter.hypershift.openshift.io/v1alpha1".

Definition AzureHostEncryptionEnabled : string := "Enabled".
Definition AzureHostEncryptionDisabled : string := "Disabled".

Record AzureEncryption := mkAzureEncryption { HostEncryption : string }.
Record AzureSecurity := mkAzureSecurity { Encryption : AzureEncryption }.

Record OpenShiftAzureNodeClassSpec := mkSpec {
  VNETSubnetID : string;
  OSDiskSizeGiB : Z;
  Tags : gomap string;
  Kubelet : osv1.KubeletConfiguration;
  SecurityField : AzureSecurity;
  Version : string }.

Record OpenShiftAzureNodeClassStatus := mkStatus {
  Conditions : slice Condition;
  ReleaseImage : string;
  StatusVersion : string }.

Record OpenShiftAzureNodeClass := mkOpenShiftAzureNodeClass {
  meta : ObjectMeta;
  Spec : OpenShiftAzureNodeClassSpec;
  Status : OpenShiftAzureNodeClassStatus }.

Definition zeroSpec : OpenShiftAzureNodeClassSpec :=
  mkSpec "" 0 None osv1.zeroKubelet (mkAzureSecurity (mkAzureEncryption "")) "".
Definition zeroStatus : OpenShiftAzureNodeClassStatus := mkStatus None "" "".

Definition set_meta (m : ObjectMeta) (c : OpenShiftAzureNodeClass) : OpenShiftAzureNodeClass :=
  mkOpenShiftAzureNodeClass m (Spec c) (Status c).
Definition set_Spec (s : OpenShiftAzureNodeClassSpec) (c : OpenShiftAzureNodeClass) :
    OpenShiftAzureNodeClass :=
  mkOpenShiftAzureNodeClass (meta c) s (Status c).
Definition set_Conditions (cs : slice Condition) (c : OpenShiftAzureNodeClass) :
    OpenShiftAzureNodeClass :=
  mkOpenShiftAzureNodeClass (meta c) (Spec c)
    (mkStatus cs (ReleaseImage (Status c)) (StatusVersion (Status c))).

#[global] Instance AzureEncryption_eq_dec : EqDecision AzureEncryption.
Proof. solve_decision. Defined.
#[global] Instance AzureSecurity_eq_dec : EqDecision AzureSecurity.
Proof. solve_decision. Defined.
#[global] Instance Spec_eq_dec : EqDecision OpenShiftAzureNodeClassSpec.
Proof. solve_decision. Defined.
#[global] Instance Status_eq_dec : EqDecision OpenShiftAzureNodeClassStatus.
Proof. solve_decision. Defined.
#[global] Instance OpenShiftAzureNodeClass_eq_dec : EqDecision OpenShiftAzureNodeClass.
Proof. solve_decision. Defined.

#[global] Instance Spec_canon : Canon OpenShiftAzureNodeClassSpec := fun s =>
  mkSpec (VNETSubnetID s) (OSDiskSizeGiB s) (canon (Tags s)) (canon (Kubelet s))
    (SecurityField s) (Version s).
#[global] Instance Status_canon : Canon OpenShiftAzureNodeClassStatus := fun s =>
  mkStatus (canon (Conditions s)) (ReleaseImage s) (StatusVersion s).
#[global] Instance OpenShiftAzureNodeClass_canon : Canon OpenShiftAzureNodeClass := fun c =>
  mkOpenShiftAzureNodeClass (canon (meta c)) (canon (Spec c)) (canon (Status c)).

End osv1alpha1.

Module azurev1beta1.

Definition Group : string := "karpenter.azure.com".
Definition UbuntuImageFamily : string := "Ubuntu".

Record MarketplaceImage := mkMarketplaceImage {
  Publisher : string; Offer : string; SKU : string; ImageVersion : string }.
Record Security := mkSecurity { EncryptionAtHost : option bool }.

Record AKSNodeClassSpec := mkSpec {
  VNETSubnetID : option string;
  OSDiskSizeGB : option Z;
  ImageID : option string;
  MarketplaceImageField : option MarketplaceImage;
  ImageFamily : option string;
  UserData : option string;
  FIPSMode : option string;
  Tags : gomap string;
  Kubelet : option string;
  MaxPods : option Z;
  SecurityField : option Security;
  LocalDNS : option string;
  GPU : option string;
  ArtifactStreaming : option string;
  LinuxOSConfig : option string }.

Record AKSNodeClassStatus := mkStatus { Conditions : slice Condition }.

Record AKSNodeClass := mkAKSNodeClass {
  meta : ObjectMeta;
  Spec : AKSNodeClassSpec;
  Status : AKSNodeClassStatus }.

Definition zeroSpec : AKSNodeClassSpec :=
  mkSpec None None None None None None None None None None None None None None None.

(** [spec.UserData = u; spec.MarketplaceImage = i] *)
Definition set_image (u : option string) (i : option MarketplaceImage) (s : AKSNodeClassSpec) :
    AKSNodeClassSpec :=
  mkSpec (VNETSubnetID s) (OSDiskSizeGB s) (ImageID s) i (ImageFamily s) u (FIPSMode s) (Tags s)
    (Kubelet s) (MaxPods s) (SecurityField s) (LocalDNS s) (GPU s) (ArtifactStreaming s)
    (LinuxOSConfig s).

#[global] Instance MarketplaceImage_eq_dec : EqDecision MarketplaceImage.
Proof. solve_decision. Defined.
#[global] Instance Security_eq_dec : EqDecision Security.
Proof. solve_decision. Defined.
#[global] Instance Spec_eq_dec : EqDecision AKSNodeClassSpec.
Proof. solve_decision. Defined.
#[global] Instance Status_eq_dec : EqDecision AKSNodeClassStatus.
Proof. solve_decision. Defined.
#[global] Instance AKSNodeClass_eq_dec : EqDecision AKSNodeClass.
Proof. solve_decision. Defined.

#[global] Instance Spec_canon : Canon AKSNodeClassSpec := fun s =>
  mkSpec (VNETSubnetID s) (OSDiskSizeGB s) (ImageID s) (MarketplaceImageField s) (ImageFamily s)
    (UserData s) (FIPSMode s) (canon (Tags s)) (Kubelet s) (MaxPods s) (SecurityField s)
    (LocalDNS s) (GPU s) (ArtifactStreaming s) (LinuxOSConfig s).
#[global] Instance Status_canon : Canon AKSNodeClassStatus := fun s =>
  mkStatus (canon (Conditions s)).
#[global] Instance AKSNodeClass_canon : Canon AKSNodeClass := fun c =>
  mkAKSNodeClass (canon (meta c)) (canon (Spec c)) (canon (Status c)).

End azurev1beta1.
