(* ===== verification/OcpTypes.v ===== *)
(** * OpenShift objects

    pkg/apis/autoscaling/v1alpha1/karpenter.go: the Karpenter resource of a
    standalone cluster; and the parts of github.com/openshift/api (config/v1),
    k8s.io/api (apps/v1, core/v1, rbac/v1) and apiextensions the operator reads or
    copies. *)

From S2P Require Import Prelude DeepEqual MetaV1.

(** ** autoscaling.openshift.io/v1alpha1 *)

Definition SingletonName : string := "default".
Definition autoscalingGroupVersion : string := "autoscaling.openshift.io/v1alpha1".

Definition LogLevelDebug : string := "debug".
Definition LogLevelInfo : string := "info".
Definition LogLevelError : string := "error".

(** [KarpenterLogLevel.Arg] *)
Definition Arg (l : string) : string :=
  if decide (l = "") then "--log-level=" +:+ LogLevelInfo else "--log-level=" +:+ l.

Record KarpenterSpec := mkKarpenterSpec { ks_LogLevel : string }.
Record KarpenterStatus := mkKarpenterStatus { kst_Conditions : slice Condition }.
Record Karpenter := mkKarpenter {
  karp_meta : ObjectMeta;
  karp_Spec : KarpenterSpec;
  karp_Status : KarpenterStatus }.

(** ** config.openshift.io/v1 *)

Definition AWSPlatformType : string := "AWS".
Definition AzurePlatformType : string := "Azure".

(** [ps_AWS] is the AWS region. *)
Record PlatformStatus := mkPlatformStatus { ps_Type : string; ps_AWS : option string }.
Record Infrastructure := mkInfrastructure {
  infra_meta : ObjectMeta;
  infra_PlatformStatus : option PlatformStatus;
  infra_InfrastructureName : string;
  infra_APIServerInternalURL : string }.

Record ClusterOperatorStatusCondition := mkCOCondition {
  coc_Type : string;
  coc_Status : string;
  coc_LastTransitionTime : Time;
  coc_Reason : string;
  coc_Message : string }.
Record ClusterOperator := mkClusterOperator {
  co_meta : ObjectMeta;
  co_Conditions : slice ClusterOperatorStatusCondition }.

Record ObjectReference := mkObjectReference {
  oref_Group : string;
  oref_Resource : string;
  oref_Namespace : string;
  oref_Name : string }.

(** ** apps/v1, core/v1 *)

Record Deployment := mkDeployment {
  dep_meta : ObjectMeta;
  dep_Replicas : Z;
  dep_UpdatedReplicas : Z;
  dep_AvailableReplicas : Z }.

Record ContainerStatus := mkContainerStatus { cst_Name : string; cst_Image : string }.
Record Pod := mkPod { pod_meta : ObjectMeta; pod_ContainerStatuses : slice ContainerStatus }.

(** ** apiextensions.k8s.io/v1

    The operator copies and compares the spec, and never looks into it: it is the
    spec's JSON text. *)
Record CustomResourceDefinition := mkCRD { crd_meta : ObjectMeta; crd_Spec : string }.

(** ** rbac.authorization.k8s.io/v1 *)

Record PolicyRule := mkPolicyRule {
  pr_Verbs : slice string;
  pr_APIGroups : slice string;
  pr_Resources : slice string;
  pr_ResourceNames : slice string;
  pr_NonResourceURLs : slice string }.
Record RoleRef := mkRoleRef { rr_APIGroup : string; rr_Kind : string; rr_Name : string }.
Record Subject := mkSubject {
  sub_Kind : string; sub_APIGroup : string; sub_Name : string; sub_Namespace : string }.
Definition ServiceAccountKind : string := "ServiceAccount".

(** [Role] and [ClusterRole], [RoleBinding] and [ClusterRoleBinding]. *)
Record Role := mkRole { role_meta : ObjectMeta; role_Rules : slice PolicyRule }.
Record RoleBinding := mkRoleBinding {
  rb_meta : ObjectMeta; rb_RoleRef : RoleRef; rb_Subjects : slice Subject }.

(** ** Equality *)

#[export] Instance KarpenterSpec_eq_dec : EqDecision KarpenterSpec.
Proof. solve_decision. Defined.
#[export] Instance KarpenterStatus_eq_dec : EqDecision KarpenterStatus.
Proof. solve_decision. Defined.
#[export] Instance Karpenter_eq_dec : EqDecision Karpenter.
Proof. solve_decision. Defined.
#[export] Instance PlatformStatus_eq_dec : EqDecision PlatformStatus.
Proof. solve_decision. Defined.
#[export] Instance Infrastructure_eq_dec : EqDecision Infrastructure.
Proof. solve_decision. Defined.
#[export] Instance COCondition_eq_dec : EqDecision ClusterOperatorStatusCondition.
Proof. solve_decision. Defined.
#[export] Instance ClusterOperator_eq_dec : EqDecision ClusterOperator.
Proof. solve_decision. Defined.
#[export] Instance ObjectReference_eq_dec : EqDecision ObjectReference.
Proof. solve_decision. Defined.
#[export] Instance Deployment_eq_dec : EqDecision Deployment.
Proof. solve_decision. Defined.
#[export] Instance ContainerStatus_eq_dec : EqDecision ContainerStatus.
Proof. solve_decision. Defined.
#[export] Instance Pod_eq_dec : EqDecision Pod.
Proof. solve_decision. Defined.
#[export] Instance CRD_eq_dec : EqDecision CustomResourceDefinition.
Proof. solve_decision. Defined.
#[export] Instance PolicyRule_eq_dec : EqDecision PolicyRule.
Proof. solve_decision. Defined.
#[export] Instance RoleRef_eq_dec : EqDecision RoleRef.
Proof. solve_decision. Defined.
#[export] Instance Subject_eq_dec : EqDecision Subject.
Proof. solve_decision. Defined.

#[export] Instance CRD_canon : Canon CustomResourceDefinition := fun c =>
  mkCRD (canon (crd_meta c)) (crd_Spec c).
