(* ===== verification/ApplyTypes.v ===== *)
(** * Apply configurations

    The declarative configurations the operator sends with server-side apply
    (k8s.io/client-go/applyconfigurations and the ones of openshift/client-go and
    the prometheus operator), with the fields the operator sets, and the core/v1
    types the operand's parts are written in.  A field is [None] when it is not
    part of the configuration.  An empty list or map is left out of what is sent
    like a nil one, so they are lists and maps.  An owner reference has all its
    fields set. *)

From S2P Require Import Prelude DeepEqual MetaV1 Quantity HyperTypes.

(** ** core/v1 *)

Module corev1.

Record EnvVar := mkEnvVar { env_Name : string; env_Value : string }.
Record VolumeMount := mkVolumeMount {
  vm_Name : string; vm_ReadOnly : bool; vm_MountPath : string }.
Record KeyToPath := mkKeyToPath { kp_Key : string; kp_Path : string }.
Record SecretVolumeSource := mkSecretVolumeSource {
  svs_SecretName : string; svs_Items : slice KeyToPath; svs_DefaultMode : option Z }.
(** [vol_EmptyDir]: whether the source is an empty [EmptyDirVolumeSource]. *)
Record Volume := mkVolume {
  vol_Name : string; vol_Secret : option SecretVolumeSource; vol_EmptyDir : bool }.
(** A probe that runs a command. *)
Record Probe := mkProbe {
  pb_Exec : option (slice string); pb_PeriodSeconds : Z; pb_FailureThreshold : Z }.
Record Container := mkContainer {
  ctr_Name : string;
  ctr_Image : string;
  ctr_Command : slice string;
  ctr_Args : slice string;
  ctr_Requests : gomap Quantity;
  ctr_RestartPolicy : option string;
  ctr_VolumeMounts : slice VolumeMount;
  ctr_StartupProbe : option Probe;
  ctr_ImagePullPolicy : string }.

Definition PullAlways : string := "Always".
Definition PullIfNotPresent : string := "IfNotPresent".
Definition ContainerRestartPolicyAlways : string := "Always".
Definition SeccompProfileTypeRuntimeDefault : string := "RuntimeDefault".
Definition TerminationMessageFallbackToLogsOnError : string := "FallbackToLogsOnError".
Definition ProtocolTCP : string := "TCP".
Definition ResourceCPU : string := "cpu".
Definition ResourceMemory : string := "memory".

#[global] Instance EnvVar_eq_dec : EqDecision EnvVar.
Proof. solve_decision. Defined.
#[global] Instance VolumeMount_eq_dec : EqDecision VolumeMount.
Proof. solve_decision. Defined.

End corev1.

(** ** client-go applyconfigurations/core/v1 *)

Module coreac.

(** [env_FieldPath]: [valueFrom.fieldRef.fieldPath]. *)
Record EnvVar := mkEnvVar {
  env_Name : option string; env_Value : option string; env_FieldPath : option string }.
Record VolumeMount := mkVolumeMount {
  vm_Name : option string; vm_ReadOnly : option bool; vm_MountPath : option string }.
Record KeyToPath := mkKeyToPath { kp_Key : option string; kp_Path : option string }.
Record SecretVolumeSource := mkSecretVolumeSource {
  svs_SecretName : option string; svs_Items : list KeyToPath; svs_DefaultMode : option Z }.
Record Volume := mkVolume {
  vol_Name : option string; vol_Secret : option SecretVolumeSource; vol_EmptyDir : option unit }.
Record ContainerPort := mkContainerPort {
  cp_Name : option string; cp_ContainerPort : option Z; cp_Protocol : option string }.
(** [pb_HTTPGet]: the path and the port. *)
Record Probe := mkProbe {
  pb_Exec : option (list string);
  pb_HTTPGet : option (string * Z);
  pb_InitialDelaySeconds : option Z;
  pb_TimeoutSeconds : option Z;
  pb_PeriodSeconds : option Z;
  pb_FailureThreshold : option Z }.
Record SecurityContext := mkSecurityContext {
  sc_AllowPrivilegeEscalation : option bool; sc_CapabilitiesDrop : list string }.
Record ResourceRequirements := mkResourceRequirements { res_Requests : option (gmap string Quantity) }.
Record Container := mkContainer {
  ctr_Name : option string;
  ctr_Image : option string;
  ctr_Command : list string;
  ctr_Args : list string;
  ctr_Env : list EnvVar;
  ctr_Ports : list ContainerPort;
  ctr_Resources : option ResourceRequirements;
  ctr_RestartPolicy : option string;
  ctr_VolumeMounts : list VolumeMount;
  ctr_LivenessProbe : option Probe;
  ctr_ReadinessProbe : option Probe;
  ctr_StartupProbe : option Probe;
  ctr_TerminationMessagePolicy : option string;
  ctr_ImagePullPolicy : option string;
  ctr_SecurityContext : option SecurityContext }.
Record PodSecurityContext := mkPodSecurityContext {
  psc_RunAsUser : option Z;
  psc_RunAsNonRoot : option bool;
  psc_FSGroup : option Z;
  psc_SeccompProfileType : option string }.
Record PodSpec := mkPodSpec {
  ps_Volumes : list Volume;
  ps_InitContainers : list Container;
  ps_Containers : list Container;
  ps_TerminationGracePeriodSeconds : option Z;
  ps_ServiceAccountName : option string;
  ps_SecurityContext : option PodSecurityContext;
  ps_PriorityClassName : option string }.
Record PodTemplateSpec := mkPodTemplateSpec {
  pt_Labels : gmap string string; pt_Annotations : gmap string string; pt_Spec : option PodSpec }.

#[global] Instance EnvVar_eq_dec : EqDecision EnvVar.
Proof. solve_decision. Defined.
#[global] Instance VolumeMount_eq_dec : EqDecision VolumeMount.
Proof. solve_decision. Defined.
#[global] Instance KeyToPath_eq_dec : EqDecision KeyToPath.
Proof. solve_decision. Defined.
#[global] Instance SecretVolumeSource_eq_dec : EqDecision SecretVolumeSource.
Proof. solve_decision. Defined.
#[global] Instance Volume_eq_dec : EqDecision Volume.
Proof. solve_decision. Defined.

End coreac.

(** ** Other groups *)

(** [RoleRef] and [Subject] of rbac/v1. *)
Record RoleRefAC := mkRoleRefAC {
  rra_APIGroup : option string; rra_Kind : option string; rra_Name : option string }.
Record SubjectAC := mkSubjectAC {
  sba_Kind : option string; sba_APIGroup : option string;
  sba_Name : option string; sba_Namespace : option string }.
Record PolicyRuleAC := mkPolicyRuleAC {
  pra_Verbs : list string; pra_APIGroups : list string; pra_Resources : list string;
  pra_ResourceNames : list string; pra_NonResourceURLs : list string }.

(** [spec.selector.matchLabels] of a Deployment or a PodMonitor. *)
Record DeploymentAC := mkDeploymentAC {
  da_Name : string;
  da_Namespace : string;
  da_OwnerReferences : list OwnerReference;
  da_Labels : gmap string string;
  da_Annotations : gmap string string;
  da_Replicas : option Z;
  da_MatchLabels : gmap string string;
  da_Template : coreac.PodTemplateSpec }.

Record PodMetricsEndpointAC := mkPodMetricsEndpointAC {
  pme_Port : option string; pme_Path : option string; pme_Scheme : option string }.
Record PodMonitorAC := mkPodMonitorAC {
  pma_Name : string;
  pma_Namespace : string;
  pma_OwnerReferences : list OwnerReference;
  pma_MatchLabels : gmap string string;
  pma_Endpoints : list PodMetricsEndpointAC }.

(** config/v1 *)
Record COConditionAC := mkCOConditionAC {
  coa_Type : option string;
  coa_Status : option string;
  coa_LastTransitionTime : option Time;
  coa_Reason : option string;
  coa_Message : option string }.
Record ObjectReferenceAC := mkObjectReferenceAC {
  ora_Group : option string;
  ora_Resource : option string;
  ora_Namespace : option string;
  ora_Name : option string }.
Record ClusterOperatorStatusAC := mkCOStatusAC {
  cos_Conditions : list COConditionAC;
  cos_Versions : list (string * string);
  cos_RelatedObjects : list ObjectReferenceAC }.

(** ** What is applied

    [ApplyAutoNode] is the [status.autoNode] of a HostedControlPlane. *)
Inductive applyConfiguration :=
| ApplyAutoNode (s : AutoNodeStatus)
| ApplyClusterOperator (name : string) (status : option ClusterOperatorStatusAC)
| ApplyServiceAccount (name namespace : string) (owners : list OwnerReference)
| ApplyRole (name namespace : string) (owners : list OwnerReference) (rules : list PolicyRuleAC)
| ApplyRoleBinding (name namespace : string) (owners : list OwnerReference)
    (roleRef : RoleRefAC) (subjects : list SubjectAC)
| ApplyClusterRole (name : string) (owners : list OwnerReference)
    (labels : gmap string string) (rules : list PolicyRuleAC)
| ApplyClusterRoleBinding (name : string) (owners : list OwnerReference)
    (roleRef : RoleRefAC) (subjects : list SubjectAC)
| ApplyDeployment (d : DeploymentAC)
| ApplyPodMonitor (p : PodMonitorAC).
