(* ===== verification/Kube.v ===== *)
(** * The API clients

    The calls the controllers make: to the API server of the management cluster
    and of the hosted cluster (controller-runtime's client.Client), to EC2, and
    to the clock.  A client call is an effect whose answer is the server's: the
    object it returns replaces the caller's, as the client decodes the response
    into it.  The helpers of controllerutil that combine calls are here too. *)

From S2P Require Import Prelude Prog DeepEqual MetaV1 CoreTypes HyperTypes AwsV1 KarpenterV1 AzureTypes OcpTypes ApplyTypes.

Record GVK := mkGVK { gvk_Group : string; gvk_Version : string; gvk_Kind : string }.
#[export] Instance GVK_eq_dec : EqDecision GVK.
Proof. solve_decision. Defined.

(** ** Kinds of objects *)

Inductive kind :=
| KHostedControlPlane | KSecret | KConfigMap | KNode | KNodePool | KNodeClaim
| KCertificateSigningRequest
| KEC2NodeClass | KOpenshiftEC2NodeClass
| KAKSNodeClass | KOpenShiftAzureNodeClass
| KValidatingAdmissionPolicy | KValidatingAdmissionPolicyBinding
| KCustomResourceDefinition
| KKarpenter | KDeployment | KPod | KClusterOperator | KInfrastructure
| KPartialObjectMetadata (gvk : GVK).
#[export] Instance kind_eq_dec : EqDecision kind.
Proof. solve_decision. Defined.

Definition obj (k : kind) : Type :=
  match k with
  | KHostedControlPlane => HostedControlPlane
  | KSecret => Secret
  | KConfigMap => ConfigMap
  | KNode => Node
  | KNodePool => NodePool
  | KNodeClaim => NodeClaim
  | KCertificateSigningRequest => CertificateSigningRequest
  | KEC2NodeClass => awsv1.EC2NodeClass
  | KOpenshiftEC2NodeClass => osv1.OpenshiftEC2NodeClass
  | KAKSNodeClass => azurev1beta1.AKSNodeClass
  | KOpenShiftAzureNodeClass => osv1alpha1.OpenShiftAzureNodeClass
  | KValidatingAdmissionPolicy => ValidatingAdmissionPolicy
  | KValidatingAdmissionPolicyBinding => ValidatingAdmissionPolicyBinding
  | KCustomResourceDefinition => CustomResourceDefinition
  | KKarpenter => Karpenter
  | KDeployment => Deployment
  | KPod => Pod
  | KClusterOperator => ClusterOperator
  | KInfrastructure => Infrastructure
  | KPartialObjectMetadata _ => PartialObjectMetadata
  end.

(** [%T] of a pointer to an object. *)
Definition typeName (k : kind) : string :=
  match k with
  | KHostedControlPlane => "*v1beta1.HostedControlPlane"
  | KSecret => "*v1.Secret"
  | KConfigMap => "*v1.ConfigMap"
  | KNode => "*v1.Node"
  | KNodePool => "*v1.NodePool"
  | KNodeClaim => "*v1.NodeClaim"
  | KCertificateSigningRequest => "*v1.CertificateSigningRequest"
  | KEC2NodeClass => "*v1.EC2NodeClass"
  | KOpenshiftEC2NodeClass => "*v1.OpenshiftEC2NodeClass"
  | KAKSNodeClass => "*v1beta1.AKSNodeClass"
  | KOpenShiftAzureNodeClass => "*v1alpha1.OpenShiftAzureNodeClass"
  | KValidatingAdmissionPolicy => "*v1.ValidatingAdmissionPolicy"
  | KValidatingAdmissionPolicyBinding => "*v1.ValidatingAdmissionPolicyBinding"
  | KCustomResourceDefinition => "*v1.CustomResourceDefinition"
  | KKarpenter => "*v1alpha1.Karpenter"
  | KDeployment => "*v1.Deployment"
  | KPod => "*v1.Pod"
  | KClusterOperator => "*v1.ClusterOperator"
  | KInfrastructure => "*v1.Infrastructure"
  | KPartialObjectMetadata _ => "*v1.PartialObjectMetadata"
  end.

Definition meta_of {k : kind} : obj k -> ObjectMeta :=
  match k with
  | KHostedControlPlane => hcp_meta
  | KSecret => secret_meta
  | KConfigMap => cm_meta
  | KNode => node_meta
  | KNodePool => np_meta
  | KNodeClaim => nc_meta
  | KCertificateSigningRequest => csr_meta
  | KEC2NodeClass => awsv1.meta
  | KOpenshiftEC2NodeClass => osv1.meta
  | KAKSNodeClass => azurev1beta1.meta
  | KOpenShiftAzureNodeClass => osv1alpha1.meta
  | KValidatingAdmissionPolicy => vap_meta
  | KValidatingAdmissionPolicyBinding => vapb_meta
  | KCustomResourceDefinition => crd_meta
  | KKarpenter => karp_meta
  | KDeployment => dep_meta
  | KPod => pod_meta
  | KClusterOperator => co_meta
  | KInfrastructure => infra_meta
  | KPartialObjectMetadata _ => pom_meta
  end.

#[export] Instance obj_eq_dec k : EqDecision (obj k).
Proof. destruct k; exact _. Defined.

(** Canonical forms of the kinds the operator passes to [CreateOrUpdate]; the
    others are never compared semantically. *)
#[export] Instance obj_canon k : Canon (obj k) :=
  match k with
  | KConfigMap => ConfigMap_canon
  | KEC2NodeClass => awsv1.EC2NodeClass_canon
  | KOpenshiftEC2NodeClass => osv1.OpenshiftEC2NodeClass_canon
  | KAKSNodeClass => azurev1beta1.AKSNodeClass_canon
  | KOpenShiftAzureNodeClass => osv1alpha1.OpenShiftAzureNodeClass_canon
  | KCustomResourceDefinition => CRD_canon
  | KValidatingAdmissionPolicy => VAP_canon
  | KValidatingAdmissionPolicyBinding => VAPBinding_canon
  | _ => fun o => o
  end.

(** ** Calls *)

(** Which cluster's client is called. *)
Inductive cluster := Management | Hosted.
#[export] Instance cluster_eq_dec : EqDecision cluster.
Proof. solve_decision. Defined.

(** [client.InNamespace] (empty: all namespaces) and [client.MatchingLabelsSelector]. *)
Record ListOptions := mkListOptions {
  lo_Namespace : string;
  lo_Labels : list (string * string) }.
Definition noOptions : ListOptions := mkListOptions "" [].
Definition InNamespace (ns : string) : ListOptions := mkListOptions ns [].

(** [EPatch] sends the merge patch from [orig] to [o]; with [lock], the resource
    version of [orig] is part of it ([client.MergeFromWithOptimisticLock]).
    [EDescribeInstances] answers with the reservations' instances, each its
    private DNS name. *)
Inductive eff : Type -> Type :=
| EGet (c : cluster) (k : kind) (key : ObjectKey) : eff (result (obj k))
| EList (c : cluster) (k : kind) (opts : ListOptions) : eff (result (list (obj k)))
| ECreate (c : cluster) (k : kind) (o : obj k) : eff (result (obj k))
| EUpdate (c : cluster) (k : kind) (o : obj k) : eff (result (obj k))
| EPatch (c : cluster) (k : kind) (orig o : obj k) (lock : bool) : eff (result (obj k))
| EStatusPatch (c : cluster) (k : kind) (orig o : obj k) (lock : bool) : eff (result (obj k))
| EDelete (c : cluster) (k : kind) (o : obj k) (gracePeriod : option Z) : eff (result unit)
| EStatusApply (c : cluster) (k : kind) (key : ObjectKey) (a : applyConfiguration)
    (fieldOwner : string) (force : bool) : eff (result unit)
| EApply (c : cluster) (a : applyConfiguration) (fieldOwner : string) (force : bool) :
    eff (result unit)
| EUpdateApproval (name : string) (csr : CertificateSigningRequest) :
    eff (result CertificateSigningRequest)
| EDescribeInstances (ids : list string) : eff (result (list (list (option string))))
| ENow : eff Time.

Abbreviation go := (prog eff).

(** [ctrl.Result] *)
Record Result := mkResult { RequeueAfter : Z }.
Definition noRequeue : Result := mkResult 0.
#[export] Instance Result_eq_dec : EqDecision Result.
Proof. solve_decision. Defined.

(** ** Helpers of controllerutil and the EC2 controller *)

Inductive OperationResult := OperationResultNone | OperationResultCreated | OperationResultUpdated.

(** [mutate]: the function must not rename the object. *)
Definition mutate {k} (f : obj k -> result (obj k)) (key : ObjectKey) (o : obj k) : result (obj k) :=
  rbind (f o) (fun o' =>
    if decide (ObjectKeyFromObject (meta_of o') = key) then Ok o'
    else Err (ENew "MutateFn cannot mutate object name and/or object namespace")).

(** [controllerutil.CreateOrUpdate], with the object it leaves behind. *)
Definition CreateOrUpdate (c : cluster) (k : kind) (o : obj k) (f : obj k -> result (obj k)) :
    go (result (OperationResult * obj k)) :=
  let key := ObjectKeyFromObject (meta_of o) in
  got ← call (EGet c k key);
  match got with
  | Err err =>
      if negb (IsNotFound err) then Ret (Err err)
      else match mutate f key o with
           | Err err => Ret (Err err)
           | Ok o' => created ←? call (ECreate c k o'); Ret (Ok (OperationResultCreated, created))
           end
  | Ok existing =>
      match mutate f key existing with
      | Err err => Ret (Err err)
      | Ok o' =>
          if SemanticDeepEqual existing o' then Ret (Ok (OperationResultNone, o'))
          else updated ←? call (EUpdate c k o'); Ret (Ok (OperationResultUpdated, updated))
      end
  end.

(** [deleteIfNeeded] of pkg/controllers/nodeclass/ec2/controller.go: whether the
    object still exists. *)
Definition deleteIfNeeded (c : cluster) (k : kind) (o : obj k) : go (result bool) :=
  got ← call (EGet c k (ObjectKeyFromObject (meta_of o)));
  match got with
  | Err err =>
      if IsNotFound err || IsNoMatchError err then Ret (Ok false)
      else Ret (Err (wrapf ("getting " +:+ typeName k) err))
  | Ok o' =>
      if decide (om_DeletionTimestamp (meta_of o') <> None) then Ret (Ok true)
      else
        deleted ← call (EDelete c k o' None);
        match deleted with
        | Err err =>
            if IsNotFound err then Ret (Ok false)
            else Ret (Err (wrapf ("deleting " +:+ typeName k) err))
        | Ok _ => Ret (Ok true)
        end
  end.
