(* ===== verification/NodeClassStatus.v ===== *)
(** * Conditions of the OpenShift NodeClasses

    pkg/controllers/nodeclass/status/conditions.go, with the condition types and
    reasons of api/karpenter/v1/karpenter_types.go.  [SyncConditions] is called
    by the EC2 and the Azure NodeClass controller. *)

From S2P Require Import Prelude DeepEqual MetaV1.

Definition ConditionTypeReady : string := "Ready".
Definition ConditionTypeVersionResolved : string := "VersionResolved".
Definition ConditionTypeSupportedVersionSkew : string := "SupportedVersionSkew".
Definition ConditionReasonResolutionFailed : string := "ResolutionFailed".

(** The loop over the provider's conditions: those of another type than Ready
    are set, the last Ready one is remembered.  [clock i] is what the [i]-th
    call of [SetStatusCondition] reads from the clock, if it reads it. *)
Fixpoint syncLoop (clock : nat -> Time) (i : nat) (result : slice Condition)
    (providerReady : option Condition) (providerConditions : list Condition) :
    nat * slice Condition * option Condition :=
  match providerConditions with
  | [] => (i, result, providerReady)
  | c :: cs =>
      if decide (c_Type c = ConditionTypeReady)
      then syncLoop clock i result (Some c) cs
      else syncLoop clock (S i) (SetStatusCondition (clock i) result c) providerReady cs
  end.

(** The Ready condition of a NodeClass whose version is not resolved. *)
Definition notReady (versionResolved : option Condition) (generation : Z) : Condition :=
  let '(reason, message) :=
    match versionResolved with
    | None => (ConditionReasonResolutionFailed, "Version resolution status is unknown")
    | Some v => (c_Reason v, "Version resolution failed: " +:+ c_Message v)
    end in
  mkCondition ConditionTypeReady ConditionFalse generation 0 reason message.

Definition isVersionResolved (conditions : list Condition) : bool :=
  match FindStatusCondition conditions ConditionTypeVersionResolved with
  | Some v => bool_decide (c_Status v = ConditionTrue)
  | None => false
  end.

(** [slices.Clone] is the identity on values. *)
Definition SyncConditions (clock : nat -> Time) (conditions : slice Condition)
    (providerConditions : list Condition) (generation : Z) : slice Condition :=
  let '(i, result, providerReady) := syncLoop clock 0 conditions None providerConditions in
  let versionResolved := FindStatusCondition (elems result) ConditionTypeVersionResolved in
  if isVersionResolved (elems result) then
    match providerReady with
    | Some ready => SetStatusCondition (clock i) result ready
    | None => result
    end
  else SetStatusCondition (clock i) result (notReady versionResolved generation).

(** ** The loop *)

Section loop.
Context (clock : nat -> Time).
Implicit Types (result : slice Condition) (cs : list Condition).

Lemma syncLoop_providerReady i result pr cs :
  (syncLoop clock i result pr cs).2 =
    match FindStatusCondition (rev cs) ConditionTypeReady with
    | Some c => Some c
    | None => pr
    end.
Proof.
  revert i result pr. induction cs as [|c cs IH]; intros i result pr; cbn; [done|].
  unfold FindStatusCondition in *. rewrite find_app; cbn.
  case_decide as E; rewrite IH; destruct (List.find _ (rev cs)); try done;
    case_bool_decide; done.
Qed.

(** Types the provider does not report are left alone, and so is Ready. *)
Lemma syncLoop_other i result pr cs t :
  t ∉ c_Type <$> filter (fun c => c_Type c <> ConditionTypeReady) cs ->
  FindStatusCondition (elems (syncLoop clock i result pr cs).1.2) t =
    FindStatusCondition (elems result) t.
Proof.
  revert i result pr. induction cs as [|c cs IH]; intros i result pr; cbn [syncLoop]; [done|].
  destruct (decide (c_Type c = ConditionTypeReady)) as [E|E];
    [rewrite filter_cons_False by tauto | rewrite filter_cons_True by done].
  - apply IH.
  - rewrite fmap_cons, not_elem_of_cons. intros [H1 H2]. rewrite IH by done.
    unfold SetStatusCondition; cbn [elems default from_option id].
    rewrite FindStatusCondition_set. by rewrite decide_False by done.
Qed.

Lemma syncLoop_Ready i result pr cs :
  FindStatusCondition (elems (syncLoop clock i result pr cs).1.2) ConditionTypeReady =
    FindStatusCondition (elems result) ConditionTypeReady.
Proof.
  apply syncLoop_other. intros (c & E & [H _]%list_elem_of_filter)%list_elem_of_fmap. done.
Qed.

Lemma syncLoop_wf i result pr cs :
  conditions_wf (elems result) -> conditions_wf (elems (syncLoop clock i result pr cs).1.2).
Proof.
  revert i result pr. induction cs as [|c cs IH]; intros i result pr; cbn; [done|].
  intros H. case_decide; [by apply IH|]. apply IH. by apply setCondition_wf.
Qed.

(** A condition the provider reports once is set to it. *)
Lemma syncLoop_reported i result pr cs c :
  conditions_wf cs -> c ∈ cs -> c_Type c <> ConditionTypeReady ->
  exists now old,
    FindStatusCondition (elems (syncLoop clock i result pr cs).1.2) (c_Type c) =
      Some (setResult now old c).
Proof.
  unfold conditions_wf. intros Hwf Hc Ht. revert i result pr.
  induction cs as [|d cs IH]; intros i result pr; [set_solver|].
  rewrite fmap_cons, NoDup_cons in Hwf. destruct Hwf as [Hd Hwf]. cbn [syncLoop].
  apply elem_of_cons in Hc as [<-|Hc].
  - rewrite decide_False by done. eexists _, _. rewrite syncLoop_other.
    + unfold SetStatusCondition; cbn [elems default from_option id].
      rewrite FindStatusCondition_set, decide_True by done. done.
    + intros (e & E & [_ He]%list_elem_of_filter)%list_elem_of_fmap.
      apply Hd. rewrite E. by apply list_elem_of_fmap_2.
  - case_decide; apply IH; done.
Qed.

End loop.

Lemma c_Type_notReady v generation : c_Type (notReady v generation) = ConditionTypeReady.
Proof. by destruct v. Qed.

Lemma setResult_fields now old c :
  let r := setResult now old c in
  c_Status r = c_Status c /\ c_Reason r = c_Reason c /\ c_Message r = c_Message c
  /\ c_ObservedGeneration r = c_ObservedGeneration c.
Proof. destruct old; cbn; [done|]. unfold initCondition. by destruct (IsZeroTime _). Qed.

Lemma setCondition_again now now' old cs c :
  FindStatusCondition (elems cs) (c_Type c) = Some (setResult now old c) ->
  SetStatusCondition now' cs c = cs.
Proof.
  intros H. destruct (setResult_fields now old c) as (?&?&?&?).
  unfold SetStatusCondition. rewrite (setCondition_same _ _ _ _ H) by done.
  by destruct cs.
Qed.

(** A second pass of the loop over conditions that hold what the provider
    reports changes nothing. *)
Lemma syncLoop_again clock i result pr cs :
  (forall c, c ∈ cs -> c_Type c <> ConditionTypeReady -> exists now old,
     FindStatusCondition (elems result) (c_Type c) = Some (setResult now old c)) ->
  (syncLoop clock i result pr cs).1.2 = result.
Proof.
  revert i pr. induction cs as [|c cs IH]; intros i pr H; cbn; [done|].
  case_decide as E.
  - apply IH. set_solver.
  - destruct (H c) as (now & old & Hc); [set_solver | done|].
    rewrite (setCondition_again _ _ _ _ _ Hc). apply IH. set_solver.
Qed.

(** ** SyncConditions *)

Section sync.
Context (clock : nat -> Time) (conditions : slice Condition).
Context (providerConditions : list Condition) (generation : Z).

Definition synced : list Condition :=
  elems (SyncConditions clock conditions providerConditions generation).

Lemma SyncConditions_other_types t :
  t <> ConditionTypeReady ->
  FindStatusCondition synced t =
    FindStatusCondition (elems (syncLoop clock 0 conditions None providerConditions).1.2) t.
Proof.
  intros Ht. unfold synced, SyncConditions.
  destruct (syncLoop clock 0 conditions None providerConditions) as [[i r] pr] eqn:E.
  pose proof (syncLoop_providerReady clock 0 conditions None providerConditions) as Hpr.
  rewrite E in *; cbn [fst snd] in *.
  destruct (isVersionResolved (elems r)); [destruct pr as [ready|]; [|done]|];
    unfold SetStatusCondition; cbn [elems default from_option id];
    rewrite FindStatusCondition_set, ?c_Type_notReady, decide_False; try done.
  destruct (FindStatusCondition (rev _) _) eqn:F; [|done]. injection Hpr as ->.
  apply FindStatusCondition_Some in F as [_ ->]. done.
Qed.

(** The Ready condition. *)
Lemma synced_ready :
  exists now,
  FindStatusCondition synced ConditionTypeReady =
    if isVersionResolved synced then
      match FindStatusCondition (rev providerConditions) ConditionTypeReady with
      | Some ready =>
          Some (setResult now (FindStatusCondition (elems conditions) ConditionTypeReady) ready)
      | None => FindStatusCondition (elems conditions) ConditionTypeReady
      end
    else
      Some (setResult now (FindStatusCondition (elems conditions) ConditionTypeReady)
              (notReady (FindStatusCondition synced ConditionTypeVersionResolved) generation)).
Proof.
  unfold isVersionResolved. rewrite (SyncConditions_other_types ConditionTypeVersionResolved) by done.
  unfold synced, SyncConditions, isVersionResolved.
  pose proof (syncLoop_providerReady clock 0 conditions None providerConditions) as Hpr.
  pose proof (syncLoop_Ready clock 0 conditions None providerConditions) as HR.
  destruct (syncLoop clock 0 conditions None providerConditions) as [[i r] pr].
  cbn [fst snd] in *. exists (clock i). subst pr.
  set (v := FindStatusCondition (elems r) ConditionTypeVersionResolved).
  destruct (match v with Some _ => _ | None => false end).
  - destruct (FindStatusCondition (rev _) _) eqn:F; [|done].
    apply FindStatusCondition_Some in F as [_ F].
    unfold SetStatusCondition; cbn [elems default from_option id].
    rewrite FindStatusCondition_set, decide_True by done. by rewrite HR.
  - unfold SetStatusCondition; cbn [elems default from_option id].
    rewrite FindStatusCondition_set, c_Type_notReady, decide_True by done. by rewrite HR.
Qed.

(** C21. The Ready condition an OpenShift NodeClass ends up with: while
    VersionResolved is not True it is False, with the reason and message of the
    version resolution; otherwise it is the provider's Ready condition (the last
    one reported), or what it was when the provider reports none.  In every case
    the new condition keeps the old transition time unless the status changes. *)
Theorem SyncConditions_ready :
  exists now,
  FindStatusCondition synced ConditionTypeReady =
    if isVersionResolved synced then
      match FindStatusCondition (rev providerConditions) ConditionTypeReady with
      | Some ready =>
          Some (setResult now (FindStatusCondition (elems conditions) ConditionTypeReady) ready)
      | None => FindStatusCondition (elems conditions) ConditionTypeReady
      end
    else
      Some (setResult now (FindStatusCondition (elems conditions) ConditionTypeReady)
              (notReady (FindStatusCondition synced ConditionTypeVersionResolved) generation)).
Proof. exact synced_ready. Qed.

Lemma synced_unreported t :
  t <> ConditionTypeReady -> t ∉ c_Type <$> providerConditions ->
  FindStatusCondition synced t = FindStatusCondition (elems conditions) t.
Proof.
  intros Ht Hp. rewrite SyncConditions_other_types by done. apply syncLoop_other.
  intros (c & -> & [_ Hc]%list_elem_of_filter)%list_elem_of_fmap.
  apply Hp. by apply list_elem_of_fmap_2.
Qed.

(** A condition of a type the provider does not report, other than Ready, is
    exactly what it was: VersionResolved and SupportedVersionSkew, which the
    ignition controller owns, survive every sync. *)
Theorem SyncConditions_preserves_unreported t :
  t <> ConditionTypeReady -> t ∉ c_Type <$> providerConditions ->
  FindStatusCondition synced t = FindStatusCondition (elems conditions) t.
Proof. apply synced_unreported. Qed.

Lemma SyncConditions_reported_once c :
  conditions_wf providerConditions -> c ∈ providerConditions -> c_Type c <> ConditionTypeReady ->
  exists now old, FindStatusCondition synced (c_Type c) = Some (setResult now old c).
Proof.
  intros Hwf Hc Ht. rewrite SyncConditions_other_types by done.
  by apply syncLoop_reported.
Qed.

Lemma synced_wf : conditions_wf (elems conditions) -> conditions_wf synced.
Proof.
  intros H. unfold synced, SyncConditions.
  pose proof (syncLoop_wf clock 0 conditions None providerConditions H) as Hwf.
  destruct (syncLoop clock 0 conditions None providerConditions) as [[i r] pr].
  cbn [fst snd] in *. destruct (isVersionResolved (elems r)); [destruct pr|]; try done;
    by apply setCondition_wf.
Qed.

(** The result holds one condition per type when the NodeClass did, so the
    API server's list-map key of [status.conditions] is respected. *)
Theorem SyncConditions_unique_types :
  conditions_wf (elems conditions) -> conditions_wf synced.
Proof. exact synced_wf. Qed.

End sync.

(** The conditions hold what the provider reports and what follows from it. *)
Record settled (cs : slice Condition) (providerConditions : list Condition) (generation : Z) : Prop := {
  settled_reported c : c ∈ providerConditions -> c_Type c <> ConditionTypeReady -> exists now old,
    FindStatusCondition (elems cs) (c_Type c) = Some (setResult now old c);
  settled_ready ready : isVersionResolved (elems cs) = true ->
    FindStatusCondition (rev providerConditions) ConditionTypeReady = Some ready -> exists now old,
    FindStatusCondition (elems cs) ConditionTypeReady = Some (setResult now old ready);
  settled_notReady : isVersionResolved (elems cs) = false -> exists now old,
    FindStatusCondition (elems cs) ConditionTypeReady =
      Some (setResult now old
              (notReady (FindStatusCondition (elems cs) ConditionTypeVersionResolved) generation)) }.

Lemma SyncConditions_settled clock cs providerConditions generation :
  settled cs providerConditions generation ->
  SyncConditions clock cs providerConditions generation = cs.
Proof.
  intros [H1 H2 H3].
  pose proof (syncLoop_again clock 0 cs None providerConditions H1) as Hloop.
  pose proof (syncLoop_providerReady clock 0 cs None providerConditions) as Hpr.
  unfold SyncConditions.
  destruct (syncLoop clock 0 cs None providerConditions) as [[i r] pr]. cbn [fst snd] in *. subst r pr.
  destruct (isVersionResolved (elems cs)) eqn:V.
  - destruct (FindStatusCondition (rev _) _) as [ready|] eqn:F; [|done].
    destruct (H2 ready eq_refl eq_refl) as (now & old & E).
    apply FindStatusCondition_Some in F as [_ F]. eapply setCondition_again. by rewrite F.
  - destruct (H3 eq_refl) as (now & old & E). eapply setCondition_again. rewrite c_Type_notReady. exact E.
Qed.

Lemma SyncConditions_settles clock conditions providerConditions generation :
  conditions_wf providerConditions ->
  settled (SyncConditions clock conditions providerConditions generation) providerConditions generation.
Proof.
  intros Hwf. destruct (synced_ready clock conditions providerConditions generation) as [now Hr].
  unfold synced in Hr. split.
  - intros c Hc Ht. by apply SyncConditions_reported_once.
  - intros ready V F. rewrite V, F in Hr. eauto.
  - intros V. rewrite V in Hr. eauto.
Qed.

(** A sync is idempotent: with the provider's conditions unchanged (one per
    type), a second sync at any later time returns the very same slice, so an
    up-to-date NodeClass has no status update and no condition changes its
    transition time. *)
Theorem SyncConditions_idempotent clock clock' conditions providerConditions generation :
  conditions_wf providerConditions ->
  let once := SyncConditions clock conditions providerConditions generation in
  SyncConditions clock' once providerConditions generation = once.
Proof. intros Hwf. by apply SyncConditions_settled, SyncConditions_settles. Qed.

(** ** Witnesses *)

Definition exampleConditions : slice Condition :=
  Some [mkCondition "VersionResolved" "True" 1 5 "VersionResolved" "ok";
        mkCondition "Ready" "False" 1 5 "ResolutionFailed" "pending"].
Definition exampleProvider : list Condition :=
  [mkCondition "SubnetsReady" "True" 3 7 "SubnetsReady" "";
   mkCondition "Ready" "True" 3 9 "Ready" ""].

Lemma SyncConditions_preserves_unreported_witness :
  FindStatusCondition
    (synced (fun _ => 11%Z) exampleConditions exampleProvider 2) ConditionTypeVersionResolved =
  Some (mkCondition "VersionResolved" "True" 1 5 "VersionResolved" "ok").
Proof.
  rewrite (SyncConditions_preserves_unreported (fun _ => 11%Z) exampleConditions exampleProvider 2
             ConditionTypeVersionResolved); [reflexivity | by apply (bool_decide_unpack _) | by apply (bool_decide_unpack _)].
Defined.

Lemma SyncConditions_unique_types_witness :
  conditions_wf (synced (fun _ => 11%Z) exampleConditions exampleProvider 2)
  /\ length (synced (fun _ => 11%Z) exampleConditions exampleProvider 2) = 3.
Proof.
  split; [|reflexivity].
  apply SyncConditions_unique_types. by apply (bool_decide_unpack _).
Defined.

Lemma SyncConditions_idempotent_witness :
  let once := SyncConditions (fun _ => 11%Z) exampleConditions exampleProvider 2 in
  SyncConditions (fun _ => 99%Z) once exampleProvider 2 = once /\ once <> exampleConditions.
Proof.
  split.
  - apply (SyncConditions_idempotent (fun _ => 11%Z) (fun _ => 99%Z) exampleConditions exampleProvider 2).
    by apply (bool_decide_unpack _).
  - by apply (bool_decide_unpack _).
Defined.
