(* ===== verification/Hypershift.v ===== *)
(** * Lookups on the management cluster

    pkg/hypershift: the HostedControlPlane of the namespace, the state of its
    upgrade, the CAPI Cluster, and the user data Secrets HyperShift generates for
    the NodeClasses. *)

From S2P Require Import Prelude Prog DeepEqual MetaV1 CoreTypes HyperTypes KarpenterV1 Kube.

(** ** hostedcontrolplane.go *)

Definition ErrHostedControlPlaneNotFound : error :=
  EVar "ErrHostedControlPlaneNotFound" "hosted control plane not found".

Definition showNat (n : nat) : string := pretty (N.of_nat n).

Definition GetHostedControlPlane (c : cluster) (namespace : string) :
    go (result HostedControlPlane) :=
  hcps ←? wrap_err "listing hosted control planes"
            (call (EList c KHostedControlPlane (InNamespace namespace)));
  match hcps with
  | [] => Ret (Err (EWrap "" ErrHostedControlPlaneNotFound
                      (" in namespace " +:+ Quote namespace)))
  | [hcp] => Ret (Ok hcp)
  | _ => Ret (Err (ENew ("expected one hosted control plane in namespace " +:+ Quote namespace
                         +:+ ", found " +:+ showNat (length hcps))))
  end.

(** ** controlplaneversion.go *)

(** The loop of [isControlPlaneUpgrading]. *)
Fixpoint firstCompleted (history : list ControlPlaneUpdateHistory) :
    option ControlPlaneUpdateHistory :=
  match history with
  | [] => None
  | entry :: rest =>
      if decide (hist_State entry = CompletedUpdate) then Some entry else firstCompleted rest
  end.

Definition isControlPlaneUpgrading (hcp : HostedControlPlane) : bool :=
  let v := hcp_ControlPlaneVersion hcp in
  let desiredImage := rel_Image (cpv_Desired v) in
  if decide (desiredImage = "") then false
  else match firstCompleted (elems (cpv_History v)) with
       | Some entry => negb (bool_decide (hist_Image entry = desiredImage))
       | None => false
       end.

Definition WaitsForControlPlaneUpgrade (hcp : HostedControlPlane) (version : string) : bool :=
  bool_decide (version = "") && isControlPlaneUpgrading hcp.

Definition ControlPlaneVersionChanged (oldHCP newHCP : HostedControlPlane) : bool :=
  negb (SemanticDeepEqual (hcp_ControlPlaneVersion oldHCP) (hcp_ControlPlaneVersion newHCP)).

(** ** capicluster.go *)

Definition capiClusterGroupKind : string * string := ("cluster.x-k8s.io", "Cluster").

(** [mapper] is [meta.RESTMapper.RESTMapping], with the mapping's kind. *)
Definition ResolveCAPIClusterGVK (mapper : string * string -> result GVK) : result GVK :=
  map_err (wrapf "resolving CAPI Cluster version") (mapper capiClusterGroupKind).

Definition IsClusterDeleting (c : cluster) (hcp : HostedControlPlane) (capiClusterGVK : GVK) :
    go (result bool) :=
  if decide (om_DeletionTimestamp (hcp_meta hcp) <> None) then Ret (Ok true)
  else if decide (hcp_InfraID hcp = "") then Ret (Ok false)
  else
    got ← call (EGet c (KPartialObjectMetadata capiClusterGVK)
                  (mkObjectKey (om_Namespace (hcp_meta hcp)) (hcp_InfraID hcp)));
    match got with
    | Err err =>
        if IsNotFound err then Ret (Ok false)
        else Ret (Err (wrapf "getting CAPI Cluster" err))
    | Ok capiCluster => Ret (Ok (negb (IsZero (om_DeletionTimestamp (pom_meta capiCluster)))))
    end.

(** ** userdatasecret.go *)

Definition tokenSecretAnnotation : string := "hypershift.openshift.io/ignition-config".
Definition karpenterNodePoolSuffix : string := "-karpenter".
Definition karpenterSecretSelector : list (string * string) := [(osv1.ManagedByKarpenterLabel, "true")].

Definition ErrUserDataSecretNotFound : error :=
  EVar "ErrUserDataSecretNotFound" "user data secret not found".

Definition karpenterNodePoolName (nodeClassName : string) : string :=
  nodeClassName +:+ karpenterNodePoolSuffix.

(** The condition of the loop over the listed Secrets. *)
Definition isUserDataSecret (expectedNodePool : string) (secret : Secret) : bool :=
  let annotations := om_Annotations (secret_meta secret) in
  bool_decide (mget annotations osv1.TokenSecretNodePoolAnnotation = expectedNodePool)
  && negb (bool_decide (mget annotations tokenSecretAnnotation = "true")).

Definition GetUserDataSecret (c : cluster) (namespace nodeClassName : string) :
    go (result Secret) :=
  secrets ←? wrap_err "listing secrets"
               (call (EList c KSecret (mkListOptions namespace karpenterSecretSelector)));
  let expectedNodePool := KeyString (mkObjectKey namespace (karpenterNodePoolName nodeClassName)) in
  match List.filter (isUserDataSecret expectedNodePool) secrets with
  | [] => Ret (Err (EWrap "" ErrUserDataSecretNotFound
                      (" for NodeClass " +:+ Quote nodeClassName)))
  | [secret] => Ret (Ok secret)
  | userDataSecrets =>
      Ret (Err (ENew ("expected one user data secret for NodeClass " +:+ Quote nodeClassName
                      +:+ ", found " +:+ showNat (length userDataSecrets))))
  end.

(** [labels.SelectorFromSet(...).Matches] *)
Definition Matches (selector : list (string * string)) (labels : gomap string) : bool :=
  forallb (fun '(k, v) => bool_decide (entries labels !! k = Some v)) selector.

(** The events of a watch. *)
Inductive watchEvent (A : Type) :=
| CreateEvent (o : A)
| UpdateEvent (old new : A)
| DeleteEvent (o : A)
| GenericEvent (o : A).
Arguments CreateEvent {A} o.
Arguments UpdateEvent {A} old new.
Arguments DeleteEvent {A} o.
Arguments GenericEvent {A} o.

Definition KarpenterSecretPredicate (e : watchEvent ObjectMeta) : bool :=
  match e with
  | CreateEvent o => Matches karpenterSecretSelector (om_Labels o)
  | UpdateEvent _ o => Matches karpenterSecretSelector (om_Labels o)
  | DeleteEvent _ | GenericEvent _ => false
  end.

Definition mapUserDataSecretToNodeClass (o : ObjectMeta) : list ObjectKey :=
  if decide (mget (om_Annotations o) tokenSecretAnnotation = "true") then []
  else
    let '(_, nodePoolName, _) :=
      Cut (mget (om_Annotations o) osv1.TokenSecretNodePoolAnnotation) "/" in
    match CutSuffix nodePoolName karpenterNodePoolSuffix with
    | (nodeClassName, true) => [mkObjectKey "" nodeClassName]
    | (_, false) => []
    end.

(** ** The upgrade state *)

Lemma firstCompleted_Some history entry :
  firstCompleted history = Some entry <->
  exists newer older, history = newer ++ entry :: older
    /\ hist_State entry = CompletedUpdate
    /\ Forall (fun e => hist_State e <> CompletedUpdate) newer.
Proof.
  induction history as [|e rest IH]; cbn.
  - split; [done|]. intros (newer & older & H & _). by destruct newer.
  - case_decide as E.
    + split.
      * intros [= ->]. by exists [], rest.
      * intros ([|x newer] & older & [= -> ->] & H1 & H2); [done|].
        by apply Forall_cons in H2 as [? _].
    + rewrite IH. split.
      * intros (newer & older & -> & H1 & H2). exists (e :: newer), older. auto.
      * intros ([|x newer] & older & [= -> ->] & H1 & H2); [done|].
        apply Forall_cons in H2 as [_ H2]. by exists newer, older.
Qed.

(** A NodeClass waits for the control plane exactly when it has no version of
    its own, a release image is desired, and the newest Completed entry of the
    history (newest first) has another image: not during an initial install, and
    not for a NodeClass with a version. *)
Theorem WaitsForControlPlaneUpgrade_spec hcp version :
  let v := hcp_ControlPlaneVersion hcp in
  WaitsForControlPlaneUpgrade hcp version = true <->
  version = "" /\ rel_Image (cpv_Desired v) <> "" /\
  exists newer entry older,
    elems (cpv_History v) = newer ++ entry :: older
    /\ hist_State entry = CompletedUpdate
    /\ Forall (fun e => hist_State e <> CompletedUpdate) newer
    /\ hist_Image entry <> rel_Image (cpv_Desired v).
Proof.
  intros v. unfold WaitsForControlPlaneUpgrade, isControlPlaneUpgrading. fold v.
  rewrite andb_true_iff, bool_decide_eq_true. apply and_iff_compat_l.
  case_decide as E; [naive_solver|].
  destruct (firstCompleted (elems (cpv_History v))) as [entry|] eqn:F.
  - rewrite negb_true_iff, bool_decide_eq_false.
    split.
    + intros H. split; [done|].
      apply firstCompleted_Some in F as (newer & older & ? & ? & ?). by exists newer, entry, older.
    + intros (_ & newer & entry' & older & H1 & H2 & H3 & H4).
      assert (firstCompleted (elems (cpv_History v)) = Some entry') as F'
        by (apply firstCompleted_Some; by exists newer, older).
      congruence.
  - split; [done|]. intros (_ & newer & entry & older & H1 & H2 & H3 & _).
    assert (firstCompleted (elems (cpv_History v)) = Some entry) as F'
      by (apply firstCompleted_Some; by exists newer, older).
    congruence.
Qed.

(** ** The user data Secret *)

Section userdata.
Context (namespace : string) (Hns : str_free "/"%char namespace = true).

Lemma isUserDataSecret_maps n secret :
  isUserDataSecret (KeyString (mkObjectKey namespace (karpenterNodePoolName n))) secret = true ->
  mapUserDataSecretToNodeClass (secret_meta secret) = [mkObjectKey "" n].
Proof using Hns.
  unfold isUserDataSecret, mapUserDataSecretToNodeClass.
  rewrite andb_true_iff, negb_true_iff, bool_decide_eq_true, bool_decide_eq_false.
  intros [-> Htok]. rewrite decide_False by done.
  unfold KeyString, karpenterNodePoolName; cbn [key_Namespace key_Name].
  change ("/" +:+ ?s) with (String "/" s).
  rewrite Cut_byte_app by done. by rewrite CutSuffix_app.
Qed.

Lemma maps_isUserDataSecret n p secret :
  mget (om_Annotations (secret_meta secret)) osv1.TokenSecretNodePoolAnnotation =
    KeyString (mkObjectKey namespace p) ->
  mapUserDataSecretToNodeClass (secret_meta secret) = [mkObjectKey "" n] ->
  isUserDataSecret (KeyString (mkObjectKey namespace (karpenterNodePoolName n))) secret = true.
Proof using Hns.
  unfold isUserDataSecret, mapUserDataSecretToNodeClass. intros ->.
  case_decide as Htok; [done|]. unfold KeyString; cbn [key_Namespace key_Name].
  change ("/" +:+ ?s) with (String "/" s). rewrite Cut_byte_app by done.
  destruct (CutSuffix p karpenterNodePoolSuffix) as [r [|]] eqn:C; [|done].
  intros [= ->]. apply CutSuffix_Some in C as ->.
  by rewrite bool_decide_true, bool_decide_false.
Qed.

(** C25. The lookup and the watch agree.  Whatever the API server lists, a
    Secret that [GetUserDataSecret] returns for a NodeClass was listed, is the
    only one of that NodeClass, and is mapped by the watch to exactly that
    NodeClass; and once the list succeeds, the not-found error on which the
    controller waits is returned exactly when no listed Secret of a NodePool of
    the namespace is mapped to the NodeClass. *)
Theorem GetUserDataSecret_watch_agrees c n t :
  let listed x := t ++ [Ev (EList c KSecret (mkListOptions namespace karpenterSecretSelector)) x] in
  let belongs secret :=
    mapUserDataSecretToNodeClass (secret_meta secret) = [mkObjectKey "" n] /\
    exists p, mget (om_Annotations (secret_meta secret)) osv1.TokenSecretNodePoolAnnotation =
                KeyString (mkObjectKey namespace p) in
  all_runs (GetUserDataSecret c namespace n) t (fun t' r =>
    match r with
    | Ok secret => exists secrets, t' = listed (Ok secrets)
        /\ secret ∈ secrets /\ belongs secret
        /\ forall other, other ∈ secrets -> belongs other -> other = secret
    | Err err =>
        (exists e, t' = listed (Err e) /\ err = wrapf "listing secrets" e)
        \/ exists secrets, t' = listed (Ok secrets)
           /\ (ErrorIs err "ErrUserDataSecretNotFound" = true <->
               forall other, other ∈ secrets -> ~ belongs other)
    end).
Proof using Hns.
  intros listed belongs. unfold GetUserDataSecret. go_step. go_step.
  intros [secrets|err]; cbn [map_err all_runs]; [|left; by exists err].
  set (p := isUserDataSecret _).
  assert (Hp : forall s, s ∈ List.filter p secrets <-> s ∈ secrets /\ p s = true).
  { intros s. rewrite !list_elem_of_In. apply filter_In. }
  assert (Hb : forall s, belongs s <-> p s = true).
  { intros s. split; [intros [Hm [q Hq]]; by apply (maps_isUserDataSecret _ _ _ Hq)|].
    intros Hs. split; [by apply isUserDataSecret_maps|].
    unfold p, isUserDataSecret in Hs. apply andb_true_iff in Hs as [Hs _].
    apply bool_decide_eq_true in Hs. eauto. }
  destruct (List.filter p secrets) as [|s [|s' rest]] eqn:F; cbn [all_runs].
  - right. exists secrets. split; [done|]. split; [|done].
    intros _ other Ho Hbo%Hb. assert (other ∈ @nil Secret) by (by apply Hp). set_solver.
  - exists secrets. split; [done|].
    destruct (proj1 (Hp s)) as [H1 H2]; [set_solver|].
    split; [done|]. split; [by apply Hb|].
    intros other Ho Hbo%Hb. assert (other ∈ [s]) by (by apply Hp). set_solver.
  - right. exists secrets. split; [done|]. split; [done|].
    intros H. destruct (H s); [apply Hp | apply Hb, (Hp s)]; set_solver.
Qed.

End userdata.

(** ** Witnesses *)

Definition exampleSecret : Secret :=
  mkSecret (om_set_Annotations (Some {[osv1.TokenSecretNodePoolAnnotation := "clusters-a/gpu-karpenter"]})
              (newMeta "clusters-a" "user-data-gpu-karpenter-1")) None.

Lemma GetUserDataSecret_watch_agrees_witness :
  str_free "/" "clusters-a" = true /\
  all_runs (GetUserDataSecret Management "clusters-a" "gpu") [] (fun t' r =>
    match r with
    | Ok s => mapUserDataSecretToNodeClass (secret_meta s) = [mkObjectKey "" "gpu"]
    | Err _ => True
    end) /\
  mapUserDataSecretToNodeClass (secret_meta exampleSecret) = [mkObjectKey "" "gpu"].
Proof.
  split; [reflexivity|]. split; [|reflexivity].
  eapply all_runs_mono.
  - apply (GetUserDataSecret_watch_agrees "clusters-a" (eq_refl true) Management "gpu" []).
  - intros t' [s|e] H; [|exact I]. destruct H as (secrets & _ & _ & [H _] & _). exact H.
Defined.

(** An update that changes no version changes no decision. *)
Lemma version_unchanged_waits oldHCP newHCP version :
  ControlPlaneVersionChanged oldHCP newHCP = false ->
  WaitsForControlPlaneUpgrade oldHCP version = WaitsForControlPlaneUpgrade newHCP version.
Proof.
  unfold ControlPlaneVersionChanged, SemanticDeepEqual. intros E%negb_false_iff%bool_decide_eq_true.
  unfold WaitsForControlPlaneUpgrade, isControlPlaneUpgrading.
  destruct (hcp_ControlPlaneVersion oldHCP) as [d h g], (hcp_ControlPlaneVersion newHCP) as [d' h' g'].
  pose proof (f_equal cpv_History E) as Eh. pose proof (f_equal (fun v => rel_Image (cpv_Desired v)) E) as Ed.
  cbn in Eh, Ed. cbn [cpv_Desired cpv_History]. rewrite Ed.
  assert (elems h = elems h') as Ehh.
  { rewrite <- (elems_canon_id h), <- (elems_canon_id h') by done. f_equal. exact Eh. }
  by rewrite Ehh.
Qed.

(** ** What the lookups establish *)

Lemma GetHostedControlPlane_runs c namespace t :
  all_runs (GetHostedControlPlane c namespace) t (fun t' r =>
    exists x, t' = t ++ [Ev (EList c KHostedControlPlane (InNamespace namespace)) x] /\
    match r with
    | Ok hcp => x = Ok [hcp]
    | Err err => match x with
                 | Ok l => length l <> 1 /\
                           (ErrorIs err "ErrHostedControlPlaneNotFound" = true <-> l = [])
                 | Err e => err = wrapf "listing hosted control planes" e
                 end
    end).
Proof.
  unfold GetHostedControlPlane. go_step. go_step.
  intros [[|h [|h' l]]|e]; cbn; eexists; (split; [done|]); done.
Qed.

Lemma GetHostedControlPlane_guarded (G : trace eff -> forall X, eff X -> Prop) c namespace t :
  G t _ (EList c KHostedControlPlane (InNamespace namespace)) ->
  guarded G t (GetHostedControlPlane c namespace).
Proof.
  intros HG. unfold GetHostedControlPlane. apply guarded_try.
  - apply guarded_wrap. by split; [|intros ?].
  - go_step. intros [[|h [|h' l]]|e]; done.
Qed.

(** The reason a cluster is found to be deleting. *)
Definition deletionEvidence (c : cluster) (hcp : HostedControlPlane) (gvk : GVK) (t : trace eff) : Prop :=
  om_DeletionTimestamp (hcp_meta hcp) <> None \/
  exists o : obj (KPartialObjectMetadata gvk),
    Ev (EGet c (KPartialObjectMetadata gvk)
          (mkObjectKey (om_Namespace (hcp_meta hcp)) (hcp_InfraID hcp))) (Ok o) ∈ t
    /\ IsZero (om_DeletionTimestamp (meta_of o)) = false.

Lemma IsClusterDeleting_runs c hcp gvk t :
  all_runs (IsClusterDeleting c hcp gvk) t (fun t' r =>
    (exists t1, t' = t ++ t1) /\
    (r = Ok true -> deletionEvidence c hcp gvk t') /\
    (r = Ok false -> om_DeletionTimestamp (hcp_meta hcp) = None)).
Proof.
  unfold IsClusterDeleting. case_decide as H1; [|case_decide as H2].
  - split; [exists []; by rewrite app_nil_r|]. split; [by left | done].
  - split; [exists []; by rewrite app_nil_r|]. split; [done|]. intros _. first [done | by apply dec_stable in H1].
  - intros [o|e]; cbn.
    + split; [by eexists|]. split.
      * intros [= H]. apply negb_true_iff in H. right. exists o. split; [set_solver | done].
      * intros _. first [done | by apply dec_stable in H1].
    + destruct (IsNotFound e); cbn; (split; [by eexists|]); [|done].
      split; [done|]. intros _. first [done | by apply dec_stable in H1].
Qed.

Lemma IsClusterDeleting_guarded (G : trace eff -> forall X, eff X -> Prop) c hcp gvk t :
  G t _ (EGet c (KPartialObjectMetadata gvk)
           (mkObjectKey (om_Namespace (hcp_meta hcp)) (hcp_InfraID hcp))) ->
  guarded G t (IsClusterDeleting c hcp gvk).
Proof.
  intros HG. unfold IsClusterDeleting. repeat case_decide; [done|done|].
  split; [done|]. intros [o|e]; cbn; [done|]. by destruct (IsNotFound e).
Qed.

(** The user data Secret of the NodeClass [n] was listed. *)
Definition secretFound (namespace n : string) (secret : Secret) (t : trace eff) : Prop :=
  exists secrets : list (obj KSecret),
    Ev (EList Management KSecret (mkListOptions namespace karpenterSecretSelector)) (Ok secrets) ∈ t
    /\ secret ∈ secrets
    /\ isUserDataSecret (KeyString (mkObjectKey namespace (karpenterNodePoolName n))) secret = true.

Lemma secretFound_app namespace n secret t t' :
  secretFound namespace n secret t -> secretFound namespace n secret (t ++ t').
Proof. intros (l & H & ?). exists l. split; [|done]. apply elem_of_app. by left. Qed.

Lemma GetUserDataSecret_runs namespace n t :
  all_runs (GetUserDataSecret Management namespace n) t (fun t' r =>
    (exists t1, t' = t ++ t1) /\
    forall secret, r = Ok secret -> secretFound namespace n secret t').
Proof.
  apply all_runs_and; [apply all_runs_suffix|]. unfold GetUserDataSecret. do 2 go_step.
  intros [secrets|e]; cbn [map_err all_runs]; [|done].
  destruct (List.filter _ secrets) as [|s [|s' l]] eqn:F; [done| |done].
  intros secret [= <-]. exists secrets. split; [apply last_elem|].
  assert (In s (List.filter (isUserDataSecret (KeyString (mkObjectKey namespace (karpenterNodePoolName n)))) secrets))
    as [H1 H2]%filter_In by (rewrite F; by left).
  split; [by apply list_elem_of_In | done].
Qed.

Lemma GetUserDataSecret_guarded (G : trace eff -> forall X, eff X -> Prop) namespace n t :
  G t _ (EList Management KSecret (mkListOptions namespace karpenterSecretSelector)) ->
  guarded G t (GetUserDataSecret Management namespace n).
Proof.
  intros HG. unfold GetUserDataSecret. apply guarded_try; [apply guarded_wrap; by split; [|intros ?]|].
  go_step. intros [secrets|e]; cbn [map_err all_runs]; [|done].
  by destruct (List.filter _ secrets) as [|s [|s' l]].
Qed.
