(* ===== verification/Deletion.v ===== *)
(** * Deletion of the hosted cluster's Karpenter resources

    pkg/controllers/hcp/deletion/controller.go: the finalizer on the
    HostedControlPlane, and the removal of NodePools and NodeClaims before it is
    released.  [namespace] is the configured namespace and [capiClusterGVK] what
    SetupWithManager resolved. *)

From S2P Require Import Prelude Prog DeepEqual MetaV1 CoreTypes HyperTypes Kube Hypershift.

Definition karpenterFinalizer : string := "hypershift.openshift.io/karpenter-finalizer".
Definition nodeClaimDeletionTimeout : Z := 3 * Minute.
Definition karpenterDeletionRequeueInterval : Z := 15 * Second.

(** The NodeClaim with the termination annotation, as it is patched. *)
Definition annotateTermination (ts : Time) (nodeClaim : NodeClaim) : NodeClaim :=
  let meta := nc_meta nodeClaim in
  nc_set_meta
    (om_set_Annotations
       (mset (om_Annotations meta) NodeClaimTerminationTimestampAnnotationKey (FormatRFC3339 ts))
       meta)
    nodeClaim.

Definition terminationAttempted (nodeClaim : NodeClaim) : bool :=
  negb (bool_decide
    (mget (om_Annotations (nc_meta nodeClaim)) NodeClaimTerminationTimestampAnnotationKey = "")).

(** It is called for a NodeClaim with the deletion timestamp [ts]. *)
Definition handleForcefulNodeClaimDeletion (ts : Time) (nodeClaim : NodeClaim) : go (result unit) :=
  if terminationAttempted nodeClaim then Ret (Ok tt)
  else
    wrap_err "applying NodeClaim termination annotation"
      (call (EPatch Hosted KNodeClaim nodeClaim (annotateTermination ts nodeClaim) false)) ;;?
    Ret (Ok tt).

Definition deleteNodePool (nodePool : NodePool) : go (result unit) :=
  if negb (IsZero (om_DeletionTimestamp (np_meta nodePool))) then Ret (Ok tt)
  else wrap_err "deleting NodePool" (call (EDelete Hosted KNodePool nodePool (Some 0%Z))).

Definition deleteNodePools : go (result bool) :=
  nodePools ←? wrap_err "listing NodePools" (call (EList Hosted KNodePool noOptions));
  for_each nodePools deleteNodePool ;;?
  Ret (Ok (bool_decide (length nodePools = 0))).

(** One turn of the loop over the NodeClaims. *)
Definition deleteNodeClaim (force : bool) (nodeClaim : NodeClaim) : go (result unit) :=
  match om_DeletionTimestamp (nc_meta nodeClaim) with
  | None =>
      wrap_err "deleting NodeClaim" (call (EDelete Hosted KNodeClaim nodeClaim (Some 0%Z)))
  | Some ts =>
      now ← call ENow;
      let elapsed := (now - ts)%Z in
      if negb force && (elapsed <? nodeClaimDeletionTimeout)%Z then Ret (Ok tt)
      else wrap_err "handling forceful NodeClaim deletion"
             (handleForcefulNodeClaimDeletion ts nodeClaim)
  end.

Definition deleteNodeClaims : go (result bool) :=
  let force := true in
  nodeClaims ←? wrap_err "listing NodeClaims" (call (EList Hosted KNodeClaim noOptions));
  for_each nodeClaims (deleteNodeClaim force) ;;?
  Ret (Ok (bool_decide (length nodeClaims = 0))).

Definition cleanupKarpenterResources : go (result bool) :=
  nodePoolsGone ←? deleteNodePools;
  if nodePoolsGone : bool then deleteNodeClaims else Ret (Ok false).

Definition reconcileDeletion (hcp : HostedControlPlane) : go (result Result) :=
  if negb (ContainsFinalizer (hcp_meta hcp) karpenterFinalizer) then Ret (Ok noRequeue)
  else
    cleanedUp ←? cleanupKarpenterResources;
    if negb cleanedUp then Ret (Ok (mkResult karpenterDeletionRequeueInterval))
    else if decide (om_DeletionTimestamp (hcp_meta hcp) = None) then Ret (Ok noRequeue)
    else
      wrap_err "removing finalizer from HostedControlPlane"
        (call (EPatch Management KHostedControlPlane hcp
                 (hcp_set_meta (RemoveFinalizer (hcp_meta hcp) karpenterFinalizer) hcp) true)) ;;?
      Ret (Ok noRequeue).

Definition Reconcile (namespace : string) (capiClusterGVK : GVK) : go (result Result) :=
  got ← GetHostedControlPlane Management namespace;
  match got with
  | Err err =>
      if ErrorIs err "ErrHostedControlPlaneNotFound" then Ret (Ok noRequeue) else Ret (Err err)
  | Ok hcp =>
      clusterDeleting ←? wrap_err "checking cluster deletion state"
                           (IsClusterDeleting Management hcp capiClusterGVK);
      if clusterDeleting : bool then reconcileDeletion hcp
      else if negb (ContainsFinalizer (hcp_meta hcp) karpenterFinalizer) then
        wrap_err "adding finalizer to HostedControlPlane"
          (call (EPatch Management KHostedControlPlane hcp
                   (hcp_set_meta (AddFinalizer (hcp_meta hcp) karpenterFinalizer) hcp) true)) ;;?
        Ret (Ok noRequeue)
      else Ret (Ok noRequeue)
  end.

(** ** What the controller may do, and when *)

(** A list call answered with no item. *)
Definition listedEmpty (k : kind) (t : trace eff) : Prop :=
  Ev (EList Hosted k noOptions) (Ok []) ∈ t.

Section guard.
Context (namespace : string) (gvk : GVK).

(** The HostedControlPlane was listed, alone, with the operator's finalizer, and
    the cluster was found to be deleting. *)
Definition tornDown (t : trace eff) : Prop :=
  exists hcp : obj KHostedControlPlane,
    Ev (EList Management KHostedControlPlane (InNamespace namespace)) (Ok [hcp]) ∈ t
    /\ ContainsFinalizer (hcp_meta hcp) karpenterFinalizer = true
    /\ deletionEvidence Management hcp gvk t.

Definition mayPatchHCP (t : trace eff) (orig o : HostedControlPlane) (lock : bool) : Prop :=
  Ev (EList Management KHostedControlPlane (InNamespace namespace))
     (Ok [orig] : result (list (obj KHostedControlPlane))) ∈ t /\ lock = true /\
  match om_DeletionTimestamp (hcp_meta orig) with
  | None => ContainsFinalizer (hcp_meta orig) karpenterFinalizer = false
            /\ o = hcp_set_meta (AddFinalizer (hcp_meta orig) karpenterFinalizer) orig
  | Some _ => listedEmpty KNodePool t /\ listedEmpty KNodeClaim t
              /\ o = hcp_set_meta (RemoveFinalizer (hcp_meta orig) karpenterFinalizer) orig
  end.

Definition mayPatchNodeClaim (t : trace eff) (orig o : NodeClaim) : Prop :=
  tornDown t /\ listedEmpty KNodePool t /\ terminationAttempted orig = false /\
  exists ts, om_DeletionTimestamp (nc_meta orig) = Some ts /\ o = annotateTermination ts orig.

Definition deletionGuard (t : trace eff) (X : Type) (e : eff X) : Prop :=
  match e with
  | EGet _ _ _ | EList _ _ _ | ENow => True
  | EPatch Management k orig o lock =>
      match k return obj k -> obj k -> Prop with
      | KHostedControlPlane => fun orig o => mayPatchHCP t orig o lock
      | _ => fun _ _ => False
      end orig o
  | EPatch Hosted k orig o lock =>
      match k return obj k -> obj k -> Prop with
      | KNodeClaim => mayPatchNodeClaim t
      | _ => fun _ _ => False
      end orig o
  | EDelete Hosted k o _ =>
      match k return obj k -> Prop with
      | KNodePool => fun np => tornDown t /\ IsZero (om_DeletionTimestamp (np_meta np)) = true
      | KNodeClaim => fun nc => tornDown t /\ listedEmpty KNodePool t
                                /\ om_DeletionTimestamp (nc_meta nc) = None
      | _ => fun _ => False
      end o
  | _ => False
  end.

Lemma deletionEvidence_app c hcp t t' :
  deletionEvidence c hcp gvk t -> deletionEvidence c hcp gvk (t ++ t').
Proof.
  intros [H|(o & H1 & H2)]; [by left|]. right. exists o. split; [|done].
  apply elem_of_app. by left.
Qed.

Lemma tornDown_app t t' : tornDown t -> tornDown (t ++ t').
Proof.
  intros (hcp & H1 & H2 & H3). exists hcp.
  split; [apply elem_of_app; by left|]. split; [done | by apply deletionEvidence_app].
Qed.

Lemma listedEmpty_app k t t' : listedEmpty k t -> listedEmpty k (t ++ t').
Proof. intros H. apply elem_of_app. by left. Qed.

Lemma listedEmpty_snoc k t : listedEmpty k (t ++ [Ev (EList Hosted k noOptions) (Ok [])]).
Proof. apply elem_of_app. right. by apply list_elem_of_singleton. Qed.

(** Extending the history one call at a time. *)
Ltac extend := repeat first [assumption | apply tornDown_app | apply listedEmpty_app]; try done.

Lemma deleteNodePools_guarded t : tornDown t -> guarded deletionGuard t deleteNodePools.
Proof.
  intros Ht. unfold deleteNodePools. go_step; [by repeat go_step|].
  go_step. intros [nps|e]; cbn [map_err all_runs]; [|done].
  apply guarded_try.
  - apply guarded_for_each with (I := fun _ t' => tornDown t'); [extend|].
    intros dn np t' _ H. unfold deleteNodePool.
    destruct (IsZero _) eqn:E; cbn [negb]; [|done]. split.
    + apply guarded_wrap. by split; [|intros ?].
    + go_step. intros [[]|e]; cbn [map_err all_runs]; extend.
  - eapply all_runs_mono; [apply all_runs_suffix|]. by intros t' [[]|e].
Qed.

Lemma deleteNodePools_runs t :
  all_runs deleteNodePools t (fun t' r =>
    (exists t1, t' = t ++ t1) /\ (r = Ok true -> listedEmpty KNodePool t')).
Proof.
  unfold deleteNodePools. do 2 go_step. intros [nps|e]; cbn [map_err all_runs].
  2: { split; [by eexists | done]. }
  go_step. eapply all_runs_mono; [apply all_runs_suffix|].
  intros t' [[]|e] [t1 ->]; cbn [all_runs]; (split; [by rewrite <- app_assoc; eexists|]); [|done].
  intros [= H]. apply bool_decide_eq_true in H. destruct nps; [|done].
  apply listedEmpty_app, listedEmpty_snoc.
Qed.

Lemma deleteNodeClaim_guarded force nc t :
  tornDown t -> listedEmpty KNodePool t ->
  guarded deletionGuard t (deleteNodeClaim force nc).
Proof.
  intros H1 H2. unfold deleteNodeClaim, handleForcefulNodeClaimDeletion.
  destruct (om_DeletionTimestamp (nc_meta nc)) as [ts|] eqn:E.
  - apply guarded_bind; [by split; [|intros ?]|]. intros now; cbn [all_runs].
    destruct (_ && _); [done|]. apply guarded_wrap. destruct (terminationAttempted nc) eqn:A; [done|].
    apply guarded_try; [|eapply all_runs_mono; [apply all_runs_suffix|]; by intros t' [?|?]].
    apply guarded_wrap. split; [|by intros ?]. split; [extend|]. split; [extend|].
    split; [done|]. by exists ts.
  - apply guarded_wrap. by split; [|intros ?].
Qed.

Lemma deleteNodeClaims_guarded t :
  tornDown t -> listedEmpty KNodePool t -> guarded deletionGuard t deleteNodeClaims.
Proof.
  intros H1 H2. unfold deleteNodeClaims. go_step; [by repeat go_step|].
  go_step. intros [ncs|e]; cbn [map_err all_runs]; [|done].
  apply guarded_try; [|eapply all_runs_mono; [apply all_runs_suffix|]; by intros t' [[]|e]].
  apply guarded_for_each with (I := fun _ t' => tornDown t' /\ listedEmpty KNodePool t').
  { split; extend. }
  intros dn nc t' _ [H3 H4]. split; [by apply deleteNodeClaim_guarded|].
  eapply all_runs_mono; [apply all_runs_suffix|].
  intros t'' [[]|e] [t1 ->]; [|done]. split; extend.
Qed.

Lemma deleteNodeClaims_runs t :
  all_runs deleteNodeClaims t (fun t' r =>
    (exists t1, t' = t ++ t1) /\ (r = Ok true -> listedEmpty KNodeClaim t')).
Proof.
  unfold deleteNodeClaims. do 2 go_step. intros [ncs|e]; cbn [map_err all_runs].
  2: { split; [by eexists | done]. }
  go_step. eapply all_runs_mono; [apply all_runs_suffix|].
  intros t' [[]|e] [t1 ->]; cbn [all_runs]; (split; [by rewrite <- app_assoc; eexists|]); [|done].
  intros [= H]. apply bool_decide_eq_true in H. destruct ncs; [|done].
  apply listedEmpty_app, listedEmpty_snoc.
Qed.

Lemma cleanup_guarded t : tornDown t -> guarded deletionGuard t cleanupKarpenterResources.
Proof.
  intros Ht. apply guarded_try; [by apply deleteNodePools_guarded|].
  eapply all_runs_mono; [apply deleteNodePools_runs|].
  intros t' [[|]|e] [[t1 ->] H]; [|done|done].
  apply deleteNodeClaims_guarded; [extend | by apply H].
Qed.

Lemma cleanup_runs t :
  all_runs cleanupKarpenterResources t (fun t' r =>
    (exists t1, t' = t ++ t1) /\
    (r = Ok true -> listedEmpty KNodePool t' /\ listedEmpty KNodeClaim t')).
Proof.
  apply all_runs_try. eapply all_runs_mono; [apply deleteNodePools_runs|].
  intros t' [[|]|e] [[t1 ->] H]; [|by split; [eexists|]..].
  eapply all_runs_mono; [apply deleteNodeClaims_runs|].
  intros t'' r [[t2 ->] H']. split; [by rewrite <- app_assoc; eexists|].
  intros Hr. split; [apply listedEmpty_app; by apply H | by apply H'].
Qed.

Lemma Reconcile_guards : guarded deletionGuard [] (Reconcile namespace gvk).
Proof.
  unfold Reconcile. apply guarded_bind; [by apply GetHostedControlPlane_guarded|].
  eapply all_runs_mono; [apply GetHostedControlPlane_runs|].
  intros t [hcp|e] (x & -> & Hx); [subst x|by destruct (ErrorIs _ _)].
  apply guarded_try; [by apply guarded_wrap, IsClusterDeleting_guarded|].
  apply all_runs_wrap. eapply all_runs_mono; [apply IsClusterDeleting_runs|].
  set (t0 := [] ++ _).
  assert (Hl : Ev (EList Management KHostedControlPlane (InNamespace namespace))
                  (Ok [hcp] : result (list (obj KHostedControlPlane))) ∈ t0).
  { by apply list_elem_of_singleton. }
  clearbody t0. intros t' [[|]|e] [[t1 ->] [Hev Hno]]; cbn [map_err]; [| |done].
  - unfold reconcileDeletion. destruct (ContainsFinalizer _ _) eqn:F; cbn [negb]; [|done].
    assert (Ht : tornDown (t0 ++ t1)).
    { exists hcp. split; [apply elem_of_app; by left|]. split; [done | by apply Hev]. }
    apply guarded_try; [by apply cleanup_guarded|].
    eapply all_runs_mono; [apply cleanup_runs|].
    intros t'' [[|]|e] [[t2 ->] Hc]; cbn [negb]; [|done|done].
    case_decide as D; [done|].
    apply guarded_try; [|eapply all_runs_mono; [apply all_runs_suffix|]; by intros ? [?|?]].
    apply guarded_wrap. split; [|by intros ?]. cbn [deletionGuard]; unfold mayPatchHCP.
    split; [do 2 (apply elem_of_app; left); done|]. split; [done|].
    destruct (om_DeletionTimestamp (hcp_meta hcp)); [|done].
    destruct (Hc eq_refl). done.
  - destruct (ContainsFinalizer _ _) eqn:F; cbn [negb]; [done|].
    apply guarded_try; [|eapply all_runs_mono; [apply all_runs_suffix|]; by intros ? [?|?]].
    apply guarded_wrap. split; [|by intros ?]. cbn [deletionGuard]; unfold mayPatchHCP.
    split; [apply elem_of_app; by left|]. split; [done|]. by rewrite (Hno eq_refl).
Qed.

(** C1. Whatever the clusters answer, the controller changes nothing but this:
    it adds its finalizer, and nothing else, to a HostedControlPlane that is not
    being deleted; it deletes NodePools only once the cluster was found to be
    deleting (by the HostedControlPlane or the CAPI Cluster) and the finalizer is
    held; it touches NodeClaims only once the list of NodePools came back empty,
    deleting those without a deletion timestamp and annotating, once, those that
    have one; and it releases its finalizer only when the HostedControlPlane has
    a deletion timestamp and the lists of NodePools and of NodeClaims both came
    back empty.  Both patches of the HostedControlPlane carry its resource
    version. *)
Theorem Reconcile_guarded : guarded deletionGuard [] (Reconcile namespace gvk).
Proof. apply Reconcile_guards. Qed.

End guard.
