(* ===== verification/AutoNodeStatus.v ===== *)
(** * AutoNode status

    pkg/controllers/hcp/autonodestatus/controller.go: the counts of Karpenter
    nodes, NodeClaims and vCPUs in the HostedControlPlane's status, and the watch
    predicates that decide when they are computed again. *)

From S2P Require Import Prelude Prog DeepEqual MetaV1 Quantity CoreTypes HyperTypes ApplyTypes Kube Hypershift.

Definition autoNodeStatusFieldManager : string := "karpenter-operator".

(** ** Counting *)

Definition hasLabel (key : string) (m : ObjectMeta) : bool :=
  bool_decide (is_Some (entries (om_Labels m) !! key)).

(** One turn of the loop over the nodes: the live names and the int32 counter. *)
Definition countNode (acc : gset string * Z) (node : Node) : gset string * Z :=
  let '(liveNodes, karpenterNodeCount) := acc in
  ({[om_Name (node_meta node)]} ∪ liveNodes,
   if hasLabel NodePoolLabelKey (node_meta node) then int32 (karpenterNodeCount + 1)
   else karpenterNodeCount).

Definition countNodes (nodes : list Node) : gset string * Z := fold_left countNode nodes (∅, 0%Z).

(** One turn of the loop over the NodeClaims: the int64 accumulator. *)
Definition addVCPUs (liveNodes : gset string) (total : Z) (nc : NodeClaim) : Z :=
  if decide (nc_NodeName nc ∈ liveNodes) then
    match entries (nc_Capacity nc) !! ResourceCPU with
    | Some cpu => int64 (total + Value cpu)
    | None => total
    end
  else total.

Definition sumNodeClaimVCPUs (nodeClaims : list NodeClaim) (liveNodes : gset string) : Z :=
  int32 (fold_left (addVCPUs liveNodes) nodeClaims 0%Z).

Definition desiredStatus (nodes : list Node) (nodeClaims : list NodeClaim) : AutoNodeStatus :=
  let '(liveNodes, karpenterNodeCount) := countNodes nodes in
  mkAutoNodeStatus (Some karpenterNodeCount)
    (Some (int32 (Z.of_nat (length nodeClaims))))
    (Some (sumNodeClaimVCPUs nodeClaims liveNodes)).

(** ** Reconcile *)

Definition reconcileAutoNodeStatus (hcp : HostedControlPlane) : go (result unit) :=
  nodes ←? wrap_err "listing nodes" (call (EList Hosted KNode noOptions));
  nodeClaims ←? wrap_err "listing NodeClaims" (call (EList Hosted KNodeClaim noOptions));
  let desired := desiredStatus nodes nodeClaims in
  if SemanticDeepEqual (hcp_AutoNode hcp) desired then Ret (Ok tt)
  else
    wrap_err "applying AutoNode status"
      (call (EStatusApply Management KHostedControlPlane
               (mkObjectKey (om_Namespace (hcp_meta hcp)) (om_Name (hcp_meta hcp)))
               (ApplyAutoNode desired) autoNodeStatusFieldManager true)).

Definition Reconcile (namespace : string) : go (result Result) :=
  got ← GetHostedControlPlane Management namespace;
  match got with
  | Err err =>
      if ErrorIs err "ErrHostedControlPlaneNotFound" then Ret (Ok noRequeue) else Ret (Err err)
  | Ok hcp =>
      wrap_err "reconciling AutoNode status" (reconcileAutoNodeStatus hcp) ;;?
      Ret (Ok noRequeue)
  end.

(** ** Watches *)

Definition zeroQuantity : Quantity := mkQuantity (AInt 0 0) "" DecimalExponent.

(** [Status.Capacity[corev1.ResourceCPU]]: the zero quantity when missing. *)
Definition cpuOf (nc : NodeClaim) : Quantity :=
  default zeroQuantity (entries (nc_Capacity nc) !! ResourceCPU).

Definition nodeClaimPredicate (e : watchEvent NodeClaim) : bool :=
  match e with
  | CreateEvent _ | DeleteEvent _ => true
  | UpdateEvent old new =>
      if negb (QuantityEqual (cpuOf old) (cpuOf new)) then true
      else negb (bool_decide (nc_NodeName old = nc_NodeName new))
  | GenericEvent _ => false
  end.

Definition countChangePredicate (e : watchEvent Node) : bool :=
  match e with
  | CreateEvent _ | DeleteEvent _ => true
  | UpdateEvent old new =>
      negb (bool_decide (hasLabel NodePoolLabelKey (node_meta old) =
                         hasLabel NodePoolLabelKey (node_meta new)))
  | GenericEvent _ => false
  end.

(** ** The counts *)

Lemma wrap_wrap_add w a b : (0 < w)%Z -> wrap w (wrap w a + b) = wrap w (a + b).
Proof.
  intros Hw. unfold wrap. f_equal.
  assert (0 < 2 ^ w)%Z by (apply Z.pow_pos_nonneg; lia).
  replace ((a + 2 ^ (w - 1)) mod 2 ^ w - 2 ^ (w - 1) + b + 2 ^ (w - 1))%Z
    with ((a + 2 ^ (w - 1)) mod 2 ^ w + b)%Z by lia.
  rewrite Z.add_mod_idemp_l by lia. f_equal. lia.
Qed.

Lemma int32_int64 z : int32 (int64 z) = int32 z.
Proof.
  unfold int32, int64, wrap. f_equal.
  replace (2 ^ 64)%Z with (2 ^ 32 * 2 ^ 32)%Z by done.
  set (a := (z + 2 ^ (64 - 1))%Z).
  rewrite (Z.rem_mul_r a (2 ^ 32) (2 ^ 32)) by done.
  replace (a mod 2 ^ 32 + 2 ^ 32 * ((a / 2 ^ 32) mod 2 ^ 32) - 2 ^ (64 - 1) + 2 ^ (32 - 1))%Z
    with (a mod 2 ^ 32 + (2 ^ 31 - 2 ^ 63 + 2 ^ 32 * ((a / 2 ^ 32) mod 2 ^ 32)))%Z by lia.
  rewrite Z.add_mod_idemp_l by done. unfold a.
  replace (z + 2 ^ (64 - 1) + (2 ^ 31 - 2 ^ 63 + 2 ^ 32 * (((z + 2 ^ (64 - 1)) / 2 ^ 32) mod 2 ^ 32)))%Z
    with (z + 2 ^ (32 - 1) + ((((z + 2 ^ (64 - 1)) / 2 ^ 32) mod 2 ^ 32)) * 2 ^ 32)%Z by lia.
  by rewrite Z.mod_add by done.
Qed.

(** The specification: names, number of labelled nodes, sum of the CPUs of the
    NodeClaims on a live node. *)
Definition karpenterNodes (nodes : list Node) : list Node :=
  List.filter (fun n => hasLabel NodePoolLabelKey (node_meta n)) nodes.

Definition claimCPU (liveNodes : gset string) (nc : NodeClaim) : Z :=
  if decide (nc_NodeName nc ∈ liveNodes) then
    match entries (nc_Capacity nc) !! ResourceCPU with
    | Some cpu => Value cpu
    | None => 0
    end
  else 0.

Definition sumZ (l : list Z) : Z := foldr Z.add 0%Z l.

Lemma countNodes_spec nodes :
  countNodes nodes =
    (list_to_set (om_Name ∘ node_meta <$> nodes), int32 (Z.of_nat (length (karpenterNodes nodes)))).
Proof.
  unfold countNodes.
  enough (forall live n, fold_left countNode nodes (live, int32 n) =
    (list_to_set (om_Name ∘ node_meta <$> nodes) ∪ live,
     int32 (n + Z.of_nat (length (karpenterNodes nodes))))) as H.
  { rewrite (H ∅ 0%Z). f_equal. by rewrite union_empty_r_L. }
  induction nodes as [|node nodes IH]; intros live n.
  - cbn. rewrite union_empty_l_L. f_equal. f_equal. lia.
  - cbn [fold_left countNode]. unfold karpenterNodes; cbn [List.filter]; fold (karpenterNodes nodes).
    destruct (hasLabel NodePoolLabelKey (node_meta node)).
    + unfold int32 at 1. rewrite wrap_wrap_add by done. fold (int32 (n + 1)).
      rewrite IH. f_equal; [cbn; set_solver|]. cbn [length]. f_equal. lia.
    + rewrite IH. f_equal. cbn. set_solver.
Qed.

Lemma sumNodeClaimVCPUs_spec nodeClaims liveNodes :
  sumNodeClaimVCPUs nodeClaims liveNodes = int32 (sumZ (claimCPU liveNodes <$> nodeClaims)).
Proof.
  unfold sumNodeClaimVCPUs.
  enough (forall total t', int32 total = int32 t' ->
    int32 (fold_left (addVCPUs liveNodes) nodeClaims total) =
      int32 (t' + sumZ (claimCPU liveNodes <$> nodeClaims))) as H
    by (by rewrite (H 0%Z 0%Z)).
  induction nodeClaims as [|nc ncs IH]; intros total t' Ht; cbn.
  - rewrite Ht. f_equal. lia.
  - rewrite (IH _ (t' + claimCPU liveNodes nc)%Z).
    + f_equal. unfold sumZ. lia.
    + unfold claimCPU, addVCPUs. case_decide; [destruct (_ !! _)|]; rewrite ?Z.add_0_r; try done.
      rewrite int32_int64. unfold int32 in *.
      rewrite <- (wrap_wrap_add 32 total), Ht, wrap_wrap_add by done. done.
Qed.

(** C31. The reported counts.  Below 2^31, the status holds the number of nodes
    with the NodePool label, the number of NodeClaims, and the sum of the CPU
    capacities, each rounded up, of the NodeClaims whose node exists; the int64
    accumulator and the int32 counters never lose a value that fits. *)
Theorem desiredStatus_exact nodes nodeClaims :
  let live : gset string := list_to_set (om_Name ∘ node_meta <$> nodes) in
  let vcpus := sumZ (claimCPU live <$> nodeClaims) in
  (Z.of_nat (length nodes) <= maxInt32)%Z -> (Z.of_nat (length nodeClaims) <= maxInt32)%Z ->
  (minInt32 <= vcpus <= maxInt32)%Z ->
  desiredStatus nodes nodeClaims =
    mkAutoNodeStatus (Some (Z.of_nat (length (karpenterNodes nodes))))
      (Some (Z.of_nat (length nodeClaims))) (Some vcpus).
Proof.
  intros live vcpus H1 H2 H3. unfold desiredStatus. rewrite countNodes_spec. fold live.
  rewrite sumNodeClaimVCPUs_spec. fold vcpus.
  assert (length (karpenterNodes nodes) <= length nodes) by apply filter_length_le.
  unfold minInt32 in *. rewrite !int32_id by (unfold minInt32; lia). done.
Qed.

(** Beyond that, the vCPU count is the true sum modulo 2^32, whatever the
    order of the NodeClaims. *)
Theorem vcpus_wraps nodeClaims nodeClaims' liveNodes :
  nodeClaims ≡ₚ nodeClaims' ->
  sumNodeClaimVCPUs nodeClaims liveNodes = sumNodeClaimVCPUs nodeClaims' liveNodes
  /\ ((sumNodeClaimVCPUs nodeClaims liveNodes - sumZ (claimCPU liveNodes <$> nodeClaims)) mod 2 ^ 32 = 0)%Z
  /\ (minInt32 <= sumNodeClaimVCPUs nodeClaims liveNodes <= maxInt32)%Z.
Proof.
  intros Hp. rewrite !sumNodeClaimVCPUs_spec. split; [|split].
  - f_equal. induction Hp; cbn in *; unfold sumZ in *; lia.
  - unfold int32, wrap. set (z := sumZ _).
    pose proof (Z.div_mod (z + 2 ^ (32 - 1)) (2 ^ 32) ltac:(done)) as E.
    replace (_ - z)%Z with (- ((z + 2 ^ (32 - 1)) / 2 ^ 32) * 2 ^ 32)%Z by lia.
    apply Z.mod_mul. done.
  - pose proof (wrap_range 32 (sumZ (claimCPU liveNodes <$> nodeClaims))) as W.
    unfold int32, minInt32, maxInt32 in *. lia.
Qed.

(** ** The watches miss nothing *)

Lemma hasLabel_karpenterNodes l1 old new l2 :
  hasLabel NodePoolLabelKey (node_meta old) = hasLabel NodePoolLabelKey (node_meta new) ->
  length (karpenterNodes (l1 ++ old :: l2)) = length (karpenterNodes (l1 ++ new :: l2)).
Proof.
  intros H. unfold karpenterNodes. rewrite !List.filter_app, !length_app. cbn [List.filter].
  rewrite H. by destruct (hasLabel _ (node_meta new)).
Qed.

Lemma claimCPU_cpuOf live nc :
  claimCPU live nc = if decide (nc_NodeName nc ∈ live) then Value (cpuOf nc) else 0%Z.
Proof. unfold claimCPU, cpuOf. by destruct (_ !! ResourceCPU). Qed.

(** An update event that a watch predicate drops cannot change what the
    controller would report: with a Node or a NodeClaim replaced by a version
    the predicate ignores, the computed status is the same. *)
Theorem ignored_updates_change_nothing :
  (forall old new nodes1 nodes2 nodeClaims,
     countChangePredicate (UpdateEvent old new) = false ->
     om_Name (node_meta old) = om_Name (node_meta new) ->
     desiredStatus (nodes1 ++ old :: nodes2) nodeClaims =
     desiredStatus (nodes1 ++ new :: nodes2) nodeClaims) /\
  (forall old new nodes claims1 claims2,
     nodeClaimPredicate (UpdateEvent old new) = false ->
     Representable (cpuOf old) -> Representable (cpuOf new) ->
     desiredStatus nodes (claims1 ++ old :: claims2) =
     desiredStatus nodes (claims1 ++ new :: claims2)).
Proof.
  split; intros old new; cbn [countChangePredicate nodeClaimPredicate].
  - intros nodes1 nodes2 ncs H%negb_false_iff%bool_decide_eq_true Hn.
    unfold desiredStatus. rewrite !countNodes_spec, (hasLabel_karpenterNodes nodes1 old new) by done.
    rewrite !fmap_app, !fmap_cons. cbn [compose]. by rewrite Hn.
  - intros nodes ncs1 ncs2 H Ho Hn.
    destruct (negb (QuantityEqual _ _)) eqn:Q; [done|].
    apply negb_false_iff in H. apply bool_decide_eq_true in H.
    apply negb_false_iff in Q. unfold desiredStatus. rewrite !countNodes_spec.
    rewrite !sumNodeClaimVCPUs_spec, !length_app. cbn [length].
    rewrite !fmap_app, !fmap_cons, !claimCPU_cpuOf, H.
    by rewrite (QuantityEqual_Value (cpuOf old) (cpuOf new)).
Qed.

(** ** Reconcile *)

(** An answer that confirms a write. *)
Definition wrote (ev : event eff) : Prop :=
  match ev_call ev in eff X return X -> Prop with
  | EGet _ _ _ | EList _ _ _ | EDescribeInstances _ => fun _ => False
  | ENow => fun _ => False
  | ECreate _ _ _ | EUpdate _ _ _ | EPatch _ _ _ _ _ | EStatusPatch _ _ _ _ _ =>
      fun x => match x with Ok _ => True | Err _ => False end
  | EDelete _ _ _ _ | EStatusApply _ _ _ _ _ _ | EApply _ _ _ _ | EUpdateApproval _ _ =>
      fun x => match x with Ok _ => True | Err _ => False end
  end (ev_answer ev).

Section reconcile.
Context (namespace : string).

Definition theLists (hcp : HostedControlPlane) (nodes : list Node) (nodeClaims : list NodeClaim) :
    trace eff :=
  [Ev (EList Management KHostedControlPlane (InNamespace namespace)) (Ok [hcp]);
   Ev (EList Hosted KNode noOptions) (Ok nodes);
   Ev (EList Hosted KNodeClaim noOptions) (Ok nodeClaims)].

(** A reconcile that succeeds on a namespace with a HostedControlPlane has
    listed Nodes and NodeClaims and either found the status up to date and
    written nothing, or forced exactly the computed counts, once, as the field
    manager HyperShift uses; one that fails has written nothing. *)
Theorem Reconcile_reports :
  all_runs (Reconcile namespace) [] (fun t r =>
    match r with
    | Ok res => res = noRequeue /\
        ((exists x, t = [Ev (EList Management KHostedControlPlane (InNamespace namespace)) x]
                    /\ forall hcp : HostedControlPlane, x <> Ok [hcp])
         \/ exists hcp nodes nodeClaims,
              let desired := desiredStatus nodes nodeClaims in
              (hcp_AutoNode hcp = desired /\ t = theLists hcp nodes nodeClaims)
              \/ (hcp_AutoNode hcp <> desired /\
                  t = theLists hcp nodes nodeClaims ++
                      [Ev (EStatusApply Management KHostedControlPlane
                             (ObjectKeyFromObject (hcp_meta hcp)) (ApplyAutoNode desired)
                             "karpenter-operator" true) (Ok tt)]))
    | Err _ => Forall (fun ev => ~ wrote ev) t
    end).
Proof.
  unfold Reconcile. apply all_runs_bind.
  eapply all_runs_mono; [apply GetHostedControlPlane_runs|].
  intros t [hcp|e] (x & -> & Hx).
  2: { destruct (ErrorIs e _) eqn:E; cbn [all_runs].
       - split; [done|]. left. exists x. split; [done|]. intros hcp ->. by destruct Hx.
       - repeat constructor. intros []. }
  subst x. go_step. go_step. unfold reconcileAutoNodeStatus.
  do 2 go_step. intros [nodes|e]; cbn [map_err all_runs].
  2: { repeat constructor; intros []. }
  do 2 go_step. intros [ncs|e]; cbn [map_err all_runs].
  2: { repeat constructor; intros []. }
  destruct (SemanticDeepEqual _ _) eqn:E.
  - apply bool_decide_eq_true in E. cbn [all_runs map_err]. split; [done|]. right.
    exists hcp, nodes, ncs. by left.
  - apply bool_decide_eq_false in E. apply all_runs_wrap. intros [[]|e]; cbn [map_err all_runs].
    + split; [done|]. right. exists hcp, nodes, ncs. by right.
    + repeat constructor; intros [].
Qed.

End reconcile.

(** ** Witnesses *)

Definition exampleNode : Node :=
  mkNode (om_set_Labels (Some {[NodePoolLabelKey := "default"]}) (newMeta "" "node-a")).
Definition exampleClaim (cpu : Z) : NodeClaim :=
  mkNodeClaim (newMeta "" "claim-a") "node-a" "aws:///z/i-1"
    (Some {[ResourceCPU := mkQuantity (AInt cpu (-3)) "" DecimalSI]}).

Lemma desiredStatus_exact_witness :
  desiredStatus [exampleNode; mkNode (newMeta "" "node-b")] [exampleClaim 3920] =
    mkAutoNodeStatus (Some 1%Z) (Some 1%Z) (Some 4%Z).
Proof.
  rewrite (desiredStatus_exact [exampleNode; mkNode (newMeta "" "node-b")] [exampleClaim 3920]);
    [reflexivity | vm_compute; discriminate | vm_compute; discriminate |].
  split; vm_compute; discriminate.
Defined.

Lemma vcpus_wraps_witness :
  let big := mkNodeClaim (newMeta "" "c") "node-a" "" (Some {[ResourceCPU := mkQuantity (AInt 3000000000 0) "" DecimalSI]}) in
  sumNodeClaimVCPUs [big; exampleClaim 500] {["node-a"]} = (-1294967295)%Z /\
  sumNodeClaimVCPUs [big; exampleClaim 500] {["node-a"]} =
  sumNodeClaimVCPUs [exampleClaim 500; big] {["node-a"]}.
Proof.
  intros big. split; [reflexivity|].
  apply (vcpus_wraps [big; exampleClaim 500] [exampleClaim 500; big] {["node-a"]}).
  apply Permutation_swap.
Defined.

(** A NodeClaim whose capacity is written another way: 4 and 4000m. *)
Lemma ignored_updates_change_nothing_witness :
  desiredStatus [exampleNode] [exampleClaim 4000] =
  desiredStatus [exampleNode]
    [mkNodeClaim (newMeta "" "claim-a") "node-a" "aws:///z/i-1"
       (Some {[ResourceCPU := mkQuantity (AInt 4 0) "4" DecimalSI]})].
Proof.
  destruct ignored_updates_change_nothing as [_ H].
  apply (H (exampleClaim 4000) _ [exampleNode] [] []); [reflexivity | |];
    repeat split; vm_compute; discriminate.
Defined.
