(* ===== verification/NodeIdentity.v ===== *)
(** * The node identity interface

    [common.NodeIdentityVerifier] of pkg/cloudprovider/common/common.go: what a
    cloud provider promises to the machine approver.  A verifier only asks the
    cloud, never the clusters, and when it accepts a node name it has evidence of
    the cloud's answers for it. *)

From S2P Require Import Prelude Prog MetaV1 CoreTypes Kube.

(** A question to the cloud: no cluster is read or written. *)
Definition asksCloud (question : list string -> Prop) (t : trace eff) (X : Type) (e : eff X) : Prop :=
  match e with EDescribeInstances ids => question ids | _ => False end.

Class NodeIdentityVerifier := {
  Verify : string -> list NodeClaim -> go (result bool);
  (** The instances it may ask about, given the NodeClaims. *)
  identityQuestion : list NodeClaim -> list string -> Prop;
  (** What the calls and answers of a history show about a node name. *)
  identityEvidence : string -> list NodeClaim -> trace eff -> Prop;
  identityEvidence_app nodeName nodeClaims t t' :
    identityEvidence nodeName nodeClaims t -> identityEvidence nodeName nodeClaims (t ++ t');
  Verify_asksCloud nodeName nodeClaims t : guarded (asksCloud (identityQuestion nodeClaims)) t (Verify nodeName nodeClaims);
  Verify_evidence nodeName nodeClaims t :
    all_runs (Verify nodeName nodeClaims) t (fun t' r =>
      r = Ok true -> identityEvidence nodeName nodeClaims t') }.
