(* ===== verification/AwsIdentity.v ===== *)
(** * Node identity on AWS

    pkg/cloudprovider/aws/node_identity_verifier.go: a node name is accepted when
    one of the NodeClaims' EC2 instances has it as its private DNS name.  The
    instances are described in batches. *)

From S2P Require Import Prelude Prog MetaV1 CoreTypes Kube NodeIdentity.

Definition maxInstanceIDsPerDescribeCall : nat := 1000.

Definition ec2InstanceID (providerID : string) : option string :=
  match LastIndex providerID "/" with
  | None => None
  | Some separator =>
      if decide (separator = String.length providerID - 1) then None
      else Some (str_drop (S separator) providerID)
  end.

(** [awssdk.ToString] *)
Definition ToString (p : option string) : string := default "" p.

Definition matchesPrivateDNSName (instanceIDs : list string) (nodeName : string) :
    go (result bool) :=
  reservations ←? call (EDescribeInstances instanceIDs);
  Ret (Ok (existsb (existsb (fun dns => bool_decide (ToString dns = nodeName))) reservations)).

Definition instanceIDs (nodeClaims : list NodeClaim) : list string :=
  omap (fun claim => ec2InstanceID (nc_ProviderID claim)) nodeClaims.

(** [slices.Chunk(l, n)]; the length bounds the number of chunks. *)
Fixpoint chunks {A} (fuel : nat) (l : list A) (n : nat) : list (list A) :=
  match fuel, l with
  | _, [] => []
  | O, _ => []
  | S fuel', _ => take n l :: chunks fuel' (drop n l) n
  end.
Definition Chunk {A} (l : list A) (n : nat) : list (list A) := chunks (length l) l n.

Fixpoint verifyBatches (batches : list (list string)) (nodeName : string) : go (result bool) :=
  match batches with
  | [] => Ret (Ok false)
  | batch :: rest =>
      found ←? matchesPrivateDNSName batch nodeName;
      if found : bool then Ret (Ok true) else verifyBatches rest nodeName
  end.

Definition verify (nodeName : string) (nodeClaims : list NodeClaim) : go (result bool) :=
  verifyBatches (Chunk (instanceIDs nodeClaims) maxInstanceIDsPerDescribeCall) nodeName.

(** ** Instance IDs *)

Lemma str_length_drop n s : String.length (str_drop n s) = String.length s - n.
Proof. revert s; induction n as [|n IH]; intros [|c s]; cbn; try done. Qed.

Lemma str_length_take n s : String.length (str_take n s) = Nat.min n (String.length s).
Proof. revert s; induction n as [|n IH]; intros [|c s]; cbn; try done. by rewrite IH. Qed.

Lemma ec2InstanceID_app pre id :
  str_free "/" id = true -> id <> "" -> ec2InstanceID (pre +:+ String "/" id) = Some id.
Proof.
  intros Hf Hn. unfold ec2InstanceID. rewrite LastIndex_app by done.
  rewrite decide_False.
  - f_equal. change (String "/" id) with (String "/" "" +:+ id).
    rewrite str_app_assoc. replace (S (String.length pre)) with (String.length (pre +:+ String "/" "")).
    + apply str_drop_app.
    + rewrite str_length_app. cbn. lia.
  - rewrite str_length_app. cbn. destruct id; [done|]. cbn. lia.
Qed.

(** The instance ID of a provider ID is exactly what follows its last slash,
    when there is a slash and something follows it. *)
Theorem ec2InstanceID_spec providerID id :
  ec2InstanceID providerID = Some id <->
  id <> "" /\ str_free "/" id = true /\ exists pre, providerID = pre +:+ String "/" id.
Proof.
  split.
  - unfold ec2InstanceID. destruct (LastIndex providerID "/") as [i|] eqn:L; [|done].
    case_decide as H; [done|]. intros Hid.
    assert (id = str_drop (S i) providerID) as -> by congruence.
    apply LastIndex_Some in L as [E F]. split; [|split; [done | by eexists]].
    intros Hd. rewrite Hd in E. apply (f_equal String.length) in Hd, E.
    rewrite str_length_drop in Hd. rewrite str_length_app, str_length_take in E.
    cbn [String.length] in *. lia.
  - intros (H1 & H2 & pre & ->). by apply ec2InstanceID_app.
Qed.

(** ** Batches *)

Lemma chunks_concat {A} fuel (l : list A) n :
  0 < n -> length l <= fuel -> concat (chunks fuel l n) = l.
Proof.
  intros Hn. revert l; induction fuel as [|fuel IH]; intros [|x l] Hl; cbn [chunks]; try done.
  - cbn in Hl. lia.
  - cbn [concat]. rewrite IH; [apply take_drop|]. rewrite length_drop. cbn in *. lia.
Qed.

Lemma Chunk_concat {A} (l : list A) n : 0 < n -> concat (Chunk l n) = l.
Proof. intros. by apply chunks_concat. Qed.

Lemma chunks_sizes {A} fuel (l : list A) n :
  0 < n -> Forall (fun c => 0 < length c <= n) (chunks fuel l n).
Proof.
  intros Hn. revert l; induction fuel as [|fuel IH]; intros [|x l]; cbn [chunks]; constructor; [|done].
  rewrite length_take. cbn. lia.
Qed.

(** A call describes between 1 and 1000 instances, all of them of the NodeClaims:
    DescribeInstances without IDs would describe every instance of the account. *)
Definition batchOf (nodeClaims : list NodeClaim) (ids : list string) : Prop :=
  0 < length ids <= maxInstanceIDsPerDescribeCall /\ ids ⊆ instanceIDs nodeClaims.

Lemma verifyBatches_guarded (G : trace eff -> forall X, eff X -> Prop) batches nodeName t :
  (forall t' batch, batch ∈ batches -> G t' _ (EDescribeInstances batch)) ->
  guarded G t (verifyBatches batches nodeName).
Proof.
  revert t; induction batches as [|batch rest IH]; intros t HG; cbn [verifyBatches]; [done|].
  apply guarded_try.
  - apply guarded_try; [|intros [?|?]; done]. split; [|by intros ?]. apply HG. set_solver.
  - unfold matchesPrivateDNSName. go_step. intros [rs|e]; cbn [all_runs]; [|done].
    destruct (existsb _ rs); [done|]. apply IH. intros. apply HG. set_solver.
Qed.

Lemma Chunk_batches nodeClaims batch :
  batch ∈ Chunk (instanceIDs nodeClaims) maxInstanceIDsPerDescribeCall -> batchOf nodeClaims batch.
Proof.
  intros Hb. split.
  - pose proof (chunks_sizes (length (instanceIDs nodeClaims)) (instanceIDs nodeClaims)
                  maxInstanceIDsPerDescribeCall ltac:(unfold maxInstanceIDsPerDescribeCall; lia)) as H.
    rewrite Forall_forall in H. by apply (H batch).
  - intros id Hid. rewrite <- (Chunk_concat (instanceIDs nodeClaims) maxInstanceIDsPerDescribeCall)
      by (unfold maxInstanceIDsPerDescribeCall; lia).
    apply list_elem_of_In, in_concat. exists batch. by rewrite <- !list_elem_of_In.
Qed.

Lemma verify_describes_batches nodeName nodeClaims t :
  guarded (asksCloud (batchOf nodeClaims)) t (verify nodeName nodeClaims).
Proof. apply verifyBatches_guarded. intros t' batch Hb. by apply Chunk_batches. Qed.

(** Every DescribeInstances call names at least one and at most 1000
    instances, the documented limit, and only instances of the given NodeClaims. *)
Theorem verify_respects_limit nodeName nodeClaims t :
  guarded (asksCloud (batchOf nodeClaims)) t (verify nodeName nodeClaims).
Proof. apply verify_describes_batches. Qed.

(** ** The verdict *)

(** EC2 with a fixed set of instances: the private DNS name of an instance, if it
    exists, grouped in reservations in any way. *)
Section ec2.
Context (reservations : list string -> list (list (option string))).
Context (dnsName : string -> option (option string)).
Context (Hec2 : forall ids dns, dns ∈ concat (reservations ids) <->
                                exists id, id ∈ ids /\ dnsName id = Some dns).

Definition ec2 (X : Type) (e : eff X) (s : unit) : X * unit :=
  match e in eff X return X * unit with
  | EDescribeInstances ids => (Ok (reservations ids), s)
  | EGet _ _ _ | EList _ _ _ | ECreate _ _ _ | EUpdate _ _ _ => (Err (ENew ""), s)
  | EPatch _ _ _ _ _ | EStatusPatch _ _ _ _ _ => (Err (ENew ""), s)
  | EDelete _ _ _ _ | EStatusApply _ _ _ _ _ _ | EApply _ _ _ _ | EUpdateApproval _ _ => (Err (ENew ""), s)
  | ENow => (0%Z, s)
  end.

Definition nameMatches (nodeName id : string) : bool :=
  match dnsName id with
  | Some dns => bool_decide (ToString dns = nodeName)
  | None => false
  end.

Lemma existsb_concat {A} (p : A -> bool) ls : existsb (existsb p) ls = existsb p (concat ls).
Proof. induction ls as [|l ls IH]; cbn; [done|]. by rewrite IH, existsb_app. Qed.

Lemma existsb_reservations nodeName ids :
  existsb (existsb (fun dns => bool_decide (ToString dns = nodeName))) (reservations ids) =
  existsb (nameMatches nodeName) ids.
Proof using Hec2.
  rewrite existsb_concat. apply eq_true_iff_eq. rewrite !existsb_exists. split.
  - intros (dns & Hd & Hm). rewrite <- list_elem_of_In, Hec2 in Hd.
    destruct Hd as (id & Hi & E). exists id. rewrite <- list_elem_of_In.
    split; [done|]. unfold nameMatches. by rewrite E.
  - intros (id & Hi & Hm). unfold nameMatches in Hm. destruct (dnsName id) as [dns|] eqn:E; [|done].
    exists dns. split; [|done]. rewrite <- list_elem_of_In, Hec2. exists id.
    by rewrite list_elem_of_In.
Qed.

Lemma exec_verifyBatches batches nodeName :
  exec ec2 (verifyBatches batches nodeName) () =
    (Ok (existsb (nameMatches nodeName) (concat batches)), ()).
Proof using Hec2.
  induction batches as [|batch rest IH]; cbn [verifyBatches concat]; [done|].
  unfold matchesPrivateDNSName. rewrite exec_try, exec_try, exec_call. cbn [ec2].
  rewrite exec_ret, existsb_reservations, existsb_app.
  destruct (existsb _ batch); [done | exact IH].
Qed.

(** Batching does not show: against an EC2 with a fixed set of instances,
    the verdict is that of a single lookup over all NodeClaims, whatever their
    number and however EC2 groups instances in reservations. *)
Theorem verify_unbatched nodeName nodeClaims :
  exec ec2 (verify nodeName nodeClaims) () =
    (Ok (existsb (fun claim => match ec2InstanceID (nc_ProviderID claim) with
                               | Some id => nameMatches nodeName id
                               | None => false
                               end) nodeClaims), ()).
Proof using Hec2.
  unfold verify. rewrite exec_verifyBatches.
  rewrite Chunk_concat by (unfold maxInstanceIDsPerDescribeCall; lia).
  do 2 f_equal. unfold instanceIDs.
  induction nodeClaims as [|claim rest IH]; [done|].
  cbn. destruct (ec2InstanceID _); cbn; by rewrite <- IH.
Qed.

End ec2.

(** ** The interface *)

Definition ec2Evidence (nodeName : string) (nodeClaims : list NodeClaim) (t : trace eff) : Prop :=
  exists ids reservations instances dns,
    Ev (EDescribeInstances ids) (Ok reservations) ∈ t
    /\ batchOf nodeClaims ids
    /\ instances ∈ reservations /\ dns ∈ instances /\ ToString dns = nodeName.

Lemma verifyBatches_evidence batches nodeName t :
  all_runs (verifyBatches batches nodeName) t (fun t' r => r = Ok true ->
    exists ids reservations instances dns,
      Ev (EDescribeInstances ids) (Ok reservations) ∈ t' /\ ids ∈ batches
      /\ instances ∈ reservations /\ dns ∈ instances /\ ToString dns = nodeName).
Proof.
  revert t; induction batches as [|batch rest IH]; intros t; cbn [verifyBatches]; [done|].
  apply all_runs_try. unfold matchesPrivateDNSName. apply all_runs_try.
  intros [rs|e]; cbn [all_runs]; [|done].
  destruct (existsb _ rs) eqn:E; cbn [all_runs].
  - intros _. apply existsb_exists in E as (insts & Hi & (dns & Hd & Hm)%existsb_exists).
    exists batch, rs, insts, dns. apply list_elem_of_In in Hi, Hd.
    apply bool_decide_eq_true in Hm. set_solver.
  - eapply all_runs_mono; [apply IH|]. intros t' r H Hr.
    destruct (H Hr) as (ids & rs' & insts & dns & H1 & H2 & H3). exists ids, rs', insts, dns. set_solver.
Qed.

#[export] Program Instance awsVerifier : NodeIdentityVerifier := {|
  Verify := verify;
  identityQuestion := batchOf;
  identityEvidence := ec2Evidence |}.
Next Obligation.
  intros n cs t t' (ids & rs & insts & dns & H & H'). exists ids, rs, insts, dns.
  split; [apply elem_of_app; by left | done].
Qed.
Next Obligation.
  intros n cs t. apply verify_describes_batches.
Qed.
Next Obligation.
  intros n cs t. eapply all_runs_mono; [apply verifyBatches_evidence|].
  intros t' r H Hr. destruct (H Hr) as (ids & rs & insts & dns & H1 & H2 & H3).
  exists ids, rs, insts, dns. split; [done|]. split; [by apply Chunk_batches | done].
Qed.

(** ** Witness: two instances, one reservation per call *)

Definition exampleDNS (id : string) : option (option string) :=
  if decide (id = "i-1") then Some (Some "ip-10-0-0-1.ec2.internal")
  else if decide (id = "i-2") then Some None else None.
Definition exampleReservations (ids : list string) : list (list (option string)) :=
  [omap exampleDNS ids].

Lemma verify_unbatched_witness :
  exec (ec2 exampleReservations)
    (verify "ip-10-0-0-1.ec2.internal"
       [mkNodeClaim (newMeta "" "a") "" "aws:///us-east-1a/i-2" None;
        mkNodeClaim (newMeta "" "b") "" "aws:///us-east-1a/i-1" None]) () = (Ok true, ()).
Proof.
  rewrite (verify_unbatched exampleReservations exampleDNS); [reflexivity|].
  intros ids dns. unfold exampleReservations. cbn [concat]. rewrite app_nil_r.
  apply list_elem_of_omap.
Defined.
