(* ===== verification/MachineApprover.v ===== *)
(** * The machine approver

    pkg/controllers/machineapprover/controller.go: it approves the certificate
    signing requests of Karpenter's nodes.  PEM decoding and the parsing of
    certificate requests are the parameters [pemDecode] (block type and bytes) and
    [ParseCertificateRequest] (the subject's common name); the verifier is any
    instance of the node identity interface. *)

From S2P Require Import Prelude Prog MetaV1 CoreTypes Kube Hypershift NodeIdentity.

Definition controllerName : string := "karpenter-machine-approver".
Definition nodeBootstrapperUsername : string :=
  "system:serviceaccount:openshift-machine-config-operator:node-bootstrapper".
Definition nodeGroup : string := "system:nodes".

Definition isCertificateRequestPending (csr : CertificateSigningRequest) : bool :=
  forallb (fun c => negb (bool_decide (csrc_Type c = CertificateApproved)
                          || bool_decide (csrc_Type c = CertificateDenied)))
    (elems (csr_Conditions csr)).

Definition csrFilterFn (csr : CertificateSigningRequest) : bool :=
  if negb (isCertificateRequestPending csr) then false
  else if decide (csr_SignerName csr = KubeAPIServerClientKubeletSignerName) then
    bool_decide (csr_Username csr = nodeBootstrapperUsername)
  else if decide (csr_SignerName csr = KubeletServingSignerName) then
    bool_decide (nodeGroup ∈ csr_Groups csr)
  else false.

Definition listNodeClaims : go (result (list NodeClaim)) :=
  wrap_err "listing NodeClaims" (call (EList Hosted KNodeClaim noOptions)).

Definition findTargetNodeClaim (nodeName : string) : go (result (option NodeClaim)) :=
  nodeClaimList ←? listNodeClaims;
  Ret (Ok (List.find (fun nc => bool_decide (nc_NodeName nc = nodeName)) nodeClaimList)).

(** The condition [approve] appends. *)
Definition approvedCondition : CSRCondition :=
  mkCSRCondition CertificateApproved "True" "KarpenterCSRApprove"
    ("Auto approved by " +:+ controllerName).

Definition approved (csr : CertificateSigningRequest) : CertificateSigningRequest :=
  mkCSR (csr_meta csr) (csr_Request csr) (csr_SignerName csr) (csr_Username csr) (csr_Groups csr)
    (go_append (csr_Conditions csr) [approvedCondition]).

Definition approve (csr : CertificateSigningRequest) : go (result unit) :=
  wrap_err "updating csr approval"
    (call (EUpdateApproval (om_Name (csr_meta csr)) (approved csr))) ;;?
  Ret (Ok tt).

Section approver.
Context `{V : NodeIdentityVerifier}.
Context (pemDecode : string -> option (string * string)).
Context (ParseCertificateRequest : string -> result string).

Definition parseCSR (pemBytes : string) : result string :=
  match pemDecode pemBytes with
  | Some (blockType, bytes) =>
      if decide (blockType = "CERTIFICATE REQUEST") then ParseCertificateRequest bytes
      else Err (ENew "PEM block type must be CERTIFICATE REQUEST")
  | None => Err (ENew "PEM block type must be CERTIFICATE REQUEST")
  end.

Definition authorizeClientCSR (csr : CertificateSigningRequest) : go (result bool) :=
  match parseCSR (csr_Request csr) with
  | Err err => Ret (Err err)
  | Ok commonName =>
      let nodeName := TrimPrefix commonName "system:node:" in
      if decide (nodeName = "") then
        Ret (Err (ENew "subject common name does not have a valid node name"))
      else
        nodeClaims ←? listNodeClaims;
        let filteredNodeClaims :=
          List.filter (fun nc => bool_decide (nc_NodeName nc = "")) nodeClaims in
        if decide (length filteredNodeClaims = 0) then Ret (Ok false)
        else Verify nodeName filteredNodeClaims
  end.

Definition authorizeServingCSR (csr : CertificateSigningRequest) : go (result bool) :=
  let nodeName := TrimPrefix (csr_Username csr) "system:node:" in
  if decide (nodeName = "") then
    Ret (Err (ENew "csr username does not have a valid node name"))
  else
    nodeClaim ←? findTargetNodeClaim nodeName;
    match nodeClaim with
    | None => Ret (Ok false)
    | Some nodeClaim => Verify nodeName [nodeClaim]
    end.

Definition authorize (csr : CertificateSigningRequest) : go (result bool) :=
  if decide (csr_SignerName csr = KubeAPIServerClientKubeletSignerName) then authorizeClientCSR csr
  else if decide (csr_SignerName csr = KubeletServingSignerName) then authorizeServingCSR csr
  else Ret (Err (ENew ("unrecognized signerName " +:+ csr_SignerName csr))).

Definition Reconcile (key : ObjectKey) : go (result Result) :=
  got ← call (EGet Hosted KCertificateSigningRequest key);
  match got with
  | Err err =>
      if IsNotFound err then Ret (Ok noRequeue) else Ret (Err (wrapf "getting csr" err))
  | Ok csr =>
      if negb (IsZero (om_DeletionTimestamp (csr_meta csr))) then Ret (Ok noRequeue)
      else if negb (isCertificateRequestPending csr) then Ret (Ok noRequeue)
      else
        authorized ←? authorize csr;
        if authorized : bool then wrap_err "approving csr" (approve csr) ;;? Ret (Ok noRequeue)
        else Ret (Ok noRequeue)
  end.

(** ** When a request is approved *)

(** The node name a request is for. *)
Definition requestedNode (csr : CertificateSigningRequest) (nodeName : string) : Prop :=
  nodeName <> "" /\
  ((csr_SignerName csr = KubeAPIServerClientKubeletSignerName /\
    exists commonName, parseCSR (csr_Request csr) = Ok commonName
                       /\ nodeName = TrimPrefix commonName "system:node:")
   \/ (csr_SignerName csr = KubeletServingSignerName /\
       nodeName = TrimPrefix (csr_Username csr) "system:node:")).

(** The NodeClaims a request may be matched with: for a client certificate those
    without a node, for a serving certificate that of the node. *)
Definition eligible (csr : CertificateSigningRequest) (nodeName : string) (nc : NodeClaim) : Prop :=
  if decide (csr_SignerName csr = KubeAPIServerClientKubeletSignerName)
  then nc_NodeName nc = "" else nc_NodeName nc = nodeName.

(** [nodeClaims], not none, are listed ones that the request may be matched with. *)
Definition candidates (csr : CertificateSigningRequest) (nodeName : string) (nodeClaims : list NodeClaim)
    (t : trace eff) : Prop :=
  exists listed,
    requestedNode csr nodeName
    /\ Ev (EList Hosted KNodeClaim noOptions) (Ok listed) ∈ t
    /\ Forall (fun nc : NodeClaim => nc ∈ (listed : list NodeClaim) /\ eligible csr nodeName nc) nodeClaims
    /\ nodeClaims <> [].

Definition authorizedBy (csr : CertificateSigningRequest) (t : trace eff) : Prop :=
  exists nodeName nodeClaims,
    candidates csr nodeName nodeClaims t /\ identityEvidence nodeName nodeClaims t.

Definition approvalGuard (key : ObjectKey) (t : trace eff) (X : Type) (e : eff X) : Prop :=
  match e with
  | EGet Hosted KCertificateSigningRequest k => k = key
  | EList Hosted KNodeClaim opts => opts = noOptions
  | EDescribeInstances ids => exists (csr : obj KCertificateSigningRequest) nodeName nodeClaims,
      Ev (EGet Hosted KCertificateSigningRequest key) (Ok csr) ∈ t
      /\ candidates csr nodeName nodeClaims t /\ identityQuestion nodeClaims ids
  | EUpdateApproval name o => exists csr : obj KCertificateSigningRequest,
      Ev (EGet Hosted KCertificateSigningRequest key) (Ok csr) ∈ t
      /\ IsZero (om_DeletionTimestamp (csr_meta csr)) = true
      /\ isCertificateRequestPending csr = true
      /\ authorizedBy csr t
      /\ name = om_Name (csr_meta csr) /\ o = approved csr
  | _ => False
  end.

Lemma candidates_app csr nodeName nodeClaims t t' :
  candidates csr nodeName nodeClaims t -> candidates csr nodeName nodeClaims (t ++ t').
Proof. intros (listed & H1 & H2 & H3). exists listed. split; [done|]. split; [apply elem_of_app; by left | done]. Qed.

Section authorize.
Context (key : ObjectKey) (csr : CertificateSigningRequest).

(** The request was read. *)
Definition requestRead (t : trace eff) : Prop :=
  Ev (EGet Hosted KCertificateSigningRequest key) (Ok csr : result (obj KCertificateSigningRequest)) ∈ t.

Lemma Verify_guarded nodeName nodeClaims t :
  requestRead t -> candidates csr nodeName nodeClaims t ->
  guarded (approvalGuard key) t (Verify nodeName nodeClaims).
Proof.
  intros Hr Hc. eapply guarded_mono; [apply guarded_suffix, Verify_asksCloud|].
  intros t' X e [He (t1 & ->)]. destruct e; try done. exists csr, nodeName, nodeClaims.
  split; [apply elem_of_app; by left|]. split; [by apply candidates_app | exact He].
Qed.

(** Whom a listing makes candidates. *)
Lemma client_candidates commonName (ncs : list NodeClaim) t :
  csr_SignerName csr = KubeAPIServerClientKubeletSignerName ->
  parseCSR (csr_Request csr) = Ok commonName -> TrimPrefix commonName "system:node:" <> "" ->
  Ev (EList Hosted KNodeClaim noOptions) (Ok ncs : result (list (obj KNodeClaim))) ∈ t ->
  length (List.filter (fun nc => bool_decide (nc_NodeName nc = "")) ncs) <> 0 ->
  candidates csr (TrimPrefix commonName "system:node:")
    (List.filter (fun nc => bool_decide (nc_NodeName nc = "")) ncs) t.
Proof.
  intros H1 P Hn Hl Hz. exists ncs. split; [|split; [done|split]].
  - split; [done|]. left. split; [done|]. by exists commonName.
  - apply Forall_forall. intros nc Hnc. rewrite list_elem_of_In, filter_In in Hnc.
    destruct Hnc as [Hi Hd%bool_decide_eq_true]. split; [by apply list_elem_of_In|].
    unfold eligible. by rewrite decide_True.
  - intros E. by rewrite E in Hz.
Qed.

Lemma serving_candidates (ncs : list NodeClaim) nc t :
  csr_SignerName csr <> KubeAPIServerClientKubeletSignerName ->
  csr_SignerName csr = KubeletServingSignerName -> TrimPrefix (csr_Username csr) "system:node:" <> "" ->
  Ev (EList Hosted KNodeClaim noOptions) (Ok ncs : result (list (obj KNodeClaim))) ∈ t ->
  List.find (fun nc => bool_decide (nc_NodeName nc = TrimPrefix (csr_Username csr) "system:node:")) ncs = Some nc ->
  candidates csr (TrimPrefix (csr_Username csr) "system:node:") [nc] t.
Proof.
  intros H1 H2 Hn Hl [Hi Hd%bool_decide_eq_true]%find_some. exists ncs. split; [|split; [done|split; [|done]]].
  - split; [done|]. by right.
  - apply Forall_singleton. split; [by apply list_elem_of_In|]. unfold eligible. by rewrite decide_False.
Qed.

Lemma authorize_guarded t : requestRead t -> guarded (approvalGuard key) t (authorize csr).
Proof.
  intros Hr. unfold authorize, authorizeClientCSR, authorizeServingCSR, findTargetNodeClaim, listNodeClaims.
  case_decide as H1; [|case_decide as H2; [|done]].
  - destruct (parseCSR _) as [cn|] eqn:P; [|done]. case_decide as Hn; [done|].
    apply guarded_try; [by apply guarded_wrap; split; [|intros ?]|].
    go_step. intros [ncs|e]; cbn [map_err all_runs]; [|done].
    case_decide; [done|]. apply Verify_guarded; [apply elem_of_app; by left|].
    apply client_candidates; try done. apply last_elem.
  - case_decide as Hn; [done|]. apply guarded_try.
    + apply guarded_try; [by apply guarded_wrap; split; [|intros ?]|].
      go_step. by intros [ncs|e].
    + do 2 go_step. intros [ncs|e]; cbn [map_err all_runs]; [|done].
      destruct (List.find _ _) eqn:F; [|done]. apply Verify_guarded; [apply elem_of_app; by left|].
      eapply serving_candidates; try done. apply last_elem.
Qed.

Lemma authorize_runs t :
  all_runs (authorize csr) t (fun t' r =>
    (exists t1, t' = t ++ t1) /\ (r = Ok true -> authorizedBy csr t')).
Proof.
  apply all_runs_and; [apply all_runs_suffix|].
  unfold authorize, authorizeClientCSR, authorizeServingCSR, findTargetNodeClaim, listNodeClaims.
  assert (Hv : forall nodeName ncs t1, candidates csr nodeName ncs t1 ->
    all_runs (Verify nodeName ncs) t1 (fun t' r => r = Ok true -> authorizedBy csr t')).
  { intros nodeName ncs t1 Hc. eapply all_runs_mono;
      [apply all_runs_and; [apply all_runs_suffix | apply Verify_evidence]|].
    intros t' r [[t2 ->] Hev] E. exists nodeName, ncs. split; [by apply candidates_app | by apply Hev]. }
  case_decide as H1; [|case_decide as H2; [|done]].
  - destruct (parseCSR _) as [cn|] eqn:P; [|done]. case_decide as Hn; [done|].
    do 2 go_step. intros [ncs|e]; cbn [map_err all_runs]; [|done].
    case_decide as Hl; [done|]. apply Hv, client_candidates; try done. apply last_elem.
  - case_decide as Hn; [done|].
    apply all_runs_try. do 2 go_step. intros [ncs|e]; cbn [map_err all_runs]; [|done].
    destruct (List.find _ _) as [nc|] eqn:F; [|done].
    eapply Hv, serving_candidates; try done. apply last_elem.
Qed.
End authorize.

Lemma Reconcile_approvals key : guarded (approvalGuard key) [] (Reconcile key).
Proof.
  unfold Reconcile. apply guarded_bind; [by split; [|intros ?]|].
  intros [csr|e]; cbn [all_runs]; [|by destruct (IsNotFound e)].
  destruct (IsZero _) eqn:Z; cbn [negb]; [|done].
  destruct (isCertificateRequestPending csr) eqn:P; cbn [negb]; [|done].
  apply guarded_try; [by apply authorize_guarded, last_elem|].
  eapply all_runs_mono; [apply authorize_runs|].
  intros t [[|]|e] [[t1 ->] Ha]; [|done|done].
  apply guarded_try; [|eapply all_runs_mono; [apply all_runs_suffix|]; by intros ? [?|?]].
  apply guarded_wrap. unfold approve.
  apply guarded_try; [|eapply all_runs_mono; [apply all_runs_suffix|]; by intros ? [?|?]].
  apply guarded_wrap. split; [|by intros ?].
  exists csr. split; [set_solver|]. split; [done|]. split; [done|]. split; [by apply Ha | done].
Qed.

(** C10. A certificate signing request is approved only if it is the one of the
    reconcile request, is not being deleted, was still pending, names a node, for
    one of the two kubelet signers, and the cloud confirmed that the node is an
    instance of a listed NodeClaim: one without a node for a client certificate,
    that of the node for a serving certificate.  The approval appends one
    Approved condition and changes nothing else; no other write is made. *)
Theorem Reconcile_approves_verified key : guarded (approvalGuard key) [] (Reconcile key).
Proof. apply Reconcile_approvals. Qed.

End approver.
