(* ===== verification/MachineApproverAws.v ===== *)
(** * The machine approver on AWS

    The machine approver with the AWS verifier: what an approval means in terms
    of EC2, and a run that approves. *)

From S2P Require Import Prelude Prog MetaV1 CoreTypes Kube Hypershift NodeIdentity AwsIdentity MachineApprover.

Section aws.
Context (pemDecode : string -> option (string * string)).
Context (ParseCertificateRequest : string -> result string).

(** The query names between 1 and 1000 instances, and each of them ends the provider
    ID of a listed NodeClaim that the request may be matched with. *)
Definition namesInstances (csr : CertificateSigningRequest) (nodeName : string) (ids : list string)
    (t : trace eff) : Prop :=
  0 < length ids <= maxInstanceIDsPerDescribeCall
  /\ exists listed : list NodeClaim,
       Ev (EList Hosted KNodeClaim noOptions) (Ok listed : result (list (obj KNodeClaim))) ∈ t
       /\ forall id, id ∈ ids -> exists nc, nc ∈ listed /\ eligible csr nodeName nc
            /\ exists pre, nc_ProviderID nc = pre +:+ String "/" id.

(** EC2 reported the node name as the private DNS name of an instance, when asked
    by ID for one instance or more, each the instance of a listed NodeClaim of the
    cluster that may run the node. *)
Definition ec2Approved (t : trace eff) (o : CertificateSigningRequest) : Prop :=
  exists csr nodeName ids reservations instances dns,
    o = approved csr
    /\ requestedNode pemDecode ParseCertificateRequest csr nodeName
    /\ Ev (EDescribeInstances ids) (Ok reservations) ∈ t
    /\ instances ∈ reservations /\ dns ∈ instances /\ dns = Some nodeName
    /\ namesInstances csr nodeName ids t.

Definition ec2Guard key (t : trace eff) (X : Type) (e : eff X) : Prop :=
  match e with
  | EUpdateApproval _ o => ec2Approved t o
  | EDescribeInstances ids => exists (csr : obj KCertificateSigningRequest) nodeName,
      Ev (EGet Hosted KCertificateSigningRequest key) (Ok csr) ∈ t
      /\ requestedNode pemDecode ParseCertificateRequest csr nodeName /\ namesInstances csr nodeName ids t
  | EGet Hosted _ _ | EList Hosted _ _ => True
  | _ => False
  end.

Lemma batch_namesInstances csr nodeName nodeClaims ids t :
  candidates pemDecode ParseCertificateRequest csr nodeName nodeClaims t -> batchOf nodeClaims ids ->
  namesInstances csr nodeName ids t.
Proof.
  intros (listed & _ & Hl & Hncs & _) [Hn Hs]. split; [done|]. exists listed. split; [done|]. intros id Hid.
  apply Hs, list_elem_of_omap in Hid as (nc & Hnc & [_ [_ Hp]]%ec2InstanceID_spec).
  rewrite Forall_forall in Hncs. destruct (Hncs nc Hnc) as [? ?]. by exists nc.
Qed.

(** C11. On AWS, an approved request is for a node name that EC2 itself reported
    as the private DNS name of an instance, in answer to a query that named between
    1 and 1000 instances, each of whose IDs ends the provider ID of a NodeClaim
    listed from the hosted cluster that the request may be matched with; an instance
    without a DNS name never counts.  Every query, of an approval or not, names
    instances so: EC2 is never asked for all its instances. *)
Theorem aws_approvals_are_ec2_instances key :
  guarded (ec2Guard key) [] (Reconcile pemDecode ParseCertificateRequest key).
Proof.
  eapply guarded_mono; [apply Reconcile_approvals|].
  intros t X e. destruct e as [c k key'|c k opts| | |c k| | | | |name o|ids|]; cbn; try done;
    try (destruct c; done).
  - intros (csr & _ & _ & _ & (nodeName & ncs & Hc & Hev) & _ & ->).
    destruct Hev as (ids & rs & insts & dns & H1 & H2 & H3 & H4 & H5). assert (Hn := Hc). destruct Hn as (_ & Hn & _).
    exists csr, nodeName, ids, rs, insts, dns. do 5 (split; [done|]). split; [|by eapply batch_namesInstances].
    destruct dns; cbn in H5; [by subst|]. destruct Hn as [Hn _]. by subst.
  - intros (csr & nodeName & ncs & Hr & Hc & Hb). exists csr, nodeName. split; [done|].
    split; [by destruct Hc as (? & ? & _) | by eapply batch_namesInstances].
Qed.

End aws.

(** ** A run that approves *)

Definition exampleCSR : CertificateSigningRequest :=
  mkCSR (newMeta "" "csr-1") "" KubeletServingSignerName
    "system:node:ip-10-0-0-1.ec2.internal" ["system:nodes"] None.

Definition exampleAnswers (X : Type) (e : eff X) (approvals : list CertificateSigningRequest) :
    X * list CertificateSigningRequest :=
  match e in eff X return X * list CertificateSigningRequest with
  | EGet _ k _ =>
      (match k return result (obj k) with
       | KCertificateSigningRequest => Ok exampleCSR
       | _ => Err (EStatus "NotFound" 404 "")
       end, approvals)
  | EList _ k _ =>
      (match k return result (list (obj k)) with
       | KNodeClaim => Ok [mkNodeClaim (newMeta "" "a") "ip-10-0-0-1.ec2.internal" "aws:///z/i-1" None]
       | _ => Ok []
       end, approvals)
  | EDescribeInstances ids => (Ok (exampleReservations ids), approvals)
  | EUpdateApproval _ o => (Ok o, approvals ++ [o])
  | ECreate _ _ _ | EUpdate _ _ _ => (Err (ENew ""), approvals)
  | EPatch _ _ _ _ _ | EStatusPatch _ _ _ _ _ => (Err (ENew ""), approvals)
  | EDelete _ _ _ _ | EStatusApply _ _ _ _ _ _ | EApply _ _ _ _ => (Err (ENew ""), approvals)
  | ENow => (0%Z, approvals)
  end.

Example approves :
  exec exampleAnswers (Reconcile (fun _ => None) (fun _ => Err (ENew "")) (mkObjectKey "" "csr-1")) [] =
  (Ok noRequeue, [approved exampleCSR]).
Proof. vm_compute. reflexivity. Qed.
