(* ===== verification/GoTime.v ===== *)
(** * time.ParseDuration

    Go's duration syntax, with its float64 arithmetic for fractions and its
    overflow checks on uint64. *)

From Stdlib Require Import Floats.SpecFloat.
From S2P Require Import Prelude Quantity.

(** ** float64 *)

Definition float64 (z : Z) : spec_float := binary_normalize 53 1024 z 0 false.
Definition fmul : spec_float -> spec_float -> spec_float := SFmul 53 1024.
Definition fdiv : spec_float -> spec_float -> spec_float := SFdiv 53 1024.

(** [uint64(x)] of a float that is in range: truncation. *)
Definition ftrunc (x : spec_float) : Z :=
  match x with
  | S754_finite false m e => Z.shiftl (Zpos m) e
  | _ => 0%Z
  end.

(** ** Scanning *)

(** [leadingInt]: [None] is the overflow error. *)
Fixpoint leadingInt (x : Z) (s : string) : option (Z * string) :=
  match s with
  | EmptyString => Some (x, s)
  | String c s' =>
      if negb (isDigit c) then Some (x, s)
      else if (2 ^ 63 / 10 <? x)%Z then None
      else
        let x := (10 * x + Z.of_nat (nat_of_ascii c - 48))%Z in
        if (2 ^ 63 <? x)%Z then None else leadingInt x s'
  end.

(** [leadingFraction]: digits past the precision are skipped. *)
Fixpoint leadingFraction (x scale : Z) (overflow : bool) (s : string) : Z * Z * string :=
  match s with
  | EmptyString => (x, scale, s)
  | String c s' =>
      if negb (isDigit c) then (x, scale, s)
      else if overflow then leadingFraction x scale true s'
      else if ((2 ^ 63 - 1) / 10 <? x)%Z then leadingFraction x scale true s'
      else
        let y := (10 * x + Z.of_nat (nat_of_ascii c - 48))%Z in
        if (2 ^ 63 <? y)%Z then leadingFraction x scale true s'
        else leadingFraction y (10 * scale) false s'
  end.

Definition isUnitByte (c : ascii) : bool := negb (isDigit c || bool_decide (c = "."%char)).

(** The two UTF-8 spellings of the micro sign. *)
Definition microSign : string := String (ascii_of_nat 194) (String (ascii_of_nat 181) "s").
Definition microMu : string := String (ascii_of_nat 206) (String (ascii_of_nat 188) "s").

Definition unitMap (u : string) : option Z :=
  if bool_decide (u = "ns") then Some 1%Z
  else if bool_decide (u = "us") || bool_decide (u = microSign) || bool_decide (u = microMu)
       then Some 1000%Z
  else if bool_decide (u = "ms") then Some 1000000%Z
  else if bool_decide (u = "s") then Some 1000000000%Z
  else if bool_decide (u = "m") then Some 60000000000%Z
  else if bool_decide (u = "h") then Some 3600000000000%Z
  else None.

(** One number with its unit: its nanoseconds and the rest of the string. *)
Definition parseTerm (s : string) : option (Z * string) :=
  match s with
  | EmptyString => None
  | String c _ =>
      if negb (isDigit c || bool_decide (c = "."%char)) then None else
      match leadingInt 0 s with
      | None => None
      | Some (v, s1) =>
          let pre := negb (bool_decide (s1 = s)) in
          let '(post, f, scale, s2) :=
            match s1 with
            | String "." s1' =>
                let '(f, scale, r) := leadingFraction 0 1 false s1' in
                (negb (bool_decide (r = s1')), f, scale, r)
            | _ => (false, 0%Z, 1%Z, s1)
            end in
          if negb pre && negb post then None else
          let '(u, s3) := span isUnitByte s2 in
          match unitMap u with
          | None => None
          | Some unit =>
              if (2 ^ 63 / unit <? v)%Z then None else
              let v := (v * unit)%Z in
              let v := if (0 <? f)%Z
                       then (v + ftrunc (fmul (float64 f) (fdiv (float64 unit) (float64 scale))))%Z
                       else v in
              if (2 ^ 63 <? v)%Z then None else Some (v, s3)
          end
      end
  end.

(** Every term consumes a byte, so the length is enough fuel. *)
Fixpoint parseTerms (fuel : nat) (d : Z) (s : string) : option Z :=
  match s, fuel with
  | EmptyString, _ => Some d
  | _, O => None
  | _, S fuel' =>
      match parseTerm s with
      | None => None
      | Some (v, s') => if (2 ^ 63 <? d + v)%Z then None else parseTerms fuel' (d + v) s'
      end
  end.

(** Nanoseconds, or [None] for the error. *)
Definition ParseDuration (s : string) : option Z :=
  let '(positive, rest) := cutSign s in
  if bool_decide (rest = "0") then Some 0%Z
  else if bool_decide (rest = "") then None
  else match parseTerms (String.length rest) 0 rest with
       | None => None
       | Some d =>
           if positive then (if (2 ^ 63 - 1 <? d)%Z then None else Some d) else Some (- d)%Z
       end.

(** ** The fuel is enough *)

Lemma span_length p s : let '(a, b) := span p s in String.length a + String.length b = String.length s.
Proof.
  induction s as [|c s IH]; cbn; [done|]. destruct (p c); [|done].
  destruct (span p s). cbn. lia.
Qed.

Lemma leadingInt_length x s v r : leadingInt x s = Some (v, r) -> String.length r <= String.length s.
Proof.
  revert x; induction s as [|c s IH]; intros x; cbn; [by intros [= _ <-]|].
  destruct (negb _); [by intros [= _ <-]|]. destruct (_ <? _)%Z; [done|].
  destruct (_ <? _)%Z; [done|]. intros H%IH. lia.
Qed.

Lemma leadingFraction_length x scale o s :
  String.length (leadingFraction x scale o s).2 <= String.length s.
Proof.
  revert x scale o; induction s as [|c s IH]; intros x scale o; cbn; [done|].
  repeat match goal with |- context [if ?b then _ else _] => destruct b end; cbn;
    try lia; etrans; try apply IH; lia.
Qed.

Lemma parseTerm_shorter s v r : parseTerm s = Some (v, r) -> String.length r < String.length s.
Proof.
  unfold parseTerm. destruct s as [|c s]; [done|]. set (s0 := String c s).
  destruct (negb _); [done|]. destruct (leadingInt 0 s0) as [[v1 s1]|] eqn:L; [|done].
  apply leadingInt_length in L.
  set (q := match s1 with String "." _ => _ | _ => _ end).
  assert (String.length q.2 <= String.length s0).
  { subst q. destruct s1 as [|[[] [] [] [] [] [] [] []] s1]; cbn [snd]; try done.
    pose proof (leadingFraction_length 0 1 false s1).
    destruct (leadingFraction 0 1 false s1) as [[f sc] r1]. cbn in *. lia. }
  clearbody q. destruct q as [[[post f] sc] s2]. cbn [snd] in *.
  destruct (negb _ && negb _); [done|].
  pose proof (span_length isUnitByte s2). destruct (span isUnitByte s2) as [u s3].
  destruct (unitMap u) as [unit|] eqn:U; [|done].
  assert (0 < String.length u).
  { destruct u; [|cbn; lia]. vm_compute in U. done. }
  destruct (_ <? _)%Z; [done|]. destruct (_ <? _)%Z; [done|]. intros [= _ <-]. lia.
Qed.

(** More fuel changes nothing: running out of fuel is never the reason of an
    error. *)
Lemma parseTerms_fuel fuel d s :
  String.length s <= fuel -> parseTerms fuel d s = parseTerms (String.length s) d s.
Proof.
  enough (forall f1 f2 d s, String.length s <= f1 -> String.length s <= f2 ->
            parseTerms f1 d s = parseTerms f2 d s) as H by (intros; by apply H).
  clear. induction f1 as [|f1 IH]; intros f2 d [|c s] H1 H2.
  - by destruct f2.
  - cbn in H1. lia.
  - by destruct f2.
  - destruct f2 as [|f2]; [cbn in H2; lia|]. cbn [parseTerms].
    destruct (parseTerm _) as [[v r]|] eqn:P; [|done]. apply parseTerm_shorter in P.
    destruct (_ <? _)%Z; [done|]. cbn in *. apply IH; lia.
Qed.

Example durations :
  (ParseDuration "1m30s", ParseDuration "1.5h", ParseDuration "-0.3ms", ParseDuration "0",
   ParseDuration "5", ParseDuration "", ParseDuration "2562047h47m16.854775808s",
   ParseDuration "1h.5m")
  = (Some 90000000000%Z, Some 5400000000000%Z, Some (-300000)%Z, Some 0%Z, None, None, None,
     Some 3630000000000%Z).
Proof. vm_compute. reflexivity. Qed.
