(* ===== verification/GoFormat.v ===== *)
(** * Printing and parsing of integers

    [fmt.Sprintf("%d")] is the standard decimal notation; the lemmas here are
    what parsing it back needs. *)

From S2P Require Import Prelude Quantity.

Definition digitsOf (x : N) (ds : string) : Prop :=
  allDigits ds = true /\ parseDigits 0 ds = Z.of_N x /\
  exists c rest, ds = String c rest /\ c <> "0"%char.

Lemma parseDigits_app acc s t :
  parseDigits acc (s +:+ t) = parseDigits (parseDigits acc s) t.
Proof.
  revert acc; induction s as [|c s IH]; intros acc; [done|]. rewrite str_cons_app. cbn. apply IH.
Qed.

Lemma allDigits_app s t : allDigits (s +:+ t) = allDigits s && allDigits t.
Proof.
  induction s as [|c s IH]; [done|]. rewrite str_cons_app. cbn. rewrite IH. apply andb_assoc.
Qed.

Lemma pretty_char_digit d : (d < 10)%N ->
  isDigit (pretty_N_char d) = true
  /\ Z.of_nat (nat_of_ascii (pretty_N_char d) - 48) = Z.of_N d
  /\ (d <> 0%N -> pretty_N_char d <> "0"%char).
Proof.
  intros Hd. assert (exists n, d = N.of_nat n /\ n < 10) as (n & -> & Hn).
  { exists (N.to_nat d). lia. }
  do 10 (destruct n as [|n]; [by repeat split|]). lia.
Qed.

Lemma pretty_go_digits x s :
  (0 < x)%N -> exists ds, pretty_N_go x s = ds +:+ s /\ digitsOf x ds.
Proof.
  revert s. induction (N.lt_wf_0 x) as [x _ IH]. intros s Hx.
  rewrite pretty_N_go_step by done.
  pose proof (N.div_mod x 10 ltac:(done)) as E. pose proof (N.mod_lt x 10 ltac:(done)) as B.
  destruct (pretty_char_digit (x `mod` 10)) as (H1 & H2 & H3); [done|].
  destruct (decide (x `div` 10 = 0)%N) as [Hz|Hz].
  - rewrite Hz. rewrite pretty_N_go_0. exists (String (pretty_N_char (x `mod` 10)) "").
    split; [done|]. split; [by cbn; rewrite H1|]. split; [|eexists _, _; split; [done|]; apply H3; lia].
    cbn. rewrite H2. lia.
  - destruct (IH (x `div` 10)%N) with (s := String (pretty_N_char (x `mod` 10)) s)
      as (ds & -> & H4 & H5 & c & rest & -> & Hc); [apply N.div_lt; lia | lia |].
    exists (String c rest +:+ String (pretty_N_char (x `mod` 10)) "").
    split; [by rewrite <- str_app_assoc|]. split; [|split].
    + rewrite allDigits_app, H4. cbn. by rewrite H1.
    + rewrite parseDigits_app, H5. cbn. rewrite H2. lia.
    + eexists _, _. by rewrite str_cons_app.
Qed.

(** A positive number is printed as its digits, without leading zero. *)
Lemma pretty_pos_digits (z : Z) : (0 < z)%Z ->
  exists ds, pretty z = ds /\ digitsOf (Z.to_N z) ds.
Proof.
  intros Hz. destruct z as [|p|p]; try lia.
  destruct (pretty_go_digits (Npos p) "") as (ds & E & Hd); [done|].
  exists ds. split; [|done].
  change (pretty (Npos p) = ds). unfold pretty, pretty_N. rewrite decide_False by done.
  rewrite E. apply str_app_nil_r.
Qed.

Lemma span_app p s t :
  (forall c rest, t = String c rest -> p c = false) ->
  (fix all s := match s with EmptyString => true | String c s' => p c && all s' end) s = true ->
  span p (s +:+ t) = (s, t).
Proof.
  intros Ht. induction s as [|c s IH].
  - intros _. change ("" +:+ t) with t. destruct t as [|c t]; [done|]. cbn. by rewrite (Ht c t).
  - rewrite str_cons_app. intros [H1 H2]%andb_prop. cbn. by rewrite H1, IH.
Qed.

Lemma span_digits ds t :
  allDigits ds = true -> (forall c rest, t = String c rest -> isDigit c = false) ->
  span isDigit (ds +:+ t) = (ds, t).
Proof. intros H Ht. by apply span_app. Qed.

Lemma cutSign_digit c s : isDigit c = true -> cutSign (String c s) = (true, String c s).
Proof. destruct c as [[] [] [] [] [] [] [] []]; done. Qed.

Lemma parseDigits_bound acc ds :
  (0 <= acc)%Z -> allDigits ds = true ->
  (acc * 10 ^ Z.of_nat (String.length ds) <= parseDigits acc ds
   < (acc + 1) * 10 ^ Z.of_nat (String.length ds))%Z.
Proof.
  revert acc; induction ds as [|c ds IH]; intros acc Ha; [cbn; lia|].
  intros [Hc Hd]%andb_prop. cbn [parseDigits String.length].
  rewrite Nat2Z.inj_succ, Z.pow_succ_r by lia.
  unfold isDigit in Hc. apply andb_true_iff in Hc as [H1%Nat.leb_le H2%Nat.leb_le].
  specialize (IH (10 * acc + Z.of_nat (nat_of_ascii c - 48))%Z ltac:(lia) Hd).
  assert (0 < 10 ^ Z.of_nat (String.length ds))%Z by (apply Z.pow_pos_nonneg; lia).
  assert (0 <= Z.of_nat (nat_of_ascii c - 48) <= 9)%Z by lia. nia.
Qed.

(** ** Parsing a printed size *)

Lemma parseQuantityString_Gi ds x :
  digitsOf x ds -> parseQuantityString (ds +:+ "Gi") = Ok (mkParts true ds ds "" "Gi").
Proof.
  intros (Hd & _ & c & rest & -> & Hc). unfold parseQuantityString.
  assert (isDigit c = true) as Hcd by (by apply andb_true_iff in Hd as [? _]).
  rewrite str_cons_app at 1. rewrite cutSign_digit by done.
  change (String c (rest +:+ "Gi")) with (String c rest +:+ "Gi").
  replace (span (fun c0 => bool_decide (c0 = "0"%char)) (String c rest +:+ "Gi"))
    with ("", String c rest +:+ "Gi").
  2: { rewrite str_cons_app. cbn. by rewrite bool_decide_false. }
  rewrite bool_decide_false by done.
  rewrite span_digits; [|done|by intros ? ? [= <- _]].
  rewrite !bool_decide_false by done. cbn [andb].
  rewrite str_length_app.
  replace (String.length (String c rest) + String.length "Gi" - String.length "Gi")
    with (String.length (String c rest)) by lia.
  rewrite str_take_app. done.
Qed.

Lemma int64Multiply_Gi n : (0 < n <= 10 ^ 5)%Z -> int64Multiply n (2 ^ 30) = Some (n * 2 ^ 30)%Z.
Proof.
  intros Hn. unfold int64Multiply. rewrite (int64_id (n * 2 ^ 30)) by (unfold minInt64, maxInt64; lia).
  destruct (_ || _ || _ || _); [done|].
  rewrite !bool_decide_false by (unfold minInt64; lia). cbn [orb].
  by rewrite Z.quot_mul, bool_decide_true by lia.
Qed.

Lemma slowPath_Gi n ds c rest :
  (0 < n)%Z -> ds = String c rest -> allDigits ds = true -> parseDigits 0 ds = n ->
  exists q, slowPath (mkParts true ds ds "" "Gi") 2 30 BinarySI = Ok q /\ q_Format q = BinarySI
            /\ Value q = Z.min (n * 2 ^ 30) maxInt64.
Proof.
  intros Hn E Hd Hv. unfold slowPath. cbn [p_value p_positive].
  replace (cutSign ds) with (true, ds).
  2: { rewrite E. rewrite cutSign_digit; [done|]. rewrite E in Hd. by apply andb_true_iff in Hd as [? _]. }
  cbn [snd]. replace (span isDigit ds) with (ds, "").
  2: { rewrite <- (str_app_nil_r ds) at 2. symmetry. by apply span_digits. }
  rewrite str_app_nil_r, bool_decide_false by (by rewrite E). rewrite Hv.
  rewrite (bool_decide_false (2 = 10)%Z) by done. cbn [String.length Z.of_nat].
  rewrite bool_decide_false by lia. rewrite bool_decide_true by done. cbn [andb].
  unfold roundUpNano. change (Z.of_nat 0) with 0%Z. change (0 <=? 9)%Z with true. cbv iota.
  change (10 ^ (9 - 0))%Z with (10 ^ 9)%Z.
  destruct (maxInt64 * 10 ^ 9 <? n * 2 ^ 30 * 10 ^ 9)%Z eqn:C.
  - apply Z.ltb_lt in C. eexists. split; [done|]. split; [done|].
    rewrite Z.min_r by lia. reflexivity.
  - apply Z.ltb_ge in C. replace (n * 2 ^ 30 * 10 ^ 9 <? 10 ^ 9)%Z with false by (symmetry; apply Z.ltb_ge; lia).
    cbn [andb]. eexists. split; [done|]. split; [done|].
    assert (Hce : ceilDec (n * 2 ^ 30 * 10 ^ 9) 9 = (n * 2 ^ 30)%Z).
    { unfold ceilDec. destruct (Z.leb_spec 9 0); [lia|].
      rewrite <- Z.mul_opp_l, Z.div_mul by done. lia. }
    rewrite Value_ceil; cbn [q_amount amountDec].
    + rewrite decide_False, Hce by lia. lia.
    + unfold Representable. cbn [q_amount amountDec]. rewrite Hce. lia.
Qed.

(** The quantity of "<n>Gi" has the value n * 2^30, capped at the largest int64. *)
Lemma MustParse_Gi (n : Z) : (0 < n)%Z ->
  exists q, MustParse (pretty n +:+ "Gi") = Some q /\ q_Format q = BinarySI
            /\ Value q = Z.min (n * 2 ^ 30) maxInt64.
Proof.
  intros Hn. destruct (pretty_pos_digits n Hn) as (ds & -> & Hds).
  pose proof (parseQuantityString_Gi ds _ Hds) as HP.
  destruct Hds as (Hd & Hv & c & rest & E & Hc).
  rewrite Z2N.id in Hv by lia.
  pose proof (parseDigits_bound 0 ds ltac:(done) Hd) as [_ Hb]. rewrite Hv in Hb.
  unfold MustParse, ParseQuantity.
  rewrite bool_decide_false by (rewrite E, str_cons_app; congruence).
  rewrite bool_decide_false by (rewrite E, str_cons_app; congruence).
  rewrite HP. cbn [rbind p_suffix]. cbn [interpret].
  replace (interpret "Gi") with (Some (2, 30, BinarySI)%Z) by done.
  unfold fastPath. cbn [p_num p_denom p_positive String.length Z.of_nat].
  rewrite bool_decide_true, (bool_decide_true (0 = 0)%Z) by done. cbn [andb].
  rewrite str_app_nil_r, Hv.
  set (len := Z.of_nat (String.length ds)) in *.
  destruct (15 - len - 30 * 3 / 10 - 1 <? 0)%Z eqn:P; cbn [orb].
  - destruct (slowPath_Gi n ds c rest Hn E Hd Hv) as (q & -> & Hf & HV). by exists q.
  - apply Z.ltb_ge in P. change (30 * 3 / 10)%Z with 9%Z in P. cbn [Z.sub Z.ltb Z.compare].
    assert (10 ^ len <= 10 ^ 5)%Z by (apply Z.pow_le_mono_r; lia).
    rewrite int64Multiply_Gi by lia. eexists. split; [done|]. split; [done|].
    unfold Value; cbn [q_amount]. rewrite Z.min_l by (unfold maxInt64; lia). done.
Qed.
