(* ===== verification/Regexp.v ===== *)
(** * Regular expressions

    The patterns of the CRD schemas ([pattern] of OpenAPI and [matches] of CEL),
    as the operators of Go's regexp they use, with matching by derivatives and its
    specification. *)

From S2P Require Import Prelude.
From Stdlib Require Import String.
Local Open Scope nat_scope.

Inductive regexp :=
| Void
| Eps
| Class (p : ascii -> bool)
| Cat (r s : regexp)
| Alt (r s : regexp)
| Star (r : regexp).

(** ** Matching *)

Fixpoint nullable (r : regexp) : bool :=
  match r with
  | Void | Class _ => false
  | Eps | Star _ => true
  | Cat r s => nullable r && nullable s
  | Alt r s => nullable r || nullable s
  end.

(** What is left to match after [c]. *)
Fixpoint deriv (c : ascii) (r : regexp) : regexp :=
  match r with
  | Void | Eps => Void
  | Class p => if p c then Eps else Void
  | Cat r s => if nullable r then Alt (Cat (deriv c r) s) (deriv c s) else Cat (deriv c r) s
  | Alt r s => Alt (deriv c r) (deriv c s)
  | Star r => Cat (deriv c r) (Star r)
  end.

(** [^r$] *)
Fixpoint matches (r : regexp) (s : string) : bool :=
  match s with
  | EmptyString => nullable r
  | String c s' => matches (deriv c r) s'
  end.

(** [r], not anchored: it matches somewhere. *)
Definition search (r : regexp) (s : string) : bool :=
  matches (Cat (Star (Class (fun _ => true))) (Cat r (Star (Class (fun _ => true))))) s.

(** ** The operators of the patterns *)

Definition char (c : ascii) : regexp := Class (fun x => bool_decide (x = c)).
Definition range (a b : ascii) (c : ascii) : bool :=
  (nat_of_ascii a <=? nat_of_ascii c) && (nat_of_ascii c <=? nat_of_ascii b).
Definition digit : regexp := Class (range "0" "9").
(** One of the bytes of [s]. *)
Definition oneByteOf (s : string) : regexp := Class (fun c => existsb (Ascii.eqb c) (list_ascii_of_string s)).
Definition opt (r : regexp) : regexp := Alt Eps r.
Definition plus (r : regexp) : regexp := Cat r (Star r).
Fixpoint times (n : nat) (r : regexp) : regexp :=
  match n with O => Eps | S n' => Cat r (times n' r) end.
Fixpoint upTo (n : nat) (r : regexp) : regexp :=
  match n with O => Eps | S n' => opt (Cat r (upTo n' r)) end.
(** [r{m,n}] *)
Definition between (m n : nat) (r : regexp) : regexp := Cat (times m r) (upTo (n - m) r).
Fixpoint lit (s : string) : regexp :=
  match s with EmptyString => Eps | String c s' => Cat (char c) (lit s') end.

(** ** Specification *)

Inductive denotes : regexp -> string -> Prop :=
| d_Eps : denotes Eps ""
| d_Class p c : p c = true -> denotes (Class p) (String c "")
| d_Cat r s x y : denotes r x -> denotes s y -> denotes (Cat r s) (x +:+ y)
| d_Alt_l r s x : denotes r x -> denotes (Alt r s) x
| d_Alt_r r s x : denotes s x -> denotes (Alt r s) x
| d_Star_nil r : denotes (Star r) ""
| d_Star_cons r x y : denotes r x -> denotes (Star r) y -> denotes (Star r) (x +:+ y).

#[export] Hint Constructors denotes : go.

Lemma denotes_Star_inv r s x :
  denotes s x -> s = Star r -> x = "" \/ exists c y z, x = String c y +:+ z /\ denotes r (String c y) /\ denotes (Star r) z.
Proof.
  induction 1 as [| | | | | |r' x y Hx _ Hy IH]; intros [= ->]; [by left|].
  destruct x as [|c x]; [by apply IH | right]. by exists c, x, y.
Qed.

Lemma nullable_spec r : nullable r = true <-> denotes r "".
Proof.
  split.
  - induction r; cbn; intros H; try done; auto with go.
    + apply andb_true_iff in H as [H1 H2]. rewrite <- (str_app_nil_r ""). auto with go.
    + apply orb_true_iff in H as [H|H]; auto with go.
  - remember "" as e eqn:E. intros H. induction H as [| |r s x y _ IH1 _ IH2| | | |]; cbn in *; try done.
    + apply str_app_eq_nil in E as [-> ->]. by rewrite IH1, IH2.
    + by rewrite IHdenotes.
    + rewrite IHdenotes by done. apply orb_true_r.
Qed.

Lemma Cat_nil_l r s x : denotes r "" -> denotes s x -> denotes (Cat r s) x.
Proof. apply (d_Cat r s "" x). Qed.

Lemma denotes_Cat_inv r s x : denotes (Cat r s) x -> exists y z, x = y +:+ z /\ denotes r y /\ denotes s z.
Proof. inversion 1; subst. by eexists _, _. Qed.

Lemma denotes_Alt_inv r s x : denotes (Alt r s) x <-> denotes r x \/ denotes s x.
Proof. split; [by inversion 1; auto | intros [H|H]; auto with go]. Qed.

Lemma denotes_Class_inv p x : denotes (Class p) x <-> exists c, x = String c "" /\ p c = true.
Proof. split; [inversion 1; subst; by eexists | intros (c & -> & H); auto with go]. Qed.

Lemma deriv_denotes r c x : denotes (deriv c r) x -> denotes r (String c x).
Proof.
  revert x; induction r as [| |p|r IHr s IHs|r IHr s IHs|r IHr]; cbn [deriv]; intros x H.
  - inversion H.
  - inversion H.
  - destruct (p c) eqn:E; inversion H; subst. by apply d_Class.
  - assert (Hc : denotes (Cat (deriv c r) s) x -> denotes (Cat r s) (String c x)).
    { intros (y & z & -> & Hy & Hz)%denotes_Cat_inv. rewrite <- str_cons_app. auto with go. }
    destruct (nullable r) eqn:N; [|auto].
    apply denotes_Alt_inv in H as [H|H]; [auto|]. apply Cat_nil_l; [by apply nullable_spec | auto].
  - apply denotes_Alt_inv. apply denotes_Alt_inv in H as [H|H]; auto.
  - apply denotes_Cat_inv in H as (y & z & -> & Hy & Hz). rewrite <- str_cons_app. auto with go.
Qed.

Lemma denotes_deriv r c x : denotes r (String c x) -> denotes (deriv c r) x.
Proof.
  revert x; induction r as [| |p|r IHr s IHs|r IHr s IHs|r IHr]; cbn [deriv]; intros x H.
  - inversion H.
  - inversion H.
  - apply denotes_Class_inv in H as (c' & [= -> ->] & ->). auto with go.
  - apply denotes_Cat_inv in H as ([|c' y] & z & E & Hy & Hz); cbn in E.
    + rewrite (proj2 (nullable_spec r) Hy). apply d_Alt_r. apply IHs. by rewrite E.
    + rewrite str_cons_app in E. injection E as -> ->.
      destruct (nullable r); [apply d_Alt_l|]; auto with go.
  - apply denotes_Alt_inv. apply denotes_Alt_inv in H as [H|H]; auto.
  - destruct (denotes_Star_inv r _ _ H eq_refl) as [?|(c' & y & z & E & Hy & Hz)]; [done|].
    rewrite str_cons_app in E. injection E as -> ->. auto with go.
Qed.

Lemma matches_spec r s : matches r s = true <-> denotes r s.
Proof.
  revert r; induction s as [|c s IH]; intros r; cbn [matches]; [apply nullable_spec|].
  rewrite IH. split; [apply deriv_denotes | apply denotes_deriv].
Qed.

Lemma denotes_any s : denotes (Star (Class (fun _ => true))) s.
Proof.
  induction s as [|c s IH]; [auto with go|]. change (String c s) with (String c "" +:+ s). auto with go.
Qed.

Lemma search_spec r s : search r s = true <-> exists x y z, s = x +:+ (y +:+ z) /\ denotes r y.
Proof.
  unfold search. rewrite matches_spec. split.
  - intros (x & s' & -> & _ & (y & z & -> & H & _)%denotes_Cat_inv)%denotes_Cat_inv. by exists x, y, z.
  - intros (x & y & z & -> & H). auto using denotes_any with go.
Qed.

(** An anchored pattern also matches without the anchors. *)
Lemma matches_search r s : matches r s = true -> search r s = true.
Proof.
  rewrite matches_spec, search_spec. intros H. exists "", s, "". by rewrite str_app_nil_r.
Qed.

Lemma matches_Alt r s x : matches (Alt r s) x = matches r x || matches s x.
Proof. apply eq_true_iff_eq. by rewrite orb_true_iff, !matches_spec, denotes_Alt_inv. Qed.

(** ** Lemmas: sequences of bytes *)

Lemma denotes_char_Cat p r x : denotes (Cat (Class p) r) x <-> exists c y, x = String c y /\ p c = true /\ denotes r y.
Proof.
  split.
  - intros (y & z & -> & (c & -> & Hc)%denotes_Class_inv & Hz)%denotes_Cat_inv. by exists c, z.
  - intros (c & y & -> & Hc & Hy). change (String c y) with (String c "" +:+ y). apply d_Cat; [by constructor | done].
Qed.

Lemma denotes_Cat_Eps r x : denotes (Cat Eps r) x <-> denotes r x.
Proof.
  split; [|by apply Cat_nil_l; constructor]. intros (y & z & -> & Hy & Hz)%denotes_Cat_inv. by inversion Hy.
Qed.

Lemma denotes_lit s x : denotes (lit s) x <-> x = s.
Proof.
  revert x; induction s as [|c s IH]; intros x; cbn [lit].
  - split; [by inversion 1 | intros ->; constructor].
  - unfold char. rewrite denotes_char_Cat. split.
    + intros (c' & y & -> & E%bool_decide_eq_true & Hy%IH). by subst.
    + intros ->. exists c, s. split; [done|]. split; [by apply bool_decide_eq_true | by apply IH].
Qed.

Fixpoint allBytes (p : ascii -> bool) (s : string) : bool :=
  match s with EmptyString => true | String c s' => p c && allBytes p s' end.

Lemma denotes_times p k x : denotes (times k (Class p)) x <-> String.length x = k /\ allBytes p x = true.
Proof.
  revert x; induction k as [|k IH]; intros x; cbn [times].
  - split; [by inversion 1 | intros [E _]]. destruct x; [constructor | done].
  - rewrite denotes_char_Cat. split.
    + intros (c & y & -> & Hc & [<- Hy]%IH). cbn. by rewrite Hc, Hy.
    + destruct x as [|c x]; [by intros []|]. cbn. intros [[= E] [Hc Hx]%andb_true_iff].
      exists c, x. by rewrite IH.
Qed.

Lemma denotes_upTo p k x : denotes (upTo k (Class p)) x <-> String.length x <= k /\ allBytes p x = true.
Proof.
  revert x; induction k as [|k IH]; intros x; cbn [upTo].
  - split; [by inversion 1 | intros [E _]]. destruct x; [constructor | cbn in E; lia].
  - unfold opt. rewrite denotes_Alt_inv, denotes_char_Cat. split.
    + intros [H|(c & y & -> & Hc & [Hy Hb]%IH)]; [inversion H; split; [cbn; lia | done]|].
      cbn. rewrite Hc, Hb. split; [lia | done].
    + destruct x as [|c x]; [left; constructor|]. cbn. intros [E [Hc Hx]%andb_true_iff].
      right. exists c, x. rewrite IH. repeat split; (done || lia).
Qed.

Lemma denotes_plus p x : denotes (plus (Class p)) x <-> x <> "" /\ allBytes p x = true.
Proof.
  unfold plus. rewrite denotes_char_Cat. assert (St : forall y, denotes (Star (Class p)) y <-> allBytes p y = true).
  { split.
    - intros H. remember (Star (Class p)) as r eqn:E. revert E.
      induction H as [| | | | | |r' u v Hu _ Hv IH]; intros [= ->]; [done|].
      apply denotes_Class_inv in Hu as (c & -> & Hc). change (String c "" +:+ v) with (String c v). cbn.
      by rewrite Hc, IH.
    - induction y as [|c y IH]; [constructor|]. cbn. intros [Hc Hy]%andb_true_iff.
      change (String c y) with (String c "" +:+ y). apply d_Star_cons; [by constructor | by apply IH]. }
  setoid_rewrite St. split.
  - intros (c & y & -> & Hc & Hy). cbn. by rewrite Hc, Hy.
  - destruct x as [|c x]; [by intros []|]. cbn. intros [_ [Hc Hx]%andb_true_iff]. by exists c, x.
Qed.

Lemma allBytes_app p x y : allBytes p (x +:+ y) = allBytes p x && allBytes p y.
Proof. induction x as [|c x IH]; [done|]. rewrite str_cons_app. cbn. by rewrite IH, andb_assoc. Qed.

Lemma allBytes_mono p q x : (forall c, p c = true -> q c = true) -> allBytes p x = true -> allBytes q x = true.
Proof. intros H. induction x as [|c x IH]; [done|]. cbn. intros [Hc Hx]%andb_true_iff. by rewrite H, IH. Qed.
