(* ===== verification/QuantityText.v ===== *)
(** * Quantities as text

    k8s.io/apimachinery/pkg/api/resource as vendored: the canonical form of a
    quantity ([CanonicalizeBytes]), which is what is sent to the API server unless
    the text it was parsed from is kept ([MarshalJSON]); and that text for the
    volume sizes of the NodeClasses. *)

From S2P Require Import Prelude DeepEqual Quantity GoFormat.

(** [removeBigIntFactors], and [removeInt64Factors] of a number that is not zero:
    [v = r * base ^ times]. *)
Fixpoint removeFactorsLoop (fuel : nat) (base v times : Z) : Z * Z :=
  match fuel with
  | O => (v, times)
  | S fuel' => if bool_decide (Z.rem v base = 0%Z) then removeFactorsLoop fuel' base (Z.quot v base) (times + 1)
               else (v, times)
  end.
Definition removeFactors (base v : Z) : Z * Z :=
  if bool_decide (v = 0%Z) then (0, 0)%Z else removeFactorsLoop (Z.to_nat (Z.log2 (Z.abs v))) base v 0.

(** [amount.Round(a, 0, inf.RoundUp)]: away from zero. *)
Definition roundUp0 (unscaled scale : Z) : Z :=
  (if scale <=? 0 then unscaled * 10 ^ (- scale)
   else let d := 10 ^ scale in Z.sgn unscaled * - (- Z.abs unscaled / d))%Z.

(** [quantitySuffixer.constructBytes]; without a suffix for the exponent it is
    empty. *)
Definition constructBytes (base exponent : Z) (format : Format) : string :=
  match format with
  | DecimalSI =>
      default "" (list_to_map (M := gmap Z string)
        [(-9, "n"); (-6, "u"); (-3, "m"); (0, ""); (3, "k"); (6, "M"); (9, "G"); (12, "T"); (15, "P"); (18, "E")]%Z
        !! exponent)
  | BinarySI =>
      default "" (list_to_map (M := gmap Z string)
        [(10, "Ki"); (20, "Mi"); (30, "Gi"); (40, "Ti"); (50, "Pi"); (60, "Ei")]%Z !! exponent)
  | DecimalExponent => if bool_decide (exponent = 0%Z) then "" else "e" +:+ pretty exponent
  end.

(** [AsCanonicalBytes]: the exponent is made a multiple of three. *)
Definition asCanonicalBytes (unscaled scale : Z) : string * Z :=
  let '(amount, times) := removeFactors 10 unscaled in
  let exponent := (- scale + times)%Z in
  let extra := (exponent mod 3)%Z in
  (pretty (amount * 10 ^ extra)%Z, (exponent - extra)%Z).

(** [AsCanonicalBase1024Bytes] *)
Definition asCanonicalBase1024Bytes (unscaled scale : Z) : string * Z :=
  let '(amount, times) := removeFactors 1024 (roundUp0 unscaled scale) in (pretty amount, times).

(** [Quantity.CanonicalizeBytes] *)
Definition CanonicalizeBytes (q : Quantity) : string :=
  let '(u, s) := amountDec (q_amount q) in
  if bool_decide (u = 0%Z) then "0" else
  let format :=
    match q_Format q with
    | BinarySI =>
        (* CmpInt64 with -1024 and 1024, on multiples of the smaller power of ten. *)
        let v := (u * 10 ^ (Z.max s 0 - s))%Z in
        let bound := (1024 * 10 ^ Z.max s 0)%Z in
        if ((- bound <? v) && (v <? bound))%Z then DecimalSI
        else if bool_decide (v = roundUp0 u s * 10 ^ Z.max s 0)%Z then BinarySI else DecimalSI
    | f => f
    end in
  match format with
  | BinarySI => let '(number, exponent) := asCanonicalBase1024Bytes u s in
                number +:+ constructBytes 2 (exponent * 10) format
  | _ => let '(number, exponent) := asCanonicalBytes u s in number +:+ constructBytes 10 exponent format
  end.

(** [Quantity.String], and within quotes [Quantity.MarshalJSON]. *)
Definition QuantityString (q : Quantity) : string :=
  if bool_decide (q_s q = "") then CanonicalizeBytes q else q_s q.

Example text_1024Gi : QuantityString <$> MustParse "1024Gi" = Some "1Ti". Proof. reflexivity. Qed.
Example text_120Gi : QuantityString <$> MustParse "120Gi" = Some "120Gi". Proof. reflexivity. Qed.
Example text_59001Gi : QuantityString <$> MustParse "59001Gi" = Some "59001Gi". Proof. reflexivity. Qed.
Example text_512 : QuantityString <$> MustParse "0.5Ki" = Some "512". Proof. reflexivity. Qed.
Example text_1500m : QuantityString <$> MustParse "1.5" = Some "1500m". Proof. reflexivity. Qed.
Example text_10000 : QuantityString <$> MustParse "10000" = Some "10k". Proof. reflexivity. Qed.
Example text_1e3 : QuantityString <$> MustParse "1e4" = Some "10e3". Proof. reflexivity. Qed.

(** ** The text of a volume size *)

Lemma removeFactorsLoop_step fuel base w v times :
  (0 < base)%Z -> w = (v * base)%Z ->
  removeFactorsLoop (S fuel) base w times = removeFactorsLoop fuel base v (times + 1).
Proof. intros Hb ->. cbn. rewrite Z.rem_mul, bool_decide_true, Z.quot_mul by lia. done. Qed.

Lemma removeFactorsLoop_stop fuel base v times :
  (0 < v)%Z -> (0 < base)%Z -> (v mod base <> 0)%Z -> removeFactorsLoop fuel base v times = (v, times).
Proof.
  intros Hv Hb Hm. destruct fuel; [done|]. cbn. rewrite bool_decide_false; [done|].
  rewrite Z.rem_mod_nonneg by lia. done.
Qed.

(** The canonical text of [n] GiB, of less than a PiB. *)
Definition sizeText (n : Z) : string :=
  if bool_decide (n mod 1024 = 0)%Z then pretty (n / 1024)%Z +:+ "Ti" else pretty n +:+ "Gi".

Lemma removeFactors_Gi n :
  (0 < n < 2 ^ 20)%Z ->
  removeFactors 1024 (n * 2 ^ 30) =
    if bool_decide (n mod 1024 = 0)%Z then (n / 1024, 4)%Z else (n, 3)%Z.
Proof.
  intros Hn. unfold removeFactors. rewrite bool_decide_false by lia.
  rewrite Z.abs_eq, Z.log2_mul_pow2 by lia. pose proof (Z.log2_nonneg n) as L.
  replace (Z.to_nat (30 + Z.log2 n)) with (S (S (S (S (Z.to_nat (Z.log2 n + 26)))))) by lia.
  rewrite (removeFactorsLoop_step _ _ _ (n * 1024 * 1024)), (removeFactorsLoop_step _ _ _ (n * 1024)),
    (removeFactorsLoop_step _ _ _ n) by lia. cbn [Z.add Pos.add Pos.succ]. case_bool_decide as E.
  - apply Z.div_exact in E; [|lia]. rewrite (removeFactorsLoop_step _ _ _ (n / 1024)) by lia.
    apply removeFactorsLoop_stop; [lia..|].
    rewrite Z.mod_small; [lia|]. split; [lia|]. apply Z.div_lt_upper_bound; lia.
  - rewrite removeFactorsLoop_stop by lia. done.
Qed.

Lemma CanonicalizeBytes_Gi n s :
  (0 < n < 2 ^ 20)%Z -> CanonicalizeBytes (mkQuantity (AInt (n * 2 ^ 30) 0) s BinarySI) = sizeText n.
Proof.
  intros Hn. unfold CanonicalizeBytes. cbn [q_amount amountDec q_Format].
  rewrite bool_decide_false by lia.
  change (Z.max (- 0) 0) with 0%Z. change (- 0)%Z with 0%Z. change (0 - 0)%Z with 0%Z. change (10 ^ 0)%Z with 1%Z.
  rewrite !Z.mul_1_r. replace (n * 2 ^ 30 <? 1024)%Z with false by (symmetry; apply Z.ltb_ge; lia).
  rewrite andb_false_r. unfold asCanonicalBase1024Bytes, roundUp0. cbn [Z.leb Z.compare].
  change (10 ^ (- 0))%Z with 1%Z. rewrite Z.mul_1_r, bool_decide_true by done.
  rewrite removeFactors_Gi by done. unfold sizeText. by case_bool_decide.
Qed.

(** A number of [k] digits is at least 10^(k-1). *)
Lemma digitsOf_length x ds k :
  digitsOf x ds -> (Z.of_N x < 10 ^ Z.of_nat k)%Z -> String.length ds <= k.
Proof.
  intros (Hd & Hv & c & rest & -> & Hc) Hx. cbn [String.length]. apply andb_true_iff in Hd as [Hd Hr].
  cbn in Hv. pose proof (parseDigits_bound (Z.of_nat (nat_of_ascii c - 48)) rest ltac:(lia) Hr) as [H _].
  apply andb_true_iff in Hd as [H1%Nat.leb_le H2%Nat.leb_le].
  assert (nat_of_ascii c <> 48).
  { intros E. apply Hc. rewrite <- (ascii_nat_embedding c), E. done. }
  rewrite <- Hv in Hx. apply Nat.le_succ_l, Nat2Z.inj_lt, (Z.pow_lt_mono_r_iff 10); [lia..|].
  eapply Z.le_lt_trans; [|exact Hx]. etrans; [|exact H]. nia.
Qed.

Lemma MustParse_Gi_small n :
  (0 < n < 10 ^ 5)%Z ->
  MustParse (pretty n +:+ "Gi") = Some (mkQuantity (AInt (n * 2 ^ 30) 0)
    (if bool_decide (Z.land n 7 = 0)%Z then "" else pretty n +:+ "Gi") BinarySI).
Proof.
  intros Hn. destruct (pretty_pos_digits n) as (ds & E & Hds); [lia|]. rewrite E.
  pose proof (parseQuantityString_Gi ds _ Hds) as HP.
  assert (String.length ds <= 5) as Hl by (eapply digitsOf_length; [done|]; rewrite Z2N.id; lia).
  destruct Hds as (Hd & Hv & c & rest & Ed & Hc). rewrite Z2N.id in Hv by lia.
  unfold MustParse, ParseQuantity.
  do 2 (rewrite bool_decide_false by (rewrite Ed, str_cons_app; congruence)).
  rewrite HP. cbn [rbind p_suffix]. replace (interpret "Gi") with (Some (2, 30, BinarySI)%Z) by done.
  unfold fastPath. cbn [p_num p_denom p_positive String.length Z.of_nat].
  rewrite !bool_decide_true by done. cbn [andb]. rewrite str_app_nil_r, Hv.
  change (30 * 3 / 10)%Z with 9%Z.
  replace (15 - Z.of_nat (String.length ds) - 9 - 1 <? 0)%Z with false by (symmetry; apply Z.ltb_ge; lia).
  cbn [orb Z.sub Z.ltb Z.compare Z.opp Z.add].
  rewrite int64Multiply_Gi by lia. by case_bool_decide.
Qed.
