(* ===== verification/CrdSchema.v ===== *)
(** * CRD schemas

    The parts of OpenAPI v3 and of CEL that the schemas of the two NodeClass CRDs
    use, on the Go values.  A property of the JSON document is there when its Go
    field is not the zero value ([omitempty]); the schemas here refuse the zero
    value of every property that has one. *)

From S2P Require Import Prelude DeepEqual MetaV1 Quantity Regexp.

(** ** Properties *)

(** [has(self.f)], by the type of the field; [hasMap] and [hasList] are for fields
    that are omitted when empty, [hasPtr] for those of a document that was read. *)
Definition has (s : string) : bool := negb (bool_decide (s = "")).
Definition hasInt (n : Z) : bool := negb (bool_decide (n = 0%Z)).
Definition hasMap {V} (m : gomap V) : bool := negb (bool_decide (entries m = ∅)).
Definition hasList {A} (l : slice A) : bool := match elems l with [] => false | _ => true end.
Definition hasPtr {A} (o : option A) : bool := match o with Some _ => true | None => false end.

(** The schema of a property, which need not be there. *)
Definition property (s : string) (schema : string -> bool) : bool := negb (has s) || schema s.
Definition propertyInt (n : Z) (schema : Z -> bool) : bool := negb (hasInt n) || schema n.
Definition propertyMap {V} (m : gomap V) (schema : gmap string V -> bool) : bool := negb (hasMap m) || schema (entries m).
Definition propertyList {A} (l : slice A) (schema : list A -> bool) : bool :=
  match elems l with [] => true | l => schema l end.
Definition propertyPtr {A} (o : option A) (schema : A -> bool) : bool :=
  match o with None => true | Some x => schema x end.

(** ** Keywords *)

Definition enum (values : list string) (s : string) : bool := bool_decide (s ∈ values).
Definition minimum (a : Z) (n : Z) : bool := (a <=? n)%Z.
Definition maximum (b : Z) (n : Z) : bool := (n <=? b)%Z.
Definition minItems {A} (n : nat) (l : list A) : bool := n <=? length l.
Definition maxItems {A} (n : nat) (l : list A) : bool := length l <=? n.
Definition minProperties {V} (n : nat) (m : gmap string V) : bool := n <=? size m.
Definition maxProperties {V} (n : nat) (m : gmap string V) : bool := size m <=? n.

(** The length of a string is in code points: of its UTF-8, the bytes that do not
    continue one. *)
Definition continues (c : ascii) : bool := range "128"%char "191"%char c.
Fixpoint runeCount (s : string) : nat :=
  match s with
  | EmptyString => 0
  | String c s' => (if continues c then 0 else 1) + runeCount s'
  end.
Definition minLength (n : nat) (s : string) : bool := n <=? runeCount s.
Definition maxLength (n : Z) (s : string) : bool := (Z.of_nat (runeCount s) <=? n)%Z.

(** [self.all(k, ...)] on a map. *)
Definition allEntries {V} (p : string -> V -> bool) (m : gmap string V) : bool :=
  bool_decide (map_Forall (fun k v => p k v = true) m).
Definition allKeys {V} (p : string -> bool) (m : gmap string V) : bool := allEntries (fun k _ => p k) m.

(** [k in m] *)
Definition inMap {V} (k : string) (m : gomap V) : bool := bool_decide (is_Some (entries m !! k)).

(** The CEL extensions isQuantity and quantity(x).compareTo(quantity(y)) >= 0. *)
Definition isQuantity (s : string) : bool := match ParseQuantity s with Ok _ => true | Err _ => false end.
Definition quantityGe (x y : string) : bool :=
  match ParseQuantity x, ParseQuantity y with
  | Ok x, Ok y =>
      let '(u, s) := amountDec (q_amount x) in let '(v, t) := amountDec (q_amount y) in
      let m := Z.max s t in (v * 10 ^ (m - t) <=? u * 10 ^ (m - s))%Z
  | _, _ => false
  end.

(** ** What both schemas name *)

(** [<prefix>[0-9a-z]+] *)
Definition resourceID (prefix : string) : regexp :=
  Cat (lit prefix) (plus (Class (fun c => range "0"%char "9"%char c || range "a"%char "z"%char c))).
(** [[0-9]{12}] *)
Definition accountID : regexp := times 12 digit.

Definition resourceNames : list string := ["cpu"; "memory"; "ephemeral-storage"; "pid"].
Definition signals : list string :=
  ["memory.available"; "nodefs.available"; "nodefs.inodesFree"; "imagefs.available"; "imagefs.inodesFree";
   "pid.available"].

(** ** Conditions

    The markers of metav1.Condition; the time is always there. *)

Definition lowerAlnum : ascii -> bool := fun c => range "a"%char "z"%char c || range "0"%char "9"%char c.
Definition alnum : ascii -> bool := fun c => lowerAlnum c || range "A"%char "Z"%char c.
Fixpoint isOneOf (cs : string) (c : ascii) : bool :=
  match cs with EmptyString => false | String d cs' => Ascii.eqb c d || isOneOf cs' c end.
(** [[a-z0-9]([-a-z0-9]*[a-z0-9])?] *)
Definition label : regexp :=
  Cat (Class lowerAlnum)
      (opt (Cat (Star (Class (fun c => lowerAlnum c || isOneOf "-" c))) (Class lowerAlnum))).
Definition conditionType : regexp :=
  Cat (opt (Cat label (Cat (Star (Cat (char "."%char) label)) (char "/"%char))))
      (Cat (opt (Cat (Class alnum) (Star (Class (fun c => alnum c || isOneOf "-_." c))))) (Class alnum)).
(** [[A-Za-z]([A-Za-z0-9_,:]*[A-Za-z0-9_])?] *)
Definition conditionReason : regexp :=
  Cat (Class (fun c => range "a"%char "z"%char c || range "A"%char "Z"%char c))
      (opt (Cat (Star (Class (fun c => alnum c || isOneOf "_,:" c))) (Class (fun c => alnum c || isOneOf "_" c)))).

Definition condition (c : Condition) : bool :=
  matches conditionType (c_Type c) && maxLength 316 (c_Type c)
  && enum ["True"; "False"; "Unknown"] (c_Status c)
  && minimum 0 (c_ObservedGeneration c)
  && minLength 1 (c_Reason c) && maxLength 1024 (c_Reason c) && matches conditionReason (c_Reason c)
  && maxLength 32768 (c_Message c).

(** ** Lemmas *)

Lemma has_true s : has s = true <-> s <> "".
Proof. unfold has. by rewrite negb_true_iff, bool_decide_eq_false. Qed.

Lemma allEntries_spec {V} p (m : gmap string V) :
  allEntries p m = true <-> forall k v, m !! k = Some v -> p k v = true.
Proof. unfold allEntries. by rewrite bool_decide_eq_true. Qed.

Lemma propertyMap_all {V} p (m : gomap V) : propertyMap m (allEntries p) = allEntries p (entries m).
Proof.
  unfold propertyMap, hasMap. destruct (bool_decide (entries m = ∅)) eqn:E; cbn; [|done].
  apply bool_decide_eq_true in E. symmetry. apply allEntries_spec. by rewrite E.
Qed.

Ltac conjuncts :=
  repeat match goal with H : _ && _ = true |- _ => apply andb_true_iff in H as [? ?] end.

Lemma property_spec s p : property s p = true <-> s = "" \/ p s = true.
Proof. unfold property, has. rewrite orb_true_iff, negb_involutive, bool_decide_eq_true. done. Qed.

Lemma forallb_elem {A} (p : A -> bool) l : forallb p l = true <-> forall x, x ∈ l -> p x = true.
Proof. rewrite forallb_forall. by setoid_rewrite list_elem_of_In. Qed.
