(* ===== verification/AwsSchema.v ===== *)
(** * The schema of the EC2NodeClass

    What an API server admits as the spec of an EC2NodeClass: the CRD that the
    operator installs, pkg/assets/aws/karpenter.k8s.aws_ec2nodeclasses.yaml, on the
    Go value whose JSON is sent.  A nil list that is not omitted is sent as null,
    which the server drops. *)

From S2P Require Import Prelude DeepEqual MetaV1 Quantity QuantityText Regexp CrdSchema AwsV1.

Module awscrd.

(** ** Patterns *)

(** ^((?:[1-9][0-9]{0,3}|[1-4][0-9]{4}|[5][0-8][0-9]{3}|59000)Gi *)
Definition giCount : regexp :=
  Alt (Cat (Class (range "1"%char "9"%char)) (between 0 3 digit))
 (Alt (Cat (Class (range "1"%char "4"%char)) (times 4 digit))
 (Alt (Cat (char "5"%char) (Cat (Class (range "0"%char "8"%char)) (times 3 digit)))
      (lit "59000"))).
(** |(?:[1-9][0-9]{0,3}|[1-5][0-9]{4}|[6][0-3][0-9]{3}|64000)G *)
Definition gCount : regexp :=
  Alt (Cat (Class (range "1"%char "9"%char)) (between 0 3 digit))
 (Alt (Cat (Class (range "1"%char "5"%char)) (times 4 digit))
 (Alt (Cat (char "6"%char) (Cat (Class (range "0"%char "3"%char)) (times 3 digit)))
      (lit "64000"))).
(** |([1-9]||[1-5][0-7]|58)Ti *)
Definition tiCount : regexp :=
  Alt (Class (range "1"%char "9"%char))
 (Alt Eps
 (Alt (Cat (Class (range "1"%char "5"%char)) (Class (range "0"%char "7"%char)))
      (lit "58"))).
(** |([1-9]||[1-5][0-9]|6[0-3]|64)T)$ *)
Definition tCount : regexp :=
  Alt (Class (range "1"%char "9"%char))
 (Alt Eps
 (Alt (Cat (Class (range "1"%char "5"%char)) digit)
 (Alt (Cat (char "6"%char) (Class (range "0"%char "3"%char)))
      (lit "64")))).
Definition volumeSize : regexp :=
  Alt (Cat giCount (lit "Gi")) (Alt (Cat gCount (lit "G")) (Alt (Cat tiCount (lit "Ti")) (Cat tCount (lit "T")))).

(** (([0-9]+(\.[0-9]* )?)|(\.[0-9]+)) *)
Definition decimal : regexp :=
  Alt (Cat (plus digit) (opt (Cat (char "."%char) (Star digit)))) (Cat (char "."%char) (plus digit)).
(** (\+|-)? *)
Definition sign : regexp := opt (oneByteOf "+-").
(** ^(\+|-)?(([0-9]+(\.[0-9]* )?)|(\.[0-9]+))(([KMGTPE]i)|[numkMGTPE]|([eE](\+|-)?(...)))?$ *)
Definition quantity : regexp :=
  Cat sign (Cat decimal (opt (Alt (Cat (oneByteOf "KMGTPE") (char "i"%char))
                             (Alt (oneByteOf "numkMGTPE") (Cat (oneByteOf "eE") (Cat sign decimal)))))).
(** ^((\d{1,2}(\.\d{1,2})?|100(\.0{1,2})?)%||...)$, with [quantity] for the dots. *)
Definition evictionThreshold : regexp :=
  Alt (Cat (Alt (Cat (between 1 2 digit) (opt (Cat (char "."%char) (between 1 2 digit))))
                (Cat (lit "100") (opt (Cat (char "."%char) (between 1 2 (char "0"%char))))))
           (char "%"%char))
 (Alt Eps quantity).

(** ** Selector terms *)

Definition selectorTags (tags : gomap string) : bool :=
  propertyMap tags (fun tags =>
    maxProperties 20 tags && allEntries (fun k v => has k && has v) tags).

Definition subnetSelectorTerm (x : awsv1.SubnetSelectorTerm) : bool :=
  property (awsv1.sst_ID x) (search (resourceID "subnet-")) && selectorTags (awsv1.sst_Tags x).

Definition subnetSelectorTerms (l : list awsv1.SubnetSelectorTerm) : bool :=
  forallb subnetSelectorTerm l && maxItems 30 l
  && negb (length l =? 0)
  && forallb (fun x => hasMap (awsv1.sst_Tags x) || has (awsv1.sst_ID x)) l
  && negb (forallb (fun x => has (awsv1.sst_ID x) && hasMap (awsv1.sst_Tags x)) l).

Definition securityGroupSelectorTerm (x : awsv1.SecurityGroupSelectorTerm) : bool :=
  property (awsv1.sgst_ID x) (search (resourceID "sg-")) && selectorTags (awsv1.sgst_Tags x).

Definition securityGroupSelectorTerms (l : list awsv1.SecurityGroupSelectorTerm) : bool :=
  let tags x := hasMap (awsv1.sgst_Tags x) in
  let id x := has (awsv1.sgst_ID x) in
  let name x := has (awsv1.sgst_Name x) in
  forallb securityGroupSelectorTerm l && maxItems 30 l
  && negb (length l =? 0)
  && forallb (fun x => tags x || id x || name x) l
  && negb (forallb (fun x => id x && (tags x || name x)) l)
  && negb (forallb (fun x => name x && (tags x || id x)) l).

Definition capacityReservationSelectorTerm (x : awsv1.CapacityReservationSelectorTerm) : bool :=
  property (awsv1.crst_ID x) (matches (resourceID "cr-"))
  && property (awsv1.crst_InstanceMatchCriteria x) (enum ["open"; "targeted"])
  && property (awsv1.crst_OwnerID x) (matches accountID)
  && selectorTags (awsv1.crst_Tags x).

Definition capacityReservationSelectorTerms (l : list awsv1.CapacityReservationSelectorTerm) : bool :=
  let tags x := hasMap (awsv1.crst_Tags x) in
  let id x := has (awsv1.crst_ID x) in
  let ownerID x := has (awsv1.crst_OwnerID x) in
  let instanceMatchCriteria x := has (awsv1.crst_InstanceMatchCriteria x) in
  forallb capacityReservationSelectorTerm l && maxItems 30 l
  && forallb (fun x => tags x || id x || instanceMatchCriteria x) l
  && negb (forallb (fun x => id x && (tags x || ownerID x || instanceMatchCriteria x)) l).

(** The alias and the tags of a term have rules of their own, which do not matter
    as the last rule of the list excludes both. *)
Definition amiSelectorTerms (l : list awsv1.AMISelectorTerm) : bool :=
  forallb (fun x => property (awsv1.ast_ID x) (search (resourceID "ami-"))) l
  && maxItems 30 l && minItems 1 l
  && forallb (fun x => has (awsv1.ast_ID x) && negb (has (awsv1.ast_Alias x)) && negb (hasMap (awsv1.ast_Tags x))
                && negb (has (awsv1.ast_Name x)) && negb (has (awsv1.ast_Owner x))
                && negb (has (awsv1.ast_SSMParameter x))) l.

(** ** Block devices *)

Definition ebs (x : awsv1.BlockDevice) : bool :=
  propertyPtr (awsv1.bd_VolumeInitializationRate x) (fun n => minimum 100 n && maximum 300 n)
  && propertyPtr (awsv1.bd_VolumeSize x) (fun q => matches volumeSize (QuantityString q))
  && propertyPtr (awsv1.bd_VolumeType x) (enum ["standard"; "io1"; "io2"; "gp2"; "sc1"; "st1"; "gp3"])
  && (hasPtr (awsv1.bd_SnapshotID x) || hasPtr (awsv1.bd_VolumeSize x))
  && (negb (hasPtr (awsv1.bd_VolumeInitializationRate x))
      || match awsv1.bd_SnapshotID x with Some s => negb (bool_decide (s = "")) | None => false end).

Definition blockDeviceMappings (l : list awsv1.BlockDeviceMapping) : bool :=
  forallb (fun x => propertyPtr (awsv1.bdm_EBS x) ebs) l && maxItems 50 l
  && (length (List.filter awsv1.bdm_RootVolume l) <=? 1).

(** ** Kubelet *)

Definition reserved (m : gomap string) : bool :=
  propertyMap m (allEntries (fun k v => matches quantity v && enum resourceNames k && negb (HasPrefix v "-"))).

Definition thresholds (m : gomap string) : bool :=
  propertyMap m (allEntries (fun k v => matches evictionThreshold v && enum signals k)).

(** The rules on both eviction maps fail on a key of a map that is not there. *)
Definition kubelet (k : awsv1.KubeletConfiguration) : bool :=
  thresholds (awsv1.kc_EvictionHard k) && thresholds (awsv1.kc_EvictionSoft k)
  && propertyMap (awsv1.kc_EvictionSoftGracePeriod k) (allKeys (enum signals))
  && propertyPtr (awsv1.kc_ImageGCHighThresholdPercent k) (fun n => minimum 0 n && maximum 100 n)
  && propertyPtr (awsv1.kc_ImageGCLowThresholdPercent k) (fun n => minimum 0 n && maximum 100 n)
  && reserved (awsv1.kc_KubeReserved k) && reserved (awsv1.kc_SystemReserved k)
  && propertyPtr (awsv1.kc_MaxPods k) (minimum 0) && propertyPtr (awsv1.kc_PodsPerCore k) (minimum 0)
  && match awsv1.kc_ImageGCHighThresholdPercent k, awsv1.kc_ImageGCLowThresholdPercent k with
     | Some high, Some low => (low <? high)%Z
     | _, _ => true
     end
  && (if hasMap (awsv1.kc_EvictionSoft k)
      then allKeys (fun e => inMap e (awsv1.kc_EvictionSoftGracePeriod k)) (entries (awsv1.kc_EvictionSoft k)) else true)
  && (if hasMap (awsv1.kc_EvictionSoftGracePeriod k)
      then allKeys (fun e => inMap e (awsv1.kc_EvictionSoft k)) (entries (awsv1.kc_EvictionSoftGracePeriod k)) else true).

(** ** The other properties *)

Definition tags (m : gomap string) : bool :=
  propertyMap m (fun m =>
    allKeys has m
    && allKeys (fun k => negb (bool_decide (k = "eks:eks-cluster-name"))) m
    && allKeys (fun k => negb (HasPrefix k "kubernetes.io/cluster")) m
    && allKeys (fun k => negb (bool_decide (k = "karpenter.sh/nodepool"))) m
    && allKeys (fun k => negb (bool_decide (k = "karpenter.sh/nodeclaim"))) m
    && allKeys (fun k => negb (bool_decide (k = "karpenter.k8s.aws/ec2nodeclass"))) m).

Definition metadataOptions (o : awsv1.MetadataOptions) : bool :=
  propertyPtr (awsv1.mo_HTTPEndpoint o) (enum ["enabled"; "disabled"])
  && propertyPtr (awsv1.mo_HTTPProtocolIPv6 o) (enum ["enabled"; "disabled"])
  && propertyPtr (awsv1.mo_HTTPPutResponseHopLimit o) (fun n => minimum 1 n && maximum 64 n)
  && propertyPtr (awsv1.mo_HTTPTokens o) (enum ["required"; "optional"]).

Definition connectionTracking (t : awsv1.ConnectionTracking) : bool :=
  propertyPtr (awsv1.ct_TCPEstablishedTimeout t) (fun n => minimum 60 n && maximum 432000 n)
  && propertyPtr (awsv1.ct_UDPStreamTimeout t) (fun n => minimum 60 n && maximum 180 n)
  && propertyPtr (awsv1.ct_UDPTimeout t) (fun n => minimum 30 n && maximum 60 n)
  && (hasPtr (awsv1.ct_TCPEstablishedTimeout t) || hasPtr (awsv1.ct_UDPStreamTimeout t)
      || hasPtr (awsv1.ct_UDPTimeout t)).

Definition placementGroupSelector (s : awsv1.PlacementGroupSelector) : bool :=
  propertyPtr (awsv1.pgs_ID s) (matches (resourceID "pg-"))
  && propertyPtr (awsv1.pgs_Name s) (minLength 1)
  && (hasPtr (awsv1.pgs_Name s) || hasPtr (awsv1.pgs_ID s))
  && negb (hasPtr (awsv1.pgs_Name s) && hasPtr (awsv1.pgs_ID s)).

Definition networkInterfaces (l : list awsv1.NetworkInterface) : bool :=
  let card := awsv1.ni_NetworkCardIndex in let dev := awsv1.ni_DeviceIndex in
  let hasType (ty : string) x := bool_decide (awsv1.ni_InterfaceType x = ty) in
  forallb (fun x => minimum 0 (dev x) && enum ["interface"; "efa-only"] (awsv1.ni_InterfaceType x)
                    && minimum 0 (card x)) l
  && maxItems 150 l
  && ((length l =? 0)
      || existsb (fun x => (dev x =? 0)%Z && (card x =? 0)%Z && hasType "interface" x) l)
  && forallb (fun x =>
       (length (List.filter (fun y => (card x =? card y)%Z && (dev x =? dev y)%Z) l) =? 1)
       && (negb (hasType "efa-only" x)
           || (length (List.filter (fun y => (card x =? card y)%Z && hasType "efa-only" y) l) =? 1))) l.

(** The spec; a list that is required and nil is missing. *)
Definition spec (s : awsv1.EC2NodeClassSpec) : bool :=
  propertyPtr (awsv1.AMIFamily s) (enum ["Custom"])
  && hasPtr (awsv1.AMISelectorTerms s) && amiSelectorTerms (elems (awsv1.AMISelectorTerms s))
  && propertyList (awsv1.BlockDeviceMappings s) blockDeviceMappings
  && propertyPtr (awsv1.CapacityReservationSelectorTerms s) capacityReservationSelectorTerms
  && propertyPtr (awsv1.ConnectionTrackingField s) connectionTracking
  && propertyPtr (awsv1.CPUOptionsField s)
       (fun o => propertyPtr (awsv1.co_NestedVirtualization o) (enum ["enabled"; "disabled"]))
  && propertyPtr (awsv1.InstanceProfile s) (fun p => negb (bool_decide (p = "")))
  && propertyPtr (awsv1.InstanceStorePolicy s) (enum ["RAID0"])
  && propertyPtr (awsv1.IPPrefixCount s) (minimum 0)
  && propertyPtr (awsv1.Kubelet s) kubelet
  && propertyPtr (awsv1.MetadataOptionsField s) metadataOptions
  && propertyList (awsv1.NetworkInterfaces s) networkInterfaces
  && propertyPtr (awsv1.PlacementGroupSelectorField s) placementGroupSelector
  && hasPtr (awsv1.SecurityGroupSelectorTerms s)
  && securityGroupSelectorTerms (elems (awsv1.SecurityGroupSelectorTerms s))
  && hasPtr (awsv1.SubnetSelectorTerms s) && subnetSelectorTerms (elems (awsv1.SubnetSelectorTerms s))
  && tags (awsv1.Tags s).

(** ** The status *)

Definition statusCapacityReservation (r : awsv1.CapacityReservation) : bool :=
  matches (resourceID "cr-") (awsv1.cr_ID r)
  && enum ["open"; "targeted"] (awsv1.cr_InstanceMatchCriteria r)
  && matches accountID (awsv1.cr_OwnerID r)
  && enum ["default"; "capacity-block"] (awsv1.cr_ReservationType r)
  && enum ["active"; "expiring"] (awsv1.cr_State r).

(** The reservation type and the state have defaults, so that they are there; the
    identifiers of subnets and security groups may be any strings. *)
Definition status (s : awsv1.EC2NodeClassStatus) : bool :=
  forallb statusCapacityReservation (elems (awsv1.CapacityReservations s))
  && forallb condition (elems (awsv1.Conditions s)).

End awscrd.
