(* ===== verification/VolumeSize.v ===== *)
(** * Volume sizes and the pattern of the EC2NodeClass

    Which sizes in GiB, as they are sent, match the pattern of volumeSize in the
    installed CRD. *)

From S2P Require Import Prelude Quantity GoFormat QuantityText Regexp CrdSchema AwsSchema.

(** ** Digits *)

Lemma allDigits_allBytes x : allDigits x = allBytes (range "0" "9") x.
Proof. induction x as [|c x IH]; [done|]. cbn. by rewrite IH. Qed.

Lemma allDigits_times k x : denotes (times k digit) x <-> String.length x = k /\ allDigits x = true.
Proof. rewrite allDigits_allBytes. apply denotes_times. Qed.

Lemma allDigits_upTo k x : denotes (upTo k digit) x <-> String.length x <= k /\ allDigits x = true.
Proof. rewrite allDigits_allBytes. apply denotes_upTo. Qed.

Lemma or_iff (A B C D : Prop) : (A <-> C) -> (B <-> D) -> (A \/ B <-> C \/ D).
Proof. tauto. Qed.

(** The first digits of a number, and how many there are. *)
Lemma digits_lead n c x :
  (0 < n)%Z -> digitsOf (Z.to_N n) (String c x) ->
  let d := Z.of_nat (nat_of_ascii c - 48) in let w := (10 ^ Z.of_nat (String.length x))%Z in
  allDigits x = true /\ 49 <= nat_of_ascii c <= 57 /\ (d * w <= n < (d + 1) * w)%Z.
Proof.
  intros Hn (Hd & Hv & c' & x' & [= <- <-] & Hc). rewrite Z2N.id in Hv by lia.
  apply andb_true_iff in Hd as [[H1%Nat.leb_le H2%Nat.leb_le]%andb_true_iff Hx].
  assert (nat_of_ascii c <> 48) by (intros E; apply Hc; by rewrite <- (ascii_nat_embedding c), E).
  split; [done|]. split; [lia|]. rewrite <- Hv.
  apply (parseDigits_bound (Z.of_nat (nat_of_ascii c - 48)) x); [lia | done].
Qed.

Lemma digits_second n c e y :
  (0 < n)%Z -> digitsOf (Z.to_N n) (String c (String e y)) ->
  let d := (10 * Z.of_nat (nat_of_ascii c - 48) + Z.of_nat (nat_of_ascii e - 48))%Z in
  let w := (10 ^ Z.of_nat (String.length y))%Z in
  allDigits y = true /\ 48 <= nat_of_ascii e <= 57 /\ (d * w <= n < (d + 1) * w)%Z.
Proof.
  intros Hn H. destruct (digits_lead _ _ _ Hn H) as ([[H1%Nat.leb_le H2%Nat.leb_le]%andb_true_iff Hy]%andb_true_iff & _).
  destruct H as (_ & Hv & _). rewrite Z2N.id in Hv by lia. split; [done|]. split; [lia|]. rewrite <- Hv.
  apply (parseDigits_bound (10 * Z.of_nat (nat_of_ascii c - 48) + Z.of_nat (nat_of_ascii e - 48)) y); [lia | done].
Qed.

Lemma range_spec a b c : range a b c = true <-> nat_of_ascii a <= nat_of_ascii c <= nat_of_ascii b.
Proof. unfold range. by rewrite andb_true_iff, !Nat.leb_le. Qed.

(** The four alternatives of the number of GiB. *)
Lemma giCount_alternatives x :
  denotes awscrd.giCount x <->
  (exists c y, x = String c y /\ 49 <= nat_of_ascii c <= 57 /\ String.length y <= 3 /\ allDigits y = true)
  \/ (exists c y, x = String c y /\ 49 <= nat_of_ascii c <= 52 /\ String.length y = 4 /\ allDigits y = true)
  \/ (exists e y, x = String "5" (String e y) /\ 48 <= nat_of_ascii e <= 56 /\ String.length y = 3 /\ allDigits y = true)
  \/ x = "59000".
Proof.
  unfold awscrd.giCount, char, between. rewrite !denotes_Alt_inv, !denotes_char_Cat, denotes_lit.
  cbn [times]. setoid_rewrite denotes_Cat_Eps. change (3 - 0) with 3.
  change (Cat digit (Cat digit (Cat digit (Cat digit Eps)))) with (times 4 digit).
  change (Cat digit (Cat digit (Cat digit Eps))) with (times 3 digit).
  setoid_rewrite allDigits_upTo. setoid_rewrite allDigits_times. setoid_rewrite range_spec.
  change (nat_of_ascii "1") with 49. change (nat_of_ascii "9") with 57. change (nat_of_ascii "4") with 52.
  apply or_iff; [done|]. apply or_iff; [done|]. apply or_iff; [|done]. split.
  - intros (c & y & -> & ->%bool_decide_eq_true & (e & z & -> & H1%range_spec & H2%allDigits_times)%denotes_char_Cat).
    by exists e, z.
  - intros (e & z & -> & H1 & H2). exists "5"%char, (String e z). split; [done|]. split; [by apply bool_decide_eq_true|].
    apply denotes_char_Cat. exists e, z. split; [done|]. split; [by apply range_spec | by apply allDigits_times].
Qed.

Lemma giCount_pretty n : (0 < n)%Z -> matches awscrd.giCount (pretty n) = (n <=? 59000)%Z.
Proof.
  intros Hn. apply eq_true_iff_eq. rewrite matches_spec, Z.leb_le, giCount_alternatives.
  destruct (decide (n = 59000)%Z) as [->|N]; [split; [done|]; intros _; do 3 right; done|].
  destruct (pretty_pos_digits n Hn) as (ds & E & H). rewrite E. split.
  - intros [(c & y & -> & Hc & Hl & _)|[(c & y & -> & Hc & Hl & _)|[(e & y & -> & He & Hl & _)| ->]]].
    + destruct (digits_lead _ _ _ Hn H) as (_ & _ & _ & Hu).
      assert (10 ^ Z.of_nat (String.length y) <= 10 ^ 3)%Z by (apply Z.pow_le_mono_r; lia). nia.
    + destruct (digits_lead _ _ _ Hn H) as (_ & _ & _ & Hu). rewrite Hl in Hu.
      change (10 ^ Z.of_nat 4)%Z with 10000%Z in Hu. lia.
    + destruct (digits_second _ _ _ _ Hn H) as (_ & _ & _ & Hu). rewrite Hl in Hu.
      change (10 ^ Z.of_nat 3)%Z with 1000%Z in Hu. change (nat_of_ascii "5" - 48) with 5 in Hu. lia.
    + destruct H as (_ & Hv & _). rewrite Z2N.id in Hv by lia. done.
  - intros Hle. assert (String.length ds <= 5) as Hl by (eapply digitsOf_length; [done|]; rewrite Z2N.id; lia).
    pose proof H as (_ & _ & c & x & -> & _). cbn in Hl. destruct (digits_lead _ _ _ Hn H) as (Hx & Hc & Hw).
    destruct (decide (String.length x <= 3)); [left; by exists c, x|]. right.
    assert (String.length x = 4) as E4 by lia. rewrite E4 in Hw. change (10 ^ Z.of_nat 4)%Z with 10000%Z in Hw.
    destruct (decide (nat_of_ascii c <= 52)); [left; exists c, x; repeat split; (done || lia)|]. right; left.
    assert (c = "5"%char) as -> by (rewrite <- (ascii_nat_embedding c); by replace (nat_of_ascii c) with 53 by lia).
    destruct x as [|e y]; [done|]. destruct (digits_second _ _ _ _ Hn H) as (Hy & He & Hv).
    injection E4 as E3. rewrite E3 in Hv. change (10 ^ Z.of_nat 3)%Z with 1000%Z in Hv.
    change (nat_of_ascii "5" - 48) with 5 in Hv. exists e, y. repeat split; (done || lia).
Qed.

(** ** The whole pattern *)

(** Which numbers of TiB: [([1-9]||[1-5][0-7]|58)], of those that are admitted. *)
Definition tiAdmitted (m : Z) : bool := ((m <? 10) || (m mod 10 <=? 7) && (m <? 58) || (m =? 58))%Z.

(** The sizes in GiB that match once they are sent; multiples of 1024 are sent in
    TiB. *)
Definition sizeAdmitted (n : Z) : bool :=
  if bool_decide (n mod 1024 = 0)%Z then tiAdmitted (n / 1024) else (n <=? 59000)%Z.

Lemma str_app_inv s t a b : String.length a = String.length b -> s +:+ a = t +:+ b -> s = t /\ a = b.
Proof.
  intros Hl. revert t; induction s as [|c s IH]; intros [|d t] E.
  - done.
  - apply (f_equal String.length) in E. rewrite !str_length_app in E. cbn in E. lia.
  - apply (f_equal String.length) in E. rewrite !str_length_app in E. cbn in E. lia.
  - rewrite !str_cons_app in E. injection E as -> E. by destruct (IH t E) as [-> ->].
Qed.

Lemma matches_Cat_lit r s x : matches (Cat r (lit s)) x = true <-> exists y, x = y +:+ s /\ matches r y = true.
Proof.
  rewrite matches_spec. setoid_rewrite matches_spec. split.
  - intros (y & z & -> & Hy & ->%denotes_lit)%denotes_Cat_inv. by exists y.
  - intros (y & -> & Hy). apply d_Cat; [done | by apply denotes_lit].
Qed.

Lemma matches_volumeSize_Gi x : matches awscrd.volumeSize (x +:+ "Gi") = matches awscrd.giCount x.
Proof.
  unfold awscrd.volumeSize. rewrite !matches_Alt. apply eq_true_iff_eq. rewrite !orb_true_iff, !matches_Cat_lit.
  split.
  - intros [(y & E & H)|[(y & E & H)|[(y & E & H)|(y & E & H)]]].
    + by apply str_app_inv in E as [-> _].
    + change "Gi" with ("G" +:+ "i") in E. rewrite str_app_assoc in E. by apply str_app_inv in E as [_ E].
    + by apply str_app_inv in E as [_ E].
    + change "Gi" with ("G" +:+ "i") in E. rewrite str_app_assoc in E. by apply str_app_inv in E as [_ E].
  - intros H. left. by exists x.
Qed.

Lemma matches_volumeSize_Ti m :
  (1 <= m <= 64)%Z -> matches awscrd.volumeSize (pretty m +:+ "Ti") = tiAdmitted m.
Proof.
  intros Hm. assert (forallb (fun m => Bool.eqb (matches awscrd.volumeSize (pretty m +:+ "Ti")) (tiAdmitted m))
    (seqZ 1 64) = true) as H by (vm_compute; reflexivity).
  rewrite forallb_forall in H. apply eqb_prop, H, list_elem_of_In, elem_of_seqZ. lia.
Qed.

Lemma sizeText_admitted n :
  (1 <= n <= 65536)%Z -> matches awscrd.volumeSize (sizeText n) = sizeAdmitted n.
Proof.
  intros Hn. unfold sizeText, sizeAdmitted. case_bool_decide as E.
  - apply Z.div_exact in E; [|lia]. apply matches_volumeSize_Ti. lia.
  - rewrite matches_volumeSize_Gi. apply giCount_pretty. lia.
Qed.

(** The quantity a volume size is converted to is admitted exactly when the size
    is. *)
Lemma volumeSize_admitted n q :
  (1 <= n <= 65536)%Z -> MustParse (pretty n +:+ "Gi") = Some q ->
  matches awscrd.volumeSize (QuantityString q) = sizeAdmitted n.
Proof.
  intros Hn. rewrite MustParse_Gi_small by lia. intros [= <-]. rewrite <- sizeText_admitted by done. f_equal.
  unfold QuantityString. cbn [q_s]. destruct (bool_decide (Z.land n 7 = 0%Z)) eqn:E.
  - rewrite bool_decide_true by done. apply CanonicalizeBytes_Gi. lia.
  - apply bool_decide_eq_false in E. rewrite bool_decide_false.
    2: { destruct (pretty_pos_digits n) as (ds & -> & _ & _ & c & x & -> & _); [lia|]. by rewrite str_cons_app. }
    unfold sizeText. rewrite bool_decide_false; [done|]. intros M. apply E.
    change 7%Z with (Z.ones 3). rewrite Z.land_ones by lia. apply Z.div_exact in M; [|lia].
    rewrite M. replace (1024 * (n / 1024))%Z with ((128 * (n / 1024)) * 2 ^ 3)%Z by lia. apply Z.mod_mul. done.
Qed.
