(* ===== verification/Ec2Schema.v ===== *)
(** * The schema of the OpenshiftEC2NodeClass

    What an API server admits as the spec of an OpenshiftEC2NodeClass: the
    validation markers of api/karpenter/v1/karpenter_types.go and
    kubelet_config.go, from which the CRD in pkg/assets/hypershift is generated, on
    the Go value the document is read as: a list or map that is there, even empty,
    is not nil.  [double] is CEL's conversion of a text
    to a number, for the comparison of percentages: [None] when it fails, else the
    place of the number in an order. *)

From S2P Require Import Prelude DeepEqual MetaV1 Quantity Regexp CrdSchema KarpenterV1.

Module osv1crd.

(** ** karpenter_types.go *)

Definition IPAddressAssociation : string -> bool := enum ["Public"; "SubnetDefault"].
Definition MonitoringState : string -> bool := enum ["Detailed"; "Basic"].
Definition RootVolumeDesignation : string -> bool := enum ["RootVolume"; "NotRootVolume"].
Definition DeleteOnTerminationPolicy : string -> bool := enum ["Delete"; "Retain"].
Definition EncryptionState : string -> bool := enum ["Encrypted"; "Unencrypted"].
Definition VolumeType : string -> bool := enum ["Standard"; "IO1"; "IO2"; "GP2"; "SC1"; "ST1"; "GP3"].
Definition InstanceStorePolicy : string -> bool := enum ["RAID0"].
Definition InstanceMatchCriteria : string -> bool := enum ["Open"; "Targeted"].
Definition MetadataAccess : string -> bool := enum ["HTTPEndpoint"; "None"].
Definition MetadataHTTPProtocol : string -> bool := enum ["IPv4"; "IPv6"].
Definition MetadataHTTPTokensState : string -> bool := enum ["Required"; "Optional"].

Definition length1 (max : Z) (s : string) : bool := minLength 1 s && maxLength max s.

Definition selectorTags (tags : gomap string) : bool :=
  propertyPtr tags (fun tags => allEntries (fun k v => has k && has v) tags && minProperties 1 tags && maxProperties 20 tags).

Definition SubnetSelectorTerm (x : osv1.SubnetSelectorTerm) : bool :=
  (hasPtr (osv1.sst_Tags x) || has (osv1.sst_ID x))
  && selectorTags (osv1.sst_Tags x)
  && property (osv1.sst_ID x) (fun s => matches (resourceID "subnet-") s && length1 256 s).

Definition SecurityGroupSelectorTerm (x : osv1.SecurityGroupSelectorTerm) : bool :=
  (hasPtr (osv1.sgst_Tags x) || has (osv1.sgst_ID x) || has (osv1.sgst_Name x))
  && selectorTags (osv1.sgst_Tags x)
  && property (osv1.sgst_ID x) (fun s => matches (resourceID "sg-") s && length1 256 s)
  && property (osv1.sgst_Name x) (length1 256).

Definition CapacityReservationSelectorTerm (x : osv1.CapacityReservationSelectorTerm) : bool :=
  (hasPtr (osv1.crst_Tags x) || has (osv1.crst_ID x) || has (osv1.crst_OwnerID x)
   || has (osv1.crst_InstanceMatchCriteria x))
  && selectorTags (osv1.crst_Tags x)
  && property (osv1.crst_ID x) (fun s => matches (resourceID "cr-") s && length1 256 s)
  && property (osv1.crst_OwnerID x) (fun s => matches accountID s && length1 12 s)
  && property (osv1.crst_InstanceMatchCriteria x) InstanceMatchCriteria.

(** The fields of the spec. *)

Definition SubnetSelectorTerms (l : list osv1.SubnetSelectorTerm) : bool :=
  let tags x := hasPtr (osv1.sst_Tags x) in let id x := has (osv1.sst_ID x) in
  forallb SubnetSelectorTerm l
  && negb (length l =? 0)
  && forallb (fun x => tags x || id x) l
  && negb (forallb (fun x => id x && tags x) l)
  && minItems 1 l && maxItems 30 l.

Definition SecurityGroupSelectorTerms (l : list osv1.SecurityGroupSelectorTerm) : bool :=
  let tags x := hasPtr (osv1.sgst_Tags x) in let id x := has (osv1.sgst_ID x) in
  let name x := has (osv1.sgst_Name x) in
  forallb SecurityGroupSelectorTerm l
  && negb (length l =? 0)
  && forallb (fun x => tags x || id x || name x) l
  && negb (forallb (fun x => id x && (tags x || name x)) l)
  && negb (forallb (fun x => name x && (tags x || id x)) l)
  && minItems 1 l && maxItems 30 l.

Definition CapacityReservationSelectorTerms (l : list osv1.CapacityReservationSelectorTerm) : bool :=
  let tags x := hasPtr (osv1.crst_Tags x) in let id x := has (osv1.crst_ID x) in
  let ownerID x := has (osv1.crst_OwnerID x) in let criteria x := has (osv1.crst_InstanceMatchCriteria x) in
  forallb CapacityReservationSelectorTerm l
  && forallb (fun x => tags x || id x || ownerID x || criteria x) l
  && negb (forallb (fun x => id x && (tags x || ownerID x || criteria x)) l)
  && minItems 1 l && maxItems 30 l.

Definition Tags (m : gmap string string) : bool :=
  minProperties 1 m && allKeys has m
  && allKeys (fun k => negb (bool_decide (k = "eks:eks-cluster-name"))) m
  && allKeys (fun k => negb (HasPrefix k "kubernetes.io/cluster")) m
  && allKeys (fun k => negb (bool_decide (k = "karpenter.sh/nodepool"))) m
  && allKeys (fun k => negb (bool_decide (k = "karpenter.sh/nodeclaim"))) m
  && allKeys (fun k => negb (bool_decide (k = "karpenter.k8s.aws/ec2nodeclass"))) m.

Definition BlockDevice (x : osv1.BlockDevice) : bool :=
  (has (osv1.bd_SnapshotID x) || hasInt (osv1.bd_VolumeSizeGiB x))
  && property (osv1.bd_DeleteOnTermination x) DeleteOnTerminationPolicy
  && property (osv1.bd_Encrypted x) EncryptionState
  && property (osv1.bd_KMSKeyID x) (length1 2048)
  && property (osv1.bd_SnapshotID x) (length1 256)
  && propertyInt (osv1.bd_VolumeSizeGiB x) (fun n => minimum 1 n && maximum 65536 n)
  && property (osv1.bd_VolumeType x) VolumeType.

Definition BlockDeviceMapping (x : osv1.BlockDeviceMapping) : bool :=
  property (osv1.bdm_DeviceName x) (length1 256)
  && BlockDevice (osv1.bdm_EBS x)
  && property (osv1.bdm_RootVolume x) RootVolumeDesignation.

Definition BlockDeviceMappings (l : list osv1.BlockDeviceMapping) : bool :=
  forallb BlockDeviceMapping l
  && (length (List.filter (fun x => if has (osv1.bdm_RootVolume x)
                                    then bool_decide (osv1.bdm_RootVolume x = "RootVolume") else false) l) <=? 1)
  && minItems 1 l && maxItems 50 l.

Definition MetadataOptions (o : osv1.MetadataOptions) : bool :=
  property (osv1.mo_Access o) MetadataAccess
  && property (osv1.mo_HTTPIPProtocol o) MetadataHTTPProtocol
  && propertyInt (osv1.mo_HTTPPutResponseHopLimit o) (fun n => minimum 1 n && maximum 64 n)
  && property (osv1.mo_HTTPTokens o) MetadataHTTPTokensState.

(** [\d*] is [Star digit]. *)
Definition numericID : regexp := Alt (char "0"%char) (Cat (Class (range "1"%char "9"%char)) (Star digit)).
Definition letterOrDash : regexp :=
  Class (fun c => range "a"%char "z"%char c || range "A"%char "Z"%char c || bool_decide (c = "-"%char)).
Definition idChar : regexp :=
  Class (fun c => range "0"%char "9"%char c || range "a"%char "z"%char c || range "A"%char "Z"%char c
                  || bool_decide (c = "-"%char)).
Definition preReleaseID : regexp := Alt numericID (Cat (Star digit) (Cat letterOrDash (Star idChar))).
Definition dotted (r : regexp) : regexp := Cat r (Star (Cat (char "."%char) r)).
Definition semver : regexp :=
  Cat numericID (Cat (char "."%char) (Cat numericID (Cat (char "."%char) (Cat numericID
    (Cat (opt (Cat (char "-"%char) (dotted preReleaseID)))
         (opt (Cat (char "+"%char) (dotted (plus idChar)))))))))
.
Definition Version (s : string) : bool := matches semver s && minLength 5 s && maxLength 64 s.

(** ** The status *)

Definition CapacityReservationType : string -> bool := enum ["Default"; "CapacityBlock"].
Definition CapacityReservationState : string -> bool := enum ["Active"; "Expiring"].

(** A property that is required: an empty string is omitted. *)
Definition required (s : string) (schema : string -> bool) : bool := has s && schema s.

Definition Subnet (x : osv1.Subnet) : bool :=
  required (osv1.sn_ID x) (length1 256) && required (osv1.sn_Zone x) (length1 256)
  && property (osv1.sn_ZoneID x) (length1 256).

Definition SecurityGroup (x : osv1.SecurityGroup) : bool :=
  required (osv1.sg_ID x) (length1 256) && property (osv1.sg_Name x) (length1 256).

Definition CapacityReservation (x : osv1.CapacityReservation) : bool :=
  required (osv1.cr_AvailabilityZone x) (length1 64)
  && required (osv1.cr_ID x) (length1 256)
  && required (osv1.cr_InstanceMatchCriteria x) InstanceMatchCriteria
  && required (osv1.cr_InstanceType x) (length1 256)
  && required (osv1.cr_OwnerID x) (length1 12)
  && property (osv1.cr_ReservationType x) CapacityReservationType
  && property (osv1.cr_State x) CapacityReservationState.

(** Empty lists are omitted; a status that is zero is omitted too, and one that is
    not has a property. *)
Definition hasProperty (s : osv1.OpenshiftEC2NodeClassStatus) : bool :=
  hasList (osv1.Conditions s) || hasList (osv1.Subnets s) || hasList (osv1.SecurityGroups s)
  || has (osv1.ReleaseImage s) || has (osv1.StatusVersion s) || hasList (osv1.CapacityReservations s).

Definition Status (s : osv1.OpenshiftEC2NodeClassStatus) : bool :=
  (bool_decide (s = osv1.zeroStatus) || hasProperty s)
  && propertyList (osv1.Conditions s) (fun l =>
    forallb condition l && bool_decide (NoDup (c_Type <$> l)) && minItems 1 l && maxItems 100 l)
  && propertyList (osv1.Subnets s) (fun l => forallb Subnet l && minItems 1 l && maxItems 100 l)
  && propertyList (osv1.SecurityGroups s) (fun l => forallb SecurityGroup l && minItems 1 l && maxItems 100 l)
  && property (osv1.ReleaseImage s) (length1 512)
  && property (osv1.StatusVersion s) (length1 64)
  && propertyList (osv1.CapacityReservations s) (fun l =>
       forallb CapacityReservation l && minItems 1 l && maxItems 100 l).

(** ** kubelet_config.go *)

Section kubelet.
Context (double : string -> option Z).

Definition reserved (m : gomap string) : bool :=
  propertyPtr m (fun m =>
    allKeys (enum resourceNames) m
    && allEntries (fun _ v => negb (HasPrefix v "-")) m
    && allEntries (fun _ v => 0 <? runeCount v) m
    && minProperties 1 m && maxProperties 20 m).

Definition thresholds (m : gomap string) : bool :=
  propertyPtr m (fun m =>
    allEntries (fun _ v => maxLength 64 v) m
    && allKeys (enum signals) m
    && allEntries (fun _ v => 0 <? runeCount v) m
    && minProperties 1 m && maxProperties 20 m).

Definition gracePeriods (m : gomap string) : bool :=
  propertyPtr m (fun m => allKeys (enum signals) m && minProperties 1 m && maxProperties 20 m).

(** All but the last byte, of a text that ends in a percent sign. *)
Definition percentage (s : string) : option Z := double (String.substring 0 (String.length s - 1) s).

(** [soft >= hard] for one signal. *)
Definition softAtLeastHard (soft hard : string) : bool :=
  if HasSuffix soft "%" && HasSuffix hard "%" then
    (runeCount soft <=? 1) || (runeCount hard <=? 1)
    || match percentage soft, percentage hard with
       | Some a, Some b => (b <=? a)%Z
       | _, _ => false
       end
  else negb (isQuantity soft && isQuantity hard) || quantityGe soft hard.

Definition KubeletConfiguration (k : osv1.KubeletConfiguration) : bool :=
  propertyInt (osv1.kc_MaxPods k) (fun n => minimum 1 n && maximum 2500 n)
  && propertyInt (osv1.kc_PodsPerCore k) (fun n => minimum 1 n && maximum 2500 n)
  && reserved (osv1.kc_SystemReserved k) && reserved (osv1.kc_KubeReserved k)
  && thresholds (osv1.kc_EvictionHard k) && thresholds (osv1.kc_EvictionSoft k)
  && gracePeriods (osv1.kc_EvictionSoftGracePeriod k)
  && propertyPtr (osv1.kc_ImageGCHighThresholdPercent k) (fun n => minimum 0 n && maximum 100 n)
  && propertyPtr (osv1.kc_ImageGCLowThresholdPercent k) (fun n => minimum 0 n && maximum 100 n)
  && match osv1.kc_ImageGCHighThresholdPercent k, osv1.kc_ImageGCLowThresholdPercent k with
     | Some high, Some low => (low <? high)%Z
     | _, _ => true
     end
  && (negb (hasInt (osv1.kc_PodsPerCore k)) || negb (hasInt (osv1.kc_MaxPods k))
      || (osv1.kc_PodsPerCore k <=? osv1.kc_MaxPods k)%Z)
  && (negb (hasPtr (osv1.kc_EvictionSoft k))
      || (hasPtr (osv1.kc_EvictionSoftGracePeriod k)
          && allKeys (fun e => inMap e (osv1.kc_EvictionSoftGracePeriod k)) (entries (osv1.kc_EvictionSoft k))))
  && (negb (hasPtr (osv1.kc_EvictionSoftGracePeriod k))
      || (hasPtr (osv1.kc_EvictionSoft k)
          && allKeys (fun e => inMap e (osv1.kc_EvictionSoft k)) (entries (osv1.kc_EvictionSoftGracePeriod k))))
  && (negb (hasPtr (osv1.kc_EvictionHard k)) || negb (hasPtr (osv1.kc_EvictionSoft k))
      || allEntries (fun key hard =>
           match entries (osv1.kc_EvictionSoft k) !! key with
           | Some soft => softAtLeastHard soft hard
           | None => true
           end) (entries (osv1.kc_EvictionHard k))).

(** ** The spec *)

(** That the spec has a property cannot be told from the value, as an empty [kubelet]
    is one. *)
Definition Spec (s : osv1.OpenshiftEC2NodeClassSpec) : bool :=
  propertyPtr (osv1.SubnetSelectorTerms s) SubnetSelectorTerms
  && propertyPtr (osv1.SecurityGroupSelectorTerms s) SecurityGroupSelectorTerms
  && propertyPtr (osv1.CapacityReservationSelectorTerms s) CapacityReservationSelectorTerms
  && property (osv1.IPAddressAssociation s) IPAddressAssociation
  && propertyPtr (osv1.Tags s) Tags
  && propertyPtr (osv1.BlockDeviceMappings s) BlockDeviceMappings
  && property (osv1.InstanceStorePolicy s) InstanceStorePolicy
  && property (osv1.Monitoring s) MonitoringState
  && MetadataOptions (osv1.MetadataOptionsField s)
  && property (osv1.Version s) Version
  && KubeletConfiguration (osv1.Kubelet s).
End kubelet.

End osv1crd.
