(* ===== verification/Strconv.v ===== *)
(** * strconv

    [strconv.ParseBool] and [strconv.ParseInt] in base 10, with their checks
    against overflow, and what they accept. *)

From S2P Require Import Prelude Quantity GoFormat.

Definition NumError (func num msg : string) : error :=
  ENew ("strconv." +:+ func +:+ ": parsing " +:+ Quote num +:+ ": " +:+ msg).
Definition ErrSyntax : string := "invalid syntax".
Definition ErrRange : string := "value out of range".

Definition ParseBool (s : string) : result bool :=
  if decide (s ∈ ["1"; "t"; "T"; "true"; "TRUE"; "True"]) then Ok true
  else if decide (s ∈ ["0"; "f"; "F"; "false"; "FALSE"; "False"]) then Ok false
  else Err (NumError "ParseBool" s ErrSyntax).

Definition maxUint64 : Z := 18446744073709551615.

(** The loop of [strconv.ParseUint] in base 10: the value, or the message of its
    error.  An overflow is found at the digit that makes it. *)
Fixpoint parseUintLoop (n : Z) (s : string) : string + Z :=
  match s with
  | EmptyString => inr n
  | String c s' =>
      if isDigit c then
        if decide (1844674407370955162 <= n)%Z then inl ErrRange
        else
          let n1 := (10 * n + Z.of_nat (nat_of_ascii c - 48))%Z in
          if decide (maxUint64 < n1)%Z then inl ErrRange else parseUintLoop n1 s'
      else inl ErrSyntax
  end.

(** [strconv.ParseInt(s, 10, 64)], after the sign. *)
Definition signed (neg : bool) (s digits : string) : result Z :=
  if decide (digits = "") then Err (NumError "ParseInt" s ErrSyntax)
  else
    match parseUintLoop 0 digits with
    | inl msg => Err (NumError "ParseInt" s msg)
    | inr un =>
        if negb neg && bool_decide (2 ^ 63 <= un)%Z then Err (NumError "ParseInt" s ErrRange)
        else if neg && bool_decide (2 ^ 63 < un)%Z then Err (NumError "ParseInt" s ErrRange)
        else Ok (if neg then - un else un)%Z
    end.

Definition ParseInt (s : string) : result Z :=
  match s with
  | String c s' =>
      if decide (c = "+"%char) then signed false s s'
      else if decide (c = "-"%char) then signed true s s'
      else signed false s s
  | EmptyString => signed false s s
  end.

(** ** Numbers *)

Lemma parseDigits_ge n s : (0 <= n)%Z -> (n <= parseDigits n s)%Z.
Proof.
  revert n; induction s as [|c s IH]; intros n Hn; cbn [parseDigits]; [done|].
  etrans; [|apply IH; lia]. lia.
Qed.

(** The loop reads the digits, up to the bound. *)
Lemma parseUintLoop_spec n s :
  (0 <= n)%Z ->
  match parseUintLoop n s with
  | inr un => allDigits s = true /\ un = parseDigits n s
  | inl msg => allDigits s = false \/ (maxUint64 < parseDigits n s)%Z
  end.
Proof.
  revert n; induction s as [|c s IH]; intros n Hn; cbn [parseUintLoop allDigits parseDigits]; [done|].
  destruct (isDigit c); [|by left]. cbn [andb]. unfold maxUint64 in *.
  pose proof (parseDigits_ge (10 * n + Z.of_nat (nat_of_ascii c - 48)) s ltac:(lia)) as Hge.
  destruct (decide _); [right; lia|]. destruct (decide _); [right; lia|]. apply IH. lia.
Qed.

(** [s] is a decimal numeral of the int64 [z], with or without a sign. *)
Definition numeral (s : string) (z : Z) : Prop :=
  exists sign digits, s = sign +:+ digits /\ digits <> "" /\ allDigits digits = true
    /\ (sign = "" \/ sign = "+" \/ sign = "-")
    /\ z = (if decide (sign = "-") then - parseDigits 0 digits else parseDigits 0 digits)%Z
    /\ (minInt64 <= z <= maxInt64)%Z.

Lemma signed_spec (neg : bool) s digits z :
  signed neg s digits = Ok z <->
  digits <> "" /\ allDigits digits = true
  /\ z = (if neg then - parseDigits 0 digits else parseDigits 0 digits)%Z
  /\ (minInt64 <= z <= maxInt64)%Z.
Proof.
  unfold signed, minInt64, maxInt64. destruct (decide (digits = "")) as [->|Hd]; [by split; [|intros [? _]]|].
  pose proof (parseUintLoop_spec 0 digits ltac:(lia)) as H.
  pose proof (parseDigits_ge 0 digits ltac:(lia)) as Hge. unfold maxUint64 in *.
  destruct (parseUintLoop 0 digits) as [msg|un].
  - split; [done|]. intros (_ & Ha & -> & Hb). destruct H as [H|H]; [by rewrite Ha in H|]. destruct neg; lia.
  - destruct H as [Ha ->]. destruct neg; cbn [negb andb]; case_bool_decide.
    + split; [done|]. intros (_ & _ & -> & ?). lia.
    + split; [intros [= <-]; repeat split; try done; lia | by intros (_ & _ & -> & _)].
    + split; [done|]. intros (_ & _ & -> & ?). lia.
    + split; [intros [= <-]; repeat split; try done; lia | by intros (_ & _ & -> & _)].
Qed.

Lemma isDigit_sign c : isDigit c = true -> c <> "+"%char /\ c <> "-"%char.
Proof. intros H. by split; intros ->. Qed.

(** [ParseInt] accepts exactly the numerals of the int64 range. *)
Lemma ParseInt_spec s z : ParseInt s = Ok z <-> numeral s z.
Proof.
  unfold numeral. destruct s as [|c s].
  { split; [done|]. intros (sign & digits & E & Hd & _). by destruct sign, digits. }
  unfold ParseInt. split.
  - intros H. destruct (decide (c = "+"%char)) as [->|Hp]; [|destruct (decide (c = "-"%char)) as [->|Hm]];
      apply signed_spec in H as (Hd & Ha & Hz & Hb).
    + exists "+", s. split_and!; first [done | exact Hz | tauto].
    + exists "-", s. split_and!; first [done | exact Hz | tauto].
    + exists "", (String c s). split_and!; first [done | exact Hz | tauto].
  - intros (sign & digits & E & Hd & Ha & Hs & Hz & Hb).
    destruct Hs as [-> | [-> | ->]].
    + change ("" +:+ digits) with digits in E. rewrite <- E in *. pose proof Ha as Hc. cbn in Hc. apply andb_prop in Hc as [Hc _].
      destruct (isDigit_sign c Hc). rewrite !decide_False by done. by apply signed_spec.
    + change ("+" +:+ digits) with (String "+" digits) in E.
      injection E as -> ->. rewrite decide_True by done. by apply signed_spec.
    + change ("-" +:+ digits) with (String "-" digits) in E.
      injection E as -> ->. rewrite decide_False, decide_True by done. by apply signed_spec.
Qed.
