(* ===== verification/GoJson.v ===== *)
(** * JSON arrays of strings

    What encoding/json's [Marshal] writes for a [\[\]string], with its HTML
    escaping, and a reader for it, which stands for the consumer's [Unmarshal].
    Bytes from 128 on are copied, as [Marshal] does with valid UTF-8 other than
    U+2028 and U+2029. *)

From S2P Require Import Prelude.

Definition backslash : string := String (ascii_of_nat 92) "".

(** One byte of a string literal. *)
Definition jsonByte (c : ascii) : string :=
  let n := nat_of_ascii c in
  if bool_decide (n = 34) then backslash +:+ dquote
  else if bool_decide (n = 92) then backslash +:+ backslash
  else if bool_decide (n = 8) then backslash +:+ "b"
  else if bool_decide (n = 12) then backslash +:+ "f"
  else if bool_decide (n = 10) then backslash +:+ "n"
  else if bool_decide (n = 13) then backslash +:+ "r"
  else if bool_decide (n = 9) then backslash +:+ "t"
  else if (n <? 32) || bool_decide (n ∈ [60; 62; 38])
       then backslash +:+ "u00" +:+ String (hex_digit (n / 16)) (String (hex_digit (n mod 16)) "")
  else String c "".

Definition jsonString (s : string) : string := dquote +:+ str_flat_map jsonByte s +:+ dquote.

(** [json.Marshal] of a slice of strings. *)
Definition MarshalStrings (l : slice string) : string :=
  match l with
  | None => "null"
  | Some l => "[" +:+ Join (map jsonString l) "," +:+ "]"
  end.

(** ** Reading *)

Definition hexValue (c : ascii) : option nat :=
  let n := nat_of_ascii c in
  if (48 <=? n) && (n <=? 57) then Some (n - 48)
  else if (97 <=? n) && (n <=? 102) then Some (n - 87)
  else if (65 <=? n) && (n <=? 70) then Some (n - 55)
  else None.

Definition unescape (c : ascii) : option ascii :=
  let n := nat_of_ascii c in
  if bool_decide (n ∈ [34; 92; 47]) then Some c
  else if bool_decide (n = 98) then Some (ascii_of_nat 8)
  else if bool_decide (n = 102) then Some (ascii_of_nat 12)
  else if bool_decide (n = 110) then Some (ascii_of_nat 10)
  else if bool_decide (n = 114) then Some (ascii_of_nat 13)
  else if bool_decide (n = 116) then Some (ascii_of_nat 9)
  else None.

(** The rest of a string literal after its opening quote, and what follows the
    closing one.  Code points from 128 on are not read. *)
Fixpoint readString (s : string) : option (string * string) :=
  match s with
  | EmptyString => None
  | String c s1 =>
      if bool_decide (nat_of_ascii c = 34) then Some ("", s1)
      else if bool_decide (nat_of_ascii c = 92) then
        match s1 with
        | String e s2 =>
            if bool_decide (nat_of_ascii e = 117) then
              match s2 with
              | String z1 (String z2 (String h (String l s3))) =>
                  match hexValue z1, hexValue z2, hexValue h, hexValue l with
                  | Some 0, Some 0, Some h, Some l =>
                      if h <? 8 then
                        '(r, rest) ← readString s3;
                        Some (String (ascii_of_nat (16 * h + l)) r, rest)
                      else None
                  | _, _, _, _ => None
                  end
              | _ => None
              end
            else
              d ← unescape e; '(r, rest) ← readString s2; Some (String d r, rest)
        | EmptyString => None
        end
      else if nat_of_ascii c <? 32 then None
      else '(r, rest) ← readString s1; Some (String c r, rest)
  end.

(** The elements after the opening bracket, of a non-empty array.  [fuel] bounds
    their number. *)
Fixpoint readElements (fuel : nat) (s : string) : option (list string) :=
  match fuel, s with
  | S fuel', String q s1 =>
      if bool_decide (nat_of_ascii q = 34) then
        '(x, rest) ← readString s1;
        match rest with
        | String c rest' =>
            if bool_decide (c = "]"%char) then if decide (rest' = "") then Some [x] else None
            else if bool_decide (c = ","%char) then l ← readElements fuel' rest'; Some (x :: l)
            else None
        | EmptyString => None
        end
      else None
  | _, _ => None
  end.

Definition UnmarshalStrings (s : string) : option (list string) :=
  match s with
  | String c s1 =>
      if bool_decide (c = "["%char) then
        if decide (s1 = "]") then Some [] else readElements (String.length s1) s1
      else None
  | EmptyString => None
  end.

(** ** Round trip *)

(** Computes the closed conditions and scrutinees of the goal. *)
Ltac eval_closed :=
  repeat (match goal with
  | |- context [bool_decide ?P] =>
      let b := eval vm_compute in (bool_decide P) in
      match b with true => idtac | false => idtac end; change (bool_decide P) with b
  | |- context [?m <? ?n] =>
      let b := eval vm_compute in (m <? n) in
      match b with true => idtac | false => idtac end; change (m <? n) with b
  | |- context [match hexValue ?c with _ => _ end] =>
      let v := eval vm_compute in (hexValue c) in
      match v with Some _ => idtac end; change (hexValue c) with v
  | |- context [unescape ?c] =>
      let v := eval vm_compute in (unescape c) in
      match v with Some _ => idtac end; change (unescape c) with v
  end; cbv iota beta).

Lemma readString_byte c s r rest :
  readString s = Some (r, rest) -> readString (jsonByte c +:+ s) = Some (String c r, rest).
Proof.
  intros H.
  destruct c as [[] [] [] [] [] [] [] []];
    match goal with |- readString (?b +:+ _) = _ =>
      let b' := eval vm_compute in b in change b with b' end;
    rewrite !str_cons_app; change ("" +:+ s) with s; cbn [readString]; eval_closed;
    rewrite H; reflexivity.
Qed.

Lemma readString_flat s rest :
  readString (str_flat_map jsonByte s +:+ dquote +:+ rest) = Some (s, rest).
Proof.
  induction s as [|c s IH]; cbn [str_flat_map].
  - done.
  - rewrite <- str_app_assoc. by apply readString_byte.
Qed.

Lemma jsonString_read x rest :
  jsonString x +:+ rest = String (ascii_of_nat 34) (str_flat_map jsonByte x +:+ dquote +:+ rest).
Proof. unfold jsonString, dquote at 1. rewrite !str_cons_app. 
  change ("" +:+ ?z) with z. by rewrite <- !str_app_assoc. Qed.

Lemma readElements_join l fuel :
  l <> [] -> length l <= fuel ->
  readElements fuel (Join (map jsonString l) "," +:+ "]") = Some l.
Proof.
  revert fuel. induction l as [|x l IH]; intros fuel Hne Hf; [done|].
  destruct fuel as [|fuel]; cbn [length] in Hf; [lia|].
  destruct l as [|y l].
  - cbn [map Join]. rewrite jsonString_read. cbn [readElements]. rewrite readString_flat. done.
  - change (Join (map jsonString (x :: y :: l)) ",") with
      (jsonString x +:+ "," +:+ Join (map jsonString (y :: l)) ",").
    rewrite <- !str_app_assoc, jsonString_read. cbn [readElements].
    rewrite readString_flat. rewrite str_cons_app. cbn -[readElements Join map].
    change ("" +:+ ?z) with z. rewrite IH by (done || cbn in *; lia). done.
Qed.

Lemma Join_length l : length l <= String.length (Join (map jsonString l) "," +:+ "]").
Proof.
  induction l as [|x l IH]; [cbn; lia|]. destruct l as [|y l].
  - cbn [map Join]. rewrite str_length_app. cbn. lia.
  - change (Join (map jsonString (x :: y :: l)) ",") with
      (jsonString x +:+ "," +:+ Join (map jsonString (y :: l)) ",").
    rewrite !str_length_app in *. cbn [length] in *.
    change (String.length ",") with 1. change (String.length "]") with 1 in *. lia.
Qed.

(** Reading what [Marshal] wrote gives the strings back. *)
Lemma UnmarshalStrings_Marshal l : UnmarshalStrings (MarshalStrings (Some l)) = Some l.
Proof.
  cbn [MarshalStrings]. rewrite str_cons_app. change ("" +:+ ?z) with z.
  unfold UnmarshalStrings. rewrite bool_decide_true by done.
  destruct l as [|x l]; [done|].
  rewrite decide_False.
  - apply readElements_join; [done | apply Join_length].
  - destruct l; cbn [map Join]; rewrite <- ?str_app_assoc, jsonString_read; done.
Qed.
