(* ===== verification/JsonString.v ===== *)
(** * JSON string and number literals

    encoding/json on the bytes of a literal: the scanner's states for strings and
    numbers (scanner.go), the decoding of escapes (decode.go, [unquoteBytes]), and
    the escapes [Marshal] writes and [Compact] adds (encode.go, indent.go).  Texts
    are valid UTF-8, as the API server serves them, so bytes from 128 on are copied;
    U+2028 and U+2029 are escaped as encoding/json does. *)

From S2P Require Import Prelude Quantity GoFormat GoJson.

Definition ascii_quote : ascii := ascii_of_nat 34.
Definition ascii_backslash : ascii := ascii_of_nat 92.

(** ** The scanner of a string literal

    [stateInString], [stateInStringEsc] and [stateInStringEscU] with the number of
    hexadecimal digits still to come. *)

Inductive strState := InString | InStringEsc | InStringEscU (todo : nat).

Definition strStep (st : strState) (c : ascii) : option strState :=
  match st with
  | InString =>
      if Ascii.eqb c ascii_backslash then Some InStringEsc
      else if nat_of_ascii c <? 32 then None
      else Some InString
  | InStringEsc =>
      if Ascii.eqb c "u" then Some (InStringEscU 3)
      else match unescape c with Some _ => Some InString | None => None end
  | InStringEscU todo =>
      match hexValue c with
      | Some _ => Some (match todo with S todo' => InStringEscU todo' | O => InString end)
      | None => None
      end
  end.

(** The bytes up to the closing quote, and what follows it. *)
Fixpoint readRaw (st : strState) (s : string) : option (string * string) :=
  match s with
  | EmptyString => None
  | String c s1 =>
      let next :=
        match strStep st c with
        | Some st' => '(raw, rest) ← readRaw st' s1; Some (String c raw, rest)
        | None => None
        end in
      match st with
      | InString => if Ascii.eqb c ascii_quote then Some ("", s1) else next
      | _ => next
      end
  end.

(** The bytes between the quotes of a literal. *)
Fixpoint validRaw (st : strState) (s : string) : bool :=
  match s with
  | EmptyString => match st with InString => true | _ => false end
  | String c s1 =>
      negb (match st with InString => Ascii.eqb c ascii_quote | _ => false end)
      && match strStep st c with Some st' => validRaw st' s1 | None => false end
  end.

(** ** The scanner of a number *)

Inductive numState := NumStart | NumNeg | Num0 | Num1 | NumDot | NumDot0 | NumE | NumESign | NumE0.

Definition numStep (st : numState) (c : ascii) : option numState :=
  let isE := Ascii.eqb c "e" || Ascii.eqb c "E" in
  let isSign := Ascii.eqb c "+" || Ascii.eqb c "-" in
  let first := if Ascii.eqb c "0" then Some Num0 else if isDigit c then Some Num1 else None in
  let afterInt := if Ascii.eqb c "." then Some NumDot else if isE then Some NumE else None in
  match st with
  | NumStart => if Ascii.eqb c "-" then Some NumNeg else first
  | NumNeg => first
  | Num0 => afterInt
  | Num1 => if isDigit c then Some Num1 else afterInt
  | NumDot => if isDigit c then Some NumDot0 else None
  | NumDot0 => if isDigit c then Some NumDot0 else if isE then Some NumE else None
  | NumE => if isSign then Some NumESign else if isDigit c then Some NumE0 else None
  | NumESign => if isDigit c then Some NumE0 else None
  | NumE0 => if isDigit c then Some NumE0 else None
  end.

Definition numFinal (st : numState) : bool :=
  match st with Num0 | Num1 | NumDot0 | NumE0 => true | _ => false end.

Fixpoint readNum (st : numState) (s : string) : option (string * string) :=
  let stop := if numFinal st then Some ("", s) else None in
  match s with
  | EmptyString => stop
  | String c s1 =>
      match numStep st c with
      | Some st' => '(lit, rest) ← readNum st' s1; Some (String c lit, rest)
      | None => stop
      end
  end.

Fixpoint validNum (st : numState) (s : string) : bool :=
  match s with
  | EmptyString => numFinal st
  | String c s1 => match numStep st c with Some st' => validNum st' s1 | None => false end
  end.

(** ** Decoding *)

(** [utf8.AppendRune] of a code point that is none of the surrogates. *)
Definition byteOf (z : Z) : ascii := ascii_of_nat (Z.to_nat z).
Definition encodeRune (r : Z) : string :=
  if (r <? 128)%Z then String (byteOf r) ""
  else if (r <? 2048)%Z then
    String (byteOf (192 + r / 64)) (String (byteOf (128 + r mod 64)) "")
  else if (r <? 65536)%Z then
    String (byteOf (224 + r / 4096)) (String (byteOf (128 + r / 64 mod 64))
      (String (byteOf (128 + r mod 64)) ""))
  else
    String (byteOf (240 + r / 262144)) (String (byteOf (128 + r / 4096 mod 64))
      (String (byteOf (128 + r / 64 mod 64)) (String (byteOf (128 + r mod 64)) ""))).

Definition RuneError : string := encodeRune 65533.

Definition isHighSurrogate (r : Z) : bool := (55296 <=? r)%Z && (r <? 56320)%Z.
Definition isLowSurrogate (r : Z) : bool := (56320 <=? r)%Z && (r <? 57344)%Z.

(** A high surrogate waits for the low one of its pair: [pending]. *)
Definition flush (pending : option Z) : string := match pending with Some _ => RuneError | None => "" end.

Definition escapedRune (pending : option Z) (r : Z) : string * option Z :=
  match pending with
  | Some hi =>
      if isLowSurrogate r then (encodeRune (65536 + (hi - 55296) * 1024 + (r - 56320)), None)
      else if isHighSurrogate r then (RuneError, Some r)
      else (RuneError +:+ encodeRune r, None)
  | None =>
      if isHighSurrogate r then ("", Some r)
      else if isLowSurrogate r then (RuneError, None)
      else (encodeRune r, None)
  end.

(** [acc] is the value of the hexadecimal digits read. *)
Fixpoint unquoteFrom (st : strState) (acc : Z) (pending : option Z) (s : string) : string :=
  match s with
  | EmptyString => flush pending
  | String c s1 =>
      match st with
      | InString =>
          if Ascii.eqb c ascii_backslash then unquoteFrom InStringEsc 0 pending s1
          else flush pending +:+ String c (unquoteFrom InString 0 None s1)
      | InStringEsc =>
          if Ascii.eqb c "u" then unquoteFrom (InStringEscU 3) 0 pending s1
          else flush pending +:+ String (default c (unescape c)) (unquoteFrom InString 0 None s1)
      | InStringEscU todo =>
          let acc' := (16 * acc + Z.of_nat (default 0%nat (hexValue c)))%Z in
          match todo with
          | S todo' => unquoteFrom (InStringEscU todo') acc' pending s1
          | O => let '(out, pending') := escapedRune pending acc' in
                 out +:+ unquoteFrom InString 0 pending' s1
          end
      end
  end.

Definition unquote (raw : string) : string := unquoteFrom InString 0 None raw.

(** ** Escaping

    U+2028 and U+2029 are [E2 80 A8] and [E2 80 A9]. *)

Definition sepAt (s : string) : option ascii :=
  match s with
  | String c (String c1 (String c2 _)) =>
      if Ascii.eqb c (ascii_of_nat 226) && Ascii.eqb c1 (ascii_of_nat 128)
         && (Ascii.eqb c2 (ascii_of_nat 168) || Ascii.eqb c2 (ascii_of_nat 169))
      then Some (if Ascii.eqb c2 (ascii_of_nat 168) then "8"%char else "9"%char) else None
  | _ => None
  end.

Fixpoint escapeWith (f : ascii -> string) (s : string) : string :=
  match s with
  | EmptyString => ""
  | String c s1 =>
      let plain := f c +:+ escapeWith f s1 in
      match sepAt s with
      | Some d =>
          match s1 with
          | String _ (String _ s3) => backslash +:+ "u202" +:+ String d (escapeWith f s3)
          | _ => plain
          end
      | None => plain
      end
  end.

Definition htmlByte (c : ascii) : string :=
  let n := nat_of_ascii c in
  if bool_decide (n ∈ [60; 62; 38])
  then backslash +:+ "u00" +:+ String (hex_digit (n / 16)) (String (hex_digit (n mod 16)) "")
  else String c "".

(** What [Marshal] writes between the quotes for a string, and what it turns the
    bytes of a raw message's string into. *)
Definition quoteBody (s : string) : string := escapeWith jsonByte s.
Definition escapeRaw (s : string) : string := escapeWith htmlByte s.

(** [foldName]: two keys name the same field.  The only letters beyond ASCII that
    fold to ASCII are the long s and the Kelvin sign. *)
Fixpoint foldName (s : string) : string :=
  match s with
  | EmptyString => ""
  | String c s1 =>
      let plain := String (ascii_upper c) (foldName s1) in
      match s1 with
      | String c1 s2 =>
          if Ascii.eqb c (ascii_of_nat 197) && Ascii.eqb c1 (ascii_of_nat 191) then String "S" (foldName s2)
          else
            match s2 with
            | String c2 s3 =>
                if Ascii.eqb c (ascii_of_nat 226) && Ascii.eqb c1 (ascii_of_nat 132)
                   && Ascii.eqb c2 (ascii_of_nat 170)
                then String "K" (foldName s3) else plain
            | EmptyString => plain
            end
      | EmptyString => plain
      end
  end.

(** ** The scanners read what is valid *)

Lemma readRaw_spec st s raw rest :
  readRaw st s = Some (raw, rest) -> s = raw +:+ String ascii_quote rest /\ validRaw st raw = true.
Proof.
  revert st raw; induction s as [|c s IH]; intros st raw; cbn [readRaw]; [done|].
  assert (Hnext : match strStep st c with
            | Some st' => '(raw, rest) ← readRaw st' s; Some (String c raw, rest)
            | None => None end = Some (raw, rest) ->
          match st with InString => Ascii.eqb c ascii_quote | _ => false end = false ->
          String c s = raw +:+ String ascii_quote rest /\ validRaw st raw = true).
  { intros H Hq. destruct (strStep st c) as [st'|] eqn:E; [|done].
    destruct (readRaw st' s) as [[raw' rest']|] eqn:R; [|done]. cbn in H. simplify_eq.
    destruct (IH _ _ R) as [-> Hv]. split; [done|]. cbn [validRaw]. by rewrite Hq, E, Hv. }
  destruct st; [|by auto..].
  destruct (Ascii.eqb_spec c ascii_quote) as [->|]; [|by auto]. intros [= <- <-]. done.
Qed.

Lemma readRaw_valid st raw rest :
  validRaw st raw = true -> readRaw st (raw +:+ String ascii_quote rest) = Some (raw, rest).
Proof.
  revert st; induction raw as [|c raw IH]; intros st.
  - cbn [validRaw]. destruct st; [|done..]. done.
  - rewrite str_cons_app. cbn [validRaw readRaw]. intros [Hq H]%andb_prop.
    apply negb_true_iff in Hq. destruct (strStep st c) as [st'|] eqn:E; [|done].
    rewrite (IH _ H). cbn. destruct st; [|done..]. by rewrite Hq.
Qed.

(** The bytes that may follow a number in a text without spaces. *)
Definition numEnd (s : string) : Prop :=
  match s with
  | EmptyString => True
  | String c _ => forall st, numFinal st = true -> numStep st c = None
  end.

Lemma readNum_spec st s lit rest :
  readNum st s = Some (lit, rest) -> s = lit +:+ rest /\ validNum st lit = true.
Proof.
  revert st lit; induction s as [|c s IH]; intros st lit; cbn [readNum].
  - destruct (numFinal st) eqn:F; [|done]. intros [= <- <-]. split; [done | exact F].
  - destruct (numStep st c) as [st'|] eqn:E.
    + destruct (readNum st' s) as [[lit' rest']|] eqn:R; [|done]. intros [= <- <-].
      destruct (IH _ _ R) as [-> Hv]. split; [done|]. cbn [validNum]. by rewrite E.
    + destruct (numFinal st) eqn:F; [|done]. intros [= <- <-]. split; [done | exact F].
Qed.

Lemma readNum_valid st lit rest :
  validNum st lit = true -> numEnd rest -> readNum st (lit +:+ rest) = Some (lit, rest).
Proof.
  revert st; induction lit as [|c lit IH]; intros st; cbn [validNum].
  - intros F He. change ("" +:+ rest) with rest. destruct rest as [|c rest]; cbn [readNum]; rewrite F; [done|].
    by rewrite (He st F).
  - intros H He. rewrite str_cons_app. cbn [readNum].
    destruct (numStep st c) as [st'|] eqn:E; [|done]. by rewrite (IH _ H He).
Qed.

Lemma validNum_nonempty lit : validNum NumStart lit = true -> lit <> "".
Proof. by intros H ->. Qed.

(** A printed integer is a number. *)
Lemma validNum_digits ds : allDigits ds = true -> validNum Num1 ds = true.
Proof.
  induction ds as [|c ds IH]; [done|]. intros [Hc Hd]%andb_prop. cbn [validNum numStep]. by rewrite Hc, IH.
Qed.

Lemma validNum_unsigned x ds st :
  digitsOf x ds -> (st = NumStart \/ st = NumNeg) -> validNum st ds = true.
Proof.
  intros (Hd & _ & c & rest & -> & Hc) Hst.
  apply andb_prop in Hd as [Hc1 Hd]. cbn [validNum].
  assert (numStep st c = Some Num1) as ->.
  { assert (Ascii.eqb c "-" = false) as Hm.
    { destruct (Ascii.eqb_spec c "-") as [->|]; [by vm_compute in Hc1 | done]. }
    destruct (Ascii.eqb_spec c "0") as [->|Hc0]; [done|].
    destruct Hst as [-> | ->]; cbn [numStep]; rewrite ?Hm;
      (destruct (Ascii.eqb_spec c "0"); [done | by rewrite Hc1]). }
  by apply validNum_digits.
Qed.

(** ** Decoding what was escaped *)

Lemma str_len_ind (P : string -> Prop) :
  (forall s, (forall t, String.length t < String.length s -> P t) -> P s) -> forall s, P s.
Proof.
  intros H s. remember (String.length s) as n eqn:E. revert s E.
  induction (lt_wf n) as [n _ IH]. intros s ->. apply H. intros t Ht. by apply (IH _ Ht).
Qed.

Lemma sepAt_Some s d : sepAt s = Some d ->
  exists s3, (d = "8"%char /\ s = String (ascii_of_nat 226) (String (ascii_of_nat 128) (String (ascii_of_nat 168) s3))
              \/ d = "9"%char /\ s = String (ascii_of_nat 226) (String (ascii_of_nat 128) (String (ascii_of_nat 169) s3))).
Proof.
  destruct s as [|c [|c1 [|c2 s3]]]; cbn [sepAt]; [done..|].
  destruct (Ascii.eqb_spec c (ascii_of_nat 226)) as [->|]; [|done].
  destruct (Ascii.eqb_spec c1 (ascii_of_nat 128)) as [->|]; [|done].
  destruct (Ascii.eqb_spec c2 (ascii_of_nat 168)) as [->|]; [intros [= <-]; exists s3; by left|].
  destruct (Ascii.eqb_spec c2 (ascii_of_nat 169)) as [->|]; [intros [= <-]; exists s3; by right | done].
Qed.

Lemma escapeWith_plain f c s : sepAt (String c s) = None -> escapeWith f (String c s) = f c +:+ escapeWith f s.
Proof. intros H. cbn [escapeWith]. by rewrite H. Qed.

(** Induction along [escapeWith]. *)
Lemma escapeWith_ind f (P : string -> string -> Prop) :
  P "" "" ->
  (forall d c s, (d = "8"%char /\ c = ascii_of_nat 168 \/ d = "9"%char /\ c = ascii_of_nat 169) ->
     P s (escapeWith f s) ->
     P (String (ascii_of_nat 226) (String (ascii_of_nat 128) (String c s)))
       (backslash +:+ "u202" +:+ String d (escapeWith f s))) ->
  (forall c s, sepAt (String c s) = None -> P s (escapeWith f s) -> P (String c s) (f c +:+ escapeWith f s)) ->
  forall s, P s (escapeWith f s).
Proof.
  intros H0 Hsep Hplain s. induction s as [s IH] using str_len_ind.
  destruct s as [|c s]; [done|]. destruct (sepAt (String c s)) as [d|] eqn:E.
  - apply sepAt_Some in E as (s3 & E).
    assert (Hs : exists c2, String c s = String (ascii_of_nat 226) (String (ascii_of_nat 128) (String c2 s3))
        /\ (d = "8"%char /\ c2 = ascii_of_nat 168 \/ d = "9"%char /\ c2 = ascii_of_nat 169)).
    { destruct E as [[-> ->]|[-> ->]]; eexists; split; [reflexivity | tauto | reflexivity | tauto]. }
    destruct Hs as (c2 & Hs & Hc). rewrite Hs in *.
    assert (escapeWith f (String (ascii_of_nat 226) (String (ascii_of_nat 128) (String c2 s3)))
            = backslash +:+ "u202" +:+ String d (escapeWith f s3)) as ->.
    { by destruct Hc as [[-> ->]|[-> ->]]. }
    apply Hsep; [done|]. apply IH. cbn. lia.
  - rewrite escapeWith_plain by done. apply Hplain; [done|]. apply IH. cbn. lia.
Qed.

Lemma unquote_jsonByte c t :
  unquoteFrom InString 0 None (jsonByte c +:+ t) = String c (unquoteFrom InString 0 None t).
Proof. destruct c as [[] [] [] [] [] [] [] []]; reflexivity. Qed.

Lemma validRaw_jsonByte c t : validRaw InString (jsonByte c +:+ t) = validRaw InString t.
Proof. destruct c as [[] [] [] [] [] [] [] []]; reflexivity. Qed.

(** A quoted string is a valid literal and means the string. *)
Lemma unquote_quoteBody s : unquote (quoteBody s) = s.
Proof.
  unfold unquote, quoteBody.
  apply (escapeWith_ind jsonByte (fun s e => unquoteFrom InString 0 None e = s)); [done|..]; clear s.
  - intros d c s Hd IH.
    transitivity (String (ascii_of_nat 226) (String (ascii_of_nat 128)
                    (String c (unquoteFrom InString 0 None (escapeWith jsonByte s))))); [|by rewrite IH].
    destruct Hd as [[-> ->]|[-> ->]]; reflexivity.
  - intros c s _ IH. by rewrite unquote_jsonByte, IH.
Qed.

Lemma validRaw_quoteBody s : validRaw InString (quoteBody s) = true.
Proof.
  unfold quoteBody.
  apply (escapeWith_ind jsonByte (fun _ e => validRaw InString e = true)); [done|..]; clear s.
  - intros d c s [[-> ->]|[-> ->]] IH; exact IH.
  - intros c s _ IH. by rewrite validRaw_jsonByte.
Qed.

Lemma htmlByte_cases c :
  c = "<"%char \/ c = ">"%char \/ c = "&"%char \/ htmlByte c = String c "".
Proof.
  unfold htmlByte. case_bool_decide as H; [|tauto].
  rewrite <- (ascii_nat_embedding c). set_unfold. destruct H as [-> | [-> | [-> | []]]]; tauto.
Qed.

Lemma validRaw_step st c s :
  validRaw st (String c s) = true -> exists st', strStep st c = Some st' /\ validRaw st' s = true.
Proof.
  cbn [validRaw]. intros [_ H]%andb_prop. destruct (strStep st c) as [st'|]; [by exists st' | done].
Qed.

(** Escaping the bytes of a literal keeps it valid and does not change its meaning. *)
Lemma escapeRaw_valid st s : validRaw st s = true -> validRaw st (escapeRaw s) = true.
Proof.
  unfold escapeRaw. revert st.
  apply (escapeWith_ind htmlByte (fun s e => forall st, validRaw st s = true -> validRaw st e = true));
    [done|..]; clear s.
  - intros d c s Hd IH st H. destruct st; destruct Hd as [[-> ->]|[-> ->]]; try discriminate H; apply IH; exact H.
  - intros c s _ IH st H.
    destruct (htmlByte_cases c) as [-> | [-> | [-> | ->]]].
    1-3: destruct st; try discriminate H; apply IH; exact H.
    change (String c "" +:+ escapeWith htmlByte s) with (String c (escapeWith htmlByte s)).
    cbn [validRaw] in *. apply andb_prop in H as [-> H].
    destruct (strStep st c); [by apply IH | done].
Qed.

Lemma unquote_escapeRaw_from s : forall st acc p,
  validRaw st s = true -> unquoteFrom st acc p (escapeRaw s) = unquoteFrom st acc p s.
Proof.
  unfold escapeRaw.
  apply (escapeWith_ind htmlByte (fun s e => forall st acc p, validRaw st s = true ->
           unquoteFrom st acc p e = unquoteFrom st acc p s)); [done|..]; clear s.
  - intros d c s Hd IH st acc p H.
    destruct st; destruct Hd as [[-> ->]|[-> ->]]; try discriminate H;
      specialize (IH InString 0%Z None H).
    1: transitivity (flush p +:+ String (ascii_of_nat 226) (String (ascii_of_nat 128)
         (String (ascii_of_nat 168) (unquoteFrom InString 0 None (escapeWith htmlByte s))))).
    3: transitivity (flush p +:+ String (ascii_of_nat 226) (String (ascii_of_nat 128)
         (String (ascii_of_nat 169) (unquoteFrom InString 0 None (escapeWith htmlByte s))))).
    2,4: by rewrite IH.
    1,2: destruct p; reflexivity.
  - intros c s _ IH st acc p H.
    destruct (htmlByte_cases c) as [-> | [-> | [-> | ->]]].
    1-3: destruct st; try discriminate H; specialize (IH InString 0%Z None H);
      match goal with |- _ = unquoteFrom _ _ _ (String ?c _) =>
        transitivity (flush p +:+ String c (unquoteFrom InString 0 None (escapeWith htmlByte s)))
      end; [by destruct p | by rewrite IH].
    change (String c "" +:+ escapeWith htmlByte s) with (String c (escapeWith htmlByte s)).
    apply validRaw_step in H as (st' & Hst & H). cbn [unquoteFrom].
    destruct st as [| |todo]; cbn [strStep] in Hst.
    + destruct (Ascii.eqb c ascii_backslash); [injection Hst as <-; by apply IH|].
      destruct (_ <? _); [done|]. injection Hst as <-. by rewrite (IH InString).
    + destruct (Ascii.eqb c "u"); [injection Hst as <-; by apply IH|].
      destruct (unescape c); [|done]. injection Hst as <-. by rewrite (IH InString).
    + destruct (hexValue c); [|done]. injection Hst as <-. destruct todo; [|by apply IH].
      destruct (escapedRune _ _). by rewrite (IH InString).
Qed.

Lemma unquote_escapeRaw s : validRaw InString s = true -> unquote (escapeRaw s) = unquote s.
Proof. apply unquote_escapeRaw_from. Qed.

(** Escaping once is enough. *)
Lemma sepAt_other c s : c <> ascii_of_nat 226 -> sepAt (String c s) = None.
Proof.
  intros H. destruct s as [|c1 [|c2 s]]; [done..|]. cbn [sepAt].
  by destruct (Ascii.eqb_spec c (ascii_of_nat 226)).
Qed.

Lemma escapeRaw_other c s :
  c <> ascii_of_nat 226 -> htmlByte c = String c "" -> escapeRaw (String c s) = String c (escapeRaw s).
Proof.
  intros H Hh. unfold escapeRaw. rewrite escapeWith_plain by (by apply sepAt_other). by rewrite Hh.
Qed.

Lemma escapeRaw_head b s t :
  128 <= nat_of_ascii b -> escapeRaw s = String b t -> exists s', s = String b s' /\ escapeRaw s' = t.
Proof.
  intros Hb. unfold escapeRaw.
  apply (escapeWith_ind htmlByte (fun s e => e = String b t -> exists s', s = String b s' /\ escapeWith htmlByte s' = t));
    [done|..]; clear s.
  - intros d c s _ _ [= <- _]. vm_compute in Hb. lia.
  - intros c s _ _ E. destruct (htmlByte_cases c) as [-> | [-> | [-> | Hc]]].
    1-3: injection E as <- _; vm_compute in Hb; lia.
    rewrite Hc in E. injection E as -> E. by exists s.
Qed.

Lemma sepAt_escapeRaw c s : sepAt (String c s) = None -> sepAt (String c (escapeRaw s)) = None.
Proof.
  intros H. destruct (sepAt (String c (escapeRaw s))) as [d|] eqn:E; [|done].
  apply sepAt_Some in E as (s3 & E).
  assert (exists c2, (c2 = ascii_of_nat 168 \/ c2 = ascii_of_nat 169) /\ c = ascii_of_nat 226
            /\ escapeRaw s = String (ascii_of_nat 128) (String c2 s3)) as (c2 & Hc2 & -> & E2).
  { destruct E as [[_ [= -> E]]|[_ [= -> E]]]; eexists; split_and!; [by left | done | exact E | by right | done | exact E]. }
  apply escapeRaw_head in E2 as (s1 & -> & E2); [|vm_compute; lia].
  apply escapeRaw_head in E2 as (s2 & -> & E2); [|destruct Hc2 as [-> | ->]; vm_compute; lia].
  destruct Hc2 as [-> | ->]; discriminate H.
Qed.

Lemma escapeRaw_idempotent s : escapeRaw (escapeRaw s) = escapeRaw s.
Proof.
  unfold escapeRaw at 2 3.
  apply (escapeWith_ind htmlByte (fun s e => escapeRaw e = e)); [done|..]; clear s.
  - intros d c s Hd IH. change (backslash +:+ ?x) with (String "\" x). change ("u202" +:+ ?x) with
      (String "u" (String "2" (String "0" (String "2" x)))).
    destruct Hd as [[-> _]|[-> _]]; rewrite !escapeRaw_other by done; by rewrite IH.
  - intros c s Hs IH. destruct (htmlByte_cases c) as [-> | [-> | [-> | Hc]]].
    1-3: match goal with |- escapeRaw (?h +:+ ?e) = _ =>
           let h' := eval vm_compute in h in change h with h' end;
         rewrite !str_cons_app; change ("" +:+ ?x) with x;
         rewrite !escapeRaw_other by done; by rewrite IH.
    rewrite Hc. change (String c "" +:+ ?x) with (String c x). unfold escapeRaw at 1.
    apply sepAt_escapeRaw in Hs. unfold escapeRaw in Hs.
    rewrite escapeWith_plain by exact Hs. fold (escapeRaw (escapeWith htmlByte s)). by rewrite IH, Hc.
Qed.
