(* ===== verification/Json.v ===== *)
(** * JSON texts

    encoding/json: the scanner that [Unmarshal] runs over a text before it decodes
    it, the values it finds, and the compact form [Marshal] writes.  A string of a
    value is the bytes between its quotes and a number is its literal, so a
    json.RawMessage is a value: its bytes are the value's up to the spaces, which
    [Marshal] removes. *)

From S2P Require Import Prelude Quantity GoFormat Strconv GoJson JsonString.

Inductive value :=
| VNull
| VBool (b : bool)
| VNum (lit : string)
| VStr (raw : string)
| VArr (l : list value)
| VObj (members : list (string * value)).

Lemma value_ind_nested (P : value -> Prop) :
  P VNull -> (forall b, P (VBool b)) -> (forall lit, P (VNum lit)) -> (forall raw, P (VStr raw)) ->
  (forall l, Forall P l -> P (VArr l)) -> (forall ms, Forall (fun kv => P kv.2) ms -> P (VObj ms)) ->
  forall v, P v.
Proof.
  intros H1 H2 H3 H4 H5 H6. fix IH 1. intros [| | | |l|ms]; [done | auto..| |].
  - apply H5. induction l as [|v l IHl]; constructor; [apply IH | exact IHl].
  - apply H6. induction ms as [|kv ms IHms]; constructor; [apply IH | exact IHms].
Qed.

(** ** Writing *)

Definition literal (raw : string) : string := String ascii_quote (raw +:+ dquote).

Fixpoint print (v : value) : string :=
  match v with
  | VNull => "null"
  | VBool b => if b then "true" else "false"
  | VNum lit => lit
  | VStr raw => literal raw
  | VArr l => "[" +:+ Join (map print l) "," +:+ "]"
  | VObj ms => "{" +:+ Join (map (fun kv => literal kv.1 +:+ ":" +:+ print kv.2) ms) "," +:+ "}"
  end.

(** ** Scanning *)

Definition isSpace (c : ascii) : bool := bool_decide (nat_of_ascii c ∈ [32; 9; 13; 10]).

Fixpoint skipSpace (s : string) : string :=
  match s with
  | EmptyString => ""
  | String c s1 => if isSpace c then skipSpace s1 else s
  end.

(** The delimiter [c], after spaces. *)
Definition token (c : ascii) (s : string) : option string :=
  match skipSpace s with
  | String c' rest => if Ascii.eqb c' c then Some rest else None
  | EmptyString => None
  end.

Definition keyword (k : string) (v : value) (s : string) : option (value * string) :=
  if HasPrefix s k then Some (v, str_drop (String.length k) s) else None.

(** A value, the elements of an array that is not empty, and the members of such an
    object, each with what follows.  [fuel] bounds the depth of the recursion. *)
Fixpoint parseValue (fuel : nat) (s : string) : option (value * string) :=
  match fuel with
  | O => None
  | S n =>
      match skipSpace s with
      | EmptyString => None
      | String c s1 =>
          if Ascii.eqb c ascii_quote then '(raw, rest) ← readRaw InString s1; Some (VStr raw, rest)
          else if Ascii.eqb c "[" then
            match token "]" s1 with
            | Some rest => Some (VArr [], rest)
            | None => '(l, rest) ← parseElements n s1; Some (VArr l, rest)
            end
          else if Ascii.eqb c "{" then
            match token "}" s1 with
            | Some rest => Some (VObj [], rest)
            | None => '(ms, rest) ← parseMembers n s1; Some (VObj ms, rest)
            end
          else if Ascii.eqb c "n" then keyword "ull" VNull s1
          else if Ascii.eqb c "t" then keyword "rue" (VBool true) s1
          else if Ascii.eqb c "f" then keyword "alse" (VBool false) s1
          else '(lit, rest) ← readNum NumStart (String c s1); Some (VNum lit, rest)
      end
  end
with parseElements (fuel : nat) (s : string) : option (list value * string) :=
  match fuel with
  | O => None
  | S n =>
      '(v, s1) ← parseValue n s;
      match token "," s1 with
      | Some s2 => '(l, rest) ← parseElements n s2; Some (v :: l, rest)
      | None => rest ← token "]" s1; Some ([v], rest)
      end
  end
with parseMembers (fuel : nat) (s : string) : option (list (string * value) * string) :=
  match fuel with
  | O => None
  | S n =>
      s1 ← token ascii_quote s; '(k, s2) ← readRaw InString s1;
      s3 ← token ":" s2; '(v, s4) ← parseValue n s3;
      match token "," s4 with
      | Some s5 => '(ms, rest) ← parseMembers n s5; Some ((k, v) :: ms, rest)
      | None => rest ← token "}" s4; Some ([(k, v)], rest)
      end
  end.

(** [maxNestingDepth] *)
Fixpoint depth (v : value) : N :=
  match v with
  | VArr l => 1 + foldr N.max 0 (map depth l)
  | VObj ms => 1 + foldr N.max 0 (map (fun kv => depth kv.2) ms)
  | _ => 0
  end%N.
Definition maxNestingDepth : N := 10000.

(** [checkValid]: the value of a text. *)
Definition scan (s : string) : option value :=
  match parseValue (2 * String.length s + 1) s with
  | Some (v, rest) =>
      if bool_decide (skipSpace rest = "") && (depth v <=? maxNestingDepth)%N then Some v else None
  | None => None
  end.

(** Examples: the grammar on short texts. *)
Definition apostrophes (s : string) : string :=
  str_map (fun c => if Ascii.eqb c "'" then ascii_quote else c) s.
Example scan_object :
  scan (apostrophes " {'a' : [1, -2.5e+3 ,true], 'b\u0041':{} } ") =
  Some (VObj [("a", VArr [VNum "1"; VNum "-2.5e+3"; VBool true]); ("b\u0041", VObj [])]).
Proof. vm_compute. reflexivity. Qed.
Example scan_invalid :
  map scan ["01"; "1."; "[1,]"; "{,}"; apostrophes "'\x'"; "nul"; "1 2"; "-"; ""; apostrophes "{'a' 1}"] =
  repeat None 10.
Proof. vm_compute. reflexivity. Qed.

(** ** The fuel is enough *)

Lemma skipSpace_length s : String.length (skipSpace s) <= String.length s.
Proof. induction s as [|c s IH]; cbn [skipSpace]; [done|]. destruct (isSpace c); cbn; lia. Qed.

Lemma token_length c s rest : token c s = Some rest -> String.length rest < String.length s.
Proof.
  unfold token. pose proof (skipSpace_length s). destruct (skipSpace s) as [|c' s']; [done|].
  destruct (Ascii.eqb c' c); [|done]. intros [= <-]. cbn in *. lia.
Qed.

Lemma readRaw_length st s raw rest : readRaw st s = Some (raw, rest) -> String.length rest < String.length s.
Proof. intros [-> _]%readRaw_spec. rewrite str_length_app. cbn. lia. Qed.

Lemma keyword_spec k v s v' rest : keyword k v s = Some (v', rest) -> v' = v /\ s = k +:+ rest.
Proof.
  unfold keyword, HasPrefix. destruct (String.prefix k s) eqn:E; [|done]. intros [= <- <-]. split; [done|].
  revert s E; induction k as [|c k IH]; intros s; [done|]. destruct s as [|c' s]; [done|]. cbn.
  destruct (Ascii.ascii_dec c c') as [->|]; [|done]. intros E. rewrite str_cons_app. by rewrite <- IH.
Qed.

Lemma keyword_length k v s v' rest :
  keyword k v s = Some (v', rest) -> String.length rest <= String.length s.
Proof. intros [_ ->]%keyword_spec. rewrite str_length_app. lia. Qed.

(** Splits a hypothesis that a parser returned into those about its parts. *)
Ltac inv_parse :=
  repeat match goal with
  | H : (_ ≫= _) = Some _ |- _ => apply bind_Some in H; destruct H as (? & ? & H)
  | H : (let '(_, _) := ?p in _) = Some _ |- _ => destruct p
  | H : Some _ = Some _ |- _ => injection H; clear H; intros; subst
  | H : None = Some _ |- _ => discriminate H
  | H : match ?x with Some _ => _ | None => _ end = Some _ |- _ => destruct x eqn:?
  | H : (if ?b then _ else _) = Some _ |- _ => destruct b eqn:?
  end.
Ltac parse_lengths :=
  repeat match goal with
  | H : token _ _ = Some _ |- _ => apply token_length in H
  | H : readRaw _ _ = Some _ |- _ => apply readRaw_length in H
  | H : keyword _ _ _ = Some _ |- _ => apply keyword_length in H
  end.

Lemma parse_shrinks n :
  (forall s v rest, parseValue n s = Some (v, rest) -> String.length rest < String.length s)
  /\ (forall s l rest, parseElements n s = Some (l, rest) -> String.length rest < String.length s)
  /\ (forall s ms rest, parseMembers n s = Some (ms, rest) -> String.length rest < String.length s).
Proof.
  induction n as [|n (IHv & IHe & IHm)]; [done|].
  split; [|split]; intros s x rest; cbn [parseValue parseElements parseMembers].
  - pose proof (skipSpace_length s). destruct (skipSpace s) as [|c s1]; [done|]. cbn [String.length] in *.
    intros H1. inv_parse; parse_lengths;
      try match goal with H : parseElements _ _ = _ |- _ => apply IHe in H
        | H : parseMembers _ _ = _ |- _ => apply IHm in H end; try lia.
    match goal with H : readNum _ _ = _ |- _ => apply readNum_spec in H as [E Hv] end.
    apply validNum_nonempty in Hv. apply (f_equal String.length) in E. rewrite str_length_app in E.
    match type of Hv with ?lit <> _ => destruct lit; [done|] end. cbn [String.length] in E. lia.
  - intros H. inv_parse; parse_lengths; repeat match goal with
      | H : parseValue _ _ = _ |- _ => apply IHv in H
      | H : parseElements _ _ = _ |- _ => apply IHe in H end; lia.
  - intros H. inv_parse; parse_lengths; repeat match goal with
      | H : parseValue _ _ = _ |- _ => apply IHv in H
      | H : parseMembers _ _ = _ |- _ => apply IHm in H end; lia.
Qed.

(** More fuel than the text is long never changes the result. *)
Lemma parse_fuel n : forall m,
  (forall s, 2 * String.length s + 1 <= n -> 2 * String.length s + 1 <= m -> parseValue n s = parseValue m s)
  /\ (forall s, 2 * String.length s + 2 <= n -> 2 * String.length s + 2 <= m ->
        parseElements n s = parseElements m s)
  /\ (forall s, 2 * String.length s + 2 <= n -> 2 * String.length s + 2 <= m ->
        parseMembers n s = parseMembers m s).
Proof.
  induction n as [|n IH]; [split; [|split]; intros; lia|]. intros [|m]; [split; [|split]; intros; lia|].
  destruct (IH m) as (IHv & IHe & IHm). destruct (parse_shrinks m) as (Sv & Se & Sm).
  split; [|split]; intros s Hn Hm; cbn [parseValue parseElements parseMembers].
  - pose proof (skipSpace_length s). destruct (skipSpace s) as [|c s1]; [done|]. cbn [String.length] in *.
    rewrite IHe, IHm by lia. done.
  - rewrite IHv by lia. destruct (parseValue m s) as [[v s1]|] eqn:E; [|done]. apply Sv in E. cbn.
    destruct (token "," s1) as [s2|] eqn:T; [|done]. apply token_length in T. rewrite IHe by lia. done.
  - destruct (token _ s) as [s1|] eqn:T1; [|done]. apply token_length in T1. cbn.
    destruct (readRaw _ s1) as [[k s2]|] eqn:R; [|done]. apply readRaw_length in R. cbn.
    destruct (token _ s2) as [s3|] eqn:T2; [|done]. apply token_length in T2. cbn. rewrite IHv by lia.
    destruct (parseValue m s3) as [[v s4]|] eqn:E; [|done]. apply Sv in E. cbn.
    destruct (token "," s4) as [s5|] eqn:T; [|done]. apply token_length in T. rewrite IHm by lia. done.
Qed.

(** ** Scanning what was written *)

(** The literals of the value are ones the scanner reads. *)
Fixpoint wf (v : value) : bool :=
  match v with
  | VNull | VBool _ => true
  | VNum lit => validNum NumStart lit
  | VStr raw => validRaw InString raw
  | VArr l => forallb wf l
  | VObj ms => forallb (fun kv => validRaw InString kv.1 && wf kv.2) ms
  end.

Lemma parse_wf n :
  (forall s v rest, parseValue n s = Some (v, rest) -> wf v = true)
  /\ (forall s l rest, parseElements n s = Some (l, rest) -> forallb wf l = true)
  /\ (forall s ms rest, parseMembers n s = Some (ms, rest) ->
        forallb (fun kv => validRaw InString kv.1 && wf kv.2) ms = true).
Proof.
  induction n as [|n (IHv & IHe & IHm)]; [done|].
  split; [|split]; intros s x rest; cbn [parseValue parseElements parseMembers].
  - destruct (skipSpace s) as [|c s1]; [done|]. intros H. inv_parse; cbn [wf forallb]; try done;
      repeat match goal with
      | H : readRaw _ _ = _ |- _ => apply readRaw_spec in H as [_ H]
      | H : readNum _ _ = _ |- _ => apply readNum_spec in H as [_ H]
      | H : keyword _ _ _ = _ |- _ => apply keyword_spec in H as [-> _]
      | H : parseElements _ _ = _ |- _ => apply IHe in H
      | H : parseMembers _ _ = _ |- _ => apply IHm in H
      end; done.
  - intros H. inv_parse; repeat match goal with
      | H : parseValue _ _ = _ |- _ => apply IHv in H
      | H : parseElements _ _ = _ |- _ => apply IHe in H end; cbn [forallb];
      repeat match goal with H : _ = true |- _ => rewrite H; clear H end; done.
  - intros H. inv_parse; repeat match goal with
      | H : readRaw _ _ = _ |- _ => apply readRaw_spec in H as [_ H]
      | H : parseValue _ _ = _ |- _ => apply IHv in H
      | H : parseMembers _ _ = _ |- _ => apply IHm in H end; cbn [forallb fst snd];
      repeat match goal with H : _ = true |- _ => rewrite H; clear H end; done.
Qed.

Lemma scan_wf s v : scan s = Some v -> wf v = true /\ (depth v <= maxNestingDepth)%N.
Proof.
  unfold scan. destruct (parseValue _ s) as [[v' rest]|] eqn:E; [|done].
  destruct (_ && _) eqn:B; [|done]. intros [= <-]. apply andb_prop in B as [_ B%N.leb_le].
  split; [|done]. by eapply parse_wf.
Qed.

(** The fuel a written value needs. *)
Fixpoint size (v : value) : nat :=
  match v with
  | VArr l => S (list_sum (map (fun v => S (size v)) l))
  | VObj ms => S (list_sum (map (fun kv => S (size kv.2)) ms))
  | _ => 1
  end.

Lemma token_here c s : isSpace c = false -> token c (String c s) = Some s.
Proof. intros H. unfold token. cbn [skipSpace]. by rewrite H, Ascii.eqb_refl. Qed.

Lemma token_not c c' s : isSpace c' = false -> c' <> c -> token c (String c' s) = None.
Proof. intros H Hc. unfold token. cbn [skipSpace]. rewrite H. by destruct (Ascii.eqb_spec c' c). Qed.

Lemma keyword_here k v s : keyword k v (k +:+ s) = Some (v, s).
Proof. unfold keyword. by rewrite prefix_app, str_drop_app. Qed.

(** How a written value starts. *)
Lemma validNum_head lit : validNum NumStart lit = true ->
  exists c s, lit = String c s /\ (isDigit c = true \/ c = "-"%char).
Proof.
  destruct lit as [|c s]; [done|]. cbn [validNum numStep]. intros H. exists c, s. split; [done|].
  destruct (Ascii.eqb_spec c "-"); [by right|]. left.
  destruct (Ascii.eqb_spec c "0") as [->|]; [done|]. by destruct (isDigit c).
Qed.

Definition startsValue (c : ascii) : Prop :=
  isSpace c = false /\ c <> "]"%char /\ c <> ","%char /\ c <> "}"%char.

Lemma isDigit_range c : isDigit c = true -> 48 <= nat_of_ascii c <= 57.
Proof. unfold isDigit. intros [H1%Nat.leb_le H2%Nat.leb_le]%andb_prop. done. Qed.

Lemma isDigit_other c k : isDigit c = true -> isDigit k = false -> Ascii.eqb c k = false.
Proof. intros H1 H2. destruct (Ascii.eqb_spec c k) as [->|]; [by rewrite H1 in H2 | done]. Qed.

Lemma print_head v : wf v = true -> exists c s, print v = String c s /\ startsValue c.
Proof.
  unfold startsValue. destruct v as [|[]|lit|raw|l|ms]; cbn [wf print]; intros H;
    try (eexists _, _; split; [reflexivity|]; by split_and!).
  apply validNum_head in H as (c & s & -> & H). exists c, s. split; [done|].
  destruct H as [H | ->]; [|by split_and!].
  split_and!; [|intros ->; by vm_compute in H..].
  unfold isSpace. apply bool_decide_eq_false. apply isDigit_range in H. set_unfold. lia.
Qed.

Lemma parseValue_num n lit rest :
  validNum NumStart lit = true -> numEnd rest -> parseValue (S n) (lit +:+ rest) = Some (VNum lit, rest).
Proof.
  intros Hv He. destruct (validNum_head lit Hv) as (c & s & E & Hc).
  assert (isSpace c = false) as Hs.
  { destruct Hc as [Hc | ->]; [|done]. unfold isSpace. apply bool_decide_eq_false.
    apply isDigit_range in Hc. set_unfold. lia. }
  pose proof (readNum_valid NumStart lit rest Hv He) as R. rewrite E, str_cons_app in *.
  cbn [parseValue skipSpace]. rewrite Hs.
  assert (forall k, isDigit k = false -> k <> "-"%char -> Ascii.eqb c k = false) as Hne.
  { intros k Hk Hk'. destruct Hc as [Hc | ->]; [by apply isDigit_other|].
    by destruct (Ascii.eqb_spec "-" k) as [<-|]. }
  rewrite !Hne by done. by rewrite R.
Qed.

Definition reads (v : value) : Prop :=
  forall n rest, size v <= n -> numEnd rest -> parseValue n (print v +:+ rest) = Some (v, rest).

Lemma numEnd_comma s : numEnd (String "," s). Proof. by intros []. Qed.
Lemma numEnd_bracket s : numEnd (String "]" s). Proof. by intros []. Qed.
Lemma numEnd_brace s : numEnd (String "}" s). Proof. by intros []. Qed.
#[local] Hint Resolve numEnd_comma numEnd_bracket numEnd_brace : core.

Lemma Join_cons x y l sep : Join (x :: y :: l) sep = x +:+ sep +:+ Join (y :: l) sep.
Proof. done. Qed.

Lemma parseElements_print l n rest :
  l <> [] -> Forall reads l -> list_sum (map (fun v => S (size v)) l) <= n ->
  parseElements n (Join (map print l) "," +:+ String "]" rest) = Some (l, rest).
Proof.
  revert n; induction l as [|v l IH]; intros n Hne Hr Hn; [done|].
  apply Forall_cons in Hr as [Hv Hl]. cbn [map list_sum foldr] in Hn.
  change (foldr Nat.add 0 (map (fun v => S (size v)) l)) with
    (list_sum (map (fun v => S (size v)) l)) in Hn.
  destruct n as [|n]; [lia|]. cbn [parseElements]. destruct l as [|w l].
  - cbn [map Join]. rewrite Hv by (done || lia). cbn.
    rewrite token_not, token_here by done. done.
  - cbn [map]. rewrite Join_cons, <- !str_app_assoc. change ("," +:+ ?x) with (String "," x).
    rewrite Hv by (done || lia). cbn -[Join map].
    rewrite token_here by done. change (print w :: map print l) with (map print (w :: l)).
    rewrite IH by (done || lia). done.
Qed.

Definition member (kv : string * value) : string := literal kv.1 +:+ ":" +:+ print kv.2.

Lemma literal_app raw s : literal raw +:+ s = String ascii_quote (raw +:+ String ascii_quote s).
Proof. unfold literal. rewrite str_cons_app, <- str_app_assoc. done. Qed.

Lemma parseMember_print kv n rest :
  validRaw InString kv.1 = true -> reads kv.2 -> size kv.2 <= n -> numEnd rest ->
  parseMembers (S n) (member kv +:+ rest) =
    match token "," rest with
    | Some s5 => '(ms, rest') ← parseMembers n s5; Some (kv :: ms, rest')
    | None => rest' ← token "}" rest; Some ([kv], rest')
    end.
Proof.
  intros Hk Hv Hn He. destruct kv as [k v]. cbn [fst snd] in *. unfold member. cbn [parseMembers fst snd].
  rewrite <- !str_app_assoc, literal_app, token_here by done. cbn -[token print].
  rewrite (readRaw_valid _ _ _ Hk). cbn -[token print].
  change (":" +:+ ?x) with (String ":" x). rewrite token_here by done. cbn -[token print].
  rewrite Hv by done. done.
Qed.

Lemma parseMembers_print ms n rest :
  ms <> [] -> forallb (fun kv => validRaw InString kv.1 && wf kv.2) ms = true ->
  Forall (fun kv => reads kv.2) ms ->
  list_sum (map (fun kv => S (size kv.2)) ms) <= n ->
  parseMembers n (Join (map member ms) "," +:+ String "}" rest) = Some (ms, rest).
Proof.
  revert n; induction ms as [|kv ms IH]; intros n Hne Hw Hr Hn; [done|].
  apply Forall_cons in Hr as [Hv Hl]. cbn [map list_sum foldr] in Hn.
  change (foldr Nat.add 0 (map (fun kv => S (size kv.2)) ms)) with
    (list_sum (map (fun kv => S (size kv.2)) ms)) in Hn.
  cbn [forallb] in Hw. apply andb_prop in Hw as [[Hk _]%andb_prop Hw].
  destruct n as [|n]; [lia|]. destruct ms as [|kv' ms].
  - cbn [map Join]. rewrite parseMember_print by (done || lia || auto).
    rewrite token_not, token_here by done. done.
  - cbn [map]. rewrite Join_cons, <- !str_app_assoc. change ("," +:+ ?x) with (String "," x).
    rewrite parseMember_print by (done || lia || auto).
    rewrite token_here by done. change (member kv' :: map member ms) with (map member (kv' :: ms)).
    rewrite IH by (done || lia). done.
Qed.

(** Decides the comparisons of closed characters. *)
Ltac eval_eqb :=
  repeat match goal with
  | |- context [Ascii.eqb ?a ?b] =>
      let r := eval vm_compute in (Ascii.eqb a b) in
      match r with true => idtac | false => idtac end; change (Ascii.eqb a b) with r
  end; cbv iota.

Lemma parse_print v : wf v = true -> reads v.
Proof.
  induction v as [|b|lit|raw|l IH|ms IH] using value_ind_nested; cbn [wf]; intros Hw n rest Hn He;
    (destruct n as [|n]; [cbn [size] in Hn; lia|]); cbn [print].
  - change ("null" +:+ rest) with (String "n" ("ull" +:+ rest)). cbn [parseValue skipSpace].
    apply keyword_here.
  - destruct b; [change ("true" +:+ rest) with (String "t" ("rue" +:+ rest))
                |change ("false" +:+ rest) with (String "f" ("alse" +:+ rest))]; apply keyword_here.
  - by apply parseValue_num.
  - rewrite literal_app. cbn [parseValue skipSpace]. change (isSpace ascii_quote) with false. cbv iota.
    by rewrite Ascii.eqb_refl, (readRaw_valid _ _ _ Hw).
  - rewrite <- !str_app_assoc. change ("[" +:+ ?x) with (String "[" x). change ("]" +:+ ?x) with (String "]" x).
    cbn [size] in Hn. destruct l as [|v l].
    + cbn [map Join]. cbn [parseValue skipSpace]. change (isSpace "[") with false. eval_eqb. change ("" +:+ ?x) with x. by rewrite token_here.
    + assert (Forall reads (v :: l)) as Hr.
      { rewrite Forall_forall in *. intros x Hx. apply IH; [done|].
        rewrite forallb_forall in Hw. apply Hw. by apply list_elem_of_In. }
      pose proof Hw as Hv. cbn [forallb] in Hv. apply andb_prop in Hv as [Hv _].
      destruct (print_head v Hv) as (c & s & E & Hs & Hc & _).
      cbn [parseValue skipSpace]. change (isSpace "[") with false. eval_eqb.
      assert (token "]" (Join (map print (v :: l)) "," +:+ String "]" rest) = None) as ->.
      { cbn [map]. destruct (map print l) as [|p ps]; [cbn [Join] | rewrite Join_cons];
          rewrite E, !str_cons_app; by apply token_not. }
      rewrite parseElements_print by (done || lia). done.
  - rewrite <- !str_app_assoc. change ("{" +:+ ?x) with (String "{" x). change ("}" +:+ ?x) with (String "}" x).
    cbn [size] in Hn. destruct ms as [|kv ms].
    + cbn [map Join]. cbn [parseValue skipSpace]. change (isSpace "{") with false. eval_eqb. change ("" +:+ ?x) with x. by rewrite token_here.
    + assert (Forall (fun kv => reads kv.2) (kv :: ms)) as Hr.
      { rewrite Forall_forall in *. intros x Hx. apply IH; [done|].
        rewrite forallb_forall in Hw. apply list_elem_of_In in Hx. apply Hw in Hx.
        by apply andb_prop in Hx as [_ Hx]. }
      change (fun kv => literal kv.1 +:+ ":" +:+ print kv.2) with member.
      cbn [parseValue skipSpace]. change (isSpace "{") with false. eval_eqb.
      assert (token "}" (Join (map member (kv :: ms)) "," +:+ String "}" rest) = None) as ->.
      { cbn [map]. destruct (map member ms) as [|p ps]; [cbn [Join] | rewrite Join_cons];
          unfold member at 1; rewrite <- !str_app_assoc, literal_app; by apply token_not. }
      rewrite parseMembers_print by (done || lia). done.
Qed.

Lemma Join_sum l : list_sum (map (fun s => S (String.length s)) l) <= S (String.length (Join l ",")).
Proof.
  induction l as [|s l IH]; [cbn; lia|]. destruct l as [|t l]; [cbn; lia|].
  rewrite Join_cons, !str_length_app. change (String.length ",") with 1.
  change (list_sum (map (fun s => S (String.length s)) (s :: t :: l))) with
    (S (String.length s) + list_sum (map (fun s => S (String.length s)) (t :: l))). lia.
Qed.

Lemma list_sum_le {A} (f g : A -> nat) l : Forall (fun x => f x <= g x) l -> list_sum (map f l) <= list_sum (map g l).
Proof.
  induction 1 as [|x l Hx Hl IH]; [done|]. cbn [map]. change (list_sum (?a :: ?l)) with (a + list_sum l). lia.
Qed.

Lemma size_print v : wf v = true -> size v <= String.length (print v).
Proof.
  induction v as [|b|lit|raw|l IH|ms IH] using value_ind_nested; cbn [wf size print]; intros Hw.
  - cbn. lia.
  - destruct b; cbn; lia.
  - apply validNum_nonempty in Hw. destruct lit; [done | cbn; lia].
  - cbn. lia.
  - rewrite !str_length_app. cbn [String.length]. pose proof (Join_sum (map print l)) as HJ.
    rewrite map_map in HJ. assert (list_sum (map (fun v => S (size v)) l)
      <= list_sum (map (fun v => S (String.length (print v))) l)); [|lia].
    apply list_sum_le. rewrite Forall_forall in *. intros x Hx. rewrite forallb_forall in Hw.
    specialize (IH x Hx (Hw x ltac:(by apply list_elem_of_In))). lia.
  - rewrite !str_length_app. cbn [String.length]. pose proof (Join_sum (map member ms)) as HJ.
    change (fun kv => literal kv.1 +:+ ":" +:+ print kv.2) with member.
    rewrite map_map in HJ. assert (list_sum (map (fun kv => S (size kv.2)) ms)
      <= list_sum (map (fun kv => S (String.length (member kv))) ms)); [|lia].
    apply list_sum_le. rewrite Forall_forall in *. intros x Hx. rewrite forallb_forall in Hw.
    assert (wf x.2 = true) as Hx2.
    { apply list_elem_of_In in Hx. apply Hw in Hx. by apply andb_prop in Hx as [_ Hx]. }
    specialize (IH x Hx Hx2). unfold member. rewrite !str_length_app. lia.
Qed.

(** Scanning what was written gives the value back. *)
Lemma scan_print v : wf v = true -> (depth v <= maxNestingDepth)%N -> scan (print v) = Some v.
Proof.
  intros Hw Hd. unfold scan. pose proof (parse_print v Hw (2 * String.length (print v) + 1) "") as H.
  rewrite str_app_nil_r in H. rewrite H; [|pose proof (size_print v Hw); lia | done].
  rewrite bool_decide_true by done. apply N.leb_le in Hd. by rewrite Hd.
Qed.

(** ** [Marshal] and [Unmarshal] of raw messages

    [Marshal] escapes the strings of a raw message for HTML. *)
Fixpoint escape (v : value) : value :=
  match v with
  | VStr raw => VStr (escapeRaw raw)
  | VArr l => VArr (map escape l)
  | VObj ms => VObj (map (fun kv => (escapeRaw kv.1, escape kv.2)) ms)
  | _ => v
  end.

Lemma wf_escape v : wf v = true -> wf (escape v) = true.
Proof.
  induction v as [|b|lit|raw|l IH|ms IH] using value_ind_nested; cbn [wf escape]; try done.
  - apply escapeRaw_valid.
  - intros Hw. rewrite forallb_forall in *. intros x (y & <- & Hy)%in_map_iff.
    rewrite Forall_forall in IH. apply IH; [by apply list_elem_of_In | by apply Hw].
  - intros Hw. rewrite forallb_forall in *. intros x (y & <- & Hy)%in_map_iff. cbn [fst snd].
    pose proof (Hw y Hy) as [Hk Hv]%andb_prop. rewrite escapeRaw_valid by done.
    rewrite Forall_forall in IH. apply IH; [by apply list_elem_of_In | done].
Qed.

Lemma depth_escape v : depth (escape v) = depth v.
Proof.
  induction v as [|b|lit|raw|l IH|ms IH] using value_ind_nested; cbn [escape depth]; try done.
  all: do 2 f_equal; rewrite map_map; apply map_ext_in; intros x Hx; apply list_elem_of_In in Hx;
    rewrite Forall_forall in IH; by apply IH.
Qed.

Lemma escape_idempotent v : escape (escape v) = escape v.
Proof.
  induction v as [|b|lit|raw|l IH|ms IH] using value_ind_nested; cbn [escape]; try done.
  - by rewrite escapeRaw_idempotent.
  - f_equal. rewrite map_map. apply map_ext_in. intros x Hx. apply list_elem_of_In in Hx.
    rewrite Forall_forall in IH. by apply IH.
  - f_equal. rewrite map_map. apply map_ext_in. intros x Hx. apply list_elem_of_In in Hx.
    rewrite Forall_forall in IH. cbn. by rewrite escapeRaw_idempotent, IH.
Qed.

(** The members of an object as a map: the last of a key counts. *)
Definition toMap (ms : list (string * value)) : gmap string value :=
  foldl (fun m kv => <[unquote kv.1 := kv.2]> m) ∅ ms.

(** [Marshal] writes the keys of a map in order. *)
Definition keyLe {A} (a b : string * A) : Prop := String.le a.1 b.1.
#[export] Instance keyLe_dec {A} : RelDecision (@keyLe A).
Proof. intros a b. unfold keyLe. apply _. Defined.
Definition sortedEntries {A} (m : gmap string A) : list (string * A) := merge_sort keyLe (map_to_list m).

(** [Marshal] of a [map\[string\]json.RawMessage]. *)
Definition marshalRaw (m : gmap string value) : value :=
  VObj (map (fun kv => (quoteBody kv.1, escape kv.2)) (sortedEntries m)).

Lemma sortedEntries_perm {A} (m : gmap string A) : sortedEntries m ≡ₚ map_to_list m.
Proof. apply merge_sort_Permutation. Qed.

Lemma sortedEntries_elem {A} (m : gmap string A) k v : (k, v) ∈ sortedEntries m <-> m !! k = Some v.
Proof. rewrite sortedEntries_perm. apply elem_of_map_to_list. Qed.

Lemma foldl_insert {A} (l : list (string * A)) (m : gmap string A) k :
  NoDup l.*1 ->
  foldl (fun m kv => <[kv.1 := kv.2]> m) m l !! k =
    match (list_to_map l : gmap string A) !! k with Some v => Some v | None => m !! k end.
Proof.
  revert m; induction l as [|[k' v] l IH]; intros m Hd; [cbn; by destruct (m !! k)|].
  apply NoDup_cons in Hd as [Hk Hd]. cbn [foldl]. rewrite IH by done. cbn [fst snd list_to_map foldr curry].
  destruct (decide (k = k')) as [->|Hne].
  - rewrite (not_elem_of_list_to_map_1 l) by done. change (list_to_map ((k', v) :: l) : gmap string A) with
      (<[k' := v]> (list_to_map l : gmap string A)). by rewrite !lookup_insert_eq.
  - change (list_to_map ((k', v) :: l) : gmap string A) with (<[k' := v]> (list_to_map l : gmap string A)).
    by rewrite !lookup_insert_ne.
Qed.

Lemma foldl_insert_sorted {A} (m : gmap string A) :
  foldl (fun m kv => <[kv.1 := kv.2]> m) ∅ (sortedEntries m) = m.
Proof.
  apply map_eq. intros k.
  assert (NoDup (sortedEntries m).*1) as Hd by (rewrite sortedEntries_perm; apply NoDup_fst_map_to_list).
  rewrite foldl_insert by done.
  rewrite (list_to_map_proper (sortedEntries m) (map_to_list m)) by (done || apply sortedEntries_perm).
  rewrite list_to_map_to_list. by destruct (m !! k).
Qed.

Lemma foldl_insert_map {A B} (f : A -> B) (l : list (string * A)) (m : gmap string A) (ks : string -> string) :
  (forall k, unquote (ks k) = k) ->
  foldl (fun m kv => <[unquote kv.1 := kv.2]> m) (f <$> m) (map (fun kv => (ks kv.1, f kv.2)) l)
  = f <$> foldl (fun m kv => <[kv.1 := kv.2]> m) m l.
Proof.
  intros Hk. revert m; induction l as [|[k v] l IH]; intros m; [done|].
  cbn [foldl map fst snd]. by rewrite Hk, <- fmap_insert, IH.
Qed.

(** Reading a written map gives its entries. *)
Definition members (v : value) : gmap string value :=
  match v with VObj ms => toMap ms | _ => ∅ end.

Lemma members_marshalRaw m : members (marshalRaw m) = escape <$> m.
Proof.
  cbn [members marshalRaw]. unfold toMap.
  pose proof (foldl_insert_map escape (sortedEntries m) ∅ quoteBody unquote_quoteBody) as H.
  rewrite fmap_empty in H. by rewrite H, foldl_insert_sorted.
Qed.

Lemma foldr_max_le (l : list N) (b : N) :
  (foldr N.max 0 l <= b)%N <-> Forall (fun x => (x <= b)%N) l.
Proof.
  induction l as [|x l IH]; cbn [foldr].
  - split; [constructor | lia].
  - rewrite Forall_cons, <- IH. lia.
Qed.

(** What is kept of an object is as well formed as the object. *)
Lemma toMap_Forall (P : value -> Prop) ms :
  Forall (fun kv => P kv.2) ms -> map_Forall (fun _ v => P v) (toMap ms).
Proof.
  unfold toMap. intros H.
  assert (forall m : gmap string value, map_Forall (fun _ v => P v) m ->
            map_Forall (fun _ v => P v) (foldl (fun m kv => <[unquote kv.1 := kv.2]> m) m ms)) as Hm.
  { induction H as [|kv ms Hkv _ IH]; intros m Hm; [done|]. cbn [foldl].
    apply IH. by apply map_Forall_insert_2. }
  apply Hm, map_Forall_empty.
Qed.

Lemma wf_marshalRaw m :
  map_Forall (fun _ v => wf v = true) m -> wf (marshalRaw m) = true.
Proof.
  intros H. cbn [marshalRaw wf]. rewrite forallb_forall. intros kv (kv' & <- & Hkv)%in_map_iff.
  cbn [fst snd]. rewrite validRaw_quoteBody. apply wf_escape. destruct kv' as [k v].
  apply list_elem_of_In, sortedEntries_elem in Hkv. by apply (H k).
Qed.

Lemma depth_marshalRaw m (b : N) :
  map_Forall (fun _ v => depth v <= b)%N m -> (depth (marshalRaw m) <= 1 + b)%N.
Proof.
  intros H. cbn [marshalRaw depth]. rewrite map_map. cbn [snd].
  assert (foldr N.max 0 (map (fun kv => depth (escape kv.2)) (sortedEntries m)) <= b)%N; [|lia].
  apply foldr_max_le. rewrite Forall_forall. intros d Hd. apply list_elem_of_In, in_map_iff in Hd as ([k v] & <- & Hv).
  rewrite depth_escape. apply list_elem_of_In, sortedEntries_elem in Hv. by apply (H k).
Qed.

Lemma wf_toMap ms : wf (VObj ms) = true -> map_Forall (fun _ v => wf v = true) (toMap ms).
Proof.
  intros H. apply toMap_Forall. rewrite Forall_forall. intros kv Hkv. cbn [wf] in H.
  rewrite forallb_forall in H. apply list_elem_of_In in Hkv. by apply H, andb_prop in Hkv as [_ Hkv].
Qed.

Lemma depth_toMap ms (b : N) :
  (depth (VObj ms) <= b)%N -> map_Forall (fun _ v => 1 + depth v <= b)%N (toMap ms).
Proof.
  intros H. apply (toMap_Forall (fun v => 1 + depth v <= b)%N). cbn [depth] in H. rewrite Forall_forall. intros kv Hkv.
  assert (foldr N.max 0 (map (fun kv => depth kv.2) ms) <= b - 1)%N as Hm by lia.
  apply foldr_max_le in Hm. rewrite Forall_forall in Hm.
  assert (depth kv.2 <= b - 1)%N; [|lia].
  apply Hm, list_elem_of_In, (in_map (fun kv => depth kv.2)). by apply list_elem_of_In.
Qed.

#[export] Instance keyLe_trans {A} : Transitive (@keyLe A).
Proof. intros a b c. unfold keyLe. apply transitivity. Qed.
#[export] Instance keyLe_total {A} : Total (@keyLe A).
Proof. intros a b. unfold keyLe. apply total. apply _. Qed.

Lemma sortedEntries_fmap {A B} (f : A -> B) (m : gmap string A) :
  sortedEntries (f <$> m) = map (fun kv => (kv.1, f kv.2)) (sortedEntries m).
Proof.
  apply (Sorted_unique_strong keyLe).
  - intros [k1 v1] [k2 v2] H1 H2 Hle Hge. apply sortedEntries_elem in H1.
    apply list_elem_of_In, in_map_iff in H2 as ([k v] & [= <- <-] & H2).
    apply list_elem_of_In, sortedEntries_elem in H2. unfold keyLe in *. cbn in *.
    assert (k1 = k) as -> by (by apply (anti_symm String.le)).
    rewrite lookup_fmap, H2 in H1. injection H1 as <-. done.
  - apply Sorted_merge_sort. apply _.
  - assert (Sorted keyLe (sortedEntries m)) as H by (apply Sorted_merge_sort; apply _).
    induction H as [|kv l Hl IH Hd]; cbn [map]; constructor; [done|].
    destruct Hd as [|kv' l Hd]; cbn [map]; constructor. exact Hd.
  - rewrite sortedEntries_perm, (sortedEntries_perm m).
    change (map (fun kv => (kv.1, f kv.2)) (map_to_list m)) with (prod_map id f <$> map_to_list m).
    by rewrite map_to_list_fmap.
Qed.

Lemma marshalRaw_escape m : marshalRaw (escape <$> m) = marshalRaw m.
Proof.
  unfold marshalRaw. rewrite sortedEntries_fmap, map_map. f_equal. apply map_ext.
  intros [k v]. cbn. by rewrite escape_idempotent.
Qed.

(** The decoded members of an object. *)
Definition decoded (ms : list (string * value)) : list (string * value) :=
  map (fun kv => (unquote kv.1, kv.2)) ms.

Lemma toMap_decoded ms : toMap ms = foldl (fun m kv => <[kv.1 := kv.2]> m) ∅ (decoded ms).
Proof.
  unfold toMap, decoded. generalize (∅ : gmap string value) as m.
  induction ms as [|kv ms IH]; intros m; [done|]. cbn [foldl map fst snd]. apply IH.
Qed.

Lemma toMap_elem ms k v :
  NoDup (decoded ms).*1 -> toMap ms !! k = Some v <-> (k, v) ∈ decoded ms.
Proof.
  intros Hd. rewrite toMap_decoded, foldl_insert by done.
  rewrite (elem_of_list_to_map (M := gmap string) _ _ _ Hd).
  by destruct ((list_to_map (decoded ms) : gmap string value) !! k).
Qed.

Lemma decoded_marshalRaw m :
  decoded (map (fun kv => (quoteBody kv.1, escape kv.2)) (sortedEntries m)) = sortedEntries (escape <$> m).
Proof.
  unfold decoded. rewrite map_map, sortedEntries_fmap. apply map_ext. intros [k v]. cbn.
  by rewrite unquote_quoteBody.
Qed.

Lemma sortedEntries_NoDup {A} (m : gmap string A) : NoDup (sortedEntries m).*1.
Proof. rewrite sortedEntries_perm. apply NoDup_fst_map_to_list. Qed.
