(* ===== verification/KubeletConfig.v ===== *)
(** * The JSON of the kubelet configuration

    api/karpenter/v1/kubelet_config.go: the typed fields of [KubeletConfiguration]
    and, in [Overflow], everything else.  encoding/json finds the typed fields by
    reflection; here a field is a [field], its JSON name is in [fieldTags] and its
    value in the struct a [slot].  An error of [UnmarshalJSON] drops the half-filled
    struct, as its callers do. *)

From S2P Require Import Prelude Quantity KarpenterV1 GoFormat Strconv GoJson JsonString Json.
Import osv1.

#[local] Set Default Proof Using "Type*".

(** ** The typed fields *)

Inductive field :=
| FMaxPods | FPodsPerCore | FSystemReserved | FKubeReserved | FEvictionHard | FEvictionSoft
| FEvictionSoftGracePeriod | FEvictionMaxPodGracePeriod | FImageGCHighThresholdPercent
| FImageGCLowThresholdPercent | FCPUCFSQuota.

#[export] Instance field_eq_dec : EqDecision field.
Proof. solve_decision. Defined.

Definition fieldTags : list (string * field) :=
  [("maxPods", FMaxPods); ("podsPerCore", FPodsPerCore); ("systemReserved", FSystemReserved);
   ("kubeReserved", FKubeReserved); ("evictionHard", FEvictionHard); ("evictionSoft", FEvictionSoft);
   ("evictionSoftGracePeriod", FEvictionSoftGracePeriod);
   ("evictionMaxPodGracePeriod", FEvictionMaxPodGracePeriod);
   ("imageGCHighThresholdPercent", FImageGCHighThresholdPercent);
   ("imageGCLowThresholdPercent", FImageGCLowThresholdPercent); ("cpuCFSQuota", FCPUCFSQuota)].

(** The json tags of the struct's fields, and the names [init] takes from them. *)
Definition structTags : list string :=
  ["maxPods,omitempty"; "podsPerCore,omitempty"; "systemReserved,omitempty"; "kubeReserved,omitempty";
   "evictionHard,omitempty"; "evictionSoft,omitempty"; "evictionSoftGracePeriod,omitempty";
   "evictionMaxPodGracePeriod,omitempty"; "imageGCHighThresholdPercent,omitempty";
   "imageGCLowThresholdPercent,omitempty"; "cpuCFSQuota,omitempty"; "-"].

Definition tagName (tag : string) : option string :=
  let '(name, _, _) := Cut tag "," in if decide (name <> "" /\ name <> "-") then Some name else None.

Definition kubeletConfigKnownFields : list string := omap tagName structTags.

Lemma knownFields_tags : kubeletConfigKnownFields = map fst fieldTags.
Proof. by vm_compute. Qed.

(** The field a key is decoded into: the one with this name, or else with this name
    up to case. *)
Definition fieldOf (key : string) : option field :=
  match List.find (fun t => bool_decide (t.1 = key)) fieldTags with
  | Some t => Some t.2
  | None => option_map snd (List.find (fun t => bool_decide (foldName t.1 = foldName key)) fieldTags)
  end.

Inductive slot :=
| SInt (z : Z)
| SMap (m : gomap string)
| SPtrInt (o : option Z)
| SPtrBool (o : option bool).

Definition getSlot (k : KubeletConfiguration) (f : field) : slot :=
  match f with
  | FMaxPods => SInt (kc_MaxPods k)
  | FPodsPerCore => SInt (kc_PodsPerCore k)
  | FSystemReserved => SMap (kc_SystemReserved k)
  | FKubeReserved => SMap (kc_KubeReserved k)
  | FEvictionHard => SMap (kc_EvictionHard k)
  | FEvictionSoft => SMap (kc_EvictionSoft k)
  | FEvictionSoftGracePeriod => SMap (kc_EvictionSoftGracePeriod k)
  | FEvictionMaxPodGracePeriod => SPtrInt (kc_EvictionMaxPodGracePeriod k)
  | FImageGCHighThresholdPercent => SPtrInt (kc_ImageGCHighThresholdPercent k)
  | FImageGCLowThresholdPercent => SPtrInt (kc_ImageGCLowThresholdPercent k)
  | FCPUCFSQuota => SPtrBool (kc_CPUCFSQuota k)
  end.

(** A struct of the slots' values; a slot of another type is not stored. *)
Definition ofSlots (s : field -> slot) (overflow : slice ascii) : KubeletConfiguration :=
  let int f := match s f with SInt z => z | _ => 0%Z end in
  let map f := match s f with SMap m => m | _ => None end in
  let ptr f := match s f with SPtrInt o => o | _ => None end in
  mkKubelet (int FMaxPods) (int FPodsPerCore) (map FSystemReserved) (map FKubeReserved)
    (map FEvictionHard) (map FEvictionSoft) (map FEvictionSoftGracePeriod)
    (ptr FEvictionMaxPodGracePeriod) (ptr FImageGCHighThresholdPercent) (ptr FImageGCLowThresholdPercent)
    (match s FCPUCFSQuota with SPtrBool o => o | _ => None end) overflow.

Definition setSlot (k : KubeletConfiguration) (f : field) (s : slot) : KubeletConfiguration :=
  ofSlots (fun g => if decide (g = f) then s else getSlot k g) (kc_Overflow k).

(** ** Decoding *)

Definition syntaxError : error := ENew "invalid JSON text".
Definition typeError : error := ENew "json: cannot unmarshal value into Go value".

Definition decodeInt32 (lit : string) : result Z :=
  match ParseInt lit with
  | Ok z => if decide (minInt32 <= z <= maxInt32)%Z then Ok z else Err typeError
  | Err _ => Err typeError
  end.

(** The elements of a [map\[string\]string]: [null] is the empty string. *)
Fixpoint decodeStrings (m : gmap string string) (ms : list (string * value)) : result (gmap string string) :=
  match ms with
  | [] => Ok m
  | (k, VStr raw) :: ms' => decodeStrings (<[unquote k := unquote raw]> m) ms'
  | (k, VNull) :: ms' => decodeStrings (<[unquote k := ""]> m) ms'
  | _ => Err typeError
  end.

(** [null] empties a map or a pointer and leaves an integer; an object is decoded
    into the map that is there. *)
Definition decodeSlot (s : slot) (v : value) : result slot :=
  match s, v with
  | SInt z, VNull => Ok (SInt z)
  | SInt _, VNum lit => rbind (decodeInt32 lit) (fun z => Ok (SInt z))
  | SMap _, VNull => Ok (SMap None)
  | SMap m, VObj ms => rbind (decodeStrings (entries m) ms) (fun m' => Ok (SMap (Some m')))
  | SPtrInt _, VNull => Ok (SPtrInt None)
  | SPtrInt _, VNum lit => rbind (decodeInt32 lit) (fun z => Ok (SPtrInt (Some z)))
  | SPtrBool _, VNull => Ok (SPtrBool None)
  | SPtrBool _, VBool b => Ok (SPtrBool (Some b))
  | _, _ => Err typeError
  end.

Definition decodeMember (k : KubeletConfiguration) (kv : string * value) : result KubeletConfiguration :=
  match fieldOf (unquote kv.1) with
  | Some f => rbind (decodeSlot (getSlot k f) kv.2) (fun s => Ok (setSlot k f s))
  | None => Ok k
  end.

Fixpoint decodeMembers (k : KubeletConfiguration) (ms : list (string * value)) : result KubeletConfiguration :=
  match ms with
  | [] => Ok k
  | kv :: ms' => rbind (decodeMember k kv) (fun k' => decodeMembers k' ms')
  end.

(** [json.Unmarshal(data, aux)], into the zeroed receiver. *)
Definition unmarshalTyped (data : string) : result KubeletConfiguration :=
  match scan data with
  | None => Err syntaxError
  | Some VNull => Ok zeroKubelet
  | Some (VObj ms) => decodeMembers zeroKubelet ms
  | Some _ => Err typeError
  end.

(** [json.Unmarshal(data, &raw)], into a nil [map\[string\]json.RawMessage]. *)
Definition unmarshalRaw (data : string) : result (gomap value) :=
  match scan data with
  | None => Err syntaxError
  | Some VNull => Ok None
  | Some (VObj ms) => Ok (Some (toMap ms))
  | Some _ => Err typeError
  end.

(** The members that are not typed fields. *)
Definition unknown (raw : gmap string value) : gmap string value :=
  foldr delete raw kubeletConfigKnownFields.

Definition set_Overflow (text : string) (k : KubeletConfiguration) : KubeletConfiguration :=
  ofSlots (getSlot k) (Some (String.list_ascii_of_string text)).

Definition UnmarshalJSON (data : string) : result KubeletConfiguration :=
  rbind (unmarshalTyped data) (fun k =>
  rbind (unmarshalRaw data) (fun raw =>
  let raw := unknown (entries raw) in
  if decide (raw = ∅) then Ok k else Ok (set_Overflow (print (marshalRaw raw)) k))).

(** ** Encoding *)

Definition encodeStrings (m : gmap string string) : value :=
  VObj (map (fun kv => (quoteBody kv.1, VStr (quoteBody kv.2))) (sortedEntries m)).

(** [None]: left out by [omitempty]. *)
Definition encodeSlot (s : slot) : option value :=
  match s with
  | SInt z => if decide (z = 0%Z) then None else Some (VNum (pretty z))
  | SMap m => if decide (entries m = ∅) then None else Some (encodeStrings (entries m))
  | SPtrInt o => option_map (fun z => VNum (pretty z)) o
  | SPtrBool o => option_map VBool o
  end.

(** [json.Marshal] of the typed fields, in the order of the struct. *)
Definition structured (k : KubeletConfiguration) : list (string * value) :=
  omap (fun t => option_map (fun v => (t.1, v)) (encodeSlot (getSlot k t.2))) fieldTags.

Definition overflowText (k : KubeletConfiguration) : string := String.string_of_list_ascii (elems (kc_Overflow k)).

(** [None] is the panic of an assignment to a nil map. *)
Definition MarshalJSON (k : KubeletConfiguration) : option (result string) :=
  let data := print (VObj (structured k)) in
  if decide (elems (kc_Overflow k) = []) then Some (Ok data)
  else
    match unmarshalRaw (overflowText k) with
    | Err err => Some (Err err)
    | Ok overflowMap =>
        match unmarshalRaw data with
        | Err err => Some (Err err)
        | Ok structuredMap =>
            match overflowMap with
            | Some m => Some (Ok (print (marshalRaw (entries structuredMap ∪ m))))
            | None => if decide (entries structuredMap = ∅) then Some (Ok "null") else None
            end
        end
    end.

(** Examples.  A key that differs from a field's name only in case is decoded into
    the field and kept as overflow too; an overflow of [null] makes the encoder
    panic. *)
Example maxpods_is_typed_and_overflow :
  UnmarshalJSON (apostrophes "{'maxpods': 5}") =
  Ok (set_Overflow (apostrophes "{'maxpods':5}") (setSlot zeroKubelet FMaxPods (SInt 5))).
Proof. vm_compute. reflexivity. Qed.
Example case_variant_not_stable :
  option_map (fun r => rbind r UnmarshalJSON)
    (match UnmarshalJSON (apostrophes "{'cpucfsquota': null, 'cpuCFSQuota': true}") with
     | Ok k => MarshalJSON k | Err _ => None end)
  = Some (Ok (set_Overflow (apostrophes "{'cpucfsquota':null}") zeroKubelet)).
Proof. vm_compute. reflexivity. Qed.
Example null_overflow_panics :
  MarshalJSON (set_Overflow "null" (setSlot zeroKubelet FMaxPods (SInt 5))) = None.
Proof. vm_compute. reflexivity. Qed.
Example passes_unknown_fields :
  option_map (fun r => rbind r UnmarshalJSON)
    (match UnmarshalJSON (apostrophes "{'topologyManagerPolicy' : 'best<effort', 'maxPods':250}") with
     | Ok k => MarshalJSON k | Err _ => None end)
  = Some (Ok (set_Overflow (apostrophes "{'topologyManagerPolicy':'best\u003ceffort'}")
                (setSlot zeroKubelet FMaxPods (SInt 250)))).
Proof. vm_compute. reflexivity. Qed.

(** ** Slots *)

Definition sameKind (s s' : slot) : Prop :=
  match s, s' with
  | SInt _, SInt _ | SMap _, SMap _ | SPtrInt _, SPtrInt _ | SPtrBool _, SPtrBool _ => True
  | _, _ => False
  end.

Lemma getSlot_set k f s g :
  sameKind (getSlot k f) s -> getSlot (setSlot k f s) g = if decide (g = f) then s else getSlot k g.
Proof. intros H. destruct (decide (g = f)) as [->|Hne]; destruct f, s; try done; by destruct g. Qed.

Lemma getSlot_Overflow text k f : getSlot (set_Overflow text k) f = getSlot k f.
Proof. by destruct f. Qed.

Lemma slots_ext k k' : (forall f, getSlot k f = getSlot k' f) -> kc_Overflow k = kc_Overflow k' -> k = k'.
Proof.
  destruct k, k'. cbn. intros H ->.
  pose proof (H FMaxPods) as [= ->]. pose proof (H FPodsPerCore) as [= ->].
  pose proof (H FSystemReserved) as [= ->]. pose proof (H FKubeReserved) as [= ->].
  pose proof (H FEvictionHard) as [= ->]. pose proof (H FEvictionSoft) as [= ->].
  pose proof (H FEvictionSoftGracePeriod) as [= ->]. pose proof (H FEvictionMaxPodGracePeriod) as [= ->].
  pose proof (H FImageGCHighThresholdPercent) as [= ->].
  pose proof (H FImageGCLowThresholdPercent) as [= ->]. pose proof (H FCPUCFSQuota) as [= ->]. done.
Qed.

Lemma decodeSlot_kind s v s' : decodeSlot s v = Ok s' -> sameKind s s'.
Proof.
  destruct s, v; cbn [decodeSlot]; try done; try (intros [= <-]; done);
    match goal with |- rbind ?r _ = _ -> _ => destruct r; [intros [= <-] | ] end; done.
Qed.

(** The integers of a slot are those of int32. *)
Definition slotOk (s : slot) : Prop :=
  match s with
  | SInt z | SPtrInt (Some z) => (minInt32 <= z <= maxInt32)%Z
  | _ => True
  end.

Lemma decodeInt32_range lit z : decodeInt32 lit = Ok z -> (minInt32 <= z <= maxInt32)%Z.
Proof. unfold decodeInt32. destruct (ParseInt lit); [|done]. destruct (decide _); [|done]. by intros [= <-]. Qed.

Lemma decodeSlot_ok s v s' : slotOk s -> decodeSlot s v = Ok s' -> slotOk s'.
Proof.
  destruct s, v; cbn [decodeSlot]; intros Hs; try done; try (intros [= <-]; done);
    match goal with |- rbind ?r _ = _ -> _ => destruct r eqn:E; [intros [= <-] | done] end; cbn;
    try done; by eapply decodeInt32_range.
Qed.

Definition kubeletOk (k : KubeletConfiguration) : Prop := forall f, slotOk (getSlot k f).

Lemma decodeMembers_ok k ms k' :
  kubeletOk k -> decodeMembers k ms = Ok k' -> kubeletOk k' /\ kc_Overflow k' = kc_Overflow k.
Proof.
  revert k; induction ms as [|kv ms IH]; intros k Hk; cbn [decodeMembers].
  { intros [= <-]. done. }
  unfold decodeMember. destruct (fieldOf _) as [f|]; [|by apply IH].
  destruct (decodeSlot (getSlot k f) kv.2) as [s|] eqn:E; [|done]. cbn [rbind]. intros H.
  apply IH in H as [H1 H2]; [done|]. intros g. rewrite getSlot_set by (by eapply decodeSlot_kind).
  destruct (decide (g = f)); [|apply Hk]. by eapply decodeSlot_ok.
Qed.

(** ** What is encoded is decoded *)

Lemma ParseInt_pretty (z : Z) : (minInt32 <= z <= maxInt32)%Z -> ParseInt (pretty z) = Ok z.
Proof.
  intros Hz. apply ParseInt_spec. unfold numeral. unfold minInt32, maxInt32, minInt64, maxInt64 in *.
  destruct (Z.lt_trichotomy z 0) as [Hn | [-> | Hp]].
  - destruct (pretty_pos_digits (- z)) as (ds & E & Hd & Hv & c & rest & -> & _); [lia|].
    rewrite Z2N.id in Hv by lia.
    exists "-", (String c rest). split_and!; [|done|done|tauto| |lia..].
    + destruct z as [|p|p]; [lia..|]. change (pretty (Z.neg p)) with (String "-" (pretty (Npos p))).
      change (Z.opp (Z.neg p)) with (Zpos p) in E. rewrite <- E. done.
    + rewrite decide_True by done. lia.
  - exists "", "0". split_and!; [done|done|done|tauto|done|lia..].
  - destruct (pretty_pos_digits z) as (ds & E & Hd & Hv & c & rest & -> & _); [lia|].
    rewrite Z2N.id in Hv by lia.
    exists "", (String c rest). split_and!; [done|done|done|tauto| |lia..].
    rewrite decide_False by done. lia.
Qed.

Lemma validNum_pretty (z : Z) : validNum NumStart (pretty z) = true.
Proof.
  destruct (Z.lt_trichotomy z 0) as [Hn | [-> | Hp]].
  - destruct (pretty_pos_digits (- z)) as (ds & E & Hd); [lia|].
    destruct z as [|p|p]; [lia..|]. change (pretty (Z.neg p)) with (String "-" (pretty (Npos p))).
    change (Z.opp (Z.neg p)) with (Zpos p) in E, Hd. change (pretty (Npos p)) with (pretty (Zpos p)).
    rewrite E. cbn [validNum numStep]. change (Ascii.eqb "-" "-") with true. cbv iota.
    by apply (validNum_unsigned _ _ _ Hd); right.
  - done.
  - destruct (pretty_pos_digits z) as (ds & -> & Hd); [lia|]. by apply (validNum_unsigned _ _ _ Hd); left.
Qed.

Lemma decodeInt32_pretty (z : Z) : (minInt32 <= z <= maxInt32)%Z -> decodeInt32 (pretty z) = Ok z.
Proof. intros H. unfold decodeInt32. rewrite ParseInt_pretty by done. by rewrite decide_True. Qed.

Lemma decodeStrings_encoded (l : list (string * string)) m (ks : string -> string) :
  (forall s, unquote (ks s) = s) ->
  decodeStrings m (map (fun kv => (ks kv.1, VStr (ks kv.2))) l) =
  Ok (foldl (fun m kv => <[kv.1 := kv.2]> m) m l).
Proof.
  intros Hk. revert m; induction l as [|[k v] l IH]; intros m; cbn [map decodeStrings foldl fst snd]; [done|].
  by rewrite !Hk, IH.
Qed.

(** A slot after a round trip: an empty map is nil. *)
Definition normSlot (s : slot) : slot :=
  match s with SMap m => if decide (entries m = ∅) then SMap None else SMap (Some (entries m)) | _ => s end.

Definition zeroSlot (s : slot) : slot :=
  match s with
  | SInt _ => SInt 0 | SMap _ => SMap None | SPtrInt _ => SPtrInt None | SPtrBool _ => SPtrBool None
  end.

Lemma getSlot_zero k f : getSlot zeroKubelet f = zeroSlot (getSlot k f).
Proof. by destruct f. Qed.

Lemma unquote_escaped_body s : unquote (escapeRaw (quoteBody s)) = s.
Proof. rewrite unquote_escapeRaw by apply validRaw_quoteBody. apply unquote_quoteBody. Qed.

Lemma decode_encodeStrings m : decodeSlot (SMap None) (encodeStrings m) = Ok (SMap (Some m)).
Proof.
  cbn [decodeSlot encodeStrings]. rewrite decodeStrings_encoded by apply unquote_quoteBody.
  cbn [rbind]. change (entries None) with (∅ : gmap string string). by rewrite foldl_insert_sorted.
Qed.

Lemma decode_escapeStrings m : decodeSlot (SMap None) (escape (encodeStrings m)) = Ok (SMap (Some m)).
Proof.
  cbn [escape encodeStrings]. rewrite map_map. cbn [decodeSlot fst snd escape].
  rewrite (decodeStrings_encoded _ _ (fun s => escapeRaw (quoteBody s)) unquote_escaped_body).
  cbn [rbind]. change (entries None) with (∅ : gmap string string). by rewrite foldl_insert_sorted.
Qed.

Lemma decode_encodeSlot s v :
  slotOk s -> encodeSlot s = Some v ->
  decodeSlot (zeroSlot s) v = Ok (normSlot s) /\ decodeSlot (zeroSlot s) (escape v) = Ok (normSlot s).
Proof.
  destruct s as [z|m|[z|]|[b|]]; cbn [slotOk encodeSlot normSlot zeroSlot option_map]; intros Hs.
  - destruct (decide _); [done|]. intros [= <-]. cbn [decodeSlot escape]. by rewrite decodeInt32_pretty.
  - destruct (decide _); [done|]. intros [= <-]. split; [apply decode_encodeStrings | apply decode_escapeStrings].
  - intros [= <-]. cbn [decodeSlot escape]. by rewrite decodeInt32_pretty.
  - done.
  - by intros [= <-].
  - done.
Qed.

Lemma encodeSlot_None s : encodeSlot s = None -> normSlot s = zeroSlot s.
Proof.
  destruct s as [z|m|[z|]|[b|]]; cbn [encodeSlot normSlot zeroSlot option_map]; try done.
  - by destruct (decide _) as [->|].
  - by destruct (decide _).
Qed.

Lemma encodeSlot_wf s v : encodeSlot s = Some v -> wf v = true /\ (depth v <= 1)%N.
Proof.
  destruct s as [z|m|[z|]|[b|]]; cbn [encodeSlot option_map]; try done.
  - destruct (decide _); [done|]. intros [= <-]. split; [apply validNum_pretty | done].
  - destruct (decide _); [done|]. intros [= <-]. unfold encodeStrings. cbn [wf depth]. split.
    + rewrite forallb_forall. intros kv (kv' & <- & _)%in_map_iff. cbn [fst snd wf].
      by rewrite !validRaw_quoteBody.
    + rewrite map_map. cbn [snd depth].
      assert (foldr N.max 0 (map (fun _ => 0) (sortedEntries (entries m))) <= 0)%N; [|lia].
      apply foldr_max_le. rewrite Forall_forall. intros d Hd.
      apply list_elem_of_In, in_map_iff in Hd as (? & <- & _). done.
  - intros [= <-]. split; [apply validNum_pretty | done].
  - by intros [= <-].
Qed.

(** ** Structs *)

Definition name (f : field) : string :=
  default "" (option_map fst (List.find (fun t => bool_decide (t.2 = f)) fieldTags)).

Lemma name_tag f : (name f, f) ∈ fieldTags.
Proof. destruct f; apply (bool_decide_unpack _); vm_compute; exact I. Qed.

Lemma fieldOf_name f : fieldOf (name f) = Some f.
Proof. destruct f; vm_compute; reflexivity. Qed.

Lemma name_known f : name f ∈ kubeletConfigKnownFields.
Proof. rewrite knownFields_tags. apply (elem_of_map_2 fst) with (x := (name f, f)). apply name_tag. Qed.

Lemma name_inj f g : name f = name g -> f = g.
Proof. intros H. pose proof (fieldOf_name f) as Hf. rewrite H, fieldOf_name in Hf. by injection Hf. Qed.

Lemma tag_name t : t ∈ fieldTags -> t.1 = name t.2.
Proof.
  intros H. assert (Forall (fun t => t.1 = name t.2) fieldTags) as HF by (repeat constructor).
  by apply (proj1 (Forall_forall _ _) HF).
Qed.

Lemma known_name key : key ∈ kubeletConfigKnownFields -> exists f, key = name f.
Proof.
  intros H. rewrite knownFields_tags in H. apply elem_of_map in H as (t & -> & Ht).
  exists t.2. by apply tag_name.
Qed.

Lemma name_plain f : unquote (name f) = name f /\ validRaw InString (name f) = true.
Proof. destruct f; split; vm_compute; reflexivity. Qed.

Lemma structured_elem k key v :
  (key, v) ∈ structured k <-> exists f, key = name f /\ encodeSlot (getSlot k f) = Some v.
Proof.
  unfold structured. rewrite list_elem_of_omap. split.
  - intros (t & Ht & E). destruct (encodeSlot (getSlot k t.2)) as [v'|] eqn:V; [|done].
    injection E as <- <-. exists t.2. split; [by apply tag_name | done].
  - intros (f & -> & E). exists (name f, f). split; [apply name_tag|]. cbn [snd fst]. by rewrite E.
Qed.

Lemma structured_decoded k : decoded (structured k) = structured k.
Proof.
  unfold decoded. rewrite <- (map_id (structured k)) at 2. apply map_ext_in. intros [key v] H.
  apply list_elem_of_In, structured_elem in H as (f & -> & _). cbn [fst snd]. by rewrite (proj1 (name_plain f)).
Qed.

Lemma structured_NoDup k : NoDup (decoded (structured k)).*1.
Proof.
  rewrite structured_decoded. unfold structured.
  assert (NoDup fieldTags.*1) as Hd by (apply (bool_decide_unpack _); vm_compute; exact I).
  generalize dependent fieldTags. intros l Hd.
  induction l as [|t l IH]; [constructor|]. apply NoDup_cons in Hd as [Ht Hd]. cbn [omap list_omap].
  destruct (encodeSlot _) as [v|]; cbn [option_map]; [|by apply IH].
  rewrite fmap_cons. apply NoDup_cons. split; [|by apply IH]. intros H. apply Ht.
  apply list_elem_of_fmap in H as ([key v'] & E & H). cbn in E. subst key.
  apply list_elem_of_omap in H as (t' & Ht' & E).
  destruct (encodeSlot _); [|done]. injection E as <- _. by apply list_elem_of_fmap_2.
Qed.

Lemma structured_lookup k f : toMap (structured k) !! name f = encodeSlot (getSlot k f).
Proof.
  apply option_eq. intros v. rewrite toMap_elem by apply structured_NoDup.
  rewrite structured_decoded, structured_elem. split; [|by exists f].
  by intros (g & <-%name_inj & H).
Qed.

Lemma structured_known k key v : toMap (structured k) !! key = Some v -> key ∈ kubeletConfigKnownFields.
Proof.
  rewrite toMap_elem by apply structured_NoDup. rewrite structured_decoded, structured_elem.
  intros (f & -> & _). apply name_known.
Qed.

Lemma structured_ok k : wf (VObj (structured k)) = true /\ (depth (VObj (structured k)) <= 2)%N.
Proof.
  cbn [wf depth]. split.
  - rewrite forallb_forall. intros [key v] H. apply list_elem_of_In, structured_elem in H as (f & -> & E).
    cbn [fst snd]. apply encodeSlot_wf in E as [-> _]. by rewrite (proj2 (name_plain f)).
  - assert (foldr N.max 0 (map (fun kv => depth kv.2) (structured k)) <= 1)%N; [|lia].
    apply foldr_max_le. rewrite Forall_forall. intros d Hd.
    apply list_elem_of_In, in_map_iff in Hd as ([key v] & <- & H).
    apply list_elem_of_In, structured_elem in H as (f & _ & E). by apply encodeSlot_wf in E as [_ E].
Qed.

Lemma scan_structured k : scan (print (VObj (structured k))) = Some (VObj (structured k)).
Proof.
  destruct (structured_ok k) as [Hw Hd]. apply scan_print; [done|].
  etrans; [exact Hd|]. by vm_compute.
Qed.

Lemma unknown_lookup raw key :
  unknown raw !! key = if decide (key ∈ kubeletConfigKnownFields) then None else raw !! key.
Proof.
  unfold unknown. induction kubeletConfigKnownFields as [|n l IH]; cbn [foldr].
  - by rewrite decide_False by apply not_elem_of_nil.
  - destruct (decide (n = key)) as [->|Hne].
    + rewrite lookup_delete_eq, decide_True by (left). done.
    + rewrite lookup_delete_ne, IH by done. apply decide_ext. rewrite elem_of_cons. naive_solver.
Qed.

(** Decoding an object that has each field at most once, under its own name. *)
Lemma decodeMembers_exact (T : field -> slot) ms : forall k,
  (forall key v, (key, v) ∈ decoded ms -> key ∈ kubeletConfigKnownFields \/ fieldOf key = None) ->
  NoDup (decoded ms).*1 ->
  (forall f v, (name f, v) ∈ decoded ms -> decodeSlot (getSlot k f) v = Ok (T f)) ->
  (forall f, (forall v, (name f, v) ∉ decoded ms) -> getSlot k f = T f) ->
  exists k', decodeMembers k ms = Ok k' /\ kc_Overflow k' = kc_Overflow k /\ forall f, getSlot k' f = T f.
Proof.
  induction ms as [|[key v] ms IH]; intros k Hv Hd H1 H2.
  { exists k. split_and!; [done..|]. intros f. apply H2. intros v. apply not_elem_of_nil. }
  cbn [decoded map fst snd] in *. fold (decoded ms) in *. rewrite fmap_cons in Hd.
  apply NoDup_cons in Hd as [Hk Hd]. cbn [fst] in Hk. cbn [decodeMembers]. unfold decodeMember. cbn [fst snd].
  assert (forall g v', (name g, v') ∈ decoded ms -> name g <> unquote key) as Hne.
  { intros g v' Hg E. apply Hk. rewrite <- E. by apply (list_elem_of_fmap_2 fst _ _ Hg). }
  destruct (Hv (unquote key) v) as [(f & E)%known_name | E]; [by left | |].
  - rewrite E, fieldOf_name in *. rewrite (H1 f v) by (rewrite <- E; left). cbn [rbind].
    assert (forall g, getSlot (setSlot k f (T f)) g = if decide (g = f) then T f else getSlot k g) as Hg.
    { intros g. apply getSlot_set. apply (decodeSlot_kind _ v). apply H1. rewrite <- E. left. }
    destruct (IH (setSlot k f (T f))) as (k' & -> & Ho & Hs).
    + intros key' v' Hin. apply (Hv key' v'). by right.
    + done.
    + intros g v' Hin. rewrite Hg, decide_False; [apply H1; by right|].
      intros ->. by apply (Hne f v' Hin).
    + intros g Hin. rewrite Hg. destruct (decide (g = f)) as [->|Hgf]; [done|]. apply H2.
      intros v' [E' | Hin']%elem_of_cons; [|by apply (Hin v')].
      injection E' as E' _. by apply Hgf, name_inj.
    + by exists k'.
  - rewrite E. cbn [rbind]. apply IH; [|done|..].
    + intros key' v' Hin. apply (Hv key' v'). by right.
    + intros f v' Hin. apply H1. by right.
    + intros f Hin. apply H2. intros v' [E' | Hin']%elem_of_cons; [|by apply (Hin v')].
      injection E' as E' _. by rewrite <- E', fieldOf_name in E.
Qed.

(** ** Round trips *)

#[local] Opaque kubeletConfigKnownFields.

(** No key of an object is a field's name in another case. *)
Definition noVariants (raw : gmap string value) : Prop :=
  map_Forall (fun key _ => key ∉ kubeletConfigKnownFields -> fieldOf key = None) raw.

(** The members of a text that is an object. *)
Definition textMembers (text : string) : gmap string value :=
  match scan text with Some v => members v | None => ∅ end.

(** The configuration after a round trip: an empty map is nil. *)
Definition dropEmpty (k : KubeletConfiguration) : KubeletConfiguration :=
  ofSlots (fun f => normSlot (getSlot k f)) (kc_Overflow k).

Lemma getSlot_ofSlots s o f : sameKind (getSlot zeroKubelet f) (s f) -> getSlot (ofSlots s o) f = s f.
Proof. destruct f; cbn; destruct (s _); done. Qed.

Lemma getSlot_norm k o f : getSlot (ofSlots (fun f => normSlot (getSlot k f)) o) f = normSlot (getSlot k f).
Proof. apply getSlot_ofSlots. destruct f; cbn; try done; by destruct (decide _). Qed.

Lemma UnmarshalJSON_inv data k :
  UnmarshalJSON data = Ok k ->
  exists v k0, scan data = Some v /\ kubeletOk k0 /\ kc_Overflow k0 = None
    /\ wf v = true /\ (depth v <= maxNestingDepth)%N /\ (v = VNull \/ exists ms, v = VObj ms)
    /\ k = if decide (unknown (members v) = ∅) then k0
           else set_Overflow (print (marshalRaw (unknown (members v)))) k0.
Proof.
  unfold UnmarshalJSON, unmarshalTyped, unmarshalRaw. destruct (scan data) as [v|] eqn:E; [|done].
  pose proof (scan_wf _ _ E) as [Hw Hd].
  assert (kubeletOk zeroKubelet) as Hz by (intros []; cbn; unfold minInt32, maxInt32; lia || done).
  destruct v as [| | | | |ms]; try done.
  - cbn [rbind]. intros H. exists VNull, zeroKubelet. split_and!; try done; [by left|].
    change (members VNull) with (entries (None : gomap value)).
    by destruct (decide (unknown (entries None) = ∅)); injection H as <-.
  - destruct (decodeMembers zeroKubelet ms) as [k0|] eqn:D; [|done]. cbn [rbind]. intros H.
    destruct (decodeMembers_ok _ _ _ Hz D) as [Hk Ho].
    exists (VObj ms), k0. split_and!; try done; [right; by exists ms|].
    cbn [members]. change (entries (Some (toMap ms))) with (toMap ms) in H.
    by destruct (decide (unknown (toMap ms) = ∅)); injection H as <-.
Qed.

(** Reading the typed fields of an object with what [structured] has for them. *)
Lemma retyped k ms text :
  kubeletOk k -> scan text = Some (VObj ms) -> NoDup (decoded ms).*1 ->
  (forall key v, (key, v) ∈ decoded ms -> key ∈ kubeletConfigKnownFields \/ fieldOf key = None) ->
  (forall f v, (name f, v) ∈ decoded ms ->
     exists v0, encodeSlot (getSlot k f) = Some v0 /\ (v = v0 \/ v = escape v0)) ->
  (forall f v0, encodeSlot (getSlot k f) = Some v0 -> exists v, (name f, v) ∈ decoded ms) ->
  unmarshalTyped text = Ok (ofSlots (fun f => normSlot (getSlot k f)) None).
Proof.
  intros Hk Hs Hd Hv H1 H2. unfold unmarshalTyped. rewrite Hs.
  destruct (decodeMembers_exact (fun f => normSlot (getSlot k f)) ms zeroKubelet) as (k' & -> & Ho & Hf); try done.
  - intros f v Hin. destruct (H1 f v Hin) as (v0 & E & Hv0). rewrite (getSlot_zero k).
    pose proof (decode_encodeSlot _ _ (Hk f) E) as [? ?]. by destruct Hv0 as [-> | ->].
  - intros f Hin. rewrite (getSlot_zero k). symmetry. apply encodeSlot_None.
    destruct (encodeSlot (getSlot k f)) as [v0|] eqn:E; [|done].
    destruct (H2 f v0 E) as (v & Hv'). by destruct (Hin v).
  - f_equal. apply slots_ext; [|done]. intros f. by rewrite Hf, getSlot_norm.
Qed.

(** A configuration without overflow is written as its typed fields. *)
Lemma reread_typed k :
  kubeletOk k -> kc_Overflow k = None ->
  let text := print (VObj (structured k)) in
  MarshalJSON k = Some (Ok text) /\ textMembers text = toMap (structured k)
  /\ UnmarshalJSON text = Ok (dropEmpty k).
Proof.
  intros Hk Ho text. pose proof (scan_structured k) as Hs. fold text in Hs. split_and!.
  - unfold MarshalJSON. rewrite Ho. by rewrite decide_True.
  - unfold textMembers. by rewrite Hs.
  - unfold UnmarshalJSON. rewrite (retyped k (structured k) text Hk Hs (structured_NoDup k)).
    + cbn [rbind]. unfold unmarshalRaw. rewrite Hs. cbn [rbind].
      change (entries (Some ?m)) with m. rewrite decide_True; [by rewrite <- Ho|].
      apply map_eq. intros key. rewrite unknown_lookup, lookup_empty. destruct (decide _) as [|Hn]; [done|].
      destruct (toMap (structured k) !! key) eqn:E; [|done]. by apply structured_known in E.
    + intros key v H. rewrite structured_decoded in H. apply structured_elem in H as (f & -> & _).
      left. apply name_known.
    + intros f v H. rewrite structured_decoded in H. apply structured_elem in H as (g & <-%name_inj & H).
      exists v. split; [done | by left].
    + intros f v H. exists v. rewrite structured_decoded. apply structured_elem. by exists f.
Qed.

(** What [marshalRaw] writes can be read back. *)
Definition shallow (m : gmap string value) : Prop :=
  map_Forall (fun _ v => wf v = true /\ 1 + depth v <= maxNestingDepth)%N m.

Lemma scan_marshalRaw m : shallow m -> scan (print (marshalRaw m)) = Some (marshalRaw m).
Proof.
  intros H. apply scan_print.
  - apply wf_marshalRaw. intros key v Hv. by destruct (H key v Hv).
  - etrans; [apply (depth_marshalRaw m (maxNestingDepth - 1))|by vm_compute].
    intros key v Hv. destruct (H key v Hv). lia.
Qed.

Lemma unmarshalRaw_marshalRaw m : shallow m -> unmarshalRaw (print (marshalRaw m)) = Ok (Some (escape <$> m)).
Proof.
  intros H. unfold unmarshalRaw. rewrite scan_marshalRaw by done.
  change (Ok (Some (members (marshalRaw m))) = Ok (Some (escape <$> m))). by rewrite members_marshalRaw.
Qed.

Lemma shallow_escape m : shallow m -> shallow (escape <$> m).
Proof.
  intros H. intros key v E. rewrite lookup_fmap in E.
  destruct (m !! key) as [v0|] eqn:E0; [|done]. injection E as <-. destruct (H key v0 E0) as [Hw Hd].
  rewrite depth_escape. split; [by apply wf_escape | done].
Qed.

Lemma shallow_structured k : shallow (toMap (structured k)).
Proof.
  intros key v E. pose proof (structured_known _ _ _ E) as (f & ->)%known_name.
  rewrite structured_lookup in E. apply encodeSlot_wf in E as [Hw Hd]. split; [done|].
  assert (2 <= maxNestingDepth)%N by (by vm_compute). lia.
Qed.

Lemma shallow_union m m' : shallow m -> shallow m' -> shallow (m ∪ m').
Proof. intros H H'. by apply map_Forall_union_2. Qed.

Section overflow.
Context (k : KubeletConfiguration) (u : gmap string value).
Context (Hk : kubeletOk k) (Hu : u <> ∅) (Hs : shallow u).
Context (Hn : map_Forall (fun key _ => key ∉ kubeletConfigKnownFields) u).
Context (Ho : kc_Overflow k = Some (String.list_ascii_of_string (print (marshalRaw u)))).

Definition merged : gmap string value := toMap (structured k) ∪ (escape <$> u).

Lemma shallow_merged : shallow merged.
Proof. apply shallow_union; [apply shallow_structured | by apply shallow_escape]. Qed.

Lemma marshal_merged : MarshalJSON k = Some (Ok (print (marshalRaw merged))).
Proof.
  unfold MarshalJSON, overflowText. rewrite Ho.
  change (elems (Some ?l)) with l. rewrite decide_False by (by cbn).
  rewrite String.string_of_list_ascii_of_string.
  rewrite unmarshalRaw_marshalRaw by done. unfold unmarshalRaw. rewrite scan_structured. done.
Qed.

Lemma merged_known f : merged !! name f = encodeSlot (getSlot k f).
Proof.
  unfold merged. rewrite lookup_union, lookup_fmap, structured_lookup.
  destruct (u !! name f) as [v|] eqn:E; [|by destruct (encodeSlot _)].
  by destruct (Hn _ _ E (name_known f)).
Qed.

Lemma merged_unknown key : key ∉ kubeletConfigKnownFields -> merged !! key = escape <$> u !! key.
Proof.
  intros H. unfold merged. rewrite lookup_union, lookup_fmap.
  destruct (toMap (structured k) !! key) eqn:E; [by apply structured_known in E|].
  by destruct (u !! key).
Qed.

Lemma unknown_merged : unknown (escape <$> merged) = escape <$> u.
Proof.
  apply map_eq. intros key. rewrite unknown_lookup, !lookup_fmap. destruct (decide _) as [Hin|Hin].
  - destruct (u !! key) as [v|] eqn:E; [|done]. by destruct (Hn _ _ E Hin).
  - rewrite merged_unknown by done. destruct (u !! key) as [v|]; [|done]. cbn. by rewrite escape_idempotent.
Qed.

Lemma reread_merged : noVariants u -> UnmarshalJSON (print (marshalRaw merged)) = Ok (dropEmpty k).
Proof.
  intros Hv. unfold UnmarshalJSON.
  assert (Hd : forall key v, (key, v) ∈ sortedEntries (escape <$> merged) <->
            exists v0, merged !! key = Some v0 /\ v = escape v0).
  { intros key v. rewrite sortedEntries_elem, lookup_fmap. destruct (merged !! key) as [v0|]; cbn.
    - split; [intros [= <-]; by exists v0 | by intros (? & [= <-] & ->)].
    - split; [done | by intros (? & ? & _)]. }
  rewrite (retyped k (map (fun kv => (quoteBody kv.1, escape kv.2)) (sortedEntries merged)) _ Hk);
    rewrite ?decoded_marshalRaw.
  - cbn [rbind]. rewrite unmarshalRaw_marshalRaw by apply shallow_merged. cbn [rbind].
    change (entries (Some ?m)) with m. rewrite unknown_merged, decide_False.
    + rewrite marshalRaw_escape. f_equal. apply slots_ext; [|by cbn; rewrite Ho].
      intros f. rewrite getSlot_Overflow. unfold dropEmpty. by rewrite !getSlot_norm.
    + intros E. apply Hu. by apply (fmap_empty_inv (M := gmap string)) in E.
  - exact (scan_marshalRaw merged shallow_merged).
  - apply sortedEntries_NoDup.
  - intros key v (v0 & E & _)%Hd. destruct (decide (key ∈ kubeletConfigKnownFields)) as [|Hin]; [by left|right].
    rewrite merged_unknown in E by done. destruct (u !! key) as [w|] eqn:Eu; [|done]. by apply (Hv key w).
  - intros f v (v0 & E & ->)%Hd. rewrite merged_known in E. exists v0. split; [done | by right].
  - intros f v0 E. exists (escape v0). apply Hd. exists v0. by rewrite merged_known.
Qed.

End overflow.

(** C28. What the JSON of the kubelet configuration keeps.  A configuration that was
    read can be written, without an error or a panic; the text has every member of
    the one that was read that is not a typed field, with its value, and exactly the
    typed fields that are set.  When no member that was read is a field's name in
    another case ([noVariants]), reading the text again gives the configuration back,
    with the maps that were empty now nil ([dropEmpty]); with such a member the
    configuration that is read back may differ: [case_variant_not_stable] loses a
    quota. *)
Theorem kubelet_json_lossless data k :
  UnmarshalJSON data = Ok k ->
  exists text, MarshalJSON k = Some (Ok text)
    /\ (forall key, key ∉ kubeletConfigKnownFields ->
          textMembers text !! key = escape <$> textMembers data !! key)
    /\ (forall f, escape <$> textMembers text !! name f = escape <$> encodeSlot (getSlot k f))
    /\ (noVariants (textMembers data) -> UnmarshalJSON text = Ok (dropEmpty k)).
Proof.
  intros (v & k0 & E & Hk & Ho & Hw & Hd & Hv & ->)%UnmarshalJSON_inv.
  assert (textMembers data = members v) as -> by (unfold textMembers; by rewrite E).
  set (u := unknown (members v)).
  assert (Hu : forall key, key ∉ kubeletConfigKnownFields -> u !! key = members v !! key).
  { intros key H. unfold u. by rewrite unknown_lookup, decide_False. }
  destruct (decide (u = ∅)) as [Hu0|Hu0].
  - destruct (reread_typed k0 Hk Ho) as (Hm & Ht & Hr). eexists. split; [exact Hm|]. rewrite Ht. split_and!.
    + intros key H. rewrite <- Hu, Hu0, lookup_empty by done.
      destruct (toMap (structured k0) !! key) eqn:Es; [by apply structured_known in Es | done].
    + intros f. by rewrite structured_lookup.
    + intros _. exact Hr.
  - set (k := set_Overflow (print (marshalRaw u)) k0).
    assert (kubeletOk k) as Hk' by (intros f; unfold k; rewrite getSlot_Overflow; apply Hk).
    assert (Hin : forall key w, u !! key = Some w -> key ∉ kubeletConfigKnownFields /\ members v !! key = Some w).
    { intros key w. unfold u. rewrite unknown_lookup. by destruct (decide _). }
    assert (shallow u) as Hs.
    { destruct Hv as [-> | [ms ->]]; [done|]. intros key w [_ Hmw]%Hin. cbn [members] in Hmw. split.
      - by apply (wf_toMap ms Hw key).
      - by apply (depth_toMap ms _ Hd key). }
    assert (map_Forall (fun key _ => key ∉ kubeletConfigKnownFields) u) as Hn by (by intros key w [? _]%Hin).
    eexists. split; [by apply (marshal_merged k u)|].
    assert (textMembers (print (marshalRaw (merged k u))) = escape <$> merged k u) as ->.
    { unfold textMembers. rewrite scan_marshalRaw by (by apply shallow_merged). apply members_marshalRaw. }
    split_and!.
    + intros key H. rewrite lookup_fmap, merged_unknown, Hu by done.
      destruct (members v !! key) as [w|]; [|done]. cbn. by rewrite escape_idempotent.
    + intros f. rewrite lookup_fmap, merged_known by done.
      destruct (encodeSlot _) as [w|]; [|done]. cbn. by rewrite escape_idempotent.
    + intros Hvar. apply reread_merged; try done. intros key w [_ Hmw]%Hin Hkey. by apply (Hvar key w).
Qed.

Lemma kubelet_json_lossless_witness :
  let data := apostrophes "{ 'cpuManagerPolicy': 'static', 'maxPods': 250, 'evictionHard': {'memory.available': '5%'} }" in
  exists k text, UnmarshalJSON data = Ok k /\ kc_MaxPods k = 250%Z
    /\ MarshalJSON k = Some (Ok text)
    /\ textMembers text !! "cpuManagerPolicy" = Some (VStr "static")
    /\ UnmarshalJSON text = Ok (dropEmpty k).
Proof.
  intros data. destruct (UnmarshalJSON data) as [k|e] eqn:E; [|by vm_compute in E].
  destruct (kubelet_json_lossless data k E) as (text & H1 & H2 & _ & H3).
  exists k, text. split_and!; [done| |exact H1| |].
  - vm_compute in E. injection E as <-. reflexivity.
  - rewrite H2; [by vm_compute|]. apply (bool_decide_unpack _). vm_compute. exact I.
  - apply H3. apply (bool_decide_unpack _). vm_compute. exact I.
Defined.
