(* ===== verification/KubeLemmas.v ===== *)
(** * Lemmas on the client helpers

    What [CreateOrUpdate], [SetControllerReference] and [deleteIfNeeded] do,
    whatever the API server answers. *)

From S2P Require Import Prelude Prog DeepEqual MetaV1 CoreTypes HyperTypes AwsV1 KarpenterV1 Kube.

(** Whether an event is a read of one object. *)
Definition readOf (ev : event eff) : bool := match ev_call ev with EGet _ _ _ => true | _ => false end.

(** ** Controller references *)

Lemma replaceOwnerRef_controller refs ref :
  or_Controller ref = Some true ->
  (forall e, List.find (fun r => default false (or_Controller r)) refs = Some e -> referSameObject e ref = true) ->
  List.find (fun r => default false (or_Controller r)) (replaceOwnerRef refs ref) = Some ref.
Proof.
  intros Hc. induction refs as [|r refs IH]; cbn; intros H; [by rewrite Hc|].
  destruct (referSameObject r ref) eqn:S; cbn; [by rewrite Hc|].
  destruct (default false (or_Controller r)); [|by apply IH].
  by rewrite (H r eq_refl) in S.
Qed.

(** The controller of an object is the owner it was set to. *)
Lemma SetControllerReference_Ok apiVersion kind owner m m' :
  SetControllerReference apiVersion kind owner m = Ok m' ->
  GetControllerOf m' =
    Some (mkOwnerReference apiVersion kind (om_Name owner) (om_UID owner) (Some true) (Some true))
  /\ exists refs, m' = om_set_OwnerReferences refs m.
Proof.
  unfold SetControllerReference. destruct (validateOwner owner m); [|done]. cbn [rbind].
  set (ref := mkOwnerReference _ _ _ _ _ _). unfold upsertOwnerRef.
  assert (H : (forall e, GetControllerOf m = Some e -> referSameObject e ref = true) ->
    GetControllerOf (om_set_OwnerReferences (Some (replaceOwnerRef (elems (om_OwnerReferences m)) ref)) m)
      = Some ref) by (intros He; by apply replaceOwnerRef_controller).
  destruct (GetControllerOf m) as [e|].
  - destruct (referSameObject e ref) eqn:S; [|done]. intros [= <-]. split; [|by eexists].
    apply H. by intros ? [= <-].
  - intros [= <-]. split; [by apply H | by eexists].
Qed.

Lemma replaceOwnerRef_again refs ref :
  referSameObject ref ref = true ->
  replaceOwnerRef (replaceOwnerRef refs ref) ref = replaceOwnerRef refs ref.
Proof.
  intros S. induction refs as [|r refs IH]; cbn; [by rewrite S|].
  destruct (referSameObject r ref) eqn:R; cbn; [by rewrite S | by rewrite R, IH].
Qed.

(** Setting the controller again changes nothing, for a well-formed API
    version. *)
Lemma SetControllerReference_again apiVersion kind owner m m' :
  ParseGroup apiVersion <> None ->
  SetControllerReference apiVersion kind owner m = Ok m' ->
  SetControllerReference apiVersion kind owner m' = Ok m'.
Proof.
  intros Hg H. destruct (SetControllerReference_Ok _ _ _ _ _ H) as [Hc (refs & Hm)].
  set (ref := mkOwnerReference _ _ _ _ _ _) in Hc.
  assert (S : referSameObject ref ref = true).
  { unfold referSameObject, ref; cbn. destruct (ParseGroup apiVersion); [|done].
    by rewrite !bool_decide_true. }
  assert (Hn : om_Namespace m' = om_Namespace m) by by subst.
  unfold SetControllerReference in H |- *. rewrite Hc. fold ref in H |- *.
  replace (validateOwner owner m') with (validateOwner owner m) by (unfold validateOwner; by rewrite Hn).
  destruct (validateOwner owner m) as [u|]; [|done]. cbn [rbind] in *. rewrite S.
  assert (m' = upsertOwnerRef ref m) as ->.
  { destruct (GetControllerOf m); [destruct (referSameObject _ _)|]; congruence. }
  unfold upsertOwnerRef. cbn [om_set_OwnerReferences om_OwnerReferences elems default].
  unfold om_set_OwnerReferences at 1. cbn. by rewrite replaceOwnerRef_again.
Qed.

(** The owner that was set is read back. *)
Lemma SetControllerReference_stored apiVersion kind owner m m' x :
  ParseGroup apiVersion <> None ->
  SetControllerReference apiVersion kind owner m = Ok m' ->
  om_Namespace x = om_Namespace m' -> elems (om_OwnerReferences x) = elems (om_OwnerReferences m') ->
  SetControllerReference apiVersion kind owner x = Ok x.
Proof.
  intros Hg H Sn So. apply SetControllerReference_again in H; [|done].
  revert H. unfold SetControllerReference, validateOwner, GetControllerOf, upsertOwnerRef.
  rewrite Sn, So.
  destruct (if bool_decide _ then _ else _); [|done]. cbn [rbind].
  set (ref := mkOwnerReference _ _ _ _ _ _).
  assert (Hx : om_OwnerReferences m' = Some (replaceOwnerRef (elems (om_OwnerReferences m')) ref) ->
    om_set_OwnerReferences (Some (replaceOwnerRef (elems (om_OwnerReferences m')) ref)) x = x).
  { intros E.
    assert (elems (om_OwnerReferences m') = replaceOwnerRef (elems (om_OwnerReferences m')) ref) as El by by rewrite E at 1.
    rewrite <- El, <- So. destruct x as [? ? ? ? ? ? ? ? [l|] ?]; [done|]. cbn in So. by rewrite <- So in El. }
  destruct (List.find _ _); [destruct (referSameObject _ _); [|done]|];
    intros [= H]; f_equal; apply Hx; by rewrite <- H at 1.
Qed.

Lemma SetControllerReference_new apiVersion kind owner ns name :
  om_Namespace owner = "" \/ om_Namespace owner = ns ->
  exists m, SetControllerReference apiVersion kind owner (newMeta ns name) = Ok m.
Proof.
  intros H. unfold SetControllerReference, validateOwner. cbn [newMeta om_Namespace].
  case_bool_decide as E; [by eexists|]. destruct H as [|H]; [done|]. subst ns.
  rewrite (bool_decide_false (om_Namespace owner = "")), bool_decide_true by done. by eexists.
Qed.

(** ** CreateOrUpdate *)

Lemma mutate_Ok {k} (f : obj k -> result (obj k)) key base o' :
  mutate f key base = Ok o' -> f base = Ok o' /\ ObjectKeyFromObject (meta_of o') = key.
Proof.
  unfold mutate. destruct (f base) as [b|]; [|done]. cbn [rbind]. case_decide; [|done].
  by intros [= ->].
Qed.

Section createOrUpdate.
Context (c : cluster) (k : kind) (o : obj k) (f : obj k -> result (obj k)).
Let key := ObjectKeyFromObject (meta_of o).

Lemma guarded_CreateOrUpdate (G : trace eff -> forall X, eff X -> Prop) t :
  G t _ (EGet c k key) ->
  (forall err o', IsNotFound err = true -> mutate f key o = Ok o' ->
     G (t ++ [Ev (EGet c k key) (Err err)]) _ (ECreate c k o')) ->
  (forall existing o', mutate f key existing = Ok o' -> SemanticDeepEqual existing o' = false ->
     G (t ++ [Ev (EGet c k key) (Ok existing)]) _ (EUpdate c k o')) ->
  guarded G t (CreateOrUpdate c k o f).
Proof.
  intros HG HC HU. unfold CreateOrUpdate. fold key. split; [done|]. intros [existing|err]; cbn.
  - destruct (mutate f key existing) as [o'|] eqn:M; [|done].
    destruct (SemanticDeepEqual existing o') eqn:D; [done|]. split; [by apply HU|]. by intros [|].
  - destruct (IsNotFound err) eqn:N; cbn; [|done].
    destruct (mutate f key o) as [o'|] eqn:M; [|done]. split; [by apply HC|]. by intros [|].
Qed.

(** What a successful call did: nothing, or one write of the mutated object. *)
Lemma CreateOrUpdate_runs t :
  all_runs (CreateOrUpdate c k o f) t (fun t' r =>
    exists x t1, t' = t ++ Ev (EGet c k key) x :: t1 /\
    match r with
    | Err _ => True
    | Ok (op, res) =>
        match x with
        | Ok existing => exists o', mutate f key existing = Ok o' /\
            ((SemanticDeepEqual existing o' = true /\ t1 = [] /\ op = OperationResultNone /\ res = o')
             \/ (t1 = [Ev (EUpdate c k o') (Ok res)] /\ op = OperationResultUpdated))
        | Err err => IsNotFound err = true /\ exists o', mutate f key o = Ok o'
            /\ t1 = [Ev (ECreate c k o') (Ok res)] /\ op = OperationResultCreated
        end
    end).
Proof.
  unfold CreateOrUpdate. fold key. intros [existing|err]; cbn [mbind prog_bind].
  - destruct (mutate f key existing) as [o'|] eqn:M; [|by repeat eexists].
    destruct (SemanticDeepEqual existing o') eqn:D; cbn [all_runs].
    + eexists _, []. split; [done|]. exists o'. split; [done|]. by left.
    + intros [res|e]; cbn; (eexists _, [_]; split; [by rewrite <- app_assoc|]); [|done].
      exists o'. split; [done|]. by right.
  - destruct (IsNotFound err) eqn:N; cbn [negb]; [|by repeat eexists].
    destruct (mutate f key o) as [o'|] eqn:M; [|by repeat eexists].
    intros [res|e]; cbn; (eexists _, [_]; split; [by rewrite <- app_assoc|]); [|done].
    split; [done|]. by exists o'.
Qed.

End createOrUpdate.

(** ** Objects that are kept as a function wants them *)

(** The object of the kind that the function [f] asks for under [key] is in the
    cluster: it was found so, up to nil and empty values, or written. *)
Definition ensured (c : cluster) (k : kind) (f : obj k -> result (obj k)) (key : ObjectKey) (t : trace eff) : Prop :=
  exists base o : obj k, f base = Ok o /\ ObjectKeyFromObject (meta_of o) = key /\
    ((Ev (EGet c k key) (Ok base) ∈ t /\ SemanticDeepEqual base o = true)
     \/ (exists stored, Ev (ECreate c k o) (Ok stored) ∈ t)
     \/ exists stored, Ev (EUpdate c k o) (Ok stored) ∈ t).

Lemma ensured_app c k f key t t' : ensured c k f key t -> ensured c k f key (t ++ t').
Proof.
  intros (b & o & Hf & Hk & H). exists b, o. split; [done|]. split; [done|].
  destruct H as [[H Hs]|[[s H]|[s H]]]; [left; split; [|done] | right; left; exists s | right; right; exists s];
    apply elem_of_app; by left.
Qed.

Lemma CreateOrUpdate_ensures c k (o : obj k) f t :
  all_runs (CreateOrUpdate c k o f) t (fun t' r =>
    (exists t1, t' = t ++ t1) /\
    forall x, r = Ok x -> ensured c k f (ObjectKeyFromObject (meta_of o)) t').
Proof.
  apply all_runs_and; [apply all_runs_suffix|].
  eapply all_runs_mono; [apply CreateOrUpdate_runs|].
  intros t' [[op res]|e] (x & t1 & -> & H); [|done]. intros ? [= <-].
  destruct x as [old|err].
  - destruct H as (o' & [M K]%mutate_Ok & [(D & -> & _ & _)|[-> _]]); exists old, o'; (split; [done|]; split; [done|]).
    + left. split; [apply last_elem | done].
    + right; right. exists res. apply elem_of_app; right. set_solver.
  - destruct H as (_ & o' & [M K]%mutate_Ok & -> & _). exists o, o'. split; [done|]. split; [done|].
    right; left. exists res. apply elem_of_app; right. set_solver.
Qed.

(** The only writes of a [CreateOrUpdate] are of what the function asks for. *)
Definition writesOnly (c : cluster) (key : ObjectKey) (k : kind) (f : obj k -> result (obj k))
    (t : trace eff) (X : Type) (e : eff X) : Prop :=
  match e with
  | EGet _ _ _ | EList _ _ _ => True
  | ECreate c' k' o | EUpdate c' k' o =>
      c' = c /\ exists H : k' = k, exists base : obj k,
        f base = Ok (eq_rect k' obj o k H) /\ ObjectKeyFromObject (meta_of o) = key
  | _ => False
  end.

Lemma CreateOrUpdate_writesOnly c k (o : obj k) f t :
  guarded (writesOnly c (ObjectKeyFromObject (meta_of o)) k f) t (CreateOrUpdate c k o f).
Proof.
  apply guarded_CreateOrUpdate; [done|..].
  - intros err o' _ [M K]%mutate_Ok. split; [done|]. by exists eq_refl, o.
  - intros old o' [M K]%mutate_Ok _. split; [done|]. by exists eq_refl, old.
Qed.

(** ** deleteIfNeeded *)

Section deleteIfNeeded.
Context (c : cluster) (k : kind) (o : obj k).
Let key := ObjectKeyFromObject (meta_of o).

Lemma guarded_deleteIfNeeded (G : trace eff -> forall X, eff X -> Prop) t :
  G t _ (EGet c k key) ->
  (forall o', om_DeletionTimestamp (meta_of o') = None ->
     G (t ++ [Ev (EGet c k key) (Ok o')]) _ (EDelete c k o' None)) ->
  guarded G t (deleteIfNeeded c k o).
Proof.
  intros HG HD. unfold deleteIfNeeded. fold key. split; [done|]. intros [o'|err]; cbn.
  - case_decide as D; [done|]. split; [|intros [[]|e]; cbn; [done | by destruct (IsNotFound e)]].
    apply HD. by destruct (om_DeletionTimestamp _).
  - by destruct (_ || _).
Qed.

Lemma deleteIfNeeded_runs t :
  all_runs (deleteIfNeeded c k o) t (fun t' r =>
    exists x t1, t' = t ++ Ev (EGet c k key) x :: t1 /\
    match r with
    | Err _ => True
    | Ok exists_ =>
        match x with
        | Err err => exists_ = false /\ t1 = [] /\ IsNotFound err || IsNoMatchError err = true
        | Ok o' =>
            (exists_ = true /\ t1 = [] /\ om_DeletionTimestamp (meta_of o') <> None)
            \/ om_DeletionTimestamp (meta_of o') = None /\ exists y,
                 t1 = [Ev (EDelete c k o' None) y]
                 /\ match y with
                    | Ok _ => exists_ = true
                    | Err err => exists_ = false /\ IsNotFound err = true
                    end
        end
    end).
Proof.
  unfold deleteIfNeeded. fold key. intros [o'|err]; cbn [mbind prog_bind].
  - case_decide as D; cbn [all_runs].
    + eexists _, []. split; [done|]. left. done.
    + assert (om_DeletionTimestamp (meta_of o') = None) as D' by (by destruct (om_DeletionTimestamp _)).
      intros [[]|e]; cbn.
      * eexists _, [_]. split; [by rewrite <- app_assoc|]. right. split; [done|]. by eexists.
      * destruct (IsNotFound e) eqn:N; cbn; eexists _, [_]; (split; [by rewrite <- app_assoc|]); [|done].
        right. split; [done|]. by eexists.
  - destruct (_ || _) eqn:N; cbn [all_runs]; eexists _, []; (split; [done|]); done.
Qed.

End deleteIfNeeded.
