(* ===== verification/ConditionsAdmission.v ===== *)
(** * Are the conditions the operator writes admitted?

    [SyncConditions] against the schema of metav1.Condition and of the lists of
    conditions of both NodeClasses. *)

From S2P Require Import Prelude DeepEqual MetaV1 Regexp CrdSchema NodeClassStatus.

(** The written condition has the content of the new one, the old time perhaps. *)
Lemma condition_content c c' :
  c_Type c' = c_Type c -> c_Status c' = c_Status c -> c_ObservedGeneration c' = c_ObservedGeneration c ->
  c_Reason c' = c_Reason c -> c_Message c' = c_Message c -> condition c' = condition c.
Proof. unfold condition. by intros -> -> -> -> ->. Qed.

Lemma setCondition_admitted now cs c :
  forallb condition cs = true -> condition c = true -> forallb condition (setCondition now cs c) = true.
Proof.
  intros H Hc. induction cs as [|d cs IH]; cbn [setCondition forallb] in *.
  - rewrite andb_true_r. rewrite <- Hc. apply condition_content; unfold initCondition; by destruct (IsZeroTime _).
  - apply andb_true_iff in H as [Hd H]. case_decide as E; cbn [forallb]; [|by rewrite Hd, IH].
    rewrite H, andb_true_r. rewrite <- Hc. by apply condition_content.
Qed.

Lemma RemoveStatusCondition_admitted (cs : slice Condition) t :
  forallb condition (elems cs) = true -> forallb condition (elems (RemoveStatusCondition cs t)) = true.
Proof.
  destruct cs as [[|c cs]|]; [done| |done]. cbn [RemoveStatusCondition elems default from_option id].
  rewrite !forallb_elem. intros H x [_ Hx]%list_elem_of_filter. by apply H.
Qed.

Lemma Find_admitted cs t c : forallb condition cs = true -> FindStatusCondition cs t = Some c -> condition c = true.
Proof.
  rewrite forallb_elem. intros H E. apply H. unfold FindStatusCondition in E.
  apply find_some in E as [E _]. by apply list_elem_of_In.
Qed.

Lemma syncLoop_admitted clock i result pr cs :
  forallb condition cs = true -> forallb condition (elems result) = true ->
  (forall c, pr = Some c -> condition c = true) ->
  let '(_, result', pr') := syncLoop clock i result pr cs in
  forallb condition (elems result') = true /\ forall c, pr' = Some c -> condition c = true.
Proof.
  revert i result pr; induction cs as [|c cs IH]; intros i result pr H Hr Hp; cbn [syncLoop]; [done|].
  cbn in H. apply andb_true_iff in H as [Hc H]. case_decide.
  - apply IH; [done..|]. by intros ? [= <-].
  - apply IH; [done| |done]. by apply setCondition_admitted.
Qed.

(** The message of a NodeClass that is not ready quotes the one of VersionResolved. *)
Definition quotable (cs : list Condition) : Prop :=
  match FindStatusCondition cs ConditionTypeVersionResolved with
  | Some v => c_Status v = ConditionTrue \/ (Z.of_nat (runeCount (c_Message v)) <= 32741)%Z
  | None => True
  end.

Lemma runeCount_app s t : runeCount (s +:+ t) = runeCount s + runeCount t.
Proof. induction s as [|c s IH]; [done|]. rewrite str_cons_app. cbn [runeCount]. rewrite IH. lia. Qed.

Lemma notReady_admitted v generation :
  condition v = true -> (0 <= generation)%Z ->
  condition (notReady (Some v) generation) = true <-> (Z.of_nat (runeCount (c_Message v)) <= 32741)%Z.
Proof.
  intros Hv Hg. unfold condition in *. conjuncts. cbn [notReady c_Type c_Status c_ObservedGeneration c_Reason c_Message].
  rewrite !andb_true_iff. unfold maxLength at 3. rewrite runeCount_app, Z.leb_le.
  change (runeCount "Version resolution failed: ") with 27. unfold minimum. rewrite Nat2Z.inj_add, Z.leb_le.
  split; [lia|]. intros Hm. repeat split; try done. lia.
Qed.

Lemma notReady_unknown_admitted generation :
  (0 <= generation)%Z -> condition (notReady None generation) = true.
Proof.
  intros Hg. unfold condition. cbn [notReady c_Type c_Status c_ObservedGeneration c_Reason c_Message].
  unfold minimum. rewrite (proj2 (Z.leb_le _ _) Hg). vm_compute. reflexivity.
Qed.

Lemma Ready_not_VersionResolved : ConditionTypeReady <> ConditionTypeVersionResolved.
Proof. by vm_compute. Qed.

Lemma setResult_admitted now cs c :
  condition (setResult now (FindStatusCondition cs (c_Type c)) c) = condition c.
Proof.
  destruct (setResult_fields now (FindStatusCondition cs (c_Type c)) c) as (? & ? & ? & ?).
  apply condition_content; try done. destruct (FindStatusCondition cs (c_Type c)) as [d|] eqn:F; cbn.
  - unfold FindStatusCondition in F. apply find_some in F as [_ F]. by apply bool_decide_eq_true in F.
  - apply c_Type_init.
Qed.

Lemma Find_set_same now result c :
  FindStatusCondition (elems (SetStatusCondition now result c)) (c_Type c) =
    Some (setResult now (FindStatusCondition (elems result) (c_Type c)) c).
Proof. unfold SetStatusCondition. change (elems (Some ?l)) with l. by rewrite FindStatusCondition_set, decide_True. Qed.

Lemma Find_VersionResolved_set now result c :
  c_Type c = ConditionTypeReady ->
  FindStatusCondition (elems (SetStatusCondition now result c)) ConditionTypeVersionResolved =
    FindStatusCondition (elems result) ConditionTypeVersionResolved.
Proof.
  intros E. cbn [SetStatusCondition elems default from_option id]. rewrite FindStatusCondition_set, E.
  by rewrite decide_False by apply Ready_not_VersionResolved.
Qed.

(** What [SyncConditions] writes is admitted unless it quotes too much. *)
Lemma SyncConditions_admitted clock old cs generation :
  forallb condition (elems old) = true -> forallb condition cs = true -> (0 <= generation)%Z ->
  let written := elems (SyncConditions clock old cs generation) in
  quotable written -> forallb condition written = true.
Proof.
  intros Ho Hc Hg. unfold SyncConditions.
  pose proof (syncLoop_admitted clock 0 old None cs Hc Ho ltac:(done)) as L.
  pose proof (syncLoop_providerReady clock 0 old None cs) as R.
  destruct (syncLoop clock 0 old None cs) as [[i result] pr]. destruct L as [Hr Hp]. cbn [snd] in R.
  unfold isVersionResolved. cbv zeta.
  destruct (FindStatusCondition (elems result) ConditionTypeVersionResolved) as [v|] eqn:V.
  - case_bool_decide as T.
    + destruct pr as [ready|]; [|done]. intros _. apply setCondition_admitted; [done | by apply Hp].
    + unfold quotable. rewrite Find_VersionResolved_set, V by done. intros [?|Q]; [done|].
      apply setCondition_admitted; [done|]. apply notReady_admitted; [by eapply Find_admitted | done | done].
  - intros _. apply setCondition_admitted; [done | by apply notReady_unknown_admitted].
Qed.

Lemma SyncConditions_quotable clock old cs generation :
  forallb condition (elems old) = true -> forallb condition cs = true -> (0 <= generation)%Z ->
  let written := elems (SyncConditions clock old cs generation) in
  (forall c, FindStatusCondition written ConditionTypeReady = Some c -> condition c = true) -> quotable written.
Proof.
  intros Ho Hc Hg. unfold SyncConditions.
  pose proof (syncLoop_admitted clock 0 old None cs Hc Ho ltac:(done)) as L.
  pose proof (syncLoop_providerReady clock 0 old None cs) as R.
  destruct (syncLoop clock 0 old None cs) as [[i result] pr]. destruct L as [Hr Hp]. cbn [snd] in R.
  unfold isVersionResolved, quotable. cbv zeta.
  destruct (FindStatusCondition (elems result) ConditionTypeVersionResolved) as [v|] eqn:V.
  - case_bool_decide as T.
    + intros _. assert (FindStatusCondition (elems match pr with Some ready => SetStatusCondition (clock i) result ready
                        | None => result end) ConditionTypeVersionResolved = Some v) as ->; [|by left].
      destruct pr as [ready|]; [|done]. rewrite Find_VersionResolved_set; [done|].
      destruct (FindStatusCondition (rev cs) ConditionTypeReady) as [c|] eqn:F; [|done]. injection R as ->.
      unfold FindStatusCondition in F. apply find_some in F as [_ F]. by apply bool_decide_eq_true in F.
    + rewrite Find_VersionResolved_set, V by done. intros H. right.
      specialize (H _ (Find_set_same (clock i) result (notReady (Some v) generation))).
      rewrite setResult_admitted in H. by apply notReady_admitted in H; [|by eapply Find_admitted|].
  - by rewrite Find_VersionResolved_set, V by done.
Qed.

(** One of the two conditions is always there. *)
Definition synchronised (cs : list Condition) : Prop :=
  is_Some (FindStatusCondition cs ConditionTypeReady) \/ is_Some (FindStatusCondition cs ConditionTypeVersionResolved).

Lemma SyncConditions_synchronised clock old cs generation :
  synchronised (elems (SyncConditions clock old cs generation)).
Proof.
  unfold SyncConditions, synchronised. pose proof (syncLoop_providerReady clock 0 old None cs) as R.
  destruct (syncLoop clock 0 old None cs) as [[i result] pr]. cbn [snd] in R. unfold isVersionResolved. cbv zeta.
  assert (N : forall v, c_Type (notReady v generation) = ConditionTypeReady) by by intros [].
  destruct (FindStatusCondition (elems result) ConditionTypeVersionResolved) as [v|] eqn:V.
  - case_bool_decide; [|left; rewrite <- (N (Some v)), Find_set_same; by eexists].
    right. destruct pr as [ready|]; [|by rewrite V]. rewrite Find_VersionResolved_set; [by rewrite V|].
    destruct (FindStatusCondition (rev cs) ConditionTypeReady) as [c|] eqn:F; [|done]. injection R as ->.
    unfold FindStatusCondition in F. apply find_some in F as [_ F]. by apply bool_decide_eq_true in F.
  - left. rewrite <- (N None), Find_set_same. by eexists.
Qed.

Lemma synchronised_hasList (cs : slice Condition) : synchronised (elems cs) -> hasList cs = true.
Proof. unfold hasList, synchronised. destruct (elems cs); [|done]. by intros [[]|[]]. Qed.

(** ** The list *)

Lemma conditions_admitted (cs : slice Condition) :
  conditions_wf (elems cs) ->
  propertyList cs (fun l =>
    forallb condition l && bool_decide (NoDup (c_Type <$> l)) && minItems 1 l && maxItems 100 l) = true
    <-> forallb condition (elems cs) = true /\ length (elems cs) <= 100.
Proof.
  intros Hwf. unfold propertyList. destruct (elems cs) as [|x l] eqn:E; [split; [split; [done | cbn; lia] | done]|].
  change (minItems 1 (x :: l)) with true. unfold maxItems.
  rewrite (bool_decide_true _ Hwf), !andb_true_r, andb_true_iff, Nat.leb_le. done.
Qed.

Lemma conditions_of_admitted (cs : slice Condition) :
  propertyList cs (fun l =>
    forallb condition l && bool_decide (NoDup (c_Type <$> l)) && minItems 1 l && maxItems 100 l) = true ->
  forallb condition (elems cs) = true /\ conditions_wf (elems cs).
Proof.
  unfold propertyList. destruct (elems cs) as [|x l] eqn:E; [by split; [|constructor]|].
  intros H. conjuncts. split; [done|]. by eapply bool_decide_eq_true.
Qed.

Lemma Find_quotable cs cs' :
  FindStatusCondition cs' ConditionTypeVersionResolved = FindStatusCondition cs ConditionTypeVersionResolved ->
  quotable cs' <-> quotable cs.
Proof. unfold quotable. by intros ->. Qed.
