(* ===== verification/Ec2Convert.v ===== *)
(** * Conversion of the NodeClass spec

    pkg/controllers/nodeclass/ec2/karpenter_util.go and userdata.go: one function
    per field of the EC2NodeClass spec. *)

From S2P Require Import Prelude DeepEqual MetaV1 Quantity GoTime GoFormat CoreTypes AwsV1 KarpenterV1.

Definition ptrIfNonEmpty (s : string) : option string := if decide (s = "") then None else Some s.
Definition ptrIfNonZero (v : Z) : option Z := if decide (v = 0%Z) then None else Some v.

(** ** Enumerations *)

Definition deleteOnTerminationToBool (policy : string) : option bool :=
  if decide (policy = osv1.DeleteOnTerminationPolicyDelete) then Some true
  else if decide (policy = osv1.DeleteOnTerminationPolicyRetain) then Some false
  else None.

Definition encryptionStateToBool (state : string) : option bool :=
  if decide (state = osv1.EncryptionStateEncrypted) then Some true
  else if decide (state = osv1.EncryptionStateUnencrypted) then Some false
  else None.

Definition volumeTypeToKarpenter (vt : string) : option string :=
  if decide (vt = "") then None else Some (ToLower vt).

Definition karpenterInstanceStorePolicyFromNodeClassSpec (spec : osv1.OpenshiftEC2NodeClassSpec) :
    option string :=
  if decide (osv1.InstanceStorePolicy spec = "") then None else Some (osv1.InstanceStorePolicy spec).

Definition karpenterAssociatePublicIPAddressFromNodeClassSpec
    (spec : osv1.OpenshiftEC2NodeClassSpec) : option bool :=
  if decide (osv1.IPAddressAssociation spec = osv1.IPAddressAssociationPublic) then Some true
  else if decide (osv1.IPAddressAssociation spec = osv1.IPAddressAssociationSubnetDefault)
       then Some false
  else None.

Definition karpenterDetailedMonitoringFromNodeClassSpec (spec : osv1.OpenshiftEC2NodeClassSpec) :
    option bool :=
  if decide (osv1.Monitoring spec = osv1.MonitoringStateDetailed) then Some true
  else if decide (osv1.Monitoring spec = osv1.MonitoringStateBasic) then Some false
  else None.

Definition karpenterMetadataOptionsFromNodeClassSpec (spec : osv1.OpenshiftEC2NodeClassSpec) :
    option awsv1.MetadataOptions :=
  let mo := osv1.MetadataOptionsField spec in
  if decide (osv1.mo_Access mo = "" /\ osv1.mo_HTTPIPProtocol mo = ""
             /\ osv1.mo_HTTPPutResponseHopLimit mo = 0%Z /\ osv1.mo_HTTPTokens mo = "")
  then None
  else Some (awsv1.mkMetadataOptions
    (if decide (osv1.mo_Access mo = osv1.MetadataAccessHTTPEndpoint) then Some "enabled"
     else if decide (osv1.mo_Access mo = osv1.MetadataAccessNone) then Some "disabled" else None)
    (if decide (osv1.mo_HTTPIPProtocol mo = osv1.MetadataHTTPProtocolIPv6) then Some "enabled"
     else if decide (osv1.mo_HTTPIPProtocol mo = osv1.MetadataHTTPProtocolIPv4) then Some "disabled"
     else None)
    (if decide (osv1.mo_HTTPPutResponseHopLimit mo = 0%Z) then None
     else Some (osv1.mo_HTTPPutResponseHopLimit mo))
    (if decide (osv1.mo_HTTPTokens mo = osv1.MetadataHTTPTokensStateRequired) then Some "required"
     else if decide (osv1.mo_HTTPTokens mo = osv1.MetadataHTTPTokensStateOptional)
          then Some "optional" else None)).

(** ** Block devices *)

(** [fmt.Sprintf("%d", z)] *)
Definition showZ (z : Z) : string := pretty z.

(** [None] is the nil pointer; the panic of [MustParse] is an error. *)
Definition volumeSizeGiBToQuantity (sizeGiB : Z) : result (option Quantity) :=
  if decide (sizeGiB = 0%Z) then Ok None
  else
    let str := showZ sizeGiB +:+ "Gi" in
    match MustParse str with
    | Some q => Ok (Some q)
    | None => Err (EPanic ("cannot parse '" +:+ str +:+ "'"))
    end.

Definition karpenterBlockDeviceFromBlockDevice (bd : osv1.BlockDevice) : result awsv1.BlockDevice :=
  rbind (volumeSizeGiBToQuantity (osv1.bd_VolumeSizeGiB bd)) (fun volumeSize =>
  Ok (awsv1.mkBlockDevice
    (deleteOnTerminationToBool (osv1.bd_DeleteOnTermination bd))
    (encryptionStateToBool (osv1.bd_Encrypted bd))
    (osv1.bd_IOPS bd)
    (ptrIfNonEmpty (osv1.bd_KMSKeyID bd))
    (ptrIfNonEmpty (osv1.bd_SnapshotID bd))
    (osv1.bd_Throughput bd)
    None
    volumeSize
    (volumeTypeToKarpenter (osv1.bd_VolumeType bd)))).

Definition blockDeviceMapping (mapping : osv1.BlockDeviceMapping) : result awsv1.BlockDeviceMapping :=
  rbind (karpenterBlockDeviceFromBlockDevice (osv1.bdm_EBS mapping)) (fun ebs =>
  Ok (awsv1.mkBlockDeviceMapping
    (ptrIfNonEmpty (osv1.bdm_DeviceName mapping))
    (Some ebs)
    (bool_decide (osv1.bdm_RootVolume mapping = osv1.RootVolumeDesignationRootVolume)))).

(** A loop appending to a nil slice. *)
Fixpoint appendAll {A B} (f : A -> result B) (l : list A) (acc : slice B) : result (slice B) :=
  match l with
  | [] => Ok acc
  | x :: l' => rbind (f x) (fun y => appendAll f l' (go_append acc [y]))
  end.

Definition karpenterBlockDeviceMappingFromNodeClassSpec (spec : osv1.OpenshiftEC2NodeClassSpec) :
    result (slice awsv1.BlockDeviceMapping) :=
  match osv1.BlockDeviceMappings spec with
  | None => Ok None
  | Some mappings => appendAll blockDeviceMapping mappings None
  end.

(** ** Capacity reservations *)

Definition capacityReservationSelectorTerm (term : osv1.CapacityReservationSelectorTerm) :
    awsv1.CapacityReservationSelectorTerm :=
  awsv1.mkCapacityReservationSelectorTerm (osv1.crst_Tags term) (osv1.crst_ID term)
    (osv1.crst_OwnerID term) (ToLower (osv1.crst_InstanceMatchCriteria term)).

Definition karpenterCapacityReservationSelectorTermsFromNodeClassSpec
    (spec : osv1.OpenshiftEC2NodeClassSpec) : slice awsv1.CapacityReservationSelectorTerm :=
  match osv1.CapacityReservationSelectorTerms spec with
  | None => None
  | Some terms => fold_left (fun acc term => go_append acc [capacityReservationSelectorTerm term]) terms None
  end.

(** ** Kubelet *)

Definition evictionThresholdMapToStringMap (m : gomap string) : gomap string :=
  match m with
  | None => None
  | Some m => Some (rangeCopy Some (map_to_list m))
  end.

(** A duration that does not parse is left out. *)
Definition evictionSoftGracePeriodToDuration (m : gomap string) : gomap Z :=
  match m with
  | None => None
  | Some m => Some (rangeCopy ParseDuration (map_to_list m))
  end.

Definition karpenterKubeletConfigurationFromNodeClassSpec (spec : osv1.OpenshiftEC2NodeClassSpec) :
    option awsv1.KubeletConfiguration :=
  let k := osv1.Kubelet spec in
  if negb (osv1.HasTypedFields k) then None
  else Some (awsv1.mkKubelet
    None
    (ptrIfNonZero (osv1.kc_MaxPods k))
    (ptrIfNonZero (osv1.kc_PodsPerCore k))
    (osv1.kc_SystemReserved k)
    (osv1.kc_KubeReserved k)
    (evictionThresholdMapToStringMap (osv1.kc_EvictionHard k))
    (evictionThresholdMapToStringMap (osv1.kc_EvictionSoft k))
    (evictionSoftGracePeriodToDuration (osv1.kc_EvictionSoftGracePeriod k))
    (osv1.kc_EvictionMaxPodGracePeriod k)
    (osv1.kc_ImageGCHighThresholdPercent k)
    (osv1.kc_ImageGCLowThresholdPercent k)
    (osv1.kc_CPUCFSQuota k)).

(** ** userdata.go *)

Definition ArchitectureAMD64 : string := "amd64".
Definition ArchitectureARM64 : string := "arm64".
Definition supportedArchitectures : list string := [ArchitectureAMD64; ArchitectureARM64].

Definition archToAMILabelKey (arch : string) : string :=
  if decide (arch = ArchitectureAMD64) then osv1.UserDataAMILabel
  else osv1.UserDataAMILabel +:+ "-" +:+ arch.

Definition amiTerm (ami : string) : awsv1.AMISelectorTerm :=
  awsv1.mkAMISelectorTerm "" None ami "" "" "".

Definition amiSelectorTermsFromUserDataSecret (userDataSecret : Secret) :
    result (slice awsv1.AMISelectorTerm) :=
  let labels := entries (om_Labels (secret_meta userDataSecret)) in
  let terms := fold_left (fun terms arch =>
      match labels !! archToAMILabelKey arch with
      | Some ami => terms ++ [amiTerm ami]
      | None => terms
      end) supportedArchitectures [] in
  if decide (length terms = 0) then
    Err (ENew ("no AMIs found for supported architectures: [" +:+ Join supportedArchitectures " " +:+ "]"))
  else Ok (Some terms).

(** ** Volume sizes *)

Lemma volumeSize_value n : (0 <= n)%Z ->
  match volumeSizeGiBToQuantity n with
  | Ok None => n = 0%Z
  | Ok (Some q) => (0 < n)%Z /\ Value q = Z.min (n * 2 ^ 30) maxInt64 /\ q_Format q = BinarySI
  | Err _ => False
  end.
Proof.
  intros Hn. unfold volumeSizeGiBToQuantity. case_decide; [done|].
  destruct (MustParse_Gi n) as (q & E & Hf & Hv); [lia|]. unfold showZ. rewrite E.
  split; [lia|]. done.
Qed.

(** A positive volume size becomes the quantity of that many GiB: exactly
    n * 2^30 bytes for every size the CRD admits (1 to 65536) and in fact up to
    2^33 - 1 GiB, above which it is capped at the largest int64; the parser never
    panics, and zero is the nil quantity. *)
Theorem volumeSize_exact n :
  (0 <= n)%Z ->
  (n = 0%Z /\ volumeSizeGiBToQuantity n = Ok None) \/
  exists q, volumeSizeGiBToQuantity n = Ok (Some q) /\ q_Format q = BinarySI
    /\ Value q = (if decide (n < 2 ^ 33)%Z then n * 2 ^ 30 else maxInt64)%Z.
Proof.
  intros Hn. pose proof (volumeSize_value n Hn) as H.
  destruct (volumeSizeGiBToQuantity n) as [[q|]|e]; [right|by left|done].
  destruct H as (Hp & Hv & Hf). exists q. split; [done|]. split; [done|]. rewrite Hv.
  case_decide; unfold maxInt64; lia.
Qed.

(** ** No setting is lost *)

Definition oneOf (s : string) (l : list string) : Prop := s = "" \/ s ∈ l.

(** What the CRD admits, for the fields that are converted. *)
Record ValidBlockDevice (bd : osv1.BlockDevice) : Prop := {
  vbd_delete : oneOf (osv1.bd_DeleteOnTermination bd) ["Delete"; "Retain"];
  vbd_encrypted : oneOf (osv1.bd_Encrypted bd) ["Encrypted"; "Unencrypted"];
  vbd_size : (0 <= osv1.bd_VolumeSizeGiB bd <= 65536)%Z;
  vbd_type : oneOf (osv1.bd_VolumeType bd) ["Standard"; "IO1"; "IO2"; "GP2"; "SC1"; "ST1"; "GP3"] }.

Record ValidMapping (m : osv1.BlockDeviceMapping) : Prop := {
  vm_ebs : ValidBlockDevice (osv1.bdm_EBS m);
  vm_root : oneOf (osv1.bdm_RootVolume m) ["RootVolume"; "NotRootVolume"] }.

Record ValidSpec (spec : osv1.OpenshiftEC2NodeClassSpec) : Prop := {
  vs_ip : oneOf (osv1.IPAddressAssociation spec) ["Public"; "SubnetDefault"];
  vs_monitoring : oneOf (osv1.Monitoring spec) ["Detailed"; "Basic"];
  vs_access : oneOf (osv1.mo_Access (osv1.MetadataOptionsField spec)) ["HTTPEndpoint"; "None"];
  vs_protocol : oneOf (osv1.mo_HTTPIPProtocol (osv1.MetadataOptionsField spec)) ["IPv4"; "IPv6"];
  vs_tokens : oneOf (osv1.mo_HTTPTokens (osv1.MetadataOptionsField spec)) ["Required"; "Optional"];
  vs_mappings : osv1.BlockDeviceMappings spec <> Some [] /\
                Forall ValidMapping (elems (osv1.BlockDeviceMappings spec));
  vs_reservations : osv1.CapacityReservationSelectorTerms spec <> Some [] /\
                Forall (fun t => oneOf (osv1.crst_InstanceMatchCriteria t) ["Open"; "Targeted"])
                  (elems (osv1.CapacityReservationSelectorTerms spec)) }.

(** A function that tells the values of an enumeration apart. *)
Lemma oneOf_inj {A} `{EqDecision A} (f : string -> A) (l : list string) s1 s2 :
  NoDup (f <$> ("" :: l)) -> oneOf s1 l -> oneOf s2 l -> f s1 = f s2 -> s1 = s2.
Proof.
  intros Hnd H1 H2 E.
  assert (Hin : forall s, oneOf s l -> s ∈ "" :: l) by (intros s [-> | ?]; set_solver).
  apply Hin in H1, H2. apply list_elem_of_lookup in H1 as [i Hi], H2 as [j Hj].
  assert (i = j) as ->; [|congruence].
  eapply NoDup_lookup; [exact Hnd | |]; rewrite list_lookup_fmap.
  - by rewrite Hi.
  - cbn. by rewrite Hj, E.
Qed.

Ltac enum_inj f l :=
  apply (oneOf_inj f l); [by apply (bool_decide_unpack _) | done..].

Lemma ptrIfNonEmpty_inj s1 s2 : ptrIfNonEmpty s1 = ptrIfNonEmpty s2 -> s1 = s2.
Proof. unfold ptrIfNonEmpty. repeat case_decide; congruence. Qed.

Lemma volumeSize_inj n1 n2 q :
  (0 <= n1 <= 65536)%Z -> (0 <= n2 <= 65536)%Z ->
  volumeSizeGiBToQuantity n1 = Ok q -> volumeSizeGiBToQuantity n2 = Ok q -> n1 = n2.
Proof.
  intros H1 H2 E1 E2.
  pose proof (volumeSize_value n1 ltac:(lia)) as P1.
  pose proof (volumeSize_value n2 ltac:(lia)) as P2.
  rewrite E1 in P1. rewrite E2 in P2. destruct q as [q|]; [|congruence].
  destruct P1 as (_ & P1 & _), P2 as (_ & P2 & _). unfold maxInt64 in *. lia.
Qed.

Lemma blockDevice_inj bd1 bd2 r :
  ValidBlockDevice bd1 -> ValidBlockDevice bd2 ->
  karpenterBlockDeviceFromBlockDevice bd1 = Ok r ->
  karpenterBlockDeviceFromBlockDevice bd2 = Ok r -> bd1 = bd2.
Proof.
  intros [V1 V2 V3 V4] [W1 W2 W3 W4]. unfold karpenterBlockDeviceFromBlockDevice.
  destruct (volumeSizeGiBToQuantity (osv1.bd_VolumeSizeGiB bd1)) as [q1|] eqn:E1; [|done].
  destruct (volumeSizeGiBToQuantity (osv1.bd_VolumeSizeGiB bd2)) as [q2|] eqn:E2; [|done].
  cbn [rbind]. intros <- [= F1 F2 F3 F4 F5 F6 F7 F8]. subst.
  apply ptrIfNonEmpty_inj in F4, F5.
  assert (osv1.bd_VolumeSizeGiB bd2 = osv1.bd_VolumeSizeGiB bd1) as G by (by eapply volumeSize_inj).
  destruct bd1, bd2; cbn in *; subst. f_equal.
  - enum_inj deleteOnTerminationToBool ["Delete"; "Retain"].
  - enum_inj encryptionStateToBool ["Encrypted"; "Unencrypted"].
  - enum_inj volumeTypeToKarpenter ["Standard"; "IO1"; "IO2"; "GP2"; "SC1"; "ST1"; "GP3"].
Qed.

(** A mapping with the designation NotRootVolume, or without one, which says the
    same: both are converted alike. *)
Definition undesignated (m : osv1.BlockDeviceMapping) : osv1.BlockDeviceMapping :=
  if decide (osv1.bdm_RootVolume m = "NotRootVolume")
  then osv1.mkBlockDeviceMapping (osv1.bdm_DeviceName m) (osv1.bdm_EBS m) "" else m.

Lemma mapping_inj m1 m2 r :
  ValidMapping m1 -> ValidMapping m2 ->
  blockDeviceMapping m1 = Ok r -> blockDeviceMapping m2 = Ok r -> undesignated m1 = undesignated m2.
Proof.
  intros [V1 V2] [W1 W2]. unfold blockDeviceMapping, undesignated.
  destruct (karpenterBlockDeviceFromBlockDevice (osv1.bdm_EBS m1)) as [e1|] eqn:E1; [|done].
  destruct (karpenterBlockDeviceFromBlockDevice (osv1.bdm_EBS m2)) as [e2|] eqn:E2; [|done].
  cbn [rbind]. intros <- [= F1 F2 F3]. subst e2.
  pose proof (blockDevice_inj _ _ _ V1 W1 E1 E2) as F. apply ptrIfNonEmpty_inj in F1.
  destruct m1 as [n1 b1 d1], m2 as [n2 b2 d2]; cbn in *; subst.
  assert (H : forall d, oneOf d ["RootVolume"; "NotRootVolume"] -> d = "" \/ d = "RootVolume" \/ d = "NotRootVolume")
    by (unfold oneOf; set_solver).
  apply H in V2, W2. clear H E1 E2 V1 W1.
  destruct V2 as [-> | [-> | ->]], W2 as [-> | [-> | ->]]; cbn; try done; discriminate F3.
Qed.

Lemma appendAll_Ok {A B} (f : A -> result B) l acc :
  (forall x, x ∈ l -> exists y, f x = Ok y) ->
  exists ys, appendAll f l acc = Ok (go_append acc ys) /\ Forall2 (fun x y => f x = Ok y) l ys.
Proof.
  revert acc; induction l as [|x l IH]; intros acc H; cbn [appendAll].
  - exists []. by split.
  - destruct (H x) as [y Hy]; [set_solver|]. rewrite Hy. cbn [rbind].
    destruct (IH (go_append acc [y])) as (ys & -> & Hys); [intros; apply H; set_solver|].
    exists (y :: ys). split; [|by constructor]. f_equal.
    destruct ys; cbn; [done|]. by rewrite <- app_assoc.
Qed.

Lemma appendAll_inv {A B} (f : A -> result B) l acc r :
  appendAll f l acc = Ok r -> exists ys, r = go_append acc ys /\ Forall2 (fun x y => f x = Ok y) l ys.
Proof.
  revert acc; induction l as [|x l IH]; intros acc; cbn [appendAll].
  - intros [= <-]. by exists [].
  - destruct (f x) as [y|] eqn:E; [|done]. intros (ys & -> & H)%IH. exists (y :: ys). split; [|by constructor].
    destruct ys; cbn; [done|]. by rewrite <- app_assoc.
Qed.

Lemma Forall2_inj {A B C} (P : A -> Prop) (f : A -> result B) (g : A -> C) l1 l2 ys :
  (forall x1 x2 y, P x1 -> P x2 -> f x1 = Ok y -> f x2 = Ok y -> g x1 = g x2) ->
  Forall P l1 -> Forall P l2 ->
  Forall2 (fun x y => f x = Ok y) l1 ys -> Forall2 (fun x y => f x = Ok y) l2 ys -> map g l1 = map g l2.
Proof.
  intros Hf. revert l2 ys; induction l1 as [|x1 l1 IH]; intros l2 ys V1 V2 F1 F2.
  - inversion F1; subst. by inversion F2.
  - inversion F1; subst. inversion F2; subst. inversion V1; subst. inversion V2; subst.
    cbn. f_equal; eauto.
Qed.

Lemma mapping_total m : ValidMapping m -> exists r, blockDeviceMapping m = Ok r.
Proof.
  intros [[_ _ Hs _] _]. unfold blockDeviceMapping, karpenterBlockDeviceFromBlockDevice.
  pose proof (volumeSize_value (osv1.bd_VolumeSizeGiB (osv1.bdm_EBS m)) ltac:(lia)) as H.
  destruct (volumeSizeGiBToQuantity _); [by eexists | done].
Qed.

Lemma mappings_inj spec1 spec2 :
  ValidSpec spec1 -> ValidSpec spec2 ->
  karpenterBlockDeviceMappingFromNodeClassSpec spec1 = karpenterBlockDeviceMappingFromNodeClassSpec spec2 ->
  map undesignated <$> osv1.BlockDeviceMappings spec1 = map undesignated <$> osv1.BlockDeviceMappings spec2.
Proof.
  intros V1 V2. destruct (vs_mappings _ V1) as [N1 F1], (vs_mappings _ V2) as [N2 F2].
  unfold karpenterBlockDeviceMappingFromNodeClassSpec.
  assert (Hall : forall l, Forall ValidMapping l ->
            exists ys, appendAll blockDeviceMapping l None = Ok (go_append None ys)
                       /\ Forall2 (fun x y => blockDeviceMapping x = Ok y) l ys).
  { intros l Hl. apply appendAll_Ok. rewrite Forall_forall in Hl. auto using mapping_total. }
  assert (Hne : forall l ys, Forall2 (fun x y => blockDeviceMapping x = Ok y) l ys ->
            Some l <> Some [] -> go_append None ys <> None).
  { intros l ys Hf Hl. inversion Hf; subst; done. }
  destruct (osv1.BlockDeviceMappings spec1) as [l1|], (osv1.BlockDeviceMappings spec2) as [l2|];
    cbn in *; try done.
  - destruct (Hall l1 F1) as (ys1 & -> & G1), (Hall l2 F2) as (ys2 & -> & G2).
    intros [= E]. assert (ys1 = ys2) as ->.
    { destruct ys1, ys2; cbn in E; congruence. }
    cbn. f_equal. exact (Forall2_inj ValidMapping _ undesignated l1 l2 ys2 mapping_inj F1 F2 G1 G2).
  - destruct (Hall l1 F1) as (ys1 & -> & G1). intros [= E]. by apply Hne in G1.
  - destruct (Hall l2 F2) as (ys2 & -> & G2). intros [= E]. by apply Hne in G2.
Qed.

Lemma fold_go_append {A B} (f : A -> B) l acc :
  fold_left (fun acc x => go_append acc [f x]) l acc = go_append acc (map f l).
Proof.
  revert acc; induction l as [|x l IH]; intros acc; cbn [fold_left map]; [done|].
  rewrite IH. destruct l; cbn; [done|]. by rewrite <- app_assoc.
Qed.

Lemma reservations_inj spec1 spec2 :
  ValidSpec spec1 -> ValidSpec spec2 ->
  karpenterCapacityReservationSelectorTermsFromNodeClassSpec spec1 =
    karpenterCapacityReservationSelectorTermsFromNodeClassSpec spec2 ->
  osv1.CapacityReservationSelectorTerms spec1 = osv1.CapacityReservationSelectorTerms spec2.
Proof.
  intros V1 V2. destruct (vs_reservations _ V1) as [N1 F1], (vs_reservations _ V2) as [N2 F2].
  unfold karpenterCapacityReservationSelectorTermsFromNodeClassSpec.
  destruct (osv1.CapacityReservationSelectorTerms spec1) as [l1|],
    (osv1.CapacityReservationSelectorTerms spec2) as [l2|]; rewrite ?fold_go_append; try done.
  - intros E. f_equal. cbn in F1, F2. clear N1 N2. revert l2 F2 E.
    assert (Hi : forall t1 t2, oneOf (osv1.crst_InstanceMatchCriteria t1) ["Open"; "Targeted"] ->
              oneOf (osv1.crst_InstanceMatchCriteria t2) ["Open"; "Targeted"] ->
              capacityReservationSelectorTerm t1 = capacityReservationSelectorTerm t2 -> t1 = t2).
    { intros [] [] H1 H2 [=]; cbn in *; subst. f_equal. enum_inj ToLower ["Open"; "Targeted"]. }
    assert (Hm : forall l2, Forall (fun t => oneOf (osv1.crst_InstanceMatchCriteria t) ["Open"; "Targeted"]) l2 ->
              map capacityReservationSelectorTerm l1 = map capacityReservationSelectorTerm l2 -> l1 = l2).
    { induction F1 as [|t1 l1 Ht1 F1 IH]; intros [|t2 l2] F2 E;
        cbn [map] in E; [done | done | done |].
      injection E as E1 E2 E3 E4 E5. inversion F2; subst. f_equal; [|by auto].
      apply Hi; [done..|]. unfold capacityReservationSelectorTerm. congruence. }
    intros l2 F2 E. apply Hm; [done|]. destruct l1, l2; cbn in *; congruence.
  - destruct l1; done.
  - destruct l2; done.
Qed.

(** C36. The conversion loses no setting.  Two NodeClass specs the CRD admits
    whose converted fields agree have the same IP address association, monitoring,
    instance store policy, metadata options and capacity reservation terms, and the
    same block device mappings, in the same order, up to the root volume designation
    NotRootVolume, which says the same as none and is converted like it: every other
    valid value of a field has its own image, and no mapping is dropped. *)
Theorem conversion_injective spec1 spec2 :
  ValidSpec spec1 -> ValidSpec spec2 ->
  karpenterAssociatePublicIPAddressFromNodeClassSpec spec1 =
    karpenterAssociatePublicIPAddressFromNodeClassSpec spec2 ->
  karpenterDetailedMonitoringFromNodeClassSpec spec1 =
    karpenterDetailedMonitoringFromNodeClassSpec spec2 ->
  karpenterInstanceStorePolicyFromNodeClassSpec spec1 =
    karpenterInstanceStorePolicyFromNodeClassSpec spec2 ->
  karpenterMetadataOptionsFromNodeClassSpec spec1 = karpenterMetadataOptionsFromNodeClassSpec spec2 ->
  karpenterBlockDeviceMappingFromNodeClassSpec spec1 =
    karpenterBlockDeviceMappingFromNodeClassSpec spec2 ->
  karpenterCapacityReservationSelectorTermsFromNodeClassSpec spec1 =
    karpenterCapacityReservationSelectorTermsFromNodeClassSpec spec2 ->
  osv1.IPAddressAssociation spec1 = osv1.IPAddressAssociation spec2
  /\ osv1.Monitoring spec1 = osv1.Monitoring spec2
  /\ osv1.InstanceStorePolicy spec1 = osv1.InstanceStorePolicy spec2
  /\ osv1.MetadataOptionsField spec1 = osv1.MetadataOptionsField spec2
  /\ map undesignated <$> osv1.BlockDeviceMappings spec1 = map undesignated <$> osv1.BlockDeviceMappings spec2
  /\ osv1.CapacityReservationSelectorTerms spec1 = osv1.CapacityReservationSelectorTerms spec2.
Proof.
  intros V1 V2 E1 E2 E3 E4 E5 E6.
  pose proof (mappings_inj _ _ V1 V2 E5). pose proof (reservations_inj _ _ V1 V2 E6).
  destruct V1 as [A1 A2 A3 A4 A5 _ _], V2 as [B1 B2 B3 B4 B5 _ _].
  repeat split; [| | | |done|done].
  - enum_inj (fun s => karpenterAssociatePublicIPAddressFromNodeClassSpec
                (osv1.mkSpec None None None s None None "" "" (osv1.mkMetadataOptions "" "" 0 "") ""
                   osv1.zeroKubelet)) ["Public"; "SubnetDefault"].
  - enum_inj (fun s => karpenterDetailedMonitoringFromNodeClassSpec
                (osv1.mkSpec None None None "" None None "" s (osv1.mkMetadataOptions "" "" 0 "") ""
                   osv1.zeroKubelet)) ["Detailed"; "Basic"].
  - exact (ptrIfNonEmpty_inj _ _ E3).
  - unfold karpenterMetadataOptionsFromNodeClassSpec in E4.
    destruct (osv1.MetadataOptionsField spec1) as [a1 a2 a3 a4],
      (osv1.MetadataOptionsField spec2) as [b1 b2 b3 b4]; cbn in *.
    destruct (decide (a1 = "" /\ a2 = "" /\ a3 = 0%Z /\ a4 = "")) as [D1|D1],
      (decide (b1 = "" /\ b2 = "" /\ b3 = 0%Z /\ b4 = "")) as [D2|D2];
      try discriminate E4; [naive_solver|].
    injection E4 as F1 F2 F3 F4. f_equal.
    + enum_inj (fun s => if decide (s = osv1.MetadataAccessHTTPEndpoint) then Some "enabled"
                         else if decide (s = osv1.MetadataAccessNone) then Some "disabled" else None)
        ["HTTPEndpoint"; "None"].
    + enum_inj (fun s => if decide (s = osv1.MetadataHTTPProtocolIPv6) then Some "enabled"
                         else if decide (s = osv1.MetadataHTTPProtocolIPv4) then Some "disabled" else None)
        ["IPv4"; "IPv6"].
    + repeat case_decide; congruence.
    + enum_inj (fun s => if decide (s = osv1.MetadataHTTPTokensStateRequired) then Some "required"
                         else if decide (s = osv1.MetadataHTTPTokensStateOptional) then Some "optional" else None)
        ["Required"; "Optional"].
Qed.

(** ** Kubelet *)

Lemma evictionThreshold_id m : evictionThresholdMapToStringMap m = m.
Proof.
  destruct m as [m|]; [|done]. cbn. f_equal. rewrite (rangeCopy_order _ m) by done.
  apply map_eq. intros k. rewrite lookup_omap. by destruct (m !! k).
Qed.

Lemma gracePeriod_lookup m key :
  entries (evictionSoftGracePeriodToDuration m) !! key = entries m !! key ≫= ParseDuration.
Proof.
  destruct m as [m|]; cbn; [|by rewrite !lookup_empty].
  rewrite (rangeCopy_order _ m) by done. apply lookup_omap.
Qed.

(** A kubelet configuration is passed on exactly when one of its typed fields
    is set.  Thresholds and reserved resources are passed on unchanged, zero
    limits become nil, and each grace period becomes its duration, those that do
    not parse being left out; in whatever order Go ranges over the maps. *)
Theorem kubelet_conversion spec :
  let k := osv1.Kubelet spec in
  match karpenterKubeletConfigurationFromNodeClassSpec spec with
  | None => osv1.HasTypedFields k = false
  | Some c =>
      osv1.HasTypedFields k = true
      /\ awsv1.kc_SystemReserved c = osv1.kc_SystemReserved k
      /\ awsv1.kc_KubeReserved c = osv1.kc_KubeReserved k
      /\ awsv1.kc_EvictionHard c = osv1.kc_EvictionHard k
      /\ awsv1.kc_EvictionSoft c = osv1.kc_EvictionSoft k
      /\ (forall key, entries (awsv1.kc_EvictionSoftGracePeriod c) !! key =
                      entries (osv1.kc_EvictionSoftGracePeriod k) !! key ≫= ParseDuration)
      /\ default 0%Z (awsv1.kc_MaxPods c) = osv1.kc_MaxPods k
      /\ default 0%Z (awsv1.kc_PodsPerCore c) = osv1.kc_PodsPerCore k
      /\ awsv1.kc_CPUCFSQuota c = osv1.kc_CPUCFSQuota k
  end
  /\ forall m order, order ≡ₚ map_to_list m ->
       evictionSoftGracePeriodToDuration (Some m) = Some (rangeCopy ParseDuration order)
       /\ evictionThresholdMapToStringMap (Some m) = Some (rangeCopy Some order).
Proof.
  intros k. split.
  - unfold karpenterKubeletConfigurationFromNodeClassSpec. fold k.
    destruct (osv1.HasTypedFields k) eqn:H; cbn [negb]; [|done].
    cbn. rewrite !evictionThreshold_id. unfold ptrIfNonZero.
    repeat split; try (case_decide; cbn; congruence). intros key. apply gracePeriod_lookup.
  - intros m order Ho. unfold evictionSoftGracePeriodToDuration, evictionThresholdMapToStringMap.
    by rewrite !(rangeCopy_order _ m).
Qed.

(** ** AMIs *)

(** The AMI selector terms are the AMI labels of the user data Secret, amd64
    first, one term per label, and there is an error exactly when there is none. *)
Theorem amiSelectorTerms_spec secret :
  let ami arch := entries (om_Labels (secret_meta secret)) !! archToAMILabelKey arch in
  match amiSelectorTermsFromUserDataSecret secret with
  | Ok terms => awsv1.ast_ID <$> elems terms = omap ami ["amd64"; "arm64"]
                /\ elems terms <> []
                /\ Forall (fun t => t = amiTerm (awsv1.ast_ID t)) (elems terms)
  | Err _ => ami "amd64" = None /\ ami "arm64" = None
  end.
Proof.
  intros ami. unfold amiSelectorTermsFromUserDataSecret, supportedArchitectures. cbn [fold_left].
  fold (ami ArchitectureAMD64). fold (ami ArchitectureARM64).
  change ArchitectureAMD64 with "amd64". change ArchitectureARM64 with "arm64". cbn [omap list_omap].
  destruct (ami "amd64"), (ami "arm64"); cbn; repeat split; try done; by repeat constructor.
Qed.

(** ** Witnesses *)

Lemma volumeSize_exact_witness :
  exists q, volumeSizeGiBToQuantity 120 = Ok (Some q) /\ Value q = 128849018880%Z.
Proof.
  destruct (volumeSize_exact 120 ltac:(lia)) as [[H _]|(q & H1 & _ & H2)]; [discriminate H|].
  exists q. split; [exact H1|]. rewrite H2. reflexivity.
Defined.

(** A root volume, and another one without or with the designation NotRootVolume. *)
Definition exampleSpec (iops : option Z) (other : list osv1.BlockDeviceMapping) : osv1.OpenshiftEC2NodeClassSpec :=
  osv1.mkSpec None None
    (Some [osv1.mkCapacityReservationSelectorTerm None "cr-1" "" "Open"]) "Public" None
    (Some (osv1.mkBlockDeviceMapping "/dev/xvda"
             (osv1.mkBlockDevice "Delete" "Encrypted" iops "" "" None 120 "GP3") "RootVolume" :: other))
    "RAID0" "Detailed" (osv1.mkMetadataOptions "HTTPEndpoint" "" 2 "Required") "" osv1.zeroKubelet.
Definition exampleData (designation : string) : osv1.BlockDeviceMapping :=
  osv1.mkBlockDeviceMapping "/dev/xvdb" (osv1.mkBlockDevice "" "" None "" "" None 40 "GP3") designation.

Lemma exampleData_valid designation :
  oneOf designation ["RootVolume"; "NotRootVolume"] -> ValidMapping (exampleData designation).
Proof. intros H. split; [|exact H]. split; cbn; try lia; first [by left | by right; apply (bool_decide_unpack _)]. Qed.

Lemma exampleSpec_valid iops other : Forall ValidMapping other -> ValidSpec (exampleSpec iops other).
Proof.
  intros Ho. split; cbn; try (by right; apply (bool_decide_unpack _)); try (by left).
  - split; [done|]. apply Forall_cons. split; [|exact Ho].
    split; [split; cbn; try lia|]; by right; apply (bool_decide_unpack _).
  - split; [done|]. apply Forall_singleton. by right; apply (bool_decide_unpack _).
Qed.

(** Different settings have different images: a mapping is not dropped for its
    designation, and IOPS are kept; but no designation is NotRootVolume. *)
Lemma conversion_injective_witness :
  let converted spec := karpenterBlockDeviceMappingFromNodeClassSpec spec in
  converted (exampleSpec None []) <> converted (exampleSpec None [exampleData "NotRootVolume"])
  /\ converted (exampleSpec None []) <> converted (exampleSpec (Some 3000%Z) [])
  /\ converted (exampleSpec None [exampleData ""]) = converted (exampleSpec None [exampleData "NotRootVolume"]).
Proof.
  assert (Hd : oneOf "NotRootVolume" ["RootVolume"; "NotRootVolume"]) by (right; by apply (bool_decide_unpack _)).
  intros converted. split; [|split; [|by vm_compute]]; intros E.
  - destruct (conversion_injective (exampleSpec None []) (exampleSpec None [exampleData "NotRootVolume"])
                (exampleSpec_valid None [] (Forall_nil_2 _))
                (exampleSpec_valid None [_] (Forall_cons_2 _ _ _ (exampleData_valid "NotRootVolume" Hd) (Forall_nil_2 _)))
                eq_refl eq_refl eq_refl eq_refl E eq_refl) as (_ & _ & _ & _ & H & _).
    discriminate H.
  - destruct (conversion_injective (exampleSpec None []) (exampleSpec (Some 3000%Z) [])
                (exampleSpec_valid None [] (Forall_nil_2 _)) (exampleSpec_valid (Some 3000%Z) [] (Forall_nil_2 _))
                eq_refl eq_refl eq_refl eq_refl E eq_refl) as (_ & _ & _ & _ & H & _).
    discriminate H.
Defined.

Lemma kubelet_conversion_witness :
  evictionSoftGracePeriodToDuration (Some {["memory.available" := "1m30s"; "pid.available" := "soon"]}) =
    Some (rangeCopy ParseDuration [("pid.available", "soon"); ("memory.available", "1m30s")])
  /\ rangeCopy ParseDuration [("pid.available", "soon"); ("memory.available", "1m30s")] =
     {["memory.available" := 90000000000%Z]}.
Proof.
  split; [|by apply (bool_decide_unpack _)].
  apply (kubelet_conversion osv1.zeroSpec).
  assert (H : forall (m : gmap string string) l, bool_decide (m = list_to_map l) = true ->
    bool_decide (NoDup l.*1) = true -> l ≡ₚ map_to_list m).
  { intros m l ->%bool_decide_eq_true Hnd%bool_decide_eq_true.
    symmetry. by apply map_to_list_to_map. }
  apply H; reflexivity.
Defined.
