(* ===== verification/Ec2Tags.v ===== *)
(** * Resource tags of the EC2NodeClass

    pkg/controllers/nodeclass/ec2/controller.go, [mergeEC2NodeClassTags],
    [filterRestrictedTags] and [setAWSResourceTagConflictCondition].  Loops over
    Go maps take the order of the entries as an argument; the theorems hold for
    every order. *)

From S2P Require Import Prelude DeepEqual MetaV1 HyperTypes AwsV1 KarpenterV1 NodeClassStatus Ec2Convert.

Definition NodePoolAWSResourceTagConflictConditionType : string := "AWSResourceTagConflict".
Definition AWSResourceTagConflictDetectedReason : string := "TagConflictDetected".
Definition AWSResourceTagNoConflictReason : string := "NoTagConflict".

Definition awsResourceTags (hcp : HostedControlPlane) : slice AWSClusterResourceTag :=
  match hcp_AWS hcp with
  | None => None
  | Some aws => aws_ResourceTags aws
  end.

(** ** Merging *)

Abbreviation stringMap := (gmap string string).

(** One platform tag: the last value of a key wins, and a key that allows
    overriding once keeps allowing it. *)
Definition addPlatformTag (acc : stringMap * gset string) (tag : AWSClusterResourceTag) :
    stringMap * gset string :=
  let '(tags, allowOverride) := acc in
  (<[tag_Key tag := tag_Value tag]> tags,
   if decide (tag_OverridePolicy tag = AWSResourceTagOverridePolicyAllow)
   then {[tag_Key tag]} ∪ allowOverride else allowOverride).

(** One NodeClass tag. *)
Definition addNodeClassTag (allowOverride : gset string) (tags : stringMap) (kv : string * string) :
    stringMap :=
  if decide (is_Some (tags !! kv.1) /\ kv.1 ∉ allowOverride) then tags
  else <[kv.1 := kv.2]> tags.

Definition isRestricted (key : string) : bool :=
  existsb (fun pattern => pattern key) awsv1.RestrictedTagPatterns.

(** One entry of [filterRestrictedTags]. *)
Definition filterTag (acc : stringMap * list string) (kv : string * string) :
    stringMap * list string :=
  let '(filteredTags, removedTags) := acc in
  if isRestricted kv.1 then (filteredTags, removedTags ++ [kv.1])
  else (<[kv.1 := kv.2]> filteredTags, removedTags).

Definition filterRestrictedTags (order : list (string * string)) (tags : stringMap) :
    stringMap * list string :=
  if decide (tags = ∅) then (tags, []) else fold_left filterTag order (∅, []).

(** The tags before the restricted ones are filtered out. *)
Definition mergedTags (order : list (string * string)) (hcp : HostedControlPlane) : stringMap :=
  let '(tags, allowOverride) := fold_left addPlatformTag (elems (awsResourceTags hcp)) (∅, ∅) in
  fold_left (addNodeClassTag allowOverride) order tags.

(** [order] is the order of the NodeClass tags, [order'] that of a merged map. *)
Definition mergeTagsInOrder (order : list (string * string))
    (order' : stringMap -> list (string * string))
    (nodeClassTags : gomap string) (hcp : HostedControlPlane) : gomap string :=
  let tags := mergedTags order hcp in
  let '(filteredTags, _) := filterRestrictedTags (order' tags) tags in
  if decide (nodeClassTags = None /\ filteredTags = ∅) then None else Some filteredTags.

Definition mergeEC2NodeClassTags (c : osv1.OpenshiftEC2NodeClass) (hcp : HostedControlPlane) :
    gomap string :=
  let tags := osv1.Tags (osv1.Spec c) in
  mergeTagsInOrder (map_to_list (entries tags)) map_to_list tags hcp.

(** ** The conflict condition *)

(** The counters [blocked] and [overridden] after one NodeClass tag. *)
Definition countTag (platform : list AWSClusterResourceTag) (acc : Z * Z) (kv : string * string) : Z * Z :=
  let '(blocked, overridden) := acc in
  match List.find (fun t => bool_decide (tag_Key t = kv.1)) platform with
  | None => (blocked, overridden)
  | Some hcTag =>
      if decide (tag_Value hcTag = kv.2) then (blocked, overridden)
      else if decide (tag_OverridePolicy hcTag = AWSResourceTagOverridePolicyAllow)
           then (blocked, overridden + 1)%Z
      else (blocked + 1, overridden)%Z
  end.

Definition conflictCondition (generation : Z) (counts : Z * Z) : Condition :=
  let '(blocked, overridden) := counts in
  if decide (blocked = 0%Z) then
    mkCondition NodePoolAWSResourceTagConflictConditionType ConditionFalse generation 0
      AWSResourceTagNoConflictReason
      (if decide (0 < overridden)%Z
       then showZ overridden +:+ " AWS resource tag override(s) applied; nodeclass values used (allowed by HostedCluster)"
       else "No AWS resource tag conflicts detected")
  else
    mkCondition NodePoolAWSResourceTagConflictConditionType ConditionTrue generation 0
      AWSResourceTagConflictDetectedReason
      (showZ blocked +:+ " AWS resource tag conflict(s) detected; HostedCluster values preserved (override not allowed)"
       +:+ if decide (0 < overridden)%Z
           then "; " +:+ showZ overridden +:+ " override(s) applied (allowed by HostedCluster)" else "").

(** The conditions of the NodeClass after [setAWSResourceTagConflictCondition]. *)
Definition conflictConditions (now : Time) (order : list (string * string))
    (c : osv1.OpenshiftEC2NodeClass) (hcp : HostedControlPlane) : slice Condition :=
  let conditions := osv1.Conditions (osv1.Status c) in
  let platform := elems (awsResourceTags hcp) in
  if decide (platform = [] \/ entries (osv1.Tags (osv1.Spec c)) = ∅) then
    RemoveStatusCondition conditions NodePoolAWSResourceTagConflictConditionType
  else
    SetStatusCondition now conditions
      (conflictCondition (om_Generation (osv1.meta c)) (fold_left (countTag platform) order (0, 0)%Z)).

Definition setAWSResourceTagConflictCondition (now : Time) (c : osv1.OpenshiftEC2NodeClass)
    (hcp : HostedControlPlane) : osv1.OpenshiftEC2NodeClass :=
  osv1.set_Status
    (osv1.set_Conditions
       (conflictConditions now (map_to_list (entries (osv1.Tags (osv1.Spec c)))) c hcp)
       (osv1.Status c)) c.

(** ** What the platform tags say of a key *)

Definition platformValue (platform : list AWSClusterResourceTag) (key : string) : option string :=
  last (tag_Value <$> filter (fun t => tag_Key t = key) platform).

Definition allowsOverride (platform : list AWSClusterResourceTag) (key : string) : Prop :=
  Exists (fun t => tag_Key t = key /\ tag_OverridePolicy t = AWSResourceTagOverridePolicyAllow) platform.

#[export] Instance allowsOverride_dec platform key : Decision (allowsOverride platform key).
Proof. unfold allowsOverride. apply _. Defined.

(** The value a key of the NodeClass and of the platform is merged to. *)
Definition mergedValue (platform : list AWSClusterResourceTag) (key : string) (nodeClass : option string) :
    option string :=
  match platformValue platform key with
  | None => nodeClass
  | Some v => if decide (allowsOverride platform key) then Some (default v nodeClass) else Some v
  end.

(** ** Lemmas: merging *)

Lemma platformTags_lookup platform tags allow key :
  let '(tags', allow') := fold_left addPlatformTag platform (tags, allow) in
  tags' !! key = match platformValue platform key with Some v => Some v | None => tags !! key end
  /\ (key ∈ allow' <-> key ∈ allow \/ allowsOverride platform key).
Proof.
  unfold platformValue, allowsOverride.
  induction platform as [|t platform IH] using rev_ind.
  - cbn. split; [done|]. rewrite Exists_nil. tauto.
  - rewrite fold_left_app. destruct (fold_left _ platform _) as [tags' allow'].
    cbn [fold_left addPlatformTag]. destruct IH as [IH1 IH2].
    rewrite filter_app, fmap_app, Exists_app, Exists_cons, Exists_nil. split.
    + destruct (decide (tag_Key t = key)) as [<-|Hk].
      * rewrite lookup_insert_eq, filter_cons_True by done. cbn. by rewrite last_snoc.
      * rewrite lookup_insert_ne, filter_cons_False by done. cbn. by rewrite app_nil_r.
    + case_decide; rewrite ?elem_of_union, ?elem_of_singleton, IH2. all: try tauto. split; [intros [->|[?|?]]; tauto | intros [?|[?|[[<- ?]|[]]]]; tauto].
Qed.

Lemma nodeClassTags_lookup allow (order : list (string * string)) tags key :
  NoDup order.*1 ->
  fold_left (addNodeClassTag allow) order tags !! key =
    match (list_to_map order : stringMap) !! key with
    | None => tags !! key
    | Some v => if decide (is_Some (tags !! key) /\ key ∉ allow) then tags !! key else Some v
    end.
Proof.
  revert tags. induction order as [|[x v] order IH]; intros tags Hnd; cbn [fold_left]; [done|].
  rewrite fmap_cons, NoDup_cons in Hnd. destruct Hnd as [Hx Hnd]. rewrite IH by done.
  cbn [fst snd] in *. rewrite list_to_map_cons. unfold addNodeClassTag; cbn [fst snd].
  destruct (decide (x = key)) as [->|Hk].
  - rewrite lookup_insert_eq, not_elem_of_list_to_map_1 by done.
    destruct (decide (is_Some (tags !! key) /\ key ∉ allow)); [done|]. apply lookup_insert_eq.
  - rewrite (lookup_insert_ne _ x) by done.
    destruct (decide (is_Some (tags !! x) /\ x ∉ allow)); [done|]. by rewrite lookup_insert_ne by done.
Qed.

(** A list of the entries of a map, in any order. *)
Lemma entries_order (order : list (string * string)) (m : stringMap) :
  order ≡ₚ map_to_list m -> NoDup order.*1 /\ (list_to_map order : stringMap) = m.
Proof.
  intros Ho. assert (NoDup order.*1) as Hnd by (rewrite Ho; apply NoDup_fst_map_to_list).
  split; [done|]. by rewrite (list_to_map_proper order (map_to_list m)), list_to_map_to_list.
Qed.

Lemma mergedTags_lookup order (tags : stringMap) hcp key :
  order ≡ₚ map_to_list tags ->
  mergedTags order hcp !! key = mergedValue (elems (awsResourceTags hcp)) key (tags !! key).
Proof.
  intros [Hnd Hm]%entries_order. unfold mergedTags, mergedValue.
  pose proof (platformTags_lookup (elems (awsResourceTags hcp)) ∅ ∅ key) as H.
  destruct (fold_left addPlatformTag _ _) as [ptags allow]. destruct H as [H1 H2].
  rewrite nodeClassTags_lookup, Hm, H1 by done.
  assert (E : key ∈ allow <-> allowsOverride (elems (awsResourceTags hcp)) key) by set_solver.
  destruct (platformValue _ key) as [w|], (tags !! key) as [v|];
    rewrite ?lookup_empty; repeat case_decide; cbn; try done; naive_solver.
Qed.

Lemma filterTag_lookup order tags removed key :
  NoDup order.*1 ->
  (fold_left filterTag order (tags, removed)).1 !! key =
    if isRestricted key then tags !! key
    else match (list_to_map order : stringMap) !! key with
         | Some v => Some v
         | None => tags !! key
         end.
Proof.
  revert tags removed. induction order as [|[x v] order IH]; intros tags removed Hnd;
    [by destruct (isRestricted key)|].
  rewrite fmap_cons, NoDup_cons in Hnd. destruct Hnd as [Hx Hnd].
  cbn [fold_left filterTag fst snd] in *. rewrite list_to_map_cons.
  destruct (decide (x = key)) as [->|Hk].
  - rewrite lookup_insert_eq. destruct (isRestricted key) eqn:E; rewrite IH by done; rewrite ?E; [done|].
    by rewrite not_elem_of_list_to_map_1, lookup_insert_eq.
  - rewrite (lookup_insert_ne _ x) by done.
    destruct (isRestricted x); rewrite IH by done; [done|]. by rewrite !lookup_insert_ne by done.
Qed.

Lemma filterRestrictedTags_lookup order (tags : stringMap) key :
  order ≡ₚ map_to_list tags ->
  (filterRestrictedTags order tags).1 !! key = if isRestricted key then None else tags !! key.
Proof.
  intros [Hnd Hm]%entries_order. unfold filterRestrictedTags. case_decide as E.
  - rewrite E. cbn [fst]. rewrite lookup_empty. by destruct (isRestricted key).
  - rewrite filterTag_lookup by done. rewrite Hm, !lookup_empty.
    destruct (isRestricted key); [done|]. by destruct (tags !! key).
Qed.

(** C26. The tags of the EC2NodeClass.  In whatever order Go ranges over the
    maps, a restricted tag is never set; any other tag has the platform's value
    when the platform has one (the last, if several) and does not allow
    overriding, and the NodeClass's otherwise; and the result is nil exactly when
    the NodeClass has nil tags and nothing is left. *)
Theorem mergeEC2NodeClassTags_spec c hcp order order' key :
  let tags := osv1.Tags (osv1.Spec c) in
  order ≡ₚ map_to_list (entries tags) ->
  (forall m, order' m ≡ₚ map_to_list m) ->
  let merged := mergeTagsInOrder order order' tags hcp in
  merged = mergeEC2NodeClassTags c hcp
  /\ entries merged !! key =
       (if isRestricted key then None
        else mergedValue (elems (awsResourceTags hcp)) key (entries tags !! key))
  /\ (merged = None <-> tags = None /\ entries merged = ∅).
Proof.
  intros tags Ho Ho'. cbn zeta.
  assert (Hm : forall o o', o ≡ₚ map_to_list (entries tags) -> (forall m, o' m ≡ₚ map_to_list m) ->
    forall k, (filterRestrictedTags (o' (mergedTags o hcp)) (mergedTags o hcp)).1 !! k =
    if isRestricted k then None
    else mergedValue (elems (awsResourceTags hcp)) k (entries tags !! k)).
  { intros o o' H1 H2 k. rewrite filterRestrictedTags_lookup by done.
    destruct (isRestricted k); [done|]. by apply mergedTags_lookup. }
  unfold mergeEC2NodeClassTags, mergeTagsInOrder. fold tags.
  pose proof (Hm order order' Ho Ho') as H1.
  pose proof (Hm _ map_to_list (reflexivity _) (fun m => reflexivity _)) as H2.
  revert H1 H2. destruct (filterRestrictedTags (order' _) _) as [f1 r1],
    (filterRestrictedTags (map_to_list _) _) as [f2 r2]. cbn [fst]. intros H1 H2.
  assert (f2 = f1) as -> by (apply map_eq; intros k; by rewrite H1, H2).
  split; [done|]. rewrite <- H1. case_decide as E; cbn; [naive_solver|].
  split; [done|]. naive_solver.
Qed.

(** ** Lemmas: the conflict condition *)

Lemma findTag_unique platform key :
  NoDup (tag_Key <$> platform) ->
  match List.find (fun t => bool_decide (tag_Key t = key)) platform with
  | None => platformValue platform key = None
  | Some t => platformValue platform key = Some (tag_Value t)
              /\ (allowsOverride platform key <-> tag_OverridePolicy t = AWSResourceTagOverridePolicyAllow)
  end.
Proof.
  unfold platformValue, allowsOverride.
  induction platform as [|t platform IH]; cbn [List.find]; [done|].
  rewrite fmap_cons, NoDup_cons. intros [Ht Hnd].
  case_bool_decide as E.
  - rewrite filter_cons_True by done.
    assert (filter (fun t' => tag_Key t' = key) platform = []) as ->.
    { destruct (filter _ platform) as [|u l] eqn:F; [done|]. exfalso. apply Ht.
      assert (u ∈ filter (fun t' => tag_Key t' = key) platform) as Hu by (rewrite F; set_solver).
      apply list_elem_of_filter in Hu as [Hu1 Hu2]. rewrite E, <- Hu1. by apply list_elem_of_fmap_2. }
    assert (~ Exists (fun t' => tag_Key t' = key /\ tag_OverridePolicy t' = AWSResourceTagOverridePolicyAllow)
              platform) as Hno.
    { intros (u & Hu1 & Hu2 & _)%Exists_exists. apply Ht. rewrite E, <- Hu2. by apply list_elem_of_fmap_2. }
    split; [done|]. rewrite Exists_cons. tauto.
  - rewrite filter_cons_False by done. specialize (IH Hnd).
    destruct (List.find _ platform); [|done]. destruct IH as [? IH]. split; [done|].
    rewrite Exists_cons. tauto.
Qed.

(** The NodeClass tags the merge did not apply. *)
Definition refused (merged : stringMap) (order : list (string * string)) : list (string * string) :=
  filter (fun kv => merged !! kv.1 <> Some kv.2) order.

Lemma countTag_refused platform merged order blocked overridden :
  NoDup (tag_Key <$> platform) ->
  (forall k v, (k, v) ∈ order -> merged !! k = mergedValue platform k (Some v)) ->
  (fold_left (countTag platform) order (blocked, overridden)).1 =
    (blocked + Z.of_nat (length (refused merged order)))%Z.
Proof.
  intros Hnd. unfold refused. revert blocked overridden.
  induction order as [|[k v] order IH]; intros blocked overridden Hm; cbn [fold_left].
  - cbn. lia.
  - assert (Hk := Hm k v ltac:(set_solver)).
    assert (Hm' : forall k v, (k, v) ∈ order -> merged !! k = mergedValue platform k (Some v))
      by (intros; apply Hm; set_solver).
    pose proof (findTag_unique platform k Hnd) as F. unfold countTag at 2; cbn [fst snd].
    rewrite filter_cons; cbn [fst snd]. rewrite Hk. unfold mergedValue.
    destruct (List.find _ platform) as [t|].
    + destruct F as [-> Ha]. destruct (decide (tag_Value t = v)) as [->|Hv].
      * rewrite decide_False by (case_decide; cbn; congruence). by apply IH.
      * destruct (decide (tag_OverridePolicy t = _)) as [Hp|Hp].
        -- rewrite (decide_True (P := allowsOverride _ _)) by tauto. cbn [default].
           rewrite decide_False by (cbn; congruence). by apply IH.
        -- rewrite (decide_False (P := allowsOverride _ _)) by tauto.
           rewrite decide_True by congruence. rewrite IH by done. cbn [length]. lia.
    + rewrite F. rewrite decide_False by (cbn; congruence). by apply IH.
Qed.

(** C33. The AWSResourceTagConflict condition says what the merge did.  When no
    two platform tags have the same key, in whatever order Go ranges over the
    tags: the condition is absent when the platform or the NodeClass has no tags,
    True with their number when some NodeClass tags were not applied, and False
    otherwise. *)
Theorem conflict_condition_reports_merge now c hcp order :
  let tags := entries (osv1.Tags (osv1.Spec c)) in
  let platform := elems (awsResourceTags hcp) in
  order ≡ₚ map_to_list tags ->
  NoDup (tag_Key <$> platform) ->
  let n := length (refused (mergedTags order hcp) order) in
  match FindStatusCondition (elems (conflictConditions now order c hcp))
          NodePoolAWSResourceTagConflictConditionType with
  | None => platform = [] \/ tags = ∅
  | Some cond =>
      platform <> [] /\ tags <> ∅
      /\ c_Status cond = (if decide (n = 0) then ConditionFalse else ConditionTrue)
      /\ c_ObservedGeneration cond = om_Generation (osv1.meta c)
      /\ (n <> 0 -> exists rest, c_Message cond =
            showZ (Z.of_nat n) +:+ " AWS resource tag conflict(s) detected; HostedCluster values preserved (override not allowed)"
            +:+ rest)
  end.
Proof.
  intros tags platform Ho Hnd n. unfold conflictConditions. fold tags platform.
  case_decide as E.
  - rewrite FindStatusCondition_Remove, decide_True by done. done.
  - assert (Hc : (fold_left (countTag platform) order (0, 0)%Z).1 = Z.of_nat n).
    { rewrite (countTag_refused _ (mergedTags order hcp)); [done | done |].
      intros k v Hk. rewrite (mergedTags_lookup _ tags) by done. f_equal.
      rewrite Ho in Hk. by apply elem_of_map_to_list. }
    destruct (fold_left _ _ _) as [blocked overridden]. cbn [fst] in Hc. subst blocked.
    unfold SetStatusCondition; cbn [elems default from_option id].
    set (cond := conflictCondition _ _).
    assert (c_Type cond = NodePoolAWSResourceTagConflictConditionType) as Ht.
    { unfold cond, conflictCondition. by case_decide. }
    rewrite FindStatusCondition_set, decide_True by done.
    match goal with |- context [setResult now ?o cond] =>
      destruct (setResult_fields now o cond) as (-> & _ & -> & ->) end.
    unfold cond, conflictCondition.
    destruct (decide (Z.of_nat n = 0%Z)), (decide (n = 0)); try lia; cbn; repeat split; try tauto.
    intros _. by eexists.
Qed.

(** ** Duplicate platform keys *)

Definition duplicateHCP : HostedControlPlane :=
  mkHCP (newMeta "clusters-a" "a") "a-infra" zeroAutoNode
    (Some (mkAWSPlatform (Some [mkTag "team" "blue" ""; mkTag "team" "red" ""])))
    (mkCPVersion (mkRelease "" "" "" "" None) None 0) (mkAutoNodeStatus None None None).
Definition blueNodeClass : osv1.OpenshiftEC2NodeClass :=
  osv1.mkOpenshiftEC2NodeClass (newMeta "" "gpu")
    (osv1.mkSpec None None None "" (Some {["team" := "blue"]}) None "" ""
       (osv1.mkMetadataOptions "" "" 0 "") "" osv1.zeroKubelet) osv1.zeroStatus.

(** When two platform tags have the same key the merge and the condition
    disagree: the merge sets the last value and does not apply the NodeClass's
    tag, while the condition looks at the first one and reports no conflict. *)
Theorem duplicate_platform_keys_disagree :
  entries (mergeEC2NodeClassTags blueNodeClass duplicateHCP) !! "team" = Some "red"
  /\ entries (osv1.Tags (osv1.Spec blueNodeClass)) !! "team" = Some "blue"
  /\ (c_Status <$> FindStatusCondition
        (elems (osv1.Conditions (osv1.Status
           (setAWSResourceTagConflictCondition 7 blueNodeClass duplicateHCP))))
        NodePoolAWSResourceTagConflictConditionType) = Some ConditionFalse.
Proof. by vm_compute. Qed.

(** ** Witnesses *)

Definition exampleHCP : HostedControlPlane :=
  mkHCP (newMeta "clusters-a" "a") "a-infra" zeroAutoNode
    (Some (mkAWSPlatform (Some [mkTag "team" "red" "Allow"; mkTag "cost" "42" ""])))
    (mkCPVersion (mkRelease "" "" "" "" None) None 0) (mkAutoNodeStatus None None None).

Lemma mergeEC2NodeClassTags_spec_witness :
  entries (mergeEC2NodeClassTags blueNodeClass exampleHCP) !! "team" = Some "blue"
  /\ entries (mergeEC2NodeClassTags blueNodeClass exampleHCP) !! "cost" = Some "42".
Proof.
  split.
  - destruct (mergeEC2NodeClassTags_spec blueNodeClass exampleHCP [("team", "blue")] map_to_list "team")
      as (<- & -> & _); reflexivity.
  - destruct (mergeEC2NodeClassTags_spec blueNodeClass exampleHCP [("team", "blue")] map_to_list "cost")
      as (<- & -> & _); reflexivity.
Defined.

Lemma conflict_condition_reports_merge_witness :
  NoDup (tag_Key <$> elems (awsResourceTags exampleHCP))
  /\ match FindStatusCondition (elems (conflictConditions 7 [("team", "blue")] blueNodeClass exampleHCP))
            NodePoolAWSResourceTagConflictConditionType with
      | None => False
      | Some cond => c_Status cond = ConditionFalse
      end.
Proof.
  split; [by apply (bool_decide_unpack _)|].
  assert (H := conflict_condition_reports_merge 7 blueNodeClass exampleHCP [("team", "blue")]
                 (reflexivity _) ltac:(by apply (bool_decide_unpack _))).
  destruct (FindStatusCondition _ _) as [cond|].
  - destruct H as (_ & _ & H & _). exact H.
  - destruct H as [H|H]; [discriminate H|]. by apply (bool_decide_unpack _) in H || discriminate.
Defined.
