(* ===== verification/Ec2Build.v ===== *)
(** * The EC2NodeClass of an OpenshiftEC2NodeClass

    pkg/controllers/nodeclass/ec2/controller.go, [reconcileEC2NodeClass] and the
    default selector tags: the spec the controller writes, from the NodeClass,
    the HostedControlPlane and the user data Secret. *)

From S2P Require Import Prelude DeepEqual MetaV1 Quantity CoreTypes HyperTypes AwsV1 KarpenterV1 GoFormat Ec2Convert Ec2Tags Prog Kube Hypershift.

Definition defaultRootVolumeSize : string := "120Gi".

Definition DefaultSubnetSelectorTags (infraID : string) : gomap string :=
  Some (<["kubernetes.io/cluster/" +:+ infraID := "*"]> {["kubernetes.io/role/internal-elb" := "1"]}).

Definition DefaultSecurityGroupSelectorTags (infraID : string) : gomap string :=
  Some {["karpenter.sh/discovery" := infraID]}.

(** User data and AMIs: those of the EC2NodeClass are kept during an upgrade. *)
Definition userDataAndAMIs (ec2NodeClass : awsv1.EC2NodeClass) (nodeClass : osv1.OpenshiftEC2NodeClass)
    (hcp : HostedControlPlane) (userDataSecret : Secret) :
    result (option string * slice awsv1.AMISelectorTerm) :=
  let spec := awsv1.Spec ec2NodeClass in
  if WaitsForControlPlaneUpgrade hcp (osv1.Version (osv1.Spec nodeClass))
     && negb (bool_decide (elems (awsv1.AMISelectorTerms spec) = []))
     && negb (bool_decide (awsv1.UserData spec = None))
  then Ok (awsv1.UserData spec, awsv1.AMISelectorTerms spec)
  else
    rbind (map_err (wrapf "getting AMISelectorTerms") (amiSelectorTermsFromUserDataSecret userDataSecret))
      (fun amiSelectorTerms => Ok (Some (mget (secret_Data userDataSecret) "value"), amiSelectorTerms)).

Definition instanceProfileOf (hcp : HostedControlPlane) : option string :=
  match entries (om_Annotations (hcp_meta hcp)) !! AWSKarpenterDefaultInstanceProfile with
  | Some instanceProfile => if decide (instanceProfile = "") then None else Some instanceProfile
  | None => None
  end.

Definition defaultBlockDeviceMappings : result (slice awsv1.BlockDeviceMapping) :=
  match MustParse defaultRootVolumeSize with
  | None => Err (EPanic ("cannot parse '" +:+ defaultRootVolumeSize +:+ "'"))
  | Some q =>
      Ok (Some [awsv1.mkBlockDeviceMapping (Some "/dev/xvda")
        (Some (awsv1.mkBlockDevice None (Some true) None None None None None (Some q) (Some "gp3")))
        false])
  end.

Definition blockDeviceMappings (spec : osv1.OpenshiftEC2NodeClassSpec) :
    result (slice awsv1.BlockDeviceMapping) :=
  rbind (karpenterBlockDeviceMappingFromNodeClassSpec spec) (fun mappings =>
    match mappings with
    | None => defaultBlockDeviceMappings
    | Some _ => Ok mappings
    end).

Definition subnetSelectorTerms (spec : osv1.OpenshiftEC2NodeClassSpec) (infraID : string) :
    slice awsv1.SubnetSelectorTerm :=
  match osv1.SubnetSelectorTerms spec with
  | Some terms =>
      fold_left (fun acc term => go_append acc
        [awsv1.mkSubnetSelectorTerm (osv1.sst_Tags term) (osv1.sst_ID term)]) terms None
  | None => Some [awsv1.mkSubnetSelectorTerm (DefaultSubnetSelectorTags infraID) ""]
  end.

Definition securityGroupSelectorTerms (spec : osv1.OpenshiftEC2NodeClassSpec) (infraID : string) :
    slice awsv1.SecurityGroupSelectorTerm :=
  match osv1.SecurityGroupSelectorTerms spec with
  | Some terms =>
      fold_left (fun acc term => go_append acc
        [awsv1.mkSecurityGroupSelectorTerm (osv1.sgst_Tags term) (osv1.sgst_ID term) (osv1.sgst_Name term)])
        terms None
  | None => Some [awsv1.mkSecurityGroupSelectorTerm (DefaultSecurityGroupSelectorTags infraID) "" ""]
  end.

(** The whole spec is assigned; metadata and status are kept. *)
Definition reconcileEC2NodeClass (ec2NodeClass : awsv1.EC2NodeClass)
    (nodeClass : osv1.OpenshiftEC2NodeClass) (hcp : HostedControlPlane) (userDataSecret : Secret) :
    result awsv1.EC2NodeClass :=
  let spec := osv1.Spec nodeClass in
  rbind (userDataAndAMIs ec2NodeClass nodeClass hcp userDataSecret) (fun '(userData, amis) =>
  rbind (blockDeviceMappings spec) (fun mappings =>
  Ok (awsv1.mkEC2NodeClass (awsv1.meta ec2NodeClass)
    (awsv1.mkEC2NodeClassSpec
      (subnetSelectorTerms spec (hcp_InfraID hcp))
      (securityGroupSelectorTerms spec (hcp_InfraID hcp))
      (karpenterCapacityReservationSelectorTermsFromNodeClassSpec spec)
      None
      (karpenterAssociatePublicIPAddressFromNodeClassSpec spec)
      None
      amis
      (Some "Custom")
      userData
      ""
      (instanceProfileOf hcp)
      (mergeEC2NodeClassTags nodeClass hcp)
      (karpenterKubeletConfigurationFromNodeClassSpec spec)
      mappings
      (karpenterInstanceStorePolicyFromNodeClassSpec spec)
      None
      (karpenterDetailedMonitoringFromNodeClassSpec spec)
      (karpenterMetadataOptionsFromNodeClassSpec spec)
      None None None)
    (awsv1.Status ec2NodeClass)))).

(** ** Lemmas *)

Lemma reconcileEC2NodeClass_keeps ec2 nodeClass hcp secret ec2' :
  reconcileEC2NodeClass ec2 nodeClass hcp secret = Ok ec2' ->
  awsv1.meta ec2' = awsv1.meta ec2 /\ awsv1.Status ec2' = awsv1.Status ec2.
Proof.
  unfold reconcileEC2NodeClass. destruct (userDataAndAMIs _ _ _ _) as [[u a]|]; [|done].
  cbn [rbind]. destruct (blockDeviceMappings _); [|done]. by intros [= <-].
Qed.

Lemma defaultBlockDeviceMappings_Ok :
  exists q, MustParse defaultRootVolumeSize = Some q /\ Value q = (120 * 2 ^ 30)%Z.
Proof. eexists. by split; [vm_compute|]. Qed.

Lemma amiSelectorTerms_ids secret :
  let ami arch := entries (om_Labels (secret_meta secret)) !! archToAMILabelKey arch in
  match amiSelectorTermsFromUserDataSecret secret with
  | Ok terms => awsv1.ast_ID <$> elems terms = omap ami ["amd64"; "arm64"] /\ elems terms <> []
  | Err _ => omap ami ["amd64"; "arm64"] = []
  end.
Proof.
  intros ami. unfold amiSelectorTermsFromUserDataSecret, supportedArchitectures. cbn [fold_left].
  fold (ami ArchitectureAMD64) (ami ArchitectureARM64).
  change ArchitectureAMD64 with "amd64". change ArchitectureARM64 with "arm64". cbn [omap list_omap].
  by destruct (ami "amd64"), (ami "arm64").
Qed.

(** The EC2NodeClass is held at its release: an upgrade is in progress, the
    NodeClass follows the control plane, and there is something to hold. *)
Definition pinned (ec2 : awsv1.EC2NodeClass) (nodeClass : osv1.OpenshiftEC2NodeClass)
    (hcp : HostedControlPlane) : Prop :=
  WaitsForControlPlaneUpgrade hcp (osv1.Version (osv1.Spec nodeClass)) = true
  /\ elems (awsv1.AMISelectorTerms (awsv1.Spec ec2)) <> []
  /\ awsv1.UserData (awsv1.Spec ec2) <> None.

#[export] Instance pinned_dec ec2 nodeClass hcp : Decision (pinned ec2 nodeClass hcp).
Proof. unfold pinned. apply _. Defined.

Lemma userDataAndAMIs_pinned ec2 nodeClass hcp secret :
  userDataAndAMIs ec2 nodeClass hcp secret =
    if decide (pinned ec2 nodeClass hcp)
    then Ok (awsv1.UserData (awsv1.Spec ec2), awsv1.AMISelectorTerms (awsv1.Spec ec2))
    else rbind (map_err (wrapf "getting AMISelectorTerms") (amiSelectorTermsFromUserDataSecret secret))
           (fun amis => Ok (Some (mget (secret_Data secret) "value"), amis)).
Proof.
  unfold userDataAndAMIs. case_decide as P; unfold pinned in P.
  - destruct P as (-> & P1 & P2). by rewrite !bool_decide_false.
  - destruct (_ && _) eqn:E; [|done]. exfalso. apply P.
    rewrite !andb_true_iff, !negb_true_iff, !bool_decide_eq_false in E. tauto.
Qed.

Lemma userDataAndAMIs_spec ec2 nodeClass hcp secret u amis :
  userDataAndAMIs ec2 nodeClass hcp secret = Ok (u, amis) ->
  u <> None /\ elems amis <> [].
Proof.
  rewrite userDataAndAMIs_pinned. case_decide as P.
  - destruct P as (_ & P1 & P2). by intros [= <- <-].
  - pose proof (amiSelectorTerms_ids secret) as H.
    destruct (amiSelectorTermsFromUserDataSecret secret) as [terms|]; [|done].
    intros [= <- <-]. split; [done|]. apply H.
Qed.

Lemma blockDeviceMappings_valid spec :
  ValidSpec spec -> exists m, blockDeviceMappings spec = Ok m.
Proof.
  intros V. destruct (vs_mappings _ V) as [_ F]. unfold blockDeviceMappings,
    karpenterBlockDeviceMappingFromNodeClassSpec.
  destruct (osv1.BlockDeviceMappings spec) as [l|]; [|by eexists].
  destruct (appendAll_Ok blockDeviceMapping l None) as (ys & -> & _).
  { intros m Hm. apply mapping_total. cbn in F. rewrite Forall_forall in F. auto. }
  cbn [rbind]. destruct (go_append None ys); by eexists.
Qed.

Lemma reconcileEC2NodeClass_spec ec2 nodeClass hcp secret ec2' :
  reconcileEC2NodeClass ec2 nodeClass hcp secret = Ok ec2' ->
  userDataAndAMIs ec2 nodeClass hcp secret =
    Ok (awsv1.UserData (awsv1.Spec ec2'), awsv1.AMISelectorTerms (awsv1.Spec ec2'))
  /\ blockDeviceMappings (osv1.Spec nodeClass) = Ok (awsv1.BlockDeviceMappings (awsv1.Spec ec2')).
Proof.
  unfold reconcileEC2NodeClass. destruct (userDataAndAMIs _ _ _ _) as [[u a]|]; [|done].
  cbn [rbind]. destruct (blockDeviceMappings _); [|done]. by intros [= <-].
Qed.

(** ** What is written *)

(** C12. While the control plane upgrades, a NodeClass without a version of its own
    keeps the user data and AMIs its EC2NodeClass has, whatever the Secret holds,
    so the upgrade of the control plane does not roll the nodes; in every other
    case, first creation included, both are the Secret's.  The only error of an
    admitted NodeClass is a Secret that is needed and names no AMI. *)
Theorem reconcileEC2NodeClass_upgrade ec2 nodeClass hcp secret :
  ValidSpec (osv1.Spec nodeClass) ->
  let amis := omap (fun arch => entries (om_Labels (secret_meta secret)) !! archToAMILabelKey arch)
                ["amd64"; "arm64"] in
  match reconcileEC2NodeClass ec2 nodeClass hcp secret with
  | Ok ec2' =>
      awsv1.meta ec2' = awsv1.meta ec2 /\ awsv1.Status ec2' = awsv1.Status ec2
      /\ (pinned ec2 nodeClass hcp ->
            awsv1.UserData (awsv1.Spec ec2') = awsv1.UserData (awsv1.Spec ec2)
            /\ awsv1.AMISelectorTerms (awsv1.Spec ec2') = awsv1.AMISelectorTerms (awsv1.Spec ec2))
      /\ (~ pinned ec2 nodeClass hcp ->
            awsv1.UserData (awsv1.Spec ec2') = Some (mget (secret_Data secret) "value")
            /\ awsv1.ast_ID <$> elems (awsv1.AMISelectorTerms (awsv1.Spec ec2')) = amis
            /\ amis <> [])
  | Err _ => ~ pinned ec2 nodeClass hcp /\ amis = []
  end.
Proof.
  intros V amis. destruct (reconcileEC2NodeClass ec2 nodeClass hcp secret) as [ec2'|e] eqn:R.
  - destruct (reconcileEC2NodeClass_keeps _ _ _ _ _ R) as [H1 H2]. split; [done|]. split; [done|].
    apply reconcileEC2NodeClass_spec in R as [R _]. rewrite userDataAndAMIs_pinned in R.
    case_decide as P.
    + injection R as -> ->. by split.
    + split; [done|]. intros _. pose proof (amiSelectorTerms_ids secret) as H. fold amis in H.
      destruct (amiSelectorTermsFromUserDataSecret secret) as [terms|]; [|done].
      injection R as <- <-. destruct H as [H3 H4]. split; [done|]. split; [done|].
      intros E. apply H4.
      assert (awsv1.ast_ID <$> elems terms = []) as H3' by (rewrite H3; exact E).
      by destruct (elems terms).
  - unfold reconcileEC2NodeClass in R. rewrite userDataAndAMIs_pinned in R.
    destruct (blockDeviceMappings_valid _ V) as [m Hm]. rewrite Hm in R.
    case_decide as P; [done|]. split; [done|].
    pose proof (amiSelectorTerms_ids secret) as H. fold amis in H.
    by destruct (amiSelectorTermsFromUserDataSecret secret).
Qed.

(** Reconciling is idempotent: the object it produced, read back, is left as it
    is, with an upgrade in progress or not. *)
Theorem reconcileEC2NodeClass_idempotent ec2 nodeClass hcp secret ec2' :
  reconcileEC2NodeClass ec2 nodeClass hcp secret = Ok ec2' ->
  reconcileEC2NodeClass ec2' nodeClass hcp secret = Ok ec2'.
Proof.
  intros R. pose proof (reconcileEC2NodeClass_spec _ _ _ _ _ R) as [Hu Hb].
  assert (Hu' : userDataAndAMIs ec2' nodeClass hcp secret = userDataAndAMIs ec2 nodeClass hcp secret).
  { destruct (userDataAndAMIs_spec _ _ _ _ _ _ Hu) as [N1 N2]. revert Hu.
    rewrite !userDataAndAMIs_pinned. case_decide as P; case_decide as P'; try done.
    - intros _. exfalso. apply P'. destruct P as (P1 & _). by repeat split. }
  destruct (reconcileEC2NodeClass_keeps _ _ _ _ _ R) as [Hm Hs]. revert R.
  unfold reconcileEC2NodeClass. rewrite Hu', Hm, Hs. done.
Qed.

(** The platform's defaults.  Without block device mappings the root volume is
    one encrypted gp3 volume of 120 GiB; without subnet terms the private subnets
    of the cluster are selected, by exactly two tags; without security group terms
    its default group; given terms are passed on one for one; and the instance
    profile is the HostedControlPlane's annotation when that is not empty. *)
Theorem reconcileEC2NodeClass_defaults ec2 nodeClass hcp secret ec2' :
  reconcileEC2NodeClass ec2 nodeClass hcp secret = Ok ec2' ->
  let spec := osv1.Spec nodeClass in
  let spec' := awsv1.Spec ec2' in
  (osv1.BlockDeviceMappings spec = None -> exists device ebs q,
     awsv1.BlockDeviceMappings spec' = Some [awsv1.mkBlockDeviceMapping (Some device) (Some ebs) false]
     /\ awsv1.bd_Encrypted ebs = Some true /\ awsv1.bd_VolumeType ebs = Some "gp3"
     /\ awsv1.bd_VolumeSize ebs = Some q /\ Value q = (120 * 2 ^ 30)%Z)
  /\ match osv1.SubnetSelectorTerms spec with
     | None => exists tags, awsv1.SubnetSelectorTerms spec' = Some [awsv1.mkSubnetSelectorTerm tags ""]
         /\ forall key, entries tags !! key =
              (if decide (key = "kubernetes.io/cluster/" +:+ hcp_InfraID hcp) then Some "*"
               else if decide (key = "kubernetes.io/role/internal-elb") then Some "1" else None)
     | Some terms =>
         map (fun t => (awsv1.sst_Tags t, awsv1.sst_ID t)) (elems (awsv1.SubnetSelectorTerms spec')) =
         map (fun t => (osv1.sst_Tags t, osv1.sst_ID t)) terms
     end
  /\ match osv1.SecurityGroupSelectorTerms spec with
     | None => awsv1.SecurityGroupSelectorTerms spec' =
         Some [awsv1.mkSecurityGroupSelectorTerm (Some {["karpenter.sh/discovery" := hcp_InfraID hcp]}) "" ""]
     | Some terms =>
         map (fun t => (awsv1.sgst_Tags t, awsv1.sgst_ID t, awsv1.sgst_Name t))
           (elems (awsv1.SecurityGroupSelectorTerms spec')) =
         map (fun t => (osv1.sgst_Tags t, osv1.sgst_ID t, osv1.sgst_Name t)) terms
     end
  /\ forall p, awsv1.InstanceProfile spec' = Some p <->
       entries (om_Annotations (hcp_meta hcp)) !! AWSKarpenterDefaultInstanceProfile = Some p /\ p <> "".
Proof.
  intros R spec spec'. pose proof (reconcileEC2NodeClass_spec _ _ _ _ _ R) as [_ Hb]. fold spec spec' in Hb.
  assert (awsv1.SubnetSelectorTerms spec' = subnetSelectorTerms spec (hcp_InfraID hcp)
    /\ awsv1.SecurityGroupSelectorTerms spec' = securityGroupSelectorTerms spec (hcp_InfraID hcp)
    /\ awsv1.InstanceProfile spec' = instanceProfileOf hcp) as (Hs & Hg & Hi).
  { unfold spec', reconcileEC2NodeClass in *. fold spec in R.
    destruct (userDataAndAMIs _ _ _ _) as [[u a]|]; [|done]. cbn [rbind] in R.
    destruct (blockDeviceMappings _); [|done]. by injection R as <-. }
  repeat split.
  - intros Hn. unfold blockDeviceMappings, karpenterBlockDeviceMappingFromNodeClassSpec in Hb.
    rewrite Hn in Hb. cbn [rbind] in Hb. unfold defaultBlockDeviceMappings in Hb.
    destruct defaultBlockDeviceMappings_Ok as (q & Hq & Hv). rewrite Hq in Hb.
    injection Hb as <-. by repeat eexists.
  - rewrite Hs. unfold subnetSelectorTerms. destruct (osv1.SubnetSelectorTerms spec) as [terms|].
    + rewrite fold_go_append, elems_go_append.
    cbn [elems default app]. rewrite map_map. done.
    + eexists. split; [done|]. intros key. unfold DefaultSubnetSelectorTags; cbn [entries default from_option id].
      repeat case_decide; subst; rewrite ?lookup_insert_eq, ?lookup_insert_ne, ?lookup_singleton_eq,
        ?lookup_singleton_ne by done; done.
  - rewrite Hg. unfold securityGroupSelectorTerms. destruct (osv1.SecurityGroupSelectorTerms spec) as [terms|]; [|done].
    rewrite fold_go_append, elems_go_append.
    cbn [elems default app]. rewrite map_map. done.
  - rewrite Hi in *. unfold instanceProfileOf in *. destruct (_ !! _); repeat case_decide; naive_solver.
  - rewrite Hi in *. unfold instanceProfileOf in *. destruct (_ !! _); repeat case_decide; naive_solver.
  - intros [Hp Hne]. rewrite Hi. unfold instanceProfileOf. rewrite Hp. by rewrite decide_False.
Qed.

(** ** Witnesses *)

(** A control plane between two releases. *)
Definition upgradingHCP : HostedControlPlane :=
  mkHCP (om_set_Annotations (Some {[AWSKarpenterDefaultInstanceProfile := "worker"]}) (newMeta "clusters-a" "a"))
    "a-infra" (mkAutoNode ProvisionerKarpenter "AWS" "" "") None
    (mkCPVersion (mkRelease "" "4.20.1" "img-2" "" None)
       (Some [mkHistory PartialUpdate 5 0 "4.20.1" "img-2"; mkHistory CompletedUpdate 1 2 "4.20.0" "img-1"]) 1)
    (mkAutoNodeStatus None None None).
Definition newReleaseSecret : Secret :=
  mkSecret (om_set_Labels (Some {[osv1.UserDataAMILabel := "ami-2"]}) (newMeta "clusters-a" "user-data"))
    (Some {["value" := "ignition-2"]}).
Definition plainNodeClass : osv1.OpenshiftEC2NodeClass :=
  osv1.mkOpenshiftEC2NodeClass (newMeta "" "gpu") osv1.zeroSpec osv1.zeroStatus.
Definition emptyEC2 : awsv1.EC2NodeClass :=
  awsv1.mkEC2NodeClass (newMeta "" "gpu") awsv1.zeroSpec awsv1.zeroStatus.
Definition oldReleaseEC2 : awsv1.EC2NodeClass :=
  awsv1.mkEC2NodeClass (newMeta "" "gpu")
    (awsv1.mkEC2NodeClassSpec None None None None None None (Some [amiTerm "ami-1"]) (Some "Custom")
       (Some "ignition-1") "" None None None None None None None None None None None)
    awsv1.zeroStatus.

Lemma plainNodeClass_valid : ValidSpec (osv1.Spec plainNodeClass).
Proof. split; cbn; try (by left); (split; [done | constructor]). Qed.

Lemma reconcileEC2NodeClass_upgrade_witness :
  match reconcileEC2NodeClass oldReleaseEC2 plainNodeClass upgradingHCP newReleaseSecret,
        reconcileEC2NodeClass emptyEC2 plainNodeClass upgradingHCP newReleaseSecret with
  | Ok held, Ok created =>
      awsv1.UserData (awsv1.Spec held) = Some "ignition-1"
      /\ awsv1.UserData (awsv1.Spec created) = Some "ignition-2"
  | _, _ => False
  end.
Proof.
  pose proof (reconcileEC2NodeClass_upgrade oldReleaseEC2 plainNodeClass upgradingHCP newReleaseSecret
                plainNodeClass_valid) as H1.
  pose proof (reconcileEC2NodeClass_upgrade emptyEC2 plainNodeClass upgradingHCP newReleaseSecret
                plainNodeClass_valid) as H2.
  destruct (reconcileEC2NodeClass oldReleaseEC2 _ _ _), (reconcileEC2NodeClass emptyEC2 _ _ _).
  - destruct H1 as (_ & _ & H1 & _), H2 as (_ & _ & _ & H2). split.
    + apply H1. by apply (bool_decide_unpack _).
    + apply H2. by apply (bool_decide_unpack _).
  - destruct H2 as [_ H2]. discriminate H2.
  - destruct H1 as [_ H1]. discriminate H1.
  - destruct H1 as [_ H1]. discriminate H1.
Defined.

Lemma reconcileEC2NodeClass_idempotent_witness :
  exists ec2', reconcileEC2NodeClass oldReleaseEC2 plainNodeClass upgradingHCP newReleaseSecret = Ok ec2'
    /\ reconcileEC2NodeClass ec2' plainNodeClass upgradingHCP newReleaseSecret = Ok ec2'.
Proof.
  destruct (reconcileEC2NodeClass oldReleaseEC2 plainNodeClass upgradingHCP newReleaseSecret) as [ec2'|] eqn:E.
  - exists ec2'. split; [reflexivity|].
    exact (reconcileEC2NodeClass_idempotent oldReleaseEC2 plainNodeClass upgradingHCP newReleaseSecret ec2' E).
  - exfalso. revert E. vm_compute. discriminate.
Defined.

Lemma reconcileEC2NodeClass_defaults_witness :
  match reconcileEC2NodeClass emptyEC2 plainNodeClass upgradingHCP newReleaseSecret with
  | Ok ec2' => awsv1.InstanceProfile (awsv1.Spec ec2') = Some "worker"
               /\ awsv1.BlockDeviceMappings (awsv1.Spec ec2') <> None
  | Err _ => False
  end.
Proof.
  destruct (reconcileEC2NodeClass emptyEC2 plainNodeClass upgradingHCP newReleaseSecret) as [ec2'|] eqn:E.
  - destruct (reconcileEC2NodeClass_defaults emptyEC2 plainNodeClass upgradingHCP newReleaseSecret ec2' E)
      as (H1 & _ & _ & H2). split.
    + apply H2. split; [reflexivity | discriminate].
    + destruct (H1 eq_refl) as (d & e & q & -> & _). discriminate.
  - revert E. vm_compute. discriminate.
Defined.
