(* ===== verification/Ec2Admission.v ===== *)
(** * Is what the operator writes admitted?

    The EC2NodeClass of an OpenshiftEC2NodeClass that its own CRD admits, against
    the CRD of the EC2NodeClass that the operator installs: exactly which settings
    make the write fail. *)

From S2P Require Import Prelude DeepEqual MetaV1 Quantity GoTime GoFormat QuantityText Regexp CrdSchema AwsSchema VolumeSize Ec2Schema CoreTypes HyperTypes AwsV1 KarpenterV1 Prog Kube Hypershift Ec2Convert Ec2Tags Ec2Build.

(** ** What the second schema asks beyond the first *)

(** The settings of the NodeClass. *)
Record convertible (spec : osv1.OpenshiftEC2NodeClassSpec) : Prop := mkConvertible {
  (** the sizes of the volumes, *)
  cv_sizes : forall m, m ∈ elems (osv1.BlockDeviceMappings spec) ->
    let n := osv1.bd_VolumeSizeGiB (osv1.bdm_EBS m) in n = 0%Z \/ sizeAdmitted n = true;
  (** more than an owner in each capacity reservation term, *)
  cv_reservations : forall t, t ∈ elems (osv1.CapacityReservationSelectorTerms spec) ->
    osv1.crst_Tags t <> None \/ osv1.crst_ID t <> "" \/ osv1.crst_InstanceMatchCriteria t <> "";
  (** quantities as reserved resources, *)
  cv_reserved k v :
    entries (osv1.kc_SystemReserved (osv1.Kubelet spec)) !! k = Some v
    \/ entries (osv1.kc_KubeReserved (osv1.Kubelet spec)) !! k = Some v ->
    matches awscrd.quantity v = true;
  (** quantities or percentages as eviction thresholds, *)
  cv_thresholds k v :
    entries (osv1.kc_EvictionHard (osv1.Kubelet spec)) !! k = Some v
    \/ entries (osv1.kc_EvictionSoft (osv1.Kubelet spec)) !! k = Some v ->
    matches awscrd.evictionThreshold v = true;
  (** and durations as grace periods. *)
  cv_grace k v :
    entries (osv1.kc_EvictionSoftGracePeriod (osv1.Kubelet spec)) !! k = Some v -> ParseDuration v <> None }.

(** The platform's tags: one that is not filtered out is not restricted. *)
Definition tagsAdmitted (hcp : HostedControlPlane) : Prop :=
  forall t, t ∈ elems (awsResourceTags hcp) -> isRestricted (tag_Key t) = false ->
    tag_Key t <> "" /\ HasPrefix (tag_Key t) "kubernetes.io/cluster" = false.

(** The AMIs, kept or from the labels of the Secret. *)
Definition amisAdmitted (base : awsv1.EC2NodeClass) (nodeClass : osv1.OpenshiftEC2NodeClass)
    (hcp : HostedControlPlane) (secret : Secret) : Prop :=
  if decide (pinned base nodeClass hcp)
  then awscrd.amiSelectorTerms (elems (awsv1.AMISelectorTerms (awsv1.Spec base))) = true
  else forall arch ami, arch ∈ supportedArchitectures ->
    entries (om_Labels (secret_meta secret)) !! archToAMILabelKey arch = Some ami ->
    search (resourceID "ami-") ami = true.

(** The default selector names the cluster. *)
Definition infraAdmitted (spec : osv1.OpenshiftEC2NodeClassSpec) (hcp : HostedControlPlane) : Prop :=
  osv1.SecurityGroupSelectorTerms spec = None -> hcp_InfraID hcp <> "".

(** ** Block devices *)

Lemma volumeType_admitted vt :
  property vt osv1crd.VolumeType = true ->
  propertyPtr (volumeTypeToKarpenter vt) (enum ["standard"; "io1"; "io2"; "gp2"; "sc1"; "st1"; "gp3"]) = true.
Proof.
  unfold volumeTypeToKarpenter. rewrite property_spec. intros [->|H]; [done|]. case_decide; [done|].
  apply bool_decide_eq_true in H. revert H. rewrite !elem_of_cons, elem_of_nil.
  intros [->|[->|[->|[->|[->|[->|[->|[]]]]]]]]; reflexivity.
Qed.

Lemma volumeSize_property n q :
  propertyInt n (fun n => minimum 1 n && maximum 65536 n) = true -> volumeSizeGiBToQuantity n = Ok q ->
  propertyPtr q (fun q => matches awscrd.volumeSize (QuantityString q)) = true <-> n = 0%Z \/ sizeAdmitted n = true.
Proof.
  unfold propertyInt, hasInt, volumeSizeGiBToQuantity, minimum, maximum, showZ.
  case_decide as N; [intros _ [= <-]; split; [by left | done]|]. rewrite bool_decide_false by done.
  cbn [negb orb]. intros [H1%Z.leb_le H2%Z.leb_le]%andb_true_iff.
  destruct (MustParse _) as [x|] eqn:M; [|done]. intros [= <-]. cbn [propertyPtr].
  rewrite (volumeSize_admitted n) by (done || lia). split; [by right | by intros [?|?]].
Qed.

Lemma ebs_admitted bd y :
  osv1crd.BlockDevice bd = true -> karpenterBlockDeviceFromBlockDevice bd = Ok y ->
  awscrd.ebs y = true <-> osv1.bd_VolumeSizeGiB bd = 0%Z \/ sizeAdmitted (osv1.bd_VolumeSizeGiB bd) = true.
Proof.
  intros H E. unfold osv1crd.BlockDevice in H. conjuncts. unfold karpenterBlockDeviceFromBlockDevice in E.
  destruct (volumeSizeGiBToQuantity (osv1.bd_VolumeSizeGiB bd)) as [q|] eqn:Q; [|done]. injection E as <-.
  rewrite <- (volumeSize_property _ q) by done. unfold awscrd.ebs. cbn.
  rewrite volumeType_admitted, !andb_true_r by done.
  assert (hasPtr (ptrIfNonEmpty (osv1.bd_SnapshotID bd)) || hasPtr q = true) as ->; [|by rewrite andb_true_r].
  unfold ptrIfNonEmpty. case_decide as E; [|done]. cbn [hasPtr orb]. rewrite E in *.
  unfold volumeSizeGiBToQuantity in Q. unfold hasInt in *. case_decide as N; [by rewrite N in *|].
  destruct (MustParse _); [|done]. by injection Q as <-.
Qed.

Lemma mapping_admitted x y :
  osv1crd.BlockDeviceMapping x = true -> blockDeviceMapping x = Ok y ->
  let n := osv1.bd_VolumeSizeGiB (osv1.bdm_EBS x) in
  (propertyPtr (awsv1.bdm_EBS y) awscrd.ebs = true <-> n = 0%Z \/ sizeAdmitted n = true)
  /\ awsv1.bdm_RootVolume y =
     if has (osv1.bdm_RootVolume x) then bool_decide (osv1.bdm_RootVolume x = "RootVolume") else false.
Proof.
  intros H E. unfold osv1crd.BlockDeviceMapping in H. conjuncts. unfold blockDeviceMapping in E.
  destruct (karpenterBlockDeviceFromBlockDevice _) as [z|] eqn:Z; [|done]. injection E as <-. split.
  - by apply ebs_admitted.
  - cbn. unfold has. destruct (bool_decide (osv1.bdm_RootVolume x = "")) eqn:E; cbn [negb]; [|done].
    apply bool_decide_eq_true in E. by rewrite E.
Qed.

(** A list converted one by one. *)
Lemma forall2_count {A B} (R : A -> B -> Prop) (p : A -> bool) (q : B -> bool) l l' :
  Forall2 R l l' -> (forall x y, x ∈ l -> R x y -> q y = p x) ->
  length (List.filter q l') = length (List.filter p l).
Proof.
  induction 1 as [|x y l l' H F IH]; intros Hpq; [done|]. cbn. rewrite (Hpq x y) by (by left || done).
  destruct (p x); cbn; rewrite IH; try done; intros; apply Hpq; (by right || done).
Qed.

Lemma forall2_forallb {A B} (R : A -> B -> Prop) (P : A -> Prop) (q : B -> bool) l l' :
  Forall2 R l l' -> (forall x y, x ∈ l -> R x y -> q y = true <-> P x) ->
  forallb q l' = true <-> forall x, x ∈ l -> P x.
Proof.
  induction 1 as [|x y l l' H F IH]; intros Hpq; cbn [forallb].
  - split; [by intros _ x ?%elem_of_nil | done].
  - rewrite andb_true_iff, (Hpq x y), IH by (by left || done || (intros; apply Hpq; (by right || done))).
    setoid_rewrite elem_of_cons. naive_solver.
Qed.

Lemma mappings_admitted spec m :
  propertyPtr (osv1.BlockDeviceMappings spec) osv1crd.BlockDeviceMappings = true ->
  blockDeviceMappings spec = Ok m ->
  propertyList m awscrd.blockDeviceMappings = true <->
  forall x, x ∈ elems (osv1.BlockDeviceMappings spec) ->
    let n := osv1.bd_VolumeSizeGiB (osv1.bdm_EBS x) in n = 0%Z \/ sizeAdmitted n = true.
Proof.
  intros V. unfold blockDeviceMappings, karpenterBlockDeviceMappingFromNodeClassSpec.
  destruct (osv1.BlockDeviceMappings spec) as [l|]; cbn [elems default propertyPtr] in *.
  2: { cbn [rbind]. intros [= <-]. split; [by intros _ x ?%elem_of_nil | intros _; vm_compute; reflexivity]. }
  unfold osv1crd.BlockDeviceMappings in V. conjuncts.
  match goal with H : forallb _ _ = true |- _ => pose proof (proj1 (forallb_elem _ _) H) as Hv end.
  destruct (appendAll blockDeviceMapping l None) as [r|] eqn:E; [|done].
  apply appendAll_inv in E as (ys & -> & F). pose proof (Forall2_length _ _ _ F) as Hlen.
  assert (go_append None ys = Some ys) as -> by (by destruct ys, l). cbn [rbind]. intros [= <-].
  assert (propertyList (Some ys) awscrd.blockDeviceMappings = awscrd.blockDeviceMappings ys) as ->.
  { unfold propertyList; cbn. by destruct ys, l. }
  unfold awscrd.blockDeviceMappings.
  erewrite (forall2_count _ _ awsv1.bdm_RootVolume _ _ F) by (intros; by apply mapping_admitted; [apply Hv|]).
  unfold maxItems in *. rewrite !andb_true_iff, (forall2_forallb _ _ _ _ _ F)
    by (intros x z Hx Hz; by apply (mapping_admitted x z); [apply Hv|]).
  rewrite <- Hlen. tauto.
Qed.

(** ** Selector terms *)

Lemma property_weaken (p q : string -> bool) s :
  (forall s, p s = true -> q s = true) -> property s p = true -> property s q = true.
Proof. rewrite !property_spec. naive_solver. Qed.

Lemma id_admitted prefix s :
  property s (fun s => matches (resourceID prefix) s && osv1crd.length1 256 s) = true ->
  property s (search (resourceID prefix)) = true /\ property s (matches (resourceID prefix)) = true.
Proof.
  intros H. split; revert H; apply property_weaken; intros x [Hx _]%andb_true_iff; [by apply matches_search | done].
Qed.

(** The tags of a term that was read are not empty, so they are sent. *)
Lemma selectorTags_admitted tags :
  osv1crd.selectorTags tags = true -> hasMap tags = hasPtr tags /\ awscrd.selectorTags tags = true.
Proof.
  unfold osv1crd.selectorTags, awscrd.selectorTags, propertyMap, hasMap.
  destruct tags as [m|]; cbn [propertyPtr hasPtr entries default from_option id].
  2: { intros _. cbn. by rewrite bool_decide_true. }
  rewrite !andb_true_iff. intros [[H1 H2] H3].
  assert (m <> ∅) as N by (intros ->; done). rewrite bool_decide_false by done. cbn [negb orb].
  split; [done|]. by rewrite H3, H1.
Qed.

Lemma terms_sent {A B} (f : A -> B) l :
  minItems 1 l = true -> fold_left (fun acc x => go_append acc [f x]) l None = Some (map f l).
Proof. rewrite fold_go_append. by destruct l. Qed.

Lemma forallb_map' {A B} (f : A -> B) p l : forallb p (map f l) = forallb (fun x => p (f x)) l.
Proof. induction l as [|x l IH]; [done|]. cbn. by rewrite IH. Qed.

Lemma forallb_ext' {A} (p q : A -> bool) l : (forall x, x ∈ l -> p x = q x) -> forallb p l = forallb q l.
Proof.
  intros H. induction l as [|x l IH]; cbn; [done|]. rewrite H by set_solver. f_equal. apply IH. intros; apply H; set_solver.
Qed.

(** Tags of our own making. *)
Lemma selectorTags_insert k1 v1 k2 v2 :
  k1 <> "" -> v1 <> "" -> k2 <> "" -> v2 <> "" ->
  awscrd.selectorTags (Some (<[k1 := v1]> {[k2 := v2]})) = true /\ hasMap (Some (<[k1 := v1]> {[k2 := v2]})) = true.
Proof.
  intros H1 H2 H3 H4. assert (hasMap (Some (<[k1 := v1]> {[k2 := v2]})) = true) as E.
  { unfold hasMap. rewrite bool_decide_false; [done | apply insert_non_empty]. }
  split; [|done]. unfold awscrd.selectorTags, propertyMap. rewrite E. cbn [negb orb entries default from_option id].
  apply andb_true_iff. split.
  - apply Nat.leb_le. rewrite map_size_insert, map_size_singleton. destruct (_ !! _); cbn; lia.
  - apply allEntries_spec. intros k v [[<- <-]|[_ [<- <-]%lookup_singleton_Some]]%lookup_insert_Some;
      by rewrite andb_true_iff, !has_true.
Qed.

Lemma selectorTags_singleton k v :
  k <> "" -> awscrd.selectorTags (Some {[k := v]}) = has v /\ hasMap (Some {[k := v]}) = true.
Proof.
  intros Hk. assert (hasMap (Some {[k := v]}) = true) as E.
  { unfold hasMap. rewrite bool_decide_false; [done | apply map_non_empty_singleton]. }
  split; [|done]. unfold awscrd.selectorTags, propertyMap. rewrite E. cbn [negb orb entries default from_option id].
  apply eq_true_iff_eq. rewrite andb_true_iff, allEntries_spec. unfold maxProperties. rewrite map_size_singleton. split.
  - intros [_ H]. specialize (H k v (lookup_singleton_eq _ _)). by apply andb_true_iff in H as [_ H].
  - intros Hv. split; [done|]. intros k' v' [<- <-]%lookup_singleton_Some. by rewrite andb_true_iff, has_true.
Qed.

(** A rule on the terms before, as the rule on the terms after: [tac] rewrites the
    parts of a term. *)
Ltac same_rule tac :=
  match goal with H : ?b = true |- ?c = true =>
    transitivity b; [|exact H]; try apply (f_equal negb); apply forallb_ext'; intros t Ht; cbn beta; tac t; done
  end.

Lemma subnetTerm_admitted t :
  osv1crd.SubnetSelectorTerm t = true ->
  hasMap (osv1.sst_Tags t) = hasPtr (osv1.sst_Tags t)
  /\ awscrd.subnetSelectorTerm (awsv1.mkSubnetSelectorTerm (osv1.sst_Tags t) (osv1.sst_ID t)) = true.
Proof.
  intros V. unfold osv1crd.SubnetSelectorTerm in V. conjuncts. unfold awscrd.subnetSelectorTerm. cbn.
  destruct (selectorTags_admitted (osv1.sst_Tags t)) as [-> ->]; [done|].
  by destruct (id_admitted "subnet-" (osv1.sst_ID t)) as [-> _].
Qed.

Lemma subnets_admitted spec infraID :
  propertyPtr (osv1.SubnetSelectorTerms spec) osv1crd.SubnetSelectorTerms = true ->
  let l := subnetSelectorTerms spec infraID in
  hasPtr l && awscrd.subnetSelectorTerms (elems l) = true.
Proof.
  unfold subnetSelectorTerms. destruct (osv1.SubnetSelectorTerms spec) as [terms|]; cbn [propertyPtr].
  2: { intros _. cbn [hasPtr elems default from_option id andb].
       unfold awscrd.subnetSelectorTerms, awscrd.subnetSelectorTerm, DefaultSubnetSelectorTags. cbn [forallb awsv1.sst_Tags awsv1.sst_ID].
       by destruct (selectorTags_insert ("kubernetes.io/cluster/" +:+ infraID) "*" "kubernetes.io/role/internal-elb" "1")
         as [-> ->]. }
  intros V. unfold osv1crd.SubnetSelectorTerms in V. conjuncts. rewrite terms_sent by done.
  match goal with H : forallb osv1crd.SubnetSelectorTerm _ = true |- _ => pose proof (proj1 (forallb_elem _ _) H) as Hv end.
  cbn [hasPtr elems default from_option id andb]. unfold awscrd.subnetSelectorTerms, maxItems in *.
  rewrite !forallb_map', length_map. cbn [awsv1.sst_Tags awsv1.sst_ID].
  rewrite !andb_true_iff. repeat split; try done.
  - apply forallb_elem. intros t Ht. by apply subnetTerm_admitted, Hv.
  - same_rule ltac:(fun t => destruct (subnetTerm_admitted t) as [-> _]; [by apply Hv|]).
  - same_rule ltac:(fun t => destruct (subnetTerm_admitted t) as [-> _]; [by apply Hv|]).
Qed.

Lemma securityGroupTerm_admitted t :
  osv1crd.SecurityGroupSelectorTerm t = true ->
  hasMap (osv1.sgst_Tags t) = hasPtr (osv1.sgst_Tags t)
  /\ awscrd.securityGroupSelectorTerm
       (awsv1.mkSecurityGroupSelectorTerm (osv1.sgst_Tags t) (osv1.sgst_ID t) (osv1.sgst_Name t)) = true.
Proof.
  intros V. unfold osv1crd.SecurityGroupSelectorTerm in V. conjuncts. unfold awscrd.securityGroupSelectorTerm. cbn.
  destruct (selectorTags_admitted (osv1.sgst_Tags t)) as [-> ->]; [done|].
  by destruct (id_admitted "sg-" (osv1.sgst_ID t)) as [-> _].
Qed.

Lemma securityGroups_admitted spec hcp :
  propertyPtr (osv1.SecurityGroupSelectorTerms spec) osv1crd.SecurityGroupSelectorTerms = true ->
  let l := securityGroupSelectorTerms spec (hcp_InfraID hcp) in
  hasPtr l && awscrd.securityGroupSelectorTerms (elems l) = true <-> infraAdmitted spec hcp.
Proof.
  unfold securityGroupSelectorTerms, infraAdmitted.
  destruct (osv1.SecurityGroupSelectorTerms spec) as [terms|]; cbn [propertyPtr].
  2: { intros _. cbn [hasPtr elems default from_option id andb].
       unfold awscrd.securityGroupSelectorTerms, awscrd.securityGroupSelectorTerm, DefaultSecurityGroupSelectorTags.
       cbn [forallb awsv1.sgst_Tags awsv1.sgst_ID awsv1.sgst_Name].
       destruct (selectorTags_singleton "karpenter.sh/discovery" (hcp_InfraID hcp)) as [-> ->]; [done|].
       rewrite <- has_true. cbn. rewrite !andb_true_r. naive_solver. }
  intros V. unfold osv1crd.SecurityGroupSelectorTerms in V. conjuncts. split; [done|]. intros _. rewrite terms_sent by done.
  match goal with H : forallb osv1crd.SecurityGroupSelectorTerm _ = true |- _ =>
    pose proof (proj1 (forallb_elem _ _) H) as Hv end.
  cbn [hasPtr elems default from_option id andb]. unfold awscrd.securityGroupSelectorTerms, maxItems in *.
  rewrite !forallb_map', length_map. cbn [awsv1.sgst_Tags awsv1.sgst_ID awsv1.sgst_Name].
  rewrite !andb_true_iff. repeat split; try done.
  - apply forallb_elem. intros t Ht. by apply securityGroupTerm_admitted, Hv.
  - same_rule ltac:(fun t => destruct (securityGroupTerm_admitted t) as [-> _]; [by apply Hv|]).
  - same_rule ltac:(fun t => destruct (securityGroupTerm_admitted t) as [-> _]; [by apply Hv|]).
  - same_rule ltac:(fun t => destruct (securityGroupTerm_admitted t) as [-> _]; [by apply Hv|]).
Qed.

(** Capacity reservations: a term needs more than an owner. *)
Lemma criteria_admitted s :
  property s osv1crd.InstanceMatchCriteria = true ->
  property (ToLower s) (enum ["open"; "targeted"]) = true /\ has (ToLower s) = has s.
Proof.
  rewrite property_spec. intros [->|H]; [done|]. apply bool_decide_eq_true in H.
  rewrite !elem_of_cons, elem_of_nil in H. by destruct H as [->|[->|[]]].
Qed.

Lemma reservation_admitted t :
  osv1crd.CapacityReservationSelectorTerm t = true ->
  let t' := capacityReservationSelectorTerm t in
  (hasMap (awsv1.crst_Tags t') = hasPtr (osv1.crst_Tags t)
   /\ has (awsv1.crst_InstanceMatchCriteria t') = has (osv1.crst_InstanceMatchCriteria t))
  /\ awscrd.capacityReservationSelectorTerm t' = true.
Proof.
  intros V. unfold osv1crd.CapacityReservationSelectorTerm in V. conjuncts.
  unfold awscrd.capacityReservationSelectorTerm. cbn.
  destruct (selectorTags_admitted (osv1.crst_Tags t)) as [-> ->]; [done|].
  destruct (criteria_admitted (osv1.crst_InstanceMatchCriteria t)) as [-> ->]; [done|].
  destruct (id_admitted "cr-" (osv1.crst_ID t)) as [_ ->]; [done|].
  erewrite (property_weaken _ (matches accountID)); [done | | done]. by intros x [? _]%andb_true_iff.
Qed.

Lemma hasPtr_true {A} (o : option A) : hasPtr o = true <-> o <> None.
Proof. by destruct o. Qed.

Lemma reservations_admitted spec :
  propertyPtr (osv1.CapacityReservationSelectorTerms spec) osv1crd.CapacityReservationSelectorTerms = true ->
  propertyPtr (karpenterCapacityReservationSelectorTermsFromNodeClassSpec spec)
    awscrd.capacityReservationSelectorTerms = true <->
  forall t, t ∈ elems (osv1.CapacityReservationSelectorTerms spec) ->
    osv1.crst_Tags t <> None \/ osv1.crst_ID t <> "" \/ osv1.crst_InstanceMatchCriteria t <> "".
Proof.
  unfold karpenterCapacityReservationSelectorTermsFromNodeClassSpec.
  destruct (osv1.CapacityReservationSelectorTerms spec) as [terms|]; cbn [propertyPtr elems default from_option id].
  2: { intros _. split; [by intros _ x ?%elem_of_nil | done]. }
  intros V. unfold osv1crd.CapacityReservationSelectorTerms in V. conjuncts. rewrite terms_sent by done. cbn [propertyPtr].
  match goal with H : forallb osv1crd.CapacityReservationSelectorTerm _ = true |- _ =>
    pose proof (proj1 (forallb_elem _ _) H) as Hv end.
  assert (forallb (fun t => let t' := capacityReservationSelectorTerm t in
            hasMap (awsv1.crst_Tags t') || has (awsv1.crst_ID t') || has (awsv1.crst_InstanceMatchCriteria t')) terms = true <->
          forall t, t ∈ terms -> osv1.crst_Tags t <> None \/ osv1.crst_ID t <> "" \/ osv1.crst_InstanceMatchCriteria t <> "")
    as <-.
  { rewrite forallb_elem. split; intros HC t Ht; specialize (HC t Ht); revert HC; cbn zeta;
      destruct (reservation_admitted t (Hv t Ht)) as [[-> ->] _];
      rewrite !orb_true_iff, hasPtr_true, !has_true; cbn; tauto. }
  unfold awscrd.capacityReservationSelectorTerms, maxItems in *. rewrite !forallb_map', length_map, !andb_true_iff.
  split; [tauto|]. intros HC. repeat split; try done.
  - apply forallb_elem. intros t Ht. by apply reservation_admitted, Hv.
  - same_rule ltac:(fun t => destruct (reservation_admitted t) as [[-> ->] _]; [by apply Hv|]).
Qed.

(** ** Kubelet *)

Lemma entries_None {V} k : entries (@None (gmap string V)) !! k = None.
Proof. apply lookup_empty. Qed.

Lemma reserved_admitted m :
  osv1crd.reserved m = true ->
  awscrd.reserved m = true <-> forall k v, entries m !! k = Some v -> matches awscrd.quantity v = true.
Proof.
  unfold awscrd.reserved. rewrite propertyMap_all, allEntries_spec. intros V. split.
  - intros H k v Hk. specialize (H k v Hk). rewrite !andb_true_iff in H. tauto.
  - intros H k v Hk. rewrite !andb_true_iff. split; [split; [by apply (H k)|]|].
    all: destruct m as [m|]; [|by rewrite entries_None in Hk]; unfold osv1crd.reserved, allKeys in V; cbn [propertyPtr] in V;
      conjuncts; rewrite ?allEntries_spec in *; naive_solver.
Qed.

Lemma thresholds_admitted m :
  osv1crd.thresholds m = true ->
  awscrd.thresholds m = true <-> forall k v, entries m !! k = Some v -> matches awscrd.evictionThreshold v = true.
Proof.
  unfold awscrd.thresholds. rewrite propertyMap_all, allEntries_spec. intros V. split.
  - intros H k v Hk. specialize (H k v Hk). rewrite !andb_true_iff in H. tauto.
  - intros H k v Hk. rewrite !andb_true_iff. split; [by apply (H k)|].
    destruct m as [m|]; [|by rewrite entries_None in Hk]; unfold osv1crd.thresholds, allKeys in V; cbn [propertyPtr] in V;
      conjuncts; rewrite ?allEntries_spec in *; naive_solver.
Qed.

(** A rule on the keys of a map, when it is there. *)
Lemma allKeys_hasMap {V} (m : gomap V) p :
  (if hasMap m then allKeys p (entries m) else true) = true <-> forall k, is_Some (entries m !! k) -> p k = true.
Proof.
  unfold hasMap, allKeys. destruct (bool_decide _) eqn:E; cbn.
  - apply bool_decide_eq_true in E. rewrite E. split; [|done]. intros _ k [v Hk]. by rewrite lookup_empty in Hk.
  - rewrite allEntries_spec. split; [by intros H k [v Hk]; apply (H k v) | intros H k v Hk; apply H; eauto].
Qed.

Lemma inMap_true {V} k (m : gomap V) : inMap k m = true <-> is_Some (entries m !! k).
Proof. apply bool_decide_eq_true. Qed.

(** What the second schema asks of the eviction maps, given what the first does. *)
Lemma eviction_admitted (soft grace : gomap string) :
  (negb (hasPtr soft) || (hasPtr grace && allKeys (fun e => inMap e grace) (entries soft))) = true ->
  (negb (hasPtr grace) || (hasPtr soft && allKeys (fun e => inMap e soft) (entries grace))) = true ->
  osv1crd.gracePeriods grace = true ->
  let grace' := evictionSoftGracePeriodToDuration grace in
  propertyMap grace' (allKeys (enum signals)) = true
  /\ (if hasMap grace' then allKeys (fun e => inMap e soft) (entries grace') else true) = true
  /\ ((if hasMap soft then allKeys (fun e => inMap e grace') (entries soft) else true) = true <->
      forall k v, entries grace !! k = Some v -> ParseDuration v <> None).
Proof.
  intros R1 R2 V grace'.
  assert (Hk : forall k, is_Some (entries soft !! k) <-> is_Some (entries grace !! k)).
  { intros k. destruct soft as [soft|], grace as [grace|]; cbn in R1, R2; try done.
    unfold allKeys in R1, R2. rewrite allEntries_spec in R1, R2. split; intros [v Hv]; [specialize (R1 _ _ Hv) | specialize (R2 _ _ Hv)];
      by apply inMap_true. }
  assert (Hg : forall k, is_Some (entries grace' !! k) <-> exists v, entries grace !! k = Some v /\ ParseDuration v <> None).
  { intros k. unfold grace'. rewrite gracePeriod_lookup. destruct (entries grace !! k) as [v|]; cbn.
    - rewrite <- not_eq_None_Some. naive_solver.
    - split; [by intros [? ?] | naive_solver]. }
  rewrite !allKeys_hasMap. unfold allKeys. rewrite propertyMap_all, allEntries_spec. setoid_rewrite inMap_true.
  split; [|split].
  - intros k d Hd. destruct (proj1 (Hg k)) as (v & Hv & _); [eauto|]. destruct grace as [g|]; [|by rewrite entries_None in Hv].
    unfold osv1crd.gracePeriods in V. cbn [propertyPtr] in V. conjuncts. unfold allKeys in *.
    rewrite allEntries_spec in *. naive_solver.
  - intros k (v & Hv & _)%Hg. apply Hk. eauto.
  - split.
    + intros H k v Hv. destruct (proj1 (Hg k) (H k (proj2 (Hk k) ltac:(eauto)))) as (w & Hw & Hd). congruence.
    + intros H k [v Hv]%Hk. apply Hg. eauto.
Qed.

Lemma propertyInt_nonzero n p : propertyInt n p = true -> n <> 0%Z -> p n = true.
Proof. unfold propertyInt, hasInt. intros H N. by rewrite bool_decide_false in H. Qed.

Section admission.
Context (double : string -> option Z).

Lemma kubelet_bounds k :
  osv1crd.KubeletConfiguration double k = true ->
  propertyPtr (ptrIfNonZero (osv1.kc_MaxPods k)) (minimum 0) = true
  /\ propertyPtr (ptrIfNonZero (osv1.kc_PodsPerCore k)) (minimum 0) = true.
Proof.
  intros V. unfold osv1crd.KubeletConfiguration in V. conjuncts. unfold ptrIfNonZero.
  split; case_decide; cbn [propertyPtr]; try done; apply Z.leb_le;
    match goal with N : ?n <> 0%Z, H : propertyInt ?n _ = true |- _ => apply propertyInt_nonzero in H; [|done] end;
    conjuncts; match goal with H : minimum 1 _ = true |- _ => apply Z.leb_le in H end; lia.
Qed.

Lemma kubelet_admitted spec :
  osv1crd.KubeletConfiguration double (osv1.Kubelet spec) = true ->
  let k := osv1.Kubelet spec in
  propertyPtr (karpenterKubeletConfigurationFromNodeClassSpec spec) awscrd.kubelet = true <->
  (forall key v, entries (osv1.kc_SystemReserved k) !! key = Some v
                 \/ entries (osv1.kc_KubeReserved k) !! key = Some v -> matches awscrd.quantity v = true)
  /\ (forall key v, entries (osv1.kc_EvictionHard k) !! key = Some v
                    \/ entries (osv1.kc_EvictionSoft k) !! key = Some v -> matches awscrd.evictionThreshold v = true)
  /\ (forall key v, entries (osv1.kc_EvictionSoftGracePeriod k) !! key = Some v -> ParseDuration v <> None).
Proof.
  intros V k. unfold karpenterKubeletConfigurationFromNodeClassSpec. fold k. fold k in V.
  destruct (osv1.HasTypedFields k) eqn:T; cbn [negb propertyPtr].
  2: { unfold osv1.HasTypedFields in T. rewrite !orb_false_iff, !negb_false_iff, !bool_decide_eq_true in T.
       destruct T as ((((((((((_ & _) & ->) & ->) & ->) & ->) & ->) & _) & _) & _) & _).
       setoid_rewrite entries_None. naive_solver. }
  destruct (kubelet_bounds _ V) as [B1 B2]. unfold osv1crd.KubeletConfiguration in V. conjuncts.
  destruct (eviction_admitted (osv1.kc_EvictionSoft k) (osv1.kc_EvictionSoftGracePeriod k)) as (E1 & E2 & E3); try done.
  unfold awscrd.kubelet. cbn -[evictionSoftGracePeriodToDuration evictionThresholdMapToStringMap ptrIfNonZero
    hasMap allKeys inMap entries propertyMap propertyPtr minimum].
  rewrite !evictionThreshold_id, B1, B2, E1, E2. rewrite !andb_true_iff, E3.
  rewrite !reserved_admitted, !thresholds_admitted by done. naive_solver.
Qed.

End admission.

(** ** The other properties *)

Lemma metadataOptions_admitted spec :
  osv1crd.MetadataOptions (osv1.MetadataOptionsField spec) = true ->
  propertyPtr (karpenterMetadataOptionsFromNodeClassSpec spec) awscrd.metadataOptions = true.
Proof.
  intros V. unfold karpenterMetadataOptionsFromNodeClassSpec. case_decide as D; [done|]. cbn [propertyPtr].
  unfold osv1crd.MetadataOptions in V. conjuncts. unfold awscrd.metadataOptions. cbn.
  repeat case_decide; cbn; try done; rewrite !andb_true_r; by apply (propertyInt_nonzero _ (fun n => minimum 1 n && maximum 64 n)).
Qed.

Lemma instanceStorePolicy_admitted spec :
  property (osv1.InstanceStorePolicy spec) osv1crd.InstanceStorePolicy = true ->
  propertyPtr (karpenterInstanceStorePolicyFromNodeClassSpec spec) (enum ["RAID0"]) = true.
Proof.
  unfold karpenterInstanceStorePolicyFromNodeClassSpec. rewrite property_spec. case_decide; [done|]. by intros [?|?].
Qed.

Lemma instanceProfile_admitted hcp :
  propertyPtr (instanceProfileOf hcp) (fun p => negb (bool_decide (p = ""))) = true.
Proof.
  unfold instanceProfileOf. destruct (_ !! _); [|done]. case_decide; [done|]. cbn. by rewrite bool_decide_false.
Qed.

(** ** Tags *)

Definition tagAdmitted (k : string) : bool :=
  has k && negb (bool_decide (k = "eks:eks-cluster-name")) && negb (HasPrefix k "kubernetes.io/cluster")
  && negb (bool_decide (k = "karpenter.sh/nodepool")) && negb (bool_decide (k = "karpenter.sh/nodeclaim"))
  && negb (bool_decide (k = "karpenter.k8s.aws/ec2nodeclass")).

Lemma tags_spec m : awscrd.tags m = true <-> forall k v, entries m !! k = Some v -> tagAdmitted k = true.
Proof.
  transitivity (allKeys tagAdmitted (entries m) = true); [|apply allEntries_spec].
  unfold allKeys. rewrite <- (propertyMap_all (fun k _ => tagAdmitted k) m). unfold awscrd.tags, propertyMap.
  rewrite !orb_true_iff. apply or_iff; [done|]. unfold allKeys. rewrite !andb_true_iff, !allEntries_spec.
  unfold tagAdmitted. split.
  - intros (((((H1 & H2) & H3) & H4) & H5) & H6) k v Hk. by rewrite (H1 k v), (H2 k v), (H3 k v), (H4 k v), (H5 k v), (H6 k v).
  - intros H. repeat split; intros k v Hk; specialize (H k v Hk); rewrite !andb_true_iff in H; tauto.
Qed.

(** Every tag of the platform that is not restricted is merged, with some value. *)
Lemma platformValue_elem platform key :
  is_Some (platformValue platform key) <-> exists t, t ∈ platform /\ tag_Key t = key.
Proof.
  unfold platformValue. rewrite last_is_Some. split.
  - destruct (filter _ platform) as [|t l] eqn:E; [done|]. intros _.
    assert (t ∈ filter (fun t => tag_Key t = key) platform) as [? ?]%list_elem_of_filter by (rewrite E; set_solver).
    by exists t.
  - intros (t & Ht & Hk) E%fmap_nil_inv. assert (t ∈ filter (fun t => tag_Key t = key) platform) as H
      by (by apply list_elem_of_filter). rewrite E in H. by apply elem_of_nil in H.
Qed.

Lemma mergedValue_is_Some platform key o :
  is_Some (mergedValue platform key o) <-> is_Some o \/ exists t, t ∈ platform /\ tag_Key t = key.
Proof.
  rewrite <- platformValue_elem. unfold mergedValue. destruct (platformValue platform key) as [v|].
  - case_decide; split; eauto.
  - split; [by left | intros [?|[? ?]]; done].
Qed.

Lemma mergedTags_is_Some c hcp key :
  is_Some (entries (mergeEC2NodeClassTags c hcp) !! key) <->
  isRestricted key = false /\
  (is_Some (entries (osv1.Tags (osv1.Spec c)) !! key) \/ exists t, t ∈ elems (awsResourceTags hcp) /\ tag_Key t = key).
Proof.
  unfold mergeEC2NodeClassTags, mergeTagsInOrder.
  set (tags := entries (osv1.Tags (osv1.Spec c))).
  pose proof (filterRestrictedTags_lookup (map_to_list (mergedTags (map_to_list tags) hcp))
                (mergedTags (map_to_list tags) hcp) key (reflexivity _)) as H.
  rewrite (mergedTags_lookup _ tags) in H by done.
  destruct (filterRestrictedTags _ _) as [f r]. cbn [fst] in H. rewrite <- mergedValue_is_Some.
  transitivity (is_Some (f !! key)).
  - case_decide as E; [|done]. destruct E as [_ ->]. by rewrite entries_None, lookup_empty.
  - rewrite H. destruct (isRestricted key); [|naive_solver]. split; [by intros [? ?] | by intros [? _]].
Qed.

Lemma tagsMerged_admitted c hcp :
  propertyPtr (osv1.Tags (osv1.Spec c)) osv1crd.Tags = true ->
  awscrd.tags (mergeEC2NodeClassTags c hcp) = true <-> tagsAdmitted hcp.
Proof.
  intros V. rewrite tags_spec. unfold tagsAdmitted. split.
  - intros H t Ht R. destruct (proj2 (mergedTags_is_Some c hcp (tag_Key t))) as [v Hv]; [split; [done|]; right; by exists t|].
    specialize (H _ _ Hv). unfold tagAdmitted in H. rewrite !andb_true_iff, has_true, !negb_true_iff in H. tauto.
  - intros H k v Hk. destruct (proj1 (mergedTags_is_Some c hcp k) ltac:(eauto)) as [R [[w Hw]|(t & Ht & <-)]].
    + destruct (osv1.Tags (osv1.Spec c)) as [m|]; [|by rewrite entries_None in Hw]. cbn in V. unfold osv1crd.Tags, allKeys in V.
      conjuncts. rewrite allEntries_spec in *. unfold tagAdmitted. rewrite !andb_true_iff. naive_solver.
    + destruct (H t Ht R) as [N P]. unfold isRestricted in R. cbn in R. rewrite !orb_false_iff in R.
      destruct R as (_ & R1 & R2 & R3 & R4 & _). unfold tagAdmitted.
      repeat match goal with R : bool_decide _ = false |- _ => apply bool_decide_eq_false in R end.
      rewrite (proj2 (has_true _) N), P. by rewrite !bool_decide_false by done.
Qed.

(** ** AMIs *)

Lemma amiTerms_admitted ids :
  1 <= length ids <= 30 ->
  awscrd.amiSelectorTerms (map amiTerm ids) = true <-> forall ami, ami ∈ ids -> search (resourceID "ami-") ami = true.
Proof.
  intros [L1 L2]. unfold awscrd.amiSelectorTerms. rewrite !forallb_map'. unfold maxItems, minItems. rewrite length_map.
  rewrite !andb_true_iff, !forallb_elem, !Nat.leb_le. cbn. split.
  - intros (((H1 & _) & _) & H2) ami Ha. specialize (H1 _ Ha). specialize (H2 _ Ha). rewrite !andb_true_iff in H2.
    destruct H2 as (((((H2 & _) & _) & _) & _) & _). apply property_spec in H1 as [->|H1]; done.
  - intros H. repeat split; try done; intros ami Ha; specialize (H _ Ha); [apply property_spec; by right|].
    rewrite !andb_true_r. apply has_true. by intros ->.
Qed.

Lemma amiSelectorTerms_map secret terms :
  let ami arch := entries (om_Labels (secret_meta secret)) !! archToAMILabelKey arch in
  amiSelectorTermsFromUserDataSecret secret = Ok terms ->
  terms = Some (map amiTerm (omap ami supportedArchitectures)) /\ 1 <= length (omap ami supportedArchitectures) <= 30.
Proof.
  intros ami. unfold amiSelectorTermsFromUserDataSecret, supportedArchitectures. cbn [fold_left omap list_omap].
  fold (ami ArchitectureAMD64) (ami ArchitectureARM64).
  destruct (ami ArchitectureAMD64), (ami ArchitectureARM64); cbn; intros [= <-]; (split; [done | lia]).
Qed.

Lemma amis_admitted base nodeClass hcp secret u amis :
  userDataAndAMIs base nodeClass hcp secret = Ok (u, amis) ->
  hasPtr amis && awscrd.amiSelectorTerms (elems amis) = true <-> amisAdmitted base nodeClass hcp secret.
Proof.
  rewrite userDataAndAMIs_pinned. unfold amisAdmitted. case_decide as P.
  - intros [= _ <-]. destruct P as (_ & P & _). by destruct (awsv1.AMISelectorTerms (awsv1.Spec base)).
  - destruct (amiSelectorTermsFromUserDataSecret secret) as [terms|] eqn:E; [|done]. intros [= _ <-].
    apply amiSelectorTerms_map in E as [-> L]. cbn [hasPtr elems default from_option id andb].
    rewrite amiTerms_admitted by done. setoid_rewrite list_elem_of_omap. naive_solver.
Qed.

(** ** What the schema admits is valid *)

Lemma enum_oneOf l s : property s (enum l) = true -> oneOf s l.
Proof. rewrite property_spec. intros [->|H]; [by left | right; by apply bool_decide_eq_true in H]. Qed.

Lemma blockDevice_valid m : osv1crd.BlockDeviceMapping m = true -> ValidMapping m.
Proof.
  intros V. unfold osv1crd.BlockDeviceMapping, osv1crd.BlockDevice in V. conjuncts.
  split; [split|]; try by apply enum_oneOf.
  match goal with H : propertyInt ?n _ = true |- _ => destruct (decide (n = 0%Z)) as [->|N]; [lia|];
    apply propertyInt_nonzero in H; [|done] end.
  conjuncts. unfold minimum, maximum in *. lia.
Qed.

(** The hypothesis of the theorems on the conversion is what the first CRD asks. *)
Lemma schema_valid double spec : osv1crd.Spec double spec = true -> ValidSpec spec.
Proof.
  intros V. unfold osv1crd.Spec, osv1crd.MetadataOptions in V. conjuncts.
  split; try by apply enum_oneOf.
  - destruct (osv1.BlockDeviceMappings spec) as [l|]; cbn [propertyPtr elems default from_option id] in *; [|done].
    unfold osv1crd.BlockDeviceMappings in *. conjuncts. split; [by intros [= ->]|]. apply Forall_forall. intros m Hm.
    apply blockDevice_valid. by eapply forallb_elem.
  - destruct (osv1.CapacityReservationSelectorTerms spec) as [l|]; cbn [propertyPtr elems default from_option id] in *; [|done].
    unfold osv1crd.CapacityReservationSelectorTerms in *. conjuncts. split; [by intros [= ->]|]. apply Forall_forall.
    intros t Ht. match goal with H : forallb osv1crd.CapacityReservationSelectorTerm l = true |- _ =>
      pose proof (proj1 (forallb_elem _ _) H t Ht) as V end.
    unfold osv1crd.CapacityReservationSelectorTerm in V. conjuncts. by apply enum_oneOf.
Qed.

(** ** The theorem *)

(** C7. The EC2NodeClass of an admitted NodeClass is admitted by the CRD that the
    operator installs exactly when: the sizes of the volumes are in the pattern,
    no capacity reservation term has only an owner, reserved resources are
    quantities, eviction thresholds are quantities or percentages, grace periods
    are durations, the AMIs of the Secret (or those kept during an upgrade) are
    AMI IDs, the tags of the platform that the operator does not filter out are not
    restricted, and the default selector can name the cluster.  Every other setting
    that the first CRD admits, the second does. *)
Theorem ec2_admitted_iff double base nodeClass hcp secret ec2 :
  osv1crd.Spec double (osv1.Spec nodeClass) = true ->
  reconcileEC2NodeClass base nodeClass hcp secret = Ok ec2 ->
  awscrd.spec (awsv1.Spec ec2) = true <->
  convertible (osv1.Spec nodeClass) /\ amisAdmitted base nodeClass hcp secret
  /\ tagsAdmitted hcp /\ infraAdmitted (osv1.Spec nodeClass) hcp.
Proof.
  intros V. unfold reconcileEC2NodeClass.
  destruct (userDataAndAMIs _ _ _ _) as [[u amis]|] eqn:U; [|done]. cbn [rbind].
  destruct (blockDeviceMappings _) as [m|] eqn:M; [|done]. intros [= <-]. cbn [awsv1.Spec rbind].
  unfold osv1crd.Spec in V. conjuncts. apply amis_admitted in U. apply mappings_admitted in M; [|done].
  assert (convertible (osv1.Spec nodeClass) <->
    propertyPtr (karpenterCapacityReservationSelectorTermsFromNodeClassSpec (osv1.Spec nodeClass))
      awscrd.capacityReservationSelectorTerms = true
    /\ propertyPtr (karpenterKubeletConfigurationFromNodeClassSpec (osv1.Spec nodeClass)) awscrd.kubelet = true
    /\ propertyList m awscrd.blockDeviceMappings = true) as ->.
  { rewrite M, reservations_admitted, (kubelet_admitted double) by done. split; [intros []; tauto | by intros (? & (? & ? & ?) & ?)]. }
  rewrite <- U, <- (tagsMerged_admitted nodeClass hcp), <- (securityGroups_admitted (osv1.Spec nodeClass) hcp) by done.
  pose proof (subnets_admitted (osv1.Spec nodeClass) (hcp_InfraID hcp)) as S. cbn zeta in S. specialize (S ltac:(done)).
  unfold awscrd.spec. cbn -[awscrd.subnetSelectorTerms awscrd.securityGroupSelectorTerms awscrd.amiSelectorTerms
    awscrd.tags awscrd.kubelet awscrd.capacityReservationSelectorTerms awscrd.blockDeviceMappings hasPtr propertyPtr
    propertyList elems]. rewrite !andb_true_iff in *. cbn [propertyPtr].
  rewrite instanceProfile_admitted, instanceStorePolicy_admitted, metadataOptions_admitted by done.
  destruct S as [S1 S2]. split; [tauto | intros (? & ? & ? & ?); repeat split; (done || tauto)].
Qed.

(** C38. Which volume sizes are refused, of those the first CRD admits: the ones
    above 59000 GiB other than 58 TiB, and, as a whole number of TiB is sent as
    such, 18, 19, 28, 29, 38, 39, 48 and 49 TiB, which the pattern leaves out.
    Every other size is admitted. *)
Theorem volumeSize_refused n :
  (1 <= n <= 65536)%Z ->
  exists q, volumeSizeGiBToQuantity n = Ok (Some q)
  /\ (matches awscrd.volumeSize (QuantityString q) = false <->
      (59000 < n /\ n <> 58 * 1024)%Z
      \/ n ∈ map (fun m => m * 1024)%Z [18; 19; 28; 29; 38; 39; 48; 49]%Z).
Proof.
  intros Hn. unfold volumeSizeGiBToQuantity. rewrite decide_False by lia.
  destruct (MustParse_Gi n) as (q & E & _); [lia|]. unfold showZ. rewrite E. exists q. split; [done|].
  rewrite (volumeSize_admitted n q) by done. unfold sizeAdmitted, tiAdmitted. cbn [map].
  repeat setoid_rewrite elem_of_cons. setoid_rewrite elem_of_nil. case_bool_decide.
  - rewrite !orb_false_iff, andb_false_iff, !Z.ltb_ge, Z.leb_gt, Z.eqb_neq. Z.to_euclidean_division_equations. lia.
  - rewrite Z.leb_gt. Z.to_euclidean_division_equations. lia.
Qed.

(** ** Witnesses *)

(** Any conversion of texts to numbers. *)
Definition noDouble (s : string) : option Z := None.

Definition admittedNodeClass (size : Z) (memory pidGrace : string) : osv1.OpenshiftEC2NodeClass :=
  osv1.mkOpenshiftEC2NodeClass (newMeta "" "gpu")
    (osv1.mkSpec (Some [osv1.mkSubnetSelectorTerm None "subnet-0a1"]) None
       (Some [osv1.mkCapacityReservationSelectorTerm None "" "123456789012" "Open"]) "Public"
       (Some {["team" := "red"]})
       (Some [osv1.mkBlockDeviceMapping "/dev/xvda"
                (osv1.mkBlockDevice "Delete" "Encrypted" None "" "" None size "GP3") "RootVolume"])
       "RAID0" "Detailed" (osv1.mkMetadataOptions "HTTPEndpoint" "IPv4" 2 "Required") "4.20.1"
       (osv1.mkKubelet 250 0 (Some {["memory" := memory]}) None None (Some {["pid.available" := "10%"]})
          (Some {["pid.available" := pidGrace]}) None None None None None))
    osv1.zeroStatus.

Lemma admittedNodeClass_valid :
  osv1crd.Spec noDouble (osv1.Spec (admittedNodeClass 2048 "1Gi" "1m30s")) = true
  /\ osv1crd.Spec noDouble (osv1.Spec (admittedNodeClass 59001 "1Gi" "1m30s")) = true.
Proof. split; vm_compute; reflexivity. Qed.

Lemma admittedNodeClass_convertible :
  convertible (osv1.Spec (admittedNodeClass 2048 "1Gi" "1m30s"))
  /\ ~ convertible (osv1.Spec (admittedNodeClass 59001 "1Gi" "1m30s")).
Proof.
  split.
  - split; cbn.
    + intros m ->%list_elem_of_singleton. right. reflexivity.
    + intros t ->%list_elem_of_singleton. by right; right.
    + intros k v [[_ <-]%lookup_singleton_Some | H]; [vm_compute; reflexivity | by rewrite lookup_empty in H].
    + intros k v [H | [_ <-]%lookup_singleton_Some]; [by rewrite lookup_empty in H | vm_compute; reflexivity].
    + intros k v [_ <-]%lookup_singleton_Some. by vm_compute.
  - intros [H _ _ _ _]. destruct (H _ (list_elem_of_here _ _)) as [E|E]; vm_compute in E; discriminate E.
Qed.

Lemma ec2_admitted_iff_witness :
  match reconcileEC2NodeClass emptyEC2 (admittedNodeClass 2048 "1Gi" "1m30s") upgradingHCP newReleaseSecret,
        reconcileEC2NodeClass emptyEC2 (admittedNodeClass 59001 "1Gi" "1m30s") upgradingHCP newReleaseSecret with
  | Ok ec2, Ok ec2' => awscrd.spec (awsv1.Spec ec2) = true /\ awscrd.spec (awsv1.Spec ec2') = false
  | _, _ => False
  end.
Proof.
  destruct (reconcileEC2NodeClass emptyEC2 (admittedNodeClass 2048 "1Gi" "1m30s") upgradingHCP newReleaseSecret)
    as [ec2|] eqn:R; [|vm_compute in R; discriminate R].
  destruct (reconcileEC2NodeClass emptyEC2 (admittedNodeClass 59001 "1Gi" "1m30s") upgradingHCP newReleaseSecret)
    as [ec2'|] eqn:R'; [|vm_compute in R'; discriminate R'].
  split.
  - apply (ec2_admitted_iff noDouble emptyEC2 _ upgradingHCP newReleaseSecret ec2 (proj1 admittedNodeClass_valid) R).
    split; [apply admittedNodeClass_convertible|]. split; [|split].
    + unfold amisAdmitted. rewrite decide_False by (apply (bool_decide_unpack _); vm_compute; exact I).
      intros arch ami _. cbn. intros [_ <-]%lookup_singleton_Some. reflexivity.
    + by intros t Ht%elem_of_nil.
    + intros _. discriminate.
  - destruct (awscrd.spec (awsv1.Spec ec2')) eqn:A; [|reflexivity]. exfalso. apply admittedNodeClass_convertible.
    exact (proj1 (proj1 (ec2_admitted_iff noDouble emptyEC2 _ upgradingHCP newReleaseSecret ec2'
                    (proj2 admittedNodeClass_valid) R') A)).
Defined.

Lemma volumeSize_refused_witness :
  exists q, volumeSizeGiBToQuantity 18432 = Ok (Some q) /\ matches awscrd.volumeSize (QuantityString q) = false.
Proof.
  destruct (volumeSize_refused 18432 ltac:(lia)) as (q & Q & H). exists q. split; [exact Q|]. apply H. right.
  apply (bool_decide_unpack _). vm_compute. exact I.
Defined.
