(* ===== verification/Ec2Status.v ===== *)
(** * The status of the OpenshiftEC2NodeClass

    pkg/controllers/nodeclass/ec2/controller.go, [reconcileStatus] and the
    conversions of the upstream enumerations.  [clock i] is the [i]-th reading of
    the clock. *)

From S2P Require Import Prelude Prog DeepEqual MetaV1 CoreTypes HyperTypes AwsV1 KarpenterV1 Kube NodeClassStatus Ec2Convert Ec2Tags.

(** ** Enumerations *)

(** [value\[:1\]] of the empty string panics. *)
Definition upstreamInstanceMatchCriteria (value : string) : result string :=
  match value with
  | EmptyString => Err (EPanic "runtime error: slice bounds out of range [:1] with length 0")
  | String _ _ => Ok (ToUpper (str_take 1 value) +:+ str_drop 1 value)
  end.

Definition upstreamReservationType (value : string) : string :=
  if decide (value = awsv1.CapacityReservationTypeCapacityBlock)
  then osv1.CapacityReservationTypeCapacityBlock
  else osv1.CapacityReservationTypeDefault.

Definition upstreamReservationState (value : string) : string :=
  if decide (value = awsv1.CapacityReservationStateExpiring)
  then osv1.CapacityReservationStateExpiring
  else osv1.CapacityReservationStateActive.

(** ** The status *)

Definition resolvedReservation (cr : awsv1.CapacityReservation) : result osv1.CapacityReservation :=
  rbind (upstreamInstanceMatchCriteria (awsv1.cr_InstanceMatchCriteria cr)) (fun criteria =>
  Ok (osv1.mkCapacityReservation
    (awsv1.cr_AvailabilityZone cr)
    (default 0%Z (awsv1.cr_EndTime cr))
    (awsv1.cr_ID cr)
    criteria
    (awsv1.cr_InstanceType cr)
    (awsv1.cr_OwnerID cr)
    (upstreamReservationType (awsv1.cr_ReservationType cr))
    (upstreamReservationState (awsv1.cr_State cr)))).

(** The NodeClass with the status the controller wants. *)
Definition desiredNodeClass (clock : nat -> Time) (ec2NodeClass : awsv1.EC2NodeClass)
    (nodeClass : osv1.OpenshiftEC2NodeClass) (hcp : HostedControlPlane) :
    result osv1.OpenshiftEC2NodeClass :=
  let status := awsv1.Status ec2NodeClass in
  let old := osv1.Status nodeClass in
  rbind (appendAll resolvedReservation (elems (awsv1.CapacityReservations status)) None) (fun reservations =>
  let conditions := SyncConditions clock (osv1.Conditions old) (elems (awsv1.Conditions status))
                      (om_Generation (osv1.meta nodeClass)) in
  let nodeClass' := osv1.set_Status (osv1.mkStatus conditions
      (Some (map (fun s => osv1.mkSubnet (awsv1.sn_ID s) (awsv1.sn_Zone s) (awsv1.sn_ZoneID s))
               (elems (awsv1.Subnets status))))
      (Some (map (fun g => osv1.mkSecurityGroup (awsv1.sg_ID g) (awsv1.sg_Name g))
               (elems (awsv1.SecurityGroups status))))
      (osv1.ReleaseImage old) (osv1.StatusVersion old) reservations) nodeClass in
  Ok (setAWSResourceTagConflictCondition
        (clock (S (length (elems (awsv1.Conditions status))))) nodeClass' hcp)).

Definition reconcileStatus (clock : nat -> Time) (ec2NodeClass : awsv1.EC2NodeClass)
    (nodeClass : osv1.OpenshiftEC2NodeClass) (hcp : HostedControlPlane) : go (result unit) :=
  match desiredNodeClass clock ec2NodeClass nodeClass hcp with
  | Err err => Ret (Err err)
  | Ok nodeClass' =>
      if negb (DeepEqual (osv1.Status nodeClass) (osv1.Status nodeClass')) then
        wrap_err "updating status"
          (call (EStatusPatch Hosted KOpenshiftEC2NodeClass nodeClass nodeClass' true)) ;;?
        Ret (Ok tt)
      else Ret (Ok tt)
  end.

(** ** Properties *)

(** The values AWS reports. *)
Definition ValidReservation (cr : awsv1.CapacityReservation) : Prop :=
  awsv1.cr_InstanceMatchCriteria cr ∈ ["open"; "targeted"]
  /\ awsv1.cr_ReservationType cr ∈ ["default"; "capacity-block"]
  /\ awsv1.cr_State cr ∈ ["active"; "expiring"].

(** The API's spelling of an upstream enumeration value. *)
Definition pascal : list (string * string) :=
  [("open", "Open"); ("targeted", "Targeted"); ("default", "Default"); ("capacity-block", "CapacityBlock");
   ("active", "Active"); ("expiring", "Expiring")].

Definition criteriaAgree (cr : awsv1.CapacityReservation) (r : osv1.CapacityReservation) : Prop :=
  (awsv1.cr_InstanceMatchCriteria cr, osv1.cr_InstanceMatchCriteria r) ∈ pascal
  /\ (awsv1.cr_ReservationType cr, osv1.cr_ReservationType r) ∈ pascal
  /\ (awsv1.cr_State cr, osv1.cr_State r) ∈ pascal
  /\ osv1.cr_ID r = awsv1.cr_ID cr /\ osv1.cr_OwnerID r = awsv1.cr_OwnerID cr
  /\ osv1.cr_InstanceType r = awsv1.cr_InstanceType cr
  /\ osv1.cr_AvailabilityZone r = awsv1.cr_AvailabilityZone cr
  /\ osv1.cr_EndTime r = default 0%Z (awsv1.cr_EndTime cr).

Lemma resolvedReservation_valid cr :
  ValidReservation cr -> exists r, resolvedReservation cr = Ok r /\ criteriaAgree cr r.
Proof.
  intros (H1 & H2 & H3). destruct cr as [az et id crit it own rt int st]; cbn in *.
  unfold resolvedReservation, criteriaAgree; cbn.
  assert (crit = "open" \/ crit = "targeted") as [-> | ->] by set_solver;
  assert (rt = "default" \/ rt = "capacity-block") as [-> | ->] by set_solver;
  assert (st = "active" \/ st = "expiring") as [-> | ->] by set_solver;
  (eexists; split; [reflexivity|]; cbn; repeat split; by apply (bool_decide_unpack _)).
Qed.

Lemma appendAll_Err {A B} (f : A -> result B) l acc e :
  appendAll f l acc = Err e -> exists x, x ∈ l /\ f x = Err e.
Proof.
  revert acc; induction l as [|x l IH]; intros acc; cbn [appendAll]; [done|].
  destruct (f x) as [y|e'] eqn:E; cbn [rbind].
  - intros (z & Hz & Ez)%IH. exists z. split; [set_solver | done].
  - intros [= ->]. exists x. split; [set_solver | done].
Qed.


Lemma reservations_spec l :
  Forall ValidReservation l ->
  exists rs, appendAll resolvedReservation l None = Ok (go_append None rs)
    /\ Forall2 criteriaAgree l rs.
Proof.
  intros V. destruct (appendAll_Ok resolvedReservation l None) as (rs & -> & F).
  { intros cr Hcr. rewrite Forall_forall in V.
    destruct (resolvedReservation_valid cr (V cr Hcr)) as (r & Hr & _). eauto. }
  exists rs. split; [done|]. revert V. induction F as [|cr r l' rs' E F IH]; [by constructor|].
  intros [V1 V2]%Forall_cons. constructor; [|by apply IH].
  destruct (resolvedReservation_valid cr V1) as (r' & Hr & Ha). congruence.
Qed.

(** The conditions the conflict condition leaves alone. *)
Lemma conflictConditions_other now order c hcp t :
  t <> NodePoolAWSResourceTagConflictConditionType ->
  FindStatusCondition (elems (conflictConditions now order c hcp)) t =
    FindStatusCondition (elems (osv1.Conditions (osv1.Status c))) t.
Proof.
  intros Ht. unfold conflictConditions. case_decide.
  - rewrite FindStatusCondition_Remove. by rewrite decide_False by done.
  - unfold SetStatusCondition; cbn [elems default from_option id]. rewrite FindStatusCondition_set.
    rewrite decide_False; [done|]. unfold conflictCondition. destruct (fold_left _ _ _). by case_decide.
Qed.

Lemma conflictConditions_wf now order c hcp :
  conditions_wf (elems (osv1.Conditions (osv1.Status c))) ->
  conditions_wf (elems (conflictConditions now order c hcp)).
Proof.
  intros H. unfold conflictConditions. case_decide.
  - by apply RemoveStatusCondition_wf.
  - by apply setCondition_wf.
Qed.

(** C32. The status mirrors the EC2NodeClass.  Subnets and security groups are
    copied, the capacity reservations one for one with their enumerations in this
    API's spelling; the release image and version, the VersionResolved and
    SupportedVersionSkew conditions and every other condition Karpenter does not
    report are those the ignition controller left; and conditions keep one entry
    per type.  The conversion succeeds on every value AWS reports. *)
Theorem desiredNodeClass_spec clock ec2 nodeClass hcp :
  let status := awsv1.Status ec2 in
  let old := osv1.Status nodeClass in
  Forall ValidReservation (elems (awsv1.CapacityReservations status)) ->
  exists nodeClass', desiredNodeClass clock ec2 nodeClass hcp = Ok nodeClass' /\
  let new := osv1.Status nodeClass' in
  osv1.meta nodeClass' = osv1.meta nodeClass /\ osv1.Spec nodeClass' = osv1.Spec nodeClass
  /\ osv1.ReleaseImage new = osv1.ReleaseImage old /\ osv1.StatusVersion new = osv1.StatusVersion old
  /\ map (fun s => (osv1.sn_ID s, osv1.sn_Zone s, osv1.sn_ZoneID s)) (elems (osv1.Subnets new)) =
     map (fun s => (awsv1.sn_ID s, awsv1.sn_Zone s, awsv1.sn_ZoneID s)) (elems (awsv1.Subnets status))
  /\ map (fun g => (osv1.sg_ID g, osv1.sg_Name g)) (elems (osv1.SecurityGroups new)) =
     map (fun g => (awsv1.sg_ID g, awsv1.sg_Name g)) (elems (awsv1.SecurityGroups status))
  /\ Forall2 criteriaAgree (elems (awsv1.CapacityReservations status)) (elems (osv1.CapacityReservations new))
  /\ (forall t, t <> ConditionTypeReady -> t <> NodePoolAWSResourceTagConflictConditionType ->
        t ∉ c_Type <$> elems (awsv1.Conditions status) ->
        FindStatusCondition (elems (osv1.Conditions new)) t =
        FindStatusCondition (elems (osv1.Conditions old)) t)
  /\ (conditions_wf (elems (osv1.Conditions old)) -> conditions_wf (elems (osv1.Conditions new))).
Proof.
  intros status old V. destruct (reservations_spec _ V) as (rs & E & F).
  unfold desiredNodeClass. fold status old. rewrite E. cbn [rbind]. eexists. split; [done|].
  unfold setAWSResourceTagConflictCondition. cbn [osv1.set_Status osv1.Status osv1.set_Conditions
    osv1.Subnets osv1.SecurityGroups osv1.CapacityReservations osv1.Conditions osv1.ReleaseImage
    osv1.StatusVersion osv1.meta osv1.Spec].
  repeat split.
  - cbn [elems default from_option id]. by rewrite map_map.
  - cbn [elems default from_option id]. by rewrite map_map.
  - rewrite elems_go_append. exact F.
  - intros t Ht1 Ht2 Hp. rewrite conflictConditions_other by done.
    cbn [osv1.Status osv1.Conditions]. by apply synced_unreported.
  - intros Hwf. apply conflictConditions_wf. cbn [osv1.Status osv1.Conditions]. by apply synced_wf.
Qed.

(** ** A second pass *)

Lemma RemoveStatusCondition_again cs t :
  RemoveStatusCondition (RemoveStatusCondition cs t) t = RemoveStatusCondition cs t.
Proof.
  destruct cs as [[|c cs]|]; [done| |done]. cbn [RemoveStatusCondition].
  generalize (c :: cs) as ds. intros ds.
  assert (filter (fun c => c_Type c <> t) (filter (fun c => c_Type c <> t) ds) =
          filter (fun c => c_Type c <> t) ds) as E.
  { rewrite list_filter_filter. apply list_filter_iff. tauto. }
  destruct (filter _ ds) as [|d es] eqn:F; [done|]. cbn [RemoveStatusCondition]. by rewrite E.
Qed.

Lemma c_Type_conflictCondition g counts :
  c_Type (conflictCondition g counts) = NodePoolAWSResourceTagConflictConditionType.
Proof. unfold conflictCondition. destruct counts. by case_decide. Qed.

Lemma conflictConditions_again now now' order c c' hcp :
  osv1.Spec c' = osv1.Spec c -> om_Generation (osv1.meta c') = om_Generation (osv1.meta c) ->
  osv1.Conditions (osv1.Status c') = conflictConditions now order c hcp ->
  conflictConditions now' order c' hcp = osv1.Conditions (osv1.Status c').
Proof.
  intros Hs Hg E. unfold conflictConditions in *. rewrite Hs, Hg, E.
  case_decide; [apply RemoveStatusCondition_again|].
  eapply (setCondition_again now). unfold SetStatusCondition; cbn [elems default from_option id].
  by rewrite FindStatusCondition_set, decide_True.
Qed.

Lemma desiredNodeClass_conditions clock ec2 nodeClass hcp nodeClass' :
  desiredNodeClass clock ec2 nodeClass hcp = Ok nodeClass' ->
  exists now nodeClass1,
    osv1.Conditions (osv1.Status nodeClass1) =
      SyncConditions clock (osv1.Conditions (osv1.Status nodeClass))
        (elems (awsv1.Conditions (awsv1.Status ec2))) (om_Generation (osv1.meta nodeClass))
    /\ osv1.Spec nodeClass1 = osv1.Spec nodeClass' /\ osv1.meta nodeClass1 = osv1.meta nodeClass'
    /\ osv1.meta nodeClass' = osv1.meta nodeClass
    /\ osv1.Conditions (osv1.Status nodeClass') =
         conflictConditions now (map_to_list (entries (osv1.Tags (osv1.Spec nodeClass')))) nodeClass1 hcp.
Proof.
  unfold desiredNodeClass. destruct (appendAll _ _ _) as [rs|]; [|done]. cbn [rbind].
  intros D. match type of D with Ok (setAWSResourceTagConflictCondition ?now ?nc1 _) = _ =>
    exists now, nc1 end. injection D as <-. by repeat split.
Qed.

Lemma desiredNodeClass_again clock clock' ec2 nodeClass hcp nodeClass' :
  let reported := elems (awsv1.Conditions (awsv1.Status ec2)) in
  conditions_wf reported ->
  NodePoolAWSResourceTagConflictConditionType ∉ c_Type <$> reported ->
  desiredNodeClass clock ec2 nodeClass hcp = Ok nodeClass' ->
  desiredNodeClass clock' ec2 nodeClass' hcp = Ok nodeClass'.
Proof.
  intros reported Hwf Hp D.
  destruct (desiredNodeClass_conditions _ _ _ _ _ D) as (now & nc1 & Hsync & Hs & Hm & Hm' & Hc).
  fold reported in Hsync.
  assert (Hother : forall t, t <> NodePoolAWSResourceTagConflictConditionType ->
    FindStatusCondition (elems (osv1.Conditions (osv1.Status nodeClass'))) t =
    FindStatusCondition (elems (osv1.Conditions (osv1.Status nc1))) t).
  { intros t Ht. rewrite Hc. by apply conflictConditions_other. }
  assert (Hagain : SyncConditions clock' (osv1.Conditions (osv1.Status nodeClass')) reported
                     (om_Generation (osv1.meta nodeClass')) = osv1.Conditions (osv1.Status nodeClass')).
  { apply SyncConditions_settled.
    pose proof (SyncConditions_settles clock (osv1.Conditions (osv1.Status nodeClass)) reported
                  (om_Generation (osv1.meta nodeClass)) Hwf) as [S1 S2 S3].
    rewrite <- Hsync in S1, S2, S3. rewrite <- Hm' in S3. split; unfold isVersionResolved in *.
    - intros c Hin Ht. rewrite Hother; [by apply S1|]. intros E. apply Hp. rewrite <- E.
      by apply list_elem_of_fmap_2.
    - intros ready. rewrite !Hother by done. apply S2.
    - rewrite !Hother by done. apply S3. }
  revert D. unfold desiredNodeClass. fold reported. rewrite Hagain.
  destruct (appendAll resolvedReservation _ _) as [rs|]; [|done]. cbn [rbind].
  intros D. f_equal. unfold setAWSResourceTagConflictCondition at 1.
  erewrite (conflictConditions_again now); [|cbn; symmetry; exact Hs | cbn; by rewrite Hm | cbn; exact Hc].
  injection D as <-. done.
Qed.

(** Once written, the status is left alone: when the API server returns the
    NodeClass as it was patched, the next reconcile of the status, at any later
    time, makes no call.  Karpenter reports one condition per type and not the
    conflict condition. *)
Theorem reconcileStatus_settles clock clock' ec2 nodeClass hcp nodeClass' :
  let reported := elems (awsv1.Conditions (awsv1.Status ec2)) in
  conditions_wf reported ->
  NodePoolAWSResourceTagConflictConditionType ∉ c_Type <$> reported ->
  desiredNodeClass clock ec2 nodeClass hcp = Ok nodeClass' ->
  reconcileStatus clock' ec2 nodeClass' hcp = Ret (Ok tt).
Proof.
  intros reported Hwf Hp D. unfold reconcileStatus.
  rewrite (desiredNodeClass_again clock clock' _ _ _ _ Hwf Hp D).
  unfold DeepEqual. by rewrite bool_decide_true.
Qed.

(** When the EC2NodeClass has no resolved subnets, and the NodeClass was read
    with its empty status lists omitted, as the API server returns them, every
    reconcile of the status sends a patch, even with nothing to change: an empty
    slice is not deeply equal to a nil one. *)
Theorem nil_subnets_always_patched clock ec2 nodeClass hcp :
  Forall ValidReservation (elems (awsv1.CapacityReservations (awsv1.Status ec2))) ->
  osv1.Subnets (osv1.Status nodeClass) = None ->
  all_runs (reconcileStatus clock ec2 nodeClass hcp) [] (fun t _ =>
    exists nodeClass' x,
      t = [Ev (EStatusPatch Hosted KOpenshiftEC2NodeClass nodeClass nodeClass' true) x]).
Proof.
  intros V Hn. unfold reconcileStatus. destruct (reservations_spec _ V) as (rs & E & _).
  destruct (desiredNodeClass clock ec2 nodeClass hcp) as [nc'|] eqn:D;
    unfold desiredNodeClass in D; rewrite E in D; [|done].
  unfold DeepEqual. rewrite bool_decide_false.
  - cbn [negb]. go_step. go_step. intros [x|e]; cbn; by repeat eexists.
  - intros Heq. cbn [rbind] in D. injection D as <-. rewrite Heq in Hn. done.
Qed.

(** ** Witnesses *)

Definition exampleReservation : awsv1.CapacityReservation :=
  awsv1.mkCapacityReservation "us-east-1a" None "cr-1" "open" "m5.large" "1234" "capacity-block" false "active".
Definition readyEC2 : awsv1.EC2NodeClass :=
  awsv1.mkEC2NodeClass (newMeta "" "gpu") awsv1.zeroSpec
    (awsv1.mkEC2NodeClassStatus (Some [awsv1.mkSubnet "subnet-1" "us-east-1a" "use1-az1"]) None
       (Some [exampleReservation]) (Some [mkCondition "Ready" "True" 1 9 "Ready" ""])).

Lemma desiredNodeClass_spec_witness :
  Forall ValidReservation [exampleReservation]
  /\ exists nodeClass', desiredNodeClass (fun _ => 11%Z) readyEC2 blueNodeClass exampleHCP = Ok nodeClass'
     /\ osv1.ReleaseImage (osv1.Status nodeClass') = "".
Proof.
  assert (V : Forall ValidReservation [exampleReservation])
    by (constructor; [by apply (bool_decide_unpack _) | constructor]).
  split; [exact V|].
  destruct (desiredNodeClass_spec (fun _ => 11%Z) readyEC2 blueNodeClass exampleHCP V)
    as (nc & E & _ & _ & H & _).
  exists nc. split; [exact E | exact H].
Defined.

Lemma reconcileStatus_settles_witness :
  match desiredNodeClass (fun _ => 11%Z) readyEC2 blueNodeClass exampleHCP with
  | Ok nodeClass' => reconcileStatus (fun _ => 99%Z) readyEC2 nodeClass' exampleHCP = Ret (Ok tt)
  | Err _ => False
  end.
Proof.
  destruct (desiredNodeClass (fun _ => 11%Z) readyEC2 blueNodeClass exampleHCP) as [nc|] eqn:E.
  - apply (reconcileStatus_settles (fun _ => 11%Z) (fun _ => 99%Z) readyEC2 blueNodeClass exampleHCP nc);
      [by apply (bool_decide_unpack _) | by apply (bool_decide_unpack _) | exact E].
  - revert E. vm_compute. discriminate.
Defined.

Lemma nil_subnets_always_patched_witness :
  all_runs (reconcileStatus (fun _ => 11%Z)
      (awsv1.mkEC2NodeClass (newMeta "" "gpu") awsv1.zeroSpec awsv1.zeroStatus) blueNodeClass exampleHCP) []
    (fun t _ => length t = 1).
Proof.
  eapply all_runs_mono.
  - apply nil_subnets_always_patched; [constructor | reflexivity].
  - intros t _ (nc & x & ->). reflexivity.
Defined.
