(* ===== verification/Ec2StatusAdmission.v ===== *)
(** * Is the status the operator writes admitted?

    The status of an OpenshiftEC2NodeClass after reconcileStatus, against the CRD
    of the NodeClass, given an EC2NodeClass status that its own CRD admits. *)

From S2P Require Import Prelude DeepEqual MetaV1 GoFormat QuantityText Regexp CrdSchema AwsSchema Ec2Schema CoreTypes HyperTypes AwsV1 KarpenterV1 Kube NodeClassStatus Ec2Convert Ec2Tags Ec2Status ConditionsAdmission Ec2Admission.

(** ** The conflict condition *)

Lemma runeCount_length s : runeCount s <= String.length s.
Proof. induction s as [|c s IH]; cbn [runeCount String.length]; [lia|]. destruct (continues c); lia. Qed.

Lemma showZ_short n : (0 <= n < 2 ^ 63)%Z -> runeCount (showZ n) <= 19.
Proof.
  intros Hn. etrans; [apply runeCount_length|]. destruct (decide (n = 0%Z)) as [->|]; [by vm_compute; lia|].
  unfold showZ. destruct (pretty_pos_digits n) as (ds & -> & Hds); [lia|].
  eapply digitsOf_length; [done|]. rewrite Z2N.id by lia. change (10 ^ Z.of_nat 19)%Z with 10000000000000000000%Z. lia.
Qed.

(** The counters are at most the number of tags. *)
Lemma countTag_bound platform order acc :
  (0 <= acc.1)%Z -> (0 <= acc.2)%Z ->
  let '(blocked, overridden) := fold_left (countTag platform) order acc in
  (0 <= blocked /\ 0 <= overridden /\ blocked + overridden <= acc.1 + acc.2 + Z.of_nat (length order))%Z.
Proof.
  revert acc; induction order as [|kv order IH]; intros [b o] Hb Ho; cbn [fold_left length fst snd] in *; [lia|].
  assert (exists b' o', countTag platform (b, o) kv = (b', o') /\ (0 <= b' /\ 0 <= o' /\ b' + o' <= b + o + 1)%Z)
    as (b' & o' & -> & H).
  { unfold countTag. destruct (List.find _ _); [|eexists _, _; split; [done | lia]].
    repeat case_decide; eexists _, _; (split; [done | lia]). }
  specialize (IH (b', o')). cbn [fst snd] in IH. destruct (fold_left _ _ _). lia.
Qed.

Lemma conflictCondition_admitted generation blocked overridden :
  (0 <= generation)%Z -> (0 <= blocked < 2 ^ 63)%Z -> (0 <= overridden < 2 ^ 63)%Z ->
  condition (conflictCondition generation (blocked, overridden)) = true.
Proof.
  intros Hg Hb Ho. pose proof (showZ_short _ Hb) as Sb. pose proof (showZ_short _ Ho) as So.
  assert (forall status reason message,
    status ∈ ["True"; "False"; "Unknown"] -> reason ∈ [AWSResourceTagNoConflictReason; AWSResourceTagConflictDetectedReason] ->
    (Z.of_nat (runeCount message) <= 32768)%Z ->
    condition (mkCondition NodePoolAWSResourceTagConflictConditionType status generation 0 reason message) = true) as H.
  { intros status reason message Hs Hr Hm. unfold condition. cbn [c_Type c_Status c_ObservedGeneration c_Reason c_Message].
    unfold enum, maxLength at 3, minimum. rewrite (bool_decide_true _ Hs), (proj2 (Z.leb_le _ _) Hg), (proj2 (Z.leb_le _ _) Hm).
    rewrite !andb_true_r. repeat (apply elem_of_cons in Hr as [-> | Hr]; [by vm_compute|]). by apply not_elem_of_nil in Hr. }
  unfold conflictCondition. case_decide.
  - apply H; [by apply (bool_decide_unpack _) | by apply (bool_decide_unpack _) |].
    case_decide; [|by vm_compute]. rewrite runeCount_app.
    match goal with |- context [runeCount (showZ _) + ?x] => let y := eval vm_compute in x in change x with y end. lia.
  - apply H; [by apply (bool_decide_unpack _) | by apply (bool_decide_unpack _) |].
    case_decide; rewrite !runeCount_app;
    repeat match goal with |- context [runeCount ?s] => lazymatch s with showZ _ => fail | _ =>
      let y := eval vm_compute in (runeCount s) in change (runeCount s) with y end end; lia.
Qed.

Lemma conflictConditions_admitted now c hcp :
  let conditions := osv1.Conditions (osv1.Status c) in
  let tags := entries (osv1.Tags (osv1.Spec c)) in
  (0 <= om_Generation (osv1.meta c))%Z -> (Z.of_nat (size tags) < 2 ^ 63)%Z ->
  forallb condition (elems conditions) = true ->
  forallb condition (elems (conflictConditions now (map_to_list tags) c hcp)) = true.
Proof.
  intros conditions tags Hg Ht H. unfold conflictConditions. case_decide; [by apply RemoveStatusCondition_admitted|].
  apply setCondition_admitted; [done|].
  pose proof (countTag_bound (elems (awsResourceTags hcp)) (map_to_list tags) (0, 0)%Z) as B. cbn [fst snd] in B.
  rewrite length_map_to_list in B. destruct (fold_left _ _ _) as [b o]. apply conflictCondition_admitted; lia.
Qed.

(** ** Subnets, security groups and capacity reservations *)

Definition sized (max : Z) (s : string) : Prop := (1 <= Z.of_nat (runeCount s) <= max)%Z.

Lemma length1_sized max s : osv1crd.length1 max s = true <-> sized max s.
Proof. unfold osv1crd.length1, minLength, maxLength, sized. rewrite andb_true_iff, Nat.leb_le, Z.leb_le. lia. Qed.

Lemma required_sized max s : osv1crd.required s (osv1crd.length1 max) = true <-> sized max s.
Proof.
  unfold osv1crd.required. rewrite andb_true_iff, has_true, length1_sized. split; [by intros [] | split; [|done]].
  intros ->. unfold sized in *. cbn in *. lia.
Qed.

Lemma property_sized max s : property s (osv1crd.length1 max) = true <-> s = "" \/ sized max s.
Proof. by rewrite property_spec, length1_sized. Qed.

Record subnetFits (x : awsv1.Subnet) : Prop := {
  sf_id : sized 256 (awsv1.sn_ID x);
  sf_zone : sized 256 (awsv1.sn_Zone x);
  sf_zoneID : awsv1.sn_ZoneID x = "" \/ sized 256 (awsv1.sn_ZoneID x)
}.
Record securityGroupFits (x : awsv1.SecurityGroup) : Prop := {
  gf_id : sized 256 (awsv1.sg_ID x);
  gf_name : awsv1.sg_Name x = "" \/ sized 256 (awsv1.sg_Name x)
}.
Record reservationFits (x : awsv1.CapacityReservation) : Prop := {
  rf_id : (Z.of_nat (runeCount (awsv1.cr_ID x)) <= 256)%Z;
  rf_zone : sized 64 (awsv1.cr_AvailabilityZone x);
  rf_instanceType : sized 256 (awsv1.cr_InstanceType x)
}.

Lemma subnet_admitted x :
  osv1crd.Subnet (osv1.mkSubnet (awsv1.sn_ID x) (awsv1.sn_Zone x) (awsv1.sn_ZoneID x)) = true <-> subnetFits x.
Proof.
  unfold osv1crd.Subnet. cbn. rewrite !andb_true_iff, !required_sized, property_sized.
  split; [intros [[]]; by split | intros []; tauto].
Qed.

Lemma securityGroup_admitted x :
  osv1crd.SecurityGroup (osv1.mkSecurityGroup (awsv1.sg_ID x) (awsv1.sg_Name x)) = true <-> securityGroupFits x.
Proof.
  unfold osv1crd.SecurityGroup. cbn. rewrite andb_true_iff, required_sized, property_sized.
  split; [intros []; by split | intros []; tauto].
Qed.

Lemma ascii_id c : range "0"%char "9"%char c || range "a"%char "z"%char c = true -> continues c = false.
Proof. destruct c as [[] [] [] [] [] [] [] []]; vm_compute; congruence. Qed.

Lemma accountID_length s : matches accountID s = true -> runeCount s = 12.
Proof.
  rewrite matches_spec. unfold accountID. generalize 12 as n. intros n; revert s.
  induction n as [|n IH]; intros s; cbn [times]; [by inversion 1|].
  intros (y & z & -> & (c & -> & Hc)%denotes_Class_inv & Hz%IH)%denotes_Cat_inv.
  rewrite runeCount_app, Hz. cbn [runeCount]. by rewrite ascii_id by by rewrite Hc.
Qed.

Lemma resourceID_has prefix s : matches (resourceID prefix) s = true -> has s = true /\ 1 <= runeCount s.
Proof.
  rewrite matches_spec. unfold resourceID. intros (y & z & -> & _ & H)%denotes_Cat_inv.
  apply denotes_Cat_inv in H as (u & v & -> & (c & -> & Hc)%denotes_Class_inv & _).
  rewrite has_true, !runeCount_app. cbn [runeCount]. split; [by destruct y|]. rewrite (ascii_id c Hc). lia.
Qed.

Lemma resolvedReservation_admitted x r :
  awscrd.statusCapacityReservation x = true -> resolvedReservation x = Ok r ->
  osv1crd.CapacityReservation r = true <-> reservationFits x.
Proof.
  intros H. unfold awscrd.statusCapacityReservation in H. conjuncts. unfold resolvedReservation.
  repeat match goal with H : enum _ _ = true |- _ => apply bool_decide_eq_true in H end.
  destruct (resourceID_has "cr-" (awsv1.cr_ID x)) as [Hid Hid1]; [done|].
  assert (Ho : sized 12 (awsv1.cr_OwnerID x)) by (unfold sized; erewrite accountID_length by done; lia).
  destruct (upstreamInstanceMatchCriteria (awsv1.cr_InstanceMatchCriteria x)) as [criteria|] eqn:E; [|done].
  assert (osv1crd.required criteria osv1crd.InstanceMatchCriteria = true) as Hc.
  { assert (awsv1.cr_InstanceMatchCriteria x = "open" \/ awsv1.cr_InstanceMatchCriteria x = "targeted") as [E'|E']
      by set_solver; rewrite E' in E; injection E as <-; by vm_compute. }
  intros [= <-]. unfold osv1crd.CapacityReservation. cbn [osv1.cr_AvailabilityZone osv1.cr_ID osv1.cr_InstanceMatchCriteria
    osv1.cr_InstanceType osv1.cr_OwnerID osv1.cr_ReservationType osv1.cr_State]. rewrite !andb_true_iff, !required_sized.
  assert (property (upstreamReservationType (awsv1.cr_ReservationType x)) osv1crd.CapacityReservationType = true)
    by (unfold upstreamReservationType; case_decide; by vm_compute).
  assert (property (upstreamReservationState (awsv1.cr_State x)) osv1crd.CapacityReservationState = true)
    by (unfold upstreamReservationState; case_decide; by vm_compute).
  split.
  - intros ((((((? & Hi) & _) & ?) & _) & _) & _). split; [apply Hi | done..].
  - intros []. unfold sized in *. repeat split; (lia || tauto).
Qed.

(** ** The theorem *)

(** What the schema of the NodeClass asks of a status and the one of the
    EC2NodeClass does not give. *)
Record statusFits (s : awsv1.EC2NodeClassStatus) : Prop := {
  fit_subnets : length (elems (awsv1.Subnets s)) <= 100;
  fit_subnet x : x ∈ elems (awsv1.Subnets s) -> subnetFits x;
  fit_securityGroups : length (elems (awsv1.SecurityGroups s)) <= 100;
  fit_securityGroup x : x ∈ elems (awsv1.SecurityGroups s) -> securityGroupFits x;
  fit_reservations : length (elems (awsv1.CapacityReservations s)) <= 100;
  fit_reservation x : x ∈ elems (awsv1.CapacityReservations s) -> reservationFits x
}.

(** A list that is omitted when it is empty and has 1 to [n] items. *)
Lemma propertyList_admitted {A} (l : slice A) n p :
  propertyList l (fun l => forallb p l && minItems 1 l && maxItems n l) = true
    <-> length (elems l) <= n /\ forall x, x ∈ elems l -> p x = true.
Proof.
  unfold propertyList. destruct (elems l) as [|x l'] eqn:E.
  - split; [|done]. intros _. split; [cbn; lia | by intros x ?%not_elem_of_nil].
  - change (minItems 1 (x :: l')) with true. unfold maxItems. rewrite andb_true_r, andb_true_iff, forallb_elem, Nat.leb_le. tauto.
Qed.

Lemma map_admitted {A B} (f : A -> B) (p : B -> bool) (P : A -> Prop) l n :
  (forall x, p (f x) = true <-> P x) ->
  propertyList (Some (map f l)) (fun l => forallb p l && minItems 1 l && maxItems n l) = true
    <-> length l <= n /\ forall x, x ∈ l -> P x.
Proof.
  intros H. rewrite propertyList_admitted. cbn [elems default from_option id]. rewrite length_map.
  split; intros [L F]; (split; [done|]).
  - intros x Hx. apply H, F. apply list_elem_of_In, in_map, list_elem_of_In, Hx.
  - intros y (x & <- & Hx%list_elem_of_In)%list_elem_of_In%in_map_iff. by apply H, F.
Qed.

Lemma reservations_admitted_list l rs :
  forallb awscrd.statusCapacityReservation l = true -> appendAll resolvedReservation l None = Ok rs ->
  propertyList rs (fun l => forallb osv1crd.CapacityReservation l && minItems 1 l && maxItems 100 l) = true
    <-> length l <= 100 /\ forall x, x ∈ l -> reservationFits x.
Proof.
  rewrite forallb_elem. intros V (ys & -> & F)%appendAll_inv. rewrite propertyList_admitted, elems_go_append.
  cbn [elems default from_option id app]. rewrite <- (Forall2_length _ _ _ F). apply and_iff_compat_l.
  induction F as [|y r l ys E F IH]; [split; intros ? x ?%not_elem_of_nil; done|].
  assert (W : osv1crd.CapacityReservation r = true <-> reservationFits y) by (apply resolvedReservation_admitted; [apply V; left | done]).
  setoid_rewrite elem_of_cons. specialize (IH ltac:(intros x Hx; apply V; by right)).
  split; intros H x [-> | Hx]; [apply W, H; by left | apply IH; auto | apply W, H; by left | apply IH; auto].
Qed.

(** The conditions the operator writes are admitted exactly when none quotes too
    much. *)
Lemma written_conditions_admitted clock ec2 nodeClass hcp nodeClass' :
  let tags := entries (osv1.Tags (osv1.Spec nodeClass)) in
  let new := elems (osv1.Conditions (osv1.Status nodeClass')) in
  forallb condition (elems (osv1.Conditions (osv1.Status nodeClass))) = true ->
  forallb condition (elems (awsv1.Conditions (awsv1.Status ec2))) = true ->
  (0 <= om_Generation (osv1.meta nodeClass))%Z -> (Z.of_nat (size tags) < 2 ^ 63)%Z ->
  desiredNodeClass clock ec2 nodeClass hcp = Ok nodeClass' ->
  forallb condition new = true <-> quotable new.
Proof.
  intros tags new Ho Hc Hg Ht D.
  assert (Hs : osv1.Spec nodeClass' = osv1.Spec nodeClass).
  { unfold desiredNodeClass in D. destruct (appendAll _ _ _); [|done]. by injection D as <-. }
  destruct (desiredNodeClass_conditions _ _ _ _ _ D) as (now & nc1 & Hsync & Hs1 & Hm1 & Hm & Hn).
  subst tags. rewrite <- Hs in Ht. unfold new. rewrite Hn.
  set (old := osv1.Conditions (osv1.Status nodeClass)) in *.
  rewrite (Find_quotable (elems (osv1.Conditions (osv1.Status nc1)))) by by apply conflictConditions_other.
  pose proof (SyncConditions_admitted clock old _ _ Ho Hc Hg) as A.
  pose proof (SyncConditions_quotable clock old _ _ Ho Hc Hg) as Q. cbv zeta in A, Q. rewrite <- Hsync in A, Q. split.
  - intros F. apply Q. intros c Hf. eapply Find_admitted; [exact F|]. by rewrite conflictConditions_other.
  - intros H%A. rewrite <- Hs1. apply conflictConditions_admitted; [congruence | | done]. by rewrite Hs1.
Qed.

Lemma desiredNodeClass_copies clock ec2 nodeClass hcp nodeClass' :
  desiredNodeClass clock ec2 nodeClass hcp = Ok nodeClass' ->
  let status := awsv1.Status ec2 in
  let new := osv1.Status nodeClass' in
  exists reservations, appendAll resolvedReservation (elems (awsv1.CapacityReservations status)) None = Ok reservations
  /\ osv1.CapacityReservations new = reservations
  /\ osv1.Subnets new = Some (map (fun s => osv1.mkSubnet (awsv1.sn_ID s) (awsv1.sn_Zone s) (awsv1.sn_ZoneID s))
                                (elems (awsv1.Subnets status)))
  /\ osv1.SecurityGroups new = Some (map (fun g => osv1.mkSecurityGroup (awsv1.sg_ID g) (awsv1.sg_Name g))
                                       (elems (awsv1.SecurityGroups status)))
  /\ osv1.ReleaseImage new = osv1.ReleaseImage (osv1.Status nodeClass)
  /\ osv1.StatusVersion new = osv1.StatusVersion (osv1.Status nodeClass).
Proof.
  unfold desiredNodeClass. destruct (appendAll _ _ _) as [rs|]; [|done]. intros [= <-]. by eexists.
Qed.

(** C8. The status the operator writes is admitted by the CRD of the NodeClass exactly
    when: there are at most 100 subnets, security groups and capacity reservations,
    whose identifiers, names, zones and instance types are not too long and, where
    they are required, not empty; the conditions are at most 100; and the message of
    a VersionResolved condition that is not True leaves room for the text that the
    Ready condition puts before it.  The enumerations, the owners, the conditions
    that are synchronised (one of them is always there), the one on tag conflicts and the uniqueness of their
    types need nothing more than that both stored statuses were admitted. *)
Theorem status_admitted_iff clock ec2 nodeClass hcp nodeClass' :
  osv1crd.Status (osv1.Status nodeClass) = true ->
  awscrd.status (awsv1.Status ec2) = true ->
  (0 <= om_Generation (osv1.meta nodeClass))%Z ->
  (Z.of_nat (size (entries (osv1.Tags (osv1.Spec nodeClass)))) < 2 ^ 63)%Z ->
  desiredNodeClass clock ec2 nodeClass hcp = Ok nodeClass' ->
  let conditions := elems (osv1.Conditions (osv1.Status nodeClass')) in
  osv1crd.Status (osv1.Status nodeClass') = true <->
  statusFits (awsv1.Status ec2) /\ length conditions <= 100 /\ quotable conditions.
Proof.
  intros Ho Ha Hg Ht D conditions.
  unfold osv1crd.Status in Ho. conjuncts.
  destruct (conditions_of_admitted (osv1.Conditions (osv1.Status nodeClass))) as [Hoc Howf]; [done|].
  unfold awscrd.status in Ha. apply andb_true_iff in Ha as [Har Hac].
  pose proof (written_conditions_admitted clock ec2 nodeClass hcp nodeClass' Hoc Hac Hg Ht D) as W.
  destruct (desiredNodeClass_conditions _ _ _ _ _ D) as (now & nc1 & Hsync & _ & _ & _ & Hn).
  assert (Hwf : conditions_wf conditions).
  { unfold conditions. rewrite Hn. apply conflictConditions_wf. rewrite Hsync. by apply synced_wf. }
  assert (Hp : hasList (osv1.Conditions (osv1.Status nodeClass')) = true).
  { apply synchronised_hasList. rewrite Hn. unfold synchronised. rewrite !conflictConditions_other by done.
    rewrite Hsync. apply SyncConditions_synchronised. }
  pose proof (conditions_admitted _ Hwf) as C. fold conditions in C, W.
  destruct (desiredNodeClass_copies _ _ _ _ _ D) as (rs & R & Hcr & Hsub & Hsg & Hri & Hv).
  pose proof (reservations_admitted_list _ _ Har R) as Rs. unfold osv1crd.Status, osv1crd.hasProperty.
  rewrite Hp, Hcr, Hsub, Hsg, Hri, Hv, orb_true_r, !andb_true_iff, C, Rs, (map_admitted _ _ subnetFits),
    (map_admitted _ _ securityGroupFits), W by (apply subnet_admitted || apply securityGroup_admitted).
  split; [intros ((((((_ & ?) & ?) & ?) & ?) & ?) & ?); split; [by split; try tauto; intros; apply H | tauto]|].
  intros ([] & ? & ?). tauto.
Qed.

(** ** Witness *)

Definition subnetsEC2 (n : nat) : awsv1.EC2NodeClass :=
  awsv1.mkEC2NodeClass (newMeta "" "gpu") awsv1.zeroSpec
    (awsv1.mkEC2NodeClassStatus (Some (repeat (awsv1.mkSubnet "subnet-1" "us-east-1a" "use1-az1") n)) None
       (Some [awsv1.mkCapacityReservation "us-east-1a" None "cr-1" "open" "m5.large" "123456789012" "capacity-block" false
                "active"])
       (Some [mkCondition "Ready" "True" 1 9 "Ready" ""])).

Definition hasFits (n : nat) : bool :=
  match desiredNodeClass (fun _ => 11%Z) (subnetsEC2 n) blueNodeClass exampleHCP with
  | Ok nodeClass' => osv1crd.Status (osv1.Status nodeClass')
  | Err _ => false
  end.

Lemma subnetsEC2_admitted :
  osv1crd.Status (osv1.Status blueNodeClass) = true
  /\ awscrd.status (awsv1.Status (subnetsEC2 1)) = true /\ awscrd.status (awsv1.Status (subnetsEC2 101)) = true.
Proof. split_and!; vm_compute; reflexivity. Qed.

Lemma subnetsEC2_fits : statusFits (awsv1.Status (subnetsEC2 1)).
Proof.
  split; cbn; try lia; intros x.
  - intros ->%list_elem_of_singleton. split; [| |right]; by vm_compute.
  - by intros ?%not_elem_of_nil.
  - intros ->%list_elem_of_singleton. split; by vm_compute.
Qed.

(** One subnet is admitted, 101 are not. *)
Lemma status_admitted_iff_witness : hasFits 1 = true /\ hasFits 101 = false.
Proof.
  destruct subnetsEC2_admitted as (Ho & A1 & A101).
  assert (G : (0 <= om_Generation (osv1.meta blueNodeClass))%Z) by (vm_compute; discriminate).
  assert (T : (Z.of_nat (size (entries (osv1.Tags (osv1.Spec blueNodeClass)))) < 2 ^ 63)%Z) by (vm_compute; reflexivity).
  unfold hasFits. split.
  - destruct (desiredNodeClass (fun _ => 11%Z) (subnetsEC2 1) blueNodeClass exampleHCP) as [nc|] eqn:D;
      [|vm_compute in D; discriminate D].
    apply (status_admitted_iff (fun _ => 11%Z) (subnetsEC2 1) blueNodeClass exampleHCP nc Ho A1 G T D).
    split; [exact subnetsEC2_fits|]. vm_compute in D. injection D as <-. split; [vm_compute; lia | exact I].
  - destruct (desiredNodeClass (fun _ => 11%Z) (subnetsEC2 101) blueNodeClass exampleHCP) as [nc|] eqn:D; [|reflexivity].
    destruct (osv1crd.Status (osv1.Status nc)) eqn:E; [|reflexivity]. exfalso.
    destruct (proj1 (status_admitted_iff (fun _ => 11%Z) (subnetsEC2 101) blueNodeClass exampleHCP nc Ho A101 G T D) E)
      as [[L _ _ _ _ _] _].
    vm_compute in L. lia.
Defined.
