(* ===== verification/Ec2Subnets.v ===== *)
(** * The karpenter-subnets ConfigMap

    pkg/controllers/nodeclass/ec2/controller.go,
    [reconcileKarpenterSubnetsConfigMap]: the subnets of all live NodeClasses, for
    the HyperShift operator's VPC endpoints. *)

From S2P Require Import Prelude Prog DeepEqual MetaV1 CoreTypes HyperTypes AwsV1 KarpenterV1 Kube KubeLemmas GoJson.

Definition karpenterSubnetsConfigMapName : string := "karpenter-subnets".

(** One NodeClass of the loop. *)
Definition addSubnets (subnetIDSet : gset string) (nodeClass : osv1.OpenshiftEC2NodeClass) : gset string :=
  if negb (IsZero (om_DeletionTimestamp (osv1.meta nodeClass))) then subnetIDSet
  else fold_left (fun ids subnet =>
         if decide (osv1.sn_ID subnet = "") then ids else {[osv1.sn_ID subnet]} ∪ ids)
       (elems (osv1.Subnets (osv1.Status nodeClass))) subnetIDSet.

Definition subnetIDSet (nodeClasses : list osv1.OpenshiftEC2NodeClass) : gset string :=
  fold_left addSubnets nodeClasses ∅.

(** [sets.String.List]: the members in ascending byte order. *)
Definition SortedList (s : gset string) : list string := merge_sort String.le (elements s).

Definition subnetsConfigMap (namespace : string) : ConfigMap :=
  mkConfigMap (newMeta namespace karpenterSubnetsConfigMapName) None.

(** The function passed to [CreateOrUpdate]. *)
Definition mutateSubnets (hcp : HostedControlPlane) (subnetIDs : list string) (configMap : ConfigMap) :
    result ConfigMap :=
  rbind (SetControllerReference "hypershift.openshift.io/v1beta1" "HostedControlPlane"
           (hcp_meta hcp) (cm_meta configMap)) (fun m =>
  Ok (mkConfigMap
    (om_set_Labels
       (mset (mset (om_Labels m) "hypershift.openshift.io/managed-by" "karpenter")
          "hypershift.openshift.io/infra-id" (hcp_InfraID hcp)) m)
    (mset (cm_Data configMap) "subnetIDs" (MarshalStrings (Some subnetIDs))))).

Definition reconcileKarpenterSubnetsConfigMap (namespace : string) (hcp : HostedControlPlane) :
    go (result unit) :=
  nodeClasses ←? wrap_err "listing OpenshiftEC2NodeClass"
                   (call (EList Hosted KOpenshiftEC2NodeClass noOptions));
  let subnetIDs := SortedList (subnetIDSet nodeClasses) in
  let configMap := subnetsConfigMap namespace in
  if decide (subnetIDSet nodeClasses = ∅) then
    wrap_err "deleting karpenter subnets configmap"
      (deleteIfNeeded Management KConfigMap configMap) ;;?
    Ret (Ok tt)
  else
    wrap_err "reconciling karpenter subnets configmap"
      (CreateOrUpdate Management KConfigMap configMap (mutateSubnets hcp subnetIDs)) ;;?
    Ret (Ok tt).

(** ** The subnets *)

(** A subnet that the VPC endpoints need. *)
Definition inUse (nodeClasses : list osv1.OpenshiftEC2NodeClass) (id : string) : Prop :=
  id <> "" /\ exists nodeClass subnet, nodeClass ∈ nodeClasses
    /\ IsZero (om_DeletionTimestamp (osv1.meta nodeClass)) = true
    /\ subnet ∈ elems (osv1.Subnets (osv1.Status nodeClass)) /\ osv1.sn_ID subnet = id.

Lemma addSubnets_elem ids nodeClass id :
  id ∈ addSubnets ids nodeClass <-> id ∈ ids \/ inUse [nodeClass] id.
Proof.
  unfold addSubnets, inUse. destruct (IsZero _) eqn:Z; cbn [negb].
  - assert (H : forall l, id ∈ fold_left (fun ids subnet =>
        if decide (osv1.sn_ID subnet = "") then ids else {[osv1.sn_ID subnet]} ∪ ids) l ids <->
      id ∈ ids \/ (id <> "" /\ exists subnet, subnet ∈ l /\ osv1.sn_ID subnet = id)).
    { intros l. revert ids. induction l as [|s l IH]; intros ids; cbn [fold_left]; [set_solver|].
      rewrite IH. setoid_rewrite elem_of_cons. case_decide; set_solver. }
    rewrite H. split; (intros [?|H']; [by left|right]).
    + destruct H' as (? & s & ? & ?). split; [done|]. exists nodeClass, s. set_solver.
    + destruct H' as (? & nc & s & ->%list_elem_of_singleton & _ & ? & ?). eauto.
  - split; [by left|]. intros [?|(_ & nc & s & ->%list_elem_of_singleton & E & _)]; [done | congruence].
Qed.

Lemma subnetIDSet_elem nodeClasses id : id ∈ subnetIDSet nodeClasses <-> inUse nodeClasses id.
Proof.
  unfold subnetIDSet. induction nodeClasses as [|nc nodeClasses IH] using rev_ind.
  - cbn. unfold inUse. set_solver.
  - rewrite fold_left_app. cbn [fold_left]. rewrite addSubnets_elem, IH. unfold inUse.
    setoid_rewrite elem_of_app. split.
    + intros [(? & c & s & ? & ?)|(? & c & s & ? & ?)]; (split; [done|]); exists c, s; tauto.
    + intros (? & c & s & [?|?] & ?); [left|right]; (split; [done|]); by exists c, s.
Qed.

Lemma SortedList_spec (s : gset string) :
  StronglySorted String.le (SortedList s) /\ NoDup (SortedList s) /\ forall x, x ∈ SortedList s <-> x ∈ s.
Proof.
  unfold SortedList. split; [|split].
  - apply Sorted_StronglySorted; [apply _|]. apply Sorted_merge_sort. apply _.
  - rewrite merge_sort_Permutation. apply NoDup_elements.
  - intros x. rewrite merge_sort_Permutation. apply elem_of_elements.
Qed.

(** ** The ConfigMap *)

(** The ConfigMap lists [ids] and belongs to the HostedControlPlane. *)
Record listsSubnets (namespace : string) (hcp : HostedControlPlane) (ids : list string) (cm : ConfigMap) :
    Prop := {
  ls_key : ObjectKeyFromObject (cm_meta cm) = mkObjectKey namespace karpenterSubnetsConfigMapName;
  ls_ids : UnmarshalStrings (mget (cm_Data cm) "subnetIDs") = Some ids;
  ls_owner : or_UID <$> GetControllerOf (cm_meta cm) = Some (om_UID (hcp_meta hcp));
  ls_managed : mget (om_Labels (cm_meta cm)) "hypershift.openshift.io/managed-by" = "karpenter";
  ls_infra : mget (om_Labels (cm_meta cm)) "hypershift.openshift.io/infra-id" = hcp_InfraID hcp }.

Lemma mget_mset m k v : mget (mset m k v) k = v.
Proof. unfold mget, mset; cbn. by rewrite lookup_insert_eq. Qed.

Lemma mget_mset_ne m k k' v : k <> k' -> mget (mset m k v) k' = mget m k'.
Proof. intros. unfold mget, mset; cbn. by rewrite lookup_insert_ne. Qed.

Lemma mutateSubnets_lists namespace hcp ids base cm :
  mutate (k := KConfigMap) (mutateSubnets hcp ids)
    (mkObjectKey namespace karpenterSubnetsConfigMapName) base = Ok cm ->
  listsSubnets namespace hcp ids cm.
Proof.
  intros [M Hk]%mutate_Ok. unfold mutateSubnets in M.
  destruct (SetControllerReference _ _ _ _) as [m|] eqn:S; [|done]. cbn [rbind] in M. injection M as <-.
  apply SetControllerReference_Ok in S as [Ho _]. split; [done|..]; cbn [cm_meta cm_Data].
  - rewrite mget_mset. apply UnmarshalStrings_Marshal.
  - change (GetControllerOf (om_set_Labels ?l m)) with (GetControllerOf m). by rewrite Ho.
  - change (om_Labels (om_set_Labels ?l m)) with l. rewrite mget_mset_ne by done. apply mget_mset.
  - change (om_Labels (om_set_Labels ?l m)) with l. apply mget_mset.
Qed.

Lemma elems_canon_refs (l : slice OwnerReference) : elems (canon l) = elems l.
Proof.
  destruct l as [[|r l]|]; [done| |done]. cbn. f_equal. induction l as [|x l IH]; [done|]. cbn. by f_equal.
Qed.

Lemma GetControllerOf_canon (m m' : ObjectMeta) : canon m = canon m' -> GetControllerOf m = GetControllerOf m'.
Proof.
  intros E%(f_equal om_OwnerReferences). cbn in E. unfold GetControllerOf.
  by rewrite <- (elems_canon_refs (om_OwnerReferences m)), E, elems_canon_refs.
Qed.

(** A ConfigMap that [CreateOrUpdate] takes for the desired one holds the same. *)
Lemma listsSubnets_sem namespace hcp ids (cm cm' : obj KConfigMap) :
  SemanticDeepEqual cm cm' = true -> listsSubnets namespace hcp ids cm' -> listsSubnets namespace hcp ids cm.
Proof.
  unfold SemanticDeepEqual. intros E%bool_decide_eq_true [H1 H2 H3 H4 H5].
  pose proof (f_equal cm_meta E) as Em. pose proof (f_equal cm_Data E) as Ed.
  change (canon (cm_meta cm) = canon (cm_meta cm')) in Em.
  change (canon (cm_Data cm) = canon (cm_Data cm')) in Ed.
  pose proof (f_equal om_Labels Em) as El.
  change (canon (om_Labels (cm_meta cm)) = canon (om_Labels (cm_meta cm'))) in El.
  split.
  - rewrite <- H1. unfold ObjectKeyFromObject.
    pose proof (f_equal om_Name Em) as En. pose proof (f_equal om_Namespace Em) as Es. cbn in En, Es. congruence.
  - by rewrite (mget_canon _ _ _ Ed).
  - by rewrite (GetControllerOf_canon _ _ Em).
  - by rewrite (mget_canon _ _ _ El).
  - by rewrite (mget_canon _ _ _ El).
Qed.

(** The subnets that are propagated are those of the NodeClasses that are not
    being deleted, each once, in ascending order, so that the ConfigMap does not
    change with the order in which the API server lists the NodeClasses. *)
Theorem subnets_in_use nodeClasses :
  let ids := SortedList (subnetIDSet nodeClasses) in
  StronglySorted String.le ids /\ NoDup ids
  /\ (forall id, id ∈ ids <-> inUse nodeClasses id)
  /\ forall nodeClasses', nodeClasses' ≡ₚ nodeClasses -> SortedList (subnetIDSet nodeClasses') = ids.
Proof.
  intros ids. destruct (SortedList_spec (subnetIDSet nodeClasses)) as (H1 & H2 & H3).
  split; [done|]. split; [done|]. split.
  - intros id. rewrite <- subnetIDSet_elem. apply H3.
  - intros l Hl. unfold ids. f_equal. apply set_eq. intros id. rewrite !subnetIDSet_elem.
    unfold inUse. by setoid_rewrite Hl.
Qed.

(** What a successful reconcile of the ConfigMap has done after listing the
    NodeClasses. *)
Definition subnetsReconciled (namespace : string) (hcp : HostedControlPlane)
    (nodeClasses : list osv1.OpenshiftEC2NodeClass) (t1 : trace eff) : Prop :=
  let ids := SortedList (subnetIDSet nodeClasses) in
  let get := EGet Management KConfigMap (mkObjectKey namespace karpenterSubnetsConfigMapName) in
  if decide (ids = []) then
    (exists err, t1 = [Ev get (Err err)] /\ IsNotFound err || IsNoMatchError err = true)
    \/ (exists cm, t1 = [Ev get (Ok cm)] /\ om_DeletionTimestamp (cm_meta cm) <> None)
    \/ exists cm y, t1 = [Ev get (Ok cm); Ev (EDelete Management KConfigMap cm None) y]
         /\ match y with Ok _ => True | Err err => IsNotFound err = true end
  else
    (exists cm, t1 = [Ev get (Ok cm)] /\ listsSubnets namespace hcp ids cm)
    \/ (exists x cm res, t1 = [Ev get x; Ev (EUpdate Management KConfigMap cm) (Ok res)]
          /\ listsSubnets namespace hcp ids cm)
    \/ (exists err cm res, t1 = [Ev get (Err err); Ev (ECreate Management KConfigMap cm) (Ok res)]
          /\ IsNotFound err = true /\ listsSubnets namespace hcp ids cm).

Lemma SortedList_nil s : SortedList s = [] <-> s = ∅.
Proof.
  destruct (SortedList_spec s) as (_ & _ & H). split; [|by intros ->].
  intros E. rewrite E in H. apply set_eq. intros x. rewrite <- H. set_solver.
Qed.

Lemma reconcileSubnets_runs namespace hcp t :
  all_runs (reconcileKarpenterSubnetsConfigMap namespace hcp) t (fun t' r =>
    (exists t1, t' = t ++ t1) /\
    (r = Ok tt -> exists nodeClasses t1,
       t' = t ++ Ev (EList Hosted KOpenshiftEC2NodeClass noOptions) (Ok nodeClasses) :: t1
       /\ subnetsReconciled namespace hcp nodeClasses t1)).
Proof.
  apply all_runs_and; [apply all_runs_suffix|].
  unfold reconcileKarpenterSubnetsConfigMap. do 2 go_step. intros [ncs|e]; cbn [map_err all_runs]; [|done].
  unfold subnetsReconciled. case_decide as E.
  - do 2 go_step. eapply all_runs_mono; [apply deleteIfNeeded_runs|].
    intros t' [b|err] (x & t1 & -> & H); cbn; [|done]. intros _.
    exists ncs, (Ev (EGet Management KConfigMap (mkObjectKey namespace karpenterSubnetsConfigMapName)) x :: t1).
    split; [by rewrite <- app_assoc|]. rewrite decide_True by (by apply SortedList_nil).
    destruct x as [cm|err].
    + right. destruct H as [(_ & -> & Hd)|(_ & y & -> & Hy)]; [left; by exists cm | right].
      exists cm, y. split; [done|]. destruct y; [done | tauto].
    + left. destruct H as (_ & -> & Hn). by exists err.
  - do 2 go_step. eapply all_runs_mono; [apply CreateOrUpdate_runs|].
    intros t' [[op res]|err] (x & t1 & -> & H); cbn; [|done]. intros _.
    exists ncs, (Ev (EGet Management KConfigMap (mkObjectKey namespace karpenterSubnetsConfigMapName)) x :: t1).
    split; [by rewrite <- app_assoc|]. rewrite decide_False by (by rewrite SortedList_nil).
    destruct x as [cm|err].
    + destruct H as (cm' & M & H). apply mutateSubnets_lists in M.
      destruct H as [(Hs & -> & _ & ->)|[-> _]].
      * left. exists cm. split; [done|]. by eapply listsSubnets_sem.
      * right; left. by exists (Ok cm), cm', res.
    + destruct H as (Hn & cm' & M & -> & _). apply mutateSubnets_lists in M.
      right; right. by exists err, cm', res.
Qed.

(** C27. A reconcile of the ConfigMap that succeeds leaves it right for the listed
    NodeClasses, whatever was there: with no subnet in use it was absent, already
    being deleted, or deleted; otherwise the stored or the written ConfigMap reads
    back as exactly the subnets in use and is controlled by the
    HostedControlPlane, which garbage collects it.  It is written at most once,
    and not at all when it is right already. *)
Theorem reconcileSubnets_exact namespace hcp t :
  all_runs (reconcileKarpenterSubnetsConfigMap namespace hcp) t (fun t' r =>
    r = Ok tt -> exists nodeClasses t1,
      t' = t ++ Ev (EList Hosted KOpenshiftEC2NodeClass noOptions) (Ok nodeClasses) :: t1
      /\ subnetsReconciled namespace hcp nodeClasses t1).
Proof. eapply all_runs_mono; [apply reconcileSubnets_runs|]. by intros t' r [_ H]. Qed.

(** ** Witness *)

Definition classWithSubnet (name subnet : string) : osv1.OpenshiftEC2NodeClass :=
  osv1.mkOpenshiftEC2NodeClass (newMeta "" name) osv1.zeroSpec
    (osv1.mkStatus None (Some [osv1.mkSubnet subnet "" ""]) None "" "" None).

Lemma subnets_in_use_witness :
  SortedList (subnetIDSet [classWithSubnet "b" "subnet-2"; classWithSubnet "a" "subnet-1"]) =
  SortedList (subnetIDSet [classWithSubnet "a" "subnet-1"; classWithSubnet "b" "subnet-2"])
  /\ SortedList (subnetIDSet [classWithSubnet "b" "subnet-2"; classWithSubnet "a" "subnet-1"]) =
     ["subnet-1"; "subnet-2"].
Proof.
  split; [|by vm_compute].
  destruct (subnets_in_use [classWithSubnet "a" "subnet-1"; classWithSubnet "b" "subnet-2"])
    as (_ & _ & _ & H).
  apply H. apply Permutation_swap.
Defined.
