(* ===== verification/Ec2NodeClass.v ===== *)
(** * The EC2 NodeClass controller

    pkg/controllers/nodeclass/ec2/controller.go: [Reconcile], the admission policy
    that protects the EC2NodeClasses, and the watches' predicates and maps.
    [namespace] is the HostedControlPlane's, [clock i] the [i]-th reading of the
    clock while the status is reconciled. *)

From S2P Require Import Prelude Prog DeepEqual MetaV1 CoreTypes HyperTypes AwsV1 KarpenterV1 Kube KubeLemmas NodeClassStatus Hypershift Ec2Convert Ec2Tags Ec2Build Ec2Status Ec2Subnets.

Definition finalizer : string := "hypershift.openshift.io/ec2-nodeclass-finalizer".

(** ** The admission policy *)

Definition vapName : string := "karpenter.ec2nodeclass.hypershift.io".
Definition vapBindingName : string := "karpenter-binding.ec2nodeclass.hypershift.io".

Definition mutateVAP (vap : ValidatingAdmissionPolicy) : result ValidatingAdmissionPolicy :=
  Ok (mkVAP (vap_meta vap) (vap_ParamKind vap)
    (Some (mkMatchResources None None
       (Some [mkNamedRule None (Some ["*"]) (Some [awsv1.Group]) (Some ["v1"]) (Some ["ec2nodeclasses"]) None])
       None None))
    (Some [mkValidation "has(oldObject.spec) && has(object.spec) && object.spec == oldObject.spec"
       "EC2NodeClass resource can't be created/updated/deleted directly, please use OpenshiftEC2NodeClass resource instead"
       None ""])
    (vap_FailurePolicy vap) (vap_AuditAnnotations vap)
    (Some [("exclude-hcco-user", "'system:hosted-cluster-config' != request.userInfo.username")])
    (vap_Variables vap)).

Definition mutateVAPBinding (binding : ValidatingAdmissionPolicyBinding) :
    result ValidatingAdmissionPolicyBinding :=
  Ok (mkVAPBinding (vapb_meta binding) vapName (vapb_ParamRefName binding)
    (vapb_MatchResources binding) (Some ["Deny"])).

(** [vap.Name] is that of the policy [CreateOrUpdate] left: [mutate] keeps it. *)
Definition reconcileVAP : go (result unit) :=
  CreateOrUpdate Hosted KValidatingAdmissionPolicy
    (mkVAP (newMeta "" vapName) None None None None None None None) mutateVAP ;;?
  CreateOrUpdate Hosted KValidatingAdmissionPolicyBinding
    (mkVAPBinding (newMeta "" vapBindingName) "" None None None) mutateVAPBinding ;;?
  Ret (Ok tt).

(** ** Watches *)

(** The objects of the watch are HostedControlPlanes. *)
Definition hcpPredicate (e : watchEvent HostedControlPlane) : bool :=
  match e with
  | CreateEvent _ => true
  | UpdateEvent oldHCP newHCP =>
      let oldVal := mget (om_Annotations (hcp_meta oldHCP)) AWSKarpenterDefaultInstanceProfile in
      let newVal := mget (om_Annotations (hcp_meta newHCP)) AWSKarpenterDefaultInstanceProfile in
      negb (bool_decide (oldVal = newVal))
      || negb (SemanticDeepEqual (awsResourceTags oldHCP) (awsResourceTags newHCP))
      || ControlPlaneVersionChanged oldHCP newHCP
  | DeleteEvent _ | GenericEvent _ => false
  end.

Definition mapToOpenShiftEC2NodeClasses : go (list ObjectKey) :=
  got ← call (EList Hosted KOpenshiftEC2NodeClass noOptions);
  match got with
  | Err _ => Ret []
  | Ok items => Ret (map (fun nodeClass =>
      mkObjectKey (om_Namespace (osv1.meta nodeClass)) (om_Name (osv1.meta nodeClass))) items)
  end.

Definition mapVAPToOpenShiftEC2NodeClasses (o : ObjectMeta) : go (list ObjectKey) :=
  if decide (om_Name o <> vapName) then Ret [] else mapToOpenShiftEC2NodeClasses.

Definition mapVAPBindingToOpenShiftEC2NodeClasses (o : ObjectMeta) : go (list ObjectKey) :=
  if decide (om_Name o <> vapBindingName) then Ret [] else mapToOpenShiftEC2NodeClasses.

(** ** Reconcile *)

(** The object passed to [CreateOrUpdate] and [deleteIfNeeded]. *)
Definition newEC2NodeClass (nodeClass : osv1.OpenshiftEC2NodeClass) : awsv1.EC2NodeClass :=
  awsv1.mkEC2NodeClass
    (newMeta (om_Namespace (osv1.meta nodeClass)) (om_Name (osv1.meta nodeClass)))
    awsv1.zeroSpec awsv1.zeroStatus.

Definition withMeta (f : ObjectMeta -> ObjectMeta) (nodeClass : osv1.OpenshiftEC2NodeClass) :
    osv1.OpenshiftEC2NodeClass := osv1.set_meta (f (osv1.meta nodeClass)) nodeClass.

(** The function passed to [CreateOrUpdate]. *)
Definition mutateEC2NodeClass (nodeClass : osv1.OpenshiftEC2NodeClass) (hcp : HostedControlPlane)
    (userDataSecret : Secret) (ec2NodeClass : awsv1.EC2NodeClass) : result awsv1.EC2NodeClass :=
  rbind (SetControllerReference "karpenter.hypershift.openshift.io/v1" "OpenshiftEC2NodeClass"
           (osv1.meta nodeClass) (awsv1.meta ec2NodeClass)) (fun m =>
  reconcileEC2NodeClass (awsv1.mkEC2NodeClass m (awsv1.Spec ec2NodeClass) (awsv1.Status ec2NodeClass))
    nodeClass hcp userDataSecret).

Section controller.
Context (clock : nat -> Time) (namespace : string).

Definition releaseFinalizer (nodeClass : osv1.OpenshiftEC2NodeClass) : go (result Result) :=
  if ContainsFinalizer (osv1.meta nodeClass) finalizer then
    wrap_err "removing finalizer from openshiftEC2NodeClass"
      (call (EPatch Hosted KOpenshiftEC2NodeClass nodeClass
               (withMeta (fun m => RemoveFinalizer m finalizer) nodeClass) true)) ;;?
    Ret (Ok noRequeue)
  else Ret (Ok noRequeue).

Definition reconcileDeleted (hcp : HostedControlPlane) (nodeClass : osv1.OpenshiftEC2NodeClass) :
    go (result Result) :=
  exists_ ←? deleteIfNeeded Hosted KEC2NodeClass (newEC2NodeClass nodeClass);
  if exists_ : bool then Ret (Ok (mkResult (5 * Second)))
  else
    wrap_err "reconciling karpenter subnets configmap during deletion"
      (reconcileKarpenterSubnetsConfigMap namespace hcp) ;;?
    releaseFinalizer nodeClass.

(** The NodeClass with the finalizer, as the API server returns it. *)
Definition ensureFinalizer (nodeClass : osv1.OpenshiftEC2NodeClass) :
    go (result osv1.OpenshiftEC2NodeClass) :=
  if ContainsFinalizer (osv1.meta nodeClass) finalizer then Ret (Ok nodeClass)
  else wrap_err "adding finalizer to openshiftEC2NodeClass"
         (call (EPatch Hosted KOpenshiftEC2NodeClass nodeClass
                  (withMeta (fun m => AddFinalizer m finalizer) nodeClass) true)).

Definition reconcileLive (hcp : HostedControlPlane) (nodeClass0 : osv1.OpenshiftEC2NodeClass) :
    go (result Result) :=
  nodeClass ←? ensureFinalizer nodeClass0;
  got ← GetUserDataSecret Management namespace (om_Name (osv1.meta nodeClass));
  match got with
  | Err err =>
      if ErrorIs err "ErrUserDataSecretNotFound" then Ret (Ok (mkResult (1 * Second)))
      else Ret (Err err)
  | Ok userDataSecret =>
      opAndEC2 ←? CreateOrUpdate Hosted KEC2NodeClass (newEC2NodeClass nodeClass0)
                    (mutateEC2NodeClass nodeClass hcp userDataSecret);
      reconcileStatus clock (snd opAndEC2) nodeClass hcp ;;?
      wrap_err "reconciling karpenter subnets configmap"
        (reconcileKarpenterSubnetsConfigMap namespace hcp) ;;?
      reconcileVAP ;;?
      Ret (Ok noRequeue)
  end.

Definition Reconcile (request : ObjectKey) : go (result Result) :=
  gotHCP ← GetHostedControlPlane Management namespace;
  match gotHCP with
  | Err err =>
      if ErrorIs err "ErrHostedControlPlaneNotFound" then Ret (Ok noRequeue) else Ret (Err err)
  | Ok hcp =>
      if decide (mget (om_Annotations (hcp_meta hcp)) osv1.KarpenterCoreE2EOverrideAnnotation = "true")
      then Ret (Ok noRequeue)
      else
        got ← call (EGet Hosted KOpenshiftEC2NodeClass request);
        match got with
        | Err err =>
            if IsNotFound err then Ret (Ok noRequeue)
            else Ret (Err (wrapf "getting openshiftEC2NodeClass" err))
        | Ok nodeClass =>
            if negb (IsZero (om_DeletionTimestamp (osv1.meta nodeClass)))
            then reconcileDeleted hcp nodeClass
            else reconcileLive hcp nodeClass
        end
  end.

End controller.

(** ** The watch on the HostedControlPlane *)

Lemma instanceProfileOf_mget hcp :
  instanceProfileOf hcp = ptrIfNonEmpty (mget (om_Annotations (hcp_meta hcp)) AWSKarpenterDefaultInstanceProfile).
Proof. unfold instanceProfileOf, mget, ptrIfNonEmpty. by destruct (_ !! _). Qed.

Lemma mergeEC2NodeClassTags_elems c hcp hcp' :
  elems (awsResourceTags hcp) = elems (awsResourceTags hcp') ->
  mergeEC2NodeClassTags c hcp = mergeEC2NodeClassTags c hcp'.
Proof. intros E. unfold mergeEC2NodeClassTags, mergeTagsInOrder, mergedTags. by rewrite E. Qed.

(** An update of the HostedControlPlane that the watch ignores changes nothing
    a NodeClass is reconciled to: neither the EC2NodeClass, whatever exists, nor
    the conflict condition.  The infra ID is immutable. *)
Theorem ignored_hcp_updates oldHCP newHCP :
  hcpPredicate (UpdateEvent oldHCP newHCP) = false ->
  hcp_InfraID oldHCP = hcp_InfraID newHCP ->
  (forall ec2 nodeClass secret,
     reconcileEC2NodeClass ec2 nodeClass oldHCP secret = reconcileEC2NodeClass ec2 nodeClass newHCP secret)
  /\ forall now order nodeClass,
       conflictConditions now order nodeClass oldHCP = conflictConditions now order nodeClass newHCP.
Proof.
  cbn [hcpPredicate]. intros [[Hp Ht]%orb_false_iff Hv]%orb_false_iff Hi.
  apply negb_false_iff in Hp, Ht. apply bool_decide_eq_true in Hp.
  apply sem_slice_elems in Ht; [|done].
  split.
  - intros ec2 nodeClass secret. unfold reconcileEC2NodeClass, userDataAndAMIs.
    rewrite (version_unchanged_waits _ _ _ Hv), !instanceProfileOf_mget, Hp, Hi.
    by rewrite (mergeEC2NodeClassTags_elems _ _ _ Ht).
  - intros now order nodeClass. unfold conflictConditions. by rewrite Ht.
Qed.

(** A change of the node counts is ignored. *)
Lemma ignored_hcp_updates_witness :
  hcpPredicate (UpdateEvent upgradingHCP
    (hcp_set_AutoNode (mkAutoNodeStatus (Some 3%Z) None None) upgradingHCP)) = false
  /\ reconcileEC2NodeClass emptyEC2 plainNodeClass upgradingHCP newReleaseSecret =
     reconcileEC2NodeClass emptyEC2 plainNodeClass
       (hcp_set_AutoNode (mkAutoNodeStatus (Some 3%Z) None None) upgradingHCP) newReleaseSecret.
Proof.
  split; [by vm_compute|].
  apply (ignored_hcp_updates upgradingHCP
           (hcp_set_AutoNode (mkAutoNodeStatus (Some 3%Z) None None) upgradingHCP));
    [by vm_compute | reflexivity].
Defined.
