(* ===== verification/Defaults.v ===== *)
(** * What API servers fill in

    The defaults of the fields that a written object leaves unset: those the CRDs of
    the EC2NodeClass and the AKSNodeClass declare, and those
    k8s.io/api/admissionregistration/v1 documents for admission policies.  The other
    kinds the NodeClass controllers create or update have none: a ConfigMap, and the
    operator's own NodeClasses, whose CRDs declare no default.  Defaults are filled
    in on every write, and of what is stored already: [default_idem] and
    [default_canon] of each type. *)

From S2P Require Import Prelude DeepEqual MetaV1 CoreTypes AwsV1 AzureTypes.

Definition withDefault {A} (d : A) (o : option A) : option A := Some (default d o).
Definition orDefault (d s : string) : string := if decide (s = "") then d else s.

Lemma orDefault_idem d s : orDefault d (orDefault d s) = orDefault d s.
Proof. unfold orDefault. by repeat case_decide. Qed.

(** ** EC2NodeClasses *)

Definition defaultMetadataOptions (o : option awsv1.MetadataOptions) : option awsv1.MetadataOptions :=
  let m := default (awsv1.mkMetadataOptions None None None None) o in
  Some (awsv1.mkMetadataOptions
    (withDefault "enabled" (awsv1.mo_HTTPEndpoint m))
    (withDefault "disabled" (awsv1.mo_HTTPProtocolIPv6 m))
    (withDefault 1%Z (awsv1.mo_HTTPPutResponseHopLimit m))
    (withDefault "required" (awsv1.mo_HTTPTokens m))).

Definition defaultEC2NodeClassSpec (s : awsv1.EC2NodeClassSpec) : awsv1.EC2NodeClassSpec :=
  awsv1.mkEC2NodeClassSpec (awsv1.SubnetSelectorTerms s) (awsv1.SecurityGroupSelectorTerms s)
    (awsv1.CapacityReservationSelectorTerms s) (awsv1.PlacementGroupSelectorField s)
    (awsv1.AssociatePublicIPAddress s) (awsv1.IPPrefixCount s) (awsv1.AMISelectorTerms s)
    (awsv1.AMIFamily s) (awsv1.UserData s) (awsv1.Role s) (awsv1.InstanceProfile s) (awsv1.Tags s)
    (awsv1.Kubelet s) (awsv1.BlockDeviceMappings s) (awsv1.InstanceStorePolicy s)
    (awsv1.NetworkInterfaces s) (awsv1.DetailedMonitoring s)
    (defaultMetadataOptions (awsv1.MetadataOptionsField s)) (awsv1.ConnectionTrackingField s)
    (awsv1.Context s) (awsv1.CPUOptionsField s).

Definition defaultReservation (r : awsv1.CapacityReservation) : awsv1.CapacityReservation :=
  awsv1.mkCapacityReservation (awsv1.cr_AvailabilityZone r) (awsv1.cr_EndTime r) (awsv1.cr_ID r)
    (awsv1.cr_InstanceMatchCriteria r) (awsv1.cr_InstanceType r) (awsv1.cr_OwnerID r)
    (orDefault "default" (awsv1.cr_ReservationType r)) (awsv1.cr_Interruptible r)
    (orDefault "active" (awsv1.cr_State r)).
Definition defaultEC2Status (s : awsv1.EC2NodeClassStatus) : awsv1.EC2NodeClassStatus :=
  awsv1.mkEC2NodeClassStatus (awsv1.Subnets s) (awsv1.SecurityGroups s)
    (map defaultReservation <$> awsv1.CapacityReservations s) (awsv1.Conditions s).

Definition defaultEC2NodeClass (c : awsv1.EC2NodeClass) : awsv1.EC2NodeClass :=
  awsv1.mkEC2NodeClass (awsv1.meta c) (defaultEC2NodeClassSpec (awsv1.Spec c)) (defaultEC2Status (awsv1.Status c)).

(** ** AKSNodeClasses *)

(** Of the settings that are kept as text, the defaults inside are not seen. *)
Definition defaultAKSSpec (s : azurev1beta1.AKSNodeClassSpec) : azurev1beta1.AKSNodeClassSpec :=
  azurev1beta1.mkSpec (azurev1beta1.VNETSubnetID s) (withDefault 128%Z (azurev1beta1.OSDiskSizeGB s))
    (azurev1beta1.ImageID s) (azurev1beta1.MarketplaceImageField s)
    (withDefault azurev1beta1.UbuntuImageFamily (azurev1beta1.ImageFamily s))
    (azurev1beta1.UserData s) (azurev1beta1.FIPSMode s) (azurev1beta1.Tags s)
    (azurev1beta1.Kubelet s) (azurev1beta1.MaxPods s) (azurev1beta1.SecurityField s)
    (azurev1beta1.LocalDNS s) (azurev1beta1.GPU s) (azurev1beta1.ArtifactStreaming s)
    (azurev1beta1.LinuxOSConfig s).
Definition defaultAKSNodeClass (c : azurev1beta1.AKSNodeClass) : azurev1beta1.AKSNodeClass :=
  azurev1beta1.mkAKSNodeClass (azurev1beta1.meta c) (defaultAKSSpec (azurev1beta1.Spec c)) (azurev1beta1.Status c).

(** ** Admission policies *)

Definition defaultNamedRule (r : NamedRuleWithOperations) : NamedRuleWithOperations :=
  mkNamedRule (nr_ResourceNames r) (nr_Operations r) (nr_APIGroups r) (nr_APIVersions r) (nr_Resources r)
    (withDefault "*" (nr_Scope r)).
Definition defaultMatchResources (m : MatchResources) : MatchResources :=
  mkMatchResources (withDefault (mkLabelSelector None []) (mr_NamespaceSelector m))
    (withDefault (mkLabelSelector None []) (mr_ObjectSelector m))
    (map defaultNamedRule <$> mr_ResourceRules m) (map defaultNamedRule <$> mr_ExcludeResourceRules m)
    (withDefault "Equivalent" (mr_MatchPolicy m)).

Definition defaultVAP (p : ValidatingAdmissionPolicy) : ValidatingAdmissionPolicy :=
  mkVAP (vap_meta p) (vap_ParamKind p) (defaultMatchResources <$> vap_MatchConstraints p) (vap_Validations p)
    (withDefault "Fail" (vap_FailurePolicy p)) (vap_AuditAnnotations p) (vap_MatchConditions p) (vap_Variables p).
Definition defaultVAPBinding (b : ValidatingAdmissionPolicyBinding) : ValidatingAdmissionPolicyBinding :=
  mkVAPBinding (vapb_meta b) (vapb_PolicyName b) (vapb_ParamRefName b)
    (defaultMatchResources <$> vapb_MatchResources b) (vapb_ValidationActions b).

(** ** Defaults are filled in once *)

Lemma map_idem {A} (f : A -> A) (s : slice A) : (forall x, f (f x) = f x) -> map f <$> (map f <$> s) = map f <$> s.
Proof. intros H. destruct s as [l|]; [|done]. cbn. f_equal. rewrite map_map. by apply map_ext. Qed.

Lemma defaultReservation_idem r : defaultReservation (defaultReservation r) = defaultReservation r.
Proof. unfold defaultReservation; cbn. by rewrite !orDefault_idem. Qed.

Lemma defaultEC2Status_idem s : defaultEC2Status (defaultEC2Status s) = defaultEC2Status s.
Proof. unfold defaultEC2Status; cbn. by rewrite map_idem by apply defaultReservation_idem. Qed.

Lemma defaultEC2NodeClass_idem c : defaultEC2NodeClass (defaultEC2NodeClass c) = defaultEC2NodeClass c.
Proof. unfold defaultEC2NodeClass; cbn. by rewrite defaultEC2Status_idem. Qed.

Lemma defaultAKSNodeClass_idem c : defaultAKSNodeClass (defaultAKSNodeClass c) = defaultAKSNodeClass c.
Proof. done. Qed.

Lemma defaultMatchResources_idem m : defaultMatchResources (defaultMatchResources m) = defaultMatchResources m.
Proof. unfold defaultMatchResources; cbn. by rewrite !map_idem by done. Qed.

Lemma defaultVAP_idem p : defaultVAP (defaultVAP p) = defaultVAP p.
Proof.
  unfold defaultVAP; cbn. f_equal. destruct (vap_MatchConstraints p); [|done]. cbn. by rewrite defaultMatchResources_idem.
Qed.

Lemma defaultVAPBinding_idem b : defaultVAPBinding (defaultVAPBinding b) = defaultVAPBinding b.
Proof.
  unfold defaultVAPBinding; cbn. f_equal. destruct (vapb_MatchResources b); [|done]. cbn.
  by rewrite defaultMatchResources_idem.
Qed.

(** ** Whatever the nil and empty values *)

Lemma canon_map {A} `{Canon A} (f : A -> A) (s : slice A) :
  (forall x, canon (f x) = f (canon x)) -> canon (map f <$> s) = map f <$> canon s.
Proof.
  intros Hf. destruct s as [[|x l]|]; [done| |done]. cbn. do 2 f_equal; [done|].
  rewrite !map_map. by apply map_ext.
Qed.

Lemma canon_defaultEC2NodeClassSpec s : canon (defaultEC2NodeClassSpec s) = defaultEC2NodeClassSpec (canon s).
Proof. done. Qed.

Lemma canon_defaultEC2Status s : canon (defaultEC2Status s) = defaultEC2Status (canon s).
Proof.
  unfold defaultEC2Status, canon at 1 2, awsv1.EC2NodeClassStatus_canon.
  cbn [awsv1.Subnets awsv1.SecurityGroups awsv1.CapacityReservations awsv1.Conditions].
  by rewrite (canon_map defaultReservation) by done.
Qed.

Lemma canon_defaultEC2NodeClass c : canon (defaultEC2NodeClass c) = defaultEC2NodeClass (canon c).
Proof.
  unfold defaultEC2NodeClass, canon at 1 2, awsv1.EC2NodeClass_canon. cbn [awsv1.meta awsv1.Spec awsv1.Status].
  by rewrite canon_defaultEC2Status.
Qed.

Lemma canon_defaultAKSNodeClass c : canon (defaultAKSNodeClass c) = defaultAKSNodeClass (canon c).
Proof. done. Qed.

Lemma canon_defaultMatchResources m : canon (defaultMatchResources m) = defaultMatchResources (canon m).
Proof.
  destruct m as [ns os rules excluded policy].
  change (mkMatchResources (canon (withDefault (mkLabelSelector None []) ns)) (canon (withDefault (mkLabelSelector None []) os))
      (canon (map defaultNamedRule <$> rules)) (canon (map defaultNamedRule <$> excluded)) (withDefault "Equivalent" policy)
    = mkMatchResources (withDefault (mkLabelSelector None []) (canon ns)) (withDefault (mkLabelSelector None []) (canon os))
      (map defaultNamedRule <$> canon rules) (map defaultNamedRule <$> canon excluded) (withDefault "Equivalent" policy)).
  rewrite !(canon_map defaultNamedRule) by reflexivity. by destruct ns, os.
Qed.

Lemma canon_optional {A} `{Canon A} (f : A -> A) (o : option A) :
  (forall x, canon (f x) = f (canon x)) -> canon (f <$> o) = f <$> canon o.
Proof. intros Hf. destruct o as [x|]; [|done]. unfold canon, canon_option. cbn. by rewrite Hf. Qed.

Lemma canon_optionalResources (o : option MatchResources) :
  canon (defaultMatchResources <$> o) = defaultMatchResources <$> canon o.
Proof. apply canon_optional, canon_defaultMatchResources. Qed.

Lemma canon_defaultVAP p : canon (defaultVAP p) = defaultVAP (canon p).
Proof.
  unfold defaultVAP, canon at 1 2, VAP_canon. cbn [vap_meta vap_ParamKind vap_MatchConstraints vap_Validations
    vap_FailurePolicy vap_AuditAnnotations vap_MatchConditions vap_Variables].
  by rewrite canon_optionalResources.
Qed.

Lemma canon_defaultVAPBinding b : canon (defaultVAPBinding b) = defaultVAPBinding (canon b).
Proof.
  unfold defaultVAPBinding, canon at 1 2, VAPBinding_canon. cbn [vapb_meta vapb_PolicyName vapb_ParamRefName
    vapb_MatchResources vapb_ValidationActions].
  by rewrite canon_optionalResources.
Qed.
