(* ===== verification/Server.v ===== *)
(** * API servers

    What the controllers rely on of the API servers, for the statements that
    something is eventually reached: class [ApiServer] states the documented
    behaviour of reads, of writes that are admitted and what they leave unset, which
    the server fills in (Defaults), of the status subresource, of finalizers and of
    deletions, for servers that answer and caches that have caught up.  Store has an
    instance.  The lemmas say what [CreateOrUpdate] and [deleteIfNeeded] reach
    against any such server.  A run that only reads is a [reads]; one that sends
    updates again, of which the server fills in what they leave unset, [resends]. *)

From S2P Require Import Prelude Prog DeepEqual MetaV1 CoreTypes HyperTypes AwsV1 KarpenterV1 AzureTypes Kube KubeLemmas Hypershift Defaults.

(** ** Runs that change nothing *)

Definition isRead (ev : event eff) : Prop :=
  match ev_call ev with EGet _ _ _ | EList _ _ _ => True | _ => False end.

(** Kinds of which API servers fill in fields. *)
Definition hasDefaults (k : kind) : bool :=
  match k with
  | KEC2NodeClass | KAKSNodeClass | KValidatingAdmissionPolicy | KValidatingAdmissionPolicyBinding => true
  | _ => false
  end.

Definition isReadOrUpdate (ev : event eff) : Prop :=
  isRead ev \/ match ev_call ev with EUpdate Hosted k _ => hasDefaults k = true | _ => False end.

Section reads.
Context {S : Type} {h : forall X, eff X -> S -> X * S}.

(** [p] returns [a] in [w'], having made only calls that satisfy [P]. *)
Definition runsWith (P : event eff -> Prop) {A} (p : go A) (w : S) (a : A) (w' : S) : Prop :=
  exists t, run h p w = (a, w', t) /\ Forall P t.

(** [p] returns [a] and leaves the state alone, having only read. *)
Definition readsWith {A} (p : go A) (w : S) (a : A) : Prop := runsWith isRead p w a w.

Lemma runs_ret P {A} (a : A) w : runsWith P (Ret a) w a w.
Proof. by exists []. Qed.

Lemma runs_bind P {A B} (p : go A) (f : A -> go B) w w1 w2 a b :
  runsWith P p w a w1 -> runsWith P (f a) w1 b w2 -> runsWith P (p ≫= f) w b w2.
Proof.
  intros (t & E & H) (t' & E' & H'). exists (t ++ t'). rewrite run_bind, E, E'.
  split; [done | by apply Forall_app].
Qed.

Lemma runs_try P {A B} (p : go (result A)) (f : A -> go (result B)) w w1 w2 a b :
  runsWith P p w (Ok a) w1 -> runsWith P (f a) w1 b w2 -> runsWith P (try_bind p f) w b w2.
Proof. intros H1 H2. by apply (runs_bind P _ _ _ _ _ _ _ H1). Qed.

Lemma runs_wrap P {A} msg (p : go (result A)) w a w' :
  runsWith P p w (Ok a) w' -> runsWith P (wrap_err msg p) w (Ok a) w'.
Proof. intros H. apply (runs_bind P _ _ _ _ _ _ _ H). apply runs_ret. Qed.

Lemma runs_mono (P Q : event eff -> Prop) {A} (p : go A) w a w' :
  (forall ev, P ev -> Q ev) -> runsWith P p w a w' -> runsWith Q p w a w'.
Proof. intros HPQ (t & E & H). exists t. split; [done|]. by eapply Forall_impl. Qed.

Lemma runs_call (P : event eff -> Prop) {X} (e : eff X) w x w' :
  h X e w = (x, w') -> P (Ev e x) -> runsWith P (call e) w x w'.
Proof. intros E H. exists [Ev e x]. cbn. rewrite E. split; [done | by repeat constructor]. Qed.

Lemma reads_resends {A} (p : go A) w a : readsWith p w a -> runsWith isReadOrUpdate p w a w.
Proof. apply runs_mono. intros ev H. by left. Qed.

Lemma reads_ret {A} (a : A) w : readsWith (Ret a) w a.
Proof. apply runs_ret. Qed.

Lemma reads_bind {A B} (p : go A) (f : A -> go B) w a b :
  readsWith p w a -> readsWith (f a) w b -> readsWith (p ≫= f) w b.
Proof. apply runs_bind. Qed.

Lemma reads_try {A B} (p : go (result A)) (f : A -> go (result B)) w a b :
  readsWith p w (Ok a) -> readsWith (f a) w b -> readsWith (try_bind p f) w b.
Proof. apply runs_try. Qed.

Lemma reads_wrap {A} msg (p : go (result A)) w a :
  readsWith p w (Ok a) -> readsWith (wrap_err msg p) w (Ok a).
Proof. apply runs_wrap. Qed.

Lemma reads_call {X} (e : eff X) w x : h X e w = (x, w) -> isRead (Ev e x) -> readsWith (call e) w x.
Proof. apply runs_call. Qed.

Lemma reads_exec {A} (p : go A) w a : readsWith p w a -> exec h p w = (a, w).
Proof. intros (t & E & _). unfold exec. by rewrite E. Qed.
End reads.

(** ** Objects *)

(** The kinds whose objects are written by these controllers, and their metadata. *)
Definition writable (k : kind) : bool :=
  match k with
  | KHostedControlPlane | KConfigMap | KNodePool | KNodeClaim | KEC2NodeClass | KOpenshiftEC2NodeClass
  | KAKSNodeClass | KOpenShiftAzureNodeClass | KValidatingAdmissionPolicy
  | KValidatingAdmissionPolicyBinding => true
  | _ => false
  end.

Definition setMeta {k} : ObjectMeta -> obj k -> obj k :=
  match k with
  | KHostedControlPlane => hcp_set_meta
  | KConfigMap => fun m o => mkConfigMap m (cm_Data o)
  | KNodePool => fun m _ => mkNodePool m
  | KNodeClaim => nc_set_meta
  | KEC2NodeClass => fun m o => awsv1.mkEC2NodeClass m (awsv1.Spec o) (awsv1.Status o)
  | KOpenshiftEC2NodeClass => osv1.set_meta
  | KAKSNodeClass => fun m o => azurev1beta1.mkAKSNodeClass m (azurev1beta1.Spec o) (azurev1beta1.Status o)
  | KOpenShiftAzureNodeClass => osv1alpha1.set_meta
  | KValidatingAdmissionPolicy => fun m o =>
      mkVAP m (vap_ParamKind o) (vap_MatchConstraints o) (vap_Validations o) (vap_FailurePolicy o)
        (vap_AuditAnnotations o) (vap_MatchConditions o) (vap_Variables o)
  | KValidatingAdmissionPolicyBinding => fun m o =>
      mkVAPBinding m (vapb_PolicyName o) (vapb_ParamRefName o) (vapb_MatchResources o)
        (vapb_ValidationActions o)
  | _ => fun _ o => o
  end.

Definition keyOf {k} (o : obj k) : ObjectKey := ObjectKeyFromObject (meta_of o).

(** The status of [o] in what else [o'] has, of a kind with the subresource. *)
Definition withStatusOf {k} : obj k -> obj k -> obj k :=
  match k with
  | KOpenshiftEC2NodeClass => fun o o' => osv1.set_Status (osv1.Status o) o'
  | KEC2NodeClass => fun o o' => awsv1.mkEC2NodeClass (awsv1.meta o') (awsv1.Spec o') (awsv1.Status o)
  | KOpenShiftAzureNodeClass => fun o o' =>
      osv1alpha1.mkOpenShiftAzureNodeClass (osv1alpha1.meta o') (osv1alpha1.Spec o') (osv1alpha1.Status o)
  | KAKSNodeClass => fun o o' =>
      azurev1beta1.mkAKSNodeClass (azurev1beta1.meta o') (azurev1beta1.Spec o') (azurev1beta1.Status o)
  | _ => fun _ o' => o'
  end.

(** A new object has no status. *)
Definition noStatus {k} : obj k -> Prop :=
  match k with
  | KOpenshiftEC2NodeClass => fun o => osv1.Status o = osv1.zeroStatus
  | KEC2NodeClass => fun o => awsv1.Status o = awsv1.zeroStatus
  | KOpenShiftAzureNodeClass => fun o => osv1alpha1.Status o = osv1alpha1.zeroStatus
  | KAKSNodeClass => fun o => azurev1beta1.Status o = azurev1beta1.mkStatus None
  | _ => fun _ => True
  end.

(** Empty lists of a status are omitted from its JSON, and read back as nil. *)
Definition omitEmpty {A} (l : slice A) : slice A := match l with Some [] => None | _ => l end.
Definition omitEmptyStatus (s : osv1.OpenshiftEC2NodeClassStatus) : osv1.OpenshiftEC2NodeClassStatus :=
  osv1.mkStatus (omitEmpty (osv1.Conditions s)) (omitEmpty (osv1.Subnets s))
    (omitEmpty (osv1.SecurityGroups s)) (osv1.ReleaseImage s) (osv1.StatusVersion s)
    (omitEmpty (osv1.CapacityReservations s)).
Definition readBack {k} : obj k -> obj k :=
  match k with
  | KOpenshiftEC2NodeClass => fun o => osv1.set_Status (omitEmptyStatus (osv1.Status o)) o
  | KOpenShiftAzureNodeClass => fun o =>
      osv1alpha1.set_Conditions (omitEmpty (osv1alpha1.Conditions (osv1alpha1.Status o))) o
  | _ => fun o => o
  end.

(** The metadata that the server keeps; it sets the others, and does not tell nil
    from empty. *)
Record serverSet (m m' : ObjectMeta) : Prop := mkServerSet {
  ss_Name : om_Name m' = om_Name m;
  ss_Namespace : om_Namespace m' = om_Namespace m;
  ss_DeletionTimestamp : om_DeletionTimestamp m' = om_DeletionTimestamp m;
  ss_Labels : canon (om_Labels m') = canon (om_Labels m);
  ss_Annotations : canon (om_Annotations m') = canon (om_Annotations m);
  ss_OwnerReferences : elems (om_OwnerReferences m') = elems (om_OwnerReferences m);
  ss_Finalizers : elems (om_Finalizers m') = elems (om_Finalizers m) }.

(** What a server makes of an object that is written. *)
Definition defaulted {k} : obj k -> obj k :=
  match k with
  | KEC2NodeClass => defaultEC2NodeClass
  | KAKSNodeClass => defaultAKSNodeClass
  | KValidatingAdmissionPolicy => defaultVAP
  | KValidatingAdmissionPolicyBinding => defaultVAPBinding
  | _ => fun o => o
  end.

(** The objects whose defaults [defaulted] has: of the kinds that are created or
    updated, without the settings of an AKSNodeClass that are kept as text and have
    defaults inside. *)
Definition sendable {k} : obj k -> Prop :=
  match k with
  | KConfigMap | KEC2NodeClass | KValidatingAdmissionPolicy | KValidatingAdmissionPolicyBinding => fun _ => True
  | KAKSNodeClass => fun o =>
      azurev1beta1.Kubelet (azurev1beta1.Spec o) = None /\ azurev1beta1.GPU (azurev1beta1.Spec o) = None
  | _ => fun _ => False
  end.

(** The server keeps [o] as [o']: with its defaults, up to that metadata and to nil
    and empty values. *)
Definition storedAs {k} (o o' : obj k) : Prop :=
  serverSet (meta_of o) (meta_of o') /\ canon (setMeta (meta_of o) o') = canon (defaulted o).

(** [o'] is [o], up to that metadata and to nil and empty values. *)
Record same {k} (o o' : obj k) : Prop := mkSame {
  same_meta : serverSet (meta_of o) (meta_of o');
  same_rest : canon (setMeta (meta_of o) o') = canon o;
  same_status : withStatusOf o o' = o' }.

(** An object that is marked for deletion goes with its last finalizer. *)
Definition isGone (m : ObjectMeta) : bool :=
  negb (IsZero (om_DeletionTimestamp m)) && bool_decide (elems (om_Finalizers m) = []).

Definition matches {k} (opts : ListOptions) (o : obj k) : bool :=
  (bool_decide (lo_Namespace opts = "") || bool_decide (lo_Namespace opts = om_Namespace (meta_of o)))
  && Matches (lo_Labels opts) (om_Labels (meta_of o)).

Lemma meta_setMeta {k} m (o : obj k) : writable k = true -> meta_of (setMeta m o) = m.
Proof. by destruct k. Qed.

Lemma setMeta_setMeta {k} m m' (o : obj k) : setMeta m (setMeta m' o) = setMeta m o.
Proof. by destruct k. Qed.

Lemma setMeta_self {k} (o : obj k) : setMeta (meta_of o) o = o.
Proof. by destruct k, o. Qed.

Lemma serverSet_refl m : serverSet m m.
Proof. done. Qed.

Lemma serverSet_trans m m' m'' : serverSet m m' -> serverSet m' m'' -> serverSet m m''.
Proof. intros [] []. split; congruence. Qed.

Lemma canon_meta {k} (o o' : obj k) : canon o = canon o' -> canon (meta_of o) = canon (meta_of o').
Proof.
  destruct k; intros E; try (change (o = o') in E; by rewrite E);
    first [ exact (f_equal cm_meta E) | exact (f_equal awsv1.meta E) | exact (f_equal osv1.meta E)
          | exact (f_equal azurev1beta1.meta E) | exact (f_equal osv1alpha1.meta E) | exact (f_equal (meta_of (k := KCustomResourceDefinition)) E)
          | exact (f_equal vap_meta E) | exact (f_equal vapb_meta E) ].
Qed.

Lemma canon_setMeta {k} m (o o' : obj k) : canon o = canon o' -> canon (setMeta m o) = canon (setMeta m o').
Proof.
  destruct k; intros E; try (change (o = o') in E; by rewrite E);
    first [ exact (f_equal (fun c => mkConfigMap (canon m) (cm_Data c)) E)
          | exact (f_equal (fun c => awsv1.mkEC2NodeClass (canon m) (awsv1.Spec c) (awsv1.Status c)) E)
          | exact (f_equal (osv1.set_meta (canon m)) E)
          | exact (f_equal (fun c => azurev1beta1.mkAKSNodeClass (canon m) (azurev1beta1.Spec c) (azurev1beta1.Status c)) E)
          | exact (f_equal (osv1alpha1.set_meta (canon m)) E)
          | exact (f_equal (fun p => mkVAP (canon m) (vap_ParamKind p) (vap_MatchConstraints p) (vap_Validations p)
              (vap_FailurePolicy p) (vap_AuditAnnotations p) (vap_MatchConditions p) (vap_Variables p)) E)
          | exact (f_equal (fun b => mkVAPBinding (canon m) (vapb_PolicyName b) (vapb_ParamRefName b)
              (vapb_MatchResources b) (vapb_ValidationActions b)) E)
          | exact E ].
Qed.

Lemma elems_slice_canon (l l' : slice string) : canon l = canon l' -> elems l = elems l'.
Proof. intros E. rewrite <- (elems_canon_id l), E by done. by apply elems_canon_id. Qed.

Lemma serverSet_canon m m' : canon m = canon m' -> serverSet m m'.
Proof.
  intros E. split; symmetry;
    first [ exact (f_equal om_Name E) | exact (f_equal om_Namespace E) | exact (f_equal om_DeletionTimestamp E)
          | exact (f_equal om_Labels E) | exact (f_equal om_Annotations E) | idtac ].
  - pose proof (f_equal om_OwnerReferences E) as H. cbn in H. rewrite <- (elems_canon_id (om_OwnerReferences m)) by done.
    rewrite H. by apply elems_canon_id.
  - apply elems_slice_canon. exact (f_equal om_Finalizers E).
Qed.

Lemma withStatusOf_self {k} (o : obj k) : withStatusOf o o = o.
Proof. by destruct k, o. Qed.

Lemma withStatusOf_trans {k} (a b c : obj k) : withStatusOf a b = b -> withStatusOf b c = c -> withStatusOf a c = c.
Proof. destruct k; try done; destruct a, b, c; cbn; intros [=] [=]; by subst. Qed.

Lemma same_refl {k} (o : obj k) : same o o.
Proof. split; [done | by rewrite setMeta_self | apply withStatusOf_self]. Qed.

Lemma same_trans {k} (a b c : obj k) : same a b -> same b c -> same a c.
Proof.
  intros [M1 R1 S1] [M2 R2 S2]. split; [by eapply serverSet_trans | | by eapply withStatusOf_trans].
  rewrite <- R1, <- (setMeta_setMeta (meta_of a) (meta_of b) c). by apply canon_setMeta.
Qed.

#[export] Instance same_preorder {k} : PreOrder (@same k).
Proof. split; [intros o; apply same_refl | intros a b c; apply same_trans]. Qed.

(** *** Defaults *)

Lemma defaulted_meta {k} (o : obj k) : meta_of (defaulted o) = meta_of o.
Proof. by destruct k. Qed.

Lemma defaulted_setMeta {k} m (o : obj k) : defaulted (setMeta m o) = setMeta m (defaulted o).
Proof. by destruct k. Qed.

Lemma defaulted_idem {k} (o : obj k) : defaulted (defaulted o) = defaulted o.
Proof.
  destruct k; try done; [apply defaultEC2NodeClass_idem | apply defaultVAP_idem | apply defaultVAPBinding_idem].
Qed.

Lemma canon_defaulted {k} (o : obj k) : canon (defaulted o) = defaulted (canon o).
Proof.
  destruct k; try done;
    [apply canon_defaultEC2NodeClass | apply canon_defaultVAP | apply canon_defaultVAPBinding].
Qed.

Lemma defaulted_canon {k} (o o' : obj k) : canon o = canon o' -> canon (defaulted o) = canon (defaulted o').
Proof. intros E. by rewrite !canon_defaulted, E. Qed.

Lemma noStatus_defaulted {k} (o : obj k) : noStatus o -> noStatus (defaulted o).
Proof. destruct k; try done. cbn. by intros ->. Qed.

(** What is written over [old] when that is what the server makes of it already. *)
Lemma storedAs_same {k} (old o' x : obj k) :
  canon (defaulted o') = canon old -> storedAs o' x -> withStatusOf old x = x -> same old x.
Proof.
  intros E [M R] S. rewrite E in R. split; [| |done].
  - eapply serverSet_trans; [|exact M]. apply serverSet_canon. rewrite <- (defaulted_meta o').
    by apply canon_meta.
  - rewrite <- (setMeta_setMeta _ (meta_of o') x), <- (setMeta_self old) at 1.
    rewrite setMeta_self. rewrite <- (setMeta_self old) at 2. by apply canon_setMeta.
Qed.

Lemma serverSet_gone m m' : serverSet m m' -> isGone m' = isGone m.
Proof. intros H. unfold isGone. by rewrite (ss_DeletionTimestamp _ _ H), (ss_Finalizers _ _ H). Qed.

Lemma live_not_gone m : IsZero (om_DeletionTimestamp m) = true -> isGone m = false.
Proof. unfold isGone. by intros ->. Qed.

Lemma AddFinalizer_same m f :
  exists fs, AddFinalizer m f = om_set_Finalizers fs m.
Proof.
  unfold AddFinalizer. destruct (ContainsFinalizer m f); [|by eexists].
  exists (om_Finalizers m). by destruct m.
Qed.

Lemma storedAs_keyOf {k} (o o' : obj k) : storedAs o o' -> keyOf o' = keyOf o.
Proof. intros [H _]. unfold keyOf, ObjectKeyFromObject. by rewrite (ss_Name _ _ H), (ss_Namespace _ _ H). Qed.

Lemma noStatus_kept {k} (o o' : obj k) : noStatus o -> withStatusOf o o' = o' -> noStatus o'.
Proof. destruct k; cbn; try done; intros H <-; exact H. Qed.

Lemma noStatus_same {k} (o o' : obj k) : noStatus o -> noStatus o' -> withStatusOf o o' = o'.
Proof. destruct k; cbn; try done; destruct o'; cbn; by intros -> ->. Qed.

(** ** The interface *)

(** Only the object of the key changes, to [o]. *)
Definition changedIn {W} (get : W -> forall (c : cluster) (k : kind), ObjectKey -> option (obj k))
    (c : cluster) (k : kind) (key : ObjectKey) (o : option (obj k)) (w w' : W) : Prop :=
  get w' c k key = o
  /\ forall c' k' key', (c', k') <> (c, k) \/ key' <> key -> get w' c' k' key' = get w c' k' key'.

Class ApiServer (W : Type) := {
  serve : forall X, eff X -> W -> X * W;
  (** What is stored. *)
  get : W -> forall (c : cluster) (k : kind), ObjectKey -> option (obj k);
  get_key w c k key o : get w c k key = Some o -> keyOf o = key;
  get_stays w c k key o : get w c k key = Some o -> isGone (meta_of o) = false;
  (** Defaults are filled in of what is stored, too. *)
  get_defaulted w c k key o : get w c k key = Some o -> canon (defaulted o) = canon o;
  serve_get w c k key : exists answer, serve _ (EGet c k key) w = (answer, w) /\
    match get w c k key with
    | Some o => answer = Ok o
    | None => exists err, answer = Err err /\ IsNotFound err = true
    end;
  serve_list w c k opts : exists l, serve _ (EList c k opts) w = (Ok l, w) /\ NoDup l /\
    forall o, o ∈ l <-> exists key, get w c k key = Some o /\ matches opts o = true;
  serve_create w c k o :
    sendable o -> get w c k (keyOf o) = None -> noStatus o -> isGone (meta_of o) = false ->
    exists o' w', serve _ (ECreate c k o) w = (Ok o', w') /\ changedIn get c k (keyOf o) (Some o') w w'
      /\ storedAs o o' /\ noStatus o';
  (** The resource version is that of the stored object; the status stays. *)
  serve_update w c k o old :
    sendable o -> get w c k (keyOf o) = Some old ->
    om_ResourceVersion (meta_of o) = om_ResourceVersion (meta_of old) ->
    withStatusOf old o = o -> isGone (meta_of o) = false ->
    exists o' w', serve _ (EUpdate c k o) w = (Ok o', w') /\ changedIn get c k (keyOf o) (Some o') w w'
      /\ storedAs o o' /\ withStatusOf old o' = o';
  (** A patch of the metadata of the stored object. *)
  serve_patch w c k orig m lock :
    writable k = true -> get w c k (keyOf orig) = Some orig ->
    ObjectKeyFromObject m = keyOf orig -> om_DeletionTimestamp m = om_DeletionTimestamp (meta_of orig) ->
    exists m' w', serve _ (EPatch c k orig (setMeta m orig) lock) w = (Ok (setMeta m' orig), w')
      /\ changedIn get c k (keyOf orig) (if isGone m then None else Some (setMeta m' orig)) w w'
      /\ serverSet m m' /\ om_UID m' = om_UID m /\ om_Generation m' = om_Generation m;
  (** A patch of its status. *)
  serve_status w c k orig o lock :
    writable k = true -> hasDefaults k = false -> get w c k (keyOf orig) = Some orig -> meta_of o = meta_of orig ->
    exists m' w', let o' := setMeta m' (readBack (withStatusOf o orig)) in
      serve _ (EStatusPatch c k orig o lock) w = (Ok o', w')
      /\ changedIn get c k (keyOf orig) (Some o') w w'
      /\ serverSet (meta_of orig) m' /\ om_UID m' = om_UID (meta_of orig)
      /\ om_Generation m' = om_Generation (meta_of orig);
  (** A deletion marks an object that has finalizers. *)
  serve_delete w c k o grace :
    writable k = true ->
    match get w c k (keyOf o) with
    | None => exists err, serve _ (EDelete c k o grace) w = (Err err, w) /\ IsNotFound err = true
    | Some old => exists after w', serve _ (EDelete c k o grace) w = (Ok tt, w')
        /\ changedIn get c k (keyOf o) after w w'
        /\ match after with
           | None => True
           | Some new => exists m, new = setMeta m old /\ om_DeletionTimestamp m <> None
               /\ serverSet (om_set_DeletionTimestamp (om_DeletionTimestamp m) (meta_of old)) m
           end
    end;
  serve_now w : exists t, serve _ ENow w = (t, w) }.

Section server.
Context {W : Type} {server : ApiServer W}.

Abbreviation reads := (readsWith (h := serve)).
Abbreviation changed := (changedIn get).

Lemma changed_lookup c k key (o : option (obj k)) w w' : changed c k key o w w' -> get w' c k key = o.
Proof. by intros [H _]. Qed.

Lemma changed_other c k key (o : option (obj k)) w w' c' k' key' :
  changed c k key o w w' -> (c', k') <> (c, k) \/ key' <> key -> get w' c' k' key' = get w c' k' key'.
Proof. intros [_ H]. apply H. Qed.

Lemma changed_refl c k key w : changed c k key (get w c k key) w w.
Proof. done. Qed.

Lemma reads_found w c k key o : get w c k key = Some o -> reads (call (EGet c k key)) w (Ok o).
Proof.
  intros E. destruct (serve_get w c k key) as (a & S & H). rewrite E in H. subst a. by apply reads_call.
Qed.

Lemma reads_missing w c k key : get w c k key = None ->
  exists err, IsNotFound err = true /\ reads (call (EGet c k key)) w (Err err).
Proof.
  intros E. destruct (serve_get w c k key) as (a & S & H). rewrite E in H. destruct H as (err & -> & N).
  exists err. split; [done|]. by apply reads_call.
Qed.

Lemma exec_found w c k key o : get w c k key = Some o -> exec serve (call (EGet c k key)) w = (Ok o, w).
Proof. intros E. by apply reads_exec, reads_found. Qed.

Lemma exec_missing w c k key : get w c k key = None ->
  exists err, IsNotFound err = true /\ exec serve (call (EGet c k key)) w = (Err err, w).
Proof. intros (err & N & R)%reads_missing. exists err. split; [done|]. by apply reads_exec. Qed.

Lemma exec_patch w c k orig o m lock :
  writable k = true -> get w c k (keyOf orig) = Some orig -> o = setMeta m orig ->
  ObjectKeyFromObject m = keyOf orig -> om_DeletionTimestamp m = om_DeletionTimestamp (meta_of orig) ->
  exists m' w', exec serve (call (EPatch c k orig o lock)) w = (Ok (setMeta m' orig), w')
    /\ changed c k (keyOf orig) (if isGone m then None else Some (setMeta m' orig)) w w'
    /\ serverSet m m' /\ om_UID m' = om_UID m /\ om_Generation m' = om_Generation m.
Proof. intros Hk E -> Hm Hd. rewrite exec_call. by apply serve_patch. Qed.

Lemma exec_status w c k orig o lock :
  writable k = true -> hasDefaults k = false -> get w c k (keyOf orig) = Some orig -> meta_of o = meta_of orig ->
  exists m' w', let o' := setMeta m' (readBack (withStatusOf o orig)) in
    exec serve (call (EStatusPatch c k orig o lock)) w = (Ok o', w')
    /\ changed c k (keyOf orig) (Some o') w w'
    /\ serverSet (meta_of orig) m' /\ om_UID m' = om_UID (meta_of orig)
    /\ om_Generation m' = om_Generation (meta_of orig).
Proof. rewrite exec_call. apply serve_status. Qed.

(** ** Lists *)

Definition listed (w : W) (c : cluster) (k : kind) (opts : ListOptions) : list (obj k) :=
  match (serve _ (EList c k opts) w).1 with Ok l => l | Err _ => [] end.

Lemma listed_spec w c k opts :
  serve _ (EList c k opts) w = (Ok (listed w c k opts), w) /\ NoDup (listed w c k opts)
  /\ forall o, o ∈ listed w c k opts <-> exists key, get w c k key = Some o /\ matches opts o = true.
Proof. unfold listed. destruct (serve_list w c k opts) as (l & -> & H). done. Qed.

Lemma reads_list w c k opts : reads (call (EList c k opts)) w (Ok (listed w c k opts)).
Proof. apply reads_call; [apply listed_spec | done]. Qed.

Lemma exec_list w c k opts : exec serve (call (EList c k opts)) w = (Ok (listed w c k opts), w).
Proof. apply reads_exec, reads_list. Qed.

Lemma filter_permutes {A} (p : A -> bool) l l' : l ≡ₚ l' -> List.filter p l ≡ₚ List.filter p l'.
Proof.
  induction 1 as [|x l l' _ IH|x y l|l l' l'' _ IH1 _ IH2]; cbn; [done|..].
  - destruct (p x); [by constructor | done].
  - destruct (p x), (p y); try done. constructor.
  - by etrans.
Qed.

(** The same objects are listed, in some order. *)
Lemma listed_same w w' c k opts :
  (forall key, get w' c k key = get w c k key) -> listed w' c k opts ≡ₚ listed w c k opts.
Proof.
  intros H. destruct (listed_spec w c k opts) as (_ & N & E), (listed_spec w' c k opts) as (_ & N' & E').
  apply NoDup_Permutation; [done..|]. intros o. rewrite E, E'. by setoid_rewrite H.
Qed.

Lemma listed_changed c k key (o : option (obj k)) w w' c' k' opts :
  changed c k key o w w' -> (c', k') <> (c, k) -> listed w' c' k' opts ≡ₚ listed w c' k' opts.
Proof. intros [_ H] N. apply listed_same. intros key'. apply H. by left. Qed.

Lemma listed_elem w c k (o : obj k) : o ∈ listed w c k noOptions <-> exists key, get w c k key = Some o.
Proof. destruct (listed_spec w c k noOptions) as (_ & _ & ->). split; intros [key H]; exists key; tauto. Qed.

(** ** The management cluster's part *)

(** The namespace has one HostedControlPlane, *)
Definition oneHCP (namespace : string) (hcp : HostedControlPlane) (w : W) : Prop :=
  listed w Management KHostedControlPlane (InNamespace namespace) = [hcp].

(** and one user data Secret for the NodeClass [n]. *)
Definition oneUserData (namespace n : string) (secret : Secret) (w : W) : Prop :=
  List.filter (isUserDataSecret (KeyString (mkObjectKey namespace (karpenterNodePoolName n))))
    (listed w Management KSecret (mkListOptions namespace karpenterSecretSelector)) = [secret].

Lemma reads_GetHostedControlPlane namespace hcp w :
  oneHCP namespace hcp w -> reads (GetHostedControlPlane Management namespace) w (Ok hcp).
Proof.
  intros Hh. unfold GetHostedControlPlane.
  eapply reads_try; [apply reads_wrap, (reads_list _ _ KHostedControlPlane)|]. rewrite Hh. apply reads_ret.
Qed.

Lemma reads_GetUserDataSecret namespace n secret w :
  oneUserData namespace n secret w -> reads (GetUserDataSecret Management namespace n) w (Ok secret).
Proof.
  intros Hs. unfold GetUserDataSecret. eapply reads_try; [apply reads_wrap, (reads_list _ _ KSecret)|].
  cbv zeta. rewrite Hs. apply reads_ret.
Qed.

Lemma oneHCP_changed namespace hcp c k key (o : option (obj k)) w w' :
  changed c k key o w w' -> k <> KHostedControlPlane -> oneHCP namespace hcp w -> oneHCP namespace hcp w'.
Proof.
  intros C N H. apply Permutation_singleton_r.
  etrans; [apply (listed_changed _ _ _ _ _ _ Management KHostedControlPlane _ C); congruence|]. by rewrite H.
Qed.

Lemma oneUserData_changed namespace n secret c k key (o : option (obj k)) w w' :
  changed c k key o w w' -> k <> KSecret -> oneUserData namespace n secret w -> oneUserData namespace n secret w'.
Proof.
  intros C N H. apply Permutation_singleton_r.
  etrans; [apply filter_permutes, (listed_changed _ _ _ _ _ _ Management KSecret _ C); congruence|]. by rewrite H.
Qed.

(** ** CreateOrUpdate *)

(** The object is what the function asks for, with the defaults of what that leaves
    unset, up to nil and empty values. *)
Definition inSync {k} (f : obj k -> result (obj k)) (o : option (obj k)) : Prop :=
  exists stored o', o = Some stored /\ f stored = Ok o' /\ canon (defaulted o') = canon stored.

(** The function keeps what is not its to change, and leaves alone what it wrote. *)
Record tame {k} (f : obj k -> result (obj k)) : Prop := mkTame {
  tame_writable : writable k = true;
  tame_sendable base o' : f base = Ok o' -> sendable o';
  tame_key base o' : f base = Ok o' -> keyOf o' = keyOf base;
  tame_version base o' : f base = Ok o' -> om_ResourceVersion (meta_of o') = om_ResourceVersion (meta_of base);
  tame_gone base o' : f base = Ok o' -> isGone (meta_of o') = isGone (meta_of base);
  tame_status base o' : f base = Ok o' -> withStatusOf base o' = o';
  tame_again base o' x : f base = Ok o' -> storedAs o' x -> inSync f (Some x) }.

Section createOrUpdate.
Context (c : cluster) (k : kind) (o : obj k) (f : obj k -> result (obj k)).
Let key := keyOf o.

Lemma mutate_intro base o' : f base = Ok o' -> keyOf o' = key -> mutate f key base = Ok o'.
Proof. intros H K. unfold mutate. rewrite H. cbn [rbind]. by rewrite decide_True. Qed.

(** The function sets every field that has a default: what it asks for is compared
    equal with what is stored. *)
Lemma reads_CreateOrUpdate w :
  tame f -> (forall base o', f base = Ok o' -> defaulted o' = o') -> inSync f (get w c k key) ->
  exists stored o', get w c k key = Some stored /\ f stored = Ok o'
    /\ reads (CreateOrUpdate c k o f) w (Ok (OperationResultNone, o')).
Proof.
  intros T Hd (stored & o' & E & F & D). exists stored, o'. do 2 (split; [done|]).
  unfold CreateOrUpdate. fold (keyOf o) key. eapply reads_bind; [by apply reads_found|]. cbn beta iota.
  rewrite (mutate_intro _ _ F).
  - rewrite (Hd _ _ F) in D. unfold SemanticDeepEqual. rewrite bool_decide_true by done. apply reads_ret.
  - rewrite (tame_key _ T _ _ F). by eapply get_key.
Qed.

(** It leaves some to the server: the same update is sent again, and changes nothing. *)
Lemma resends_CreateOrUpdate w :
  c = Hosted -> hasDefaults k = true -> tame f -> inSync f (get w c k key) ->
  exists stored stored' op res w', get w c k key = Some stored
    /\ runsWith (h := serve) isReadOrUpdate (CreateOrUpdate c k o f) w (Ok (op, res)) w'
    /\ changed c k key (Some stored') w w' /\ same stored stored'
    /\ inSync f (Some stored') /\ withStatusOf stored res = res.
Proof.
  intros -> Hk T (stored & o' & E & F & D). exists stored.
  assert (keyOf stored = key) as Kb by by eapply get_key.
  pose proof (tame_key _ T _ _ F) as K. rewrite Kb in K. pose proof (tame_status _ T _ _ F) as S.
  pose proof (mutate_intro _ _ F K) as M.
  assert (Hread : runsWith (h := serve) isReadOrUpdate (call (EGet Hosted k key)) w (Ok stored) w)
    by by apply reads_resends, reads_found.
  unfold CreateOrUpdate. fold (keyOf o) key. destruct (SemanticDeepEqual stored o') eqn:Q.
  - exists stored, OperationResultNone, o', w. split; [done|]. split.
    { eapply runs_bind; [exact Hread|]. cbn beta iota. rewrite M, Q. apply runs_ret. }
    split; [rewrite <- E; apply changed_refl|]. split; [apply same_refl|]. split; [by exists stored, o' | done].
  - pose proof (tame_gone _ T _ _ F) as G. rewrite (get_stays _ _ _ _ _ E) in G. assert (E' := E). rewrite <- K in E'.
    destruct (serve_update w Hosted k o' stored (tame_sendable _ T _ _ F) E' (tame_version _ T _ _ F) S G)
      as (x & w' & Eu & C & St & Sx).
    exists x, OperationResultUpdated, x, w'. split; [done|]. split.
    { eapply runs_bind; [exact Hread|]. cbn beta iota. rewrite M, Q.
      eapply runs_try; [|apply runs_ret]. eapply runs_call; [exact Eu | by right]. }
    rewrite <- K. split; [done|]. split; [by eapply storedAs_same|]. split; [by eapply tame_again | done].
Qed.

(** When the function accepts the object, it is afterwards as it wants it, and its
    status as before. *)
Lemma exec_CreateOrUpdate w base o1 :
  tame f -> noStatus o -> isGone (meta_of o) = false -> base = default o (get w c k key) -> f base = Ok o1 ->
  exists op stored res w', exec serve (CreateOrUpdate c k o f) w = (Ok (op, res), w')
    /\ changed c k key (Some stored) w w' /\ inSync f (Some stored)
    /\ withStatusOf base stored = stored /\ (res = o1 \/ res = stored).
Proof.
  intros T Hs Ho Hb F. pose proof (tame_sendable _ T _ _ F) as Hk.
  assert (keyOf base = key /\ isGone (meta_of base) = false) as [Kb Gb].
  { rewrite Hb. destruct (get w c k key) eqn:E; [|done]. split; [by eapply get_key | by eapply get_stays]. }
  pose proof (tame_key _ T _ _ F) as K. rewrite Kb in K. pose proof (tame_version _ T _ _ F) as V.
  pose proof (tame_gone _ T _ _ F) as G. rewrite Gb in G. pose proof (tame_status _ T _ _ F) as S.
  pose proof (mutate_intro _ _ F K) as M.
  unfold CreateOrUpdate. fold (keyOf o) key. rewrite exec_bind.
  destruct (get w c k key) as [old|] eqn:E; cbn [default from_option id] in Hb; subst base.
  - rewrite (exec_found _ _ _ _ _ E), M. destruct (SemanticDeepEqual old o1) eqn:D.
    + exists OperationResultNone, old, o1, w. rewrite exec_ret. split; [done|].
      split; [rewrite <- E; apply changed_refl|].
      split; [|split; [apply withStatusOf_self | by left]].
      exists old, o1. split; [done|]. split; [done|]. apply bool_decide_eq_true in D.
      rewrite <- (defaulted_canon _ _ D). by eapply get_defaulted.
    + rewrite <- K in E. destruct (serve_update w c k o1 old Hk E V S G) as (o' & w' & Eu & C & St & Sk).
      exists OperationResultUpdated, o', o', w'. rewrite exec_try, exec_call, Eu, exec_ret. split; [done|].
      rewrite <- K. split; [done|]. split; [by eapply tame_again|]. split; [done | by right].
  - destruct (exec_missing _ _ _ _ E) as (err & N & ->). rewrite N, M. cbn [negb].
    rewrite <- K in E. pose proof (noStatus_kept _ _ Hs S) as Hs1.
    destruct (serve_create w c k o1 Hk E Hs1 G) as (o' & w' & Ec & C & St & Hn).
    exists OperationResultCreated, o', o', w'. rewrite exec_try, exec_call, Ec, exec_ret. split; [done|].
    rewrite <- K. split; [done|]. split; [by eapply tame_again|]. split; [by apply noStatus_same | by right].
Qed.
End createOrUpdate.

(** ** Worlds that hold the same *)

Definition sameWorld (w w' : W) : Prop :=
  forall c k key, option_Forall2 same (get w c k key) (get w' c k key).

#[export] Instance sameWorld_preorder : PreOrder sameWorld.
Proof.
  split.
  - intros w c k key. destruct (get w c k key); constructor. apply same_refl.
  - intros w1 w2 w3 H1 H2 c k key. specialize (H1 c k key). specialize (H2 c k key).
    destruct H1; inversion H2; subst; constructor. by eapply same_trans.
Qed.

Lemma sameWorld_changed c k key (old new : obj k) w w' :
  get w c k key = Some old -> changed c k key (Some new) w w' -> same old new -> sameWorld w w'.
Proof.
  intros E C S c' k' key'. destruct (decide ((c', k') = (c, k))) as [Q|N].
  - injection Q as -> ->. destruct (decide (key' = key)) as [->|N].
    + rewrite E, (changed_lookup _ _ _ _ _ _ C). by constructor.
    + rewrite (changed_other _ _ _ _ _ _ _ _ _ C) by by right.
      destruct (get w c k key'); constructor. apply same_refl.
  - rewrite (changed_other _ _ _ _ _ _ _ _ _ C) by by left.
    destruct (get w c' k' key'); constructor. apply same_refl.
Qed.

(** ** deleteIfNeeded *)

(** The object is gone, or marked for deletion until its finalizers are. *)
Definition goneOrGoing {k} (o : option (obj k)) : Prop :=
  match o with Some o => om_DeletionTimestamp (meta_of o) <> None | None => True end.

Lemma exec_deleteIfNeeded c k (o : obj k) w :
  writable k = true ->
  exists after w', exec serve (deleteIfNeeded c k o) w = (Ok (bool_decide (get w c k (keyOf o) <> None)), w')
    /\ changed c k (keyOf o) after w w' /\ goneOrGoing after.
Proof.
  intros Hk. unfold deleteIfNeeded. fold (keyOf o). rewrite exec_bind.
  destruct (get w c k (keyOf o)) as [x|] eqn:E.
  - rewrite (exec_found _ _ _ _ _ E), bool_decide_true by done. case_decide as D.
    + exists (Some x), w. rewrite exec_ret. split; [done|]. split; [rewrite <- E; apply changed_refl | done].
    + pose proof (get_key _ _ _ _ _ E) as K. pose proof (serve_delete w c k x None Hk) as H.
      rewrite K, E in H. destruct H as (after & w' & Ed & C & A).
      exists after, w'. rewrite exec_bind, exec_call, Ed, exec_ret. split; [done|]. split; [done|].
      destruct after as [y|]; [|done]. destruct A as (m & -> & Dm & _). cbn. by rewrite meta_setMeta.
  - destruct (exec_missing _ _ _ _ E) as (err & N & ->). rewrite N. cbn [orb].
    exists None, w. rewrite exec_ret, bool_decide_false by by intros H. split; [done|].
    split; [rewrite <- E; apply changed_refl | done].
Qed.

Lemma reads_deleteIfNeeded c k (o : obj k) w :
  goneOrGoing (get w c k (keyOf o)) -> exists b, reads (deleteIfNeeded c k o) w (Ok b).
Proof.
  intros H. unfold deleteIfNeeded. fold (keyOf o). destruct (get w c k (keyOf o)) as [x|] eqn:E.
  - exists true. eapply reads_bind; [by apply reads_found|]. cbn beta iota. rewrite decide_True by done. apply reads_ret.
  - destruct (reads_missing _ _ _ _ E) as (err & N & R). exists false. eapply reads_bind; [exact R|].
    cbn beta iota. rewrite N. apply reads_ret.
Qed.

End server.

Abbreviation reads := (readsWith (h := serve)).
Abbreviation resends := (runsWith (h := serve) isReadOrUpdate).
Abbreviation changed := (changedIn get).

(** Reads what the changes in the context left alone in the state before them. *)
Ltac elsewhere := repeat match goal with
  | C : changed _ _ _ _ _ ?w' |- context [get ?w' ?c ?k ?key] =>
      rewrite (changed_other _ _ _ _ _ _ c k key C) by first [by left | by right]
  end.

(** Rewrites with a run, whose types may name the kind or what it stands for. *)
Ltac runs E := let H := fresh in pose proof E as H; cbn [obj] in H |- *; rewrite H; clear H.
