(* ===== verification/Store.v ===== *)
(** * A store that serves the calls

    An instance of [ApiServer]: finite maps of objects for both clusters, with
    resource versions, optimistic locks and defaults.  It shows that what Server asks of a
    server can hold, and is what the witnesses run against. *)

From S2P Require Import Prelude Prog DeepEqual MetaV1 CoreTypes HyperTypes AwsV1 KarpenterV1 AzureTypes Kube Hypershift Defaults Server.

Definition store := cluster -> forall k : kind, gmap ObjectKey (obj k).

Definition set_kind {F : kind -> Type} (c : cluster) (k : kind) (m : F k) (st : cluster -> forall k, F k) :
    cluster -> forall k, F k := fun c' k' =>
  match decide (c = c'), decide (k = k') with
  | left _, left E => eq_rect k F m k' E
  | _, _ => st c' k'
  end.

Lemma set_kind_eq {F : kind -> Type} c k (m : F k) st : set_kind c k m st c k = m.
Proof.
  unfold set_kind. destruct (decide (c = c)); [|done]. destruct (decide (k = k)) as [E|]; [|done].
  by rewrite (proof_irrel E eq_refl).
Qed.

Lemma set_kind_ne {F : kind -> Type} c k (m : F k) st c' k' : (c', k') <> (c, k) -> set_kind c k m st c' k' = st c' k'.
Proof. intros H. unfold set_kind. destruct (decide (c = c')), (decide (k = k')); congruence. Qed.

Definition lookupIn (st : store) (c : cluster) (k : kind) (key : ObjectKey) : option (obj k) := st c k !! key.

Definition put (c : cluster) (k : kind) (key : ObjectKey) (o : obj k) (st : store) : store :=
  set_kind (F := fun k => gmap ObjectKey (obj k)) c k
    (partial_alter (fun _ => if isGone (meta_of o) then None else Some o) key (st c k)) st.

Lemma put_changed c k key (o : obj k) st :
  changedIn lookupIn c k key (if isGone (meta_of o) then None else Some o) st (put c k key o st).
Proof.
  unfold changedIn, lookupIn, put. split; [by rewrite set_kind_eq, lookup_partial_alter_eq|].
  intros c' k' key' H. destruct (decide ((c', k') = (c, k))) as [E|N]; [|by rewrite set_kind_ne].
  injection E as -> ->. rewrite set_kind_eq, lookup_partial_alter_ne; [done|]. by destruct H as [[]|H].
Qed.

(** ** Well-formed stores *)

Definition wf_store (st : store) : Prop := forall c k key (o : obj k),
  lookupIn st c k key = Some o -> keyOf o = key /\ isGone (meta_of o) = false /\ defaulted o = o.

Lemma put_wf c k key (o : obj k) st :
  wf_store st -> keyOf o = key -> defaulted o = o -> wf_store (put c k key o st).
Proof.
  intros Hw Hk Hd c' k' key' x Hx. destruct (put_changed c k key o st) as [H1 H2].
  destruct (decide ((c', k') = (c, k))) as [E|N].
  - injection E as -> ->. destruct (decide (key' = key)) as [->|Nk].
    + rewrite H1 in Hx. destruct (isGone (meta_of o)) eqn:G; [done|]. by injection Hx as <-.
    + rewrite H2 in Hx by by right. by apply (Hw c k).
  - rewrite H2 in Hx by by left. by apply (Hw c' k').
Qed.

Record world := mkWorld { w_store : store; w_wf : wf_store w_store }.

Lemma keyOf_defaulted {k} (o : obj k) : keyOf (defaulted o) = keyOf o.
Proof. unfold keyOf. by rewrite defaulted_meta. Qed.

(** Defaults are filled in. *)
Definition putIn (c : cluster) (k : kind) (o : obj k) (w : world) : world :=
  mkWorld (put c k (keyOf o) (defaulted o) (w_store w))
    (put_wf c k (keyOf o) (defaulted o) (w_store w) (w_wf w) (keyOf_defaulted o) (defaulted_idem o)).

(** ** Serving calls *)

Definition notFound : error := EStatus "NotFound" 404 "not found".
Definition alreadyExists : error := EStatus "AlreadyExists" 409 "already exists".
Definition conflict : error := EStatus "Conflict" 409 "the object has been modified".
Definition unsupported : error := ENew "unsupported".

(** A write gives an object a new resource version, and the defaults of its fields. *)
Definition nextVersion (m : ObjectMeta) : ObjectMeta :=
  mkObjectMeta (om_Name m) (om_Namespace m) (om_UID m) (String "1" (om_ResourceVersion m))
    (om_Generation m) (om_DeletionTimestamp m) (om_Labels m) (om_Annotations m)
    (om_OwnerReferences m) (om_Finalizers m).
Definition written {k} (o : obj k) : obj k := defaulted (setMeta (nextVersion (meta_of o)) o).

(** A write of [f stored] over the stored object, for a caller that has seen
    [version]. *)
Definition rewrite (c : cluster) (k : kind) (key : ObjectKey) (version : string) (f : obj k -> obj k) (w : world) :
    result (obj k) * world :=
  match lookupIn (w_store w) c k key with
  | None => (Err notFound, w)
  | Some stored =>
      if decide (om_ResourceVersion (meta_of stored) = version) then
        let o := written (f stored) in (Ok o, putIn c k o w)
      else (Err conflict, w)
  end.

(** [orig] is what was read, so that the patch gives [o]. *)
Definition serveStore (X : Type) (e : eff X) (w : world) : X * world :=
  match e in eff X return X * world with
  | EGet c k key => (match lookupIn (w_store w) c k key with Some o => Ok o | None => Err notFound end, w)
  | EList c k opts => (Ok (List.filter (matches opts) (snd <$> map_to_list (w_store w c k))), w)
  | ECreate c k o =>
      match lookupIn (w_store w) c k (keyOf o) with
      | Some _ => (Err alreadyExists, w)
      | None => let o' := written o in (Ok o', putIn c k o' w)
      end
  | EUpdate c k o =>
      rewrite c k (keyOf o) (om_ResourceVersion (meta_of o)) (fun stored => withStatusOf stored o) w
  | EPatch c k orig o _ =>
      rewrite c k (keyOf orig) (om_ResourceVersion (meta_of orig)) (fun stored => withStatusOf stored o) w
  | EStatusPatch c k orig o _ =>
      rewrite c k (keyOf orig) (om_ResourceVersion (meta_of orig))
        (fun stored => readBack (withStatusOf o stored)) w
  | EDelete c k o _ =>
      match lookupIn (w_store w) c k (keyOf o) with
      | None => (Err notFound, w)
      | Some stored =>
          (Ok tt, putIn c k (setMeta (om_set_DeletionTimestamp (Some 1%Z) (meta_of stored)) stored) w)
      end
  | EStatusApply _ _ _ _ _ _ | EApply _ _ _ _ => (Err unsupported, w)
  | EUpdateApproval _ _ => (Err unsupported, w)
  | EDescribeInstances _ => (Err unsupported, w)
  | ENow => (0%Z, w)
  end.

(** ** It is a server *)

Definition getIn (w : world) (c : cluster) (k : kind) (key : ObjectKey) : option (obj k) :=
  lookupIn (w_store w) c k key.

Lemma getIn_defaulted w c k key (o : obj k) : getIn w c k key = Some o -> defaulted o = o.
Proof. intros E. by destruct (w_wf w c k key o E) as (_ & _ & ?). Qed.

Lemma putIn_changed c k (o : obj k) w :
  changedIn getIn c k (keyOf o) (if isGone (meta_of o) then None else Some (defaulted o)) w (putIn c k o w).
Proof. pose proof (put_changed c k (keyOf o) (defaulted o) (w_store w)) as H. by rewrite defaulted_meta in H. Qed.

Lemma meta_written {k} (o : obj k) : writable k = true -> meta_of (written o) = nextVersion (meta_of o).
Proof. intros Hk. unfold written. by rewrite defaulted_meta, meta_setMeta. Qed.

Lemma keyOf_written {k} (o : obj k) : keyOf (written o) = keyOf o.
Proof. by destruct k. Qed.

Lemma isGone_written {k} (o : obj k) : isGone (meta_of (written o)) = isGone (meta_of o).
Proof. by destruct k. Qed.

Lemma defaulted_written {k} (o : obj k) : defaulted (written o) = written o.
Proof. apply defaulted_idem. Qed.

Lemma sendable_writable {k} (o : obj k) : sendable o -> writable k = true.
Proof. by destruct k. Qed.

Lemma written_storedAs {k} (o : obj k) : writable k = true -> storedAs o (written o).
Proof.
  intros Hk. split; [by rewrite meta_written|].
  unfold written. by rewrite defaulted_setMeta, setMeta_setMeta, <- defaulted_setMeta, setMeta_self.
Qed.

Lemma putIn_written c k (o : obj k) w :
  isGone (meta_of o) = false ->
  changedIn getIn c k (keyOf o) (Some (written o)) w (putIn c k (written o) w).
Proof.
  intros G. pose proof (putIn_changed c k (written o) w) as H.
  by rewrite keyOf_written, isGone_written, G, defaulted_written in H.
Qed.

Lemma store_list w c k opts : exists l, serveStore _ (EList c k opts) w = (Ok l, w) /\ NoDup l /\
  forall o, o ∈ l <-> exists key, getIn w c k key = Some o /\ matches opts o = true.
Proof.
  eexists. split; [done|]. split.
  - apply NoDup_ListNoDup, List.NoDup_filter, NoDup_ListNoDup. apply (NoDup_fmap_1 keyOf).
    rewrite <- list_fmap_compose. rewrite (list_fmap_ext _ fst); [apply NoDup_fst_map_to_list|].
    intros i [key o] H%list_elem_of_lookup_2%elem_of_map_to_list. cbn. by destruct (w_wf w c k key o H).
  - intros o. rewrite list_elem_of_In, filter_In, <- list_elem_of_In, list_elem_of_fmap. unfold getIn, lookupIn. split.
    + intros [([key o'] & -> & H%elem_of_map_to_list) M]. by exists key.
    + intros (key & H & M). split; [|done]. exists (key, o). split; [done|]. by apply elem_of_map_to_list.
Qed.

Lemma rewrite_found c k key version f w (old : obj k) :
  lookupIn (w_store w) c k key = Some old -> om_ResourceVersion (meta_of old) = version ->
  rewrite c k key version f w = (Ok (written (f old)), putIn c k (written (f old)) w).
Proof. intros E V. unfold rewrite. by rewrite E, decide_True. Qed.

Lemma withStatusOf_setMeta {k} m (o : obj k) : withStatusOf o (setMeta m o) = setMeta m o.
Proof. by destruct k. Qed.

Lemma meta_readBack {k} (o o' : obj k) : meta_of (readBack (withStatusOf o o')) = meta_of o'.
Proof. by destruct k. Qed.

Lemma written_setMeta {k} m (o : obj k) :
  writable k = true -> defaulted o = o -> written (setMeta m o) = setMeta (nextVersion m) o.
Proof. intros Hk D. unfold written. by rewrite meta_setMeta, setMeta_setMeta, defaulted_setMeta, D. Qed.

Lemma written_plain {k} (o : obj k) : hasDefaults k = false -> written o = setMeta (nextVersion (meta_of o)) o.
Proof. by destruct k. Qed.

Lemma serverSet_next m : serverSet m (nextVersion m).
Proof. done. Qed.

Lemma noStatus_written {k} (o : obj k) : noStatus o -> noStatus (written o).
Proof. intros N. apply noStatus_defaulted. by destruct k. Qed.

Lemma withStatusOf_written {k} (o o' : obj k) :
  defaulted o = o -> withStatusOf o o' = o' -> withStatusOf o (written o') = written o'.
Proof.
  destruct k; try done; intros D <-; [|by destruct o, o'..].
  destruct o as [m s t], o'. apply (f_equal awsv1.Status) in D. cbn in D. unfold written. cbn.
  unfold defaultEC2NodeClass; cbn. by rewrite D.
Qed.

#[export] Program Instance store_server : ApiServer world := {
  serve := serveStore;
  get := getIn }.
Next Obligation. intros w c k key o H. by destruct (w_wf w c k key o H). Qed.
Next Obligation. intros w c k key o H. by destruct (w_wf w c k key o H) as (_ & ? & _). Qed.
Next Obligation. intros w c k key o H. by rewrite (getIn_defaulted _ _ _ _ _ H). Qed.
Next Obligation.
  intros w c k key. eexists. split; [done|]. unfold getIn. destruct (lookupIn _ _ _ _); [done|]. by eexists.
Qed.
Next Obligation. apply store_list. Qed.
Next Obligation.
  intros w c k o Hk%sendable_writable E Hs G. exists (written o), (putIn c k (written o) w).
  unfold getIn in E. cbn [serveStore]. rewrite E. split; [done|].
  split; [by apply putIn_written|]. split; [by apply written_storedAs | by apply noStatus_written].
Qed.
Next Obligation.
  intros w c k o old Hk%sendable_writable E V S G. pose proof (getIn_defaulted _ _ _ _ _ E) as D.
  cbn [serveStore]. rewrite (rewrite_found _ _ _ _ _ _ old E) by done.
  rewrite S. eexists _, _. split; [done|]. split; [by apply putIn_written|].
  split; [by apply written_storedAs | by apply withStatusOf_written].
Qed.
Next Obligation.
  intros w c k orig m lock Hk E Hm Hd. pose proof (getIn_defaulted _ _ _ _ _ E) as D.
  cbn [serveStore]. rewrite (rewrite_found _ _ _ _ _ _ orig E) by done.
  rewrite withStatusOf_setMeta, written_setMeta by done. exists (nextVersion m). eexists. split; [done|].
  split; [|done]. pose proof (putIn_changed c k (setMeta (nextVersion m) orig) w) as H.
  unfold keyOf at 1 in H. rewrite !meta_setMeta, defaulted_setMeta, D in H by done.
  change (ObjectKeyFromObject (nextVersion m)) with (ObjectKeyFromObject m) in H. rewrite Hm in H. exact H.
Qed.
Next Obligation.
  intros w c k orig o lock Hk Hn E Hm. cbn [serveStore]. rewrite (rewrite_found _ _ _ _ _ _ orig E) by done.
  rewrite written_plain, meta_readBack by done. exists (nextVersion (meta_of orig)). eexists. split; [done|].
  split; [|done].
  pose proof (putIn_changed c k (setMeta (nextVersion (meta_of orig)) (readBack (withStatusOf o orig))) w) as H.
  unfold keyOf at 1 in H. rewrite !meta_setMeta in H by done.
  change (isGone (nextVersion ?m)) with (isGone m) in H.
  destruct (w_wf w c k _ orig E) as (_ & G & _). rewrite G in H. by destruct k.
Qed.
Next Obligation.
  intros w c k o grace Hk. cbn [serveStore]. unfold getIn. destruct (lookupIn _ _ _ _) as [old|] eqn:E.
  - destruct (w_wf w c k _ old E) as (K & _ & D).
    pose proof (putIn_changed c k (setMeta (om_set_DeletionTimestamp (Some 1%Z) (meta_of old)) old) w) as H.
    unfold keyOf at 1 in H. rewrite !meta_setMeta, defaulted_setMeta, D in H by done.
    change (ObjectKeyFromObject (om_set_DeletionTimestamp _ ?m)) with (ObjectKeyFromObject m) in H.
    fold (keyOf old) in H. rewrite K in H.
    eexists _, _. split; [done|]. split; [exact H|]. destruct (isGone _); [done|]. by eexists.
  - by eexists.
Qed.
Next Obligation. intros w. by eexists. Qed.

(** ** Stores of given objects *)

Lemma empty_wf : wf_store (fun _ _ => ∅).
Proof. intros c k key o H. unfold lookupIn in H. by rewrite lookup_empty in H. Qed.

Definition emptyWorld : world := mkWorld (fun _ _ => ∅) empty_wf.
