(* ===== verification/DeletionLive.v ===== *)
(** * The deletion terminates

    The steps Karpenter takes once its objects are marked, and the proof that,
    against an API server, a hosted cluster being deleted loses the operator's
    finalizer after at most four reconciles, each followed by Karpenter's work. *)

From S2P Require Import Prelude Prog DeepEqual MetaV1 CoreTypes HyperTypes Kube Hypershift Deletion Server Store.

(** ** Marks *)

Definition deleting (m : ObjectMeta) : Prop := om_DeletionTimestamp m <> None.
Definition terminating (nc : NodeClaim) : Prop := deleting (nc_meta nc) /\ terminationAttempted nc = true.

(** What a pass leaves of a NodeClaim: it is being deleted, and if it was before,
    it may be terminated forcefully. *)
Definition claimAfter (nc : NodeClaim) (after : option NodeClaim) : Prop :=
  match after with
  | None => True
  | Some nc' => deleting (nc_meta nc') /\ (deleting (nc_meta nc) -> terminating nc')
  end.

Lemma FormatRFC3339_nonempty ts : FormatRFC3339 ts <> "".
Proof. unfold FormatRFC3339. destruct (civil _) as [[y m] d]. by intros [_ H]%str_app_eq_nil. Qed.

Lemma annotate_attempted ts nc : terminationAttempted (annotateTermination ts nc) = true.
Proof.
  unfold terminationAttempted, annotateTermination, mget, mset; cbn.
  rewrite lookup_insert_eq. cbn. rewrite bool_decide_false; [done|]. apply FormatRFC3339_nonempty.
Qed.

Lemma terminationAttempted_canon nc nc' :
  canon (om_Annotations (nc_meta nc')) = canon (om_Annotations (nc_meta nc)) ->
  terminationAttempted nc' = terminationAttempted nc.
Proof. intros H. unfold terminationAttempted. by rewrite (mget_canon _ _ _ H). Qed.

Section live.
Context {W : Type} {server : ApiServer W} (namespace : string) (gvk : GVK).

(** ** A pass over the objects of a kind *)

(** Everything outside the objects of the kind is left alone. *)
Definition onlyKind (c : cluster) (k : kind) (w w' : W) : Prop :=
  forall c' k' key, (c', k') <> (c, k) -> get w' c' k' key = get w c' k' key.

Definition noneOf (k : kind) (w : W) : Prop := forall key, get w Hosted k key = None.

Lemma listed_nil k w : listed w Hosted k noOptions = [] <-> noneOf k w.
Proof.
  split.
  - intros E key. destruct (get w Hosted k key) as [o|] eqn:G; [|done].
    assert (o ∈ listed w Hosted k noOptions) as H by (apply listed_elem; by exists key).
    rewrite E in H. by apply not_elem_of_nil in H.
  - intros H. apply elem_of_nil_inv. intros o (key & E)%listed_elem. by rewrite H in E.
Qed.

Section pass.
Context {c : cluster} {k : kind} (f : obj k -> go (result unit)) (after : obj k -> option (obj k) -> Prop).
Hypothesis turn : forall o w, get w c k (keyOf o) = Some o -> exists x w',
  exec serve (f o) w = (Ok tt, w') /\ changed c k (keyOf o) x w w' /\ after o x.

Lemma exec_turns (l : list (obj k)) w :
  NoDup l -> (forall o, o ∈ l -> get w c k (keyOf o) = Some o) -> exists w',
    exec serve (for_each l f) w = (Ok tt, w') /\ onlyKind c k w w'
    /\ (forall key, (forall o, o ∈ l -> keyOf o <> key) -> get w' c k key = get w c k key)
    /\ (forall o, o ∈ l -> after o (get w' c k (keyOf o))).
Proof using turn.
  revert w; induction l as [|o l IH]; intros w Hn Hl; cbn [for_each].
  { exists w. rewrite exec_ret. do 3 (split; [done|]). intros o H. by apply not_elem_of_nil in H. }
  apply NoDup_cons in Hn as [Ho Hn]. destruct (turn o w) as (x & w1 & E & C & A); [apply Hl; left|].
  assert (Hd : forall o', o' ∈ l -> keyOf o' <> keyOf o).
  { intros o' H K. pose proof (Hl o' (list_elem_of_further _ _ _ H)) as G. rewrite K, Hl in G by left. congruence. }
  destruct (IH w1 Hn) as (w' & E' & O & N & A').
  { intros o' H. rewrite (changed_other _ _ _ _ _ _ _ _ _ C) by (right; by apply Hd). apply Hl. by right. }
  exists w'. rewrite exec_try, E, E'. split; [done|]. split; [|split].
  - intros c' k' key H. rewrite O by done. eapply changed_other; [exact C | by left].
  - intros key H. rewrite N by (intros o' Ho'; apply H; by right).
    eapply changed_other; [exact C | right]. intros ->. by apply (H o); [left|].
  - intros o' [->|H]%elem_of_cons; [|by apply A']. rewrite N by done. by rewrite (changed_lookup _ _ _ _ _ _ C).
Qed.

Lemma exec_pass w : exists w',
  exec serve (for_each (listed w c k noOptions) f) w = (Ok tt, w') /\ onlyKind c k w w'
  /\ forall key o', get w' c k key = Some o' -> exists o, get w c k key = Some o /\ after o (Some o').
Proof using turn.
  destruct (listed_spec w c k noOptions) as (_ & Hn & _).
  destruct (exec_turns (listed w c k noOptions) w Hn) as (w' & E & O & N & A).
  { intros o (key & G)%listed_elem. by rewrite (get_key _ _ _ _ _ G). }
  exists w'. split; [done|]. split; [done|]. intros key o' G.
  destruct (get w c k key) as [o|] eqn:G0.
  - exists o. split; [done|]. rewrite <- G, <- (get_key _ _ _ _ _ G0). apply A, listed_elem. by exists key.
  - rewrite N, G0 in G; [done|]. intros o (key' & Ho)%listed_elem <-. rewrite (get_key _ _ _ _ _ Ho) in G0. congruence.
Qed.
End pass.

Lemma exec_delete w k (o old : obj k) grace :
  writable k = true -> get w Hosted k (keyOf o) = Some old -> exists x w',
    exec serve (call (EDelete Hosted k o grace)) w = (Ok tt, w') /\ changed Hosted k (keyOf o) x w w'
    /\ goneOrGoing x.
Proof.
  intros Hk E. rewrite exec_call. pose proof (serve_delete w Hosted k o grace Hk) as H. rewrite E in H.
  destruct H as (x & w' & Ed & C & A). exists x, w'. do 2 (split; [done|]).
  destruct x as [y|]; [|done]. destruct A as (m & -> & Dm & _). cbn. by rewrite meta_setMeta.
Qed.

Lemma exec_deleteNodePools w : exists w',
  exec serve deleteNodePools w = (Ok (bool_decide (length (listed w Hosted KNodePool noOptions) = 0)), w')
  /\ onlyKind Hosted KNodePool w w'
  /\ forall key np, get w' Hosted KNodePool key = Some np ->
       deleting (np_meta np) /\ get w Hosted KNodePool key <> None.
Proof.
  destruct (exec_pass (c := Hosted) (k := KNodePool) deleteNodePool (fun _ => goneOrGoing)) with w as (w' & E & O & A).
  - intros np w0 G. unfold deleteNodePool. destruct (IsZero _) eqn:D; cbn [negb].
    + destruct (exec_delete w0 KNodePool np np (Some 0%Z) eq_refl G) as (x & w' & E & C & A).
      exists x, w'. rewrite exec_wrap. runs E. done.
    + exists (Some np), w0. rewrite exec_ret. split; [done|]. split; [rewrite <- G; apply changed_refl|].
      cbn. intros H. by rewrite H in D.
  - exists w'. unfold deleteNodePools. rewrite exec_try, exec_wrap.
    runs (exec_list w Hosted KNodePool noOptions). cbn [map_err]. rewrite exec_try. runs E. rewrite exec_ret.
    do 2 (split; [done|]). intros key np G. destruct (A key np G) as (o & -> & H). done.
Qed.

Lemma exec_deleteNodeClaim nc w :
  get w Hosted KNodeClaim (keyOf (nc : obj KNodeClaim)) = Some nc -> exists x w',
    exec serve (deleteNodeClaim true nc) w = (Ok tt, w')
    /\ changed Hosted KNodeClaim (keyOf (nc : obj KNodeClaim)) x w w' /\ claimAfter nc x.
Proof.
  intros G. unfold deleteNodeClaim. destruct (om_DeletionTimestamp (nc_meta nc)) as [ts|] eqn:D.
  - destruct (serve_now w) as [now En]. rewrite exec_bind, exec_call, En. cbn [negb andb].
    rewrite exec_wrap. unfold handleForcefulNodeClaimDeletion. destruct (terminationAttempted nc) eqn:T.
    + exists (Some nc), w. rewrite exec_ret. split; [done|]. split; [rewrite <- G; apply changed_refl|].
      unfold claimAfter, terminating, deleting. by rewrite D, T.
    + set (m := nc_meta (annotateTermination ts nc)).
      destruct (exec_patch w Hosted KNodeClaim nc (annotateTermination ts nc) m false)
        as (m' & w' & E & C & S & _); [done | done | done..|].
      exists (if isGone m then None else Some (setMeta (k := KNodeClaim) m' nc)), w'.
      rewrite exec_try, exec_wrap. runs E. split; [done|]. split; [exact C|].
      destruct (isGone m); [done|].
      assert (deleting (nc_meta (setMeta (k := KNodeClaim) m' nc))) as Hd.
      { unfold deleting. cbn. rewrite (ss_DeletionTimestamp _ _ S). unfold m. cbn. by rewrite D. }
      split; [done|]. intros _. split; [done|]. rewrite <- (annotate_attempted ts nc).
      apply terminationAttempted_canon. exact (ss_Annotations _ _ S).
  - destruct (exec_delete w KNodeClaim nc nc (Some 0%Z) eq_refl G) as (x & w' & E & C & A).
    exists x, w'. rewrite exec_wrap. runs E. split; [done|]. split; [done|].
    destruct x as [nc'|]; [|done]. split; [exact A|]. unfold deleting. by rewrite D.
Qed.

Lemma exec_deleteNodeClaims w : exists w',
  exec serve deleteNodeClaims w = (Ok (bool_decide (length (listed w Hosted KNodeClaim noOptions) = 0)), w')
  /\ onlyKind Hosted KNodeClaim w w'
  /\ forall key nc', get w' Hosted KNodeClaim key = Some nc' ->
       exists nc, get w Hosted KNodeClaim key = Some nc /\ claimAfter nc (Some nc').
Proof.
  destruct (exec_pass (c := Hosted) (k := KNodeClaim) (deleteNodeClaim true) claimAfter) with w as (w' & E & O & A);
    [exact exec_deleteNodeClaim|].
  exists w'. unfold deleteNodeClaims. rewrite exec_try, exec_wrap.
  runs (exec_list w Hosted KNodeClaim noOptions). cbn [map_err]. rewrite exec_try. runs E. by rewrite exec_ret.
Qed.

(** ** Karpenter *)

(** What Karpenter and the garbage collector do between two reconciles: NodePools
    marked for deletion go, NodeClaims that may be terminated forcefully go,
    others may go too or be marked, and nothing new appears. *)
Record karpenterStep (w w' : W) : Prop := mkKarpenterStep {
  ks_hcp key : get w' Management KHostedControlPlane key = get w Management KHostedControlPlane key;
  ks_pools key (np : obj KNodePool) : get w' Hosted KNodePool key = Some np ->
    get w Hosted KNodePool key = Some np /\ ~ deleting (np_meta np);
  ks_claims key (nc' : obj KNodeClaim) : get w' Hosted KNodeClaim key = Some nc' ->
    exists nc, get w Hosted KNodeClaim key = Some nc /\ ~ terminating nc
      /\ (nc' = nc \/ exists m, deleting m /\ nc' = nc_set_meta m nc) }.

(** One reconcile and Karpenter's work after it. *)
Definition round (w w' : W) : Prop := karpenterStep (exec serve (Reconcile namespace gvk) w).2 w'.

Fixpoint rounds (n : nat) (w w' : W) : Prop :=
  match n with
  | O => w' = w
  | S n' => exists w1, round w w1 /\ rounds n' w1 w'
  end.

Lemma karpenter_none k w w' :
  karpenterStep w w' -> k = KNodePool \/ k = KNodeClaim -> noneOf k w -> noneOf k w'.
Proof.
  intros K Hk H key. destruct (get w' Hosted k key) as [o|] eqn:G; [|done]. exfalso.
  destruct Hk as [-> | ->].
  - destruct (ks_pools _ _ K _ _ G) as [G' _]. rewrite H in G'. done.
  - destruct (ks_claims _ _ K _ _ G) as (nc & G' & _). rewrite H in G'. done.
Qed.

(** ** The HostedControlPlane *)

Definition theHCP (w : W) : list HostedControlPlane :=
  listed w Management KHostedControlPlane (InNamespace namespace).

(** The namespace's HostedControlPlane is being deleted and the operator holds its
    finalizer. *)
Definition tearingDown (w : W) : Prop := exists hcp, theHCP w = [hcp]
  /\ deleting (hcp_meta hcp) /\ ContainsFinalizer (hcp_meta hcp) karpenterFinalizer = true.

(** The finalizer is released, so that the HostedControlPlane may be gone, and
    nothing of Karpenter is left. *)
Definition released (w : W) : Prop :=
  (theHCP w = [] \/ exists hcp, theHCP w = [hcp]
     /\ deleting (hcp_meta hcp) /\ ContainsFinalizer (hcp_meta hcp) karpenterFinalizer = false)
  /\ noneOf KNodePool w /\ noneOf KNodeClaim w.

Lemma theHCP_same w w' l :
  (forall key, get w' Management KHostedControlPlane key = get w Management KHostedControlPlane key) ->
  theHCP w = l -> length l <= 1 -> theHCP w' = l.
Proof.
  intros H <- L. apply (listed_same _ _ _ _ (InNamespace namespace)) in H. fold (theHCP w) (theHCP w') in H.
  destruct (theHCP w) as [|x [|y l]]; cbn in L; [by apply Permutation_nil_r | by apply Permutation_singleton_r | lia].
Qed.

Lemma theHCP_changed w w' hcp hcp' :
  theHCP w = [hcp] ->
  changed Management KHostedControlPlane (keyOf (hcp : obj KHostedControlPlane)) hcp' w w' ->
  (forall h, hcp' = Some h -> om_Namespace (hcp_meta h) = om_Namespace (hcp_meta hcp)) ->
  theHCP w' = option_list hcp'.
Proof.
  intros E C Hn. destruct (listed_spec w Management KHostedControlPlane (InNamespace namespace)) as (_ & _ & H).
  destruct (listed_spec w' Management KHostedControlPlane (InNamespace namespace)) as (_ & N' & H').
  fold (theHCP w) in H. fold (theHCP w') in H', N'. setoid_rewrite E in H.
  assert (Hk : forall key h, get w' Management KHostedControlPlane key = Some h -> 
                matches (InNamespace namespace) h = true -> Some h = hcp').
  { intros key h G M. destruct (decide (key = keyOf (hcp : obj KHostedControlPlane))) as [->|D].
    - by rewrite (changed_lookup _ _ _ _ _ _ C) in G.
    - rewrite (changed_other _ _ _ _ _ _ _ _ _ C) in G by by right. exfalso.
      assert (h ∈ [hcp]) as ->%list_elem_of_singleton by (apply H; by exists key).
      by rewrite (get_key _ _ _ _ _ G) in D. }
  destruct hcp' as [h'|]; cbn [option_list].
  - apply Permutation_singleton_r, NoDup_Permutation; [done | apply NoDup_singleton|].
    intros h. rewrite H', list_elem_of_singleton. split; [intros (key & G & M); by injection (Hk key h G M)|].
    intros ->. eexists. split; [exact (changed_lookup _ _ _ _ _ _ C)|].
    destruct (proj1 (H hcp)) as (key & G & M); [by left|].
    unfold matches in *. cbn in *. by rewrite (Hn h' eq_refl).
  - apply elem_of_nil_inv. intros h (key & G & M)%H'. by pose proof (Hk key h G M).
Qed.

Lemma theHCP_get w hcp :
  theHCP w = [hcp] ->
  get w Management KHostedControlPlane (keyOf (hcp : obj KHostedControlPlane)) = Some hcp.
Proof.
  intros E. destruct (listed_spec w Management KHostedControlPlane (InNamespace namespace)) as (_ & _ & H).
  fold (theHCP w) in H. destruct (proj1 (H hcp)) as (key & G & _); [rewrite E; by left|].
  pose proof (get_key _ _ _ _ _ G) as K. by rewrite <- K in G.
Qed.

Lemma onlyKind_HCP k w w' hcp :
  onlyKind Hosted k w w' -> theHCP w = [hcp] -> theHCP w' = [hcp].
Proof. intros O E. eapply theHCP_same; [|exact E | done]. intros key. by apply O. Qed.

Lemma onlyKind_none k k' w w' : onlyKind Hosted k w w' -> k <> k' -> noneOf k' w -> noneOf k' w'.
Proof. intros O N H key. rewrite O by congruence. apply H. Qed.

(** ** One reconcile *)

Lemma exec_Reconcile_absent w : theHCP w = [] -> exec serve (Reconcile namespace gvk) w = (Ok noRequeue, w).
Proof.
  intros E. unfold Reconcile, GetHostedControlPlane. rewrite exec_bind, exec_try, exec_wrap.
  runs (exec_list w Management KHostedControlPlane (InNamespace namespace)). cbn [map_err].
  fold (theHCP w). rewrite E. cbv zeta. rewrite exec_ret. reflexivity.
Qed.

Lemma exec_Reconcile_deleting w hcp :
  theHCP w = [hcp] -> deleting (hcp_meta hcp) ->
  exec serve (Reconcile namespace gvk) w = exec serve (reconcileDeletion hcp) w.
Proof.
  intros E D. unfold Reconcile. rewrite exec_bind, (reads_exec _ _ _ (reads_GetHostedControlPlane _ _ _ E)).
  unfold IsClusterDeleting. rewrite decide_True by done. by rewrite exec_try, exec_wrap, exec_ret.
Qed.

(** The removal of the finalizer. *)
Lemma exec_release w hcp :
  theHCP w = [hcp] -> deleting (hcp_meta hcp) -> exists o w',
    exec serve (call (EPatch Management KHostedControlPlane hcp
                  (hcp_set_meta (RemoveFinalizer (hcp_meta hcp) karpenterFinalizer) hcp) true)) w = (Ok o, w')
    /\ (forall k key, get w' Hosted k key = get w Hosted k key)
    /\ (theHCP w' = [] \/ exists hcp', theHCP w' = [hcp'] /\ deleting (hcp_meta hcp')
         /\ ContainsFinalizer (hcp_meta hcp') karpenterFinalizer = false).
Proof.
  intros E D. set (m := RemoveFinalizer (hcp_meta hcp) karpenterFinalizer).
  destruct (exec_patch w Management KHostedControlPlane hcp (hcp_set_meta m hcp) m true)
    as (m' & w' & Ep & C & S & _); [done | exact (theHCP_get _ _ E) | done..|].
  exists (hcp_set_meta m' hcp), w'. split; [exact Ep|].
  split; [intros k key; by rewrite (changed_other _ _ _ _ _ _ _ _ _ C) by by left|].
  destruct (isGone m).
  - left. by eapply theHCP_changed with (hcp' := None).
  - right. exists (hcp_set_meta m' hcp). split.
    + eapply theHCP_changed with (hcp' := Some _); [exact E | exact C|].
      intros h [= <-]. exact (ss_Namespace _ _ S).
    + cbn. unfold deleting. split; [by rewrite (ss_DeletionTimestamp _ _ S)|].
      assert (ContainsFinalizer m' karpenterFinalizer = ContainsFinalizer m karpenterFinalizer) as ->
        by (unfold ContainsFinalizer; by rewrite (ss_Finalizers _ _ S)).
      unfold m. by rewrite ContainsFinalizer_Remove, bool_decide_true.
Qed.

(** What a reconcile of a cluster being torn down does: the NodePools first, then
    the NodeClaims, then the finalizer. *)
Lemma exec_Reconcile_pass w :
  tearingDown w -> exists r w', exec serve (Reconcile namespace gvk) w = (Ok r, w') /\
    (released w'
     \/ tearingDown w' /\ noneOf KNodePool w /\ noneOf KNodePool w' /\ ~ noneOf KNodeClaim w
        /\ (forall key nc', get w' Hosted KNodeClaim key = Some nc' ->
             exists nc, get w Hosted KNodeClaim key = Some nc /\ claimAfter nc (Some nc'))
     \/ tearingDown w' /\ ~ noneOf KNodePool w
        /\ forall key np, get w' Hosted KNodePool key = Some np -> deleting (np_meta np)).
Proof.
  intros (hcp & E & D & F). rewrite (exec_Reconcile_deleting _ _ E D). unfold reconcileDeletion.
  rewrite F. cbn [negb]. rewrite exec_try. unfold cleanupKarpenterResources. rewrite exec_try.
  destruct (exec_deleteNodePools w) as (w1 & -> & O1 & A1). pose proof (onlyKind_HCP _ _ _ _ O1 E) as E1.
  destruct (decide (listed w Hosted KNodePool noOptions = [])) as [L|L].
  2: { rewrite bool_decide_false by (by intros H%length_zero_iff_nil). rewrite exec_ret. cbn [negb]. rewrite exec_ret.
       eexists _, w1. split; [done|]. right; right. split; [by exists hcp|]. split; [by rewrite <- listed_nil|].
       intros key np G. by apply (A1 key). }
  rewrite L, bool_decide_true by done. apply listed_nil in L.
  assert (noneOf KNodePool w1) as N1.
  { intros key. destruct (get w1 Hosted KNodePool key) as [np|] eqn:G; [|done]. by destruct (A1 key np G) as [_ []]. }
  destruct (exec_deleteNodeClaims w1) as (w2 & -> & O2 & A2). pose proof (onlyKind_HCP _ _ _ _ O2 E1) as E2.
  pose proof (onlyKind_none _ KNodePool _ _ O2 ltac:(done) N1) as N2.
  destruct (decide (listed w1 Hosted KNodeClaim noOptions = [])) as [L1|L1].
  - rewrite L1, bool_decide_true by done. cbn [negb]. rewrite decide_False by done.
    apply listed_nil in L1. destruct (exec_release w2 hcp E2 D) as (o & w3 & Er & O3 & R3).
    exists noRequeue, w3. rewrite exec_try, exec_wrap. runs Er. rewrite exec_ret. split; [done|]. left.
    split; [done|]. split; intros key; rewrite O3; [apply N2|].
    destruct (get w2 Hosted KNodeClaim key) as [nc|] eqn:G; [|done].
    destruct (A2 key nc G) as (nc0 & G0 & _). by rewrite L1 in G0.
  - rewrite bool_decide_false by (by intros H%length_zero_iff_nil). cbn [negb]. rewrite exec_ret.
    eexists _, w2. split; [done|]. right; left. split; [by exists hcp|]. do 2 (split; [done|]).
    assert (forall key, get w1 Hosted KNodeClaim key = get w Hosted KNodeClaim key) as Hc by (intros; by apply O1).
    split; [intros H; apply L1, listed_nil; intros key; by rewrite Hc|].
    intros key nc' G. rewrite <- Hc. by apply A2.
Qed.

(** ** Convergence *)

(** How far the teardown is. *)
Definition stage (n : nat) (w : W) : Prop :=
  tearingDown w /\
  match n with
  | 0 => True
  | 1 => noneOf KNodePool w
  | 2 => noneOf KNodePool w /\ forall key (nc : obj KNodeClaim),
           get w Hosted KNodeClaim key = Some nc -> deleting (nc_meta nc)
  | 3 => noneOf KNodePool w /\ noneOf KNodeClaim w
  | _ => False
  end.

Lemma stage_pools n w : stage (S n) w -> noneOf KNodePool w.
Proof. intros [_ H]. by destruct n as [|[|[|n]]]; [|apply H..|]. Qed.

Lemma karpenter_theHCP w w' l : karpenterStep w w' -> theHCP w = l -> length l <= 1 -> theHCP w' = l.
Proof. intros K. apply theHCP_same. exact (ks_hcp _ _ K). Qed.

Lemma karpenter_tearing w w' : karpenterStep w w' -> tearingDown w -> tearingDown w'.
Proof. intros K (hcp & E & H). exists hcp. split; [by eapply karpenter_theHCP; [exact K| |cbn; lia]|done]. Qed.

Lemma karpenter_released w w' : karpenterStep w w' -> released w -> released w'.
Proof.
  intros K (H & HP & HC). split; [|split; (eapply karpenter_none; [exact K| |done]; tauto)].
  destruct H as [H|(hcp & E & H)]; [left | right; exists hcp; split; [|done]];
    (eapply karpenter_theHCP; [exact K | done | cbn; lia]).
Qed.

Lemma round_stage n w w' : stage n w -> round w w' -> stage (S n) w' \/ released w'.
Proof.
  intros Hs Hr. unfold round in Hr. destruct (exec_Reconcile_pass w (proj1 Hs)) as (r & w1 & E & P).
  rewrite E in Hr. cbn [snd] in Hr.
  destruct P as [P|[(T & N & N' & NC & A)|(T & N & A)]]; [right; by eapply karpenter_released | left..];
    (split; [by eapply karpenter_tearing|]).
  - assert (noneOf KNodePool w') as Nw by (eapply karpenter_none; [exact Hr | by left | done]).
    destruct n as [|[|[|[|n]]]]; [done| | |exfalso; by apply NC, Hs | by destruct Hs].
    + split; [done|]. intros key nc' (nc & G & _ & H)%(ks_claims _ _ Hr). destruct (A _ _ G) as (_ & _ & D & _).
      destruct H as [-> | (m & Hm & ->)]; done.
    + split; [done|]. intros key. destruct (get w' Hosted KNodeClaim key) as [nc'|] eqn:G'; [|done]. exfalso.
      destruct (ks_claims _ _ Hr _ _ G') as (nc & G & Nt & _). destruct (A _ _ G) as (nc0 & G0 & _ & H).
      apply Nt, H. destruct Hs as [_ [_ Hs]]. by eapply Hs.
  - assert (noneOf KNodePool w') as Nw.
    { intros key. destruct (get w' Hosted KNodePool key) as [np|] eqn:G'; [|done]. exfalso.
      destruct (ks_pools _ _ Hr _ _ G') as [G Nd]. by apply Nd, (A key). }
    destruct n as [|n]; [done|]. exfalso. by apply N, (stage_pools n).
Qed.

Lemma round_released w w' : released w -> round w w' -> released w'.
Proof.
  intros H Hr. apply (karpenter_released w); [|done]. destruct H as ([E|(hcp & E & D & F)] & _).
  - unfold round in Hr. by rewrite (exec_Reconcile_absent _ E) in Hr.
  - unfold round in Hr. rewrite (exec_Reconcile_deleting _ _ E D) in Hr. unfold reconcileDeletion in Hr.
    rewrite F in Hr. exact Hr.
Qed.

Lemma rounds_stage k n w w' :
  stage n w \/ released w -> rounds k w w' -> stage (n + k) w' \/ released w'.
Proof.
  revert n w; induction k as [|k IH]; intros n w H; cbn [rounds].
  - intros ->. by rewrite Nat.add_0_r.
  - intros (w1 & Hr & Hrs). rewrite Nat.add_succ_r. apply (IH (S n) w1); [|done].
    destruct H as [H|H]; [by apply (round_stage n w) | right; by apply (round_released w)].
Qed.

(** C2. The teardown finishes.  Against an API server, from any state in which the
    namespace's HostedControlPlane is being deleted and carries the operator's
    finalizer, with any NodePools and NodeClaims in any state of deletion, a
    reconcile succeeds, and four reconciles, each followed by Karpenter removing
    what was marked, release the finalizer, and by then no NodePool and no NodeClaim
    is left. *)
Theorem teardown_finishes w :
  tearingDown w ->
  (exists r, (exec serve (Reconcile namespace gvk) w).1 = Ok r)
  /\ forall w', rounds 4 w w' -> released w'.
Proof.
  intros Ht. split; [destruct (exec_Reconcile_pass w Ht) as (r & w' & -> & _); by exists r|].
  intros w' Hr. apply (rounds_stage 4 0) in Hr; [|left; by split]. by destruct Hr as [[_ []]|Hr].
Qed.

End live.

(** ** Witness: two NodePools, two NodeClaims in different states *)

Definition exampleHCP : HostedControlPlane :=
  mkHCP (mkObjectMeta "example" "clusters-example" "u1" "7" 1 (Some 1000%Z) None None None
           (Some [karpenterFinalizer; "other"]))
    "infra" zeroAutoNode None (mkCPVersion (mkRelease "" "" "" "" None) None 0) (mkAutoNodeStatus None None None).

Definition held (m : ObjectMeta) : ObjectMeta := om_set_Finalizers (Some ["karpenter.sh/termination"]) m.

Definition exampleWorld : world :=
  putIn Management KHostedControlPlane exampleHCP
    (putIn Hosted KNodePool (mkNodePool (held (newMeta "" "a")))
    (putIn Hosted KNodePool (mkNodePool (newMeta "" "b"))
    (putIn Hosted KNodeClaim (mkNodeClaim (held (newMeta "" "a1")) "" "" None)
    (putIn Hosted KNodeClaim
       (mkNodeClaim (om_set_DeletionTimestamp (Some 5%Z) (held (newMeta "" "a2"))) "" "" None)
       emptyWorld)))).

(** Karpenter removing what it may. *)
Definition keptPool (np : NodePool) : bool := bool_decide (om_DeletionTimestamp (np_meta np) = None).
Definition keptClaim (nc : NodeClaim) : bool :=
  bool_decide (om_DeletionTimestamp (nc_meta nc) = None) || negb (terminationAttempted nc).
Definition karpenterStore (w : world) : store :=
  set_kind Hosted KNodePool (filter (fun '(_, np) => keptPool np = true) (w_store w Hosted KNodePool))
    (set_kind Hosted KNodeClaim (filter (fun '(_, nc) => keptClaim nc = true) (w_store w Hosted KNodeClaim))
       (w_store w)).

Lemma karpenterStore_lookup w c k key (o : obj k) :
  lookupIn (karpenterStore w) c k key = Some o ->
  lookupIn (w_store w) c k key = Some o
  /\ match c, k return obj k -> Prop with
     | Hosted, KNodePool => fun np => keptPool np = true
     | Hosted, KNodeClaim => fun nc => keptClaim nc = true
     | _, _ => fun _ => True
     end o.
Proof.
  unfold lookupIn, karpenterStore. destruct (decide ((c, k) = (Hosted, KNodePool))) as [[= -> ->]|N].
  { rewrite set_kind_eq. intros H. by apply map_lookup_filter_Some in H. }
  rewrite set_kind_ne by done. destruct (decide ((c, k) = (Hosted, KNodeClaim))) as [[= -> ->]|N'].
  { rewrite set_kind_eq. intros H. by apply map_lookup_filter_Some in H. }
  rewrite set_kind_ne by done. intros H. split; [done|]. by destruct c, k.
Qed.

Lemma karpenterStore_wf w : wf_store (karpenterStore w).
Proof. intros c k key o [H _]%karpenterStore_lookup. exact (w_wf w c k key o H). Qed.

Definition karpenter (w : world) : world := mkWorld (karpenterStore w) (karpenterStore_wf w).

Lemma karpenter_step w : karpenterStep w (karpenter w).
Proof.
  split.
  - intros key. cbn [get store_server]. unfold getIn, lookupIn. cbn [w_store karpenter]. unfold karpenterStore.
    by rewrite !set_kind_ne.
  - intros key np [H K%bool_decide_eq_true]%karpenterStore_lookup. split; [exact H|]. by intros [].
  - intros key nc' [H K]%karpenterStore_lookup. exists nc'. split; [exact H|]. split; [|by left].
    intros [D T]. unfold keptClaim in K. rewrite T in K. by rewrite bool_decide_false in K.
Qed.

Fixpoint teardown (n : nat) (w : world) : world :=
  match n with
  | O => w
  | S n' => teardown n' (karpenter (exec serve (Reconcile "clusters-example" (mkGVK "" "" "")) w).2)
  end.

Lemma teardown_rounds n w : rounds "clusters-example" (mkGVK "" "" "") n w (teardown n w).
Proof.
  revert w; induction n as [|n IH]; intros w; [done|]. eexists. split; [|apply IH].
  apply karpenter_step.
Qed.

Definition claimsLeft (w : world) : nat := length (listed w Hosted KNodeClaim noOptions).

Lemma exampleWorld_tearing : tearingDown "clusters-example" exampleWorld.
Proof. exists exampleHCP. by repeat split; vm_compute. Qed.

Lemma teardown_finishes_witness :
  released "clusters-example" (teardown 4 exampleWorld)
  /\ claimsLeft (teardown 1 exampleWorld) = 2 /\ claimsLeft (teardown 2 exampleWorld) = 1
  /\ claimsLeft (teardown 3 exampleWorld) = 0.
Proof.
  split; [|by vm_compute].
  apply (teardown_finishes "clusters-example" (mkGVK "" "" "") exampleWorld);
    [apply exampleWorld_tearing | apply teardown_rounds].
Defined.
