(* ===== verification/Ec2Live.v ===== *)
(** * The EC2 NodeClass controller against an API server

    With many NodeClasses in the store: one [Reconcile] of a live NodeClass reaches
    a state that it leaves alone as soon as Karpenter has reported on the
    EC2NodeClass, and a NodeClass marked for deletion goes away with its
    EC2NodeClass, and its subnets with it. *)

From S2P Require Import Prelude Prog DeepEqual MetaV1 CoreTypes HyperTypes AwsV1 KarpenterV1 GoJson Kube KubeLemmas NodeClassStatus Hypershift Ec2Convert Ec2Tags Ec2Build Ec2Status Ec2Subnets Ec2NodeClass Defaults Server Store.

(** ** What the controller writes is left alone once it is written *)

Lemma mutateEC2NodeClass_Ok nc hcp secret base ec2 :
  mutateEC2NodeClass nc hcp secret base = Ok ec2 ->
  SetControllerReference "karpenter.hypershift.openshift.io/v1" "OpenshiftEC2NodeClass"
    (osv1.meta nc) (awsv1.meta base) = Ok (awsv1.meta ec2)
  /\ awsv1.Status ec2 = awsv1.Status base
  /\ reconcileEC2NodeClass ec2 nc hcp secret = Ok ec2.
Proof.
  unfold mutateEC2NodeClass. destruct (SetControllerReference _ _ _ _) as [m|]; [|done]. cbn [rbind].
  intros H. destruct (reconcileEC2NodeClass_keeps _ _ _ _ _ H) as [-> ->]. split; [done|]. split; [done|].
  by eapply reconcileEC2NodeClass_idempotent.
Qed.

Lemma canon_slice_nil {A} `{Canon A} (l l' : slice A) : canon l = canon l' -> elems l = [] -> elems l' = [].
Proof. by destruct l as [[]|], l' as [[]|]. Qed.

(** User data and AMIs that are read back are kept, up to nil and empty values. *)
Lemma userDataAndAMIs_stored ec2 x nc hcp secret :
  canon (awsv1.AMISelectorTerms (awsv1.Spec x)) = canon (awsv1.AMISelectorTerms (awsv1.Spec ec2)) ->
  awsv1.UserData (awsv1.Spec x) = awsv1.UserData (awsv1.Spec ec2) ->
  userDataAndAMIs ec2 nc hcp secret = Ok (awsv1.UserData (awsv1.Spec ec2), awsv1.AMISelectorTerms (awsv1.Spec ec2)) ->
  exists amis, userDataAndAMIs x nc hcp secret = Ok (awsv1.UserData (awsv1.Spec ec2), amis)
    /\ canon amis = canon (awsv1.AMISelectorTerms (awsv1.Spec ec2)).
Proof.
  intros Ha Hd' Hu.
  destruct (userDataAndAMIs_spec _ _ _ _ _ _ Hu) as [N1 N2]. rewrite userDataAndAMIs_pinned in Hu |- *.
  assert (pinned x nc hcp <-> pinned ec2 nc hcp) as Hp.
  { unfold pinned. rewrite Hd'. pose proof (canon_slice_nil _ _ Ha). pose proof (canon_slice_nil _ _ (eq_sym Ha)).
    naive_solver. }
  case_decide as P; case_decide as P'; try (exfalso; tauto).
  - exists (awsv1.AMISelectorTerms (awsv1.Spec x)). by rewrite Hd'.
  - rewrite Hu. by eexists.
Qed.

(** Of what was stored the controller asks for what it asked for before. *)
Lemma reconcileEC2NodeClass_stored ec2 x nc hcp secret :
  canon (awsv1.Spec x) = canon (defaultEC2NodeClassSpec (awsv1.Spec ec2)) ->
  reconcileEC2NodeClass ec2 nc hcp secret = Ok ec2 ->
  exists x', reconcileEC2NodeClass x nc hcp secret = Ok x'
    /\ awsv1.meta x' = awsv1.meta x /\ canon (awsv1.Spec x') = canon (awsv1.Spec ec2)
    /\ awsv1.Status x' = awsv1.Status x.
Proof.
  intros Hs H. destruct (reconcileEC2NodeClass_spec _ _ _ _ _ H) as [Hu _].
  destruct (userDataAndAMIs_stored ec2 x nc hcp secret) as (amis & Hx & Ha);
    [exact (f_equal awsv1.AMISelectorTerms Hs) | exact (f_equal awsv1.UserData Hs) | exact Hu |].
  unfold reconcileEC2NodeClass in H |- *. rewrite Hu in H. rewrite Hx. cbn [rbind] in *.
  destruct (blockDeviceMappings _) as [b|]; [|done]. cbn [rbind] in *.
  injection H as H%(f_equal awsv1.Spec). cbn [awsv1.Spec] in H.
  eexists. split; [done|]. split; [done|]. split; [|done]. cbn [awsv1.Spec]. rewrite <- H at 2.
  unfold canon, awsv1.EC2NodeClassSpec_canon. cbn. f_equal. exact Ha.
Qed.

Lemma mutateEC2NodeClass_tame nc hcp secret :
  tame (k := KEC2NodeClass) (mutateEC2NodeClass nc hcp secret).
Proof.
  split; [done|done|..]; intros base o.
  5: intros x (Hm & Hs & Ha)%mutateEC2NodeClass_Ok [Sm Sc].
  1-4: intros (Hm & Hs & _)%mutateEC2NodeClass_Ok;
    destruct (SetControllerReference_Ok _ _ _ _ _ Hm) as [_ [refs E]]; unfold keyOf; cbn [meta_of];
    try (by rewrite E).
  - cbn [withStatusOf]. rewrite <- Hs. by destruct o.
  - pose proof (SetControllerReference_stored "karpenter.hypershift.openshift.io/v1" _ _ _ _ (awsv1.meta x) ltac:(done) Hm
                  (ss_Namespace _ _ Sm) (ss_OwnerReferences _ _ Sm)) as Hx0.
    pose proof (f_equal awsv1.Spec Sc) as Cs. pose proof (f_equal awsv1.Status Sc) as Ct.
    change (canon (awsv1.Spec x) = canon (defaultEC2NodeClassSpec (awsv1.Spec o))) in Cs.
    change (canon (awsv1.Status x) = canon (defaultEC2Status (awsv1.Status o))) in Ct.
    destruct (reconcileEC2NodeClass_stored o x nc hcp secret Cs Ha) as (x' & Hx & Em & Es & Et).
    exists x, x'. split; [done|]. split.
    + unfold mutateEC2NodeClass. rewrite Hx0. cbn [rbind]. by destruct x.
    + change (awsv1.mkEC2NodeClass (canon (awsv1.meta x')) (canon (defaultEC2NodeClassSpec (awsv1.Spec x')))
                (canon (defaultEC2Status (awsv1.Status x')))
              = awsv1.mkEC2NodeClass (canon (awsv1.meta x)) (canon (awsv1.Spec x)) (canon (awsv1.Status x))).
      rewrite Em, Et, canon_defaultEC2NodeClassSpec, Es, <- canon_defaultEC2NodeClassSpec, <- Cs. f_equal.
      rewrite canon_defaultEC2Status, Ct, <- canon_defaultEC2Status. by rewrite defaultEC2Status_idem.
Qed.

Lemma canon_strings (m : gomap string) : canon m = if decide (entries m = ∅) then None else Some (entries m).
Proof.
  destruct m as [m|]; [|by rewrite decide_True]. cbn [entries default from_option id].
  unfold canon, canon_gomap. repeat case_decide; try done. f_equal. apply map_fmap_id.
Qed.

Lemma entries_canon (m m' : gomap string) : canon m = canon m' -> entries m = entries m'.
Proof. rewrite !canon_strings. repeat case_decide; congruence. Qed.

(** Setting what is set already. *)
Lemma mset_stored (x m : gomap string) k v :
  canon x = canon m -> entries m !! k = Some v -> canon (mset x k v) = canon x.
Proof.
  intros E%entries_canon H. rewrite !canon_strings. unfold mset; cbn [entries default from_option id].
  by rewrite E, insert_id.
Qed.

Lemma mutateSubnets_tame hcp ids : tame (k := KConfigMap) (mutateSubnets hcp ids).
Proof.
  split; [done|done|..]; intros base o.
  5: intros x.
  all: unfold mutateSubnets at 1; (destruct (SetControllerReference _ _ _ _) as [m|] eqn:S; [|done]);
    cbn [rbind]; intros [= <-];
    destruct (SetControllerReference_Ok _ _ _ _ _ S) as [_ [refs E]]; unfold keyOf; cbn [meta_of cm_meta];
    try (by rewrite E); try done.
  set (l := mset (mset (om_Labels m) _ _) _ _). intros [Sm Sc]. cbn [meta_of cm_meta] in Sm.
  pose proof (SetControllerReference_stored "hypershift.openshift.io/v1beta1" _ _ _ _ (cm_meta x) ltac:(done) S
                (ss_Namespace _ _ Sm) (ss_OwnerReferences _ _ Sm)) as S'.
  eexists x, _. split; [done|]. split; [unfold mutateSubnets; rewrite S'; cbn [rbind]; reflexivity|].
  pose proof (ss_Labels _ _ Sm) as Sl. change (canon (om_Labels (cm_meta x)) = canon l) in Sl.
  pose proof (f_equal cm_Data Sc) as Sd.
  change (canon (cm_Data x) = canon (mset (cm_Data base) "subnetIDs" (MarshalStrings (Some ids)))) in Sd.
  assert (canon (mset (mset (om_Labels (cm_meta x)) "hypershift.openshift.io/managed-by" "karpenter")
                   "hypershift.openshift.io/infra-id" (hcp_InfraID hcp)) = canon (om_Labels (cm_meta x))) as HL.
  { assert (canon (mset (om_Labels (cm_meta x)) "hypershift.openshift.io/managed-by" "karpenter")
              = canon (om_Labels (cm_meta x))) as H1.
    { apply (mset_stored _ l); [done|]. unfold l, mset; cbn [entries default from_option id].
      by rewrite lookup_insert_ne, lookup_insert_eq. }
    rewrite <- H1. apply (mset_stored _ l); [by rewrite H1|].
    unfold l, mset; cbn [entries default from_option id]. by rewrite lookup_insert_eq. }
  assert (canon (mset (cm_Data x) "subnetIDs" (MarshalStrings (Some ids))) = canon (cm_Data x)) as HD.
  { apply (mset_stored _ _ _ _ Sd). unfold mset; cbn [entries default from_option id]. by rewrite lookup_insert_eq. }
  change (mkConfigMap (canon (om_set_Labels (mset (mset (om_Labels (cm_meta x)) "hypershift.openshift.io/managed-by"
      "karpenter") "hypershift.openshift.io/infra-id" (hcp_InfraID hcp)) (cm_meta x)))
      (canon (mset (cm_Data x) "subnetIDs" (MarshalStrings (Some ids)))) =
    mkConfigMap (canon (cm_meta x)) (canon (cm_Data x))).
  rewrite HD. f_equal. unfold canon at 1 2, ObjectMeta_canon. cbn [om_set_Labels om_Labels om_Name om_Namespace om_UID
    om_ResourceVersion om_Generation om_DeletionTimestamp om_Annotations om_OwnerReferences om_Finalizers].
  by rewrite HL.
Qed.

Lemma mutateVAP_tame : tame (k := KValidatingAdmissionPolicy) mutateVAP.
Proof.
  split; [done|done|..]; intros base o; [by intros [= <-]..|]. intros x [= <-] [_ Sc].
  exists x. eexists. split; [done|]. split; [reflexivity|].
  pose proof (f_equal vap_MatchConstraints Sc) as H1. pose proof (f_equal vap_Validations Sc) as H2.
  pose proof (f_equal vap_MatchConditions Sc) as H3. pose proof (f_equal vap_FailurePolicy Sc) as H4.
  cbn [canon obj_canon VAP_canon setMeta meta_of defaulted defaultVAP vap_meta vap_MatchConstraints vap_Validations
    vap_MatchConditions vap_FailurePolicy] in H1, H2, H3, H4.
  unfold canon at 1 2, obj_canon, VAP_canon. cbn [defaulted defaultVAP vap_meta vap_ParamKind vap_MatchConstraints
    vap_Validations vap_FailurePolicy vap_AuditAnnotations vap_MatchConditions vap_Variables].
  rewrite H1, H2, H3. f_equal. by rewrite H4.
Qed.

Lemma mutateVAPBinding_tame : tame (k := KValidatingAdmissionPolicyBinding) mutateVAPBinding.
Proof.
  split; [done|done|..]; intros base o; [by intros [= <-]..|]. intros x [= <-] [_ Sc].
  exists x. eexists. split; [done|]. split; [reflexivity|].
  pose proof (f_equal vapb_PolicyName Sc) as H1. pose proof (f_equal vapb_ValidationActions Sc) as H2.
  pose proof (f_equal vapb_MatchResources Sc) as H3.
  cbn [canon obj_canon VAPBinding_canon setMeta meta_of defaulted defaultVAPBinding vapb_meta vapb_PolicyName
    vapb_ValidationActions vapb_MatchResources] in H1, H2, H3.
  unfold canon at 1 2, obj_canon, VAPBinding_canon. cbn [defaulted defaultVAPBinding vapb_meta vapb_PolicyName
    vapb_ParamRefName vapb_MatchResources vapb_ValidationActions].
  rewrite H1, H2. f_equal. rewrite canon_optionalResources, H3, <- canon_optionalResources.
  destruct (vapb_MatchResources base); [|done]. cbn. by rewrite defaultMatchResources_idem.
Qed.

(** ** Converged states *)

Section live.
Context {W : Type} {server : ApiServer W} (namespace : string).

Definition subnetsKey : ObjectKey := mkObjectKey namespace karpenterSubnetsConfigMapName.
Definition vapKey : ObjectKey := mkObjectKey "" vapName.
Definition vapBindingKey : ObjectKey := mkObjectKey "" vapBindingName.

(** The HostedControlPlane is not taken over by upstream's tests. *)
Definition active (hcp : HostedControlPlane) (w : W) : Prop :=
  oneHCP namespace hcp w
  /\ mget (om_Annotations (hcp_meta hcp)) osv1.KarpenterCoreE2EOverrideAnnotation <> "true".

Definition ready (n : string) (hcp : HostedControlPlane) (secret : Secret) (w : W) : Prop :=
  active hcp w /\ oneUserData namespace n secret w.

(** The subnets that the NodeClasses in the store use. *)
Definition subnetsIn (w : W) : list string :=
  SortedList (subnetIDSet (listed w Hosted KOpenshiftEC2NodeClass noOptions)).

Definition subnetsInSync (hcp : HostedControlPlane) (w : W) : Prop :=
  let cm := get w Management KConfigMap subnetsKey in
  if decide (subnetsIn w = []) then goneOrGoing cm
  else inSync (k := KConfigMap) (mutateSubnets hcp (subnetsIn w)) cm.

(** Karpenter has resolved the selectors, and reports one condition of a type and
    none of the operator's. *)
Definition reported (ec2 : awsv1.EC2NodeClass) : Prop :=
  elems (awsv1.Subnets (awsv1.Status ec2)) <> [] /\ elems (awsv1.SecurityGroups (awsv1.Status ec2)) <> []
  /\ conditions_wf (elems (awsv1.Conditions (awsv1.Status ec2)))
  /\ NodePoolAWSResourceTagConflictConditionType ∉ c_Type <$> elems (awsv1.Conditions (awsv1.Status ec2)).

Record converged (hcp : HostedControlPlane) (secret : Secret) (w : W) (nc : osv1.OpenshiftEC2NodeClass) :
    Prop := mkConverged {
  cv_class : get w Hosted KOpenshiftEC2NodeClass (mkObjectKey "" (om_Name (osv1.meta nc))) = Some nc;
  cv_namespace : om_Namespace (osv1.meta nc) = "";
  cv_live : IsZero (om_DeletionTimestamp (osv1.meta nc)) = true;
  cv_finalizer : ContainsFinalizer (osv1.meta nc) finalizer = true;
  cv_ec2 : exists stored ec2,
    get w Hosted KEC2NodeClass (mkObjectKey "" (om_Name (osv1.meta nc))) = Some stored
    /\ mutateEC2NodeClass nc hcp secret stored = Ok ec2
    /\ canon (defaultEC2NodeClass ec2) = canon stored
    /\ (reported stored -> forall clock, desiredNodeClass clock ec2 nc hcp = Ok nc);
  cv_subnets : subnetsInSync hcp w;
  cv_vap : inSync (k := KValidatingAdmissionPolicy) mutateVAP
             (get w Hosted KValidatingAdmissionPolicy vapKey);
  cv_vapBinding : inSync (k := KValidatingAdmissionPolicyBinding) mutateVAPBinding
                    (get w Hosted KValidatingAdmissionPolicyBinding vapBindingKey) }.

Lemma reads_subnets hcp w :
  subnetsInSync hcp w -> reads (reconcileKarpenterSubnetsConfigMap namespace hcp) w (Ok tt).
Proof.
  intros H. unfold reconcileKarpenterSubnetsConfigMap.
  eapply reads_try; [apply reads_wrap, (reads_list _ _ KOpenshiftEC2NodeClass)|]. cbv zeta.
  unfold subnetsInSync, subnetsIn in H. cbv zeta in H.
  destruct (decide (subnetIDSet (listed w Hosted KOpenshiftEC2NodeClass noOptions) = ∅)) as [E|E].
  - rewrite decide_True in H by (by apply SortedList_nil).
    destruct (reads_deleteIfNeeded Management KConfigMap (subnetsConfigMap namespace) w H) as [b Hb].
    eapply reads_try; [apply reads_wrap, Hb | apply reads_ret].
  - rewrite decide_False in H by (by rewrite SortedList_nil).
    destruct (reads_CreateOrUpdate Management KConfigMap (subnetsConfigMap namespace) _ w (mutateSubnets_tame _ _)
                (fun _ _ _ => eq_refl) H) as (cm & cm' & _ & _ & Hr).
    eapply reads_try; [apply reads_wrap, Hr | apply reads_ret].
Qed.

Lemma desiredNodeClass_status clock ec2 ec2' nc hcp :
  awsv1.Status ec2' = awsv1.Status ec2 -> desiredNodeClass clock ec2' nc hcp = desiredNodeClass clock ec2 nc hcp.
Proof. intros E. unfold desiredNodeClass. by rewrite E. Qed.

(** ** A converged state stays *)

Lemma active_changed hcp c k key (o : option (obj k)) w w' :
  changed c k key o w w' -> k <> KHostedControlPlane -> active hcp w -> active hcp w'.
Proof. intros C N [Hh He]. split; [|done]. by eapply oneHCP_changed. Qed.

(** The objects of the management cluster that are read are not written. *)
Lemma ready_changed n hcp secret c k key (o : option (obj k)) w w' :
  changed c k key o w w' -> k <> KHostedControlPlane -> k <> KSecret ->
  ready n hcp secret w -> ready n hcp secret w'.
Proof. intros C N1 N2 [Ha Hs]. split; [by eapply active_changed | by eapply oneUserData_changed]. Qed.

(** The subnets do not depend on the order of the list. *)
Lemma subnetsIn_same w w' :
  (forall id, inUse (listed w' Hosted KOpenshiftEC2NodeClass noOptions) id <->
              inUse (listed w Hosted KOpenshiftEC2NodeClass noOptions) id) ->
  subnetsIn w' = subnetsIn w.
Proof. intros H. unfold subnetsIn. f_equal. apply set_eq. intros id. by rewrite !subnetIDSet_elem. Qed.

Lemma subnetsIn_changed c k key (o : option (obj k)) w w' :
  changed c k key o w w' -> k <> KOpenshiftEC2NodeClass -> subnetsIn w' = subnetsIn w.
Proof.
  intros C N. apply subnetsIn_same. intros id. unfold inUse.
  pose proof (listed_changed c k key o w w' Hosted KOpenshiftEC2NodeClass noOptions C ltac:(congruence)) as P.
  by setoid_rewrite P.
Qed.

Lemma subnetsInSync_changed hcp c k key (o : option (obj k)) w w' :
  changed c k key o w w' -> k <> KOpenshiftEC2NodeClass -> k <> KConfigMap ->
  subnetsInSync hcp w -> subnetsInSync hcp w'.
Proof.
  intros C N1 N2. unfold subnetsInSync. rewrite (subnetsIn_changed _ _ _ _ _ _ C N1).
  by rewrite (changed_other _ _ _ _ _ _ Management KConfigMap subnetsKey C) by (left; congruence).
Qed.

(** Nothing but the objects that are sent again changes, and those stay the same. *)
Lemma converged_changed hcp secret nc c k key (old new : obj k) w w' :
  get w c k key = Some old -> changed c k key (Some new) w w' -> hasDefaults k = true ->
  k <> KEC2NodeClass ->
  (k = KValidatingAdmissionPolicy -> inSync (k := KValidatingAdmissionPolicy) mutateVAP
     (get w' Hosted KValidatingAdmissionPolicy vapKey)) ->
  (k = KValidatingAdmissionPolicyBinding -> inSync (k := KValidatingAdmissionPolicyBinding) mutateVAPBinding
     (get w' Hosted KValidatingAdmissionPolicyBinding vapBindingKey)) ->
  converged hcp secret w nc -> converged hcp secret w' nc.
Proof.
  intros E C Hk N Hv Hb [H1 H2 H3 H4 H5 H6 H7 H8].
  assert (Ho : forall c' k' key', k' <> k -> get w' c' k' key' = get w c' k' key').
  { intros c' k' key' Nk. apply (changed_other _ _ _ _ _ _ _ _ _ C). left. congruence. }
  split; try done.
  - rewrite Ho; [done|]. by intros <-.
  - rewrite Ho; [done|]. congruence.
  - by eapply subnetsInSync_changed; [exact C | intros -> | intros -> |].
  - destruct (decide (k = KValidatingAdmissionPolicy)) as [Q|Q]; [by apply Hv|]. by rewrite Ho by congruence.
  - destruct (decide (k = KValidatingAdmissionPolicyBinding)) as [Q|Q]; [by apply Hb|]. by rewrite Ho by congruence.
Qed.

(** The reconciles of a request at later times, one after the other. *)
Fixpoint reconcileAll (request : ObjectKey) (clocks : list (nat -> Time)) : go (result Result) :=
  match clocks with
  | [] => Ret (Ok noRequeue)
  | clock :: clocks => Reconcile clock namespace request ;;? reconcileAll request clocks
  end.

Section again.
Context (hcp : HostedControlPlane) (secret : Secret) (nc : osv1.OpenshiftEC2NodeClass).
Let n := om_Name (osv1.meta nc).
Let key := mkObjectKey "" n.

(** A converged state that the next reconcile finds. *)
Record steady (w : W) : Prop := mkSteady {
  sd_ready : ready n hcp secret w;
  sd_converged : converged hcp secret w nc;
  sd_reported ec2 : get w Hosted KEC2NodeClass key = Some ec2 -> reported ec2 }.

(** It only sends the EC2NodeClass again: the server has filled in what that leaves
    unset. *)
Lemma resends_ec2 w :
  steady w -> exists op ec2 w',
    resends (CreateOrUpdate Hosted KEC2NodeClass (newEC2NodeClass nc) (mutateEC2NodeClass nc hcp secret)) w
      (Ok (op, ec2)) w'
    /\ sameWorld w w' /\ steady w' /\ forall clock, desiredNodeClass clock ec2 nc hcp = Ok nc.
Proof.
  intros [Hr Cv Hrep]. pose proof Cv as [Hc Hn Hl Hf (stored & ec2 & He & Hm & Hs & Hd) Hsub Hv Hb].
  fold n in Hc, He. fold key in Hc, He.
  assert (Hk : keyOf (newEC2NodeClass nc : obj KEC2NodeClass) = key)
    by (unfold keyOf, ObjectKeyFromObject; cbn; by rewrite Hn).
  destruct (resends_CreateOrUpdate Hosted KEC2NodeClass (newEC2NodeClass nc) (mutateEC2NodeClass nc hcp secret) w
              eq_refl eq_refl (mutateEC2NodeClass_tame _ _ _)) as (stored0 & new & op & res & w' & E0 & R & C & S & Y & Q).
  { rewrite Hk, He. by exists stored, ec2. }
  rewrite Hk in E0, C. rewrite He in E0. injection E0 as <-.
  assert (awsv1.Status new = awsv1.Status stored) as Tn by (pose proof (same_status _ _ S) as T; by rewrite <- T).
  assert (awsv1.Status ec2 = awsv1.Status stored) as Te by by apply mutateEC2NodeClass_Ok in Hm as (_ & ? & _).
  assert (awsv1.Status res = awsv1.Status stored) as Tr by (by rewrite <- Q).
  specialize (Hd (Hrep _ He)). exists op, res, w'. split; [exact R|].
  split; [by eapply sameWorld_changed|]. split.
  2: { intros clock. rewrite (desiredNodeClass_status _ ec2) by congruence. apply Hd. }
  split; [by eapply ready_changed| |].
  - split; try done; [by elsewhere | | | by elsewhere | by elsewhere].
    + destruct Y as (? & ec2' & [= <-] & M & D). exists new, ec2'.
      split; [exact (changed_lookup _ _ _ _ _ _ C)|]. do 2 (split; [done|]). intros _ clock.
      apply mutateEC2NodeClass_Ok in M as (_ & M & _). rewrite (desiredNodeClass_status _ ec2) by congruence. apply Hd.
    + by eapply subnetsInSync_changed; [exact C | done | done|].
  - intros x. rewrite (changed_lookup _ _ _ _ _ _ C). intros [= <-].
    specialize (Hrep _ He). unfold reported in *. by rewrite Tn.
Qed.

Lemma steady_changed c k key' (old new : obj k) w w' :
  get w c k key' = Some old -> changed c k key' (Some new) w w' ->
  k = KValidatingAdmissionPolicy \/ k = KValidatingAdmissionPolicyBinding ->
  converged hcp secret w' nc -> steady w -> steady w'.
Proof.
  intros E C Hk Cv [Hr _ Hrep]. split; [|done|].
  - by eapply ready_changed; [exact C | by destruct Hk; subst..|].
  - intros ec2. rewrite (changed_other _ _ _ _ _ _ _ _ _ C); [apply Hrep|]. left. by destruct Hk; subst.
Qed.

Lemma resends_VAP w : steady w -> exists w', resends reconcileVAP w (Ok tt) w' /\ sameWorld w w' /\ steady w'.
Proof.
  intros Sd. unfold reconcileVAP.
  destruct (resends_CreateOrUpdate Hosted KValidatingAdmissionPolicy
              (mkVAP (newMeta "" vapName) None None None None None None None) _ w eq_refl eq_refl mutateVAP_tame
              (cv_vap _ _ _ _ (sd_converged _ Sd))) as (v & v' & op1 & r1 & w1 & E1 & R1 & C1 & S1 & Y1 & _).
  assert (steady w1) as Sd1.
  { eapply (steady_changed _ _ _ _ _ _ _ E1 C1); [by left | | done].
    eapply (converged_changed _ _ _ _ _ _ _ _ _ _ E1 C1); [done | done | | done | apply Sd].
    intros _. by rewrite (changed_lookup _ _ vapKey _ _ _ C1). }
  destruct (resends_CreateOrUpdate Hosted KValidatingAdmissionPolicyBinding
              (mkVAPBinding (newMeta "" vapBindingName) "" None None None) _ w1 eq_refl eq_refl mutateVAPBinding_tame
              (cv_vapBinding _ _ _ _ (sd_converged _ Sd1))) as (b & b' & op2 & r2 & w2 & E2 & R2 & C2 & S2 & Y2 & _).
  exists w2. split; [eapply runs_try; [exact R1|]; eapply runs_try; [exact R2 | apply runs_ret]|]. split.
  - etrans; by eapply sameWorld_changed.
  - eapply (steady_changed _ _ _ _ _ _ _ E2 C2); [by right | | done].
    eapply (converged_changed _ _ _ _ _ _ _ _ _ _ E2 C2); [done | done | done | | apply Sd1].
    intros _. by rewrite (changed_lookup _ _ vapBindingKey _ _ _ C2).
Qed.

(** A reconcile of a converged state leaves it so once Karpenter has reported. *)
Lemma steady_resends clock w :
  steady w -> exists w', resends (Reconcile clock namespace key) w (Ok noRequeue) w' /\ sameWorld w w' /\ steady w'.
Proof.
  intros Sd. pose proof Sd as [Hr Cv _]. pose proof Cv as [Hc Hn Hl Hf _ _ _ _].
  destruct (resends_ec2 w Sd) as (op & ec2 & w1 & R1 & S1 & Sd1 & Hd).
  destruct (resends_VAP w1 Sd1) as (w2 & R2 & S2 & Sd2).
  exists w2. split; [|split; [by etrans | done]].
  unfold Reconcile. eapply runs_bind; [eapply reads_resends, reads_GetHostedControlPlane, Hr|]. cbn beta iota.
  rewrite decide_False by apply Hr.
  eapply runs_bind; [by apply reads_resends, (reads_found _ _ KOpenshiftEC2NodeClass)|]. cbn beta iota.
  rewrite Hl. cbn [negb].
  unfold reconcileLive, ensureFinalizer. rewrite Hf. eapply runs_try; [apply runs_ret|].
  eapply runs_bind; [eapply reads_resends, reads_GetUserDataSecret, Hr|]. cbn beta iota.
  eapply runs_try; [exact R1|]. cbn [snd]. eapply runs_try.
  { unfold reconcileStatus. rewrite Hd. unfold DeepEqual. rewrite bool_decide_true by done. apply runs_ret. }
  eapply runs_try; [by apply runs_wrap, reads_resends, reads_subnets, Sd1|].
  eapply runs_try; [exact R2 | apply runs_ret].
Qed.

Lemma steady_stays clocks w :
  steady w -> exists w', resends (reconcileAll key clocks) w (Ok noRequeue) w' /\ sameWorld w w' /\ steady w'.
Proof.
  revert w. induction clocks as [|clock clocks IH]; intros w Sd.
  - exists w. split; [apply runs_ret | done].
  - destruct (steady_resends clock w Sd) as (w1 & R1 & S1 & Sd1).
    destruct (IH w1 Sd1) as (w2 & R2 & S2 & Sd2).
    exists w2. split; [by eapply runs_try|]. split; [by etrans | done].
Qed.
End again.

(** ** Reaching a converged state *)

(** What a NodeClass asks for is the same. *)
Record similar (nc nc' : osv1.OpenshiftEC2NodeClass) : Prop := mkSimilar {
  sim_spec : osv1.Spec nc' = osv1.Spec nc;
  sim_name : om_Name (osv1.meta nc') = om_Name (osv1.meta nc);
  sim_namespace : om_Namespace (osv1.meta nc') = om_Namespace (osv1.meta nc);
  sim_uid : om_UID (osv1.meta nc') = om_UID (osv1.meta nc);
  sim_generation : om_Generation (osv1.meta nc') = om_Generation (osv1.meta nc);
  sim_deletion : om_DeletionTimestamp (osv1.meta nc') = om_DeletionTimestamp (osv1.meta nc) }.

Lemma similar_trans a b c : similar a b -> similar b c -> similar a c.
Proof. intros [] []. split; congruence. Qed.

Lemma mutate_similar nc nc' hcp secret ec2 :
  similar nc nc' -> mutateEC2NodeClass nc hcp secret ec2 = mutateEC2NodeClass nc' hcp secret ec2.
Proof.
  destruct nc as [[] spec status], nc' as [[] spec' status']. intros [H1 H2 H3 H4 _ _]. cbn in *. by subst.
Qed.

Lemma exec_ensureFinalizer w nc0 key :
  get w Hosted KOpenshiftEC2NodeClass key = Some nc0 -> IsZero (om_DeletionTimestamp (osv1.meta nc0)) = true ->
  exists nc w', exec serve (ensureFinalizer nc0) w = (Ok nc, w')
    /\ changed Hosted KOpenshiftEC2NodeClass key (Some nc) w w'
    /\ ContainsFinalizer (osv1.meta nc) finalizer = true /\ similar nc0 nc.
Proof.
  intros Hc Hl. unfold ensureFinalizer. destruct (ContainsFinalizer _ _) eqn:F.
  - exists nc0, w. rewrite exec_ret. split; [done|]. split; [|done].
    pose proof (changed_refl Hosted KOpenshiftEC2NodeClass key w) as R. by rewrite Hc in R.
  - set (m := AddFinalizer (osv1.meta nc0) finalizer).
    assert (ContainsFinalizer m finalizer = true) as Hm by by (unfold m; rewrite ContainsFinalizer_Add, bool_decide_true).
    assert (exists fs, m = om_set_Finalizers fs (osv1.meta nc0)) as [fs Hfs] by apply AddFinalizer_same.
    assert (keyOf (nc0 : obj KOpenshiftEC2NodeClass) = key) as Hk by by eapply get_key.
    destruct (exec_patch w Hosted KOpenshiftEC2NodeClass nc0
                (withMeta (fun m => AddFinalizer m finalizer) nc0) m true) as (m' & w' & E & C & S & Hu & Hg);
      [done | by rewrite Hk | done | by rewrite Hfs | by rewrite Hfs|].
    rewrite live_not_gone, Hk in C by by rewrite Hfs.
    exists (osv1.set_meta m' nc0), w'. rewrite exec_wrap. runs E. split; [done|]. split; [exact C|]. split.
    + unfold ContainsFinalizer in *. cbn [osv1.set_meta osv1.meta]. by rewrite (ss_Finalizers _ _ S).
    + split; [done|..]; cbn [osv1.set_meta osv1.meta];
        rewrite ?(ss_Name _ _ S), ?(ss_Namespace _ _ S), ?(ss_DeletionTimestamp _ _ S), ?Hu, ?Hg; by rewrite Hfs.
Qed.

(** *** The status *)

Lemma desiredNodeClass_meta clock ec2 nc hcp nc' m :
  om_Generation m = om_Generation (osv1.meta nc) -> desiredNodeClass clock ec2 nc hcp = Ok nc' ->
  desiredNodeClass clock ec2 (osv1.set_meta m nc) hcp = Ok (osv1.set_meta m nc').
Proof.
  intros Hg. unfold desiredNodeClass. cbn [osv1.set_meta osv1.meta osv1.Status]. rewrite Hg.
  destruct (appendAll _ _ _) as [rs|]; [|done]. cbn [rbind]. intros [= <-]. f_equal.
  unfold setAWSResourceTagConflictCondition, conflictConditions.
  cbn [osv1.set_Status osv1.set_meta osv1.meta osv1.Status osv1.Spec]. by rewrite Hg.
Qed.

Lemma desiredNodeClass_Ok clock ec2 nc hcp nc' :
  desiredNodeClass clock ec2 nc hcp = Ok nc' ->
  osv1.meta nc' = osv1.meta nc /\ osv1.Spec nc' = osv1.Spec nc
  /\ (elems (awsv1.Subnets (awsv1.Status ec2)) <> [] ->
      osv1.Subnets (osv1.Status nc') = omitEmpty (osv1.Subnets (osv1.Status nc')))
  /\ (elems (awsv1.SecurityGroups (awsv1.Status ec2)) <> [] ->
      osv1.SecurityGroups (osv1.Status nc') = omitEmpty (osv1.SecurityGroups (osv1.Status nc')))
  /\ osv1.CapacityReservations (osv1.Status nc') = omitEmpty (osv1.CapacityReservations (osv1.Status nc')).
Proof.
  unfold desiredNodeClass. destruct (appendAll _ _ _) as [rs|] eqn:E; [|done]. cbn [rbind]. intros [= <-].
  do 2 (split; [done|]). split; [|split]; unfold setAWSResourceTagConflictCondition;
    cbn [osv1.set_Status osv1.set_Conditions osv1.Status osv1.Subnets osv1.SecurityGroups osv1.CapacityReservations].
  - by destruct (elems (awsv1.Subnets _)).
  - by destruct (elems (awsv1.SecurityGroups _)).
  - enough (forall l acc rs, appendAll resolvedReservation l acc = Ok rs -> acc = omitEmpty acc -> rs = omitEmpty rs)
      as H by by eapply H.
    clear. induction l as [|x l IH]; intros acc rs; cbn [appendAll]; [by intros [= <-]|].
    destruct (resolvedReservation x) as [r|]; [|done]. cbn [rbind]. intros H _. apply (IH _ _ H).
    by destruct acc as [[]|].
Qed.

(** Some condition is always reported. *)
Lemma desiredNodeClass_hasCondition clock ec2 nc hcp nc' :
  desiredNodeClass clock ec2 nc hcp = Ok nc' ->
  osv1.Conditions (osv1.Status nc') = omitEmpty (osv1.Conditions (osv1.Status nc')).
Proof.
  intros (now & nc1 & Hsync & _ & _ & _ & Hc)%desiredNodeClass_conditions.
  enough (exists t c, t <> NodePoolAWSResourceTagConflictConditionType
            /\ FindStatusCondition (elems (osv1.Conditions (osv1.Status nc1))) t = Some c) as (t & c & Ht & Hf).
  { assert (FindStatusCondition (elems (osv1.Conditions (osv1.Status nc'))) t = Some c) as F.
    { by rewrite Hc, conflictConditions_other. }
    by destruct (osv1.Conditions (osv1.Status nc')) as [[]|]. }
  rewrite Hsync. clear.
  destruct (synced_ready clock (osv1.Conditions (osv1.Status nc)) (elems (awsv1.Conditions (awsv1.Status ec2)))
              (om_Generation (osv1.meta nc))) as [now R]. unfold synced in R.
  destruct (isVersionResolved _) eqn:V.
  - unfold isVersionResolved in V.
    destruct (FindStatusCondition _ ConditionTypeVersionResolved) as [c|] eqn:F; [|done].
    by exists ConditionTypeVersionResolved, c.
  - eexists ConditionTypeReady, _. split; [done | exact R].
Qed.

Lemma desiredNodeClass_total clock ec2 nc hcp :
  Forall ValidReservation (elems (awsv1.CapacityReservations (awsv1.Status ec2))) ->
  exists nc', desiredNodeClass clock ec2 nc hcp = Ok nc'.
Proof.
  intros V. destruct (reservations_spec _ V) as (rs & E & _). unfold desiredNodeClass. rewrite E. by eexists.
Qed.

Lemma exec_reconcileStatus clock w nc ec2 hcp key :
  get w Hosted KOpenshiftEC2NodeClass key = Some nc ->
  Forall ValidReservation (elems (awsv1.CapacityReservations (awsv1.Status ec2))) ->
  exists nc' w', exec serve (reconcileStatus clock ec2 nc hcp) w = (Ok tt, w')
    /\ changed Hosted KOpenshiftEC2NodeClass key (Some nc') w w'
    /\ similar nc nc' /\ elems (om_Finalizers (osv1.meta nc')) = elems (om_Finalizers (osv1.meta nc))
    /\ (reported ec2 -> forall clock', desiredNodeClass clock' ec2 nc' hcp = Ok nc').
Proof.
  intros Hc V. unfold reconcileStatus.
  destruct (desiredNodeClass_total clock ec2 nc hcp V) as [nc1 D]. rewrite D.
  destruct (desiredNodeClass_Ok _ _ _ _ _ D) as (Hm & Hs & H1 & H2 & H3).
  assert (Hagain : reported ec2 -> forall clock', desiredNodeClass clock' ec2 nc1 hcp = Ok nc1).
  { intros (_ & _ & Hwf & Hp) clock'. by eapply desiredNodeClass_again. }
  unfold DeepEqual. case_bool_decide as E; cbn [negb].
  - assert (nc1 = nc) as -> by (destruct nc, nc1; cbn in *; congruence).
    exists nc, w. rewrite exec_ret. split; [done|].
    split; [pose proof (changed_refl Hosted KOpenshiftEC2NodeClass key w) as R; by rewrite Hc in R|]. done.
  - assert (keyOf (nc : obj KOpenshiftEC2NodeClass) = key) as Hk by by eapply get_key.
    destruct (exec_status w Hosted KOpenshiftEC2NodeClass nc nc1 true) as (m & w' & Ex & C & S & Hu & Hg);
      [done | done | by rewrite Hk | done|].
    rewrite Hk in C. set (nc' := setMeta m _) in *.
    exists nc', w'. rewrite exec_try, exec_wrap. runs Ex. split; [done|]. split; [exact C|]. split; [|split].
    + split; [done|..]; cbn;
        rewrite ?(ss_Name _ _ S), ?(ss_Namespace _ _ S), ?(ss_DeletionTimestamp _ _ S), ?Hu, ?Hg; done.
    + exact (ss_Finalizers _ _ S).
    + intros Hrep clock'. specialize (Hagain Hrep clock').
      assert (nc' = osv1.set_meta m nc1) as ->.
      { unfold nc'. cbn. unfold osv1.set_meta, osv1.set_Status, omitEmptyStatus. cbn.
        destruct Hrep as (N1 & N2 & _). rewrite <- H1, <- H2, <- H3 by done.
        rewrite <- (desiredNodeClass_hasCondition _ _ _ _ _ D). rewrite <- Hs. by destruct (osv1.Status nc1). }
      apply desiredNodeClass_meta; [|done]. cbn [meta_of] in Hg. by rewrite Hg, Hm.
Qed.

(** *** The other objects *)

(** What exists is not another owner's, the NodeClass is valid, and the Secret names
    an AMI. *)
Record adoptable (nc : osv1.OpenshiftEC2NodeClass) (hcp : HostedControlPlane) (secret : Secret) (w : W) :
    Prop := mkAdoptable {
  ad_spec : ValidSpec (osv1.Spec nc);
  ad_amis : omap (fun arch => entries (om_Labels (secret_meta secret)) !! archToAMILabelKey arch)
              ["amd64"; "arm64"] <> [];
  ad_ec2 ec2 : get w Hosted KEC2NodeClass (mkObjectKey "" (om_Name (osv1.meta nc))) = Some ec2 ->
    (exists m, SetControllerReference "karpenter.hypershift.openshift.io/v1" "OpenshiftEC2NodeClass"
                 (osv1.meta nc) (awsv1.meta ec2) = Ok m)
    /\ Forall ValidReservation (elems (awsv1.CapacityReservations (awsv1.Status ec2)));
  ad_hcp : om_Namespace (hcp_meta hcp) = namespace;
  ad_subnets cm : get w Management KConfigMap subnetsKey = Some cm ->
    exists m, SetControllerReference "hypershift.openshift.io/v1beta1" "HostedControlPlane"
                (hcp_meta hcp) (cm_meta cm) = Ok m }.

Lemma mutateEC2NodeClass_total nc hcp secret base :
  ValidSpec (osv1.Spec nc) ->
  omap (fun arch => entries (om_Labels (secret_meta secret)) !! archToAMILabelKey arch) ["amd64"; "arm64"] <> [] ->
  (exists m, SetControllerReference "karpenter.hypershift.openshift.io/v1" "OpenshiftEC2NodeClass"
               (osv1.meta nc) (awsv1.meta base) = Ok m) ->
  exists ec2, mutateEC2NodeClass nc hcp secret base = Ok ec2.
Proof.
  intros V Ha [m Hm]. unfold mutateEC2NodeClass. rewrite Hm. cbn [rbind].
  unfold reconcileEC2NodeClass. rewrite userDataAndAMIs_pinned.
  destruct (blockDeviceMappings_valid _ V) as [b Hb]. rewrite Hb.
  pose proof (amiSelectorTerms_ids secret) as H.
  case_decide; [by eexists|]. destruct (amiSelectorTermsFromUserDataSecret secret); [by eexists | done].
Qed.

Lemma exec_subnets hcp w :
  om_Namespace (hcp_meta hcp) = namespace ->
  (forall cm, get w Management KConfigMap subnetsKey = Some cm ->
     exists m, SetControllerReference "hypershift.openshift.io/v1beta1" "HostedControlPlane"
                 (hcp_meta hcp) (cm_meta cm) = Ok m) ->
  exists o w', exec serve (reconcileKarpenterSubnetsConfigMap namespace hcp) w = (Ok tt, w')
    /\ changed Management KConfigMap subnetsKey o w w' /\ subnetsInSync hcp w'.
Proof.
  intros Hn Had. unfold reconcileKarpenterSubnetsConfigMap. rewrite exec_try, exec_wrap.
  runs (exec_list w Hosted KOpenshiftEC2NodeClass noOptions). cbn [map_err].
  unfold subnetsInSync. cbv zeta. fold (subnetsIn w).
  destruct (decide (subnetIDSet (listed w Hosted KOpenshiftEC2NodeClass noOptions) = ∅)) as [E|E];
    rewrite <- SortedList_nil in E; fold (subnetsIn w) in E.
  - rewrite exec_try, exec_wrap.
    destruct (exec_deleteIfNeeded Management KConfigMap (subnetsConfigMap namespace) w eq_refl)
      as (o & w' & -> & Hc & Hg). cbn [map_err]. rewrite exec_ret.
    exists o, w'. split; [done|]. split; [done|].
    rewrite (subnetsIn_changed _ _ _ _ _ _ Hc), decide_True by done.
    by rewrite (changed_lookup _ _ subnetsKey _ _ _ Hc).
  - set (o := subnetsConfigMap namespace).
    destruct (mutateSubnets hcp (subnetsIn w) (default o (get w Management KConfigMap subnetsKey))) as [cm|] eqn:M.
    2: { exfalso. unfold mutateSubnets in M.
         assert (exists m, SetControllerReference "hypershift.openshift.io/v1beta1" "HostedControlPlane" (hcp_meta hcp)
           (cm_meta (default o (get w Management KConfigMap subnetsKey))) = Ok m) as [m Hm].
         { destruct (get w Management KConfigMap subnetsKey) as [cm|] eqn:C; [by apply Had|].
           apply SetControllerReference_new. by right. }
         by rewrite Hm in M. }
    rewrite exec_try, exec_wrap.
    destruct (exec_CreateOrUpdate Management KConfigMap o (mutateSubnets hcp (subnetsIn w)) w _ cm
                (mutateSubnets_tame _ _) I eq_refl eq_refl M)
      as (op & stored & res & w' & Ex & Hc & Hs & _). runs Ex.
    cbn [map_err]. rewrite exec_ret. exists (Some stored), w'. split; [done|]. split; [done|].
    rewrite (subnetsIn_changed _ _ _ _ _ _ Hc), decide_False by done.
    by rewrite (changed_lookup _ _ subnetsKey _ _ _ Hc).
Qed.

Lemma exec_inSync c k (o : obj k) f w :
  tame f -> noStatus o -> isGone (meta_of o) = false -> (forall base, exists o', f base = Ok o') ->
  exists r stored w', exec serve (CreateOrUpdate c k o f) w = (Ok r, w')
    /\ changed c k (keyOf o) (Some stored) w w' /\ inSync f (Some stored).
Proof.
  intros T N G H. destruct (H (default o (get w c k (keyOf o)))) as [o1 F].
  destruct (exec_CreateOrUpdate c k o f w _ o1 T N G eq_refl F) as (op & stored & res & w' & E & Hc & Hs & _).
  by exists (op, res), stored, w'.
Qed.

Lemma exec_VAP w :
  exists v b w1 w2, exec serve reconcileVAP w = (Ok tt, w2)
    /\ changed Hosted KValidatingAdmissionPolicy vapKey (Some v) w w1
    /\ changed Hosted KValidatingAdmissionPolicyBinding vapBindingKey (Some b) w1 w2
    /\ inSync (k := KValidatingAdmissionPolicy) mutateVAP (Some v)
    /\ inSync (k := KValidatingAdmissionPolicyBinding) mutateVAPBinding (Some b).
Proof.
  unfold reconcileVAP.
  destruct (exec_inSync Hosted KValidatingAdmissionPolicy
              (mkVAP (newMeta "" vapName) None None None None None None None) mutateVAP w mutateVAP_tame I eq_refl)
    as (r1 & v & w1 & E1 & C1 & S1); [by eexists|].
  destruct (exec_inSync Hosted KValidatingAdmissionPolicyBinding
              (mkVAPBinding (newMeta "" vapBindingName) "" None None None) mutateVAPBinding w1
              mutateVAPBinding_tame I eq_refl) as (r2 & b & w2 & E2 & C2 & S2); [by eexists|].
  exists v, b, w1, w2. rewrite exec_try, E1, exec_try, E2, exec_ret. done.
Qed.

Lemma exec_ec2 nc0 nc hcp secret w :
  om_Namespace (osv1.meta nc0) = "" -> similar nc0 nc -> adoptable nc0 hcp secret w ->
  exists op stored ec2 w',
    exec serve (CreateOrUpdate Hosted KEC2NodeClass (newEC2NodeClass nc0) (mutateEC2NodeClass nc hcp secret)) w
      = (Ok (op, ec2), w')
    /\ changed Hosted KEC2NodeClass (mkObjectKey "" (om_Name (osv1.meta nc0))) (Some stored) w w'
    /\ inSync (k := KEC2NodeClass) (mutateEC2NodeClass nc hcp secret) (Some stored)
    /\ awsv1.Status ec2 = awsv1.Status stored
    /\ Forall ValidReservation (elems (awsv1.CapacityReservations (awsv1.Status ec2))).
Proof.
  intros Hn Hsim [Hspec Ha Hec2 _ _]. set (key := mkObjectKey "" (om_Name (osv1.meta nc0))) in *.
  assert (Hk : keyOf (newEC2NodeClass nc0 : obj KEC2NodeClass) = key)
    by (unfold keyOf, ObjectKeyFromObject; cbn; by rewrite Hn).
  set (base := default (newEC2NodeClass nc0 : obj KEC2NodeClass) (get w Hosted KEC2NodeClass key)).
  assert ((exists m, SetControllerReference "karpenter.hypershift.openshift.io/v1" "OpenshiftEC2NodeClass"
                       (osv1.meta nc0) (awsv1.meta base) = Ok m)
    /\ Forall ValidReservation (elems (awsv1.CapacityReservations (awsv1.Status base)))) as [Hm Hv].
  { unfold base. destruct (get w Hosted KEC2NodeClass key) as [ec2|] eqn:G; [by apply Hec2|].
    split; [apply SetControllerReference_new; by left | constructor]. }
  destruct (mutateEC2NodeClass_total nc0 hcp secret base Hspec Ha Hm) as [o1 Ho1].
  rewrite (mutate_similar _ _ _ _ _ Hsim) in Ho1.
  destruct (exec_CreateOrUpdate Hosted KEC2NodeClass (newEC2NodeClass nc0) (mutateEC2NodeClass nc hcp secret) w base o1
              (mutateEC2NodeClass_tame _ _ _) eq_refl eq_refl) as (op & stored & ec2 & w' & E & Hc & Hs & Hst & Hor);
    [by rewrite Hk | done|]. rewrite Hk in Hc.
  exists op, stored, ec2, w'. do 3 (split; [done|]).
  destruct (mutateEC2NodeClass_Ok _ _ _ _ _ Ho1) as (_ & Ho & _).
  assert (awsv1.Status stored = awsv1.Status base) as Hsb by by rewrite <- Hst.
  rewrite <- Hsb in Hv, Ho. by destruct Hor as [-> | ->]; [rewrite Ho|].
Qed.

Lemma reported_similar (stored ec2 : awsv1.EC2NodeClass) :
  awsv1.Status ec2 = awsv1.Status stored -> reported stored -> reported ec2.
Proof. unfold reported. by intros ->. Qed.

(** A live NodeClass, from its EC2NodeClass on. *)
Lemma exec_live clock nc0 nc hcp secret w :
  let key := mkObjectKey "" (om_Name (osv1.meta nc0)) in
  om_Namespace (osv1.meta nc0) = "" -> similar nc0 nc ->
  IsZero (om_DeletionTimestamp (osv1.meta nc)) = true -> ContainsFinalizer (osv1.meta nc) finalizer = true ->
  get w Hosted KOpenshiftEC2NodeClass key = Some nc -> adoptable nc0 hcp secret w ->
  exists nc' w',
    exec serve (opAndEC2 ←? CreateOrUpdate Hosted KEC2NodeClass (newEC2NodeClass nc0) (mutateEC2NodeClass nc hcp secret);
      reconcileStatus clock (snd opAndEC2) nc hcp ;;?
      wrap_err "reconciling karpenter subnets configmap" (reconcileKarpenterSubnetsConfigMap namespace hcp) ;;?
      reconcileVAP ;;? Ret (Ok noRequeue)) w = (Ok noRequeue, w')
    /\ converged hcp secret w' nc' /\ similar nc nc'
    /\ (forall n, ready n hcp secret w -> ready n hcp secret w')
    /\ forall key', key' <> key ->
         get w' Hosted KOpenshiftEC2NodeClass key' = get w Hosted KOpenshiftEC2NodeClass key'
         /\ get w' Hosted KEC2NodeClass key' = get w Hosted KEC2NodeClass key'.
Proof.
  intros key Hn Hsim Hl Hf Hc Had.
  destruct (exec_ec2 nc0 nc hcp secret w Hn Hsim Had) as (op & stored & ec2 & w1 & E1 & C1 & M & Hst & V).
  fold key in C1.
  destruct (exec_reconcileStatus clock w1 nc ec2 hcp key) as (nc' & w2 & E2 & C2 & S2 & F2 & R2);
    [by elsewhere | done|].
  destruct Had as [_ _ _ Hhcp Hcm].
  destruct (exec_subnets hcp w2 Hhcp) as (cm & w3 & E3 & C3 & S3).
  { intros cm. elsewhere. apply Hcm. }
  destruct (exec_VAP w3) as (v & b & w4 & w5 & E4 & C4 & C5 & Sv & Sb).
  exists nc', w5. rewrite exec_try, E1. cbn [snd].
  rewrite exec_try, E2, exec_try, exec_wrap, E3. cbn [map_err]. rewrite exec_try, E4, exec_ret.
  assert (Hname : om_Name (osv1.meta nc') = om_Name (osv1.meta nc0))
    by (by rewrite (sim_name _ _ S2), (sim_name _ _ Hsim)).
  split; [done|]. split; [|split; [done|]; split].
  - split; rewrite ?Hname; fold key.
    + elsewhere. exact (changed_lookup _ _ _ _ _ _ C2).
    + by rewrite (sim_namespace _ _ S2), (sim_namespace _ _ Hsim).
    + by rewrite (sim_deletion _ _ S2).
    + unfold ContainsFinalizer in *. by rewrite F2.
    + destruct M as (? & ec2' & [= <-] & M & D). exists stored, ec2'.
      split; [elsewhere; exact (changed_lookup _ _ _ _ _ _ C1)|].
      split; [by rewrite <- (mutate_similar _ _ _ _ _ S2)|]. split; [done|].
      destruct (mutateEC2NodeClass_Ok _ _ _ _ _ M) as (_ & Hst' & _).
      intros Hrep clock'. rewrite (desiredNodeClass_status _ ec2) by congruence.
      apply R2. by eapply reported_similar.
    + eapply subnetsInSync_changed; [exact C5 | done | done|].
      by eapply subnetsInSync_changed; [exact C4 | done | done|].
    + elsewhere. by rewrite (changed_lookup _ _ _ _ _ _ C4).
    + by rewrite (changed_lookup _ _ _ _ _ _ C5).
  - intros n Hr. do 5 (eapply ready_changed; [eassumption | done | done|]). exact Hr.
  - intros key' N. by elsewhere.
Qed.

(** C4. Against an API server that fills in defaults, with caches that have caught up
    at each read, one reconcile of a live NodeClass, among any number of others,
    succeeds and reaches a converged state: the NodeClass carries the
    finalizer, its spec untouched, the stored EC2NodeClass is what it asks for with
    the defaults of what that leaves unset, up to nil and empty values, the ConfigMap
    lists the subnets of all NodeClasses, and the admission policy protects the
    EC2NodeClasses.  The other NodeClasses and EC2NodeClasses are left alone.  Once
    Karpenter has resolved the EC2NodeClass's selectors, any number of later
    reconciles, at any times, keep every object as it is: they read, and send
    updates again that leave to the server what it has filled in, so that at most
    what the server sets itself changes, such as the resource version; until then
    each reconcile writes the status again.  The EC2NodeClass, the ConfigMap and the
    policy may be missing or stale before, but are not another owner's. *)
Theorem ec2_reconcile_converges clock n nc0 hcp secret w :
  let request := mkObjectKey "" n in
  get w Hosted KOpenshiftEC2NodeClass request = Some nc0 ->
  IsZero (om_DeletionTimestamp (osv1.meta nc0)) = true ->
  ready n hcp secret w -> adoptable nc0 hcp secret w ->
  exists nc w',
    exec serve (Reconcile clock namespace request) w = (Ok noRequeue, w')
    /\ converged hcp secret w' nc /\ osv1.Spec nc = osv1.Spec nc0 /\ om_Name (osv1.meta nc) = n
    /\ (forall key', key' <> request ->
          get w' Hosted KOpenshiftEC2NodeClass key' = get w Hosted KOpenshiftEC2NodeClass key'
          /\ get w' Hosted KEC2NodeClass key' = get w Hosted KEC2NodeClass key')
    /\ ((forall ec2, get w' Hosted KEC2NodeClass request = Some ec2 -> reported ec2) ->
          forall clocks, exists w'',
            resends (reconcileAll request clocks) w' (Ok noRequeue) w'' /\ sameWorld w' w''
            /\ converged hcp secret w'' nc).
Proof.
  intros request Hc Hl Hr Had.
  assert (om_Namespace (osv1.meta nc0) = "" /\ om_Name (osv1.meta nc0) = n) as [Hns Hn].
  { pose proof (get_key _ _ _ _ _ Hc) as K. by injection K. }
  destruct (exec_ensureFinalizer w nc0 request Hc Hl) as (nc & w1 & E1 & C1 & F1 & S1).
  assert (Had1 : adoptable nc0 hcp secret w1).
  { destruct Had as [A1 A2 A3 A4 A5]. by split; try done; elsewhere. }
  assert (Hr1 : ready (om_Name (osv1.meta nc)) hcp secret w1).
  { rewrite (sim_name _ _ S1), Hn. by eapply ready_changed; [exact C1 | done | done|]. }
  destruct (exec_live clock nc0 nc hcp secret w1 Hns S1) as (nc' & w' & E2 & Cv & S2 & R2 & Fr);
    [by rewrite (sim_deletion _ _ S1) | done | | done|].
  { rewrite Hn. exact (changed_lookup _ _ _ _ _ _ C1). }
  assert (Hn' : om_Name (osv1.meta nc') = n) by (by rewrite (sim_name _ _ S2), (sim_name _ _ S1)).
  exists nc', w'. split; [|split; [done|]; split; [by rewrite (sim_spec _ _ S2), (sim_spec _ _ S1)|];
    split; [done|]; split].
  - unfold Reconcile. rewrite exec_bind, (reads_exec _ _ _ (reads_GetHostedControlPlane _ _ _ (proj1 (proj1 Hr)))).
    rewrite decide_False by apply Hr. rewrite exec_bind. runs (exec_found _ _ _ _ _ Hc).
    rewrite Hl. cbn [negb].
    unfold reconcileLive. rewrite exec_try, E1.
    rewrite exec_bind, (reads_exec _ _ _ (reads_GetUserDataSecret _ _ _ _ (proj2 Hr1))). exact E2.
  - intros key' N. rewrite Hn in Fr. destruct (Fr key' N) as [-> ->]. by elsewhere.
  - intros Hrep clocks. destruct (steady_stays hcp secret nc' clocks w') as (w'' & R & S & Sd).
    { split; rewrite ?Hn'; [|exact Cv | exact Hrep]. apply R2. by rewrite <- Hn, <- (sim_name _ _ S1). }
    rewrite Hn' in R. exists w''. split; [exact R|]. split; [exact S | apply Sd].
Qed.

(** ** Deletion *)

Lemma inUse_deleted l id :
  inUse l id <-> inUse (filter (fun c => IsZero (om_DeletionTimestamp (osv1.meta c)) = true) l) id.
Proof. unfold inUse. setoid_rewrite list_elem_of_filter. naive_solver. Qed.

(** A NodeClass that is being deleted uses no subnets any more. *)
Lemma subnetsIn_without w w' key nc :
  changed Hosted KOpenshiftEC2NodeClass key None w w' -> get w Hosted KOpenshiftEC2NodeClass key = Some nc ->
  IsZero (om_DeletionTimestamp (osv1.meta nc)) = false -> subnetsIn w' = subnetsIn w.
Proof.
  intros C E D. apply subnetsIn_same. intros id.
  rewrite (inUse_deleted (listed w Hosted KOpenshiftEC2NodeClass noOptions)),
    (inUse_deleted (listed w' Hosted KOpenshiftEC2NodeClass noOptions)). unfold inUse.
  enough (forall c, c ∈ filter (fun c => IsZero (om_DeletionTimestamp (osv1.meta c)) = true)
                          (listed w' Hosted KOpenshiftEC2NodeClass noOptions)
                <-> c ∈ filter (fun c => IsZero (om_DeletionTimestamp (osv1.meta c)) = true)
                          (listed w Hosted KOpenshiftEC2NodeClass noOptions)) as H by by setoid_rewrite H.
  intros c. rewrite !list_elem_of_filter, !listed_elem. split; intros [L [key' G]]; (split; [done|]); exists key'.
  - destruct (decide (key' = key)) as [->|N].
    + by rewrite (changed_lookup _ _ _ _ _ _ C) in G.
    + rewrite (changed_other _ _ _ _ _ _ _ _ _ C) in G; [done | by right].
  - rewrite (changed_other _ _ _ _ _ _ _ _ _ C); [done|]. right. intros ->. congruence.
Qed.

(** A NodeClass marked for deletion, whose only finalizer is the operator's. *)
Record doomed (request : ObjectKey) (nc : osv1.OpenshiftEC2NodeClass) (hcp : HostedControlPlane) (w : W) :
    Prop := mkDoomed {
  dm_class : get w Hosted KOpenshiftEC2NodeClass request = Some nc;
  dm_deleted : IsZero (om_DeletionTimestamp (osv1.meta nc)) = false;
  dm_finalizers : om_Finalizers (osv1.meta nc) = Some [finalizer];
  dm_active : active hcp w;
  dm_hcp : om_Namespace (hcp_meta hcp) = namespace;
  dm_subnets cm : get w Management KConfigMap subnetsKey = Some cm ->
    exists m, SetControllerReference "hypershift.openshift.io/v1beta1" "HostedControlPlane"
                (hcp_meta hcp) (cm_meta cm) = Ok m }.

Lemma exec_Reconcile_deleted clock request nc hcp w :
  doomed request nc hcp w ->
  exec serve (Reconcile clock namespace request) w = exec serve (reconcileDeleted namespace hcp nc) w.
Proof.
  intros [Hc Hd _ Ha _ _]. unfold Reconcile.
  rewrite exec_bind, (reads_exec _ _ _ (reads_GetHostedControlPlane _ _ _ (proj1 Ha))).
  rewrite decide_False by apply Ha. rewrite exec_bind. runs (exec_found _ _ _ _ _ Hc). by rewrite Hd.
Qed.

Lemma doomed_changed request nc hcp w w' key o :
  changed Hosted KEC2NodeClass key o w w' -> doomed request nc hcp w -> doomed request nc hcp w'.
Proof.
  intros C [H1 H2 H3 H4 H5 H6]. split; try done; elsewhere; try done.
  by eapply active_changed; [exact C | done|].
Qed.

(** Without its EC2NodeClass the NodeClass goes. *)
Lemma exec_released request nc hcp w :
  doomed request nc hcp w -> get w Hosted KEC2NodeClass request = None ->
  exists cm w1 w2, exec serve (reconcileDeleted namespace hcp nc) w = (Ok noRequeue, w2)
    /\ changed Management KConfigMap subnetsKey cm w w1
    /\ changed Hosted KOpenshiftEC2NodeClass request None w1 w2
    /\ subnetsInSync hcp w2.
Proof.
  intros [Hc Hd Hf Ha Hhcp Hcm] He.
  assert (keyOf (nc : obj KOpenshiftEC2NodeClass) = request) as Hk by by eapply get_key.
  unfold reconcileDeleted, releaseFinalizer, deleteIfNeeded. rewrite exec_try, exec_bind.
  change (ObjectKeyFromObject (meta_of (newEC2NodeClass nc : obj KEC2NodeClass)))
    with (keyOf (nc : obj KOpenshiftEC2NodeClass)). rewrite Hk.
  destruct (exec_missing _ _ _ _ He) as (err & N & Ex). runs Ex. rewrite N. cbn [orb]. rewrite exec_ret.
  destruct (exec_subnets hcp w Hhcp Hcm) as (cm & w1 & E1 & C1 & S1).
  rewrite exec_try, exec_wrap, E1. cbn [map_err].
  assert (ContainsFinalizer (osv1.meta nc) finalizer = true) as ->.
  { unfold ContainsFinalizer. rewrite Hf. by apply bool_decide_eq_true_2, list_elem_of_singleton. }
  assert (Hc1 : get w1 Hosted KOpenshiftEC2NodeClass request = Some nc) by by elsewhere.
  set (m := RemoveFinalizer (osv1.meta nc) finalizer).
  destruct (exec_patch w1 Hosted KOpenshiftEC2NodeClass nc
              (withMeta (fun m => RemoveFinalizer m finalizer) nc) m true) as (m' & w2 & E2 & C2 & _);
    [done | by rewrite Hk | done..|].
  assert (isGone m = true) as Hg.
  { unfold isGone, m, RemoveFinalizer. cbn. by rewrite Hd, Hf. }
  rewrite Hg, Hk in C2. exists cm, w1, w2. rewrite exec_try, exec_wrap. runs E2. cbn [map_err].
  rewrite exec_ret. do 3 (split; [done|]).
  unfold subnetsInSync. cbv zeta. rewrite (subnetsIn_without _ _ _ _ C2 Hc1 Hd). by elsewhere.
Qed.

(** C5. A NodeClass marked for deletion goes away.  While its EC2NodeClass exists, a
    reconcile has that deleted, changes nothing else, and asks to be called again;
    when Karpenter has let it go, the next reconcile takes the subnets of the
    NodeClass out of the ConfigMap, which lists those of the others or is gone, and
    removes the finalizer, and with it the NodeClass.  Nothing else is touched. *)
Theorem ec2_deletion_finishes clock clock' request nc hcp w :
  doomed request nc hcp w ->
  let released s s' := exists cm s1,
    changed Management KConfigMap subnetsKey cm s s1
    /\ changed Hosted KOpenshiftEC2NodeClass request None s1 s' /\ subnetsInSync hcp s' in
  match get w Hosted KEC2NodeClass request with
  | None => exists w', exec serve (Reconcile clock namespace request) w = (Ok noRequeue, w') /\ released w w'
  | Some _ => exists after w1,
      exec serve (Reconcile clock namespace request) w = (Ok (mkResult (5 * Second)), w1)
      /\ changed Hosted KEC2NodeClass request after w w1 /\ goneOrGoing (k := KEC2NodeClass) after
      /\ forall w2, changed Hosted KEC2NodeClass request None w1 w2 -> exists w3,
           exec serve (Reconcile clock' namespace request) w2 = (Ok noRequeue, w3) /\ released w2 w3
  end.
Proof.
  intros Hd released.
  assert (Hrel : forall c s, doomed request nc hcp s -> get s Hosted KEC2NodeClass request = None ->
    exists s', exec serve (Reconcile c namespace request) s = (Ok noRequeue, s') /\ released s s').
  { intros c s Hds Hs. destruct (exec_released request nc hcp s Hds Hs) as (cm & s1 & s2 & E & C1 & C2 & S).
    exists s2. rewrite (exec_Reconcile_deleted _ _ _ _ _ Hds). split; [done|]. by exists cm, s1. }
  destruct (get w Hosted KEC2NodeClass request) as [ec2|] eqn:He; [|by apply Hrel].
  assert (Hk : keyOf (newEC2NodeClass nc : obj KEC2NodeClass) = request) by apply (get_key _ _ _ _ _ (dm_class _ _ _ _ Hd)).
  destruct (exec_deleteIfNeeded Hosted KEC2NodeClass (newEC2NodeClass nc) w eq_refl)
    as (after & w1 & E & C & G). rewrite Hk in C, E. rewrite He, bool_decide_true in E by done.
  exists after, w1. rewrite (exec_Reconcile_deleted _ _ _ _ _ Hd).
  split; [unfold reconcileDeleted; by rewrite exec_try, E|]. do 2 (split; [done|]).
  intros w2 C2. apply Hrel; [by eapply doomed_changed, doomed_changed | by apply (changed_lookup _ _ _ _ _ _ C2)].
Qed.

End live.

(** ** Witnesses *)

Definition ec2UserData : Secret :=
  mkSecret (om_set_Annotations (Some {[osv1.TokenSecretNodePoolAnnotation := "clusters-a/gpu-karpenter"]})
              (om_set_Labels (Some {[osv1.UserDataAMILabel := "ami-2"; osv1.ManagedByKarpenterLabel := "true"]})
                 (newMeta "clusters-a" "user-data-gpu")))
    (Some {["value" := "ignition-2"]}).

(** Two NodeClasses, one of which has subnets, and nothing made from them yet. *)
Definition ec2World : world :=
  putIn Management KHostedControlPlane upgradingHCP
    (putIn Management KSecret ec2UserData
       (putIn Hosted KOpenshiftEC2NodeClass plainNodeClass
          (putIn Hosted KOpenshiftEC2NodeClass (classWithSubnet "blue" "subnet-1") emptyWorld))).

(** An EC2NodeClass of an older version, whose selectors Karpenter has resolved. *)
Definition staleEC2 : awsv1.EC2NodeClass :=
  awsv1.mkEC2NodeClass (newMeta "" "gpu") awsv1.zeroSpec
    (awsv1.mkEC2NodeClassStatus (Some [awsv1.mkSubnet "subnet-9" "us-east-1a" "use1-az1"])
       (Some [awsv1.mkSecurityGroup "sg-1" "nodes"]) None None).
Definition staleWorld : world := putIn Hosted KEC2NodeClass staleEC2 ec2World.

Lemma staleEC2_reported : reported staleEC2.
Proof. split; [done|]. split; [done|]. split; [constructor | by intros ?%elem_of_nil]. Qed.

(** The server fills in the metadata options of the EC2NodeClass, and two more
    reconciles keep everything. *)
Lemma ec2_reconcile_converges_witness :
  exists nc w' w'' ec2, converged "clusters-a" upgradingHCP ec2UserData w' nc
    /\ exec serve (Reconcile (fun _ => 11%Z) "clusters-a" (mkObjectKey "" "gpu")) staleWorld = (Ok noRequeue, w')
    /\ get w' Hosted KEC2NodeClass (mkObjectKey "" "gpu") = Some ec2
    /\ awsv1.MetadataOptionsField (awsv1.Spec ec2) =
         Some (awsv1.mkMetadataOptions (Some "enabled") (Some "disabled") (Some 1%Z) (Some "required"))
    /\ resends (reconcileAll "clusters-a" (mkObjectKey "" "gpu") [(fun _ => 12%Z); (fun _ => 13%Z)]) w'
         (Ok noRequeue) w''
    /\ sameWorld w' w''.
Proof.
  destruct (ec2_reconcile_converges "clusters-a" (fun _ => 11%Z) "gpu" plainNodeClass upgradingHCP ec2UserData staleWorld)
    as (nc & w' & E & C & _ & _ & _ & H).
  - vm_compute. reflexivity.
  - reflexivity.
  - split; [split; [vm_compute; reflexivity | by vm_compute] | vm_compute; reflexivity].
  - split; [apply plainNodeClass_valid | by vm_compute | | reflexivity |].
    + intros ec2. replace (get _ _ _ _) with (Some (defaulted (staleEC2 : obj KEC2NodeClass))) by (vm_compute; reflexivity).
      intros [= <-]. split; [by eexists | constructor].
    + intros cm. replace (get _ _ _ _) with (@None (obj KConfigMap)) by (vm_compute; reflexivity). discriminate.
  - set (reconciled := exec serve (Reconcile (fun _ => 11%Z) "clusters-a" (mkObjectKey "" "gpu")) staleWorld) in *.
    assert (exists ec2, get reconciled.2 Hosted KEC2NodeClass (mkObjectKey "" "gpu") = Some ec2
      /\ awsv1.Status ec2 = awsv1.Status staleEC2
      /\ awsv1.MetadataOptionsField (awsv1.Spec ec2) =
           Some (awsv1.mkMetadataOptions (Some "enabled") (Some "disabled") (Some 1%Z) (Some "required")))
      as (ec2 & G & T & D) by (vm_compute; eexists; split; [reflexivity | by split]).
    rewrite E in G. cbn [snd] in G.
    destruct (H (fun x Gx => eq_ind ec2 reported
                  (reported_similar staleEC2 ec2 T staleEC2_reported) x
                  ltac:(rewrite G in Gx; by injection Gx)) [(fun _ => 12%Z); (fun _ => 13%Z)]) as (w'' & R & S & _).
    exists nc, w', w'', ec2. split; [exact C|]. split; [exact E|]. split; [exact G|]. split; [exact D|]. by split.
Defined.

Definition doomedEC2 : osv1.OpenshiftEC2NodeClass :=
  osv1.mkOpenshiftEC2NodeClass
    (om_set_DeletionTimestamp (Some 5%Z) (om_set_Finalizers (Some [finalizer]) (newMeta "" "gpu")))
    osv1.zeroSpec osv1.zeroStatus.

(** Karpenter holds the EC2NodeClass until its instances are gone. *)
Definition heldEC2 : awsv1.EC2NodeClass :=
  awsv1.mkEC2NodeClass (om_set_Finalizers (Some ["karpenter.k8s.aws/termination"]) (newMeta "" "gpu"))
    awsv1.zeroSpec awsv1.zeroStatus.

Definition doomedWorld : world :=
  putIn Hosted KEC2NodeClass heldEC2
    (putIn Hosted KOpenshiftEC2NodeClass doomedEC2
       (putIn Management KHostedControlPlane upgradingHCP emptyWorld)).

(** Karpenter lets the EC2NodeClass go by removing its finalizer. *)
Definition freedEC2 : awsv1.EC2NodeClass :=
  awsv1.mkEC2NodeClass (om_set_DeletionTimestamp (Some 1%Z) (newMeta "" "gpu")) awsv1.zeroSpec awsv1.zeroStatus.
Definition letGo (w : world) : world := putIn Hosted KEC2NodeClass freedEC2 w.

Lemma ec2_deletion_finishes_witness :
  exists w1 w3,
    exec serve (Reconcile (fun _ => 11%Z) "clusters-a" (mkObjectKey "" "gpu")) doomedWorld
      = (Ok (mkResult (5 * Second)), w1)
    /\ exec serve (Reconcile (fun _ => 12%Z) "clusters-a" (mkObjectKey "" "gpu")) (letGo w1) = (Ok noRequeue, w3)
    /\ get w3 Hosted KOpenshiftEC2NodeClass (mkObjectKey "" "gpu") = None.
Proof.
  pose proof (ec2_deletion_finishes "clusters-a" (fun _ => 11%Z) (fun _ => 12%Z) (mkObjectKey "" "gpu")
                doomedEC2 upgradingHCP doomedWorld) as H.
  cbv zeta in H.
  replace (get doomedWorld Hosted KEC2NodeClass (mkObjectKey "" "gpu")) with (Some (defaulted (heldEC2 : obj KEC2NodeClass))) in H
    by (vm_compute; reflexivity).
  destruct H as (after & w1 & E1 & _ & _ & H).
  - split; [vm_compute; reflexivity | reflexivity | reflexivity | split; [vm_compute; reflexivity | by vm_compute]
      | reflexivity |].
    intros cm. replace (get _ _ _ _) with (@None (obj KConfigMap)) by (vm_compute; reflexivity). discriminate.
  - destruct (H (letGo w1)) as (w3 & E3 & cm & s & _ & C & _).
    + exact (putIn_changed Hosted KEC2NodeClass freedEC2 w1).
    + exists w1, w3. split; [exact E1|]. split; [exact E3|]. exact (changed_lookup _ _ _ _ _ _ C).
Defined.
