(* ===== verification/Ec2Guard.v ===== *)
(** * What the EC2 NodeClass controller may do, and when

    Every call [Reconcile] of Ec2NodeClass makes, against every answer of the two
    clusters, has what it needs in the history of the reconcile. *)

From S2P Require Import Prelude Prog DeepEqual MetaV1 CoreTypes HyperTypes AwsV1 KarpenterV1 Kube KubeLemmas Hypershift Ec2Tags Ec2Build Ec2Status Ec2Subnets Ec2NodeClass.

Section guard.
Context (clock : nat -> Time) (namespace : string) (request : ObjectKey).
Implicit Types (t : trace eff) (hcp : HostedControlPlane) (nc : osv1.OpenshiftEC2NodeClass).

(** ** Facts of a history *)

(** The HostedControlPlane was listed, alone, and does not stand the controller
    down. *)
Definition active hcp t : Prop :=
  Ev (EList Management KHostedControlPlane (InNamespace namespace))
     (Ok [hcp] : result (list (obj KHostedControlPlane))) ∈ t
  /\ mget (om_Annotations (hcp_meta hcp)) osv1.KarpenterCoreE2EOverrideAnnotation <> "true".

(** The NodeClass of the request was read. *)
Definition classRead nc t : Prop :=
  Ev (EGet Hosted KOpenshiftEC2NodeClass request) (Ok nc : result (obj KOpenshiftEC2NodeClass)) ∈ t.

Definition deleting nc : Prop := IsZero (om_DeletionTimestamp (osv1.meta nc)) = false.

(** [nc], which carries the finalizer, is the NodeClass [nc0] that was read, or
    what the API server returned for the patch that adds it. *)
Definition finalized nc0 nc t : Prop :=
  (nc = nc0 /\ ContainsFinalizer (osv1.meta nc0) finalizer = true)
  \/ Ev (EPatch Hosted KOpenshiftEC2NodeClass nc0 (withMeta (fun m => AddFinalizer m finalizer) nc0) true)
        (Ok nc : result (obj KOpenshiftEC2NodeClass)) ∈ t.

(** A live NodeClass that carries the finalizer. *)
Definition live hcp nc0 nc t : Prop :=
  active hcp t /\ classRead nc0 t /\ ~ deleting nc0 /\ finalized nc0 nc t.

(** The EC2NodeClass of the NodeClass was found to be gone. *)
Definition ec2Gone nc t : Prop :=
  let key := ObjectKeyFromObject (osv1.meta nc) in
  (exists err, Ev (EGet Hosted KEC2NodeClass key) (Err err : result (obj KEC2NodeClass)) ∈ t
     /\ IsNotFound err || IsNoMatchError err = true)
  \/ exists (o : obj KEC2NodeClass) err,
       Ev (EGet Hosted KEC2NodeClass key) (Ok o) ∈ t
       /\ Ev (EDelete Hosted KEC2NodeClass o None) (Err err) ∈ t /\ IsNotFound err = true.

(** The ConfigMap was reconciled without an error. *)
Definition configMapReconciled hcp t : Prop :=
  exists pre nodeClasses t1,
    t = pre ++ Ev (EList Hosted KOpenshiftEC2NodeClass noOptions) (Ok nodeClasses) :: t1
    /\ subnetsReconciled namespace hcp nodeClasses t1.

Definition nodeClassesListed (nodeClasses : list osv1.OpenshiftEC2NodeClass) t : Prop :=
  Ev (EList Hosted KOpenshiftEC2NodeClass noOptions)
     (Ok nodeClasses : result (list (obj KOpenshiftEC2NodeClass))) ∈ t.

(** ** The guard *)

Definition mayWriteEC2 t (o : awsv1.EC2NodeClass) : Prop :=
  exists hcp nc0 nc secret base,
    live hcp nc0 nc t /\ secretFound namespace (om_Name (osv1.meta nc)) secret t
    /\ mutateEC2NodeClass nc hcp secret base = Ok o
    /\ ObjectKeyFromObject (awsv1.meta o) = ObjectKeyFromObject (osv1.meta nc0).

Definition mayDeleteEC2 t (o : awsv1.EC2NodeClass) : Prop :=
  exists hcp nc, active hcp t /\ classRead nc t /\ deleting nc
    /\ Ev (EGet Hosted KEC2NodeClass (ObjectKeyFromObject (osv1.meta nc)))
          (Ok o : result (obj KEC2NodeClass)) ∈ t.

Definition mayPatchClass t (orig o : osv1.OpenshiftEC2NodeClass) (lock : bool) : Prop :=
  lock = true /\ exists hcp, active hcp t /\ classRead orig t /\
  if decide (deleting orig) then
    ec2Gone orig t /\ configMapReconciled hcp t
    /\ o = withMeta (fun m => RemoveFinalizer m finalizer) orig
  else
    ContainsFinalizer (osv1.meta orig) finalizer = false
    /\ o = withMeta (fun m => AddFinalizer m finalizer) orig.

Definition mayPatchStatus t (orig o : osv1.OpenshiftEC2NodeClass) (lock : bool) : Prop :=
  lock = true /\ osv1.Status orig <> osv1.Status o /\
  exists hcp nc0 ec2, live hcp nc0 orig t /\ desiredNodeClass clock ec2 orig hcp = Ok o.

Definition mayWriteSubnets t (cm : ConfigMap) : Prop :=
  exists hcp nodeClasses, active hcp t /\ nodeClassesListed nodeClasses t
    /\ subnetIDSet nodeClasses <> ∅
    /\ listsSubnets namespace hcp (SortedList (subnetIDSet nodeClasses)) cm.

Definition mayDeleteSubnets t : Prop :=
  exists hcp nodeClasses, active hcp t /\ nodeClassesListed nodeClasses t /\ subnetIDSet nodeClasses = ∅.

(** The policy and its binding are written for a live NodeClass. *)
Definition mayProtect t : Prop := exists hcp nc0 nc, live hcp nc0 nc t.

Definition mayWrite t (c : cluster) (k : kind) : obj k -> Prop :=
  match c, k return obj k -> Prop with
  | Hosted, KEC2NodeClass => mayWriteEC2 t
  | Management, KConfigMap => mayWriteSubnets t
  | Hosted, KValidatingAdmissionPolicy => fun o =>
      mayProtect t /\ om_Name (vap_meta o) = vapName /\ exists base, mutateVAP base = Ok o
  | Hosted, KValidatingAdmissionPolicyBinding => fun o =>
      mayProtect t /\ om_Name (vapb_meta o) = vapBindingName /\ exists base, mutateVAPBinding base = Ok o
  | _, _ => fun _ => False
  end.

(** The NodeClass is read once. *)
Definition mayRead t (c : cluster) (k : kind) (key : ObjectKey) : Prop :=
  match c, k with
  | Hosted, KOpenshiftEC2NodeClass => key = request /\ forall nc, ~ classRead nc t
  | _, _ => True
  end.

Definition ec2Guard t (X : Type) (e : eff X) : Prop :=
  match e with
  | EGet c k key => mayRead t c k key
  | EList _ _ _ => True
  | ECreate c k o | EUpdate c k o => mayWrite t c k o
  | EDelete c k o _ =>
      match c, k return obj k -> Prop with
      | Hosted, KEC2NodeClass => mayDeleteEC2 t
      | Management, KConfigMap => fun _ => mayDeleteSubnets t
      | _, _ => fun _ => False
      end o
  | EPatch Hosted k orig o lock =>
      match k return obj k -> obj k -> Prop with
      | KOpenshiftEC2NodeClass => fun orig o => mayPatchClass t orig o lock
      | _ => fun _ _ => False
      end orig o
  | EStatusPatch Hosted k orig o lock =>
      match k return obj k -> obj k -> Prop with
      | KOpenshiftEC2NodeClass => fun orig o => mayPatchStatus t orig o lock
      | _ => fun _ _ => False
      end orig o
  | _ => False
  end.

(** ** Histories grow *)

Lemma active_app hcp t t' : active hcp t -> active hcp (t ++ t').
Proof. intros [H1 H2]. split; [|done]. apply elem_of_app. by left. Qed.

Lemma classRead_app nc t t' : classRead nc t -> classRead nc (t ++ t').
Proof. intros H. apply elem_of_app. by left. Qed.

Lemma finalized_app nc0 nc t t' : finalized nc0 nc t -> finalized nc0 nc (t ++ t').
Proof. intros [H|H]; [by left | right]. apply elem_of_app. by left. Qed.

Lemma live_app hcp nc0 nc t t' : live hcp nc0 nc t -> live hcp nc0 nc (t ++ t').
Proof. intros (?&?&?&?). split; [by apply active_app|]. split; [by apply classRead_app|].
  split; [done | by apply finalized_app]. Qed.

Lemma ec2Gone_app nc t t' : ec2Gone nc t -> ec2Gone nc (t ++ t').
Proof.
  intros [(e & H & ?)|(o & e & H1 & H2 & ?)]; [left; exists e | right; exists o, e];
    repeat split; try done; apply elem_of_app; by left.
Qed.

(** ** The parts *)

Lemma reconcileSubnets_guarded hcp t :
  active hcp t -> guarded ec2Guard t (reconcileKarpenterSubnetsConfigMap namespace hcp).
Proof.
  intros Ha. unfold reconcileKarpenterSubnetsConfigMap.
  apply guarded_try; [apply guarded_wrap; by split; [|intros ?]|].
  go_step. intros [ncs|e]; cbn [map_err all_runs]; [|done].
  set (t1 := t ++ _). assert (Hl : nodeClassesListed ncs t1) by apply last_elem.
  assert (Ha1 : active hcp t1) by (by apply active_app).
  case_decide as E.
  - apply guarded_try; [|eapply all_runs_mono; [apply all_runs_suffix|]; by intros ? [?|?]].
    apply guarded_wrap, guarded_deleteIfNeeded; [done|]. intros o _. exists hcp, ncs.
    split; [by apply active_app|]. split; [apply elem_of_app; by left | done].
  - apply guarded_try; [|eapply all_runs_mono; [apply all_runs_suffix|]; by intros ? [?|?]].
    apply guarded_wrap, guarded_CreateOrUpdate; [done|..].
    + intros err cm _ M%mutateSubnets_lists. exists hcp, ncs. split; [by apply active_app|].
      split; [apply elem_of_app; by left | done].
    + intros old cm M%mutateSubnets_lists _. exists hcp, ncs. split; [by apply active_app|].
      split; [apply elem_of_app; by left | done].
Qed.

Lemma mayProtect_app t t' : mayProtect t -> mayProtect (t ++ t').
Proof. intros (hcp & nc0 & nc & L). exists hcp, nc0, nc. by apply live_app. Qed.

Lemma reconcileVAP_guarded t : mayProtect t -> guarded ec2Guard t reconcileVAP.
Proof.
  intros Hl. unfold reconcileVAP.
  apply guarded_try; [|eapply all_runs_mono; [apply all_runs_suffix|]; intros t' [p|?] [t1 ->]; [|done]].
  - apply guarded_CreateOrUpdate; [done|..].
    + intros err o' _ [M K]%mutate_Ok. injection K as _ K. split; [by apply mayProtect_app | by split; [|eexists]].
    + intros old o' [M K]%mutate_Ok _. injection K as _ K. split; [by apply mayProtect_app | by split; [|eexists]].
  - apply guarded_try; [|eapply all_runs_mono; [apply all_runs_suffix|]; by intros ? [?|?]].
    apply guarded_CreateOrUpdate; [done|..].
    + intros err o' _ [M K]%mutate_Ok. injection K as _ K. split; [by do 2 apply mayProtect_app | by split; [|eexists]].
    + intros old o' [M K]%mutate_Ok _. injection K as _ K. split; [by do 2 apply mayProtect_app | by split; [|eexists]].
Qed.

Lemma reconcileStatus_guarded hcp nc0 nc ec2 t :
  live hcp nc0 nc t -> guarded ec2Guard t (reconcileStatus clock ec2 nc hcp).
Proof.
  intros Hl. unfold reconcileStatus. destruct (desiredNodeClass clock ec2 nc hcp) as [nc'|] eqn:D; [|done].
  unfold DeepEqual. case_bool_decide as E; [done|]. cbn [negb].
  apply guarded_try; [|eapply all_runs_mono; [apply all_runs_suffix|]; by intros ? [?|?]].
  apply guarded_wrap. split; [|by intros ?]. split; [done|]. split; [done|]. by exists hcp, nc0, ec2.
Qed.

Lemma reconcileDeleted_guarded hcp nc t :
  active hcp t -> classRead nc t -> deleting nc ->
  guarded ec2Guard t (reconcileDeleted namespace hcp nc).
Proof.
  intros Ha Hc Hd. unfold reconcileDeleted. apply guarded_try.
  { apply guarded_deleteIfNeeded; [done|]. intros o' _. exists hcp, nc.
    split; [by apply active_app|]. split; [by apply classRead_app|]. split; [done | apply last_elem]. }
  eapply all_runs_mono; [apply deleteIfNeeded_runs|].
  intros t' [[|]|e] (x & t1 & -> & H); [done | | done].
  set (t2 := t ++ _). assert (Hg : ec2Gone nc t2).
  { destruct x as [o|err].
    - destruct H as [(? & _)|(_ & [[]|err] & -> & Hy)]; [done|done|].
      right. exists o, err. unfold t2. split; [|split; [|tauto]]; set_solver.
    - left. exists err. destruct H as (_ & -> & Hn). split; [|done]. unfold t2. set_solver. }
  assert (Ha2 : active hcp t2) by (by apply active_app).
  assert (Hc2 : classRead nc t2) by (by apply classRead_app).
  apply guarded_try; [by apply guarded_wrap, reconcileSubnets_guarded|].
  apply all_runs_wrap. eapply all_runs_mono; [apply reconcileSubnets_runs|].
  intros t' [[]|e] [[t3 ->] Hs]; cbn [map_err]; [|done].
  unfold releaseFinalizer. destruct (ContainsFinalizer _ _) eqn:F; [|done].
  apply guarded_try; [|eapply all_runs_mono; [apply all_runs_suffix|]; by intros ? [?|?]].
  apply guarded_wrap. split; [|by intros ?]. split; [done|]. exists hcp.
  split; [by apply active_app|]. split; [by apply classRead_app|]. rewrite decide_True by done.
  split; [by apply ec2Gone_app|]. split; [|done].
  destruct (Hs eq_refl) as (ncs & t4 & -> & Hr). by exists t2, ncs, t4.
Qed.

(** After the Secret is found. *)
Lemma writeEC2_guarded hcp nc0 nc secret t :
  live hcp nc0 nc t -> secretFound namespace (om_Name (osv1.meta nc)) secret t ->
  guarded ec2Guard t (CreateOrUpdate Hosted KEC2NodeClass (newEC2NodeClass nc0) (mutateEC2NodeClass nc hcp secret)).
Proof.
  intros Hl Hs. apply guarded_CreateOrUpdate; [done|..].
  - intros err o' _ [M K]%mutate_Ok. exists hcp, nc0, nc, secret, (newEC2NodeClass nc0).
    split; [by apply live_app|]. split; [by apply secretFound_app|]. split; [done | exact K].
  - intros old o' [M K]%mutate_Ok _. exists hcp, nc0, nc, secret, old.
    split; [by apply live_app|]. split; [by apply secretFound_app|]. split; [done | exact K].
Qed.

Lemma reconcileLive_guarded hcp nc0 t :
  active hcp t -> classRead nc0 t -> ~ deleting nc0 ->
  guarded ec2Guard t (reconcileLive clock namespace hcp nc0).
Proof.
  intros Ha Hc Hd. unfold reconcileLive. apply guarded_try.
  { unfold ensureFinalizer. destruct (ContainsFinalizer _ _) eqn:F; [done|].
    apply guarded_wrap. split; [|by intros ?]. split; [done|]. exists hcp.
    split; [done|]. split; [done|]. by rewrite decide_False. }
  apply (all_runs_mono _ _ (fun t' r => (exists t1, t' = t ++ t1) /\
    forall nc, r = Ok nc -> finalized nc0 nc t')).
  { apply all_runs_and; [apply all_runs_suffix|]. unfold ensureFinalizer.
    destruct (ContainsFinalizer _ _) eqn:F; [intros nc [= <-]; by left|].
    go_step. intros [nc|e]; cbn; [|done]. intros nc' [= <-]. right. apply last_elem. }
  intros t' [nc|e] [[t1 ->] Hf]; [|done].
  assert (Hl : live hcp nc0 nc (t ++ t1)).
  { split; [by apply active_app|]. split; [by apply classRead_app|]. split; [done | by apply Hf]. }
  apply guarded_bind; [by apply GetUserDataSecret_guarded|].
  eapply all_runs_mono; [apply GetUserDataSecret_runs|].
  intros t2 [secret|e] [[t3 ->] Hs]; [|by destruct (ErrorIs _ _)].
  apply guarded_try; [apply (writeEC2_guarded _ nc0); [by apply live_app | by apply Hs]|].
  eapply all_runs_mono; [apply all_runs_suffix|]. intros t4 [[op ec2]|e] [t5 ->]; [|done].
  apply guarded_try; [apply (reconcileStatus_guarded _ nc0); by do 2 apply live_app|].
  eapply all_runs_mono; [apply all_runs_suffix|]. intros t6 [[]|e] [t7 ->]; [|done].
  apply guarded_try.
  { apply guarded_wrap, reconcileSubnets_guarded. do 3 apply active_app. apply Hl. }
  eapply all_runs_mono; [apply all_runs_suffix|]. intros t8 [[]|e] [t9 ->]; [|done].
  apply guarded_try; [apply reconcileVAP_guarded; exists hcp, nc0, nc; by do 4 apply live_app|].
  eapply all_runs_mono; [apply all_runs_suffix|]. by intros t10 [?|?].
Qed.

Lemma ec2_Reconcile_guards : guarded ec2Guard [] (Ec2NodeClass.Reconcile clock namespace request).
Proof.
  unfold Ec2NodeClass.Reconcile. apply guarded_bind; [by apply GetHostedControlPlane_guarded|].
  eapply all_runs_mono; [apply GetHostedControlPlane_runs|].
  intros t [hcp|e] (x & -> & Hx); [|by destruct (ErrorIs _ _)]. subst x.
  case_decide as Ho; [done|].
  split.
  { split; [done|]. intros nc [E|E]%elem_of_cons; [|by apply elem_of_nil in E]. by apply (f_equal readOf) in E. }
  intros [nc|e]; [|cbn; by destruct (IsNotFound e)]. cbn [mbind prog_bind].
  assert (Ha : active hcp ([Ev (EList Management KHostedControlPlane (InNamespace namespace)) (Ok [hcp])] ++
    [Ev (EGet Hosted KOpenshiftEC2NodeClass request) (Ok nc)])).
  { split; [|done]. by apply elem_of_cons; left. }
  assert (Hc : classRead nc ([Ev (EList Management KHostedControlPlane (InNamespace namespace)) (Ok [hcp])] ++
    [Ev (EGet Hosted KOpenshiftEC2NodeClass request) (Ok nc)])) by apply last_elem.
  destruct (IsZero _) eqn:Z; cbn [negb].
  - apply reconcileLive_guarded; [done | done |]. unfold deleting. by rewrite Z.
  - by apply reconcileDeleted_guarded.
Qed.

(** C3. What a reconcile does needs what it has seen.  Every write of any kind needs
    that one HostedControlPlane of the namespace was listed, without the end-to-end
    override; without that the reconcile only reads.  The NodeClass is read once,
    and its finalizer is added to a live NodeClass.  The EC2NodeClass is created or
    updated, and the admission policy and its binding written, for a live NodeClass
    that carries the finalizer, the EC2NodeClass from the Secret of that NodeClass;
    the EC2NodeClass of a deleted NodeClass is deleted, and the finalizer removed
    only after it was found gone and the ConfigMap was reconciled; NodeClass patches
    are optimistically locked, and the status of a live NodeClass that carries the
    finalizer is patched only when it differs; the ConfigMap holds the subnets of the
    listed NodeClasses, and is deleted only when they have none. *)
Theorem ec2_Reconcile_guarded : guarded ec2Guard [] (Ec2NodeClass.Reconcile clock namespace request).
Proof. apply ec2_Reconcile_guards. Qed.

End guard.
