(* ===== verification/AzureNodeClass.v ===== *)
(** * The Azure NodeClass controller

    pkg/controllers/nodeclass/azure: spec.go, the AKSNodeClass of an
    OpenShiftAzureNodeClass, and controller.go, its reconciler.  [namespace] is the
    HostedControlPlane's, [clock i] the [i]-th reading of the clock while the
    conditions are synced. *)

From S2P Require Import Prelude Prog DeepEqual MetaV1 CoreTypes HyperTypes KarpenterV1 AzureTypes Kube KubeLemmas NodeClassStatus Hypershift.

Definition finalizer : string := "hypershift.openshift.io/azure-nodeclass-finalizer".

(** ** spec.go *)

Definition defaultOSDiskSizeGiB : Z := 120.

(** [lo.EmptyableToPtr] of a string and of an int32; [cmp.Or]. *)
Definition strToPtr (s : string) : option string := if decide (s = "") then None else Some s.
Definition intToPtr (z : Z) : option Z := if decide (z = 0%Z) then None else Some z.
Definition intOr (a b : Z) : Z := if decide (a = 0%Z) then b else a.

Definition aksNodeClassSpec (spec : osv1alpha1.OpenShiftAzureNodeClassSpec) :
    azurev1beta1.AKSNodeClassSpec :=
  azurev1beta1.mkSpec
    (strToPtr (osv1alpha1.VNETSubnetID spec))
    (Some (intOr (osv1alpha1.OSDiskSizeGiB spec) defaultOSDiskSizeGiB))
    None None
    (Some azurev1beta1.UbuntuImageFamily)
    None None
    (osv1alpha1.Tags spec)
    None
    (intToPtr (osv1.kc_MaxPods (osv1alpha1.Kubelet spec)))
    (Some (azurev1beta1.mkSecurity (Some (bool_decide
       (osv1alpha1.HostEncryption (osv1alpha1.Encryption (osv1alpha1.SecurityField spec))
          = osv1alpha1.AzureHostEncryptionEnabled)))))
    None None None None.

(** ** The AKSNodeClass *)

Definition marketplaceImageFromUserDataSecret (secret : Secret) : azurev1beta1.MarketplaceImage :=
  let labels := om_Labels (secret_meta secret) in
  azurev1beta1.mkMarketplaceImage
    (mget labels "hypershift.openshift.io/azure-marketplace-publisher")
    (mget labels "hypershift.openshift.io/azure-marketplace-offer")
    (mget labels "hypershift.openshift.io/azure-marketplace-sku")
    (mget labels "hypershift.openshift.io/azure-marketplace-version").

Definition newAKSNodeClass (name : string) : azurev1beta1.AKSNodeClass :=
  azurev1beta1.mkAKSNodeClass (newMeta "" name) azurev1beta1.zeroSpec (azurev1beta1.mkStatus None).

(** The spec the function passed to [CreateOrUpdate] assigns. *)
Definition desiredAKSSpec (nodeClass : osv1alpha1.OpenShiftAzureNodeClass) (hcp : HostedControlPlane)
    (userDataSecret : Secret) (current : azurev1beta1.AKSNodeClassSpec) :
    azurev1beta1.AKSNodeClassSpec :=
  let spec := azurev1beta1.set_image
    (Some (mget (secret_Data userDataSecret) "value"))
    (Some (marketplaceImageFromUserDataSecret userDataSecret))
    (aksNodeClassSpec (osv1alpha1.Spec nodeClass)) in
  if WaitsForControlPlaneUpgrade hcp (osv1alpha1.Version (osv1alpha1.Spec nodeClass))
     && negb (bool_decide (azurev1beta1.UserData current = None))
     && negb (bool_decide (azurev1beta1.MarketplaceImageField current = None))
  then azurev1beta1.set_image (azurev1beta1.UserData current)
         (azurev1beta1.MarketplaceImageField current) spec
  else spec.

Definition mutateAKSNodeClass (nodeClass : osv1alpha1.OpenShiftAzureNodeClass)
    (hcp : HostedControlPlane) (userDataSecret : Secret) (aksNodeClass : azurev1beta1.AKSNodeClass) :
    result azurev1beta1.AKSNodeClass :=
  let spec := desiredAKSSpec nodeClass hcp userDataSecret (azurev1beta1.Spec aksNodeClass) in
  rbind (SetControllerReference osv1alpha1.SchemeGroupVersion "OpenShiftAzureNodeClass"
           (osv1alpha1.meta nodeClass) (azurev1beta1.meta aksNodeClass)) (fun m =>
  Ok (azurev1beta1.mkAKSNodeClass m spec (azurev1beta1.Status aksNodeClass))).

Definition reconcileAKSNodeClass (nodeClass : osv1alpha1.OpenShiftAzureNodeClass)
    (hcp : HostedControlPlane) (userDataSecret : Secret) : go (result azurev1beta1.AKSNodeClass) :=
  r ←? wrap_err "reconciling AKSNodeClass"
         (CreateOrUpdate Hosted KAKSNodeClass
            (newAKSNodeClass (om_Name (osv1alpha1.meta nodeClass)))
            (mutateAKSNodeClass nodeClass hcp userDataSecret));
  Ret (Ok (snd r)).

(** ** Status and deletion *)

Definition syncedConditions (clock : nat -> Time) (nodeClass : osv1alpha1.OpenShiftAzureNodeClass)
    (aksNodeClass : azurev1beta1.AKSNodeClass) : slice Condition :=
  SyncConditions clock (osv1alpha1.Conditions (osv1alpha1.Status nodeClass))
    (elems (azurev1beta1.Conditions (azurev1beta1.Status aksNodeClass)))
    (om_Generation (osv1alpha1.meta nodeClass)).

Definition reconcileStatus (clock : nat -> Time) (nodeClass : osv1alpha1.OpenShiftAzureNodeClass)
    (aksNodeClass : azurev1beta1.AKSNodeClass) : go (result unit) :=
  let conditions := syncedConditions clock nodeClass aksNodeClass in
  if SemanticDeepEqual conditions (osv1alpha1.Conditions (osv1alpha1.Status nodeClass))
  then Ret (Ok tt)
  else
    wrap_err "updating status"
      (call (EStatusPatch Hosted KOpenShiftAzureNodeClass nodeClass
               (osv1alpha1.set_Conditions conditions nodeClass) true)) ;;?
    Ret (Ok tt).

Definition withMeta (f : ObjectMeta -> ObjectMeta) (nodeClass : osv1alpha1.OpenShiftAzureNodeClass) :
    osv1alpha1.OpenShiftAzureNodeClass := osv1alpha1.set_meta (f (osv1alpha1.meta nodeClass)) nodeClass.

Definition releaseFinalizer (nodeClass : osv1alpha1.OpenShiftAzureNodeClass) : go (result unit) :=
  if ContainsFinalizer (osv1alpha1.meta nodeClass) finalizer then
    wrap_err "removing finalizer"
      (call (EPatch Hosted KOpenShiftAzureNodeClass nodeClass
               (withMeta (fun m => RemoveFinalizer m finalizer) nodeClass) true)) ;;?
    Ret (Ok tt)
  else Ret (Ok tt).

Definition reconcileDelete (nodeClass : osv1alpha1.OpenShiftAzureNodeClass) : go (result unit) :=
  deleted ← call (EDelete Hosted KAKSNodeClass
                    (newAKSNodeClass (om_Name (osv1alpha1.meta nodeClass))) None);
  match deleted with
  | Ok _ => Ret (Ok tt)
  | Err err =>
      if negb (IsNotFound err) then Ret (Err (wrapf "deleting AKSNodeClass" err))
      else releaseFinalizer nodeClass
  end.

(** The NodeClass with the finalizer, as the API server returns it. *)
Definition ensureFinalizer (nodeClass : osv1alpha1.OpenShiftAzureNodeClass) :
    go (result osv1alpha1.OpenShiftAzureNodeClass) :=
  if ContainsFinalizer (osv1alpha1.meta nodeClass) finalizer then Ret (Ok nodeClass)
  else wrap_err "adding finalizer"
         (call (EPatch Hosted KOpenShiftAzureNodeClass nodeClass
                  (withMeta (fun m => AddFinalizer m finalizer) nodeClass) true)).

(** ** Reconcile *)

Section controller.
Context (clock : nat -> Time) (namespace : string).

Definition reconcileLive (nodeClass0 : osv1alpha1.OpenShiftAzureNodeClass) : go (result Result) :=
  nodeClass ←? ensureFinalizer nodeClass0;
  gotHCP ← GetHostedControlPlane Management namespace;
  match gotHCP with
  | Err err =>
      if ErrorIs err "ErrHostedControlPlaneNotFound" then Ret (Ok noRequeue) else Ret (Err err)
  | Ok hcp =>
      gotSecret ← GetUserDataSecret Management namespace (om_Name (osv1alpha1.meta nodeClass));
      match gotSecret with
      | Err err =>
          if ErrorIs err "ErrUserDataSecretNotFound" then Ret (Ok noRequeue) else Ret (Err err)
      | Ok userDataSecret =>
          aksNodeClass ←? reconcileAKSNodeClass nodeClass hcp userDataSecret;
          reconcileStatus clock nodeClass aksNodeClass ;;?
          Ret (Ok noRequeue)
      end
  end.

Definition Reconcile (request : ObjectKey) : go (result Result) :=
  got ← call (EGet Hosted KOpenShiftAzureNodeClass request);
  match got with
  | Err err => Ret (rbind (IgnoreNotFound err) (fun _ => Ok noRequeue))
  | Ok nodeClass =>
      if negb (IsZero (om_DeletionTimestamp (osv1alpha1.meta nodeClass)))
      then reconcileDelete nodeClass ;;? Ret (Ok noRequeue)
      else reconcileLive nodeClass
  end.

End controller.

(** ** Watches *)

(** The objects of the watch are HostedControlPlanes. *)
Definition hcpPredicate (e : watchEvent HostedControlPlane) : bool :=
  match e with
  | CreateEvent _ => true
  | UpdateEvent oldHCP newHCP => ControlPlaneVersionChanged oldHCP newHCP
  | DeleteEvent _ | GenericEvent _ => false
  end.

Definition mapToNodeClasses : go (list ObjectKey) :=
  got ← call (EList Hosted KOpenShiftAzureNodeClass noOptions);
  match got with
  | Err _ => Ret []
  | Ok items => Ret (map (fun nodeClass => mkObjectKey "" (om_Name (osv1alpha1.meta nodeClass))) items)
  end.

(** ** The AKSNodeClass that is written *)

Section written.
Context (nodeClass : osv1alpha1.OpenShiftAzureNodeClass) (hcp : HostedControlPlane) (secret : Secret).
Let waits := WaitsForControlPlaneUpgrade hcp (osv1alpha1.Version (osv1alpha1.Spec nodeClass)).
Let mutate := mutateAKSNodeClass nodeClass hcp secret.

(** The user data and image of an AKSNodeClass. *)
Definition image (aks : azurev1beta1.AKSNodeClass) : option string * option azurev1beta1.MarketplaceImage :=
  (azurev1beta1.UserData (azurev1beta1.Spec aks), azurev1beta1.MarketplaceImageField (azurev1beta1.Spec aks)).

Definition hasImage (aks : azurev1beta1.AKSNodeClass) : Prop :=
  (image aks).1 <> None /\ (image aks).2 <> None.

Lemma mutateAKSNodeClass_Ok base aks :
  mutate base = Ok aks ->
  SetControllerReference osv1alpha1.SchemeGroupVersion "OpenShiftAzureNodeClass"
    (osv1alpha1.meta nodeClass) (azurev1beta1.meta base) = Ok (azurev1beta1.meta aks)
  /\ azurev1beta1.Spec aks = desiredAKSSpec nodeClass hcp secret (azurev1beta1.Spec base)
  /\ azurev1beta1.Status aks = azurev1beta1.Status base.
Proof.
  unfold mutate, mutateAKSNodeClass. destruct (SetControllerReference _ _ _ _) as [m|]; [|done].
  by intros [= <-].
Qed.

Lemma desiredAKSSpec_image current :
  let spec := desiredAKSSpec nodeClass hcp secret current in
  azurev1beta1.set_image None None spec = aksNodeClassSpec (osv1alpha1.Spec nodeClass)
  /\ azurev1beta1.UserData spec <> None /\ azurev1beta1.MarketplaceImageField spec <> None.
Proof.
  unfold desiredAKSSpec. do 2 case_bool_decide; destruct (WaitsForControlPlaneUpgrade _ _); done.
Qed.

Lemma desiredAKSSpec_again current :
  let spec := desiredAKSSpec nodeClass hcp secret current in
  desiredAKSSpec nodeClass hcp secret spec = spec.
Proof.
  destruct (desiredAKSSpec_image current) as (_ & Hu & Hi). cbn in *.
  unfold desiredAKSSpec at 1. rewrite (bool_decide_false _ Hu), (bool_decide_false _ Hi).
  unfold desiredAKSSpec. by destruct (WaitsForControlPlaneUpgrade _ _), (bool_decide _), (bool_decide _).
Qed.

Lemma mutateAKSNodeClass_again base aks : mutate base = Ok aks -> mutate aks = Ok aks.
Proof.
  intros H. destruct (mutateAKSNodeClass_Ok _ _ H) as (Hm & Hs & _).
  apply SetControllerReference_again in Hm; [|done].
  unfold mutate, mutateAKSNodeClass. rewrite Hm. cbn [rbind]. rewrite Hs, desiredAKSSpec_again, <- Hs.
  by destruct aks.
Qed.

(** C30. While the control plane upgrades, an unpinned Azure NodeClass keeps the
    user data and image its AKSNodeClass has; in every other case, and when it has
    none yet, they are the Secret's.  All other settings follow the NodeClass at
    all times; the AKSNodeClass is owned by its NodeClass, its status is kept, and
    writing it again changes nothing. *)
Theorem azure_upgrade_keeps_image base aks :
  mutate base = Ok aks ->
  (if decide (waits = true /\ hasImage base) then image aks = image base
   else image aks = (Some (mget (secret_Data secret) "value"),
                     Some (marketplaceImageFromUserDataSecret secret)))
  /\ azurev1beta1.set_image None None (azurev1beta1.Spec aks) =
       aksNodeClassSpec (osv1alpha1.Spec nodeClass)
  /\ GetControllerOf (azurev1beta1.meta aks) =
       Some (mkOwnerReference osv1alpha1.SchemeGroupVersion "OpenShiftAzureNodeClass"
               (om_Name (osv1alpha1.meta nodeClass)) (om_UID (osv1alpha1.meta nodeClass))
               (Some true) (Some true))
  /\ azurev1beta1.Status aks = azurev1beta1.Status base
  /\ mutate aks = Ok aks.
Proof.
  intros H. destruct (mutateAKSNodeClass_Ok _ _ H) as (Hm & Hs & Ht).
  split; [|split; [rewrite Hs; apply desiredAKSSpec_image|]].
  - unfold hasImage, image, waits. rewrite Hs. cbn [fst snd]. unfold desiredAKSSpec.
    do 2 case_bool_decide; destruct (WaitsForControlPlaneUpgrade _ _); cbn [negb andb];
      case_decide as E; try done; exfalso; (destruct E as (? & ? & ?); done) || by apply E.
  - split; [by apply (SetControllerReference_Ok _ _ _ _ _ Hm)|].
    split; [done | by eapply mutateAKSNodeClass_again].
Qed.

End written.

(** ** The conversion *)

Lemma strToPtr_inj a b : strToPtr a = strToPtr b -> a = b.
Proof. unfold strToPtr. do 2 case_decide; intros [=]; by subst. Qed.

Lemma intToPtr_inj a b : intToPtr a = intToPtr b -> a = b.
Proof. unfold intToPtr. do 2 case_decide; intros [=]; by subst. Qed.

(** Which changes of an Azure NodeClass reach its AKSNodeClass, and so can
    replace nodes: those of the subnet, the tags and the kubelet's [maxPods], of
    the disk size except between unset and the default, and of the host
    encryption except between unset and disabled.  Other kubelet settings and the
    version do not. *)
Theorem aksNodeClassSpec_changes spec spec' :
  let hostEncryption s := osv1alpha1.HostEncryption (osv1alpha1.Encryption (osv1alpha1.SecurityField s)) in
  aksNodeClassSpec spec = aksNodeClassSpec spec' <->
  osv1alpha1.VNETSubnetID spec = osv1alpha1.VNETSubnetID spec'
  /\ intOr (osv1alpha1.OSDiskSizeGiB spec) defaultOSDiskSizeGiB
     = intOr (osv1alpha1.OSDiskSizeGiB spec') defaultOSDiskSizeGiB
  /\ osv1alpha1.Tags spec = osv1alpha1.Tags spec'
  /\ osv1.kc_MaxPods (osv1alpha1.Kubelet spec) = osv1.kc_MaxPods (osv1alpha1.Kubelet spec')
  /\ (hostEncryption spec = osv1alpha1.AzureHostEncryptionEnabled <->
      hostEncryption spec' = osv1alpha1.AzureHostEncryptionEnabled).
Proof.
  cbn zeta. unfold aksNodeClassSpec. split.
  - intros [= Hv Hd Ht Hm He].
    apply strToPtr_inj in Hv. apply intToPtr_inj in Hm. do 4 (split; [done|]).
    split; intros E; apply (bool_decide_eq_true_1 _); [rewrite <- He | rewrite He];
      by apply bool_decide_eq_true_2.
  - intros (-> & -> & -> & -> & He). by rewrite (bool_decide_ext _ _ He).
Qed.

(** ** The watch on the HostedControlPlane *)

(** An update of the HostedControlPlane that the watch ignores changes
    nothing any AKSNodeClass is reconciled to. *)
Theorem azure_ignored_hcp_updates oldHCP newHCP :
  hcpPredicate (UpdateEvent oldHCP newHCP) = false ->
  forall nodeClass secret aks,
    mutateAKSNodeClass nodeClass oldHCP secret aks = mutateAKSNodeClass nodeClass newHCP secret aks.
Proof.
  intros H nodeClass secret aks. unfold mutateAKSNodeClass, desiredAKSSpec.
  by rewrite (version_unchanged_waits _ _ _ H).
Qed.

(** ** Witnesses *)

(** A control plane between two releases. *)
Definition azureUpgradingHCP : HostedControlPlane :=
  mkHCP (newMeta "clusters-b" "b") "b-infra" (mkAutoNode ProvisionerKarpenter "Azure" "" "") None
    (mkCPVersion (mkRelease "" "4.22.1" "img-2" "" None)
       (Some [mkHistory PartialUpdate 5 0 "4.22.1" "img-2"; mkHistory CompletedUpdate 1 2 "4.22.0" "img-1"]) 1)
    (mkAutoNodeStatus None None None).

Definition azureNodeClass : osv1alpha1.OpenShiftAzureNodeClass :=
  osv1alpha1.mkOpenShiftAzureNodeClass
    (mkObjectMeta "default" "" "u-1" "7" 1 None None None None None)
    (osv1alpha1.mkSpec "/subscriptions/s/subnets/n" 0 None osv1.zeroKubelet
       (osv1alpha1.mkAzureSecurity (osv1alpha1.mkAzureEncryption "Enabled")) "")
    osv1alpha1.zeroStatus.

Definition azureSecret : Secret :=
  mkSecret (om_set_Annotations (Some {[osv1.TokenSecretNodePoolAnnotation := "clusters-b/default-karpenter"]})
              (om_set_Labels (Some {["hypershift.openshift.io/azure-marketplace-sku" := "aro_422"]})
                 (newMeta "clusters-b" "user-data-default")))
    (Some {["value" := "ignition-2"]}).

(** The AKSNodeClass of the release before. *)
Definition oldAKS : azurev1beta1.AKSNodeClass :=
  azurev1beta1.mkAKSNodeClass (newMeta "" "default")
    (azurev1beta1.set_image (Some "ignition-1")
       (Some (azurev1beta1.mkMarketplaceImage "" "" "aro_421" "")) azurev1beta1.zeroSpec)
    (azurev1beta1.mkStatus (Some [mkCondition "Ready" "True" 1 9 "Ready" ""])).

Definition writtenAKS : azurev1beta1.AKSNodeClass :=
  match mutateAKSNodeClass azureNodeClass azureUpgradingHCP azureSecret oldAKS with
  | Ok aks => aks
  | Err _ => oldAKS
  end.

Lemma azure_upgrade_keeps_image_witness :
  image writtenAKS = image oldAKS
  /\ azurev1beta1.OSDiskSizeGB (azurev1beta1.Spec writtenAKS) = Some 120%Z.
Proof.
  assert (H : mutateAKSNodeClass azureNodeClass azureUpgradingHCP azureSecret oldAKS = Ok writtenAKS)
    by reflexivity.
  pose proof (azure_upgrade_keeps_image _ _ _ _ _ H) as [Hi [Hs _]].
  rewrite decide_True in Hi by (split; [reflexivity | done]). split; [exact Hi | reflexivity].
Defined.

Lemma azure_ignored_hcp_updates_witness :
  mutateAKSNodeClass azureNodeClass azureUpgradingHCP azureSecret oldAKS =
  mutateAKSNodeClass azureNodeClass
    (hcp_set_AutoNode (mkAutoNodeStatus (Some 3%Z) None None) azureUpgradingHCP) azureSecret oldAKS.
Proof.
  apply (azure_ignored_hcp_updates azureUpgradingHCP
           (hcp_set_AutoNode (mkAutoNodeStatus (Some 3%Z) None None) azureUpgradingHCP)).
  by vm_compute.
Defined.
