(* ===== verification/AzureGuard.v ===== *)
(** * What the Azure NodeClass controller may do, and when

    Every call [Reconcile] of AzureNodeClass makes, against every answer of the
    two clusters, has what it needs in the history of the reconcile. *)

From S2P Require Import Prelude Prog DeepEqual MetaV1 CoreTypes HyperTypes AzureTypes Kube KubeLemmas Hypershift AzureNodeClass.

Section guard.
Context (clock : nat -> Time) (namespace : string) (request : ObjectKey).
Implicit Types (t : trace eff) (hcp : HostedControlPlane) (nc : osv1alpha1.OpenShiftAzureNodeClass).

(** ** Facts of a history *)

(** The NodeClass of the request was read. *)
Definition classRead nc t : Prop :=
  Ev (EGet Hosted KOpenShiftAzureNodeClass request)
     (Ok nc : result (obj KOpenShiftAzureNodeClass)) ∈ t.

Definition deleting nc : Prop := IsZero (om_DeletionTimestamp (osv1alpha1.meta nc)) = false.

(** The NodeClass of the request is live, and [nc], which carries the finalizer,
    is the one that was read, or what the API server returned for the patch that
    adds it. *)
Definition live nc t : Prop :=
  exists nc0, classRead nc0 t /\ ~ deleting nc0 /\
    ((nc = nc0 /\ ContainsFinalizer (osv1alpha1.meta nc0) finalizer = true)
     \/ Ev (EPatch Hosted KOpenShiftAzureNodeClass nc0
              (withMeta (fun m => AddFinalizer m finalizer) nc0) true)
           (Ok nc : result (obj KOpenShiftAzureNodeClass)) ∈ t).

Definition hcpListed hcp t : Prop :=
  Ev (EList Management KHostedControlPlane (InNamespace namespace))
     (Ok [hcp] : result (list (obj KHostedControlPlane))) ∈ t.

(** The AKSNodeClass of the NodeClass was found to be gone. *)
Definition aksGone nc t : Prop :=
  exists err,
    Ev (EDelete Hosted KAKSNodeClass (newAKSNodeClass (om_Name (osv1alpha1.meta nc))) None)
       (Err err : result unit) ∈ t /\ IsNotFound err = true.

(** [aks] is the AKSNodeClass the reconcile left: the API server's answer to its
    write, or the one that needed none. *)
Definition aksReconciled (aks : azurev1beta1.AKSNodeClass) t : Prop :=
  (exists o : obj KAKSNodeClass, Ev (ECreate Hosted KAKSNodeClass o) (Ok aks) ∈ t
     \/ Ev (EUpdate Hosted KAKSNodeClass o) (Ok aks) ∈ t)
  \/ exists key (old : obj KAKSNodeClass),
       Ev (EGet Hosted KAKSNodeClass key) (Ok old) ∈ t /\ SemanticDeepEqual old aks = true.

(** ** The guard *)

Definition mayWriteAKS t (o : azurev1beta1.AKSNodeClass) : Prop :=
  exists hcp nc secret base,
    live nc t /\ hcpListed hcp t
    /\ secretFound namespace (om_Name (osv1alpha1.meta nc)) secret t
    /\ mutateAKSNodeClass nc hcp secret base = Ok o
    /\ ObjectKeyFromObject (azurev1beta1.meta o) = mkObjectKey "" (om_Name (osv1alpha1.meta nc)).

Definition mayDeleteAKS t (o : azurev1beta1.AKSNodeClass) : Prop :=
  exists nc, classRead nc t /\ deleting nc /\ o = newAKSNodeClass (om_Name (osv1alpha1.meta nc)).

Definition mayPatchClass t (orig o : osv1alpha1.OpenShiftAzureNodeClass) (lock : bool) : Prop :=
  lock = true /\ classRead orig t /\
  if decide (deleting orig) then
    aksGone orig t /\ o = withMeta (fun m => RemoveFinalizer m finalizer) orig
  else
    ContainsFinalizer (osv1alpha1.meta orig) finalizer = false
    /\ o = withMeta (fun m => AddFinalizer m finalizer) orig.

(** The HostedControlPlane and the user data Secret of the NodeClass were found. *)
Definition inputsFound hcp nc t : Prop :=
  hcpListed hcp t /\ exists secret, secretFound namespace (om_Name (osv1alpha1.meta nc)) secret t.

(** Only the conditions change, to those of the AKSNodeClass that was written. *)
Definition mayPatchStatus t (orig o : osv1alpha1.OpenShiftAzureNodeClass) (lock : bool) : Prop :=
  lock = true /\ live orig t /\ (exists hcp, inputsFound hcp orig t) /\ exists aks, aksReconciled aks t
    /\ o = osv1alpha1.set_Conditions (syncedConditions clock orig aks) orig
    /\ SemanticDeepEqual (syncedConditions clock orig aks)
         (osv1alpha1.Conditions (osv1alpha1.Status orig)) = false.

(** The NodeClass is read once. *)
Definition mayRead t (c : cluster) (k : kind) (key : ObjectKey) : Prop :=
  match c, k with
  | Hosted, KOpenShiftAzureNodeClass => key = request /\ forall nc, ~ classRead nc t
  | _, _ => True
  end.

Definition azureGuard t (X : Type) (e : eff X) : Prop :=
  match e with
  | EGet c k key => mayRead t c k key
  | EList _ _ _ => True
  | ECreate Hosted k o | EUpdate Hosted k o =>
      match k return obj k -> Prop with
      | KAKSNodeClass => mayWriteAKS t
      | _ => fun _ => False
      end o
  | EDelete Hosted k o None =>
      match k return obj k -> Prop with
      | KAKSNodeClass => mayDeleteAKS t
      | _ => fun _ => False
      end o
  | EPatch Hosted k orig o lock =>
      match k return obj k -> obj k -> Prop with
      | KOpenShiftAzureNodeClass => fun orig o => mayPatchClass t orig o lock
      | _ => fun _ _ => False
      end orig o
  | EStatusPatch Hosted k orig o lock =>
      match k return obj k -> obj k -> Prop with
      | KOpenShiftAzureNodeClass => fun orig o => mayPatchStatus t orig o lock
      | _ => fun _ _ => False
      end orig o
  | _ => False
  end.

(** ** Histories grow *)

Lemma azure_live_app nc t t' : live nc t -> live nc (t ++ t').
Proof.
  intros (nc0 & H & Hd & Hf). exists nc0. split; [apply elem_of_app; by left|]. split; [done|].
  destruct Hf as [Hf|Hf]; [by left | right; apply elem_of_app; by left].
Qed.

Lemma azure_hcpListed_app hcp t t' : hcpListed hcp t -> hcpListed hcp (t ++ t').
Proof. intros H. apply elem_of_app. by left. Qed.

(** ** The parts *)

Lemma azure_reconcileAKS_guarded hcp nc secret t :
  live nc t -> hcpListed hcp t -> secretFound namespace (om_Name (osv1alpha1.meta nc)) secret t ->
  guarded azureGuard t (reconcileAKSNodeClass nc hcp secret).
Proof.
  intros Hl Hh Hs. unfold reconcileAKSNodeClass.
  apply guarded_try; [|eapply all_runs_mono; [apply all_runs_suffix|]; by intros ? [?|?]].
  apply guarded_wrap, guarded_CreateOrUpdate; [done|..].
  - intros err o' _ [M K]%mutate_Ok. exists hcp, nc, secret, (newAKSNodeClass (om_Name (osv1alpha1.meta nc))).
    split; [by apply azure_live_app|]. split; [by apply azure_hcpListed_app|]. split; [by apply secretFound_app | done].
  - intros old o' [M K]%mutate_Ok _. exists hcp, nc, secret, old.
    split; [by apply azure_live_app|]. split; [by apply azure_hcpListed_app|]. split; [by apply secretFound_app | done].
Qed.

Lemma reconcileAKS_runs hcp nc secret t :
  all_runs (reconcileAKSNodeClass nc hcp secret) t (fun t' r =>
    (exists t1, t' = t ++ t1) /\ forall aks, r = Ok aks -> aksReconciled aks t').
Proof.
  apply all_runs_and; [apply all_runs_suffix|]. unfold reconcileAKSNodeClass. do 2 go_step.
  eapply all_runs_mono; [apply CreateOrUpdate_runs|].
  intros t' [[op aks]|e] (x & t1 & -> & H); cbn [map_err all_runs]; [|done]. intros ? [= <-]. cbn.
  destruct x as [old|err].
  - destruct H as (o' & _ & [(D & -> & _ & ->)|[-> _]]); [right | left; exists o'; right].
    + eexists _, old. split; [apply last_elem | done].
    + apply elem_of_app. right. set_solver.
  - destruct H as (_ & o' & _ & -> & _). left. exists o'. left. apply elem_of_app. right. set_solver.
Qed.

Lemma azure_reconcileStatus_guarded hcp nc aks t :
  live nc t -> inputsFound hcp nc t -> aksReconciled aks t -> guarded azureGuard t (reconcileStatus clock nc aks).
Proof.
  intros Hl Hi Ha. unfold reconcileStatus. destruct (SemanticDeepEqual _ _) eqn:D; [done|].
  apply guarded_try; [|eapply all_runs_mono; [apply all_runs_suffix|]; by intros ? [?|?]].
  apply guarded_wrap. split; [|by intros ?]. split; [done|]. split; [done|].
  split; [by exists hcp | by exists aks].
Qed.

Lemma azure_reconcileDelete_guarded nc t :
  classRead nc t -> deleting nc -> guarded azureGuard t (reconcileDelete nc).
Proof.
  intros Hc Hd. split; [by exists nc|]. intros [[]|err]; cbn [mbind prog_bind]; [done|].
  destruct (IsNotFound err) eqn:N; cbn [negb]; [|done].
  unfold releaseFinalizer. destruct (ContainsFinalizer _ _) eqn:F; [|done].
  apply guarded_try; [|eapply all_runs_mono; [apply all_runs_suffix|]; by intros ? [?|?]].
  apply guarded_wrap. split; [|by intros ?]. split; [done|].
  split; [apply elem_of_app; by left|]. rewrite decide_True by done. split; [|done].
  exists err. split; [apply last_elem | done].
Qed.

(** The NodeClass the rest of a live reconcile works on carries the finalizer. *)
Lemma azure_ensureFinalizer_runs nc0 t :
  classRead nc0 t -> ~ deleting nc0 ->
  all_runs (ensureFinalizer nc0) t (fun t' r => forall nc, r = Ok nc -> live nc t').
Proof.
  intros Hc Hd. unfold ensureFinalizer. destruct (ContainsFinalizer _ _) eqn:F.
  - intros nc [= <-]. exists nc0. split; [done|]. split; [done | by left].
  - go_step. intros [nc|e]; cbn; [|done]. intros nc' [= <-]. exists nc0.
    split; [apply elem_of_app; by left|]. split; [done|]. right. apply last_elem.
Qed.

Lemma azure_ensureFinalizer_guarded nc0 t :
  classRead nc0 t -> ~ deleting nc0 -> guarded azureGuard t (ensureFinalizer nc0).
Proof.
  intros Hc Hd. unfold ensureFinalizer. destruct (ContainsFinalizer _ _) eqn:F; [done|].
  apply guarded_wrap. split; [|by intros ?]. split; [done|]. split; [done|]. by rewrite decide_False.
Qed.

Lemma azure_reconcileLive_guarded nc0 t :
  classRead nc0 t -> ~ deleting nc0 -> guarded azureGuard t (reconcileLive clock namespace nc0).
Proof.
  intros Hc Hd. unfold reconcileLive. apply guarded_try; [by apply azure_ensureFinalizer_guarded|].
  eapply all_runs_mono; [by apply azure_ensureFinalizer_runs|].
  intros t1 [nc|e] Hl; [|done]. specialize (Hl nc eq_refl).
  apply guarded_bind; [by apply GetHostedControlPlane_guarded|].
  eapply all_runs_mono; [apply GetHostedControlPlane_runs|].
  intros t2 [hcp|e] (x & -> & Hx); [subst x | by destruct (ErrorIs _ _)].
  apply guarded_bind; [by apply GetUserDataSecret_guarded|].
  eapply all_runs_mono; [apply GetUserDataSecret_runs|].
  intros t3 [secret|e] [[t4 ->] Hs]; [|by destruct (ErrorIs _ _)].
  apply guarded_try.
  { apply azure_reconcileAKS_guarded; [by do 2 apply azure_live_app | | by apply Hs].
    apply azure_hcpListed_app, last_elem. }
  eapply all_runs_mono; [apply reconcileAKS_runs|]. intros t5 [aks|e] [[t6 ->] Ha]; [|done].
  apply guarded_try.
  { apply (azure_reconcileStatus_guarded hcp); [by do 3 apply azure_live_app | | by apply Ha].
    split; [do 2 apply azure_hcpListed_app; apply last_elem|]. exists secret. apply secretFound_app. by apply Hs. }
  eapply all_runs_mono; [apply all_runs_suffix|]. by intros ? [?|?].
Qed.

Lemma azure_Reconcile_guards :
  guarded azureGuard [] (AzureNodeClass.Reconcile clock namespace request).
Proof.
  split; [split; [done | intros nc []%elem_of_nil]|].
  intros [nc|e]; cbn [mbind prog_bind]; [|by destruct (IsNotFound e)].
  assert (Hc : classRead nc ([] ++ [Ev (EGet Hosted KOpenShiftAzureNodeClass request) (Ok nc)]))
    by apply last_elem.
  destruct (IsZero _) eqn:Z; cbn [negb].
  - apply azure_reconcileLive_guarded; [done|]. unfold deleting. by rewrite Z.
  - apply guarded_try; [by apply azure_reconcileDelete_guarded|].
    eapply all_runs_mono; [apply all_runs_suffix|]. by intros ? [?|?].
Qed.

(** C9. What each write of a reconcile of the Azure NodeClass controller needs.  The
    NodeClass of the request is read once; unless that succeeds, nothing more is
    done.  The finalizer is added to a NodeClass that was read live without it, and
    needs nothing of the management cluster.  The AKSNodeClass is created or updated
    only for a live NodeClass that carries the finalizer, from the one
    HostedControlPlane of the namespace and the user data Secret of that NodeClass,
    which were both found; so is the status patched, when its conditions differ from
    those of the AKSNodeClass.  For a NodeClass read as marked for deletion the
    AKSNodeClass is deleted, and the finalizer removed only when the API server
    answered that deletion with NotFound; this needs no HostedControlPlane either.
    NodeClass patches are optimistically locked, and nothing else is written. *)
Theorem azure_Reconcile_guarded :
  guarded azureGuard [] (AzureNodeClass.Reconcile clock namespace request).
Proof. apply azure_Reconcile_guards. Qed.

End guard.
