(* ===== verification/AzureLive.v ===== *)
(** * The Azure NodeClass controller against an API server

    [Reconcile] reaches a state it leaves alone, and a NodeClass marked for
    deletion goes away. *)

From S2P Require Import Prelude Prog DeepEqual MetaV1 CoreTypes HyperTypes KarpenterV1 AzureTypes Kube KubeLemmas NodeClassStatus Hypershift AzureNodeClass Defaults Server Store.

(** ** What the controller writes is left alone once it is written *)

Lemma desiredAKSSpec_current nc hcp secret s s' :
  azurev1beta1.UserData s = azurev1beta1.UserData s' ->
  azurev1beta1.MarketplaceImageField s = azurev1beta1.MarketplaceImageField s' ->
  desiredAKSSpec nc hcp secret s = desiredAKSSpec nc hcp secret s'.
Proof. intros H1 H2. unfold desiredAKSSpec. by rewrite H1, H2. Qed.

(** Every field that has a default is set, or has nothing below it. *)
Lemma mutateAKSNodeClass_complete nc hcp secret base (o : obj KAKSNodeClass) :
  mutateAKSNodeClass nc hcp secret base = Ok o -> sendable o /\ defaulted o = o.
Proof.
  intros (_ & Hs & _)%mutateAKSNodeClass_Ok. cbn [sendable defaulted]. unfold defaultAKSNodeClass.
  destruct o as [m s t]. cbn in Hs |- *. subst s. unfold desiredAKSSpec. by destruct (_ && _ && _).
Qed.

Lemma mutateAKSNodeClass_tame nc hcp secret : tame (k := KAKSNodeClass) (mutateAKSNodeClass nc hcp secret).
Proof.
  split; [done|..]; intros base o.
  1: by intros [? _]%mutateAKSNodeClass_complete.
  5: intros x M [Sm Sc]; destruct (mutateAKSNodeClass_Ok _ _ _ _ _ M) as (Hm & Hs & Ht);
     rewrite (proj2 (mutateAKSNodeClass_complete _ _ _ _ _ M)) in Sc.
  1-4: intros (Hm & Hs & Ht)%mutateAKSNodeClass_Ok;
    destruct (SetControllerReference_Ok _ _ _ _ _ Hm) as [_ [refs E]]; unfold keyOf; cbn [meta_of];
    try (by rewrite E).
  - cbn [withStatusOf]. rewrite <- Ht. by destruct o.
  - pose proof (SetControllerReference_stored osv1alpha1.SchemeGroupVersion _ _ _ _ (azurev1beta1.meta x) ltac:(done) Hm
                  (ss_Namespace _ _ Sm) (ss_OwnerReferences _ _ Sm)) as Hx.
    pose proof (f_equal azurev1beta1.Spec Sc) as Hspec.
    change (canon (azurev1beta1.Spec x) = canon (azurev1beta1.Spec o)) in Hspec.
    assert (desiredAKSSpec nc hcp secret (azurev1beta1.Spec x) = azurev1beta1.Spec o) as Hd.
    { rewrite Hs. etrans; [|apply desiredAKSSpec_again]. rewrite <- Hs. apply desiredAKSSpec_current.
      - exact (f_equal azurev1beta1.UserData Hspec).
      - exact (f_equal azurev1beta1.MarketplaceImageField Hspec). }
    assert (mutateAKSNodeClass nc hcp secret x = Ok (azurev1beta1.mkAKSNodeClass (azurev1beta1.meta x)
              (azurev1beta1.Spec o) (azurev1beta1.Status x))) as Mx.
    { unfold mutateAKSNodeClass. rewrite Hx, Hd. reflexivity. }
    exists x. eexists. split; [done|]. split; [exact Mx|].
    rewrite (proj2 (mutateAKSNodeClass_complete _ _ _ _ _ Mx)).
    unfold canon at 1 2, obj_canon, azurev1beta1.AKSNodeClass_canon.
    cbn [azurev1beta1.meta azurev1beta1.Spec azurev1beta1.Status]. by rewrite Hspec.
Qed.

(** ** Stable states *)

Section live.
Context {W : Type} {server : ApiServer W} (namespace : string).

(** One HostedControlPlane, and one user data Secret for the NodeClass. *)
Definition ready (n : string) (hcp : HostedControlPlane) (secret : Secret) (w : W) : Prop :=
  oneHCP namespace hcp w /\ oneUserData namespace n secret w.

(** The NodeClass carries the finalizer, the stored AKSNodeClass is what it asks
    for, and its conditions are in sync with those of the AKSNodeClass. *)
Record stable (hcp : HostedControlPlane) (secret : Secret) (w : W) (nc : osv1alpha1.OpenShiftAzureNodeClass) :
    Prop := mkStable {
  st_class : get w Hosted KOpenShiftAzureNodeClass (mkObjectKey "" (om_Name (osv1alpha1.meta nc))) = Some nc;
  st_live : IsZero (om_DeletionTimestamp (osv1alpha1.meta nc)) = true;
  st_finalizer : ContainsFinalizer (osv1alpha1.meta nc) finalizer = true;
  st_aks : exists stored,
    get w Hosted KAKSNodeClass (mkObjectKey "" (om_Name (osv1alpha1.meta nc))) = Some stored
    /\ inSync (k := KAKSNodeClass) (mutateAKSNodeClass nc hcp secret) (Some stored)
    /\ settled (osv1alpha1.Conditions (osv1alpha1.Status nc))
         (elems (azurev1beta1.Conditions (azurev1beta1.Status stored)))
         (om_Generation (osv1alpha1.meta nc)) }.

(** A stable state is left alone. *)
Lemma stable_reads clock hcp secret w nc :
  ready (om_Name (osv1alpha1.meta nc)) hcp secret w -> stable hcp secret w nc ->
  reads (Reconcile clock namespace (mkObjectKey "" (om_Name (osv1alpha1.meta nc)))) w (Ok noRequeue).
Proof.
  intros [Hh Hu] [Hc Hl Hf (stored & Ha & Hs & Hset)].
  unfold Reconcile. eapply reads_bind; [by apply (reads_found _ _ KOpenShiftAzureNodeClass)|]. cbn beta iota.
  rewrite Hl. cbn [negb]. unfold reconcileLive, ensureFinalizer. rewrite Hf.
  eapply reads_try; [apply reads_ret|].
  eapply reads_bind; [eapply reads_GetHostedControlPlane, Hh|]. cbn beta iota.
  eapply reads_bind; [eapply reads_GetUserDataSecret, Hu|]. cbn beta iota.
  destruct (reads_CreateOrUpdate Hosted KAKSNodeClass (newAKSNodeClass (om_Name (osv1alpha1.meta nc)))
              (mutateAKSNodeClass nc hcp secret) w (mutateAKSNodeClass_tame _ _ _)
              (fun base o' M => proj2 (mutateAKSNodeClass_complete _ _ _ base o' M))) as (stored' & aks & E & M & R).
  { change (keyOf _) with (mkObjectKey "" (om_Name (osv1alpha1.meta nc))). by rewrite Ha. }
  change (keyOf _) with (mkObjectKey "" (om_Name (osv1alpha1.meta nc))) in E. rewrite Ha in E. injection E as <-.
  destruct (mutateAKSNodeClass_Ok _ _ _ _ _ M) as (_ & _ & Ht).
  eapply reads_try.
  { unfold reconcileAKSNodeClass. eapply reads_try; [apply reads_wrap, R | apply reads_ret]. }
  eapply reads_try; [|apply reads_ret]. unfold reconcileStatus, syncedConditions. cbn [snd].
  rewrite Ht, SyncConditions_settled by done. rewrite SemanticDeepEqual_refl. apply reads_ret.
Qed.

(** ** Reaching a stable state *)

Lemma aks_ready_changed n hcp secret c k key (o : option (obj k)) w w' :
  changed c k key o w w' -> k <> KHostedControlPlane -> k <> KSecret ->
  ready n hcp secret w -> ready n hcp secret w'.
Proof. intros C N1 N2 [Ha Hs]. split; [by eapply oneHCP_changed | by eapply oneUserData_changed]. Qed.

(** Another version of the NodeClass, with other conditions. *)
Record similar (nc nc' : osv1alpha1.OpenShiftAzureNodeClass) : Prop := mkSimilar {
  sim_spec : osv1alpha1.Spec nc' = osv1alpha1.Spec nc;
  sim_name : om_Name (osv1alpha1.meta nc') = om_Name (osv1alpha1.meta nc);
  sim_namespace : om_Namespace (osv1alpha1.meta nc') = om_Namespace (osv1alpha1.meta nc);
  sim_uid : om_UID (osv1alpha1.meta nc') = om_UID (osv1alpha1.meta nc);
  sim_generation : om_Generation (osv1alpha1.meta nc') = om_Generation (osv1alpha1.meta nc);
  sim_deletion : om_DeletionTimestamp (osv1alpha1.meta nc') = om_DeletionTimestamp (osv1alpha1.meta nc) }.

Lemma aks_mutate_similar nc nc' hcp secret aks :
  similar nc nc' -> mutateAKSNodeClass nc hcp secret aks = mutateAKSNodeClass nc' hcp secret aks.
Proof.
  destruct nc as [[] spec status], nc' as [[] spec' status']. intros [H1 H2 H3 H4 _ _]. cbn in *. by subst.
Qed.

Lemma exec_azure_ensureFinalizer w nc0 key :
  get w Hosted KOpenShiftAzureNodeClass key = Some nc0 ->
  IsZero (om_DeletionTimestamp (osv1alpha1.meta nc0)) = true ->
  exists nc w', exec serve (ensureFinalizer nc0) w = (Ok nc, w')
    /\ changed Hosted KOpenShiftAzureNodeClass key (Some nc) w w'
    /\ ContainsFinalizer (osv1alpha1.meta nc) finalizer = true /\ similar nc0 nc.
Proof.
  intros Hc Hl. unfold ensureFinalizer. destruct (ContainsFinalizer _ _) eqn:F.
  - exists nc0, w. rewrite exec_ret. split; [done|]. split; [|done].
    pose proof (changed_refl Hosted KOpenShiftAzureNodeClass key w) as R. by rewrite Hc in R.
  - set (m := AddFinalizer (osv1alpha1.meta nc0) finalizer).
    assert (ContainsFinalizer m finalizer = true) as Hm by by (unfold m; rewrite ContainsFinalizer_Add, bool_decide_true).
    assert (exists fs, m = om_set_Finalizers fs (osv1alpha1.meta nc0)) as [fs Hfs] by apply AddFinalizer_same.
    assert (keyOf (nc0 : obj KOpenShiftAzureNodeClass) = key) as Hk by by eapply get_key.
    destruct (exec_patch w Hosted KOpenShiftAzureNodeClass nc0
                (withMeta (fun m => AddFinalizer m finalizer) nc0) m true) as (m' & w' & E & C & S & Hu & Hg);
      [done | by rewrite Hk | done | by rewrite Hfs | by rewrite Hfs|].
    rewrite live_not_gone, Hk in C by by rewrite Hfs.
    exists (osv1alpha1.set_meta m' nc0), w'. rewrite exec_wrap. runs E. split; [done|]. split; [exact C|]. split.
    + unfold ContainsFinalizer in *. cbn [osv1alpha1.set_meta osv1alpha1.meta]. by rewrite (ss_Finalizers _ _ S).
    + split; [done|..]; cbn [osv1alpha1.set_meta osv1alpha1.meta];
        rewrite ?(ss_Name _ _ S), ?(ss_Namespace _ _ S), ?(ss_DeletionTimestamp _ _ S), ?Hu, ?Hg; by rewrite Hfs.
Qed.

(** The AKSNodeClass, if there is one, is not controlled by another owner, and has
    one condition of a type. *)
Definition adoptable (nc : osv1alpha1.OpenShiftAzureNodeClass) (w : W) : Prop :=
  forall a, get w Hosted KAKSNodeClass (mkObjectKey "" (om_Name (osv1alpha1.meta nc))) = Some a ->
    (exists m, SetControllerReference osv1alpha1.SchemeGroupVersion "OpenShiftAzureNodeClass"
                 (osv1alpha1.meta nc) (azurev1beta1.meta a) = Ok m)
    /\ conditions_wf (elems (azurev1beta1.Conditions (azurev1beta1.Status a))).

Lemma exec_reconcileAKS nc hcp secret w :
  om_Namespace (osv1alpha1.meta nc) = "" -> adoptable nc w ->
  exists stored aks w',
    exec serve (reconcileAKSNodeClass nc hcp secret) w = (Ok aks, w')
    /\ changed Hosted KAKSNodeClass (mkObjectKey "" (om_Name (osv1alpha1.meta nc))) (Some stored) w w'
    /\ inSync (k := KAKSNodeClass) (mutateAKSNodeClass nc hcp secret) (Some stored)
    /\ azurev1beta1.Status aks = azurev1beta1.Status stored
    /\ conditions_wf (elems (azurev1beta1.Conditions (azurev1beta1.Status stored))).
Proof.
  intros Hn Had. unfold adoptable in Had. set (key := mkObjectKey "" (om_Name (osv1alpha1.meta nc))) in *.
  set (new := newAKSNodeClass (om_Name (osv1alpha1.meta nc)) : obj KAKSNodeClass).
  set (base := default new (get w Hosted KAKSNodeClass key)).
  assert ((exists m, SetControllerReference osv1alpha1.SchemeGroupVersion "OpenShiftAzureNodeClass"
                       (osv1alpha1.meta nc) (azurev1beta1.meta base) = Ok m)
    /\ conditions_wf (elems (azurev1beta1.Conditions (azurev1beta1.Status base)))) as [[m Hm] Hwf].
  { unfold base. destruct (get w Hosted KAKSNodeClass key) as [a|] eqn:G; [by apply Had|].
    split; [apply SetControllerReference_new; by left | apply NoDup_nil_2]. }
  assert (exists o1, mutateAKSNodeClass nc hcp secret base = Ok o1) as [o1 Ho1]
    by (unfold mutateAKSNodeClass; rewrite Hm; by eexists).
  destruct (exec_CreateOrUpdate Hosted KAKSNodeClass new (mutateAKSNodeClass nc hcp secret) w base o1
              (mutateAKSNodeClass_tame _ _ _) eq_refl eq_refl eq_refl Ho1)
    as (op & stored & aks & w' & E & Hc & Hs & Hst & Hor).
  change (keyOf new) with key in Hc.
  assert (azurev1beta1.Status stored = azurev1beta1.Status base) as Hsb by by rewrite <- Hst.
  destruct (mutateAKSNodeClass_Ok _ _ _ _ _ Ho1) as (_ & _ & Ho).
  exists stored, aks, w'. unfold reconcileAKSNodeClass. rewrite exec_try, exec_wrap. subst new. runs E. cbn [map_err].
  rewrite exec_ret. do 3 (split; [done|]). rewrite Hsb. split; [|done].
  destruct Hor as [-> | ->]; [exact Ho | exact Hsb].
Qed.

Lemma elems_omitEmpty {A} (l : slice A) : elems (omitEmpty l) = elems l.
Proof. by destruct l as [[]|]. Qed.

Lemma settled_elems cs cs' reported generation :
  elems cs' = elems cs -> settled cs reported generation -> settled cs' reported generation.
Proof. intros E [H1 H2 H3]. by split; rewrite E. Qed.

Lemma exec_azure_status clock nc aks w key :
  get w Hosted KOpenShiftAzureNodeClass key = Some nc ->
  conditions_wf (elems (azurev1beta1.Conditions (azurev1beta1.Status aks))) ->
  exists nc' w', exec serve (reconcileStatus clock nc aks) w = (Ok tt, w')
    /\ changed Hosted KOpenShiftAzureNodeClass key (Some nc') w w'
    /\ similar nc nc' /\ elems (om_Finalizers (osv1alpha1.meta nc')) = elems (om_Finalizers (osv1alpha1.meta nc))
    /\ settled (osv1alpha1.Conditions (osv1alpha1.Status nc'))
         (elems (azurev1beta1.Conditions (azurev1beta1.Status aks))) (om_Generation (osv1alpha1.meta nc')).
Proof.
  intros Hc Hwf. unfold reconcileStatus.
  pose proof (SyncConditions_settles clock (osv1alpha1.Conditions (osv1alpha1.Status nc)) _
                (om_Generation (osv1alpha1.meta nc)) Hwf) as Hset.
  fold (syncedConditions clock nc aks) in Hset.
  destruct (SemanticDeepEqual _ _) eqn:D.
  - exists nc, w. rewrite exec_ret. split; [done|].
    split; [pose proof (changed_refl Hosted KOpenShiftAzureNodeClass key w) as R; by rewrite Hc in R|].
    do 2 (split; [done|]). eapply settled_elems; [|exact Hset]. symmetry. by apply sem_slice_elems.
  - assert (keyOf (nc : obj KOpenShiftAzureNodeClass) = key) as Hk by by eapply get_key.
    set (nc1 := osv1alpha1.set_Conditions (syncedConditions clock nc aks) nc).
    destruct (exec_status w Hosted KOpenShiftAzureNodeClass nc nc1 true) as (m & w' & Ex & C & S & Hu & Hg);
      [done | done | by rewrite Hk | done|].
    rewrite Hk in C. set (nc' := setMeta m _) in *.
    exists nc', w'. rewrite exec_try, exec_wrap. runs Ex. split; [done|]. split; [exact C|]. split; [|split].
    + split; [done|..]; cbn;
        rewrite ?(ss_Name _ _ S), ?(ss_Namespace _ _ S), ?(ss_DeletionTimestamp _ _ S), ?Hu, ?Hg; done.
    + exact (ss_Finalizers _ _ S).
    + cbn [meta_of] in Hg. change (om_Generation (osv1alpha1.meta nc')) with (om_Generation m). rewrite Hg.
      eapply settled_elems; [|exact Hset]. apply elems_omitEmpty.
Qed.

(** C15. Against an API server, one reconcile of a live Azure NodeClass, among any
    number of others, succeeds and reaches a stable state: the NodeClass carries the
    finalizer, its spec untouched, the stored AKSNodeClass is what it asks for up to
    nil and empty values, as the controller sets every field of it that has a
    default, and its conditions are in sync.  The other NodeClasses and
    AKSNodeClasses are left alone.  Every later reconcile, at any time, only reads.
    The AKSNodeClass may be missing or stale before, but is not another owner's. *)
Theorem azure_reconcile_converges clock n nc0 hcp secret w :
  let request := mkObjectKey "" n in
  get w Hosted KOpenShiftAzureNodeClass request = Some nc0 ->
  IsZero (om_DeletionTimestamp (osv1alpha1.meta nc0)) = true ->
  ready n hcp secret w -> adoptable nc0 w ->
  exists nc w',
    exec serve (Reconcile clock namespace request) w = (Ok noRequeue, w')
    /\ stable hcp secret w' nc /\ osv1alpha1.Spec nc = osv1alpha1.Spec nc0 /\ om_Name (osv1alpha1.meta nc) = n
    /\ (forall key', key' <> request ->
          get w' Hosted KOpenShiftAzureNodeClass key' = get w Hosted KOpenShiftAzureNodeClass key'
          /\ get w' Hosted KAKSNodeClass key' = get w Hosted KAKSNodeClass key')
    /\ forall clock', reads (Reconcile clock' namespace request) w' (Ok noRequeue).
Proof.
  intros request Hc Hl Hr Had.
  assert (om_Namespace (osv1alpha1.meta nc0) = "" /\ om_Name (osv1alpha1.meta nc0) = n) as [Hns Hn].
  { pose proof (get_key _ _ _ _ _ Hc) as K. by injection K. }
  destruct (exec_azure_ensureFinalizer w nc0 request Hc Hl) as (nc & w1 & E1 & C1 & F1 & S1).
  assert (Hn1 : om_Name (osv1alpha1.meta nc) = n) by by rewrite (sim_name _ _ S1).
  assert (Hr1 : ready (om_Name (osv1alpha1.meta nc)) hcp secret w1).
  { rewrite Hn1. by eapply aks_ready_changed; [exact C1 | done | done|]. }
  destruct (exec_reconcileAKS nc hcp secret w1) as (stored & aks & w2 & E2 & C2 & Hs & Hst & Hwf).
  { by rewrite (sim_namespace _ _ S1). }
  { unfold adoptable, SetControllerReference, validateOwner in *. elsewhere.
    by rewrite Hn1, (sim_namespace _ _ S1), (sim_uid _ _ S1), <- Hn. }
  rewrite Hn1 in C2. fold request in C2. rewrite <- Hst in Hwf.
  destruct (exec_azure_status clock nc aks w2 request) as (nc' & w3 & E3 & C3 & S3 & F3 & Hset);
    [elsewhere; exact (changed_lookup _ _ _ _ _ _ C1) | done|].
  assert (Hn3 : om_Name (osv1alpha1.meta nc') = n) by by rewrite (sim_name _ _ S3).
  assert (Hstable : stable hcp secret w3 nc').
  { split; rewrite ?Hn3; fold request.
    - exact (changed_lookup _ _ _ _ _ _ C3).
    - by rewrite (sim_deletion _ _ S3), (sim_deletion _ _ S1).
    - unfold ContainsFinalizer in *. by rewrite F3.
    - exists stored. split; [elsewhere; exact (changed_lookup _ _ _ _ _ _ C2)|]. split; [|by rewrite <- Hst].
      destruct Hs as (x & x' & Ex & M & D). exists x, x'. by rewrite <- (aks_mutate_similar _ _ _ _ _ S3). }
  exists nc', w3. split; [|split; [done|]; split; [by rewrite (sim_spec _ _ S3), (sim_spec _ _ S1)|];
    split; [done|]; split].
  - unfold Reconcile. rewrite exec_bind. runs (exec_found _ _ _ _ _ Hc). rewrite Hl. cbn [negb].
    unfold reconcileLive. rewrite exec_try, E1.
    rewrite exec_bind, (reads_exec _ _ _ (reads_GetHostedControlPlane _ _ _ (proj1 Hr1))).
    rewrite exec_bind, (reads_exec _ _ _ (reads_GetUserDataSecret _ _ _ _ (proj2 Hr1))).
    by rewrite exec_try, E2, exec_try, E3, exec_ret.
  - intros key' N. by elsewhere.
  - intros clock'. pose proof (stable_reads clock' hcp secret w3 nc') as H. rewrite Hn3 in H. apply H; [|done].
    rewrite Hn1 in Hr1. do 2 (eapply aks_ready_changed; [eassumption | done | done|]). exact Hr1.
Qed.

(** ** Deletion *)

(** A NodeClass marked for deletion, whose only finalizer is the operator's. *)
Definition doomed (request : ObjectKey) (nc : osv1alpha1.OpenShiftAzureNodeClass) (w : W) : Prop :=
  get w Hosted KOpenShiftAzureNodeClass request = Some nc
  /\ om_Namespace (osv1alpha1.meta nc) = ""
  /\ IsZero (om_DeletionTimestamp (osv1alpha1.meta nc)) = false
  /\ om_Finalizers (osv1alpha1.meta nc) = Some [finalizer].

Lemma exec_azure_deleted clock request nc w :
  doomed request nc w ->
  exec serve (Reconcile clock namespace request) w =
    let '(r, w') := exec serve (reconcileDelete nc) w in
    (match r with Ok _ => Ok noRequeue | Err e => Err e end, w').
Proof.
  intros (Hc & _ & Hd & _). unfold Reconcile. rewrite exec_bind. runs (exec_found _ _ _ _ _ Hc).
  rewrite Hd. cbn [negb]. rewrite exec_try. by destruct (exec serve (reconcileDelete nc) w) as [[[]|e] w'].
Qed.

Lemma azure_released clock request nc w :
  doomed request nc w -> get w Hosted KAKSNodeClass request = None ->
  exists w', exec serve (Reconcile clock namespace request) w = (Ok noRequeue, w')
    /\ changed Hosted KOpenShiftAzureNodeClass request None w w'.
Proof.
  intros Hd Ha. rewrite (exec_azure_deleted _ _ _ _ Hd). destruct Hd as (Hc & Hn & Hz & Hf).
  assert (keyOf (nc : obj KOpenShiftAzureNodeClass) = request) as Hk by by eapply get_key.
  set (aks := newAKSNodeClass (om_Name (osv1alpha1.meta nc)) : obj KAKSNodeClass).
  assert (keyOf aks = request) as Hka by (rewrite <- Hk; unfold keyOf, ObjectKeyFromObject; cbn; by rewrite Hn).
  pose proof (serve_delete w Hosted KAKSNodeClass aks None eq_refl) as H. rewrite Hka, Ha in H.
  destruct H as (err & E & N). unfold reconcileDelete, releaseFinalizer. rewrite exec_bind, exec_call. fold aks. rewrite E, N. cbn [negb].
  assert (ContainsFinalizer (osv1alpha1.meta nc) finalizer = true) as ->.
  { unfold ContainsFinalizer. rewrite Hf. by apply bool_decide_eq_true_2, list_elem_of_singleton. }
  set (m := RemoveFinalizer (osv1alpha1.meta nc) finalizer).
  destruct (exec_patch w Hosted KOpenShiftAzureNodeClass nc
              (withMeta (fun m => RemoveFinalizer m finalizer) nc) m true) as (m' & w2 & E2 & C2 & _);
    [done | by rewrite Hk | done..|].
  assert (isGone m = true) as Hg.
  { unfold isGone, m, RemoveFinalizer. cbn. by rewrite Hz, Hf. }
  rewrite Hg, Hk in C2. exists w2. rewrite exec_try, exec_wrap. runs E2. cbn [map_err]. by rewrite exec_ret.
Qed.

(** C16. A NodeClass marked for deletion goes away: while its AKSNodeClass exists, a
    reconcile has that deleted and changes nothing else; when Karpenter has let it go,
    the next one, which the deletion triggers, removes the finalizer, and with it the
    NodeClass, and changes nothing else either.  No management cluster object is
    needed for it. *)
Theorem azure_deletion_finishes clock clock' request nc w :
  doomed request nc w ->
  match get w Hosted KAKSNodeClass request with
  | None => exists w', exec serve (Reconcile clock namespace request) w = (Ok noRequeue, w')
      /\ changed Hosted KOpenShiftAzureNodeClass request None w w'
  | Some _ => exists after w1,
      exec serve (Reconcile clock namespace request) w = (Ok noRequeue, w1)
      /\ changed Hosted KAKSNodeClass request after w w1 /\ goneOrGoing (k := KAKSNodeClass) after
      /\ forall w2, changed Hosted KAKSNodeClass request None w1 w2 -> exists w3,
           exec serve (Reconcile clock' namespace request) w2 = (Ok noRequeue, w3)
           /\ changed Hosted KOpenShiftAzureNodeClass request None w2 w3
  end.
Proof.
  intros Hd. destruct (get w Hosted KAKSNodeClass request) as [a|] eqn:Ha; [|by eapply azure_released].
  rewrite (exec_azure_deleted _ _ _ _ Hd). pose proof Hd as (Hc & Hn & _).
  assert (keyOf (nc : obj KOpenShiftAzureNodeClass) = request) as Hk by by eapply get_key.
  set (aks := newAKSNodeClass (om_Name (osv1alpha1.meta nc)) : obj KAKSNodeClass).
  assert (keyOf aks = request) as Hka by (rewrite <- Hk; unfold keyOf, ObjectKeyFromObject; cbn; by rewrite Hn).
  pose proof (serve_delete w Hosted KAKSNodeClass aks None eq_refl) as H. rewrite Hka, Ha in H.
  destruct H as (after & w1 & E & C & A). exists after, w1.
  split; [unfold reconcileDelete; rewrite exec_bind, exec_call; fold aks; by rewrite E|].
  split; [done|]. split; [destruct after as [y|]; [|done]; by destruct A as (m & -> & Dm & _)|].
  intros w2 C2. eapply azure_released; [|exact (changed_lookup _ _ _ _ _ _ C2)].
  destruct Hd as (_ & Hd). split; [by elsewhere | exact Hd].
Qed.

End live.

(** ** Witnesses *)

Definition labelledSecret : Secret :=
  mkSecret (om_set_Labels (mset (om_Labels (secret_meta azureSecret)) osv1.ManagedByKarpenterLabel "true")
              (secret_meta azureSecret)) (secret_Data azureSecret).

Definition azureWorld : world :=
  putIn Management KHostedControlPlane azureUpgradingHCP
    (putIn Management KSecret labelledSecret
       (putIn Hosted KAKSNodeClass oldAKS (putIn Hosted KOpenShiftAzureNodeClass azureNodeClass emptyWorld))).

Lemma azure_reconcile_converges_witness :
  exists nc w', stable azureUpgradingHCP labelledSecret w' nc
    /\ exec serve (Reconcile (fun _ => 11%Z) "clusters-b" (mkObjectKey "" "default")) azureWorld = (Ok noRequeue, w').
Proof.
  destruct (azure_reconcile_converges "clusters-b" (fun _ => 11%Z) "default" azureNodeClass azureUpgradingHCP
              labelledSecret azureWorld) as (nc & w' & H & Hs & _).
  - vm_compute. reflexivity.
  - reflexivity.
  - split; vm_compute; reflexivity.
  - intros a. replace (get _ _ _ _) with (Some (defaulted (oldAKS : obj KAKSNodeClass))) by (vm_compute; reflexivity).
    intros [= <-]. split; [by eexists|]. by apply (bool_decide_unpack _).
  - exists nc, w'. split; [exact Hs | exact H].
Defined.

Definition doomedNodeClass : osv1alpha1.OpenShiftAzureNodeClass :=
  withMeta (fun m => om_set_DeletionTimestamp (Some 5%Z) (om_set_Finalizers (Some [finalizer]) m))
    azureNodeClass.

Definition doomedWorld : world :=
  putIn Hosted KAKSNodeClass oldAKS (putIn Hosted KOpenShiftAzureNodeClass doomedNodeClass emptyWorld).

Lemma azure_deletion_finishes_witness :
  let reconcile c w := exec serve (Reconcile (fun _ => c) "clusters-b" (mkObjectKey "" "default")) w in
  exists w1, reconcile 11%Z doomedWorld = (Ok noRequeue, w1)
    /\ exists w3, reconcile 12%Z w1 = (Ok noRequeue, w3)
      /\ get w3 Hosted KOpenShiftAzureNodeClass (mkObjectKey "" "default") = None.
Proof.
  intros reconcile.
  pose proof (azure_deletion_finishes "clusters-b" (fun _ => 11%Z) (fun _ => 12%Z) (mkObjectKey "" "default")
                doomedNodeClass doomedWorld) as H.
  replace (get doomedWorld Hosted KAKSNodeClass (mkObjectKey "" "default")) with (Some (defaulted (oldAKS : obj KAKSNodeClass))) in H
    by (vm_compute; reflexivity).
  destruct H as (after & w1 & E1 & C1 & _ & H); [repeat split; vm_compute; reflexivity|].
  exists w1. split; [exact E1|]. destruct (H w1) as (w3 & E3 & C3).
  - split; [|done]. replace w1 with (reconcile 11%Z doomedWorld).2 by (unfold reconcile; by rewrite E1).
    vm_compute. reflexivity.
  - exists w3. split; [exact E3 | exact (changed_lookup _ _ _ _ _ _ C3)].
Defined.
