(* ===== verification/AzureSchema.v ===== *)
(** * The schemas of the Azure NodeClasses

    What API servers admit as the spec of an OpenShiftAzureNodeClass (the markers of
    api/karpenter/v1alpha1) and as that of an AKSNodeClass (version v1beta1 of
    pkg/assets/azure/karpenter.azure.com_aksnodeclasses.yaml, for the properties
    that the operator sets). *)

From S2P Require Import Prelude DeepEqual MetaV1 Quantity Regexp CrdSchema KarpenterV1 Ec2Schema AzureTypes.

(** [split] of CEL by one byte. *)
Fixpoint splitBy (sep : ascii) (s : string) : list string :=
  match s with
  | EmptyString => [""]
  | String c s' =>
      if Ascii.eqb c sep then "" :: splitBy sep s'
      else match splitBy sep s' with
           | p :: ps => String c p :: ps
           | [] => [String c ""]
           end
  end.

(** [contains] of one byte. *)
Fixpoint containsByte (b : ascii) (s : string) : bool :=
  match s with EmptyString => false | String c s' => Ascii.eqb c b || containsByte b s' end.

Definition notSlash (c : ascii) : bool := negb (Ascii.eqb c "/"%char).

Module osv1alpha1crd.

Definition AzureHostEncryption : string -> bool := enum ["Enabled"; "Disabled"].

(** ** The subnet *)

(** ^/subscriptions/[^/]+/resourceGroups/[^/]+/providers/Microsoft\.Network/virtualNetworks/[^/]+/subnets/[^/]+$ *)
Definition subnetPath : regexp :=
  let part := plus (Class notSlash) in
  Cat (lit "/subscriptions/") (Cat part (Cat (lit "/resourceGroups/") (Cat part
    (Cat (lit "/providers/Microsoft.Network/virtualNetworks/") (Cat part (Cat (lit "/subnets/") part)))))).

Definition hex (c : ascii) : bool :=
  range "0"%char "9"%char c || range "a"%char "f"%char c || range "A"%char "F"%char c.
(** ^[0-9a-fA-F]{8}-([0-9a-fA-F]{4}-){3}[0-9a-fA-F]{12}$ *)
Definition uuid : regexp :=
  Cat (times 8 (Class hex)) (Cat (char "-"%char)
    (Cat (times 3 (Cat (times 4 (Class hex)) (char "-"%char))) (times 12 (Class hex)))).

Definition groupByte (c : ascii) : bool := alnum c || isOneOf "-_()." c.
Definition nameByte (c : ascii) : bool := alnum c || isOneOf "-_." c.

(** [self.split('/')\[i\]]; an index out of range is an error, which refuses. *)
Definition part (i : nat) (rule : string -> bool) (s : string) : bool :=
  match splitBy "/"%char s !! i with Some p => rule p | None => false end.

Definition vnetSubnetID (s : string) : bool :=
  (length (splitBy "/"%char s) =? 11) && matches subnetPath s
  && part 2 (matches uuid) s
  && part 4 (matches (between 1 90 (Class groupByte))) s
  && part 4 (fun p => negb (HasSuffix p ".")) s
  && part 8 (matches (between 2 64 (Class nameByte))) s
  && part 8 (fun p => negb (HasSuffix p ".") && negb (HasSuffix p "-")) s
  && part 10 (matches (Cat (Class alnum) (upTo 79 (Class nameByte)))) s
  && part 10 (fun p => negb (HasSuffix p ".") && negb (HasSuffix p "-")) s
  && minLength 1 s && maxLength 355 s.

(** ** The other properties *)

Definition Tags (m : gmap string string) : bool :=
  allKeys (fun k => minLength 1 k && maxLength 512 k) m
  && allKeys (fun k => negb (search (oneByteOf "<>%&?/") k)) m
  && allKeys (fun k => negb (containsByte "\"%char k)) m
  && allEntries (fun _ v => maxLength 256 v) m
  && allKeys (fun k => negb (HasPrefix (ToLower k) "karpenter.sh_")
                       && negb (HasPrefix (ToLower k) "karpenter.azure.com_")) m
  && allKeys (fun k => negb (bool_decide (ToLower k = "compute.aks.billing"))) m
  && minProperties 1 m && maxProperties 47 m.

(** That the objects have a property follows from their being sent at all. *)
Definition Spec (double : string -> option Z) (s : osv1alpha1.OpenShiftAzureNodeClassSpec) : bool :=
  property (osv1alpha1.VNETSubnetID s) vnetSubnetID
  && propertyInt (osv1alpha1.OSDiskSizeGiB s) (fun n => minimum 30 n && maximum 2048 n)
  && propertyPtr (osv1alpha1.Tags s) Tags
  && osv1crd.KubeletConfiguration double (osv1alpha1.Kubelet s)
  && (let maxPods := osv1.kc_MaxPods (osv1alpha1.Kubelet s) in
      negb (hasInt maxPods) || (minimum 10 maxPods && maximum 250 maxPods))
  && property (osv1alpha1.HostEncryption (osv1alpha1.Encryption (osv1alpha1.SecurityField s))) AzureHostEncryption
  && property (osv1alpha1.Version s) osv1crd.Version.

(** ** The status *)

Definition hasProperty (s : osv1alpha1.OpenShiftAzureNodeClassStatus) : bool :=
  hasList (osv1alpha1.Conditions s) || has (osv1alpha1.ReleaseImage s) || has (osv1alpha1.StatusVersion s).

Definition Status (s : osv1alpha1.OpenShiftAzureNodeClassStatus) : bool :=
  (bool_decide (s = osv1alpha1.zeroStatus) || hasProperty s)
  && propertyList (osv1alpha1.Conditions s) (fun l =>
       forallb condition l && bool_decide (NoDup (c_Type <$> l)) && minItems 1 l && maxItems 100 l)
  && property (osv1alpha1.ReleaseImage s) (osv1crd.length1 512)
  && property (osv1alpha1.StatusVersion s) (osv1crd.length1 64).

End osv1alpha1crd.

Module azurecrd.

(** ** Patterns without regard to case

    Go folds U+017F with the letter s and U+212A with k. *)

Definition longS : string := String "197"%char (String "191"%char "").
Definition kelvin : string := String "226"%char (String "132"%char (String "170"%char "")).

Definition folded (p : ascii -> bool) : regexp :=
  let either c := p (ascii_lower c) || p (ascii_upper c) in
  Alt (Class either)
 (Alt (if either "s"%char then lit longS else Void) (if either "k"%char then lit kelvin else Void)).
Fixpoint foldedLit (s : string) : regexp :=
  match s with EmptyString => Eps | String c s' => Cat (folded (Ascii.eqb c)) (foldedLit s') end.

(** (?i)^\/subscriptions\/[^\/]+\/resourceGroups\/[a-zA-Z0-9_\-().]{0,89}[a-zA-Z0-9_\-()]
    \/providers\/Microsoft\.Network\/virtualNetworks\/[^\/]+\/subnets\/[^\/]+$ *)
Definition vnetSubnetID : regexp :=
  let part := plus (Class notSlash) in
  Cat (foldedLit "/subscriptions/") (Cat part (Cat (foldedLit "/resourceGroups/")
    (Cat (Cat (upTo 89 (folded (fun c => alnum c || isOneOf "_-()." c))) (folded (fun c => alnum c || isOneOf "_-()" c)))
    (Cat (foldedLit "/providers/Microsoft.Network/virtualNetworks/") (Cat part (Cat (foldedLit "/subnets/") part)))))).

(** ** The properties that the operator sets *)

Definition marketplaceImage (i : azurev1beta1.MarketplaceImage) : bool :=
  minLength 1 (azurev1beta1.Offer i) && minLength 1 (azurev1beta1.Publisher i)
  && minLength 1 (azurev1beta1.SKU i) && minLength 1 (azurev1beta1.ImageVersion i).

Definition tags (m : gomap string) : bool :=
  propertyMap m (fun m =>
    allKeys (maxLength 512) m
    && allKeys (fun k => negb (search (oneByteOf "<>%&?") k)) m
    && allKeys (fun k => negb (containsByte "\"%char k)) m
    && allEntries (fun _ v => maxLength 256 v) m).

(** The properties that the operator leaves out, and with which the two rules on the
    whole spec begin. *)
Definition unset (s : azurev1beta1.AKSNodeClassSpec) : Prop :=
  azurev1beta1.FIPSMode s = None /\ azurev1beta1.Kubelet s = None /\ azurev1beta1.LocalDNS s = None
  /\ azurev1beta1.GPU s = None /\ azurev1beta1.ArtifactStreaming s = None /\ azurev1beta1.LinuxOSConfig s = None.

(** The spec, when those are left out. *)
Definition spec (s : azurev1beta1.AKSNodeClassSpec) : bool :=
  propertyPtr (azurev1beta1.ImageFamily s) (enum ["Ubuntu"; "Ubuntu2204"; "Ubuntu2404"; "AzureLinux"])
  && propertyPtr (azurev1beta1.MarketplaceImageField s) marketplaceImage
  && propertyPtr (azurev1beta1.MaxPods s) (fun n => minimum 10 n && maximum 250 n)
  && propertyPtr (azurev1beta1.OSDiskSizeGB s) (fun n => minimum 30 n && maximum 2048 n)
  && tags (azurev1beta1.Tags s)
  && propertyPtr (azurev1beta1.UserData s) (maxLength 65536)
  && propertyPtr (azurev1beta1.VNETSubnetID s) (matches vnetSubnetID).

End azurecrd.
