(* ===== verification/AzureAdmission.v ===== *)
(** * Is the AKSNodeClass admitted?

    The spec the operator writes, against the CRD it installs, when the NodeClass is
    one its own CRD admits; and the status it writes back. *)

From S2P Require Import Prelude DeepEqual MetaV1 Quantity Regexp CrdSchema CoreTypes HyperTypes KarpenterV1 AzureTypes Ec2Schema AzureSchema NodeClassStatus ConditionsAdmission Hypershift AzureNodeClass.

(** ** Patterns without regard to case *)

Lemma either_case (p : ascii -> bool) c : p c = true -> p (ascii_lower c) || p (ascii_upper c) = true.
Proof.
  intros H. assert (ascii_lower c = c \/ ascii_upper c = c) as [-> | ->]; [|by rewrite H | by rewrite H, orb_true_r].
  clear H. destruct c as [[] [] [] [] [] [] [] []]; by (left; reflexivity) || (right; reflexivity).
Qed.

Lemma denotes_folded (p : ascii -> bool) c : p c = true -> denotes (azurecrd.folded p) (String c "").
Proof. intros H. apply d_Alt_l. apply d_Class. by apply either_case. Qed.

Lemma denotes_foldedLit s : denotes (azurecrd.foldedLit s) s.
Proof.
  induction s as [|c s IH]; [constructor|]. cbn [azurecrd.foldedLit].
  change (String c s) with (String c "" +:+ s). apply d_Cat; [|done]. apply denotes_folded, Ascii.eqb_refl.
Qed.

Lemma upTo_folded p k x : String.length x <= k -> allBytes p x = true -> denotes (upTo k (azurecrd.folded p)) x.
Proof.
  revert k; induction x as [|c x IH]; intros k Hk Hx; [destruct k; cbn; [constructor | apply d_Alt_l; constructor]|].
  cbn in Hx. apply andb_true_iff in Hx as [Hc Hx]. destruct k as [|k]; cbn in Hk; [lia|].
  cbn [upTo]. apply d_Alt_r. change (String c x) with (String c "" +:+ x).
  apply d_Cat; [by apply denotes_folded | apply IH; [lia | done]].
Qed.

(** ** The subnet *)

Lemma splitBy_app sep x y :
  allBytes (fun c => negb (Ascii.eqb c sep)) x = true ->
  splitBy sep (x +:+ String sep y) = x :: splitBy sep y.
Proof.
  induction x as [|c x IH]; cbn [allBytes].
  - intros _. change ("" +:+ String sep y) with (String sep y). cbn. by rewrite Ascii.eqb_refl.
  - intros [Hc Hx]%andb_true_iff. rewrite str_cons_app. cbn. apply negb_true_iff in Hc. by rewrite Hc, IH.
Qed.

(** The last byte of a text. *)
Lemma string_last s : s <> "" -> exists t c, s = t +:+ String c "".
Proof.
  induction s as [|c s IH]; [done|]. intros _. destruct s as [|d s]; [by exists "", c|].
  destruct IH as (t & e & ->); [done|]. by exists (String c t), e.
Qed.

Lemma length_app_byte t c : String.length (t +:+ String c "") = S (String.length t).
Proof. induction t as [|d t IH]; [done|]. rewrite str_cons_app. cbn. by rewrite IH. Qed.

Lemma HasSuffix_byte t c : HasSuffix (t +:+ String c "") (String c "") = true.
Proof. unfold HasSuffix. by rewrite CutSuffix_app. Qed.

(** A name of a resource group that the first CRD admits, the second does. *)
Lemma group_admitted b :
  matches (between 1 90 (Class osv1alpha1crd.groupByte)) b = true -> HasSuffix b "." = false ->
  denotes (Cat (upTo 89 (azurecrd.folded (fun c => alnum c || isOneOf "_-()." c)))
               (azurecrd.folded (fun c => alnum c || isOneOf "_-()" c))) b.
Proof.
  rewrite matches_spec. unfold between. cbn [times]. intros H Hs.
  apply denotes_Cat_inv in H as (u & v & -> & H & [Hv Hbv]%denotes_upTo).
  apply denotes_char_Cat in H as (c & e & -> & Hc & H). inversion H; subst. clear H.
  change (String c "" +:+ v) with (String c v) in *.
  assert (Hb : allBytes osv1alpha1crd.groupByte (String c v) = true) by (cbn; by rewrite Hc, Hbv).
  assert (Hl : String.length (String c v) <= 90) by (cbn; lia). clear Hc Hv Hbv. revert Hs Hb Hl.
  destruct (string_last (String c v)) as (t & d & ->); [done|]. intros Hs Hb Hl.
  rewrite allBytes_app in Hb. cbn in Hb. rewrite andb_true_r in Hb. apply andb_true_iff in Hb as [Ht Hd].
  rewrite length_app_byte in Hl.
  assert (Hm : forall x, osv1alpha1crd.groupByte x = true -> alnum x || isOneOf "_-()." x = true).
  { intros x. unfold osv1alpha1crd.groupByte. cbn. destruct (alnum x), (Ascii.eqb x "-"), (Ascii.eqb x "_"); cbn; done. }
  apply d_Cat.
  - apply upTo_folded; [lia|]. by eapply allBytes_mono, Ht.
  - apply denotes_folded. apply Hm in Hd. cbn in *. destruct (Ascii.eqb d ".") eqn:E; [|by rewrite orb_false_r in Hd |- *].
    apply Ascii.eqb_eq in E as ->. by rewrite HasSuffix_byte in Hs.
Qed.

Lemma denotes_part x : denotes (plus (Class notSlash)) x -> allBytes notSlash x = true.
Proof. by intros [_ H]%denotes_plus. Qed.

Lemma subnetPath_inv s :
  denotes osv1alpha1crd.subnetPath s ->
  exists a b c d,
    s = "/subscriptions/" +:+ (a +:+ ("/resourceGroups/" +:+ (b +:+
          ("/providers/Microsoft.Network/virtualNetworks/" +:+ (c +:+ ("/subnets/" +:+ d))))))
    /\ Forall (denotes (plus (Class notSlash))) [a; b; c; d].
Proof.
  unfold osv1alpha1crd.subnetPath.
  intros (? & ? & -> & ->%denotes_lit & (a & ? & -> & Ha & H)%denotes_Cat_inv)%denotes_Cat_inv.
  apply denotes_Cat_inv in H as (? & ? & -> & ->%denotes_lit & (b & ? & -> & Hb & H)%denotes_Cat_inv).
  apply denotes_Cat_inv in H as (? & ? & -> & ->%denotes_lit & (c & ? & -> & Hc & H)%denotes_Cat_inv).
  apply denotes_Cat_inv in H as (? & d & -> & ->%denotes_lit & Hd).
  exists a, b, c, d. split; [done|]. by repeat constructor.
Qed.

Lemma splitBy_group a b rest :
  allBytes notSlash a = true -> allBytes notSlash b = true ->
  splitBy "/"%char ("/subscriptions/" +:+ (a +:+ ("/resourceGroups/" +:+ (b +:+ String "/" rest)))) !! 4 = Some b.
Proof.
  intros Ha Hb.
  change (splitBy "/"%char ("" +:+ String "/" ("subscriptions" +:+ String "/" (a +:+ String "/"
    ("resourceGroups" +:+ String "/" (b +:+ String "/" rest))))) !! 4 = Some b).
  by rewrite !splitBy_app.
Qed.

Lemma vnetSubnetID_admitted s :
  osv1alpha1crd.vnetSubnetID s = true -> matches azurecrd.vnetSubnetID s = true.
Proof.
  unfold osv1alpha1crd.vnetSubnetID. intros H. conjuncts.
  match goal with H : matches osv1alpha1crd.subnetPath s = true |- _ =>
    apply matches_spec, subnetPath_inv in H as (a & b & c & d & -> & F) end.
  rewrite !Forall_cons in F. destruct F as (Ha & Hb & Hc & Hd & _).
  unfold osv1alpha1crd.part in *.
  match goal with H : context [splitBy _ ?s !! 4] |- _ => assert (splitBy "/"%char s !! 4 = Some b) as E end.
  { by apply splitBy_group; apply denotes_part. }
  rewrite E in *. apply matches_spec. unfold azurecrd.vnetSubnetID.
  repeat (apply d_Cat; [by first [apply denotes_foldedLit | done | apply group_admitted; [|by apply negb_true_iff]]|]).
  done.
Qed.

(** ** The other properties *)

Lemma search_weaken s cs ds :
  (forall c, existsb (Ascii.eqb c) (String.list_ascii_of_string ds) = true ->
             existsb (Ascii.eqb c) (String.list_ascii_of_string cs) = true) ->
  search (oneByteOf cs) s = false -> search (oneByteOf ds) s = false.
Proof.
  intros H Hs. destruct (search (oneByteOf ds) s) eqn:E; [|done]. rewrite <- Hs. symmetry.
  apply search_spec in E as (x & y & z & -> & (c & -> & Hc)%denotes_Class_inv).
  apply search_spec. exists x, (String c ""), z. split; [done|]. apply d_Class, H, Hc.
Qed.

Lemma tags_admitted (m : gomap string) :
  propertyPtr m osv1alpha1crd.Tags = true -> azurecrd.tags m = true.
Proof.
  unfold propertyPtr, azurecrd.tags, propertyMap. destruct m as [m|]; [|done].
  intros H. unfold osv1alpha1crd.Tags in H. conjuncts. cbn [entries default from_option id].
  destruct (hasMap _); [cbn [negb orb]|done]. unfold allKeys in *.
  rewrite !andb_true_iff. split_and!; try done; apply allEntries_spec; intros k v Hk.
  - match goal with H : allEntries (fun k _ => minLength 1 k && _) m = true |- _ =>
      pose proof (proj1 (allEntries_spec _ _) H k v Hk) as E end.
    by apply andb_true_iff in E as [_ E].
  - match goal with H : allEntries (fun k _ => negb (search _ k)) m = true |- _ =>
      pose proof (proj1 (allEntries_spec _ _) H k v Hk) as E end.
    apply negb_true_iff. apply negb_true_iff in E. eapply search_weaken; [|exact E].
    intros c. rewrite !existsb_exists. intros (d & Hd & Ed). exists d. split; [|done]. cbn in *. tauto.
Qed.

(** User data and an image that the second CRD admits. *)
Definition imageFits (p : option string * option azurev1beta1.MarketplaceImage) : Prop :=
  (forall userData, p.1 = Some userData -> (Z.of_nat (runeCount userData) <= 65536)%Z)
  /\ forall i, p.2 = Some i ->
     forall s, s ∈ [azurev1beta1.Publisher i; azurev1beta1.Offer i; azurev1beta1.SKU i; azurev1beta1.ImageVersion i] ->
     1 <= runeCount s.

(** The ones kept during an upgrade, or those of the Secret. *)
Definition imageAdmitted (base : azurev1beta1.AKSNodeClass) (nodeClass : osv1alpha1.OpenShiftAzureNodeClass)
    (hcp : HostedControlPlane) (secret : Secret) : Prop :=
  if decide (WaitsForControlPlaneUpgrade hcp (osv1alpha1.Version (osv1alpha1.Spec nodeClass)) = true /\ hasImage base)
  then imageFits (image base)
  else imageFits (Some (mget (secret_Data secret) "value"), Some (marketplaceImageFromUserDataSecret secret)).

Lemma imageFits_admitted userData i :
  propertyPtr i azurecrd.marketplaceImage && propertyPtr userData (maxLength 65536) = true
    <-> imageFits (userData, i).
Proof.
  unfold imageFits, propertyPtr. cbn [fst snd]. rewrite andb_true_iff.
  assert (match userData with None => true | Some x => maxLength 65536 x end = true <->
    forall u, userData = Some u -> (Z.of_nat (runeCount u) <= 65536)%Z) as <-.
  { destruct userData as [u|]; [|done]. unfold maxLength. rewrite Z.leb_le. naive_solver. }
  assert (match i with None => true | Some x => azurecrd.marketplaceImage x end = true <->
    forall j, i = Some j -> forall s, s ∈ [azurev1beta1.Publisher j; azurev1beta1.Offer j; azurev1beta1.SKU j;
      azurev1beta1.ImageVersion j] -> 1 <= runeCount s) as <-; [|tauto].
  destruct i as [i|]; [|done]. unfold azurecrd.marketplaceImage, minLength. rewrite !andb_true_iff, !Nat.leb_le. split.
  - intros (((? & ?) & ?) & ?) ? [= <-] s. rewrite !elem_of_cons, elem_of_nil. by intros [->|[->|[->|[->|[]]]]].
  - intros H. specialize (H i eq_refl). repeat split; apply H; set_solver.
Qed.

(** C37. The AKSNodeClass built from a NodeClass that its CRD admits is admitted by the
    CRD the operator installs exactly when the user data is at most 65536 code
    points long and the image has a publisher, an offer, a SKU and a version: those
    of the Secret or, during a control plane upgrade, those it has already.  The
    subnet, the size of the disk, the tags, the number of pods, the image family and
    the encryption are always admitted, and what the operator does not set is
    unset. *)
Theorem azure_admitted_iff double base nodeClass hcp secret aks :
  osv1alpha1crd.Spec double (osv1alpha1.Spec nodeClass) = true ->
  mutateAKSNodeClass nodeClass hcp secret base = Ok aks ->
  azurecrd.unset (azurev1beta1.Spec aks)
  /\ (azurecrd.spec (azurev1beta1.Spec aks) = true <-> imageAdmitted base nodeClass hcp secret).
Proof.
  intros V H. destruct (mutateAKSNodeClass_Ok _ _ _ _ _ H) as (_ & Hs & _). clear H.
  unfold osv1alpha1crd.Spec in V. conjuncts.
  assert (exists u i, azurev1beta1.Spec aks = azurev1beta1.set_image u i (aksNodeClassSpec (osv1alpha1.Spec nodeClass))
            /\ (imageFits (u, i) <-> imageAdmitted base nodeClass hcp secret)) as (u & i & -> & <-).
  { rewrite Hs. unfold desiredAKSSpec, imageAdmitted, hasImage, image. cbn [fst snd].
    destruct (WaitsForControlPlaneUpgrade _ _); cbn [andb]; do 2 try case_bool_decide; cbn [negb andb];
      case_decide as E; try (exfalso; tauto);
      eexists _, _; (split; [reflexivity|]); first [reflexivity | exfalso; naive_solver]. }
  split; [by repeat split|]. rewrite <- imageFits_admitted. unfold azurecrd.spec. rewrite !andb_true_iff.
  cbn [azurev1beta1.set_image aksNodeClassSpec azurev1beta1.ImageFamily azurev1beta1.MarketplaceImageField
    azurev1beta1.MaxPods azurev1beta1.OSDiskSizeGB azurev1beta1.Tags azurev1beta1.UserData azurev1beta1.VNETSubnetID].
  assert (propertyPtr (intToPtr (osv1.kc_MaxPods (osv1alpha1.Kubelet (osv1alpha1.Spec nodeClass))))
            (fun n => minimum 10 n && maximum 250 n) = true).
  { match goal with H : negb (hasInt ?n) || _ = true |- _ => revert H; unfold hasInt, intToPtr end.
    by case_bool_decide; case_decide. }
  assert (propertyPtr (Some (intOr (osv1alpha1.OSDiskSizeGiB (osv1alpha1.Spec nodeClass)) defaultOSDiskSizeGiB))
            (fun n => minimum 30 n && maximum 2048 n) = true).
  { match goal with H : propertyInt _ _ = true |- _ => revert H; unfold propertyInt, hasInt, intOr, propertyPtr end.
    by case_bool_decide; case_decide. }
  assert (propertyPtr (strToPtr (osv1alpha1.VNETSubnetID (osv1alpha1.Spec nodeClass))) (matches azurecrd.vnetSubnetID) = true).
  { match goal with H : property _ osv1alpha1crd.vnetSubnetID = true |- _ => apply property_spec in H end.
    unfold strToPtr. case_decide; [done|]. apply vnetSubnetID_admitted. tauto. }
  assert (azurecrd.tags (osv1alpha1.Tags (osv1alpha1.Spec nodeClass)) = true) by by apply tags_admitted.
  split; [intros ((((((_ & ?) & _) & _) & _) & ?) & _) | intros []]; by repeat split.
Qed.

(** ** The status *)

(** The status the operator writes back is admitted exactly when there are at most
    100 conditions and none quotes too much. *)
Theorem azure_status_admitted_iff clock nodeClass aks :
  osv1alpha1crd.Status (osv1alpha1.Status nodeClass) = true ->
  forallb condition (elems (azurev1beta1.Conditions (azurev1beta1.Status aks))) = true ->
  (0 <= om_Generation (osv1alpha1.meta nodeClass))%Z ->
  let conditions := syncedConditions clock nodeClass aks in
  osv1alpha1crd.Status (osv1alpha1.Status (osv1alpha1.set_Conditions conditions nodeClass)) = true <->
  length (elems conditions) <= 100 /\ quotable (elems conditions).
Proof.
  intros Ho Ha Hg conditions. unfold osv1alpha1crd.Status in Ho. conjuncts.
  destruct (conditions_of_admitted (osv1alpha1.Conditions (osv1alpha1.Status nodeClass))) as [Hoc Howf]; [done|].
  assert (Hp : hasList conditions = true) by apply synchronised_hasList, SyncConditions_synchronised.
  assert (Hwf : conditions_wf (elems conditions)) by by apply synced_wf.
  assert (W : forallb condition (elems conditions) = true <-> quotable (elems conditions)).
  { split; [|by apply SyncConditions_admitted]. intros F. apply SyncConditions_quotable; try done.
    intros c Hf. by eapply Find_admitted. }
  unfold osv1alpha1crd.Status, osv1alpha1crd.hasProperty. cbn [osv1alpha1.set_Conditions osv1alpha1.Status
    osv1alpha1.Conditions osv1alpha1.ReleaseImage osv1alpha1.StatusVersion].
  rewrite Hp, orb_true_r, !andb_true_iff, (conditions_admitted _ Hwf), W. tauto.
Qed.

(** ** Witnesses *)

Definition noDouble (s : string) : option Z := None.

Definition imageSecret (version : string) : Secret :=
  mkSecret (om_set_Labels (Some
      {["hypershift.openshift.io/azure-marketplace-publisher" := "azureopenshift";
        "hypershift.openshift.io/azure-marketplace-offer" := "aro4";
        "hypershift.openshift.io/azure-marketplace-sku" := "aro_422-v2";
        "hypershift.openshift.io/azure-marketplace-version" := version]}) (newMeta "clusters-b" "user-data-default"))
    (Some {["value" := "ignition-2"]}).

Definition vnetNodeClass : osv1alpha1.OpenShiftAzureNodeClass :=
  osv1alpha1.set_Spec
    (osv1alpha1.mkSpec
       "/subscriptions/12345678-1234-1234-1234-123456789abc/resourceGroups/rg-(1).a/providers/Microsoft.Network/virtualNetworks/vn/subnets/s"
       64 (Some {["Team" := "blue"]}) osv1.zeroKubelet
       (osv1alpha1.mkAzureSecurity (osv1alpha1.mkAzureEncryption "Enabled")) "") azureNodeClass.

Lemma vnetNodeClass_valid : osv1alpha1crd.Spec noDouble (osv1alpha1.Spec vnetNodeClass) = true.
Proof. vm_compute. reflexivity. Qed.

Definition isAdmitted (version : string) : bool :=
  match mutateAKSNodeClass vnetNodeClass azureUpgradingHCP (imageSecret version) (newAKSNodeClass "default") with
  | Ok aks => azurecrd.spec (azurev1beta1.Spec aks)
  | Err _ => false
  end.

Lemma not_imaged : ~ hasImage (newAKSNodeClass "default").
Proof. by intros []. Qed.

(** With a version in the Secret, and without. *)
Lemma azure_admitted_iff_witness : isAdmitted "9.6.1" = true /\ isAdmitted "" = false.
Proof.
  unfold isAdmitted. split.
  - destruct (mutateAKSNodeClass vnetNodeClass azureUpgradingHCP (imageSecret "9.6.1") (newAKSNodeClass "default"))
      as [aks|] eqn:E; [|discriminate E].
    apply (azure_admitted_iff noDouble (newAKSNodeClass "default") vnetNodeClass azureUpgradingHCP (imageSecret "9.6.1") aks
             vnetNodeClass_valid E).
    unfold imageAdmitted. rewrite decide_False by (intros [_ H]; exact (not_imaged H)). apply imageFits_admitted.
    vm_compute. reflexivity.
  - destruct (mutateAKSNodeClass vnetNodeClass azureUpgradingHCP (imageSecret "") (newAKSNodeClass "default"))
      as [aks|] eqn:E; [|reflexivity].
    destruct (azurecrd.spec (azurev1beta1.Spec aks)) eqn:A; [|reflexivity]. exfalso.
    apply (azure_admitted_iff noDouble (newAKSNodeClass "default") vnetNodeClass azureUpgradingHCP (imageSecret "") aks
             vnetNodeClass_valid E) in A.
    unfold imageAdmitted in A. rewrite decide_False in A by (intros [_ H]; exact (not_imaged H)).
    apply imageFits_admitted in A. vm_compute in A. discriminate A.
Defined.

Definition conditionsAKS : azurev1beta1.AKSNodeClass :=
  azurev1beta1.mkAKSNodeClass (newMeta "" "default") azurev1beta1.zeroSpec
    (azurev1beta1.mkStatus (Some [mkCondition "Ready" "True" 1 9 "Ready" ""])).

Lemma azure_status_admitted_iff_witness :
  osv1alpha1crd.Status (osv1alpha1.Status (osv1alpha1.set_Conditions
    (syncedConditions (fun _ => 11%Z) vnetNodeClass conditionsAKS) vnetNodeClass)) = true.
Proof.
  apply (azure_status_admitted_iff (fun _ => 11%Z) vnetNodeClass conditionsAKS); try (vm_compute; reflexivity).
  - vm_compute. discriminate.
  - split; [vm_compute; lia | exact I].
Defined.
