(* ===== verification/Interleaving.v ===== *)
(** * Reconciles that run at the same time

    A controller runs the reconciles of different requests at the same time, while
    users and other controllers change the cluster, calls fail, answers are lost
    and the process restarts, and it reads from caches that lag behind.  Class
    [Cached] states what is relied on of the API server and of the caches, [step] is
    the transition relation of the whole system, and [FinalizerProtocol] what a
    reconcile does with a parent object, its finalizer and a child object: whoever
    keeps to it leaves a child without its parent only if it took the word of a
    cache that the child is gone, and never if it asks the API server. *)

From S2P Require Import Prelude Prog DeepEqual MetaV1 CoreTypes HyperTypes AwsV1 KarpenterV1 AzureTypes Kube KubeLemmas Server.
From stdpp Require Import relations.

(** ** The server *)

(** The objects that a call may change. *)
Definition writes {X} (e : eff X) (c : cluster) (k : kind) (key : ObjectKey) : Prop :=
  match e with
  | ECreate c' k' o | EUpdate c' k' o | EDelete c' k' o _ => (c', k', keyOf o) = (c, k, key)
  | EPatch c' k' orig o _ => (c', k') = (c, k) /\ (key = keyOf orig \/ key = keyOf o)
  | EStatusPatch c' k' orig _ _ => (c', k', keyOf orig) = (c, k, key)
  | EStatusApply _ _ _ _ _ _ | EApply _ _ _ _ | EUpdateApproval _ _ => True
  | _ => False
  end.

Definition finalizersOf {k} (o : obj k) : list string := elems (om_Finalizers (meta_of o)).

Definition lastOf {A} (l : list (option A)) : option A := default None (last l).

(** Every object of [w] has been written at most once on the way to [w'], and no
    cache has gone back. *)
Definition grownIn {W}
    (history : W -> forall (c : cluster) (k : kind), ObjectKey -> list (option (obj k)))
    (shown : W -> cluster -> kind -> ObjectKey -> nat) (w w' : W) : Prop :=
  forall c k key,
    (exists new, history w' c k key = history w c k key ++ new /\ length new <= 1)
    /\ shown w c k key <= shown w' c k key.

(** The API servers, and the caches of the operator's clients: writes go to the
    server, reads are answered from the cache, which follows the server at any
    distance (controller-runtime pkg/cluster: the default client).  A call is
    answered so in [w], and leaves [w']; a write may fail, or take effect and still
    be answered with an error. *)
Class Cached (W : Type) := {
  answers : forall X, W -> eff X -> X -> W -> Prop;
  (** What has been stored under the key, oldest first; [None]: nothing. *)
  history : W -> forall (c : cluster) (k : kind), ObjectKey -> list (option (obj k));
  (** The part of it that the cache shows. *)
  shown : W -> cluster -> kind -> ObjectKey -> nat;
  shown_in w c k key : shown w c k key < length (history w c k key);
  history_key w c k key i o : history w c k key !! i = Some (Some o) -> keyOf o = key;
  answers_grows X w (e : eff X) x w' : answers X w e x w' -> grownIn history shown w w';
  answers_frame X w (e : eff X) x w' c k key :
    answers X w e x w' -> ~ writes e c k key -> history w' c k key = history w c k key;
  answers_get w c k key x w' : answers _ w (EGet c k key) x w' ->
    match x with
    | Ok o => history w' c k key !! shown w' c k key = Some (Some o)
    | Err err => IsNotFound err || IsNoMatchError err = true ->
        history w' c k key !! shown w' c k key = Some None
    end;
  (** A deletion removes or marks what is stored. *)
  answers_delete w c k o grace x w' : answers _ w (EDelete c k o grace) x w' ->
    (is_Some (lastOf (history w' c k (keyOf o))) -> is_Some (lastOf (history w c k (keyOf o))))
    /\ match x with
       | Ok _ => True
       | Err err => IsNotFound err = true -> lastOf (history w' c k (keyOf o)) = None
       end;
  (** An optimistically locked patch of a version that was read takes effect only
      while that version is stored; the last finalizer may go with the object. *)
  answers_patch w c k orig o x w' i :
    writable k = true -> keyOf o = keyOf orig -> history w c k (keyOf orig) !! i = Some (Some orig) ->
    answers _ w (EPatch c k orig o true) x w' ->
    (history w' c k (keyOf orig) = history w c k (keyOf orig) /\ exists err, x = Err err)
    \/ (length (history w c k (keyOf orig)) = S i
        /\ match lastOf (history w' c k (keyOf orig)) with
           | Some o' => finalizersOf o' = finalizersOf o
           | None => finalizersOf o = []
           end
        /\ forall o', x = Ok o' -> keyOf o' = keyOf orig);
  (** The status subresource leaves the metadata alone. *)
  answers_status w c k orig o lock x w' key :
    writable k = true -> answers _ w (EStatusPatch c k orig o lock) x w' ->
    option_map finalizersOf (lastOf (history w' c k key)) = option_map finalizersOf (lastOf (history w c k key)) }.

Section stored.
Context {W : Type} `{Cached W}.
Implicit Types (w : W).

(** What the API server has. *)
Definition stored w (c : cluster) (k : kind) (key : ObjectKey) : option (obj k) := lastOf (history w c k key).

Definition grows w w' : Prop := grownIn history shown w w'.

Lemma lastOf_lookup {A} (l : list (option A)) a : lastOf l = Some a -> l !! pred (length l) = Some (Some a).
Proof. unfold lastOf. rewrite last_lookup. by intros E; destruct (_ !! _) as [[?|]|]; cbn in E; simplify_eq. Qed.

Lemma lookup_lastOf {A} (l : list (option A)) i a : l !! i = Some a -> length l = S i -> lastOf l = a.
Proof. intros E L. unfold lastOf. rewrite last_lookup, L. cbn [pred]. by rewrite E. Qed.

Lemma stored_key w c k key o : stored w c k key = Some o -> keyOf o = key.
Proof. intros E%lastOf_lookup. by eapply history_key. Qed.

Lemma stored_frame X w (e : eff X) x w' c k key :
  answers X w e x w' -> ~ writes e c k key -> stored w' c k key = stored w c k key.
Proof. intros A N. unfold stored. by rewrite (answers_frame _ _ _ _ _ _ _ _ A N). Qed.

Lemma grows_lookup w w' c k key i (o : option (obj k)) :
  grows w w' -> history w c k key !! i = Some o -> history w' c k key !! i = Some o.
Proof. intros G E. destruct (G c k key) as [(new & -> & _) _]. by apply lookup_app_l_Some. Qed.

(** An entry of the new history is an old one, or what is stored now. *)
Lemma grows_cases w w' c k key i (o : option (obj k)) :
  grows w w' -> history w' c k key !! i = Some o ->
  history w c k key !! i = Some o \/ stored w' c k key = o.
Proof.
  intros G E. destruct (G c k key) as [(new & Eh & L) _]. unfold stored. rewrite Eh in *.
  apply lookup_app_Some in E as [E|[Hi E]]; [by left|]. right.
  destruct new as [|n [|]]; [done | | cbn in L; lia].
  apply list_lookup_singleton_Some in E as [E ->]. unfold lastOf. by rewrite last_snoc.
Qed.
End stored.

(** ** The protocol of a finalizer *)

(** The answer of a read. *)
Definition gotAt (ev : event eff) : option (cluster * ObjectKey * {k : kind & result (obj k)}) :=
  match ev with
  | @Ev _ X e x =>
      match e in eff X return X -> _ with
      | EGet c k key => fun x => Some (c, key, existT k x)
      | _ => fun _ => None
      end x
  end.
(** A patch, and its answer. *)
Definition patchedAt (ev : event eff) :
    option (cluster * bool * {k : kind & (obj k * obj k * result (obj k))%type}) :=
  match ev with
  | @Ev _ X e x =>
      match e in eff X return X -> _ with
      | EPatch c k orig o lock => fun x => Some (c, lock, existT k (orig, o, x))
      | _ => fun _ => None
      end x
  end.
(** A deletion, and its answer. *)
Definition deletedAt (ev : event eff) : option (cluster * {k : kind & (obj k * result unit)%type}) :=
  match ev with
  | @Ev _ X e x =>
      match e in eff X return X -> _ with
      | EDelete c k o _ => fun x => Some (c, existT k (o, x))
      | _ => fun _ => None
      end x
  end.

Lemma existT_inj {A} `{EqDecision A} {P : A -> Type} (a : A) (x y : P a) : existT a x = existT a y -> x = y.
Proof. apply Eqdep_dec.inj_pair2_eq_dec. solve_decision. Qed.

Lemma gotAt_inv ev c key k (x : result (obj k)) : gotAt ev = Some (c, key, existT k x) -> ev = Ev (EGet c k key) x.
Proof.
  destruct ev as [X e y]. destruct e; try done. cbn. intros [= -> -> -> E]. by apply existT_inj in E as ->.
Qed.

Lemma patchedAt_inv ev c lock k (orig o : obj k) (x : result (obj k)) :
  patchedAt ev = Some (c, lock, existT k (orig, o, x)) -> ev = Ev (EPatch c k orig o lock) x.
Proof.
  destruct ev as [X e y]. destruct e; try done. cbn. intros [= -> -> -> E1 E2 E3].
  by apply existT_inj in E1 as ->, E2 as ->, E3 as ->.
Qed.

Lemma deletedAt_inv ev c k (o : obj k) (x : result unit) :
  deletedAt ev = Some (c, existT k (o, x)) -> exists grace, ev = Ev (EDelete c k o grace) x.
Proof.
  destruct ev as [X e y]. destruct e; try done. cbn. intros [= -> -> E1 E2].
  apply existT_inj in E1 as ->. rewrite E2. by eexists.
Qed.

Section protocol.
Context (parent child : kind) (finalizer : string).
(** Whether the controller takes the word of the cache that the child is gone. *)
Context (trusting : bool).
Implicit Types (t : trace eff) (key : ObjectKey) (nc orig : obj parent) (o : obj child).

Definition gotParent key nc t : Prop :=
  exists ev, ev ∈ t /\ gotAt ev = Some (Hosted, key, existT parent (Ok nc)).

Definition marked nc : Prop := IsZero (om_DeletionTimestamp (meta_of nc)) = false.

(** [nc] carries the finalizer: it is the parent [orig] that was read, or the
    answer to the patch that adds it. *)
Definition carries orig nc t : Prop :=
  (nc = orig /\ ContainsFinalizer (meta_of orig) finalizer = true)
  \/ exists ev (o : obj parent), ev ∈ t /\ patchedAt ev = Some (Hosted, true, existT parent (orig, o, Ok nc))
       /\ meta_of o = AddFinalizer (meta_of orig) finalizer.

(** The name of the child of a cluster-scoped parent is that of the parent. *)
Definition childKey nc key : Prop := key = keyOf nc \/ key = mkObjectKey "" (om_Name (meta_of nc)).

(** The child was found to be gone. *)
Definition childGone nc t : Prop :=
  (trusting = true /\ exists ev key err, ev ∈ t /\ gotAt ev = Some (Hosted, key, existT child (Err err)) /\ childKey nc key
     /\ IsNotFound err || IsNoMatchError err = true)
  \/ exists ev o err, ev ∈ t /\ deletedAt ev = Some (Hosted, existT child (o, Err err)) /\ IsNotFound err = true
       /\ (childKey nc (keyOf o)
           \/ exists ev' key, ev' ∈ t /\ gotAt ev' = Some (Hosted, key, existT child (Ok o)) /\ childKey nc key).

Definition mayWriteChild key t (key' : ObjectKey) : Prop :=
  exists orig nc, gotParent key orig t /\ ~ marked orig /\ carries orig nc t
    /\ (childKey orig key' \/ childKey nc key').

Definition mayPatchParent key t orig (o : obj parent) (lock : bool) : Prop :=
  lock = true /\ gotParent key orig t /\ keyOf o = keyOf orig /\
  if decide (marked orig) then childGone orig t
  else ContainsFinalizer (meta_of orig) finalizer = false /\ meta_of o = AddFinalizer (meta_of orig) finalizer.

(** Two objects of some kind. *)
Definition twoOf (k : kind) (a b : obj k) : {k : kind & (obj k * obj k)%type} := existT k (a, b).

Lemma twoOf_kind k k' (a b : obj k) (a' b' : obj k') : twoOf k a b = twoOf k' a' b' -> k = k'.
Proof. apply EqdepFacts.eq_sigT_fst. Qed.

Lemma twoOf_inj k (a b a' b' : obj k) : twoOf k a b = twoOf k a' b' -> a = a' /\ b = b'.
Proof. unfold twoOf. intros E. pose proof (existT_inj _ _ _ E) as F. by injection F. Qed.

(** What the reconcile of [key] may do: the parent is read once, its finalizer is
    added before a child is written and removed when the child is gone. *)
Definition protocol key t (X : Type) (e : eff X) : Prop :=
  match e with
  | EGet c k key' => (c, k) = (Hosted, parent) -> key' = key /\ forall nc, ~ gotParent key nc t
  | ECreate c k o | EUpdate c k o =>
      (c, k) <> (Hosted, parent) /\ ((c, k) = (Hosted, child) -> mayWriteChild key t (keyOf o))
  | EDelete c k _ _ => (c, k) <> (Hosted, parent)
  | EPatch c k orig o lock => (c, k) <> (Hosted, child)
      /\ forall orig' o' : obj parent, (c, twoOf k orig o) = (Hosted, twoOf parent orig' o') ->
           mayPatchParent key t orig' o' lock
  | EStatusPatch c k _ _ _ => (c, k) <> (Hosted, child)
  | EStatusApply _ _ _ _ _ _ | EApply _ _ _ _ | EUpdateApproval _ _ => False
  | _ => True
  end.

(** A controller that keeps to it. *)
Class FinalizerProtocol (reconciles : ObjectKey -> go (result Result) -> Prop) : Prop := {
  fp_writable : writable parent = true;
  fp_distinct : parent <> child;
  fp_guarded key p : reconciles key p -> guarded (protocol key) [] p }.

End protocol.

(** ** The system *)

Section system.
Context {W : Type} `{Cached W} (parent child : kind).
(** The reconciles of a request, and what others may do. *)
Context (reconciles : ObjectKey -> go (result Result) -> Prop) (others : W -> W -> Prop).

(** A reconcile under way: the calls it has made, and the rest of it. *)
Record thread := mkThread { th_history : trace eff; th_rest : go (result Result) }.

(** A reconcile of [key] that has not read a live parent is told by the cache that
    the child does not exist, which the API server has. *)
Definition misleads (key : ObjectKey) (t : trace eff) (ev : event eff) (w : W) : Prop :=
  (forall nc : obj parent, gotParent parent key nc t -> marked parent nc)
  /\ (exists err, gotAt ev = Some (Hosted, key, existT child (Err err))
        /\ IsNotFound err || IsNoMatchError err = true)
  /\ is_Some (stored w Hosted child key).

(** [sy_misled] are the requests this has happened to. *)
Record system := mkSystem {
  sy_world : W; sy_threads : ObjectKey -> option thread; sy_misled : ObjectKey -> Prop }.

Definition setThread (key : ObjectKey) (th : option thread) (ths : ObjectKey -> option thread) :
    ObjectKey -> option thread := fun key' => if decide (key' = key) then th else ths key'.

Definition alsoMisled (key : ObjectKey) (t : trace eff) (ev : event eff) (w : W) (misled : ObjectKey -> Prop) :
    ObjectKey -> Prop := fun key' => misled key' \/ (key' = key /\ misleads key t ev w).

(** The work queue hands out a request again only when its reconcile has returned.
    The kinds are cluster scoped.  The caches of a restarted process start no
    further back than the old ones have come. *)
Inductive step : system -> system -> Prop :=
| step_start w ths m key p :
    ths key = None -> key_Namespace key = "" -> reconciles key p ->
    step (mkSystem w ths m) (mkSystem w (setThread key (Some (mkThread [] p)) ths) m)
| step_call w ths m key t X (e : eff X) k x w' :
    ths key = Some (mkThread t (Vis e k)) -> answers X w e x w' ->
    step (mkSystem w ths m)
      (mkSystem w' (setThread key (Some (mkThread (t ++ [Ev e x]) (k x))) ths) (alsoMisled key t (Ev e x) w' m))
| step_return w ths m key t r :
    ths key = Some (mkThread t (Ret r)) ->
    step (mkSystem w ths m) (mkSystem w (setThread key None ths) m)
| step_crash w ths m : step (mkSystem w ths m) (mkSystem w (fun _ => None) m)
| step_others w ths m w' : others w w' -> step (mkSystem w ths m) (mkSystem w' ths m).

End system.

(** ** No child without its parent *)

Section invariant.
Context {W : Type} `{Cached W} (parent child : kind) (finalizer : string) (trusting : bool).
Implicit Types (w : W) (t : trace eff) (key : ObjectKey) (nc orig : obj parent) (o : obj child)
  (m : ObjectKey -> Prop).

(** The parent is stored, with the finalizer. *)
Definition protected w key : Prop :=
  exists nc, stored w Hosted parent key = Some nc /\ ContainsFinalizer (meta_of nc) finalizer = true.

Definition noOrphans w : Prop := forall key, is_Some (stored w Hosted child key) -> protected w key.

(** Whatever the cache may still show: a live parent with the finalizer is there. *)
Definition cacheSound w key : Prop :=
  forall i nc, shown w Hosted parent key <= i -> history w Hosted parent key !! i = Some (Some nc) ->
    ~ marked parent nc -> ContainsFinalizer (meta_of nc) finalizer = true -> protected w key.

(** What others do to a parent and its child: they neither remove the finalizer
    nor create a child. *)
Definition quiet key w w' : Prop :=
  (protected w key -> protected w' key)
  /\ (stored w Hosted child key = None -> stored w' Hosted child key = None).
Definition othersQuiet w w' : Prop := grows w w' /\ forall key, quiet key w w'.

(** The child is gone, or a controller that takes a cache's word for it was misled. *)
Definition goneFor m w key : Prop := stored w Hosted child key = None \/ (trusting = true /\ m key).

(** What the history of a reconcile says of the cluster. *)
Record sound w m key t : Prop := mkSound {
  s_cluster : key_Namespace key = "";
  s_read nc : gotParent parent key nc t ->
    exists i, history w Hosted parent key !! i = Some (Some nc) /\ i <= shown w Hosted parent key;
  s_once nc nc' : gotParent parent key nc t -> gotParent parent key nc' t -> nc = nc';
  s_patched ev orig (o : obj parent) nc : ev ∈ t -> patchedAt ev = Some (Hosted, true, existT parent (orig, o, Ok nc)) ->
    gotParent parent key orig t /\ keyOf nc = keyOf orig;
  s_child ev key' o : ev ∈ t -> gotAt ev = Some (Hosted, key', existT child (Ok o)) -> keyOf o = key';
  s_live orig nc : gotParent parent key orig t -> ~ marked parent orig ->
    carries parent finalizer orig nc t -> protected w key;
  s_gone : (forall nc, gotParent parent key nc t -> marked parent nc) ->
    (trusting = true /\ exists ev err, ev ∈ t /\ gotAt ev = Some (Hosted, key, existT child (Err err))
       /\ IsNotFound err || IsNoMatchError err = true)
    \/ (exists ev o err, ev ∈ t /\ deletedAt ev = Some (Hosted, existT child (o, Err err))
       /\ IsNotFound err = true /\ keyOf o = key) ->
    goneFor m w key }.

Lemma s_key w m key t nc : sound w m key t -> gotParent parent key nc t -> keyOf nc = key.
Proof. intros S (i & E & _)%(s_read _ _ _ _ S). by eapply history_key. Qed.

Definition soundSystem (s : system (W := W)) : Prop :=
  (forall key, is_Some (stored (sy_world s) Hosted child key) ->
     protected (sy_world s) key \/ (trusting = true /\ sy_misled s key))
  /\ (forall key, cacheSound (sy_world s) key)
  /\ forall key t p, sy_threads s key = Some (mkThread t p) ->
       sound (sy_world s) (sy_misled s) key t /\ guarded (protocol parent child finalizer trusting key) t p.

(** ** Histories grow *)

Lemma gotParent_snoc key nc t ev :
  gotParent parent key nc (t ++ [ev]) <->
  gotParent parent key nc t \/ gotAt ev = Some (Hosted, key, existT parent (Ok nc)).
Proof.
  unfold gotParent. setoid_rewrite elem_of_app. setoid_rewrite list_elem_of_singleton. naive_solver.
Qed.

Lemma goneFor_mono (m m' : ObjectKey -> Prop) w w' key :
  (stored w Hosted child key = None -> stored w' Hosted child key = None) -> (m key -> m' key) ->
  goneFor m w key -> goneFor m' w' key.
Proof. intros H1 H2 [?|[? ?]]; [left | right]; auto. Qed.

Lemma sound_quiet w w' m m' key t :
  sound w m key t -> grows w w' -> quiet key w w' -> (m key -> m' key) -> sound w' m' key t.
Proof.
  intros [H1 H2 H3 H4 H5 H6 H7] G [Q1 Q2] Hm. split; try done; [|by eauto|].
  - intros nc (i & E & L)%H2. exists i. split; [by eapply grows_lookup|].
    etrans; [exact L | apply G].
  - intros M E. eapply goneFor_mono; [exact Q2 | exact Hm | by apply H7].
Qed.

(** What is new in the history of the parent is stored now. *)
Lemma cacheSound_grows w w' key :
  grows w w' -> cacheSound w key -> (protected w key -> protected w' key) -> cacheSound w' key.
Proof.
  intros G S Q i nc L E M F. destruct (grows_cases _ _ _ _ _ _ _ G E) as [E'|E']; [|by exists nc].
  apply Q, (S i nc); [|done..]. etrans; [|exact L]. apply G.
Qed.

Lemma protected_finalizers w w' key :
  option_map finalizersOf (stored w' Hosted parent key) = option_map finalizersOf (stored w Hosted parent key) ->
  protected w key -> protected w' key.
Proof.
  intros E (nc & S & F). rewrite S in E. destruct (stored w' _ _ _) as [nc'|] eqn:S'; [|done]. injection E as E.
  exists nc'. split; [done|]. unfold ContainsFinalizer, finalizersOf in *. by rewrite E.
Qed.

(** ** One call *)

(** A live parent was read that carries the finalizer. *)
Definition liveRead key t : Prop :=
  exists orig nc, gotParent parent key orig t /\ ~ marked parent orig /\ carries parent finalizer orig nc t.

Lemma childKey_unique nc key key' :
  key_Namespace key = "" -> keyOf nc = key -> childKey parent nc key' -> key' = key.
Proof.
  intros Hn <- [->| ->]; [done|]. unfold keyOf, ObjectKeyFromObject in *. cbn in Hn. by rewrite Hn.
Qed.

Lemma mayWriteChild_live w m key t key' :
  sound w m key t -> mayWriteChild parent finalizer key t key' -> key' = key /\ liveRead key t.
Proof.
  intros S (orig & nc & G & L & C & K). split; [|by exists orig, nc].
  pose proof (s_key _ _ _ _ _ S G) as Hk. pose proof (s_cluster _ _ _ _ S) as Hn.
  destruct K as [K|K]; [by apply (childKey_unique orig)|].
  apply (childKey_unique nc); [done| |done]. destruct C as [[-> _]|(ev & o & He & Hp & _)]; [done|].
  by rewrite (proj2 (s_patched _ _ _ _ S _ _ _ _ He Hp)).
Qed.

Lemma childGone_evidence w m key t nc :
  sound w m key t -> gotParent parent key nc t -> marked parent nc -> childGone parent child trusting nc t ->
  goneFor m w key.
Proof.
  intros S G M C. pose proof (s_key _ _ _ _ _ S G) as Hk. pose proof (s_cluster _ _ _ _ S) as Hn.
  apply (s_gone _ _ _ _ S).
  { intros nc' G'. by rewrite (s_once _ _ _ _ S _ _ G' G). }
  destruct C as [(Ht & ev & key' & err & He & Hg & K & N)|(ev & o & err & He & Hd & N & K)].
  - left. split; [done|]. exists ev, err. by rewrite <- (childKey_unique nc key key').
  - right. exists ev, o, err. split; [done|]. split; [done|]. split; [done|].
    destruct K as [K|(ev' & key' & He' & Hg & K)]; [by apply (childKey_unique nc)|].
    rewrite (s_child _ _ _ _ S _ _ _ He' Hg). by apply (childKey_unique nc).
Qed.

(** The parent as it was read, and patched while it was stored so. *)
Definition releasedIn w key t : Prop := exists orig i,
  gotParent parent key orig t /\ marked parent orig
  /\ history w Hosted parent key !! i = Some (Some orig) /\ i <= shown w Hosted parent key
  /\ length (history w Hosted parent key) = S i.

Section call.
Context (w w' : W) (m : ObjectKey -> Prop) (key : ObjectKey) (t : trace eff) (ev : event eff).
Context (S : sound w m key t) (P : protocol parent child finalizer trusting key t _ (ev_call ev))
  (A : answers _ w (ev_call ev) (ev_answer ev) w').

(** Only a live reconcile creates a child, its own. *)
Lemma child_effect key' :
  stored w Hosted child key' = None -> stored w' Hosted child key' = None \/ (key' = key /\ liveRead key t).
Proof using S P A.
  intros N. destruct ev as [X e x]; destruct e as [c k gk|c k opts|c k o|c k o|c k orig o lock|c k orig o lock|c k o gr| | | | |];
    cbn [ev_call ev_answer ev_type protocol] in *; try done.
  all: try (left; rewrite <- N; eapply stored_frame; [exact A | by intros []]).
  1-2: destruct P as [_ P']; destruct (decide ((c, k, keyOf o) = (Hosted, child, key'))) as [E|E];
    [injection E as -> -> <-; right; by eapply mayWriteChild_live; [|apply P']
    | left; rewrite <- N; eapply stored_frame; [exact A | done]].
  - left. rewrite <- N. eapply stored_frame; [exact A|]. cbn. tauto.
  - left. rewrite <- N. eapply stored_frame; [exact A|]. cbn. naive_solver.
  - left. destruct (decide ((c, k, keyOf o) = (Hosted, child, key'))) as [E|E];
      [|rewrite <- N; eapply stored_frame; [exact A | done]].
    injection E as -> -> <-. apply answers_delete in A as [A _]. fold (stored w' Hosted child (keyOf o)) in A.
    fold (stored w Hosted child (keyOf o)) in A. rewrite N in A.
    destruct (stored w' _ _ _); [|done]. by destruct A.
Qed.

(** Only a reconcile that took the child for gone removes the finalizer. *)
Lemma parent_effect key' :
  writable parent = true -> parent <> child ->
  protected w key' -> protected w' key' \/ (key' = key /\ goneFor m w' key /\ releasedIn w key t).
Proof using S P A.
  intros Hw Hd N.
  assert (Hsame : stored w' Hosted parent key' = stored w Hosted parent key' -> protected w' key').
  { intros E. apply (protected_finalizers w); [by rewrite E | done]. }
  destruct ev as [X e x]; destruct e as [c k gk|c k opts|c k o|c k o|c k orig o lock|c k orig o lock|c k o gr| | | | |];
    cbn [ev_call ev_answer ev_type protocol] in *; try done.
  all: try (left; apply Hsame; eapply stored_frame; [exact A | by intros []]).
  1-2: destruct P as [P' _]; left; apply Hsame; eapply stored_frame; [exact A | cbn; naive_solver].
  3: left; apply Hsame; eapply stored_frame; [exact A | cbn; naive_solver].
  2: destruct (decide ((c, k) = (Hosted, parent))) as [E|E];
    [injection E as -> ->; left; apply (protected_finalizers w); [by eapply answers_status | done]
    | left; apply Hsame; eapply stored_frame; [exact A | cbn; naive_solver]].
  destruct (decide ((c, k) = (Hosted, parent))) as [E|E];
    [injection E as -> -> | left; apply Hsame; eapply stored_frame; [exact A | cbn; naive_solver]].
  destruct P as [_ P']. destruct (P' orig o eq_refl) as (-> & G & K & R). pose proof (s_key _ _ _ _ _ S G) as Hk.
  destruct (decide (key' = key)) as [->|Nk].
  2: { left. apply Hsame. eapply stored_frame; [exact A|]. cbn. rewrite K, Hk. naive_solver. }
  destruct (s_read _ _ _ _ S _ G) as (i & Ei & Li). rewrite <- Hk in Ei.
  destruct (answers_patch _ _ _ _ _ _ _ i Hw K Ei A) as [[A' _]|(Len & A' & _)]; rewrite Hk in *.
  { left. apply Hsame. unfold stored. by rewrite A'. }
  destruct (decide (marked parent orig)) as [M|M].
  { right. split; [done|]. split; [|by exists orig, i].
    eapply goneFor_mono; [| done | by eapply (childGone_evidence w m key t orig)].
    intros <-. apply (stored_frame _ _ _ _ _ _ _ _ A). cbn; naive_solver. }
  left. destruct R as [_ R]. pose proof (ContainsFinalizer_Add (meta_of orig) finalizer finalizer) as F.
  rewrite bool_decide_true in F by done. rewrite <- R in F. unfold ContainsFinalizer in F. unfold finalizersOf in A'.
  fold (stored w' Hosted parent key) in A'.
  destruct (stored w' Hosted parent key) as [o'|] eqn:So; [|by rewrite A' in F].
  exists o'. split; [done|]. unfold ContainsFinalizer. by rewrite A'.
Qed.
End call.

Lemma got_call ev c key k (x : result (obj k)) w w' :
  gotAt ev = Some (c, key, existT k x) -> answers _ w (ev_call ev) (ev_answer ev) w' ->
  answers _ w (EGet c k key) x w'.
Proof. by intros ->%gotAt_inv. Qed.

Lemma sound_child w w' m key t ev key' o :
  sound w m key t -> answers _ w (ev_call ev) (ev_answer ev) w' ->
  forall ev', ev' ∈ t ++ [ev] -> gotAt ev' = Some (Hosted, key', existT child (Ok o)) -> keyOf o = key'.
Proof.
  intros S A ev' [He| ->%list_elem_of_singleton]%elem_of_app Hg; [by apply (s_child _ _ _ _ S ev')|].
  pose proof (answers_get _ _ _ _ _ _ (got_call _ _ _ _ _ _ _ Hg A)) as E.
  exact (history_key _ _ _ _ _ _ E).
Qed.

Section next.
Context (w w' : W) (m : ObjectKey -> Prop) (key : ObjectKey) (t : trace eff) (ev : event eff).
Context (S : sound w m key t) (P : protocol parent child finalizer trusting key t _ (ev_call ev))
  (A : answers _ w (ev_call ev) (ev_answer ev) w').
Context (Hw : writable parent = true) (Hd : parent <> child) (Hcache : forall key, cacheSound w key).
Let m' := alsoMisled parent child key t ev w' m.

Lemma next_grows : grows w w'.
Proof using A. eapply answers_grows, A. Qed.

(** The parent is read once. *)
Lemma next_read nc :
  gotAt ev = Some (Hosted, key, existT parent (Ok nc)) ->
  history w' Hosted parent key !! shown w' Hosted parent key = Some (Some nc)
  /\ forall nc', ~ gotParent parent key nc' t.
Proof using P A.
  intros Hg. split; [exact (answers_get _ _ _ _ _ _ (got_call _ _ _ _ _ _ _ Hg A))|].
  apply gotAt_inv in Hg. revert P. rewrite Hg. cbn. intros P'. by apply P'.
Qed.

Lemma next_once nc nc' :
  gotParent parent key nc (t ++ [ev]) -> gotParent parent key nc' (t ++ [ev]) -> nc = nc'.
Proof using S P A.
  rewrite !gotParent_snoc. intros [G|G] [G'|G'].
  - by apply (s_once _ _ _ _ S).
  - by apply next_read in G' as (_ & []%(fun H => H nc)).
  - by apply next_read in G as (_ & []%(fun H => H nc')).
  - rewrite G in G'. injection G' as E. by apply existT_inj in E as [= ->].
Qed.

(** The patch that adds the finalizer. *)
Lemma next_patched orig (o : obj parent) nc :
  patchedAt ev = Some (Hosted, true, existT parent (orig, o, Ok nc)) ->
  gotParent parent key orig t /\ keyOf nc = keyOf orig /\ (~ marked parent orig -> protected w' key).
Proof using S P A Hw.
  intros Hp%patchedAt_inv. revert P A. rewrite Hp. cbn. intros [_ P'] A'.
  destruct (P' orig o eq_refl) as (_ & G & K & R). split; [done|]. pose proof (s_key _ _ _ _ _ S G) as Hk.
  destruct (s_read _ _ _ _ S _ G) as (i & Ei & Li). rewrite <- Hk in Ei.
  apply (answers_patch _ _ _ _ _ _ _ i Hw K Ei) in A'. rewrite Hk in *.
  destruct A' as [[_ [err ?]]|(_ & A' & N)]; [done|].
  split; [by apply N|]. intros M. rewrite decide_False in R by done. destruct R as [_ R].
  pose proof (ContainsFinalizer_Add (meta_of orig) finalizer finalizer) as F.
  rewrite bool_decide_true in F by done. rewrite <- R in F. unfold ContainsFinalizer in F. unfold finalizersOf in A'.
  fold (stored w' Hosted parent key) in A'.
  destruct (stored w' Hosted parent key) as [o'|] eqn:So; [|by rewrite A' in F].
  exists o'. split; [done|]. unfold ContainsFinalizer. by rewrite A'.
Qed.

(** A release is of the last version, which the cache has shown and is marked. *)
Lemma next_cacheSound key' : cacheSound w' key'.
Proof using S P A Hw Hd Hcache.
  intros i nc L E M F. pose proof next_grows as Gr.
  destruct (grows_cases _ _ _ _ _ _ _ Gr E) as [E'|E']; [|by exists nc].
  assert (shown w Hosted parent key' <= shown w' Hosted parent key') as Ls by apply Gr.
  destruct (parent_effect w w' m key t ev S P A key' Hw Hd) as [?|(-> & _ & orig & j & _ & Mo & Ej & Lj & Len)];
    [by apply (Hcache key' i nc); [lia|..] | done |].
  pose proof (lookup_lt_Some _ _ _ E') as Hi. assert (i = j) as -> by lia. by simplify_eq.
Qed.

Lemma next_protected :
  protected w key -> (exists orig, gotParent parent key orig (t ++ [ev]) /\ ~ marked parent orig) -> protected w' key.
Proof using S P A Hw Hd.
  intros Hp (orig & G & M).
  destruct (parent_effect w w' m key t ev S P A key Hw Hd Hp) as [?|(_ & _ & nc & i & G' & M' & _)]; [done|].
  destruct M. rewrite (next_once orig nc); [done..|]. apply gotParent_snoc. by left.
Qed.

Lemma next_live orig nc :
  gotParent parent key orig (t ++ [ev]) -> ~ marked parent orig ->
  carries parent finalizer orig nc (t ++ [ev]) -> protected w' key.
Proof using S P A Hw Hd Hcache.
  intros G M C. assert (HG := G). apply gotParent_snoc in G as [G|G].
  - destruct C as [C|(ev' & o & [He| ->%list_elem_of_singleton]%elem_of_app & Hp & Ho)].
    + apply next_protected; [|by exists orig]. apply (s_live _ _ _ _ S orig nc); [done..|by left].
    + apply next_protected; [|by exists orig]. apply (s_live _ _ _ _ S orig nc); [done..|right; by exists ev', o].
    + by apply (next_patched _ _ _ Hp).
  - destruct (next_read orig G) as (Hs & Hno). destruct C as [[-> F]|(ev' & o & He & Hp & _)].
    { by apply (next_cacheSound key (shown w' Hosted parent key) orig). }
    exfalso. apply (Hno orig). apply elem_of_app in He as [He| ->%list_elem_of_singleton].
    + by apply (s_patched _ _ _ _ S ev' orig o nc).
    + by apply (next_patched _ _ _ Hp).
Qed.

Lemma next_gone :
  (forall nc, gotParent parent key nc (t ++ [ev]) -> marked parent nc) ->
  (trusting = true /\ exists ev' err, ev' ∈ t ++ [ev] /\ gotAt ev' = Some (Hosted, key, existT child (Err err))
     /\ IsNotFound err || IsNoMatchError err = true)
  \/ (exists ev' o err, ev' ∈ t ++ [ev] /\ deletedAt ev' = Some (Hosted, existT child (o, Err err))
     /\ IsNotFound err = true /\ keyOf o = key) ->
  goneFor m' w' key.
Proof using S P A.
  intros M E.
  assert (Hm : forall nc, gotParent parent key nc t -> marked parent nc) by (intros; apply M, gotParent_snoc; by left).
  assert (Hkeep : goneFor m w key -> goneFor m' w' key).
  { apply goneFor_mono; [|by left]. intros N.
    destruct (child_effect w w' m key t ev S P A key N) as [?|(_ & orig & nc & G & L & _)]; [done|].
    by destruct L; apply Hm. }
  destruct E as [(Ht & ev' & err & He & Hg & N)|(ev' & o & err & He & Hg & N & K)];
    apply elem_of_app in He as [He| ->%list_elem_of_singleton].
  - apply Hkeep, (s_gone _ _ _ _ S); [done|]. left. split; [done|]. by exists ev', err.
  - destruct (stored w' Hosted child key) eqn:So; [right | by left]. split; [done|]. right. split; [done|].
    split; [done|]. split; [by exists err | by rewrite So].
  - apply Hkeep, (s_gone _ _ _ _ S); [done|]. right. by exists ev', o, err.
  - left. apply deletedAt_inv in Hg as [gr Hg]. revert A. rewrite Hg. cbn. intros [_ A']%answers_delete.
    rewrite <- K. by apply A'.
Qed.

Lemma next_sound : sound w' m' key (t ++ [ev]).
Proof using S P A Hw Hd Hcache.
  split.
  - apply S.
  - intros nc [G|G]%gotParent_snoc.
    + destruct (s_read _ _ _ _ S _ G) as (i & E & L). exists i. split; [by eapply grows_lookup, E; apply next_grows|].
      etrans; [exact L | apply next_grows].
    + exists (shown w' Hosted parent key). split; [by apply next_read | done].
  - apply next_once.
  - intros ev' orig o nc [He| ->%list_elem_of_singleton]%elem_of_app Hp.
    + rewrite gotParent_snoc. destruct (s_patched _ _ _ _ S ev' orig o nc); [done..|]. tauto.
    + rewrite gotParent_snoc. destruct (next_patched _ _ _ Hp) as (? & ? & _). tauto.
  - intros ev' key' o. by apply (sound_child w w' m key t ev key' o).
  - apply next_live.
  - apply next_gone.
Qed.

Lemma next_others key' : key' <> key -> quiet key' w w'.
Proof using S P A Hw Hd.
  intros N. split.
  - intros Hp. destruct (parent_effect w w' m key t ev S P A key' Hw Hd Hp) as [?|(? & _)]; done.
  - intros Hc. destruct (child_effect w w' m key t ev S P A key' Hc) as [?|(? & _)]; done.
Qed.

Lemma next_noOrphans :
  (forall key, is_Some (stored w Hosted child key) -> protected w key \/ (trusting = true /\ m key)) ->
  forall key, is_Some (stored w' Hosted child key) -> protected w' key \/ (trusting = true /\ m' key).
Proof using S P A Hw Hd.
  intros I key' Hc.
  assert (protected w key' \/ (trusting = true /\ m key')) as [Hp|[? ?]].
  { destruct (stored w Hosted child key') as [o|] eqn:E; [by apply I; eexists|].
    destruct (child_effect w w' m key t ev S P A key' E) as [?|(-> & orig & nc & G & L & C)].
    - destruct Hc as [? Hc]. congruence.
    - left. by apply (s_live _ _ _ _ S orig nc). }
  - destruct (parent_effect w w' m key t ev S P A key' Hw Hd Hp) as [?|(-> & [N|[? ?]] & _)]; [by left | |].
    + destruct Hc as [? Hc]. congruence.
    + right. split; [done | by left].
  - right. split; [done | by left].
Qed.
End next.

(** ** The system *)

Lemma sound_start w m key : key_Namespace key = "" -> sound w m key [].
Proof.
  intros Hn.
  assert (Hg : forall nc, ~ gotParent parent key nc []) by (intros nc (ev & []%elem_of_nil & _)).
  split; try done; try (by intros; match goal with H : gotParent _ _ _ [] |- _ => apply Hg in H end);
    try (by intros ev ? ? ? []%elem_of_nil); try (by intros ev ? ? []%elem_of_nil).
  intros _ [(_ & ev & err & []%elem_of_nil & _)|(ev & o & err & []%elem_of_nil & _)].
Qed.

Context (reconciles : ObjectKey -> go (result Result) -> Prop)
  `{!FinalizerProtocol parent child finalizer trusting reconciles}.
Context (others : W -> W -> Prop) (Ho : forall w w', others w w' -> othersQuiet w w').

Lemma setThread_Some key key' th ths (th' : thread) :
  setThread key th ths key' = Some th' -> (key' = key /\ th = Some th') \/ (key' <> key /\ ths key' = Some th').
Proof. unfold setThread. case_decide; [by left | by right]. Qed.

(** Every step keeps it. *)
Lemma step_sound s s' :
  step parent child reconciles others s s' -> soundSystem s -> soundSystem s'.
Proof using Ho FinalizerProtocol0.
  intros St (I & C & T).
  destruct St as [w ths m key p E N R|w ths m key t X e k x w' E A|w ths m key t r E|w ths m|w ths m w' O];
    cbn [sy_world sy_threads sy_misled] in *.
  - do 2 (split; [done|]). intros key' t p' [[-> [= <- <-]]|[_ E']]%setThread_Some; [|by apply T].
    split; [by apply sound_start|]. by apply (fp_guarded parent child finalizer trusting).
  - destruct (T key t _ E) as [S [P G]].
    pose proof (fp_writable parent child finalizer trusting) as Hw.
    pose proof (fp_distinct parent child finalizer trusting) as Hd.
    split; [by apply (next_noOrphans w w' m key t (Ev e x))|].
    split; [by apply (next_cacheSound w w' m key t (Ev e x))|].
    intros key' t' p' [[-> [= <- <-]]|[Nk E']]%setThread_Some.
    + split; [by apply (next_sound w) | apply G].
    + destruct (T key' t' p' E') as [S' G']. split; [|done].
      apply (sound_quiet w w' m); [done | by apply (answers_grows _ _ _ _ _ A) | | by left].
      by apply (next_others w w' m key t (Ev e x)).
  - do 2 (split; [done|]). intros key' t' p' [[-> [=]]|[_ E']]%setThread_Some. by apply T.
  - done.
  - destruct (Ho _ _ O) as [G Q]. split; [|split].
    + intros key Hc. destruct (Q key) as [Q1 Q2]. destruct (stored w Hosted child key) as [o|] eqn:E.
      * destruct (I key) as [Hp|?]; [by rewrite E | by left; apply Q1 | by right].
      * destruct Hc as [? Hc]. cbn [sy_world] in Hc. by rewrite Q2 in Hc.
    + intros key. apply (cacheSound_grows w); [done..|]. apply Q.
    + intros key t p E. destruct (T key t p E) as [S Gd]. split; [|done]. by apply (sound_quiet w w' m).
Qed.

(** However the reconciles interleave with each other and with others, a child is
    without its parent only after a trusting controller was misled. *)
Lemma reachable_sound s s' :
  rtc (step parent child reconciles others) s s' -> soundSystem s -> soundSystem s'.
Proof using Ho FinalizerProtocol0. induction 1 as [|s1 s2 s3 St _ IH]; [done|]. intros H1. by apply IH, (step_sound s1). Qed.

(** The operator starts with caches that show the parents as they are. *)
Definition caughtUp w : Prop :=
  forall key, length (history w Hosted parent key) = 1 + shown w Hosted parent key.

Lemma caughtUp_cacheSound w key : caughtUp w -> cacheSound w key.
Proof.
  intros H0 i nc L E M F. pose proof (lookup_lt_Some _ _ _ E) as Hi. pose proof (H0 key) as Hl.
  exists nc. split; [|done]. by apply (lookup_lastOf _ i); [|lia].
Qed.

Lemma reachable_noOrphans w m s' key :
  caughtUp w -> noOrphans w ->
  rtc (step parent child reconciles others) (mkSystem w (fun _ => None) m) s' ->
  is_Some (stored (sy_world s') Hosted child key) ->
  protected (sy_world s') key \/ (trusting = true /\ sy_misled s' key).
Proof using Ho FinalizerProtocol0.
  intros Hc I R. apply (reachable_sound _ _ R). split; [|split].
  - intros key' Hs. left. by apply I.
  - intros key'. by apply caughtUp_cacheSound.
  - done.
Qed.

End invariant.
