(* ===== verification/CachedStore.v ===== *)
(** * A store behind caches

    API servers that keep what was stored under each key, caches that show some
    earlier part of it, and a connection that refuses calls and loses answers: an
    instance of [Cached], so what Interleaving asks of the API servers and of the
    caches can hold.  [serveWith] answers at once, from caches of which some follow
    the server and some do not. *)

From S2P Require Import Prelude Prog DeepEqual MetaV1 CoreTypes HyperTypes AwsV1 KarpenterV1 AzureTypes Kube KubeLemmas Defaults Server Store Interleaving.
From stdpp Require Import relations.

(** ** Histories *)

(** What was stored under a key, and the position of the cache in it. *)
Record slot (k : kind) := mkSlot { sl_history : list (option (obj k)); sl_shown : nat }.
Arguments mkSlot {k}. Arguments sl_history {k}. Arguments sl_shown {k}.

Definition emptySlot (k : kind) : slot k := mkSlot [None] 0.

Definition slots := cluster -> forall k : kind, gmap ObjectKey (slot k).
Definition slotIn (st : slots) (c : cluster) (k : kind) (key : ObjectKey) : slot k := default (emptySlot k) (st c k !! key).

(** The resource version of the [n]th write. *)
Fixpoint version (n : nat) : string := match n with 0 => "" | S n => String "1" (version n) end.

Lemma version_inj n n' : version n = version n' -> n = n'.
Proof. revert n'; induction n as [|n IH]; intros [|n']; cbn; try done. intros [= ->%IH]. done. Qed.

Definition om_set_ResourceVersion (v : string) (m : ObjectMeta) : ObjectMeta :=
  mkObjectMeta (om_Name m) (om_Namespace m) (om_UID m) v (om_Generation m) (om_DeletionTimestamp m)
    (om_Labels m) (om_Annotations m) (om_OwnerReferences m) (om_Finalizers m).

Definition stamped {k} (n : nat) (o : obj k) : obj k := defaulted (setMeta (om_set_ResourceVersion (version n) (meta_of o)) o).

Lemma keyOf_stamped {k} n (o : obj k) : keyOf (stamped n o) = keyOf o.
Proof. by destruct k. Qed.

Lemma isGone_stamped {k} n (o : obj k) : isGone (meta_of (stamped n o)) = isGone (meta_of o).
Proof. by destruct k. Qed.

Lemma finalizersOf_stamped {k} n (o : obj k) : finalizersOf (stamped n o) = finalizersOf o.
Proof. by destruct k. Qed.

Lemma version_stamped {k} n (o : obj k) :
  writable k = true -> om_ResourceVersion (meta_of (stamped n o)) = version n.
Proof. intros Hk. unfold stamped. by rewrite defaulted_meta, meta_setMeta. Qed.

(** What is stored by the [n]th write. *)
Definition entry {k} (n : nat) (o : obj k) : option (obj k) :=
  if isGone (meta_of o) then None else Some (stamped n o).

Definition wf_slot {k} (key : ObjectKey) (s : slot k) : Prop :=
  sl_shown s < length (sl_history s) /\ forall i o, sl_history s !! i = Some (Some o) ->
    keyOf o = key /\ isGone (meta_of o) = false /\ (writable k = true -> om_ResourceVersion (meta_of o) = version i).

Lemma wf_empty k key : wf_slot key (emptySlot k).
Proof. split; [cbn; lia|]. by intros [|i] o. Qed.

Definition wf_slots (st : slots) : Prop := forall c k key, wf_slot key (slotIn st c k key).

Record cached := mkCached { cw_slots : slots; cw_wf : wf_slots cw_slots }.

Definition historyC (w : cached) (c : cluster) (k : kind) (key : ObjectKey) : list (option (obj k)) :=
  sl_history (slotIn (cw_slots w) c k key).
Definition shownC (w : cached) (c : cluster) (k : kind) (key : ObjectKey) : nat :=
  sl_shown (slotIn (cw_slots w) c k key).
Definition latest (w : cached) (c : cluster) (k : kind) (key : ObjectKey) : option (obj k) := lastOf (historyC w c k key).

Lemma historyC_wf w c k key i (o : obj k) : historyC w c k key !! i = Some (Some o) ->
  keyOf o = key /\ isGone (meta_of o) = false /\ (writable k = true -> om_ResourceVersion (meta_of o) = version i).
Proof. apply (cw_wf w). Qed.

(** ** Writes *)

Definition pushed {k} (o : obj k) (s : slot k) : slot k :=
  mkSlot (sl_history s ++ [entry (length (sl_history s)) o]) (sl_shown s).

Lemma wf_pushed {k} (o : obj k) s : wf_slot (keyOf o) s -> wf_slot (keyOf o) (pushed o s).
Proof.
  intros [L H]. split; [cbn; rewrite length_app; cbn; lia|]. intros i x [E|[Hi E]]%lookup_app_Some; [by apply H|].
  apply list_lookup_singleton_Some in E as [Ei E]. unfold entry in E. destruct (isGone (meta_of o)) eqn:G; [done|].
  injection E as <-. rewrite keyOf_stamped, isGone_stamped. do 2 (split; [done|]). intros Hk.
  rewrite version_stamped by done. f_equal. lia.
Qed.

Definition pushIn (c : cluster) (k : kind) (o : obj k) (st : slots) : slots :=
  set_kind (F := fun k => gmap ObjectKey (slot k)) c k (<[keyOf o := pushed o (slotIn st c k (keyOf o))]> (st c k)) st.

Lemma pushIn_same c k (o : obj k) st : slotIn (pushIn c k o st) c k (keyOf o) = pushed o (slotIn st c k (keyOf o)).
Proof. unfold pushIn. unfold slotIn at 1. by rewrite set_kind_eq, lookup_insert_eq. Qed.

Lemma pushIn_other c k (o : obj k) st c' k' key :
  (c', k', key) <> (c, k, keyOf o) -> slotIn (pushIn c k o st) c' k' key = slotIn st c' k' key.
Proof.
  intros N. unfold pushIn. unfold slotIn at 1. destruct (decide ((c', k') = (c, k))) as [E|E].
  - injection E as -> ->. rewrite set_kind_eq, lookup_insert_ne; [done | congruence].
  - by rewrite set_kind_ne.
Qed.

Lemma pushIn_wf c k (o : obj k) st : wf_slots st -> wf_slots (pushIn c k o st).
Proof.
  intros H c' k' key. destruct (decide ((c', k') = (c, k))) as [E|E].
  - injection E as -> ->. destruct (decide (key = keyOf o)) as [->|N].
    + rewrite pushIn_same. apply wf_pushed, H.
    + rewrite pushIn_other; [apply H | congruence].
  - rewrite pushIn_other; [apply H | congruence].
Qed.

Definition push (c : cluster) (k : kind) (o : obj k) (w : cached) : cached :=
  mkCached (pushIn c k o (cw_slots w)) (pushIn_wf c k o _ (cw_wf w)).

(** The store changes at one key, by one version. *)
Lemma push_history c k (o : obj k) w :
  historyC (push c k o w) c k (keyOf o) = historyC w c k (keyOf o) ++ [entry (length (historyC w c k (keyOf o))) o].
Proof. unfold historyC. cbn. by rewrite pushIn_same. Qed.

Lemma push_latest c k (o : obj k) w :
  latest (push c k o w) c k (keyOf o) = entry (length (historyC w c k (keyOf o))) o.
Proof. unfold latest, lastOf. by rewrite push_history, last_snoc. Qed.

Lemma push_other c k (o : obj k) w c' k' key :
  (c', k', key) <> (c, k, keyOf o) -> historyC (push c k o w) c' k' key = historyC w c' k' key.
Proof. intros N. unfold historyC. cbn. by rewrite pushIn_other. Qed.

Lemma push_shown c k (o : obj k) w c' k' key : shownC (push c k o w) c' k' key = shownC w c' k' key.
Proof.
  unfold shownC. cbn. destruct (decide ((c', k') = (c, k))) as [E|E]; [|by rewrite pushIn_other by congruence].
  injection E as -> ->. destruct (decide (key = keyOf o)) as [->|N]; [by rewrite pushIn_same | by rewrite pushIn_other by congruence].
Qed.

(** ** Calls *)

(** A write of [f stored] over the stored object, for a caller that has seen the
    version [rv]. *)
Definition rewriteC (c : cluster) (k : kind) (key : ObjectKey) (rv : string) (f : obj k -> obj k) (w : cached) :
    result (obj k) * cached :=
  match latest w c k key with
  | None => (Err notFound, w)
  | Some stored =>
      if decide (om_ResourceVersion (meta_of stored) = rv) then
        let o := f stored in (Ok (stamped (length (historyC w c k (keyOf o))) o), push c k o w)
      else (Err conflict, w)
  end.

Definition shownAs {k} (s : slot k) : option (obj k) := default None (sl_history s !! sl_shown s).

(** Reads are answered from the cache, writes by the server. *)
Definition serveC (X : Type) (e : eff X) (w : cached) : X * cached :=
  match e in eff X return X * cached with
  | EGet c k key => (match shownAs (slotIn (cw_slots w) c k key) with Some o => Ok o | None => Err notFound end, w)
  | EList c k opts => (Ok (List.filter (matches opts) (omap (fun ks => shownAs ks.2) (map_to_list (cw_slots w c k)))), w)
  | ECreate c k o =>
      match latest w c k (keyOf o) with
      | Some _ => (Err alreadyExists, w)
      | None => (Ok (stamped (length (historyC w c k (keyOf o))) o), push c k o w)
      end
  | EUpdate c k o =>
      rewriteC c k (keyOf o) (om_ResourceVersion (meta_of o)) (fun stored => withStatusOf stored o) w
  | EPatch c k orig o _ =>
      rewriteC c k (keyOf orig) (om_ResourceVersion (meta_of orig)) (fun stored => withStatusOf stored o) w
  | EStatusPatch c k orig o _ =>
      rewriteC c k (keyOf orig) (om_ResourceVersion (meta_of orig)) (fun stored => readBack (withStatusOf o stored)) w
  | EDelete c k o _ =>
      match latest w c k (keyOf o) with
      | None => (Err notFound, w)
      | Some stored => (Ok tt, push c k (setMeta (om_set_DeletionTimestamp (Some 1%Z) (meta_of stored)) stored) w)
      end
  | EStatusApply _ _ _ _ _ _ | EApply _ _ _ _ => (Err unsupported, w)
  | EUpdateApproval _ _ => (Err unsupported, w)
  | EDescribeInstances _ => (Err unsupported, w)
  | ENow => (0%Z, w)
  end.

(** Caches catch up with the server, some way. *)
Definition catchesUp (w w' : cached) : Prop := forall c k key,
  historyC w' c k key = historyC w c k key /\ shownC w c k key <= shownC w' c k key.

Definition unavailable : error := EStatus "ServiceUnavailable" 503 "unavailable".

(** The call is answered with that error. *)
Definition failed {X} (e : eff X) : X -> Prop :=
  match e in eff X return X -> Prop with
  | EGet _ _ _ | ECreate _ _ _ | EUpdate _ _ _ | EPatch _ _ _ _ _ | EStatusPatch _ _ _ _ _ | EList _ _ _ =>
      fun x => x = Err unavailable
  | EDelete _ _ _ _ | EStatusApply _ _ _ _ _ _ | EApply _ _ _ _ | EUpdateApproval _ _ | EDescribeInstances _ =>
      fun x => x = Err unavailable
  | ENow => fun _ => False
  end.

(** Served; refused; or served, with the answer lost. *)
Definition answersC (X : Type) (w : cached) (e : eff X) (x : X) (w' : cached) : Prop :=
  exists w1, catchesUp w w1
    /\ (serveC X e w1 = (x, w') \/ (failed e x /\ (w' = w1 \/ exists y, serveC X e w1 = (y, w')))).

(** ** What calls do *)

Lemma rewriteC_cases c k key rv f w x w' :
  rewriteC c k key rv f w = (x, w') ->
  (w' = w /\ exists err, x = Err err)
  \/ exists old, latest w c k key = Some old /\ om_ResourceVersion (meta_of old) = rv
       /\ x = Ok (stamped (length (historyC w c k (keyOf (f old)))) (f old)) /\ w' = push c k (f old) w.
Proof.
  unfold rewriteC. destruct (latest _ _ _ _) as [old|]; [case_decide|]; intros [= <- <-].
  - right. by exists old.
  - left. split; [done | by eexists].
  - left. split; [done | by eexists].
Qed.

Lemma latest_wf w c k key (o : obj k) : latest w c k key = Some o ->
  keyOf o = key /\ isGone (meta_of o) = false
  /\ (writable k = true -> om_ResourceVersion (meta_of o) = version (pred (length (historyC w c k key)))).
Proof. intros E%lastOf_lookup. by apply historyC_wf in E. Qed.

Lemma keyOf_withStatusOf {k} (o o' : obj k) : keyOf (withStatusOf o o') = keyOf o'.
Proof. by destruct k. Qed.

Lemma keyOf_readBack {k} (o o' : obj k) : keyOf (readBack (withStatusOf o o')) = keyOf o'.
Proof. unfold keyOf. by rewrite meta_readBack. Qed.

(** A call changes nothing, or stores an object that it may write. *)
Lemma serveC_effect X (e : eff X) w x w' :
  serveC X e w = (x, w') -> w' = w \/ exists c k (o : obj k), w' = push c k o w /\ writes e c k (keyOf o).
Proof.
  destruct e as [c k gk|c k opts|c k o|c k o|c k orig o lock|c k orig o lock|c k o gr| | | | |]; cbn [serveC writes];
    try by (intros [= _ <-]; left).
  - destruct (latest _ _ _ _); intros [= _ <-]; [by left|]. right. by exists c, k, o.
  - intros [[-> _]|(old & E & _ & _ & ->)]%rewriteC_cases; [by left|]. right. eexists c, k, _. split; [done|].
    by rewrite keyOf_withStatusOf.
  - intros [[-> _]|(old & E & _ & _ & ->)]%rewriteC_cases; [by left|]. right. eexists c, k, _. split; [done|].
    rewrite keyOf_withStatusOf. tauto.
  - intros [[-> _]|(old & E & _ & _ & ->)]%rewriteC_cases; [by left|]. right. eexists c, k, _. split; [done|].
    rewrite keyOf_readBack. by destruct (latest_wf _ _ _ _ _ E) as [-> _].
  - destruct (latest _ _ _ _) as [old|] eqn:E; intros [= _ <-]; [|by left]. right. eexists c, k, _. split; [done|].
    destruct (latest_wf _ _ _ _ _ E) as [K _]. rewrite <- K. by destruct k.
Qed.

Lemma answersC_effect X (e : eff X) w x w' :
  answersC X w e x w' -> exists w1, catchesUp w w1
    /\ (w' = w1 \/ exists c k (o : obj k), w' = push c k o w1 /\ writes e c k (keyOf o)).
Proof.
  intros (w1 & C & [S|[_ [->|[y S]]]]); exists w1; (split; [exact C|]); [| by left |]; exact (serveC_effect _ _ _ _ _ S).
Qed.

Lemma grown_push c k (o : obj k) w : grownIn historyC shownC w (push c k o w).
Proof.
  intros c' k' key. split; [|by rewrite push_shown]. destruct (decide ((c', k') = (c, k))) as [E|E].
  - injection E as -> ->. destruct (decide (key = keyOf o)) as [->|N].
    + eexists. split; [apply push_history | cbn; lia].
    + exists []. rewrite push_other, app_nil_r by congruence. split; [done | cbn; lia].
  - exists []. rewrite push_other, app_nil_r by congruence. split; [done | cbn; lia].
Qed.

Lemma push_status w c k (o old : obj k) key :
  latest w c k (keyOf old) = Some old -> meta_of o = meta_of old ->
  option_map finalizersOf (latest (push c k o w) c k key) = option_map finalizersOf (latest w c k key).
Proof.
  intros E M. assert (keyOf o = keyOf old) as K by (unfold keyOf; by rewrite M).
  destruct (decide (key = keyOf old)) as [->|N].
  - rewrite E, <- K, push_latest. unfold entry. destruct (latest_wf _ _ _ _ _ E) as (_ & G & _). rewrite M, G. cbn.
    rewrite finalizersOf_stamped. unfold finalizersOf. by rewrite M.
  - unfold latest. rewrite push_other; [done | congruence].
Qed.

(** A locked patch of a version that is not the last one is refused. *)
Lemma rewriteC_locked w c k (orig o : obj k) i x w' :
  writable k = true -> keyOf o = keyOf orig -> historyC w c k (keyOf orig) !! i = Some (Some orig) ->
  rewriteC c k (keyOf orig) (om_ResourceVersion (meta_of orig)) (fun stored => withStatusOf stored o) w = (x, w') ->
  (w' = w /\ exists err, x = Err err)
  \/ (length (historyC w c k (keyOf orig)) = S i
      /\ match latest w' c k (keyOf orig) with
         | Some o' => finalizersOf o' = finalizersOf o
         | None => finalizersOf o = []
         end
      /\ forall o', x = Ok o' -> keyOf o' = keyOf orig).
Proof.
  intros Hk K E [?|(old & L & V & -> & ->)]%rewriteC_cases; [by left|]. right.
  destruct (historyC_wf _ _ _ _ _ _ E) as (_ & _ & Vo), (latest_wf _ _ _ _ _ L) as (_ & _ & Vl).
  rewrite Vo, Vl in V by done. apply version_inj in V. pose proof (lookup_lt_Some _ _ _ E) as Hi.
  split; [lia|]. rewrite <- K, <- (keyOf_withStatusOf old o), push_latest. unfold entry. split.
  - assert (finalizersOf (withStatusOf old o) = finalizersOf o) as F by (by destruct k).
    destruct (isGone (meta_of (withStatusOf old o))) eqn:G; [|by rewrite finalizersOf_stamped].
    rewrite <- F. unfold isGone in G. apply andb_true_iff in G as [_ G]. by apply bool_decide_eq_true in G.
  - intros o' [= <-]. by rewrite keyOf_stamped.
Qed.

#[export] Program Instance cached_store : Cached cached := {
  answers := answersC;
  history := historyC;
  shown := shownC }.
Next Obligation. intros w c k key. apply (cw_wf w c k key). Qed.
Next Obligation. intros w c k key i o E. by apply historyC_wf in E as [? _]. Qed.
Next Obligation.
  intros X w e x w' (w1 & C & E)%answersC_effect. intros c k key. destruct (C c k key) as [Ch Cs].
  destruct E as [->|(c' & k' & o & -> & _)].
  - split; [|done]. exists []. rewrite app_nil_r, Ch. split; [done | cbn; lia].
  - destruct (grown_push c' k' o w1 c k key) as [H1 H2]. rewrite Ch in H1. split; [done | lia].
Qed.
Next Obligation.
  intros X w e x w' c k key (w1 & C & E)%answersC_effect N. destruct (C c k key) as [<- _].
  destruct E as [->|(c' & k' & o & -> & Hw)]; [done|]. apply push_other. congruence.
Qed.
Next Obligation.
  intros w c k key x w' (w1 & _ & [S|[-> _]]); [|done]. cbn [serveC] in S. injection S as <- <-.
  unfold shownAs, historyC, shownC. destruct (cw_wf w1 c k key) as [L _].
  apply lookup_lt_is_Some in L as [o E]. rewrite E. by destruct o.
Qed.
Next Obligation.
  intros w c k o gr x w' A. split.
  - intros N. destruct (latest w c k (keyOf o)) eqn:E; [done|].
    destruct A as (w1 & C & S). destruct (C c k (keyOf o)) as [Ch _].
    assert (latest w1 c k (keyOf o) = None) as E1 by (unfold latest; by rewrite Ch).
    cbn [serveC] in S. rewrite E1 in S.
    assert (w' = w1) as -> by (destruct S as [S|[_ [S|[y S]]]]; congruence). unfold latest in E1. by rewrite E1 in N.
  - destruct A as (w1 & C & [S|[-> _]]); [|done]. cbn [serveC] in S.
    destruct (latest w1 c k (keyOf o)) as [old|] eqn:E; injection S as <- <-; done.
Qed.
Next Obligation.
  intros w c k orig o x w' i Hk K E (w1 & C & S). destruct (C c k (keyOf orig)) as [Ch _]. rewrite <- Ch in E |- *.
  destruct S as [S|[-> [->|[y S]]]].
  - eapply rewriteC_locked in S as [[-> Hx]|H]; [by left | by right | done..].
  - left. split; [done | by eexists].
  - eapply rewriteC_locked in S as [[-> _]|(L & F & _)]; [left; split; [done | by eexists] | by right | done..].
Qed.
Next Obligation.
  intros w c k orig o lock x w' key Hk (w1 & C & S). destruct (C c k key) as [Ch _]. rewrite <- Ch.
  assert (w' = w1 \/ exists y, serveC _ (EStatusPatch c k orig o lock) w1 = (y, w')) as [->|[y S']]; [|done|].
  { destruct S as [S|[_ [?|?]]]; [right; by exists x | by left | by right]. }
  cbn [serveC] in S'. apply rewriteC_cases in S' as [[-> _]|(old & E & _ & _ & ->)]; [done|].
  destruct (latest_wf _ _ _ _ _ E) as [K _]. rewrite <- K in E.
  apply (push_status w1 c k _ old); [done | apply meta_readBack].
Qed.

(** ** Answers at once *)

Definition caughtSlot {k} (s : slot k) : slot k := mkSlot (sl_history s) (pred (length (sl_history s))).

Definition refreshIn (fresh : kind -> bool) (st : slots) : slots :=
  fun c k => if fresh k then caughtSlot <$> st c k else st c k.

Lemma refreshIn_slot fresh st c k key :
  slotIn (refreshIn fresh st) c k key = if fresh k then caughtSlot (slotIn st c k key) else slotIn st c k key.
Proof.
  unfold refreshIn. unfold slotIn at 1. destruct (fresh k); [|done]. rewrite lookup_fmap. unfold slotIn.
  by destruct (st c k !! key).
Qed.

Lemma refreshIn_wf fresh st : wf_slots st -> wf_slots (refreshIn fresh st).
Proof.
  intros H c k key. rewrite refreshIn_slot. destruct (fresh k); [|apply H]. destruct (H c k key) as [L E].
  split; [cbn; lia | exact E].
Qed.

(** The caches of the kinds [fresh] have caught up. *)
Definition refresh (fresh : kind -> bool) (w : cached) : cached :=
  mkCached (refreshIn fresh (cw_slots w)) (refreshIn_wf fresh _ (cw_wf w)).

Lemma refresh_catchesUp fresh w : catchesUp w (refresh fresh w).
Proof.
  intros c k key. unfold historyC, shownC. cbn. rewrite refreshIn_slot. destruct (fresh k); [|done].
  split; [done|]. cbn. destruct (cw_wf w c k key) as [L _]. lia.
Qed.

Definition serveWith (fresh : kind -> bool) (X : Type) (e : eff X) (w : cached) : X * cached := serveC X e (refresh fresh w).

Lemma serveWith_answers fresh X (e : eff X) w x w' : serveWith fresh X e w = (x, w') -> answersC X w e x w'.
Proof. intros S. exists (refresh fresh w). split; [apply refresh_catchesUp | by left]. Qed.

Lemma empty_slots : wf_slots (fun _ _ => ∅).
Proof. intros c k key. unfold slotIn. rewrite lookup_empty. apply wf_empty. Qed.

Definition emptyCached : cached := mkCached (fun _ _ => ∅) empty_slots.

Lemma refresh_caughtUp fresh w c k key :
  fresh k = true -> length (historyC (refresh fresh w) c k key) = 1 + shownC (refresh fresh w) c k key.
Proof.
  intros F. unfold historyC, shownC. cbn. rewrite refreshIn_slot, F. cbn.
  destruct (cw_wf w c k key) as [L _]. lia.
Qed.

(** A cache that has caught up does not mislead. *)
Lemma serveWith_honest fresh w c k key err w' :
  fresh k = true -> serveWith fresh _ (EGet c k key) w = (Err err, w') -> latest w' c k key = None.
Proof.
  intros F S. unfold serveWith in S. cbn [serveC] in S. injection S as S <-.
  destruct (shownAs _) eqn:N in S; [done|]. clear S.
  change (default None (historyC (refresh fresh w) c k key !! shownC (refresh fresh w) c k key) = None) in N.
  pose proof (refresh_caughtUp fresh w c k key F) as L.
  destruct (lookup_lt_is_Some_2 (historyC (refresh fresh w) c k key) (shownC (refresh fresh w) c k key)) as [o E]; [lia|].
  rewrite E in N. unfold latest. by rewrite (lookup_lastOf _ _ _ E L).
Qed.

(** ** Runs as steps *)

Section runs.
Context (parent child : kind) (reconciles : ObjectKey -> go (result Result) -> Prop) (others : cached -> cached -> Prop).

Lemma fresh_honest fresh key t X (e : eff X) w x w' (m : ObjectKey -> Prop) key' :
  fresh child = true -> serveWith fresh X e w = (x, w') ->
  alsoMisled parent child key t (Ev e x) w' m key' -> m key'.
Proof.
  intros F S [?|[-> (_ & (err & Hg & _) & Hs)]]; [done|].
  assert (latest w' Hosted child key = None) as N; [|change (is_Some (latest w' Hosted child key)) in Hs; rewrite N in Hs; by destruct Hs].
  destruct e as [c k gk| | | | | | | | | | |]; try done. cbn in Hg. injection Hg as -> -> -> E.
  apply existT_inj in E as ->. by eapply serveWith_honest.
Qed.

(** With the cache of the child kind caught up, nobody is misled. *)
Lemma run_steps fresh key t p w ths m r w' t' :
  run (serveWith fresh) p w = (r, w', t') -> ths key = Some (mkThread t p) ->
  exists ths' m', rtc (step parent child reconciles others) (mkSystem w ths m) (mkSystem w' ths' m')
    /\ ths' key = Some (mkThread (t ++ t') (Ret r)) /\ (fresh child = true -> forall key', m' key' -> m key').
Proof.
  revert t w ths m t'; induction p as [a|X e k IH]; intros t w ths m t' R T; cbn in R.
  - injection R as <- <- <-. exists ths, m. rewrite app_nil_r. split; [apply rtc_refl | done].
  - destruct (serveWith fresh X e w) as [x w1] eqn:S.
    destruct (run (serveWith fresh) (k x) w1) as [[a w2] t1] eqn:R1. injection R as <- <- <-.
    destruct (IH x (t ++ [Ev e x]) w1 (setThread key (Some (mkThread (t ++ [Ev e x]) (k x))) ths)
                (alsoMisled parent child key t (Ev e x) w1 m) t1 R1) as (ths' & m' & St & T' & Hm).
    { unfold setThread. by rewrite decide_True. }
    exists ths', m'. split; [|split; [by rewrite T', <- app_assoc|]].
    + eapply rtc_l; [|exact St]. eapply step_call; [exact T | by eapply serveWith_answers].
    + intros F key' M. eapply fresh_honest; [exact F | exact S | by apply Hm].
Qed.

(** A reconcile that is started, and runs to its end without being disturbed. *)
Lemma run_reachable fresh key p w ths m r w' t' :
  ths key = None -> key_Namespace key = "" -> reconciles key p -> run (serveWith fresh) p w = (r, w', t') ->
  exists ths' m', rtc (step parent child reconciles others) (mkSystem w ths m) (mkSystem w' ths' m')
    /\ (fresh child = true -> forall key', m' key' -> m key').
Proof.
  intros N K P R.
  destruct (run_steps fresh key [] p w (setThread key (Some (mkThread [] p)) ths) m r w' t' R)
    as (ths' & m' & St & _ & Hm).
  { unfold setThread. by rewrite decide_True. }
  exists ths', m'. split; [|done]. eapply rtc_l; [|exact St]. by apply step_start.
Qed.
End runs.
