(* ===== verification/NoOrphans.v ===== *)
(** * NodeClasses and what they own

    The EC2 and the Azure NodeClass controllers keep to the finalizer protocol of
    Interleaving, the one taking its cache's word that the EC2NodeClass is gone, the
    other asking the API server: an AKSNodeClass never outlives its NodeClass, however
    reconciles interleave, fail and restart and caches lag, and an EC2NodeClass only
    when a cache has denied it. *)

From S2P Require Import Prelude Prog DeepEqual MetaV1 CoreTypes HyperTypes AwsV1 KarpenterV1 AzureTypes Kube KubeLemmas Hypershift Ec2NodeClass Ec2Guard AzureNodeClass AzureGuard Server Store Ec2Build Ec2Live AzureLive Interleaving CachedStore.
From stdpp Require Import relations.

(** ** EC2 *)

Section ec2.
Context (namespace : string).

Definition ec2Reconciles (key : ObjectKey) (p : go (result Result)) : Prop :=
  exists clock, p = Ec2NodeClass.Reconcile clock namespace key.

Lemma ec2_gotParent key nc t :
  gotParent KOpenshiftEC2NodeClass key nc t <-> Ec2Guard.classRead key nc t.
Proof.
  split.
  - intros (ev & He & ->%gotAt_inv). exact He.
  - intros H. by eexists.
Qed.

Lemma ec2_live_carries key hcp nc0 nc t :
  Ec2Guard.live namespace key hcp nc0 nc t ->
  gotParent KOpenshiftEC2NodeClass key nc0 t /\ ~ marked KOpenshiftEC2NodeClass nc0
  /\ carries KOpenshiftEC2NodeClass Ec2NodeClass.finalizer nc0 nc t.
Proof.
  intros (_ & Hc & Hd & Hf). split; [by apply ec2_gotParent|]. split; [done|].
  destruct Hf as [?|H]; [by left|]. right. by eexists _, _.
Qed.

Lemma ec2_mayWriteChild key t (o : obj KEC2NodeClass) :
  mayWriteEC2 namespace key t o ->
  mayWriteChild KOpenshiftEC2NodeClass Ec2NodeClass.finalizer key t (keyOf o).
Proof.
  intros (hcp & nc0 & nc & secret & base & L & _ & _ & K). apply ec2_live_carries in L as (G & M & C).
  exists nc0, nc. split; [done|]. split; [done|]. split; [done|]. left. by left.
Qed.

Lemma ec2Gone_childGone nc t :
  Ec2Guard.ec2Gone nc t -> childGone KOpenshiftEC2NodeClass KEC2NodeClass true nc t.
Proof.
  intros [(err & H & N)|(o & err & H & D & N)].
  - left. split; [done|]. eexists _, _, err. split; [exact H|]. split; [done|]. split; [by left | done].
  - right. eexists _, o, err. split; [exact D|]. split; [done|]. split; [done|]. right.
    eexists _, _. split; [exact H|]. split; [done | by left].
Qed.

Lemma ec2_guard_protocol clock key t X (e : eff X) :
  ec2Guard clock namespace key t X e ->
  protocol KOpenshiftEC2NodeClass KEC2NodeClass Ec2NodeClass.finalizer true key t X e.
Proof.
  destruct e as [c k gk|c k opts|c k o|c k o|c k orig o lock|c k orig o lock|c k o gr| | | | |]; cbn; try done.
  - intros H [= -> ->]. destruct H as [-> H]. split; [done|]. intros nc G%ec2_gotParent. by apply (H nc).
  - intros H. split; [by intros [= -> ->]|]. intros [= -> ->]. by eapply ec2_mayWriteChild.
  - intros H. split; [by intros [= -> ->]|]. intros [= -> ->]. by eapply ec2_mayWriteChild.
  - intros H. split; [by intros [= -> ->]|]. intros orig' o' [-> E]%pair_equal_spec. pose proof (twoOf_kind _ _ _ _ _ _ E) as ->.
    apply twoOf_inj in E as [-> ->]. destruct H as (-> & hcp & _ & Hc & H). split; [done|].
    split; [by apply ec2_gotParent|]. case_decide as D; [rewrite decide_True by done | rewrite decide_False by done].
    + destruct H as (Hg & _ & ->). split; [done | by apply ec2Gone_childGone].
    + destruct H as [F ->]. cbn. unfold keyOf, ObjectKeyFromObject. cbn. by destruct (AddFinalizer_same (osv1.meta orig') Ec2NodeClass.finalizer) as [fs ->].
  - intros H. by intros [= -> ->].
  - intros H. by intros [= -> ->].
Qed.

#[export] Instance ec2_protocol :
  FinalizerProtocol KOpenshiftEC2NodeClass KEC2NodeClass Ec2NodeClass.finalizer true ec2Reconciles.
Proof.
  split; [done | done |]. intros key p [clock ->]. eapply guarded_mono; [apply ec2_Reconcile_guards|].
  intros t X e. apply ec2_guard_protocol.
Qed.

(** C6. An EC2NodeClass outlives its NodeClass only when the operator's cache
    misled a reconcile of that NodeClass.  At any time the NodeClass of a stored
    EC2NodeClass is stored too and carries the operator's finalizer, or some
    reconcile of the NodeClass, which had not read it unmarked, was told by its
    cache that there is no EC2NodeClass while the API server had one.  This holds
    however the reconciles of all NodeClasses interleave with each other, with
    users, Karpenter and other controllers, with calls that fail or whose answers
    are lost, and with restarts of the operator, and however far the caches that
    answer its reads lag behind the API server, which its writes go to; given that
    nobody else creates EC2NodeClasses or removes that finalizer, that one process
    at a time runs, whose work queue hands out a NodeClass to one reconcile at a
    time, that its caches never go back to an older state, and that they show the
    NodeClasses as they are, and every EC2NodeClass has its NodeClass, when the
    operator first starts. *)
Theorem ec2_never_orphaned {W} `{Cached W} (others : W -> W -> Prop) w s key :
  (forall w w', others w w' -> othersQuiet KOpenshiftEC2NodeClass KEC2NodeClass Ec2NodeClass.finalizer w w') ->
  caughtUp KOpenshiftEC2NodeClass w -> noOrphans KOpenshiftEC2NodeClass KEC2NodeClass Ec2NodeClass.finalizer w ->
  rtc (step KOpenshiftEC2NodeClass KEC2NodeClass ec2Reconciles others) (mkSystem w (fun _ => None) (fun _ => False)) s ->
  is_Some (stored (sy_world s) Hosted KEC2NodeClass key) ->
  (exists nc : osv1.OpenshiftEC2NodeClass, stored (sy_world s) Hosted KOpenshiftEC2NodeClass key = Some nc
     /\ ContainsFinalizer (osv1.meta nc) Ec2NodeClass.finalizer = true)
  \/ sy_misled s key.
Proof. intros Ho Hc I R S. destruct (reachable_noOrphans _ _ _ true _ _ Ho _ _ _ _ Hc I R S) as [?|[_ ?]]; [by left | by right]. Qed.

End ec2.

(** ** Azure *)

Section azure.
Context (namespace : string).

Definition azureReconciles (key : ObjectKey) (p : go (result Result)) : Prop :=
  exists clock, p = AzureNodeClass.Reconcile clock namespace key.

Lemma azure_gotParent key nc t :
  gotParent KOpenShiftAzureNodeClass key nc t <-> AzureGuard.classRead key nc t.
Proof.
  split.
  - intros (ev & He & ->%gotAt_inv). exact He.
  - intros H. by eexists.
Qed.

Lemma azure_mayWriteChild key t (o : obj KAKSNodeClass) :
  mayWriteAKS namespace key t o ->
  mayWriteChild KOpenShiftAzureNodeClass AzureNodeClass.finalizer key t (keyOf o).
Proof.
  intros (hcp & nc & secret & base & (nc0 & Hc & Hd & Hf) & _ & _ & _ & K). exists nc0, nc.
  split; [by apply azure_gotParent|]. split; [done|]. split; [|right; by right].
  destruct Hf as [?|H]; [by left|]. right. by eexists _, _.
Qed.

Lemma aksGone_childGone nc t :
  aksGone nc t -> childGone KOpenShiftAzureNodeClass KAKSNodeClass false nc t.
Proof.
  intros (err & D & N). right. eexists _, _, err. split; [exact D|]. split; [done|]. split; [done|].
  left. by right.
Qed.

Lemma azure_guard_protocol clock key t X (e : eff X) :
  azureGuard clock namespace key t X e ->
  protocol KOpenShiftAzureNodeClass KAKSNodeClass AzureNodeClass.finalizer false key t X e.
Proof.
  destruct e as [c k gk|c k opts|c k o|c k o|c k orig o lock|c k orig o lock|c k o gr| | | | |]; cbn; try done.
  - intros H [= -> ->]. destruct H as [-> H]. split; [done|]. intros nc G%azure_gotParent. by apply (H nc).
  - intros H. split; [by intros [= -> ->]|]. intros [= -> ->]. by eapply azure_mayWriteChild.
  - intros H. split; [by intros [= -> ->]|]. intros [= -> ->]. by eapply azure_mayWriteChild.
  - intros H. split; [by intros [= -> ->]|]. intros orig' o' [-> E]%pair_equal_spec.
    pose proof (twoOf_kind _ _ _ _ _ _ E) as ->. apply twoOf_inj in E as [-> ->].
    destruct H as (-> & Hc & H). split; [done|].
    split; [by apply azure_gotParent|]. case_decide as D; [rewrite decide_True by done | rewrite decide_False by done].
    + destruct H as [Hg ->]. split; [done | by apply aksGone_childGone].
    + destruct H as [F ->]. cbn. unfold keyOf, ObjectKeyFromObject. cbn.
      by destruct (AddFinalizer_same (osv1alpha1.meta orig') AzureNodeClass.finalizer) as [fs ->].
  - intros H. by intros [= -> ->].
  - intros H [= -> ->]. by destruct gr.
Qed.

#[export] Instance azure_protocol :
  FinalizerProtocol KOpenShiftAzureNodeClass KAKSNodeClass AzureNodeClass.finalizer false azureReconciles.
Proof.
  split; [done | done |]. intros key p [clock ->]. eapply guarded_mono; [apply azure_Reconcile_guards|].
  intros t X e. apply azure_guard_protocol.
Qed.

(** C17. An AKSNodeClass never outlives its NodeClass, under the same conditions
    and however far the caches lag: the Azure controller asks the API server, by a
    deletion, whether the AKSNodeClass is gone, and its optimistically locked patch
    fails unless it has seen the last version of the NodeClass. *)
Theorem azure_never_orphaned {W} `{Cached W} (others : W -> W -> Prop) w m s key :
  (forall w w', others w w' -> othersQuiet KOpenShiftAzureNodeClass KAKSNodeClass AzureNodeClass.finalizer w w') ->
  caughtUp KOpenShiftAzureNodeClass w -> noOrphans KOpenShiftAzureNodeClass KAKSNodeClass AzureNodeClass.finalizer w ->
  rtc (step KOpenShiftAzureNodeClass KAKSNodeClass azureReconciles others) (mkSystem w (fun _ => None) m) s ->
  is_Some (stored (sy_world s) Hosted KAKSNodeClass key) ->
  exists nc : osv1alpha1.OpenShiftAzureNodeClass, stored (sy_world s) Hosted KOpenShiftAzureNodeClass key = Some nc
    /\ ContainsFinalizer (osv1alpha1.meta nc) AzureNodeClass.finalizer = true.
Proof. intros Ho Hc I R S. by destruct (reachable_noOrphans _ _ _ false _ _ Ho _ _ _ _ Hc I R S) as [?|[? _]]. Qed.

End azure.

(** ** Witnesses *)

(** A user deletes a NodeClass: it is marked, or gone when it has no finalizers. *)
Definition someoneDeletes (w w' : cached) : Prop :=
  exists nc : osv1.OpenshiftEC2NodeClass, latest w Hosted KOpenshiftEC2NodeClass (keyOf (nc : obj KOpenshiftEC2NodeClass)) = Some nc
    /\ w' = push Hosted KOpenshiftEC2NodeClass
              (osv1.set_meta (om_set_DeletionTimestamp (Some 9%Z) (osv1.meta nc)) nc : obj KOpenshiftEC2NodeClass) w.

Lemma someoneDeletes_quiet w w' :
  someoneDeletes w w' -> othersQuiet KOpenshiftEC2NodeClass KEC2NodeClass Ec2NodeClass.finalizer w w'.
Proof.
  intros (nc & L & ->). split; [apply grown_push|]. set (nc' := osv1.set_meta _ nc). intros key. split.
  - intros (old & S & F). unfold protected. change (stored ?w) with (latest w) in *.
    destruct (decide (key = keyOf (nc' : obj KOpenshiftEC2NodeClass))) as [->|N].
    + change (keyOf (nc' : obj KOpenshiftEC2NodeClass)) with (keyOf (nc : obj KOpenshiftEC2NodeClass)) in S.
      rewrite L in S. injection S as <-. rewrite push_latest. unfold entry.
      assert (isGone (meta_of (nc' : obj KOpenshiftEC2NodeClass)) = false) as ->; [|by eexists].
      unfold isGone. rewrite bool_decide_false; [apply andb_false_r|]. intros E.
      change (elems (om_Finalizers (osv1.meta nc)) = []) in E. unfold ContainsFinalizer in F. cbn in F.
      rewrite E in F. discriminate F.
    + exists old. split; [|done]. unfold latest. rewrite push_other; [exact S | congruence].
  - unfold stored. change (history ?w) with (historyC w). by rewrite push_other.
Qed.

Definition noThreads : ObjectKey -> option thread := fun _ => None.
Definition notMisled : ObjectKey -> Prop := fun _ => False.

Lemma refresh_caught w fresh parent : fresh parent = true -> caughtUp parent (refresh fresh w).
Proof. intros F key. by apply refresh_caughtUp. Qed.

Lemma noOrphans_none (w : cached) parent child finalizer :
  cw_slots w Hosted child = ∅ -> noOrphans parent child finalizer w.
Proof.
  intros E key [o F]. change (latest w Hosted child key = Some o) in F. unfold latest, historyC, slotIn in F.
  by rewrite E, lookup_empty in F.
Qed.

(** All caches follow the server, *)
Definition allFresh (k : kind) : bool := true.
(** or all but that of the EC2NodeClasses. *)
Definition ec2Stale (k : kind) : bool := bool_decide (k <> KEC2NodeClass).

(** A NodeClass, and nothing made from it yet. *)
Definition newEC2World : cached :=
  refresh allFresh (push Management KHostedControlPlane upgradingHCP
    (push Management KSecret ec2UserData (push Hosted KOpenshiftEC2NodeClass plainNodeClass emptyCached))).

Lemma newEC2World_noOrphans : noOrphans KOpenshiftEC2NodeClass KEC2NodeClass Ec2NodeClass.finalizer newEC2World.
Proof. apply (noOrphans_none newEC2World). vm_compute. reflexivity. Qed.

Definition gpuKey : ObjectKey := mkObjectKey "" "gpu".
Definition firstRun : go (result Result) := Ec2NodeClass.Reconcile (fun _ => 11%Z) "clusters-a" gpuKey.

(** The NodeClass is reconciled, *)
Definition made (fresh : kind -> bool) : cached := (run (serveWith fresh) firstRun newEC2World).1.2.
(** a user deletes it, *)
Definition doomedEC2 (fresh : kind -> bool) : cached :=
  match latest (made fresh) Hosted KOpenshiftEC2NodeClass gpuKey with
  | Some nc => push Hosted KOpenshiftEC2NodeClass
                 (osv1.set_meta (om_set_DeletionTimestamp (Some 9%Z) (osv1.meta nc)) nc : obj KOpenshiftEC2NodeClass) (made fresh)
  | None => made fresh
  end.
(** and it is reconciled again. *)
Definition unmade (fresh : kind -> bool) : cached := (run (serveWith fresh) firstRun (doomedEC2 fresh)).1.2.

Abbreviation ec2Step := (step KOpenshiftEC2NodeClass KEC2NodeClass (ec2Reconciles "clusters-a") someoneDeletes).

Lemma run_ec2 fresh w w' m :
  (run (serveWith fresh) firstRun w).1.2 = w' ->
  exists m', rtc ec2Step (mkSystem w noThreads m) (mkSystem w' noThreads m')
    /\ (fresh KEC2NodeClass = true -> forall key, m' key -> m key).
Proof.
  intros <-. destruct (run (serveWith fresh) firstRun w) as [[r w'] t] eqn:R.
  destruct (run_reachable KOpenshiftEC2NodeClass KEC2NodeClass (ec2Reconciles "clusters-a") someoneDeletes fresh gpuKey
              firstRun w noThreads m r w' t eq_refl eq_refl (ex_intro _ _ eq_refl) R) as (ths & m' & St & Hm).
  exists m'. split; [|exact Hm]. eapply rtc_r; [exact St | apply step_crash].
Qed.

Definition reachedEC2 (fresh : kind -> bool) (w : cached) : Prop :=
  exists m, rtc ec2Step (mkSystem newEC2World noThreads notMisled) (mkSystem w noThreads m)
    /\ (fresh KEC2NodeClass = true -> forall key, ~ m key).

Lemma doomedEC2_reached fresh :
  is_Some (latest (made fresh) Hosted KOpenshiftEC2NodeClass gpuKey) -> reachedEC2 fresh (doomedEC2 fresh).
Proof.
  intros [nc E]. destruct (run_ec2 fresh newEC2World (made fresh) notMisled eq_refl) as (m & S & Hm).
  exists m. split; [|exact Hm]. eapply rtc_r; [exact S | apply step_others].
  unfold doomedEC2. rewrite E. exists nc. split; [|done].
  assert (keyOf (nc : obj KOpenshiftEC2NodeClass) = gpuKey) as ->; [|done]. by apply (latest_wf _ _ _ _ _ E).
Qed.

Lemma unmade_reached fresh : reachedEC2 fresh (doomedEC2 fresh) -> reachedEC2 fresh (unmade fresh).
Proof.
  intros (m & S & Hm). destruct (run_ec2 fresh (doomedEC2 fresh) (unmade fresh) m eq_refl) as (m' & S' & Hm').
  exists m'. split; [by etrans|]. intros F key M. by apply (Hm F key), (Hm' F).
Qed.

(** With caches that follow the server, a deleted NodeClass is kept for its
    EC2NodeClass; when that of the EC2NodeClasses has not seen the creation, the
    NodeClass goes and the EC2NodeClass stays. *)
Lemma ec2_never_orphaned_witness :
  (exists w nc, reachedEC2 allFresh w /\ is_Some (latest w Hosted KEC2NodeClass gpuKey)
     /\ latest w Hosted KOpenshiftEC2NodeClass gpuKey = Some nc
     /\ ContainsFinalizer (osv1.meta nc) Ec2NodeClass.finalizer = true)
  /\ exists w m, rtc ec2Step (mkSystem newEC2World noThreads notMisled) (mkSystem w noThreads m)
     /\ is_Some (latest w Hosted KEC2NodeClass gpuKey)
     /\ latest w Hosted KOpenshiftEC2NodeClass gpuKey = None /\ m gpuKey.
Proof.
  split.
  - assert (is_Some (latest (made allFresh) Hosted KOpenshiftEC2NodeClass gpuKey)) as M by (vm_compute; by eexists).
    destruct (doomedEC2_reached allFresh M) as (m & S & Hm).
    assert (is_Some (latest (doomedEC2 allFresh) Hosted KEC2NodeClass gpuKey)) as C by (vm_compute; by eexists).
    destruct (ec2_never_orphaned "clusters-a" someoneDeletes newEC2World _ gpuKey someoneDeletes_quiet
                (refresh_caught _ _ _ eq_refl) newEC2World_noOrphans S C) as [(nc & E & F)|N]; [|destruct (Hm eq_refl _ N)].
    exists (doomedEC2 allFresh), nc. exact (conj (ex_intro _ m (conj S Hm)) (conj C (conj E F))).
  - assert (is_Some (latest (made ec2Stale) Hosted KOpenshiftEC2NodeClass gpuKey)) as M by (vm_compute; by eexists).
    destruct (unmade_reached ec2Stale (doomedEC2_reached ec2Stale M)) as (m & S & _).
    assert (is_Some (latest (unmade ec2Stale) Hosted KEC2NodeClass gpuKey)) as C by (vm_compute; by eexists).
    assert (latest (unmade ec2Stale) Hosted KOpenshiftEC2NodeClass gpuKey = None) as N by (vm_compute; reflexivity).
    exists (unmade ec2Stale), m. split; [exact S|]. split; [exact C|]. split; [exact N|].
    destruct (ec2_never_orphaned "clusters-a" someoneDeletes newEC2World _ gpuKey someoneDeletes_quiet
                (refresh_caught _ _ _ eq_refl) newEC2World_noOrphans S C) as [(nc & E & _)|M']; [|exact M'].
    change (latest (unmade ec2Stale) Hosted KOpenshiftEC2NodeClass gpuKey = Some nc) in E.
    rewrite N in E. discriminate E.
Defined.

(** The Azure NodeClass of a new cluster, whose AKSNodeClasses no cache follows. *)
Definition newAzureWorld : cached :=
  refresh allFresh (push Management KHostedControlPlane azureUpgradingHCP
    (push Management KSecret labelledSecret
       (push Hosted KOpenShiftAzureNodeClass azureNodeClass emptyCached))).
Definition aksStale (k : kind) : bool := bool_decide (k <> KAKSNodeClass).

Lemma newAzureWorld_noOrphans :
  noOrphans KOpenShiftAzureNodeClass KAKSNodeClass AzureNodeClass.finalizer newAzureWorld.
Proof. apply (noOrphans_none newAzureWorld). vm_compute. reflexivity. Qed.

Lemma nobody_quiet parent child finalizer (w w' : cached) : w' = w -> othersQuiet parent child finalizer w w'.
Proof.
  intros ->. split; [|by intros key; split; exact id]. intros c k key. split; [|done]. exists [].
  rewrite app_nil_r. split; [done | cbn; lia].
Qed.

Lemma azure_never_orphaned_witness :
  let key := mkObjectKey "" "default" in
  exists s, rtc (step KOpenShiftAzureNodeClass KAKSNodeClass (azureReconciles "clusters-b") (fun w w' => w' = w))
      (mkSystem newAzureWorld noThreads notMisled) s
    /\ is_Some (latest (sy_world s) Hosted KAKSNodeClass key)
    /\ shownC (sy_world s) Hosted KAKSNodeClass key = 0
    /\ exists nc : osv1alpha1.OpenShiftAzureNodeClass, latest (sy_world s) Hosted KOpenShiftAzureNodeClass key = Some nc
         /\ ContainsFinalizer (osv1alpha1.meta nc) AzureNodeClass.finalizer = true.
Proof.
  intros key. set (p := AzureNodeClass.Reconcile (fun _ => 11%Z) "clusters-b" key).
  destruct (run (serveWith aksStale) p newAzureWorld) as [[r w'] t'] eqn:R.
  destruct (run_reachable KOpenShiftAzureNodeClass KAKSNodeClass (azureReconciles "clusters-b") (fun w w' => w' = w)
              aksStale key p newAzureWorld noThreads notMisled r w' t' eq_refl eq_refl (ex_intro _ _ eq_refl) R)
    as (ths' & m' & St & _).
  assert (w' = (run (serveWith aksStale) p newAzureWorld).1.2) as Hw by (by rewrite R).
  assert (is_Some (latest w' Hosted KAKSNodeClass key)) as Hc by (rewrite Hw; vm_compute; by eexists).
  eexists. split; [exact St|]. split; [exact Hc|]. split; [cbn [sy_world]; rewrite Hw; vm_compute; reflexivity|].
  exact (azure_never_orphaned "clusters-b" (fun w w' => w' = w) newAzureWorld notMisled _ key
           (nobody_quiet _ _ _) (refresh_caught _ _ _ eq_refl) newAzureWorld_noOrphans St Hc).
Defined.
