(* ===== verification/AzureVap.v ===== *)
(** * The admission policy of the AKSNodeClasses

    pkg/controllers/nodeclass/azure/vap/controller.go: the ValidatingAdmissionPolicy
    and its binding that keep users from changing AKSNodeClasses. *)

From S2P Require Import Prelude Prog DeepEqual MetaV1 CoreTypes AzureTypes Kube KubeLemmas.

Definition vapName : string := "karpenter.aksnodeclass.hypershift.io".
Definition vapBindingName : string := "karpenter-binding.aksnodeclass.hypershift.io".

(** The policy with the spec [vapSpec]. *)
Definition vapSpec (m : ObjectMeta) : ValidatingAdmissionPolicy :=
  mkVAP m None
    (Some (mkMatchResources None None
       (Some [mkNamedRule None (Some ["*"]) (Some [azurev1beta1.Group]) (Some ["*"])
                (Some ["aksnodeclasses"]) None])
       None None))
    (Some [mkValidation "has(oldObject.spec) && has(object.spec) && object.spec == oldObject.spec"
       "AKSNodeClass resource can't be created/updated/deleted directly, please use OpenShiftAzureNodeClass resource instead"
       None ""])
    None None
    (Some [("exclude-hcco-user", "'system:hosted-cluster-config' != request.userInfo.username")])
    None.

Definition mutatePolicy (policy : ValidatingAdmissionPolicy) : result ValidatingAdmissionPolicy :=
  Ok (vapSpec (vap_meta policy)).

Definition mutateBinding (binding : ValidatingAdmissionPolicyBinding) :
    result ValidatingAdmissionPolicyBinding :=
  Ok (mkVAPBinding (vapb_meta binding) vapName None None (Some ["Deny"])).

Definition Reconcile : go (result Result) :=
  wrap_err ("reconciling ValidatingAdmissionPolicy " +:+ vapName)
    (CreateOrUpdate Hosted KValidatingAdmissionPolicy
       (mkVAP (newMeta "" vapName) None None None None None None None) mutatePolicy) ;;?
  wrap_err ("reconciling ValidatingAdmissionPolicyBinding " +:+ vapBindingName)
    (CreateOrUpdate Hosted KValidatingAdmissionPolicyBinding
       (mkVAPBinding (newMeta "" vapBindingName) "" None None None) mutateBinding) ;;?
  Ret (Ok noRequeue).

(** The predicate and the map of both watches. *)
Definition isManaged (o : ObjectMeta) : bool :=
  bool_decide (om_Name o = vapName) || bool_decide (om_Name o = vapBindingName).
Definition enqueue (o : ObjectMeta) : list ObjectKey := [mkObjectKey "" ""].

(** ** What a reconcile ensures *)

(** A reconcile writes only the policy and its binding.  When it succeeds, the
    policy is there with exactly the operator's spec, for every version of the
    AKSNodeClass, and the binding that denies what the policy rejects. *)
Theorem azure_vap_ensured t :
  guarded (fun t' X e =>
      writesOnly Hosted (mkObjectKey "" vapName) KValidatingAdmissionPolicy mutatePolicy t' X e
      \/ writesOnly Hosted (mkObjectKey "" vapBindingName) KValidatingAdmissionPolicyBinding mutateBinding t' X e)
    t Reconcile
  /\ all_runs Reconcile t (fun t' r => forall x, r = Ok x ->
       ensured Hosted KValidatingAdmissionPolicy mutatePolicy (mkObjectKey "" vapName) t'
       /\ ensured Hosted KValidatingAdmissionPolicyBinding mutateBinding (mkObjectKey "" vapBindingName) t').
Proof.
  unfold Reconcile. split.
  - apply guarded_try; [apply guarded_wrap; eapply guarded_mono; [apply CreateOrUpdate_writesOnly | by left]|].
    eapply all_runs_mono; [apply all_runs_suffix|]. intros t' [p|e] _; [|done].
    apply guarded_try; [apply guarded_wrap; eapply guarded_mono; [apply CreateOrUpdate_writesOnly | by right]|].
    eapply all_runs_mono; [apply all_runs_suffix|]. by intros ? [?|?].
  - do 2 go_step. eapply all_runs_mono; [apply CreateOrUpdate_ensures|].
    intros t' [p|e] [_ H]; cbn [map_err all_runs]; [|done]. do 2 go_step.
    eapply all_runs_mono; [apply CreateOrUpdate_ensures|].
    intros t'' [b|e] [[t1 ->] H']; cbn [map_err all_runs]; [|done]. intros _ _.
    split; [apply ensured_app; by eapply H | by eapply H'].
Qed.
