(* ===== verification/DefaultNodeClass.v ===== *)
(** * The default NodeClass

    pkg/controllers/nodeclass/default/controller.go: the controller that keeps the
    default NodeClass of the platform in the hosted cluster, against the interface
    [NodeClassProvider]; and the two providers of pkg/cloudprovider/aws/nodeclass.go
    and pkg/cloudprovider/azure/nodeclass.go that implement it. *)

From S2P Require Import Prelude Prog DeepEqual MetaV1 CoreTypes HyperTypes AwsV1 KarpenterV1 AzureTypes Kube KubeLemmas Hypershift Ec2Tags Ec2Build.

Definition defaultNodeClassName : string := "default".

(** ** The interface

    [WatchObject] is the kind of the provider's NodeClasses.  [DefaultNodeClass]
    answers the object passed to [CreateOrUpdate] and its function, or nil.  What a
    provider promises: the object has the default name and no namespace, and the
    function succeeds, keeps the name, and asks for nothing more of what it has
    already changed. *)
Class NodeClassProvider (P : Type) := mkNodeClassProvider {
  WatchObject : kind;
  DefaultNodeClass : P -> string ->
    result (option (obj WatchObject * (obj WatchObject -> result (obj WatchObject))));
  DefaultNodeClass_law p infraID o f :
    DefaultNodeClass p infraID = Ok (Some (o, f)) ->
    ObjectKeyFromObject (meta_of o) = mkObjectKey "" defaultNodeClassName
    /\ forall base, exists o', f base = Ok o'
         /\ ObjectKeyFromObject (meta_of o') = ObjectKeyFromObject (meta_of base) /\ f o' = Ok o' }.

(** ** The providers *)

Definition managedBy : gomap string :=
  Some {["app.kubernetes.io/managed-by" := "karpenter-operator"]}.

(** [hcpEC2NodeClassProvider] *)
Inductive hcpEC2NodeClassProvider := mkHcpEC2NodeClassProvider.

Definition defaultEC2Spec (infraID : string) : osv1.OpenshiftEC2NodeClassSpec :=
  osv1.mkSpec
    (Some [osv1.mkSubnetSelectorTerm (DefaultSubnetSelectorTags infraID) ""])
    (Some [osv1.mkSecurityGroupSelectorTerm (DefaultSecurityGroupSelectorTags infraID) "" ""])
    None "" None None "" "" (osv1.mkMetadataOptions "" "" 0 "") "" osv1.zeroKubelet.

Definition ec2DefaultNodeClass (p : hcpEC2NodeClassProvider) (infraID : string) :
    result (option (osv1.OpenshiftEC2NodeClass *
                    (osv1.OpenshiftEC2NodeClass -> result osv1.OpenshiftEC2NodeClass))) :=
  Ok (Some
    (osv1.mkOpenshiftEC2NodeClass (newMeta "" "default") osv1.zeroSpec osv1.zeroStatus,
     fun nodeClass => Ok (osv1.set_Spec (defaultEC2Spec infraID)
       (osv1.set_meta (om_set_Labels managedBy (osv1.meta nodeClass)) nodeClass)))).

#[export] Program Instance ec2NodeClassProvider : NodeClassProvider hcpEC2NodeClassProvider :=
  mkNodeClassProvider _ KOpenshiftEC2NodeClass ec2DefaultNodeClass _.
Next Obligation.
  intros p infraID o f [= <- <-]. split; [done|]. intros base. by eexists.
Qed.

(** [hcpAzureNodeClassProvider] *)
Record hcpAzureNodeClassProvider := mkHcpAzureNodeClassProvider { vnetSubnetID : string }.

Definition defaultAzureSpec (p : hcpAzureNodeClassProvider) : osv1alpha1.OpenShiftAzureNodeClassSpec :=
  osv1alpha1.mkSpec (vnetSubnetID p) 0 None osv1.zeroKubelet
    (osv1alpha1.mkAzureSecurity (osv1alpha1.mkAzureEncryption "")) "".

Definition azureDefaultNodeClass (p : hcpAzureNodeClassProvider) (infraID : string) :
    result (option (osv1alpha1.OpenShiftAzureNodeClass *
                    (osv1alpha1.OpenShiftAzureNodeClass -> result osv1alpha1.OpenShiftAzureNodeClass))) :=
  Ok (Some
    (osv1alpha1.mkOpenShiftAzureNodeClass (newMeta "" "default") osv1alpha1.zeroSpec osv1alpha1.zeroStatus,
     fun nodeClass => Ok (osv1alpha1.set_Spec (defaultAzureSpec p)
       (osv1alpha1.set_meta (om_set_Labels managedBy (osv1alpha1.meta nodeClass)) nodeClass)))).

#[export] Program Instance azureNodeClassProvider : NodeClassProvider hcpAzureNodeClassProvider :=
  mkNodeClassProvider _ KOpenShiftAzureNodeClass azureDefaultNodeClass _.
Next Obligation.
  intros p infraID o f [= <- <-]. split; [done|]. intros base. by eexists.
Qed.

(** ** The controller *)

(** The two watches. *)
Definition hcpPredicate (e : Hypershift.watchEvent HostedControlPlane) : bool :=
  match e with
  | CreateEvent _ | DeleteEvent _ | GenericEvent _ => true
  | UpdateEvent oldHCP newHCP =>
      negb (bool_decide (hcp_InfraID oldHCP = hcp_InfraID newHCP))
      || negb (bool_decide (an_ProvisionerName (hcp_SpecAutoNode oldHCP) =
                            an_ProvisionerName (hcp_SpecAutoNode newHCP)))
      || negb (bool_decide
           (mget (om_Annotations (hcp_meta oldHCP)) osv1.KarpenterCoreE2EOverrideAnnotation =
            mget (om_Annotations (hcp_meta newHCP)) osv1.KarpenterCoreE2EOverrideAnnotation))
  end.

Definition nodeClassPredicate (o : ObjectMeta) : bool := bool_decide (om_Name o = defaultNodeClassName).

Section controller.
Context {P : Type} `{NodeClassProvider P}.
(** The configuration: the namespace, the provider, or nil, and whether there is
    a hosted cluster client. *)
Context (Namespace : string) (Provider : option P) (hostedClient : bool).

Definition reconcileHCP (hcp : HostedControlPlane) : go (result unit) :=
  if decide (an_ProvisionerName (hcp_SpecAutoNode hcp) <> ProvisionerKarpenter) then Ret (Ok tt)
  else if decide (mget (om_Annotations (hcp_meta hcp)) osv1.KarpenterCoreE2EOverrideAnnotation = "true")
  then Ret (Ok tt)
  else
    match Provider with
    | None => Ret (Err (ENew "default NodeClass provider is required"))
    | Some p =>
        if negb hostedClient
        then Ret (Err (ENew "hosted cluster client is required for default NodeClass reconciliation"))
        else
          match DefaultNodeClass p (hcp_InfraID hcp) with
          | Err err => Ret (Err err)
          | Ok None => Ret (Ok tt)
          | Ok (Some (defaultNodeClass, mutate)) =>
              wrap_err "reconciling default NodeClass"
                (CreateOrUpdate Hosted WatchObject defaultNodeClass mutate) ;;?
              Ret (Ok tt)
          end
    end.

Definition Reconcile : go (result Result) :=
  got ← GetHostedControlPlane Management Namespace;
  match got with
  | Err err =>
      if ErrorIs err "ErrHostedControlPlaneNotFound" then Ret (Ok noRequeue) else Ret (Err err)
  | Ok hcp => reconcileHCP hcp ;;? Ret (Ok noRequeue)
  end.

(** ** What it does *)

(** The HostedControlPlane asks for Karpenter, and for a default NodeClass. *)
Definition wantsDefault (hcp : HostedControlPlane) : Prop :=
  an_ProvisionerName (hcp_SpecAutoNode hcp) = ProvisionerKarpenter
  /\ mget (om_Annotations (hcp_meta hcp)) osv1.KarpenterCoreE2EOverrideAnnotation <> "true".

Definition hcpListed (hcp : HostedControlPlane) (t : trace eff) : Prop :=
  Ev (EList Management KHostedControlPlane (InNamespace Namespace))
     (Ok [hcp] : result (list (obj KHostedControlPlane))) ∈ t.

(** A write is of the default NodeClass of the provider, for a HostedControlPlane
    that wants it. *)
Definition defaultGuard (t : trace eff) (X : Type) (e : eff X) : Prop :=
  match e with
  | EGet _ _ _ | EList _ _ _ => True
  | _ => exists hcp p o f, hcpListed hcp t /\ wantsDefault hcp /\ Provider = Some p
           /\ DefaultNodeClass p (hcp_InfraID hcp) = Ok (Some (o, f))
           /\ writesOnly Hosted (mkObjectKey "" defaultNodeClassName) WatchObject f t X e
  end.

Lemma writesOnly_default t0 hcp p o f :
  hcpListed hcp t0 -> wantsDefault hcp -> Provider = Some p ->
  DefaultNodeClass p (hcp_InfraID hcp) = Ok (Some (o, f)) ->
  guarded defaultGuard t0 (CreateOrUpdate Hosted WatchObject o f).
Proof.
  intros Hl Hw Hp Hd. destruct (DefaultNodeClass_law _ _ _ _ Hd) as [Hk _].
  apply guarded_CreateOrUpdate; [done|..]; cbn [defaultGuard].
  - intros err o' _ [M K]%mutate_Ok. exists hcp, p, o, f. split; [apply elem_of_app; by left|].
    do 3 (split; [done|]). split; [done|]. exists eq_refl, o. split; [done|]. by rewrite K.
  - intros old o' [M K]%mutate_Ok _. exists hcp, p, o, f. split; [apply elem_of_app; by left|].
    do 3 (split; [done|]). split; [done|]. exists eq_refl, old. split; [done|]. by rewrite K.
Qed.

(** Listing the namespace did not answer one HostedControlPlane. *)
Definition noHCP (t : trace eff) : Prop :=
  exists x : result (list (obj KHostedControlPlane)),
    Ev (EList Management KHostedControlPlane (InNamespace Namespace)) x ∈ t
    /\ forall hcp : HostedControlPlane, x <> Ok [hcp].

(** The provider's default NodeClass, when it has one, is in the hosted cluster. *)
Definition defaultEnsured (hcp : HostedControlPlane) (t : trace eff) : Prop :=
  exists p, Provider = Some p /\ forall o f,
    DefaultNodeClass p (hcp_InfraID hcp) = Ok (Some (o, f)) ->
    ensured Hosted WatchObject f (mkObjectKey "" defaultNodeClassName) t.

Lemma reconcileHCP_guarded hcp t :
  hcpListed hcp t -> guarded defaultGuard t (reconcileHCP hcp).
Proof.
  intros Hl. unfold reconcileHCP. case_decide as H1; [done|]. case_decide as H2; [done|].
  destruct Provider as [p|] eqn:Hp; [|done]. destruct hostedClient; cbn [negb]; [|done].
  destruct (DefaultNodeClass p (hcp_InfraID hcp)) as [[[o f]|]|e] eqn:Hd; [|done|done].
  apply guarded_try; [|eapply all_runs_mono; [apply all_runs_suffix|]; by intros ? [?|?]].
  apply guarded_wrap. by apply (writesOnly_default _ hcp p).
Qed.

Lemma reconcileHCP_ensures hcp t :
  all_runs (reconcileHCP hcp) t (fun t' r =>
    r = Ok tt -> wantsDefault hcp -> defaultEnsured hcp t').
Proof.
  unfold reconcileHCP, wantsDefault, defaultEnsured.
  case_decide as H1; [by intros _ [? _]|]. case_decide as H2; [by intros _ [_ ?]|].
  destruct Provider as [p|]; [|done]. destruct hostedClient; cbn [negb]; [|done].
  destruct (DefaultNodeClass p (hcp_InfraID hcp)) as [[[o f]|]|e] eqn:Hd; [| |done].
  - destruct (DefaultNodeClass_law _ _ _ _ Hd) as [Hk _]. do 2 go_step.
    eapply all_runs_mono; [apply CreateOrUpdate_ensures|]. rewrite Hk.
    intros t' [x|e] [_ Hx]; cbn [map_err all_runs]; [|done]. intros _ _. exists p. split; [done|].
    intros o' f' E. rewrite Hd in E. injection E as <- <-. by eapply Hx.
  - intros _ _. exists p. split; [done|]. intros o f E. by rewrite Hd in E.
Qed.

(** The controller writes only the provider's default NodeClass, under its
    name, and only for a HostedControlPlane that was listed, uses Karpenter and
    carries no end-to-end override.  When a reconcile succeeds, there is no
    HostedControlPlane, or one that does not want it, or the default NodeClass is
    there. *)
Theorem default_nodeclass_ensured :
  guarded defaultGuard [] Reconcile
  /\ all_runs Reconcile [] (fun t r => forall x, r = Ok x ->
       noHCP t \/ exists hcp, hcpListed hcp t /\ (wantsDefault hcp -> defaultEnsured hcp t)).
Proof.
  unfold Reconcile. split.
  - apply guarded_bind; [by apply GetHostedControlPlane_guarded|].
    eapply all_runs_mono; [apply GetHostedControlPlane_runs|].
    intros t [hcp|e] (x & -> & Hx); [subst x | by destruct (ErrorIs _ _)].
    apply guarded_try; [by apply reconcileHCP_guarded, last_elem|].
    eapply all_runs_mono; [apply all_runs_suffix|]; by intros ? [?|?].
  - apply all_runs_bind. eapply all_runs_mono; [apply GetHostedControlPlane_runs|].
    intros t [hcp|e] (x & -> & Hx).
    + subst x. go_step. eapply all_runs_mono.
      { apply all_runs_and; [apply all_runs_suffix | apply reconcileHCP_ensures]. }
      intros t' [[]|e] [[t1 ->] He]; [|done]. intros _ _. right. exists hcp.
      split; [apply elem_of_app; left; apply last_elem | by apply He].
    + destruct (ErrorIs e _) eqn:E; [|done]. intros _ _. left. exists x. split; [apply last_elem|].
      intros hcp ->. by destruct Hx.
Qed.

(** An update of the HostedControlPlane that the watch ignores changes nothing. *)
Lemma default_ignored_hcp_updates oldHCP newHCP :
  hcpPredicate (UpdateEvent oldHCP newHCP) = false -> reconcileHCP oldHCP = reconcileHCP newHCP.
Proof.
  cbn [hcpPredicate]. intros [[H1 H2]%orb_false_iff H3]%orb_false_iff.
  apply negb_false_iff, bool_decide_eq_true in H1, H2, H3.
  unfold reconcileHCP. by rewrite H1, H2, H3.
Qed.

End controller.

(** The selectors of the default EC2 NodeClass are the ones an empty NodeClass is
    reconciled with. *)
Lemma ec2_default_selectors infraID :
  subnetSelectorTerms (defaultEC2Spec infraID) infraID = subnetSelectorTerms osv1.zeroSpec infraID
  /\ securityGroupSelectorTerms (defaultEC2Spec infraID) infraID =
     securityGroupSelectorTerms osv1.zeroSpec infraID.
Proof. done. Qed.
