(* ===== verification/CrdController.v ===== *)
(** * The CRD controller

    pkg/controllers/crd/controller.go: installs the Karpenter CRDs of the
    configuration, in order, in the hosted cluster, or in the operator's own
    cluster when there is no hosted one. *)

From S2P Require Import Prelude Prog DeepEqual MetaV1 OcpTypes Kube KubeLemmas Hypershift.

Record ControllerConfig := mkControllerConfig {
  Namespace : string;
  CRDs : list CustomResourceDefinition;
  HostedCluster : bool }.

(** [NewController]: the cluster whose client writes and whose cache is watched. *)
Definition targetClient (cfg : ControllerConfig) : cluster :=
  if HostedCluster cfg then Hosted else Management.

(** The function passed to [CreateOrUpdate]. *)
Definition mutateCRD (desired crd : CustomResourceDefinition) : result CustomResourceDefinition :=
  Ok (mkCRD (crd_meta crd) (crd_Spec desired)).

Definition crdName (c : CustomResourceDefinition) : string := om_Name (crd_meta c).

Definition applyCRD (c : cluster) (desired : CustomResourceDefinition) : go (result unit) :=
  CreateOrUpdate c KCustomResourceDefinition (mkCRD (newMeta "" (crdName desired)) "") (mutateCRD desired) ;;?
  Ret (Ok tt).

Definition Reconcile (cfg : ControllerConfig) : go (result Result) :=
  for_each (CRDs cfg) (fun desired =>
    wrap_err ("applying CRD " +:+ crdName desired) (applyCRD (targetClient cfg) desired)) ;;?
  Ret (Ok noRequeue).

(** The watch: [managedCRDs] is keyed by name, and only generation changes pass. *)
Definition mapCRD (cfg : ControllerConfig) (o : ObjectMeta) : list ObjectKey :=
  if decide (om_Name o ∈ map crdName (CRDs cfg)) then [mkObjectKey "" (om_Name o)] else [].

Definition GenerationChangedPredicate (e : watchEvent ObjectMeta) : bool :=
  match e with
  | CreateEvent _ | DeleteEvent _ | GenericEvent _ => true
  | UpdateEvent old new => negb (bool_decide (om_Generation new = om_Generation old))
  end.

(** ** What a reconcile installs *)

Section install.
Context (cfg : ControllerConfig).

(** The CRD is in the target cluster with the spec of the configuration. *)
Definition installed (desired : CustomResourceDefinition) (t : trace eff) : Prop :=
  ensured (targetClient cfg) KCustomResourceDefinition (mutateCRD desired)
    (mkObjectKey "" (crdName desired)) t.

Definition crdGuard (t : trace eff) (X : Type) (e : eff X) : Prop :=
  exists dn desired todo, CRDs cfg = dn ++ desired :: todo
    /\ Forall (fun d => installed d t) dn
    /\ writesOnly (targetClient cfg) (mkObjectKey "" (crdName desired)) KCustomResourceDefinition
         (mutateCRD desired) t X e.

Lemma applyCRD_guarded desired t :
  guarded (writesOnly (targetClient cfg) (mkObjectKey "" (crdName desired)) KCustomResourceDefinition
             (mutateCRD desired)) t (applyCRD (targetClient cfg) desired).
Proof.
  unfold applyCRD. apply guarded_try.
  { exact (CreateOrUpdate_writesOnly (targetClient cfg) KCustomResourceDefinition
             (mkCRD (newMeta "" (crdName desired)) "") (mutateCRD desired) t). }
  eapply all_runs_mono; [apply all_runs_suffix|]. by intros ? [?|?].
Qed.

Lemma applyCRD_installs desired t :
  all_runs (applyCRD (targetClient cfg) desired) t (fun t' r =>
    (exists t1, t' = t ++ t1) /\ (r = Ok tt -> installed desired t')).
Proof.
  apply all_runs_and; [apply all_runs_suffix|]. unfold applyCRD. go_step.
  eapply all_runs_mono; [apply (CreateOrUpdate_ensures (targetClient cfg) KCustomResourceDefinition)|].
  intros t' [x|e] [_ Hx]; cbn [all_runs]; [|done]. intros _. by eapply Hx.
Qed.

Lemma installed_app l t t' :
  Forall (fun d => installed d t) l -> Forall (fun d => installed d (t ++ t')) l.
Proof. intros H. eapply Forall_impl; [exact H|]. intros d Hd. by apply ensured_app. Qed.

(** The turn of the loop for one CRD. *)
Lemma turn_installs (dn : list CustomResourceDefinition) x t :
  Forall (fun d => installed d t) dn ->
  all_runs (wrap_err ("applying CRD " +:+ crdName x) (applyCRD (targetClient cfg) x)) t (fun t' r =>
    match r with
    | Ok _ => Forall (fun d => installed d t') (dn ++ [x])
    | Err err => exists e, err = wrapf ("applying CRD " +:+ crdName x) e
                   /\ Forall (fun d => installed d t') dn
    end).
Proof.
  intros H. go_step. eapply all_runs_mono; [apply applyCRD_installs|].
  intros t' [[]|e] [[t1 ->] Hi]; cbn [map_err].
  - apply Forall_app. split; [by apply installed_app|]. constructor; [by apply Hi | done].
  - exists e. split; [done | by apply installed_app].
Qed.

(** The CRDs are installed in the order of the configuration, each only after
    those before it, and with nothing else written.  A reconcile that succeeds has
    installed all of them; one that fails names the first that could not be, with
    all before it installed. *)
Theorem crds_installed_in_order :
  guarded crdGuard [] (Reconcile cfg)
  /\ all_runs (Reconcile cfg) [] (fun t r =>
       match r with
       | Ok _ => Forall (fun d => installed d t) (CRDs cfg)
       | Err err => exists dn failed todo e, CRDs cfg = dn ++ failed :: todo
           /\ err = wrapf ("applying CRD " +:+ crdName failed) e
           /\ Forall (fun d => installed d t) dn
       end).
Proof.
  unfold Reconcile. split.
  - apply guarded_try; [|eapply all_runs_mono; [apply all_runs_suffix|]; by intros ? [?|?]].
    apply (guarded_for_each _ (fun dn t => Forall (fun d => installed d t) dn)); [constructor|].
    intros dn x t [todo Hl] Hdn. rewrite <- app_assoc in Hl. split.
    + apply guarded_wrap. eapply guarded_mono; [apply guarded_suffix, applyCRD_guarded|].
      intros t' X e [He [t1 ->]]. exists dn, x, todo. split; [done|]. split; [by apply installed_app | done].
    + eapply all_runs_mono; [by apply turn_installs|]. by intros t' [[]|e].
  - go_step. eapply all_runs_mono.
    { apply (all_runs_for_each (fun dn t => Forall (fun d => installed d t) dn)
        (fun t err => exists dn failed todo e, CRDs cfg = dn ++ failed :: todo
           /\ err = wrapf ("applying CRD " +:+ crdName failed) e
           /\ Forall (fun d => installed d t) dn)); [constructor|].
      intros dn x t [todo Hl] Hdn. rewrite <- app_assoc in Hl.
      eapply all_runs_mono; [by apply turn_installs|]. intros t' [[]|e]; [done|].
      intros (e' & -> & H). by exists dn, x, todo, e'. }
    by intros t' [[]|e].
Qed.

End install.
