(* ===== verification/ClusterOperatorController.v ===== *)
(** * The ClusterOperator controller

    pkg/controllers/clusteroperator/controller.go: reports the operand's state as
    the status of the ClusterOperator of a standalone cluster. *)

From S2P Require Import Prelude Prog DeepEqual MetaV1 OcpTypes ApplyTypes Kube.

Definition clusterOperatorName : string := "karpenter".
Definition fieldManager : string := "karpenter-operator".
Definition reasonUnsupportedPlatform : string := "UnsupportedPlatform".

Definition OperatorAvailable : string := "Available".
Definition OperatorProgressing : string := "Progressing".
Definition OperatorDegraded : string := "Degraded".
Definition OperatorUpgradeable : string := "Upgradeable".

Record ControllerConfig := mkControllerConfig {
  Namespace : string;
  ReleaseVersion : string;
  AdditionalRelatedObjects : list ObjectReference;
  UnsupportedPlatform : option string }.

(** ** Condition builders *)

Definition condition (condType status reason message : string) : COConditionAC :=
  mkCOConditionAC (Some condType) (Some status) None (Some reason)
    (if decide (message = "") then None else Some message).

Definition availableConditions (reason message : string) : list COConditionAC :=
  [condition OperatorAvailable ConditionTrue reason message;
   condition OperatorProgressing ConditionFalse "AsExpected" "";
   condition OperatorDegraded ConditionFalse "AsExpected" "";
   condition OperatorUpgradeable ConditionTrue "AsExpected" ""].

Definition progressingConditions (reason message : string) : list COConditionAC :=
  [condition OperatorAvailable ConditionTrue "AsExpected" "";
   condition OperatorProgressing ConditionTrue reason message;
   condition OperatorDegraded ConditionFalse "AsExpected" "";
   condition OperatorUpgradeable ConditionTrue "AsExpected" ""].

Definition degradedConditions (reason message : string) : list COConditionAC :=
  [condition OperatorAvailable ConditionTrue "AsExpected" "";
   condition OperatorProgressing ConditionFalse "AsExpected" "";
   condition OperatorDegraded ConditionTrue reason message;
   condition OperatorUpgradeable ConditionTrue "AsExpected" ""].

(** The first condition of the type. *)
Definition findCondition (conditions : list ClusterOperatorStatusCondition) (condType : string) :
    option ClusterOperatorStatusCondition :=
  List.find (fun c => bool_decide (coc_Type c = condType)) conditions.

(** ** The controller *)

Section controller.
Context (cfg : ControllerConfig).

Definition karpenterKey : ObjectKey := mkObjectKey "" SingletonName.
Definition deploymentKey : ObjectKey := mkObjectKey (Namespace cfg) "karpenter".

Definition operandConditions : go (list COConditionAC) :=
  gotKarp ← call (EGet Management KKarpenter karpenterKey);
  match gotKarp with
  | Err err =>
      if IsNotFound err
      then Ret (availableConditions "KarpenterNotFound" ("at version " +:+ ReleaseVersion cfg))
      else Ret (degradedConditions "KarpenterCheckFailed"
                  ("Failed to get Karpenter CR: " +:+ ErrorText err))
  | Ok _ =>
      got ← call (EGet Management KDeployment deploymentKey);
      match got with
      | Err err =>
          if IsNotFound err
          then Ret (progressingConditions "OperandNotYetCreated"
                      "Waiting for karpenter Deployment to be created")
          else Ret (degradedConditions "OperandCheckFailed"
                      ("Failed to get operand Deployment: " +:+ ErrorText err))
      | Ok deploy =>
          if decide (dep_AvailableReplicas deploy < 1)%Z
          then Ret (progressingConditions "OperandNotReady"
                      "Waiting for karpenter Deployment to become available")
          else if decide (dep_UpdatedReplicas deploy <> dep_Replicas deploy)
          then Ret (progressingConditions "OperandRollingOut" "Karpenter Deployment is rolling out")
          else Ret (availableConditions "AsExpected" ("at version " +:+ ReleaseVersion cfg))
      end
  end.

(** A turn of the loop over the conditions, which writes through the pointers. *)
Definition withTransitionTime (existing : list ClusterOperatorStatusCondition) (now : Time)
    (c : COConditionAC) : COConditionAC :=
  let set t := mkCOConditionAC (coa_Type c) (coa_Status c) (Some t) (coa_Reason c) (coa_Message c) in
  let c1 := match coa_LastTransitionTime c with None => set now | Some _ => c end in
  match coa_Type c, coa_Status c with
  | Some type, Some status =>
      match findCondition existing type with
      | Some prev => if decide (coc_Status prev = status) then set (coc_LastTransitionTime prev) else c1
      | None => c1
      end
  | _, _ => c1
  end.

(** [configac.ObjectReference()] with the fields that are set. *)
Definition ref (group resource name : string) (namespace : option string) : ObjectReferenceAC :=
  mkObjectReferenceAC (Some group) (Some resource) namespace (Some name).

Definition relatedObjects : list ObjectReferenceAC :=
  [ref "" "namespaces" (Namespace cfg) None;
   ref "apps" "deployments" "karpenter-operator" (Some (Namespace cfg));
   ref "rbac.authorization.k8s.io" "clusterroles" "karpenter-operator" None;
   ref "rbac.authorization.k8s.io" "clusterrolebindings" "karpenter-operator" None]
  ++ (if decide (UnsupportedPlatform cfg = None)
      then [ref "karpenter.sh" "nodepools" "" None; ref "karpenter.sh" "nodeclaims" "" None]
      else [])
  ++ map (fun o => ref (oref_Group o) (oref_Resource o) (oref_Name o) (Some (oref_Namespace o)))
       (AdditionalRelatedObjects cfg).

Definition statusOf (conditions : list COConditionAC) : applyConfiguration :=
  ApplyClusterOperator clusterOperatorName
    (Some (mkCOStatusAC conditions [("operator", ReleaseVersion cfg)] relatedObjects)).

Definition applyStatus (conditions : list COConditionAC) : go (result unit) :=
  wrap_err "applying ClusterOperator"
    (call (EApply Management (ApplyClusterOperator clusterOperatorName None) fieldManager false)) ;;?
  existing ←? wrap_err "reading existing ClusterOperator"
    (call (EGet Management KClusterOperator (mkObjectKey "" clusterOperatorName)));
  now ← call ENow;
  call (EStatusApply Management KClusterOperator (mkObjectKey "" clusterOperatorName)
          (statusOf (map (withTransitionTime (elems (co_Conditions existing)) now) conditions))
          fieldManager true).

Definition conditionsOf : go (list COConditionAC) :=
  match UnsupportedPlatform cfg with
  | Some platform =>
      Ret (availableConditions reasonUnsupportedPlatform
             ("Karpenter is not supported on platform " +:+ platform +:+ ", no operand is deployed"))
  | None => operandConditions
  end.

Definition Reconcile : go (result Result) :=
  conditions ← conditionsOf;
  wrap_err "updating ClusterOperator status" (applyStatus conditions) ;;?
  Ret (Ok noRequeue).

(** The watches. *)
Definition reconcileRequest : list ObjectKey := [mkObjectKey "" clusterOperatorName].
Definition clusterOperatorPredicate (o : ObjectMeta) : bool := bool_decide (om_Name o = clusterOperatorName).
Definition mapKarpenter (o : ObjectMeta) : list ObjectKey :=
  if decide (om_Name o <> SingletonName) then [] else reconcileRequest.
Definition mapDeployment (o : ObjectMeta) : list ObjectKey :=
  if decide (om_Namespace o <> Namespace cfg \/ om_Name o <> "karpenter") then [] else reconcileRequest.

(** ** What is reported *)

(** What a look at the operand finds: whether it is on its way, and whether it
    could not be checked. *)
Inductive observed : trace eff -> bool -> bool -> Prop :=
| observed_unsupported platform :
    UnsupportedPlatform cfg = Some platform -> observed [] false false
| observed_noKarpenter err :
    IsNotFound err = true ->
    observed [Ev (EGet Management KKarpenter karpenterKey) (Err err)] false false
| observed_karpenterError err :
    IsNotFound err = false ->
    observed [Ev (EGet Management KKarpenter karpenterKey) (Err err)] false true
| observed_noDeployment (karp : obj KKarpenter) err :
    IsNotFound err = true ->
    observed [Ev (EGet Management KKarpenter karpenterKey) (Ok karp);
              Ev (EGet Management KDeployment deploymentKey) (Err err)] true false
| observed_deploymentError (karp : obj KKarpenter) err :
    IsNotFound err = false ->
    observed [Ev (EGet Management KKarpenter karpenterKey) (Ok karp);
              Ev (EGet Management KDeployment deploymentKey) (Err err)] false true
| observed_deployment (karp : obj KKarpenter) (d : Deployment) :
    observed [Ev (EGet Management KKarpenter karpenterKey) (Ok karp);
              Ev (EGet Management KDeployment deploymentKey) (Ok d : result (obj KDeployment))]
      (negb (bool_decide (1 <= dep_AvailableReplicas d /\ dep_UpdatedReplicas d = dep_Replicas d)%Z)) false.

Definition conditionStatus (b : bool) : string := if b then ConditionTrue else ConditionFalse.

(** The type and status of the conditions that are reported. *)
Definition typesAndStatuses (progressing degraded : bool) : list (option string * option string) :=
  [(Some OperatorAvailable, Some ConditionTrue);
   (Some OperatorProgressing, Some (conditionStatus progressing));
   (Some OperatorDegraded, Some (conditionStatus degraded));
   (Some OperatorUpgradeable, Some ConditionTrue)].

(** The conditions say what was observed. *)
Definition says (t : trace eff) (progressing degraded : bool) (cs : list COConditionAC) : Prop :=
  observed t progressing degraded
  /\ map (fun c => (coa_Type c, coa_Status c)) cs = typesAndStatuses progressing degraded
  /\ Forall (fun c => coa_LastTransitionTime c = None) cs.

Lemma available_says t r m : observed t false false -> says t false false (availableConditions r m).
Proof. intros H. split; [done|]. split; [done | by repeat constructor]. Qed.

Lemma progressing_says t r m : observed t true false -> says t true false (progressingConditions r m).
Proof. intros H. split; [done|]. split; [done | by repeat constructor]. Qed.

Lemma degraded_says t r m : observed t false true -> says t false true (degradedConditions r m).
Proof. intros H. split; [done|]. split; [done | by repeat constructor]. Qed.

Lemma conditionsOf_runs t :
  all_runs conditionsOf t (fun t' cs => exists t1 progressing degraded,
    t' = t ++ t1 /\ says t1 progressing degraded cs).
Proof.
  unfold conditionsOf. destruct (UnsupportedPlatform cfg) as [platform|] eqn:U.
  { exists [], false, false. rewrite app_nil_r. split; [done|].
    by eapply available_says, observed_unsupported. }
  intros [karp|err]; cbn [mbind prog_bind].
  - intros [d|err]; cbn [mbind prog_bind]; rewrite <- app_assoc; cbn [app].
    + assert (H := observed_deployment karp d). case_bool_decide as B; cbn [negb] in H.
      * destruct B as [B1 B2]. rewrite decide_False by lia. rewrite decide_False by tauto.
        eexists _, _, _. split; [done | by apply available_says].
      * case_decide as A; [eexists _, _, _; split; [done | by apply progressing_says]|].
        rewrite decide_True by (intros E; apply B; split; [lia | done]).
        eexists _, _, _. split; [done | by apply progressing_says].
    + destruct (IsNotFound err) eqn:N; eexists _, _, _; (split; [done|]);
        [by apply progressing_says, observed_noDeployment | by apply degraded_says, observed_deploymentError].
  - destruct (IsNotFound err) eqn:N; eexists _, _, _; (split; [done|]);
      [by apply available_says, observed_noKarpenter | by apply degraded_says, observed_karpenterError].
Qed.

(** The transition time of a condition is the one it had with the same status, or
    the present. *)
Definition timed (existing : list ClusterOperatorStatusCondition) (now : Time) (c : COConditionAC) : Prop :=
  exists type status, coa_Type c = Some type /\ coa_Status c = Some status /\
  coa_LastTransitionTime c =
    Some (match findCondition existing type with
          | Some prev => if decide (coc_Status prev = status) then coc_LastTransitionTime prev else now
          | None => now
          end).

Lemma withTransitionTime_timed existing now c :
  coa_Type c <> None -> coa_Status c <> None -> coa_LastTransitionTime c = None ->
  let c' := withTransitionTime existing now c in
  timed existing now c' /\ coa_Type c' = coa_Type c /\ coa_Status c' = coa_Status c
  /\ coa_Reason c' = coa_Reason c /\ coa_Message c' = coa_Message c.
Proof.
  destruct c as [[type|] [status|] time reason message]; cbn; try done. intros _ _ ->.
  unfold withTransitionTime, timed; cbn.
  destruct (findCondition existing type) as [prev|] eqn:F; [case_decide as E|]; cbn;
    (split; [exists type, status; do 2 (split; [done|]); rewrite F|done]).
  - by rewrite decide_True.
  - by rewrite decide_False.
  - done.
Qed.

(** C29. What the ClusterOperator is told.  A reconcile that succeeds has looked at
    the operand (unless the platform is not supported) and then, as its only
    effects, ensured the ClusterOperator and applied its status: Available and
    Upgradeable are always true, so the operator never blocks an upgrade;
    Progressing is true exactly when the Karpenter resource exists and its
    Deployment is missing, unavailable or rolling out, Degraded exactly when one of
    them could not be read, never both; and the transition time of a condition is
    the existing one when its status has not changed, and the present otherwise. *)
Theorem clusteroperator_reports :
  all_runs Reconcile [] (fun t r => forall x, r = Ok x ->
    exists t1 progressing degraded existing now cs,
      let key := mkObjectKey "" clusterOperatorName in
      t = t1 ++
        [Ev (EApply Management (ApplyClusterOperator clusterOperatorName None) fieldManager false) (Ok tt);
         Ev (EGet Management KClusterOperator key) (Ok existing : result (obj KClusterOperator));
         Ev ENow now;
         Ev (EStatusApply Management KClusterOperator key (statusOf cs) fieldManager true) (Ok tt)]
      /\ observed t1 progressing degraded /\ progressing && degraded = false
      /\ map (fun c => (coa_Type c, coa_Status c)) cs = typesAndStatuses progressing degraded
      /\ Forall (timed (elems (co_Conditions existing)) now) cs).
Proof.
  unfold Reconcile. apply all_runs_bind. eapply all_runs_mono; [apply conditionsOf_runs|].
  intros t cs0 (t1 & progressing & degraded & -> & Ho & Hts & Hn). cbn [app].
  do 2 go_step. unfold applyStatus. do 2 go_step. intros [[]|e]; cbn [map_err all_runs]; [|done].
  do 2 go_step. intros [existing|e]; cbn [map_err all_runs]; [|done].
  intros now. intros [[]|e]; cbn [map_err all_runs]; [|done]. intros x [= <-].
  eexists t1, progressing, degraded, existing, now, _. split; [by rewrite <- !app_assoc|].
  split; [done|]. split; [by destruct Ho; rewrite ?andb_false_r|].
  assert (Hd : Forall (fun c => coa_Type c <> None /\ coa_Status c <> None /\ coa_LastTransitionTime c = None) cs0).
  { apply Forall_forall. intros c Hc. rewrite Forall_forall in Hn.
    assert (Hin : (coa_Type c, coa_Status c) ∈ map (fun c => (coa_Type c, coa_Status c)) cs0)
      by (rewrite <- fmap_map; by apply (list_elem_of_fmap_2 (fun c => (coa_Type c, coa_Status c)))).
    rewrite Hts in Hin. split; [|split; [|by apply Hn]];
      intros E; rewrite E in Hin; destruct progressing, degraded;
      repeat (apply elem_of_cons in Hin as [Hin|Hin]; [done|]); by apply elem_of_nil in Hin. }
  split.
  - rewrite <- Hts, map_map. apply map_ext_in. intros c Hc%list_elem_of_In.
    rewrite Forall_forall in Hd. destruct (Hd c Hc) as (H1 & H2 & H3).
    by destruct (withTransitionTime_timed (elems (co_Conditions existing)) now c H1 H2 H3) as (_ & -> & -> & _).
  - rewrite <- fmap_map. apply Forall_fmap. eapply Forall_impl; [exact Hd|]. intros c (H1 & H2 & H3).
    by apply withTransitionTime_timed.
Qed.

End controller.
