(* ===== verification/CloudProviders.v ===== *)
(** * The cloud providers

    pkg/cloudprovider: the interfaces the rest of the operator is written against
    (common/common.go), their AWS and Azure implementations (aws/config.go,
    aws/provider.go, azure/config.go, azure/provider.go and the nodeclass.go of
    both) and the choice between them (cloud.go).  [env] is [os.Getenv]: the empty
    string for a variable that is not set.  The embedded manifests of pkg/assets
    are [Assets], with the names they declare and their decoded content a
    parameter. *)

From S2P Require Import Prelude DeepEqual MetaV1 OcpTypes ApplyTypes Kube DefaultNodeClass.

(** ** common.go *)

Record InfrastructureInfo := mkInfrastructureInfo {
  PlatformType : string;
  Region : string;
  InfraName : string;
  ClusterEndpoint : string }.

Record RBACAssets := mkRBACAssets {
  Roles : list Role;
  RoleBindings : list RoleBinding;
  ClusterRoles : list Role;
  ClusterRoleBindings : list RoleBinding }.

Record OperandCloudConfig := mkOperandCloudConfig {
  CredentialsSecretName : string;
  Env : list corev1.EnvVar;
  Volumes : list corev1.Volume;
  VolumeMounts : list corev1.VolumeMount }.

(** The controllers [NewControllers] returns, by their constructor's arguments. *)
Inductive NodeClassController :=
| EC2NodeClassReconciler (namespace : string)
| AzureNodeClassController (namespace : string)
| AzureVAPController.

(** [HCPNodeClassProvider]: a [NodeClassProvider], its CRDs and its controllers. *)
Record HCPNodeClassProvider := mkHCPNodeClassProvider {
  hnp_Type : Type;
  hnp_Provider : NodeClassProvider hnp_Type;
  hnp_value : hnp_Type;
  hnp_CRDs : list CustomResourceDefinition;
  hnp_NewControllers : string -> list NodeClassController }.

(** [CloudProvider], without [AddToScheme]; [NodeIdentityVerifier] tells whether
    there is one. *)
Record CloudProvider := mkCloudProvider {
  KarpenterImage : string;
  OperandConfig : OperandCloudConfig;
  CRDs : list CustomResourceDefinition;
  RBAC : RBACAssets;
  RelatedObjects : list ObjectReference;
  HCPNodeClassProviderOf : option HCPNodeClassProvider;
  NodeIdentityVerifier : bool }.

(** ** env.go, consts.go *)

Definition RequireEnv (env : string -> string) (name : string) : result string :=
  let v := env name in
  if decide (v = "") then Err (ENew (name +:+ " not set")) else Ok v.

(** ** assets.go *)

(** What the embedded manifests decode to, by file. *)
Record Decoded := mkDecoded {
  decodedSpec : string -> string;
  decodedRole : string -> Role;
  decodedBinding : string -> RoleBinding }.

Section assets.
Context (files : Decoded).

Definition crdAsset (file name : string) : CustomResourceDefinition :=
  mkCRD (newMeta "" name) (decodedSpec files file).

Definition CoreRBAC : RBACAssets :=
  mkRBACAssets [decodedRole files "karpenter/role.yaml"]
    [decodedBinding files "karpenter/role-binding.yaml"]
    [decodedRole files "karpenter/clusterrole-core.yaml"]
    [decodedBinding files "karpenter/clusterrolebinding-core.yaml"].

Definition AWSRBACAssets : RBACAssets :=
  mkRBACAssets [] [] [decodedRole files "aws/clusterrole.yaml"]
    [decodedBinding files "aws/clusterrolebinding.yaml"].

Definition CoreCRDs : list CustomResourceDefinition :=
  [crdAsset "crds/karpenter.sh_nodepools.yaml" "nodepools.karpenter.sh";
   crdAsset "crds/karpenter.sh_nodeclaims.yaml" "nodeclaims.karpenter.sh"].

Definition AWSCRDs : list CustomResourceDefinition :=
  [crdAsset "aws/karpenter.k8s.aws_ec2nodeclasses.yaml" "ec2nodeclasses.karpenter.k8s.aws"].

Definition AWSHCPCRDs : list CustomResourceDefinition :=
  [crdAsset "hypershift/karpenter.hypershift.openshift.io_openshiftec2nodeclasses.yaml"
     "openshiftec2nodeclasses.karpenter.hypershift.openshift.io"].

Definition AzureCRDs : list CustomResourceDefinition :=
  [crdAsset "azure/karpenter.azure.com_aksnodeclasses.yaml" "aksnodeclasses.karpenter.azure.com";
   crdAsset "crds/karpenter.sh_nodeoverlays.yaml" "nodeoverlays.karpenter.sh"].

Definition AzureHCPCRDs : list CustomResourceDefinition :=
  [crdAsset "hypershift/karpenter.hypershift.openshift.io_openshiftazurenodeclasses.yaml"
     "openshiftazurenodeclasses.karpenter.hypershift.openshift.io"].

End assets.

(** ** AWS *)

Module aws.

Definition KarpenterImageEnvName : string := "KARPENTER_IMAGE_AWS".
Definition AWSSharedAuthFileEnvName : string := "AWS_SHARED_CREDENTIALS_FILE".
Definition operandCredentialsSecret : string := "karpenter-credentials".

Record Provider := mkProvider {
  region : string; infraName : string; clusterEndpoint : string; karpenterImage : string }.

(** [LoadDefaultConfig] is the AWS SDK's, for the region. *)
Definition New (env : string -> string) (LoadDefaultConfig : string -> result unit)
    (infra : InfrastructureInfo) : result Provider :=
  if decide (Region infra = "") then Err (ENew "region not available")
  else
    let image := env KarpenterImageEnvName in
    rbind (RequireEnv env AWSSharedAuthFileEnvName) (fun _ =>
    rbind (map_err (wrapf "loading AWS config") (LoadDefaultConfig (Region infra))) (fun _ =>
    Ok (mkProvider (Region infra) (InfraName infra) (ClusterEndpoint infra) image))).

Definition operandConfig (p : Provider) : OperandCloudConfig :=
  mkOperandCloudConfig operandCredentialsSecret
    [corev1.mkEnvVar "AWS_REGION" (region p);
     corev1.mkEnvVar "AWS_SHARED_CREDENTIALS_FILE" "/etc/provider/credentials";
     corev1.mkEnvVar "AWS_SDK_LOAD_CONFIG" "true"]
    [corev1.mkVolume "provider-creds"
       (Some (corev1.mkSecretVolumeSource operandCredentialsSecret None None)) false]
    [corev1.mkVolumeMount "provider-creds" true "/etc/provider"].

Definition hcpNodeClassProvider (files : Decoded) : HCPNodeClassProvider :=
  mkHCPNodeClassProvider hcpEC2NodeClassProvider _ mkHcpEC2NodeClassProvider (AWSHCPCRDs files)
    (fun namespace => [EC2NodeClassReconciler namespace]).

Definition cloudProvider (files : Decoded) (p : Provider) : CloudProvider :=
  mkCloudProvider (karpenterImage p) (operandConfig p) (AWSCRDs files) (AWSRBACAssets files)
    [mkObjectReference "karpenter.k8s.aws" "ec2nodeclasses" "" ""]
    (Some (hcpNodeClassProvider files)) true.

End aws.

(** ** Azure *)

Module azure.

Definition KarpenterImageEnvName : string := "KARPENTER_IMAGE_AZURE".
Definition AzureClientIDEnvName : string := "AZURE_CLIENT_ID".
Definition AzureTenantIDEnvName : string := "AZURE_TENANT_ID".
Definition AzureSubscriptionIDEnvName : string := "AZURE_SUBSCRIPTION_ID".
Definition AzureFederatedTokenFileEnvName : string := "AZURE_FEDERATED_TOKEN_FILE".
Definition AzureVNetSubnetIDEnvName : string := "VNET_SUBNET_ID".
Definition AzureNodeResourceGroupEnvName : string := "AZURE_NODE_RESOURCE_GROUP".
Definition AzureLocationEnvName : string := "LOCATION".
Definition AzureProvisionModeEnvName : string := "PROVISION_MODE".

Record Provider := mkProvider {
  region : string;
  karpenterImage : string;
  clientID : string;
  tenantID : string;
  subscriptionID : string;
  federatedTokenFile : string;
  vnetSubnetIDOf : string;
  nodeResourceGroup : string }.

Definition New (env : string -> string) (infra : InfrastructureInfo) : result Provider :=
  if decide (Region infra = "") then Err (ENew "region not available")
  else
    let image := env KarpenterImageEnvName in
    rbind (RequireEnv env AzureClientIDEnvName) (fun clientID =>
    rbind (RequireEnv env AzureTenantIDEnvName) (fun tenantID =>
    rbind (RequireEnv env AzureSubscriptionIDEnvName) (fun subscriptionID =>
    rbind (RequireEnv env AzureFederatedTokenFileEnvName) (fun federatedTokenFile =>
    rbind (RequireEnv env AzureVNetSubnetIDEnvName) (fun vnetSubnetID =>
    rbind (RequireEnv env AzureNodeResourceGroupEnvName) (fun nodeResourceGroup =>
    Ok (mkProvider (Region infra) image clientID tenantID subscriptionID federatedTokenFile
          vnetSubnetID nodeResourceGroup))))))).

Definition operandConfig (p : Provider) : OperandCloudConfig :=
  mkOperandCloudConfig ""
    [corev1.mkEnvVar AzureLocationEnvName (region p);
     corev1.mkEnvVar AzureClientIDEnvName (clientID p);
     corev1.mkEnvVar AzureTenantIDEnvName (tenantID p);
     corev1.mkEnvVar AzureSubscriptionIDEnvName (subscriptionID p);
     corev1.mkEnvVar AzureFederatedTokenFileEnvName (federatedTokenFile p);
     corev1.mkEnvVar AzureVNetSubnetIDEnvName (vnetSubnetIDOf p);
     corev1.mkEnvVar AzureNodeResourceGroupEnvName (nodeResourceGroup p);
     corev1.mkEnvVar AzureProvisionModeEnvName "openshift"]
    [] [].

Definition hcpNodeClassProvider (files : Decoded) (p : Provider) : HCPNodeClassProvider :=
  mkHCPNodeClassProvider hcpAzureNodeClassProvider _ (mkHcpAzureNodeClassProvider (vnetSubnetIDOf p))
    (AzureHCPCRDs files)
    (fun namespace => [AzureNodeClassController namespace; AzureVAPController]).

Definition cloudProvider (files : Decoded) (p : Provider) : CloudProvider :=
  mkCloudProvider (karpenterImage p) (operandConfig p) (AzureCRDs files) (mkRBACAssets [] [] [] [])
    [mkObjectReference "karpenter.azure.com" "aksnodeclasses" "" ""]
    (Some (hcpNodeClassProvider files p)) false.

End azure.

(** ** cloud.go *)

Section cloud.
Context (files : Decoded) (env : string -> string) (LoadDefaultConfig : string -> result unit).

Definition GetCloudProvider (infra : InfrastructureInfo) : result CloudProvider :=
  if decide (PlatformType infra = AWSPlatformType)
  then rbind (aws.New env LoadDefaultConfig infra) (fun p => Ok (aws.cloudProvider files p))
  else if decide (PlatformType infra = AzurePlatformType)
  then rbind (azure.New env infra) (fun p => Ok (azure.cloudProvider files p))
  else Err (ENew ("unsupported platform type: " +:+ PlatformType infra)).

(** ** What a provider needs *)

(** The environment variables a platform needs, in the order they are looked up. *)
Definition required (platform : string) : list string :=
  if decide (platform = AWSPlatformType) then [aws.AWSSharedAuthFileEnvName]
  else if decide (platform = AzurePlatformType) then
    [azure.AzureClientIDEnvName; azure.AzureTenantIDEnvName; azure.AzureSubscriptionIDEnvName;
     azure.AzureFederatedTokenFileEnvName; azure.AzureVNetSubnetIDEnvName;
     azure.AzureNodeResourceGroupEnvName]
  else [].

Definition supported (platform : string) : Prop :=
  platform = AWSPlatformType \/ platform = AzurePlatformType.

Definition imageEnvName (platform : string) : string :=
  if decide (platform = AWSPlatformType) then aws.KarpenterImageEnvName else azure.KarpenterImageEnvName.

Lemma RequireEnv_bind {A} name (f : string -> result A) :
  rbind (RequireEnv env name) f =
    if decide (env name = "") then Err (ENew (name +:+ " not set")) else f (env name).
Proof. unfold RequireEnv. by case_decide. Qed.

(** The first variable of the list that is not set. *)
Definition firstMissing (names : list string) : option string :=
  List.find (fun name => bool_decide (env name = "")) names.

(** A provider is built exactly for a supported platform, a region and all the
    variables the platform needs (and, on AWS, a configuration of the SDK); the
    image may be missing, so that it can be given per cluster.  Otherwise the error
    names the first missing variable. *)
Theorem GetCloudProvider_spec infra :
  let platform := PlatformType infra in
  match GetCloudProvider infra with
  | Ok p => supported platform /\ Region infra <> "" /\ firstMissing (required platform) = None
            /\ KarpenterImage p = env (imageEnvName platform)
  | Err err =>
      err = ENew ("unsupported platform type: " +:+ platform) /\ ~ supported platform
      \/ err = ENew "region not available" /\ supported platform /\ Region infra = ""
      \/ (exists name, firstMissing (required platform) = Some name
            /\ supported platform /\ err = ENew (name +:+ " not set"))
      \/ exists e, platform = AWSPlatformType /\ LoadDefaultConfig (Region infra) = Err e
            /\ err = wrapf "loading AWS config" e
  end.
Proof.
  cbn zeta. unfold GetCloudProvider, required, imageEnvName, supported, firstMissing.
  destruct (decide (PlatformType infra = AWSPlatformType)) as [P|P].
  - unfold aws.New. destruct (decide (Region infra = "")) as [R|R]; cbn [rbind]; [by right; left; split; [|split; [left|]]|].
    rewrite RequireEnv_bind. cbn [List.find].
    destruct (decide (env aws.AWSSharedAuthFileEnvName = "")) as [E|E]; cbn [rbind].
    + right; right; left. exists aws.AWSSharedAuthFileEnvName. rewrite bool_decide_true by done. auto.
    + rewrite bool_decide_false by done. destruct (LoadDefaultConfig (Region infra)) as [[]|e] eqn:L; cbn; [by auto|].
      right; right; right. by exists e.
  - destruct (decide (PlatformType infra = AzurePlatformType)) as [Q|Q].
    + unfold azure.New. destruct (decide (Region infra = "")) as [R|R]; cbn [rbind]; [by right; left; split; [|split; [right|]]|].
      cbn [List.find].
      repeat (rewrite RequireEnv_bind;
        match goal with |- context [decide (env ?n = "")] =>
          let E := fresh "E" in destruct (decide (env n = "")) as [E|E];
            [rewrite (bool_decide_true _ E); cbn [rbind]; right; right; left; exists n; by auto
            |rewrite (bool_decide_false _ E)]
        end).
      cbn [rbind]. split; [by right | done].
    + left. split; [done|]. tauto.
Qed.

End cloud.
