(* ===== verification/Options.v ===== *)
(** * The operator's options

    pkg/operator/options.go: the settings read from the environment, and their
    validation.  [env] is [os.Getenv]. *)

From S2P Require Import Prelude Quantity GoFormat Strconv.

(** ** Options *)

Definition ReleaseVersionEnvName : string := "RELEASE_VERSION".
Definition ClusterNameEnvName : string := "CLUSTER_NAME".
Definition ClusterEndpointEnvName : string := "CLUSTER_ENDPOINT".
Definition PlatformEnvName : string := "PLATFORM".
Definition RegionEnvName : string := "REGION".
Definition ManagementClusterEnvName : string := "MANAGEMENT_CLUSTER".
Definition TokenMinterImageEnvName : string := "TOKEN_MINTER_IMAGE".
Definition DefaultSecurityContextUIDEnvName : string := "DEFAULT_SECURITY_CONTEXT_UID".

Record Options := mkOptions {
  Namespace : string;
  ReleaseVersion : string;
  ClusterName : string;
  ClusterEndpoint : string;
  Platform : string;
  Region : string;
  TargetKubeconfig : string;
  ManagementCluster : bool;
  TokenMinterImage : string;
  DefaultSecurityContextUID : option Z;
  MetricsAddr : string;
  ProbeAddr : string;
  LeaderElect : bool }.

Section env.
Context (env : string -> string).

Definition ParseManagementClusterEnv : result bool :=
  let v := env ManagementClusterEnvName in
  if decide (v = "") then Ok false
  else map_err (wrapf ("invalid " +:+ ManagementClusterEnvName +:+ " value " +:+ Quote v)) (ParseBool v).

Definition parseSecurityContextUID : result (option Z) :=
  let v := env DefaultSecurityContextUIDEnvName in
  if decide (v = "") then Ok None
  else rbind (map_err (wrapf "parsing security context UID") (ParseInt v)) (fun uid => Ok (Some uid)).

(** The options after [LoadEnv]: the flags' are kept. *)
Definition LoadEnv (o : Options) : result Options :=
  rbind ParseManagementClusterEnv (fun managementCluster =>
  rbind (map_err (wrapf ("loading " +:+ DefaultSecurityContextUIDEnvName)) parseSecurityContextUID)
    (fun uid =>
  Ok (mkOptions (Namespace o) (env ReleaseVersionEnvName) (env ClusterNameEnvName)
        (env ClusterEndpointEnvName) (env PlatformEnvName) (env RegionEnvName) (TargetKubeconfig o)
        managementCluster (env TokenMinterImageEnvName) uid (MetricsAddr o) (ProbeAddr o)
        (LeaderElect o)))).

End env.

Definition ifEmpty (value name : string) : list string := if decide (value = "") then [name] else [].

Definition missing (o : Options) : list string :=
  ifEmpty (Namespace o) "--namespace" ++
  (if ManagementCluster o then
     ifEmpty (TargetKubeconfig o) "--target-kubeconfig" ++
     ifEmpty (ClusterName o) ClusterNameEnvName ++
     ifEmpty (ClusterEndpoint o) ClusterEndpointEnvName ++
     ifEmpty (Platform o) PlatformEnvName ++
     ifEmpty (Region o) RegionEnvName ++
     ifEmpty (TokenMinterImage o) TokenMinterImageEnvName
   else []).

Definition Validate (o : Options) : result unit :=
  if decide (default 1 (DefaultSecurityContextUID o) <= 0)%Z
  then Err (ENew (DefaultSecurityContextUIDEnvName +:+ " must be a positive non-root UID"))
  else
    match missing o with
    | [] => Ok tt
    | names => Err (ENew ("required configuration not set: " +:+ Join names ", "))
    end.

(** [main]: the flags are in [o]. *)
Definition start (env : string -> string) (o : Options) : result Options :=
  rbind (LoadEnv env o) (fun o' => rbind (Validate o') (fun _ => Ok o')).

(** ** Which options are accepted *)

(** The value of [MANAGEMENT_CLUSTER] that means the boolean. *)
Definition spells (v : string) (b : bool) : Prop :=
  if b then v ∈ ["1"; "t"; "T"; "true"; "TRUE"; "True"]
  else v = "" \/ v ∈ ["0"; "f"; "F"; "false"; "FALSE"; "False"].

Definition spellsUID (v : string) (uid : option Z) : Prop :=
  match uid with
  | None => v = ""
  | Some z => numeral v z
  end.

(** The options the environment asks for. *)
Definition fromEnv (env : string -> string) (o o' : Options) : Prop :=
  exists managementCluster uid,
    spells (env ManagementClusterEnvName) managementCluster
    /\ spellsUID (env DefaultSecurityContextUIDEnvName) uid
    /\ o' = mkOptions (Namespace o) (env ReleaseVersionEnvName) (env ClusterNameEnvName)
              (env ClusterEndpointEnvName) (env PlatformEnvName) (env RegionEnvName)
              (TargetKubeconfig o) managementCluster (env TokenMinterImageEnvName) uid
              (MetricsAddr o) (ProbeAddr o) (LeaderElect o).

(** What the operator can run with. *)
Definition usable (o : Options) : Prop :=
  Namespace o <> ""
  /\ (ManagementCluster o = true ->
      Forall (fun v => v <> "")
        [TargetKubeconfig o; ClusterName o; ClusterEndpoint o; Platform o; Region o; TokenMinterImage o])
  /\ forall uid, DefaultSecurityContextUID o = Some uid -> (0 < uid)%Z.

Lemma ParseBool_spec v b : v <> "" -> ParseBool v = Ok b <-> spells v b.
Proof.
  intros Hv. unfold ParseBool, spells. destruct (decide (v ∈ _)) as [E|E].
  - destruct b; [done|]. split; [done|]. intros [H|H]; [done|].
    exfalso. repeat (apply elem_of_cons in E as [-> | E]; [by apply (bool_decide_pack _) in H|]).
    by apply elem_of_nil in E.
  - destruct (decide (v ∈ _)) as [F|F]; destruct b; split; intros H; try done; auto.
    by destruct H.
Qed.

Lemma ParseManagementClusterEnv_spec env b :
  ParseManagementClusterEnv env = Ok b <-> spells (env ManagementClusterEnvName) b.
Proof.
  unfold ParseManagementClusterEnv. destruct (decide (env ManagementClusterEnvName = "")) as [E|E].
  - rewrite E. destruct b; cbn; split; auto; try done. intros H. by apply (bool_decide_pack _) in H.
  - rewrite <- ParseBool_spec by done. by destruct (ParseBool _).
Qed.

Lemma parseSecurityContextUID_spec env uid :
  parseSecurityContextUID env = Ok uid <-> spellsUID (env DefaultSecurityContextUIDEnvName) uid.
Proof.
  unfold parseSecurityContextUID, spellsUID. destruct (decide (env DefaultSecurityContextUIDEnvName = "")) as [E|E].
  - rewrite E. destruct uid; [|done]. split; [done|]. by intros H%ParseInt_spec.
  - destruct uid as [z|].
    + rewrite <- ParseInt_spec. destruct (ParseInt _); cbn; [|done]. by split; intros [= ->].
    + by destruct (ParseInt _).
Qed.

Lemma LoadEnv_spec env o o' : LoadEnv env o = Ok o' <-> fromEnv env o o'.
Proof.
  unfold LoadEnv, fromEnv. split.
  - destruct (ParseManagementClusterEnv env) as [mc|] eqn:M; [|done]. cbn [rbind].
    destruct (parseSecurityContextUID env) as [uid|] eqn:U; [|done]. cbn [map_err rbind]. intros [= <-].
    exists mc, uid. by rewrite <- ParseManagementClusterEnv_spec, <- parseSecurityContextUID_spec.
  - intros (mc & uid & M & U & ->).
    apply ParseManagementClusterEnv_spec in M as ->. apply parseSecurityContextUID_spec in U as ->. done.
Qed.

Lemma ifEmpty_nil v name : ifEmpty v name = [] <-> v <> "".
Proof. unfold ifEmpty. by case_decide. Qed.

Lemma missing_nil o :
  missing o = [] <-> Namespace o <> "" /\ (ManagementCluster o = true ->
    Forall (fun v => v <> "")
      [TargetKubeconfig o; ClusterName o; ClusterEndpoint o; Platform o; Region o; TokenMinterImage o]).
Proof.
  unfold missing. destruct (ManagementCluster o).
  - rewrite !app_nil, !ifEmpty_nil, !Forall_cons, Forall_nil. tauto.
  - rewrite app_nil_r, ifEmpty_nil. split; [by intros ?; split | by intros [? _]].
Qed.

Lemma Validate_spec o : Validate o = Ok tt <-> usable o.
Proof.
  unfold Validate, usable.
  assert (Hu : (forall uid, DefaultSecurityContextUID o = Some uid -> (0 < uid)%Z) <->
               (0 < default 1 (DefaultSecurityContextUID o))%Z).
  { destruct (DefaultSecurityContextUID o) as [z|]; cbn; split; try done; [by intros H; apply H|].
    by intros H uid [= <-]. }
  rewrite Hu. case_decide as D.
  - split; [done|]. intros (_ & _ & ?). lia.
  - rewrite (assoc and), <- missing_nil.
    destruct (missing o); split; try done; [|by intros []]. intros _. split; [done | lia].
Qed.

(** C34. The operator starts exactly with the options the flags and the environment
    ask for, when it can run with them: [MANAGEMENT_CLUSTER] is a boolean or unset,
    the security context UID is unset or the numeral of a positive int64, the
    namespace is given, and on a management cluster the kubeconfig of the hosted
    cluster, its name and endpoint, the platform, the region and the token minter
    image. *)
Theorem start_spec env o o' : start env o = Ok o' <-> fromEnv env o o' /\ usable o'.
Proof.
  unfold start. rewrite <- LoadEnv_spec. split.
  - destruct (LoadEnv env o) as [o1|]; [|done]. cbn [rbind].
    destruct (Validate o1) as [[]|] eqn:V; [|done]. cbn [rbind]. intros [= <-].
    split; [done | by apply Validate_spec].
  - intros [-> V%Validate_spec]. cbn [rbind]. by rewrite V.
Qed.
