(* ===== verification/OperandConvert.v ===== *)
(** * Conversion to apply configurations

    pkg/controllers/karpenter/convert.go: a core/v1 value becomes an apply
    configuration by way of its JSON.  The JSON values here are those of
    encoding/json for the types the operand uses, with the fields and the
    [omitempty] tags of k8s.io/api and of client-go's apply configurations; strings
    are valid UTF-8, and a quantity, which marshals and unmarshals itself, is a
    leaf. *)

From S2P Require Import Prelude MetaV1 Quantity ApplyTypes GoFormat.

#[local] Set Default Proof Using "Type*".

(** ** JSON values *)

Inductive json :=
| JBool (b : bool)
| JNum (z : Z)
| JStr (s : string)
| JQuantity (q : Quantity)
| JArr (l : list json)
| JObj (fields : list (string * json)).

Class Marshal (A : Type) := marshal : A -> json.
Class Unmarshal (A : Type) := unmarshal : json -> result A.

Definition typeError : error := ENew "json: cannot unmarshal value into Go value".

(** A field of an object, left out when it is empty. *)
Definition always {A} `{Marshal A} (k : string) (a : A) : list (string * json) := [(k, marshal a)].
Definition omitString (k s : string) : list (string * json) :=
  if decide (s = "") then [] else [(k, JStr s)].
Definition omitZero (k : string) (z : Z) : list (string * json) :=
  if decide (z = 0%Z) then [] else [(k, JNum z)].
Definition omitFalse (k : string) (b : bool) : list (string * json) := if b then [(k, JBool true)] else [].
Definition omitNil {A} `{Marshal A} (k : string) (o : option A) : list (string * json) :=
  match o with Some a => [(k, marshal a)] | None => [] end.
Definition omitEmpty {A} `{Marshal A} (k : string) (l : slice A) : list (string * json) :=
  match elems l with [] => [] | xs => [(k, JArr (map marshal xs))] end.

#[export] Instance string_marshal : Marshal string := JStr.
#[export] Instance int_marshal : Marshal Z := JNum.

(** The member of an object, and the fields of a struct that are pointers, slices
    and structs. *)
Definition member (fields : list (string * json)) (k : string) : option json :=
  option_map snd (List.find (fun kv => bool_decide (kv.1 = k)) fields).

Definition pointer {A} `{Unmarshal A} (fields : list (string * json)) (k : string) : result (option A) :=
  match member fields k with
  | None => Ok None
  | Some v => rbind (unmarshal v) (fun a => Ok (Some a))
  end.

Fixpoint unmarshalAll {A} `{Unmarshal A} (l : list json) : result (list A) :=
  match l with
  | [] => Ok []
  | v :: l' => rbind (unmarshal v) (fun a => rbind (unmarshalAll l') (fun r => Ok (a :: r)))
  end.

#[export] Instance list_unmarshal {A} `{Unmarshal A} : Unmarshal (list A) := fun v =>
  match v with JArr l => unmarshalAll l | _ => Err typeError end.

Definition listField {A} `{Unmarshal A} (fields : list (string * json)) (k : string) : result (list A) :=
  rbind (pointer fields k) (fun o => Ok (default [] o)).

#[export] Instance string_unmarshal : Unmarshal string := fun v =>
  match v with JStr s => Ok s | _ => Err typeError end.
#[export] Instance int_unmarshal : Unmarshal Z := fun v =>
  match v with JNum z => Ok z | _ => Err typeError end.
#[export] Instance bool_unmarshal : Unmarshal bool := fun v =>
  match v with JBool b => Ok b | _ => Err typeError end.

Definition struct {A} (f : list (string * json) -> result A) : Unmarshal A := fun v =>
  match v with JObj fields => f fields | _ => Err typeError end.

(** ** core/v1 *)

#[export] Instance EnvVar_marshal : Marshal corev1.EnvVar := fun e =>
  JObj (always "name" (corev1.env_Name e) ++ omitString "value" (corev1.env_Value e)).
#[export] Instance VolumeMount_marshal : Marshal corev1.VolumeMount := fun m =>
  JObj (always "name" (corev1.vm_Name m) ++ omitFalse "readOnly" (corev1.vm_ReadOnly m) ++
        always "mountPath" (corev1.vm_MountPath m)).
#[export] Instance KeyToPath_marshal : Marshal corev1.KeyToPath := fun i =>
  JObj (always "key" (corev1.kp_Key i) ++ always "path" (corev1.kp_Path i)).
#[export] Instance SecretVolumeSource_marshal : Marshal corev1.SecretVolumeSource := fun s =>
  JObj (omitString "secretName" (corev1.svs_SecretName s) ++ omitEmpty "items" (corev1.svs_Items s) ++
        omitNil "defaultMode" (corev1.svs_DefaultMode s)).
#[export] Instance Volume_marshal : Marshal corev1.Volume := fun v =>
  JObj (always "name" (corev1.vol_Name v) ++ omitNil "secret" (corev1.vol_Secret v) ++
        (if corev1.vol_EmptyDir v then [("emptyDir", JObj [])] else [])).
#[export] Instance Probe_marshal : Marshal corev1.Probe := fun p =>
  JObj ((match corev1.pb_Exec p with
         | Some command => [("exec", JObj (omitEmpty "command" command))]
         | None => []
         end) ++ omitZero "periodSeconds" (corev1.pb_PeriodSeconds p) ++
        omitZero "failureThreshold" (corev1.pb_FailureThreshold p)).
(** [resources] is a struct, which [omitempty] never leaves out. *)
#[export] Instance Container_marshal : Marshal corev1.Container := fun c =>
  JObj (always "name" (corev1.ctr_Name c) ++ omitString "image" (corev1.ctr_Image c) ++
        omitEmpty "command" (corev1.ctr_Command c) ++ omitEmpty "args" (corev1.ctr_Args c) ++
        [("resources", JObj
           (match map_to_list (entries (corev1.ctr_Requests c)) with
            | [] => []
            | l => [("requests", JObj (map (fun kv => (kv.1, JQuantity kv.2)) l))]
            end))] ++
        omitNil "restartPolicy" (corev1.ctr_RestartPolicy c) ++
        omitEmpty "volumeMounts" (corev1.ctr_VolumeMounts c) ++
        omitNil "startupProbe" (corev1.ctr_StartupProbe c) ++
        omitString "imagePullPolicy" (corev1.ctr_ImagePullPolicy c)).

(** ** Apply configurations *)

#[export] Instance EnvVarAC_unmarshal : Unmarshal coreac.EnvVar := struct (fun o =>
  rbind (pointer o "name") (fun name => rbind (pointer o "value") (fun value =>
  Ok (coreac.mkEnvVar name value None)))).
#[export] Instance VolumeMountAC_unmarshal : Unmarshal coreac.VolumeMount := struct (fun o =>
  rbind (pointer o "name") (fun name => rbind (pointer o "readOnly") (fun readOnly =>
  rbind (pointer o "mountPath") (fun mountPath =>
  Ok (coreac.mkVolumeMount name readOnly mountPath))))).
#[export] Instance KeyToPathAC_unmarshal : Unmarshal coreac.KeyToPath := struct (fun o =>
  rbind (pointer o "key") (fun key => rbind (pointer o "path") (fun path =>
  Ok (coreac.mkKeyToPath key path)))).
#[export] Instance SecretVolumeSourceAC_unmarshal : Unmarshal coreac.SecretVolumeSource := struct (fun o =>
  rbind (pointer o "secretName") (fun secretName => rbind (listField o "items") (fun items =>
  rbind (pointer o "defaultMode") (fun defaultMode =>
  Ok (coreac.mkSecretVolumeSource secretName items defaultMode))))).
#[export] Instance unit_unmarshal : Unmarshal unit := struct (fun _ => Ok tt).
#[export] Instance VolumeAC_unmarshal : Unmarshal coreac.Volume := struct (fun o =>
  rbind (pointer o "name") (fun name => rbind (pointer o "secret") (fun secret =>
  rbind (pointer o "emptyDir") (fun emptyDir =>
  Ok (coreac.mkVolume name secret emptyDir))))).

(** [exec] is a struct with the command. *)
Inductive execAction := mkExecAction (command : list string).
Definition commandOf (e : execAction) : list string := let 'mkExecAction c := e in c.
#[export] Instance ExecAction_unmarshal : Unmarshal execAction := struct (fun o =>
  rbind (listField o "command") (fun command => Ok (mkExecAction command))).
#[export] Instance ProbeAC_unmarshal : Unmarshal coreac.Probe := struct (fun o =>
  rbind (pointer o "exec") (fun exec => rbind (pointer o "periodSeconds") (fun period =>
  rbind (pointer o "failureThreshold") (fun failure =>
  Ok (coreac.mkProbe (option_map commandOf exec) None None None period failure))))).

Fixpoint unmarshalRequests (l : list (string * json)) : result (list (string * Quantity)) :=
  match l with
  | [] => Ok []
  | (k, JQuantity q) :: l' => rbind (unmarshalRequests l') (fun r => Ok ((k, q) :: r))
  | _ => Err typeError
  end.
#[export] Instance ResourceList_unmarshal : Unmarshal (gmap string Quantity) := struct (fun o =>
  rbind (unmarshalRequests o) (fun l => Ok (list_to_map l))).
#[export] Instance ResourceRequirementsAC_unmarshal : Unmarshal coreac.ResourceRequirements := struct (fun o =>
  rbind (pointer o "requests") (fun requests => Ok (coreac.mkResourceRequirements requests))).
#[export] Instance ContainerAC_unmarshal : Unmarshal coreac.Container := struct (fun o =>
  rbind (pointer o "name") (fun name => rbind (pointer o "image") (fun image =>
  rbind (listField o "command") (fun command => rbind (listField o "args") (fun args =>
  rbind (pointer o "resources") (fun resources =>
  rbind (pointer o "restartPolicy") (fun restartPolicy =>
  rbind (listField o "volumeMounts") (fun mounts =>
  rbind (pointer o "startupProbe") (fun startupProbe =>
  rbind (pointer o "imagePullPolicy") (fun pullPolicy =>
  Ok (coreac.mkContainer name image command args [] [] resources restartPolicy mounts None None
        startupProbe None pullPolicy None))))))))))).

(** ** convert.go *)

Definition toApplyConfiguration {In Out} `{Marshal In, Unmarshal Out} (i : In) : result Out :=
  map_err (wrapf "unmarshal") (unmarshal (marshal i)).

Fixpoint convertFrom {In Out} `{Marshal In, Unmarshal Out} (field : string) (i : nat) (items : list In) :
    result (list Out) :=
  match items with
  | [] => Ok []
  | item :: rest =>
      rbind (map_err (wrapf ("convert " +:+ field +:+ "[" +:+ pretty (N.of_nat i) +:+ "]"))
               (toApplyConfiguration item)) (fun converted =>
      rbind (convertFrom field (S i) rest) (fun out => Ok (converted :: out)))
  end.

Definition applyConfigurations {In Out} `{Marshal In, Unmarshal Out} (items : list In) (field : string) :
    result (list Out) := convertFrom field 0 items.

Definition envVars (vars : list corev1.EnvVar) : result (list coreac.EnvVar) :=
  applyConfigurations vars "env".
Definition volumes (vols : list corev1.Volume) : result (list coreac.Volume) :=
  applyConfigurations vols "volume".
Definition volumeMounts (mounts : list corev1.VolumeMount) : result (list coreac.VolumeMount) :=
  applyConfigurations mounts "volumeMount".
Definition initContainers (containers : list corev1.Container) : result (list coreac.Container) :=
  applyConfigurations containers "initContainer".

(** ** What the conversion gives

    The apply configuration with a field for each value that is not empty. *)

Definition nonEmpty (s : string) : option string := if decide (s = "") then None else Some s.
Definition nonZero (z : Z) : option Z := if decide (z = 0%Z) then None else Some z.

Definition envAC (e : corev1.EnvVar) : coreac.EnvVar :=
  coreac.mkEnvVar (Some (corev1.env_Name e)) (nonEmpty (corev1.env_Value e)) None.
Definition mountAC (m : corev1.VolumeMount) : coreac.VolumeMount :=
  coreac.mkVolumeMount (Some (corev1.vm_Name m)) (if corev1.vm_ReadOnly m then Some true else None)
    (Some (corev1.vm_MountPath m)).
Definition itemAC (i : corev1.KeyToPath) : coreac.KeyToPath :=
  coreac.mkKeyToPath (Some (corev1.kp_Key i)) (Some (corev1.kp_Path i)).
Definition secretAC (s : corev1.SecretVolumeSource) : coreac.SecretVolumeSource :=
  coreac.mkSecretVolumeSource (nonEmpty (corev1.svs_SecretName s))
    (map itemAC (elems (corev1.svs_Items s))) (corev1.svs_DefaultMode s).
Definition volumeAC (v : corev1.Volume) : coreac.Volume :=
  coreac.mkVolume (Some (corev1.vol_Name v)) (option_map secretAC (corev1.vol_Secret v))
    (if corev1.vol_EmptyDir v then Some tt else None).
Definition probeAC (p : corev1.Probe) : coreac.Probe :=
  coreac.mkProbe (option_map elems (corev1.pb_Exec p)) None None None
    (nonZero (corev1.pb_PeriodSeconds p)) (nonZero (corev1.pb_FailureThreshold p)).
Definition containerAC (c : corev1.Container) : coreac.Container :=
  coreac.mkContainer (Some (corev1.ctr_Name c)) (nonEmpty (corev1.ctr_Image c))
    (elems (corev1.ctr_Command c)) (elems (corev1.ctr_Args c)) [] []
    (Some (coreac.mkResourceRequirements
       (if decide (entries (corev1.ctr_Requests c) = ∅) then None
        else Some (entries (corev1.ctr_Requests c)))))
    (corev1.ctr_RestartPolicy c) (map mountAC (elems (corev1.ctr_VolumeMounts c))) None None
    (option_map probeAC (corev1.ctr_StartupProbe c)) None (nonEmpty (corev1.ctr_ImagePullPolicy c)) None.

(** [out] is what the JSON of an [In] reads back as. *)
Class Converts {In Out} `{Marshal In, Unmarshal Out} (out : In -> Out) :=
  converts i : unmarshal (marshal i) = Ok (out i).

(** ** Members *)

Lemma member_app a b k :
  member (a ++ b) k = match member a k with Some v => Some v | None => member b k end.
Proof. unfold member. rewrite find_app. by destruct (List.find _ a). Qed.

Lemma member_one k v k' : member [(k, v)] k' = if decide (k = k') then Some v else None.
Proof. unfold member; cbn. by case_bool_decide; case_decide. Qed.

Lemma member_nil k : member [] k = None.
Proof. done. Qed.

Lemma member_omitString k s k' :
  member (omitString k s) k' = if decide (k = k') then option_map JStr (nonEmpty s) else None.
Proof. unfold omitString, nonEmpty. destruct (decide (s = "")); [by case_decide | apply member_one]. Qed.

Lemma member_omitZero k z k' :
  member (omitZero k z) k' = if decide (k = k') then option_map JNum (nonZero z) else None.
Proof. unfold omitZero, nonZero. destruct (decide (z = 0%Z)); [by case_decide | apply member_one]. Qed.

Lemma member_omitFalse k (b : bool) k' :
  member (omitFalse k b) k' = if decide (k = k') then (if b then Some (JBool true) else None) else None.
Proof. destruct b; [apply member_one | by case_decide]. Qed.

Lemma member_omitNil {A} `{Marshal A} k (o : option A) k' :
  member (omitNil k o) k' = if decide (k = k') then option_map marshal o else None.
Proof. destruct o; [apply member_one | by case_decide]. Qed.

Definition array {A} `{Marshal A} (l : list A) : option json :=
  match l with [] => None | _ => Some (JArr (map marshal l)) end.

Lemma member_omitEmpty {A} `{Marshal A} k (l : slice A) k' :
  member (omitEmpty k l) k' = if decide (k = k') then array (elems l) else None.
Proof. unfold omitEmpty, array. destruct (elems l); [by case_decide | apply member_one]. Qed.

Lemma or_none {A} (o : option A) : match o with Some v => Some v | None => None end = o.
Proof. by destruct o. Qed.

Create Rewrite HintDb json.
#[local] Hint Rewrite member_app member_nil member_omitString member_omitZero member_omitFalse
  @member_omitNil @member_omitEmpty member_one : json.

(** What a pointer or a slice field reads from the member. *)
Definition readPointer {A} `{Unmarshal A} (v : option json) : result (option A) :=
  match v with None => Ok None | Some v => rbind (unmarshal v) (fun a => Ok (Some a)) end.

Section read.
Context {In Out} `{HM : Marshal In, HU : Unmarshal Out} {out : In -> Out} {HC : Converts out}.

Lemma unmarshalAll_map (l : list In) : unmarshalAll (map marshal l) = Ok (map out l).
Proof. induction l as [|x l IH]; [done|]. cbn. by rewrite converts, IH. Qed.

Lemma read_nil (o : option In) : readPointer (option_map marshal o) = Ok (option_map out o).
Proof. destruct o; [|done]. cbn. by rewrite converts. Qed.

Lemma read_array (l : list In) :
  rbind (readPointer (array l)) (fun o => Ok (default [] o)) = Ok (map out l).
Proof.
  destruct l as [|x l]; [done|]. unfold array, readPointer, unmarshal, list_unmarshal.
  by rewrite (unmarshalAll_map (x :: l)).
Qed.

Lemma applyConfigurations_Ok (items : list In) field : applyConfigurations items field = Ok (map out items).
Proof.
  unfold applyConfigurations. generalize 0 as i. induction items as [|x items IH]; intros i; [done|].
  cbn [convertFrom map]. unfold toApplyConfiguration. by rewrite converts, IH.
Qed.

End read.

Lemma read_string s : readPointer (option_map JStr (nonEmpty s)) = Ok (nonEmpty s).
Proof. by destruct (nonEmpty s). Qed.
Lemma read_int z : readPointer (option_map JNum (nonZero z)) = Ok (nonZero z).
Proof. by destruct (nonZero z). Qed.
Lemma read_bool (b : bool) :
  readPointer (if b then Some (JBool true) else None) = Ok (if b then Some true else None).
Proof. by destruct b. Qed.

#[export] Instance string_converts : Converts (fun s : string => s).
Proof. done. Qed.
#[export] Instance int_converts : Converts (fun z : Z => z).
Proof. done. Qed.

Ltac decide_closed :=
  repeat match goal with
  | |- context [if decide (?a = ?b) then ?x else ?y] =>
      first [rewrite (decide_True x y (eq_refl a : a = b)) | rewrite (decide_False x y (P := a = b)) by discriminate]
  end.

(** Evaluates the members of an object whose fields are known. *)
Ltac read_members :=
  unfold listField; change (@pointer) with (fun A (H : Unmarshal A) fields k => readPointer (member fields k));
  cbn beta; unfold always; autorewrite with json; decide_closed; cbv iota; rewrite ?or_none;
  rewrite ?read_string, ?read_int, ?read_bool.

#[export] Instance EnvVar_converts : Converts envAC.
Proof. intros e. unfold marshal, EnvVar_marshal, unmarshal, EnvVarAC_unmarshal, struct. read_members. done. Qed.
#[export] Instance VolumeMount_converts : Converts mountAC.
Proof. intros m. unfold marshal, VolumeMount_marshal, unmarshal, VolumeMountAC_unmarshal, struct. read_members. done. Qed.
#[export] Instance KeyToPath_converts : Converts itemAC.
Proof. intros m. unfold marshal, KeyToPath_marshal, unmarshal, KeyToPathAC_unmarshal, struct. read_members. done. Qed.
#[export] Instance SecretVolumeSource_converts : Converts secretAC.
Proof.
  intros m. unfold marshal, SecretVolumeSource_marshal, unmarshal, SecretVolumeSourceAC_unmarshal, struct.
  read_members. rewrite (read_array (out := itemAC)), (read_nil (out := fun z => z)).
  unfold secretAC. by destruct (corev1.svs_DefaultMode m).
Qed.
#[export] Instance Volume_converts : Converts volumeAC.
Proof.
  intros v. unfold marshal, Volume_marshal, unmarshal, VolumeAC_unmarshal, struct.
  assert (He : forall k, member (if corev1.vol_EmptyDir v then [("emptyDir", JObj [])] else []) k =
    if decide ("emptyDir" = k) then (if corev1.vol_EmptyDir v then Some (JObj []) else None) else None)
    by (intros k; destruct (corev1.vol_EmptyDir v); [apply member_one | by case_decide]).
  read_members. rewrite !He. decide_closed. cbv iota. rewrite ?or_none, (read_nil (out := secretAC)).
  unfold volumeAC. by destruct (corev1.vol_EmptyDir v).
Qed.
#[export] Instance Probe_converts : Converts probeAC.
Proof.
  intros p. unfold marshal, Probe_marshal, unmarshal, ProbeAC_unmarshal, struct.
  set (exec := match corev1.pb_Exec p with Some _ => _ | None => _ end).
  assert (He : forall k, member exec k =
    if decide ("exec" = k) then
      option_map (fun c => JObj (omitEmpty "command" c)) (corev1.pb_Exec p)
    else None)
    by (intros k; unfold exec; destruct (corev1.pb_Exec p); [apply member_one | by case_decide]).
  read_members. rewrite !He. decide_closed. cbv iota. rewrite ?or_none, ?read_int.
  assert (Hc : readPointer (option_map (fun c => JObj (omitEmpty "command" c)) (corev1.pb_Exec p)) =
               Ok (option_map (fun c => mkExecAction (elems c)) (corev1.pb_Exec p))).
  { destruct (corev1.pb_Exec p) as [c|]; [|done]. cbn [option_map readPointer].
    unfold unmarshal, ExecAction_unmarshal, struct. read_members.
    rewrite (read_array (out := fun s => s)), map_id. done. }
  rewrite Hc. unfold probeAC. by destruct (corev1.pb_Exec p).
Qed.

Lemma unmarshalRequests_map l :
  unmarshalRequests (map (fun kv => (kv.1, JQuantity kv.2)) l) = Ok l.
Proof. induction l as [|[k q] l IH]; [done|]. cbn. by rewrite IH. Qed.

Lemma read_resources (m : gmap string Quantity) :
  unmarshal (JObj (match map_to_list m with
                   | [] => []
                   | l => [("requests", JObj (map (fun kv => (kv.1, JQuantity kv.2)) l))]
                   end)) =
  Ok (coreac.mkResourceRequirements (if decide (m = ∅) then None else Some m)).
Proof.
  unfold unmarshal, ResourceRequirementsAC_unmarshal, struct.
  change (@pointer) with (fun A (H : Unmarshal A) fields k => readPointer (member fields k)). cbn beta.
  destruct (map_to_list m) as [|kv l] eqn:E.
  - apply map_to_list_empty_iff in E as ->. done.
  - rewrite decide_False by (intros ->; by rewrite map_to_list_empty in E).
    rewrite member_one. decide_closed. cbn [readPointer]. unfold unmarshal, ResourceList_unmarshal, struct.
    rewrite unmarshalRequests_map, <- E. cbn [rbind]. by rewrite list_to_map_to_list.
Qed.

#[export] Instance Container_converts : Converts containerAC.
Proof.
  intros c. unfold marshal, Container_marshal, unmarshal, ContainerAC_unmarshal, struct.
  read_members.
  rewrite !(read_array (out := fun s : string => s)), (read_array (out := mountAC)),
    (read_nil (out := fun s : string => s)), (read_nil (out := probeAC)), !map_id.
  cbn [readPointer]. rewrite read_resources.
  unfold containerAC. by destruct (corev1.ctr_RestartPolicy c).
Qed.

(** The conversions never fail. *)
Lemma envVars_Ok vars : envVars vars = Ok (map envAC vars).
Proof. apply applyConfigurations_Ok. Qed.
Lemma volumes_Ok vols : volumes vols = Ok (map volumeAC vols).
Proof. apply applyConfigurations_Ok. Qed.
Lemma volumeMounts_Ok mounts : volumeMounts mounts = Ok (map mountAC mounts).
Proof. apply applyConfigurations_Ok. Qed.
Lemma initContainers_Ok containers : initContainers containers = Ok (map containerAC containers).
Proof. apply applyConfigurations_Ok. Qed.
