(* ===== verification/Operand.v ===== *)
(** * The operand

    pkg/controllers/karpenter: the resources of the Karpenter operand, built from
    an [operandConfig] (config.go, deployment.go, podmonitor.go, rbac.go), and their
    server-side apply (apply.go). *)

From S2P Require Import Prelude Prog DeepEqual MetaV1 Quantity HyperTypes OcpTypes ApplyTypes Kube CloudProviders OperandConvert.

(** ** config.go *)

Definition karpenterName : string := "karpenter".
Definition fieldManager : string := "karpenter-operator".
Definition defaultMetricsPort : Z := 8080.
Definition defaultHealthProbePort : Z := 8081.
Definition metricsPortName : string := "metrics".
Definition healthProbePortName : string := "http".
Definition karpenterPodTerminationGracePeriodSeconds : Z := 10.
Definition karpenterPodPriorityClassName : string := "system-node-critical".
Definition appLabelKey : string := "app".
Definition targetWorkloadManagementAnnotation : string := "target.workload.openshift.io/management".
Definition targetWorkloadSchedulingPriority : string :=
  "{" +:+ Quote "effect" +:+ ": " +:+ Quote "PreferredDuringScheduling" +:+ "}".
Definition defaultHealthProbePortStr : string := pretty defaultHealthProbePort.

Record operandConfig := mkOperandConfig {
  namespace : string;
  karpenterImage : string;
  clusterName : string;
  clusterEndpoint : string;
  cloudProvider : CloudProvider;
  imagePullPolicy : string;
  logLevelArg : string;
  releaseVersion : string;
  defaultSecurityContextUID : option Z;
  additionalLabels : gomap string;
  additionalEnv : list corev1.EnvVar;
  additionalVolumeMounts : list corev1.VolumeMount;
  additionalVolumes : list corev1.Volume;
  additionalInitContainers : list corev1.Container }.

(** common/consts.go *)
Definition SystemNamespaceEnvName : string := "SYSTEM_NAMESPACE".
Definition ClusterNameEnvName : string := "CLUSTER_NAME".
Definition ClusterEndpointEnvName : string := "CLUSTER_ENDPOINT".
Definition DisableWebhookEnvName : string := "DISABLE_WEBHOOK".
Definition DisableLeaderElectionEnvName : string := "DISABLE_LEADER_ELECTION".
Definition KubeconfigEnvName : string := "KUBECONFIG".
Definition HealthProbePortEnvName : string := "HEALTH_PROBE_PORT".

(** ** deployment.go *)

(** [resource.MustParse] *)
Definition mustParse (s : string) : result Quantity :=
  match MustParse s with Some q => Ok q | None => Err (EPanic ("cannot parse '" +:+ s +:+ "'")) end.

Definition karpenterSelector : gmap string string := {[appLabelKey := karpenterName]}.

(** [coreac.EnvVar().WithName(name).WithValue(value)] *)
Definition envWithValue (name value : string) : coreac.EnvVar :=
  coreac.mkEnvVar (Some name) (Some value) None.

Definition buildEnv (cfg : operandConfig) (cloudCfg : OperandCloudConfig) : result (list coreac.EnvVar) :=
  let env :=
    [coreac.mkEnvVar (Some SystemNamespaceEnvName) None (Some "metadata.namespace");
     envWithValue ClusterNameEnvName (clusterName cfg);
     envWithValue ClusterEndpointEnvName (clusterEndpoint cfg);
     envWithValue DisableWebhookEnvName "true";
     envWithValue HealthProbePortEnvName defaultHealthProbePortStr] in
  rbind (envVars (Env cloudCfg)) (fun cloudEnv => Ok (env ++ cloudEnv)).

Definition karpenterPorts : list coreac.ContainerPort :=
  [coreac.mkContainerPort (Some metricsPortName) (Some defaultMetricsPort) None;
   coreac.mkContainerPort (Some healthProbePortName) (Some defaultHealthProbePort)
     (Some corev1.ProtocolTCP)].

Definition karpenterLivenessProbe : coreac.Probe :=
  coreac.mkProbe None (Some ("/healthz", defaultHealthProbePort)) (Some 30%Z) (Some 30%Z) None None.
Definition karpenterReadinessProbe : coreac.Probe :=
  coreac.mkProbe None (Some ("/readyz", defaultHealthProbePort)) (Some 5%Z) (Some 30%Z) None None.

Definition securityContext (uid : option Z) : result coreac.PodSecurityContext :=
  match uid with
  | None => Ok (coreac.mkPodSecurityContext None (Some true) None
                  (Some corev1.SeccompProfileTypeRuntimeDefault))
  | Some uid =>
      if decide (uid <= 0)%Z
      then Err (ENew "operand security context UID must be positive")
      else Ok (coreac.mkPodSecurityContext (Some uid) (Some true) (Some uid)
                 (Some corev1.SeccompProfileTypeRuntimeDefault))
  end.

Definition karpenterContainer (cfg : operandConfig) (env : list coreac.EnvVar)
    (mounts : list coreac.VolumeMount) (cpu memory : Quantity) : coreac.Container :=
  coreac.mkContainer (Some karpenterName) (Some (karpenterImage cfg)) [] [logLevelArg cfg] env
    karpenterPorts
    (Some (coreac.mkResourceRequirements
       (Some (<[corev1.ResourceCPU := cpu]> {[corev1.ResourceMemory := memory]}))))
    None mounts (Some karpenterLivenessProbe) (Some karpenterReadinessProbe) None
    (Some corev1.TerminationMessageFallbackToLogsOnError) (Some (imagePullPolicy cfg))
    (Some (coreac.mkSecurityContext (Some false) ["ALL"])).

Definition buildPodSpec (cfg : operandConfig) : result coreac.PodSpec :=
  let cloudCfg := OperandConfig (cloudProvider cfg) in
  rbind (buildEnv cfg cloudCfg) (fun env =>
  rbind (volumeMounts (VolumeMounts cloudCfg)) (fun cloudMounts =>
  rbind (volumeMounts (additionalVolumeMounts cfg)) (fun additionalMounts =>
  rbind (volumes (Volumes cloudCfg)) (fun cloudVols =>
  rbind (volumes (additionalVolumes cfg)) (fun additionalVols =>
  rbind (envVars (additionalEnv cfg)) (fun additionalEnv =>
  rbind (initContainers (additionalInitContainers cfg)) (fun inits =>
  rbind (securityContext (defaultSecurityContextUID cfg)) (fun sc =>
  rbind (mustParse "1") (fun cpu => rbind (mustParse "1Gi") (fun memory =>
  Ok (coreac.mkPodSpec
        (cloudVols ++ additionalVols)
        inits
        [karpenterContainer cfg (env ++ additionalEnv) (cloudMounts ++ additionalMounts) cpu memory]
        (Some karpenterPodTerminationGracePeriodSeconds)
        (Some karpenterName)
        (Some sc)
        (Some karpenterPodPriorityClassName)))))))))))).

Definition buildDeployment (cfg : operandConfig) (ownerRef : OwnerReference) : result DeploymentAC :=
  let selectorLabels := karpenterSelector in
  let podLabels := entries (additionalLabels cfg) ∪ selectorLabels in
  rbind (buildPodSpec cfg) (fun podSpec =>
  let deploymentLabels : gmap string string :=
    <[appLabelKey := karpenterName]> {["hypershift.openshift.io/managed-by" := "karpenter-operator"]} in
  let deploymentAnnotations : gmap string string :=
    if decide (releaseVersion cfg <> "")
    then {["release.openshift.io/version" := releaseVersion cfg]} else ∅ in
  Ok (mkDeploymentAC karpenterName (namespace cfg) [ownerRef] deploymentLabels deploymentAnnotations
        (Some 1%Z) karpenterSelector
        (coreac.mkPodTemplateSpec podLabels
           (<[targetWorkloadManagementAnnotation := targetWorkloadSchedulingPriority]>
              {["openshift.io/required-scc" := "restricted-v2"]})
           (Some podSpec)))).

(** ** podmonitor.go *)

Definition buildPodMonitor (cfg : operandConfig) (ownerRef : OwnerReference) : PodMonitorAC :=
  mkPodMonitorAC karpenterName (namespace cfg) [ownerRef] karpenterSelector
    [mkPodMetricsEndpointAC (Some metricsPortName) (Some "/metrics") (Some "http")].

(** ** rbac.go *)

Definition policyRules (rules : slice PolicyRule) : list PolicyRuleAC :=
  map (fun r => mkPolicyRuleAC (elems (pr_Verbs r)) (elems (pr_APIGroups r)) (elems (pr_Resources r))
                  (elems (pr_ResourceNames r)) (elems (pr_NonResourceURLs r))) (elems rules).

Definition roleRef (ref : RoleRef) : RoleRefAC :=
  mkRoleRefAC (Some (rr_APIGroup ref)) (Some (rr_Kind ref)) (Some (rr_Name ref)).

Definition subject (ns : string) (s : Subject) : SubjectAC :=
  mkSubjectAC (Some (sub_Kind s)) (Some (sub_APIGroup s)) (Some (sub_Name s))
    (if decide (sub_Kind s = ServiceAccountKind)
     then Some (if decide (sub_Namespace s <> "") then sub_Namespace s else ns)
     else None).

Definition subjects (subs : slice Subject) (ns : string) : list SubjectAC := map (subject ns) (elems subs).

(** ** apply.go *)

(** [cl.Apply(ctx, a, client.FieldOwner(fieldManager), client.ForceOwnership)] *)
Definition apply (a : applyConfiguration) : go (result unit) := call (EApply Management a fieldManager true).

Definition applyServiceAccount (namespace : string) (ownerRef : OwnerReference) : go (result unit) :=
  apply (ApplyServiceAccount karpenterName namespace [ownerRef]).

Definition applyRoles (namespace : string) (ownerRef : OwnerReference) (roles : list Role) : go (result unit) :=
  for_each roles (fun desired =>
    apply (ApplyRole (om_Name (role_meta desired)) namespace [ownerRef] (policyRules (role_Rules desired)))).

Definition applyRoleBindings (namespace : string) (ownerRef : OwnerReference) (bindings : list RoleBinding) :
    go (result unit) :=
  for_each bindings (fun desired =>
    apply (ApplyRoleBinding (om_Name (rb_meta desired)) namespace [ownerRef]
             (roleRef (rb_RoleRef desired)) (subjects (rb_Subjects desired) namespace))).

Definition applyClusterRoles (ownerRef : OwnerReference) (clusterRoles : list Role) : go (result unit) :=
  for_each clusterRoles (fun desired =>
    apply (ApplyClusterRole (om_Name (role_meta desired)) [ownerRef]
             (entries (om_Labels (role_meta desired))) (policyRules (role_Rules desired)))).

Definition applyClusterRoleBindings (namespace : string) (ownerRef : OwnerReference)
    (bindings : list RoleBinding) : go (result unit) :=
  for_each bindings (fun desired =>
    apply (ApplyClusterRoleBinding (om_Name (rb_meta desired)) [ownerRef]
             (roleRef (rb_RoleRef desired)) (subjects (rb_Subjects desired) namespace))).

Definition applyDeployment (cfg : operandConfig) (ownerRef : OwnerReference) : go (result unit) :=
  match buildDeployment cfg ownerRef with
  | Err err => Ret (Err (wrapf "building deployment" err))
  | Ok dep => apply (ApplyDeployment dep)
  end.

Definition applyPodMonitor (cfg : operandConfig) (ownerRef : OwnerReference) : go (result unit) :=
  apply (ApplyPodMonitor (buildPodMonitor cfg ownerRef)).

(** ** What is built *)

(** The environment of the operand, in order. *)
Definition operandEnv (cfg : operandConfig) : list coreac.EnvVar :=
  [coreac.mkEnvVar (Some SystemNamespaceEnvName) None (Some "metadata.namespace");
   envWithValue ClusterNameEnvName (clusterName cfg);
   envWithValue ClusterEndpointEnvName (clusterEndpoint cfg);
   envWithValue DisableWebhookEnvName "true";
   envWithValue HealthProbePortEnvName "8081"]
  ++ map envAC (Env (OperandConfig (cloudProvider cfg))) ++ map envAC (additionalEnv cfg).

(** The pod of the operand: one container beside the additional init containers,
    with the image, pull policy and log level of the configuration, and the cloud's
    environment, mounts and volumes before the additional ones. *)
Record operandPod (cfg : operandConfig) (pod : coreac.PodSpec) : Prop := {
  op_container : exists c, coreac.ps_Containers pod = [c]
    /\ coreac.ctr_Name c = Some karpenterName
    /\ coreac.ctr_Image c = Some (karpenterImage cfg)
    /\ coreac.ctr_ImagePullPolicy c = Some (imagePullPolicy cfg)
    /\ coreac.ctr_Args c = [logLevelArg cfg]
    /\ coreac.ctr_Env c = operandEnv cfg
    /\ coreac.ctr_VolumeMounts c =
         map mountAC (VolumeMounts (OperandConfig (cloudProvider cfg)) ++ additionalVolumeMounts cfg);
  op_volumes : coreac.ps_Volumes pod =
    map volumeAC (Volumes (OperandConfig (cloudProvider cfg)) ++ additionalVolumes cfg);
  op_init : coreac.ps_InitContainers pod = map containerAC (additionalInitContainers cfg);
  op_account : coreac.ps_ServiceAccountName pod = Some karpenterName;
  op_security : exists sc, coreac.ps_SecurityContext pod = Some sc
    /\ coreac.psc_RunAsNonRoot sc = Some true
    /\ coreac.psc_RunAsUser sc = defaultSecurityContextUID cfg
    /\ coreac.psc_FSGroup sc = defaultSecurityContextUID cfg }.

Lemma securityContext_spec uid :
  match securityContext uid with
  | Ok sc => coreac.psc_RunAsNonRoot sc = Some true
      /\ coreac.psc_RunAsUser sc = uid /\ coreac.psc_FSGroup sc = uid
      /\ forall u, uid = Some u -> (0 < u)%Z
  | Err err => err = ENew "operand security context UID must be positive"
      /\ exists u, uid = Some u /\ (u <= 0)%Z
  end.
Proof.
  unfold securityContext. destruct uid as [u|]; [|done]. case_decide; cbn.
  - split; [done|]. by exists u.
  - do 3 (split; [done|]). intros ? [= <-]. lia.
Qed.

Lemma mustParse_requests : is_Some (MustParse "1") /\ is_Some (MustParse "1Gi").
Proof. split; by vm_compute; eexists. Qed.

Lemma buildPodSpec_spec cfg :
  match buildPodSpec cfg with
  | Ok pod => operandPod cfg pod
      /\ forall u, defaultSecurityContextUID cfg = Some u -> (0 < u)%Z
  | Err err => err = ENew "operand security context UID must be positive"
      /\ exists u, defaultSecurityContextUID cfg = Some u /\ (u <= 0)%Z
  end.
Proof.
  unfold buildPodSpec, buildEnv. rewrite !envVars_Ok, !volumeMounts_Ok, !volumes_Ok, initContainers_Ok.
  cbn [rbind]. pose proof (securityContext_spec (defaultSecurityContextUID cfg)) as H.
  destruct (securityContext _) as [sc|err]; cbn [rbind]; [|done]. destruct H as (H1 & H2 & H3 & H4).
  destruct mustParse_requests as [[cpu Hc] [memory Hm]]. unfold mustParse. rewrite Hc, Hm. cbn [rbind].
  split; [|done]. split.
  - eexists. split; [reflexivity|]. do 4 (split; [reflexivity|]). split; [|by rewrite map_app].
    unfold operandEnv. cbn [karpenterContainer coreac.ctr_Env]. by rewrite <- app_assoc.
  - by rewrite map_app.
  - done.
  - done.
  - by exists sc.
Qed.

(** The operand's Deployment.  It can be built exactly when the configured UID
    is positive or absent.  Its pod runs one Karpenter container, as a non-root
    user, with the UID also as group when there is one, so that the containers
    share it; the selector, which is the PodMonitor's, selects the pods unless an
    additional label overrides [app]; and it carries the release version exactly
    when there is one. *)
Theorem buildDeployment_spec cfg ownerRef :
  match buildDeployment cfg ownerRef with
  | Ok d =>
      (forall u, defaultSecurityContextUID cfg = Some u -> (0 < u)%Z)
      /\ (exists pod, coreac.pt_Spec (da_Template d) = Some pod /\ operandPod cfg pod)
      /\ da_Name d = karpenterName /\ da_Namespace d = namespace cfg
      /\ da_OwnerReferences d = [ownerRef]
      /\ da_MatchLabels d = pma_MatchLabels (buildPodMonitor cfg ownerRef)
      /\ (entries (additionalLabels cfg) !! appLabelKey = None ->
          da_MatchLabels d ⊆ coreac.pt_Labels (da_Template d))
      /\ da_Annotations d !! "release.openshift.io/version" = nonEmpty (releaseVersion cfg)
  | Err err =>
      err = ENew "operand security context UID must be positive"
      /\ exists u, defaultSecurityContextUID cfg = Some u /\ (u <= 0)%Z
  end.
Proof.
  unfold buildDeployment. pose proof (buildPodSpec_spec cfg) as H.
  destruct (buildPodSpec cfg) as [pod|err]; cbn [rbind]; [|done]. destruct H as [Hp Hu].
  split; [done|]. split; [by exists pod|]. do 4 (split; [done|]). split.
  - intros Hl. change (karpenterSelector ⊆ entries (additionalLabels cfg) ∪ karpenterSelector).
    apply map_singleton_subseteq_l. unfold karpenterSelector. by simplify_map_eq.
  - cbn. unfold nonEmpty. do 2 case_decide; try done.
Qed.
