(* ===== verification/OperandControllers.v ===== *)
(** * The operand's controllers

    pkg/controllers/karpenter: hcp_controller.go, which deploys the operand of a
    hosted cluster beside its HostedControlPlane, and ocp_controller.go, which
    deploys it on a standalone cluster for the Karpenter resource. *)

From S2P Require Import Prelude Prog DeepEqual MetaV1 Quantity CoreTypes HyperTypes KarpenterV1 OcpTypes ApplyTypes Kube Hypershift CloudProviders OperandConvert Operand.

(** ** hcp_controller.go *)

Module hcp.

Definition targetKubeconfigVolumeName : string := "target-kubeconfig".
Definition targetKubeconfigMountPath : string := "/mnt/kubeconfig".
Definition targetKubeconfigFilePath : string := "target-kubeconfig".
Definition targetKubeconfigSecretKey : string := "value".
Definition cloudTokenVolumeName : string := "cloud-token".
Definition cloudTokenMountPath : string := "/var/run/secrets/openshift/serviceaccount".
Definition cloudTokenFilePath : string := cloudTokenMountPath +:+ "/token".
Definition targetServiceAccountNamespace : string := "kube-system".
Definition targetServiceAccountName : string := "karpenter".
Definition karpenterDeploymentName : string := "karpenter".

Record HCPControllerConfig := mkHCPControllerConfig {
  Namespace : string;
  KarpenterImage : string;
  ClusterName : string;
  ClusterEndpoint : string;
  CloudProvider : CloudProviders.CloudProvider;
  TokenMinterImage : string;
  DefaultSecurityContextUID : option Z }.

Definition hcpOwnerRef (hcp : HostedControlPlane) : OwnerReference :=
  mkOwnerReference hyperv1beta1GroupVersion "HostedControlPlane" (om_Name (hcp_meta hcp))
    (om_UID (hcp_meta hcp)) (Some true) (Some true).

Definition tokenMinterContainer (image : string) : result corev1.Container :=
  rbind (mustParse "10m") (fun cpu => rbind (mustParse "30Mi") (fun memory =>
  Ok (corev1.mkContainer "token-minter" image
        (Some ["/usr/bin/control-plane-operator"; "token-minter"])
        (Some ["--service-account-namespace=" +:+ targetServiceAccountNamespace;
               "--service-account-name=" +:+ targetServiceAccountName;
               "--token-file=" +:+ cloudTokenFilePath;
               "--kubeconfig=" +:+ targetKubeconfigMountPath +:+ "/" +:+ targetKubeconfigFilePath])
        (Some (<[corev1.ResourceCPU := cpu]> {[corev1.ResourceMemory := memory]}))
        (Some corev1.ContainerRestartPolicyAlways)
        (Some [corev1.mkVolumeMount targetKubeconfigVolumeName false targetKubeconfigMountPath;
               corev1.mkVolumeMount cloudTokenVolumeName false cloudTokenMountPath])
        (Some (corev1.mkProbe (Some (Some ["test"; "-f"; cloudTokenFilePath])) 1 30))
        corev1.PullIfNotPresent))).

(** The image of the annotation, when it has one, else the configured one. *)
Definition overriddenImage (annotations : gomap string) (image : string) : string :=
  if decide (mget annotations osv1.KarpenterImageOverrideAnnotation <> "")
  then mget annotations osv1.KarpenterImageOverrideAnnotation else image.

Definition controlPlaneVersion (hcp : HostedControlPlane) : string :=
  rel_Version (cpv_Desired (hcp_ControlPlaneVersion hcp)).

(** The [operandConfig] of [Reconcile]. *)
Definition operandConfigOf (c : HCPControllerConfig) (hcp : HostedControlPlane) (karpenterImage : string) :
    result operandConfig :=
  rbind (tokenMinterContainer (TokenMinterImage c)) (fun tokenMinter =>
  Ok (mkOperandConfig (Namespace c) karpenterImage (ClusterName c) (ClusterEndpoint c) (CloudProvider c)
        corev1.PullIfNotPresent "--log-level=debug" (controlPlaneVersion hcp)
        (DefaultSecurityContextUID c) None
        [corev1.mkEnvVar KubeconfigEnvName
           (targetKubeconfigMountPath +:+ "/" +:+ targetKubeconfigFilePath);
         corev1.mkEnvVar DisableLeaderElectionEnvName "true"]
        [corev1.mkVolumeMount targetKubeconfigVolumeName true targetKubeconfigMountPath;
         corev1.mkVolumeMount cloudTokenVolumeName false cloudTokenMountPath]
        [corev1.mkVolume targetKubeconfigVolumeName
           (Some (corev1.mkSecretVolumeSource (hcp_InfraID hcp +:+ "-kubeconfig")
              (Some [corev1.mkKeyToPath targetKubeconfigSecretKey targetKubeconfigFilePath])
              (Some 416%Z))) false;
         corev1.mkVolume cloudTokenVolumeName None true]
        [tokenMinter])).

(** [Reconcile], for the HostedControlPlane that was read. *)
Definition reconcileHCP (c : HCPControllerConfig) (hcp : HostedControlPlane) : go (result Result) :=
  if decide (an_ProvisionerName (hcp_SpecAutoNode hcp) <> ProvisionerKarpenter) then Ret (Ok noRequeue)
  else if decide (controlPlaneVersion hcp = "") then Ret (Ok (mkResult (5 * Second)))
  else
    let karpenterImage := overriddenImage (om_Annotations (hcp_meta hcp)) (KarpenterImage c) in
    if decide (karpenterImage = "") then Ret (Err (ENew "karpenter image is not set"))
    else
      let ref := hcpOwnerRef hcp in
      wrap_err "reconciling ServiceAccount" (applyServiceAccount (Namespace c) ref) ;;?
      match operandConfigOf c hcp karpenterImage with
      | Err err => Ret (Err err)
      | Ok cfg =>
          wrap_err "reconciling Deployment" (applyDeployment cfg ref) ;;?
          wrap_err "reconciling PodMonitor" (applyPodMonitor cfg ref) ;;?
          Ret (Ok noRequeue)
      end.

Definition Reconcile (c : HCPControllerConfig) (req : ObjectKey) : go (result Result) :=
  got ← call (EGet Management KHostedControlPlane req);
  match got with
  | Err err => if IsNotFound err then Ret (Ok noRequeue) else Ret (Err err)
  | Ok hcp => reconcileHCP c hcp
  end.

(** The watches. *)
Definition hcpOperandChanged (oldHCP newHCP : HostedControlPlane) : bool :=
  let specChanged :=
    negb (bool_decide (hcp_InfraID oldHCP = hcp_InfraID newHCP))
    || negb (SemanticDeepEqual (hcp_SpecAutoNode oldHCP) (hcp_SpecAutoNode newHCP)) in
  let versionChanged := negb (bool_decide (controlPlaneVersion oldHCP = controlPlaneVersion newHCP)) in
  let imageOverrideChanged :=
    negb (bool_decide
      (mget (om_Annotations (hcp_meta oldHCP)) osv1.KarpenterImageOverrideAnnotation =
       mget (om_Annotations (hcp_meta newHCP)) osv1.KarpenterImageOverrideAnnotation)) in
  specChanged || versionChanged || imageOverrideChanged.

Definition hcpOperandReconcilePredicate (e : watchEvent HostedControlPlane) : bool :=
  match e with
  | CreateEvent _ | DeleteEvent _ | GenericEvent _ => true
  | UpdateEvent oldHCP newHCP => hcpOperandChanged oldHCP newHCP
  end.

Definition karpenterFilterPredicate (o : ObjectMeta) : bool := bool_decide (om_Name o = karpenterDeploymentName).

End hcp.

(** ** ocp_controller.go *)

Module ocp.

Record OCPControllerConfig := mkOCPControllerConfig {
  Namespace : string;
  KarpenterImage : string;
  ClusterName : string;
  ClusterEndpoint : string;
  CloudProvider : CloudProviders.CloudProvider }.

Definition ocpOwnerRef (owner : Karpenter) : OwnerReference :=
  mkOwnerReference autoscalingGroupVersion "Karpenter" (om_Name (karp_meta owner))
    (om_UID (karp_meta owner)) (Some true) (Some true).

(** [env] is [os.Getenv]. *)
Definition operandImagePullPolicy (env : string -> string) : string :=
  if decide (env "DEV_IMAGE_PULL_POLICY" = "Always") then corev1.PullAlways else corev1.PullIfNotPresent.

Section controller.
Context (files : Decoded) (c : OCPControllerConfig) (imagePullPolicy : string).

Definition singletonKey : ObjectKey := mkObjectKey "" SingletonName.

Definition operandConfigOf (karp : Karpenter) (karpenterImage : string) : operandConfig :=
  mkOperandConfig (Namespace c) karpenterImage (ClusterName c) (ClusterEndpoint c) (CloudProvider c)
    imagePullPolicy (Arg (ks_LogLevel (karp_Spec karp))) "" None None [] [] [] [].

Definition coreRoles : list Role := Roles (CoreRBAC files) ++ Roles (RBAC (CloudProvider c)).
Definition coreRoleBindings : list RoleBinding :=
  RoleBindings (CoreRBAC files) ++ RoleBindings (RBAC (CloudProvider c)).
Definition clusterRoles : list Role := ClusterRoles (CoreRBAC files) ++ ClusterRoles (RBAC (CloudProvider c)).
Definition clusterRoleBindings : list RoleBinding :=
  ClusterRoleBindings (CoreRBAC files) ++ ClusterRoleBindings (RBAC (CloudProvider c)).

Definition reconcileKarpenter (karp : Karpenter) : go (result Result) :=
  let karpenterImage := hcp.overriddenImage (om_Annotations (karp_meta karp)) (KarpenterImage c) in
  if decide (karpenterImage = "") then Ret (Err (ENew "karpenter image is not set"))
  else
    let ref := ocpOwnerRef karp in
    let ns := Namespace c in
    wrap_err "reconciling ServiceAccount" (applyServiceAccount ns ref) ;;?
    wrap_err "reconciling ClusterRoles" (applyClusterRoles ref clusterRoles) ;;?
    wrap_err "reconciling ClusterRoleBindings" (applyClusterRoleBindings ns ref clusterRoleBindings) ;;?
    wrap_err "reconciling Roles" (applyRoles ns ref coreRoles) ;;?
    wrap_err "reconciling RoleBindings" (applyRoleBindings ns ref coreRoleBindings) ;;?
    let cfg := operandConfigOf karp karpenterImage in
    wrap_err "reconciling Deployment" (applyDeployment cfg ref) ;;?
    wrap_err "reconciling PodMonitor" (applyPodMonitor cfg ref) ;;?
    Ret (Ok noRequeue).

Definition Reconcile : go (result Result) :=
  got ← call (EGet Management KKarpenter singletonKey);
  match got with
  | Err err => if IsNotFound err then Ret (Ok noRequeue) else Ret (Err err)
  | Ok karp => reconcileKarpenter karp
  end.

(** The watches of what the Karpenter resource does not own. *)
Definition mapSecret (o : ObjectMeta) : list ObjectKey :=
  if decide (om_Namespace o <> Namespace c
             \/ om_Name o <> CredentialsSecretName (OperandConfig (CloudProvider c)))
  then [] else [singletonKey].

Definition mapClusterRole (o : ObjectMeta) : list ObjectKey :=
  if decide (om_Name o ∈ map (fun r => om_Name (role_meta r)) clusterRoles) then [singletonKey] else [].

Definition mapClusterRoleBinding (o : ObjectMeta) : list ObjectKey :=
  if decide (om_Name o ∈ map (fun b => om_Name (rb_meta b)) clusterRoleBindings)
  then [singletonKey] else [].

End controller.

End ocp.

(** ** What is applied

    [applies objs p]: [p] applies the objects in order, each once, and stops at the
    first that fails, with its error under the messages it was wrapped in. *)

Inductive wraps (cause : error) : error -> Prop :=
| wraps_refl : wraps cause cause
| wraps_wrapf msg err : wraps cause err -> wraps cause (wrapf msg err).

Definition applyEvent (a : applyConfiguration) (answer : result unit) : event eff :=
  Ev (EApply Management a fieldManager true) answer.

Definition applied (objs : list applyConfiguration) : trace eff := map (fun a => applyEvent a (Ok tt)) objs.

(** The calls of a run, and its result. *)
Definition outcome {A} (objs : list applyConfiguration) (a : A) (t : trace eff) (r : result A) : Prop :=
  match r with
  | Ok a' => a' = a /\ t = applied objs
  | Err err => exists dn o rest cause, objs = dn ++ o :: rest
      /\ t = applied dn ++ [applyEvent o (Err cause)] /\ wraps cause err
  end.

Definition applies {A} (objs : list applyConfiguration) (a : A) (p : go (result A)) : Prop :=
  forall t, all_runs p t (fun t' r => exists t1, t' = t ++ t1 /\ outcome objs a t1 r).

Lemma applies_ret {A} (a : A) : applies [] a (Ret (Ok a)).
Proof. intros t. exists []. by rewrite app_nil_r. Qed.

Lemma applies_apply a : applies [a] tt (apply a).
Proof.
  intros t x. cbn. eexists. split; [done|]. destruct x as [[]|e]; cbn; [done|].
  exists [], a, [], e. split; [done|]. split; [done | constructor].
Qed.

Lemma applies_wrap {A} objs (a : A) msg p : applies objs a p -> applies objs a (wrap_err msg p).
Proof.
  intros H t. apply all_runs_wrap. eapply all_runs_mono; [apply H|]. intros t' r (t1 & -> & Ho).
  exists t1. split; [done|]. destruct r as [x|e]; [done|].
  destruct Ho as (dn & o & rest & cause & H1 & H2 & H3). exists dn, o, rest, cause.
  split; [done|]. split; [done | by constructor].
Qed.

Lemma applies_seq {A} l1 l2 (a : A) p q : applies l1 tt p -> applies l2 a q -> applies (l1 ++ l2) a (p ;;? q).
Proof.
  intros Hp Hq t. apply all_runs_try. eapply all_runs_mono; [apply Hp|].
  intros t' r (t1 & -> & Ho). destruct r as [x|e].
  - destruct Ho as [_ ->]. eapply all_runs_mono; [apply Hq|]. intros t'' r (t2 & -> & Ho).
    exists (applied l1 ++ t2). split; [by rewrite app_assoc|]. destruct r as [y|e].
    + destruct Ho as [-> ->]. split; [done|]. unfold applied. by rewrite map_app.
    + destruct Ho as (dn & o & rest & cause & -> & -> & H). exists (l1 ++ dn), o, rest, cause.
      split; [by rewrite <- app_assoc|]. split; [|done]. unfold applied. by rewrite map_app, <- app_assoc.
  - exists t1. split; [done|]. destruct Ho as (dn & o & rest & cause & -> & -> & H).
    exists dn, o, (rest ++ l2), cause. split; [by rewrite <- app_assoc | done].
Qed.

Lemma applies_for_each {A} (l : list A) (obj : A -> applyConfiguration) (f : A -> go (result unit)) :
  (forall x, applies [obj x] tt (f x)) -> applies (map obj l) tt (for_each l f).
Proof.
  intros H. induction l as [|x l IH]; [apply applies_ret|].
  exact (applies_seq [obj x] (map obj l) tt _ _ (H x) IH).
Qed.

Lemma applies_deployment cfg ref d :
  buildDeployment cfg ref = Ok d -> applies [ApplyDeployment d] tt (applyDeployment cfg ref).
Proof. intros H. unfold applyDeployment. rewrite H. apply applies_apply. Qed.

(** The owners of what is applied. *)
Definition ownersOf (a : applyConfiguration) : list OwnerReference :=
  match a with
  | ApplyServiceAccount _ _ owners | ApplyRole _ _ owners _ | ApplyRoleBinding _ _ owners _ _
  | ApplyClusterRole _ owners _ _ | ApplyClusterRoleBinding _ owners _ _ => owners
  | ApplyDeployment d => da_OwnerReferences d
  | ApplyPodMonitor p => pma_OwnerReferences p
  | ApplyAutoNode _ | ApplyClusterOperator _ _ => []
  end.

Lemma deployment_identity cfg ref d :
  buildDeployment cfg ref = Ok d -> da_Name d = karpenterName /\ da_Namespace d = namespace cfg.
Proof. unfold buildDeployment. destruct (buildPodSpec cfg); cbn [rbind]; [|done]. by intros [= <-]. Qed.

Lemma owner_of_deployment cfg ref d : buildDeployment cfg ref = Ok d -> da_OwnerReferences d = [ref].
Proof. unfold buildDeployment. destruct (buildPodSpec cfg); cbn [rbind]; [|done]. by intros [= <-]. Qed.

(** A deployment can be built for a positive UID, or without one. *)
Lemma buildDeployment_Ok cfg ref :
  (forall u, defaultSecurityContextUID cfg = Some u -> (0 < u)%Z) ->
  exists d, buildDeployment cfg ref = Ok d.
Proof.
  intros Hu. unfold buildDeployment. pose proof (buildPodSpec_spec cfg) as H.
  destruct (buildPodSpec cfg) as [pod|err]; cbn [rbind]; [by eexists|].
  destruct H as [_ (u & E & H)]. specialize (Hu u E). lia.
Qed.

Lemma buildDeployment_Err cfg ref err :
  buildDeployment cfg ref = Err err ->
  exists u, defaultSecurityContextUID cfg = Some u /\ (u <= 0)%Z.
Proof.
  unfold buildDeployment. pose proof (buildPodSpec_spec cfg) as H.
  destruct (buildPodSpec cfg) as [pod|e]; cbn [rbind]; [done|]. by destruct H.
Qed.

(** ** The operand of a hosted cluster *)

Section hcp_operand.
Context (c : hcp.HCPControllerConfig) (req : ObjectKey).

(** The reconcile has something to deploy. *)
Definition deployable (hcp : HostedControlPlane) : Prop :=
  an_ProvisionerName (hcp_SpecAutoNode hcp) = ProvisionerKarpenter
  /\ hcp.controlPlaneVersion hcp <> ""
  /\ hcp.overriddenImage (om_Annotations (hcp_meta hcp)) (hcp.KarpenterImage c) <> "".

(** What a reconcile that deploys nothing returns. *)
Definition notDeployed (hcp : HostedControlPlane) : result Result :=
  if decide (an_ProvisionerName (hcp_SpecAutoNode hcp) <> ProvisionerKarpenter) then Ok noRequeue
  else if decide (hcp.controlPlaneVersion hcp = "") then Ok (mkResult (5 * Second))
  else Err (ENew "karpenter image is not set").

Definition hcpAccount (hcp : HostedControlPlane) : applyConfiguration :=
  ApplyServiceAccount karpenterName (hcp.Namespace c) [hcp.hcpOwnerRef hcp].

(** The configuration the operand is built from: the token minter container can
    always be built. *)
Lemma tokenMinterContainer_Ok image : exists ctr, hcp.tokenMinterContainer image = Ok ctr
  /\ corev1.ctr_Image ctr = image.
Proof.
  assert (H : is_Some (MustParse "10m") /\ is_Some (MustParse "30Mi")) by (split; by vm_compute; eexists).
  destruct H as [[x Hx] [y Hy]]. unfold hcp.tokenMinterContainer, mustParse. rewrite Hx, Hy. cbn.
  by eexists.
Qed.

Lemma operandConfigOf_Ok hcp image : exists cfg, hcp.operandConfigOf c hcp image = Ok cfg
  /\ defaultSecurityContextUID cfg = hcp.DefaultSecurityContextUID c
  /\ releaseVersion cfg = hcp.controlPlaneVersion hcp /\ karpenterImage cfg = image.
Proof.
  unfold hcp.operandConfigOf. destruct (tokenMinterContainer_Ok (hcp.TokenMinterImage c)) as (ctr & -> & _).
  cbn [rbind]. by eexists.
Qed.

(** What the reconcile of the HostedControlPlane that was read applies. *)
Definition hcpApplied (hcp : HostedControlPlane) (t1 : trace eff) (r : result Result) : Prop :=
  (~ deployable hcp /\ t1 = [] /\ r = notDeployed hcp)
  \/ deployable hcp /\ exists cfg,
       hcp.operandConfigOf c hcp
         (hcp.overriddenImage (om_Annotations (hcp_meta hcp)) (hcp.KarpenterImage c)) = Ok cfg /\
       match buildDeployment cfg (hcp.hcpOwnerRef hcp) with
       | Ok d =>
           let objs := [hcpAccount hcp; ApplyDeployment d;
                        ApplyPodMonitor (buildPodMonitor cfg (hcp.hcpOwnerRef hcp))] in
           outcome objs noRequeue t1 r
           /\ Forall (fun a => ownersOf a = [hcp.hcpOwnerRef hcp]) objs
       | Err err =>
           (exists u, hcp.DefaultSecurityContextUID c = Some u /\ (u <= 0)%Z)
           /\ (exists answer, t1 = [applyEvent (hcpAccount hcp) answer]) /\ exists e, r = Err e
       end.

Lemma reconcileHCP_applies hcp t :
  all_runs (hcp.reconcileHCP c hcp) t (fun t' r => exists t1, t' = t ++ t1 /\ hcpApplied hcp t1 r).
Proof.
  unfold hcp.reconcileHCP, hcpApplied, deployable, notDeployed.
  destruct (decide (an_ProvisionerName _ <> _)) as [P|P].
  { exists []. rewrite app_nil_r. split; [done|]. left. by split; [intros [? _]|]. }
  destruct (decide (hcp.controlPlaneVersion hcp = "")) as [V|V].
  { exists []. rewrite app_nil_r. split; [done|]. left. by split; [intros (_ & ? & _)|]. }
  cbv zeta. set (image := hcp.overriddenImage _ _). destruct (decide (image = "")) as [I|I].
  { exists []. rewrite app_nil_r. split; [done|]. left. by split; [intros (_ & _ & ?)|]. }
  apply dec_stable in P. destruct (operandConfigOf_Ok hcp image) as (cfg & Hc & Hu & _ & _). rewrite Hc.
  pose proof (applies_wrap _ _ "reconciling ServiceAccount" _ (applies_apply (hcpAccount hcp))) as Hsa.
  destruct (buildDeployment cfg (hcp.hcpOwnerRef hcp)) as [d|err] eqn:Hd.
  - eapply all_runs_mono.
    { refine (applies_seq _ _ _ _ _ Hsa (applies_seq _ _ _ _ _ (applies_wrap _ _ _ _ (applies_deployment _ _ _ Hd))
        (applies_seq _ _ _ _ _ (applies_wrap _ _ _ _ (applies_apply _)) (applies_ret _))) t). }
    intros t' r (t1 & -> & Ho). exists t1. split; [done|]. right. split; [done|]. exists cfg.
    split; [done|]. rewrite Hd. split; [done|].
    repeat constructor. exact (owner_of_deployment _ _ _ Hd).
  - intros answer. cbn [mbind prog_bind]. assert (Hu' := buildDeployment_Err _ _ _ Hd). rewrite Hu in Hu'.
    unfold applyDeployment. rewrite Hd.
    destruct answer as [[]|e]; cbn; (eexists; split; [done|]; right; split; [done|]; exists cfg; split; [done|];
      rewrite Hd; split; [done|]; split; [by eexists|]).
    + by eexists.
    + by eexists.
Qed.

(** C13. What a reconcile of a hosted cluster's operand applies.  It reads the
    HostedControlPlane of the request; deploys nothing unless it uses Karpenter, its
    control plane version is known and there is an image, and says so; and then
    applies the operand's ServiceAccount, Deployment and PodMonitor, in that order,
    each owned by the HostedControlPlane, up to the first that fails.  The
    Deployment is not applied exactly when it cannot be built, which is for a UID
    that is not positive. *)
Theorem hcp_reconcile_applies :
  all_runs (hcp.Reconcile c req) [] (fun t r => exists x t1,
    t = Ev (EGet Management KHostedControlPlane req) x :: t1 /\
    match x with
    | Err err => t1 = [] /\ r = if IsNotFound err then Ok noRequeue else Err err
    | Ok hcp => hcpApplied hcp t1 r
    end).
Proof.
  intros [hcp|err]; cbn [mbind prog_bind call].
  2:{ destruct (IsNotFound err) eqn:N; exists (Err err), []; by rewrite N. }
  eapply all_runs_mono; [apply reconcileHCP_applies|]. intros t r (t1 & -> & H).
  by exists (Ok hcp), t1.
Qed.

End hcp_operand.

(** An update of the HostedControlPlane that the watch ignores changes nothing
    of what a reconcile does, as long as the update keeps the object's identity. *)
Theorem hcp_ignored_operand_updates c oldHCP newHCP
    (Hname : om_Name (hcp_meta oldHCP) = om_Name (hcp_meta newHCP))
    (Huid : om_UID (hcp_meta oldHCP) = om_UID (hcp_meta newHCP))
    (Hignored : hcp.hcpOperandReconcilePredicate (UpdateEvent oldHCP newHCP) = false) :
  hcp.reconcileHCP c oldHCP = hcp.reconcileHCP c newHCP.
Proof.
  cbn [hcp.hcpOperandReconcilePredicate] in Hignored. unfold hcp.hcpOperandChanged in Hignored.
  apply orb_false_iff in Hignored as [[[H1 H2]%orb_false_iff H3]%orb_false_iff H4].
  apply negb_false_iff in H1, H2, H3, H4. apply bool_decide_eq_true in H1, H3, H4.
  assert (H5 : hcp_SpecAutoNode oldHCP = hcp_SpecAutoNode newHCP).
  { by apply bool_decide_eq_true in H2. }
  unfold hcp.reconcileHCP, hcp.operandConfigOf, hcp.hcpOwnerRef, hcp.overriddenImage.
  by rewrite Hname, Huid, H1, H3, H4, H5.
Qed.

(** A Karpenter control plane before and after its first node count is reported. *)
Definition sampleHCP : HostedControlPlane :=
  mkHCP (newMeta "clusters-a" "a") "a-infra" (mkAutoNode ProvisionerKarpenter "AWS" "" "") None
    (mkCPVersion (mkRelease "" "4.20.1" "img-2" "" None) None 1) (mkAutoNodeStatus None None None).
Definition sampleCloud : CloudProvider :=
  mkCloudProvider "karpenter:1" (mkOperandCloudConfig "cloud-credentials" [] [] []) []
    (mkRBACAssets [] [] [] []) [] None false.
Definition sampleConfig : hcp.HCPControllerConfig :=
  hcp.mkHCPControllerConfig "clusters-a" "karpenter:1" "a" "https://a" sampleCloud "minter:1" (Some 1001%Z).

Lemma hcp_ignored_operand_updates_witness :
  let counted := hcp_set_AutoNode (mkAutoNodeStatus (Some 3%Z) None None) sampleHCP in
  hcp.hcpOperandReconcilePredicate (UpdateEvent sampleHCP counted) = false
  /\ hcp.reconcileHCP sampleConfig sampleHCP = hcp.reconcileHCP sampleConfig counted.
Proof.
  intros counted. split; [by vm_compute|].
  apply (hcp_ignored_operand_updates sampleConfig sampleHCP counted); by vm_compute.
Defined.

(** ** The operand of a standalone cluster *)

Section ocp_operand.
Context (files : Decoded) (c : ocp.OCPControllerConfig) (imagePullPolicy : string).

Definition roleObject (ns : string) (ref : OwnerReference) (r : Role) : applyConfiguration :=
  ApplyRole (om_Name (role_meta r)) ns [ref] (policyRules (role_Rules r)).
Definition roleBindingObject (ns : string) (ref : OwnerReference) (b : RoleBinding) : applyConfiguration :=
  ApplyRoleBinding (om_Name (rb_meta b)) ns [ref] (roleRef (rb_RoleRef b)) (subjects (rb_Subjects b) ns).
Definition clusterRoleObject (ref : OwnerReference) (r : Role) : applyConfiguration :=
  ApplyClusterRole (om_Name (role_meta r)) [ref] (entries (om_Labels (role_meta r)))
    (policyRules (role_Rules r)).
Definition clusterRoleBindingObject (ns : string) (ref : OwnerReference) (b : RoleBinding) : applyConfiguration :=
  ApplyClusterRoleBinding (om_Name (rb_meta b)) [ref] (roleRef (rb_RoleRef b)) (subjects (rb_Subjects b) ns).

(** The objects of the operand, in order: the account, what it may do, of the core
    before the cloud's, and then what runs. *)
Definition operandObjects (karp : Karpenter) (cfg : operandConfig) (d : DeploymentAC) : list applyConfiguration :=
  let ref := ocp.ocpOwnerRef karp in
  let ns := ocp.Namespace c in
  [ApplyServiceAccount karpenterName ns [ref]]
  ++ map (clusterRoleObject ref) (ocp.clusterRoles files c)
  ++ map (clusterRoleBindingObject ns ref) (ocp.clusterRoleBindings files c)
  ++ map (roleObject ns ref) (ocp.coreRoles files c)
  ++ map (roleBindingObject ns ref) (ocp.coreRoleBindings files c)
  ++ [ApplyDeployment d] ++ [ApplyPodMonitor (buildPodMonitor cfg ref)].

Lemma operandObjects_owned karp cfg d :
  da_OwnerReferences d = [ocp.ocpOwnerRef karp] ->
  Forall (fun a => ownersOf a = [ocp.ocpOwnerRef karp]) (operandObjects karp cfg d).
Proof.
  intros Hd. unfold operandObjects.
  repeat apply Forall_app_2; try (by apply Forall_singleton);
    apply Forall_forall; intros a Ha; by apply elem_of_map in Ha as (x & -> & _).
Qed.

Lemma reconcileKarpenter_applies karp d :
  let image := hcp.overriddenImage (om_Annotations (karp_meta karp)) (ocp.KarpenterImage c) in
  let cfg := ocp.operandConfigOf c imagePullPolicy karp image in
  image <> "" -> buildDeployment cfg (ocp.ocpOwnerRef karp) = Ok d ->
  applies (operandObjects karp cfg d) noRequeue (ocp.reconcileKarpenter files c imagePullPolicy karp).
Proof.
  cbv zeta. intros Hi Hd. unfold ocp.reconcileKarpenter, operandObjects. cbv zeta.
  rewrite decide_False by done. rewrite <- (app_nil_r [ApplyPodMonitor _]).
  refine (applies_seq _ _ _ _ _ (applies_wrap _ _ _ _ (applies_apply _)) _).
  refine (applies_seq _ _ _ _ _ (applies_wrap _ _ _ _ (applies_for_each _ _ _ _)) _).
  { intros r. apply applies_apply. }
  refine (applies_seq _ _ _ _ _ (applies_wrap _ _ _ _ (applies_for_each _ _ _ _)) _).
  { intros b. apply applies_apply. }
  refine (applies_seq _ _ _ _ _ (applies_wrap _ _ _ _ (applies_for_each _ _ _ _)) _).
  { intros r. apply applies_apply. }
  refine (applies_seq _ _ _ _ _ (applies_wrap _ _ _ _ (applies_for_each _ _ _ _)) _).
  { intros b. apply applies_apply. }
  refine (applies_seq _ _ _ _ _ (applies_wrap _ _ _ _ (applies_deployment _ _ _ Hd)) _).
  refine (applies_seq _ _ _ _ _ (applies_wrap _ _ _ _ (applies_apply _)) (applies_ret _)).
Qed.

(** The watches of cluster roles and bindings map those that are applied. *)
Lemma operandObjects_mapped karp cfg d a m :
  a ∈ operandObjects karp cfg d ->
  match a with
  | ApplyClusterRole name _ _ _ => om_Name m = name -> ocp.mapClusterRole files c m = [ocp.singletonKey]
  | ApplyClusterRoleBinding name _ _ _ =>
      om_Name m = name -> ocp.mapClusterRoleBinding files c m = [ocp.singletonKey]
  | _ => True
  end.
Proof.
  intros Ha. unfold operandObjects in Ha.
  repeat (apply elem_of_app in Ha as [Ha|Ha]);
    try (by apply list_elem_of_singleton in Ha as ->);
    apply elem_of_map in Ha as (x & -> & Hx); cbn; try done; intros Hm.
  + unfold ocp.mapClusterRole. rewrite decide_True; [done|]. rewrite Hm.
    by apply (elem_of_map_2 (fun r => om_Name (role_meta r))).
  + unfold ocp.mapClusterRoleBinding. rewrite decide_True; [done|]. rewrite Hm.
    by apply (elem_of_map_2 (fun b => om_Name (rb_meta b))).
Qed.

(** C14. What a reconcile of a standalone cluster's operand applies.  It reads the
    Karpenter resource named [default], whatever the request is, and fails without
    an image, which the override annotation of the resource replaces, as on a
    HostedControlPlane: the comment of the annotation names Management Cluster mode
    only, the controller's own test this mode too.  Otherwise it applies the
    ServiceAccount, the cluster roles and bindings, the roles and bindings, the
    Deployment, which can always be built, and the PodMonitor, in that order, each
    owned by the Karpenter resource, up to the first that fails. *)
Theorem ocp_reconcile_applies :
  all_runs (ocp.Reconcile files c imagePullPolicy) [] (fun t r => exists x t1,
    t = Ev (EGet Management KKarpenter ocp.singletonKey) x :: t1 /\
    match x with
    | Err err => t1 = [] /\ r = if IsNotFound err then Ok noRequeue else Err err
    | Ok karp =>
        let image := hcp.overriddenImage (om_Annotations (karp_meta karp)) (ocp.KarpenterImage c) in
        let cfg := ocp.operandConfigOf c imagePullPolicy karp image in
        (image = "" /\ t1 = [] /\ r = Err (ENew "karpenter image is not set"))
        \/ image <> "" /\ exists d,
             buildDeployment cfg (ocp.ocpOwnerRef karp) = Ok d
             /\ outcome (operandObjects karp cfg d) noRequeue t1 r
             /\ Forall (fun a => ownersOf a = [ocp.ocpOwnerRef karp]) (operandObjects karp cfg d)
    end).
Proof.
  intros [karp|err]; cbn [mbind prog_bind call].
  2:{ destruct (IsNotFound err) eqn:N; exists (Err err), []; by rewrite N. }
  set (image := hcp.overriddenImage (om_Annotations (karp_meta karp)) (ocp.KarpenterImage c)).
  set (cfg := ocp.operandConfigOf c imagePullPolicy karp image).
  destruct (decide (image = "")) as [I|I].
  { unfold ocp.reconcileKarpenter. cbv zeta. fold image. rewrite decide_True by done.
    exists (Ok karp), []. by split; [|left]. }
  destruct (buildDeployment_Ok cfg (ocp.ocpOwnerRef karp)) as [d Hd]; [done|].
  eapply all_runs_mono; [by apply (reconcileKarpenter_applies karp d)|].
  intros t r (t1 & -> & Ho). exists (Ok karp), t1. split; [done|]. right. split; [done|].
  exists d. split; [done|]. split; [done|].
  by apply operandObjects_owned, (owner_of_deployment cfg).
Qed.

End ocp_operand.
