(* ===== verification/Controllers.v ===== *)
(** * The controllers of the operator

    pkg/controllers/controllers.go: which controllers run, with which
    configuration; and the reconciler of each, which composes the components. *)

From S2P Require Import CrdController ClusterOperatorController Deletion AutoNodeStatus MachineApprover Ec2NodeClass Ec2Guard AzureNodeClass AzureGuard AzureVap.
From S2P Require Import Prelude Prog DeepEqual MetaV1 CoreTypes HyperTypes OcpTypes ApplyTypes Kube KubeLemmas Hypershift NodeIdentity AwsIdentity DefaultNodeClass CloudProviders Operand OperandControllers.

(** [HostedCluster] tells whether there is one. *)
Record Config := mkConfig {
  Namespace : string;
  KarpenterImage : string;
  ClusterName : string;
  ClusterEndpoint : string;
  ReleaseVersion : string;
  ManagementCluster : bool;
  CloudProvider : CloudProviders.CloudProvider;
  HostedCluster : bool;
  TokenMinterImage : string;
  DefaultSecurityContextUID : option Z }.

(** A controller, by the constructor and the configuration it was given. *)
Inductive Controller :=
| CrdC (cfg : CrdController.ControllerConfig)
| DefaultNodeClassC (namespace : string) (provider : HCPNodeClassProvider) (hosted : bool)
| NodeClassC (c : NodeClassController)
| HcpC (cfg : hcp.HCPControllerConfig)
| OcpC (cfg : ocp.OCPControllerConfig)
| AutoNodeStatusC (namespace : string)
| HcpDeletionC (namespace : string)
| MachineApproverC
| ClusterOperatorC (cfg : ClusterOperatorController.ControllerConfig).

Definition Name (c : Controller) : string :=
  match c with
  | CrdC _ => "crd"
  | DefaultNodeClassC _ _ _ => "default-nodeclass"
  | NodeClassC (EC2NodeClassReconciler _) => "ec2-nodeclass"
  | NodeClassC (AzureNodeClassController _) => "azure-nodeclass"
  | NodeClassC AzureVAPController => "azure-nodeclass-vap"
  | HcpC _ | OcpC _ => "karpenter"
  | AutoNodeStatusC _ => "autonode-status"
  | HcpDeletionC _ => "hcp-deletion"
  | MachineApproverC => MachineApprover.controllerName
  | ClusterOperatorC _ => "clusteroperator"
  end.

Section controllers.
Context (files : Decoded).

Definition newHCPNodeClassProvider (cfg : Config) : option HCPNodeClassProvider :=
  if negb (ManagementCluster cfg) || negb (HostedCluster cfg) then None
  else HCPNodeClassProviderOf (CloudProvider cfg).

Definition karpenterCRDs (cfg : Config) (hcpNodeClassProvider : option HCPNodeClassProvider) :
    list CustomResourceDefinition :=
  let crds := CoreCRDs files ++ CRDs (CloudProvider cfg) in
  match hcpNodeClassProvider with
  | Some p => crds ++ hnp_CRDs p
  | None => crds
  end.

Definition newMachineApproverController (cfg : Config) : option Controller :=
  if negb (HostedCluster cfg) then None
  else if NodeIdentityVerifier (CloudProvider cfg) then Some MachineApproverC else None.

Definition NewControllers (cfg : Config) : list Controller :=
  let hcpNodeClassProvider := newHCPNodeClassProvider cfg in
  [CrdC (CrdController.mkControllerConfig (Namespace cfg) (karpenterCRDs cfg hcpNodeClassProvider)
           (HostedCluster cfg))] ++
  (if ManagementCluster cfg then
     (match hcpNodeClassProvider with
      | Some p =>
          [DefaultNodeClassC (Namespace cfg) p (HostedCluster cfg)] ++
          map NodeClassC (hnp_NewControllers p (Namespace cfg))
      | None => []
      end) ++
     [HcpC (hcp.mkHCPControllerConfig (Namespace cfg) (KarpenterImage cfg) (ClusterName cfg)
              (ClusterEndpoint cfg) (CloudProvider cfg) (TokenMinterImage cfg)
              (DefaultSecurityContextUID cfg))] ++
     (if HostedCluster cfg then [AutoNodeStatusC (Namespace cfg); HcpDeletionC (Namespace cfg)] else []) ++
     (match newMachineApproverController cfg with Some c => [c] | None => [] end)
   else
     [OcpC (ocp.mkOCPControllerConfig (Namespace cfg) (KarpenterImage cfg) (ClusterName cfg)
              (ClusterEndpoint cfg) (CloudProvider cfg));
      ClusterOperatorC (ClusterOperatorController.mkControllerConfig (Namespace cfg) (ReleaseVersion cfg)
              (RelatedObjects (CloudProvider cfg)) None)]).

End controllers.

(** ** Reconcilers

    What runs for a request of a controller.  [clock] is the clock of a reconcile;
    [env] the environment when the controllers were made; [gvk] the kind of the
    Cluster API cluster that the deletion controller's setup resolved; the PEM and
    PKCS#10 parsers are the machine approver's. *)
Section reconcilers.
Context (files : Decoded) (env : string -> string) (clock : nat -> Time) (gvk : GVK).
Context (pemDecode : string -> option (string * string)).
Context (ParseCertificateRequest : string -> result string).

Definition ReconcilerOf (c : Controller) (req : ObjectKey) : go (result Result) :=
  match c with
  | CrdC cfg => CrdController.Reconcile cfg
  | DefaultNodeClassC namespace p hosted =>
      @DefaultNodeClass.Reconcile (hnp_Type p) (hnp_Provider p) namespace (Some (hnp_value p)) hosted
  | NodeClassC (EC2NodeClassReconciler namespace) => Ec2NodeClass.Reconcile clock namespace req
  | NodeClassC (AzureNodeClassController namespace) => AzureNodeClass.Reconcile clock namespace req
  | NodeClassC AzureVAPController => AzureVap.Reconcile
  | HcpC cfg => hcp.Reconcile cfg req
  | OcpC cfg => ocp.Reconcile files cfg (ocp.operandImagePullPolicy env)
  | AutoNodeStatusC namespace => AutoNodeStatus.Reconcile namespace
  | HcpDeletionC namespace => Deletion.Reconcile namespace gvk
  | MachineApproverC => MachineApprover.Reconcile pemDecode ParseCertificateRequest req
  | ClusterOperatorC cfg => ClusterOperatorController.Reconcile cfg
  end.

End reconcilers.

(** ** What the controllers may touch *)

(** Without a hosted cluster: the hosted cluster's client, which does not exist, is
    never used; CRDs, applied objects and the ClusterOperator's status are all that
    is written. *)
Definition atHome (X : Type) (e : eff X) : Prop :=
  match e with
  | EGet c _ _ | EList c _ _ => c = Management
  | ECreate c k _ | EUpdate c k _ => c = Management /\ k = KCustomResourceDefinition
  | EApply c _ owner _ => c = Management /\ owner = Operand.fieldManager
  | EStatusApply c k _ _ owner _ =>
      c = Management /\ k = KClusterOperator /\ owner = ClusterOperatorController.fieldManager
  | ENow => True
  | _ => False
  end.

(** Beside a hosted cluster: the management cluster is only written to by patches of
    HostedControlPlanes that carry a resource version, their AutoNode status, the
    ConfigMap of the subnets, and the operand's account, Deployment and PodMonitor
    in the namespace. *)
Definition besideHosted (namespace : string) (X : Type) (e : eff X) : Prop :=
  match e with
  | EGet _ _ _ | EList _ _ _ | ENow | EDescribeInstances _ | EUpdateApproval _ _ => True
  | ECreate c k _ | EUpdate c k _ | EDelete c k _ _ => c = Management -> k = KConfigMap
  | EPatch c k _ _ lock => c = Management -> k = KHostedControlPlane /\ lock = true
  | EStatusPatch c _ _ _ _ => c = Hosted
  | EStatusApply c k _ a _ _ => c = Management /\ k = KHostedControlPlane /\ exists s, a = ApplyAutoNode s
  | EApply c a owner _ => c = Management /\ owner = Operand.fieldManager /\
      match a with
      | ApplyServiceAccount _ ns _ => ns = namespace
      | ApplyDeployment d => da_Namespace d = namespace
      | ApplyPodMonitor p => pma_Namespace p = namespace
      | _ => False
      end
  end.

Definition confined (cfg : Config) : forall X, eff X -> Prop :=
  if HostedCluster cfg then besideHosted (Namespace cfg) else atHome.

Ltac walk := repeat first
  [ progress intros | apply calls_try | apply calls_wrap | apply calls_for_each | apply calls_bind
  | apply calls_call | match goal with |- calls _ (if ?b then _ else _) => destruct b
                       | |- calls _ (match ?x with _ => _ end) => destruct x end | exact I ].

Lemma GetHostedControlPlane_calls (P : forall X, eff X -> Prop) namespace :
  P _ (EList Management KHostedControlPlane (InNamespace namespace)) ->
  calls P (GetHostedControlPlane Management namespace).
Proof. intros H. unfold GetHostedControlPlane. walk; done. Qed.

Lemma CreateOrUpdate_calls (P : forall X, eff X -> Prop) c k (o : obj k) f :
  (forall key, P _ (EGet c k key)) -> (forall o', P _ (ECreate c k o')) -> (forall o', P _ (EUpdate c k o')) ->
  calls P (CreateOrUpdate c k o f).
Proof. intros. unfold CreateOrUpdate. walk; auto. Qed.

Lemma crd_calls (P : forall X, eff X -> Prop) (cfg : CrdController.ControllerConfig) :
  (forall key, P _ (EGet (CrdController.targetClient cfg) KCustomResourceDefinition key)) ->
  (forall o, P _ (ECreate (CrdController.targetClient cfg) KCustomResourceDefinition o)
             /\ P _ (EUpdate (CrdController.targetClient cfg) KCustomResourceDefinition o)) ->
  calls P (CrdController.Reconcile cfg).
Proof.
  intros Hg Hw. unfold CrdController.Reconcile, CrdController.applyCRD. walk;
  first [apply Hg | apply Hw | done].
Qed.

Lemma apply_calls (P : forall X, eff X -> Prop) a :
  P _ (EApply Management a Operand.fieldManager true) -> calls P (apply a).
Proof. intros H. by apply calls_call. Qed.

Lemma hcp_calls (P : forall X, eff X -> Prop) (c : hcp.HCPControllerConfig) req :
  P _ (EGet Management KHostedControlPlane req) ->
  (forall owners, P _ (EApply Management (ApplyServiceAccount karpenterName (hcp.Namespace c) owners) Operand.fieldManager true)) ->
  (forall d, da_Namespace d = hcp.Namespace c -> P _ (EApply Management (ApplyDeployment d) Operand.fieldManager true)) ->
  (forall p, pma_Namespace p = hcp.Namespace c -> P _ (EApply Management (ApplyPodMonitor p) Operand.fieldManager true)) ->
  calls P (hcp.Reconcile c req).
Proof.
  intros Hg Hs Hd Hp. unfold hcp.Reconcile, hcp.reconcileHCP. apply calls_bind; [by apply calls_call|].
  intros [h|e]; [|by destruct (IsNotFound e)]. cbv zeta. do 3 (case_decide; [done|]).
  apply calls_try; [by apply calls_wrap, apply_calls|]. intros _.
  destruct (hcp.operandConfigOf c h _) as [cfg|e] eqn:Hc; [|done].
  assert (Hns : namespace cfg = hcp.Namespace c).
  { unfold hcp.operandConfigOf in Hc. destruct (hcp.tokenMinterContainer _); [|done]. by injection Hc as <-. }
  apply calls_try; [|intros _; apply calls_try; [|done]]; apply calls_wrap.
  - unfold applyDeployment. destruct (buildDeployment cfg _) as [d|e] eqn:B; [|done].
    apply apply_calls, Hd. rewrite <- Hns. unfold buildDeployment in B.
    destruct (buildPodSpec cfg); [|done]. by injection B as <-.
  - by apply apply_calls, Hp.
Qed.

Lemma ocp_calls (P : forall X, eff X -> Prop) files (c : ocp.OCPControllerConfig) policy :
  (forall key, P _ (EGet Management KKarpenter key)) ->
  (forall a, P _ (EApply Management a Operand.fieldManager true)) ->
  calls P (ocp.Reconcile files c policy).
Proof.
  intros Hg Ha. unfold ocp.Reconcile, ocp.reconcileKarpenter, applyDeployment. cbv zeta.
  walk; first [done | by apply apply_calls].
Qed.

Lemma clusteroperator_calls (P : forall X, eff X -> Prop) (cfg : ClusterOperatorController.ControllerConfig) :
  (forall k key, P _ (EGet Management k key)) -> P _ ENow ->
  (forall a force, P _ (EApply Management a ClusterOperatorController.fieldManager force)) ->
  (forall key a, P _ (EStatusApply Management KClusterOperator key a ClusterOperatorController.fieldManager true)) ->
  calls P (ClusterOperatorController.Reconcile cfg).
Proof.
  intros Hg Hn Ha Hs. unfold ClusterOperatorController.Reconcile, conditionsOf, operandConditions, applyStatus.
  walk; first [done | exact (Hg KDeployment _) | exact (Hg KClusterOperator _) | apply Hg | apply Ha | apply Hs].
Qed.

Lemma autonode_calls namespace :
  calls (besideHosted namespace) (AutoNodeStatus.Reconcile namespace).
Proof.
  unfold AutoNodeStatus.Reconcile, reconcileAutoNodeStatus. apply calls_bind; [by apply GetHostedControlPlane_calls|].
  cbv zeta. walk; first [done | split; [done | split; [done | by eexists]]].
Qed.

Lemma default_calls {P0} `{NodeClassProvider P0} namespace namespace' (p : option P0) hosted :
  calls (besideHosted namespace) (DefaultNodeClass.Reconcile namespace' p hosted).
Proof.
  unfold DefaultNodeClass.Reconcile, DefaultNodeClass.reconcileHCP.
  apply calls_bind; [by apply GetHostedControlPlane_calls|].
  walk; done.
Qed.

Lemma vap_calls namespace : calls (besideHosted namespace) AzureVap.Reconcile.
Proof. unfold AzureVap.Reconcile. walk; done. Qed.

(** The guards of the components, without their histories. *)
Ltac confine e :=
  destruct e as [c k key|c k opts|c k o|c k o|c k orig o lock|c k orig o lock|c k o g|c k key a ow f
                |c a ow f|name csr|ids|]; cbn; try done; try (destruct c; cbn; try done; destruct k; cbn; try done).

Lemma ec2_calls clock namespace namespace' req :
  calls (besideHosted namespace) (Ec2NodeClass.Reconcile clock namespace' req).
Proof.
  eapply guarded_calls; [apply ec2_Reconcile_guards|]. intros t X e. confine e.
Qed.

Lemma azure_calls clock namespace namespace' req :
  calls (besideHosted namespace) (AzureNodeClass.Reconcile clock namespace' req).
Proof.
  eapply guarded_calls; [apply azure_Reconcile_guards|]. intros t X e. confine e.
Qed.

Lemma deletion_calls namespace gvk : calls (besideHosted namespace) (Deletion.Reconcile namespace gvk).
Proof.
  eapply guarded_calls; [apply Deletion.Reconcile_guards|]. intros t X e. confine e.
  by intros (_ & -> & _) _.
Qed.

Lemma approver_calls namespace pemDecode ParseCertificateRequest req :
  calls (besideHosted namespace) (MachineApprover.Reconcile pemDecode ParseCertificateRequest req).
Proof.
  eapply guarded_calls; [apply MachineApprover.Reconcile_approvals|]. intros t X e. confine e.
Qed.

Lemma hosted_calls namespace (c : hcp.HCPControllerConfig) req :
  hcp.Namespace c = namespace -> calls (besideHosted namespace) (hcp.Reconcile c req).
Proof. intros <-. by apply hcp_calls. Qed.

Lemma NewControllers_confined files env clock gvk pemDecode ParseCertificateRequest cfg c req :
  (HostedCluster cfg = true -> ManagementCluster cfg = true) ->
  c ∈ NewControllers files cfg ->
  calls (confined cfg) (ReconcilerOf files env clock gvk pemDecode ParseCertificateRequest c req).
Proof.
  unfold confined, NewControllers, newHCPNodeClassProvider, newMachineApproverController.
  destruct (HostedCluster cfg) eqn:H.
  - intros M. rewrite (M eq_refl). cbn [negb orb]. rewrite !elem_of_app, !list_elem_of_singleton, elem_of_cons, list_elem_of_singleton.
    intros [->|[Hp|[->|[[->| ->]|Hv]]]].
    + by apply crd_calls.
    + destruct (HCPNodeClassProviderOf _) as [p|]; [|by apply elem_of_nil in Hp].
      apply elem_of_app in Hp as [->%list_elem_of_singleton|Hp]; [by apply default_calls|].
      apply elem_of_map in Hp as (n & -> & _).
      destruct n; [apply ec2_calls | apply azure_calls | apply vap_calls].
    + by apply hosted_calls.
    + apply autonode_calls.
    + apply deletion_calls.
    + destruct (NodeIdentityVerifier _); [|by apply elem_of_nil in Hv].
      apply list_elem_of_singleton in Hv as ->. apply approver_calls.
  - intros _. rewrite orb_true_r. destruct (ManagementCluster cfg).
    + rewrite !elem_of_app, !list_elem_of_singleton. intros [->|[Hp|[->|[Hp|Hp]]]]; try by apply elem_of_nil in Hp.
      * by apply crd_calls.
      * by apply hcp_calls.
    + rewrite elem_of_app, !elem_of_cons, elem_of_nil. intros [[->|[]]|[->|[->|[]]]].
      * by apply crd_calls.
      * by apply ocp_calls.
      * by apply clusteroperator_calls.
Qed.
