(* ===== verification/Watches.v ===== *)
(** * Watches

    What wakes a controller: the [SetupWithManager] of every controller, as the
    table of its watches, and controller-runtime's event handlers
    (pkg/handler: enqueue.go, enqueue_mapped.go, enqueue_owner.go).  The objects of
    a watch on something the operator only applies are their metadata.  A work
    queue keeps a request once, so requests are lists without duplicates. *)

From S2P Require Import CrdController ClusterOperatorController Deletion AutoNodeStatus MachineApprover Ec2NodeClass AzureNodeClass AzureVap.
From S2P Require Import Prelude Prog DeepEqual MetaV1 CoreTypes HyperTypes OcpTypes ApplyTypes Kube Hypershift NodeIdentity AwsIdentity DefaultNodeClass CloudProviders Operand OperandControllers Controllers.

Inductive resource :=
| RKind (k : kind)
| RServiceAccount | RPodMonitor | RRole | RRoleBinding | RClusterRole | RClusterRoleBinding.
#[export] Instance resource_eq_dec : EqDecision resource.
Proof. solve_decision. Defined.

Definition object (r : resource) : Type := match r with RKind k => obj k | _ => ObjectMeta end.
Definition objectMeta {r : resource} : object r -> ObjectMeta :=
  match r with RKind k => meta_of | _ => fun m => m end.

(** ** Handlers and predicates *)

Definition handler (A : Type) : Type := watchEvent A -> go (list ObjectKey).

Definition eventObjects {A} (e : watchEvent A) : list A :=
  match e with
  | UpdateEvent old new => [old; new]
  | CreateEvent o | DeleteEvent o | GenericEvent o => [o]
  end.

(** The object a predicate of [NewPredicateFuncs] and [EnqueueRequestForObject] look
    at. *)
Definition eventObject {A} (e : watchEvent A) : A :=
  match e with UpdateEvent _ new => new | CreateEvent o | DeleteEvent o | GenericEvent o => o end.

(** The requests that are not in the queue's batch yet. *)
Definition addNew (reqs new : list ObjectKey) : list ObjectKey :=
  foldl (fun reqs r => if decide (r ∈ reqs) then reqs else reqs ++ [r]) reqs new.

Definition EnqueueRequestForObject {A} (meta : A -> ObjectMeta) : handler A := fun e =>
  Ret [ObjectKeyFromObject (meta (eventObject e))].

Fixpoint mapAndEnqueue {A} (toRequests : A -> go (list ObjectKey)) (reqs : list ObjectKey) (l : list A) :
    go (list ObjectKey) :=
  match l with
  | [] => Ret reqs
  | o :: l' => new ← toRequests o; mapAndEnqueue toRequests (addNew reqs new) l'
  end.
Definition EnqueueRequestsFromMapFunc {A} (toRequests : A -> go (list ObjectKey)) : handler A := fun e =>
  mapAndEnqueue toRequests [] (eventObjects e).

Section owner.
(** The owner's group and kind, and [RESTMapping] of a version of it: whether the
    kind is namespaced, if it is known. *)
Context {A : Type} (meta : A -> ObjectMeta) (group kind : string) (mapper : string -> string -> option bool).

(** The version of [schema.ParseGroupVersion]. *)
Definition ParseVersion (gv : string) : string :=
  if bool_decide (gv = "/") then ""
  else match Cut gv "/" with (_, v, true) => v | (v, _, false) => v end.

Definition getOwnerReconcileRequest (o : ObjectMeta) : list ObjectKey :=
  match GetControllerOf o with
  | None => []
  | Some ref =>
      match ParseGroup (or_APIVersion ref) with
      | None => []
      | Some refGroup =>
          if decide (or_Kind ref = kind /\ refGroup = group) then
            match mapper group (ParseVersion (or_APIVersion ref)) with
            | None => []
            | Some namespaced => [mkObjectKey (if namespaced then om_Namespace o else "") (or_Name ref)]
            end
          else []
      end
  end.

(** [EnqueueRequestForOwner(..., OnlyControllerOwner())] *)
Definition EnqueueRequestForOwner : handler A := fun e =>
  Ret (foldl (fun reqs o => addNew reqs (getOwnerReconcileRequest (meta o))) [] (eventObjects e)).
End owner.

Definition withPredicate {A} (p : watchEvent A -> bool) (h : handler A) : handler A := fun e =>
  if p e then h e else Ret [].
Definition NewPredicateFuncs {A} (filter : A -> bool) (e : watchEvent A) : bool := filter (eventObject e).

Definition mapEvent {A B} (f : A -> B) (e : watchEvent A) : watchEvent B :=
  match e with
  | CreateEvent o => CreateEvent (f o)
  | UpdateEvent old new => UpdateEvent (f old) (f new)
  | DeleteEvent o => DeleteEvent (f o)
  | GenericEvent o => GenericEvent (f o)
  end.

(** ** The watches of each controller *)

Inductive watch :=
| Watch (c : cluster) (r : resource) (h : handler (object r))
| InitialSync (request : ObjectKey).

Section setup.
(** [gvk] is what the deletion controller resolved for the CAPI Cluster. *)
Context (files : Decoded) (gvk : GVK) (mapper : string -> string -> option bool).

Definition own (c : cluster) (r : resource) (group kind : string) (p : watchEvent (object r) -> bool) : watch :=
  Watch c r (withPredicate p (EnqueueRequestForOwner objectMeta group kind mapper)).
Definition ofMeta (r : resource) (f : ObjectMeta -> list ObjectKey) : handler (object r) :=
  EnqueueRequestsFromMapFunc (fun o => Ret (f (objectMeta o))).
Definition forObject (c : cluster) (k : kind) : watch :=
  Watch c (RKind k) (EnqueueRequestForObject meta_of).
Definition everyEvent {A} (e : watchEvent A) : bool := true.

(** The Secret watch of both NodeClass controllers. *)
Definition secretWatch : watch :=
  Watch Management (RKind KSecret)
    (withPredicate (fun e => KarpenterSecretPredicate (mapEvent secret_meta e))
       (ofMeta (RKind KSecret) mapUserDataSecretToNodeClass)).

Definition ec2Watches : list watch :=
  [forObject Hosted KOpenshiftEC2NodeClass; forObject Hosted KEC2NodeClass;
   Watch Hosted (RKind KValidatingAdmissionPolicy)
     (EnqueueRequestsFromMapFunc (fun o => mapVAPToOpenShiftEC2NodeClasses (vap_meta o)));
   Watch Hosted (RKind KValidatingAdmissionPolicyBinding)
     (EnqueueRequestsFromMapFunc (fun o => mapVAPBindingToOpenShiftEC2NodeClasses (vapb_meta o)));
   secretWatch;
   Watch Management (RKind KHostedControlPlane)
     (withPredicate Ec2NodeClass.hcpPredicate (EnqueueRequestsFromMapFunc (fun _ => mapToOpenShiftEC2NodeClasses)))].

Definition azureWatches : list watch :=
  [forObject Hosted KOpenShiftAzureNodeClass; forObject Hosted KAKSNodeClass;
   Watch Management (RKind KHostedControlPlane)
     (withPredicate AzureNodeClass.hcpPredicate (EnqueueRequestsFromMapFunc (fun _ => mapToNodeClasses)));
   secretWatch].

Definition azureVapWatches : list watch :=
  let managed k := Watch Hosted (RKind k)
    (withPredicate (NewPredicateFuncs (fun o => isManaged (meta_of o)))
       (EnqueueRequestsFromMapFunc (fun o => Ret (enqueue (meta_of o))))) in
  [managed KValidatingAdmissionPolicy; managed KValidatingAdmissionPolicyBinding; InitialSync (mkObjectKey "" "")].

Definition namespaceRequest (namespace : string) : list ObjectKey := [mkObjectKey namespace ""].

Definition defaultWatches (namespace : string) (p : HCPNodeClassProvider) : list watch :=
  let watched := @WatchObject (hnp_Type p) (hnp_Provider p) in
  [Watch Management (RKind KHostedControlPlane)
     (withPredicate DefaultNodeClass.hcpPredicate (EnqueueRequestForObject hcp_meta));
   Watch Hosted (RKind watched)
     (withPredicate (NewPredicateFuncs (fun o => nodeClassPredicate (meta_of o)))
        (EnqueueRequestsFromMapFunc (fun _ => Ret (namespaceRequest namespace))))].

Definition autoNodeStatusWatches (namespace : string) : list watch :=
  [Watch Management (RKind KHostedControlPlane)
     (EnqueueRequestsFromMapFunc (fun _ => Ret (namespaceRequest namespace)));
   Watch Hosted (RKind KNodeClaim)
     (withPredicate nodeClaimPredicate (EnqueueRequestsFromMapFunc (fun _ => Ret (namespaceRequest namespace))));
   Watch Hosted (RKind KNode)
     (withPredicate countChangePredicate (EnqueueRequestsFromMapFunc (fun _ => Ret (namespaceRequest namespace))))].

Definition deletionWatches (namespace : string) : list watch :=
  [Watch Management (RKind KHostedControlPlane)
     (EnqueueRequestsFromMapFunc (fun _ => Ret (namespaceRequest namespace)));
   Watch Management (RKind (KPartialObjectMetadata gvk))
     (EnqueueRequestsFromMapFunc (fun _ => Ret (namespaceRequest namespace)))].

Definition machineApproverWatches : list watch :=
  [Watch Hosted (RKind KCertificateSigningRequest)
     (withPredicate (NewPredicateFuncs csrFilterFn) (EnqueueRequestForObject csr_meta))].

Definition crdWatches (cfg : CrdController.ControllerConfig) : list watch :=
  [Watch (targetClient cfg) (RKind KCustomResourceDefinition)
     (withPredicate (fun e => GenerationChangedPredicate (mapEvent crd_meta e)) (ofMeta (RKind KCustomResourceDefinition) (mapCRD cfg)));
   InitialSync (mkObjectKey "" "")].

Definition clusterOperatorWatches (cfg : ClusterOperatorController.ControllerConfig) : list watch :=
  [Watch Management (RKind KClusterOperator)
     (withPredicate (NewPredicateFuncs (fun o => clusterOperatorPredicate (co_meta o)))
        (EnqueueRequestForObject co_meta));
   Watch Management (RKind KKarpenter) (ofMeta (RKind KKarpenter) mapKarpenter);
   Watch Management (RKind KDeployment) (ofMeta (RKind KDeployment) (mapDeployment cfg))].

Definition hcpGroup : string := "hypershift.openshift.io".
Definition autoscalingGroup : string := "autoscaling.openshift.io".

Definition hcpWatches : list watch :=
  let owns r := own Management r hcpGroup "HostedControlPlane"
    (NewPredicateFuncs (fun o => hcp.karpenterFilterPredicate (objectMeta o))) in
  [Watch Management (RKind KHostedControlPlane)
     (withPredicate hcp.hcpOperandReconcilePredicate (EnqueueRequestForObject hcp_meta));
   owns (RKind KDeployment); owns RPodMonitor; owns RServiceAccount].

Definition ocpWatches (cfg : ocp.OCPControllerConfig) : list watch :=
  let owns r := own Management r autoscalingGroup "Karpenter" everyEvent in
  [forObject Management KKarpenter;
   owns (RKind KDeployment); owns RPodMonitor; owns RServiceAccount; owns RRole; owns RRoleBinding;
   Watch Management (RKind KSecret) (ofMeta (RKind KSecret) (ocp.mapSecret cfg));
   Watch Management RClusterRole (ofMeta RClusterRole (ocp.mapClusterRole files cfg));
   Watch Management RClusterRoleBinding (ofMeta RClusterRoleBinding (ocp.mapClusterRoleBinding files cfg))].

Definition watchesOf (c : Controller) : list watch :=
  match c with
  | CrdC cfg => crdWatches cfg
  | DefaultNodeClassC namespace p _ => defaultWatches namespace p
  | NodeClassC (EC2NodeClassReconciler _) => ec2Watches
  | NodeClassC (AzureNodeClassController _) => azureWatches
  | NodeClassC AzureVAPController => azureVapWatches
  | HcpC _ => hcpWatches
  | OcpC cfg => ocpWatches cfg
  | AutoNodeStatusC namespace => autoNodeStatusWatches namespace
  | HcpDeletionC namespace => deletionWatches namespace
  | MachineApproverC => machineApproverWatches
  | ClusterOperatorC cfg => clusterOperatorWatches cfg
  end.

End setup.

(** ** What is read is watched *)

Definition isWatched (ws : list watch) (c : cluster) (r : resource) : bool :=
  existsb (fun w => match w with Watch c' r' _ => bool_decide (c' = c /\ r' = r) | InitialSync _ => false end) ws.

(** The exceptions: the ConfigMap of the subnets, the NodePools and NodeClaims the
    deletion controller polls, and the NodeClaims the approver looks a request's
    node up in. *)
Definition unwatched (c : Controller) : list (cluster * kind) :=
  match c with
  | NodeClassC (EC2NodeClassReconciler _) => [(Management, KConfigMap)]
  | HcpDeletionC _ => [(Hosted, KNodePool); (Hosted, KNodeClaim)]
  | MachineApproverC => [(Hosted, KNodeClaim)]
  | _ => []
  end.

Definition readsWatched (ws : list watch) (except : list (cluster * kind)) (X : Type) (e : eff X) : Prop :=
  match e with
  | EGet c k _ | EList c k _ => isWatched ws c (RKind k) = true \/ (c, k) ∈ except
  | _ => True
  end.

Ltac watched := first [exact I | left; vm_compute; reflexivity | right; set_solver].

(** Walks through a reconcile whose parts are unfolded, and leaves its reads. *)
Ltac walkReads := repeat (first [progress cbv zeta | progress walk]); try watched.

Lemma GetHostedControlPlane_reads ws except namespace :
  isWatched ws Management (RKind KHostedControlPlane) = true ->
  calls (readsWatched ws except) (GetHostedControlPlane Management namespace).
Proof. intros H. apply GetHostedControlPlane_calls. by left. Qed.

Lemma CreateOrUpdate_reads ws except c k (o : obj k) f :
  isWatched ws c (RKind k) = true \/ (c, k) ∈ except ->
  calls (readsWatched ws except) (CreateOrUpdate c k o f).
Proof. intros H. by apply CreateOrUpdate_calls. Qed.

Lemma deleteIfNeeded_reads ws except c k (o : obj k) :
  isWatched ws c (RKind k) = true \/ (c, k) ∈ except ->
  calls (readsWatched ws except) (deleteIfNeeded c k o).
Proof. intros H. unfold deleteIfNeeded. by walkReads. Qed.

Lemma GetUserDataSecret_reads ws except namespace nodeClass :
  isWatched ws Management (RKind KSecret) = true ->
  calls (readsWatched ws except) (GetUserDataSecret Management namespace nodeClass).
Proof. intros H. unfold GetUserDataSecret. walkReads. by left. Qed.

Ltac knownReads := first
  [ apply GetHostedControlPlane_reads | apply GetUserDataSecret_reads
  | apply CreateOrUpdate_reads | apply deleteIfNeeded_reads ]; watched.

Lemma ec2_reads clock namespace req :
  calls (readsWatched ec2Watches [(Management, KConfigMap)]) (Ec2NodeClass.Reconcile clock namespace req).
Proof.
  unfold Ec2NodeClass.Reconcile, Ec2NodeClass.reconcileDeleted, Ec2NodeClass.releaseFinalizer, Ec2NodeClass.reconcileLive,
    Ec2NodeClass.ensureFinalizer, Ec2Subnets.reconcileKarpenterSubnetsConfigMap, Ec2Status.reconcileStatus,
    reconcileVAP.
  repeat first [knownReads | progress walkReads].
Qed.

Lemma azure_reads clock namespace req :
  calls (readsWatched azureWatches []) (AzureNodeClass.Reconcile clock namespace req).
Proof.
  unfold AzureNodeClass.Reconcile, AzureNodeClass.reconcileDelete, AzureNodeClass.releaseFinalizer, AzureNodeClass.reconcileLive,
    AzureNodeClass.ensureFinalizer, AzureNodeClass.reconcileAKSNodeClass, AzureNodeClass.reconcileStatus.
  repeat first [knownReads | progress walkReads].
Qed.

Lemma vap_reads : calls (readsWatched azureVapWatches []) AzureVap.Reconcile.
Proof. unfold AzureVap.Reconcile. repeat first [knownReads | progress walkReads]. Qed.

Lemma default_reads namespace p hosted :
  calls (readsWatched (defaultWatches namespace p) [])
    (@DefaultNodeClass.Reconcile (hnp_Type p) (hnp_Provider p) namespace (Some (hnp_value p)) hosted).
Proof.
  assert (isWatched (defaultWatches namespace p) Hosted
            (RKind (@WatchObject (hnp_Type p) (hnp_Provider p))) = true) as Hw.
  { unfold isWatched, defaultWatches. cbn [existsb]. rewrite (bool_decide_true (Hosted = Hosted /\ _)) by done.
    by rewrite orb_true_r. }
  unfold DefaultNodeClass.Reconcile, DefaultNodeClass.reconcileHCP.
  repeat first [knownReads | left; exact Hw | progress walkReads].
Qed.

Lemma hcp_reads mapper cfg req : calls (readsWatched (hcpWatches mapper) []) (hcp.Reconcile cfg req).
Proof. apply hcp_calls; [by left | done..]. Qed.

Lemma ocp_reads files mapper cfg policy :
  calls (readsWatched (ocpWatches files mapper cfg) []) (ocp.Reconcile files cfg policy).
Proof. apply ocp_calls; [by left | done]. Qed.

Lemma autonode_reads namespace :
  calls (readsWatched (autoNodeStatusWatches namespace) []) (AutoNodeStatus.Reconcile namespace).
Proof.
  unfold AutoNodeStatus.Reconcile, reconcileAutoNodeStatus.
  repeat first [knownReads | progress walkReads].
Qed.

Lemma deletion_reads namespace gvk :
  calls (readsWatched (deletionWatches gvk namespace) [(Hosted, KNodePool); (Hosted, KNodeClaim)])
    (Deletion.Reconcile namespace gvk).
Proof.
  assert (isWatched (deletionWatches gvk namespace) Management (RKind (KPartialObjectMetadata gvk)) = true) as Hw.
  { unfold isWatched, deletionWatches. cbn [existsb].
    rewrite (bool_decide_true (Management = Management /\ RKind (KPartialObjectMetadata gvk) = _)) by done.
    by rewrite !orb_true_r. }
  unfold Deletion.Reconcile, reconcileDeletion, IsClusterDeleting, cleanupKarpenterResources, deleteNodePools,
    deleteNodeClaims, deleteNodePool, deleteNodeClaim, handleForcefulNodeClaimDeletion, annotateTermination.
  repeat first [knownReads | left; exact Hw | progress walkReads].
Qed.

(** A verifier only asks the cloud. *)
Lemma Verify_reads `{NodeIdentity.NodeIdentityVerifier} ws except nodeName nodeClaims :
  calls (readsWatched ws except) (Verify nodeName nodeClaims).
Proof. eapply guarded_calls; [apply (Verify_asksCloud _ _ [])|]. by intros t X []. Qed.

Lemma approver_reads `{NodeIdentity.NodeIdentityVerifier} pemDecode ParseCertificateRequest req :
  calls (readsWatched machineApproverWatches [(Hosted, KNodeClaim)])
    (MachineApprover.Reconcile pemDecode ParseCertificateRequest req).
Proof.
  unfold MachineApprover.Reconcile, authorize, authorizeClientCSR, authorizeServingCSR, approve, listNodeClaims.
  repeat first [knownReads | apply Verify_reads | progress walkReads].
Qed.

Lemma clusteroperator_reads cfg :
  calls (readsWatched (clusterOperatorWatches cfg) []) (ClusterOperatorController.Reconcile cfg).
Proof.
  unfold ClusterOperatorController.Reconcile, conditionsOf, operandConditions, applyStatus.
  repeat first [knownReads | progress walkReads].
Qed.

Lemma crd_reads cfg : calls (readsWatched (crdWatches cfg) []) (CrdController.Reconcile cfg).
Proof.
  apply crd_calls; [|done]. intros key. left. unfold isWatched, crdWatches. cbn [existsb].
  by rewrite bool_decide_true by done.
Qed.

(** C40. What a reconcile reads is what its controller watches: whenever an object
    that any controller read is changed, an event of that kind reaches the
    controller, except for the ConfigMap of the subnets, and for the NodePools and
    NodeClaims of the deletion, which it polls, and of the approver. *)
Theorem reads_are_watched files env clock gvk pemDecode ParseCertificateRequest mapper c req :
  calls (readsWatched (watchesOf files gvk mapper c) (unwatched c))
    (ReconcilerOf files env clock gvk pemDecode ParseCertificateRequest c req).
Proof.
  destruct c as [cfg|namespace p hosted|[namespace|namespace|]|cfg|cfg|namespace|namespace| |cfg];
    cbn [watchesOf unwatched ReconcilerOf].
  - apply crd_reads.
  - apply default_reads.
  - apply ec2_reads.
  - apply azure_reads.
  - apply vap_reads.
  - apply hcp_reads.
  - apply ocp_reads.
  - apply autonode_reads.
  - apply deletion_reads.
  - apply approver_reads.
  - apply clusteroperator_reads.
Qed.

(** ** What is applied is watched *)

(** The kind, name and namespace of an applied object; the PodMonitor's and the
    others' are the operand's. *)
Definition appliedAs (a : applyConfiguration) : option (resource * string * string) :=
  match a with
  | ApplyServiceAccount name ns _ => Some (RServiceAccount, name, ns)
  | ApplyRole name ns _ _ => Some (RRole, name, ns)
  | ApplyRoleBinding name ns _ _ _ => Some (RRoleBinding, name, ns)
  | ApplyClusterRole name _ _ _ => Some (RClusterRole, name, "")
  | ApplyClusterRoleBinding name _ _ _ => Some (RClusterRoleBinding, name, "")
  | ApplyDeployment d => Some (RKind KDeployment, da_Name d, da_Namespace d)
  | ApplyPodMonitor p => Some (RPodMonitor, pma_Name p, pma_Namespace p)
  | ApplyAutoNode _ | ApplyClusterOperator _ _ => None
  end.

(** The object a server holds for it: others may have added owners, but the
    controller is the one that was applied. *)
Definition holds (a : applyConfiguration) (r : resource) (m : ObjectMeta) : Prop :=
  appliedAs a = Some (r, om_Name m, om_Namespace m) /\ GetControllerOf m = head (ownersOf a).

(** Every event about the object leads to a request for [key]. *)
Definition noticed (ws : list watch) (a : applyConfiguration) (key : ObjectKey) : Prop :=
  forall r (e : watchEvent (object r)), holds a r (objectMeta (eventObject e)) ->
    exists h, Watch Management r h ∈ ws /\ all_runs (h e) [] (fun t reqs => t = [] /\ key ∈ reqs).

Lemma addNew_elem reqs new key : key ∈ addNew reqs new <-> key ∈ reqs \/ key ∈ new.
Proof.
  unfold addNew. revert reqs; induction new as [|r new IH]; intros reqs; cbn [foldl].
  - set_solver.
  - rewrite IH. destruct (decide (r ∈ reqs)); set_solver.
Qed.

Lemma eventObject_elem {A} (e : watchEvent A) : exists before, eventObjects e = before ++ [eventObject e].
Proof. destruct e; cbn; [by exists [] | by exists [old] | by exists [] | by exists []]. Qed.

Lemma EnqueueRequestForOwner_enqueues {A} (meta : A -> ObjectMeta) group kind mapper (e : watchEvent A) key :
  getOwnerReconcileRequest group kind mapper (meta (eventObject e)) = [key] ->
  all_runs (EnqueueRequestForOwner meta group kind mapper e) [] (fun t reqs => t = [] /\ key ∈ reqs).
Proof.
  intros H. destruct (eventObject_elem e) as [before E]. unfold EnqueueRequestForOwner. rewrite E, foldl_app.
  cbn [foldl all_runs]. split; [done|]. apply addNew_elem. right. rewrite H. set_solver.
Qed.

Lemma ofMeta_enqueues r f (e : watchEvent (object r)) key :
  f (objectMeta (eventObject e)) = [key] ->
  all_runs (ofMeta r f e) [] (fun t reqs => t = [] /\ key ∈ reqs).
Proof.
  intros H. destruct e as [o|old new|o|o]; cbn [eventObject] in H; unfold ofMeta, EnqueueRequestsFromMapFunc;
    cbn [eventObjects mapAndEnqueue mbind prog_bind all_runs]; rewrite H; (split; [done|]); apply addNew_elem;
    right; set_solver.
Qed.

Lemma getOwnerReconcileRequest_owner group kind version mapper (m : ObjectMeta) ref namespaced :
  GetControllerOf m = Some ref -> or_APIVersion ref = group +:+ "/" +:+ version -> or_Kind ref = kind ->
  ParseGroup (or_APIVersion ref) = Some group -> ParseVersion (or_APIVersion ref) = version ->
  mapper group version = Some namespaced ->
  getOwnerReconcileRequest group kind mapper m =
    [mkObjectKey (if namespaced : bool then om_Namespace m else "") (or_Name ref)].
Proof.
  intros Hc _ Hk Hg Hv Hm. unfold getOwnerReconcileRequest. rewrite Hc, Hg, Hv, Hm.
  by rewrite decide_True.
Qed.

Section noticed.
Context (files : Decoded) (mapper : string -> string -> option bool).
Context (Hhcp : mapper hcpGroup "v1beta1" = Some true) (Hocp : mapper autoscalingGroup "v1alpha1" = Some false).

Lemma hcp_owner_request hcp m :
  GetControllerOf m = Some (hcp.hcpOwnerRef hcp) ->
  getOwnerReconcileRequest hcpGroup "HostedControlPlane" mapper m =
    [mkObjectKey (om_Namespace m) (om_Name (hcp_meta hcp))].
Proof using Hhcp.
  intros H. by apply (getOwnerReconcileRequest_owner _ _ "v1beta1" _ _ (hcp.hcpOwnerRef hcp) true).
Qed.

Lemma ocp_owner_request karp m :
  GetControllerOf m = Some (ocp.ocpOwnerRef karp) ->
  getOwnerReconcileRequest autoscalingGroup "Karpenter" mapper m = [mkObjectKey "" (om_Name (karp_meta karp))].
Proof using Hocp.
  intros H. by apply (getOwnerReconcileRequest_owner _ _ "v1alpha1" _ _ (ocp.ocpOwnerRef karp) false).
Qed.

Lemma hcp_noticed hcp a ns :
  ownersOf a = [hcp.hcpOwnerRef hcp] ->
  (exists r, appliedAs a = Some (r, "karpenter", ns) /\ r ∈ [RKind KDeployment; RPodMonitor; RServiceAccount]) ->
  noticed (hcpWatches mapper) a (mkObjectKey ns (om_Name (hcp_meta hcp))).
Proof using Hhcp.
  clear Hocp. intros Ho (r0 & Ha & Hr) r e [H1 H2]. rewrite Ha in H1. injection H1 as <- Hn Hns. rewrite Ho in H2.
  exists (withPredicate (NewPredicateFuncs (fun o => hcp.karpenterFilterPredicate (objectMeta o)))
            (EnqueueRequestForOwner objectMeta hcpGroup "HostedControlPlane" mapper)).
  split.
  - unfold hcpWatches, own. set_unfold. destruct Hr as [-> | [-> | [-> | []]]]; auto.
  - unfold withPredicate, NewPredicateFuncs, hcp.karpenterFilterPredicate.
    rewrite bool_decide_true by (by rewrite <- Hn).
    apply EnqueueRequestForOwner_enqueues. rewrite (hcp_owner_request hcp) by done. by rewrite <- Hns.
Qed.

Lemma ocp_noticed c karp a :
  om_Name (karp_meta karp) = SingletonName -> ownersOf a = [ocp.ocpOwnerRef karp] ->
  (exists r name ns, appliedAs a = Some (r, name, ns)
     /\ r ∈ [RKind KDeployment; RPodMonitor; RServiceAccount; RRole; RRoleBinding]) ->
  noticed (ocpWatches files mapper c) a ocp.singletonKey.
Proof using Hocp.
  clear Hhcp. intros Hk Ho (r0 & name & ns & Ha & Hr) r e [H1 H2]. rewrite Ha in H1. injection H1 as <- Hn Hns.
  rewrite Ho in H2.
  exists (withPredicate everyEvent (EnqueueRequestForOwner objectMeta autoscalingGroup "Karpenter" mapper)).
  split.
  - unfold ocpWatches, own. set_unfold. destruct Hr as [-> | [-> | [-> | [-> | [-> | []]]]]]; tauto.
  - unfold withPredicate, everyEvent. apply EnqueueRequestForOwner_enqueues.
    rewrite (ocp_owner_request karp) by done. by rewrite Hk.
Qed.

(** C39. What is applied is watched.  Any event about an object that an operand's
    controller applied, while the object has its controller, leads to a request for
    the object it was applied for, whose reconcile applies it again: by the owner
    reference, whose group, version and kind are those the watch looks for, or, for
    what belongs to no namespace, by name.  The REST mapping says that
    HostedControlPlanes are namespaced and that the Karpenter resource is not. *)
Theorem drift_is_noticed :
  (forall c hcp image cfg d a,
     hcp.operandConfigOf c hcp image = Ok cfg -> buildDeployment cfg (hcp.hcpOwnerRef hcp) = Ok d ->
     a ∈ [hcpAccount c hcp; ApplyDeployment d; ApplyPodMonitor (buildPodMonitor cfg (hcp.hcpOwnerRef hcp))] ->
     noticed (hcpWatches mapper) a (mkObjectKey (hcp.Namespace c) (om_Name (hcp_meta hcp))))
  /\ (forall c karp cfg d a,
        buildDeployment cfg (ocp.ocpOwnerRef karp) = Ok d -> om_Name (karp_meta karp) = SingletonName ->
        a ∈ operandObjects files c karp cfg d ->
        noticed (ocpWatches files mapper c) a ocp.singletonKey).
Proof using Hhcp Hocp.
  split.
  - intros c hcp image cfg d a Hcfg Hd Ha.
    assert (namespace cfg = hcp.Namespace c) as Hns.
    { unfold hcp.operandConfigOf in Hcfg. destruct (hcp.tokenMinterContainer _); [|done].
      by injection Hcfg as <-. }
    pose proof (deployment_identity _ _ _ Hd) as [Hn Hdns].
    rewrite !elem_of_cons, elem_of_nil in Ha. destruct Ha as [-> | [-> | [-> | []]]]; apply hcp_noticed; try done.
    + exists RServiceAccount. split; [done | set_solver].
    + by apply (owner_of_deployment cfg).
    + exists (RKind KDeployment). cbn [appliedAs]. rewrite Hn, Hdns, Hns. split; [done | set_solver].
    + exists RPodMonitor. split; [by rewrite <- Hns | set_solver].
  - intros c karp cfg d a Hd Hk Ha.
    pose proof (operandObjects_owned files c karp cfg d (owner_of_deployment _ _ _ Hd)) as Ho.
    rewrite Forall_forall in Ho. specialize (Ho a Ha).
    pose proof (fun m => operandObjects_mapped files c karp cfg d a m Ha) as Hm.
    unfold operandObjects in Ha. repeat (apply elem_of_app in Ha as [Ha|Ha]);
      try (apply list_elem_of_singleton in Ha as ->); try (apply elem_of_map in Ha as (x & -> & _)).
    1,4,5,6,7: apply (ocp_noticed c karp); [done | done|]; eexists _, _, _; split; [reflexivity | set_solver].
    + intros r e [H1 _]. injection H1 as <- Hn _. eexists. split.
      * unfold ocpWatches. do 7 right. left.
      * apply ofMeta_enqueues. by apply Hm.
    + intros r e [H1 _]. injection H1 as <- Hn _. eexists. split.
      * unfold ocpWatches. do 8 right. left.
      * apply ofMeta_enqueues. by apply Hm.
Qed.

End noticed.

(** A mapping that knows the two owners. *)
Definition sampleMapper (group version : string) : option bool :=
  if decide (group = hcpGroup) then Some true
  else if decide (group = autoscalingGroup) then Some false else None.
Definition sampleFiles : Decoded :=
  mkDecoded (fun _ => "") (fun file => mkRole (newMeta "" file) None)
    (fun file => mkRoleBinding (newMeta "" file) (mkRoleRef "" "" "") None).

Lemma drift_is_noticed_witness :
  noticed (hcpWatches sampleMapper) (hcpAccount sampleConfig sampleHCP) (mkObjectKey "clusters-a" "a").
Proof.
  destruct (operandConfigOf_Ok sampleConfig sampleHCP "karpenter:1") as (cfg & Hcfg & Hu & _).
  destruct (buildDeployment_Ok cfg (hcp.hcpOwnerRef sampleHCP)) as [d Hd].
  { intros u E. rewrite Hu in E. injection E as <-. lia. }
  destruct (drift_is_noticed sampleFiles sampleMapper eq_refl eq_refl) as [H _].
  apply (H sampleConfig sampleHCP "karpenter:1" cfg d); [exact Hcfg | exact Hd | left].
Defined.
