(* ===== verification/Operator.v ===== *)
(** * The operator process

    pkg/operator/operator.go and cmd/main.go: from the flags and the environment to
    the controllers the manager runs. *)

From S2P Require Import ClusterOperatorController Options CloudProviders Controllers.
From S2P Require Import Prelude Prog MetaV1 OcpTypes Kube.

(** [Options.ResolveControllerConfig] of options.go; [HostedCluster] is set later. *)
Definition ResolveControllerConfig (o : Options.Options) (infra : InfrastructureInfo)
    (provider : CloudProviders.CloudProvider) (hostedCluster : bool) : Config :=
  mkConfig (Options.Namespace o) (CloudProviders.KarpenterImage provider) (InfraName infra)
    (CloudProviders.ClusterEndpoint infra) (Options.ReleaseVersion o) (Options.ManagementCluster o) provider
    hostedCluster (Options.TokenMinterImage o) (Options.DefaultSecurityContextUID o).

Definition discoverInfrastructureFromEnv (o : Options.Options) : InfrastructureInfo :=
  mkInfrastructureInfo (Platform o) (Options.Region o) (Options.ClusterName o) (Options.ClusterEndpoint o).

Definition isPlatformSupported (managementCluster : bool) (platform : string) : bool :=
  managementCluster || bool_decide (platform = AWSPlatformType).

(** The libraries' part: client-go's and controller-runtime's constructors, and the
    setup of a controller, which registers its watches. *)
Record Runtime := mkRuntime {
  GetConfig : result unit;
  NewClient : result unit;
  AddToScheme : CloudProviders.CloudProvider -> result unit;
  NewManager : result unit;
  BuildConfigFromFlags : string -> result unit;
  NewCluster : result unit;
  AddCluster : result unit;
  SetupWithManager : Controller -> result unit;
  AddHealthzCheck : result unit;
  AddReadyzCheck : result unit;
  Start : list Controller -> result unit }.

Section operator.
Context (files : Decoded) (env : string -> string) (LoadDefaultConfig : string -> result unit).
Context (rt : Runtime).

Definition discoverInfrastructure : go (result InfrastructureInfo) :=
  Ret (map_err (wrapf "creating client for infrastructure discovery") (NewClient rt)) ;;?
  infra ←? wrap_err "getting Infrastructure CR"
    (call (EGet Management KInfrastructure (mkObjectKey "" "cluster")));
  match infra_PlatformStatus infra with
  | None => Ret (Err (ENew "infrastructure status.platformStatus is nil"))
  | Some ps =>
      if decide (infra_InfrastructureName infra = "")
      then Ret (Err (ENew "infrastructure status.infrastructureName is empty"))
      else
        let region := default "" (ps_AWS ps) in
        Ret (Ok (mkInfrastructureInfo (ps_Type ps) region (infra_InfrastructureName infra)
                   (infra_APIServerInternalURL infra)))
  end.

(** [controllers.Setup] *)
Fixpoint Setup (controllers : list Controller) : result unit :=
  match controllers with
  | [] => Ok tt
  | c :: rest =>
      rbind (map_err (wrapf "setting up controller") (SetupWithManager rt c)) (fun _ => Setup rest)
  end.

Definition newManager : result unit := map_err (wrapf "creating manager") (NewManager rt).

(** The controllers the manager is started with, or the error before. *)
Definition runClusterOperatorReporter (o : Options.Options) (platform : string) : result (list Controller) :=
  rbind newManager (fun _ =>
  let reporter := ClusterOperatorC (ClusterOperatorController.mkControllerConfig (Options.Namespace o)
                    (Options.ReleaseVersion o) [] (Some platform)) in
  rbind (Setup [reporter]) (fun _ => Ok [reporter])).

(** The secondary cluster: whether one is configured. *)
Definition newHostedCluster (o : Options.Options) : result bool :=
  if decide (TargetKubeconfig o <> "") then
    if Options.ManagementCluster o then
      rbind (map_err (wrapf ("loading kubeconfig " +:+ Quote (TargetKubeconfig o)))
               (BuildConfigFromFlags rt (TargetKubeconfig o))) (fun _ =>
      rbind (map_err (wrapf "creating hosted cluster") (NewCluster rt)) (fun _ =>
      rbind (map_err (wrapf "adding hosted cluster to manager") (AddCluster rt)) (fun _ => Ok true)))
    else Ok false
  else Ok false.

(** The discovered infrastructure, under the overrides of the environment. *)
Definition overrideInfra (o : Options.Options) (infra : InfrastructureInfo) : InfrastructureInfo :=
  mkInfrastructureInfo (PlatformType infra) (CloudProviders.Region infra)
    (if decide (Options.ClusterName o <> "") then Options.ClusterName o else InfraName infra)
    (if decide (Options.ClusterEndpoint o <> "") then Options.ClusterEndpoint o else CloudProviders.ClusterEndpoint infra).

Definition setupControllers (o : Options.Options) (infra : InfrastructureInfo) : result (list Controller) :=
  if negb (isPlatformSupported (Options.ManagementCluster o) (PlatformType infra))
  then runClusterOperatorReporter o (PlatformType infra)
  else
    rbind (map_err (wrapf "initializing cloud provider") (GetCloudProvider files env LoadDefaultConfig infra))
      (fun provider =>
    rbind (map_err (wrapf "adding cloud provider types to scheme") (AddToScheme rt provider)) (fun _ =>
    rbind newManager (fun _ =>
    rbind (newHostedCluster o) (fun hosted =>
    let cs := NewControllers files (ResolveControllerConfig o infra provider hosted) in
    rbind (Setup cs) (fun _ => Ok cs))))).

(** [Run] up to [startManager]: the controllers the manager is started with. *)
Definition prepare (o : Options.Options) : go (result (list Controller)) :=
  Ret (map_err (wrapf "loading kube config") (GetConfig rt)) ;;?
  infra ←? (if Options.ManagementCluster o then Ret (Ok (discoverInfrastructureFromEnv o))
            else wrap_err "discovering infrastructure" discoverInfrastructure);
  Ret (setupControllers o (overrideInfra o infra)).

Definition startManager (cs : list Controller) : result unit :=
  rbind (map_err (wrapf "setting up health check") (AddHealthzCheck rt)) (fun _ =>
  rbind (map_err (wrapf "setting up ready check") (AddReadyzCheck rt)) (fun _ =>
  map_err (wrapf "starting manager") (Start rt cs))).

Definition Run (o : Options.Options) : go (result unit) :=
  cs ←? prepare o; Ret (startManager cs).

(** [main]: [o] holds the flags. *)
Definition main (o : Options.Options) : go (result unit) :=
  match start env o with
  | Err err => Ret (Err err)
  | Ok o' => Run o'
  end.

(** ** What runs *)

Definition awsHostedNames : list string :=
  ["crd"; "default-nodeclass"; "ec2-nodeclass"; "karpenter"; "autonode-status"; "hcp-deletion";
   "karpenter-machine-approver"].
Definition azureHostedNames : list string :=
  ["crd"; "default-nodeclass"; "azure-nodeclass"; "azure-nodeclass-vap"; "karpenter"; "autonode-status";
   "hcp-deletion"].
Definition standaloneNames : list string := ["crd"; "karpenter"; "clusteroperator"].

Definition reporterOf (o : Options.Options) (platform : string) : Controller :=
  ClusterOperatorC (ClusterOperatorController.mkControllerConfig (Options.Namespace o)
    (Options.ReleaseVersion o) [] (Some platform)).

(** The controllers are those of the operator's configuration, for a provider of the
    platform. *)
Definition configured (o : Options.Options) (infra : InfrastructureInfo) (hosted : bool)
    (cs : list Controller) : Prop :=
  exists p, GetCloudProvider files env LoadDefaultConfig infra = Ok p
    /\ cs = NewControllers files (ResolveControllerConfig o infra p hosted).

(** What an operator with the options runs, and the calls it made before. *)
Definition started (o : Options.Options) (t : trace eff) (cs : list Controller) : Prop :=
  if Options.ManagementCluster o then
    t = [] /\ configured o (overrideInfra o (discoverInfrastructureFromEnv o)) true cs
    /\ (Platform o = AWSPlatformType /\ map Name cs = awsHostedNames
        \/ Platform o = AzurePlatformType /\ map Name cs = azureHostedNames)
  else exists (infra : Infrastructure) ps,
    t = [Ev (EGet Management KInfrastructure (mkObjectKey "" "cluster")) (Ok infra : result (obj KInfrastructure))]
    /\ infra_PlatformStatus infra = Some ps
    /\ if decide (ps_Type ps = AWSPlatformType) then
         configured o (overrideInfra o (mkInfrastructureInfo (ps_Type ps) (default "" (ps_AWS ps))
           (infra_InfrastructureName infra) (infra_APIServerInternalURL infra))) false cs
         /\ map Name cs = standaloneNames
       else cs = [reporterOf o (ps_Type ps)].

Lemma Setup_Ok cs x : Setup cs = Ok x -> Forall (fun c => SetupWithManager rt c = Ok tt) cs.
Proof.
  induction cs as [|c cs IH]; [constructor|]. cbn [Setup].
  destruct (SetupWithManager rt c) as [[]|] eqn:E; [|done]. cbn. intros H. constructor; auto.
Qed.

(** A provider is one of the two, for its platform. *)
Lemma GetCloudProvider_cases infra p :
  GetCloudProvider files env LoadDefaultConfig infra = Ok p ->
  (PlatformType infra = AWSPlatformType /\ exists x, p = aws.cloudProvider files x)
  \/ (PlatformType infra = AzurePlatformType /\ exists x, p = azure.cloudProvider files x).
Proof.
  unfold GetCloudProvider. case_decide as A; [|case_decide as B; [|done]].
  - destruct (aws.New _ _ _) as [x|]; [|done]. intros [= <-]. left. split; [done | by exists x].
  - destruct (azure.New _ _) as [x|]; [|done]. intros [= <-]. right. split; [done | by exists x].
Qed.

Lemma setupControllers_Ok o infra cs :
  setupControllers o infra = Ok cs ->
  if isPlatformSupported (Options.ManagementCluster o) (PlatformType infra)
  then exists hosted, newHostedCluster o = Ok hosted /\ configured o infra hosted cs
  else cs = [reporterOf o (PlatformType infra)].
Proof.
  unfold setupControllers, runClusterOperatorReporter, configured. destruct (isPlatformSupported _ _); cbn [negb].
  - destruct (GetCloudProvider _ _ _ _) as [p|]; [|done]. cbn [map_err rbind].
    destruct (AddToScheme rt p); [|done]. cbn [map_err rbind]. destruct newManager; [|done]. cbn [rbind].
    destruct (newHostedCluster o) as [hosted|]; [|done]. cbn [rbind].
    destruct (Setup _); [|done]. intros [= <-]. exists hosted. split; [done | by exists p].
  - destruct newManager; [|done]. cbn [rbind]. destruct (Setup _); [|done]. by intros [= <-].
Qed.

Lemma newHostedCluster_mode o hosted :
  newHostedCluster o = Ok hosted ->
  hosted = Options.ManagementCluster o && negb (bool_decide (TargetKubeconfig o = "")).
Proof.
  unfold newHostedCluster. case_decide as K; [|intros [= <-]; rewrite K].
  - rewrite bool_decide_false by done. destruct (Options.ManagementCluster o); [|by intros [= <-]].
    destruct (BuildConfigFromFlags rt _); [|done]. destruct (NewCluster rt); [|done].
    destruct (AddCluster rt); [|done]. by intros [= <-].
  - by rewrite andb_false_r.
Qed.

(** The names of what is configured. *)
Lemma configured_names o infra hosted cs :
  configured o infra hosted cs ->
  let platform := PlatformType infra in
  if Options.ManagementCluster o && hosted then
    (platform = AWSPlatformType /\ map Name cs = awsHostedNames)
    \/ (platform = AzurePlatformType /\ map Name cs = azureHostedNames)
  else if Options.ManagementCluster o then True else map Name cs = standaloneNames.
Proof.
  intros (p & Hp & ->). cbv zeta.
  destruct (GetCloudProvider_cases _ _ Hp) as [[P (x & ->)]|[P (x & ->)]];
    unfold NewControllers, newHCPNodeClassProvider, newMachineApproverController;
    destruct (Options.ManagementCluster o) eqn:M, hosted; cbn [andb]; try done;
    unfold ResolveControllerConfig; cbn [ManagementCluster HostedCluster]; rewrite M; auto.
Qed.

Lemma prepare_started o :
  usable o -> all_runs (prepare o) [] (fun t r => forall cs, r = Ok cs -> started o t cs).
Proof.
  intros (_ & Hm & _). unfold prepare, started. destruct (GetConfig rt); [|done]. cbn [map_err].
  destruct (Options.ManagementCluster o) eqn:M.
  - cbn. intros cs Hcs%setupControllers_Ok. rewrite M in Hcs. cbn in Hcs.
    destruct Hcs as (hosted & ->%newHostedCluster_mode & Hc). rewrite M in Hc.
    specialize (Hm eq_refl). rewrite Forall_cons in Hm. destruct Hm as [Hk _].
    rewrite bool_decide_false in Hc by done. cbn [negb andb] in Hc.
    split; [done|]. split; [done|]. pose proof (configured_names _ _ _ _ Hc) as Hn.
    cbv zeta in Hn. by rewrite M in Hn.
  - unfold discoverInfrastructure. destruct (NewClient rt); [|done]. intros [infra|e]; cbn; [|done].
    destruct (infra_PlatformStatus infra) as [ps|] eqn:Ps; [|done]. case_decide as N; [done|]. cbn.
    intros cs Hcs%setupControllers_Ok. exists infra, ps. split; [done|]. split; [done|].
    unfold isPlatformSupported in Hcs. rewrite M in Hcs. cbn [orb overrideInfra PlatformType] in Hcs.
    destruct (decide (ps_Type ps = AWSPlatformType)) as [A|A].
    + rewrite bool_decide_true in Hcs by done. destruct Hcs as (hosted & ->%newHostedCluster_mode & Hc).
      rewrite M in Hc. split; [done|]. pose proof (configured_names _ _ _ _ Hc) as Hn. by rewrite M in Hn.
    + by rewrite bool_decide_false in Hcs by done.
Qed.

(** The controllers that are started have distinct names. *)
Lemma started_distinct o t cs : started o t cs -> NoDup (map Name cs).
Proof.
  unfold started. destruct (Options.ManagementCluster o).
  - intros (_ & _ & [[_ ->]|[_ ->]]); by apply (bool_decide_unpack _).
  - intros (infra & ps & _ & _ & H). case_decide; [destruct H as [_ ->]; by apply (bool_decide_unpack _)|].
    subst. by apply (bool_decide_unpack _).
Qed.

(** [main] up to [startManager]. *)
Definition boot (o : Options.Options) : go (result (list Controller)) :=
  match start env o with
  | Err err => Ret (Err err)
  | Ok o' => prepare o'
  end.

Lemma boot_starts o :
  all_runs (boot o) [] (fun t r => forall cs, r = Ok cs -> exists o',
    fromEnv env o o' /\ usable o' /\ started o' t cs).
Proof.
  unfold boot. destruct (start env o) as [o'|] eqn:S; [|done].
  unfold start in S. destruct (LoadEnv env o) as [o1|] eqn:L; [|done]. cbn [rbind] in S.
  destruct (Validate o1) as [[]|] eqn:V; [|done]. injection S as ->.
  apply LoadEnv_spec in L. apply Validate_spec in V.
  eapply all_runs_mono; [by apply prepare_started|]. intros t r Hs cs Hr.
  exists o'. split; [done|]. split; [done|]. by apply Hs.
Qed.

(** C22. What a process runs.  [main] makes the controllers and starts the manager
    with them, or fails before; when it gets that far, the flags and the environment
    were usable, and the manager runs exactly the controllers of the mode and the
    platform, under distinct names, which controller-runtime requires: beside a
    hosted cluster those of AWS or Azure, with no cluster read before; on a
    standalone cluster, after one read of the Infrastructure, the three of AWS, and
    on any other platform only the ClusterOperator reporter for that platform. *)
Theorem main_runs o :
  main o = (cs ←? boot o; Ret (startManager cs))
  /\ all_runs (boot o) [] (fun t r => forall cs, r = Ok cs -> exists o',
       fromEnv env o o' /\ usable o' /\ started o' t cs /\ NoDup (map Name cs)).
Proof.
  split.
  - unfold main, boot. by destruct (start env o).
  - eapply all_runs_mono; [apply boot_starts|]. intros t r H cs Hr.
    destruct (H cs Hr) as (o' & He & Hu & Hs). exists o'. do 3 (split; [done|]).
    by eapply started_distinct.
Qed.

(** C23. What a process may touch, whatever any cluster or cloud answers to any
    reconcile of any controller it runs.  On a standalone cluster no controller ever
    uses the hosted cluster's client, which does not exist, and they write only CRDs,
    what they apply as the field manager and the ClusterOperator's status.  On a
    management cluster all they write there are locked patches of
    HostedControlPlanes, their AutoNode status, the ConfigMap of the subnets, and the
    operand's ServiceAccount, Deployment and PodMonitor in the operator's
    namespace. *)
Theorem main_confined o :
  all_runs (boot o) [] (fun t r => forall cs c, r = Ok cs -> c ∈ cs -> exists o',
    fromEnv env o o' /\
    forall clock gvk pemDecode ParseCertificateRequest req,
      calls (if Options.ManagementCluster o' then besideHosted (Options.Namespace o') else atHome)
        (ReconcilerOf files env clock gvk pemDecode ParseCertificateRequest c req)).
Proof.
  eapply all_runs_mono; [apply boot_starts|]. intros t r H cs c Hr Hc.
  destruct (H cs Hr) as (o' & He & _ & Hs). exists o'. split; [done|].
  intros clock gvk pemDecode ParseCertificateRequest req. unfold started in Hs.
  destruct (Options.ManagementCluster o') eqn:M.
  - destruct Hs as (_ & (p & _ & ->) & _).
    refine (NewControllers_confined files env clock gvk pemDecode ParseCertificateRequest
              (ResolveControllerConfig o' _ p true) c req _ Hc). done.
  - destruct Hs as (infra & ps & _ & _ & Hs). case_decide.
    + destruct Hs as ((p & _ & ->) & _).
      refine (NewControllers_confined files env clock gvk pemDecode ParseCertificateRequest
                (ResolveControllerConfig o' _ p false) c req _ Hc). done.
    + subst cs. apply list_elem_of_singleton in Hc as ->. by apply clusteroperator_calls.
Qed.

End operator.
