(* ===== verification/Scheme.v ===== *)
(** * The scheme

    The Go types that the process's clients and caches know: [init] of
    pkg/operator/operator.go, register.go of src/api, the [AddToScheme]s of the cloud
    providers, and apimachinery's [Scheme] under them.  A client refuses an object or a
    list of a type that its scheme does not have. *)

From S2P Require Import CrdController ClusterOperatorController Deletion AutoNodeStatus MachineApprover Ec2NodeClass Ec2Subnets AzureNodeClass AzureVap.
From S2P Require Import Prelude Prog MetaV1 CoreTypes HyperTypes OcpTypes ApplyTypes Kube KubeLemmas Hypershift NodeIdentity AwsIdentity DefaultNodeClass CloudProviders Operand OperandControllers Controllers Watches Options Operator Ec2Status Ec2Guard.

(** ** runtime.Scheme *)

(** A struct type, by its import path and name. *)
Record goType := mkGoType { PkgPath : string; TypeName : string }.
#[export] Instance goType_eq_dec : EqDecision goType.
Proof. solve_decision. Defined.

Record GroupVersion := mkGroupVersion { Group : string; Version : string }.

(** [gvkToType] and [typeToGVK], in the order of registration. *)
Definition scheme := list (GVK * goType).

Definition AddKnownTypeWithName (s : scheme) (gvk : GVK) (t : goType) : result scheme :=
  if decide (gvk_Version gvk = "") then Err (EPanic ("version is required on all types: " +:+ TypeName t))
  else match List.find (fun r => bool_decide (r.1 = gvk)) s with
       | Some (_, oldT) =>
           if decide (oldT = t) then Ok s
           else Err (EPanic ("Double registration of different types for " +:+ gvk_Kind gvk))
       | None => Ok (s ++ [(gvk, t)])
       end.

(** The types of a package, by their names. *)
Fixpoint AddKnownTypes (gv : GroupVersion) (pkg : string) (types : list string) (s : scheme) : result scheme :=
  match types with
  | [] => Ok s
  | name :: types' =>
      rbind (AddKnownTypeWithName s (mkGVK (Group gv) (Version gv) name) (mkGoType pkg name)) (AddKnownTypes gv pkg types')
  end.

Definition ObjectKinds (s : scheme) (t : goType) : list GVK :=
  fst <$> filter (fun r => r.2 = t) s.

(** [apiutil.GVKForObject], for an object that does not carry its kind. *)
Definition GVKForObject (s : scheme) (t : goType) : result GVK :=
  match ObjectKinds s t with
  | [] => Err (ENew ("no kind is registered for the type " +:+ TypeName t))
  | [gvk] => Ok gvk
  | _ => Err (ENew ("multiple group-version-kinds associated with type " +:+ TypeName t))
  end.

(** ** Types *)

Definition admissionregistrationv1 : string := "k8s.io/api/admissionregistration/v1".
Definition appsv1 : string := "k8s.io/api/apps/v1".
Definition certificatesv1 : string := "k8s.io/api/certificates/v1".
Definition corev1 : string := "k8s.io/api/core/v1".
Definition rbacv1 : string := "k8s.io/api/rbac/v1".
Definition configv1 : string := "github.com/openshift/api/config/v1".
Definition apiextensionsv1 : string := "k8s.io/apiextensions-apiserver/pkg/apis/apiextensions/v1".
Definition autoscalingv1alpha1 : string := "github.com/openshift/karpenter-operator/pkg/apis/autoscaling/v1alpha1".
Definition openshiftkarpenterv1 : string := "github.com/openshift/karpenter-operator/api/karpenter/v1".
Definition openshiftkarpenterv1alpha1 : string := "github.com/openshift/karpenter-operator/api/karpenter/v1alpha1".
Definition hyperv1beta1 : string := "github.com/openshift/hypershift/api/hypershift/v1beta1".
Definition monitoringv1 : string := "github.com/prometheus-operator/prometheus-operator/pkg/apis/monitoring/v1".
Definition karpenterv1 : string := "sigs.k8s.io/karpenter/pkg/apis/v1".
Definition awskarpenterv1 : string := "github.com/aws/karpenter-provider-aws/pkg/apis/v1".
Definition azurekarpenterv1beta1 : string := "github.com/Azure/karpenter-provider-azure/pkg/apis/v1beta1".

(** The struct of a kind; PartialObjectMetadata carries its kind. *)
Definition typeOf (k : kind) : option goType :=
  match k with
  | KHostedControlPlane => Some (mkGoType hyperv1beta1 "HostedControlPlane")
  | KSecret => Some (mkGoType corev1 "Secret")
  | KConfigMap => Some (mkGoType corev1 "ConfigMap")
  | KNode => Some (mkGoType corev1 "Node")
  | KPod => Some (mkGoType corev1 "Pod")
  | KNodePool => Some (mkGoType karpenterv1 "NodePool")
  | KNodeClaim => Some (mkGoType karpenterv1 "NodeClaim")
  | KCertificateSigningRequest => Some (mkGoType certificatesv1 "CertificateSigningRequest")
  | KEC2NodeClass => Some (mkGoType awskarpenterv1 "EC2NodeClass")
  | KOpenshiftEC2NodeClass => Some (mkGoType openshiftkarpenterv1 "OpenshiftEC2NodeClass")
  | KAKSNodeClass => Some (mkGoType azurekarpenterv1beta1 "AKSNodeClass")
  | KOpenShiftAzureNodeClass => Some (mkGoType openshiftkarpenterv1alpha1 "OpenShiftAzureNodeClass")
  | KValidatingAdmissionPolicy => Some (mkGoType admissionregistrationv1 "ValidatingAdmissionPolicy")
  | KValidatingAdmissionPolicyBinding => Some (mkGoType admissionregistrationv1 "ValidatingAdmissionPolicyBinding")
  | KCustomResourceDefinition => Some (mkGoType apiextensionsv1 "CustomResourceDefinition")
  | KKarpenter => Some (mkGoType autoscalingv1alpha1 "Karpenter")
  | KDeployment => Some (mkGoType appsv1 "Deployment")
  | KClusterOperator => Some (mkGoType configv1 "ClusterOperator")
  | KInfrastructure => Some (mkGoType configv1 "Infrastructure")
  | KPartialObjectMetadata _ => None
  end.

Definition typeOfResource (r : resource) : option goType :=
  match r with
  | RKind k => typeOf k
  | RServiceAccount => Some (mkGoType corev1 "ServiceAccount")
  | RPodMonitor => Some (mkGoType monitoringv1 "PodMonitor")
  | RRole => Some (mkGoType rbacv1 "Role")
  | RRoleBinding => Some (mkGoType rbacv1 "RoleBinding")
  | RClusterRole => Some (mkGoType rbacv1 "ClusterRole")
  | RClusterRoleBinding => Some (mkGoType rbacv1 "ClusterRoleBinding")
  end.

(** ** Registration

    Of the vendored packages, the types of [typeOf] and their lists. *)

Definition withLists (types : list string) : list string := concat (map (fun t => [t; t +:+ "List"]) types).

(** client-go's scheme *)
Definition clientgoschemeAddToScheme (s : scheme) : result scheme :=
  rbind (AddKnownTypes (mkGroupVersion "admissionregistration.k8s.io" "v1") admissionregistrationv1
    (withLists ["ValidatingAdmissionPolicy"; "ValidatingAdmissionPolicyBinding"]) s) (fun s =>
  rbind (AddKnownTypes (mkGroupVersion "apps" "v1") appsv1 (withLists ["Deployment"]) s) (fun s =>
  rbind (AddKnownTypes (mkGroupVersion "certificates.k8s.io" "v1") certificatesv1 (withLists ["CertificateSigningRequest"]) s) (fun s =>
  rbind (AddKnownTypes (mkGroupVersion "" "v1") corev1 (withLists ["Pod"; "Node"; "Secret"; "ServiceAccount"; "ConfigMap"]) s) (fun s =>
  AddKnownTypes (mkGroupVersion "rbac.authorization.k8s.io" "v1") rbacv1
    (withLists ["Role"; "RoleBinding"; "ClusterRole"; "ClusterRoleBinding"]) s)))).

Definition configv1Install : scheme -> result scheme :=
  AddKnownTypes (mkGroupVersion "config.openshift.io" "v1") configv1 (withLists ["ClusterOperator"; "Infrastructure"; "Node"]).
Definition apiextensionsv1AddToScheme : scheme -> result scheme :=
  AddKnownTypes (mkGroupVersion "apiextensions.k8s.io" "v1") apiextensionsv1 (withLists ["CustomResourceDefinition"]).
Definition hyperv1beta1AddToScheme : scheme -> result scheme :=
  AddKnownTypes (mkGroupVersion "hypershift.openshift.io" "v1beta1") hyperv1beta1 (withLists ["HostedControlPlane"]).
Definition monitoringv1AddToScheme : scheme -> result scheme :=
  AddKnownTypes (mkGroupVersion "monitoring.coreos.com" "v1") monitoringv1 (withLists ["PodMonitor"]).

(** The operator's own packages. *)
Definition autoscalingv1alpha1AddToScheme : scheme -> result scheme :=
  AddKnownTypes (mkGroupVersion "autoscaling.openshift.io" "v1alpha1") autoscalingv1alpha1 ["Karpenter"; "KarpenterList"].
Definition openshiftkarpenterv1AddToScheme : scheme -> result scheme :=
  AddKnownTypes (mkGroupVersion "karpenter.hypershift.openshift.io" "v1") openshiftkarpenterv1
    ["OpenshiftEC2NodeClass"; "OpenshiftEC2NodeClassList"].
Definition openshiftkarpenterv1alpha1AddToScheme : scheme -> result scheme :=
  AddKnownTypes (mkGroupVersion "karpenter.hypershift.openshift.io" "v1alpha1") openshiftkarpenterv1alpha1
    ["OpenShiftAzureNodeClass"; "OpenShiftAzureNodeClassList"].

(** [init] of operator.go *)
Definition init : result scheme :=
  rbind (clientgoschemeAddToScheme []) (fun s =>
  rbind (configv1Install s) (fun s =>
  rbind (apiextensionsv1AddToScheme s) (fun s =>
  rbind (autoscalingv1alpha1AddToScheme s) (fun s =>
  rbind (openshiftkarpenterv1AddToScheme s) (fun s =>
  rbind (openshiftkarpenterv1alpha1AddToScheme s) (fun s =>
  rbind (hyperv1beta1AddToScheme s) (fun s =>
  rbind (monitoringv1AddToScheme s) (fun s =>
  AddKnownTypes (mkGroupVersion "karpenter.sh" "v1") karpenterv1
    ["NodePool"; "NodePoolList"; "NodeClaim"; "NodeClaimList"] s)))))))).

(** [AddToScheme] of the providers. *)
Definition awsAddToScheme : scheme -> result scheme :=
  AddKnownTypes (mkGroupVersion "karpenter.k8s.aws" "v1") awskarpenterv1 ["EC2NodeClass"; "EC2NodeClassList"].
Definition azureAddToScheme : scheme -> result scheme :=
  AddKnownTypes (mkGroupVersion "karpenter.azure.com" "v1beta1") azurekarpenterv1beta1 ["AKSNodeClass"; "AKSNodeClassList"].

(** The scheme of the manager: what [setupControllers] adds for the platform. *)
Definition managerScheme (managementCluster : bool) (platform : string) : result scheme :=
  rbind init (fun s =>
  if negb (isPlatformSupported managementCluster platform) then Ok s
  else if decide (platform = AWSPlatformType) then awsAddToScheme s
  else if decide (platform = AzurePlatformType) then azureAddToScheme s
  else Ok s).

(** ** What the clients recognize *)

Definition recognizes (s : scheme) (t : option goType) : Prop :=
  match t with
  | Some t => exists gvk, GVKForObject s t = Ok gvk
  | None => True
  end.
Definition listOf (t : goType) : goType := mkGoType (PkgPath t) (TypeName t +:+ "List").

(** A call whose object or list has a type in the scheme; apply configurations and
    PartialObjectMetadata carry their kinds, and the clientset that approves has a
    scheme of its own. *)
Definition typed (s : scheme) (X : Type) (e : eff X) : Prop :=
  match e with
  | EGet _ k _ | ECreate _ k _ | EUpdate _ k _ | EPatch _ k _ _ _ | EStatusPatch _ k _ _ _ | EDelete _ k _ _ =>
      recognizes s (typeOf k)
  | EList _ k _ => recognizes s (listOf <$> typeOf k)
  | _ => True
  end.

Definition typedWatch (s : scheme) (w : watch) : Prop :=
  match w with
  | Watch _ r _ => recognizes s (typeOfResource r)
  | InitialSync _ => True
  end.

(** ** Each controller *)

Section reconcilers.
Context (s : scheme).

(** The kinds of the provider that a controller uses; the others are in every
    scheme. *)
Definition providerKind (k : kind) : Prop := k = KEC2NodeClass \/ k = KAKSNodeClass.
Context (Hobject : forall k, ~ providerKind k -> recognizes s (typeOf k)).
Context (Hlist : forall k, ~ providerKind k -> recognizes s (listOf <$> typeOf k)).

Ltac isTyped := cbv beta iota delta [typed]; first [exact I | assumption | apply Hobject; intros [?|?]; discriminate | apply Hlist; intros [?|?]; discriminate].

Lemma GetHostedControlPlane_typed namespace : calls (typed s) (GetHostedControlPlane Management namespace).
Proof using Hlist. apply GetHostedControlPlane_calls. isTyped. Qed.

Lemma CreateOrUpdate_typed c k (o : obj k) f : recognizes s (typeOf k) -> calls (typed s) (CreateOrUpdate c k o f).
Proof using. intros H. by apply CreateOrUpdate_calls. Qed.

Lemma deleteIfNeeded_typed c k (o : obj k) : recognizes s (typeOf k) -> calls (typed s) (deleteIfNeeded c k o).
Proof using. intros H. unfold deleteIfNeeded. by repeat (first [progress cbv zeta | progress walk]). Qed.

Ltac known := first [apply GetHostedControlPlane_typed | apply CreateOrUpdate_typed; isTyped | apply deleteIfNeeded_typed; isTyped].
Ltac typedCalls := repeat first [known | isTyped | progress cbv zeta | progress walk].

Lemma ec2_typed clock namespace req :
  recognizes s (typeOf KEC2NodeClass) -> calls (typed s) (Ec2NodeClass.Reconcile clock namespace req).
Proof using Hobject Hlist.
  intros H. unfold Ec2NodeClass.Reconcile, Ec2NodeClass.reconcileDeleted, Ec2NodeClass.releaseFinalizer,
    Ec2NodeClass.reconcileLive, Ec2NodeClass.ensureFinalizer, reconcileKarpenterSubnetsConfigMap, Ec2Status.reconcileStatus,
    reconcileVAP, GetUserDataSecret.
  typedCalls.
Qed.

Lemma azure_typed clock namespace req :
  recognizes s (typeOf KAKSNodeClass) -> calls (typed s) (AzureNodeClass.Reconcile clock namespace req).
Proof using Hobject Hlist.
  intros H. unfold AzureNodeClass.Reconcile, AzureNodeClass.reconcileDelete, AzureNodeClass.releaseFinalizer,
    AzureNodeClass.reconcileLive, AzureNodeClass.ensureFinalizer, AzureNodeClass.reconcileAKSNodeClass,
    AzureNodeClass.reconcileStatus, GetUserDataSecret.
  typedCalls.
Qed.

Lemma vap_typed : calls (typed s) AzureVap.Reconcile.
Proof using Hobject Hlist. unfold AzureVap.Reconcile. typedCalls. Qed.

Lemma default_typed {P} `{NodeClassProvider P} namespace (p : option P) hosted :
  recognizes s (typeOf WatchObject) -> calls (typed s) (DefaultNodeClass.Reconcile namespace p hosted).
Proof using Hobject Hlist.
  intros Hw. unfold DefaultNodeClass.Reconcile, DefaultNodeClass.reconcileHCP. typedCalls.
Qed.

Lemma autonode_typed namespace : calls (typed s) (AutoNodeStatus.Reconcile namespace).
Proof using Hobject Hlist. unfold AutoNodeStatus.Reconcile, reconcileAutoNodeStatus. typedCalls. Qed.

Lemma deletion_typed namespace gvk : calls (typed s) (Deletion.Reconcile namespace gvk).
Proof using Hobject Hlist.
  unfold Deletion.Reconcile, reconcileDeletion, IsClusterDeleting, cleanupKarpenterResources, deleteNodePools,
    deleteNodeClaims, deleteNodePool, deleteNodeClaim, handleForcefulNodeClaimDeletion, annotateTermination.
  typedCalls.
Qed.

Lemma approver_typed `{NodeIdentity.NodeIdentityVerifier} pemDecode ParseCertificateRequest req :
  calls (typed s) (MachineApprover.Reconcile pemDecode ParseCertificateRequest req).
Proof using Hobject Hlist.
  unfold MachineApprover.Reconcile, authorize, authorizeClientCSR, authorizeServingCSR, approve, listNodeClaims.
  assert (Hv : forall n l, calls (typed s) (Verify n l)).
  { intros n l. eapply guarded_calls; [apply (Verify_asksCloud _ _ [])|]. by intros t X []. }
  repeat first [apply Hv | known | isTyped | progress cbv zeta | progress walk].
Qed.

Lemma clusteroperator_typed cfg : calls (typed s) (ClusterOperatorController.Reconcile cfg).
Proof using Hobject Hlist.
  unfold ClusterOperatorController.Reconcile, conditionsOf, operandConditions, applyStatus. typedCalls.
Qed.

Lemma crd_typed cfg : calls (typed s) (CrdController.Reconcile cfg).
Proof using Hobject. apply crd_calls; intros; [|split]; isTyped. Qed.

Lemma hcp_typed cfg req : calls (typed s) (hcp.Reconcile cfg req).
Proof using Hobject. apply hcp_calls; intros; isTyped. Qed.

Lemma ocp_typed files cfg policy : calls (typed s) (ocp.Reconcile files cfg policy).
Proof using Hobject. apply ocp_calls; intros; isTyped. Qed.

End reconcilers.

(** ** The scheme of a process *)

(** The provider's kind that a controller needs. *)
Definition providerKindOf (c : Controller) : option kind :=
  match c with
  | NodeClassC (EC2NodeClassReconciler _) => Some KEC2NodeClass
  | NodeClassC (AzureNodeClassController _) => Some KAKSNodeClass
  | DefaultNodeClassC _ p _ => Some (@WatchObject (hnp_Type p) (hnp_Provider p))
  | _ => None
  end.

(** What the process of a controller needs the scheme for. *)
Definition covers (files : Decoded) (env : string -> string) (s : scheme) (c : Controller) : Prop :=
  (forall clock gvk pemDecode ParseCertificateRequest req,
     calls (typed s) (ReconcilerOf files env clock gvk pemDecode ParseCertificateRequest c req))
  /\ (forall gvk mapper, Forall (typedWatch s) (watchesOf files gvk mapper c)).

Lemma covers_controller files env s c :
  (forall k, ~ providerKind k -> recognizes s (typeOf k)) ->
  (forall k, ~ providerKind k -> recognizes s (listOf <$> typeOf k)) ->
  (forall r, r ∈ [RServiceAccount; RPodMonitor; RRole; RRoleBinding; RClusterRole; RClusterRoleBinding] ->
     recognizes s (typeOfResource r)) ->
  (forall k, providerKindOf c = Some k -> recognizes s (typeOf k)) ->
  covers files env s c.
Proof.
  intros Hk Hl Hr Hp. split.
  - intros clock gvk pemDecode ParseCertificateRequest req.
    destruct c as [cfg|namespace p hosted|[namespace|namespace|]|cfg|cfg|namespace|namespace| |cfg]; cbn [ReconcilerOf].
    + by apply crd_typed.
    + apply default_typed; [done..|]. by apply Hp.
    + apply ec2_typed; [done..|]. by apply Hp.
    + apply azure_typed; [done..|]. by apply Hp.
    + by apply vap_typed.
    + by apply hcp_typed.
    + by apply ocp_typed.
    + by apply autonode_typed.
    + by apply deletion_typed.
    + by apply approver_typed.
    + by apply clusteroperator_typed.
  - intros gvk mapper.
    destruct c as [cfg|namespace p hosted|[namespace|namespace|]|cfg|cfg|namespace|namespace| |cfg]; cbn [watchesOf];
      repeat (apply Forall_cons; split); try apply Forall_nil; cbn [typedWatch own forObject secretWatch typeOfResource];
      try done; first [by apply Hp | apply Hk; by intros [?|?] | apply (Hr RServiceAccount); set_solver
        | apply (Hr RPodMonitor); set_solver | apply (Hr RRole); set_solver | apply (Hr RRoleBinding); set_solver
        | apply (Hr RClusterRole); set_solver | apply (Hr RClusterRoleBinding); set_solver].
Qed.

(** What each scheme has. *)
Definition complete (s : scheme) : Prop :=
  (forall k, ~ providerKind k -> recognizes s (typeOf k))
  /\ (forall k, ~ providerKind k -> recognizes s (listOf <$> typeOf k))
  /\ (forall r, r ∈ [RServiceAccount; RPodMonitor; RRole; RRoleBinding; RClusterRole; RClusterRoleBinding] ->
        recognizes s (typeOfResource r)).

Ltac registered := first [exact I | vm_compute; eexists; reflexivity].

Ltac completeness := split_and!;
  [ intros []; intros Hk; try registered; exfalso; apply Hk; (by left) || (by right)
  | intros []; intros Hk; try registered; exfalso; apply Hk; (by left) || (by right)
  | intros r Hr; repeat (apply elem_of_cons in Hr as [->|Hr]; [registered|]); by apply elem_of_nil in Hr ].

Lemma init_complete : exists s, init = Ok s /\ complete s.
Proof. eexists. split; [vm_compute; reflexivity|]. completeness. Qed.

Lemma aws_complete :
  exists s, rbind init awsAddToScheme = Ok s /\ complete s /\ recognizes s (typeOf KEC2NodeClass).
Proof. eexists. split; [vm_compute; reflexivity|]. split; [completeness | registered]. Qed.

Lemma azure_complete :
  exists s, rbind init azureAddToScheme = Ok s /\ complete s /\ recognizes s (typeOf KAKSNodeClass).
Proof. eexists. split; [vm_compute; reflexivity|]. split; [completeness | registered]. Qed.

Lemma managerScheme_complete m platform :
  exists s, managerScheme m platform = Ok s /\ complete s
    /\ (platform = AWSPlatformType -> recognizes s (typeOf KEC2NodeClass))
    /\ (m = true -> platform = AzurePlatformType -> recognizes s (typeOf KAKSNodeClass)).
Proof.
  destruct init_complete as (s0 & I & C0). destruct aws_complete as (s1 & I1 & C1 & A1).
  destruct azure_complete as (s2 & I2 & C2 & A2). rewrite I in I1, I2. cbn [rbind] in I1, I2.
  unfold managerScheme, isPlatformSupported. rewrite I. cbn [rbind].
  destruct (decide (platform = AWSPlatformType)) as [->|NA].
  - exists s1. rewrite bool_decide_true, orb_true_r by done. cbn [negb].
    split; [exact I1|]. split; [exact C1|]. split; [intros _; exact A1 | by intros _].
  - rewrite bool_decide_false, orb_false_r by done. destruct m; cbn [negb].
    + case_decide as A; [exists s2 | exists s0].
      * split; [exact I2|]. split; [exact C2|]. split; [intros E; by destruct (NA E) | intros _ _; exact A2].
      * split; [reflexivity|]. split; [exact C0|]. split; [intros E; by destruct (NA E) | intros _ E; by destruct (A E)].
    + exists s0. split; [reflexivity|]. split; [exact C0|]. split; [intros E; by destruct (NA E) | intros [=]].
Qed.

(** The platform that a process with the options finds, after the calls [t]. *)
Definition platformFound (o : Options.Options) (t : trace eff) (platform : string) : Prop :=
  if Options.ManagementCluster o then platform = Platform o
  else exists (infra : Infrastructure) ps,
    t = [Ev (EGet Management KInfrastructure (mkObjectKey "" "cluster")) (Ok infra : result (obj KInfrastructure))]
    /\ infra_PlatformStatus infra = Some ps /\ platform = ps_Type ps.

Section process.
Context (files : Decoded) (env : string -> string) (LoadDefaultConfig : string -> result unit) (rt : Runtime).

(** The provider's kind is that of the platform, and only a management cluster's
    process has Azure's controllers. *)
Lemma configured_kinds o infra hosted cs c k :
  configured files env LoadDefaultConfig o infra hosted cs -> c ∈ cs -> providerKindOf c = Some k ->
  ~ providerKind k \/ (PlatformType infra = AWSPlatformType /\ k = KEC2NodeClass)
  \/ (Options.ManagementCluster o = true /\ PlatformType infra = AzurePlatformType /\ k = KAKSNodeClass).
Proof.
  intros (p & Hp & ->) Hc Hk.
  destruct (GetCloudProvider_cases _ _ _ _ _ Hp) as [[P (x & ->)]|[P (x & ->)]];
    unfold NewControllers, newHCPNodeClassProvider, newMachineApproverController, ResolveControllerConfig in Hc;
    cbn [ManagementCluster HostedCluster] in Hc; destruct (Options.ManagementCluster o) eqn:M, hosted;
    cbn in Hc; repeat (apply elem_of_cons in Hc as [->|Hc]); try (by apply elem_of_nil in Hc);
    cbn in Hk; try done; injection Hk as <-; first [left; by intros [?|?] | right; tauto].
Qed.

Lemma started_covers o t cs c :
  started files env LoadDefaultConfig o t cs -> c ∈ cs ->
  exists platform s, platformFound o t platform /\ managerScheme (Options.ManagementCluster o) platform = Ok s
    /\ covers files env s c.
Proof.
  unfold started, platformFound. intros Hs Hc.
  assert (K : forall platform infra hosted, configured files env LoadDefaultConfig o infra hosted cs -> PlatformType infra = platform ->
    exists s, managerScheme (Options.ManagementCluster o) platform = Ok s /\ covers files env s c).
  { intros platform infra hosted Cf P.
    destruct (managerScheme_complete (Options.ManagementCluster o) platform) as (s & E & (C1 & C2 & C3) & A1 & A2).
    exists s. split; [done|]. apply covers_controller; [done..|]. intros k Hk.
    destruct (configured_kinds o infra hosted cs c k Cf Hc Hk) as [N|[[Q ->]|(M & Q & ->)]];
      [by apply C1 | apply A1; congruence | apply A2; congruence]. }
  destruct (Options.ManagementCluster o) eqn:M.
  - destruct Hs as (_ & Cf & _). destruct (K (Platform o) _ _ Cf eq_refl) as (s & E & C).
    exists (Platform o), s. split; [reflexivity|]. split; [exact E | exact C].
  - destruct Hs as (infra & ps & Ht & Hp & Hs). case_decide as A.
    + destruct Hs as [Cf _]. destruct (K (ps_Type ps) _ _ Cf eq_refl) as (s & E & C). exists (ps_Type ps), s.
      split; [exists infra, ps; split; [exact Ht | split; [exact Hp | reflexivity]]|]. split; [exact E | exact C].
    + subst cs. apply list_elem_of_singleton in Hc as ->.
      destruct (managerScheme_complete false (ps_Type ps)) as (s & E & (C1 & C2 & C3) & _). exists (ps_Type ps), s.
      split; [exists infra, ps; split; [exact Ht | split; [exact Hp | reflexivity]]|]. split; [exact E|]. apply covers_controller; [exact C1 | exact C2 | exact C3 | done].
Qed.

(** C24. The scheme that [init] and the cloud provider fill, without a panic over a
    double registration, has every type that the process needs: the Infrastructure
    that is read before, every object and list that any reconcile of any controller it
    runs reads or writes, whatever the clusters answer, and everything these
    controllers watch, each with exactly one group, version and kind. *)
Theorem scheme_covers o :
  (exists s, init = Ok s /\ calls (typed s) (boot files env LoadDefaultConfig rt o))
  /\ all_runs (boot files env LoadDefaultConfig rt o) [] (fun t r => forall cs c, r = Ok cs -> c ∈ cs ->
       exists o' platform s, fromEnv env o o' /\ platformFound o' t platform
         /\ managerScheme (Options.ManagementCluster o') platform = Ok s /\ covers files env s c).
Proof.
  split.
  - destruct init_complete as (s & I & C & _). exists s. split; [done|]. unfold boot, prepare, discoverInfrastructure.
    repeat first [progress cbv zeta | progress walk]. apply (C KInfrastructure). by intros [?|?].
  - eapply all_runs_mono; [apply boot_starts|]. intros t r H cs c Hr Hc.
    destruct (H cs Hr) as (o' & He & _ & Hs). destruct (started_covers o' t cs c Hs Hc) as (platform & s & ?).
    by exists o', platform, s.
Qed.

End process.
