(* ===== verification/Metrics.v ===== *)
(** * The operator's info metric

    pkg/controllers/metrics.go: the image of the running operator is polled until
    the kubelet reports it, and registered as a label of a metric, with a bounded
    number of attempts; and [wait.ExponentialBackoffWithContext] of
    k8s.io/apimachinery. *)

From S2P Require Import Prelude Prog MetaV1 OcpTypes Kube.

Definition OperatorContainerName : string := "karpenter-operator".
Definition OperatorInfoMetricName : string := "karpenter_operator_info".
Definition Millisecond : Z := 1000000.

(** The calls: the API server; a [select] on the context's end and a timer, or on
    the context's end alone, which answers the context's error when it has ended;
    and the registration of the metric. *)
Inductive metricEff : Type -> Type :=
| MGetPod (key : ObjectKey) : metricEff (result Pod)
| MSelect (after : Z) : metricEff (option error)
| MDone : metricEff (option error)
| MRegister (image : string) : metricEff (result unit).

Abbreviation mgo := (prog metricEff).

(** The loop of [operatorImage] over the container statuses. *)
Definition reportedImage (pod : Pod) : string :=
  match List.find (fun status => bool_decide (cst_Name status = OperatorContainerName)
                                 && negb (bool_decide (cst_Image status = "")))
          (elems (pod_ContainerStatuses pod)) with
  | Some status => cst_Image status
  | None => ""
  end.

Definition operatorImage (namespace podName : string) : mgo (result string) :=
  pod ←? wrap_err "get operator pod" (call (MGetPod (mkObjectKey namespace podName)));
  Ret (Ok (reportedImage pod)).

Definition imageTimeout : Z := 15 * Second.
Definition imageInterval : Z := 500 * Millisecond.

(** The loop, for at most [fuel] turns; [None] when they are used up.  The context
    ends after [imageTimeout], so 31 turns are enough ([waitForOperatorImage_returns]). *)
Fixpoint waitForOperatorImage (fuel : nat) (namespace podName : string) : mgo (option (result string)) :=
  match fuel with
  | O => Ret None
  | S fuel' =>
      got ← operatorImage namespace podName;
      let again :=
        ended ← call (MSelect imageInterval);
        match ended with
        | Some ctxErr =>
            Ret (Some (Err (wrapf ("operator pod " +:+ namespace +:+ "/" +:+ podName
                                     +:+ " container status unavailable") ctxErr)))
        | None => waitForOperatorImage fuel' namespace podName
        end in
      match got with
      | Err err => if IsNotFound err then again else Ret (Some (Err err))
      | Ok image => if decide (image <> "") then Ret (Some (Ok image)) else again
      end
  end.

Section setup.
Context (podName : string).  (** [os.Getenv("POD_NAME")] *)

Definition setupOperatorInfoMetric (fuel : nat) (namespace : string) : mgo (option (result unit)) :=
  if decide (podName = "") then Ret (Some (Err (ENew "POD_NAME is not set")))
  else
    got ← waitForOperatorImage fuel namespace podName;
    match got with
    | None => Ret None
    | Some (Err err) => Ret (Some (Err (wrapf "read operator image" err)))
    | Some (Ok image) => registered ← call (MRegister image); Ret (Some registered)
    end.

(** [wait.Backoff] with a factor, and no cap or jitter. *)
Record Backoff := mkBackoff { bo_Duration : Z; bo_Factor : Z; bo_Steps : nat }.

Definition ErrWaitTimeout : error := ENew "timed out waiting for the condition".

(** [wait.ExponentialBackoffWithContext]: the steps are those left. *)
Fixpoint ExponentialBackoff (steps : nat) (duration factor : Z) (condition : mgo (option (result bool))) :
    mgo (option (result unit)) :=
  match steps with
  | O => Ret (Some (Err ErrWaitTimeout))
  | S rest =>
      cancelled ← call MDone;
      match cancelled with
      | Some ctxErr => Ret (Some (Err ctxErr))
      | None =>
          tried ← condition;
          match tried with
          | None => Ret None
          | Some (Err err) => Ret (Some (Err err))
          | Some (Ok true) => Ret (Some (Ok tt))
          | Some (Ok false) =>
              if decide (rest = 0) then Ret (Some (Err ErrWaitTimeout))
              else
                ended ← call (MSelect duration);
                match ended with
                | Some ctxErr => Ret (Some (Err ctxErr))
                | None => ExponentialBackoff rest (duration * factor)%Z factor condition
                end
          end
      end
  end.

Definition operatorInfoBackoff : Backoff := mkBackoff Second 2 5.

(** [setupOperatorInfoMetricWithRetry], with the error it logs. *)
Definition setupOperatorInfoMetricWithRetry (fuel : nat) (namespace : string) : mgo (option (result unit)) :=
  let b := operatorInfoBackoff in
  ExponentialBackoff (bo_Steps b) (bo_Duration b) (bo_Factor b)
    (tried ← setupOperatorInfoMetric fuel namespace;
     match tried with
     | None => Ret None
     | Some (Err _) => Ret (Some (Ok false))
     | Some (Ok _) => Ret (Some (Ok true))
     end).

End setup.

(** ** Time *)

(** The timers of a history that expired, in order. *)
Definition expired (ev : event metricEff) : list Z :=
  match ev_call ev in metricEff X return X -> list Z with
  | MSelect after => fun ended => match ended with None => [after] | Some _ => [] end
  | _ => fun _ => []
  end (ev_answer ev).

Definition waits (t : trace metricEff) : list Z := flat_map expired t.
Definition elapsed (t : trace metricEff) : Z := foldr Z.add 0%Z (waits t).

Lemma waits_app t t' : waits (t ++ t') = waits t ++ waits t'.
Proof. apply flat_map_app. Qed.

Lemma elapsed_app t t' : elapsed (t ++ t') = (elapsed t + elapsed t')%Z.
Proof.
  unfold elapsed. rewrite waits_app. induction (waits t) as [|d l IH]; cbn; [done|]. rewrite IH. lia.
Qed.

(** ** The image *)

(** A container of the operator is reported with the image. *)
Definition reports (pod : Pod) (image : string) : Prop :=
  image <> "" /\ exists status, status ∈ elems (pod_ContainerStatuses pod)
    /\ cst_Name status = OperatorContainerName /\ cst_Image status = image.

Lemma reportedImage_spec pod :
  let image := reportedImage pod in
  (image <> "" /\ reports pod image) \/ (image = "" /\ forall i, ~ reports pod i).
Proof.
  cbv zeta. unfold reportedImage, reports. destruct (List.find _ _) as [s|] eqn:F.
  - apply find_some in F as [Hin [Hn Hi]%andb_prop]. apply bool_decide_eq_true in Hn.
    apply negb_true_iff, bool_decide_eq_false in Hi. left. split; [done|]. split; [done|].
    exists s. split; [by apply list_elem_of_In | done].
  - right. split; [done|]. intros i (Hi & s & Hin & Hn & <-).
    apply list_elem_of_In in Hin. pose proof (find_none _ _ F s Hin) as H. cbn in H.
    rewrite bool_decide_true in H by done. by rewrite bool_decide_false in H by done.
Qed.

(** What the last call of a poll that returns was answered. *)
Definition verdict (key : ObjectKey) (v : result string) (t : trace metricEff) : Prop :=
  match v with
  | Ok image => exists t1 pod, t = t1 ++ [Ev (MGetPod key) (Ok pod)] /\ reports pod image
  | Err err =>
      (exists t1 e, t = t1 ++ [Ev (MGetPod key) (Err e)] /\ IsNotFound e = false
         /\ err = wrapf "get operator pod" e)
      \/ exists t1 ctxErr, t = t1 ++ [Ev (MSelect imageInterval) (Some ctxErr)]
  end.

Lemma verdict_app key v t t' : verdict key v t' -> verdict key v (t ++ t').
Proof.
  destruct v as [image|err].
  - intros (t1 & pod & -> & H). exists (t ++ t1), pod. by rewrite app_assoc.
  - intros [(t1 & e & -> & H)|(t1 & e & ->)]; [left|right]; exists (t ++ t1), e; by rewrite app_assoc.
Qed.

Section poll.
Context (namespace podName : string).
Let key := mkObjectKey namespace podName.

(** A poll returns a verdict, or has slept for every turn of its fuel. *)
Definition polled (fuel : nat) (r : option (result string)) (t1 : trace metricEff) : Prop :=
  match r with
  | Some v => verdict key v t1
  | None => elapsed t1 = (Z.of_nat fuel * imageInterval)%Z
  end.

Lemma polled_again fuel r t1 got :
  polled fuel r t1 ->
  polled (S fuel) r ([Ev (MGetPod key) got; Ev (MSelect imageInterval) None] ++ t1).
Proof.
  destruct r as [v|]; cbn [polled]; [apply verdict_app|].
  intros H. rewrite elapsed_app, H. unfold elapsed; cbn. lia.
Qed.

Lemma waitForOperatorImage_runs fuel t :
  all_runs (waitForOperatorImage fuel namespace podName) t (fun t' r =>
    exists t1, t' = t ++ t1 /\ polled fuel r t1).
Proof.
  revert t; induction fuel as [|fuel IH]; intros t; cbn [waitForOperatorImage].
  { exists []. by rewrite app_nil_r. }
  assert (Hagain : forall t got,
    all_runs (ended ← call (MSelect imageInterval);
        match ended with
        | Some ctxErr =>
            Ret (Some (Err (wrapf ("operator pod " +:+ namespace +:+ "/" +:+ podName
                                     +:+ " container status unavailable") ctxErr)))
        | None => waitForOperatorImage fuel namespace podName
        end) (t ++ [Ev (MGetPod key) got]) (fun t' r => exists t1, t' = t ++ t1 /\ polled (S fuel) r t1)).
  { clear t. intros t got [ctxErr|]; cbn [mbind prog_bind].
    - eexists. split; [by rewrite <- app_assoc|]. right. by exists [Ev (MGetPod key) got], ctxErr.
    - eapply all_runs_mono; [apply IH|]. intros t' r (t1 & -> & H).
      eexists. split; [by rewrite <- !app_assoc|]. by apply (polled_again _ _ _ got). }
  unfold operatorImage, wrap_err, try_bind. intros [pod|e]; cbn [mbind prog_bind map_err call].
  - destruct (reportedImage_spec pod) as [[Hne Hr]|[He _]].
    + destruct (decide (reportedImage pod <> "")); [|done].
      cbn [all_runs]. exists [Ev (MGetPod key) (Ok pod)]. split; [done|]. by exists [], pod.
    + destruct (decide (reportedImage pod <> "")); [done|]. apply Hagain.
  - unfold wrapf at 1. rewrite IsNotFound_wrap. destruct (IsNotFound e) eqn:N; [apply Hagain|].
    cbn [all_runs]. exists [Ev (MGetPod key) (Err e)]. split; [done|]. left. by exists [], e.
Qed.

(** C35. The poll for the operator's image ends.  The context it makes ends after
    15 seconds; in any run whose timers expired within that time, the loop returns
    within 31 turns, with an image that a container of the operator is reported with
    in the last answer, or with the error that answer or the context gave. *)
Theorem waitForOperatorImage_returns :
  all_runs (waitForOperatorImage 31 namespace podName) [] (fun t r =>
    (elapsed t <= imageTimeout)%Z -> exists v, r = Some v /\ verdict key v t).
Proof.
  eapply all_runs_mono; [apply waitForOperatorImage_runs|]. intros t r (t1 & -> & H) Ht.
  destruct r as [v|]; [by exists v|]. cbn [polled] in H. change (elapsed t1 <= imageTimeout)%Z in Ht. rewrite H in Ht.
  unfold imageInterval, imageTimeout, Millisecond, Second in Ht. lia.
Qed.

End poll.

(** ** The attempts *)

Section attempts.
Context (namespace podName : string).
Let key := mkObjectKey namespace podName.

Definition isAttempt (ev : event metricEff) : bool :=
  match ev_call ev with MDone => true | _ => false end.
Definition isRegistration (ev : event metricEff) : bool :=
  match ev_call ev in metricEff X return X -> bool with
  | MRegister _ => fun answer => match answer with Ok _ => true | Err _ => false end
  | _ => fun _ => false
  end (ev_answer ev).

(** The attempts of a history: the backoff looks at the context before each; and
    whether the metric was registered. *)
Definition attempts (t : trace metricEff) : nat := length (List.filter isAttempt t).
Definition registered (t : trace metricEff) : bool := existsb isRegistration t.

(** Nothing is done after the metric is registered; at most five attempts are made;
    and the image that is registered is reported by the last answer. *)
Definition metricGuard (t : trace metricEff) (X : Type) (e : metricEff X) : Prop :=
  registered t = false /\
  match e with
  | MDone => attempts t < 5
  | MRegister image => podName <> "" /\ exists t1 pod, t = t1 ++ [Ev (MGetPod key) (Ok pod)] /\ reports pod image
  | MGetPod k => k = key /\ podName <> ""
  | MSelect _ => True
  end.

Lemma registered_app t t' : registered (t ++ t') = registered t || registered t'.
Proof. apply existsb_app. Qed.

Lemma attempts_app t t' : attempts (t ++ t') = attempts t + attempts t'.
Proof. unfold attempts. by rewrite List.filter_app, length_app. Qed.

(** The calls of a poll. *)
Definition polls (X : Type) (e : metricEff X) : Prop :=
  match e with MGetPod k => k = key | MSelect _ => True | _ => False end.

Lemma polls_quiet t : Forall (fun ev => polls (ev_type ev) (ev_call ev)) t ->
  registered t = false /\ attempts t = 0.
Proof.
  unfold registered, attempts. induction 1 as [|[X e x] t He _ [IH1 IH2]]; [done|]. by destruct e.
Qed.

Lemma wait_polls fuel : calls polls (waitForOperatorImage fuel namespace podName).
Proof.
  induction fuel as [|fuel IH]; [done|]. cbn [waitForOperatorImage]. apply calls_bind.
  - apply calls_try; [by apply calls_wrap, calls_call | done].
  - intros [image|err]; cbv zeta; [case_decide | destruct (IsNotFound err)]; try done;
      (apply calls_bind; [by apply calls_call | by intros [|]]).
Qed.

Lemma polls_guarded {A} (p : mgo A) t :
  podName <> "" -> registered t = false -> calls polls p -> guarded metricGuard t p.
Proof.
  intros Hn. revert t; induction p as [a|X e k IH]; intros t Hr; cbn; [done|]. intros [He Hk]. split.
  - split; [done|]. by destruct e.
  - intros x. apply IH; [|done]. rewrite registered_app, Hr. by destruct e.
Qed.

Lemma wait_runs fuel t :
  all_runs (waitForOperatorImage fuel namespace podName) t (fun t' r => exists t1, t' = t ++ t1
    /\ polled namespace podName fuel r t1 /\ registered t1 = false /\ attempts t1 = 0).
Proof.
  eapply all_runs_mono.
  - apply all_runs_and; [apply waitForOperatorImage_runs | apply calls_runs, wait_polls].
  - intros t' r [(t1 & -> & Hp) (t2 & E & Hq)]. apply app_inv_head in E as <-.
    exists t1. split; [done|]. split; [done|]. by apply polls_quiet.
Qed.

Lemma setup_guarded fuel t :
  registered t = false -> guarded metricGuard t (setupOperatorInfoMetric podName fuel namespace).
Proof.
  intros Hr. unfold setupOperatorInfoMetric. case_decide as Hn; [done|].
  apply guarded_bind; [by apply polls_guarded, wait_polls|].
  eapply all_runs_mono; [apply wait_runs|]. intros t' r (t1 & -> & Hp & Hq & _).
  destruct r as [[image|e]|]; [|done|done]. destruct Hp as (t2 & pod & -> & Hp).
  split; [|by intros x]. split; [by rewrite registered_app, Hr, Hq|]. split; [done|].
  exists (t ++ t2), pod. by rewrite app_assoc.
Qed.

Lemma setup_runs fuel t :
  all_runs (setupOperatorInfoMetric podName fuel namespace) t (fun t' r => exists t1, t' = t ++ t1
    /\ attempts t1 = 0 /\ registered t1 = match r with Some (Ok _) => true | _ => false end).
Proof.
  unfold setupOperatorInfoMetric. case_decide as Hn; [by exists []; rewrite app_nil_r|].
  apply all_runs_bind. eapply all_runs_mono; [apply wait_runs|].
  intros t' r (t1 & -> & Hp & Hq & Ha). destruct r as [[image|e]|]; [|by exists t1|by exists t1].
  intros x. cbn. exists (t1 ++ [Ev (MRegister image) x]). rewrite app_assoc, attempts_app, registered_app, Ha, Hq.
  destruct x as [[]|]; done.
Qed.

Lemma backoff_guarded steps duration factor fuel t :
  steps + attempts t <= 5 -> registered t = false ->
  guarded metricGuard t (ExponentialBackoff steps duration factor
    (tried ← setupOperatorInfoMetric podName fuel namespace;
     match tried with
     | None => Ret None
     | Some (Err _) => Ret (Some (Ok false))
     | Some (Ok _) => Ret (Some (Ok true))
     end)).
Proof.
  revert duration t; induction steps as [|steps IH]; intros duration t Ha Hr; [done|].
  cbn [ExponentialBackoff]. split; [split; [done | lia]|]. intros [ctxErr|]; cbn [mbind prog_bind]; [done|].
  set (t0 := t ++ _).
  assert (H0 : registered t0 = false /\ S (steps + attempts t0) <= 6).
  { unfold t0. rewrite registered_app, attempts_app, Hr. cbn. split; [done | lia]. }
  clearbody t0. destruct H0 as [Hr0 Ha0].
  apply guarded_bind.
  { apply guarded_bind; [by apply setup_guarded|].
    eapply all_runs_mono; [apply all_runs_suffix|]. by intros t' [[|]|]. }
  apply all_runs_bind. eapply all_runs_mono; [apply setup_runs|].
  intros t' r (t1 & -> & Ht1 & Hq). destruct r as [[u|e]|]; cbn [all_runs]; [done| |done].
  case_decide; [done|]. split; [split; [by rewrite registered_app, Hr0, Hq | done]|].
  intros [ctxErr|]; cbn [mbind prog_bind]; [done|]. apply IH.
  - rewrite !attempts_app, Ht1. cbn. lia.
  - rewrite !registered_app, Hr0, Hq. done.
Qed.

(** The setup of the metric.  It makes at most five attempts; it only reads the
    operator's own pod, and not without its name; it registers only an image that
    the last answer reports for a container of the operator; it does nothing after
    the metric is registered, so the metric is registered at most once; and it ends
    without an error exactly when the metric is registered. *)
Theorem metric_registered_once fuel :
  guarded metricGuard [] (setupOperatorInfoMetricWithRetry podName fuel namespace)
  /\ all_runs (setupOperatorInfoMetricWithRetry podName fuel namespace) [] (fun t r =>
       r = Some (Ok tt) <-> registered t = true).
Proof.
  split; [by apply backoff_guarded|].
  unfold setupOperatorInfoMetricWithRetry. cbv zeta. generalize (bo_Steps operatorInfoBackoff) as steps.
  generalize (bo_Duration operatorInfoBackoff) as duration. generalize (bo_Factor operatorInfoBackoff) as factor.
  intros factor duration steps.
  enough (forall t, registered t = false -> all_runs (ExponentialBackoff steps duration factor
    (tried ← setupOperatorInfoMetric podName fuel namespace;
     match tried with
     | None => Ret None
     | Some (Err _) => Ret (Some (Ok false))
     | Some (Ok _) => Ret (Some (Ok true))
     end)) t (fun t r => r = Some (Ok tt) <-> registered t = true)) as H by by apply H.
  revert duration; induction steps as [|steps IH]; intros duration t Hr; cbn [ExponentialBackoff all_runs]; [by rewrite Hr|].
  intros [ctxErr|]; cbn [mbind prog_bind all_runs]; [by rewrite registered_app, Hr|].
  apply all_runs_bind, all_runs_bind. eapply all_runs_mono; [apply setup_runs|].
  intros t' r (t1 & -> & _ & Hq). destruct r as [[u|e]|]; cbn [all_runs].
  - rewrite !registered_app, Hq. by rewrite !orb_true_r.
  - case_decide; cbn [all_runs]; [by rewrite !registered_app, Hr, Hq|].
    intros [ctxErr|]; cbn [mbind prog_bind all_runs]; [by rewrite !registered_app, Hr, Hq|].
    apply IH. by rewrite !registered_app, Hr, Hq.
  - by rewrite !registered_app, Hr, Hq.
Qed.

End attempts.
