(* ===== verification/MemTypes.v ===== *)
(** * The API types in memory

    Go's objects as they lie in memory: a map, a slice and a pointer are
    references.  Each record here has the fields of the record of the same name in
    MetaV1, KarpenterV1, AzureTypes and OcpTypes, whose fields hold the values. *)

From S2P Require Import Prelude MetaV1 KarpenterV1 AzureTypes OcpTypes.

Abbreviation loc := positive (only parsing).

(** A pointer, nil or to a value of type [A]. *)
Record ptr (A : Type) := Ptr { addr : option loc }.
Arguments Ptr {A} addr.
Arguments addr {A} p.
Abbreviation nilptr := (Ptr None).

(** A map of strings to strings. *)
Record mapref := MapRef { table : option loc }.

(** A slice: where its array is, if it has one, its length and its capacity.  The
    slices of the operator start where their arrays do. *)
Record sliceref (A : Type) := SliceRef { array : option loc; len : nat; cap : nat }.
Arguments SliceRef {A} array len cap.
Arguments array {A} s.
Arguments len {A} s.
Arguments cap {A} s.
Abbreviation nilslice := (SliceRef None 0 0).

(** ** k8s.io/apimachinery/pkg/apis/meta/v1 *)

Module metam.

Record OwnerReference := mkOwnerReference {
  APIVersion : string; Kind : string; Name : string; UID : string;
  Controller : ptr bool; BlockOwnerDeletion : ptr bool }.

Record ObjectMeta := mkObjectMeta {
  om_Name : string;
  om_Namespace : string;
  om_UID : string;
  om_ResourceVersion : string;
  om_Generation : Z;
  om_DeletionTimestamp : ptr Time;
  om_Labels : mapref;
  om_Annotations : mapref;
  om_OwnerReferences : sliceref OwnerReference;
  om_Finalizers : sliceref string }.

Record ListMeta := mkListMeta {
  lm_ResourceVersion : string; lm_Continue : string; lm_RemainingItemCount : ptr Z }.

Definition om_set_Finalizers (f : sliceref string) (m : ObjectMeta) : ObjectMeta :=
  mkObjectMeta (om_Name m) (om_Namespace m) (om_UID m) (om_ResourceVersion m) (om_Generation m) (om_DeletionTimestamp m)
    (om_Labels m) (om_Annotations m) (om_OwnerReferences m) f.

End metam.

(** ** api/karpenter/v1 *)

Module osv1m.

Record SubnetSelectorTerm := mkSubnetSelectorTerm { sst_Tags : mapref; sst_ID : string }.
Record SecurityGroupSelectorTerm := mkSecurityGroupSelectorTerm {
  sgst_Tags : mapref; sgst_ID : string; sgst_Name : string }.
Record CapacityReservationSelectorTerm := mkCapacityReservationSelectorTerm {
  crst_Tags : mapref; crst_ID : string; crst_OwnerID : string; crst_InstanceMatchCriteria : string }.

Record BlockDevice := mkBlockDevice {
  bd_DeleteOnTermination : string;
  bd_Encrypted : string;
  bd_IOPS : ptr Z;
  bd_KMSKeyID : string;
  bd_SnapshotID : string;
  bd_Throughput : ptr Z;
  bd_VolumeSizeGiB : Z;
  bd_VolumeType : string }.
Record BlockDeviceMapping := mkBlockDeviceMapping {
  bdm_DeviceName : string; bdm_EBS : BlockDevice; bdm_RootVolume : string }.

(** [kc_Overflow] is [Overflow.Raw]. *)
Record KubeletConfiguration := mkKubelet {
  kc_MaxPods : Z;
  kc_PodsPerCore : Z;
  kc_SystemReserved : mapref;
  kc_KubeReserved : mapref;
  kc_EvictionHard : mapref;
  kc_EvictionSoft : mapref;
  kc_EvictionSoftGracePeriod : mapref;
  kc_EvictionMaxPodGracePeriod : ptr Z;
  kc_ImageGCHighThresholdPercent : ptr Z;
  kc_ImageGCLowThresholdPercent : ptr Z;
  kc_CPUCFSQuota : ptr bool;
  kc_Overflow : sliceref ascii }.

Record OpenshiftEC2NodeClassSpec := mkSpec {
  SubnetSelectorTerms : sliceref SubnetSelectorTerm;
  SecurityGroupSelectorTerms : sliceref SecurityGroupSelectorTerm;
  CapacityReservationSelectorTerms : sliceref CapacityReservationSelectorTerm;
  IPAddressAssociation : string;
  Tags : mapref;
  BlockDeviceMappings : sliceref BlockDeviceMapping;
  InstanceStorePolicy : string;
  Monitoring : string;
  MetadataOptionsField : osv1.MetadataOptions;
  Version : string;
  Kubelet : KubeletConfiguration }.

Record OpenshiftEC2NodeClassStatus := mkStatus {
  Conditions : sliceref Condition;
  Subnets : sliceref osv1.Subnet;
  SecurityGroups : sliceref osv1.SecurityGroup;
  ReleaseImage : string;
  StatusVersion : string;
  CapacityReservations : sliceref osv1.CapacityReservation }.

Record OpenshiftEC2NodeClass := mkOpenshiftEC2NodeClass {
  meta : metam.ObjectMeta;
  Spec : OpenshiftEC2NodeClassSpec;
  Status : OpenshiftEC2NodeClassStatus }.

Record OpenshiftEC2NodeClassList := mkList {
  list_meta : metam.ListMeta;
  Items : sliceref OpenshiftEC2NodeClass }.

Definition set_meta (m : metam.ObjectMeta) (c : OpenshiftEC2NodeClass) : OpenshiftEC2NodeClass :=
  mkOpenshiftEC2NodeClass m (Spec c) (Status c).
Definition set_Status (s : OpenshiftEC2NodeClassStatus) (c : OpenshiftEC2NodeClass) : OpenshiftEC2NodeClass :=
  mkOpenshiftEC2NodeClass (meta c) (Spec c) s.
Definition set_Conditions (x : sliceref Condition) (s : OpenshiftEC2NodeClassStatus) : OpenshiftEC2NodeClassStatus :=
  mkStatus x (Subnets s) (SecurityGroups s) (ReleaseImage s) (StatusVersion s) (CapacityReservations s).
Definition set_Subnets (x : sliceref osv1.Subnet) (s : OpenshiftEC2NodeClassStatus) : OpenshiftEC2NodeClassStatus :=
  mkStatus (Conditions s) x (SecurityGroups s) (ReleaseImage s) (StatusVersion s) (CapacityReservations s).
Definition set_SecurityGroups (x : sliceref osv1.SecurityGroup) (s : OpenshiftEC2NodeClassStatus) :
    OpenshiftEC2NodeClassStatus :=
  mkStatus (Conditions s) (Subnets s) x (ReleaseImage s) (StatusVersion s) (CapacityReservations s).
Definition set_CapacityReservations (x : sliceref osv1.CapacityReservation) (s : OpenshiftEC2NodeClassStatus) :
    OpenshiftEC2NodeClassStatus :=
  mkStatus (Conditions s) (Subnets s) (SecurityGroups s) (ReleaseImage s) (StatusVersion s) x.

End osv1m.

(** ** api/karpenter/v1alpha1 *)

Module osv1alpha1m.

Record OpenShiftAzureNodeClassSpec := mkSpec {
  VNETSubnetID : string;
  OSDiskSizeGiB : Z;
  Tags : mapref;
  Kubelet : osv1m.KubeletConfiguration;
  SecurityField : osv1alpha1.AzureSecurity;
  Version : string }.

Record OpenShiftAzureNodeClassStatus := mkStatus {
  Conditions : sliceref Condition;
  ReleaseImage : string;
  StatusVersion : string }.

Record OpenShiftAzureNodeClass := mkOpenShiftAzureNodeClass {
  meta : metam.ObjectMeta;
  Spec : OpenShiftAzureNodeClassSpec;
  Status : OpenShiftAzureNodeClassStatus }.

Record OpenShiftAzureNodeClassList := mkList {
  list_meta : metam.ListMeta;
  Items : sliceref OpenShiftAzureNodeClass }.

Definition set_meta (m : metam.ObjectMeta) (c : OpenShiftAzureNodeClass) : OpenShiftAzureNodeClass :=
  mkOpenShiftAzureNodeClass m (Spec c) (Status c).
Definition set_Status (s : OpenShiftAzureNodeClassStatus) (c : OpenShiftAzureNodeClass) : OpenShiftAzureNodeClass :=
  mkOpenShiftAzureNodeClass (meta c) (Spec c) s.
Definition set_Conditions (x : sliceref Condition) (s : OpenShiftAzureNodeClassStatus) : OpenShiftAzureNodeClassStatus :=
  mkStatus x (ReleaseImage s) (StatusVersion s).

End osv1alpha1m.

(** ** pkg/apis/autoscaling/v1alpha1 *)

Module autoscalingm.

Record KarpenterStatus := mkStatus { Conditions : sliceref Condition }.
Record Karpenter := mkKarpenter { meta : metam.ObjectMeta; Spec : KarpenterSpec; Status : KarpenterStatus }.
Record KarpenterList := mkList { list_meta : metam.ListMeta; Items : sliceref Karpenter }.

End autoscalingm.

(** ** Lists of objects, as values *)

Record ListMeta := mkListMeta {
  lm_ResourceVersion : string; lm_Continue : string; lm_RemainingItemCount : option Z }.
Record ListOf (A : Type) := mkListOf { list_meta : ListMeta; list_items : slice A }.
Arguments mkListOf {A}.
Arguments list_meta {A}.
Arguments list_items {A}.
