(* ===== verification/GoMem.v ===== *)
(** * Go's memory

    A heap of typed cells, with what Go does to it as a monad, and the class
    [Stored] of the types that represent a value in memory.  [None] is a panic: a
    nil pointer or an index out of range. *)

From S2P Require Import Prelude MetaV1 KarpenterV1 AzureTypes OcpTypes MemTypes.

(** ** Cells

    What one allocation holds: a variable, a map or the array of a slice. *)

Inductive cell :=
| CInt (z : Z)
| CBool (b : bool)
| CMap (m : gmap string string)
| CBytes (l : list ascii)
| CStrings (l : list string)
| COwnerReferences (l : list metam.OwnerReference)
| CConditions (l : list Condition)
| CSubnetSelectorTerms (l : list osv1m.SubnetSelectorTerm)
| CSecurityGroupSelectorTerms (l : list osv1m.SecurityGroupSelectorTerm)
| CCapacityReservationSelectorTerms (l : list osv1m.CapacityReservationSelectorTerm)
| CBlockDeviceMappings (l : list osv1m.BlockDeviceMapping)
| CSubnets (l : list osv1.Subnet)
| CSecurityGroups (l : list osv1.SecurityGroup)
| CCapacityReservations (l : list osv1.CapacityReservation)
| COpenshiftEC2NodeClasses (l : list osv1m.OpenshiftEC2NodeClass)
| COpenShiftAzureNodeClasses (l : list osv1alpha1m.OpenShiftAzureNodeClass)
| CKarpenters (l : list autoscalingm.Karpenter)
| CSubnetSelectorTerm (x : osv1m.SubnetSelectorTerm)
| CSecurityGroupSelectorTerm (x : osv1m.SecurityGroupSelectorTerm)
| CCapacityReservationSelectorTerm (x : osv1m.CapacityReservationSelectorTerm)
| CBlockDevice (x : osv1m.BlockDevice)
| CBlockDeviceMapping (x : osv1m.BlockDeviceMapping)
| CMetadataOptions (x : osv1.MetadataOptions)
| CKubeletConfiguration (x : osv1m.KubeletConfiguration)
| CSubnet (x : osv1.Subnet)
| CSecurityGroup (x : osv1.SecurityGroup)
| CCapacityReservation (x : osv1.CapacityReservation)
| COpenshiftEC2NodeClassSpec (x : osv1m.OpenshiftEC2NodeClassSpec)
| COpenshiftEC2NodeClassStatus (x : osv1m.OpenshiftEC2NodeClassStatus)
| COpenshiftEC2NodeClass (x : osv1m.OpenshiftEC2NodeClass)
| COpenshiftEC2NodeClassList (x : osv1m.OpenshiftEC2NodeClassList)
| CAzureEncryption (x : osv1alpha1.AzureEncryption)
| CAzureSecurity (x : osv1alpha1.AzureSecurity)
| COpenShiftAzureNodeClassSpec (x : osv1alpha1m.OpenShiftAzureNodeClassSpec)
| COpenShiftAzureNodeClassStatus (x : osv1alpha1m.OpenShiftAzureNodeClassStatus)
| COpenShiftAzureNodeClass (x : osv1alpha1m.OpenShiftAzureNodeClass)
| COpenShiftAzureNodeClassList (x : osv1alpha1m.OpenShiftAzureNodeClassList)
| CKarpenterSpec (x : KarpenterSpec)
| CKarpenterStatus (x : autoscalingm.KarpenterStatus)
| CKarpenter (x : autoscalingm.Karpenter)
| CKarpenterList (x : autoscalingm.KarpenterList).

(** The zero values, and the types of the cells. *)
Class Zero (A : Type) := zero : A.
Class Cell (A : Type) := {
  to_cell : A -> cell;
  of_cell : cell -> option A;
  of_to_cell a : of_cell (to_cell a) = Some a;
  cell_zero : Zero A }.
#[export] Existing Instance cell_zero.

Definition zeroMeta : metam.ObjectMeta :=
  metam.mkObjectMeta "" "" "" "" 0 nilptr (MapRef None) (MapRef None) nilslice nilslice.
Definition zeroListMeta : metam.ListMeta := metam.mkListMeta "" "" nilptr.
Definition zeroBlockDevice : osv1m.BlockDevice := osv1m.mkBlockDevice "" "" nilptr "" "" nilptr 0 "".
Definition zeroKubelet : osv1m.KubeletConfiguration :=
  osv1m.mkKubelet 0 0 (MapRef None) (MapRef None) (MapRef None) (MapRef None) (MapRef None)
    nilptr nilptr nilptr nilptr nilslice.
Definition zeroEC2Spec : osv1m.OpenshiftEC2NodeClassSpec :=
  osv1m.mkSpec nilslice nilslice nilslice "" (MapRef None) nilslice "" "" (osv1.mkMetadataOptions "" "" 0 "") "" zeroKubelet.
Definition zeroEC2Status : osv1m.OpenshiftEC2NodeClassStatus := osv1m.mkStatus nilslice nilslice nilslice "" "" nilslice.
Definition zeroAzureSpec : osv1alpha1m.OpenShiftAzureNodeClassSpec :=
  osv1alpha1m.mkSpec "" 0 (MapRef None) zeroKubelet (osv1alpha1.mkAzureSecurity (osv1alpha1.mkAzureEncryption "")) "".

#[export] Instance Int_cell : Cell (Z) :=
  {| to_cell := CInt; of_cell c := match c with CInt x => Some x | _ => None end; of_to_cell _ := eq_refl; cell_zero := 0%Z |}.
#[export] Instance Bool_cell : Cell (bool) :=
  {| to_cell := CBool; of_cell c := match c with CBool x => Some x | _ => None end; of_to_cell _ := eq_refl; cell_zero := false |}.
#[export] Instance Map_cell : Cell (gmap string string) :=
  {| to_cell := CMap; of_cell c := match c with CMap x => Some x | _ => None end; of_to_cell _ := eq_refl; cell_zero := (∅ : gmap string string) |}.
#[export] Instance Bytes_cell : Cell (list ascii) :=
  {| to_cell := CBytes; of_cell c := match c with CBytes x => Some x | _ => None end; of_to_cell _ := eq_refl; cell_zero := [] |}.
#[export] Instance Strings_cell : Cell (list string) :=
  {| to_cell := CStrings; of_cell c := match c with CStrings x => Some x | _ => None end; of_to_cell _ := eq_refl; cell_zero := [] |}.
#[export] Instance OwnerReferences_cell : Cell (list metam.OwnerReference) :=
  {| to_cell := COwnerReferences; of_cell c := match c with COwnerReferences x => Some x | _ => None end; of_to_cell _ := eq_refl; cell_zero := [] |}.
#[export] Instance Conditions_cell : Cell (list Condition) :=
  {| to_cell := CConditions; of_cell c := match c with CConditions x => Some x | _ => None end; of_to_cell _ := eq_refl; cell_zero := [] |}.
#[export] Instance SubnetSelectorTerms_cell : Cell (list osv1m.SubnetSelectorTerm) :=
  {| to_cell := CSubnetSelectorTerms; of_cell c := match c with CSubnetSelectorTerms x => Some x | _ => None end; of_to_cell _ := eq_refl; cell_zero := [] |}.
#[export] Instance SecurityGroupSelectorTerms_cell : Cell (list osv1m.SecurityGroupSelectorTerm) :=
  {| to_cell := CSecurityGroupSelectorTerms; of_cell c := match c with CSecurityGroupSelectorTerms x => Some x | _ => None end; of_to_cell _ := eq_refl; cell_zero := [] |}.
#[export] Instance CapacityReservationSelectorTerms_cell : Cell (list osv1m.CapacityReservationSelectorTerm) :=
  {| to_cell := CCapacityReservationSelectorTerms; of_cell c := match c with CCapacityReservationSelectorTerms x => Some x | _ => None end; of_to_cell _ := eq_refl; cell_zero := [] |}.
#[export] Instance BlockDeviceMappings_cell : Cell (list osv1m.BlockDeviceMapping) :=
  {| to_cell := CBlockDeviceMappings; of_cell c := match c with CBlockDeviceMappings x => Some x | _ => None end; of_to_cell _ := eq_refl; cell_zero := [] |}.
#[export] Instance Subnets_cell : Cell (list osv1.Subnet) :=
  {| to_cell := CSubnets; of_cell c := match c with CSubnets x => Some x | _ => None end; of_to_cell _ := eq_refl; cell_zero := [] |}.
#[export] Instance SecurityGroups_cell : Cell (list osv1.SecurityGroup) :=
  {| to_cell := CSecurityGroups; of_cell c := match c with CSecurityGroups x => Some x | _ => None end; of_to_cell _ := eq_refl; cell_zero := [] |}.
#[export] Instance CapacityReservations_cell : Cell (list osv1.CapacityReservation) :=
  {| to_cell := CCapacityReservations; of_cell c := match c with CCapacityReservations x => Some x | _ => None end; of_to_cell _ := eq_refl; cell_zero := [] |}.
#[export] Instance OpenshiftEC2NodeClasses_cell : Cell (list osv1m.OpenshiftEC2NodeClass) :=
  {| to_cell := COpenshiftEC2NodeClasses; of_cell c := match c with COpenshiftEC2NodeClasses x => Some x | _ => None end; of_to_cell _ := eq_refl; cell_zero := [] |}.
#[export] Instance OpenShiftAzureNodeClasses_cell : Cell (list osv1alpha1m.OpenShiftAzureNodeClass) :=
  {| to_cell := COpenShiftAzureNodeClasses; of_cell c := match c with COpenShiftAzureNodeClasses x => Some x | _ => None end; of_to_cell _ := eq_refl; cell_zero := [] |}.
#[export] Instance Karpenters_cell : Cell (list autoscalingm.Karpenter) :=
  {| to_cell := CKarpenters; of_cell c := match c with CKarpenters x => Some x | _ => None end; of_to_cell _ := eq_refl; cell_zero := [] |}.
#[export] Instance SubnetSelectorTerm_cell : Cell (osv1m.SubnetSelectorTerm) :=
  {| to_cell := CSubnetSelectorTerm; of_cell c := match c with CSubnetSelectorTerm x => Some x | _ => None end; of_to_cell _ := eq_refl; cell_zero := (osv1m.mkSubnetSelectorTerm (MapRef None) "") |}.
#[export] Instance SecurityGroupSelectorTerm_cell : Cell (osv1m.SecurityGroupSelectorTerm) :=
  {| to_cell := CSecurityGroupSelectorTerm; of_cell c := match c with CSecurityGroupSelectorTerm x => Some x | _ => None end; of_to_cell _ := eq_refl; cell_zero := (osv1m.mkSecurityGroupSelectorTerm (MapRef None) "" "") |}.
#[export] Instance CapacityReservationSelectorTerm_cell : Cell (osv1m.CapacityReservationSelectorTerm) :=
  {| to_cell := CCapacityReservationSelectorTerm; of_cell c := match c with CCapacityReservationSelectorTerm x => Some x | _ => None end; of_to_cell _ := eq_refl; cell_zero := (osv1m.mkCapacityReservationSelectorTerm (MapRef None) "" "" "") |}.
#[export] Instance BlockDevice_cell : Cell (osv1m.BlockDevice) :=
  {| to_cell := CBlockDevice; of_cell c := match c with CBlockDevice x => Some x | _ => None end; of_to_cell _ := eq_refl; cell_zero := zeroBlockDevice |}.
#[export] Instance BlockDeviceMapping_cell : Cell (osv1m.BlockDeviceMapping) :=
  {| to_cell := CBlockDeviceMapping; of_cell c := match c with CBlockDeviceMapping x => Some x | _ => None end; of_to_cell _ := eq_refl; cell_zero := (osv1m.mkBlockDeviceMapping "" zeroBlockDevice "") |}.
#[export] Instance MetadataOptions_cell : Cell (osv1.MetadataOptions) :=
  {| to_cell := CMetadataOptions; of_cell c := match c with CMetadataOptions x => Some x | _ => None end; of_to_cell _ := eq_refl; cell_zero := (osv1.mkMetadataOptions "" "" 0 "") |}.
#[export] Instance KubeletConfiguration_cell : Cell (osv1m.KubeletConfiguration) :=
  {| to_cell := CKubeletConfiguration; of_cell c := match c with CKubeletConfiguration x => Some x | _ => None end; of_to_cell _ := eq_refl; cell_zero := zeroKubelet |}.
#[export] Instance Subnet_cell : Cell (osv1.Subnet) :=
  {| to_cell := CSubnet; of_cell c := match c with CSubnet x => Some x | _ => None end; of_to_cell _ := eq_refl; cell_zero := (osv1.mkSubnet "" "" "") |}.
#[export] Instance SecurityGroup_cell : Cell (osv1.SecurityGroup) :=
  {| to_cell := CSecurityGroup; of_cell c := match c with CSecurityGroup x => Some x | _ => None end; of_to_cell _ := eq_refl; cell_zero := (osv1.mkSecurityGroup "" "") |}.
#[export] Instance CapacityReservation_cell : Cell (osv1.CapacityReservation) :=
  {| to_cell := CCapacityReservation; of_cell c := match c with CCapacityReservation x => Some x | _ => None end; of_to_cell _ := eq_refl; cell_zero := (osv1.mkCapacityReservation "" 0%Z "" "" "" "" "" "") |}.
#[export] Instance OpenshiftEC2NodeClassSpec_cell : Cell (osv1m.OpenshiftEC2NodeClassSpec) :=
  {| to_cell := COpenshiftEC2NodeClassSpec; of_cell c := match c with COpenshiftEC2NodeClassSpec x => Some x | _ => None end; of_to_cell _ := eq_refl; cell_zero := zeroEC2Spec |}.
#[export] Instance OpenshiftEC2NodeClassStatus_cell : Cell (osv1m.OpenshiftEC2NodeClassStatus) :=
  {| to_cell := COpenshiftEC2NodeClassStatus; of_cell c := match c with COpenshiftEC2NodeClassStatus x => Some x | _ => None end; of_to_cell _ := eq_refl; cell_zero := zeroEC2Status |}.
#[export] Instance OpenshiftEC2NodeClass_cell : Cell (osv1m.OpenshiftEC2NodeClass) :=
  {| to_cell := COpenshiftEC2NodeClass; of_cell c := match c with COpenshiftEC2NodeClass x => Some x | _ => None end; of_to_cell _ := eq_refl; cell_zero := (osv1m.mkOpenshiftEC2NodeClass zeroMeta zeroEC2Spec zeroEC2Status) |}.
#[export] Instance OpenshiftEC2NodeClassList_cell : Cell (osv1m.OpenshiftEC2NodeClassList) :=
  {| to_cell := COpenshiftEC2NodeClassList; of_cell c := match c with COpenshiftEC2NodeClassList x => Some x | _ => None end; of_to_cell _ := eq_refl; cell_zero := (osv1m.mkList zeroListMeta nilslice) |}.
#[export] Instance AzureEncryption_cell : Cell (osv1alpha1.AzureEncryption) :=
  {| to_cell := CAzureEncryption; of_cell c := match c with CAzureEncryption x => Some x | _ => None end; of_to_cell _ := eq_refl; cell_zero := (osv1alpha1.mkAzureEncryption "") |}.
#[export] Instance AzureSecurity_cell : Cell (osv1alpha1.AzureSecurity) :=
  {| to_cell := CAzureSecurity; of_cell c := match c with CAzureSecurity x => Some x | _ => None end; of_to_cell _ := eq_refl; cell_zero := (osv1alpha1.mkAzureSecurity (osv1alpha1.mkAzureEncryption "")) |}.
#[export] Instance OpenShiftAzureNodeClassSpec_cell : Cell (osv1alpha1m.OpenShiftAzureNodeClassSpec) :=
  {| to_cell := COpenShiftAzureNodeClassSpec; of_cell c := match c with COpenShiftAzureNodeClassSpec x => Some x | _ => None end; of_to_cell _ := eq_refl; cell_zero := zeroAzureSpec |}.
#[export] Instance OpenShiftAzureNodeClassStatus_cell : Cell (osv1alpha1m.OpenShiftAzureNodeClassStatus) :=
  {| to_cell := COpenShiftAzureNodeClassStatus; of_cell c := match c with COpenShiftAzureNodeClassStatus x => Some x | _ => None end; of_to_cell _ := eq_refl; cell_zero := (osv1alpha1m.mkStatus nilslice "" "") |}.
#[export] Instance OpenShiftAzureNodeClass_cell : Cell (osv1alpha1m.OpenShiftAzureNodeClass) :=
  {| to_cell := COpenShiftAzureNodeClass; of_cell c := match c with COpenShiftAzureNodeClass x => Some x | _ => None end; of_to_cell _ := eq_refl; cell_zero := (osv1alpha1m.mkOpenShiftAzureNodeClass zeroMeta zeroAzureSpec (osv1alpha1m.mkStatus nilslice "" "")) |}.
#[export] Instance OpenShiftAzureNodeClassList_cell : Cell (osv1alpha1m.OpenShiftAzureNodeClassList) :=
  {| to_cell := COpenShiftAzureNodeClassList; of_cell c := match c with COpenShiftAzureNodeClassList x => Some x | _ => None end; of_to_cell _ := eq_refl; cell_zero := (osv1alpha1m.mkList zeroListMeta nilslice) |}.
#[export] Instance KarpenterSpec_cell : Cell (KarpenterSpec) :=
  {| to_cell := CKarpenterSpec; of_cell c := match c with CKarpenterSpec x => Some x | _ => None end; of_to_cell _ := eq_refl; cell_zero := (mkKarpenterSpec "") |}.
#[export] Instance KarpenterStatus_cell : Cell (autoscalingm.KarpenterStatus) :=
  {| to_cell := CKarpenterStatus; of_cell c := match c with CKarpenterStatus x => Some x | _ => None end; of_to_cell _ := eq_refl; cell_zero := (autoscalingm.mkStatus nilslice) |}.
#[export] Instance Karpenter_cell : Cell (autoscalingm.Karpenter) :=
  {| to_cell := CKarpenter; of_cell c := match c with CKarpenter x => Some x | _ => None end; of_to_cell _ := eq_refl; cell_zero := (autoscalingm.mkKarpenter zeroMeta (mkKarpenterSpec "") (autoscalingm.mkStatus nilslice)) |}.
#[export] Instance KarpenterList_cell : Cell (autoscalingm.KarpenterList) :=
  {| to_cell := CKarpenterList; of_cell c := match c with CKarpenterList x => Some x | _ => None end; of_to_cell _ := eq_refl; cell_zero := (autoscalingm.mkList zeroListMeta nilslice) |}.
#[export] Instance string_zero : Zero string := "".
#[export] Instance ascii_zero : Zero ascii := "000"%char.
#[export] Instance OwnerReference_zero : Zero metam.OwnerReference := metam.mkOwnerReference "" "" "" "" nilptr nilptr.
#[export] Instance Condition_zero : Zero Condition := mkCondition "" "" 0 0 "" "".

(** ** The monad *)

Abbreviation heap := (gmap positive cell).
Definition mem (A : Type) := heap -> option (A * heap).
#[export] Instance mem_ret : MRet mem := fun A a h => Some (a, h).
#[export] Instance mem_bind : MBind mem := fun A B f p h =>
  match p h with Some (a, h') => f a h' | None => None end.
Definition panic {A} : mem A := fun _ => None.

(** The variable at a location, [new(T)], [*p] and [*p = x]. *)
Definition lookup_cell {A} `{Cell A} (h : heap) (l : loc) : option A :=
  match h !! l with Some c => of_cell c | None => None end.
Definition alloc {A} `{Cell A} (a : A) : mem loc := fun h =>
  let l := fresh (dom h) in Some (l, <[l := to_cell a]> h).
Definition new {A} `{Cell A} : mem (ptr A) := l ← alloc (zero : A); mret (Ptr (Some l)).
Definition load {A} `{Cell A} (p : ptr A) : mem A := fun h =>
  match addr p with
  | Some l => match lookup_cell h l with Some a => Some (a, h) | None => None end
  | None => None
  end.
Definition store {A} `{Cell A} (p : ptr A) (a : A) : mem unit := fun h =>
  match addr p with
  | Some l => if decide (is_Some (h !! l)) then Some (tt, <[l := to_cell a]> h) else None
  | None => None
  end.

(** [make([]T, n)] and [make([]T, 0, n)], [s\[i\]], [s\[i\] = x], [append(s, x)]; no
    array is shorter than its slice's capacity.  An append beyond the capacity takes
    a new array; [spare] is how much longer than needed the runtime makes it, by the
    old capacity and the new length. *)
Class Growth (A : Type) := spare : nat -> nat -> nat.
Definition make {A} `{Zero A, Cell (list A)} (n : nat) : mem (sliceref A) :=
  l ← alloc (replicate n (zero : A)); mret (SliceRef (Some l) n n).
Definition makeCap {A} `{Zero A, Cell (list A)} (n : nat) : mem (sliceref A) :=
  l ← alloc (replicate n (zero : A)); mret (SliceRef (Some l) 0 n).
Definition elements {A} `{Cell (list A)} (s : sliceref A) : mem (list A) := load (Ptr (array s)).
Definition index {A} `{Cell (list A)} (s : sliceref A) (i : nat) : mem A :=
  if i <? len s then
    xs ← elements s;
    match xs !! i with Some x => mret x | None => panic end
  else panic.
Definition setIndex {A} `{Cell (list A)} (s : sliceref A) (i : nat) (x : A) : mem unit :=
  if i <? len s then xs ← elements s; store (Ptr (array s)) (<[i := x]> xs) else panic.
Definition append {A} `{Growth A, Zero A, Cell (list A)} (s : sliceref A) (x : A) : mem (sliceref A) :=
  if len s <? cap s then
    xs ← elements s;
    store (Ptr (array s)) (<[len s := x]> xs);;
    mret (SliceRef (array s) (S (len s)) (cap s))
  else
    xs ← (match len s with O => mret [] | _ => elements s end);
    let more := spare (A := A) (cap s) (S (len s)) in
    l ← alloc (take (len s) xs ++ x :: replicate more (zero : A));
    mret (SliceRef (Some l) (S (len s)) (S (len s) + more)).

(** [for i := range n { body(i) }], for the indexes that are left. *)
Fixpoint forRange (todo : list nat) (body : nat -> mem unit) : mem unit :=
  match todo with
  | [] => mret tt
  | i :: todo' => body i;; forRange todo' body
  end.

(** [copy(dst, src)] *)
Definition copyElements {A} `{Cell (list A)} (dst src : sliceref A) : mem unit :=
  match min (len dst) (len src) with
  | O => mret tt
  | n => xs ← elements src; ys ← elements dst; store (Ptr (array dst)) (take n xs ++ drop n ys)
  end.

(** ** What a part of memory represents

    [read h m] is the value of [m] in [h], when all it refers to is there, and
    [locs h m] are the locations it refers to, each as often as it does.  Nothing
    else matters to it. *)

Class Stored (M V : Type) := {
  read : heap -> M -> option V;
  locs : heap -> M -> list loc;
  read_locs h m v : read h m = Some v -> forall l, l ∈ locs h m -> is_Some (h !! l);
  read_agree h h' m v :
    read h m = Some v -> (forall l, l ∈ locs h m -> h' !! l = h !! l) ->
    read h' m = Some v /\ locs h' m = locs h m }.
#[export] Hint Mode Stored ! - : typeclass_instances.

(** Values without references. *)
Program Definition Stored_const (A : Type) : Stored A A := {|
  read _ a := Some a; locs _ _ := [] |}.
Next Obligation. intros A h m v _ l Hl. by apply not_elem_of_nil in Hl. Qed.
Next Obligation. done. Qed.

#[export] Instance Z_stored : Stored Z Z := Stored_const Z.
#[export] Instance bool_stored : Stored bool bool := Stored_const bool.
#[export] Instance string_stored : Stored string string := Stored_const string.
#[export] Instance ascii_stored : Stored ascii ascii := Stored_const ascii.
#[export] Instance Condition_stored : Stored Condition Condition := Stored_const Condition.
#[export] Instance unit_stored : Stored unit unit := Stored_const unit.

Section stored.
Context {M V : Type} `{Cell M, Stored M V}.

Lemma lookup_cell_agree {A} `{Cell A} (h h' : heap) l : h' !! l = h !! l -> lookup_cell (A := A) h' l = lookup_cell h l.
Proof. unfold lookup_cell. by intros ->. Qed.

Lemma lookup_cell_Some {A} `{Cell A} (h : heap) l (a : A) : lookup_cell h l = Some a -> is_Some (h !! l).
Proof. unfold lookup_cell. by destruct (h !! l). Qed.

(** A pointer. *)
#[export] Program Instance ptr_stored : Stored (ptr M) (option V) := {|
  read h p := match addr p with
    | None => Some None
    | Some l => match lookup_cell h l with Some m => option_map Some (read h m) | None => None end
    end;
  locs h p := match addr p with
    | None => []
    | Some l => l :: match lookup_cell (A := M) h l with Some m => locs h m | None => [] end
    end |}.
Next Obligation.
  intros h [[l|]] v; cbn; [|intros _ ? []%not_elem_of_nil].
  destruct (lookup_cell h l) as [m|] eqn:E; [|done]. destruct (read h m) as [w|] eqn:R; [|done].
  intros _ l' [->|Hl]%elem_of_cons; [exact (lookup_cell_Some _ _ _ E) | by eapply read_locs].
Qed.
Next Obligation.
  intros h h' [[l|]] v; cbn; [|done].
  destruct (lookup_cell h l) as [m|] eqn:E; [|done]. destruct (read h m) as [w|] eqn:R; [|done].
  intros Hv Hl. rewrite (lookup_cell_agree h h' l), E by (apply Hl; left).
  destruct (read_agree h h' m w R) as [-> ->]; [|done]. intros l' Hl'. apply Hl. by right.
Qed.

End stored.

(** A map. *)
#[export] Program Instance mapref_stored : Stored mapref (gomap string) := {|
  read h p := match table p with
    | None => Some None
    | Some l => match lookup_cell h l with Some m => Some (Some m) | None => None end
    end;
  locs h p := match table p with None => [] | Some l => [l] end |}.
Next Obligation.
  intros h [[l|]] v; cbn; [|intros _ ? []%not_elem_of_nil].
  destruct (lookup_cell h l) as [m|] eqn:E; [|done].
  intros _ l' ->%list_elem_of_singleton. exact (lookup_cell_Some _ _ _ E).
Qed.
Next Obligation.
  intros h h' [[l|]] v; cbn; [|done]. intros Hv Hl. by rewrite (lookup_cell_agree h h' l) by (apply Hl; left).
Qed.

(** The elements of a list. *)
Section list.
Context {M V : Type} `{Stored M V}.

Definition readAll (h : heap) (ms : list M) : option (list V) := mapM (read h) ms.
Definition locsAll (h : heap) (ms : list M) : list loc := concat (map (locs h) ms).

Lemma locsAll_cons h m ms : locsAll h (m :: ms) = locs h m ++ locsAll h ms.
Proof. done. Qed.

Lemma readAll_cons h m ms vs :
  readAll h (m :: ms) = Some vs <-> exists v vs', vs = v :: vs' /\ read h m = Some v /\ readAll h ms = Some vs'.
Proof.
  unfold readAll. cbn. destruct (read h m) as [v|]; cbn; [|split; [done | by intros (? & ? & _ & ? & _)]].
  destruct (mapM (read h) ms) as [vs'|]; cbn; [|split; [done | by intros (? & ? & _ & _ & ?)]].
  split; [intros [= <-]; by exists v, vs' | by intros (? & ? & -> & [= ->] & [= ->])].
Qed.

Lemma readAll_locs h ms vs : readAll h ms = Some vs -> forall l, l ∈ locsAll h ms -> is_Some (h !! l).
Proof.
  revert vs; induction ms as [|m ms IH]; intros vs; [intros _ ? []%not_elem_of_nil|].
  intros (v & vs' & -> & R & Rs)%readAll_cons l. rewrite locsAll_cons, elem_of_app. intros [Hl|Hl].
  - by eapply read_locs.
  - by eapply IH.
Qed.

Lemma readAll_agree h h' ms vs :
  readAll h ms = Some vs -> (forall l, l ∈ locsAll h ms -> h' !! l = h !! l) ->
  readAll h' ms = Some vs /\ locsAll h' ms = locsAll h ms.
Proof.
  revert vs; induction ms as [|m ms IH]; intros vs; [done|].
  intros (v & vs' & -> & R & Rs)%readAll_cons. setoid_rewrite locsAll_cons. intros Hl.
  destruct (read_agree h h' m v R) as [R' ->]; [intros l ?; apply Hl; set_solver|].
  destruct (IH vs' Rs) as [Rs' ->]; [intros l ?; apply Hl; set_solver|].
  split; [|done]. apply readAll_cons. by exists v, vs'.
Qed.

End list.

(** A slice; one of no capacity refers to nothing. *)
Section slice.
Context {M V : Type} `{Cell (list M), Stored M V}.

Definition readSlice (h : heap) (s : sliceref M) : option (slice V) :=
  match array s with
  | None => if decide (len s = 0 /\ cap s = 0) then Some None else None
  | Some l =>
      if decide (cap s = 0) then if decide (len s = 0) then Some (Some []) else None
      else match lookup_cell h l with
           | Some ms =>
               if decide (len s <= cap s <= length ms) then option_map Some (readAll h (take (len s) ms)) else None
           | None => None
           end
  end.

Definition locsSlice (h : heap) (s : sliceref M) : list loc :=
  match array s with
  | None => []
  | Some l =>
      if decide (cap s = 0) then []
      else l :: match lookup_cell (A := list M) h l with Some ms => locsAll h (take (len s) ms) | None => [] end
  end.

#[export] Program Instance slice_stored : Stored (sliceref M) (slice V) := {| read := readSlice; locs := locsSlice |}.
Next Obligation.
  intros h [[l|] n k] v; unfold readSlice, locsSlice; cbn [array len cap]; [case_decide|]; try (intros _ ? []%not_elem_of_nil).
  destruct (lookup_cell (A := list M) h l) as [ms|] eqn:E; [|intros [=]]. case_decide; [|intros [=]].
  destruct (readAll h (take n ms)) as [vs|] eqn:R; [|intros [=]].
  intros _ l' [->|Hl]%elem_of_cons; [exact (lookup_cell_Some _ _ _ E) | by eapply readAll_locs].
Qed.
Next Obligation.
  intros h h' [[l|] n k] v; unfold readSlice, locsSlice; cbn [array len cap]; [case_decide; [by case_decide|]|by case_decide].
  destruct (lookup_cell (A := list M) h l) as [ms|] eqn:E; [|intros [=]]. case_decide; [|intros [=]].
  destruct (readAll h (take n ms)) as [vs|] eqn:R; [|intros [=]].
  intros Hv Hl. rewrite (lookup_cell_agree (A := list M) h h' l), E, decide_True by (done || apply Hl; left).
  destruct (readAll_agree h h' _ vs R) as [-> ->]; [|done]. intros l' Hl'. apply Hl. by right.
Qed.

End slice.

(** Both components of a pair, and a type by its parts. *)
#[export] Program Instance prod_stored {M V M' V'} `{Stored M V, Stored M' V'} : Stored (M * M') (V * V') := {|
  read h p := match read h p.1 with
    | Some v => match read h p.2 with Some v' => Some (v, v') | None => None end
    | None => None
    end;
  locs h p := locs h p.1 ++ locs h p.2 |}.
Next Obligation.
  intros M V M' V' ? ? h [m m'] v; cbn. destruct (read h m) eqn:E; [|done]. destruct (read h m') eqn:E'; [|done].
  intros _ l [Hl|Hl]%elem_of_app; [exact (read_locs _ _ _ E _ Hl) | exact (read_locs _ _ _ E' _ Hl)].
Qed.
Next Obligation.
  intros M V M' V' ? ? h h' [m m'] v; cbn. destruct (read h m) as [w|] eqn:E; [|done].
  destruct (read h m') as [w'|] eqn:E'; [|done]. intros Hv Hl.
  destruct (read_agree h h' m w E) as [-> ->]; [intros l ?; apply Hl; set_solver|].
  by destruct (read_agree h h' m' w' E') as [-> ->]; [intros l ?; apply Hl; set_solver|].
Qed.

Program Definition Stored_via {P W M V} `{Stored P W} (parts : M -> P) (build : M -> W -> V) : Stored M V := {|
  read h m := option_map (build m) (read h (parts m));
  locs h m := locs h (parts m) |}.
Next Obligation.
  intros P W M V ? parts build h m v. cbn beta. destruct (read h (parts m)) eqn:E; [|done]. intros _. exact (read_locs _ _ _ E).
Qed.
Next Obligation.
  intros P W M V ? parts build h h' m v. cbn beta. destruct (read h (parts m)) as [w|] eqn:E; [|done]. intros Hv Hl.
  by destruct (read_agree h h' _ w E Hl) as [-> ->].
Qed.

(** ** Lemmas: reading *)

Section lemmas.
Context {M V : Type} `{Stored M V}.
Implicit Types (h : heap) (m : M) (v : V) (ms : list M) (vs : list V).

Lemma read_mono (h h' : heap) m v : h ⊆ h' -> read h m = Some v -> read h' m = Some v /\ locs h' m = locs h m.
Proof.
  intros S R. apply read_agree; [done|]. intros l Hl. destruct (read_locs h m v R l Hl) as [c E].
  rewrite E. by eapply lookup_weaken.
Qed.

Lemma read_insert (h : heap) m v l c :
  l ∉ locs h m -> read h m = Some v -> read (<[l := c]> h) m = Some v /\ locs (<[l := c]> h) m = locs h m.
Proof. intros Hl R. apply read_agree; [done|]. intros k Hk. apply lookup_insert_ne. by intros ->. Qed.

Lemma readAll_mono (h h' : heap) ms vs :
  h ⊆ h' -> readAll h ms = Some vs -> readAll h' ms = Some vs /\ locsAll h' ms = locsAll h ms.
Proof.
  intros S R. apply readAll_agree; [done|]. intros l Hl. destruct (readAll_locs h ms vs R l Hl) as [c E].
  rewrite E. by eapply lookup_weaken.
Qed.

Lemma readAll_insert (h : heap) ms vs l c :
  l ∉ locsAll h ms -> readAll h ms = Some vs ->
  readAll (<[l := c]> h) ms = Some vs /\ locsAll (<[l := c]> h) ms = locsAll h ms.
Proof. intros Hl R. apply readAll_agree; [done|]. intros k Hk. apply lookup_insert_ne. by intros ->. Qed.

Lemma readAll_length h ms vs : readAll h ms = Some vs -> length vs = length ms.
Proof. unfold readAll. rewrite mapM_Some. intros F. symmetry. by eapply Forall2_length. Qed.

Lemma readAll_lookup h ms vs i m :
  readAll h ms = Some vs -> ms !! i = Some m -> exists v, vs !! i = Some v /\ read h m = Some v.
Proof.
  unfold readAll. rewrite mapM_Some. intros F E. by destruct (Forall2_lookup_l _ _ _ _ _ F E) as (v & ? & ?); exists v.
Qed.

Lemma readAll_snoc h ms vs m v :
  readAll h ms = Some vs -> read h m = Some v -> readAll h (ms ++ [m]) = Some (vs ++ [v]).
Proof. unfold readAll. rewrite !mapM_Some. intros F R. apply Forall2_app; [done|]. by repeat constructor. Qed.

Lemma locsAll_app h ms ms' : locsAll h (ms ++ ms') = locsAll h ms ++ locsAll h ms'.
Proof. unfold locsAll. by rewrite map_app, concat_app. Qed.

End lemmas.

Lemma fresh_None (h : heap) : h !! fresh (dom h) = None.
Proof. apply not_elem_of_dom, is_fresh. Qed.

Lemma lookup_cell_insert {A} `{Cell A} (h : heap) l (a : A) : lookup_cell (<[l := to_cell a]> h) l = Some a.
Proof. unfold lookup_cell. by rewrite lookup_insert_eq, of_to_cell. Qed.

Lemma lookup_cell_ne {A} `{Cell A} (h : heap) l l' c : l <> l' -> lookup_cell (A := A) (<[l' := c]> h) l = lookup_cell h l.
Proof. intros Hl. apply lookup_cell_agree. by apply lookup_insert_ne. Qed.

Lemma lookup_cell_mono {A} `{Cell A} (h h' : heap) l (a : A) : h ⊆ h' -> lookup_cell h l = Some a -> lookup_cell h' l = Some a.
Proof.
  intros S E. rewrite <- E. apply lookup_cell_agree. destruct (lookup_cell_Some _ _ _ E) as [c Hc].
  rewrite Hc. by eapply lookup_weaken.
Qed.

Lemma bind_Some {A B} (p : mem A) (f : A -> mem B) h a h' : p h = Some (a, h') -> (p ≫= f) h = f a h'.
Proof. intros E. unfold mbind, mem_bind. by rewrite E. Qed.
