(* ===== verification/GoCopy.v ===== *)
(** * Deep copies

    The statements that controller-gen generates for the fields of a type, and what
    they guarantee: class [Copies] of the functions that leave what was there alone
    and return new memory of the same value. *)

From S2P Require Import Prelude MemTypes GoMem.

(** ** The statements *)

(** [if in != nil { *out = new(T); **out = **in }] *)
Definition copyPtr {A} `{Cell A} (in_ : ptr A) : mem (ptr A) :=
  match addr in_ with
  | None => mret in_
  | Some _ => out ← new; x ← load in_; store out x;; mret out
  end.

(** [if in != nil { *out = make(map[string]string, len( *in)); for key, val := range *in
    { ( *out)\[key\] = val } }]; the keys are distinct, so that their order does not
    matter. *)
Definition mapPtr (m : mapref) : ptr (gmap string string) := Ptr (table m).
Fixpoint rangeMap (kvs : list (string * string)) (body : string -> string -> mem unit) : mem unit :=
  match kvs with
  | [] => mret tt
  | (key, val) :: kvs' => body key val;; rangeMap kvs' body
  end.
Definition setKey (m : mapref) (key val : string) : mem unit :=
  entries ← load (mapPtr m); store (mapPtr m) (<[key := val]> entries).
Definition copyMap (in_ : mapref) : mem mapref :=
  match table in_ with
  | None => mret in_
  | Some _ =>
      l ← alloc (∅ : gmap string string);
      let out := MapRef (Some l) in
      kvs ← load (mapPtr in_);
      rangeMap (map_to_list kvs) (setKey out);;
      mret out
  end.

(** [if in != nil { *out = make([]T, len( *in)); for i := range *in
    { ( *in)\[i\].DeepCopyInto(&( *out)\[i\]) } }] *)
Definition copySlice {A} `{Zero A, Cell (list A)} (DeepCopyInto : A -> mem A) (in_ : sliceref A) : mem (sliceref A) :=
  match array in_ with
  | None => mret in_
  | Some _ =>
      out ← make (len in_);
      forRange (seq 0 (len in_)) (fun i =>
        x ← index in_ i; y ← DeepCopyInto x; setIndex out i y);;
      mret out
  end.

(** [if in != nil { *out = make([]T, len( *in)); copy( *out, *in) }] *)
Definition copyFlat {A} `{Zero A, Cell (list A)} (in_ : sliceref A) : mem (sliceref A) :=
  match array in_ with
  | None => mret in_
  | Some _ => out ← make (len in_); copyElements out in_;; mret out
  end.

(** [func (in *T) DeepCopy() *T], and [DeepCopyObject], whose result is an
    interface.  [DeepCopyInto] returns what it writes to [*out]. *)
Definition deepCopy {A} `{Cell A} (DeepCopyInto : A -> mem A) (in_ : ptr A) : mem (ptr A) :=
  match addr in_ with
  | None => mret nilptr
  | Some _ =>
      out ← new;
      x ← load in_; y ← DeepCopyInto x; store out y;;
      mret out
  end.
Definition deepCopyObject {A} (DeepCopy : ptr A -> mem (ptr A)) (in_ : ptr A) : mem (option (ptr A)) :=
  c ← DeepCopy in_;
  match addr c with Some _ => mret (Some c) | None => mret None end.

(** ** What a copy is *)

(** [m'] in [h'] represents [v] with memory that is not in [h], each part once. *)
Record fresh_copy {M V} `{Stored M V} (h h' : heap) (m' : M) (v : V) : Prop := {
  fc_old : h ⊆ h';
  fc_read : read h' m' = Some v;
  fc_once : NoDup (locs h' m');
  fc_new l : l ∈ locs h' m' -> h !! l = None }.

Class Copies {M V} `{Stored M V} (copy : M -> mem M) : Prop :=
  copied h m v : read h m = Some v -> exists m' h', copy m h = Some (m', h') /\ fresh_copy h h' m' v.
#[export] Hint Mode Copies ! - - ! : typeclass_instances.

Lemma insert_fresh_subseteq (h h' : heap) l c : h ⊆ h' -> h !! l = None -> h ⊆ <[l := c]> h'.
Proof. intros S E. apply insert_subseteq_r; [done | done]. Qed.

Lemma load_Some {A} `{Cell A} (h : heap) l (a : A) : lookup_cell h l = Some a -> load (Ptr (Some l)) h = Some (a, h).
Proof. unfold load. cbn. by intros ->. Qed.

Lemma store_Some {A} `{Cell A} (h : heap) l (a : A) :
  is_Some (h !! l) -> store (Ptr (Some l)) a h = Some (tt, <[l := to_cell a]> h).
Proof. unfold store. cbn. intros H1. by rewrite decide_True. Qed.

(** Values without references are copied by the assignment. *)
Lemma copies_const A : @Copies A A (Stored_const A) mret.
Proof. intros h m v [= <-]. exists m, h. split; [done|]. split; [done | done | constructor | by intros l ?%not_elem_of_nil]. Qed.

#[export] Instance copies_ptr {A} `{Cell A} (S := Stored_const A) : @Copies (ptr A) (option A) (@ptr_stored A A _ S) copyPtr.
Proof.
  intros h [[l|]] v; cbn.
  - destruct (lookup_cell h l) as [a|] eqn:E; [|done]. cbn. intros [= <-].
    set (q := fresh (dom h)). exists (Ptr (Some q)), (<[q := to_cell a]> h).
    assert (Hq : h !! q = None) by apply fresh_None.
    assert (Hl : q <> l) by (intros ->; destruct (lookup_cell_Some _ _ _ E); congruence).
    split.
    + unfold copyPtr, new. cbn [addr]. rewrite (bind_Some _ _ _ (Ptr (Some q)) (<[q := to_cell zero]> h)) by done.
      rewrite (bind_Some _ _ _ a (<[q := to_cell zero]> h)) by (apply load_Some; by rewrite lookup_cell_ne).
      erewrite bind_Some by (apply store_Some; rewrite lookup_insert_eq; by eexists). by rewrite insert_insert_eq.
    + split; cbn; [by apply insert_subseteq | by rewrite lookup_cell_insert | rewrite lookup_cell_insert |
        rewrite lookup_cell_insert]; cbn.
      * apply NoDup_singleton.
      * by intros k ->%list_elem_of_singleton.
  - intros [= <-]. exists (Ptr None), h. split; [done|]. split; [done | done | constructor | by intros l ?%not_elem_of_nil].
Qed.

(** ** Maps *)

Lemma rangeMap_setKey (h : heap) l (m : gmap string string) kvs :
  lookup_cell h l = Some m ->
  rangeMap kvs (setKey (MapRef (Some l))) h =
    Some (tt, match kvs with [] => h | _ => <[l := to_cell (fold_left (fun m kv => <[kv.1 := kv.2]> m) kvs m)]> h end).
Proof.
  revert h m; induction kvs as [|[k v] kvs IH]; intros h m E; [done|]. cbn [rangeMap fold_left].
  erewrite bind_Some; last first.
  { unfold setKey, mapPtr. cbn [table]. rewrite (bind_Some _ _ _ m h) by by apply load_Some.
    apply store_Some. exact (lookup_cell_Some _ _ _ E). }
  rewrite (IH _ (<[k := v]> m)) by apply lookup_cell_insert. f_equal. f_equal.
  destruct kvs as [|p kvs]; [done|]. by rewrite insert_insert_eq.
Qed.

Lemma fold_left_insert (kvs : list (string * string)) (m : gmap string string) k :
  NoDup kvs.*1 ->
  fold_left (fun m kv => <[kv.1 := kv.2]> m) kvs m !! k =
    match (list_to_map kvs : gmap string string) !! k with Some v => Some v | None => m !! k end.
Proof.
  revert m; induction kvs as [|[k' v'] kvs IH]; intros m; cbn [fold_left list_to_map foldr fst snd]; [by rewrite lookup_empty|].
  rewrite fmap_cons, NoDup_cons. intros [Hk Hn]. rewrite IH by done. destruct (decide (k = k')) as [->|Hne].
  - rewrite !lookup_insert_eq. by rewrite (not_elem_of_list_to_map_1 _ _ Hk).
  - by rewrite !lookup_insert_ne by done.
Qed.

Lemma fold_left_map_to_list (m : gmap string string) :
  fold_left (fun m kv => <[kv.1 := kv.2]> m) (map_to_list m) (∅ : gmap string string) = m.
Proof.
  apply map_eq. intros k. rewrite fold_left_insert by apply NoDup_fst_map_to_list.
  rewrite list_to_map_to_list, lookup_empty. by destruct (m !! k).
Qed.

#[export] Instance copies_map : Copies copyMap.
Proof.
  intros h [[l|]] v; cbn.
  - destruct (lookup_cell (A := gmap string string) h l) as [m|] eqn:E; [|done]. intros [= <-].
    set (q := fresh (dom h)). exists (MapRef (Some q)), (<[q := to_cell m]> h).
    assert (Hq : h !! q = None) by apply fresh_None.
    assert (Hl : q <> l) by (intros ->; destruct (lookup_cell_Some _ _ _ E); congruence).
    split.
    + unfold copyMap. cbn [table].
      rewrite (bind_Some _ _ _ q (<[q := to_cell (∅ : gmap string string)]> h)) by done. unfold mapPtr. cbn [table].
      rewrite (bind_Some _ _ _ m (<[q := to_cell (∅ : gmap string string)]> h))
        by (apply load_Some; by rewrite lookup_cell_ne).
      erewrite bind_Some by (apply rangeMap_setKey, lookup_cell_insert).
      pose proof (fold_left_map_to_list m) as F. destruct (map_to_list m) as [|p kvs]; [by rewrite <- F|].
      rewrite F. by rewrite insert_insert_eq.
    + split; cbn; [by apply insert_subseteq | unfold lookup_cell; by rewrite lookup_insert_eq | apply NoDup_singleton |].
      by intros k ->%list_elem_of_singleton.
  - intros [= <-]. exists (MapRef None), h. split; [done|]. split; [done | done | constructor | by intros l ?%not_elem_of_nil].
Qed.

(** ** Slices *)

Section slice.
Context {M V : Type} `{Zero M, Cell (list M), Stored M V}.

(** What is known after some turns of the loop: [ys] is the new array, whose first
    [i] elements are copies. *)
Record copiedTo (h0 h : heap) (q : loc) (ys : list M) (i : nat) (vs : list V) : Prop := {
  ct_old : h0 ⊆ h;
  ct_array : lookup_cell h q = Some ys;
  ct_read : readAll h (take i ys) = Some (take i vs);
  ct_once : NoDup (locsAll h (take i ys));
  ct_new l : l ∈ locsAll h (take i ys) -> h0 !! l = None /\ l <> q }.

Lemma setIndex_Some (h : heap) q n c i (ys : list M) y :
  lookup_cell h q = Some ys -> i < n ->
  setIndex (SliceRef (Some q) n c) i y h = Some (tt, <[q := to_cell (<[i := y]> ys)]> h).
Proof.
  intros E Hi. unfold setIndex. cbn [len array]. rewrite (proj2 (Nat.ltb_lt i n) Hi).
  rewrite (bind_Some _ _ _ ys h) by by apply load_Some. apply store_Some. exact (lookup_cell_Some _ _ _ E).
Qed.

Lemma index_Some (h : heap) l n c i (ms : list M) x :
  lookup_cell h l = Some ms -> i < n -> ms !! i = Some x -> index (SliceRef (Some l) n c) i h = Some (x, h).
Proof.
  intros E Hi Hx. unfold index. cbn [len]. rewrite (proj2 (Nat.ltb_lt i n) Hi).
  rewrite (bind_Some _ _ _ ms h) by by apply load_Some. by rewrite Hx.
Qed.

(** One element more. *)
Lemma copiedTo_step h0 h h' q ys i vs y v :
  copiedTo h0 h q ys i vs -> h0 !! q = None -> i < length ys -> vs !! i = Some v ->
  fresh_copy h h' y v -> copiedTo h0 (<[q := to_cell (<[i := y]> ys)]> h') q (<[i := y]> ys) (S i) vs.
Proof.
  intros [O A R N F] Hq Hi Hv [O' R' N' F'].
  assert (Hqy : q ∉ locs h' y).
  { intros Hy%F'. destruct (lookup_cell_Some _ _ _ A). congruence. }
  assert (Hqs : q ∉ locsAll h (take i ys)) by by intros [_ ?]%F.
  destruct (readAll_mono h h' _ _ O' R) as [R1 L1].
  assert (Hqs' : q ∉ locsAll h' (take i ys)) by by rewrite L1.
  destruct (readAll_insert h' _ _ q (to_cell (<[i := y]> ys)) Hqs' R1) as [R2 L2].
  destruct (read_insert h' y v q (to_cell (<[i := y]> ys)) Hqy R') as [R3 L3].
  assert (T : take (S i) (<[i := y]> ys) = take i ys ++ [y]).
  { rewrite (take_S_r _ _ y) by by rewrite list_lookup_insert_eq. by rewrite take_insert_ge by lia. }
  assert (L : locsAll (<[q := to_cell (<[i := y]> ys)]> h') (take (S i) (<[i := y]> ys))
              = locsAll h (take i ys) ++ locs h' y).
  { rewrite T, locsAll_app, L2, L1. unfold locsAll at 2. cbn. by rewrite L3, app_nil_r. }
  split.
  - apply insert_fresh_subseteq; [by etrans | done].
  - apply lookup_cell_insert.
  - rewrite T, (take_S_r vs i v) by done. by apply readAll_snoc.
  - rewrite L. apply NoDup_app. split; [done|]. split; [|done].
    intros l Hl Hl'%F'. destruct (readAll_locs h _ _ R l Hl). congruence.
  - intros l. rewrite L, elem_of_app. intros [Hl|Hl]; [by apply F|]. split; [|by intros ->].
    apply F' in Hl. destruct (h0 !! l) as [c|] eqn:E; [|done]. eapply lookup_weaken in E; [|exact O]. congruence.
Qed.

Context (copy : M -> mem M) `{HC : !Copies copy}.

Lemma copyLoop h0 l q n c (ms : list M) vs k : forall i h ys,
  lookup_cell h0 l = Some ms -> readAll h0 (take n ms) = Some vs -> n <= length ms ->
  h0 !! q = None -> length ys = n -> i + k = n ->
  copiedTo h0 h q ys i vs ->
  exists h' ys', length ys' = n /\ copiedTo h0 h' q ys' n vs /\
    forRange (seq i k) (fun i => x ← index (SliceRef (Some l) n c) i; y ← copy x; setIndex (SliceRef (Some q) n n) i y) h
      = Some (tt, h').
Proof using HC.
  induction k as [|k IH]; intros i h ys El Er Hn Hq Hy Hik I; cbn [seq forRange].
  - exists h, ys. replace n with i by lia. split_and!; [lia | done | done].
  - destruct (lookup_lt_is_Some_2 ms i) as [x Hx]; [lia|].
    assert (Hx' : take n ms !! i = Some x) by (rewrite lookup_take_lt; [done | lia]).
    destruct (readAll_lookup _ _ _ _ _ Er Hx') as (v & Hv & Rx).
    destruct (read_mono h0 h x v (ct_old _ _ _ _ _ _ I) Rx) as [Rx' _].
    destruct (HC h x v Rx') as (y & h1 & Ey & Fy).
    pose proof (copiedTo_step h0 h h1 q ys i vs y v I Hq ltac:(lia) Hv Fy) as I'.
    destruct (IH (S i) _ _ El Er Hn Hq ltac:(by rewrite length_insert) ltac:(lia) I') as (h' & ys' & Hl' & I'' & E).
    exists h', ys'. split; [done|]. split; [done|].
    erewrite bind_Some; [exact E|].
    rewrite (bind_Some _ _ _ x h) by (eapply index_Some; [|lia|exact Hx]; exact (lookup_cell_mono _ _ _ _ (ct_old _ _ _ _ _ _ I) El)).
    rewrite (bind_Some _ _ _ y h1) by done.
    apply setIndex_Some; [|lia]. exact (lookup_cell_mono _ _ _ _ (fc_old _ _ _ _ Fy) (ct_array _ _ _ _ _ _ I)).
Qed.

(** The loop from its start. *)
Lemma copyLoop_all h l n c (ms : list M) vs :
  lookup_cell h l = Some ms -> readAll h (take n ms) = Some vs -> n <= length ms ->
  let q := fresh (dom h) in
  exists h' ys, length ys = n /\ copiedTo h h' q ys n vs /\
    forRange (seq 0 n) (fun i => x ← index (SliceRef (Some l) n c) i; y ← copy x; setIndex (SliceRef (Some q) n n) i y)
      (<[q := to_cell (replicate n (zero : M))]> h) = Some (tt, h').
Proof using HC.
  intros El Er Hn q. assert (Hq : h !! q = None) by apply fresh_None.
  apply (copyLoop h l q n c ms vs n 0 _ (replicate n zero)); try done; [apply length_replicate|].
  split; [by apply insert_subseteq | apply lookup_cell_insert | done | constructor | by intros k ?%not_elem_of_nil].
Qed.

(** A finished array as a slice. *)
Lemma copiedTo_slice h h' q ys n vs :
  copiedTo h h' q ys n vs -> h !! q = None -> length ys = n -> length vs = n -> 0 < n ->
  fresh_copy h h' (SliceRef (Some q) n n : sliceref M) (Some vs).
Proof.
  intros [O A R N F] Hq Hy Hv Hn. rewrite (take_ge vs) in R by lia.
  split; [done|..]; cbn [read locs slice_stored]; unfold readSlice, locsSlice; cbn [array cap len]; rewrite decide_False by lia; rewrite A.
  - rewrite decide_True by lia. by rewrite R.
  - apply NoDup_cons. split; [|done]. by intros [_ ?]%F.
  - intros k [->|Hk]%elem_of_cons; [done | by apply F].
Qed.

End slice.

Lemma fresh_empty {M V} `{Cell (list M), Stored M V} h (c : cell) :
  let q := fresh (dom h) in
  fresh_copy h (<[q := c]> h) (SliceRef (Some q) 0 0 : sliceref M) (Some []).
Proof.
  split; cbn [read locs slice_stored]; unfold readSlice, locsSlice; cbn [array cap len].
  - apply insert_subseteq, fresh_None.
  - by rewrite !decide_True.
  - rewrite decide_True by done. constructor.
  - rewrite decide_True by done. by intros l ?%not_elem_of_nil.
Qed.

(** A slice that has a value: nil, empty, or the first elements of its array. *)
Lemma readSlice_inv {M V} `{Cell (list M), Stored M V} h (s : sliceref M) v :
  read h s = Some v ->
  (v = None /\ s = nilslice)
  \/ exists l, array s = Some l /\
      ((v = Some [] /\ len s = 0)
       \/ exists ms vs, 0 < len s /\ v = Some vs /\ lookup_cell h l = Some ms /\ len s <= cap s <= length ms
          /\ readAll h (take (len s) ms) = Some vs /\ locs h s = l :: locsAll h (take (len s) ms)).
Proof.
  cbn [read locs slice_stored]. unfold readSlice, locsSlice. destruct s as [[l|] n c]; cbn [array cap len].
  2:{ case_decide as D; [|done]. destruct D as [-> ->]. intros [= <-]. by left. }
  intros R. right. exists l. split; [done|]. revert R. case_decide.
  - case_decide; [|done]. intros [= <-]. by left.
  - destruct (lookup_cell (A := list M) h l) as [ms|] eqn:E; [|done]. case_decide; [|done].
    destruct (readAll h (take n ms)) as [vs|] eqn:R; [|done]. intros [= <-].
    destruct n as [|n]; [left; by injection R as <- | right]. exists ms, vs. split_and!; (done || lia).
Qed.

#[export] Instance copies_slice {M V} `{Zero M, Cell (list M), Stored M V} (copy : M -> mem M) :
  Copies copy -> Copies (copySlice copy).
Proof.
  intros HC h s v [[-> ->]|(l & E & [[-> El]|(ms & vs & Hn & -> & E1 & E2 & E3 & _)])]%readSlice_inv;
    unfold copySlice; rewrite ?E.
  - exists nilslice, h. split; [done|].
    split; [done | done | constructor | by intros l ?%not_elem_of_nil].
  - rewrite El. eexists _, _. split; [reflexivity|]. apply fresh_empty.
  - destruct s as [a n c]; cbn [array len cap] in *; subst a.
    destruct (copyLoop_all copy h l n c ms vs E1 E3 ltac:(lia)) as (h' & ys & Hl & I & EL).
    exists (SliceRef (Some (fresh (dom h))) n n), h'. split.
    + rewrite (bind_Some _ _ _ (SliceRef (Some (fresh (dom h))) n n)
        (<[fresh (dom h) := to_cell (replicate n (zero : M))]> h)) by done.
      by rewrite (bind_Some _ _ _ tt h').
    + eapply copiedTo_slice; [done | apply fresh_None | done | | done].
      rewrite (readAll_length _ _ _ E3), length_take. lia.
Qed.

(** [copy] copies elements that refer to nothing. *)
Section flat.
Context {M : Type} `{Zero M, Cell (list M)}.
#[local] Instance flat_stored : Stored M M := Stored_const M.

Lemma locsAll_flat h (ms : list M) : locsAll h ms = [].
Proof. induction ms as [|m ms IH]; [done|]. by rewrite locsAll_cons, IH. Qed.

Lemma readAll_flat h (ms : list M) : readAll h ms = Some ms.
Proof. unfold readAll. apply mapM_Some. induction ms; by constructor. Qed.

Lemma copies_flat : Copies (copyFlat (A := M)).
Proof.
  intros h s v [[-> ->]|(l & E & [[-> El]|(ms & vs & Hn & -> & E1 & E2 & E3 & _)])]%readSlice_inv;
    unfold copyFlat; rewrite ?E.
  - exists nilslice, h. split; [done|].
    split; [done | done | constructor | by intros l ?%not_elem_of_nil].
  - rewrite El. eexists _, _. split; [reflexivity|]. apply fresh_empty.
  - destruct s as [a n c]; cbn [array len cap] in *; subst a. set (q := fresh (dom h)).
    assert (Hq : h !! q = None) by apply fresh_None.
    assert (Hl : l <> q) by (intros ->; destruct (lookup_cell_Some _ _ _ E1); congruence).
    rewrite readAll_flat in E3. injection E3 as <-.
    exists (SliceRef (Some q) n n), (<[q := to_cell (take n ms)]> h). split.
    + rewrite (bind_Some _ _ _ (SliceRef (Some q) n n) (<[q := to_cell (replicate n (zero : M))]> h)) by done.
      erewrite bind_Some; [reflexivity|]. unfold copyElements. cbn [len]. rewrite Nat.min_id.
      destruct n as [|n]; [lia|]. unfold elements. cbn [array].
      rewrite (bind_Some _ _ _ ms (<[q := to_cell (replicate (S n) (zero : M))]> h)) by (apply load_Some; by rewrite lookup_cell_ne).
      rewrite (bind_Some _ _ _ (replicate (S n) zero) (<[q := to_cell (replicate (S n) (zero : M))]> h))
        by (apply load_Some, lookup_cell_insert).
      rewrite store_Some by (rewrite lookup_insert_eq; by eexists). rewrite insert_insert_eq.
      rewrite drop_ge by (rewrite length_replicate; lia). by rewrite app_nil_r.
    + apply (copiedTo_slice h _ q (take n ms)); [|done|rewrite length_take; lia|rewrite length_take; lia|done].
      split; [by apply insert_subseteq | apply lookup_cell_insert | by rewrite readAll_flat | |].
      * rewrite locsAll_flat. constructor.
      * intros k. rewrite locsAll_flat. by intros ?%not_elem_of_nil.
Qed.

End flat.

(** ** Structs, one field after the other *)

Definition copyPair {A B} (copy : A -> mem A) (copy' : B -> mem B) (p : A * B) : mem (A * B) :=
  a ← copy p.1; b ← copy' p.2; mret (a, b).

#[export] Instance copies_pair {M V M' V'} `{Stored M V, Stored M' V'} (copy : M -> mem M) (copy' : M' -> mem M') :
  Copies copy -> Copies copy' -> Copies (copyPair copy copy').
Proof.
  intros HC HC' h [m m'] p. cbn [read prod_stored fst snd].
  destruct (read h m) as [v|] eqn:R; [|done]. destruct (read h m') as [v'|] eqn:R'; [|done]. intros [= <-].
  destruct (HC h m v R) as (n & h1 & E & [O Q N F]).
  destruct (HC' h1 m' v') as (n' & h2 & E' & [O' Q' N' F']); [by eapply read_mono|].
  destruct (read_mono h1 h2 n v O' Q) as [Q2 L2].
  exists (n, n'), h2. split.
  - unfold copyPair. cbn [fst snd]. rewrite (bind_Some _ _ _ n h1) by done. by rewrite (bind_Some _ _ _ n' h2).
  - split; cbn [read locs prod_stored fst snd].
    + by etrans.
    + by rewrite Q2, Q'.
    + rewrite L2. apply NoDup_app. split; [done|]. split; [|done].
      intros l Hl Hl'%F'. destruct (read_locs h1 n v Q l Hl). congruence.
    + intros l. rewrite L2, elem_of_app. intros [Hl|Hl%F']; [by apply F|].
      destruct (h !! l) as [c|] eqn:Ec; [|done]. eapply lookup_weaken in Ec; [|exact O]. congruence.
Qed.

(** A struct whose references are [parts]: when its DeepCopyInto is that of the
    parts, it copies. *)
Lemma copies_via {P W M V} `{Stored P W} (parts : M -> P) (build : M -> W -> V) (rebuild : M -> P -> M)
    (copyParts : P -> mem P) (copy : M -> mem M) :
  Copies copyParts ->
  (forall m h, copy m h = (p ← copyParts (parts m); mret (rebuild m p)) h) ->
  (forall m p, parts (rebuild m p) = p) ->
  (forall m p w, build (rebuild m p) w = build m w) ->
  @Copies M V (Stored_via parts build) copy.
Proof.
  intros HC He Hp Hb h m v. cbn [read Stored_via]. destruct (read h (parts m)) as [w|] eqn:R; [|done].
  intros [= <-]. destruct (HC h (parts m) w R) as (p & h' & E & [O Q N F]).
  exists (rebuild m p), h'. split.
  - rewrite He. by rewrite (bind_Some _ _ _ p h').
  - split; cbn [read locs Stored_via]; rewrite ?Hp; [done | by rewrite Q; cbn; rewrite Hb | done | done].
Qed.

(** ** Pointers to structs *)

#[export] Instance copies_deepCopy {M V} `{Cell M, Stored M V} (copy : M -> mem M) :
  Copies copy -> Copies (deepCopy copy).
Proof.
  intros HC h [[l|]] v; cbn [read ptr_stored addr].
  - destruct (lookup_cell (A := M) h l) as [m|] eqn:E; [|done]. destruct (read h m) as [w|] eqn:R; [|done].
    intros [= <-]. set (q := fresh (dom h)). assert (Hq : h !! q = None) by apply fresh_None.
    assert (Hl : l <> q) by (intros ->; destruct (lookup_cell_Some _ _ _ E); congruence).
    set (h1 := <[q := to_cell (zero : M)]> h). assert (S1 : h ⊆ h1) by by apply insert_subseteq.
    destruct (HC h1 m w) as (m' & h2 & Ec & [O Q N F]); [by eapply read_mono|].
    assert (Hq2 : is_Some (h2 !! q)) by (eapply lookup_weaken_is_Some, O; unfold h1; rewrite lookup_insert_eq; by eexists).
    assert (Hqm : q ∉ locs h2 m') by (intros Hm%F; unfold h1 in Hm; by rewrite lookup_insert_eq in Hm).
    destruct (read_insert h2 m' w q (to_cell m') Hqm Q) as [Q3 L3].
    exists (Ptr (Some q)), (<[q := to_cell m']> h2). split.
    + unfold deepCopy. cbn [addr]. rewrite (bind_Some _ _ _ (Ptr (Some q)) h1) by done.
      rewrite (bind_Some _ _ _ m h1) by (apply load_Some; unfold h1; by rewrite lookup_cell_ne).
      rewrite (bind_Some _ _ _ m' h2) by done. erewrite bind_Some by by apply store_Some. done.
    + split; cbn [read locs ptr_stored addr].
      * apply insert_fresh_subseteq; [by etrans | done].
      * rewrite lookup_cell_insert, Q3. done.
      * rewrite lookup_cell_insert, L3. by apply NoDup_cons.
      * rewrite lookup_cell_insert, L3. intros k [->|Hk%F]%elem_of_cons; [done|].
        destruct (h !! k) as [c|] eqn:Ek; [|done]. eapply lookup_weaken in Ek; [|exact S1]. congruence.
  - intros [= <-]. exists nilptr, h. split; [done|]. split; [done | done | constructor | by intros l ?%not_elem_of_nil].
Qed.

(** ** What that means *)

(** Whatever is then written to the memory of the original, the copy keeps its
    value, and whatever is written to the new memory, the original does. *)
Definition isolated {M V} `{Stored M V} (copy : M -> mem M) : Prop :=
  forall h m v, read h m = Some v ->
  exists m' h', copy m h = Some (m', h')
  /\ read h' m' = Some v /\ read h' m = Some v
  /\ (forall h'', (forall l, h !! l = None -> h'' !! l = h' !! l) -> read h'' m' = Some v)
  /\ (forall h'', (forall l, is_Some (h !! l) -> h'' !! l = h' !! l) -> read h'' m = Some v).

Lemma copies_isolated {M V} `{Stored M V} (copy : M -> mem M) : Copies copy -> isolated copy.
Proof.
  intros HC h m v R. destruct (HC h m v R) as (m' & h' & E & [O Q N F]). exists m', h'.
  destruct (read_mono h h' m v O R) as [R' L']. split_and!; try done.
  - intros h'' Hh. eapply read_agree; [exact Q|]. intros l Hl. by apply Hh, F.
  - intros h'' Hh. eapply read_agree; [exact R'|]. intros l Hl. apply Hh. rewrite L' in Hl. by eapply read_locs.
Qed.

(** The interface that DeepCopyObject returns is nil exactly when the pointer is,
    and else holds the copy. *)
Lemma deepCopyObject_Some {A} (copy : ptr A -> mem (ptr A)) (p q : ptr A) h h' :
  copy p h = Some (q, h') ->
  deepCopyObject copy p h = Some (match addr q with Some _ => Some q | None => None end, h').
Proof. intros E. unfold deepCopyObject. rewrite (bind_Some _ _ _ q h') by done. by destruct (addr q). Qed.
