(* ===== verification/DeepCopy.v ===== *)
(** * The generated deep copies

    zz_generated.deepcopy.go of api/karpenter/v1, api/karpenter/v1alpha1 and
    pkg/apis/autoscaling/v1alpha1, and those of the vendored metav1 types in them.
    [DeepCopyInto] returns what it writes to [*out], whose first statement
    [*out = *in] copies the fields that are not named again. *)

From S2P Require Import Prelude MetaV1 KarpenterV1 AzureTypes OcpTypes MemTypes GoMem GoCopy.

(** Shows that a DeepCopyInto is that of the references in its struct. *)
Ltac copy_fields :=
  intros m h; lazymatch goal with |- ?f m h = _ => unfold f end;
  unfold copyPair, mbind, mem_bind, mret, mem_ret; cbn [fst snd];
  repeat match goal with |- context [match ?c with Some _ => _ | None => _ end] =>
    lazymatch c with context [match _ with Some _ => _ | None => _ end] => fail | _ => destruct c as [[? ?]|] end end;
  reflexivity.

(** ** k8s.io/apimachinery/pkg/apis/meta/v1 *)

#[export] Instance string_flat : Copies (copyFlat (A := string)) := copies_flat.
#[export] Instance ascii_flat : Copies (copyFlat (A := ascii)) := copies_flat.

Definition Condition_DeepCopyInto (in_ : Condition) : mem Condition := mret in_.
#[export] Instance Condition_copies : Copies Condition_DeepCopyInto := copies_const _.

Module metacopy.
Import metam.

Definition OwnerReference_DeepCopyInto (in_ : OwnerReference) : mem OwnerReference :=
  controller ← copyPtr (Controller in_);
  blockOwnerDeletion ← copyPtr (BlockOwnerDeletion in_);
  mret (mkOwnerReference (APIVersion in_) (Kind in_) (Name in_) (UID in_) controller blockOwnerDeletion).

#[global] Instance OwnerReference_stored : Stored OwnerReference MetaV1.OwnerReference :=
  Stored_via (fun x => (Controller x, BlockOwnerDeletion x))
    (fun x '(a, b) => MetaV1.mkOwnerReference (APIVersion x) (Kind x) (Name x) (UID x) a b).

#[global] Instance OwnerReference_copies : Copies OwnerReference_DeepCopyInto.
Proof.
  apply (copies_via _ _ (fun x (p : ptr bool * (ptr bool)) => let '(a, b) := p in mkOwnerReference (APIVersion x)
    (Kind x) (Name x) (UID x) a b)
    (copyPair copyPtr copyPtr));
    [apply _ | copy_fields | by intros ? (? & ?) | by intros ? (? & ?) (? & ?)].
Qed.

Definition ObjectMeta_DeepCopyInto (in_ : ObjectMeta) : mem ObjectMeta :=
  deletionTimestamp ← copyPtr (om_DeletionTimestamp in_);
  labels ← copyMap (om_Labels in_);
  annotations ← copyMap (om_Annotations in_);
  ownerReferences ← copySlice OwnerReference_DeepCopyInto (om_OwnerReferences in_);
  finalizers ← copyFlat (om_Finalizers in_);
  mret (mkObjectMeta (om_Name in_) (om_Namespace in_) (om_UID in_) (om_ResourceVersion in_) (om_Generation in_)
    deletionTimestamp labels annotations ownerReferences finalizers).

#[global] Instance ObjectMeta_stored : Stored ObjectMeta MetaV1.ObjectMeta :=
  Stored_via (fun x => (om_DeletionTimestamp x, (om_Labels x, (om_Annotations x, (om_OwnerReferences x,
    om_Finalizers x)))))
    (fun x '(a, (b, (c, (d, e)))) => MetaV1.mkObjectMeta (om_Name x) (om_Namespace x) (om_UID x)
      (om_ResourceVersion x) (om_Generation x) a b c d e).

#[global] Instance ObjectMeta_copies : Copies ObjectMeta_DeepCopyInto.
Proof.
  apply (copies_via _ _ (fun x (p : ptr Time * (mapref * (mapref * (sliceref OwnerReference * (sliceref string)))))
    => let '(a, (b, (c, (d, e)))) := p in mkObjectMeta (om_Name x) (om_Namespace x) (om_UID x) (om_ResourceVersion
    x) (om_Generation x) a b c d e)
    (copyPair copyPtr (copyPair copyMap (copyPair copyMap (copyPair (copySlice OwnerReference_DeepCopyInto)
      copyFlat)))));
    [apply _ | copy_fields | by intros ? (? & ? & ? & ? & ?) | by intros ? (? & ? & ? & ? & ?) (? & ? & ? & ? & ?)].
Qed.

Definition ListMeta_DeepCopyInto (in_ : ListMeta) : mem ListMeta :=
  remainingItemCount ← copyPtr (lm_RemainingItemCount in_);
  mret (mkListMeta (lm_ResourceVersion in_) (lm_Continue in_) remainingItemCount).

#[global] Instance ListMeta_stored : Stored ListMeta MemTypes.ListMeta :=
  Stored_via (fun x => lm_RemainingItemCount x)
    (fun x a => MemTypes.mkListMeta (lm_ResourceVersion x) (lm_Continue x) a).

#[global] Instance ListMeta_copies : Copies ListMeta_DeepCopyInto.
Proof.
  apply (copies_via _ _ (fun x a => mkListMeta (lm_ResourceVersion x) (lm_Continue x) a)
    copyPtr);
    [apply _ | copy_fields | by intros ? ? | by intros ? ? ?].
Qed.
End metacopy.

(** ** api/karpenter/v1 *)

#[export] Instance Subnet_stored : Stored osv1.Subnet osv1.Subnet := Stored_const _.
#[export] Instance SecurityGroup_stored : Stored osv1.SecurityGroup osv1.SecurityGroup := Stored_const _.
#[export] Instance CapacityReservation_stored : Stored osv1.CapacityReservation osv1.CapacityReservation :=
  Stored_const _.
#[export] Instance MetadataOptions_stored : Stored osv1.MetadataOptions osv1.MetadataOptions := Stored_const _.
#[export] Instance Subnet_flat : Copies (copyFlat (A := osv1.Subnet)) := copies_flat.
#[export] Instance SecurityGroup_flat : Copies (copyFlat (A := osv1.SecurityGroup)) := copies_flat.

Module osv1copy.
Import osv1m.
Abbreviation Subnet := osv1.Subnet.
Abbreviation SecurityGroup := osv1.SecurityGroup.
Abbreviation CapacityReservation := osv1.CapacityReservation.
Abbreviation MetadataOptions := osv1.MetadataOptions.

Definition BlockDevice_DeepCopyInto (in_ : BlockDevice) : mem BlockDevice :=
  iops ← copyPtr (bd_IOPS in_);
  throughput ← copyPtr (bd_Throughput in_);
  mret (mkBlockDevice (bd_DeleteOnTermination in_) (bd_Encrypted in_) iops (bd_KMSKeyID in_) (bd_SnapshotID in_)
    throughput (bd_VolumeSizeGiB in_) (bd_VolumeType in_)).

#[global] Instance BlockDevice_stored : Stored BlockDevice osv1.BlockDevice :=
  Stored_via (fun x => (bd_IOPS x, bd_Throughput x))
    (fun x '(a, b) => osv1.mkBlockDevice (bd_DeleteOnTermination x) (bd_Encrypted x) a (bd_KMSKeyID x)
      (bd_SnapshotID x) b (bd_VolumeSizeGiB x) (bd_VolumeType x)).

#[global] Instance BlockDevice_copies : Copies BlockDevice_DeepCopyInto.
Proof.
  apply (copies_via _ _ (fun x (p : ptr Z * (ptr Z)) => let '(a, b) := p in mkBlockDevice (bd_DeleteOnTermination
    x) (bd_Encrypted x) a (bd_KMSKeyID x) (bd_SnapshotID x) b (bd_VolumeSizeGiB x) (bd_VolumeType x))
    (copyPair copyPtr copyPtr));
    [apply _ | copy_fields | by intros ? (? & ?) | by intros ? (? & ?) (? & ?)].
Qed.
Definition BlockDevice_DeepCopy : ptr BlockDevice -> mem (ptr BlockDevice) := deepCopy BlockDevice_DeepCopyInto.

Definition BlockDeviceMapping_DeepCopyInto (in_ : BlockDeviceMapping) : mem BlockDeviceMapping :=
  ebs ← BlockDevice_DeepCopyInto (bdm_EBS in_);
  mret (mkBlockDeviceMapping (bdm_DeviceName in_) ebs (bdm_RootVolume in_)).

#[global] Instance BlockDeviceMapping_stored : Stored BlockDeviceMapping osv1.BlockDeviceMapping :=
  Stored_via (fun x => bdm_EBS x)
    (fun x a => osv1.mkBlockDeviceMapping (bdm_DeviceName x) a (bdm_RootVolume x)).

#[global] Instance BlockDeviceMapping_copies : Copies BlockDeviceMapping_DeepCopyInto.
Proof.
  apply (copies_via _ _ (fun x a => mkBlockDeviceMapping (bdm_DeviceName x) a (bdm_RootVolume x))
    BlockDevice_DeepCopyInto);
    [apply _ | copy_fields | by intros ? ? | by intros ? ? ?].
Qed.
Definition BlockDeviceMapping_DeepCopy : ptr BlockDeviceMapping -> mem (ptr BlockDeviceMapping) :=
  deepCopy BlockDeviceMapping_DeepCopyInto.

Definition CapacityReservation_DeepCopyInto (in_ : CapacityReservation) : mem CapacityReservation := mret in_.
#[global] Instance CapacityReservation_copies : Copies CapacityReservation_DeepCopyInto := copies_const _.
Definition CapacityReservation_DeepCopy : ptr CapacityReservation -> mem (ptr CapacityReservation) :=
  deepCopy CapacityReservation_DeepCopyInto.

Definition CapacityReservationSelectorTerm_DeepCopyInto (in_ : CapacityReservationSelectorTerm) :
    mem CapacityReservationSelectorTerm :=
  tags ← copyMap (crst_Tags in_);
  mret (mkCapacityReservationSelectorTerm tags (crst_ID in_) (crst_OwnerID in_) (crst_InstanceMatchCriteria in_)).

#[global] Instance CapacityReservationSelectorTerm_stored : Stored CapacityReservationSelectorTerm
  osv1.CapacityReservationSelectorTerm :=
  Stored_via (fun x => crst_Tags x)
    (fun x a => osv1.mkCapacityReservationSelectorTerm a (crst_ID x) (crst_OwnerID x) (crst_InstanceMatchCriteria
      x)).

#[global] Instance CapacityReservationSelectorTerm_copies : Copies CapacityReservationSelectorTerm_DeepCopyInto.
Proof.
  apply (copies_via _ _ (fun x a => mkCapacityReservationSelectorTerm a (crst_ID x) (crst_OwnerID x)
    (crst_InstanceMatchCriteria x))
    copyMap);
    [apply _ | copy_fields | by intros ? ? | by intros ? ? ?].
Qed.
Definition CapacityReservationSelectorTerm_DeepCopy : ptr CapacityReservationSelectorTerm -> mem (ptr CapacityReservationSelectorTerm) :=
  deepCopy CapacityReservationSelectorTerm_DeepCopyInto.

Definition KubeletConfiguration_DeepCopyInto (in_ : KubeletConfiguration) : mem KubeletConfiguration :=
  systemReserved ← copyMap (kc_SystemReserved in_);
  kubeReserved ← copyMap (kc_KubeReserved in_);
  evictionHard ← copyMap (kc_EvictionHard in_);
  evictionSoft ← copyMap (kc_EvictionSoft in_);
  evictionSoftGracePeriod ← copyMap (kc_EvictionSoftGracePeriod in_);
  evictionMaxPodGracePeriod ← copyPtr (kc_EvictionMaxPodGracePeriod in_);
  imageGCHighThresholdPercent ← copyPtr (kc_ImageGCHighThresholdPercent in_);
  imageGCLowThresholdPercent ← copyPtr (kc_ImageGCLowThresholdPercent in_);
  cpuCFSQuota ← copyPtr (kc_CPUCFSQuota in_);
  overflow ← copyFlat (kc_Overflow in_);
  mret (mkKubelet (kc_MaxPods in_) (kc_PodsPerCore in_) systemReserved kubeReserved evictionHard evictionSoft
    evictionSoftGracePeriod evictionMaxPodGracePeriod imageGCHighThresholdPercent imageGCLowThresholdPercent
    cpuCFSQuota overflow).

#[global] Instance KubeletConfiguration_stored : Stored KubeletConfiguration osv1.KubeletConfiguration :=
  Stored_via (fun x => (kc_SystemReserved x, (kc_KubeReserved x, (kc_EvictionHard x, (kc_EvictionSoft x,
    (kc_EvictionSoftGracePeriod x, (kc_EvictionMaxPodGracePeriod x, (kc_ImageGCHighThresholdPercent x,
    (kc_ImageGCLowThresholdPercent x, (kc_CPUCFSQuota x, kc_Overflow x))))))))))
    (fun x '(a, (b, (c, (d, (e, (f, (g, (h, (i, j))))))))) => osv1.mkKubelet (kc_MaxPods x) (kc_PodsPerCore x) a b
      c d e f g h i j).

#[global] Instance KubeletConfiguration_copies : Copies KubeletConfiguration_DeepCopyInto.
Proof.
  apply (copies_via _ _ (fun x (p : mapref * (mapref * (mapref * (mapref * (mapref * (ptr Z * (ptr Z * (ptr Z *
    (ptr bool * (sliceref ascii)))))))))) => let '(a, (b, (c, (d, (e, (f, (g, (h, (i, j))))))))) := p in mkKubelet
    (kc_MaxPods x) (kc_PodsPerCore x) a b c d e f g h i j)
    (copyPair copyMap (copyPair copyMap (copyPair copyMap (copyPair copyMap (copyPair copyMap (copyPair copyPtr
      (copyPair copyPtr (copyPair copyPtr (copyPair copyPtr copyFlat))))))))));
    [apply _ | copy_fields | by intros ? (? & ? & ? & ? & ? & ? & ? & ? & ? & ?) | by intros ? (? & ? & ? & ? & ? &
      ? & ? & ? & ? & ?) (? & ? & ? & ? & ? & ? & ? & ? & ? & ?)].
Qed.
Definition KubeletConfiguration_DeepCopy : ptr KubeletConfiguration -> mem (ptr KubeletConfiguration) :=
  deepCopy KubeletConfiguration_DeepCopyInto.

Definition MetadataOptions_DeepCopyInto (in_ : MetadataOptions) : mem MetadataOptions := mret in_.
#[global] Instance MetadataOptions_copies : Copies MetadataOptions_DeepCopyInto := copies_const _.
Definition MetadataOptions_DeepCopy : ptr MetadataOptions -> mem (ptr MetadataOptions) :=
  deepCopy MetadataOptions_DeepCopyInto.

Definition SecurityGroup_DeepCopyInto (in_ : SecurityGroup) : mem SecurityGroup := mret in_.
#[global] Instance SecurityGroup_copies : Copies SecurityGroup_DeepCopyInto := copies_const _.
Definition SecurityGroup_DeepCopy : ptr SecurityGroup -> mem (ptr SecurityGroup) :=
  deepCopy SecurityGroup_DeepCopyInto.

Definition SecurityGroupSelectorTerm_DeepCopyInto (in_ : SecurityGroupSelectorTerm) : mem SecurityGroupSelectorTerm :=
  tags ← copyMap (sgst_Tags in_);
  mret (mkSecurityGroupSelectorTerm tags (sgst_ID in_) (sgst_Name in_)).

#[global] Instance SecurityGroupSelectorTerm_stored : Stored SecurityGroupSelectorTerm
  osv1.SecurityGroupSelectorTerm :=
  Stored_via (fun x => sgst_Tags x)
    (fun x a => osv1.mkSecurityGroupSelectorTerm a (sgst_ID x) (sgst_Name x)).

#[global] Instance SecurityGroupSelectorTerm_copies : Copies SecurityGroupSelectorTerm_DeepCopyInto.
Proof.
  apply (copies_via _ _ (fun x a => mkSecurityGroupSelectorTerm a (sgst_ID x) (sgst_Name x))
    copyMap);
    [apply _ | copy_fields | by intros ? ? | by intros ? ? ?].
Qed.
Definition SecurityGroupSelectorTerm_DeepCopy : ptr SecurityGroupSelectorTerm -> mem (ptr SecurityGroupSelectorTerm) :=
  deepCopy SecurityGroupSelectorTerm_DeepCopyInto.

Definition Subnet_DeepCopyInto (in_ : Subnet) : mem Subnet := mret in_.
#[global] Instance Subnet_copies : Copies Subnet_DeepCopyInto := copies_const _.
Definition Subnet_DeepCopy : ptr Subnet -> mem (ptr Subnet) := deepCopy Subnet_DeepCopyInto.

Definition SubnetSelectorTerm_DeepCopyInto (in_ : SubnetSelectorTerm) : mem SubnetSelectorTerm :=
  tags ← copyMap (sst_Tags in_);
  mret (mkSubnetSelectorTerm tags (sst_ID in_)).

#[global] Instance SubnetSelectorTerm_stored : Stored SubnetSelectorTerm osv1.SubnetSelectorTerm :=
  Stored_via (fun x => sst_Tags x)
    (fun x a => osv1.mkSubnetSelectorTerm a (sst_ID x)).

#[global] Instance SubnetSelectorTerm_copies : Copies SubnetSelectorTerm_DeepCopyInto.
Proof.
  apply (copies_via _ _ (fun x a => mkSubnetSelectorTerm a (sst_ID x))
    copyMap);
    [apply _ | copy_fields | by intros ? ? | by intros ? ? ?].
Qed.
Definition SubnetSelectorTerm_DeepCopy : ptr SubnetSelectorTerm -> mem (ptr SubnetSelectorTerm) :=
  deepCopy SubnetSelectorTerm_DeepCopyInto.

Definition OpenshiftEC2NodeClassSpec_DeepCopyInto (in_ : OpenshiftEC2NodeClassSpec) : mem OpenshiftEC2NodeClassSpec :=
  subnetSelectorTerms ← copySlice SubnetSelectorTerm_DeepCopyInto (SubnetSelectorTerms in_);
  securityGroupSelectorTerms ← copySlice SecurityGroupSelectorTerm_DeepCopyInto (SecurityGroupSelectorTerms in_);
  capacityReservationSelectorTerms ← copySlice CapacityReservationSelectorTerm_DeepCopyInto (CapacityReservationSelectorTerms in_);
  tags ← copyMap (Tags in_);
  blockDeviceMappings ← copySlice BlockDeviceMapping_DeepCopyInto (BlockDeviceMappings in_);
  kubelet ← KubeletConfiguration_DeepCopyInto (Kubelet in_);
  mret (mkSpec subnetSelectorTerms securityGroupSelectorTerms capacityReservationSelectorTerms
    (IPAddressAssociation in_) tags blockDeviceMappings (InstanceStorePolicy in_) (Monitoring in_)
    (MetadataOptionsField in_) (Version in_) kubelet).

#[global] Instance OpenshiftEC2NodeClassSpec_stored : Stored OpenshiftEC2NodeClassSpec
  osv1.OpenshiftEC2NodeClassSpec :=
  Stored_via (fun x => (SubnetSelectorTerms x, (SecurityGroupSelectorTerms x, (CapacityReservationSelectorTerms x,
    (Tags x, (BlockDeviceMappings x, Kubelet x))))))
    (fun x '(a, (b, (c, (d, (e, f))))) => osv1.mkSpec a b c (IPAddressAssociation x) d e (InstanceStorePolicy x)
      (Monitoring x) (MetadataOptionsField x) (Version x) f).

#[global] Instance OpenshiftEC2NodeClassSpec_copies : Copies OpenshiftEC2NodeClassSpec_DeepCopyInto.
Proof.
  apply (copies_via _ _ (fun x (p : sliceref SubnetSelectorTerm * (sliceref SecurityGroupSelectorTerm * (sliceref
    CapacityReservationSelectorTerm * (mapref * (sliceref BlockDeviceMapping * (KubeletConfiguration)))))) => let
    '(a, (b, (c, (d, (e, f))))) := p in mkSpec a b c (IPAddressAssociation x) d e (InstanceStorePolicy x)
    (Monitoring x) (MetadataOptionsField x) (Version x) f)
    (copyPair (copySlice SubnetSelectorTerm_DeepCopyInto) (copyPair (copySlice
      SecurityGroupSelectorTerm_DeepCopyInto) (copyPair (copySlice CapacityReservationSelectorTerm_DeepCopyInto)
      (copyPair copyMap (copyPair (copySlice BlockDeviceMapping_DeepCopyInto)
      KubeletConfiguration_DeepCopyInto))))));
    [apply _ | copy_fields | by intros ? (? & ? & ? & ? & ? & ?) | by intros ? (? & ? & ? & ? & ? & ?) (? & ? & ? &
      ? & ? & ?)].
Qed.
Definition OpenshiftEC2NodeClassSpec_DeepCopy : ptr OpenshiftEC2NodeClassSpec -> mem (ptr OpenshiftEC2NodeClassSpec) :=
  deepCopy OpenshiftEC2NodeClassSpec_DeepCopyInto.

Definition OpenshiftEC2NodeClassStatus_DeepCopyInto (in_ : OpenshiftEC2NodeClassStatus) :
    mem OpenshiftEC2NodeClassStatus :=
  conditions ← copySlice Condition_DeepCopyInto (Conditions in_);
  subnets ← copyFlat (Subnets in_);
  securityGroups ← copyFlat (SecurityGroups in_);
  capacityReservations ← copySlice CapacityReservation_DeepCopyInto (CapacityReservations in_);
  mret (mkStatus conditions subnets securityGroups (ReleaseImage in_) (StatusVersion in_) capacityReservations).

#[global] Instance OpenshiftEC2NodeClassStatus_stored : Stored OpenshiftEC2NodeClassStatus
  osv1.OpenshiftEC2NodeClassStatus :=
  Stored_via (fun x => (Conditions x, (Subnets x, (SecurityGroups x, CapacityReservations x))))
    (fun x '(a, (b, (c, d))) => osv1.mkStatus a b c (ReleaseImage x) (StatusVersion x) d).

#[global] Instance OpenshiftEC2NodeClassStatus_copies : Copies OpenshiftEC2NodeClassStatus_DeepCopyInto.
Proof.
  apply (copies_via _ _ (fun x (p : sliceref Condition * (sliceref Subnet * (sliceref SecurityGroup * (sliceref
    CapacityReservation)))) => let '(a, (b, (c, d))) := p in mkStatus a b c (ReleaseImage x) (StatusVersion x) d)
    (copyPair (copySlice Condition_DeepCopyInto) (copyPair copyFlat (copyPair copyFlat (copySlice
      CapacityReservation_DeepCopyInto)))));
    [apply _ | copy_fields | by intros ? (? & ? & ? & ?) | by intros ? (? & ? & ? & ?) (? & ? & ? & ?)].
Qed.
Definition OpenshiftEC2NodeClassStatus_DeepCopy : ptr OpenshiftEC2NodeClassStatus -> mem (ptr OpenshiftEC2NodeClassStatus) :=
  deepCopy OpenshiftEC2NodeClassStatus_DeepCopyInto.

Definition OpenshiftEC2NodeClass_DeepCopyInto (in_ : OpenshiftEC2NodeClass) : mem OpenshiftEC2NodeClass :=
  meta ← metacopy.ObjectMeta_DeepCopyInto (meta in_);
  spec ← OpenshiftEC2NodeClassSpec_DeepCopyInto (Spec in_);
  status ← OpenshiftEC2NodeClassStatus_DeepCopyInto (Status in_);
  mret (mkOpenshiftEC2NodeClass meta spec status).

#[global] Instance OpenshiftEC2NodeClass_stored : Stored OpenshiftEC2NodeClass osv1.OpenshiftEC2NodeClass :=
  Stored_via (fun x => (meta x, (Spec x, Status x)))
    (fun x '(a, (b, c)) => osv1.mkOpenshiftEC2NodeClass a b c).

#[global] Instance OpenshiftEC2NodeClass_copies : Copies OpenshiftEC2NodeClass_DeepCopyInto.
Proof.
  apply (copies_via _ _ (fun x (p : metam.ObjectMeta * (OpenshiftEC2NodeClassSpec * (OpenshiftEC2NodeClassStatus)))
    => let '(a, (b, c)) := p in mkOpenshiftEC2NodeClass a b c)
    (copyPair metacopy.ObjectMeta_DeepCopyInto (copyPair OpenshiftEC2NodeClassSpec_DeepCopyInto
      OpenshiftEC2NodeClassStatus_DeepCopyInto)));
    [apply _ | copy_fields | by intros ? (? & ? & ?) | by intros ? (? & ? & ?) (? & ? & ?)].
Qed.
Definition OpenshiftEC2NodeClass_DeepCopy : ptr OpenshiftEC2NodeClass -> mem (ptr OpenshiftEC2NodeClass) :=
  deepCopy OpenshiftEC2NodeClass_DeepCopyInto.
Definition OpenshiftEC2NodeClass_DeepCopyObject : ptr OpenshiftEC2NodeClass -> mem (option (ptr OpenshiftEC2NodeClass)) :=
  deepCopyObject OpenshiftEC2NodeClass_DeepCopy.

Definition OpenshiftEC2NodeClassList_DeepCopyInto (in_ : OpenshiftEC2NodeClassList) : mem OpenshiftEC2NodeClassList :=
  meta ← metacopy.ListMeta_DeepCopyInto (list_meta in_);
  items ← copySlice OpenshiftEC2NodeClass_DeepCopyInto (Items in_);
  mret (mkList meta items).

#[global] Instance OpenshiftEC2NodeClassList_stored : Stored OpenshiftEC2NodeClassList (ListOf
  osv1.OpenshiftEC2NodeClass) :=
  Stored_via (fun x => (list_meta x, Items x))
    (fun x '(a, b) => mkListOf a b).

#[global] Instance OpenshiftEC2NodeClassList_copies : Copies OpenshiftEC2NodeClassList_DeepCopyInto.
Proof.
  apply (copies_via _ _ (fun x (p : metam.ListMeta * (sliceref OpenshiftEC2NodeClass)) => let '(a, b) := p in
    mkList a b)
    (copyPair metacopy.ListMeta_DeepCopyInto (copySlice OpenshiftEC2NodeClass_DeepCopyInto)));
    [apply _ | copy_fields | by intros ? (? & ?) | by intros ? (? & ?) (? & ?)].
Qed.
Definition OpenshiftEC2NodeClassList_DeepCopy : ptr OpenshiftEC2NodeClassList -> mem (ptr OpenshiftEC2NodeClassList) :=
  deepCopy OpenshiftEC2NodeClassList_DeepCopyInto.
Definition OpenshiftEC2NodeClassList_DeepCopyObject : ptr OpenshiftEC2NodeClassList -> mem (option (ptr OpenshiftEC2NodeClassList)) :=
  deepCopyObject OpenshiftEC2NodeClassList_DeepCopy.

End osv1copy.

(** ** api/karpenter/v1alpha1 *)

#[export] Instance AzureEncryption_stored : Stored osv1alpha1.AzureEncryption osv1alpha1.AzureEncryption :=
  Stored_const _.
#[export] Instance AzureSecurity_stored : Stored osv1alpha1.AzureSecurity osv1alpha1.AzureSecurity := Stored_const _.

Module osv1alpha1copy.
Import osv1alpha1m.
Abbreviation AzureEncryption := osv1alpha1.AzureEncryption.
Abbreviation AzureSecurity := osv1alpha1.AzureSecurity.

Definition AzureEncryption_DeepCopyInto (in_ : AzureEncryption) : mem AzureEncryption := mret in_.
#[global] Instance AzureEncryption_copies : Copies AzureEncryption_DeepCopyInto := copies_const _.
Definition AzureEncryption_DeepCopy : ptr AzureEncryption -> mem (ptr AzureEncryption) :=
  deepCopy AzureEncryption_DeepCopyInto.

Definition AzureSecurity_DeepCopyInto (in_ : AzureSecurity) : mem AzureSecurity := mret in_.
#[global] Instance AzureSecurity_copies : Copies AzureSecurity_DeepCopyInto := copies_const _.
Definition AzureSecurity_DeepCopy : ptr AzureSecurity -> mem (ptr AzureSecurity) :=
  deepCopy AzureSecurity_DeepCopyInto.

Definition OpenShiftAzureNodeClassSpec_DeepCopyInto (in_ : OpenShiftAzureNodeClassSpec) :
    mem OpenShiftAzureNodeClassSpec :=
  tags ← copyMap (Tags in_);
  kubelet ← osv1copy.KubeletConfiguration_DeepCopyInto (Kubelet in_);
  mret (mkSpec (VNETSubnetID in_) (OSDiskSizeGiB in_) tags kubelet (SecurityField in_) (Version in_)).

#[global] Instance OpenShiftAzureNodeClassSpec_stored : Stored OpenShiftAzureNodeClassSpec
  osv1alpha1.OpenShiftAzureNodeClassSpec :=
  Stored_via (fun x => (Tags x, Kubelet x))
    (fun x '(a, b) => osv1alpha1.mkSpec (VNETSubnetID x) (OSDiskSizeGiB x) a b (SecurityField x) (Version x)).

#[global] Instance OpenShiftAzureNodeClassSpec_copies : Copies OpenShiftAzureNodeClassSpec_DeepCopyInto.
Proof.
  apply (copies_via _ _ (fun x (p : mapref * (osv1m.KubeletConfiguration)) => let '(a, b) := p in mkSpec
    (VNETSubnetID x) (OSDiskSizeGiB x) a b (SecurityField x) (Version x))
    (copyPair copyMap osv1copy.KubeletConfiguration_DeepCopyInto));
    [apply _ | copy_fields | by intros ? (? & ?) | by intros ? (? & ?) (? & ?)].
Qed.
Definition OpenShiftAzureNodeClassSpec_DeepCopy : ptr OpenShiftAzureNodeClassSpec -> mem (ptr OpenShiftAzureNodeClassSpec) :=
  deepCopy OpenShiftAzureNodeClassSpec_DeepCopyInto.

Definition OpenShiftAzureNodeClassStatus_DeepCopyInto (in_ : OpenShiftAzureNodeClassStatus) :
    mem OpenShiftAzureNodeClassStatus :=
  conditions ← copySlice Condition_DeepCopyInto (Conditions in_);
  mret (mkStatus conditions (ReleaseImage in_) (StatusVersion in_)).

#[global] Instance OpenShiftAzureNodeClassStatus_stored : Stored OpenShiftAzureNodeClassStatus
  osv1alpha1.OpenShiftAzureNodeClassStatus :=
  Stored_via (fun x => Conditions x)
    (fun x a => osv1alpha1.mkStatus a (ReleaseImage x) (StatusVersion x)).

#[global] Instance OpenShiftAzureNodeClassStatus_copies : Copies OpenShiftAzureNodeClassStatus_DeepCopyInto.
Proof.
  apply (copies_via _ _ (fun x a => mkStatus a (ReleaseImage x) (StatusVersion x))
    (copySlice Condition_DeepCopyInto));
    [apply _ | copy_fields | by intros ? ? | by intros ? ? ?].
Qed.
Definition OpenShiftAzureNodeClassStatus_DeepCopy : ptr OpenShiftAzureNodeClassStatus -> mem (ptr OpenShiftAzureNodeClassStatus) :=
  deepCopy OpenShiftAzureNodeClassStatus_DeepCopyInto.

Definition OpenShiftAzureNodeClass_DeepCopyInto (in_ : OpenShiftAzureNodeClass) : mem OpenShiftAzureNodeClass :=
  meta ← metacopy.ObjectMeta_DeepCopyInto (meta in_);
  spec ← OpenShiftAzureNodeClassSpec_DeepCopyInto (Spec in_);
  status ← OpenShiftAzureNodeClassStatus_DeepCopyInto (Status in_);
  mret (mkOpenShiftAzureNodeClass meta spec status).

#[global] Instance OpenShiftAzureNodeClass_stored : Stored OpenShiftAzureNodeClass
  osv1alpha1.OpenShiftAzureNodeClass :=
  Stored_via (fun x => (meta x, (Spec x, Status x)))
    (fun x '(a, (b, c)) => osv1alpha1.mkOpenShiftAzureNodeClass a b c).

#[global] Instance OpenShiftAzureNodeClass_copies : Copies OpenShiftAzureNodeClass_DeepCopyInto.
Proof.
  apply (copies_via _ _ (fun x (p : metam.ObjectMeta * (OpenShiftAzureNodeClassSpec *
    (OpenShiftAzureNodeClassStatus))) => let '(a, (b, c)) := p in mkOpenShiftAzureNodeClass a b c)
    (copyPair metacopy.ObjectMeta_DeepCopyInto (copyPair OpenShiftAzureNodeClassSpec_DeepCopyInto
      OpenShiftAzureNodeClassStatus_DeepCopyInto)));
    [apply _ | copy_fields | by intros ? (? & ? & ?) | by intros ? (? & ? & ?) (? & ? & ?)].
Qed.
Definition OpenShiftAzureNodeClass_DeepCopy : ptr OpenShiftAzureNodeClass -> mem (ptr OpenShiftAzureNodeClass) :=
  deepCopy OpenShiftAzureNodeClass_DeepCopyInto.
Definition OpenShiftAzureNodeClass_DeepCopyObject : ptr OpenShiftAzureNodeClass -> mem (option (ptr OpenShiftAzureNodeClass)) :=
  deepCopyObject OpenShiftAzureNodeClass_DeepCopy.

Definition OpenShiftAzureNodeClassList_DeepCopyInto (in_ : OpenShiftAzureNodeClassList) :
    mem OpenShiftAzureNodeClassList :=
  meta ← metacopy.ListMeta_DeepCopyInto (list_meta in_);
  items ← copySlice OpenShiftAzureNodeClass_DeepCopyInto (Items in_);
  mret (mkList meta items).

#[global] Instance OpenShiftAzureNodeClassList_stored : Stored OpenShiftAzureNodeClassList (ListOf
  osv1alpha1.OpenShiftAzureNodeClass) :=
  Stored_via (fun x => (list_meta x, Items x))
    (fun x '(a, b) => mkListOf a b).

#[global] Instance OpenShiftAzureNodeClassList_copies : Copies OpenShiftAzureNodeClassList_DeepCopyInto.
Proof.
  apply (copies_via _ _ (fun x (p : metam.ListMeta * (sliceref OpenShiftAzureNodeClass)) => let '(a, b) := p in
    mkList a b)
    (copyPair metacopy.ListMeta_DeepCopyInto (copySlice OpenShiftAzureNodeClass_DeepCopyInto)));
    [apply _ | copy_fields | by intros ? (? & ?) | by intros ? (? & ?) (? & ?)].
Qed.
Definition OpenShiftAzureNodeClassList_DeepCopy : ptr OpenShiftAzureNodeClassList -> mem (ptr OpenShiftAzureNodeClassList) :=
  deepCopy OpenShiftAzureNodeClassList_DeepCopyInto.
Definition OpenShiftAzureNodeClassList_DeepCopyObject : ptr OpenShiftAzureNodeClassList -> mem (option (ptr OpenShiftAzureNodeClassList)) :=
  deepCopyObject OpenShiftAzureNodeClassList_DeepCopy.

End osv1alpha1copy.

(** ** pkg/apis/autoscaling/v1alpha1 *)

#[export] Instance KarpenterSpec_stored : Stored KarpenterSpec KarpenterSpec := Stored_const _.

Module autoscalingcopy.
Import autoscalingm.

Definition KarpenterSpec_DeepCopyInto (in_ : KarpenterSpec) : mem KarpenterSpec := mret in_.
#[global] Instance KarpenterSpec_copies : Copies KarpenterSpec_DeepCopyInto := copies_const _.
Definition KarpenterSpec_DeepCopy : ptr KarpenterSpec -> mem (ptr KarpenterSpec) :=
  deepCopy KarpenterSpec_DeepCopyInto.

Definition KarpenterStatus_DeepCopyInto (in_ : KarpenterStatus) : mem KarpenterStatus :=
  conditions ← copySlice Condition_DeepCopyInto (Conditions in_);
  mret (mkStatus conditions).

#[global] Instance KarpenterStatus_stored : Stored KarpenterStatus OcpTypes.KarpenterStatus :=
  Stored_via (fun x => Conditions x)
    (fun x a => mkKarpenterStatus a).

#[global] Instance KarpenterStatus_copies : Copies KarpenterStatus_DeepCopyInto.
Proof.
  apply (copies_via _ _ (fun x a => mkStatus a)
    (copySlice Condition_DeepCopyInto));
    [apply _ | copy_fields | by intros ? ? | by intros ? ? ?].
Qed.
Definition KarpenterStatus_DeepCopy : ptr KarpenterStatus -> mem (ptr KarpenterStatus) :=
  deepCopy KarpenterStatus_DeepCopyInto.

Definition Karpenter_DeepCopyInto (in_ : Karpenter) : mem Karpenter :=
  meta ← metacopy.ObjectMeta_DeepCopyInto (meta in_);
  status ← KarpenterStatus_DeepCopyInto (Status in_);
  mret (mkKarpenter meta (Spec in_) status).

#[global] Instance Karpenter_stored : Stored Karpenter OcpTypes.Karpenter :=
  Stored_via (fun x => (meta x, Status x))
    (fun x '(a, b) => OcpTypes.mkKarpenter a (Spec x) b).

#[global] Instance Karpenter_copies : Copies Karpenter_DeepCopyInto.
Proof.
  apply (copies_via _ _ (fun x (p : metam.ObjectMeta * (KarpenterStatus)) => let '(a, b) := p in mkKarpenter a
    (Spec x) b)
    (copyPair metacopy.ObjectMeta_DeepCopyInto KarpenterStatus_DeepCopyInto));
    [apply _ | copy_fields | by intros ? (? & ?) | by intros ? (? & ?) (? & ?)].
Qed.
Definition Karpenter_DeepCopy : ptr Karpenter -> mem (ptr Karpenter) := deepCopy Karpenter_DeepCopyInto.
Definition Karpenter_DeepCopyObject : ptr Karpenter -> mem (option (ptr Karpenter)) :=
  deepCopyObject Karpenter_DeepCopy.

Definition KarpenterList_DeepCopyInto (in_ : KarpenterList) : mem KarpenterList :=
  meta ← metacopy.ListMeta_DeepCopyInto (list_meta in_);
  items ← copySlice Karpenter_DeepCopyInto (Items in_);
  mret (mkList meta items).

#[global] Instance KarpenterList_stored : Stored KarpenterList (ListOf OcpTypes.Karpenter) :=
  Stored_via (fun x => (list_meta x, Items x))
    (fun x '(a, b) => mkListOf a b).

#[global] Instance KarpenterList_copies : Copies KarpenterList_DeepCopyInto.
Proof.
  apply (copies_via _ _ (fun x (p : metam.ListMeta * (sliceref Karpenter)) => let '(a, b) := p in mkList a b)
    (copyPair metacopy.ListMeta_DeepCopyInto (copySlice Karpenter_DeepCopyInto)));
    [apply _ | copy_fields | by intros ? (? & ?) | by intros ? (? & ?) (? & ?)].
Qed.
Definition KarpenterList_DeepCopy : ptr KarpenterList -> mem (ptr KarpenterList) :=
  deepCopy KarpenterList_DeepCopyInto.
Definition KarpenterList_DeepCopyObject : ptr KarpenterList -> mem (option (ptr KarpenterList)) :=
  deepCopyObject KarpenterList_DeepCopy.

End autoscalingcopy.

(** ** Properties *)

(** C20. The deep copy of a NodeClass or a Karpenter, and of a list of them, returns, without
    a panic, a copy of the same value in memory of its own: whatever is written to the
    memory that was there, the copy keeps its value, and whatever is written to the new
    memory, the original does. *)
Theorem deepcopies_isolated :
  isolated osv1copy.OpenshiftEC2NodeClass_DeepCopy
  /\ isolated osv1copy.OpenshiftEC2NodeClassList_DeepCopy
  /\ isolated osv1alpha1copy.OpenShiftAzureNodeClass_DeepCopy
  /\ isolated osv1alpha1copy.OpenShiftAzureNodeClassList_DeepCopy
  /\ isolated autoscalingcopy.Karpenter_DeepCopy
  /\ isolated autoscalingcopy.KarpenterList_DeepCopy.
Proof. split_and!; apply copies_isolated; apply _. Qed.
