(* ===== verification/GoUpdate.v ===== *)
(** * Updates in place

    What a statement that writes to an object leaves of the memory: relation
    [updated], with its frame property, and class [Field], what the fields of a
    struct promise to those who update one of them. *)

From S2P Require Import Prelude MemTypes GoMem GoCopy.

(** ** The relation *)

(** [m] represents [v] with memory that is not used twice. *)
Definition owned {M V} `{Stored M V} (h : heap) (m : M) (v : V) : Prop :=
  read h m = Some v /\ NoDup (locs h m).

(** After the update of [m] to [m'] it represents [v'], with memory that is its own or
    new, and nothing else has changed. *)
Record updated {M V} `{Stored M V} (h h' : heap) (m m' : M) (v' : V) : Prop := {
  up_owned : owned h' m' v';
  up_frame l : is_Some (h !! l) -> l ∉ locs h m -> h' !! l = h !! l;
  up_new l : l ∈ locs h' m' -> l ∈ locs h m \/ h !! l = None }.

(** The operation does not panic and updates [m] to [v']. *)
Definition updates {M V} `{Stored M V} (op : M -> mem M) (h : heap) (m : M) (v' : V) : Prop :=
  exists m' h', op m h = Some (m', h') /\ updated h h' m m' v'.

(** [p.f = n], and [p.f = op(p.f)]. *)
Definition assign {M N} `{Cell M} (p : ptr M) (set : N -> M -> M) (n : N) : mem unit :=
  x ← load p; store p (set n x).
Definition assignOp {M N} `{Cell M} (p : ptr M) (get : M -> N) (set : N -> M -> M) (op : N -> mem N) : mem unit :=
  x ← load p; n ← op (get x); assign p set n.

Section updated.
Context {M V : Type} `{Stored M V}.
Implicit Types (h : heap) (m : M) (v : V).

Lemma updated_refl h m v : owned h m v -> updated h h m m v.
Proof. intros O. split; [done | done | by left]. Qed.

Lemma updated_trans h h1 h2 m m1 m2 v1 v2 :
  updated h h1 m m1 v1 -> updated h1 h2 m1 m2 v2 -> updated h h2 m m2 v2.
Proof.
  intros [[R O] F N] [O' F' N'].
  assert (K : forall l, is_Some (h !! l) -> l ∉ locs h m -> h2 !! l = h !! l).
  { intros l Hl Hm. rewrite <- (F l Hl Hm). apply F'; [by rewrite F|].
    intros [?|E]%N; [done|]. rewrite E in Hl. by destruct Hl. }
  split; [done | done |].
  intros l [Hl|E]%N'; [by apply N|]. destruct (decide (l ∈ locs h m)) as [|Hm]; [by left | right].
  destruct (h !! l) as [c|] eqn:Hl; [|done]. rewrite F in E by (done || by rewrite Hl). congruence.
Qed.

(** The rest of the memory keeps its value. *)
Lemma updated_frame {N W} `{Stored N W} h h' m m' v' (n : N) (w : W) :
  updated h h' m m' v' -> read h n = Some w -> (forall l, l ∈ locs h n -> l ∉ locs h m) ->
  read h' n = Some w /\ locs h' n = locs h n /\ (forall l, l ∈ locs h' n -> l ∉ locs h' m').
Proof.
  intros [_ F Hn] R D.
  destruct (read_agree h h' n w R) as [R' L'].
  { intros l Hl. apply F; [by eapply read_locs | by apply D]. }
  split; [done|]. split; [done|]. rewrite L'. intros l Hl [Hm|E]%Hn; [by eapply D|].
  destruct (read_locs h n w R l Hl). congruence.
Qed.

(** New memory updates anything, and an update of new memory makes new memory. *)
Lemma updated_fresh h h' m m' v' : fresh_copy h h' m' v' -> updated h h' m m' v'.
Proof.
  intros [O R N F]. split; [done | | by intros l ?%F; right].
  intros l [c E] _. rewrite E. by eapply lookup_weaken.
Qed.

Lemma fresh_copy_mono h h1 h2 m v : fresh_copy h h1 m v -> h1 ⊆ h2 -> fresh_copy h h2 m v.
Proof.
  intros [O R N F] S. destruct (read_mono h1 h2 m v S R) as [R' L'].
  split; [by etrans | done | by rewrite L' | by rewrite L'].
Qed.

Lemma fresh_updated h h1 h2 m m' v v' : fresh_copy h h1 m v -> updated h1 h2 m m' v' -> fresh_copy h h2 m' v'.
Proof.
  intros [O R N F] [[R' O'] F' N']. split; [| done | done |].
  - apply map_subseteq_spec. intros l c E. pose proof (lookup_weaken _ _ _ _ E O) as E1.
    rewrite F'; [done | by rewrite E1 |]. intros ?%F. congruence.
  - intros l [Hl|E]%N'; [by apply F|]. destruct (h !! l) as [c|] eqn:Hl; [|done].
    pose proof (lookup_weaken _ _ _ _ Hl O). congruence.
Qed.

(** The object that a pointer points to. *)
Lemma owned_ptr_inv `{Cell M} h (p : ptr M) v :
  owned h p (Some v) ->
  exists l m, p = Ptr (Some l) /\ lookup_cell h l = Some m /\ owned h m v /\ l ∉ locs h m.
Proof.
  destruct p as [[l|]]; unfold owned; cbn [read locs ptr_stored addr]; [|by intros [? _]].
  destruct (lookup_cell h l) as [m|] eqn:E; [|by intros [? _]]. destruct (read h m) as [w|] eqn:R; [|by intros [? _]].
  intros [[= <-] [? ?]%NoDup_cons]. by exists l, m.
Qed.

Lemma updated_ptr `{Cell M} h h' l m m' v' :
  lookup_cell h l = Some m -> l ∉ locs h m -> updated h h' m m' v' ->
  updated h (<[l := to_cell m']> h') (Ptr (Some l) : ptr M) (Ptr (Some l)) (Some v').
Proof.
  intros E Hl [[R O] F N].
  assert (Hl' : l ∉ locs h' m').
  { intros [?|?]%N; [done|]. destruct (lookup_cell_Some _ _ _ E). congruence. }
  destruct (read_insert h' m' v' l (to_cell m') Hl' R) as [R' L'].
  split; [split|..]; cbn [read locs ptr_stored addr]; rewrite ?lookup_cell_insert, ?E, ?R', ?L'.
  - done.
  - by apply NoDup_cons.
  - intros k Hk [Hk1 Hk2]%not_elem_of_cons. rewrite lookup_insert_ne by done. by apply F.
  - intros k [->|Hk]%elem_of_cons; [by left; left|]. destruct (N k Hk); [left; by right | by right].
Qed.

End updated.

(** ** Fields *)

(** The field that [get] reads and [set] writes, and what they are to the value: the
    field can be updated where it is. *)
Class Field {M V N W} `{Stored M V, Stored N W} (get : M -> N) (set : N -> M -> M)
    (getV : V -> W) (setV : W -> V -> V) : Prop := {
  field_owned h m v : owned h m v -> owned h (get m) (getV v) /\ (forall l, l ∈ locs h (get m) -> l ∈ locs h m);
  field_updated h h' m v n w :
    owned h m v -> updated h h' (get m) n w -> updated h h' m (set n m) (setV w v) }.

Lemma prod_owned_inv {M V N W} `{Stored M V, Stored N W} h (p : M * N) v :
  owned h p v ->
  owned h p.1 v.1 /\ owned h p.2 v.2 /\ (forall l, l ∈ locs h p.1 -> l ∉ locs h p.2).
Proof.
  unfold owned. cbn [read locs prod_stored]. destruct (read h p.1) as [a|]; [|by intros [? _]].
  destruct (read h p.2) as [b|]; [|by intros [? _]]. intros [[= <-] [? [? ?]]%NoDup_app]. done.
Qed.

#[export] Instance field_fst {M V N W} `{Stored M V, Stored N W} :
  Field (fst : M * N -> M) (fun m p => (m, p.2)) (fst : V * W -> V) (fun v q => (v, q.2)).
Proof.
  split.
  - intros h p v (O & _ & _)%prod_owned_inv. split; [done|]. intros l Hl. cbn. apply elem_of_app. by left.
  - intros h h' p v n w (O1 & [R2 N2] & D)%prod_owned_inv U. pose proof U as [[R' N'] F Hn].
    destruct (updated_frame h h' _ _ _ p.2 v.2 U R2) as (R2' & L2 & D'); [intros l ??; by eapply D|].
    split; [split|..]; cbn [read locs prod_stored fst snd].
    + by rewrite R', R2'.
    + apply NoDup_app. split; [done|]. split; [intros l ??; by eapply D' | by rewrite L2].
    + intros l Hl. rewrite not_elem_of_app. intros [? _]. by apply F.
    + intros l. rewrite L2, !elem_of_app. intros [Hl|Hl]; [destruct (Hn l Hl)|]; tauto.
Qed.

#[export] Instance field_snd {M V N W} `{Stored M V, Stored N W} :
  Field (snd : M * N -> N) (fun n p => (p.1, n)) (snd : V * W -> W) (fun w q => (q.1, w)).
Proof.
  split.
  - intros h p v (_ & O & _)%prod_owned_inv. split; [done|]. intros l Hl. cbn. apply elem_of_app. by right.
  - intros h h' p v n w ([R1 N1] & O2 & D)%prod_owned_inv U. pose proof U as [[R' N'] F Hn].
    destruct (updated_frame h h' _ _ _ p.1 v.1 U R1) as (R1' & L1 & D'); [done|].
    split; [split|..]; cbn [read locs prod_stored fst snd].
    + by rewrite R1', R'.
    + apply NoDup_app. rewrite L1 in *. done.
    + intros l Hl. rewrite not_elem_of_app. intros [_ ?]. by apply F.
    + intros l. rewrite L1, !elem_of_app. intros [Hl|Hl]; [|destruct (Hn l Hl)]; tauto.
Qed.

Lemma field_comp {M V N W K X} `{Stored M V, Stored N W, Stored K X}
    (get : M -> N) set (getV : V -> W) setV (get' : N -> K) set' (getV' : W -> X) setV' :
  Field get set getV setV -> Field get' set' getV' setV' ->
  Field (fun m => get' (get m)) (fun k m => set (set' k (get m)) m)
        (fun v => getV' (getV v)) (fun x v => setV (setV' x (getV v)) v).
Proof.
  intros F F'. split.
  - intros h m v [O L]%(field_owned (Field := F)). destruct (field_owned (Field := F') h _ _ O) as [O' L'].
    split; [done|]. intros l ?%L'. by apply L.
  - intros h h' m v k x O U. apply (field_updated (Field := F)); [done|].
    apply (field_updated (Field := F')); [|done]. by apply (field_owned (Field := F)).
Qed.

(** The parts of a struct. *)
Lemma via_owned_inv {P W M V} `{Stored P W} (parts : M -> P) (build : M -> W -> V) (S := Stored_via parts build) h m v :
  owned h m v -> exists w, v = build m w /\ owned h (parts m) w.
Proof.
  intros [R O]. cbn in R, O. destruct (read h (parts m)) as [w|] eqn:E; [|done].
  injection R as <-. by exists w.
Qed.

(** A field of the struct whose references are [parts]. *)
Lemma field_via {P W M V N X} `{Stored P W, Stored N X} (parts : M -> P) (build : M -> W -> V) (rebuild : M -> P -> M)
    (get : P -> N) set (getV : W -> X) setV (getM : M -> N) setM (getMV : V -> X) setMV (S := Stored_via parts build) :
  Field get set getV setV ->
  (forall m p, parts (rebuild m p) = p) ->
  (forall m p w, build (rebuild m p) w = build m w) ->
  (forall m, getM m = get (parts m)) ->
  (forall m n, setM n m = rebuild m (set n (parts m))) ->
  (forall m w, getMV (build m w) = getV w) ->
  (forall m w x, setMV x (build m w) = build m (setV x w)) ->
  Field getM setM getMV setMV.
Proof.
  intros F Hp Hb Hg Hs Hgv Hsv.
  pose proof (via_owned_inv parts build) as I.
  split.
  - intros h m v (w & -> & O)%I. rewrite Hg, Hgv. exact (field_owned (Field := F) h _ _ O).
  - intros h h' m v n x (w & -> & O)%I. rewrite Hg, Hs, Hsv. intros U.
    destruct (field_updated (Field := F) h h' (parts m) w n x O U) as [[R' O'] Fr Hn]. split; [split|..]; cbn; rewrite ?Hp.
    + rewrite R'. cbn. by rewrite Hb.
    + done.
    + done.
    + done.
Qed.

(** A statement [p.f = n] with new memory or what an operation made of the field. *)
Section assign.
Context {M V N W : Type} `{Cell M, Stored M V, Stored N W}.
Context (get : M -> N) (set : N -> M -> M) (getV : V -> W) (setV : W -> V -> V) `{F : !Field get set getV setV}.
Implicit Types (h : heap) (p : ptr M) (v : V) (w : W).

Lemma assign_field h h1 l m v n w :
  lookup_cell h l = Some m -> l ∉ locs h m -> owned h m v -> updated h h1 (get m) n w ->
  assign (Ptr (Some l)) set n h1 = Some (tt, <[l := to_cell (set n m)]> h1)
  /\ updated h (<[l := to_cell (set n m)]> h1) (Ptr (Some l) : ptr M) (Ptr (Some l)) (Some (setV w v)).
Proof using F.
  intros E Hl O U.
  assert (E1 : lookup_cell h1 l = Some m).
  { rewrite <- E. apply lookup_cell_agree. apply (up_frame _ _ _ _ _ U); [exact (lookup_cell_Some _ _ _ E)|].
    intros ?%(field_owned h m v O). done. }
  split.
  - unfold assign. rewrite (bind_Some _ _ _ m h1) by by apply load_Some.
    apply store_Some. exact (lookup_cell_Some _ _ _ E1).
  - apply updated_ptr with m; [done | done |]. by apply field_updated.
Qed.

Lemma assign_fresh h h1 p v n w :
  owned h p (Some v) -> fresh_copy h h1 n w ->
  exists h', assign p set n h1 = Some (tt, h') /\ updated h h' p p (Some (setV w v)).
Proof using F.
  intros (l & m & -> & E & O & Hl)%owned_ptr_inv Hf.
  eexists. apply (assign_field h h1 l m v); [done..|]. by apply updated_fresh.
Qed.

Lemma assignOp_field h p v (op : N -> mem N) w :
  owned h p (Some v) ->
  (forall n, owned h n (getV v) -> updates op h n w) ->
  exists h', assignOp p get set op h = Some (tt, h') /\ updated h h' p p (Some (setV w v)).
Proof using F.
  intros (l & m & -> & E & O & Hl)%owned_ptr_inv Hop.
  destruct (Hop (get m)) as (n & h1 & Eop & U); [by apply field_owned|].
  destruct (assign_field h h1 l m v n w E Hl O U) as [Ea U']. eexists. split; [|exact U'].
  unfold assignOp. rewrite (bind_Some _ _ _ m h) by by apply load_Some. by rewrite (bind_Some _ _ _ n h1).
Qed.

End assign.
