(* ===== verification/GoSlices.v ===== *)
(** * Slices of values, in memory

    What Go's statements do to a slice whose elements refer to nothing: conditions,
    subnets, finalizers. *)

From S2P Require Import Prelude MemTypes GoMem GoCopy GoUpdate.

(** [for i := range s { if p(s\[i\]) { return i } }] *)
Fixpoint findIndex {A} `{Cell (list A)} (s : sliceref A) (p : A -> bool) (todo : list nat) : mem (option nat) :=
  match todo with
  | [] => mret None
  | i :: todo' => x ← index s i; if p x then mret (Some i) else findIndex s p todo'
  end.

(** [for _, x := range xs { s = append(s, f(x)) }] *)
Fixpoint appendEach {A B} `{Growth B, Zero B, Cell (list B)} (f : A -> B) (xs : list A) (s : sliceref B) :
    mem (sliceref B) :=
  match xs with
  | [] => mret s
  | x :: xs' => s' ← append s (f x); appendEach f xs' s'
  end.

(** [append(s, t...)] *)
Definition appendSlice {A} `{Growth A, Zero A, Cell (list A)} (s t : sliceref A) : mem (sliceref A) :=
  match len t with
  | O => mret s
  | S _ =>
      ys ← elements t;
      let total := len s + len t in
      if total <=? cap s then
        xs ← elements s;
        store (Ptr (array s)) (take (len s) xs ++ take (len t) ys ++ drop total xs);;
        mret (SliceRef (array s) total (cap s))
      else
        xs ← (match len s with O => mret [] | S _ => elements s end);
        let more := spare (A := A) (cap s) total in
        l ← alloc (take (len s) xs ++ take (len t) ys ++ replicate more (zero : A));
        mret (SliceRef (Some l) total (total + more))
  end.

(** slices.Clone: [append(s\[:0:0\], s...)] *)
Definition Clone {A} `{Growth A, Zero A, Cell (list A)} (s : sliceref A) : mem (sliceref A) :=
  appendSlice (SliceRef (array s) 0 0) s.

(** ** Lemmas *)

Section flat.
Context {M : Type} `{Growth M, Zero M, Cell (list M)}.
#[local] Hint Extern 0 (Stored M _) => exact (@flat_stored M) : typeclass_instances.
Implicit Types (h : heap) (s : sliceref M) (v : slice M).

(** The arrays of such a slice. *)
Lemma flat_owned h s v : read h s = Some v -> owned h s v.
Proof.
  intros R. split; [done|]. cbn [locs slice_stored]. unfold locsSlice. destruct (array s); [|constructor].
  case_decide; [constructor|]. destruct (lookup_cell _ _); [rewrite locsAll_flat|]; apply NoDup_singleton.
Qed.

Lemma flat_locs h s l ms : array s = Some l -> lookup_cell h l = Some ms -> cap s <> 0 -> locs h s = [l].
Proof.
  intros E L C. cbn [locs slice_stored]. unfold locsSlice. rewrite E, decide_False by done. by rewrite L, locsAll_flat.
Qed.

Lemma flat_read h s l ms :
  array s = Some l -> lookup_cell h l = Some ms -> len s <= cap s <= length ms -> cap s <> 0 ->
  read h s = Some (Some (take (len s) ms)).
Proof.
  intros E L C D. cbn [read slice_stored]. unfold readSlice.
  rewrite E, decide_False by done. rewrite L, decide_True by done. by rewrite readAll_flat.
Qed.

Lemma flat_inv h s v :
  read h s = Some v ->
  (s = nilslice /\ v = None)
  \/ (exists l, s = SliceRef (Some l) 0 0 /\ v = Some [])
  \/ (exists l ms, array s = Some l /\ lookup_cell h l = Some ms /\ len s <= cap s <= length ms /\ cap s <> 0
        /\ v = Some (take (len s) ms)).
Proof.
  cbn [read slice_stored]. unfold readSlice. destruct s as [[l|] n c]; cbn [array len cap]; case_decide.
  - case_decide; [|done]. subst. intros [= <-]. right; left. by exists l.
  - destruct (lookup_cell h l) as [ms|] eqn:E; [|done]. case_decide; [|done]. rewrite readAll_flat.
    intros [= <-]. right; right. by exists l, ms.
  - destruct_and!; subst. intros [= <-]. by left.
  - done.
Qed.

Lemma flat_len h s v : read h s = Some v -> len s = length (elems v).
Proof.
  intros [[-> ->]|[(l & -> & ->)|(l & ms & _ & _ & C & _ & ->)]]%flat_inv; [done | done |].
  cbn. rewrite length_take. lia.
Qed.

(** A slice of the array after a write to it. *)
Lemma flat_store h s l ms ys n c :
  array s = Some l -> lookup_cell h l = Some ms -> cap s <> 0 -> n <= c <= length ys -> c <> 0 ->
  updated h (<[l := to_cell ys]> h) s (SliceRef (Some l) n c) (Some (take n ys)).
Proof.
  intros E L D C D'. pose proof (lookup_cell_insert h l ys) as L'. split.
  - apply flat_owned. by apply (flat_read _ (SliceRef (Some l) n c) l ys).
  - intros k _. rewrite (flat_locs h s l ms) by done. intros Hk%not_elem_of_cons. apply lookup_insert_ne. by destruct Hk.
  - intros k. rewrite (flat_locs _ (SliceRef (Some l) n c) l ys), (flat_locs h s l ms) by done. by left.
Qed.

Lemma flat_alloc h ys n :
  n <= length ys -> length ys <> 0 ->
  fresh_copy h (<[fresh (dom h) := to_cell ys]> h) (SliceRef (Some (fresh (dom h))) n (length ys)) (Some (take n ys)).
Proof.
  intros L D. set (q := fresh (dom h)). assert (Hq : h !! q = None) by apply fresh_None. split.
  - by apply insert_subseteq.
  - apply (flat_read _ (SliceRef (Some q) n (length ys)) q ys); cbn [array len cap]; (done || apply lookup_cell_insert || lia).
  - rewrite (flat_locs _ _ q ys); [apply NoDup_singleton | done | apply lookup_cell_insert | cbn; lia].
  - rewrite (flat_locs _ _ q ys); [| done | apply lookup_cell_insert | cbn; lia]. by intros l ->%list_elem_of_singleton.
Qed.

Lemma elements_flat h s l ms : array s = Some l -> lookup_cell h l = Some ms -> elements s h = Some (ms, h).
Proof. intros E L. unfold elements. rewrite E. by apply load_Some. Qed.

(** Reading and writing an element. *)
Lemma index_flat h s v i x : read h s = Some v -> elems v !! i = Some x -> index s i h = Some (x, h).
Proof.
  intros [[-> ->]|[(l & -> & ->)|(l & ms & E & L & C & D & ->)]]%flat_inv; cbn [elems default from_option id]; [done | done |].
  intros Hi%lookup_take_Some. destruct Hi as [Hi Hn]. unfold index. rewrite (proj2 (Nat.ltb_lt _ _)) by done.
  rewrite (bind_Some _ _ _ ms h) by by eapply elements_flat. by rewrite Hi.
Qed.

Lemma setIndex_flat h s v i x :
  read h s = Some v -> i < length (elems v) ->
  exists h', setIndex s i x h = Some (tt, h') /\ updated h h' s s (Some (<[i := x]> (elems v))).
Proof.
  intros [[-> ->]|[(l & -> & ->)|(l & ms & E & L & C & D & ->)]]%flat_inv; cbn [elems default from_option id length]; [lia | lia |].
  rewrite length_take. intros Hi. exists (<[l := to_cell (<[i := x]> ms)]> h). split.
  - unfold setIndex. rewrite (proj2 (Nat.ltb_lt _ _)) by lia. rewrite (bind_Some _ _ _ ms h) by by eapply elements_flat.
    rewrite E. apply store_Some. exact (lookup_cell_Some _ _ _ L).
  - rewrite <- take_insert_lt by lia. destruct s as [a n c]; cbn [array len cap] in *; subst a.
    apply flat_store with ms; rewrite ?length_insert; (done || lia).
Qed.

(** Appending. *)
Lemma append_first h a x : updates (fun s => append s x) h (SliceRef a 0 0) (Some [x]).
Proof.
  pose proof (updated_fresh h _ (SliceRef a 0 0) _ _
    (flat_alloc h (x :: replicate (spare (A := M) 0 1) zero) 1 ltac:(cbn; lia) ltac:(done))) as U.
  cbn [length] in U. rewrite length_replicate in U. eexists _, _. split; [|exact U]. reflexivity.
Qed.

Lemma append_flat h s v x :
  read h s = Some v -> updates (fun s => append s x) h s (go_append v [x]).
Proof.
  intros R. destruct (flat_inv h s v R) as [[Es ->]|[(l & Es & ->)|(l & ms & E & L & C & D & ->)]].
  1,2: subst s; apply append_first.
  unfold updates, append. destruct (len s <? cap s) eqn:B; [apply Nat.ltb_lt in B | apply Nat.ltb_ge in B].
  - eexists _, _. split.
    + rewrite (bind_Some _ _ _ ms h) by by eapply elements_flat. rewrite E.
      rewrite (bind_Some _ _ _ tt _) by (apply store_Some; exact (lookup_cell_Some _ _ _ L)). reflexivity.
    + cbn [go_append elems default from_option id].
      replace (take (len s) ms ++ [x]) with (take (S (len s)) (<[len s := x]> ms)).
      2:{ rewrite (take_S_r _ _ x) by (apply list_lookup_insert_eq; lia). by rewrite take_insert_ge by lia. }
      apply flat_store with ms; rewrite ?length_insert; (done || lia).
  - set (more := spare (cap s) (S (len s))). set (ys := take (len s) ms ++ x :: replicate more zero).
    assert (Ly : length ys = S (len s) + more).
    { unfold ys. rewrite length_app, length_take. cbn. rewrite length_replicate. lia. }
    exists (SliceRef (Some (fresh (dom h))) (S (len s)) (S (len s) + more)), (<[fresh (dom h) := to_cell ys]> h). split.
    + rewrite (bind_Some _ _ _ ms h); [done|]. destruct (len s); [lia | by eapply elements_flat].
    + apply updated_fresh. cbn [go_append elems default from_option id]. fold ys. rewrite <- Ly.
      replace (take (len s) ms ++ [x]) with (take (S (len s)) ys).
      2:{ unfold ys. rewrite cons_middle, app_assoc. rewrite take_app_le; [apply take_ge|]; rewrite length_app, length_take; cbn; lia. }
      apply flat_alloc; lia.
Qed.

Lemma go_append_cons v x xs : go_append (go_append v [x]) xs = go_append v (x :: xs).
Proof. destruct xs as [|y xs]; [done|]. cbn. by rewrite <- app_assoc. Qed.

Lemma appendEach_flat {A} (f : A -> M) xs h s v :
  read h s = Some v -> updates (appendEach f xs) h s (go_append v (map f xs)).
Proof.
  revert h s v; induction xs as [|x xs IH]; intros h s v R; cbn [appendEach map].
  - exists s, h. split; [done|]. by apply updated_refl, flat_owned.
  - destruct (append_flat h s v (f x) R) as (s1 & h1 & E1 & U1).
    destruct (IH h1 s1 _ (proj1 (up_owned _ _ _ _ _ U1))) as (s2 & h2 & E2 & U2).
    exists s2, h2. split; [by rewrite (bind_Some _ _ _ s1 h1)|]. rewrite <- go_append_cons. by eapply updated_trans.
Qed.

Lemma makeCap_fresh n h :
  exists s h', makeCap (A := M) n h = Some (s, h') /\ fresh_copy h h' s (Some []).
Proof.
  set (q := fresh (dom h)).
  exists (SliceRef (Some q) 0 n), (<[q := to_cell (replicate n (zero : M))]> h). split; [done|].
  destruct n as [|n]; [apply fresh_empty|].
  pose proof (flat_alloc h (replicate (S n) zero) 0 ltac:(lia) ltac:(done)) as F.
  by rewrite length_replicate in F.
Qed.

(** A new slice of the elements. *)
Lemma collect_fresh {A} (f : A -> M) xs n h :
  exists s h', (s ← makeCap n; appendEach f xs s) h = Some (s, h') /\ fresh_copy h h' s (Some (map f xs)).
Proof.
  destruct (makeCap_fresh n h) as (s & h1 & E & F).
  destruct (appendEach_flat f xs h1 s (Some []) (fc_read _ _ _ _ F)) as (s' & h2 & E2 & U).
  exists s', h2. split; [by rewrite (bind_Some _ _ _ s h1)|].
  replace (Some (map f xs)) with (go_append (Some []) (map f xs)) by by destruct xs. by eapply fresh_updated.
Qed.

Lemma Clone_fresh h s v :
  read h s = Some v -> exists s' h', Clone s h = Some (s', h') /\ fresh_copy h h' s' v.
Proof.
  intros R. destruct (flat_inv h s v R) as [[-> ->]|[(l & -> & ->)|(l & ms & E & L & C & D & ->)]].
  - exists nilslice, h. split; [done|]. split; [done | done | constructor | by intros l ?%not_elem_of_nil].
  - exists (SliceRef (Some l) 0 0), h. split; [done|].
    split; [done | done | constructor | by intros ? ?%not_elem_of_nil].
  - unfold Clone, appendSlice. cbn [len cap array]. destruct (len s) as [|n] eqn:Hn.
    + exists (SliceRef (array s) 0 0), h. rewrite E.
      split; [done|]. split; [done | done | constructor | by intros ? ?%not_elem_of_nil].
    + set (more := spare 0 (0 + S n)). set (ys := take (S n) ms ++ replicate more zero).
      assert (Ly : length ys = S n + more) by (unfold ys; rewrite length_app, length_take, length_replicate; lia).
      exists (SliceRef (Some (fresh (dom h))) (S n) (S n + more)), (<[fresh (dom h) := to_cell ys]> h). split.
      * rewrite (bind_Some _ _ _ ms h) by by eapply elements_flat. done.
      * rewrite <- Ly. replace (take (S n) ms) with (take (S n) ys); [apply flat_alloc; lia|].
        unfold ys. rewrite take_app_le by (rewrite length_take; lia). by rewrite take_take, Nat.min_id.
Qed.

Lemma findIndex_from h s v p k : forall i,
  read h s = Some v -> i + k = length (elems v) ->
  findIndex s p (seq i k) h = Some ((fun jx => i + jx.1) <$> list_find p (drop i (elems v)), h).
Proof.
  induction k as [|k IH]; intros i R Hi; cbn [seq findIndex].
  - by rewrite drop_ge by lia.
  - destruct (lookup_lt_is_Some_2 (elems v) i) as [x Hx]; [lia|].
    rewrite (bind_Some _ _ _ x h) by by eapply index_flat.
    rewrite (drop_S _ _ _ Hx). cbn [list_find]. destruct (p x) eqn:Px.
    + rewrite decide_True by done. cbn. by rewrite Nat.add_0_r.
    + rewrite decide_False by (intros Hp; exact Hp). rewrite IH by (done || lia).
      destruct (list_find p (drop (S i) (elems v))) as [[j y]|]; [|done]. cbn. by rewrite Nat.add_succ_r.
Qed.

Lemma findIndex_flat h s v p :
  read h s = Some v -> findIndex s p (seq 0 (len s)) h = Some (fst <$> list_find p (elems v), h).
Proof.
  intros R. rewrite (findIndex_from h s v p (len s) 0 R) by by rewrite (flat_len h s v R).
  rewrite drop_0. by destruct (list_find p (elems v)) as [[j x]|].
Qed.

(** [s\[:n\]] *)
Lemma reslice_flat h s v n :
  read h s = Some v -> n <= len s -> updated h h s (SliceRef (array s) n (cap s)) (take n <$> v).
Proof.
  intros R Hn. destruct (flat_inv h s v R) as [[-> ->]|[(l & -> & ->)|(l & ms & E & L & C & D & ->)]].
  - cbn in Hn. replace n with 0 by lia. by apply updated_refl, flat_owned.
  - cbn in Hn. replace n with 0 by lia. by apply updated_refl, flat_owned.
  - rewrite E. cbn. rewrite take_take, Nat.min_l by done.
    assert (Ls : forall k, k <= cap s -> locs h (SliceRef (Some l) k (cap s) : sliceref M) = locs h s).
    { intros k Hk. by rewrite (flat_locs h s l ms), (flat_locs h _ l ms). }
    split; [apply flat_owned, (flat_read h (SliceRef (Some l) n (cap s)) l ms); cbn; (done || lia) | done |].
    intros k. rewrite Ls by lia. by left.
Qed.
End flat.
