(* ===== verification/MetaMem.v ===== *)
(** * The condition and finalizer helpers, in memory

    vendor/k8s.io/apimachinery/pkg/api/meta/conditions.go,
    vendor/sigs.k8s.io/controller-runtime/pkg/controller/controllerutil/controllerutil.go
    and pkg/controllers/nodeclass/status/conditions.go as they write to the memory of
    slices and objects, and that what they compute are the functions of MetaV1 and
    NodeClassStatus. *)

From S2P Require Import Prelude MetaV1 NodeClassStatus MemTypes GoMem GoCopy GoUpdate GoSlices.

(** ** k8s.io/apimachinery/pkg/api/meta *)

Module metamem.
Section growth.
Context `{Growth Condition}.
Implicit Types (conditions : sliceref Condition).

(** The index [i] for the pointer [&conditions\[i\]]. *)
Definition FindStatusCondition conditions (conditionType : string) : mem (option nat) :=
  findIndex conditions (fun c => bool_decide (c_Type c = conditionType)) (seq 0 (len conditions)).

(** [if test( *existing) { *existing = write( *existing) }] *)
Definition writeIf conditions (existing : nat) (test : Condition -> bool) (write : Condition -> Condition) : mem unit :=
  c ← index conditions existing;
  if test c then setIndex conditions existing (write c) else mret tt.

(** The slice that [*conditions] is afterwards; [now] is what [time.Now] returns. *)
Definition SetStatusCondition (now : Time) conditions (new : Condition) : mem (sliceref Condition) :=
  existing ← FindStatusCondition conditions (c_Type new);
  match existing with
  | None => append conditions (initCondition now new)
  | Some i =>
      writeIf conditions i (fun c => negb (bool_decide (c_Status c = c_Status new))) (fun c =>
        mkCondition (c_Type c) (c_Status new) (c_ObservedGeneration c)
          (if IsZeroTime (c_LastTransitionTime new) then now else c_LastTransitionTime new) (c_Reason c) (c_Message c));;
      writeIf conditions i (fun c => negb (bool_decide (c_Reason c = c_Reason new))) (fun c =>
        mkCondition (c_Type c) (c_Status c) (c_ObservedGeneration c) (c_LastTransitionTime c) (c_Reason new) (c_Message c));;
      writeIf conditions i (fun c => negb (bool_decide (c_Message c = c_Message new))) (fun c =>
        mkCondition (c_Type c) (c_Status c) (c_ObservedGeneration c) (c_LastTransitionTime c) (c_Reason c) (c_Message new));;
      writeIf conditions i (fun c => negb (bool_decide (c_ObservedGeneration c = c_ObservedGeneration new))) (fun c =>
        mkCondition (c_Type c) (c_Status c) (c_ObservedGeneration new) (c_LastTransitionTime c) (c_Reason c) (c_Message c));;
      mret conditions
  end.

Fixpoint keepOthers conditions (conditionType : string) (todo : list nat) (newConditions : sliceref Condition) :
    mem (sliceref Condition) :=
  match todo with
  | [] => mret newConditions
  | i :: todo' =>
      c ← index conditions i;
      kept ← (if bool_decide (c_Type c = conditionType) then mret newConditions else append newConditions c);
      keepOthers conditions conditionType todo' kept
  end.
Definition RemoveStatusCondition conditions (conditionType : string) : mem (sliceref Condition) :=
  if len conditions =? 0 then mret conditions
  else
    newConditions ← makeCap (len conditions - 1);
    keepOthers conditions conditionType (seq 0 (len conditions)) newConditions.

(** ** pkg/controllers/nodeclass/status *)

Fixpoint syncLoop (clock : nat -> Time) (i : nat) (result : sliceref Condition)
    (providerReady : option Condition) (providerConditions : list Condition) :
    mem (nat * sliceref Condition * option Condition) :=
  match providerConditions with
  | [] => mret (i, result, providerReady)
  | c :: cs =>
      if decide (c_Type c = ConditionTypeReady) then syncLoop clock i result (Some c) cs
      else result' ← SetStatusCondition (clock i) result c; syncLoop clock (S i) result' providerReady cs
  end.

Definition SyncConditions (clock : nat -> Time) conditions (providerConditions : list Condition) (generation : Z) :
    mem (sliceref Condition) :=
  cloned ← Clone conditions;
  synced ← syncLoop clock 0 cloned None providerConditions;
  let '(i, result, providerReady) := synced in
  versionResolved ← FindStatusCondition result ConditionTypeVersionResolved;
  match versionResolved with
  | None => SetStatusCondition (clock i) result (notReady None generation)
  | Some j =>
      v ← index result j;
      if bool_decide (c_Status v = ConditionTrue) then
        match providerReady with
        | Some ready => SetStatusCondition (clock i) result ready
        | None => mret result
        end
      else SetStatusCondition (clock i) result (notReady (Some v) generation)
  end.


Lemma find_list_find (p : Condition -> bool) cs : List.find p cs = snd <$> list_find p cs.
Proof.
  induction cs as [|c cs IH]; [done|]. cbn. destruct (p c) eqn:E.
  - by rewrite decide_True.
  - rewrite decide_False by (intros K; exact K). rewrite IH. by destruct (list_find p cs) as [[i x]|].
Qed.

(** Where [setCondition] writes. *)
Lemma setCondition_find now cs new :
  setCondition now cs new =
    match list_find (fun c => bool_decide (c_Type c = c_Type new)) cs with
    | None => cs ++ [initCondition now new]
    | Some (i, c) => <[i := updateCondition now c new]> cs
    end.
Proof.
  induction cs as [|c cs IH]; [done|]. cbn. case_decide as E.
  - by rewrite decide_True by by apply bool_decide_pack.
  - rewrite decide_False by (intros K%bool_decide_unpack; congruence). rewrite IH.
    by destruct (list_find _ cs) as [[i x]|].
Qed.

Lemma FindStatusCondition_mem h conditions v t :
  read h conditions = Some v ->
  FindStatusCondition conditions t h = Some (fst <$> list_find (fun c => bool_decide (c_Type c = t)) (elems v), h).
Proof. apply findIndex_flat. Qed.

(** A write to an element that is there. *)
Lemma writeIf_updates h conditions v i c test write :
  read h conditions = Some v -> elems v !! i = Some c ->
  exists h', writeIf conditions i test write h = Some (tt, h')
    /\ updated h h' conditions conditions (Some (<[i := if test c then write c else c]> (elems v))).
Proof.
  intros R Hi. unfold writeIf. rewrite (bind_Some _ _ _ c h) by by eapply (index_flat h conditions v).
  destruct (test c).
  - apply (setIndex_flat h conditions v); [done|]. by apply lookup_lt_Some in Hi.
  - exists h. split; [done|]. rewrite list_insert_id by done.
    destruct v as [cs|]; [|done]. apply updated_refl. by apply flat_owned.
Qed.

Lemma writeIf_step h h1 conditions i c cs test write :
  updated h h1 conditions conditions (Some (<[i := c]> cs)) -> i < length cs ->
  exists h', writeIf conditions i test write h1 = Some (tt, h')
    /\ updated h h' conditions conditions (Some (<[i := if test c then write c else c]> cs)).
Proof.
  intros U Hi. destruct (writeIf_updates h1 conditions (Some (<[i := c]> cs)) i c test write) as (h' & E & U').
  - apply (up_owned _ _ _ _ _ U).
  - by apply list_lookup_insert_eq.
  - exists h'. split; [done|]. cbn in U'. rewrite list_insert_insert_eq in U'. by eapply updated_trans.
Qed.

Lemma SetStatusCondition_updates now h conditions v new :
  read h conditions = Some v ->
  updates (fun s => SetStatusCondition now s new) h conditions (MetaV1.SetStatusCondition now v new).
Proof.
  intros R. unfold updates, SetStatusCondition, MetaV1.SetStatusCondition. rewrite setCondition_find.
  rewrite (bind_Some _ _ _ _ h) by by eapply FindStatusCondition_mem.
  destruct (list_find _ (elems v)) as [[i c]|] eqn:E; cbn [fmap option_fmap option_map fst].
  - apply list_find_Some in E as (Hi & Ht & _). apply bool_decide_unpack in Ht.
    pose proof (lookup_lt_Some _ _ _ Hi) as Hl. destruct v as [cs|]; [|done]. cbn [elems default from_option id] in *.
    pose proof (updated_refl h conditions (Some cs) (flat_owned _ _ _ R)) as U0.
    rewrite <- (list_insert_id cs i c) in U0 at 1 by done.
    assert (S : forall h1 c1 test write, updated h h1 conditions conditions (Some (<[i := c1]> cs)) ->
      exists h2, writeIf conditions i test write h1 = Some (tt, h2)
        /\ updated h h2 conditions conditions (Some (<[i := if test c1 then write c1 else c1]> cs)))
      by (intros; by apply writeIf_step).
    edestruct (S h c) as (h1 & E1 & U1); [exact U0|]. rewrite (bind_Some _ _ _ _ _ E1).
    edestruct (S h1) as (h2 & E2 & U2); [exact U1|]. rewrite (bind_Some _ _ _ _ _ E2).
    edestruct (S h2) as (h3 & E3 & U3); [exact U2|]. rewrite (bind_Some _ _ _ _ _ E3).
    edestruct (S h3) as (h4 & E4 & U4); [exact U3|]. rewrite (bind_Some _ _ _ _ _ E4).
    exists conditions, h4. split; [done|].
    match type of U4 with updated _ _ _ _ (Some (<[_ := ?e]> _)) => replace (updateCondition now c new) with e; [done|] end.
    clear - Ht. destruct c, new; unfold updateCondition; cbn in *. subst.
    repeat (case_bool_decide; cbn); rewrite ?decide_True, ?decide_False by done; by subst.
  - apply (append_flat h conditions v (initCondition now new) R).
Qed.

Lemma keepOthers_fresh h conditions v t k : forall i h1 kept acc,
  read h conditions = Some v -> i + k = length (elems v) -> fresh_copy h h1 kept (Some acc) ->
  exists kept' h2, keepOthers conditions t (seq i k) kept h1 = Some (kept', h2)
    /\ fresh_copy h h2 kept' (Some (acc ++ filter (fun c => c_Type c <> t) (drop i (elems v)))).
Proof.
  induction k as [|k IH]; intros i h1 kept acc R Hi F; cbn [seq keepOthers].
  - exists kept, h1. split; [done|]. rewrite drop_ge by lia. by rewrite app_nil_r.
  - destruct (lookup_lt_is_Some_2 (elems v) i) as [c Hc]; [lia|].
    destruct (read_mono h h1 _ _ (fc_old _ _ _ _ F) R) as [R1 _].
    rewrite (bind_Some _ _ _ c h1) by by eapply (index_flat h1 conditions v). rewrite (drop_S _ _ _ Hc).
    case_bool_decide as E.
    + rewrite filter_cons_False by tauto. rewrite (bind_Some _ _ _ kept h1) by done. apply IH; [done | lia | done].
    + rewrite filter_cons_True by done.
      destruct (append_flat h1 kept (Some acc) c (fc_read _ _ _ _ F)) as (kept1 & h2 & E2 & U).
      rewrite (bind_Some _ _ _ kept1 h2) by done.
      destruct (IH (S i) h2 kept1 (acc ++ [c])) as (kept' & h3 & E3 & F3);
        [done | lia | exact (fresh_updated _ _ _ _ _ _ _ F U) |].
      exists kept', h3. split; [done|]. by rewrite <- app_assoc in F3.
Qed.

Lemma RemoveStatusCondition_updates h conditions v t :
  read h conditions = Some v ->
  updates (fun s => RemoveStatusCondition s t) h conditions (MetaV1.RemoveStatusCondition v t).
Proof.
  intros R. unfold updates, RemoveStatusCondition. pose proof (flat_len h conditions v R) as L.
  destruct (len conditions =? 0) eqn:E; [apply Nat.eqb_eq in E | apply Nat.eqb_neq in E].
  - exists conditions, h. split; [done|].
    replace (MetaV1.RemoveStatusCondition v t) with v by (destruct v as [[|]|]; cbn in *; [done | lia | done]).
    by apply updated_refl, flat_owned.
  - destruct v as [[|c cs]|]; cbn in L; [lia | | lia].
    destruct (makeCap_fresh (M := Condition) (len conditions - 1) h) as (s & h1 & E1 & F1).
    destruct (keepOthers_fresh h conditions _ t (len conditions) 0 h1 s [] R L F1) as (s' & h2 & E2 & F2).
    exists s', h2. split; [by rewrite (bind_Some _ _ _ s h1)|]. by apply updated_fresh.
Qed.

(** ** Synchronised conditions *)

Lemma syncLoop_updates clock pcs : forall i h result v pr,
  read h result = Some v ->
  let '(i', v', pr') := NodeClassStatus.syncLoop clock i v pr pcs in
  exists result' h', syncLoop clock i result pr pcs h = Some ((i', result', pr'), h') /\ updated h h' result result' v'.
Proof.
  induction pcs as [|c cs IH]; intros i h result v pr R; cbn [syncLoop NodeClassStatus.syncLoop].
  - exists result, h. split; [done|]. by apply updated_refl, flat_owned.
  - case_decide; [by apply IH|].
    destruct (SetStatusCondition_updates (clock i) h result v c R) as (r1 & h1 & E1 & U1).
    specialize (IH (S i) h1 r1 _ pr (proj1 (up_owned _ _ _ _ _ U1))).
    destruct (NodeClassStatus.syncLoop _ _ _ _ _) as [[i' v'] pr']. destruct IH as (r2 & h2 & E2 & U2).
    exists r2, h2. split; [by rewrite (bind_Some _ _ _ r1 h1)|]. by eapply updated_trans.
Qed.

(** The result is new memory: the conditions passed in stay as they are. *)
Lemma SyncConditions_fresh clock h conditions v pcs generation :
  read h conditions = Some v ->
  exists result h', SyncConditions clock conditions pcs generation h = Some (result, h')
    /\ fresh_copy h h' result (NodeClassStatus.SyncConditions clock v pcs generation).
Proof.
  intros R. destruct (Clone_fresh h conditions v R) as (s & h1 & E1 & F1).
  pose proof (syncLoop_updates clock pcs 0 h1 s v None (fc_read _ _ _ _ F1)) as SL.
  unfold SyncConditions, NodeClassStatus.SyncConditions. rewrite (bind_Some _ _ _ s h1) by done.
  destruct (NodeClassStatus.syncLoop clock 0 v None pcs) as [[i v'] pr]. destruct SL as (r & h2 & E2 & U2).
  rewrite (bind_Some _ _ _ (i, r, pr) h2) by done. pose proof (fresh_updated _ _ _ _ _ _ _ F1 U2) as F2.
  pose proof (fc_read _ _ _ _ F2) as R2.
  rewrite (bind_Some _ _ _ _ h2) by by eapply FindStatusCondition_mem.
  assert (Last : forall new, exists result h', SetStatusCondition (clock i) r new h2 = Some (result, h')
      /\ fresh_copy h h' result (MetaV1.SetStatusCondition (clock i) v' new)).
  { intros new. destruct (SetStatusCondition_updates (clock i) h2 r v' new R2) as (r' & h3 & E3 & U3).
    exists r', h3. split; [done|]. exact (fresh_updated _ _ _ _ _ _ _ F2 U3). }
  unfold isVersionResolved, MetaV1.FindStatusCondition. rewrite find_list_find.
  destruct (list_find _ (elems v')) as [[j c]|] eqn:E; cbn [fmap option_fmap option_map fst snd]; [|apply Last].
  apply list_find_Some in E as (Hj & _ & _).
  rewrite (bind_Some _ _ _ c h2) by by eapply (index_flat h2 r v').
  case_bool_decide; [destruct pr; [apply Last | by exists r, h2] | apply Last].
Qed.

End growth.
End metamem.

(** ** sigs.k8s.io/controller-runtime/pkg/controller/controllerutil *)

(** [client.Object], for what the finalizer functions use of it. *)
Class Object (M : Type) := {
  Object_cell :: Cell M;
  GetFinalizers : M -> sliceref string;
  SetFinalizers : sliceref string -> M -> M }.

Module controllerutil.
Section object.
Context {M : Type} `{Object M, Growth string}.
Implicit Types (o : ptr M).

(** slices.Contains *)
Definition Contains (s : sliceref string) (v : string) : mem bool :=
  i ← findIndex s (fun x => bool_decide (x = v)) (seq 0 (len s));
  mret (match i with Some _ => true | None => false end).

Definition ContainsFinalizer o (finalizer : string) : mem bool :=
  x ← load o; Contains (GetFinalizers x) finalizer.

Definition AddFinalizer o (finalizer : string) : mem bool :=
  x ← load o;
  let f := GetFinalizers x in
  found ← Contains f finalizer;
  if found : bool then mret false
  else f' ← append f finalizer; assign o SetFinalizers f';; mret true.

(** The loop of [RemoveFinalizer] for the indexes that are left: the new [index]. *)
Fixpoint compact (f : sliceref string) (finalizer : string) (todo : list nat) (write : nat) : mem nat :=
  match todo with
  | [] => mret write
  | i :: todo' =>
      x ← index f i;
      if bool_decide (x = finalizer) then compact f finalizer todo' write
      else setIndex f write x;; compact f finalizer todo' (S write)
  end.
Definition RemoveFinalizer o (finalizer : string) : mem bool :=
  x ← load o;
  let f := GetFinalizers x in
  n ← compact f finalizer (seq 0 (len f)) 0;
  assign o SetFinalizers (SliceRef (array f) n (cap f));;
  mret (negb (len f =? n)).

(** ** What they do *)

Context {V : Type} `{Stored M V} (getV : V -> slice string) (setV : slice string -> V -> V)
  `{F : !Field GetFinalizers SetFinalizers getV setV}.
Implicit Types (h : heap) (v : V).

Lemma Contains_mem h s fs x :
  read h s = Some fs -> Contains s x h = Some (bool_decide (x ∈ elems fs), h).
Proof using.
  intros R. unfold Contains. rewrite (bind_Some _ _ _ _ h) by by eapply findIndex_flat. unfold mret, mem_ret.
  destruct (list_find _ (elems fs)) as [[i y]|] eqn:E; cbn.
  - apply list_find_Some in E as (Hi & ->%bool_decide_unpack & _).
    rewrite bool_decide_eq_true_2; [done | by eapply list_elem_of_lookup_2].
  - apply list_find_None in E. rewrite bool_decide_eq_false_2; [done|].
    rewrite Forall_forall in E. intros Hx. apply (E x Hx). by apply bool_decide_pack.
Qed.

Lemma ContainsFinalizer_mem h o v finalizer :
  owned h o (Some v) -> ContainsFinalizer o finalizer h = Some (bool_decide (finalizer ∈ elems (getV v)), h).
Proof using F.
  intros (l & m & -> & E & O & _)%owned_ptr_inv. unfold ContainsFinalizer.
  rewrite (bind_Some _ _ _ m h) by by apply load_Some. apply Contains_mem. by apply (field_owned (Field := F)).
Qed.

Lemma AddFinalizer_updates h o v finalizer :
  owned h o (Some v) ->
  exists h', AddFinalizer o finalizer h = Some (negb (bool_decide (finalizer ∈ elems (getV v))), h')
    /\ if bool_decide (finalizer ∈ elems (getV v)) then h' = h
       else updated h h' o o (Some (setV (go_append (getV v) [finalizer]) v)).
Proof using F.
  intros (l & m & -> & E & O & Hl)%owned_ptr_inv. unfold AddFinalizer.
  destruct (field_owned (Field := F) h m v O) as [Of _].
  rewrite (bind_Some _ _ _ m h) by by apply load_Some. rewrite (bind_Some _ _ _ _ h) by by apply Contains_mem, Of.
  case_bool_decide; [by exists h|].
  destruct (append_flat h _ _ finalizer (proj1 Of)) as (f & h1 & E1 & U1).
  destruct (assign_field GetFinalizers SetFinalizers getV setV h h1 l m v f _ E Hl O U1) as [E2 U2].
  eexists. split; [|exact U2]. rewrite (bind_Some _ _ _ f h1) by done. by rewrite (bind_Some _ _ _ _ _ E2).
Qed.

(** The loop keeps the elements that differ, in order, at the front. *)
Lemma compact_from h f xs finalizer k : forall i h1 write ys,
  updated h h1 f f (Some ys) -> length ys = length xs -> i + k = length xs -> write <= i ->
  take write ys = filter (fun x => x <> finalizer) (take i xs) -> drop i ys = drop i xs ->
  exists n h2 ys', compact f finalizer (seq i k) write h1 = Some (n, h2) /\ updated h h2 f f (Some ys')
    /\ n <= length ys' /\ take n ys' = filter (fun x => x <> finalizer) xs.
Proof using.
  induction k as [|k IH]; intros i h1 write ys U L Hi Hw T D; cbn [seq compact].
  - exists write, h1, ys. rewrite (take_ge xs) in T by lia. split_and!; [done | done | lia | done].
  - destruct (lookup_lt_is_Some_2 xs i) as [x Hx]; [lia|].
    assert (Hy : ys !! i = Some x).
    { rewrite <- (Nat.add_0_r i), <- lookup_drop, D, lookup_drop, Nat.add_0_r. done. }
    pose proof (proj1 (up_owned _ _ _ _ _ U)) as R.
    rewrite (bind_Some _ _ _ x h1) by by eapply (index_flat h1 f (Some ys)).
    assert (Tx : filter (fun x => x <> finalizer) (take (S i) xs) =
      filter (fun x => x <> finalizer) (take i xs) ++ (if decide (x <> finalizer) then [x] else [])).
    { rewrite (take_S_r _ _ x) by done. by rewrite filter_app. }
    case_bool_decide as Ex.
    + apply (IH (S i) h1 write ys); try done; [lia | lia | |].
      * rewrite Tx, decide_False by tauto. by rewrite app_nil_r.
      * by rewrite (drop_S _ _ _ Hy), (drop_S _ _ _ Hx) in D; injection D.
    + destruct (setIndex_flat h1 f (Some ys) write x R) as (h2 & E2 & U2); [cbn; lia|].
      rewrite (bind_Some _ _ _ tt h2) by done. cbn [elems default from_option id] in U2.
      apply (IH (S i) h2 (S write) (<[write := x]> ys)); [by eapply updated_trans | by rewrite length_insert | lia | lia | |].
      * rewrite Tx, decide_True by done. rewrite (take_S_r _ _ x) by (apply list_lookup_insert_eq; lia).
        by rewrite take_insert_ge, T by lia.
      * rewrite drop_insert_lt by lia. by rewrite (drop_S _ _ _ Hy), (drop_S _ _ _ Hx) in D; injection D.
Qed.

Lemma compact_updates h f fs finalizer :
  read h f = Some fs ->
  exists n h', compact f finalizer (seq 0 (len f)) 0 h = Some (n, h')
    /\ updated h h' f (SliceRef (array f) n (cap f)) (filter (fun x => x <> finalizer) <$> fs).
Proof using.
  intros R. destruct fs as [xs|].
  - pose proof (flat_len h f _ R) as L.
    destruct (compact_from h f xs finalizer (len f) 0 h 0 xs) as (n & h' & ys & E & U & Ln & T);
      [by apply updated_refl, flat_owned | done | done | done | done | done |].
    exists n, h'. split; [done|]. pose proof (proj1 (up_owned _ _ _ _ _ U)) as R'.
    eapply updated_trans; [exact U|]. cbn. rewrite <- T.
    apply (reslice_flat h' f (Some ys)); [done|]. by rewrite (flat_len h' f _ R').
  - destruct (flat_inv h f None R) as [[-> _]|[(l & _ & ?)|(l & ms & _ & _ & _ & _ & ?)]]; [|done..].
    exists 0, h. split; [done|]. by apply updated_refl, flat_owned.
Qed.

Lemma RemoveFinalizer_updates h o v finalizer :
  owned h o (Some v) ->
  exists b h', RemoveFinalizer o finalizer h = Some (b, h')
    /\ updated h h' o o (Some (setV (filter (fun x => x <> finalizer) <$> getV v) v)).
Proof using F.
  intros (l & m & -> & E & O & Hl)%owned_ptr_inv. unfold RemoveFinalizer.
  destruct (field_owned (Field := F) h m v O) as [Of _].
  rewrite (bind_Some _ _ _ m h) by by apply load_Some.
  destruct (compact_updates h _ _ finalizer (proj1 Of)) as (n & h1 & E1 & U1).
  rewrite (bind_Some _ _ _ n h1) by done.
  destruct (assign_field GetFinalizers SetFinalizers getV setV h h1 l m v _ _ E Hl O U1) as [E2 U2].
  eexists _, _. split; [|exact U2]. by rewrite (bind_Some _ _ _ _ _ E2).
Qed.

End object.
End controllerutil.
