(* ===== verification/InPlace.v ===== *)
(** * The NodeClass updates, in memory

    The statements of the EC2 and the Azure NodeClass controller that copy a
    NodeClass, change it in place and send the difference: the finalizer patches and
    [reconcileStatus].  Each runs on the memory and returns the calls that remain,
    which are those of Ec2NodeClass, Ec2Status and AzureNodeClass. *)

From S2P Require Import Prelude Prog DeepEqual MetaV1 CoreTypes HyperTypes AwsV1 KarpenterV1 AzureTypes Kube NodeClassStatus.
From S2P Require Import Ec2Convert Ec2Tags Ec2Status Ec2NodeClass AzureNodeClass.
From S2P Require Import MemTypes GoMem GoCopy GoUpdate GoSlices DeepCopy MetaMem.

(** ** Patches *)

(** What an object is when it is sent. *)
Definition snapshot {M V} `{Cell M, Stored M V} (p : ptr M) : mem V := fun h =>
  match read h p with Some (Some v) => Some (v, h) | _ => None end.

(** [original := x.DeepCopy(); update; Patch(ctx, x, client.MergeFrom(original))], for
    what [send] makes of the original and of the object. *)
Definition patching {M V A B} `{Cell M, Stored M V} (DeepCopy : ptr M -> mem (ptr M)) (update : mem B) (p : ptr M)
    (send : V -> V -> A) : mem A :=
  original ← DeepCopy p;
  update;;
  o ← snapshot original;
  n ← snapshot p;
  mret (send o n).

Section patching.
Context {M V : Type} `{Cell M, Stored M V}.

Lemma snapshot_Some h (p : ptr M) v : read h p = Some (Some v) -> snapshot p h = Some (v, h).
Proof. unfold snapshot. by intros ->. Qed.

(** The original is what the object was before, if the update leaves new memory
    alone. *)
Lemma patching_original {A B} (DeepCopy : ptr M -> mem (ptr M)) `{HC : !Copies DeepCopy} (update : mem B) p
    (send : V -> V -> A) h v v' r :
  owned h p (Some v) -> send v v' = r ->
  (forall h1, h ⊆ h1 -> exists b h2, update h1 = Some (b, h2) /\ read h2 p = Some (Some v')
     /\ forall l, h !! l = None -> is_Some (h1 !! l) -> h2 !! l = h1 !! l) ->
  exists h', patching DeepCopy update p send h = Some (r, h').
Proof.
  intros [R O] <- Hu.
  destruct (HC h p (Some v) R) as (original & h1 & E1 & [S R1 N1 F1]).
  destruct (Hu h1 S) as (b & h2 & E2 & R' & F).
  destruct (read_agree h1 h2 original (Some v) R1) as [R2 _].
  { intros l Hl. apply F; [by apply F1 | by eapply read_locs]. }
  exists h2. unfold patching. rewrite (bind_Some _ _ _ original h1) by done. rewrite (bind_Some _ _ _ b h2) by done.
  rewrite (bind_Some _ _ _ v h2) by by apply snapshot_Some.
  by rewrite (bind_Some _ _ _ v' h2) by by apply snapshot_Some.
Qed.

Lemma patching_Some {A B} (DeepCopy : ptr M -> mem (ptr M)) `{HC : !Copies DeepCopy} (update : mem B) p
    (send : V -> V -> A) h v v' r :
  owned h p (Some v) -> send v v' = r ->
  (forall h1, owned h1 p (Some v) -> exists b h2, update h1 = Some (b, h2) /\ updated h1 h2 p p (Some v')) ->
  exists h', patching DeepCopy update p send h = Some (r, h').
Proof.
  intros [R O] Hs Hu. apply (patching_original DeepCopy update p send h v v'); [by split | done |].
  intros h1 S. destruct (read_mono h h1 p _ S R) as [Rp Lp].
  destruct (Hu h1) as (b & h2 & E2 & [[R2 _] F _]); [by split; [|rewrite Lp]|].
  exists b, h2. split_and!; [done | done |]. intros l Hn Hl. apply F; [done|].
  rewrite Lp. intros Hp. destruct (read_locs h p _ R l Hp). congruence.
Qed.

End patching.

(** ** The fields that are updated *)

(** The references of a struct are nested pairs; [reach] finds the field. *)
Ltac after := eapply field_comp; [apply field_snd|].
Ltac field_at rebuild reach :=
  eapply (field_via _ _ rebuild);
  [reach | intros; repeat match goal with p : _ * _ |- _ => destruct p end; reflexivity..].

#[export] Instance om_Finalizers_field :
  Field metam.om_Finalizers metam.om_set_Finalizers om_Finalizers om_set_Finalizers.
Proof.
  field_at (fun x '(a, (b, (c, (d, e)))) => metam.mkObjectMeta (metam.om_Name x) (metam.om_Namespace x)
    (metam.om_UID x) (metam.om_ResourceVersion x) (metam.om_Generation x) a b c d e)
    ltac:(after; after; after; apply field_snd).
Qed.

(** *** OpenshiftEC2NodeClass *)

Definition ec2_rebuild (_ : osv1m.OpenshiftEC2NodeClass)
    (p : metam.ObjectMeta * (osv1m.OpenshiftEC2NodeClassSpec * osv1m.OpenshiftEC2NodeClassStatus)) :=
  let '(a, (b, c)) := p in osv1m.mkOpenshiftEC2NodeClass a b c.
Definition ec2_status_rebuild (x : osv1m.OpenshiftEC2NodeClassStatus)
    (p : sliceref Condition * (sliceref osv1.Subnet * (sliceref osv1.SecurityGroup * sliceref osv1.CapacityReservation))) :=
  let '(a, (b, (c, d))) := p in osv1m.mkStatus a b c (osv1m.ReleaseImage x) (osv1m.StatusVersion x) d.

#[export] Instance ec2_meta_field : Field osv1m.meta osv1m.set_meta osv1.meta osv1.set_meta.
Proof. field_at ec2_rebuild ltac:(apply field_fst). Qed.
#[export] Instance ec2_Status_field : Field osv1m.Status osv1m.set_Status osv1.Status osv1.set_Status.
Proof. field_at ec2_rebuild ltac:(after; apply field_snd). Qed.
#[export] Instance ec2_Conditions_field :
  Field osv1m.Conditions osv1m.set_Conditions osv1.Conditions osv1.set_Conditions.
Proof. field_at ec2_status_rebuild ltac:(apply field_fst). Qed.
#[export] Instance ec2_Subnets_field :
  Field osv1m.Subnets osv1m.set_Subnets osv1.Subnets osv1.set_Subnets.
Proof. field_at ec2_status_rebuild ltac:(after; apply field_fst). Qed.
#[export] Instance ec2_SecurityGroups_field :
  Field osv1m.SecurityGroups osv1m.set_SecurityGroups osv1.SecurityGroups osv1.set_SecurityGroups.
Proof. field_at ec2_status_rebuild ltac:(after; after; apply field_fst). Qed.
#[export] Instance ec2_CapacityReservations_field :
  Field osv1m.CapacityReservations osv1m.set_CapacityReservations osv1.CapacityReservations osv1.set_CapacityReservations.
Proof. field_at ec2_status_rebuild ltac:(after; after; apply field_snd). Qed.

#[export] Instance ec2_object : Object osv1m.OpenshiftEC2NodeClass := {|
  GetFinalizers x := metam.om_Finalizers (osv1m.meta x);
  SetFinalizers f x := osv1m.set_meta (metam.om_set_Finalizers f (osv1m.meta x)) x |}.
#[export] Instance ec2_finalizers_field :
  Field GetFinalizers SetFinalizers (fun x => om_Finalizers (osv1.meta x))
    (fun f x => osv1.set_meta (om_set_Finalizers f (osv1.meta x)) x).
Proof. apply (field_comp _ _ _ _ _ _ _ _ ec2_meta_field om_Finalizers_field). Qed.

(** *** OpenShiftAzureNodeClass *)

Definition azure_rebuild (_ : osv1alpha1m.OpenShiftAzureNodeClass)
    (p : metam.ObjectMeta * (osv1alpha1m.OpenShiftAzureNodeClassSpec * osv1alpha1m.OpenShiftAzureNodeClassStatus)) :=
  let '(a, (b, c)) := p in osv1alpha1m.mkOpenShiftAzureNodeClass a b c.

#[export] Instance azure_meta_field : Field osv1alpha1m.meta osv1alpha1m.set_meta osv1alpha1.meta osv1alpha1.set_meta.
Proof. field_at azure_rebuild ltac:(apply field_fst). Qed.
#[export] Instance azure_Status_field :
  Field osv1alpha1m.Status osv1alpha1m.set_Status osv1alpha1.Status
    (fun s x => osv1alpha1.mkOpenShiftAzureNodeClass (osv1alpha1.meta x) (osv1alpha1.Spec x) s).
Proof. field_at azure_rebuild ltac:(after; apply field_snd). Qed.
#[export] Instance azure_Conditions_field :
  Field osv1alpha1m.Conditions osv1alpha1m.set_Conditions osv1alpha1.Conditions
    (fun c s => osv1alpha1.mkStatus c (osv1alpha1.ReleaseImage s) (osv1alpha1.StatusVersion s)).
Proof.
  eapply (field_via _ _ (fun x c => osv1alpha1m.set_Conditions c x) (fun c => c) (fun c _ => c) (fun c => c) (fun c _ => c));
    [by split | intros; reflexivity..].
Qed.

#[export] Instance azure_object : Object osv1alpha1m.OpenShiftAzureNodeClass := {|
  GetFinalizers x := metam.om_Finalizers (osv1alpha1m.meta x);
  SetFinalizers f x := osv1alpha1m.set_meta (metam.om_set_Finalizers f (osv1alpha1m.meta x)) x |}.
#[export] Instance azure_finalizers_field :
  Field GetFinalizers SetFinalizers (fun x => om_Finalizers (osv1alpha1.meta x))
    (fun f x => osv1alpha1.set_meta (om_set_Finalizers f (osv1alpha1.meta x)) x).
Proof. apply (field_comp _ _ _ _ _ _ _ _ azure_meta_field om_Finalizers_field). Qed.

(** ** pkg/controllers/nodeclass/ec2/controller.go *)

Module ec2mem.
Section controller.
Context `{Growth string, Growth Condition, Growth osv1.Subnet, Growth osv1.SecurityGroup, Growth osv1.CapacityReservation}.
Implicit Types (openshiftNodeClass : ptr osv1m.OpenshiftEC2NodeClass).

(** The finalizer in [Reconcile]. *)
Definition ensureFinalizer openshiftNodeClass : mem (go (result osv1.OpenshiftEC2NodeClass)) :=
  found ← controllerutil.ContainsFinalizer openshiftNodeClass Ec2NodeClass.finalizer;
  if found : bool then n ← snapshot openshiftNodeClass; mret (Ret (Ok n))
  else patching osv1copy.OpenshiftEC2NodeClass_DeepCopy
         (controllerutil.AddFinalizer openshiftNodeClass Ec2NodeClass.finalizer) openshiftNodeClass (fun original o =>
       wrap_err "adding finalizer to openshiftEC2NodeClass"
         (call (EPatch Hosted KOpenshiftEC2NodeClass original o true))).

Definition releaseFinalizer openshiftNodeClass : mem (go (result Result)) :=
  found ← controllerutil.ContainsFinalizer openshiftNodeClass Ec2NodeClass.finalizer;
  if found : bool then
    patching osv1copy.OpenshiftEC2NodeClass_DeepCopy
      (controllerutil.RemoveFinalizer openshiftNodeClass Ec2NodeClass.finalizer) openshiftNodeClass (fun original o =>
    wrap_err "removing finalizer from openshiftEC2NodeClass"
      (call (EPatch Hosted KOpenshiftEC2NodeClass original o true)) ;;?
    Ret (Ok noRequeue))
  else mret (Ret (Ok noRequeue)).

(** Fields of [openshiftNodeClass.Status]. *)
Definition inStatus {A} (set : A -> osv1m.OpenshiftEC2NodeClassStatus -> osv1m.OpenshiftEC2NodeClassStatus)
    (x : A) (nc : osv1m.OpenshiftEC2NodeClass) : osv1m.OpenshiftEC2NodeClass :=
  osv1m.set_Status (set x (osv1m.Status nc)) nc.

(** Reading a map, nil like an empty one. *)
Definition loadMap (m : mapref) : mem (gmap string string) :=
  match table m with None => mret ∅ | Some _ => load (mapPtr m) end.

Definition setAWSResourceTagConflictCondition (now : Time) openshiftNodeClass (hcp : HostedControlPlane) : mem unit :=
  nc ← load openshiftNodeClass;
  tags ← loadMap (osv1m.Tags (osv1m.Spec nc));
  let platform := elems (awsResourceTags hcp) in
  assignOp openshiftNodeClass (fun nc => osv1m.Conditions (osv1m.Status nc)) (inStatus osv1m.set_Conditions)
    (fun conditions =>
       if decide (platform = [] \/ tags = ∅) then
         metamem.RemoveStatusCondition conditions NodePoolAWSResourceTagConflictConditionType
       else
         metamem.SetStatusCondition now conditions
           (conflictCondition (metam.om_Generation (osv1m.meta nc))
              (fold_left (countTag platform) (map_to_list tags) (0, 0)%Z))).

(** The loop over the capacity reservations. *)
Fixpoint appendReservations openshiftNodeClass (crs : list awsv1.CapacityReservation) : mem unit :=
  match crs with
  | [] => mret tt
  | cr :: crs' =>
      match resolvedReservation cr with
      | Err _ => panic
      | Ok resolved =>
          assignOp openshiftNodeClass (fun nc => osv1m.CapacityReservations (osv1m.Status nc))
            (inStatus osv1m.set_CapacityReservations) (fun s => append s resolved);;
          appendReservations openshiftNodeClass crs'
      end
  end.

(** The assignments of [reconcileStatus], in their order. *)
Definition updateSecurityGroups (status : awsv1.EC2NodeClassStatus) openshiftNodeClass : mem unit :=
  securityGroups ← (s ← makeCap (length (elems (awsv1.SecurityGroups status)));
    appendEach (fun sg => osv1.mkSecurityGroup (awsv1.sg_ID sg) (awsv1.sg_Name sg)) (elems (awsv1.SecurityGroups status)) s);
  assign openshiftNodeClass (inStatus osv1m.set_SecurityGroups) securityGroups.

Definition updateSubnets (status : awsv1.EC2NodeClassStatus) openshiftNodeClass : mem unit :=
  subnets ← (s ← makeCap (length (elems (awsv1.Subnets status)));
    appendEach (fun s => osv1.mkSubnet (awsv1.sn_ID s) (awsv1.sn_Zone s) (awsv1.sn_ZoneID s)) (elems (awsv1.Subnets status)) s);
  assign openshiftNodeClass (inStatus osv1m.set_Subnets) subnets.

Definition updateConditions (clock : nat -> Time) (status : awsv1.EC2NodeClassStatus) openshiftNodeClass : mem unit :=
  nc ← load openshiftNodeClass;
  conditions ← metamem.SyncConditions clock (osv1m.Conditions (osv1m.Status nc)) (elems (awsv1.Conditions status))
                 (metam.om_Generation (osv1m.meta nc));
  assign openshiftNodeClass (inStatus osv1m.set_Conditions) conditions.

Definition updateStatus (clock : nat -> Time) (ec2NodeClass : awsv1.EC2NodeClass) openshiftNodeClass
    (hcp : HostedControlPlane) : mem unit :=
  let status := awsv1.Status ec2NodeClass in
  updateSecurityGroups status openshiftNodeClass;;
  updateSubnets status openshiftNodeClass;;
  assign openshiftNodeClass (inStatus osv1m.set_CapacityReservations) nilslice;;
  appendReservations openshiftNodeClass (elems (awsv1.CapacityReservations status));;
  updateConditions clock status openshiftNodeClass;;
  setAWSResourceTagConflictCondition (clock (S (length (elems (awsv1.Conditions status))))) openshiftNodeClass hcp.

Definition reconcileStatus (clock : nat -> Time) (ec2NodeClass : awsv1.EC2NodeClass) openshiftNodeClass
    (hcp : HostedControlPlane) : mem (go (result unit)) :=
  patching osv1copy.OpenshiftEC2NodeClass_DeepCopy (updateStatus clock ec2NodeClass openshiftNodeClass hcp)
    openshiftNodeClass (fun originalObj o =>
  if negb (DeepEqual (osv1.Status originalObj) (osv1.Status o)) then
    wrap_err "updating status" (call (EStatusPatch Hosted KOpenshiftEC2NodeClass originalObj o true)) ;;?
    Ret (Ok tt)
  else Ret (Ok tt)).

End controller.
End ec2mem.

(** ** pkg/controllers/nodeclass/azure/controller.go *)

Module azuremem.
Section controller.
Context `{Growth string, Growth Condition}.
Implicit Types (nodeClass : ptr osv1alpha1m.OpenShiftAzureNodeClass).

(** The finalizer in [Reconcile]. *)
Definition ensureFinalizer nodeClass : mem (go (result osv1alpha1.OpenShiftAzureNodeClass)) :=
  found ← controllerutil.ContainsFinalizer nodeClass AzureNodeClass.finalizer;
  if found : bool then n ← snapshot nodeClass; mret (Ret (Ok n))
  else patching osv1alpha1copy.OpenShiftAzureNodeClass_DeepCopy
         (controllerutil.AddFinalizer nodeClass AzureNodeClass.finalizer) nodeClass (fun original o =>
       wrap_err "adding finalizer" (call (EPatch Hosted KOpenShiftAzureNodeClass original o true))).

Definition releaseFinalizer nodeClass : mem (go (result unit)) :=
  found ← controllerutil.ContainsFinalizer nodeClass AzureNodeClass.finalizer;
  if found : bool then
    patching osv1alpha1copy.OpenShiftAzureNodeClass_DeepCopy
      (controllerutil.RemoveFinalizer nodeClass AzureNodeClass.finalizer) nodeClass (fun original o =>
    wrap_err "removing finalizer" (call (EPatch Hosted KOpenShiftAzureNodeClass original o true)) ;;?
    Ret (Ok tt))
  else mret (Ret (Ok tt)).

(** The field [nodeClass.Status.Conditions]. *)
Definition set_Conditions (x : sliceref Condition) (nc : osv1alpha1m.OpenShiftAzureNodeClass) :
    osv1alpha1m.OpenShiftAzureNodeClass :=
  osv1alpha1m.set_Status (osv1alpha1m.set_Conditions x (osv1alpha1m.Status nc)) nc.

(** The values of two slices are compared. *)
Definition valueOf {M V} `{Stored M V} (x : M) : mem V := fun h =>
  match read h x with Some v => Some (v, h) | None => None end.

Definition reconcileStatus (clock : nat -> Time) nodeClass (aksNodeClass : azurev1beta1.AKSNodeClass) :
    mem (go (result unit)) :=
  nc ← load nodeClass;
  conditions ← metamem.SyncConditions clock (osv1alpha1m.Conditions (osv1alpha1m.Status nc))
    (elems (azurev1beta1.Conditions (azurev1beta1.Status aksNodeClass))) (metam.om_Generation (osv1alpha1m.meta nc));
  synced ← valueOf conditions;
  current ← valueOf (osv1alpha1m.Conditions (osv1alpha1m.Status nc));
  if SemanticDeepEqual (synced : slice Condition) current then mret (Ret (Ok tt))
  else
    patching osv1alpha1copy.OpenShiftAzureNodeClass_DeepCopy (assign nodeClass set_Conditions conditions) nodeClass
      (fun original o =>
    wrap_err "updating status" (call (EStatusPatch Hosted KOpenShiftAzureNodeClass original o true)) ;;?
    Ret (Ok tt)).

End controller.
End azuremem.

(** ** The finalizer patches are those of the controllers *)

Section ec2.
Context `{Growth string, Growth Condition, Growth osv1.Subnet, Growth osv1.SecurityGroup, Growth osv1.CapacityReservation}.
Implicit Types (p : ptr osv1m.OpenshiftEC2NodeClass) (nc : osv1.OpenshiftEC2NodeClass).

Lemma ec2_ensureFinalizer_mem h p nc :
  owned h p (Some nc) -> exists h', ec2mem.ensureFinalizer p h = Some (Ec2NodeClass.ensureFinalizer nc, h').
Proof.
  intros O. unfold ec2mem.ensureFinalizer, Ec2NodeClass.ensureFinalizer.
  rewrite (bind_Some _ _ _ _ h) by by apply (controllerutil.ContainsFinalizer_mem _ _ (F := ec2_finalizers_field)).
  fold (ContainsFinalizer (osv1.meta nc) Ec2NodeClass.finalizer).
  destruct (ContainsFinalizer _ _) eqn:E.
  - exists h. by rewrite (bind_Some _ _ _ nc h) by apply snapshot_Some, O.
  - eapply patching_Some; [apply _ | exact O | reflexivity |]. intros h1 O1.
    destruct (controllerutil.AddFinalizer_updates _ _ (F := ec2_finalizers_field) h1 p nc Ec2NodeClass.finalizer O1) as (h2 & E2 & U).
    fold (ContainsFinalizer (osv1.meta nc) Ec2NodeClass.finalizer) in U. rewrite E in U.
    eexists _, h2. split; [exact E2|]. unfold Ec2NodeClass.withMeta, AddFinalizer. by rewrite E.
Qed.

Lemma ec2_releaseFinalizer_mem h p nc :
  owned h p (Some nc) -> exists h', ec2mem.releaseFinalizer p h = Some (Ec2NodeClass.releaseFinalizer nc, h').
Proof.
  intros O. unfold ec2mem.releaseFinalizer, Ec2NodeClass.releaseFinalizer.
  rewrite (bind_Some _ _ _ _ h) by by apply (controllerutil.ContainsFinalizer_mem _ _ (F := ec2_finalizers_field)).
  fold (ContainsFinalizer (osv1.meta nc) Ec2NodeClass.finalizer).
  destruct (ContainsFinalizer _ _); [|by exists h].
  eapply patching_Some; [apply _ | exact O | reflexivity |].
  intros h1 O1. apply (controllerutil.RemoveFinalizer_updates _ _ (F := ec2_finalizers_field) h1 p nc Ec2NodeClass.finalizer O1).
Qed.

(** ** The status *)

Lemma ec2_inStatus {N W} `{Stored N W} (get : osv1m.OpenshiftEC2NodeClassStatus -> N) set
    (getV : osv1.OpenshiftEC2NodeClassStatus -> W) setV (F : Field get set getV setV) :
  Field (fun x => get (osv1m.Status x)) (ec2mem.inStatus set) (fun v => getV (osv1.Status v))
    (fun w v => osv1.set_Status (setV w (osv1.Status v)) v).
Proof. apply (field_comp _ _ _ _ _ _ _ _ ec2_Status_field F). Qed.

Lemma appendReservations_mem crs : forall h p nc,
  owned h p (Some nc) ->
  match appendAll resolvedReservation crs (osv1.CapacityReservations (osv1.Status nc)) with
  | Ok rs => exists h', ec2mem.appendReservations p crs h = Some (tt, h')
      /\ updated h h' p p (Some (osv1.set_Status (osv1.set_CapacityReservations rs (osv1.Status nc)) nc))
  | Err _ => ec2mem.appendReservations p crs h = None
  end.
Proof.
  induction crs as [|cr crs IH]; intros h p nc O; cbn [appendAll ec2mem.appendReservations].
  - exists h. split; [done|]. destruct nc as [m s [c sn sg ri sv cr]]. by apply updated_refl.
  - destruct (resolvedReservation cr) as [r|e]; cbn [rbind]; [|done].
    destruct (assignOp_field _ _ _ _ (F := ec2_inStatus _ _ _ _ ec2_CapacityReservations_field) h p nc
      (fun s => append s r) (go_append (osv1.CapacityReservations (osv1.Status nc)) [r])) as (h1 & E1 & U1); [done | |].
    { intros s [R _]. by apply (append_flat h s _ r). }
    specialize (IH h1 p _ (up_owned _ _ _ _ _ U1)). cbn in IH.
    destruct (appendAll _ crs _) as [rs|e].
    + destruct IH as (h2 & E2 & U2). exists h2. split; [by rewrite (bind_Some _ _ _ _ _ E1)|].
      by apply (updated_trans _ _ _ _ _ _ _ _ U1 U2).
    + by rewrite (bind_Some _ _ _ _ _ E1).
Qed.

Lemma loadMap_mem h m v : read h m = Some v -> ec2mem.loadMap m h = Some (entries v, h).
Proof.
  unfold ec2mem.loadMap. destruct m as [[l|]]; cbn; [|by intros [= <-]].
  destruct (lookup_cell (A := gmap string string) h l) as [e|] eqn:E; [|done]. by intros [= <-].
Qed.

Lemma meta_generation h (m : metam.ObjectMeta) v : owned h m v -> metam.om_Generation m = om_Generation v.
Proof. intros O. by destruct (via_owned_inv _ _ h m v O) as ([? [? [? [? ?]]]] & -> & _). Qed.

(** What of the NodeClass is read. *)
Lemma ec2_reads_of h (m : osv1m.OpenshiftEC2NodeClass) nc :
  owned h m nc ->
  metam.om_Generation (osv1m.meta m) = om_Generation (osv1.meta nc)
  /\ read h (osv1m.Tags (osv1m.Spec m)) = Some (osv1.Tags (osv1.Spec nc))
  /\ read h (osv1m.Conditions (osv1m.Status m)) = Some (osv1.Conditions (osv1.Status nc)).
Proof.
  intros O. split_and!.
  - eapply meta_generation. by apply (field_owned (Field := ec2_meta_field)).
  - destruct (via_owned_inv _ _ h m nc O) as ([mv [sv tv]] & -> & (_ & (Os & _ & _)%prod_owned_inv & _)%prod_owned_inv).
    destruct (via_owned_inv _ _ h _ sv Os) as ([a [b [c [d [e f]]]]] & -> & O1).
    do 3 apply prod_owned_inv, proj2, proj1 in O1. by apply prod_owned_inv, proj1, proj1 in O1.
  - apply (field_owned (Field := ec2_inStatus _ _ _ _ ec2_Conditions_field) h m nc O).
Qed.

Lemma conflict_mem now h p nc hcp :
  owned h p (Some nc) ->
  exists h', ec2mem.setAWSResourceTagConflictCondition now p hcp h = Some (tt, h')
    /\ updated h h' p p (Some (setAWSResourceTagConflictCondition now nc hcp)).
Proof.
  intros O. destruct (owned_ptr_inv h p nc O) as (l & m & -> & E & Om & _).
  destruct (ec2_reads_of h m nc Om) as (Hg & Ht & _).
  unfold ec2mem.setAWSResourceTagConflictCondition.
  rewrite (bind_Some _ _ _ m h) by by apply load_Some. rewrite (bind_Some _ _ _ _ h) by by apply loadMap_mem.
  apply (assignOp_field _ _ _ _ (F := ec2_inStatus _ _ _ _ ec2_Conditions_field) h _ nc); [done|].
  intros conditions [R _]. unfold conflictConditions. rewrite Hg.
  case_decide; [by apply metamem.RemoveStatusCondition_updates | by apply metamem.SetStatusCondition_updates].
Qed.

(** A new slice of the elements in a field. *)
Lemma collect_assign {A B} `{Growth B, Zero B, Cell (list B)} (S := Stored_const B) get set getV setV
    (F : Field (N := sliceref B) (W := slice B) get set getV setV) (f : A -> B) xs n h p nc :
  owned h p (Some nc) ->
  exists h', (s ← (s ← makeCap n; appendEach f xs s); assign p set s) h = Some (tt, h')
    /\ updated h h' p p (Some (setV (Some (map f xs)) nc)).
Proof.
  intros O. destruct (collect_fresh f xs n h) as (s & h1 & E1 & F1). setoid_rewrite (bind_Some _ _ _ _ _ E1).
  exact (assign_fresh _ _ _ _ (F := F) h h1 p nc s _ O F1).
Qed.

Lemma updateConditions_mem clock status h p nc :
  owned h p (Some nc) ->
  exists h', ec2mem.updateConditions clock status p h = Some (tt, h')
    /\ updated h h' p p (Some (osv1.set_Status (osv1.set_Conditions
         (SyncConditions clock (osv1.Conditions (osv1.Status nc)) (elems (awsv1.Conditions status))
            (om_Generation (osv1.meta nc))) (osv1.Status nc)) nc)).
Proof.
  intros O. destruct (owned_ptr_inv h p nc O) as (l & m & -> & E & Om & _).
  destruct (ec2_reads_of h m nc Om) as (Hg & _ & Hc). unfold ec2mem.updateConditions.
  rewrite (bind_Some _ _ _ m h) by by apply load_Some. rewrite Hg.
  destruct (metamem.SyncConditions_fresh clock h _ _ (elems (awsv1.Conditions status)) (om_Generation (osv1.meta nc)) Hc)
    as (cs & h1 & E1 & F1).
  rewrite (bind_Some _ _ _ _ _ E1).
  exact (assign_fresh _ _ _ _ (F := ec2_inStatus _ _ _ _ ec2_Conditions_field) h h1 _ nc cs _ O F1).
Qed.

Lemma fresh_nil {M V} `{Cell (list M), Stored M V} h : fresh_copy h h (nilslice : sliceref M) None.
Proof. split; [done | done | constructor | by intros l ?%not_elem_of_nil]. Qed.

(** A panic where the value is an error. *)
Lemma updateStatus_mem clock ec2 h p nc hcp :
  owned h p (Some nc) ->
  match desiredNodeClass clock ec2 nc hcp with
  | Ok nc' => exists h', ec2mem.updateStatus clock ec2 p hcp h = Some (tt, h') /\ updated h h' p p (Some nc')
  | Err _ => ec2mem.updateStatus clock ec2 p hcp h = None
  end.
Proof.
  intros O. unfold ec2mem.updateStatus, desiredNodeClass. set (status := awsv1.Status ec2).
  destruct (collect_assign _ _ _ _ (ec2_inStatus _ _ _ _ ec2_SecurityGroups_field)
    (fun g => osv1.mkSecurityGroup (awsv1.sg_ID g) (awsv1.sg_Name g)) (elems (awsv1.SecurityGroups status))
    (length (elems (awsv1.SecurityGroups status))) h p nc O) as (h1 & E1 & U1).
  rewrite (bind_Some _ _ _ tt h1) by exact E1.
  destruct (collect_assign _ _ _ _ (ec2_inStatus _ _ _ _ ec2_Subnets_field)
    (fun s => osv1.mkSubnet (awsv1.sn_ID s) (awsv1.sn_Zone s) (awsv1.sn_ZoneID s)) (elems (awsv1.Subnets status))
    (length (elems (awsv1.Subnets status))) h1 p _ (up_owned _ _ _ _ _ U1)) as (h2 & E2 & U2).
  rewrite (bind_Some _ _ _ tt h2) by exact E2.
  destruct (assign_fresh _ _ _ _ (F := ec2_inStatus _ _ _ _ ec2_CapacityReservations_field) h2 h2 p _ _ _
    (up_owned _ _ _ _ _ U2) (fresh_nil h2)) as (h3 & E3 & U3).
  rewrite (bind_Some _ _ _ _ _ E3).
  pose proof (appendReservations_mem (elems (awsv1.CapacityReservations status)) h3 p _ (up_owned _ _ _ _ _ U3)) as A.
  cbn in A. destruct (appendAll resolvedReservation _ None) as [rs|e]; cbn [rbind].
  2: by unfold mbind, mem_bind; rewrite A.
  destruct A as (h4 & E4 & U4). rewrite (bind_Some _ _ _ _ _ E4).
  destruct (updateConditions_mem clock status h4 p _ (up_owned _ _ _ _ _ U4)) as (h5 & E5 & U5).
  rewrite (bind_Some _ _ _ _ _ E5).
  destruct (conflict_mem (clock (S (length (elems (awsv1.Conditions status))))) h5 p _ hcp (up_owned _ _ _ _ _ U5))
    as (h6 & E6 & U6).
  exists h6. split; [exact E6|].
  pose proof (updated_trans _ _ _ _ _ _ _ _ (updated_trans _ _ _ _ _ _ _ _ (updated_trans _ _ _ _ _ _ _ _
    (updated_trans _ _ _ _ _ _ _ _ (updated_trans _ _ _ _ _ _ _ _ U1 U2) U3) U4) U5) U6) as U.
  exact U.
Qed.

Lemma ec2_reconcileStatus_mem clock ec2 h p nc hcp :
  owned h p (Some nc) ->
  match desiredNodeClass clock ec2 nc hcp with
  | Ok _ => exists h', ec2mem.reconcileStatus clock ec2 p hcp h = Some (Ec2Status.reconcileStatus clock ec2 nc hcp, h')
  | Err _ => ec2mem.reconcileStatus clock ec2 p hcp h = None
  end.
Proof.
  intros O. unfold ec2mem.reconcileStatus, Ec2Status.reconcileStatus.
  destruct (desiredNodeClass clock ec2 nc hcp) as [nc'|e] eqn:D.
  - eapply patching_Some; [apply _ | exact O | reflexivity |]. intros h1 O1. exists tt.
    pose proof (updateStatus_mem clock ec2 h1 p nc hcp O1) as U. by rewrite D in U.
  - destruct (copied (copy := osv1copy.OpenshiftEC2NodeClass_DeepCopy) h p (Some nc) (proj1 O)) as (o & h1 & E1 & [S _ _ _]).
    unfold patching. rewrite (bind_Some _ _ _ _ _ E1). destruct (read_mono h h1 p _ S (proj1 O)) as [Rp Lp].
    pose proof (updateStatus_mem clock ec2 h1 p nc hcp ltac:(split; [done | rewrite Lp; apply O])) as U. rewrite D in U.
    unfold mbind, mem_bind. by rewrite U.
Qed.
End ec2.

Section azure.
Context `{Growth string, Growth Condition}.
Implicit Types (p : ptr osv1alpha1m.OpenShiftAzureNodeClass) (nc : osv1alpha1.OpenShiftAzureNodeClass).

Lemma azure_ensureFinalizer_mem h p nc :
  owned h p (Some nc) -> exists h', azuremem.ensureFinalizer p h = Some (AzureNodeClass.ensureFinalizer nc, h').
Proof.
  intros O. unfold azuremem.ensureFinalizer, AzureNodeClass.ensureFinalizer.
  rewrite (bind_Some _ _ _ _ h) by by apply (controllerutil.ContainsFinalizer_mem _ _ (F := azure_finalizers_field)).
  fold (ContainsFinalizer (osv1alpha1.meta nc) AzureNodeClass.finalizer).
  destruct (ContainsFinalizer _ _) eqn:E.
  - exists h. by rewrite (bind_Some _ _ _ nc h) by apply snapshot_Some, O.
  - eapply patching_Some; [apply _ | exact O | reflexivity |]. intros h1 O1.
    destruct (controllerutil.AddFinalizer_updates _ _ (F := azure_finalizers_field) h1 p nc AzureNodeClass.finalizer O1)
      as (h2 & E2 & U).
    fold (ContainsFinalizer (osv1alpha1.meta nc) AzureNodeClass.finalizer) in U. rewrite E in U.
    eexists _, h2. split; [exact E2|]. unfold AzureNodeClass.withMeta, AddFinalizer. by rewrite E.
Qed.

Lemma azure_releaseFinalizer_mem h p nc :
  owned h p (Some nc) -> exists h', azuremem.releaseFinalizer p h = Some (AzureNodeClass.releaseFinalizer nc, h').
Proof.
  intros O. unfold azuremem.releaseFinalizer, AzureNodeClass.releaseFinalizer.
  rewrite (bind_Some _ _ _ _ h) by by apply (controllerutil.ContainsFinalizer_mem _ _ (F := azure_finalizers_field)).
  fold (ContainsFinalizer (osv1alpha1.meta nc) AzureNodeClass.finalizer).
  destruct (ContainsFinalizer _ _); [|by exists h].
  eapply patching_Some; [apply _ | exact O | reflexivity |].
  intros h1 O1.
  apply (controllerutil.RemoveFinalizer_updates _ _ (F := azure_finalizers_field) h1 p nc AzureNodeClass.finalizer O1).
Qed.

Definition azure_statusConditions_field := field_comp _ _ _ _ _ _ _ _ azure_Status_field azure_Conditions_field.

Lemma azure_reconcileStatus_mem clock h p nc aks :
  owned h p (Some nc) ->
  exists h', azuremem.reconcileStatus clock p aks h = Some (AzureNodeClass.reconcileStatus clock nc aks, h').
Proof.
  intros O. destruct (owned_ptr_inv h p nc O) as (l & m & -> & E & Om & Hl).
  pose proof (proj1 (proj1 (field_owned (Field := azure_statusConditions_field) h m nc Om))) as Rc.
  assert (Hg : metam.om_Generation (osv1alpha1m.meta m) = om_Generation (osv1alpha1.meta nc)).
  { eapply meta_generation. by apply (field_owned (Field := azure_meta_field)). }
  unfold azuremem.reconcileStatus, AzureNodeClass.reconcileStatus. rewrite (bind_Some _ _ _ m h) by by apply load_Some.
  rewrite Hg. set (pcs := elems (azurev1beta1.Conditions (azurev1beta1.Status aks))).
  destruct (metamem.SyncConditions_fresh clock h _ _ pcs (om_Generation (osv1alpha1.meta nc)) Rc) as (cs & h1 & E1 & F1).
  rewrite (bind_Some _ _ _ _ _ E1). destruct (read_mono h h1 _ _ (fc_old _ _ _ _ F1) Rc) as [Rc1 _].
  rewrite (bind_Some _ _ _ (syncedConditions clock nc aks) h1) by (unfold azuremem.valueOf; by rewrite (fc_read _ _ _ _ F1)).
  rewrite (bind_Some _ _ _ (osv1alpha1.Conditions (osv1alpha1.Status nc)) h1) by (unfold azuremem.valueOf; by rewrite Rc1).
  destruct (SemanticDeepEqual _ _); [by exists h1|].
  destruct (read_mono h h1 _ _ (fc_old _ _ _ _ F1) (proj1 O)) as [Rp Lp].
  assert (O1 : owned h1 (Ptr (Some l)) (Some nc)) by (split; [done | rewrite Lp; apply O]).
  eapply patching_original; [apply _ | exact O1 | reflexivity |]. intros h2 S2. exists tt.
  pose proof (updated_fresh h h2 (osv1alpha1m.Conditions (osv1alpha1m.Status m)) cs _
    (fresh_copy_mono _ _ _ _ _ F1 S2)) as U.
  destruct (assign_field _ _ _ _ (F := azure_statusConditions_field) h h2 l m nc cs _ E Hl Om U) as [E2 U2].
  eexists. split; [exact E2|]. split; [apply (up_owned _ _ _ _ _ U2)|].
  intros k Hk _. apply lookup_insert_ne. intros ->.
  destruct (lookup_cell_Some _ _ _ (lookup_cell_mono h h1 _ m (fc_old _ _ _ _ F1) E)). congruence.
Qed.
End azure.

(** ** Properties *)

(** C18. The EC2 NodeClass controller's updates in memory are those of the model on
    values: when the NodeClass in memory is [nc] and shares nothing with itself, the
    patch that adds the finalizer, the patch that removes it and the status update
    make exactly the calls that [Ec2NodeClass.ensureFinalizer],
    [Ec2NodeClass.releaseFinalizer] and [Ec2Status.reconcileStatus] make for [nc]: the
    deep copy still holds what the NodeClass was, although finalizers and conditions
    are written in place, and nothing panics, except for a reservation with an empty
    match criterion, where the model has the panic too. *)
Theorem ec2_patches_refined `{Growth string, Growth Condition, Growth osv1.Subnet, Growth osv1.SecurityGroup,
    Growth osv1.CapacityReservation} clock ec2 h (p : ptr osv1m.OpenshiftEC2NodeClass) nc hcp :
  owned h p (Some nc) ->
  (exists h', ec2mem.ensureFinalizer p h = Some (Ec2NodeClass.ensureFinalizer nc, h'))
  /\ (exists h', ec2mem.releaseFinalizer p h = Some (Ec2NodeClass.releaseFinalizer nc, h'))
  /\ match desiredNodeClass clock ec2 nc hcp with
     | Ok _ => exists h', ec2mem.reconcileStatus clock ec2 p hcp h = Some (Ec2Status.reconcileStatus clock ec2 nc hcp, h')
     | Err _ => ec2mem.reconcileStatus clock ec2 p hcp h = None
     end.
Proof.
  intros O. split; [by apply ec2_ensureFinalizer_mem|]. split; [by apply ec2_releaseFinalizer_mem|].
  by apply ec2_reconcileStatus_mem.
Qed.

(** C19. The same of the Azure NodeClass controller, where the conditions are compared
    with those of the NodeClass before the copy is made: [SyncConditions] works on a
    clone, so that the comparison and the original of the patch are with the conditions
    that were read. *)
Theorem azure_patches_refined `{Growth string, Growth Condition} clock aks h (p : ptr osv1alpha1m.OpenShiftAzureNodeClass) nc :
  owned h p (Some nc) ->
  (exists h', azuremem.ensureFinalizer p h = Some (AzureNodeClass.ensureFinalizer nc, h'))
  /\ (exists h', azuremem.releaseFinalizer p h = Some (AzureNodeClass.releaseFinalizer nc, h'))
  /\ (exists h', azuremem.reconcileStatus clock p aks h = Some (AzureNodeClass.reconcileStatus clock nc aks, h')).
Proof.
  intros O. split; [by apply azure_ensureFinalizer_mem|]. split; [by apply azure_releaseFinalizer_mem|].
  by apply azure_reconcileStatus_mem.
Qed.

(** ** A NodeClass in memory *)

Module example.

(** Arrays double. *)
#[local] Instance growth A : Growth A := fun cap _ => cap.

Definition metadata : metam.ObjectMeta :=
  metam.mkObjectMeta "default" "" "u" "7" 3 nilptr (MapRef None) (MapRef None) nilslice (SliceRef (Some 1%positive) 2 2).
Definition conditions : list Condition :=
  [mkCondition "SubnetsReady" "False" 2 10 "NotFound" ""; mkCondition "VersionResolved" "True" 2 10 "Resolved" ""].
Definition ec2NodeClass : osv1m.OpenshiftEC2NodeClass :=
  osv1m.mkOpenshiftEC2NodeClass metadata zeroEC2Spec
    (osv1m.mkStatus (SliceRef (Some 2%positive) 2 2) nilslice nilslice "image" "4.22" nilslice).
Definition azureNodeClass : osv1alpha1m.OpenShiftAzureNodeClass :=
  osv1alpha1m.mkOpenShiftAzureNodeClass metadata zeroAzureSpec
    (osv1alpha1m.mkStatus (SliceRef (Some 2%positive) 2 2) "image" "4.22").
Definition memory (object : cell) : heap :=
  list_to_map [(1%positive, CStrings [Ec2NodeClass.finalizer; "example.com/backup"]); (2%positive, CConditions conditions);
    (3%positive, object)].

Definition value : ObjectMeta :=
  mkObjectMeta "default" "" "u" "7" 3 None None None None (Some [Ec2NodeClass.finalizer; "example.com/backup"]).
Definition ec2Value : osv1.OpenshiftEC2NodeClass :=
  osv1.mkOpenshiftEC2NodeClass value osv1.zeroSpec (osv1.mkStatus (Some conditions) None None "image" "4.22" None).
Definition azureValue : osv1alpha1.OpenShiftAzureNodeClass :=
  osv1alpha1.mkOpenShiftAzureNodeClass value osv1alpha1.zeroSpec (osv1alpha1.mkStatus (Some conditions) "image" "4.22").
Definition aks : azurev1beta1.AKSNodeClass :=
  azurev1beta1.mkAKSNodeClass (newMeta "" "default") azurev1beta1.zeroSpec
    (azurev1beta1.mkStatus (Some [mkCondition "Ready" "True" 3 12 "Ready" ""])).

Definition azurep : ptr osv1alpha1m.OpenShiftAzureNodeClass := Ptr (Some 3%positive).
Definition ec2p : ptr osv1m.OpenshiftEC2NodeClass := Ptr (Some 3%positive).
Definition finalizersOf (p : ptr osv1m.OpenshiftEC2NodeClass) (h : heap) : option (slice string) :=
  match read h p with Some (Some nc) => Some (om_Finalizers (osv1.meta nc)) | _ => None end.

(** [original := new(T); *original = *x] *)
Definition shallowCopy (p : ptr osv1m.OpenshiftEC2NodeClass) : mem (ptr osv1m.OpenshiftEC2NodeClass) :=
  q ← new; x ← load p; store q x;; mret q.

Definition finalizersSent (copy : ptr osv1m.OpenshiftEC2NodeClass -> mem (ptr osv1m.OpenshiftEC2NodeClass)) :=
  fst <$> patching copy (controllerutil.RemoveFinalizer ec2p Ec2NodeClass.finalizer) ec2p
    (fun original o => (elems (om_Finalizers (osv1.meta original)), elems (om_Finalizers (osv1.meta o))))
    (memory (to_cell ec2NodeClass)).

End example.

#[local] Existing Instance example.growth.

(** The loop of [RemoveFinalizer] writes to the array: only with a deep copy does the
    patch say what has changed. *)
Example finalizers_with_deep_copy :
  example.finalizersSent osv1copy.OpenshiftEC2NodeClass_DeepCopy
  = Some ([Ec2NodeClass.finalizer; "example.com/backup"], ["example.com/backup"]).
Proof. vm_compute. reflexivity. Qed.

Example finalizers_with_shallow_copy :
  example.finalizersSent example.shallowCopy
  = Some (["example.com/backup"; "example.com/backup"], ["example.com/backup"]).
Proof. vm_compute. reflexivity. Qed.

Lemma ec2_patches_refined_witness :
  owned (example.memory (to_cell example.ec2NodeClass)) example.ec2p (Some example.ec2Value)
  /\ exists h', ec2mem.reconcileStatus (fun _ => 11%Z) readyEC2 example.ec2p exampleHCP
                  (example.memory (to_cell example.ec2NodeClass))
       = Some (Ec2Status.reconcileStatus (fun _ => 11%Z) readyEC2 example.ec2Value exampleHCP, h').
Proof.
  assert (O : owned (example.memory (to_cell example.ec2NodeClass)) example.ec2p (Some example.ec2Value))
    by (split; [vm_compute; reflexivity | by apply (bool_decide_unpack _)]).
  split; [exact O|].
  destruct (ec2_patches_refined (fun _ => 11%Z) readyEC2 _ example.ec2p example.ec2Value exampleHCP O) as (_ & _ & S).
  exact S.
Defined.

Lemma azure_patches_refined_witness :
  owned (example.memory (to_cell example.azureNodeClass)) example.azurep (Some example.azureValue)
  /\ exists h', azuremem.reconcileStatus (fun _ => 11%Z) example.azurep example.aks
                  (example.memory (to_cell example.azureNodeClass))
       = Some (AzureNodeClass.reconcileStatus (fun _ => 11%Z) example.azureValue example.aks, h').
Proof.
  assert (O : owned (example.memory (to_cell example.azureNodeClass)) example.azurep (Some example.azureValue))
    by (split; [vm_compute; reflexivity | by apply (bool_decide_unpack _)]).
  split; [exact O|].
  destruct (azure_patches_refined (fun _ => 11%Z) example.aks _ example.azurep example.azureValue O) as (_ & _ & S).
  exact S.
Defined.
